(* ===== verification/_CoqProject ===== *)
-Q . S2P
Prelude.v
Bakery.v
TbbDefs.v
AuthMod.v
TbbrCot.v
BlCommon.v
Bl1Fwu.v
Bl1Main.v
IoStorage.v
IoDrivers.v
IoBlock.v
Fiptool.v
TbbExample.v
TbbLemmas.v
AuthProps.v
CotProps.v
TbbProps.v
LoadProps.v
IoLemmas.v
IoBlockProps.v
FipProps.v
FiptoolProps.v
IoBoot.v
FwuInv.v
FwuOps.v
FwuCopy.v
FwuHandlers.v
FwuProps.v
FwuRuns.v
Bl1Props.v
Bl2.v
Bl2Props.v
Bl2Boot.v
XlatTables.v
XlatWalk.v
XlatMmap.v
XlatBuild.v
XlatProps.v
PsciDefs.v
PsciCommon.v
PsciSetup.v
PsciStat.v
PsciPower.v
PsciMain.v
PsciSpec.v
PsciCoord.v
PsciWalk.v
PsciInv.v
PsciHandlers.v
PsciSmc.v
PsciSystem.v
A3700Hw.v
A3700Win.v
A3700WinProps.v
A3700Pm.v
A3700Psci.v
PsciProps.v
A3700PmProps.v
RuntimeSvc.v
A3700Svc.v
RuntimeProps.v
IntrMgmt.v
IntrProps.v
Ehf.v
EhfProps.v
SdeiDefs.v
SdeiIntr.v
SdeiMain.v
SdeiSpec.v
SdeiSim.v
SdeiRefine.v
SdeiProps.v
SdeiRuns.v
A3700Mmu.v
El3Ctx.v
El3CtxProps.v
Bl31.v
Bl31Props.v
Bl2V1.v
Bl2V1Props.v
