(* ===== verification/Prelude.v ===== *)
(** * Verification of the Armada-3720 boot firmware

    The repository holds the firmware that a Marvell Armada-3720 board runs
    before its operating system: the secure-processor tools
    (A3700-utils-marvell), the DDR training code (mv-ddr-marvell), ARM Trusted
    Firmware with the Marvell port (atf-marvell) and U-Boot.  This development
    is about Trusted Firmware, the part that holds the security and
    power-management logic.  All paths below are relative to
    src/atf-marvell.

    ** The program

    At cold boot BL1 sets up the authentication module and loads BL2 from a
    firmware image package ([bl1_main], bl1/bl1_main.c), or serves firmware
    update requests as SMCs (bl1/bl1_fwu.c).  Images are found through the
    I/O layer (drivers/io), whose FIP driver searches the table of contents
    of a package written by the packaging tool (tools/fiptool); the loader
    (common/bl_common.c) puts them into memory and asks the authentication
    module (drivers/auth) to check them against the chain of trust, parents
    first.  BL2 loads BL31 and BL33 and passes their entry points on; BL31
    initialises its services and enters BL33 in the normal world through the
    context library (lib/el3_runtime).  BL31 stays resident: its PSCI library (lib/psci) starts, stops and
    suspends CPUs on behalf of the normal world, serialised by bakery locks
    (lib/locks/bakery), reached through the dispatch of runtime services
    (common/runtime_svc.c), and drives the SoC through the hooks of the port
    (plat/marvell), which also programs the address decode windows.  Every
    stage builds its translation tables (lib/xlat_tables) before it turns the
    MMU on.

    ** How it is modelled

    A function of the C code is a definition of the same name in a state and
    error monad ([M] below): it returns a value and a state, or halts by an
    assertion, a panic, a wait without end, a power-down or undefined
    behaviour ([halt]).  C integers are [Z] with the conversions [u32], [u64]
    written where the code converts; arrays are lists, and an index out of
    range is undefined behaviour ([arr_get], [arr_set], [deref]).  Output
    arguments are returned.  Assertions are present or absent according to a
    build option of the environment; theorems hold for both unless they say
    otherwise.  What is not in the repository (mbedTLS, linker addresses) or
    differs between platforms is a field of a type class ([TbEnv], [IoEnv],
    [Bl1Env], [Bl1Layout], [CotBufs], and the PSCI classes of PsciDefs.v);
    [wp] is the weakest precondition that the proofs compute with, and the
    tactic [wp_steps] runs the monad symbolically.

    ** Files

    Shared: Prelude (this file).

    Boot, definitions:
    - TbbDefs: data of the authentication framework, image descriptors, the
      state of BL1, the environment [TbEnv];
    - AuthMod: crypto_mod.c, img_parser_mod.c, auth_mod.c;
    - TbbrCot: the chain of trust of tbbr_cot.c, entry by entry;
    - BlCommon: bl_common.c, both variants of the loader;
    - Bl1Fwu: bl1_fwu.c, the SMC handler and the hand-over;
    - Bl1Main: bl1_main.c, the descriptor table of tbbr_img_desc.c, the
      default hooks of plat_bl1_common.c, the memory check of arm_bl1_fwu.c;
    - IoStorage, IoDrivers: io_storage.c; io_memmap.c, io_fip.c and
      marvell_io_storage.c; IoBlock: io_block.c on a low-level driver that
      transfers whole blocks;
    - Fiptool: [pack_images] and [parse_fip] of fiptool.c;
    - Bl2: desc_image_load.c, bl2_image_load_v2.c, bl2_main.c and the ARM
      platforms' arm_image_load.c;
    - Bl2V1: the BL2 of the Marvell boards, bl2_image_load.c and
      marvell_bl2_setup.c.

    Boot, theorems:
    - TbbExample: a small platform on which the model runs; TbbLemmas: memory
      lemmas and the frame of the authentication module;
    - AuthProps, CotProps, TbbProps: what acceptance of an image means, with
      each question to the platform answered in the state of the run in which
      it is asked; the chain of trust leads to a root and its buffers keep the
      digests; a loaded image was verified in the run that loaded it
      ([trusted_load]) and is [authentic] in its final state: it and its parent
      are marked, and its bytes match the digest in the parent's buffer; the
      recursion over the parents ends, the counter encoding;
    - LoadProps: the memory reservation, page alignment, short reads; loading
      without LOAD_IMAGE_V2: where it writes, what it reports and that what it
      loads is authentic, for any bound on the memory that an image can reach;
    - IoLemmas, FipProps, FiptoolProps, IoBoot: the entity pool, the search in
      a package, what the tool writes; [fiptool_roundtrip], and the composition
      of tool, drivers and loader in [packaged_image_loads] and
      [packaged_image_loads_v1];
    - IoBlockProps: reads and writes of any position and length through the
      bounce buffer of the block driver are exact, the pool of devices;
    - FwuInv, FwuOps, FwuCopy, FwuHandlers, FwuProps, FwuRuns: the invariant
      of the update, its preservation by each call, and for the states reached
      by histories of SMCs and writes: only images that an IMAGE_AUTH of the
      history verified are executed, copies stay in their windows and append,
      rejected and reset images are erased, and the calls refine a state
      machine; the exception is a secure image that the secure world had
      authenticated in place, for which [fwu_in_place_auth_executes] shows what
      happens instead; concrete runs;
    - Bl1Props: BL1 hands over to the BL2 that this run authenticated, in both
      builds;
    - Bl2Props, Bl2Boot: the list of images to execute is the chain of
      hand-offs; BL2 hands over with every image loaded and authenticated;
    - Bl2V1Props: the BL2 of the boards hands over BL31 and BL33 authenticated,
      with the parameters that BL31 accepts; composed with the cold boot of
      BL31, the chain ends in the authenticated BL33; in a debug build BL2
      cannot load BL33 at address 0.

    Power management:
    - Bakery: the lock as interleaved memory accesses; mutual exclusion,
      deadlock freedom, first come first served;
    - PsciDefs, PsciCommon, PsciSetup, PsciStat, PsciPower, PsciMain: the PSCI
      library, one definition per C function;
    - PsciSpec, PsciCoord, PsciWalk, PsciInv, PsciHandlers, PsciSmc,
      PsciSystem: the abstract view of its tables, the specification of each
      operation against it, the refinement of an abstract machine by the SMC
      handler, the system of interleaved CPUs;
    - PsciProps: the theorems, for every topology and platform that fulfil the
      contract [PlatContract]; A3700Psci proves that contract for the port;
    - A3700Hw, A3700Win, A3700Pm: the register file, the decode windows, the
      power hooks of the port; A3700WinProps, A3700PmProps: their theorems and
      PSCI running on the port.  Sizes of decode windows are read in two ways:
      as the firmware reads them back ([cpu_window]) and as the comment on the
      register describes them ([hw_window]).

    Run-time services of BL31:
    - RuntimeSvc, A3700Svc: runtime_svc.c, the standard and the architecture
      service, the SiP service as a descriptor and the services of the board;
    - RuntimeProps: the index table agrees with a search of the descriptors;
      on the board every SMC reaches its service, and none brings the firmware
      down in any state reachable through PSCI;
    - IntrMgmt, IntrProps: interrupt_mgmt.c; what registering a handler does
      on every path, and when the saved SCR_EL3 agrees with the routing table;
    - XlatTables: xlat_tables_common.c and aarch64/xlat_tables.c; XlatWalk: the
      table walk of the MMU and the meaning of a descriptor; XlatMmap: the
      ordered list of regions; XlatBuild: the tables built from it, and how
      many are needed; XlatProps: the MMU maps exactly the regions that were
      added; A3700Mmu: the regions of the board and the memory map of BL31;
    - Ehf, EhfProps: ehf.c; the bitmap of active priorities refines a stack of
      levels, a visit of the secure world restores the priority mask, and a
      registered handler is the one that is called;
    - SdeiDefs, SdeiIntr, SdeiMain: the SDEI dispatcher (services/std_svc/sdei)
      on the data of all CPUs, above Ehf; a lock that is taken twice hangs.
      The interrupt controller and the platform are the class [SdeiPlat];
    - SdeiSpec: the handler state machine of the SDEI specification, to which
      the state table of the code is equal, and an abstract machine of
      event numbers, handlers, registration counts and dispatch stacks, with
      the action of a CPU on an event ([act_on]); SdeiSim: the logic of the
      refinement; SdeiRefine: what each call promises ([smc_spec]: which action
      of the calling CPU on which event, with which result) and that the code
      keeps it; SdeiProps: the whole dispatcher, its invariant in every run,
      and that completing a dispatch restores what it interrupted; SdeiRuns: a
      small platform, the witnesses and runs that go wrong;
    - El3Ctx: context_mgmt.c, bl31_context_mgmt.c and the enabling of the
      architecture extensions; El3CtxProps: for both worlds and every build
      option, initialising a context and preparing the exit return, and the
      exception return finds exactly what the entry point asked for;
    - Bl31: bl31_main.c and marvell_bl31_setup.c, with PSCI's calls of the
      context library given their effect; Bl31Props: the cold boot of the board
      enters BL33 as BL2 asked, and a core started by CPU_ON enters the normal
      world as its caller asked.

    ** Bounds and fuel

    Loops over arrays recurse on the list.  The remaining loops take a bound:
    - [load_auth_image_internal_v1/v2] recurse over the parents of an image.
      [load_auth_recursion_ends] shows that 4 levels are enough for the chain
      of trust, so a larger bound changes nothing;
    - [load_auth_image_v1/v2] retry while the platform offers another boot
      source; [tries] bounds the number of sources, and the theorems hold for
      every value;
    - [toc_loop] reads entries until the terminator; [toc_fuel] must be at
      least the number of entries, which the theorems state as a hypothesis
      ([pa_fuel]); a table without a terminator makes the C loop read on;
    - [dev_table] allows one FIP driver above the memory-mapped one, as the
      policy of the platform has it: the package of a package is not used;
    - [config_loop] and [load_images_loop] walk lists threaded through an
      array; they are bounded by the length of the array, and a longer list is
      a cycle, on which the C loop does not end ([HHang]);
    - [init_xlation_table_inner] recurses over the levels of the tables
      ([max_depth]: a fifth level would shift by more than a word) and
      [entries_loop] over the entries of a table and the regions it passes;
      [xlat_maps_regions] shows that neither bound is reached;
    - [parse_entries] gets the number of entries that fit into the file;
    - [block_read_loop] and [block_write_loop] get the number of bytes asked
      for: every iteration moves at least one, and the theorems show that the
      bound is not reached, for every driver;
    - [bind_loop] retries a binding when another CPU was faster; a call runs
      without interference here, so a retry finds the state as it was and
      would be repeated for ever: it is [HHang];
    - the drain poll of the A3700 suspend hook is given the number of reads
      after which the hardware answers.

    Packages are stored in a memory of their own ([io_mem]): the theorems on
    loading are about load areas that do not meet the stored package.

    ** Not modelled

    The certificate parser and cryptography glue (they call mbedTLS), the
    command line of fiptool, the semihosting and dummy I/O drivers, the
    translation table library with dynamic regions (xlat_tables_v2, not linked
    for the board), the floating-point registers of a context and the activity
    monitor counters, SPM and SPDs, device drivers, assembly (what the saving
    and restoring of registers and the exception return do is part of El3Ctx
    and El3CtxProps), other platforms, the secure-processor tools, DDR training
    and U-Boot.  In PSCI the calls of the context library are entries of the
    trace, to which Bl31 gives their effect; IntrMgmt and SdeiDefs have the few
    context functions that they use on a smaller state of their own.  An SDEI
    call is one step of the interleaving: races between two calls inside the
    dispatcher are not modelled. *)

From stdpp Require Import base list numbers option gmap.
From Stdlib Require Import ZArith Lia.
#[local] Open Scope Z_scope.

(** ** Fixed-width integers

    A C unsigned integer is a [Z] in range; [u8], [u16], [u32], [u64] are the
    conversions to the unsigned type of that width and [s32] the conversion to
    [int]. *)
Definition u8 (x : Z) : Z := x mod 2 ^ 8.
Definition u16 (x : Z) : Z := x mod 2 ^ 16.
Definition u32 (x : Z) : Z := x mod 2 ^ 32.
Definition u64 (x : Z) : Z := x mod 2 ^ 64.
Definition s32 (x : Z) : Z := (x + 2 ^ 31) mod 2 ^ 32 - 2 ^ 31.

(** [BIT(nr)] of utils_def.h. *)
Definition BIT (nr : Z) : Z := Z.shiftl 1 nr.

(** A C truth value: any non-zero integer is true. *)
Definition truthy (x : Z) : bool := negb (x =? 0).
Definition b2z (b : bool) : Z := if b then 1 else 0.

(** Constants and macros that several components use: the security states of
    ep_info.h, an error code of errno.h, the SMC return value for an unknown
    function, and the overflow test of utils_def.h. *)
Definition SECURE : Z := 0.
Definition NON_SECURE : Z := 1.
Definition EINVAL : Z := 22.
Definition SMC_UNK : Z := -1.
Definition UINTPTR_MAX : Z := 2 ^ 64 - 1.
Definition check_uptr_overflow (ptr inc : Z) : bool := UINTPTR_MAX - inc <? ptr.

(** The [n] bytes of a little-endian integer. *)
Definition le_bytes (n : nat) (v : Z) : list Z := map (fun i => u8 (Z.shiftr v (8 * Z.of_nat i))) (seq 0 n).

Lemma u8_range x : 0 <= u8 x < 2 ^ 8.
Proof. apply Z.mod_pos_bound; lia. Qed.

Lemma u16_range x : 0 <= u16 x < 2 ^ 16.
Proof. apply Z.mod_pos_bound; lia. Qed.

Lemma u32_range x : 0 <= u32 x < 2 ^ 32.
Proof. apply Z.mod_pos_bound; lia. Qed.

Lemma u64_range x : 0 <= u64 x < 2 ^ 64.
Proof. apply Z.mod_pos_bound; lia. Qed.

Lemma u8_small x : 0 <= x < 2 ^ 8 -> u8 x = x.
Proof. apply Z.mod_small. Qed.

Lemma s32_small x : 0 <= x < 2 ^ 31 -> s32 x = x.
Proof. intros Hx. unfold s32. rewrite Z.mod_small by lia. lia. Qed.

Lemma u32_small x : 0 <= x < 2 ^ 32 -> u32 x = x.
Proof. apply Z.mod_small. Qed.

Lemma u64_small x : 0 <= x < 2 ^ 64 -> u64 x = x.
Proof. apply Z.mod_small. Qed.

Lemma u16_small x : 0 <= x < 2 ^ 16 -> u16 x = x.
Proof. apply Z.mod_small. Qed.

(** ** Bit masks *)

Lemma testbit_below_pow2 n x i : 0 <= x < 2 ^ n -> 0 <= n <= i -> Z.testbit x i = false.
Proof.
  intros Hx Hi. destruct (decide (x = 0)) as [->|Hnz]; [apply Z.testbit_0_l|].
  apply Z.bits_above_log2; [lia|]. apply Z.log2_lt_pow2; [lia|].
  assert (2 ^ n <= 2 ^ i) by (apply Z.pow_le_mono_r; lia). lia.
Qed.

Lemma land_ones_small n x : 0 <= n -> 0 <= x < 2 ^ n -> Z.land x (Z.ones n) = x.
Proof. intros Hn Hx. rewrite Z.land_ones by lia. by apply Z.mod_small. Qed.

Lemma lor_range n x y : 0 <= n -> 0 <= x < 2 ^ n -> 0 <= y < 2 ^ n -> 0 <= Z.lor x y < 2 ^ n.
Proof.
  intros Hn Hx Hy. split; [apply Z.lor_nonneg; lia|].
  destruct (decide (x = 0)) as [->|]; [rewrite Z.lor_0_l; lia|].
  destruct (decide (y = 0)) as [->|]; [rewrite Z.lor_0_r; lia|].
  assert (0 <= Z.lor x y) by (apply Z.lor_nonneg; lia).
  destruct (decide (Z.lor x y = 0)) as [->|]; [lia|].
  apply Z.log2_lt_pow2; [lia|]. rewrite Z.log2_lor by lia.
  apply Z.max_lub_lt; apply Z.log2_lt_pow2; lia.
Qed.

Lemma land_range n x y : 0 <= n -> 0 <= x < 2 ^ n -> 0 <= y -> 0 <= Z.land x y < 2 ^ n.
Proof.
  intros Hn Hx Hy. split; [apply Z.land_nonneg; lia|].
  destruct (decide (Z.land x y = 0)) as [->|Hnz]; [lia|].
  assert (0 <= Z.land x y) by (apply Z.land_nonneg; lia).
  apply Z.log2_lt_pow2; [lia|]. destruct (decide (x = 0)) as [->|].
  { by rewrite Z.land_0_l in Hnz. }
  pose proof (Z.log2_land x y ltac:(lia) Hy).
  assert (Z.log2 x < n) by (apply Z.log2_lt_pow2; lia). lia.
Qed.

Lemma lor_shiftl_add n k y : 0 <= k -> 0 <= y < 2 ^ k -> Z.lor (Z.shiftl n k) y = n * 2 ^ k + y.
Proof.
  intros Hk Hy. assert (Hl : Z.land (Z.shiftl n k) y = 0).
  { apply Z.bits_inj'. intros i Hi. rewrite Z.land_spec, Z.bits_0. destruct (decide (i < k)).
    - by rewrite Z.shiftl_spec_low.
    - rewrite (testbit_below_pow2 k y) by lia. apply andb_false_r. }
  rewrite <- Z.lxor_lor, <- Z.add_nocarry_lxor, Z.shiftl_mul_pow2 by done. done.
Qed.

Lemma shiftr_add_low n k y : 0 <= k -> 0 <= y < 2 ^ k -> Z.shiftr (n * 2 ^ k + y) k = n.
Proof.
  intros Hk Hy. rewrite Z.shiftr_div_pow2 by done. rewrite Z.div_add_l by lia.
  rewrite Z.div_small by done. lia.
Qed.

(** Masking a truncated value. *)
Lemma land_u32 x m : 0 <= m < 2 ^ 32 -> Z.land (u32 x) m = Z.land x m.
Proof.
  intros Hm. unfold u32. rewrite <- Z.land_ones by lia. rewrite <- Z.land_assoc. f_equal.
  rewrite Z.land_comm. by apply land_ones_small.
Qed.

(** ** Arrays indexed by C integers

    An access outside the array is undefined behaviour in C: [arr_get] and
    [arr_set] return [None] there. *)
Section arrays.
Context {A : Type}.
Implicit Types (l : list A) (i j : Z) (x : A).

Definition arr_get l i : option A := if 0 <=? i then l !! Z.to_nat i else None.
Definition arr_set l i x : option (list A) :=
  if (0 <=? i) && (i <? Z.of_nat (length l)) then Some (<[Z.to_nat i := x]> l) else None.

Lemma arr_get_lookup l i x : arr_get l i = Some x -> l !! Z.to_nat i = Some x.
Proof. unfold arr_get. by destruct (0 <=? i). Qed.

Lemma arr_get_Some_range l i x : arr_get l i = Some x -> 0 <= i < Z.of_nat (length l).
Proof.
  unfold arr_get. destruct (Z.leb_spec 0 i); [|done].
  intros Hl%lookup_lt_Some. lia.
Qed.

Lemma arr_get_in_range l i : 0 <= i < Z.of_nat (length l) -> exists x, arr_get l i = Some x.
Proof.
  intros Hi. unfold arr_get. destruct (Z.leb_spec 0 i); [|lia].
  apply lookup_lt_is_Some. lia.
Qed.

Lemma arr_set_in_range l i x :
  0 <= i < Z.of_nat (length l) -> arr_set l i x = Some (<[Z.to_nat i := x]> l).
Proof.
  intros Hi. unfold arr_set.
  destruct (Z.leb_spec 0 i), (Z.ltb_spec i (Z.of_nat (length l))); done || lia.
Qed.

Lemma arr_set_Some l l' i x :
  arr_set l i x = Some l' -> 0 <= i < Z.of_nat (length l) /\ l' = <[Z.to_nat i := x]> l.
Proof.
  unfold arr_set. destruct (Z.leb_spec 0 i), (Z.ltb_spec i (Z.of_nat (length l)));
    simpl; intros [= <-]; done || lia.
Qed.

Lemma arr_get_insert_eq l i x :
  0 <= i < Z.of_nat (length l) -> arr_get (<[Z.to_nat i := x]> l) i = Some x.
Proof.
  intros Hi. unfold arr_get. destruct (Z.leb_spec 0 i); [|lia].
  apply list_lookup_insert_eq. lia.
Qed.

Lemma arr_get_insert_ne l i j x :
  0 <= i -> i <> j -> arr_get (<[Z.to_nat i := x]> l) j = arr_get l j.
Proof.
  intros Hi Hne. unfold arr_get. destruct (Z.leb_spec 0 j); [|done].
  apply list_lookup_insert_ne. lia.
Qed.

Lemma arr_get_replicate n i x :
  0 <= i < Z.of_nat n -> arr_get (replicate n x) i = Some x.
Proof.
  intros Hi. unfold arr_get. destruct (Z.leb_spec 0 i); [|lia].
  apply lookup_replicate. split; [done|lia].
Qed.
End arrays.
#[global] Arguments arr_get : simpl never.
#[global] Arguments arr_set : simpl never.

Lemma arr_get_fmap {A B} (f : A -> B) (l : list A) i : arr_get (f <$> l) i = f <$> arr_get l i.
Proof. unfold arr_get. destruct (0 <=? i); [apply list_lookup_fmap|done]. Qed.

Lemma arr_get_ext {A} (l k : list A) :
  length l = length k ->
  (forall i, 0 <= i < Z.of_nat (length l) -> arr_get l i = arr_get k i) -> l = k.
Proof.
  intros Hlen Hext. apply list_eq. intros i.
  destruct (decide (i < length l)%nat) as [Hi|Hi].
  - specialize (Hext (Z.of_nat i) ltac:(lia)). unfold arr_get in Hext.
    destruct (Z.leb_spec 0 (Z.of_nat i)); [|lia]. by rewrite Nat2Z.id in Hext.
  - rewrite !lookup_ge_None_2 by lia. done.
Qed.

(** ** Computations

    Firmware code runs over a state [S] and either returns a value or stops
    for good.  The reasons are the ones the sources distinguish: a failed
    [assert], a call of [panic()], an access C leaves undefined (an array
    index out of range, a call through a null function pointer), the wait for
    interrupt of a CPU whose power is being removed, a system reset or power
    off, a busy-wait loop whose condition never becomes true, and an attempt
    to take a lock that is held. *)
Inductive halt : Type :=
| HAssert
| HPanic
| HUndef
| HPwrDownWfi
| HSystemDown
| HHang
| HBlocked.

#[global] Instance halt_eq_dec : EqDecision halt.
Proof. solve_decision. Defined.

Inductive outcome (S A : Type) : Type :=
| Ret (a : A) (s : S)
| Halt (h : halt) (s : S).
Arguments Ret {S A} a s.
Arguments Halt {S A} h s.

Definition M (S A : Type) : Type := S -> outcome S A.

Section monad.
Context {S : Type}.

Definition ret {A} (a : A) : M S A := fun s => Ret a s.
Definition bind {A B} (m : M S A) (k : A -> M S B) : M S B :=
  fun s => match m s with Ret a s' => k a s' | Halt h s' => Halt h s' end.
Definition halt_with {A} (h : halt) : M S A := fun s => Halt h s.
Definition gets {A} (f : S -> A) : M S A := fun s => Ret (f s) s.
Definition modify (f : S -> S) : M S unit := fun s => Ret tt (f s).
Definition when (b : bool) (m : M S unit) : M S unit := if b then m else ret tt.

(** An optional value the code dereferences without a check. *)
Definition deref {A} (o : option A) : M S A :=
  match o with Some a => ret a | None => halt_with HUndef end.

(** [for] loops over a list of index values computed before the loop. *)
Fixpoint forM_ {A} (l : list A) (f : A -> M S unit) : M S unit :=
  match l with
  | [] => ret tt
  | x :: l' => bind (f x) (fun _ => forM_ l' f)
  end.
End monad.

Declare Scope fw_scope.
Delimit Scope fw_scope with fw.
Notation "'let!' x := m 'in' k" := (bind m (fun x => k))
  (at level 10, x binder, m at level 100, k at level 200,
   format "'[v' 'let!'  x  :=  m  'in' '/' k ']'") : fw_scope.
Notation "m ;;; k" := (bind m (fun _ => k))
  (at level 199, right associativity, format "'[v' m  ;;; '/' k ']'") : fw_scope.
#[global] Open Scope fw_scope.

(** ** Weakest preconditions

    [wp m Q E s]: started in [s], [m] returns with [Q] or stops with [E].
    Every computation is total, so this is total correctness. *)
Definition wp {S A} (m : M S A) (Q : A -> S -> Prop) (E : halt -> S -> Prop) (s : S) : Prop :=
  match m s with Ret a s' => Q a s' | Halt h s' => E h s' end.

Section wp_rules.
Context {S : Type}.
Implicit Types (s : S) (E : halt -> S -> Prop).

Lemma wp_ret {A} (a : A) Q E s : Q a s -> wp (ret a) Q E s.
Proof. done. Qed.

Lemma wp_bind {A B} (m : M S A) (k : A -> M S B) Q E s :
  wp m (fun a s' => wp (k a) Q E s') E s -> wp (bind m k) Q E s.
Proof. unfold wp, bind. by destruct (m s). Qed.

Lemma wp_halt {A} h (Q : A -> S -> Prop) E s : E h s -> wp (halt_with h) Q E s.
Proof. done. Qed.

Lemma wp_gets {A} (f : S -> A) Q E s : Q (f s) s -> wp (gets f) Q E s.
Proof. done. Qed.

Lemma wp_modify f (Q : unit -> S -> Prop) E s : Q tt (f s) -> wp (modify f) Q E s.
Proof. done. Qed.

Lemma wp_deref {A} (o : option A) a Q E s : o = Some a -> Q a s -> wp (deref o) Q E s.
Proof. by intros ->. Qed.

Lemma wp_when b m Q E s :
  (b = true -> wp m Q E s) -> (b = false -> Q tt s) -> wp (when b m) Q E s.
Proof. destruct b; simpl; intros H1 H2; [by apply H1|by apply wp_ret, H2]. Qed.

Lemma wp_mono {A} (m : M S A) (Q Q' : A -> S -> Prop) E E' s :
  wp m Q E s -> (forall a s', Q a s' -> Q' a s') -> (forall h s', E h s' -> E' h s') ->
  wp m Q' E' s.
Proof. unfold wp. destruct (m s); auto. Qed.

Lemma wp_run {A} (m : M S A) Q E s a s' : m s = Ret a s' -> Q a s' -> wp m Q E s.
Proof. unfold wp. by intros ->. Qed.

(** Loop rule: the invariant is indexed by the elements already visited. *)
Lemma wp_forM_ {A} (I : list A -> S -> Prop) (l : list A) f Q E s :
  I [] s ->
  (forall done x rest s', l = done ++ x :: rest -> I done s' ->
     wp (f x) (fun _ s'' => I (done ++ [x]) s'') E s') ->
  (forall s', I l s' -> Q tt s') ->
  wp (forM_ l f) Q E s.
Proof.
  intros H0 Hstep Hend.
  cut (forall done rest s', l = done ++ rest -> I done s' -> wp (forM_ rest f) Q E s').
  { intros Hc. by apply (Hc []). }
  intros dn rest. revert dn. induction rest as [|x rest IH]; intros dn s' Hl HI; simpl.
  - apply wp_ret, Hend. by rewrite Hl, app_nil_r.
  - apply wp_bind. eapply wp_mono; [by eapply Hstep| |done].
    intros ? s'' HI'. apply (IH (dn ++ [x])); [by rewrite <- app_assoc|done].
Qed.
End wp_rules.

(** A computation over a component of the state. *)
Definition zoom {S T A} (get : S -> T) (put : T -> S -> S) (m : M T A) : M S A :=
  fun s => match m (get s) with
           | Ret a t => Ret a (put t s)
           | Halt h t => Halt h (put t s)
           end.

Lemma wp_zoom {S T A} (get : S -> T) (put : T -> S -> S) (m : M T A) Q E s :
  wp m (fun a t => Q a (put t s)) (fun h t => E h (put t s)) (get s) ->
  wp (zoom get put m) Q E s.
Proof. unfold wp, zoom. by destruct (m (get s)). Qed.

Lemma wp_unfold {S A} (m : M S A) Q E s :
  wp m Q E s <-> match m s with Ret a s' => Q a s' | Halt h s' => E h s' end.
Proof. done. Qed.

Lemma wp_returns {S A} (m : M S A) Q s :
  wp m Q (fun _ _ => False) s -> exists a s', m s = Ret a s' /\ Q a s'.
Proof. unfold wp. destruct (m s); naive_solver. Qed.

Lemma wp_outcome {S A} (m : M S A) Q E s :
  wp m Q E s ->
  (exists a s', m s = Ret a s' /\ Q a s') \/ (exists h s', m s = Halt h s' /\ E h s').
Proof. unfold wp. destruct (m s); eauto. Qed.
#[global] Opaque wp.

Lemma bind_run {S A B} (m : M S A) (k : A -> M S B) s a s' :
  m s = Ret a s' -> bind m k s = k a s'.
Proof. unfold bind. by intros ->. Qed.

Lemma bind_ret_inv {S A B} (m : M S A) (k : A -> M S B) s b s' :
  bind m k s = Ret b s' -> exists a s1, m s = Ret a s1 /\ k a s1 = Ret b s'.
Proof. unfold bind. destruct (m s) as [a s1|]; [eauto|done]. Qed.

Lemma bind_halt {S A B} (m : M S A) (k : A -> M S B) s h s' :
  m s = Halt h s' -> bind m k s = Halt h s'.
Proof. unfold bind. by intros ->. Qed.

(** ** Automation *)
Create HintDb fw.
#[export] Hint Resolve wp_ret wp_gets wp_modify u8_range u16_range u32_range u64_range : fw.

(** Split conjunctions and destructs of hypotheses, then arithmetic. *)
Ltac lia_split := repeat split; lia.

(** One step of symbolic execution of a [wp] goal. *)
Ltac wp_step :=
  lazymatch goal with
  | |- wp (bind _ _) _ _ _ => apply wp_bind
  | |- wp (ret _) _ _ _ => apply wp_ret
  | |- wp (gets _) _ _ _ => apply wp_gets
  | |- wp (modify _) _ _ _ => apply wp_modify
  | |- wp (halt_with _) _ _ _ => apply wp_halt
  | |- wp (zoom _ _ _) _ _ _ => apply wp_zoom
  | |- wp (deref (Some _)) _ _ _ => eapply wp_deref; [reflexivity|]
  | |- wp (when true _) _ _ _ => apply wp_when; [intros _|discriminate]
  | |- wp (when false _) _ _ _ => apply wp_when; [discriminate|intros _]
  end; cbv beta.
Ltac wp_steps := repeat wp_step.

(** ** Reachability of a transition relation *)
Inductive star {S} (R : S -> S -> Prop) : S -> S -> Prop :=
| star_refl s : star R s s
| star_step s s' s'' : star R s s' -> R s' s'' -> star R s s''.

Lemma star_invariant {S} (R : S -> S -> Prop) (I : S -> Prop) s s' :
  star R s s' -> I s -> (forall a b, I a -> R a b -> I b) -> I s'.
Proof. induction 1; eauto. Qed.
