(* ===== verification/Bakery.v ===== *)
(** * The bakery lock (lib/locks/bakery/bakery_lock_normal.c, bakery_lock.h)

    PSCI serialises state coordination with Lamport's bakery algorithm because
    not every contender has coherent caches.  [Bakery] models one lock: the
    16-bit [lock_data] word every CPU owns, and the program counter and locals
    of every CPU inside [bakery_get_ticket], [bakery_lock_get] and
    [bakery_lock_release].  A step of a CPU performs one access to the shared
    words; the cache maintenance the code issues around each access
    ([read_cache_op], [write_cache_op]) is what makes the accesses act on one
    shared memory, and is not otherwise modelled.  [wfe]/[sev] only affect
    when a waiting CPU is scheduled.

    The memory representation is proved to refine the abstract algorithm on
    unbounded tickets as long as no ticket outgrows its 15 bits; mutual
    exclusion, freedom from deadlock and first-come-first-served order are
    proved on the abstract algorithm and transferred. *)
From stdpp Require Import base numbers list.
From Stdlib Require Import ZArith Lia.
From S2P Require Import Prelude.
#[local] Open Scope Z_scope.

Module Bakery.

(** ** bakery_lock.h *)
Definition PRIORITY (t pos : Z) : Z := Z.lor (Z.shiftl t 8) pos.
Definition CHOOSING_TICKET : Z := 1.
Definition CHOSEN_TICKET : Z := 0.
Definition bakery_is_choosing (info : Z) : bool := truthy (Z.land info 1).
Definition bakery_ticket_number (info : Z) : Z := Z.land (Z.shiftr info 1) 0x7FFF.
Definition make_bakery_data (choosing number : Z) : Z :=
  Z.land (Z.lor (Z.land choosing 1) (Z.shiftl number 1)) 0xFFFF.

(** Where a CPU is in the lock code.  [BDoor] is the entry of
    [bakery_get_ticket]; [BScan they t] the loop that looks for the highest
    ticket, at index [they]; [BStore t] the store of the chosen ticket;
    [BPoll they t] the loop of [bakery_lock_get] at contender [they], polling
    its choosing flag; [BWait they t their] the [wfe] loop that waits for the
    ticket [their] of [they] to change; [BHeld t] the critical section. *)
Inductive bpc : Type :=
| BIdle
| BDoor
| BScan (they my_ticket : Z)
| BStore (my_ticket : Z)
| BPoll (they my_ticket : Z)
| BWait (they my_ticket their_ticket : Z)
| BHeld (my_ticket : Z).

#[global] Instance bpc_eq_dec : EqDecision bpc.
Proof. solve_decision. Defined.

Record bstate : Type := BState { lock_data : Z -> Z; pcs : Z -> bpc }.

Definition upd {A} (f : Z -> A) (c : Z) (v : A) : Z -> A :=
  fun i => if i =? c then v else f i.

Section model.
(** [BAKERY_LOCK_MAX_CPUS]. *)
Variable N : Z.

(** One step of [bakery_get_ticket]: returns the new memory and counter. *)
Definition bakery_get_ticket_step (me : Z) (mem : Z -> Z) (pc : bpc) : (Z -> Z) * bpc :=
  match pc with
  | BDoor => (upd mem me (make_bakery_data CHOOSING_TICKET 0), BScan 0 0)
  | BScan they my_ticket =>
      if they <? N then
        if me =? they then (mem, BScan (they + 1) my_ticket)
        else
          let their_ticket := bakery_ticket_number (mem they) in
          (mem, BScan (they + 1)
                  (if my_ticket <? their_ticket then their_ticket else my_ticket))
      else (mem, BStore (my_ticket + 1))
  | BStore my_ticket =>
      (upd mem me (make_bakery_data CHOSEN_TICKET my_ticket), BPoll 0 my_ticket)
  | _ => (mem, pc)
  end.

(** One step of [bakery_lock_get]; the call of [bakery_get_ticket] is inlined. *)
Definition bakery_lock_get_step (me : Z) (mem : Z -> Z) (pc : bpc) : (Z -> Z) * bpc :=
  match pc with
  | BIdle => (mem, BDoor)
  | BDoor | BScan _ _ | BStore _ => bakery_get_ticket_step me mem pc
  | BPoll they my_ticket =>
      if they <? N then
        if me =? they then (mem, BPoll (they + 1) my_ticket)
        else
          let their_bakery_data := mem they in
          if bakery_is_choosing their_bakery_data then (mem, BPoll they my_ticket)
          else
            let their_ticket := bakery_ticket_number their_bakery_data in
            if truthy their_ticket &&
               (PRIORITY their_ticket they <? PRIORITY my_ticket me)
            then (mem, BWait they my_ticket their_ticket)
            else (mem, BPoll (they + 1) my_ticket)
      else (mem, BHeld my_ticket)
  | BWait they my_ticket their_ticket =>
      if their_ticket =? bakery_ticket_number (mem they)
      then (mem, BWait they my_ticket their_ticket)
      else (mem, BPoll (they + 1) my_ticket)
  | BHeld _ => (mem, pc)
  end.

Definition bakery_lock_release_step (me : Z) (mem : Z -> Z) (pc : bpc) : (Z -> Z) * bpc :=
  match pc with
  | BHeld _ => (upd mem me 0, BIdle)
  | _ => (mem, pc)
  end.

(** A CPU outside the lock may ask for it, a CPU that holds it may release it. *)
Definition bakery_step (me : Z) (s : bstate) : bstate :=
  let '(mem, pc) :=
    match pcs s me with
    | BHeld _ => bakery_lock_release_step me (lock_data s) (pcs s me)
    | _ => bakery_lock_get_step me (lock_data s) (pcs s me)
    end in
  BState mem (upd (pcs s) me pc).

(** The lock word is zero-initialised and nobody contends. *)
Definition bakery_init : bstate := BState (fun _ => 0) (fun _ => BIdle).

(** A schedule names the CPU that takes each step; [draws] counts the tickets
    stored along it. *)
Definition draw_of (pc : bpc) : Z := match pc with BStore _ => 1 | _ => 0 end.

Fixpoint bakery_run (sched : list Z) (s : bstate) (d : Z) : bstate * Z :=
  match sched with
  | [] => (s, d)
  | me :: rest => bakery_run rest (bakery_step me s) (d + draw_of (pcs s me))
  end.

(** ** The abstract algorithm

    Tickets are unbounded and readable directly off the program counters. *)
Definition ticket_of (pc : bpc) : Z :=
  match pc with
  | BPoll _ t | BWait _ t _ | BHeld t => t
  | _ => 0
  end.
Definition chosen (pc : bpc) : bool :=
  match pc with BPoll _ _ | BWait _ _ _ | BHeld _ => true | _ => false end.
Definition choosing (pc : bpc) : bool :=
  match pc with BScan _ _ | BStore _ => true | _ => false end.
Definition before (t i u j : Z) : Prop := t * 256 + i < u * 256 + j.
#[global] Instance before_dec t i u j : Decision (before t i u j).
Proof. unfold before. apply _. Defined.

Definition abs_next (me : Z) (p : Z -> bpc) : bpc :=
  match p me with
  | BIdle => BDoor
  | BDoor => BScan 0 0
  | BScan they t =>
      if they <? N then
        if me =? they then BScan (they + 1) t
        else BScan (they + 1) (Z.max t (ticket_of (p they)))
      else BStore (t + 1)
  | BStore t => BPoll 0 t
  | BPoll they t =>
      if they <? N then
        if me =? they then BPoll (they + 1) t
        else if choosing (p they) then BPoll they t
        else if bool_decide (ticket_of (p they) <> 0 /\ before (ticket_of (p they)) they t me)
             then BWait they t (ticket_of (p they))
             else BPoll (they + 1) t
      else BHeld t
  | BWait they t their =>
      if their =? ticket_of (p they) then BWait they t their else BPoll (they + 1) t
  | BHeld _ => BIdle
  end.

Definition abs_step (me : Z) (p : Z -> bpc) : Z -> bpc := upd p me (abs_next me p).
End model.

(** ** Representation of the lock words *)

Definition data_of (pc : bpc) : Z :=
  if choosing pc then make_bakery_data CHOOSING_TICKET 0
  else make_bakery_data CHOSEN_TICKET (ticket_of pc).

Lemma PRIORITY_value t p : 0 <= p < 256 -> PRIORITY t p = t * 256 + p.
Proof.
  intros Hp. unfold PRIORITY. rewrite Z.shiftl_mul_pow2 by lia.
  change (2 ^ 8) with 256.
  rewrite <- Z.add_lor_land. assert (Z.land (t * 256) p = 0) as ->; [|lia].
  apply Z.bits_inj'. intros i Hi. rewrite Z.land_spec, Z.testbit_0_l.
  destruct (Z.ltb_spec i 8).
  - change 256 with (2 ^ 8). by rewrite Z.mul_pow2_bits_low.
  - rewrite (testbit_below_pow2 8 p i) by (simpl; lia). apply andb_false_r.
Qed.

Lemma make_chosen_value t : 0 <= t < 2 ^ 15 -> make_bakery_data CHOSEN_TICKET t = t * 2.
Proof.
  intros Ht. unfold make_bakery_data. change (Z.land CHOSEN_TICKET 1) with 0.
  rewrite Z.lor_0_l, Z.shiftl_mul_pow2 by lia. change 0xFFFF with (Z.ones 16).
  rewrite land_ones_small; simpl; lia.
Qed.

Lemma ticket_number_value x : 0 <= x < 2 ^ 15 -> bakery_ticket_number (x * 2) = x.
Proof.
  intros Hx. unfold bakery_ticket_number. rewrite Z.shiftr_div_pow2 by lia.
  change (2 ^ 1) with 2. rewrite Z.div_mul by lia. change 0x7FFF with (Z.ones 15).
  apply land_ones_small; lia.
Qed.

Lemma data_of_ticket pc : 0 <= ticket_of pc < 2 ^ 15 -> bakery_ticket_number (data_of pc) = ticket_of pc.
Proof.
  intros Ht. unfold data_of. destruct (choosing pc) eqn:Hc.
  - by destruct pc.
  - rewrite make_chosen_value by lia. by apply ticket_number_value.
Qed.

Lemma data_of_choosing pc : 0 <= ticket_of pc < 2 ^ 15 -> bakery_is_choosing (data_of pc) = choosing pc.
Proof.
  intros Ht. unfold data_of. destruct (choosing pc) eqn:Hc; [done|].
  rewrite make_chosen_value by lia. unfold bakery_is_choosing, truthy.
  change 1 with (Z.ones 1). rewrite Z.land_ones by lia.
  change (2 ^ 1) with 2. by rewrite Z.mod_mul.
Qed.

Lemma upd_eq {A} (f : Z -> A) c v : upd f c v c = v.
Proof. unfold upd. by rewrite Z.eqb_refl. Qed.

Lemma upd_ne {A} (f : Z -> A) c v i : i <> c -> upd f c v i = f i.
Proof. unfold upd. destruct (Z.eqb_spec i c); done. Qed.

Section proofs.
Variable N : Z.
Hypothesis N_range : 0 < N <= 256.

Definition in_range (c : Z) : Prop := 0 <= c < N.

(** Every lock word is the encoding of its CPU's program counter. *)
Definition represents (s : bstate) (p : Z -> bpc) : Prop :=
  (forall c, pcs s c = p c) /\ (forall c, in_range c -> lock_data s c = data_of (p c)).

(** ** Ticket bounds *)
Definition pc_bounded (d : Z) (c : Z) (pc : bpc) : Prop :=
  match pc with
  | BIdle | BDoor => True
  | BScan they t => 0 <= they /\ 0 <= t <= d
  | BStore t => 1 <= t <= d + 1
  | BPoll they t => 0 <= they /\ 1 <= t <= d
  | BWait they t their =>
      in_range they /\ they <> c /\ 1 <= t <= d /\ 1 <= their <= d /\ before their they t c
  | BHeld t => 1 <= t <= d
  end.
Definition bounded (d : Z) (p : Z -> bpc) : Prop :=
  0 <= d /\ forall c, in_range c -> pc_bounded d c (p c).

Lemma pc_bounded_mono d d' c pc : d <= d' -> pc_bounded d c pc -> pc_bounded d' c pc.
Proof. destruct pc; simpl; unfold in_range, before; lia. Qed.

Lemma bounded_ticket d p c : bounded d p -> in_range c -> 0 <= ticket_of (p c) <= d.
Proof. intros [Hd Hb] Hc. specialize (Hb c Hc). destruct (p c); simpl in *; lia. Qed.

Lemma chosen_ticket_pos d p c : bounded d p -> in_range c -> chosen (p c) = true -> 1 <= ticket_of (p c).
Proof. intros [Hd Hb] Hc Hch. specialize (Hb c Hc). destruct (p c); simpl in *; done || lia. Qed.

Lemma abs_next_bounded d p me :
  bounded d p -> in_range me -> pc_bounded (d + draw_of (p me)) me (abs_next N me p).
Proof.
  intros Hb Hme. pose proof Hb as [Hd Hbd]. specialize (Hbd me Hme). unfold abs_next.
  destruct (p me) as [| |they t|t|they t|they t their|t]; simpl in *; try lia.
  - destruct (Z.ltb_spec they N); [|simpl; lia].
    destruct (Z.eqb_spec me they); simpl; [lia|].
    pose proof (bounded_ticket d p they Hb ltac:(unfold in_range; lia)). lia.
  - destruct (Z.ltb_spec they N); [|simpl; lia].
    destruct (Z.eqb_spec me they); simpl; [lia|].
    destruct (choosing (p they)); simpl; [lia|].
    case_bool_decide as Hlt; simpl; [|lia].
    pose proof (bounded_ticket d p they Hb ltac:(unfold in_range; lia)).
    unfold in_range in *. destruct Hlt. repeat split; lia || done.
  - destruct (Z.eqb_spec their (ticket_of (p they))); simpl; unfold in_range, before in *; lia.
Qed.

Lemma abs_step_bounded d p me :
  bounded d p -> in_range me -> bounded (d + draw_of (p me)) (abs_step N me p).
Proof.
  intros Hb Hme. pose proof Hb as [Hd Hbd].
  assert (0 <= draw_of (p me)) by (destruct (p me); simpl; lia).
  split; [lia|]. intros c Hc. unfold abs_step.
  destruct (decide (c = me)) as [->|Hne].
  - rewrite upd_eq. by apply abs_next_bounded.
  - rewrite upd_ne by done. eapply pc_bounded_mono; [|by apply Hbd]. lia.
Qed.

(** ** Refinement of the memory representation *)
Lemma bakery_step_represents d s p me :
  represents s p -> bounded d p -> d < 2 ^ 15 -> in_range me ->
  represents (bakery_step N me s) (abs_step N me p).
Proof.
  intros [Hpc Hmem] Hb Hd Hme.
  assert (forall c, in_range c -> 0 <= ticket_of (p c) < 2 ^ 15) as Htk.
  { intros c Hc. pose proof (bounded_ticket d p c Hb Hc). lia. }
  assert (forall c, in_range c -> bakery_ticket_number (lock_data s c) = ticket_of (p c)) as Hnum.
  { intros c Hc. rewrite Hmem by done. auto using data_of_ticket. }
  assert (forall c, in_range c -> bakery_is_choosing (lock_data s c) = choosing (p c)) as Hcho.
  { intros c Hc. rewrite Hmem by done. auto using data_of_choosing. }
  assert (forall mem pc, pc = abs_next N me p ->
            (forall c, in_range c -> c <> me -> mem c = lock_data s c) ->
            mem me = data_of pc ->
            represents (BState mem (upd (pcs s) me pc)) (abs_step N me p)) as Hmk.
  { intros mem pc -> Hother Hown. split; simpl.
    - intros c. unfold abs_step, upd. destruct (c =? me); auto.
    - intros c Hc. unfold abs_step. destruct (decide (c = me)) as [->|Hne].
      + by rewrite upd_eq.
      + by rewrite upd_ne, Hother, Hmem. }
  unfold bakery_step. rewrite Hpc. unfold abs_next in Hmk. pose proof (Hmem me Hme) as Hown.
  destruct Hb as [Hd0 Hbd]. specialize (Hbd me Hme).
  destruct (p me) as [| |they t|t|they t|they t their|t] eqn:Hp; simpl in *;
    try (apply Hmk; [done|by intros; rewrite ?upd_ne|by rewrite ?upd_eq]).
  - destruct (Z.ltb_spec they N); [|by apply Hmk].
    destruct (Z.eqb_spec me they); [by apply Hmk|].
    rewrite Hnum by (unfold in_range; lia). apply Hmk; [|done|done].
    f_equal. destruct (Z.ltb_spec t (ticket_of (p they))); lia.
  - destruct (Z.ltb_spec they N); [|by apply Hmk].
    destruct (Z.eqb_spec me they); [by apply Hmk|].
    rewrite Hcho, Hnum by (unfold in_range; lia).
    destruct (choosing (p they)); [by apply Hmk|].
    rewrite !PRIORITY_value by (unfold in_range in *; lia).
    unfold truthy, before in *.
    case_bool_decide as Hc; destruct (Z.eqb_spec (ticket_of (p they)) 0);
      destruct (Z.ltb_spec (ticket_of (p they) * 256 + they) (t * 256 + me));
      simpl; try (exfalso; lia); by apply Hmk.
  - rewrite Hnum by (unfold in_range in *; lia).
    destruct (Z.eqb_spec their (ticket_of (p they))); by apply Hmk.
Qed.

(** ** Order of contenders *)

(** [j] is ordered after [i], who has a ticket. *)
Definition later (p : Z -> bpc) (i j : Z) : Prop :=
  match p j with
  | BIdle | BDoor => True
  | BScan they m => i < they -> ticket_of (p i) <= m
  | BStore m => ticket_of (p i) < m
  | BPoll _ t | BWait _ t _ | BHeld t => before (ticket_of (p i)) i t j
  end.

(** [i] has finished looking at [j] in the loop of [bakery_lock_get]. *)
Definition passed (pc : bpc) (j : Z) : Prop :=
  match pc with
  | BPoll they _ | BWait they _ _ => j < they
  | BHeld _ => True
  | _ => False
  end.

Definition ordered (p : Z -> bpc) : Prop :=
  forall i j, in_range i -> in_range j -> i <> j ->
    (passed (p i) j -> later p i j) /\
    (forall t their, p i = BWait j t their ->
       (chosen (p j) = true /\ ticket_of (p j) = their) \/ later p i j).

Lemma later_of_chosen p i j :
  chosen (p j) = true -> later p i j <-> before (ticket_of (p i)) i (ticket_of (p j)) j.
Proof. unfold later. by destruct (p j). Qed.

Lemma ticket_nonzero_chosen pc : ticket_of pc <> 0 -> chosen pc = true.
Proof. by destruct pc. Qed.

Lemma not_before_flip t i u j :
  in_range i -> in_range j -> i <> j -> ~ before t i u j -> before u j t i.
Proof. unfold in_range, before. lia. Qed.

Lemma abs_next_chosen p me :
  chosen (p me) = true ->
  (chosen (abs_next N me p) = true /\ ticket_of (abs_next N me p) = ticket_of (p me)) \/
  (abs_next N me p = BIdle).
Proof.
  unfold abs_next. destruct (p me); simpl; try done; intros _; auto;
    repeat (case_match || case_bool_decide); auto.
Qed.

(** The acting CPU's own obligations. *)
Lemma ordered_self d p me j :
  bounded d p -> ordered p -> in_range me -> in_range j -> me <> j ->
  let p' := abs_step N me p in
  (passed (p' me) j -> later p' me j) /\
  (forall t their, p' me = BWait j t their ->
     (chosen (p' j) = true /\ ticket_of (p' j) = their) \/ later p' me j).
Proof.
  intros Hb Ho Hme Hj Hne p'. destruct (Ho me j Hme Hj Hne) as [Hpass Hwait].
  pose proof Hb as [Hd Hbd]. pose proof (Hbd me Hme) as Hbme.
  assert (p' j = p j) as Hpj by (unfold p', abs_step; by rewrite upd_ne).
  assert (p' me = abs_next N me p) as Hpme by (unfold p', abs_step; by rewrite upd_eq).
  assert (ticket_of (p' me) = ticket_of (p me) -> later p me j -> later p' me j) as Hkeep.
  { unfold later. rewrite Hpj. by intros ->. }
  rewrite Hpj, Hpme. unfold abs_next in *. unfold in_range in *.
  destruct (p me) as [| |they t|t|they t|they t their|t] eqn:Hp; simpl in *;
    try (split; [done|by intros]).
  - split; repeat case_match; done.
  - split; [lia|done].
  - destruct (Z.ltb_spec they N) as [Hlt|Hge].
    2:{ split; [|done]. intros _. apply Hkeep; [by rewrite Hpme|]. apply Hpass. lia. }
    destruct (Z.eqb_spec me they) as [->|Hmt].
    { split; [|done]. simpl. intros. apply Hkeep; [by rewrite Hpme|]. apply Hpass. lia. }
    destruct (choosing (p they)) eqn:Hch.
    { split; [|done]. simpl. intros. apply Hkeep; [by rewrite Hpme|]. auto. }
    case_bool_decide as Hlt'; simpl.
    + split; [intros; apply Hkeep; [by rewrite Hpme|]; auto|].
      intros t' their' [= <- -> <-]. left. split; [|done].
      apply ticket_nonzero_chosen. tauto.
    + split; [|done]. intros Hjt. destruct (decide (j = they)) as [->|].
      2:{ apply Hkeep; [by rewrite Hpme|]. apply Hpass. lia. }
      destruct (chosen (p they)) eqn:Hcj.
      * apply later_of_chosen; [by rewrite Hpj|]. rewrite Hpme, Hpj. simpl.
        pose proof (chosen_ticket_pos d p they Hb Hj Hcj).
        apply not_before_flip; unfold in_range; try lia. intros Hbf. apply Hlt'. split; [lia|done].
      * unfold later. rewrite Hpj. by destruct (p they).
  - destruct (Z.eqb_spec their (ticket_of (p they))) as [Heq|Hneq]; simpl.
    + split; [intros; apply Hkeep; [by rewrite Hpme|]; auto|].
      intros t' their' [= <- <- <-]. destruct (Hwait _ _ eq_refl) as [?|Hl]; [by left|].
      right. apply Hkeep; [by rewrite Hpme|done].
    + split; [|done]. intros Hjt. apply Hkeep; [by rewrite Hpme|].
      destruct (decide (j = they)) as [->|]; [|apply Hpass; lia].
      destruct (Hwait _ _ eq_refl) as [[_ ?]|?]; [congruence|done].
Qed.

(** The order of the acting CPU [me] behind another contender [i] is kept. *)
Lemma later_other d p me i :
  bounded d p -> in_range me -> in_range i -> me <> i -> chosen (p i) = true ->
  later p i me -> later (abs_step N me p) i me.
Proof.
  intros Hb Hme Hi Hne Hci Hl. pose proof (chosen_ticket_pos d p i Hb Hi Hci) as Hti.
  unfold later in *. unfold abs_step. rewrite upd_eq, upd_ne by done.
  unfold abs_next, in_range, before in *.
  destruct (p me) as [| |they t|t|they t|they t their|t] eqn:Hp; simpl in *; try done.
  - lia.
  - destruct (Z.ltb_spec they N); [|lia].
    destruct (Z.eqb_spec me they); [lia|]. intros.
    destruct (decide (i = they)) as [->|]; lia.
  - lia.
  - repeat (case_match || case_bool_decide); by simplify_eq.
  - repeat case_match; by simplify_eq.
Qed.

Lemma passed_chosen pc j : passed pc j -> chosen pc = true.
Proof. by destruct pc. Qed.

Lemma abs_step_ordered d p me :
  bounded d p -> ordered p -> in_range me -> ordered (abs_step N me p).
Proof.
  intros Hb Ho Hme i j Hi Hj Hij.
  destruct (decide (i = me)) as [->|Hime]; [by eapply ordered_self|].
  destruct (Ho i j Hi Hj Hij) as [Hpass Hwait].
  assert (abs_step N me p i = p i) as Hpi by (unfold abs_step; by rewrite upd_ne).
  destruct (decide (j = me)) as [->|Hjme].
  - rewrite Hpi. split.
    + intros Hp. eapply later_other; eauto using passed_chosen.
    + intros t their Hw. assert (chosen (p i) = true) as Hci by by rewrite Hw.
      destruct (Hwait _ _ Hw) as [[Hcj <-]|Hl]; [|right; by eapply later_other].
      destruct (abs_next_chosen p me Hcj) as [[Hc Ht]|Hidle];
        unfold abs_step; rewrite upd_eq; [by left|].
      right. unfold later. by rewrite upd_eq, Hidle.
  - assert (abs_step N me p j = p j) as Hpj by (unfold abs_step; by rewrite upd_ne).
    unfold later. rewrite Hpi, Hpj. split; done.
Qed.

(** ** Runs *)
Lemma init_represents : represents bakery_init (fun _ => BIdle).
Proof. done. Qed.

Lemma init_ordered : ordered (fun _ => BIdle).
Proof. by intros i j. Qed.

Lemma init_bounded : bounded 0 (fun _ => BIdle).
Proof. by split. Qed.

Definition lock_inv (d : Z) (s : bstate) : Prop :=
  exists p, represents s p /\ bounded d p /\ ordered p.

Lemma bakery_run_draws sched s d : d <= (bakery_run N sched s d).2.
Proof.
  revert s d. induction sched as [|me rest IH]; simpl; intros s d; [lia|].
  etrans; [|apply IH]. destruct (pcs s me); simpl; lia.
Qed.

Lemma bakery_step_inv d s me :
  lock_inv d s -> d < 2 ^ 15 -> in_range me ->
  lock_inv (d + draw_of (pcs s me)) (bakery_step N me s).
Proof.
  intros (p & Hr & Hb & Ho) Hd Hme. exists (abs_step N me p).
  destruct Hr as [Hpc Hmem]. rewrite Hpc.
  split; [by eapply bakery_step_represents|]. split; [by apply abs_step_bounded|].
  by eapply abs_step_ordered.
Qed.

Lemma bakery_run_inv sched s d :
  Forall in_range sched -> lock_inv d s -> (bakery_run N sched s d).2 < 2 ^ 15 ->
  lock_inv (bakery_run N sched s d).2 (bakery_run N sched s d).1.
Proof.
  revert s d. induction sched as [|me rest IH]; simpl; intros s d Hf Hi Hd; [done|].
  apply Forall_cons in Hf as [Hme Hf]. apply IH; [done| |done].
  apply bakery_step_inv; [done| |done].
  pose proof (bakery_run_draws rest (bakery_step N me s) (d + draw_of (pcs s me))).
  destruct (pcs s me); simpl in *; lia.
Qed.

Lemma init_inv : lock_inv 0 bakery_init.
Proof. eexists. eauto using init_represents, init_bounded, init_ordered. Qed.

Definition held (s : bstate) (c : Z) : Prop := exists t, pcs s c = BHeld t.

Lemma inv_mutex d s i j :
  lock_inv d s -> in_range i -> in_range j -> held s i -> held s j -> i = j.
Proof.
  intros (p & [Hpc _] & _ & Ho) Hi Hj [ti Hti] [tj Htj].
  destruct (decide (i = j)) as [|Hne]; [done|exfalso].
  rewrite Hpc in Hti, Htj.
  destruct (Ho i j Hi Hj Hne) as [Hij _]. destruct (Ho j i Hj Hi (not_eq_sym Hne)) as [Hji _].
  unfold later, before in *. rewrite Hti, Htj in *. simpl in *.
  specialize (Hij I). specialize (Hji I). lia.
Qed.

(** ** Progress *)
Lemma abs_progress d p c :
  bounded d p -> in_range c -> p c <> BIdle ->
  exists c', in_range c' /\ p c' <> BIdle /\ abs_next N c' p <> p c'.
Proof.
  intros Hb Hc Hni. remember (Z.to_nat (ticket_of (p c) * 256 + c)) as n eqn:Hn.
  revert c Hc Hni Hn. induction n as [n IH] using lt_wf_ind. intros c Hc Hni Hn.
  pose proof Hb as [Hd Hbd]. pose proof (Hbd c Hc) as Hbc.
  destruct (p c) as [| |they t|t|they t|they t their|t] eqn:Hp; simpl in Hbc.
  - done.
  - exists c. unfold abs_next. rewrite Hp. done.
  - exists c. unfold abs_next. rewrite Hp. split_and!; [done|done|].
    repeat case_match; try done; intros [=]; lia.
  - exists c. unfold abs_next. rewrite Hp. done.
  - destruct (choosing (p they)) eqn:Hch.
    + destruct (decide (in_range they)) as [Hth|Hth].
      * exists they. split; [done|]. unfold abs_next.
        destruct (p they) as [| |th2 t2| | | |] eqn:Hp2; try done; split; try done;
          repeat case_match; try done; intros [=]; lia.
      * exists c. unfold abs_next. rewrite Hp. unfold in_range in Hth.
        destruct (Z.ltb_spec they N); [lia|done].
    + exists c. unfold abs_next. rewrite Hp, Hch. split_and!; [done|done|].
      repeat (case_match || case_bool_decide); try done; intros [=]; lia.
  - destruct Hbc as (Hth & Hne & Ht & Hths & Hbf).
    destruct (decide (their = ticket_of (p they))) as [->|Hdiff].
    + apply (IH (Z.to_nat (ticket_of (p they) * 256 + they))) with (c := they); try done.
      * subst n. simpl. unfold before, in_range in *. lia.
      * intros Hi. rewrite Hi in Hths. simpl in Hths. lia.
    + exists c. unfold abs_next. rewrite Hp. split_and!; [done|done|].
      destruct (Z.eqb_spec their (ticket_of (p they))); done.
  - exists c. unfold abs_next. rewrite Hp. done.
Qed.

Lemma inv_progress d s c :
  lock_inv d s -> d < 2 ^ 15 -> in_range c -> pcs s c <> BIdle ->
  exists c', in_range c' /\ pcs s c' <> BIdle /\ pcs (bakery_step N c' s) c' <> pcs s c'.
Proof.
  intros (p & Hr & Hb & Ho) Hd Hc Hni. pose proof Hr as [Hpc _].
  rewrite Hpc in Hni. destruct (abs_progress d p c Hb Hc Hni) as (c' & Hc' & Hni' & Hmove).
  exists c'. rewrite Hpc. split_and!; [done|done|].
  pose proof (bakery_step_represents d s p c' Hr Hb Hd Hc') as [Hpc' _].
  rewrite Hpc'. unfold abs_step. by rewrite upd_eq.
Qed.

(** ** First come, first served *)

(** [i] does not release the lock along the schedule. *)
Fixpoint keeps (i : Z) (sched : list Z) (s : bstate) : Prop :=
  match sched with
  | [] => True
  | me :: rest => (me = i -> ~ held s i) /\ keeps i rest (bakery_step N me s)
  end.

Lemma abs_next_stays_chosen p me :
  chosen (p me) = true -> (forall t, p me <> BHeld t) ->
  chosen (abs_next N me p) = true /\ ticket_of (abs_next N me p) = ticket_of (p me).
Proof.
  intros Hc Hnh. destruct (abs_next_chosen p me Hc) as [?|Hidle]; [done|].
  exfalso. unfold abs_next in Hidle. destruct (p me) eqn:Hp; try done;
    repeat (case_match || case_bool_decide); try done. by eapply Hnh.
Qed.

Lemma later_step d p me i j :
  bounded d p -> in_range me -> in_range i -> in_range j -> i <> j ->
  chosen (p i) = true -> (me = i -> forall t, p i <> BHeld t) ->
  later p i j ->
  chosen (abs_step N me p i) = true /\ later (abs_step N me p) i j.
Proof.
  intros Hb Hme Hi Hj Hne Hci Hnh Hl. destruct (decide (me = i)) as [->|Hmi].
  - destruct (abs_next_stays_chosen p i Hci (Hnh eq_refl)) as [Hc Ht].
    unfold later, abs_step in *. rewrite upd_eq, (upd_ne _ _ _ j), Ht by done. done.
  - assert (abs_step N me p i = p i) as Hpi by (unfold abs_step; by rewrite upd_ne).
    rewrite Hpi. split; [done|]. destruct (decide (me = j)) as [->|Hmj].
    + eapply later_other; eauto.
    + unfold later, abs_step in *. rewrite !upd_ne by done. done.
Qed.

Lemma run_keeps_order sched s d i j p :
  Forall in_range sched -> in_range i -> in_range j -> i <> j ->
  represents s p -> bounded d p -> ordered p -> chosen (p i) = true -> later p i j ->
  keeps i sched s -> (bakery_run N sched s d).2 < 2 ^ 15 ->
  ~ held (bakery_run N sched s d).1 j.
Proof.
  revert s d p. induction sched as [|me rest IH]; simpl; intros s d p Hf Hi Hj Hne Hr Hb Ho Hci Hl Hk Hd.
  - intros [t Ht]. destruct Hr as [Hpc _]. rewrite Hpc in Ht.
    destruct (Ho j i Hj Hi (not_eq_sym Hne)) as [Hji _].
    rewrite Ht in Hji. specialize (Hji I). apply later_of_chosen in Hji; [|done].
    unfold later in Hl. rewrite Ht in *. unfold before in *. simpl in *. lia.
  - apply Forall_cons in Hf as [Hme Hf]. destruct Hk as [Hnr Hk].
    pose proof (bakery_run_draws rest (bakery_step N me s) (d + draw_of (pcs s me))).
    assert (d < 2 ^ 15) by (destruct (pcs s me); simpl in *; lia).
    assert (me = i -> forall t, p i <> BHeld t) as Hnh.
    { intros Hm t Ht. apply (Hnr Hm). exists t. by rewrite (proj1 Hr). }
    destruct (later_step d p me i j Hb Hme Hi Hj Hne Hci Hnh Hl) as [Hci' Hl'].
    apply (IH _ _ (abs_step N me p)); try done.
    + by eapply bakery_step_represents.
    + rewrite (proj1 Hr). by apply abs_step_bounded.
    + by eapply abs_step_ordered.
Qed.
End proofs.

(** ** Properties of the lock *)

(** [C19] Mutual exclusion: in every interleaving of the lock's memory accesses
    by up to 256 CPUs, started from the zero-initialised lock word, no two
    CPUs are past [bakery_lock_get] and not yet in [bakery_lock_release] at
    the same time, provided fewer than 2^15 tickets have been drawn (a ticket
    has 15 bits). *)
Theorem bakery_mutual_exclusion (N : Z) (sched : list Z) (i j : Z) :
  0 < N <= 256 -> Forall (in_range N) sched -> in_range N i -> in_range N j ->
  (bakery_run N sched bakery_init 0).2 < 2 ^ 15 ->
  held (bakery_run N sched bakery_init 0).1 i ->
  held (bakery_run N sched bakery_init 0).1 j -> i = j.
Proof.
  intros HN Hs Hi Hj Hd. eapply inv_mutex; try done.
  apply bakery_run_inv; auto using init_inv.
Qed.

Lemma bakery_mutual_exclusion_witness :
  held (bakery_run 2 [0;0;0;0;0;0;0;0;0;1;1;1] bakery_init 0).1 0 /\
  ((bakery_run 2 [0;0;0;0;0;0;0;0;0;1;1;1] bakery_init 0).2 < 2 ^ 15 -> 0 = 0).
Proof.
  assert (held (bakery_run 2 [0;0;0;0;0;0;0;0;0;1;1;1] bakery_init 0).1 0) as Hh.
  { exists 1. vm_compute. reflexivity. }
  split; [exact Hh|]. intros Hd.
  apply (bakery_mutual_exclusion 2 [0;0;0;0;0;0;0;0;0;1;1;1] 0 0); try exact Hh; try exact Hd.
  - lia.
  - repeat constructor; vm_compute; congruence.
  - vm_compute. split; congruence.
  - vm_compute. split; congruence.
Defined.

(** [C36] No deadlock: in every reachable state in which some CPU is inside the
    lock code (waiting, choosing a ticket or holding the lock), some CPU that
    is inside the lock code makes progress when it is scheduled: its program
    counter changes instead of spinning. *)
Theorem bakery_deadlock_free (N : Z) (sched : list Z) (c : Z) :
  0 < N <= 256 -> Forall (in_range N) sched -> in_range N c ->
  let r := bakery_run N sched bakery_init 0 in
  r.2 < 2 ^ 15 -> pcs r.1 c <> BIdle ->
  exists c', in_range N c' /\ pcs r.1 c' <> BIdle /\
             pcs (bakery_step N c' r.1) c' <> pcs r.1 c'.
Proof.
  intros HN Hs Hc r Hd. eapply inv_progress; try done.
  apply bakery_run_inv; auto using init_inv.
Qed.

Lemma bakery_deadlock_free_witness :
  exists c', in_range 2 c' /\
    pcs (bakery_run 2 [0;0;1;1;1] bakery_init 0).1 c' <> BIdle /\
    pcs (bakery_step 2 c' (bakery_run 2 [0;0;1;1;1] bakery_init 0).1) c' <>
    pcs (bakery_run 2 [0;0;1;1;1] bakery_init 0).1 c'.
Proof.
  apply (bakery_deadlock_free 2 [0;0;1;1;1] 1).
  - lia.
  - repeat constructor; vm_compute; congruence.
  - vm_compute. split; congruence.
  - vm_compute. reflexivity.
  - vm_compute. discriminate.
Defined.

(** First come, first served: if CPU [i] has stored its ticket while CPU
    [j] has not yet entered the doorway of [bakery_get_ticket], then [j] does
    not obtain the lock for as long as [i] has not released it. *)
Theorem bakery_first_come_first_served (N : Z) (sched1 sched2 : list Z) (i j : Z) :
  0 < N <= 256 -> Forall (in_range N) sched1 -> Forall (in_range N) sched2 ->
  in_range N i -> in_range N j -> i <> j ->
  let r := bakery_run N sched1 bakery_init 0 in
  let r' := bakery_run N sched2 r.1 r.2 in
  r'.2 < 2 ^ 15 ->
  chosen (pcs r.1 i) = true -> (pcs r.1 j = BIdle \/ pcs r.1 j = BDoor) ->
  keeps N i sched2 r.1 -> ~ held r'.1 j.
Proof.
  intros HN Hs1 Hs2 Hi Hj Hne r r' Hd Hci Hidle Hk.
  pose proof (bakery_run_draws N sched2 r.1 r.2) as Hmono.
  assert (lock_inv N r.2 r.1) as (p & Hr & Hb & Ho).
  { apply bakery_run_inv; auto using init_inv. fold r. unfold r' in Hd. lia. }
  rewrite (proj1 Hr) in Hci. rewrite !(proj1 Hr) in Hidle.
  apply (run_keeps_order N HN sched2 r.1 r.2 i j p); try done.
  unfold later. by destruct Hidle as [-> | ->].
Qed.

Lemma bakery_first_come_first_served_witness :
  ~ held (bakery_run 2 [1;1;1;1;0;1;1;1]
            (bakery_run 2 [0;0;0;0;0;0] bakery_init 0).1
            (bakery_run 2 [0;0;0;0;0;0] bakery_init 0).2).1 1.
Proof.
  apply (bakery_first_come_first_served 2 [0;0;0;0;0;0] [1;1;1;1;0;1;1;1] 0 1).
  - lia.
  - repeat constructor; vm_compute; congruence.
  - repeat constructor; vm_compute; congruence.
  - vm_compute. split; congruence.
  - vm_compute. split; congruence.
  - discriminate.
  - vm_compute. reflexivity.
  - vm_compute. reflexivity.
  - left. vm_compute. reflexivity.
  - repeat split; try (intros Hf; discriminate Hf).
    intros _ [t Ht]. vm_compute in Ht. discriminate.
Defined.

(** The 16-bit lock words represent the abstract tickets exactly: after
    any schedule with fewer than 2^15 tickets drawn, decoding the word of any
    CPU with [bakery_ticket_number] and [bakery_is_choosing] gives the ticket
    and the choosing phase of that CPU, and no ticket exceeds the number of
    tickets drawn. *)
Theorem bakery_words_decode (N : Z) (sched : list Z) (c : Z) :
  0 < N <= 256 -> Forall (in_range N) sched -> in_range N c ->
  let r := bakery_run N sched bakery_init 0 in
  r.2 < 2 ^ 15 ->
  bakery_ticket_number (lock_data r.1 c) = ticket_of (pcs r.1 c) /\
  bakery_is_choosing (lock_data r.1 c) = choosing (pcs r.1 c) /\
  0 <= ticket_of (pcs r.1 c) <= r.2.
Proof.
  intros HN Hs Hc r Hd.
  assert (lock_inv N r.2 r.1) as (p & [Hpc Hmem] & Hb & _).
  { apply bakery_run_inv; auto using init_inv. }
  rewrite Hmem, Hpc by done. pose proof (bounded_ticket N r.2 p c Hb Hc).
  split_and!; [apply data_of_ticket|apply data_of_choosing|..]; lia.
Qed.

Lemma bakery_words_decode_witness :
  bakery_ticket_number (lock_data (bakery_run 2 [0;0;0;0;0;0] bakery_init 0).1 0) = 1 /\
  0 <= ticket_of (pcs (bakery_run 2 [0;0;0;0;0;0] bakery_init 0).1 0) <= 1.
Proof.
  destruct (bakery_words_decode 2 [0;0;0;0;0;0] 0) as (H1 & _ & H3).
  - lia.
  - repeat constructor; vm_compute; congruence.
  - vm_compute. split; congruence.
  - vm_compute. reflexivity.
  - split; [exact H1|exact H3].
Defined.
End Bakery.
