(* ===== verification/TbbDefs.v ===== *)
(** * Trusted board boot: data and state

    The types of the authentication framework (include/drivers/auth), the
    image descriptors of include/common/bl_common.h, and the state that BL1's
    loader, its authentication module and its firmware-update service share.
    Memory is a byte array indexed by physical addresses; pointers are
    addresses and the null pointer is 0.  The cryptographic library, the image
    parsers and the platform's storage, keys and counters are operations of
    the class [TbEnv]. *)
From stdpp Require Import base list numbers option strings.
From Stdlib Require Import ZArith Lia.
From S2P Require Import Prelude.
#[local] Open Scope Z_scope.

(** ** Memory *)
Definition memory : Type := Z -> Z.
Definition read_bytes (m : memory) (a n : Z) : list Z := map (fun i => m (a + i)) (seqZ 0 n).
Definition write_bytes (m : memory) (a : Z) (bs : list Z) : memory :=
  fun x => if (a <=? x) && (x <? a + Z.of_nat (length bs)) then default 0 (bs !! Z.to_nat (x - a)) else m x.
Definition zero_bytes (m : memory) (a n : Z) : memory := write_bytes m a (replicate (Z.to_nat n) 0).

(** ** Error codes (errno.h) *)
Definition EPERM : Z := 1.
Definition EIO : Z := 5.
Definition ENOMEM : Z := 12.
Definition EFBIG : Z := 27.
Definition EAUTH : Z := 80.

(** ** Authentication framework (auth_common.h, auth_mod.h) *)
Inductive auth_param_type_t : Type :=
| AUTH_PARAM_NONE | AUTH_PARAM_RAW_DATA | AUTH_PARAM_SIG | AUTH_PARAM_SIG_ALG
| AUTH_PARAM_HASH | AUTH_PARAM_PUB_KEY | AUTH_PARAM_NV_CTR.

#[global] Instance auth_param_type_eq_dec : EqDecision auth_param_type_t.
Proof. solve_decision. Defined.

(** The cookie is null or points to an OID string constant. *)
Record auth_param_type_desc_t : Type := ParamType { type : auth_param_type_t; cookie : option string }.

#[global] Instance auth_param_type_desc_eq_dec : EqDecision auth_param_type_desc_t.
Proof. solve_decision. Defined.

Record auth_param_data_desc_t : Type := ParamData { ptr : Z; len : Z }.

Record auth_param_desc_t : Type := ParamDesc {
  type_desc : option auth_param_type_desc_t; data : auth_param_data_desc_t
}.

Record auth_method_param_hash_t : Type := HashParam { h_data : auth_param_type_desc_t; h_hash : auth_param_type_desc_t }.
Record auth_method_param_sig_t : Type := SigParam {
  s_pk : auth_param_type_desc_t; s_sig : auth_param_type_desc_t; s_alg : auth_param_type_desc_t; s_data : auth_param_type_desc_t
}.
Record auth_method_param_nv_ctr_t : Type := NvCtrParam {
  cert_nv_ctr : auth_param_type_desc_t; plat_nv_ctr : auth_param_type_desc_t
}.

(** The tagged union; a tag outside the enumeration is [AUTH_METHOD_UNKNOWN]. *)
Inductive auth_method_desc_t : Type :=
| AUTH_METHOD_NONE
| AUTH_METHOD_HASH (param : auth_method_param_hash_t)
| AUTH_METHOD_SIG (param : auth_method_param_sig_t)
| AUTH_METHOD_NV_CTR (param : auth_method_param_nv_ctr_t)
| AUTH_METHOD_UNKNOWN.
Definition AUTH_METHOD_NUM : Z := 4.
Definition COT_MAX_VERIFIED_PARAMS : Z := 4.

Inductive img_type_t : Type := IMG_RAW | IMG_PLAT | IMG_CERT.
Definition IMG_MAX_TYPES : Z := 3.
Definition img_type_value (t : img_type_t) : Z :=
  match t with IMG_RAW => 0 | IMG_PLAT => 1 | IMG_CERT => 2 end.

#[global] Instance img_type_eq_dec : EqDecision img_type_t.
Proof. solve_decision. Defined.

(** [parent] is the index of the parent in the chain of trust. *)
Record auth_img_desc_t : Type := AuthImgDesc {
  img_id : Z;
  img_type : img_type_t;
  parent : option Z;
  img_auth_methods : list auth_method_desc_t;
  authenticated_data : list auth_param_desc_t
}.
Definition IMG_FLAG_AUTHENTICATED : Z := 1.
Definition IMG_PARSER_OK : Z := 0.
Definition MAX_NUMBER_IDS : Z := 28.

(** Registered image parsers (img_parser_mod.h): both operations read the
    image from memory. *)
Record img_parser_lib_desc_t : Type := ParserLib {
  lib_img_type : img_type_t;
  check_integrity : memory -> Z -> Z -> Z;
  get_auth_param : auth_param_type_desc_t -> memory -> Z -> Z -> Z * Z * Z
}.

(** ** Images (bl_common.h) *)
Inductive image_state : Type :=
| IMAGE_STATE_RESET | IMAGE_STATE_COPIED | IMAGE_STATE_COPYING
| IMAGE_STATE_AUTHENTICATED | IMAGE_STATE_EXECUTED | IMAGE_STATE_INTERRUPTED.

#[global] Instance image_state_eq_dec : EqDecision image_state.
Proof. solve_decision. Defined.

Record image_info_t : Type := ImageInfo { image_base : Z; image_size : Z; image_max_size : Z }.

(** [ep_attr] and [ep_spsr] are [ep_info.h.attr] and [ep_info.spsr]. *)
Record image_desc_t : Type := ImageDesc {
  image_id : Z; state : image_state; copied_size : Z; image_info : image_info_t; ep_attr : Z; ep_spsr : Z
}.

Definition PARAM_EP_SECURITY_MASK : Z := 1.
Definition GET_SECURITY_STATE (x : Z) : Z := Z.land x PARAM_EP_SECURITY_MASK.
Definition EP_EXE_MASK : Z := 8.
Definition NON_EXECUTABLE : Z := 0.
Definition EXECUTABLE : Z := 8.
Definition EP_GET_EXE (x : Z) : Z := Z.land x EP_EXE_MASK.
Definition INVALID_IMAGE_ID : Z := 0xFFFFFFFF.

Record meminfo_t : Type := MemInfo { total_base : Z; total_size : Z; free_base : Z; free_size : Z }.

(** ** State *)
Inductive tb_event : Type :=
| EvFlush (addr size : Z)
| EvFlushInfo (id : Z)
| EvSaveEl1 (sec : Z)
| EvRestoreEl1 (sec : Z)
| EvNextEret (sec : Z)
| EvInitContext (id : Z)
| EvEl3Exit (sec : Z).

Record tb_state (P : Type) : Type := TbState {
  tb_mem : memory;
  parser_lib_indices : list Z;
  auth_img_flags : list Z;
  bl1_tbbr_image_descs : list image_desc_t;
  sec_exec_image_id : Z;
  bl1_fwu_loaded_ids : list Z;
  tb_plat : P;
  tb_log : list tb_event
}.
Arguments TbState {P}.
Arguments tb_mem {P}.
Arguments parser_lib_indices {P}.
Arguments auth_img_flags {P}.
Arguments bl1_tbbr_image_descs {P}.
Arguments sec_exec_image_id {P}.
Arguments bl1_fwu_loaded_ids {P}.
Arguments tb_plat {P}.
Arguments tb_log {P}.

(** ** Environment

    Build options, the registered chain of trust, the libraries and the
    platform.  [rotpk] and [nv_ctr] operations take the cookie of the
    parameter; a result code of 0 is success.  [io_read h b n] reads for the
    buffer at [b] and returns the result code and the bytes that were read. *)
Class TbEnv (P : Type) : Type := {
  TB_ASSERTIONS : bool;
  TRUSTED_BOARD_BOOT : bool;
  LOAD_IMAGE_V2 : bool;
  FWU_MAX_SIMULTANEOUS_IMAGES : Z;
  cot_desc_ptr : list auth_img_desc_t;
  parser_lib_descs : list img_parser_lib_desc_t;
  crypto_verify_signature : list Z -> list Z -> list Z -> list Z -> Z;
  crypto_verify_hash : list Z -> list Z -> Z;
  plat_get_rotpk_info : option string -> M P (Z * Z * Z * Z);
  plat_get_nv_ctr : option string -> M P (Z * Z);
  plat_set_nv_ctr : option string -> Z -> M P Z;
  bl1_plat_mem_check : Z -> Z -> Z -> M P Z;
  bl1_plat_handle_pre_image_load : Z -> M P Z;
  bl1_plat_handle_post_image_load : Z -> M P Z;
  bl1_plat_set_ep_info : Z -> M P unit;
  EL2_IMPLEMENTED : bool;
  bl1_plat_sec_mem_layout : meminfo_t;
  plat_get_image_source : Z -> M P (Z * Z * Z);
  io_open : Z -> Z -> M P (Z * Z);
  io_size : Z -> M P (Z * Z);
  io_read : Z -> Z -> Z -> M P (Z * list Z);
  io_close : Z -> M P Z;
  io_dev_close : Z -> M P Z;
  plat_try_next_boot_source : M P Z
}.

Section state.
Context {P : Type}.
Implicit Types (s : tb_state P).

Definition set_mem (m : memory) s : tb_state P :=
  TbState m (parser_lib_indices s) (auth_img_flags s) (bl1_tbbr_image_descs s) (sec_exec_image_id s)
    (bl1_fwu_loaded_ids s) (tb_plat s) (tb_log s).
Definition set_indices (l : list Z) s : tb_state P :=
  TbState (tb_mem s) l (auth_img_flags s) (bl1_tbbr_image_descs s) (sec_exec_image_id s)
    (bl1_fwu_loaded_ids s) (tb_plat s) (tb_log s).
Definition set_flags (l : list Z) s : tb_state P :=
  TbState (tb_mem s) (parser_lib_indices s) l (bl1_tbbr_image_descs s) (sec_exec_image_id s)
    (bl1_fwu_loaded_ids s) (tb_plat s) (tb_log s).
Definition set_descs (l : list image_desc_t) s : tb_state P :=
  TbState (tb_mem s) (parser_lib_indices s) (auth_img_flags s) l (sec_exec_image_id s)
    (bl1_fwu_loaded_ids s) (tb_plat s) (tb_log s).
Definition set_exec (i : Z) s : tb_state P :=
  TbState (tb_mem s) (parser_lib_indices s) (auth_img_flags s) (bl1_tbbr_image_descs s) i
    (bl1_fwu_loaded_ids s) (tb_plat s) (tb_log s).
Definition set_loaded (l : list Z) s : tb_state P :=
  TbState (tb_mem s) (parser_lib_indices s) (auth_img_flags s) (bl1_tbbr_image_descs s) (sec_exec_image_id s)
    l (tb_plat s) (tb_log s).
Definition set_tb_plat (p : P) s : tb_state P :=
  TbState (tb_mem s) (parser_lib_indices s) (auth_img_flags s) (bl1_tbbr_image_descs s) (sec_exec_image_id s)
    (bl1_fwu_loaded_ids s) p (tb_log s).
Definition set_tb_log (l : list tb_event) s : tb_state P :=
  TbState (tb_mem s) (parser_lib_indices s) (auth_img_flags s) (bl1_tbbr_image_descs s) (sec_exec_image_id s)
    (bl1_fwu_loaded_ids s) (tb_plat s) l.

Context `{!TbEnv P}.
#[local] Abbreviation TB := (M (tb_state P)).

Definition tb_assert (b : bool) : TB unit := if TB_ASSERTIONS && negb b then halt_with HAssert else ret tt.
Definition tb_emit (e : tb_event) : TB unit := modify (fun s => set_tb_log (e :: tb_log s) s).
Definition tb_hook {A} (m : M P A) : TB A := zoom tb_plat set_tb_plat m.
Definition load_bytes (a n : Z) : TB (list Z) := gets (fun s => read_bytes (tb_mem s) a n).
Definition store_bytes (a : Z) (bs : list Z) : TB unit := modify (fun s => set_mem (write_bytes (tb_mem s) a bs) s).
Definition flush_dcache_range (a n : Z) : TB unit := tb_emit (EvFlush a n).
Definition zero_normalmem (a n : Z) : TB unit := modify (fun s => set_mem (zero_bytes (tb_mem s) a n) s).

(** [return_if_error(rc)]: go on only when the call returned 0. *)
Definition return_if_error (m k : TB Z) : TB Z := let! rc := m in if rc =? 0 then k else ret rc.
End state.
