(* ===== verification/AuthMod.v ===== *)
(** * Trusted board boot: the authentication module

    drivers/auth/crypto_mod.c, img_parser_mod.c and auth_mod.c: the dispatch
    to the registered libraries, the authentication methods (hash, signature,
    non-volatile counter) and [auth_mod_verify_img]. *)
From stdpp Require Import base list numbers option strings.
From Stdlib Require Import ZArith Lia.
From S2P Require Import Prelude TbbDefs.
#[local] Open Scope Z_scope.

Definition ASN1_INTEGER : Z := 0x02.
Definition ROTPK_IS_HASH : Z := Z.shiftl 1 0.
Definition ROTPK_NOT_DEPLOYED : Z := Z.shiftl 1 1.
Definition INVALID_IDX : Z := 0xFFFFFFFF.

Section auth_mod.
Context {P : Type} `{!TbEnv P}.
#[local] Abbreviation TB := (M (tb_state P)).

(** ** crypto_mod.c *)
Definition crypto_mod_verify_signature (data_ptr data_len sig_ptr sig_len sig_alg_ptr sig_alg_len pk_ptr pk_len : Z) : TB Z :=
  tb_assert (truthy data_ptr) ;;; tb_assert (truthy data_len) ;;;
  tb_assert (truthy sig_ptr) ;;; tb_assert (truthy sig_len) ;;;
  tb_assert (truthy sig_alg_ptr) ;;; tb_assert (truthy sig_alg_len) ;;;
  tb_assert (truthy pk_ptr) ;;; tb_assert (truthy pk_len) ;;;
  let! data := load_bytes data_ptr data_len in
  let! sig := load_bytes sig_ptr sig_len in
  let! alg := load_bytes sig_alg_ptr sig_alg_len in
  let! pk := load_bytes pk_ptr pk_len in
  ret (crypto_verify_signature data sig alg pk).

Definition crypto_mod_verify_hash (data_ptr data_len digest_info_ptr digest_info_len : Z) : TB Z :=
  tb_assert (truthy data_ptr) ;;; tb_assert (truthy data_len) ;;;
  tb_assert (truthy digest_info_ptr) ;;; tb_assert (truthy digest_info_len) ;;;
  let! data := load_bytes data_ptr data_len in
  let! digest := load_bytes digest_info_ptr digest_info_len in
  ret (crypto_verify_hash data digest).

(** ** img_parser_mod.c *)

(** The loop over the registered parsers. *)
Fixpoint parser_init_loop (index : Z) (libs : list img_parser_lib_desc_t) : TB unit :=
  match libs with
  | [] => ret tt
  | l :: rest =>
      let t := img_type_value (lib_img_type l) in
      let! ix := gets parser_lib_indices in
      let! old := deref (arr_get ix t) in
      tb_assert (old =? INVALID_IDX) ;;;
      let! ix' := deref (arr_set ix t index) in
      modify (set_indices ix') ;;;
      parser_init_loop (index + 1) rest
  end.

Definition img_parser_init : TB unit :=
  modify (set_indices (replicate (Z.to_nat IMG_MAX_TYPES) INVALID_IDX)) ;;;
  tb_assert (negb (Z.of_nat (length parser_lib_descs) =? 0)) ;;;
  parser_init_loop 0 parser_lib_descs.

(** The parser registered for an image type. *)
Definition parser_of (t : img_type_t) : TB img_parser_lib_desc_t :=
  let! ix := gets parser_lib_indices in
  let! idx := deref (arr_get ix (img_type_value t)) in
  tb_assert (negb (idx =? INVALID_IDX)) ;;;
  deref (arr_get parser_lib_descs idx).

Definition img_parser_check_integrity (t : img_type_t) (img_ptr img_len : Z) : TB Z :=
  tb_assert (truthy img_ptr) ;;; tb_assert (truthy img_len) ;;;
  if decide (t = IMG_RAW) then ret IMG_PARSER_OK
  else
    let! lib := parser_of t in
    gets (fun s => check_integrity lib (tb_mem s) img_ptr img_len).

(** Returns the result code, the address and the length of the parameter. *)
Definition img_parser_get_auth_param (t : img_type_t) (type_desc : auth_param_type_desc_t) (img_ptr img_len : Z) :
    TB (Z * Z * Z) :=
  tb_assert (truthy img_ptr) ;;; tb_assert (truthy img_len) ;;;
  if decide (t = IMG_RAW) then
    tb_assert (bool_decide (type type_desc = AUTH_PARAM_RAW_DATA)) ;;;
    ret (IMG_PARSER_OK, img_ptr, img_len)
  else
    let! lib := parser_of t in
    gets (fun s => get_auth_param lib type_desc (tb_mem s) img_ptr img_len).

(** ** auth_mod.c *)
Definition cmp_auth_param_type_desc (a b : auth_param_type_desc_t) : Z :=
  if decide (a = b) then 0 else 1.

(** [for (i = 0; i < COT_MAX_VERIFIED_PARAMS; i++)]; a null [type_desc] is
    dereferenced by the comparison. *)
Fixpoint auth_get_param_loop (param_type_desc : auth_param_type_desc_t) (entries : list auth_param_desc_t) : TB (Z * Z * Z) :=
  match entries with
  | [] => ret (1, 0, 0)
  | e :: rest =>
      let! td := deref (type_desc e) in
      if cmp_auth_param_type_desc param_type_desc td =? 0 then ret (0, ptr (data e), len (data e))
      else auth_get_param_loop param_type_desc rest
  end.

Definition auth_get_param (param_type_desc : auth_param_type_desc_t) (img_desc : auth_img_desc_t) : TB (Z * Z * Z) :=
  auth_get_param_loop param_type_desc (take (Z.to_nat COT_MAX_VERIFIED_PARAMS) (authenticated_data img_desc)).

(** [&cot_desc_ptr[i]], and [img_desc->parent] where it is not null. *)
Definition cot_entry (i : Z) : TB auth_img_desc_t := deref (arr_get cot_desc_ptr i).
Definition parent_entry (img_desc : auth_img_desc_t) : TB auth_img_desc_t :=
  let! p := deref (parent img_desc) in cot_entry p.

Definition auth_hash (param : auth_method_param_hash_t) (img_desc : auth_img_desc_t) (img img_len : Z) : TB Z :=
  let! pd := parent_entry img_desc in
  let! h := auth_get_param (h_hash param) pd in
  if negb (h.1.1 =? 0) then ret h.1.1
  else
    let! d := img_parser_get_auth_param (img_type img_desc) (h_data param) img img_len in
    if negb (d.1.1 =? 0) then ret d.1.1
    else crypto_mod_verify_hash d.1.2 d.2 h.1.2 h.2.

(** The public key of the parent, or the root of trust key of the platform;
    the fourth component is [flags]. *)
Definition signing_key (param : auth_method_param_sig_t) (img_desc : auth_img_desc_t) : TB (Z * Z * Z * Z) :=
  match parent img_desc with
  | Some p => let! pd := cot_entry p in let! k := auth_get_param (s_pk param) pd in ret (k, 0)
  | None => tb_hook (plat_get_rotpk_info (cookie (s_pk param)))
  end.

Definition auth_signature (param : auth_method_param_sig_t) (img_desc : auth_img_desc_t) (img img_len : Z) : TB Z :=
  let! d := img_parser_get_auth_param (img_type img_desc) (s_data param) img img_len in
  if negb (d.1.1 =? 0) then ret d.1.1
  else
    let! sg := img_parser_get_auth_param (img_type img_desc) (s_sig param) img img_len in
    if negb (sg.1.1 =? 0) then ret sg.1.1
    else
      let! al := img_parser_get_auth_param (img_type img_desc) (s_alg param) img img_len in
      if negb (al.1.1 =? 0) then ret al.1.1
      else
        let! k := signing_key param img_desc in
        let '(rc, pk_ptr, pk_len, flags) := k in
        if negb (rc =? 0) then ret rc
        else if truthy (Z.land flags (Z.lor ROTPK_IS_HASH ROTPK_NOT_DEPLOYED)) then
          let! pk := img_parser_get_auth_param (img_type img_desc) (s_pk param) img img_len in
          if negb (pk.1.1 =? 0) then ret pk.1.1
          else
            return_if_error
              (crypto_mod_verify_signature d.1.2 d.2 sg.1.2 sg.2 al.1.2 al.2 pk.1.2 pk.2)
              (if truthy (Z.land flags ROTPK_NOT_DEPLOYED) then ret 0
               else crypto_mod_verify_hash pk.1.2 pk.2 pk_ptr pk_len)
        else crypto_mod_verify_signature d.1.2 d.2 sg.1.2 sg.2 al.1.2 al.2 pk_ptr pk_len.

(** The DER integer at [p]: [None] where the code returns 1. *)
Definition der_byte (m : memory) (p : Z) : Z := u8 (m p).
Definition nv_ctr_value (m : memory) (p : Z) : option Z :=
  if negb (der_byte m p =? ASN1_INTEGER) then None
  else
    let len := Z.land (der_byte m (p + 1)) 0x7f in
    if truthy (Z.land (der_byte m (p + 1)) 0x80) || (4 <? len) then None
    else if truthy (Z.land (der_byte m (p + 2)) 0x80) then None
    else Some (foldl (fun c i => Z.lor (u32 (Z.shiftl c 8)) (der_byte m (p + 2 + i))) 0 (seqZ 0 len)).

Definition auth_nvctr (param : auth_method_param_nv_ctr_t) (img_desc : auth_img_desc_t) (img img_len : Z) : TB Z :=
  let! d := img_parser_get_auth_param (img_type img_desc) (cert_nv_ctr param) img img_len in
  if negb (d.1.1 =? 0) then ret d.1.1
  else
    tb_assert (truthy d.1.2) ;;;
    let! v := gets (fun s => nv_ctr_value (tb_mem s) d.1.2) in
    match v with
    | None => ret 1
    | Some cert_ctr =>
        let! r := tb_hook (plat_get_nv_ctr (cookie (plat_nv_ctr param))) in
        if negb (r.1 =? 0) then ret r.1
        else if cert_ctr <? r.2 then ret 1
        else if r.2 <? cert_ctr then tb_hook (plat_set_nv_ctr (cookie (plat_nv_ctr param)) cert_ctr)
        else ret 0
    end.

(** Returns the result code and, when it is 0, the parent's identifier. *)
Definition auth_mod_get_parent_id (img_id0 : Z) : TB (Z * Z) :=
  let! img_desc := cot_entry img_id0 in
  match parent img_desc with
  | None => ret (1, 0)
  | Some p =>
      let! pd := cot_entry p in
      let! fl := gets auth_img_flags in
      let! f := deref (arr_get fl (img_id pd)) in
      if truthy (Z.land f IMG_FLAG_AUTHENTICATED) then ret (1, 0) else ret (0, img_id pd)
  end.

Definition auth_mod_init : TB unit :=
  tb_assert (negb (Z.of_nat (length cot_desc_ptr) =? 0)) ;;; img_parser_init.

Definition auth_one_method (method : auth_method_desc_t) (img_desc : auth_img_desc_t) (img_ptr img_len : Z) : TB Z :=
  match method with
  | AUTH_METHOD_NONE => ret 0
  | AUTH_METHOD_HASH p => auth_hash p img_desc img_ptr img_len
  | AUTH_METHOD_SIG p => auth_signature p img_desc img_ptr img_len
  | AUTH_METHOD_NV_CTR p => auth_nvctr p img_desc img_ptr img_len
  | AUTH_METHOD_UNKNOWN => ret 1
  end.

(** The loop over the methods: stops at the first error. *)
Fixpoint auth_methods_loop (methods : list auth_method_desc_t) (img_desc : auth_img_desc_t) (img_ptr img_len : Z) : TB Z :=
  match methods with
  | [] => ret 0
  | m :: rest =>
      return_if_error (auth_one_method m img_desc img_ptr img_len) (auth_methods_loop rest img_desc img_ptr img_len)
  end.

(** The loop that saves the parameters for the children. *)
Fixpoint auth_params_loop (entries : list auth_param_desc_t) (img_desc : auth_img_desc_t) (img_ptr img_len : Z) : TB Z :=
  match entries with
  | [] => ret 0
  | e :: rest =>
      match type_desc e with
      | None => auth_params_loop rest img_desc img_ptr img_len
      | Some td =>
          let! d := img_parser_get_auth_param (img_type img_desc) td img_ptr img_len in
          if negb (d.1.1 =? 0) then ret d.1.1
          else if len (data e) <? d.2 then ret 1
          else
            let! bs := load_bytes d.1.2 d.2 in
            store_bytes (ptr (data e)) bs ;;;
            auth_params_loop rest img_desc img_ptr img_len
      end
  end.

(** [auth_img_flags[img_desc->img_id] |= IMG_FLAG_AUTHENTICATED; return 0] *)
Definition mark_authenticated (img_desc : auth_img_desc_t) : TB Z :=
  let! fl := gets auth_img_flags in
  let! f := deref (arr_get fl (img_id img_desc)) in
  let! fl' := deref (arr_set fl (img_id img_desc) (Z.lor f IMG_FLAG_AUTHENTICATED)) in
  modify (set_flags fl') ;;;
  ret 0.

Definition auth_mod_verify_img (img_id0 img_ptr img_len : Z) : TB Z :=
  let! img_desc := cot_entry img_id0 in
  return_if_error (img_parser_check_integrity (img_type img_desc) img_ptr img_len)
   (return_if_error (auth_methods_loop (take (Z.to_nat AUTH_METHOD_NUM) (img_auth_methods img_desc)) img_desc img_ptr img_len)
    (return_if_error (auth_params_loop (take (Z.to_nat COT_MAX_VERIFIED_PARAMS) (authenticated_data img_desc)) img_desc img_ptr img_len)
      (mark_authenticated img_desc))).
End auth_mod.
