(* ===== verification/TbbrCot.v ===== *)
(** * Trusted board boot: the TBBR chain of trust

    The table of drivers/auth/tbbr/tbbr_cot.c, entry by entry, with the image
    identifiers of tbbr_img_def.h and the OID strings of tbbr_oid.h.  The
    linker places the buffers; their addresses are the class [CotBufs].  The
    entries the table does not initialise are zero: no parent, no
    authentication method, no parameters. *)
From stdpp Require Import base list numbers option strings.
From Stdlib Require Import ZArith Lia.
From S2P Require Import Prelude TbbDefs.
#[local] Open Scope Z_scope.

(** ** Image identifiers *)
Definition FIP_IMAGE_ID : Z := 0.
Definition BL2_IMAGE_ID : Z := 1.
Definition SCP_BL2_IMAGE_ID : Z := 2.
Definition BL31_IMAGE_ID : Z := 3.
Definition BL32_IMAGE_ID : Z := 4.
Definition BL33_IMAGE_ID : Z := 5.
Definition TRUSTED_BOOT_FW_CERT_ID : Z := 6.
Definition TRUSTED_KEY_CERT_ID : Z := 7.
Definition SCP_FW_KEY_CERT_ID : Z := 8.
Definition SOC_FW_KEY_CERT_ID : Z := 9.
Definition TRUSTED_OS_FW_KEY_CERT_ID : Z := 10.
Definition NON_TRUSTED_FW_KEY_CERT_ID : Z := 11.
Definition SCP_FW_CONTENT_CERT_ID : Z := 12.
Definition SOC_FW_CONTENT_CERT_ID : Z := 13.
Definition TRUSTED_OS_FW_CONTENT_CERT_ID : Z := 14.
Definition NON_TRUSTED_FW_CONTENT_CERT_ID : Z := 15.
Definition NS_BL1U_IMAGE_ID : Z := 16.
Definition FWU_CERT_ID : Z := 17.
Definition SCP_BL2U_IMAGE_ID : Z := 18.
Definition BL2U_IMAGE_ID : Z := 19.
Definition NS_BL2U_IMAGE_ID : Z := 20.
Definition BL32_EXTRA1_IMAGE_ID : Z := 21.
Definition BL32_EXTRA2_IMAGE_ID : Z := 22.
Definition HW_CONFIG_ID : Z := 23.
Definition TB_FW_CONFIG_ID : Z := 24.
Definition SOC_FW_CONFIG_ID : Z := 25.
Definition TOS_FW_CONFIG_ID : Z := 26.
Definition NT_FW_CONFIG_ID : Z := 27.

(** ** Buffers for the extracted parameters *)
Definition PK_DER_LEN : Z := 294.
Definition HASH_DER_LEN : Z := 83.

Inductive cot_buf : Type :=
| tb_fw_hash_buf
| tb_fw_config_hash_buf
| hw_config_hash_buf
| scp_fw_hash_buf
| soc_fw_hash_buf
| tos_fw_hash_buf
| tos_fw_extra1_hash_buf
| tos_fw_extra2_hash_buf
| nt_world_bl_hash_buf
| trusted_world_pk_buf
| non_trusted_world_pk_buf
| content_pk_buf.

#[global] Instance cot_buf_eq_dec : EqDecision cot_buf.
Proof. solve_decision. Defined.

Definition all_bufs : list cot_buf :=
  [tb_fw_hash_buf; tb_fw_config_hash_buf; hw_config_hash_buf; scp_fw_hash_buf; soc_fw_hash_buf; tos_fw_hash_buf; tos_fw_extra1_hash_buf; tos_fw_extra2_hash_buf; nt_world_bl_hash_buf; trusted_world_pk_buf; non_trusted_world_pk_buf; content_pk_buf].

Definition buf_size (b : cot_buf) : Z :=
  match b with
  | trusted_world_pk_buf | non_trusted_world_pk_buf | content_pk_buf => PK_DER_LEN
  | _ => HASH_DER_LEN
  end.

Class CotBufs : Type := buf_addr : cot_buf -> Z.

(** ** Parameter types *)
Definition trusted_nv_ctr : auth_param_type_desc_t := ParamType AUTH_PARAM_NV_CTR (Some "1.3.6.1.4.1.4128.2100.1"%string).
Definition non_trusted_nv_ctr : auth_param_type_desc_t := ParamType AUTH_PARAM_NV_CTR (Some "1.3.6.1.4.1.4128.2100.2"%string).
Definition subject_pk : auth_param_type_desc_t := ParamType AUTH_PARAM_PUB_KEY None.
Definition sig : auth_param_type_desc_t := ParamType AUTH_PARAM_SIG None.
Definition sig_alg : auth_param_type_desc_t := ParamType AUTH_PARAM_SIG_ALG None.
Definition raw_data : auth_param_type_desc_t := ParamType AUTH_PARAM_RAW_DATA None.
Definition trusted_world_pk : auth_param_type_desc_t := ParamType AUTH_PARAM_PUB_KEY (Some "1.3.6.1.4.1.4128.2100.302"%string).
Definition non_trusted_world_pk : auth_param_type_desc_t := ParamType AUTH_PARAM_PUB_KEY (Some "1.3.6.1.4.1.4128.2100.303"%string).
Definition scp_fw_content_pk : auth_param_type_desc_t := ParamType AUTH_PARAM_PUB_KEY (Some "1.3.6.1.4.1.4128.2100.701"%string).
Definition soc_fw_content_pk : auth_param_type_desc_t := ParamType AUTH_PARAM_PUB_KEY (Some "1.3.6.1.4.1.4128.2100.501"%string).
Definition tos_fw_content_pk : auth_param_type_desc_t := ParamType AUTH_PARAM_PUB_KEY (Some "1.3.6.1.4.1.4128.2100.901"%string).
Definition nt_fw_content_pk : auth_param_type_desc_t := ParamType AUTH_PARAM_PUB_KEY (Some "1.3.6.1.4.1.4128.2100.1101"%string).
Definition tb_fw_hash : auth_param_type_desc_t := ParamType AUTH_PARAM_HASH (Some "1.3.6.1.4.1.4128.2100.201"%string).
Definition tb_fw_config_hash : auth_param_type_desc_t := ParamType AUTH_PARAM_HASH (Some "1.3.6.1.4.1.4128.2100.202"%string).
Definition hw_config_hash : auth_param_type_desc_t := ParamType AUTH_PARAM_HASH (Some "1.3.6.1.4.1.4128.2100.203"%string).
Definition scp_fw_hash : auth_param_type_desc_t := ParamType AUTH_PARAM_HASH (Some "1.3.6.1.4.1.4128.2100.801"%string).
Definition soc_fw_hash : auth_param_type_desc_t := ParamType AUTH_PARAM_HASH (Some "1.3.6.1.4.1.4128.2100.603"%string).
Definition tos_fw_hash : auth_param_type_desc_t := ParamType AUTH_PARAM_HASH (Some "1.3.6.1.4.1.4128.2100.1001"%string).
Definition tos_fw_extra1_hash : auth_param_type_desc_t := ParamType AUTH_PARAM_HASH (Some "1.3.6.1.4.1.4128.2100.1002"%string).
Definition tos_fw_extra2_hash : auth_param_type_desc_t := ParamType AUTH_PARAM_HASH (Some "1.3.6.1.4.1.4128.2100.1003"%string).
Definition nt_world_bl_hash : auth_param_type_desc_t := ParamType AUTH_PARAM_HASH (Some "1.3.6.1.4.1.4128.2100.1201"%string).
Definition scp_bl2u_hash : auth_param_type_desc_t := ParamType AUTH_PARAM_HASH (Some "1.3.6.1.4.1.4128.2100.102"%string).
Definition bl2u_hash : auth_param_type_desc_t := ParamType AUTH_PARAM_HASH (Some "1.3.6.1.4.1.4128.2100.101"%string).
Definition ns_bl2u_hash : auth_param_type_desc_t := ParamType AUTH_PARAM_HASH (Some "1.3.6.1.4.1.4128.2100.103"%string).

(** ** The table *)
Section cot.
Context `{!CotBufs}.

(** Designated initialisers: the remaining elements of the arrays are zero. *)
Definition methods (l : list auth_method_desc_t) : list auth_method_desc_t :=
  l ++ replicate (Z.to_nat AUTH_METHOD_NUM - length l) AUTH_METHOD_NONE.
Definition no_param : auth_param_desc_t := ParamDesc None (ParamData 0 0).
Definition params (l : list auth_param_desc_t) : list auth_param_desc_t :=
  l ++ replicate (Z.to_nat COT_MAX_VERIFIED_PARAMS - length l) no_param.
Definition saved (t : auth_param_type_desc_t) (b : cot_buf) (n : Z) : auth_param_desc_t :=
  ParamDesc (Some t) (ParamData (buf_addr b) n).
Definition cot_none : auth_img_desc_t := AuthImgDesc 0 IMG_RAW None (methods []) (params []).

Definition cot_TRUSTED_BOOT_FW_CERT_ID : auth_img_desc_t :=
  AuthImgDesc TRUSTED_BOOT_FW_CERT_ID IMG_CERT None
    (methods [AUTH_METHOD_SIG (SigParam subject_pk sig sig_alg raw_data);
              AUTH_METHOD_NV_CTR (NvCtrParam trusted_nv_ctr trusted_nv_ctr)])
    (params [saved tb_fw_hash tb_fw_hash_buf HASH_DER_LEN; saved tb_fw_config_hash tb_fw_config_hash_buf HASH_DER_LEN; saved hw_config_hash hw_config_hash_buf HASH_DER_LEN]).
Definition cot_BL2_IMAGE_ID : auth_img_desc_t :=
  AuthImgDesc BL2_IMAGE_ID IMG_RAW (Some TRUSTED_BOOT_FW_CERT_ID)
    (methods [AUTH_METHOD_HASH (HashParam raw_data tb_fw_hash)])
    (params []).
Definition cot_HW_CONFIG_ID : auth_img_desc_t :=
  AuthImgDesc HW_CONFIG_ID IMG_RAW (Some TRUSTED_BOOT_FW_CERT_ID)
    (methods [AUTH_METHOD_HASH (HashParam raw_data hw_config_hash)])
    (params []).
Definition cot_TB_FW_CONFIG_ID : auth_img_desc_t :=
  AuthImgDesc TB_FW_CONFIG_ID IMG_RAW (Some TRUSTED_BOOT_FW_CERT_ID)
    (methods [AUTH_METHOD_HASH (HashParam raw_data tb_fw_config_hash)])
    (params []).
Definition cot_TRUSTED_KEY_CERT_ID : auth_img_desc_t :=
  AuthImgDesc TRUSTED_KEY_CERT_ID IMG_CERT None
    (methods [AUTH_METHOD_SIG (SigParam subject_pk sig sig_alg raw_data);
              AUTH_METHOD_NV_CTR (NvCtrParam trusted_nv_ctr trusted_nv_ctr)])
    (params [saved trusted_world_pk trusted_world_pk_buf PK_DER_LEN; saved non_trusted_world_pk non_trusted_world_pk_buf PK_DER_LEN]).
Definition cot_SCP_FW_KEY_CERT_ID : auth_img_desc_t :=
  AuthImgDesc SCP_FW_KEY_CERT_ID IMG_CERT (Some TRUSTED_KEY_CERT_ID)
    (methods [AUTH_METHOD_SIG (SigParam trusted_world_pk sig sig_alg raw_data);
              AUTH_METHOD_NV_CTR (NvCtrParam trusted_nv_ctr trusted_nv_ctr)])
    (params [saved scp_fw_content_pk content_pk_buf PK_DER_LEN]).
Definition cot_SCP_FW_CONTENT_CERT_ID : auth_img_desc_t :=
  AuthImgDesc SCP_FW_CONTENT_CERT_ID IMG_CERT (Some SCP_FW_KEY_CERT_ID)
    (methods [AUTH_METHOD_SIG (SigParam scp_fw_content_pk sig sig_alg raw_data);
              AUTH_METHOD_NV_CTR (NvCtrParam trusted_nv_ctr trusted_nv_ctr)])
    (params [saved scp_fw_hash scp_fw_hash_buf HASH_DER_LEN]).
Definition cot_SCP_BL2_IMAGE_ID : auth_img_desc_t :=
  AuthImgDesc SCP_BL2_IMAGE_ID IMG_RAW (Some SCP_FW_CONTENT_CERT_ID)
    (methods [AUTH_METHOD_HASH (HashParam raw_data scp_fw_hash)])
    (params []).
Definition cot_SOC_FW_KEY_CERT_ID : auth_img_desc_t :=
  AuthImgDesc SOC_FW_KEY_CERT_ID IMG_CERT (Some TRUSTED_KEY_CERT_ID)
    (methods [AUTH_METHOD_SIG (SigParam trusted_world_pk sig sig_alg raw_data);
              AUTH_METHOD_NV_CTR (NvCtrParam trusted_nv_ctr trusted_nv_ctr)])
    (params [saved soc_fw_content_pk content_pk_buf PK_DER_LEN]).
Definition cot_SOC_FW_CONTENT_CERT_ID : auth_img_desc_t :=
  AuthImgDesc SOC_FW_CONTENT_CERT_ID IMG_CERT (Some SOC_FW_KEY_CERT_ID)
    (methods [AUTH_METHOD_SIG (SigParam soc_fw_content_pk sig sig_alg raw_data);
              AUTH_METHOD_NV_CTR (NvCtrParam trusted_nv_ctr trusted_nv_ctr)])
    (params [saved soc_fw_hash soc_fw_hash_buf HASH_DER_LEN]).
Definition cot_BL31_IMAGE_ID : auth_img_desc_t :=
  AuthImgDesc BL31_IMAGE_ID IMG_RAW (Some SOC_FW_CONTENT_CERT_ID)
    (methods [AUTH_METHOD_HASH (HashParam raw_data soc_fw_hash)])
    (params []).
Definition cot_TRUSTED_OS_FW_KEY_CERT_ID : auth_img_desc_t :=
  AuthImgDesc TRUSTED_OS_FW_KEY_CERT_ID IMG_CERT (Some TRUSTED_KEY_CERT_ID)
    (methods [AUTH_METHOD_SIG (SigParam trusted_world_pk sig sig_alg raw_data);
              AUTH_METHOD_NV_CTR (NvCtrParam trusted_nv_ctr trusted_nv_ctr)])
    (params [saved tos_fw_content_pk content_pk_buf PK_DER_LEN]).
Definition cot_TRUSTED_OS_FW_CONTENT_CERT_ID : auth_img_desc_t :=
  AuthImgDesc TRUSTED_OS_FW_CONTENT_CERT_ID IMG_CERT (Some TRUSTED_OS_FW_KEY_CERT_ID)
    (methods [AUTH_METHOD_SIG (SigParam tos_fw_content_pk sig sig_alg raw_data);
              AUTH_METHOD_NV_CTR (NvCtrParam trusted_nv_ctr trusted_nv_ctr)])
    (params [saved tos_fw_hash tos_fw_hash_buf HASH_DER_LEN; saved tos_fw_extra1_hash tos_fw_extra1_hash_buf HASH_DER_LEN; saved tos_fw_extra2_hash tos_fw_extra2_hash_buf HASH_DER_LEN]).
Definition cot_BL32_IMAGE_ID : auth_img_desc_t :=
  AuthImgDesc BL32_IMAGE_ID IMG_RAW (Some TRUSTED_OS_FW_CONTENT_CERT_ID)
    (methods [AUTH_METHOD_HASH (HashParam raw_data tos_fw_hash)])
    (params []).
Definition cot_BL32_EXTRA1_IMAGE_ID : auth_img_desc_t :=
  AuthImgDesc BL32_EXTRA1_IMAGE_ID IMG_RAW (Some TRUSTED_OS_FW_CONTENT_CERT_ID)
    (methods [AUTH_METHOD_HASH (HashParam raw_data tos_fw_extra1_hash)])
    (params []).
Definition cot_BL32_EXTRA2_IMAGE_ID : auth_img_desc_t :=
  AuthImgDesc BL32_EXTRA2_IMAGE_ID IMG_RAW (Some TRUSTED_OS_FW_CONTENT_CERT_ID)
    (methods [AUTH_METHOD_HASH (HashParam raw_data tos_fw_extra2_hash)])
    (params []).
Definition cot_NON_TRUSTED_FW_KEY_CERT_ID : auth_img_desc_t :=
  AuthImgDesc NON_TRUSTED_FW_KEY_CERT_ID IMG_CERT (Some TRUSTED_KEY_CERT_ID)
    (methods [AUTH_METHOD_SIG (SigParam non_trusted_world_pk sig sig_alg raw_data);
              AUTH_METHOD_NV_CTR (NvCtrParam non_trusted_nv_ctr non_trusted_nv_ctr)])
    (params [saved nt_fw_content_pk content_pk_buf PK_DER_LEN]).
Definition cot_NON_TRUSTED_FW_CONTENT_CERT_ID : auth_img_desc_t :=
  AuthImgDesc NON_TRUSTED_FW_CONTENT_CERT_ID IMG_CERT (Some NON_TRUSTED_FW_KEY_CERT_ID)
    (methods [AUTH_METHOD_SIG (SigParam nt_fw_content_pk sig sig_alg raw_data);
              AUTH_METHOD_NV_CTR (NvCtrParam non_trusted_nv_ctr non_trusted_nv_ctr)])
    (params [saved nt_world_bl_hash nt_world_bl_hash_buf HASH_DER_LEN]).
Definition cot_BL33_IMAGE_ID : auth_img_desc_t :=
  AuthImgDesc BL33_IMAGE_ID IMG_RAW (Some NON_TRUSTED_FW_CONTENT_CERT_ID)
    (methods [AUTH_METHOD_HASH (HashParam raw_data nt_world_bl_hash)])
    (params []).
Definition cot_FWU_CERT_ID : auth_img_desc_t :=
  AuthImgDesc FWU_CERT_ID IMG_CERT None
    (methods [AUTH_METHOD_SIG (SigParam subject_pk sig sig_alg raw_data)])
    (params [saved scp_bl2u_hash scp_fw_hash_buf HASH_DER_LEN; saved bl2u_hash tb_fw_hash_buf HASH_DER_LEN; saved ns_bl2u_hash nt_world_bl_hash_buf HASH_DER_LEN]).
Definition cot_SCP_BL2U_IMAGE_ID : auth_img_desc_t :=
  AuthImgDesc SCP_BL2U_IMAGE_ID IMG_RAW (Some FWU_CERT_ID)
    (methods [AUTH_METHOD_HASH (HashParam raw_data scp_bl2u_hash)])
    (params []).
Definition cot_BL2U_IMAGE_ID : auth_img_desc_t :=
  AuthImgDesc BL2U_IMAGE_ID IMG_RAW (Some FWU_CERT_ID)
    (methods [AUTH_METHOD_HASH (HashParam raw_data bl2u_hash)])
    (params []).
Definition cot_NS_BL2U_IMAGE_ID : auth_img_desc_t :=
  AuthImgDesc NS_BL2U_IMAGE_ID IMG_RAW (Some FWU_CERT_ID)
    (methods [AUTH_METHOD_HASH (HashParam raw_data ns_bl2u_hash)])
    (params []).

Definition cot_desc : list auth_img_desc_t :=
  [cot_none;
   cot_BL2_IMAGE_ID;
   cot_SCP_BL2_IMAGE_ID;
   cot_BL31_IMAGE_ID;
   cot_BL32_IMAGE_ID;
   cot_BL33_IMAGE_ID;
   cot_TRUSTED_BOOT_FW_CERT_ID;
   cot_TRUSTED_KEY_CERT_ID;
   cot_SCP_FW_KEY_CERT_ID;
   cot_SOC_FW_KEY_CERT_ID;
   cot_TRUSTED_OS_FW_KEY_CERT_ID;
   cot_NON_TRUSTED_FW_KEY_CERT_ID;
   cot_SCP_FW_CONTENT_CERT_ID;
   cot_SOC_FW_CONTENT_CERT_ID;
   cot_TRUSTED_OS_FW_CONTENT_CERT_ID;
   cot_NON_TRUSTED_FW_CONTENT_CERT_ID;
   cot_none;
   cot_FWU_CERT_ID;
   cot_SCP_BL2U_IMAGE_ID;
   cot_BL2U_IMAGE_ID;
   cot_NS_BL2U_IMAGE_ID;
   cot_BL32_EXTRA1_IMAGE_ID;
   cot_BL32_EXTRA2_IMAGE_ID;
   cot_HW_CONFIG_ID;
   cot_TB_FW_CONFIG_ID].
End cot.
