(* ===== verification/BlCommon.v ===== *)
(** * Image loading (common/bl_common.c)

    Memory layout arithmetic ([page_align], [is_mem_free], [reserve_mem]), the
    two variants of [load_image] that LOAD_IMAGE_V2 selects, and the recursive
    [load_auth_image] that authenticates the parents of an image first.
    Output arguments are returned next to the result code. *)
From stdpp Require Import base list numbers option strings.
From Stdlib Require Import ZArith Lia.
From S2P Require Import Prelude TbbDefs AuthMod.
#[local] Open Scope Z_scope.

(** [U(1) << 12]: PAGE_SIZE and its complement have type [unsigned int]. *)
Definition PAGE_SIZE : Z := 4096.
Definition UP : Z := 1.
Definition DOWN : Z := 0.
Definition TOP : Z := 0x1.
Definition BOTTOM : Z := 0x0.

Definition page_align (value dir : Z) : Z :=
  if truthy (Z.land value (PAGE_SIZE - 1)) then
    let value := Z.land value (u32 (Z.lnot (PAGE_SIZE - 1))) in
    if dir =? UP then u64 (value + PAGE_SIZE) else value
  else value.

Definition is_mem_free (free_base free_size addr size : Z) : bool :=
  if size =? 0 then true
  else if free_size =? 0 then false
  else if check_uptr_overflow free_base (free_size - 1) then false
  else
    let free_end := free_base + (free_size - 1) in
    if check_uptr_overflow addr (size - 1) then false
    else
      let requested_end := addr + (size - 1) in
      (free_base <=? addr) && (requested_end <=? free_end).

(** What [load_image] writes through its pointer arguments: the memory layout,
    the image information and the program counter of the entry point, if the
    caller passes one. *)
Record load_out : Type := LoadOut { lo_layout : meminfo_t; lo_info : image_info_t; lo_pc : option Z }.

Section bl_common.
Context {P : Type} `{!TbEnv P}.
#[local] Abbreviation TB := (M (tb_state P)).

(** Returns the position and [*small_chunk_size]. *)
Definition choose_mem_pos (mem_start mem_end submem_start submem_end : Z) : TB (Z * Z) :=
  tb_assert (mem_start <=? submem_start) ;;;
  tb_assert (submem_start <=? submem_end) ;;;
  tb_assert (submem_end <=? mem_end) ;;;
  let top_chunk_size := u64 (mem_end - submem_end) in
  let bottom_chunk_size := u64 (submem_start - mem_start) in
  ret (if top_chunk_size <? bottom_chunk_size then (TOP, top_chunk_size) else (BOTTOM, bottom_chunk_size)).

(** Returns the updated [*free_base] and [*free_size]. *)
Definition reserve_mem (free_base free_size addr size : Z) : TB (Z * Z) :=
  tb_assert (is_mem_free free_base free_size addr size) ;;;
  if size =? 0 then ret (free_base, free_size)
  else
    let! c := choose_mem_pos free_base (u64 (free_base + (free_size - 1))) addr (u64 (addr + (size - 1))) in
    let reserved_size := u64 (size + c.2) in
    ret (if c.1 =? BOTTOM then u64 (addr + size) else free_base, u64 (free_size - reserved_size)).

(** The common part of both variants: look the image up, open it, find its
    size (a [size_t]), run [k] on the handle and the size, close it.  [k] yields the result
    code and the output data. *)
Definition with_image {A} (image_id : Z) (out : A) (k : Z -> Z -> TB (Z * A)) : TB (Z * A) :=
  let! src := tb_hook (plat_get_image_source image_id) in
  let '(rc, dev, spec) := src in
  if negb (rc =? 0) then ret (rc, out)
  else
    let! o := tb_hook (io_open dev spec) in
    if negb (o.1 =? 0) then ret (o.1, out)
    else
      let! sz := tb_hook (io_size o.2) in
      let size := u64 sz.2 in
      let! r := (if negb (sz.1 =? 0) || (size =? 0) then ret (sz.1, out) else k o.2 size) in
      tb_hook (io_close o.2) ;;;
      tb_hook (io_dev_close dev) ;;;
      ret r.

(** [image_size()]: the size of an image, 0 when it cannot be opened. *)
Definition size_of_image (image_id : Z) : TB Z :=
  let! src := tb_hook (plat_get_image_source image_id) in
  let '(rc, dev, spec) := src in
  if negb (rc =? 0) then ret 0
  else
    let! o := tb_hook (io_open dev spec) in
    if negb (o.1 =? 0) then ret 0
    else
      let! sz := tb_hook (io_size o.2) in
      tb_hook (io_close o.2) ;;;
      tb_hook (io_dev_close dev) ;;;
      ret (u64 sz.2).

(** [io_read] into [image_base]; returns the result code and [bytes_read]. *)
Definition read_image (handle image_base image_size : Z) : TB (Z * Z) :=
  let! r := tb_hook (io_read handle image_base image_size) in
  store_bytes image_base r.2 ;;;
  ret (r.1, Z.of_nat (length r.2)).

(** [load_image] with LOAD_IMAGE_V2: the size is limited by the descriptor. *)
Definition load_image_v2 (image_id : Z) (image_data : image_info_t) : TB (Z * image_info_t) :=
  with_image image_id image_data (fun handle size =>
    if image_max_size image_data <? size then ret (- EFBIG, image_data)
    else
      let image_data' := ImageInfo (image_base image_data) (u32 size) (image_max_size image_data) in
      let! r := read_image handle (image_base image_data) size in
      ret (r.1, image_data')).

(** [load_image] without LOAD_IMAGE_V2: the memory must be free; when the
    caller passes an entry point ([pc] is its program counter) the memory is
    reserved and the program counter set. *)
Definition load_image_v1 (image_id image_base0 : Z) (o : load_out) : TB (Z * load_out) :=
  let mem_layout := lo_layout o in
  with_image image_id o (fun handle size =>
    if negb (is_mem_free (free_base mem_layout) (free_size mem_layout) image_base0 size)
    then ret (- ENOMEM, o)
    else
      let! r := read_image handle image_base0 size in
      if negb (r.1 =? 0) || (r.2 <? size) then ret (r.1, o)
      else
        let info := ImageInfo image_base0 (u32 size) (image_max_size (lo_info o)) in
        let! o' := (match lo_pc o with
                    | Some _ =>
                        let! f := reserve_mem (free_base mem_layout) (free_size mem_layout) image_base0 size in
                        ret (LoadOut (MemInfo (total_base mem_layout) (total_size mem_layout) f.1 f.2) info (Some image_base0))
                    | None => ret (LoadOut mem_layout info None)
                    end) in
        when (negb TRUSTED_BOARD_BOOT) (flush_dcache_range image_base0 size) ;;;
        ret (r.1, o')).

(** Authentication after the load: on an error the memory is cleared. *)
Definition auth_loaded (image_id : Z) (info : image_info_t) : TB Z :=
  if TRUSTED_BOARD_BOOT then
    let! rc := auth_mod_verify_img image_id (image_base info) (image_size info) in
    if rc =? 0 then ret 0
    else
      zero_normalmem (image_base info) (image_size info) ;;;
      flush_dcache_range (image_base info) (image_size info) ;;;
      ret (- EAUTH)
  else ret 0.

(** [load_auth_image_internal] with LOAD_IMAGE_V2, after the parents: load the
    image and authenticate it. *)
Definition load_then_auth_v2 (image_id : Z) (image_data : image_info_t) (is_parent_image : bool) : TB (Z * image_info_t) :=
  let! r := load_image_v2 image_id image_data in
  if negb (r.1 =? 0) then ret r
  else
    let! rc := auth_loaded image_id r.2 in
    if negb (rc =? 0) then ret (rc, r.2)
    else
      when (negb is_parent_image) (flush_dcache_range (image_base r.2) (image_size r.2)) ;;;
      ret (0, r.2).

(** The recursion over the parents, which are loaded into the same memory;
    [fuel] bounds its depth. *)
Fixpoint load_auth_image_internal_v2 (fuel : nat) (image_id : Z) (image_data : image_info_t) (is_parent_image : bool) :
    TB (Z * image_info_t) :=
  match fuel with
  | O => halt_with HHang
  | S fuel' =>
      if TRUSTED_BOARD_BOOT then
        let! p := auth_mod_get_parent_id image_id in
        if p.1 =? 0 then
          let! r := load_auth_image_internal_v2 fuel' p.2 image_data true in
          if negb (r.1 =? 0) then ret r else load_then_auth_v2 image_id r.2 is_parent_image
        else load_then_auth_v2 image_id image_data is_parent_image
      else load_then_auth_v2 image_id image_data is_parent_image
  end.

(** The same without LOAD_IMAGE_V2; parents are loaded at the same address and
    without an entry point. *)
Definition load_then_auth_v1 (image_id image_base0 : Z) (o : load_out) (is_parent_image : bool) : TB (Z * load_out) :=
  let! r := load_image_v1 image_id image_base0 o in
  if negb (r.1 =? 0) then ret r
  else
    let! rc := auth_loaded image_id (lo_info r.2) in
    if negb (rc =? 0) then ret (rc, r.2)
    else
      when (TRUSTED_BOARD_BOOT && negb is_parent_image)
        (flush_dcache_range (image_base (lo_info r.2)) (image_size (lo_info r.2))) ;;;
      ret (0, r.2).

Fixpoint load_auth_image_internal_v1 (fuel : nat) (image_id image_base0 : Z) (o : load_out) (is_parent_image : bool) :
    TB (Z * load_out) :=
  match fuel with
  | O => halt_with HHang
  | S fuel' =>
      if TRUSTED_BOARD_BOOT then
        let! p := auth_mod_get_parent_id image_id in
        if p.1 =? 0 then
          let! r := load_auth_image_internal_v1 fuel' p.2 image_base0 (LoadOut (lo_layout o) (lo_info o) None) true in
          let o' := LoadOut (lo_layout r.2) (lo_info r.2) (lo_pc o) in
          if negb (r.1 =? 0) then ret (r.1, o') else load_then_auth_v1 image_id image_base0 o' is_parent_image
        else load_then_auth_v1 image_id image_base0 o is_parent_image
      else load_then_auth_v1 image_id image_base0 o is_parent_image
  end.

(** The [do ... while] loop over the boot sources; [tries] bounds it. *)
Fixpoint load_auth_image_v2 (tries fuel : nat) (image_id : Z) (image_data : image_info_t) : TB (Z * image_info_t) :=
  match tries with
  | O => halt_with HHang
  | S tries' =>
      let! r := load_auth_image_internal_v2 fuel image_id image_data false in
      if r.1 =? 0 then ret r
      else
        let! again := tb_hook plat_try_next_boot_source in
        if truthy again then load_auth_image_v2 tries' fuel image_id r.2 else ret r
  end.

Fixpoint load_auth_image_v1 (tries fuel : nat) (image_id image_base0 : Z) (o : load_out) : TB (Z * load_out) :=
  match tries with
  | O => halt_with HHang
  | S tries' =>
      let! r := load_auth_image_internal_v1 fuel image_id image_base0 o false in
      if r.1 =? 0 then ret r
      else
        let! again := tb_hook plat_try_next_boot_source in
        if truthy again then load_auth_image_v1 tries' fuel image_id image_base0 r.2 else ret r
  end.
End bl_common.
