(* ===== verification/Bl1Fwu.v ===== *)
(** * Firmware update in BL1 (bl1/bl1_fwu.c)

    The update service that the normal world drives through SMCs: images are
    copied block by block into secure memory, authenticated, executed,
    interrupted, resumed and reset.  The image descriptors are looked up as in
    plat/arm/common/arm_bl1_fwu.c; [bl1_prepare_next_image] is the AArch64
    version of bl1/aarch64/bl1_context_mgmt.c. *)
From stdpp Require Import base list numbers option strings.
From Stdlib Require Import ZArith Lia.
From S2P Require Import Prelude TbbDefs AuthMod BlCommon.
#[local] Open Scope Z_scope.

Definition BL1_SMC_CALL_COUNT : Z := 0x0.
Definition BL1_SMC_UID : Z := 0x1.
Definition BL1_SMC_VERSION : Z := 0x3.
Definition BL1_SMC_MAJOR_VER : Z := 0x0.
Definition BL1_SMC_MINOR_VER : Z := 0x1.
Definition FWU_SMC_IMAGE_COPY : Z := 0x10.
Definition FWU_SMC_IMAGE_AUTH : Z := 0x11.
Definition FWU_SMC_IMAGE_EXECUTE : Z := 0x12.
Definition FWU_SMC_IMAGE_RESUME : Z := 0x13.
Definition FWU_SMC_SEC_IMAGE_DONE : Z := 0x14.
Definition FWU_SMC_UPDATE_DONE : Z := 0x15.
Definition FWU_SMC_IMAGE_RESET : Z := 0x16.
Definition FWU_NUM_SMC_CALLS : Z := 7.
Definition is_fwu_fid (fid : Z) : bool := (FWU_SMC_IMAGE_COPY <=? fid) && (fid <=? FWU_SMC_IMAGE_RESET).

Section bl1_fwu.
Context {P : Type} `{!TbEnv P}.
#[local] Abbreviation TB := (M (tb_state P)).

(** ** Image descriptors *)

(** The linear search of [bl1_plat_get_image_desc]; the result is the index of
    the descriptor, [None] the null pointer.  The terminating entry of the
    table is not part of the list. *)
Fixpoint find_desc (id : Z) (l : list image_desc_t) (index : Z) : option Z :=
  match l with
  | [] => None
  | d :: rest => if image_id d =? id then Some index else find_desc id rest (index + 1)
  end.
Definition bl1_plat_get_image_desc (id : Z) : TB (option Z) :=
  gets (fun s => find_desc id (bl1_tbbr_image_descs s) 0).

(** Reading and writing through an [image_desc_t] pointer. *)
Definition get_desc (i : Z) : TB image_desc_t :=
  let! l := gets bl1_tbbr_image_descs in deref (arr_get l i).
Definition put_desc (i : Z) (d : image_desc_t) : TB unit :=
  let! l := gets bl1_tbbr_image_descs in
  let! l' := deref (arr_set l i d) in modify (set_descs l').
Definition upd_desc (i : Z) (f : image_desc_t -> image_desc_t) : TB unit :=
  let! d := get_desc i in put_desc i (f d).

Definition with_state (st : image_state) (d : image_desc_t) : image_desc_t :=
  ImageDesc (image_id d) st (copied_size d) (image_info d) (ep_attr d) (ep_spsr d).
Definition with_copied (n : Z) (d : image_desc_t) : image_desc_t :=
  ImageDesc (image_id d) (state d) n (image_info d) (ep_attr d) (ep_spsr d).
Definition with_size (n : Z) (d : image_desc_t) : image_desc_t :=
  ImageDesc (image_id d) (state d) (copied_size d)
    (ImageInfo (image_base (image_info d)) n (image_max_size (image_info d))) (ep_attr d) (ep_spsr d).
Definition with_spsr (v : Z) (d : image_desc_t) : image_desc_t :=
  ImageDesc (image_id d) (state d) (copied_size d) (image_info d) (ep_attr d) v.

(** ** Loaded images *)
Fixpoint replace_first (old new : Z) (l : list Z) : option (list Z) :=
  match l with
  | [] => None
  | x :: rest => if x =? old then Some (new :: rest) else (fun r => x :: r) <$> replace_first old new rest
  end.

Definition bl1_fwu_add_loaded_id (id : Z) : TB Z :=
  let! l := gets bl1_fwu_loaded_ids in
  if existsb (Z.eqb id) l then ret 0
  else match replace_first INVALID_IMAGE_ID id l with
       | Some l' => modify (set_loaded l') ;;; ret 0
       | None => ret 1
       end.

Definition bl1_fwu_remove_loaded_id (id : Z) : TB Z :=
  let! l := gets bl1_fwu_loaded_ids in
  match replace_first id INVALID_IMAGE_ID l with
  | Some l' => modify (set_loaded l') ;;; ret 0
  | None => ret 1
  end.

(** The loop of [bl1_fwu_image_check_overlaps] over the loaded images. *)
Fixpoint overlaps_loop (ids : list Z) (id checked_image_base checked_image_end : Z) : TB Z :=
  match ids with
  | [] => ret 0
  | x :: rest =>
      if (x =? INVALID_IMAGE_ID) || (x =? id) then overlaps_loop rest id checked_image_base checked_image_end
      else
        let! o := bl1_plat_get_image_desc x in
        let! i := deref o in
        let! d := get_desc i in
        tb_assert (bool_decide (state d <> IMAGE_STATE_RESET)) ;;;
        if image_size (image_info d) =? 0 then overlaps_loop rest id checked_image_base checked_image_end
        else
          let base := image_base (image_info d) in
          let image_end := u64 (base + image_size (image_info d) - 1) in
          tb_assert (base <? image_end) ;;;
          if (image_end <? checked_image_base) || (checked_image_end <? base)
          then overlaps_loop rest id checked_image_base checked_image_end
          else ret (- EPERM)
  end.

Definition bl1_fwu_image_check_overlaps (id : Z) : TB Z :=
  let! o := bl1_plat_get_image_desc id in
  let! i := deref o in
  let! d := get_desc i in
  tb_assert (truthy (image_size (image_info d))) ;;;
  let checked_image_base := image_base (image_info d) in
  let checked_image_end := u64 (checked_image_base + image_size (image_info d) - 1) in
  let! ids := gets bl1_fwu_loaded_ids in
  overlaps_loop ids id checked_image_base checked_image_end.

(** ** IMAGE_COPY *)

(** The first request for an image: the checks on its size; returns the result
    code.  [i] is the descriptor. *)
Definition copy_first (id i image_size0 : Z) : TB Z :=
  if image_size0 =? 0 then ret (- ENOMEM)
  else
    let! d := get_desc i in
    if (if LOAD_IMAGE_V2 then image_max_size (image_info d) <? image_size0
        else negb (is_mem_free (free_base bl1_plat_sec_mem_layout) (free_size bl1_plat_sec_mem_layout)
                     (image_base (image_info d)) image_size0))
    then ret (- ENOMEM)
    else
      upd_desc i (with_size image_size0) ;;;
      let! rc := bl1_fwu_image_check_overlaps id in
      if truthy rc then upd_desc i (with_size 0) ;;; ret (- EPERM)
      else upd_desc i (with_copied 0) ;;; ret 0.

(** A further request: only assertions. *)
Definition copy_next (i : Z) : TB Z :=
  let! d := get_desc i in
  tb_assert (truthy (copied_size d)) ;;;
  tb_assert (truthy (image_size (image_info d))) ;;;
  tb_assert (copied_size d <? image_size (image_info d)) ;;;
  ret 0.

(** The copy of one block, after the checks. *)
Definition copy_block (id i image_src block_size flags : Z) : TB Z :=
  let! d := get_desc i in
  let remaining := u32 (image_size (image_info d) - copied_size d) in
  let block_size := if remaining <? block_size then remaining else block_size in
  let! rc := tb_hook (bl1_plat_mem_check image_src block_size flags) in
  if truthy rc then ret (- ENOMEM)
  else
    let! rc := bl1_fwu_add_loaded_id id in
    if truthy rc then ret (- ENOMEM)
    else
      let! rc := (if decide (state d = IMAGE_STATE_RESET) then tb_hook (bl1_plat_handle_pre_image_load id) else ret 0) in
      if truthy rc then ret (- EPERM)
      else
        let dest_addr := u64 (image_base (image_info d) + copied_size d) in
        let! bs := load_bytes image_src block_size in
        store_bytes dest_addr bs ;;;
        flush_dcache_range dest_addr block_size ;;;
        upd_desc i (with_copied (u32 (copied_size d + block_size))) ;;;
        upd_desc i (with_state (if block_size =? remaining then IMAGE_STATE_COPIED else IMAGE_STATE_COPYING)) ;;;
        ret 0.

Definition bl1_fwu_image_copy (id image_src block_size image_size0 flags : Z) : TB Z :=
  let! o := bl1_plat_get_image_desc id in
  match o with
  | None => ret (- EPERM)
  | Some i =>
      let! d := get_desc i in
      if GET_SECURITY_STATE flags =? SECURE then ret (- EPERM)
      else if GET_SECURITY_STATE (ep_attr d) =? NON_SECURE then ret (- EPERM)
      else if bool_decide (state d <> IMAGE_STATE_RESET) && bool_decide (state d <> IMAGE_STATE_COPYING) then ret (- EPERM)
      else if (image_src =? 0) || (block_size =? 0) || check_uptr_overflow image_src (block_size - 1) then ret (- ENOMEM)
      else
        let! rc := (if decide (state d = IMAGE_STATE_COPYING) then copy_next i else copy_first id i image_size0) in
        if truthy rc then ret rc else copy_block id i image_src block_size flags
  end.

(** ** IMAGE_AUTH *)

(** Whether the caller may have the image authenticated in its state. *)
Definition auth_allowed (d : image_desc_t) (flags : Z) : bool :=
  if GET_SECURITY_STATE flags =? SECURE then bool_decide (state d = IMAGE_STATE_RESET)
  else if GET_SECURITY_STATE (ep_attr d) =? SECURE then bool_decide (state d = IMAGE_STATE_COPIED)
  else bool_decide (state d = IMAGE_STATE_RESET).

(** [auth_mod_verify_img] on the image and what follows it. *)
Definition auth_image (id i base_addr total_size : Z) : TB Z :=
  let! result := auth_mod_verify_img id base_addr total_size in
  if truthy result then
    let! d := get_desc i in
    when (bool_decide (state d = IMAGE_STATE_COPIED))
      (zero_normalmem base_addr total_size ;;;
       flush_dcache_range base_addr total_size ;;;
       upd_desc i (with_state IMAGE_STATE_RESET)) ;;;
    bl1_fwu_remove_loaded_id id ;;;
    ret (- EAUTH)
  else
    upd_desc i (with_state IMAGE_STATE_AUTHENTICATED) ;;;
    let! result := tb_hook (bl1_plat_handle_post_image_load id) in
    if truthy result then halt_with HHang
    else tb_emit (EvFlushInfo id) ;;; ret 0.

Definition bl1_fwu_image_auth (id image_src image_size0 flags : Z) : TB Z :=
  let! o := bl1_plat_get_image_desc id in
  match o with
  | None => ret (- EPERM)
  | Some i =>
      let! d := get_desc i in
      if negb (auth_allowed d flags) then ret (- EPERM)
      else if decide (state d = IMAGE_STATE_COPIED)
      then auth_image id i (image_base (image_info d)) (image_size (image_info d))
      else if (image_src =? 0) || (image_size0 =? 0) || check_uptr_overflow image_src (image_size0 - 1)
      then ret (- ENOMEM)
      else
        let! rc := tb_hook (bl1_plat_mem_check image_src image_size0 (ep_attr d)) in
        if truthy rc then ret (- ENOMEM)
        else
          let! rc := bl1_fwu_add_loaded_id id in
          if truthy rc then ret (- ENOMEM)
          else
            upd_desc i (with_size image_size0) ;;;
            auth_image id i image_src image_size0
  end.

(** ** IMAGE_EXECUTE *)

(** [SPSR_64(el, MODE_SP_ELX, DISABLE_ALL_EXCEPTIONS)] for EL1 and EL2;
    [el2] tells whether EL2 is implemented. *)
Definition next_spsr (security_state : Z) (el2 : bool) : Z :=
  let el := if security_state =? SECURE then 1 else if el2 then 2 else 1 in
  Z.lor (Z.lor (Z.shiftl el 2) 1) (Z.shiftl 0xf 6).

Definition bl1_prepare_next_image (id : Z) : TB unit :=
  let! o := bl1_plat_get_image_desc id in
  tb_assert (bool_decide (is_Some o)) ;;;
  let! i := deref o in
  let! d := get_desc i in
  let security_state := GET_SECURITY_STATE (ep_attr d) in
  upd_desc i (with_spsr (next_spsr security_state EL2_IMPLEMENTED)) ;;;
  tb_hook (bl1_plat_set_ep_info id) ;;;
  tb_emit (EvInitContext id) ;;;
  tb_emit (EvEl3Exit security_state) ;;;
  upd_desc i (with_state IMAGE_STATE_EXECUTED).

Definition bl1_fwu_image_execute (id flags : Z) : TB Z :=
  let! o := bl1_plat_get_image_desc id in
  match o with
  | None => ret (- EPERM)
  | Some i =>
      let! d := get_desc i in
      if (GET_SECURITY_STATE flags =? SECURE) || (GET_SECURITY_STATE (ep_attr d) =? NON_SECURE) ||
         (EP_GET_EXE (ep_attr d) =? NON_EXECUTABLE) || bool_decide (state d <> IMAGE_STATE_AUTHENTICATED)
      then ret (- EPERM)
      else
        tb_emit (EvSaveEl1 NON_SECURE) ;;;
        bl1_prepare_next_image id ;;;
        modify (set_exec id) ;;;
        ret 0
  end.

(** ** IMAGE_RESUME and SEC_IMAGE_DONE *)
Definition bl1_fwu_image_resume (image_param flags : Z) : TB Z :=
  let caller_sec_state := GET_SECURITY_STATE flags in
  let! id := gets sec_exec_image_id in
  let! o := bl1_plat_get_image_desc id in
  if (caller_sec_state =? NON_SECURE) && bool_decide (o = None) then ret (- EPERM)
  else
    tb_assert (bool_decide (is_Some o)) ;;;
    let! i := deref o in
    let! d := get_desc i in
    tb_assert (GET_SECURITY_STATE (ep_attr d) =? SECURE) ;;;
    tb_assert (EP_GET_EXE (ep_attr d) =? EXECUTABLE) ;;;
    let! resume_sec_state :=
      (if caller_sec_state =? SECURE then
         tb_assert (bool_decide (state d = IMAGE_STATE_EXECUTED)) ;;;
         upd_desc i (with_state IMAGE_STATE_INTERRUPTED) ;;; ret NON_SECURE
       else
         tb_assert (bool_decide (state d = IMAGE_STATE_INTERRUPTED)) ;;;
         upd_desc i (with_state IMAGE_STATE_EXECUTED) ;;; ret SECURE) in
    tb_emit (EvSaveEl1 caller_sec_state) ;;;
    tb_emit (EvRestoreEl1 resume_sec_state) ;;;
    tb_emit (EvNextEret resume_sec_state) ;;;
    ret image_param.

Definition bl1_fwu_sec_image_done (flags : Z) : TB Z :=
  if GET_SECURITY_STATE flags =? NON_SECURE then ret (- EPERM)
  else
    let! id := gets sec_exec_image_id in
    let! o := bl1_plat_get_image_desc id in
    tb_assert (bool_decide (is_Some o)) ;;;
    let! i := deref o in
    let! d := get_desc i in
    tb_assert (GET_SECURITY_STATE (ep_attr d) =? SECURE) ;;;
    tb_assert (EP_GET_EXE (ep_attr d) =? EXECUTABLE) ;;;
    tb_assert (bool_decide (state d = IMAGE_STATE_EXECUTED)) ;;;
    let! rc := bl1_fwu_remove_loaded_id id in
    tb_assert (rc =? 0) ;;;
    upd_desc i (with_state IMAGE_STATE_RESET) ;;;
    modify (set_exec INVALID_IMAGE_ID) ;;;
    tb_emit (EvRestoreEl1 NON_SECURE) ;;;
    tb_emit (EvNextEret NON_SECURE) ;;;
    ret 0.

(** [bl1_plat_fwu_done] does not return. *)
Definition bl1_fwu_done : TB Z := halt_with HSystemDown.

(** ** IMAGE_RESET *)
Definition reset_image (id i : Z) : TB Z :=
  let! rc := bl1_fwu_remove_loaded_id id in
  if truthy rc then ret (- EPERM)
  else
    let! d := get_desc i in
    when (truthy (copied_size d))
      (tb_assert (GET_SECURITY_STATE (ep_attr d) =? SECURE) ;;;
       zero_normalmem (image_base (image_info d)) (copied_size d) ;;;
       flush_dcache_range (image_base (image_info d)) (copied_size d)) ;;;
    upd_desc i (with_copied 0) ;;;
    upd_desc i (with_size 0) ;;;
    upd_desc i (with_state IMAGE_STATE_RESET) ;;;
    let! fl := gets auth_img_flags in
    let! fl' := deref (arr_set fl id 0) in
    modify (set_flags fl') ;;;
    ret 0.

Definition bl1_fwu_image_reset (id flags : Z) : TB Z :=
  let! o := bl1_plat_get_image_desc id in
  match o with
  | None => ret (- EPERM)
  | Some i =>
      if GET_SECURITY_STATE flags =? SECURE then ret (- EPERM)
      else
        let! d := get_desc i in
        match state d with
        | IMAGE_STATE_RESET => ret 0
        | IMAGE_STATE_INTERRUPTED | IMAGE_STATE_AUTHENTICATED | IMAGE_STATE_COPIED | IMAGE_STATE_COPYING =>
            reset_image id i
        | IMAGE_STATE_EXECUTED => tb_assert false ;;; ret 0
        end
  end.

(** ** SMC handlers *)
Definition bl1_fwu_smc_handler (smc_fid x1 x2 x3 x4 flags : Z) : TB Z :=
  if smc_fid =? FWU_SMC_IMAGE_COPY then bl1_fwu_image_copy (u32 x1) x2 (u32 x3) (u32 x4) flags
  else if smc_fid =? FWU_SMC_IMAGE_AUTH then bl1_fwu_image_auth (u32 x1) x2 (u32 x3) flags
  else if smc_fid =? FWU_SMC_IMAGE_EXECUTE then bl1_fwu_image_execute (u32 x1) flags
  else if smc_fid =? FWU_SMC_IMAGE_RESUME then bl1_fwu_image_resume x1 flags
  else if smc_fid =? FWU_SMC_SEC_IMAGE_DONE then bl1_fwu_sec_image_done flags
  else if smc_fid =? FWU_SMC_IMAGE_RESET then bl1_fwu_image_reset (u32 x1) flags
  else if smc_fid =? FWU_SMC_UPDATE_DONE then bl1_fwu_done
  else tb_assert false ;;; ret SMC_UNK.

(** The first word of the answer of BL1's SMC service. *)
Definition bl1_smc_handler (uid smc_fid x1 x2 x3 x4 flags : Z) : TB Z :=
  if TRUSTED_BOARD_BOOT && is_fwu_fid smc_fid then bl1_fwu_smc_handler smc_fid x1 x2 x3 x4 flags
  else if smc_fid =? BL1_SMC_CALL_COUNT then ret (if TRUSTED_BOARD_BOOT then FWU_NUM_SMC_CALLS + 4 else 4)
  else if smc_fid =? BL1_SMC_UID then ret uid
  else if smc_fid =? BL1_SMC_VERSION then ret (Z.lor BL1_SMC_MAJOR_VER BL1_SMC_MINOR_VER)
  else ret SMC_UNK.
End bl1_fwu.
