(* ===== verification/Bl1Main.v ===== *)
(** * BL1 (bl1/bl1_main.c, plat/common/plat_bl1_common.c)

    The main function of BL1: initialisation, the load of BL2 through
    [load_auth_image], the default platform actions after the load and the
    hand-over.  The table of update images of bl1/tbbr/tbbr_img_desc.c and the
    memory check of plat/arm/common/arm_bl1_fwu.c are here too. *)
From stdpp Require Import base list numbers option strings.
From Stdlib Require Import ZArith Lia.
From S2P Require Import Prelude TbbDefs AuthMod TbbrCot BlCommon Bl1Fwu.
#[local] Open Scope Z_scope.

(** Addresses from the platform's header and the linker. *)
Class Bl1Layout : Type := {
  BL2_BASE : Z; BL2_LIMIT : Z;
  NS_BL1U_BASE : Z; NS_BL2U_BASE : Z;
  SCP_BL2U_BASE : Z; SCP_BL2U_LIMIT : Z;
  BL2U_BASE : Z; BL2U_LIMIT : Z;
  BL1_RAM_BASE : Z; BL1_RAM_LIMIT : Z; BL1_RW_BASE : Z;
  CACHE_WRITEBACK_GRANULE : Z
}.

(** System registers, platform set-up and the platform's choice of the next
    image. *)
Class Bl1Env (P : Type) : Type := {
  read_sctlr_el3 : M P Z;
  read_ctr_el0 : M P Z;
  read_scr_el3 : M P Z;
  write_scr_el3 : Z -> M P unit;
  bl1_platform_setup : M P unit;
  bl1_plat_get_next_image_id : M P Z
}.

Definition SCTLR_M_BIT : Z := Z.shiftl 1 0.
Definition SCTLR_C_BIT : Z := Z.shiftl 1 2.
Definition SCTLR_I_BIT : Z := Z.shiftl 1 12.
Definition CTR_CWG_SHIFT : Z := 24.
Definition CTR_CWG_MASK : Z := 0xf.
Definition MAX_CACHE_LINE_SIZE : Z := 0x800.
Definition SCR_RW_BIT : Z := Z.shiftl 1 10.
Definition SIZE_FROM_LOG2_WORDS (n : Z) : Z := Z.shiftl 4 n.

Section bl1_main.
Context {P : Type} `{!TbEnv P} `{!Bl1Layout} `{!Bl1Env P}.
#[local] Abbreviation TB := (M (tb_state P)).

(** ** The update images *)
Definition max_size (limit base : Z) : Z := if LOAD_IMAGE_V2 then u32 (limit - base) else 0.
Definition BL2_IMAGE_DESC : image_desc_t :=
  ImageDesc BL2_IMAGE_ID IMAGE_STATE_RESET 0 (ImageInfo BL2_BASE 0 (max_size BL2_LIMIT BL2_BASE)) (Z.lor SECURE EXECUTABLE) 0.

(** An entry that is compiled in when its base address is not 0. *)
Definition if_base (b : Z) (d : image_desc_t) : list image_desc_t := if truthy b then [d] else [].

Definition tbbr_image_descs : list image_desc_t :=
  [ImageDesc FWU_CERT_ID IMAGE_STATE_RESET 0 (ImageInfo BL2_BASE 0 (max_size BL2_LIMIT BL2_BASE)) SECURE 0] ++
  if_base NS_BL1U_BASE
    (ImageDesc NS_BL1U_IMAGE_ID IMAGE_STATE_RESET 0 (ImageInfo 0 0 0) (Z.lor NON_SECURE EXECUTABLE) 0) ++
  if_base SCP_BL2U_BASE
    (ImageDesc SCP_BL2U_IMAGE_ID IMAGE_STATE_RESET 0 (ImageInfo SCP_BL2U_BASE 0 (max_size SCP_BL2U_LIMIT SCP_BL2U_BASE)) SECURE 0) ++
  if_base BL2U_BASE
    (ImageDesc BL2U_IMAGE_ID IMAGE_STATE_RESET 0 (ImageInfo BL2U_BASE 0 (max_size BL2U_LIMIT BL2U_BASE)) (Z.lor SECURE EXECUTABLE) 0) ++
  if_base NS_BL2U_BASE
    (ImageDesc NS_BL2U_IMAGE_ID IMAGE_STATE_RESET 0 (ImageInfo 0 0 0) NON_SECURE 0) ++
  [BL2_IMAGE_DESC].

(** The loop of [bl1_plat_mem_check] over an address map (base and size); an
    entry of size 0 ends the map. *)
Fixpoint mem_check_loop (mmap : list (Z * Z)) (mem_base mem_size : Z) : Z :=
  match mmap with
  | [] => - ENOMEM
  | (b, n) :: rest =>
      if n =? 0 then - ENOMEM
      else if (b <=? mem_base) && (u64 (mem_base + mem_size) <=? u64 (b + n)) then 0
      else mem_check_loop rest mem_base mem_size
  end.

Definition arm_plat_mem_check (secure_map non_secure_map : list (Z * Z)) (mem_base mem_size flags : Z) : TB Z :=
  tb_assert (truthy mem_base) ;;;
  tb_assert (truthy mem_size) ;;;
  tb_assert (negb (check_uptr_overflow mem_base (mem_size - 1))) ;;;
  ret (mem_check_loop (if GET_SECURITY_STATE flags =? SECURE then secure_map else non_secure_map) mem_base mem_size).

(** ** Loading BL2 *)

(** Returns the layout for BL2. *)
Definition bl1_calc_bl2_mem_layout (l : meminfo_t) : TB meminfo_t :=
  if LOAD_IMAGE_V2 then
    tb_assert (total_base l <? BL1_RW_BASE) ;;;
    ret (MemInfo (total_base l) (u64 (BL1_RW_BASE - total_base l)) 0 0)
  else
    tb_assert ((BL1_RAM_LIMIT <=? free_base l) || (u64 (free_base l + free_size l) <=? BL1_RAM_BASE)) ;;;
    let! r := reserve_mem (total_base l) (total_size l) BL1_RAM_BASE (u64 (BL1_RAM_LIMIT - BL1_RAM_BASE)) in
    ret (MemInfo r.1 r.2 (free_base l) (free_size l)).

(** The bytes of a [meminfo_t] in memory, and its size. *)
Definition meminfo_bytes (l : meminfo_t) : list Z :=
  le_bytes 8 (total_base l) ++ le_bytes 8 (total_size l) ++
  (if LOAD_IMAGE_V2 then [] else le_bytes 8 (free_base l) ++ le_bytes 8 (free_size l)).
Definition MEMINFO_SIZE : Z := if LOAD_IMAGE_V2 then 16 else 32.

(** The default actions after an image was loaded; [l] is BL1's layout.
    [arg1] of BL2 is the address of the new layout. *)
Definition plat_post_image_load (l : meminfo_t) (id : Z) : TB Z :=
  if negb (id =? BL2_IMAGE_ID) then ret 0
  else
    let! o := bl1_plat_get_image_desc BL2_IMAGE_ID in
    tb_assert (bool_decide (is_Some o)) ;;;
    let! i := deref o in
    let bl2_tzram_layout := if LOAD_IMAGE_V2 then total_base l else free_base l in
    let! l2 := bl1_calc_bl2_mem_layout l in
    store_bytes bl2_tzram_layout (meminfo_bytes l2) ;;;
    flush_dcache_range bl2_tzram_layout MEMINFO_SIZE ;;;
    ret 0.

(** The handler of a fatal error waits for ever. *)
Definition plat_error_handler {A} : TB A := halt_with HHang.

Definition with_info (info : image_info_t) (d : image_desc_t) : image_desc_t :=
  ImageDesc (image_id d) (state d) (copied_size d) info (ep_attr d) (ep_spsr d).

(** [bl1_load_bl2]; [l] is the layout of the trusted RAM before the load, the
    result the one after it.  [tries] and [fuel] bound [load_auth_image]. *)
Definition bl1_load_bl2 (tries fuel : nat) (l : meminfo_t) : TB meminfo_t :=
  let! o := bl1_plat_get_image_desc BL2_IMAGE_ID in
  tb_assert (bool_decide (is_Some o)) ;;;
  let! i := deref o in
  let! err := tb_hook (bl1_plat_handle_pre_image_load BL2_IMAGE_ID) in
  if truthy err then plat_error_handler
  else
    let! d := get_desc i in
    let! r :=
      (if LOAD_IMAGE_V2 then
         let! r := load_auth_image_v2 tries fuel BL2_IMAGE_ID (image_info d) in ret (r.1, (r.2, l))
       else
         let! r := load_auth_image_v1 tries fuel BL2_IMAGE_ID (image_base (image_info d))
                     (LoadOut l (image_info d) (Some (image_base (image_info d)))) in
         ret (r.1, (lo_info r.2, lo_layout r.2))) in
    upd_desc i (with_info r.2.1) ;;;
    if truthy r.1 then plat_error_handler
    else
      let! err := plat_post_image_load r.2.2 BL2_IMAGE_ID in
      if truthy err then plat_error_handler else ret r.2.2.

(** The checks of the caches in builds with assertions. *)
Definition bl1_check_caches : TB unit :=
  if TB_ASSERTIONS then
    let! val := tb_hook read_sctlr_el3 in
    tb_assert (truthy (Z.land val SCTLR_M_BIT)) ;;;
    tb_assert (truthy (Z.land val SCTLR_C_BIT)) ;;;
    tb_assert (truthy (Z.land val SCTLR_I_BIT)) ;;;
    let! ctr := tb_hook read_ctr_el0 in
    let val := Z.land (Z.shiftr ctr CTR_CWG_SHIFT) CTR_CWG_MASK in
    if truthy val then tb_assert (CACHE_WRITEBACK_GRANULE =? SIZE_FROM_LOG2_WORDS val)
    else tb_assert (CACHE_WRITEBACK_GRANULE <=? MAX_CACHE_LINE_SIZE)
  else ret tt.

Definition bl1_arch_setup : TB unit :=
  let! v := tb_hook read_scr_el3 in tb_hook (write_scr_el3 (Z.lor v SCR_RW_BIT)).

(** Returns the layout of the trusted RAM after the load of BL2. *)
Definition bl1_main (tries fuel : nat) (l : meminfo_t) : TB meminfo_t :=
  bl1_check_caches ;;;
  bl1_arch_setup ;;;
  when TRUSTED_BOARD_BOOT auth_mod_init ;;;
  tb_hook bl1_platform_setup ;;;
  let! image_id := tb_hook bl1_plat_get_next_image_id in
  let! l' := (if image_id =? BL2_IMAGE_ID then bl1_load_bl2 tries fuel l else ret l) in
  bl1_prepare_next_image image_id ;;;
  ret l'.
End bl1_main.
