(* ===== verification/IoStorage.v ===== *)
(** * I/O storage: the device-independent layer (drivers/io/io_storage.c)

    Entities are allocated from a fixed pool and every operation goes through
    the function table of the device.  Pointers are integers, 0 is null: an
    entity is known by its index in the pool plus one, a device and an image
    specification by a token.  [io_read] hands the bytes it read to its
    caller, which stores them. *)
From stdpp Require Import base list numbers option strings.
From Stdlib Require Import ZArith Lia.
From S2P Require Import Prelude TbbDefs.
#[local] Open Scope Z_scope.

Definition ENOENT : Z := 2.
Definition ENODEV : Z := 19.

Inductive io_type_t : Type :=
| IO_TYPE_INVALID | IO_TYPE_SEMIHOSTING | IO_TYPE_MEMMAP | IO_TYPE_DUMMY | IO_TYPE_FIRMWARE_IMAGE_PACKAGE
| IO_TYPE_BLOCK | IO_TYPE_MAX.
Definition io_type_value (t : io_type_t) : Z :=
  match t with
  | IO_TYPE_INVALID => 0 | IO_TYPE_SEMIHOSTING => 1 | IO_TYPE_MEMMAP => 2 | IO_TYPE_DUMMY => 3
  | IO_TYPE_FIRMWARE_IMAGE_PACKAGE => 4 | IO_TYPE_BLOCK => 5 | IO_TYPE_MAX => 6
  end.

Definition IO_SEEK_INVALID : Z := 0.
Definition IO_SEEK_SET : Z := 1.
Definition IO_SEEK_END : Z := 2.
Definition IO_SEEK_CUR : Z := 3.
Definition IO_SEEK_MAX : Z := 4.

(** [dev_handle] and [info] of an entity. *)
Record io_entity_t : Type := IoEntity { dev_handle : Z; info : Z }.

(** File states of the two drivers: the entry of the table of contents is kept
    as its 40 bytes. *)
Record fip_file_t : Type := FipFile { fip_pos : Z; fip_entry : list Z }.
Record memmap_file_t : Type := MemmapFile { in_use : Z; mm_base : Z; mm_pos : Z; mm_size : Z }.

Record io_state : Type := IoState {
  entity_pool : list io_entity_t;
  entity_map : list Z;
  entity_count : Z;
  devices : list Z;
  dev_count : Z;
  fip_current : fip_file_t;
  backend_dev_handle : Z;
  backend_image_spec : Z;
  memmap_current : memmap_file_t;
  io_mem : memory;
  fip_dev_handle : Z;
  memmap_dev_handle : Z
}.

Definition set_pool (x : list io_entity_t) (s : io_state) : io_state :=
  IoState x (entity_map s) (entity_count s) (devices s) (dev_count s) (fip_current s) (backend_dev_handle s)
    (backend_image_spec s) (memmap_current s) (io_mem s) (fip_dev_handle s) (memmap_dev_handle s).
Definition set_map (x : list Z) (n : Z) (s : io_state) : io_state :=
  IoState (entity_pool s) x n (devices s) (dev_count s) (fip_current s) (backend_dev_handle s)
    (backend_image_spec s) (memmap_current s) (io_mem s) (fip_dev_handle s) (memmap_dev_handle s).
Definition set_devices (x : list Z) (n : Z) (s : io_state) : io_state :=
  IoState (entity_pool s) (entity_map s) (entity_count s) x n (fip_current s) (backend_dev_handle s)
    (backend_image_spec s) (memmap_current s) (io_mem s) (fip_dev_handle s) (memmap_dev_handle s).
Definition set_fip (x : fip_file_t) (s : io_state) : io_state :=
  IoState (entity_pool s) (entity_map s) (entity_count s) (devices s) (dev_count s) x (backend_dev_handle s)
    (backend_image_spec s) (memmap_current s) (io_mem s) (fip_dev_handle s) (memmap_dev_handle s).
Definition set_backend (d sp : Z) (s : io_state) : io_state :=
  IoState (entity_pool s) (entity_map s) (entity_count s) (devices s) (dev_count s) (fip_current s) d
    sp (memmap_current s) (io_mem s) (fip_dev_handle s) (memmap_dev_handle s).
Definition set_memmap (x : memmap_file_t) (s : io_state) : io_state :=
  IoState (entity_pool s) (entity_map s) (entity_count s) (devices s) (dev_count s) (fip_current s) (backend_dev_handle s)
    (backend_image_spec s) x (io_mem s) (fip_dev_handle s) (memmap_dev_handle s).
Definition set_io_mem (x : memory) (s : io_state) : io_state :=
  IoState (entity_pool s) (entity_map s) (entity_count s) (devices s) (dev_count s) (fip_current s) (backend_dev_handle s)
    (backend_image_spec s) (memmap_current s) x (fip_dev_handle s) (memmap_dev_handle s).
Definition set_handles (f m : Z) (s : io_state) : io_state :=
  IoState (entity_pool s) (entity_map s) (entity_count s) (devices s) (dev_count s) (fip_current s) (backend_dev_handle s)
    (backend_image_spec s) (memmap_current s) (io_mem s) f m.

(** Build options and platform constants. *)
Class IoEnv : Type := {
  IO_ASSERTIONS : bool;
  MAX_IO_HANDLES : Z;
  MAX_IO_DEVICES : Z;
  PLAT_ALLOW_ZERO_ADDR_COPY : bool;
  PLAT_MARVELL_FIP_BASE : Z;
  PLAT_MARVELL_FIP_MAX_SIZE : Z
}.

#[local] Abbreviation IO := (M io_state).

(** The function table of a device; absent functions are null pointers.  The
    functions get pointers to the entity; [size] and [read] return what they
    write through their output arguments. *)
Record io_dev_funcs_t : Type := IoDevFuncs {
  io_type : option io_type_t;
  f_open : option (Z -> Z -> Z -> IO Z);
  f_seek : option (Z -> Z -> Z -> IO Z);
  f_size : option (Z -> IO (Z * Z));
  f_read : option (Z -> Z -> Z -> IO (Z * list Z));
  f_write : option (Z -> Z -> list Z -> IO (Z * Z));
  f_close : option (Z -> IO Z);
  f_dev_init : option (Z -> Z -> IO Z);
  f_dev_close : option (Z -> IO Z)
}.

Section io_storage.
Context `{!IoEnv}.
Definition io_assert (b : bool) : IO unit := if IO_ASSERTIONS && negb b then halt_with HAssert else ret tt.

(** [funcs d]: the function table of the device [d]. *)
Context (funcs : Z -> option io_dev_funcs_t).

Definition is_valid_dev (d : Z) : bool :=
  match funcs d with
  | Some f => truthy d && match io_type f with Some t => io_type_value t <? io_type_value IO_TYPE_MAX | None => false end
  | None => false
  end.

(** The entity behind a pointer. *)
Definition get_entity (handle : Z) : IO io_entity_t := let! l := gets entity_pool in deref (arr_get l (handle - 1)).
Definition put_entity (handle : Z) (e : io_entity_t) : IO unit :=
  let! l := gets entity_pool in
  let! l' := deref (arr_set l (handle - 1) e) in modify (set_pool l').

Definition assert_valid_entity (handle : Z) : IO unit :=
  if IO_ASSERTIONS then
    io_assert (truthy handle) ;;;
    let! e := get_entity handle in io_assert (is_valid_dev (dev_handle e))
  else ret tt.
Definition is_valid_seek_mode (mode : Z) : bool := negb (mode =? IO_SEEK_INVALID) && (mode <? IO_SEEK_MAX).

(** The function table of the device of an entity. *)
Definition dev_funcs_of (d : Z) : IO io_dev_funcs_t := deref (funcs d).

(** ** The pool *)
Fixpoint find_index (x : Z) (l : list Z) (index : Z) : option Z :=
  match l with
  | [] => None
  | y :: rest => if y =? x then Some index else find_index x rest (index + 1)
  end.
Definition find_first_entity (entity : Z) : IO (option Z) := gets (fun s => find_index entity (entity_map s) 0).

(** Returns the result and the pointer. *)
Definition allocate_entity : IO (Z * Z) :=
  let! n := gets entity_count in
  if n <? MAX_IO_HANDLES then
    let! o := find_first_entity 0 in
    let index := default 0 o in
    let result := if decide (is_Some o) then 0 else - ENOENT in
    io_assert (result =? 0) ;;;
    let! m := gets entity_map in
    let! m' := deref (arr_set m index (index + 1)) in
    modify (set_map m' (u32 (n + 1))) ;;;
    ret (result, index + 1)
  else ret (- ENOMEM, 0).

Definition free_entity (entity : Z) : IO Z :=
  io_assert (truthy entity) ;;;
  let! o := find_first_entity entity in
  match o with
  | Some index =>
      let! m := gets entity_map in
      let! n := gets entity_count in
      let! m' := deref (arr_set m index 0) in
      modify (set_map m' (u32 (n - 1))) ;;;
      ret 0
  | None => ret (- ENOENT)
  end.

(** ** Devices *)
Definition io_register_device (dev_info : Z) : IO Z :=
  io_assert (truthy dev_info) ;;;
  let! n := gets dev_count in
  if n <? MAX_IO_DEVICES then
    let! l := gets devices in
    let! l' := deref (arr_set l n dev_info) in
    modify (set_devices l' (u32 (n + 1))) ;;;
    ret 0
  else ret (- ENOMEM).

(** [dev_open] of the connector returns the result and the device. *)
Definition io_dev_open (connector : option (Z -> IO (Z * Z))) (dev_spec : Z) : IO (Z * Z) :=
  io_assert (bool_decide (is_Some connector)) ;;;
  let! f := deref connector in f dev_spec.

Definition io_dev_init (dev init_params : Z) : IO Z :=
  io_assert (truthy dev) ;;; io_assert (is_valid_dev dev) ;;;
  let! f := dev_funcs_of dev in
  match f_dev_init f with Some g => g dev init_params | None => ret 0 end.

Definition io_dev_close (dev : Z) : IO Z :=
  io_assert (truthy dev) ;;; io_assert (is_valid_dev dev) ;;;
  let! f := dev_funcs_of dev in
  match f_dev_close f with Some g => g dev | None => ret 0 end.

(** ** Entities *)

(** Returns the result and the handle (0 when it is not set). *)
Definition io_open (dev spec : Z) : IO (Z * Z) :=
  io_assert (truthy spec) ;;; io_assert (is_valid_dev dev) ;;;
  let! a := allocate_entity in
  if a.1 =? 0 then
    let! f := dev_funcs_of dev in
    io_assert (bool_decide (is_Some (f_open f))) ;;;
    let! g := deref (f_open f) in
    let! result := g dev spec a.2 in
    if result =? 0 then
      let! e := get_entity a.2 in
      put_entity a.2 (IoEntity dev (info e)) ;;;
      ret (0, a.2)
    else free_entity a.2 ;;; ret (result, 0)
  else ret (a.1, 0).

Definition io_seek (handle mode offset : Z) : IO Z :=
  assert_valid_entity handle ;;; io_assert (is_valid_seek_mode mode) ;;;
  let! e := get_entity handle in
  let! f := dev_funcs_of (dev_handle e) in
  match f_seek f with Some g => g handle mode offset | None => ret (- ENODEV) end.

(** Returns the result and the length. *)
Definition io_size (handle : Z) : IO (Z * Z) :=
  assert_valid_entity handle ;;;
  let! e := get_entity handle in
  let! f := dev_funcs_of (dev_handle e) in
  match f_size f with Some g => g handle | None => ret (- ENODEV, 0) end.

(** Returns the result and the bytes for [buffer]. *)
Definition io_read (handle buffer length : Z) : IO (Z * list Z) :=
  assert_valid_entity handle ;;; io_assert (PLAT_ALLOW_ZERO_ADDR_COPY || truthy buffer) ;;;
  let! e := get_entity handle in
  let! f := dev_funcs_of (dev_handle e) in
  match f_read f with Some g => g handle buffer length | None => ret (- ENODEV, []) end.

(** [bytes] is the contents of [buffer]; returns the result and the number of
    bytes written. *)
Definition io_write (handle buffer : Z) (bytes : list Z) : IO (Z * Z) :=
  assert_valid_entity handle ;;; io_assert (PLAT_ALLOW_ZERO_ADDR_COPY || truthy buffer) ;;;
  let! e := get_entity handle in
  let! f := dev_funcs_of (dev_handle e) in
  match f_write f with Some g => g handle buffer bytes | None => ret (- ENODEV, 0) end.

Definition io_close (handle : Z) : IO Z :=
  assert_valid_entity handle ;;;
  let! e := get_entity handle in
  let! f := dev_funcs_of (dev_handle e) in
  let! result := (match f_close f with Some g => g handle | None => ret 0 end) in
  free_entity handle ;;;
  ret result.
End io_storage.
