(* ===== verification/IoDrivers.v ===== *)
(** * I/O storage: the memory-mapped and FIP drivers and the load policy

    drivers/io/io_memmap.c, drivers/io/io_fip.c and the policy table of
    plat/marvell/common/marvell_io_storage.c.  The FIP driver reads the
    package through the device-independent layer from another device, its
    backend; [dev_table n] is the function table of the devices when at most
    [n] drivers are stacked on each other. *)
From stdpp Require Import base list numbers option strings.
From Stdlib Require Import ZArith Lia.
From S2P Require Import Prelude TbbDefs TbbrCot IoStorage.
#[local] Open Scope Z_scope.

#[local] Abbreviation IO := (M io_state).

(** Tokens for the addresses of the device structures, of the file states and
    of the image specifications. *)
Definition memmap_dev_info : Z := 1.
Definition fip_dev_info : Z := 2.
Definition memmap_file_ptr : Z := 1.
Definition fip_file_ptr : Z := 2.

(** A local buffer: its address is not null. *)
Definition local_buffer : Z := 1.

(** ** Firmware image package (firmware_image_package.h) *)
Definition TOC_HEADER_NAME : Z := 0xAA640001.
Definition TOC_HEADER_SIZE : Z := 16.
Definition TOC_ENTRY_SIZE : Z := 40.

(** A little-endian number. *)
Definition le_value (bs : list Z) : Z := foldr (fun b v => b + 256 * v) 0 bs.
Definition field (bs : list Z) (off n : nat) : Z := le_value (take n (drop off bs)).
Definition header_name (h : list Z) : Z := field h 0 4.
Definition header_serial (h : list Z) : Z := field h 4 4.
Definition entry_uuid (e : list Z) : list Z := take 16 e.
Definition entry_offset (e : list Z) : Z := field e 16 8.
Definition entry_size (e : list Z) : Z := field e 24 8.

(** Storing [new] over the beginning of [old]. *)
Definition overwrite (old new : list Z) : list Z := new ++ drop (length new) old.
Definition uuid_null : list Z := replicate 16 0.
Definition zero_entry : list Z := replicate 40 0.

(** [current_file.entry.offset_address = 0]. *)
Definition clear_offset (e : list Z) : list Z := take 16 e ++ replicate 8 0 ++ drop 24 e.

(** A [uuid_t] in memory. *)
Definition uuid_bytes (time_low time_mid time_hi clock_hi clock_lo : Z) (node : list Z) : list Z :=
  map (fun i => u8 (Z.shiftr time_low (8 * i))) [0; 1; 2; 3] ++
  map (fun i => u8 (Z.shiftr time_mid (8 * i))) [0; 1] ++
  map (fun i => u8 (Z.shiftr time_hi (8 * i))) [0; 1] ++ [clock_hi; clock_lo] ++ node.
Definition UUID_TRUSTED_BOOT_FIRMWARE_BL2 : list Z :=
  uuid_bytes 0x0becf95f 0x224d 0x4d3e 0xa5 0x44 [0xc3; 0x9d; 0x81; 0xc7; 0x3f; 0x0a].
Definition UUID_SCP_FIRMWARE_SCP_BL2 : list Z :=
  uuid_bytes 0x3dfd6697 0xbe89 0x49e8 0xae 0x5d [0x78; 0xa1; 0x40; 0x60; 0x82; 0x13].
Definition UUID_EL3_RUNTIME_FIRMWARE_BL31 : list Z :=
  uuid_bytes 0x6d08d447 0xfe4c 0x4698 0x9b 0x95 [0x29; 0x50; 0xcb; 0xbd; 0x5a; 0x00].
Definition UUID_SECURE_PAYLOAD_BL32 : list Z :=
  uuid_bytes 0x89e1d005 0xdc53 0x4713 0x8d 0x2b [0x50; 0x0a; 0x4b; 0x7a; 0x3e; 0x38].
Definition UUID_NON_TRUSTED_FIRMWARE_BL33 : list Z :=
  uuid_bytes 0xa7eed0d6 0xeafc 0x4bd5 0x97 0x82 [0x99; 0x34; 0xf2; 0x34; 0xb6; 0xe4].

(** Image specifications: the block of the package and the UUIDs of the
    images, by their tokens. *)
Definition fip_block_spec : Z := 1.
Definition bl2_uuid_spec : Z := 2.
Definition scp_bl2_uuid_spec : Z := 3.
Definition bl31_uuid_spec : Z := 4.
Definition bl32_uuid_spec : Z := 5.
Definition bl33_uuid_spec : Z := 6.

Definition uuid_of_spec (spec : Z) : option (list Z) :=
  if spec =? bl2_uuid_spec then Some UUID_TRUSTED_BOOT_FIRMWARE_BL2
  else if spec =? scp_bl2_uuid_spec then Some UUID_SCP_FIRMWARE_SCP_BL2
  else if spec =? bl31_uuid_spec then Some UUID_EL3_RUNTIME_FIRMWARE_BL31
  else if spec =? bl32_uuid_spec then Some UUID_SECURE_PAYLOAD_BL32
  else if spec =? bl33_uuid_spec then Some UUID_NON_TRUSTED_FIRMWARE_BL33
  else None.

Section drivers.
Context `{!IoEnv}.

Definition block_of_spec (spec : Z) : option (Z * Z) :=
  if spec =? fip_block_spec then Some (PLAT_MARVELL_FIP_BASE, PLAT_MARVELL_FIP_MAX_SIZE) else None.

Definition set_entity_info (entity x : Z) : IO unit :=
  let! e := get_entity entity in put_entity entity (IoEntity (dev_handle e) x).

(** The file state an entity points to: a driver casts the pointer. *)
Definition memmap_file (entity : Z) : IO memmap_file_t :=
  let! e := get_entity entity in
  if info e =? memmap_file_ptr then gets memmap_current else halt_with HUndef.
Definition fip_file (entity : Z) : IO fip_file_t :=
  let! e := get_entity entity in
  if info e =? fip_file_ptr then gets fip_current else halt_with HUndef.

(** Conversion to [ssize_t]. *)
Definition s64 (x : Z) : Z := (x + 2 ^ 63) mod 2 ^ 64 - 2 ^ 63.

(** ** The memory-mapped driver *)
Definition memmap_dev_open (dev_spec : Z) : IO (Z * Z) := ret (0, memmap_dev_info).
Definition memmap_dev_close (dev : Z) : IO Z := ret 0.

Definition memmap_block_open (dev spec entity : Z) : IO Z :=
  let! f := gets memmap_current in
  if in_use f =? 0 then
    io_assert (truthy spec) ;;;
    io_assert (truthy entity) ;;;
    let! b := deref (block_of_spec spec) in
    modify (set_memmap (MemmapFile 1 b.1 0 b.2)) ;;;
    set_entity_info entity memmap_file_ptr ;;;
    ret 0
  else ret (- ENOMEM).

Definition memmap_block_seek (entity mode offset : Z) : IO Z :=
  if mode =? IO_SEEK_SET then
    let! f := memmap_file entity in
    io_assert ((0 <=? offset) && (u64 offset <? mm_size f)) ;;;
    modify (set_memmap (MemmapFile (in_use f) (mm_base f) (u64 offset) (mm_size f))) ;;;
    ret 0
  else ret (- ENOENT).

Definition memmap_block_len (entity : Z) : IO (Z * Z) :=
  let! f := memmap_file entity in ret (0, mm_size f).

Definition memmap_block_read (entity buffer length : Z) : IO (Z * list Z) :=
  io_assert (PLAT_ALLOW_ZERO_ADDR_COPY || truthy buffer) ;;;
  let! f := memmap_file entity in
  let pos_after := u64 (mm_pos f + length) in
  io_assert ((mm_pos f <=? pos_after) && (pos_after <=? mm_size f)) ;;;
  let! bs := gets (fun s => read_bytes (io_mem s) (u64 (mm_base f + mm_pos f)) length) in
  modify (set_memmap (MemmapFile (in_use f) (mm_base f) pos_after (mm_size f))) ;;;
  ret (0, bs).

Definition memmap_block_write (entity buffer : Z) (bytes : list Z) : IO (Z * Z) :=
  io_assert (PLAT_ALLOW_ZERO_ADDR_COPY || truthy buffer) ;;;
  let! f := memmap_file entity in
  let length := Z.of_nat (length bytes) in
  let pos_after := u64 (mm_pos f + length) in
  io_assert ((mm_pos f <=? pos_after) && (pos_after <=? mm_size f)) ;;;
  modify (fun s => set_io_mem (write_bytes (io_mem s) (u64 (mm_base f + mm_pos f)) bytes) s) ;;;
  modify (set_memmap (MemmapFile (in_use f) (mm_base f) pos_after (mm_size f))) ;;;
  ret (0, length).

Definition memmap_block_close (entity : Z) : IO Z :=
  set_entity_info entity 0 ;;;
  modify (set_memmap (MemmapFile 0 0 0 0)) ;;;
  ret 0.

Definition memmap_dev_funcs : io_dev_funcs_t := {|
  io_type := Some IO_TYPE_MEMMAP;
  f_open := Some memmap_block_open;
  f_seek := Some memmap_block_seek;
  f_size := Some memmap_block_len;
  f_read := Some memmap_block_read;
  f_write := Some memmap_block_write;
  f_close := Some memmap_block_close;
  f_dev_init := None;
  f_dev_close := Some memmap_dev_close
|}.

Definition register_io_dev_memmap : IO (Z * option (Z -> IO (Z * Z))) :=
  let! result := io_register_device memmap_dev_info in
  ret (result, if result =? 0 then Some memmap_dev_open else None).

(** ** The FIP driver

    [funcs] and [get_source] are the layers below: the function tables of the
    other devices and [plat_get_image_source].  [toc_fuel] bounds the search of
    the table of contents and [stack] is what an uninitialised header holds. *)
Section fip.
Context (funcs : Z -> option io_dev_funcs_t) (get_source : Z -> IO (Z * Z * Z)) (toc_fuel : nat) (stack : list Z).

Definition is_valid_header (h : list Z) : bool := (header_name h =? TOC_HEADER_NAME) && truthy (header_serial h).

Definition fip_dev_open (dev_spec : Z) : IO (Z * Z) := ret (0, fip_dev_info).

Definition fip_dev_init (dev init_params : Z) : IO Z :=
  let! src := get_source (u32 init_params) in
  let '(result, d, sp) := src in
  if negb (result =? 0) then ret (- ENOENT)
  else
    modify (set_backend d sp) ;;;
    let! o := io_open funcs d sp in
    if negb (o.1 =? 0) then ret (- ENOENT)
    else
      let! r := io_read funcs o.2 local_buffer TOC_HEADER_SIZE in
      let header := overwrite stack r.2 in
      let result := if r.1 =? 0 then (if is_valid_header header then 0 else - ENOENT) else r.1 in
      io_close funcs o.2 ;;;
      ret result.

Definition fip_dev_close (dev : Z) : IO Z := modify (set_backend 0 0) ;;; ret 0.

(** The search: returns the result and [found_file]. *)
Fixpoint toc_loop (fuel : nat) (backend_handle : Z) (uuid : list Z) : IO (Z * bool) :=
  match fuel with
  | O => halt_with HHang
  | S fuel' =>
      let! r := io_read funcs backend_handle local_buffer TOC_ENTRY_SIZE in
      modify (fun s => set_fip (FipFile (fip_pos (fip_current s)) (overwrite (fip_entry (fip_current s)) r.2)) s) ;;;
      if r.1 =? 0 then
        let! f := gets fip_current in
        if decide (entry_uuid (fip_entry f) = uuid) then ret (0, true)
        else if decide (entry_uuid (fip_entry f) = uuid_null) then ret (0, false)
        else toc_loop fuel' backend_handle uuid
      else ret (r.1, false)
  end.

Definition fip_file_open (dev spec entity : Z) : IO Z :=
  io_assert (truthy spec) ;;;
  io_assert (truthy entity) ;;;
  let! f := gets fip_current in
  if truthy (entry_offset (fip_entry f)) then ret (- ENOMEM)
  else
    let! d := gets backend_dev_handle in
    let! sp := gets backend_image_spec in
    let! o := io_open funcs d sp in
    if negb (o.1 =? 0) then ret (- ENOENT)
    else
      let! rc := io_seek funcs o.2 IO_SEEK_SET TOC_HEADER_SIZE in
      let! result :=
        (if negb (rc =? 0) then ret (- ENOENT)
         else
           let! uuid := deref (uuid_of_spec spec) in
           let! r := toc_loop toc_fuel o.2 uuid in
           if negb (r.1 =? 0) then ret r.1
           else if r.2 then
             modify (fun s => set_fip (FipFile 0 (fip_entry (fip_current s))) s) ;;;
             set_entity_info entity fip_file_ptr ;;;
             ret 0
           else
             modify (fun s => set_fip (FipFile (fip_pos (fip_current s)) (clear_offset (fip_entry (fip_current s)))) s) ;;;
             ret (- ENOENT)) in
      io_close funcs o.2 ;;;
      ret result.

Definition fip_file_len (entity : Z) : IO (Z * Z) := let! f := fip_file entity in ret (0, entry_size (fip_entry f)).

Definition fip_file_read (entity buffer length : Z) : IO (Z * list Z) :=
  io_assert (PLAT_ALLOW_ZERO_ADDR_COPY || truthy buffer) ;;;
  let! e := get_entity entity in
  io_assert (truthy (info e)) ;;;
  let! d := gets backend_dev_handle in
  let! sp := gets backend_image_spec in
  let! o := io_open funcs d sp in
  if negb (o.1 =? 0) then ret (- ENOENT, [])
  else
    let! fp := fip_file entity in
    let file_offset := u64 (entry_offset (fip_entry fp) + fip_pos fp) in
    let! rc := io_seek funcs o.2 IO_SEEK_SET (s64 file_offset) in
    let! result :=
      (if negb (rc =? 0) then ret (- ENOENT, [])
       else
         let! r := io_read funcs o.2 buffer length in
         if negb (r.1 =? 0) then ret (- ENOENT, r.2)
         else
           modify (fun s => set_fip (FipFile (u32 (fip_pos (fip_current s) + Z.of_nat (List.length r.2))) (fip_entry (fip_current s))) s) ;;;
           ret (0, r.2)) in
    io_close funcs o.2 ;;;
    ret result.

Definition fip_file_close (entity : Z) : IO Z :=
  let! f := gets fip_current in
  when (truthy (entry_offset (fip_entry f))) (modify (set_fip (FipFile 0 zero_entry))) ;;;
  set_entity_info entity 0 ;;;
  ret 0.

Definition fip_dev_funcs : io_dev_funcs_t := {|
  io_type := Some IO_TYPE_FIRMWARE_IMAGE_PACKAGE;
  f_open := Some fip_file_open;
  f_seek := None;
  f_size := Some fip_file_len;
  f_read := Some fip_file_read;
  f_write := None;
  f_close := Some fip_file_close;
  f_dev_init := Some fip_dev_init;
  f_dev_close := Some fip_dev_close
|}.
End fip.

Definition register_io_dev_fip : IO (Z * option (Z -> IO (Z * Z))) :=
  let! result := io_register_device fip_dev_info in
  ret (result, if result =? 0 then Some fip_dev_open else None).

(** ** The load policy of the platform *)
Section policy.
Context (funcs : Z -> option io_dev_funcs_t).

(** Open an image to see that it is there. *)
Definition open_probe (dev init_params spec : Z) : IO Z :=
  let! result := io_dev_init funcs dev init_params in
  if result =? 0 then
    let! o := io_open funcs dev spec in
    if o.1 =? 0 then io_close funcs o.2 ;;; ret 0 else ret o.1
  else ret result.
Definition open_fip (spec : Z) : IO Z := let! d := gets fip_dev_handle in open_probe d FIP_IMAGE_ID spec.
Definition open_memmap (spec : Z) : IO Z := let! d := gets memmap_dev_handle in open_probe d 0 spec.

(** An entry of the table: the device handle, the specification and the check. *)
Record plat_io_policy : Type := PlatIoPolicy { p_handle : io_state -> Z; image_spec : Z; check : Z -> IO Z }.
Definition policies : list plat_io_policy :=
  [PlatIoPolicy memmap_dev_handle fip_block_spec open_memmap;
   PlatIoPolicy fip_dev_handle bl2_uuid_spec open_fip;
   PlatIoPolicy fip_dev_handle scp_bl2_uuid_spec open_fip;
   PlatIoPolicy fip_dev_handle bl31_uuid_spec open_fip;
   PlatIoPolicy fip_dev_handle bl32_uuid_spec open_fip;
   PlatIoPolicy fip_dev_handle bl33_uuid_spec open_fip].

Definition plat_marvell_get_alt_image_source (image_id : Z) : IO (Z * Z * Z) := ret (- ENOENT, 0, 0).

(** Returns the result, the device handle and the specification. *)
Definition plat_get_image_source (image_id : Z) : IO (Z * Z * Z) :=
  io_assert (image_id <? Z.of_nat (length policies)) ;;;
  let! p := deref (arr_get policies image_id) in
  let! result := check p (image_spec p) in
  if result =? 0 then
    let! d := gets (p_handle p) in ret (0, d, image_spec p)
  else plat_marvell_get_alt_image_source image_id.

Definition marvell_io_is_toc_valid : IO bool :=
  let! d := gets fip_dev_handle in
  let! result := io_dev_init funcs d FIP_IMAGE_ID in ret (result =? 0).
End policy.

(** The devices, with at most [n] FIP drivers above each other. *)
Fixpoint dev_table (toc_fuel : nat) (stack : list Z) (n : nat) (d : Z) : option io_dev_funcs_t :=
  if d =? memmap_dev_info then Some memmap_dev_funcs
  else if d =? fip_dev_info then
    match n with
    | O => None
    | S n' => Some (fip_dev_funcs (dev_table toc_fuel stack n') (plat_get_image_source (dev_table toc_fuel stack n')) toc_fuel stack)
    end
  else None.

Definition marvell_io_setup : IO unit :=
  let! f := register_io_dev_fip in
  io_assert (f.1 =? 0) ;;;
  let! m := register_io_dev_memmap in
  io_assert (m.1 =? 0) ;;;
  let! fd := io_dev_open f.2 0 in
  let! md0 := gets memmap_dev_handle in
  modify (set_handles fd.2 md0) ;;;
  io_assert (fd.1 =? 0) ;;;
  let! md := io_dev_open m.2 0 in
  modify (set_handles fd.2 md.2) ;;;
  io_assert (md.1 =? 0).
End drivers.
