(* ===== verification/IoBlock.v ===== *)
(** * I/O storage: the block driver (drivers/io/io_block.c)

    The driver gives byte access to a device whose low-level driver transfers
    whole blocks between the device and a bounce buffer.  The low-level driver
    is the pair of functions of the device specification, a parameter here: it
    works on the memory and on the device, whose state is any type [D].
    Pointers to a device or to its state are an index plus one, 0 is null;
    device and region specifications are known by tokens. *)
From stdpp Require Import base list numbers option.
From Stdlib Require Import ZArith Lia.
From S2P Require Import Prelude TbbDefs IoStorage.
#[local] Open Scope Z_scope.

(** [io_block_spec_t]: a bounce buffer in memory or a region of the device. *)
Record io_block_spec_t : Type := BlockSpec { spec_offset : Z; spec_length : Z }.

(** [lba], [buf], [size] to the number of bytes transferred. *)
Record io_block_ops_t (D : Type) : Type := BlockOps {
  ops_read : option (Z -> Z -> Z -> M (memory * D) Z);
  ops_write : option (Z -> Z -> Z -> M (memory * D) Z)
}.
Arguments BlockOps {D}.
Arguments ops_read {D}.
Arguments ops_write {D}.

Record io_block_dev_spec_t (D : Type) : Type := BlockDevSpec {
  bd_buffer : io_block_spec_t;
  bd_ops : io_block_ops_t D;
  block_size : Z
}.
Arguments BlockDevSpec {D}.
Arguments bd_buffer {D}.
Arguments bd_ops {D}.
Arguments block_size {D}.

Record block_dev_state_t : Type := BlockDevState { bs_dev_spec : Z; bs_base : Z; file_pos : Z; bs_size : Z }.
Definition zero_block_dev_state : block_dev_state_t := BlockDevState 0 0 0 0.
Definition set_file_pos (x : Z) (st : block_dev_state_t) : block_dev_state_t :=
  BlockDevState (bs_dev_spec st) (bs_base st) x (bs_size st).

(** [io_dev_info_t]: [funcs] is the driver's function table or null. *)
Record block_dev_info_t : Type := BlockDevInfo { bi_funcs : Z; bi_info : Z }.
Definition block_dev_funcs_ptr : Z := 1.

(** The static data of the driver, the [info] field of the entities, the
    memory and the device. *)
Record blk_state (D : Type) : Type := BlkState {
  state_pool : list block_dev_state_t;
  dev_info_pool : list block_dev_info_t;
  block_dev_count : Z;
  entity_info : list Z;
  blk_hw : memory * D
}.
Arguments BlkState {D}.
Arguments state_pool {D}.
Arguments dev_info_pool {D}.
Arguments block_dev_count {D}.
Arguments entity_info {D}.
Arguments blk_hw {D}.

Definition set_state_pool {D} (x : list block_dev_state_t) (s : blk_state D) : blk_state D :=
  BlkState x (dev_info_pool s) (block_dev_count s) (entity_info s) (blk_hw s).
Definition set_dev_info_pool {D} (x : list block_dev_info_t) (s : blk_state D) : blk_state D :=
  BlkState (state_pool s) x (block_dev_count s) (entity_info s) (blk_hw s).
Definition set_block_dev_count {D} (x : Z) (s : blk_state D) : blk_state D :=
  BlkState (state_pool s) (dev_info_pool s) x (entity_info s) (blk_hw s).
Definition set_entity_infos {D} (x : list Z) (s : blk_state D) : blk_state D :=
  BlkState (state_pool s) (dev_info_pool s) (block_dev_count s) x (blk_hw s).
Definition set_blk_hw {D} (x : memory * D) (s : blk_state D) : blk_state D :=
  BlkState (state_pool s) (dev_info_pool s) (block_dev_count s) (entity_info s) x.

(** [is_power_of_2]. *)
Definition is_power_of_2 (x : Z) : bool := negb (x =? 0) && (Z.land x (u64 (x - 1)) =? 0).

(** [x & (block_size - 1)] and [x & ~(block_size - 1)] on [size_t]. *)
Definition block_offset (bs x : Z) : Z := Z.land x (u64 (bs - 1)).
Definition block_floor (bs x : Z) : Z := Z.land x (u64 (Z.lnot (bs - 1))).

Section io_block.
Context {D : Type} `{!IoEnv} (MAX_IO_BLOCK_DEVICES : Z).

(** What the tokens of device and region specifications stand for. *)
Context (dev_specs : Z -> option (io_block_dev_spec_t D)) (region_specs : Z -> option io_block_spec_t).

#[local] Abbreviation B := (M (blk_state D)).
Definition blk_assert (b : bool) : B unit := if IO_ASSERTIONS && negb b then halt_with HAssert else ret tt.

Definition get_block_state (p : Z) : B block_dev_state_t :=
  let! l := gets state_pool in deref (arr_get l (p - 1)).
Definition put_block_state (p : Z) (st : block_dev_state_t) : B unit :=
  let! l := gets state_pool in
  let! l' := deref (arr_set l (p - 1) st) in modify (set_state_pool l').
Definition get_dev_info (p : Z) : B block_dev_info_t :=
  let! l := gets dev_info_pool in deref (arr_get l (p - 1)).
Definition put_dev_info (p : Z) (di : block_dev_info_t) : B unit :=
  let! l := gets dev_info_pool in
  let! l' := deref (arr_set l (p - 1) di) in modify (set_dev_info_pool l').
Definition get_entity_info (entity : Z) : B Z :=
  let! l := gets entity_info in deref (arr_get l (entity - 1)).
Definition put_entity_info (entity x : Z) : B unit :=
  let! l := gets entity_info in
  let! l' := deref (arr_set l (entity - 1) x) in modify (set_entity_infos l').

(** ** The pool of devices *)
Definition find_first_block_state (dev_spec : Z) : B (option Z) :=
  gets (fun s => find_index dev_spec (map bs_dev_spec (state_pool s)) 0).

(** Returns the result and the device. *)
Definition allocate_dev_info : B (Z * Z) :=
  let! n := gets block_dev_count in
  if n <? MAX_IO_BLOCK_DEVICES then
    let! o := find_first_block_state 0 in
    let index := default 0 o in
    let result := if decide (is_Some o) then 0 else - ENOENT in
    blk_assert (result =? 0) ;;;
    put_dev_info (index + 1) (BlockDevInfo block_dev_funcs_ptr (index + 1)) ;;;
    modify (set_block_dev_count (u32 (n + 1))) ;;;
    ret (result, index + 1)
  else ret (- ENOMEM, 0).

Definition free_dev_info (dev_info : Z) : B Z :=
  blk_assert (truthy dev_info) ;;;
  let! di := get_dev_info dev_info in
  let! st := get_block_state (bi_info di) in
  let! o := find_first_block_state (bs_dev_spec st) in
  match o with
  | Some _ =>
      put_block_state (bi_info di) zero_block_dev_state ;;;
      put_dev_info dev_info (BlockDevInfo 0 0) ;;;
      let! n := gets block_dev_count in
      modify (set_block_dev_count (u32 (n - 1))) ;;;
      ret 0
  | None => ret (- ENOENT)
  end.

(** ** Entities *)
Definition block_open (dev_info spec entity : Z) : B Z :=
  let! di := get_dev_info dev_info in
  let! e := get_entity_info entity in
  blk_assert (truthy (bi_info di) && truthy spec && negb (truthy e)) ;;;
  let! region := deref (region_specs spec) in
  let! cur := get_block_state (bi_info di) in
  (if IO_ASSERTIONS then
     let! sp := deref (dev_specs (bs_dev_spec cur)) in
     if block_size sp =? 0 then halt_with HUndef
     else blk_assert ((spec_offset region mod block_size sp =? 0) && (spec_length region mod block_size sp =? 0))
   else ret tt) ;;;
  put_block_state (bi_info di) (BlockDevState (bs_dev_spec cur) (spec_offset region) 0 (spec_length region)) ;;;
  put_entity_info entity (bi_info di) ;;;
  ret 0.

Definition block_seek (entity mode offset : Z) : B Z :=
  let! e := get_entity_info entity in
  blk_assert (truthy e) ;;;
  let! cur := get_block_state e in
  blk_assert ((0 <=? offset) && (u64 offset <? bs_size cur)) ;;;
  let! ok :=
    (if mode =? IO_SEEK_SET then put_block_state e (set_file_pos (u64 offset) cur) ;;; ret true
     else if mode =? IO_SEEK_CUR then put_block_state e (set_file_pos (u64 (file_pos cur + offset)) cur) ;;; ret true
     else ret false) in
  if ok then
    let! cur := get_block_state e in
    blk_assert (file_pos cur <? bs_size cur) ;;;
    ret 0
  else ret (- EINVAL).

(** [memcpy]. *)
Definition blk_memcpy (dst src n : Z) : B unit :=
  modify (fun s => set_blk_hw (write_bytes (blk_hw s).1 dst (read_bytes (blk_hw s).1 src n), (blk_hw s).2) s).

(** A call of the low-level driver. *)
Definition low_level (f : option (Z -> Z -> Z -> M (memory * D) Z)) (lba buf size : Z) : B Z :=
  let! g := deref f in zoom blk_hw set_blk_hw (g lba buf size).

(** The size of the request for [left] bytes from [skip] bytes into a block. *)
Definition request_size (sp : io_block_dev_spec_t D) (skip left : Z) : Z :=
  if spec_length (bd_buffer sp) <? u64 (skip + left) then spec_length (bd_buffer sp)
  else block_floor (block_size sp) (u64 (u64 (skip + left) + u64 (block_size sp - 1))).

(** [request] less the skip and the padding: the bytes of the caller. *)
Definition payload (request skip left : Z) : Z :=
  let nbytes := u64 (request - skip) in
  let padding := if left <? nbytes then nbytes - left else 0 in
  nbytes - padding.

(** The block number of the current position, an [int]. *)
Definition current_lba (sp : io_block_dev_spec_t D) (cur : block_dev_state_t) : Z :=
  s32 (u64 (file_pos cur + bs_base cur) / block_size sp).

(** The loop of [block_read]; [None] is the return with -EIO. *)
Fixpoint block_read_loop (fuel : nat) (e buffer : Z) (sp : io_block_dev_spec_t D) (left count : Z) : B (option Z) :=
  if left <=? 0 then ret (Some count)
  else match fuel with
  | O => halt_with HHang
  | S fuel =>
      let! cur := get_block_state e in
      let skip := block_offset (block_size sp) (file_pos cur) in
      let buf := spec_offset (bd_buffer sp) in
      let! request := low_level (ops_read (bd_ops sp)) (current_lba sp cur) buf (request_size sp skip left) in
      if request <=? skip then ret None
      else
        let nbytes := payload request skip left in
        blk_memcpy (u64 (buffer + count)) (u64 (buf + skip)) nbytes ;;;
        put_block_state e (set_file_pos (u64 (file_pos cur + nbytes)) cur) ;;;
        block_read_loop fuel e buffer sp (left - nbytes) (count + nbytes)
  end.

(** Returns the result and the number of bytes read (0 when it is not set). *)
Definition block_read (entity buffer length : Z) : B (Z * Z) :=
  let! e := get_entity_info entity in
  blk_assert (truthy e) ;;;
  let! cur := get_block_state e in
  let! sp := deref (dev_specs (bs_dev_spec cur)) in
  blk_assert ((length <=? bs_size cur) && (0 <? length) && bool_decide (is_Some (ops_read (bd_ops sp)))) ;;;
  let! r := block_read_loop (Z.to_nat length) e buffer sp length 0 in
  match r with
  | None => ret (- EIO, 0)
  | Some count => blk_assert (count =? length) ;;; ret (0, count)
  end.

(** The request of one iteration of [block_write] once the partial blocks have
    been read; [None] is the return with -EIO. *)
Definition preserve_blocks (sp : io_block_dev_spec_t D) (lba skip left : Z) : B (option Z) :=
  let request := request_size sp skip left in
  let padding := if left <? u64 (request - skip) then u64 (request - skip) - left else 0 in
  if (0 <? skip) || (0 <? padding) then
    let! n := low_level (ops_read (bd_ops sp)) lba (spec_offset (bd_buffer sp)) request in
    let request := block_floor (block_size sp) n in
    ret (if request <=? skip then None else Some request)
  else ret (Some request).

Fixpoint block_write_loop (fuel : nat) (e buffer : Z) (sp : io_block_dev_spec_t D) (left count : Z) : B (option Z) :=
  if left <=? 0 then ret (Some count)
  else match fuel with
  | O => halt_with HHang
  | S fuel =>
      let! cur := get_block_state e in
      let skip := block_offset (block_size sp) (file_pos cur) in
      let buf := spec_offset (bd_buffer sp) in
      let! r := preserve_blocks sp (current_lba sp cur) skip left in
      match r with
      | None => ret None
      | Some request =>
          blk_memcpy (u64 (buf + skip)) (u64 (buffer + count)) (payload request skip left) ;;;
          let! request := low_level (ops_write (bd_ops sp)) (current_lba sp cur) buf request in
          if request <=? skip then ret None
          else
            let nbytes := payload request skip left in
            put_block_state e (set_file_pos (u64 (file_pos cur + nbytes)) cur) ;;;
            block_write_loop fuel e buffer sp (left - nbytes) (count + nbytes)
      end
  end.

Definition block_write (entity buffer length : Z) : B (Z * Z) :=
  let! e := get_entity_info entity in
  blk_assert (truthy e) ;;;
  let! cur := get_block_state e in
  let! sp := deref (dev_specs (bs_dev_spec cur)) in
  blk_assert ((length <=? bs_size cur) && (0 <? length) &&
              bool_decide (is_Some (ops_read (bd_ops sp))) && bool_decide (is_Some (ops_write (bd_ops sp)))) ;;;
  let! r := block_write_loop (Z.to_nat length) e buffer sp length 0 in
  match r with
  | None => ret (- EIO, 0)
  | Some count => blk_assert (count =? length) ;;; ret (0, count)
  end.

Definition block_close (entity : Z) : B Z := put_entity_info entity 0 ;;; ret 0.

(** ** Devices *)
Definition block_dev_open (dev_spec : Z) : B (Z * Z) :=
  let! a := allocate_dev_info in
  if a.1 =? 0 then
    let! di := get_dev_info a.2 in
    let! cur := get_block_state (bi_info di) in
    put_block_state (bi_info di) (BlockDevState dev_spec (bs_base cur) (file_pos cur) (bs_size cur)) ;;;
    let! sp := deref (dev_specs dev_spec) in
    (if IO_ASSERTIONS then
       blk_assert ((0 <? block_size sp) && is_power_of_2 (block_size sp) &&
                   (spec_offset (bd_buffer sp) mod block_size sp =? 0) &&
                   (spec_length (bd_buffer sp) mod block_size sp =? 0))
     else ret tt) ;;;
    ret (0, a.2)
  else ret (- ENOENT, 0).

Definition block_dev_close (dev_info : Z) : B Z := free_dev_info dev_info.
End io_block.
