(* ===== verification/Fiptool.v ===== *)
(** * The packaging tool (tools/fiptool/fiptool.c)

    [pack_images] writes a firmware image package, [parse_fip] reads one back
    into the table of image descriptors.  A file is a byte array with a size;
    bytes that were never written are 0.  An error exit is [None]. *)
From stdpp Require Import base list numbers option strings.
From Stdlib Require Import ZArith Lia.
From S2P Require Import Prelude TbbDefs IoDrivers.
#[local] Open Scope Z_scope.

Module Fiptool.

Definition TOC_HEADER_SERIAL_NUMBER : Z := 0x12345678.

(** ** Data *)
Record fip_toc_entry_t : Type := TocEntry { uuid : list Z; offset_address : Z; toc_size : Z; toc_e_flags : Z }.
Record image_t : Type := Image { toc_e : fip_toc_entry_t; buffer : list Z }.

(** A descriptor: the names and actions of the command line are left out. *)
Record image_desc_t : Type := ImageDesc { d_uuid : list Z; image : option image_t }.

Record file_t : Type := File { contents : memory; file_size : Z }.
Definition empty_file : file_t := File (fun _ => 0) 0.

(** Writing at a position: bytes written past the end make the file longer,
    a write of nothing does not. *)
Definition fwrite_at (f : file_t) (pos : Z) (bs : list Z) : file_t :=
  match bs with
  | [] => f
  | _ => File (write_bytes (contents f) pos bs) (Z.max (file_size f) (pos + Z.of_nat (length bs)))
  end.

Definition header_bytes (toc_flags : Z) : list Z :=
  le_bytes 4 TOC_HEADER_NAME ++ le_bytes 4 TOC_HEADER_SERIAL_NUMBER ++ le_bytes 8 toc_flags.
Definition entry_bytes (e : fip_toc_entry_t) : list Z :=
  uuid e ++ le_bytes 8 (offset_address e) ++ le_bytes 8 (toc_size e) ++ le_bytes 8 (toc_e_flags e).

(** ** Packing *)
Definition align_up (x align : Z) : Z := Z.land (u64 (x + align - 1)) (u64 (Z.lnot (align - 1))).
Definition is_power_of_2 (x : Z) : bool := truthy x && negb (truthy (Z.land x (x - 1))).

Definition set_offset (off : Z) (i : image_t) : image_t :=
  Image (TocEntry (uuid (toc_e i)) off (toc_size (toc_e i)) (toc_e_flags (toc_e i))) (buffer i).

(** The loop that places the images: the images with their offsets, and the
    offset after the last one. *)
Fixpoint place (images : list image_t) (align entry_offset : Z) : list image_t * Z :=
  match images with
  | [] => ([], entry_offset)
  | i :: rest =>
      let off := align_up entry_offset align in
      let r := place rest align (u64 (off + toc_size (toc_e i))) in
      (set_offset off i :: r.1, r.2)
  end.

(** The images of the table, in its order. *)
Definition present (descs : list image_desc_t) : list image_t := omap image descs.

Definition pack_images (descs : list image_desc_t) (toc_flags align : Z) : file_t :=
  let images := present descs in
  let buf_size := 16 + 40 * (Z.of_nat (length images) + 1) in
  let r := place images align buf_size in
  let toc_end := align_up r.2 align in
  let terminator := TocEntry uuid_null toc_end 0 0 in
  let buf := header_bytes toc_flags ++ mjoin (map (fun i => entry_bytes (toc_e i)) r.1) ++ entry_bytes terminator in
  let f := fwrite_at empty_file 0 buf in
  let f := foldl (fun f i => fwrite_at f (offset_address (toc_e i)) (take (Z.to_nat (toc_size (toc_e i))) (buffer i))) f r.1 in
  fwrite_at f r.2 (replicate (Z.to_nat (toc_end - r.2)) 0).

(** ** Parsing *)
Definition entry_of_bytes (b : list Z) : fip_toc_entry_t := TocEntry (entry_uuid b) (entry_offset b) (entry_size b) (field b 32 8).

Fixpoint lookup_image_desc_from_uuid (u : list Z) (descs : list image_desc_t) (index : nat) : option nat :=
  match descs with
  | [] => None
  | d :: rest => if decide (d_uuid d = u) then Some index else lookup_image_desc_from_uuid u rest (S index)
  end.

(** The image becomes the one of the descriptor with its UUID, which is added
    to the table when it is not there; the descriptor must not have one. *)
Definition attach (i : image_t) (descs : list image_desc_t) : option (list image_desc_t) :=
  match lookup_image_desc_from_uuid (uuid (toc_e i)) descs 0 with
  | Some k =>
      match descs !! k with
      | Some (ImageDesc u None) => Some (<[k := ImageDesc u (Some i)]> descs)
      | _ => None
      end
  | None => Some (descs ++ [ImageDesc (uuid (toc_e i)) (Some i)])
  end.

(** The walk over the entries; [pos] is the position of the next one.  The
    fuel is the number of entries that fit into the file. *)
Fixpoint parse_entries (fuel : nat) (f : file_t) (pos : Z) (descs : list image_desc_t) : option (list image_desc_t) :=
  match fuel with
  | O => None
  | S fuel' =>
      if pos + 40 - 1 <? file_size f then
        let e := entry_of_bytes (read_bytes (contents f) pos 40) in
        if decide (uuid e = uuid_null) then Some descs
        else if UINTPTR_MAX - offset_address e <? toc_size e then None
        else if file_size f <? toc_size e + offset_address e then None
        else
          let i := Image e (read_bytes (contents f) (offset_address e) (toc_size e)) in
          descs' ← attach i descs; parse_entries fuel' f (pos + 40) descs'
      else None
  end.

Definition parse_fip (f : file_t) (descs : list image_desc_t) : option (list image_desc_t) :=
  if file_size f <? 16 then None
  else if negb (field (read_bytes (contents f) 0 16) 0 4 =? TOC_HEADER_NAME) then None
  else parse_entries (Z.to_nat (file_size f / 40 + 1)) f 16 descs.
End Fiptool.
