(* ===== verification/TbbExample.v ===== *)
(** * A small concrete environment for the trusted-boot model

    A platform with one non-volatile counter, a certificate format with
    fixed offsets, and checks that compare single bytes in the place of
    cryptography: enough to run the code of the model on concrete images. *)
From stdpp Require Import base list numbers option strings.
From Stdlib Require Import ZArith Lia.
From S2P Require Import Prelude TbbDefs AuthMod TbbrCot BlCommon Bl1Fwu.
#[local] Open Scope Z_scope.

Module TbbExample.

(** The buffers, 512 bytes apart. *)
Definition buf_index (b : cot_buf) : Z :=
  match b with
  | tb_fw_hash_buf => 0 | tb_fw_config_hash_buf => 1 | hw_config_hash_buf => 2 | scp_fw_hash_buf => 3
  | soc_fw_hash_buf => 4 | tos_fw_hash_buf => 5 | tos_fw_extra1_hash_buf => 6 | tos_fw_extra2_hash_buf => 7
  | nt_world_bl_hash_buf => 8 | trusted_world_pk_buf => 9 | non_trusted_world_pk_buf => 10 | content_pk_buf => 11
  end.
#[global] Instance bufs : CotBufs := fun b => 0x100000 + 512 * buf_index b.

(** A certificate: a key at offset 0, a hash at 8, a DER counter at 16, the
    signature at 24. *)
Definition cert_param (td : auth_param_type_desc_t) (m : memory) (p n : Z) : Z * Z * Z :=
  match type td with
  | AUTH_PARAM_PUB_KEY => (0, p, 8)
  | AUTH_PARAM_HASH => (0, p + 8, 8)
  | AUTH_PARAM_NV_CTR => (0, p + 16, 8)
  | AUTH_PARAM_SIG | AUTH_PARAM_SIG_ALG => (0, p + 24, 8)
  | AUTH_PARAM_RAW_DATA => (0, p, n)
  | AUTH_PARAM_NONE => (3, 0, 0)
  end.
Definition cert_parser : img_parser_lib_desc_t :=
  ParserLib IMG_CERT (fun m p n => if 32 <=? n then 0 else 2) cert_param.

Definition first_byte (l : list Z) : Z := default (-1) (head l).
Definition same_first (a b : list Z) : Z := b2z (negb (first_byte a =? first_byte b)).

(** Storage: image [id] is [content id]; identifiers are used as handles; a
    read loses the last [lost] bytes. *)
Section env.
Context (assertions tbb v2 : bool) (content : Z -> list Z) (lost : nat).
Definition env : TbEnv Z := {|
  TB_ASSERTIONS := assertions;
  TRUSTED_BOARD_BOOT := tbb;
  LOAD_IMAGE_V2 := v2;
  FWU_MAX_SIMULTANEOUS_IMAGES := 10;
  cot_desc_ptr := cot_desc;
  parser_lib_descs := [cert_parser];
  crypto_verify_signature := fun _ sg _ pk => same_first sg pk;
  crypto_verify_hash := same_first;
  plat_get_rotpk_info := fun _ => ret (0, 0x200000, 8, 0);
  plat_get_nv_ctr := fun _ => gets (fun v => (0, v));
  plat_set_nv_ctr := fun _ v => (modify (fun _ => v) ;;; ret 0);
  bl1_plat_mem_check := fun p n _ => ret (b2z (negb ((0x80000000 <=? p) && (p + n <=? 0x90000000))));
  bl1_plat_handle_pre_image_load := fun _ => ret 0;
  bl1_plat_handle_post_image_load := fun _ => ret 0;
  bl1_plat_set_ep_info := fun _ => ret tt;
  EL2_IMPLEMENTED := true;
  bl1_plat_sec_mem_layout := MemInfo 0x4000000 0x40000 0x4001000 0x3f000;
  plat_get_image_source := fun id => ret (0, 0, id);
  io_open := fun _ spec => ret (0, spec);
  io_size := fun h => ret (0, Z.of_nat (length (content h)));
  io_read := fun h _ n => ret (0, take (Z.to_nat n - lost) (content h));
  io_close := fun _ => ret 0;
  io_dev_close := fun _ => ret 0;
  plat_try_next_boot_source := ret 0
|}.
End env.

(** Memory that holds the root key 7... at 0x200000 and [bs] at [a]. *)
Definition mem_with (a : Z) (bs : list Z) : memory :=
  write_bytes (write_bytes (fun _ => 0) 0x200000 (replicate 8 7)) a bs.

(** BL1 after [auth_mod_init], with image descriptors [ds]. *)
Definition boot_state (m : memory) (ds : list image_desc_t) : tb_state Z :=
  TbState m [INVALID_IDX; INVALID_IDX; 0] (replicate (Z.to_nat MAX_NUMBER_IDS) 0) ds INVALID_IMAGE_ID
    (replicate 10 INVALID_IMAGE_ID) 0 [].

(** The value and the state at the end of a run. *)
Definition returned {S A} (o : outcome S A) : option A := match o with Ret a _ => Some a | Halt _ _ => None end.
Definition final {S A} (o : outcome S A) : S := match o with Ret _ s | Halt _ s => s end.
Lemma returned_final {S A} (o : outcome S A) a : returned o = Some a -> o = Ret a (final o).
Proof. destruct o; [|done]. by intros [= ->]. Qed.

(** A certificate with the key [k], the hash [h], the counter [c] below 128,
    signed by [sg]. *)
Definition cert (k h c sg : Z) : list Z :=
  replicate 8 k ++ replicate 8 h ++ [2; 1; c; 0; 0; 0; 0; 0] ++ replicate 8 sg.
End TbbExample.
