(* ===== verification/TbbLemmas.v ===== *)
(** * Trusted board boot: shared lemmas

    Memory reads and writes, symbolic execution of the state operations, and
    the frame of the authentication module: [auth_mod_verify_img] writes
    memory only inside the buffers of the chain of trust and touches neither
    the image descriptors nor the update service's tables. *)
From stdpp Require Import base list numbers option strings sets.
From Stdlib Require Import ZArith Lia.
From S2P Require Import Prelude TbbDefs AuthMod BlCommon.
#[local] Open Scope Z_scope.

(** ** Memory *)
Lemma length_read m a n : length (read_bytes m a n) = Z.to_nat n.
Proof. unfold read_bytes. rewrite length_map, length_seqZ. done. Qed.

Lemma read_lookup m a n i : 0 <= i < n -> read_bytes m a n !! Z.to_nat i = Some (m (a + i)).
Proof.
  intros Hi. unfold read_bytes. apply list_lookup_fmap_Some. exists i. split; [done|].
  apply lookup_seqZ. lia.
Qed.

Lemma read_ext m m' a n : (forall x, a <= x < a + n -> m' x = m x) -> read_bytes m' a n = read_bytes m a n.
Proof.
  intros He. unfold read_bytes. apply map_ext_in. intros i Hi.
  apply list_elem_of_In, elem_of_seqZ in Hi. apply He. lia.
Qed.

Lemma read_app m a n k : 0 <= n -> 0 <= k -> read_bytes m a (n + k) = read_bytes m a n ++ read_bytes m (a + n) k.
Proof.
  intros Hn Hk. unfold read_bytes. rewrite seqZ_app by done. rewrite map_app. f_equal.
  apply list_eq. intros i. rewrite !list_lookup_fmap. destruct (decide (Z.of_nat i < k)) as [Hi|Hi].
  - rewrite !lookup_seqZ_lt by lia. cbn. f_equal. f_equal. lia.
  - rewrite !lookup_seqZ_ge by lia. done.
Qed.

Lemma write_outside m a bs x : ~ (a <= x < a + Z.of_nat (length bs)) -> write_bytes m a bs x = m x.
Proof.
  intros Hx. unfold write_bytes. destruct (Z.leb_spec a x), (Z.ltb_spec x (a + Z.of_nat (length bs))); cbn; done || lia.
Qed.

Lemma write_inside m a bs i v : bs !! i = Some v -> write_bytes m a bs (a + Z.of_nat i) = v.
Proof.
  intros Hv. pose proof (lookup_lt_Some _ _ _ Hv). unfold write_bytes.
  destruct (Z.leb_spec a (a + Z.of_nat i)), (Z.ltb_spec (a + Z.of_nat i) (a + Z.of_nat (length bs))); cbn; try lia.
  replace (Z.to_nat (a + Z.of_nat i - a)) with i by lia. by rewrite Hv.
Qed.

Lemma read_write_same m a bs : read_bytes (write_bytes m a bs) a (Z.of_nat (length bs)) = bs.
Proof.
  apply list_eq. intros i. destruct (decide (i < length bs)%nat) as [Hi|Hi].
  - destruct (lookup_lt_is_Some_2 bs i Hi) as [v Hv]. rewrite Hv.
    replace i with (Z.to_nat (Z.of_nat i)) by lia. rewrite read_lookup by lia. f_equal. by apply write_inside.
  - rewrite !lookup_ge_None_2; [done|lia|rewrite length_read; lia].
Qed.

Lemma read_write_other m a bs p n :
  p + n <= a \/ a + Z.of_nat (length bs) <= p -> read_bytes (write_bytes m a bs) p n = read_bytes m p n.
Proof. intros Hd. apply read_ext. intros x Hx. apply write_outside. lia. Qed.

Lemma zero_outside m a n x : ~ (a <= x < a + n) -> zero_bytes m a n x = m x.
Proof. intros Hx. apply write_outside. rewrite length_replicate. lia. Qed.

Lemma read_zero m a n : 0 <= n -> read_bytes (zero_bytes m a n) a n = replicate (Z.to_nat n) 0.
Proof.
  intros Hn. unfold zero_bytes.
  pose proof (read_write_same m a (replicate (Z.to_nat n) 0)) as H. rewrite length_replicate in H.
  by rewrite Z2Nat.id in H by lia.
Qed.

(** ** Computations that stay within a relation *)
Definition within {S A} (R : S -> S -> Prop) (m : M S A) : Prop :=
  forall s, wp m (fun _ s' => R s s') (fun _ s' => R s s') s.

Section within.
Context {S : Type} (R : S -> S -> Prop) `{!PreOrder R}.

Lemma within_ret {A} (a : A) : within R (ret a).
Proof. intros s. apply wp_ret. reflexivity. Qed.
Lemma within_halt {A} h : within R (halt_with h : M S A).
Proof. intros s. apply wp_halt. reflexivity. Qed.
Lemma within_gets {A} (f : S -> A) : within R (gets f).
Proof. intros s. apply wp_gets. reflexivity. Qed.
Lemma within_modify f : (forall s, R s (f s)) -> within R (modify f).
Proof. intros Hf s. apply wp_modify, Hf. Qed.
Lemma within_deref {A} (o : option A) : within R (deref o).
Proof. destruct o; [apply within_ret|apply within_halt]. Qed.
Lemma within_bind {A B} (m : M S A) (k : A -> M S B) : within R m -> (forall a, within R (k a)) -> within R (bind m k).
Proof.
  intros Hm Hk s. apply wp_bind. eapply wp_mono; [apply Hm| |auto].
  cbn. intros a s' Hs'. eapply wp_mono; [apply Hk| |]; cbn; intros; etrans; eauto.
Qed.
Lemma within_when b m : within R m -> within R (when b m).
Proof. destruct b; [done|intros _; apply within_ret]. Qed.
Lemma within_run {A} (m : M S A) s a s' : within R m -> m s = Ret a s' -> R s s'.
Proof. intros Hm Hrun. specialize (Hm s). apply wp_unfold in Hm. by rewrite Hrun in Hm. Qed.
End within.

Lemma within_mono {S A} (R R' : S -> S -> Prop) (m : M S A) :
  (forall s s', R s s' -> R' s s') -> within R m -> within R' m.
Proof. intros HR Hm s. eapply wp_mono; [apply Hm|cbn; eauto..]. Qed.

(** ** Frames of the authentication module *)
Section frames.
Context {P : Type} `{!TbEnv P}.
Implicit Types (s : tb_state P).

(** Only the platform's own state changes. *)
Definition plat_only s s' : Prop := s' = set_tb_plat (tb_plat s') s.
#[global] Instance plat_only_preorder : PreOrder plat_only.
Proof.
  split; unfold plat_only.
  - intros [] . done.
  - intros s1 s2 s3 H1 H2. rewrite H2, H1. by destruct s1.
Qed.

(** Addresses inside the buffers of the registered chain of trust. *)
Definition in_param (e : auth_param_desc_t) (x : Z) : Prop :=
  is_Some (type_desc e) /\ ptr (data e) <= x < ptr (data e) + len (data e).
Definition param_region (x : Z) : Prop :=
  exists d e, d ∈ cot_desc_ptr /\ e ∈ authenticated_data d /\ in_param e x.

Record auth_frame s s' : Prop := {
  af_descs : bl1_tbbr_image_descs s' = bl1_tbbr_image_descs s;
  af_exec : sec_exec_image_id s' = sec_exec_image_id s;
  af_loaded : bl1_fwu_loaded_ids s' = bl1_fwu_loaded_ids s;
  af_index : parser_lib_indices s' = parser_lib_indices s;
  af_log : tb_log s' = tb_log s;
  af_flags : length (auth_img_flags s') = length (auth_img_flags s);
  af_mem : forall x, ~ param_region x -> tb_mem s' x = tb_mem s x
}.
#[global] Instance auth_frame_preorder : PreOrder auth_frame.
Proof.
  split; [done|]. intros s1 s2 s3 [] []. split; try congruence.
  intros x Hx. rewrite af_mem1, af_mem0; done.
Qed.

Lemma plat_only_frame s s' : plat_only s s' -> auth_frame s s'.
Proof. unfold plat_only. intros ->. by destruct s. Qed.

Lemma within_hook {A} (m : M P A) : within plat_only (tb_hook m).
Proof.
  intros s. unfold tb_hook. apply wp_zoom. apply wp_unfold. destruct (m (tb_plat s)); unfold plat_only; by destruct s.
Qed.
Lemma within_assert {R : tb_state P -> tb_state P -> Prop} `{!PreOrder R} b : within R (tb_assert b).
Proof. unfold tb_assert. destruct (_ && _); [by apply within_halt|by apply within_ret]. Qed.
Lemma within_load {R : tb_state P -> tb_state P -> Prop} `{!PreOrder R} a n : within R (load_bytes a n).
Proof. by apply within_gets. Qed.
Lemma within_return_if_error {R : tb_state P -> tb_state P -> Prop} `{!PreOrder R} m k :
  within R m -> within R k -> within R (return_if_error m k).
Proof.
  intros Hm Hk. unfold return_if_error. apply within_bind; [done|done|]. intros rc.
  destruct (rc =? 0); [done|by apply within_ret].
Qed.
End frames.

Create HintDb frame.
#[export] Hint Resolve within_hook within_assert within_load within_deref : frame.

(** Structural proof that a computation stays within a relation. *)
Ltac frame_step :=
  lazymatch goal with
  | |- within _ (bind _ _) => apply within_bind; [try typeclasses eauto..| |intros ?]
  | |- within _ (ret _) => apply within_ret; typeclasses eauto
  | |- within _ (halt_with _) => apply within_halt; typeclasses eauto
  | |- within _ (gets _) => apply within_gets; typeclasses eauto
  | |- within _ (when _ _) => apply within_when; [try typeclasses eauto..|]
  | |- within _ (return_if_error _ _) => apply within_return_if_error; [try typeclasses eauto..| |]
  | |- within _ (if ?b then _ else _) => destruct b
  | |- within _ (match ?x with _ => _ end) => destruct x
  | |- within _ _ => solve [eauto with frame typeclass_instances]
  end.
Ltac frame := repeat frame_step.

Section auth_frames.
Context {P : Type} `{!TbEnv P}.
Implicit Types (s : tb_state P).

Lemma frame_parser_of t : within (plat_only (P := P)) (parser_of t).
Proof. unfold parser_of. frame. Qed.
#[local] Hint Resolve frame_parser_of : frame.

Lemma frame_integrity t p n : within (plat_only (P := P)) (img_parser_check_integrity t p n).
Proof. unfold img_parser_check_integrity. frame. Qed.

Lemma frame_get_param t td p n : within (plat_only (P := P)) (img_parser_get_auth_param t td p n).
Proof. unfold img_parser_get_auth_param. frame. Qed.
#[local] Hint Resolve frame_integrity frame_get_param : frame.

Lemma frame_param_loop td es : within (plat_only (P := P)) (auth_get_param_loop td es).
Proof. induction es; cbn; frame. Qed.

Lemma frame_get_entry i : within (plat_only (P := P)) (cot_entry i).
Proof. unfold cot_entry. frame. Qed.
#[local] Hint Resolve frame_param_loop frame_get_entry : frame.

Lemma frame_auth_get_param td d : within (plat_only (P := P)) (auth_get_param td d).
Proof. unfold auth_get_param. frame. Qed.
#[local] Hint Resolve frame_auth_get_param : frame.

Lemma frame_verify_hash a b c d : within (plat_only (P := P)) (crypto_mod_verify_hash a b c d).
Proof. unfold crypto_mod_verify_hash. frame. Qed.
Lemma frame_verify_sig a b c d e f g h : within (plat_only (P := P)) (crypto_mod_verify_signature a b c d e f g h).
Proof. unfold crypto_mod_verify_signature. frame. Qed.
#[local] Hint Resolve frame_verify_hash frame_verify_sig : frame.

Lemma frame_one_method m d p n : within (plat_only (P := P)) (auth_one_method m d p n).
Proof.
  destruct m; cbn; unfold auth_hash, auth_signature, auth_nvctr, signing_key, parent_entry; frame.
Qed.
#[local] Hint Resolve frame_one_method : frame.

Lemma frame_methods ms d p n : within (plat_only (P := P)) (auth_methods_loop ms d p n).
Proof. induction ms; cbn; frame; done. Qed.

Lemma frame_get_parent_id id : within (plat_only (P := P)) (auth_mod_get_parent_id id).
Proof. unfold auth_mod_get_parent_id. frame. Qed.

Lemma frame_store d e bs :
  d ∈ cot_desc_ptr -> e ∈ authenticated_data d -> is_Some (type_desc e) -> Z.of_nat (length bs) <= Z.max 0 (len (data e)) ->
  within (auth_frame (P := P)) (store_bytes (ptr (data e)) bs).
Proof.
  intros Hd He Ht Hlen. unfold store_bytes. apply within_modify. intros s. split; try done. cbn.
  intros x Hx. apply write_outside. intros Hin. apply Hx. exists d, e. split_and!; [done|done|].
  split; [done|lia].
Qed.

Lemma frame_up {A} (m : M (tb_state P) A) : within (plat_only (P := P)) m -> within (auth_frame (P := P)) m.
Proof. apply within_mono. intros; by apply plat_only_frame. Qed.

Lemma frame_params es d p n :
  d ∈ cot_desc_ptr -> es ⊆ authenticated_data d -> within (auth_frame (P := P)) (auth_params_loop es d p n).
Proof.
  intros Hd. induction es as [|e es IH]; cbn; intros Hs; [frame|].
  specialize (IH ltac:(set_solver)). destruct (type_desc e) as [td|] eqn:Et; [|done].
  apply within_bind; [typeclasses eauto|by apply frame_up, frame_get_param|]. intros [[rc q] k].
  destruct (negb _); [frame|]. cbn. destruct (Z.ltb_spec (len (data e)) k); [frame|].
  intros s. apply wp_bind. unfold load_bytes. apply wp_gets. apply within_bind; [typeclasses eauto| |intros; done].
  apply (frame_store d e); [done|set_solver|by rewrite Et|]. rewrite length_read. lia.
Qed.

Lemma take_subseteq {A} n (l : list A) : take n l ⊆ l.
Proof. intros x Hx. rewrite <- (take_drop n l). apply elem_of_app. by left. Qed.

Lemma arr_get_elem {A} (l : list A) i x : arr_get l i = Some x -> x ∈ l.
Proof. unfold arr_get. destruct (0 <=? i); [|done]. apply list_elem_of_lookup_2. Qed.

Lemma frame_verify id p n : within (auth_frame (P := P)) (auth_mod_verify_img id p n).
Proof.
  unfold auth_mod_verify_img. intros s. apply wp_bind. unfold cot_entry.
  destruct (arr_get cot_desc_ptr id) as [d|] eqn:Ed; [|by apply wp_halt]. eapply wp_deref; [done|].
  cbv beta. revert s. change (within (auth_frame (P := P)) (return_if_error
    (img_parser_check_integrity (img_type d) p n)
    (return_if_error (auth_methods_loop (take (Z.to_nat AUTH_METHOD_NUM) (img_auth_methods d)) d p n)
    (return_if_error (auth_params_loop (take (Z.to_nat COT_MAX_VERIFIED_PARAMS) (authenticated_data d)) d p n) (mark_authenticated d))))).
  apply within_return_if_error; [apply frame_up, frame_integrity|].
  apply within_return_if_error; [apply frame_up, frame_methods|].
  apply within_return_if_error; [apply frame_params; [by eapply arr_get_elem|apply take_subseteq]|].
  unfold mark_authenticated. intros s1. apply wp_bind, wp_gets, wp_bind. cbn.
  destruct (arr_get (auth_img_flags s1) _) as [f|] eqn:Ef; [|by apply wp_halt]. eapply wp_deref; [done|].
  apply wp_bind. rewrite arr_set_in_range by (by eapply arr_get_Some_range). eapply wp_deref; [done|].
  apply wp_bind, wp_modify, wp_ret. split; try done. cbn. by rewrite length_insert.
Qed.

(** ** Runs that return 0 *)
Lemma return_if_error_0 (m k : M (tb_state P) Z) s s' :
  return_if_error m k s = Ret 0 s' -> exists s1, m s = Ret 0 s1 /\ k s1 = Ret 0 s'.
Proof.
  unfold return_if_error. intros (rc & s1 & Hm & Hk)%bind_ret_inv. exists s1.
  destruct (Z.eqb_spec rc 0) as [->|Hne]; [done|]. by injection Hk.
Qed.
End auth_frames.
