(* ===== verification/AuthProps.v ===== *)
(** * Trusted board boot: what authentication guarantees

    [method_passed] says what each authentication method has established when
    it returned 0, in terms of the bytes in memory and of the platform in the
    state in which it was asked; [auth_mod_verify_img] returning 0 implies it
    for every method of the image's entry in the chain of trust. *)
From stdpp Require Import base list numbers option strings sets.
From Stdlib Require Import ZArith Lia.
From S2P Require Import Prelude TbbDefs AuthMod TbbrCot BlCommon TbbLemmas.
#[local] Open Scope Z_scope.

Section spec.
Context {P : Type} `{!TbEnv P}.
Implicit Types (s : tb_state P).

(** ** Parameters *)

(** Address and length of a parameter of the image at [p], [n] bytes long. *)
Definition param_at s (t : img_type_t) (td : auth_param_type_desc_t) (p n : Z) : option (Z * Z) :=
  if decide (t = IMG_RAW) then Some (p, n)
  else
    idx ← arr_get (parser_lib_indices s) (img_type_value t);
    lib ← arr_get parser_lib_descs idx;
    let '(rc, q, k) := get_auth_param lib td (tb_mem s) p n in
    if rc =? 0 then Some (q, k) else None.
Definition bytes_at s (r : Z * Z) : list Z := read_bytes (tb_mem s) r.1 r.2.

(** The parameter that the parent of [d] has left in its buffer. *)
Definition find_param (td : auth_param_type_desc_t) (es : list auth_param_desc_t) : option auth_param_desc_t :=
  snd <$> list_find (fun e => type_desc e = Some td) es.
Definition parent_param s (td : auth_param_type_desc_t) (d : auth_img_desc_t) : option (list Z) :=
  p ← parent d; pd ← arr_get cot_desc_ptr p;
  e ← find_param td (authenticated_data pd);
  Some (bytes_at s (ptr (data e), len (data e))).

(** ** What a method establishes *)
Definition hash_passed s (hp : auth_method_param_hash_t) (d : auth_img_desc_t) (p n : Z) : Prop :=
  exists r h, param_at s (img_type d) (h_data hp) p n = Some r /\ parent_param s (h_hash hp) d = Some h /\
    crypto_verify_hash (bytes_at s r) h = 0.

(** The signature verifies under [pk]. *)
Definition signed_by s (sp : auth_method_param_sig_t) (d : auth_img_desc_t) (p n : Z) (pk : list Z) : Prop :=
  exists r sg al, param_at s (img_type d) (s_data sp) p n = Some r /\
    param_at s (img_type d) (s_sig sp) p n = Some sg /\ param_at s (img_type d) (s_alg sp) p n = Some al /\
    crypto_verify_signature (bytes_at s r) (bytes_at s sg) (bytes_at s al) pk = 0.

(** Without a parent the key comes from the platform, which is asked in its
    state [pl] and then is in [pl']: it returns the root of trust key itself,
    or a hash of it, and then the image's own key must have that hash; or it
    says that no key is deployed, and then the image's own key is used as it
    is. *)
Definition root_key s (sp : auth_method_param_sig_t) (d : auth_img_desc_t) (p n : Z) (pk : list Z) (pl pl' : P) : Prop :=
  exists rp rl fl, plat_get_rotpk_info (cookie (s_pk sp)) pl = Ret (0, rp, rl, fl) pl' /\
    if truthy (Z.land fl (Z.lor ROTPK_IS_HASH ROTPK_NOT_DEPLOYED)) then
      exists r, param_at s (img_type d) (s_pk sp) p n = Some r /\ pk = bytes_at s r /\
        (Z.land fl ROTPK_NOT_DEPLOYED = 0 -> crypto_verify_hash pk (bytes_at s (rp, rl)) = 0)
    else pk = bytes_at s (rp, rl).

Definition sig_passed s (sp : auth_method_param_sig_t) (d : auth_img_desc_t) (p n : Z) (pl pl' : P) : Prop :=
  exists pk, signed_by s sp d p n pk /\
    match parent d with
    | Some _ => parent_param s (s_pk sp) d = Some pk /\ pl' = pl
    | None => root_key s sp d p n pk pl pl'
    end.

(** The counter in the certificate is not behind the one the platform holds in
    [pl], and if it is ahead, the platform has accepted it as the new value. *)
Definition nvctr_passed s (np : auth_method_param_nv_ctr_t) (d : auth_img_desc_t) (p n : Z) (pl pl' : P) : Prop :=
  exists r c p1 v, param_at s (img_type d) (cert_nv_ctr np) p n = Some r /\ nv_ctr_value (tb_mem s) r.1 = Some c /\
    plat_get_nv_ctr (cookie (plat_nv_ctr np)) pl = Ret (0, v) p1 /\ v <= c /\
    (if v <? c then plat_set_nv_ctr (cookie (plat_nv_ctr np)) c p1 = Ret 0 pl' else pl' = p1).

(** [pl] and [pl']: the platform before and after the method. *)
Definition method_passed s (d : auth_img_desc_t) (p n : Z) (m : auth_method_desc_t) (pl pl' : P) : Prop :=
  match m with
  | AUTH_METHOD_NONE => pl' = pl
  | AUTH_METHOD_HASH hp => hash_passed s hp d p n /\ pl' = pl
  | AUTH_METHOD_SIG sp => sig_passed s sp d p n pl pl'
  | AUTH_METHOD_NV_CTR np => nvctr_passed s np d p n pl pl'
  | AUTH_METHOD_UNKNOWN => False
  end.

(** The methods one after the other. *)
Fixpoint methods_passed s (d : auth_img_desc_t) (p n : Z) (ms : list auth_method_desc_t) (pl pl' : P) : Prop :=
  match ms with
  | [] => pl' = pl
  | m :: ms => exists p1, method_passed s d p n m pl p1 /\ methods_passed s d p n ms p1 pl'
  end.

Definition flagged s (id : Z) : Prop :=
  exists f, arr_get (auth_img_flags s) id = Some f /\ Z.land f IMG_FLAG_AUTHENTICATED = IMG_FLAG_AUTHENTICATED.
End spec.

(** A run that returned: split the sequence and keep the intermediate states. *)
Ltac inv_run H :=
  let a := fresh "a" in let s := fresh "s" in let H1 := fresh H in
  apply bind_ret_inv in H as (a & s & H1 & H).
Ltac inv_ret H := injection H; clear H; intros; subst.

Section proofs.
Context {P : Type} `{!TbEnv P}.
Implicit Types (s : tb_state P).

Lemma assert_run b s u s' : tb_assert b s = Ret u s' -> s' = s.
Proof. unfold tb_assert. destruct (_ && _); [done|]. by intros [= _ ->]. Qed.

Lemma deref_run {S A} (o : option A) (x y : S) a : deref o x = Ret a y -> o = Some a /\ y = x.
Proof. destruct o; [|done]. by intros [= -> ->]. Qed.

Lemma hook_run {A} (m : M P A) s a s' :
  tb_hook m s = Ret a s' -> m (tb_plat s) = Ret a (tb_plat s') /\ plat_only s s'.
Proof.
  unfold tb_hook, zoom, plat_only. destruct (m (tb_plat s)) as [b p1|]; [|done]. intros [= -> <-]. by destruct s.
Qed.

Lemma parser_of_run t s l s' :
  parser_of t s = Ret l s' ->
  s' = s /\ exists idx, arr_get (parser_lib_indices s) (img_type_value t) = Some idx /\ arr_get parser_lib_descs idx = Some l.
Proof.
  unfold parser_of. intros H. inv_run H. inv_ret H0. inv_run H. apply deref_run in H0 as [H0 ->].
  inv_run H. apply assert_run in H1 as ->. apply deref_run in H as [H ->]. eauto.
Qed.

Lemma get_param_run t td p n s q k s' :
  img_parser_get_auth_param t td p n s = Ret (0, q, k) s' -> s' = s /\ param_at s t td p n = Some (q, k).
Proof.
  unfold img_parser_get_auth_param, param_at. intros H. inv_run H. apply assert_run in H0 as ->.
  inv_run H. apply assert_run in H0 as ->. destruct (decide (t = IMG_RAW)).
  - inv_run H. apply assert_run in H0 as ->. by injection H as -> -> ->.
  - inv_run H. apply parser_of_run in H0 as (-> & idx & -> & Hl). cbn. rewrite Hl. cbn.
    unfold gets in H. injection H as Hg ->. by rewrite Hg.
Qed.

Lemma get_param_ok t td p n s (x : Z * Z * Z) s' :
  img_parser_get_auth_param t td p n s = Ret x s' -> negb (x.1.1 =? 0) = false ->
  s' = s /\ param_at s t td p n = Some (x.1.2, x.2).
Proof. destruct x as [[rc q] k]. cbn. intros H Hrc%negb_false_iff%Z.eqb_eq. subst. by apply get_param_run. Qed.

Lemma param_loop_run td es s (x : Z * Z * Z) s' :
  auth_get_param_loop td es s = Ret x s' -> negb (x.1.1 =? 0) = false ->
  s' = s /\ exists e, find_param td es = Some e /\ x.1.2 = ptr (data e) /\ x.2 = len (data e).
Proof.
  intros H Hx. induction es as [|e es IH]; cbn in H.
  - injection H as <- <-. done.
  - inv_run H. apply deref_run in H0 as [Ht ->]. unfold cmp_auth_param_type_desc in H. unfold find_param. cbn.
    destruct (decide (td = a)) as [->|Hne]; cbn in H.
    + injection H as <- <-. split; [done|]. exists e. rewrite decide_True by done. done.
    + rewrite decide_False by congruence. destruct (IH H) as (-> & e' & He' & Hp). split; [done|]. exists e'.
      unfold find_param in He'. destruct (list_find _ es); done.
Qed.

Lemma find_param_take td n es e : find_param td (take n es) = Some e -> find_param td es = Some e.
Proof.
  unfold find_param. intros ([i x] & (Hl & Ht & Hf)%list_find_Some & ->)%fmap_Some.
  apply fmap_Some. exists (i, x). split; [|done]. apply list_find_Some.
  apply lookup_take_Some in Hl as [Hl Hi]. split_and!; [done|done|]. intros j y Hj Hlt.
  apply (Hf j); [|lia]. apply lookup_take_Some. split; [done|lia].
Qed.

Lemma verify_hash_run a b c e s rc s' :
  crypto_mod_verify_hash a b c e s = Ret rc s' ->
  s' = s /\ rc = crypto_verify_hash (bytes_at s (a, b)) (bytes_at s (c, e)).
Proof.
  unfold crypto_mod_verify_hash. intros H. do 4 (inv_run H; apply assert_run in H0 as ->).
  do 2 (inv_run H; unfold load_bytes, gets in H0; injection H0 as <- <-). by injection H as <- <-.
Qed.

Lemma verify_sig_run a b c e f g h i s rc s' :
  crypto_mod_verify_signature a b c e f g h i s = Ret rc s' ->
  s' = s /\ rc = crypto_verify_signature (bytes_at s (a, b)) (bytes_at s (c, e)) (bytes_at s (f, g)) (bytes_at s (h, i)).
Proof.
  unfold crypto_mod_verify_signature. intros H. do 8 (inv_run H; apply assert_run in H0 as ->).
  do 4 (inv_run H; unfold load_bytes, gets in H0; injection H0 as <- <-). by injection H as <- <-.
Qed.

(** The parameters depend on memory and the parser table only. *)
Lemma plat_only_param s s' t td p n : plat_only s s' -> param_at s' t td p n = param_at s t td p n.
Proof. unfold plat_only. intros ->. by destruct s. Qed.
Lemma plat_only_bytes s s' r : plat_only s s' -> bytes_at s' r = bytes_at s r.
Proof. unfold plat_only. intros ->. by destruct s. Qed.
Lemma plat_only_methods s s' ms d p n pl pl' : plat_only s s' -> methods_passed s' d p n ms pl pl' -> methods_passed s d p n ms pl pl'.
Proof.
  unfold plat_only. intros ->. revert pl. induction ms as [|m ms IH]; intros pl; [done|]. intros (p1 & Hm & Hms).
  exists p1. split; [|by apply IH]. by destruct s.
Qed.

Lemma auth_hash_sound hp d p n s s' : auth_hash hp d p n s = Ret 0 s' -> hash_passed s hp d p n /\ tb_plat s' = tb_plat s.
Proof.
  unfold auth_hash, parent_entry, cot_entry, auth_get_param. intros H. inv_run H. inv_run H0.
  apply deref_run in H1 as [Hp ->]. apply deref_run in H0 as [Hd ->]. inv_run H.
  destruct (negb (a1.1.1 =? 0)) eqn:E1.
  { injection H as Hz _. rewrite Hz in E1. done. }
  apply param_loop_run in H0 as (-> & e & He & Hq & Hk); [|done]. inv_run H.
  destruct (negb (a2.1.1 =? 0)) eqn:E2.
  { injection H as Hz _. rewrite Hz in E2. done. }
  apply get_param_ok in H0 as (-> & Hpa); [|done]. apply verify_hash_run in H as (-> & H). split; [|done].
  exists (a2.1.2, a2.2), (bytes_at s (ptr (data e), len (data e))). split_and!; [done| |by rewrite <- Hq, <- Hk].
  unfold parent_param. rewrite Hp. cbn. rewrite Hd. cbn. by rewrite (find_param_take _ _ _ _ He).
Qed.

(** An error code that was passed on is not 0. *)
Lemma passed_on (rc : Z) s s' (k : M (tb_state P) Z) :
  (if negb (rc =? 0) then ret rc else k) s = Ret 0 s' -> negb (rc =? 0) = false /\ k s = Ret 0 s'.
Proof. destruct (negb (rc =? 0)) eqn:E; [|done]. intros [= -> _]. done. Qed.

Lemma signing_key_run sp d s rc q k fl s' :
  signing_key sp d s = Ret (rc, q, k, fl) s' -> negb (rc =? 0) = false ->
  plat_only s s' /\
  match parent d with
  | Some _ => fl = 0 /\ parent_param s (s_pk sp) d = Some (bytes_at s (q, k)) /\ tb_plat s' = tb_plat s
  | None => plat_get_rotpk_info (cookie (s_pk sp)) (tb_plat s) = Ret (0, q, k, fl) (tb_plat s')
  end.
Proof.
  unfold signing_key, cot_entry, auth_get_param. intros H Hrc. destruct (parent d) as [p|] eqn:Ep.
  - inv_run H. apply deref_run in H0 as [Hd ->]. inv_run H. injection H as Ha <- <-. subst a0.
    apply param_loop_run in H0 as (-> & e & He & Hq & Hk); [|done]. cbn in Hq, Hk. split; [done|]. split_and!; [done| |done].
    unfold parent_param. rewrite Ep. cbn. rewrite Hd. cbn. rewrite (find_param_take _ _ _ _ He). cbn. by rewrite Hq, Hk.
  - apply hook_run in H as [H Hpo]. apply negb_false_iff, Z.eqb_eq in Hrc. subst. by split.
Qed.

Lemma auth_signature_sound sp d p n s s' : auth_signature sp d p n s = Ret 0 s' -> sig_passed s sp d p n (tb_plat s) (tb_plat s').
Proof.
  unfold auth_signature. intros H.
  inv_run H. apply passed_on in H as [E H]. apply get_param_ok in H0 as (-> & Hd); [|done].
  inv_run H. apply passed_on in H as [E1 H]. apply get_param_ok in H0 as (-> & Hsg); [|done].
  inv_run H. apply passed_on in H as [E2 H]. apply get_param_ok in H0 as (-> & Hal); [|done].
  inv_run H. destruct a2 as [[[rc q] k] fl]. apply passed_on in H as [E3 H].
  apply signing_key_run in H0 as (Hpo & Hkey); [|done].
  destruct (truthy (Z.land fl _)) eqn:Efl.
  - destruct (parent d) eqn:Ep. { destruct Hkey as [-> _]. by rewrite Z.land_0_l in Efl. }
    inv_run H. apply passed_on in H as [E4 H]. apply get_param_ok in H0 as (-> & Hpk); [|done].
    apply return_if_error_0 in H as (s2 & Hv & H). apply verify_sig_run in Hv as (-> & Hv).
    rewrite !(plat_only_bytes _ _ _ Hpo) in Hv. rewrite (plat_only_param _ _ _ _ _ _ Hpo) in Hpk.
    exists (bytes_at s (a2.1.2, a2.2)). split; [by eexists _, _, _|]. rewrite Ep.
    assert (Hend : s' = s0) by (destruct (truthy (Z.land fl ROTPK_NOT_DEPLOYED)); [by injection H|by apply verify_hash_run in H as [-> _]]).
    exists q, k, fl. split; [by rewrite Hend|]. rewrite Efl. eexists. split_and!; [done|done|].
    intros Hdep. rewrite Hdep in H. cbn in H. apply verify_hash_run in H as (_ & H).
    by rewrite !(plat_only_bytes _ _ _ Hpo) in H.
  - apply verify_sig_run in H as (-> & Hv). rewrite !(plat_only_bytes _ _ _ Hpo) in Hv.
    exists (bytes_at s (q, k)). split; [by eexists _, _, _|].
    destruct (parent d); [split; apply Hkey|exists q, k, fl; by rewrite Efl].
Qed.

Lemma auth_nvctr_sound np d p n s s' : auth_nvctr np d p n s = Ret 0 s' -> nvctr_passed s np d p n (tb_plat s) (tb_plat s').
Proof.
  unfold auth_nvctr. intros H. inv_run H. apply passed_on in H as [E H]. apply get_param_ok in H0 as (-> & Hd); [|done].
  inv_run H. apply assert_run in H0 as ->. inv_run H. unfold gets in H0. injection H0 as Hv <-.
  destruct a1 as [c|]; [|by injection H]. inv_run H. apply hook_run in H0 as [Hg Hpo]. destruct a1 as [rc v]. cbn in *.
  apply passed_on in H as [E1 H]. apply negb_false_iff, Z.eqb_eq in E1. subst rc.
  exists (a.1.2, a.2), c, (tb_plat s0), v. destruct (Z.ltb_spec c v); [by injection H|].
  split_and!; [done|done|done|done|]. destruct (v <? c); [by apply hook_run in H as [H _]|by injection H as <-].
Qed.

Lemma one_method_sound m d p n s s' : auth_one_method m d p n s = Ret 0 s' -> method_passed s d p n m (tb_plat s) (tb_plat s').
Proof.
  destruct m; cbn; [by intros [= <-]|apply auth_hash_sound|apply auth_signature_sound|apply auth_nvctr_sound|by intros [=]].
Qed.

Lemma methods_sound ms d p n s s' :
  auth_methods_loop ms d p n s = Ret 0 s' -> methods_passed s d p n ms (tb_plat s) (tb_plat s') /\ plat_only s s'.
Proof.
  intros H. split; [|by eapply within_run, H; apply frame_methods].
  revert s H. induction ms as [|m ms IH]; cbn; intros s H; [by injection H as <-|].
  apply return_if_error_0 in H as (s1 & Hm & H).
  assert (Hpo : plat_only s s1) by (eapply within_run, Hm; apply frame_one_method).
  exists (tb_plat s1). split; [by eapply one_method_sound|]. by eapply plat_only_methods, IH.
Qed.

Lemma integrity_run t p n s rc s' :
  img_parser_check_integrity t p n s = Ret rc s' -> s' = s /\ (t = IMG_RAW -> rc = 0).
Proof.
  unfold img_parser_check_integrity. intros H. do 2 (inv_run H; apply assert_run in H0 as ->).
  destruct (decide (t = IMG_RAW)); [by injection H as <- <-|].
  inv_run H. apply parser_of_run in H0 as (-> & _). unfold gets in H. by injection H as _ ->.
Qed.

Lemma mark_run d s s' :
  mark_authenticated d s = Ret 0 s' ->
  flagged s' (img_id d) /\ tb_mem s' = tb_mem s /\ tb_plat s' = tb_plat s /\ (forall j, flagged s j -> flagged s' j).
Proof.
  unfold mark_authenticated. intros H. inv_run H. unfold gets in H0. injection H0 as <- <-.
  inv_run H. apply deref_run in H0 as [Hf ->]. inv_run H. apply deref_run in H0 as [Hs ->]. inv_run H.
  unfold modify in H0. injection H0 as <- <-. injection H as <-. apply arr_set_Some in Hs as [Hr ->].
  assert (Hbit : Z.land (Z.lor a IMG_FLAG_AUTHENTICATED) IMG_FLAG_AUTHENTICATED = IMG_FLAG_AUTHENTICATED).
  { rewrite Z.land_lor_distr_l. change (Z.land IMG_FLAG_AUTHENTICATED IMG_FLAG_AUTHENTICATED) with 1.
    unfold IMG_FLAG_AUTHENTICATED. change 1 with (Z.ones 1) at 1. rewrite Z.land_ones by lia.
    pose proof (Z.mod_pos_bound a (2 ^ 1)). destruct (decide (a mod 2 ^ 1 = 0)) as [->|]; [done|].
    by replace (a mod 2 ^ 1) with 1 by lia. }
  split_and!; [|done|done|].
  - exists (Z.lor a IMG_FLAG_AUTHENTICATED). split; [by apply arr_get_insert_eq|done].
  - intros j (f & Hj & Hb). unfold flagged. cbn. destruct (decide (j = img_id d)) as [->|Hne].
    + rewrite arr_get_insert_eq by done. eauto.
    + rewrite arr_get_insert_ne by (lia || done). eauto.
Qed.

Lemma get_param_state t td p n s x s' : img_parser_get_auth_param t td p n s = Ret x s' -> s' = s.
Proof.
  unfold img_parser_get_auth_param. intros H. do 2 (inv_run H; apply assert_run in H0 as ->).
  destruct (decide (t = IMG_RAW)); [inv_run H; apply assert_run in H0 as ->; by injection H|].
  inv_run H. apply parser_of_run in H0 as (-> & _). unfold gets in H. by injection H as _ ->.
Qed.

(** The buffers of an entry. *)
Definition own_buffer (d : auth_img_desc_t) (x : Z) : Prop := exists e, e ∈ authenticated_data d /\ in_param e x.

(** Saving the parameters writes the buffers of the entry and nothing else. *)
Lemma params_run es d p n s rc s' :
  es ⊆ authenticated_data d -> auth_params_loop es d p n s = Ret rc s' ->
  auth_img_flags s' = auth_img_flags s /\ tb_plat s' = tb_plat s /\ forall x, ~ own_buffer d x -> tb_mem s' x = tb_mem s x.
Proof.
  revert s. induction es as [|e es IH]; cbn; intros s Hes H; [by injection H as _ <-|].
  destruct (type_desc e) as [td|] eqn:Et; [|apply IH; [set_solver|done]]. inv_run H. apply get_param_state in H0 as ->.
  destruct (negb _); [by injection H as _ <-|]. destruct (Z.ltb_spec (len (data e)) a.2); [by injection H as _ <-|].
  inv_run H. unfold load_bytes, gets in H1. injection H1 as <- <-. inv_run H. unfold store_bytes, modify in H1.
  injection H1 as <- <-. destruct (IH _ ltac:(set_solver) H) as (Hf & Hp & Hm). split_and!; [done|done|]. intros x Hx. rewrite (Hm x Hx). cbn.
  apply write_outside. rewrite length_read. intros Hin. apply Hx. exists e. split; [set_solver|]. split; [by rewrite Et|lia].
Qed.

Lemma mark_any d s rc s' : mark_authenticated d s = Ret rc s' -> rc = 0.
Proof. unfold mark_authenticated. intros H. do 4 inv_run H. by injection H. Qed.

(** What a verification changes, whatever its result. *)
Lemma verify_img_effect id p n s rc s' :
  auth_mod_verify_img id p n s = Ret rc s' ->
  exists d, arr_get cot_desc_ptr id = Some d /\ (forall j, flagged s j -> flagged s' j) /\
    (forall x, ~ own_buffer d x -> tb_mem s' x = tb_mem s x).
Proof.
  intros H. unfold auth_mod_verify_img, cot_entry in H. inv_run H. apply deref_run in H0 as [Hd ->]. exists a. split; [done|].
  assert (Hsame : forall t, plat_only s t -> (forall j, flagged s j -> flagged t j) /\ (forall x, ~ own_buffer a x -> tb_mem t x = tb_mem s x)).
  { unfold plat_only. intros t ->. by destruct s. }
  unfold return_if_error in H. inv_run H. apply integrity_run in H0 as [-> _]. destruct (a0 =? 0); [|injection H as _ <-; by apply Hsame].
  inv_run H. assert (Hpo : plat_only s s0) by (eapply within_run, H0; apply frame_methods). destruct (Hsame s0 Hpo) as [Hf0 Hm0].
  destruct (a1 =? 0); [|by injection H as _ <-]. inv_run H. apply params_run in H1 as (Hf1 & _ & Hm1); [|apply take_subseteq].
  assert (Hs1 : (forall j, flagged s j -> flagged s1 j) /\ (forall x, ~ own_buffer a x -> tb_mem s1 x = tb_mem s x)).
  { split; [intros j Hj; unfold flagged; rewrite Hf1; by apply Hf0|]. intros x Hx. by rewrite Hm1, Hm0. }
  destruct (a2 =? 0); [|by injection H as _ <-]. pose proof (mark_any _ _ _ _ H) as ->. apply mark_run in H as (_ & Hm & _ & Hk).
  split; [intros j Hj; by apply Hk, Hs1|]. intros x Hx. rewrite Hm. by apply Hs1.
Qed.

Lemma verify_img_sound id p n s s' :
  auth_mod_verify_img id p n s = Ret 0 s' ->
  exists d, arr_get cot_desc_ptr id = Some d /\
    methods_passed s d p n (take (Z.to_nat AUTH_METHOD_NUM) (img_auth_methods d)) (tb_plat s) (tb_plat s') /\
    flagged s' (img_id d) /\ (forall j, flagged s j -> flagged s' j) /\ auth_frame s s'.
Proof.
  intros H. assert (Hfr : auth_frame s s') by (eapply within_run, H; apply frame_verify).
  unfold auth_mod_verify_img, cot_entry in H. inv_run H. apply deref_run in H0 as [Hd ->]. exists a.
  apply return_if_error_0 in H as (s1 & Hi & H). apply integrity_run in Hi as [-> _].
  apply return_if_error_0 in H as (s1 & Hm & H). apply methods_sound in Hm as [Hm Hpo].
  apply return_if_error_0 in H as (s2 & Hp & H). apply params_run in Hp as (Hp & Hpp & _); [|apply take_subseteq].
  apply mark_run in H as (Hf & _ & Hpl & Hk). rewrite Hpl, Hpp.
  split_and!; [done|done|done| |done]. intros j (f & Hj & Hb). apply Hk. exists f.
  rewrite Hp. unfold plat_only in Hpo. rewrite Hpo. by destruct s.
Qed.
End proofs.
