(* ===== verification/CotProps.v ===== *)
(** * The TBBR chain of trust is well formed

    The table of tbbr_cot.c is checked by evaluation for every placement of
    the buffers: each parameter an image needs is saved by its parent, the
    parents lead to a root within three steps, and no buffer is too small.
    When the buffers are apart, the digest of an image of the boot is in a place
    that no other certificate writes.  The identifiers the table does not initialise are the exception. *)
From stdpp Require Import base list numbers option strings sets.
From Stdlib Require Import ZArith Lia.
From S2P Require Import Prelude TbbDefs AuthMod TbbrCot BlCommon TbbLemmas AuthProps TbbExample.
#[local] Open Scope Z_scope.

Section cot.
Context `{!CotBufs}.

(** The search of [auth_get_param] succeeds before it meets a null entry. *)
Fixpoint finds (td : auth_param_type_desc_t) (es : list auth_param_desc_t) : option auth_param_desc_t :=
  match es with
  | [] => None
  | e :: rest =>
      match type_desc e with
      | None => None
      | Some t => if decide (td = t) then Some e else finds td rest
      end
  end.
Definition parent_saves (d : auth_img_desc_t) (td : auth_param_type_desc_t) : bool :=
  match parent d with
  | Some p => match arr_get cot_desc p with
              | Some pd => bool_decide (is_Some (finds td (take (Z.to_nat COT_MAX_VERIFIED_PARAMS) (authenticated_data pd))))
              | None => false
              end
  | None => false
  end.

(** Steps from an entry to one without a parent. *)
Fixpoint root_depth (fuel : nat) (d : auth_img_desc_t) : option nat :=
  match parent d with
  | None => Some O
  | Some p => match fuel with
              | O => None
              | S f => S <$> (pd ← arr_get cot_desc p; root_depth f pd)
              end
  end.

Definition method_ok (d : auth_img_desc_t) (m : auth_method_desc_t) : bool :=
  match m with
  | AUTH_METHOD_NONE | AUTH_METHOD_NV_CTR _ => true
  | AUTH_METHOD_HASH hp => parent_saves d (h_hash hp)
  | AUTH_METHOD_SIG sp => match parent d with None => true | Some _ => parent_saves d (s_pk sp) end
  | AUTH_METHOD_UNKNOWN => false
  end.
Definition authenticates (m : auth_method_desc_t) : bool :=
  match m with AUTH_METHOD_HASH _ | AUTH_METHOD_SIG _ => true | _ => false end.
Definition listed (id : Z) : bool := negb (id =? FIP_IMAGE_ID) && negb (id =? NS_BL1U_IMAGE_ID).
Definition entry_ok (id : Z) (d : auth_img_desc_t) : bool :=
  match parent d with Some p => listed p | None => true end &&
  (img_id d =? id) && (id <? MAX_NUMBER_IDS) && (Z.of_nat (length (img_auth_methods d)) =? AUTH_METHOD_NUM) &&
  forallb (method_ok d) (img_auth_methods d) && existsb authenticates (img_auth_methods d) &&
  bool_decide (is_Some (root_depth 3 d)).

Lemma cot_entries_ok id d :
  arr_get cot_desc id = Some d -> id <> FIP_IMAGE_ID -> id <> NS_BL1U_IMAGE_ID -> entry_ok id d = true.
Proof.
  intros Hd H0 H16. pose proof (arr_get_Some_range _ _ _ Hd) as Hr. cbn in Hr.
  unfold arr_get in Hd. destruct (Z.leb_spec 0 id); [|done].
  assert (Hid : id = Z.of_nat (Z.to_nat id)) by lia. rewrite Hid in H0, H16 |- *.
  remember (Z.to_nat id) as k eqn:Ek. clear Ek Hid Hr.
  do 25 (destruct k as [|k]; [injection Hd as <-; first [by destruct (H0 eq_refl)|by destruct (H16 eq_refl)|vm_compute; reflexivity]|]).
  done.
Qed.

Lemma listed_ne id : listed id = true <-> id <> FIP_IMAGE_ID /\ id <> NS_BL1U_IMAGE_ID.
Proof. unfold listed. rewrite andb_true_iff, !negb_true_iff, !Z.eqb_neq. done. Qed.

(** The parts of [entry_ok] the proofs use. *)
Lemma entry_facts id d :
  arr_get cot_desc id = Some d -> listed id = true ->
  img_id d = id /\ 0 <= id < MAX_NUMBER_IDS /\ (forall p, parent d = Some p -> listed p = true) /\
  is_Some (root_depth 3 d) /\ Z.of_nat (length (img_auth_methods d)) = AUTH_METHOD_NUM /\
  existsb authenticates (img_auth_methods d) = true /\ forallb (method_ok d) (img_auth_methods d) = true.
Proof.
  intros Hd [H0 H16]%listed_ne. pose proof (cot_entries_ok id d Hd H0 H16) as Hok.
  pose proof (arr_get_Some_range _ _ _ Hd). unfold entry_ok in Hok.
  rewrite !andb_true_iff, bool_decide_eq_true, !Z.eqb_eq, Z.ltb_lt in Hok.
  destruct Hok as [[[[[[Hp Hid] Hlt] Hlen] Hm] Ha] Hr]. split_and!; try done; [lia|]. intros p Hpar. by rewrite Hpar in Hp.
Qed.

Lemma finds_run {P} (td : auth_param_type_desc_t) es e (s : tb_state P) :
  finds td es = Some e -> auth_get_param_loop td es s = Ret (0, ptr (data e), len (data e)) s.
Proof.
  induction es as [|x es IH]; cbn; [done|]. destruct (type_desc x) as [t|]; [|done]. cbn. unfold bind, ret.
  intros He. unfold cmp_auth_param_type_desc. destruct (decide (td = t)); cbn in *; [|by apply IH].
  by injection He as ->.
Qed.

Lemma parent_saves_run {P} d td :
  parent_saves d td = true -> exists p pd, parent d = Some p /\ arr_get cot_desc p = Some pd /\
    forall s : tb_state P, exists q k, auth_get_param td pd s = Ret (0, q, k) s.
Proof.
  unfold parent_saves. destruct (parent d) as [p|]; [|done]. destruct (arr_get cot_desc p) as [pd|] eqn:Epd; [|done].
  intros [e He]%bool_decide_eq_true. exists p, pd. split_and!; [done..|]. intros s. do 2 eexists. by apply finds_run.
Qed.

Lemma buffers_fit d e td :
  d ∈ cot_desc -> e ∈ authenticated_data d -> type_desc e = Some td ->
  exists b, ptr (data e) = buf_addr b /\ len (data e) = buf_size b.
Proof.
  intros Hd He Ht. assert (Hall : Forall (fun d => Forall (fun e => is_Some (type_desc e) ->
    exists b, ptr (data e) = buf_addr b /\ len (data e) = buf_size b) (authenticated_data d)) cot_desc).
  { repeat (apply Forall_cons; split); try apply Forall_nil; try done;
      repeat (apply Forall_cons; split); try apply Forall_nil; cbn;
      try (intros []%is_Some_None); intros _; eexists; split; reflexivity. }
  rewrite !Forall_forall in Hall. specialize (Hall d Hd). rewrite Forall_forall in Hall.
  apply (Hall e He). by rewrite Ht.
Qed.

(** ** Images, their digests and the buffers *)

(** The images proper: the entries that are not certificates. *)
Definition raw_image (id : Z) : bool :=
  listed id && match arr_get cot_desc id with Some d => bool_decide (img_type d = IMG_RAW) | None => false end.
(** What is not of the firmware update: its certificate shares buffers with
    other certificates. *)
Definition boot_id (id : Z) : bool := listed id && negb ((FWU_CERT_ID <=? id) && (id <=? NS_BL2U_IMAGE_ID)).

(** The buffers that the verification of an entry writes. *)
Definition bufs_of (id : Z) : list cot_buf :=
  if id =? TRUSTED_BOOT_FW_CERT_ID then [tb_fw_hash_buf; tb_fw_config_hash_buf; hw_config_hash_buf]
  else if id =? TRUSTED_KEY_CERT_ID then [trusted_world_pk_buf; non_trusted_world_pk_buf]
  else if (SCP_FW_KEY_CERT_ID <=? id) && (id <=? NON_TRUSTED_FW_KEY_CERT_ID) then [content_pk_buf]
  else if id =? SCP_FW_CONTENT_CERT_ID then [scp_fw_hash_buf]
  else if id =? SOC_FW_CONTENT_CERT_ID then [soc_fw_hash_buf]
  else if id =? TRUSTED_OS_FW_CONTENT_CERT_ID then [tos_fw_hash_buf; tos_fw_extra1_hash_buf; tos_fw_extra2_hash_buf]
  else if id =? NON_TRUSTED_FW_CONTENT_CERT_ID then [nt_world_bl_hash_buf]
  else if id =? FWU_CERT_ID then [scp_fw_hash_buf; tb_fw_hash_buf; nt_world_bl_hash_buf] else [].
Definition in_buf (b : cot_buf) (x : Z) : Prop := buf_addr b <= x < buf_addr b + buf_size b.
(** Distinct arrays do not overlap. *)
Definition bufs_apart : Prop := forall b b' x, b <> b' -> in_buf b x -> ~ in_buf b' x.

(** One case per entry of the table. *)
Lemma by_entry (Q : Z -> auth_img_desc_t -> Prop) :
  (forall k d, cot_desc !! k = Some d -> Q (Z.of_nat k) d) -> forall id d, arr_get cot_desc id = Some d -> Q id d.
Proof.
  intros HQ id d Hd. unfold arr_get in Hd. destruct (Z.leb_spec 0 id); [|done]. rewrite <- (Z2Nat.id id) by done. by apply HQ.
Qed.
Ltac split_entries n k Hd :=
  lazymatch n with
  | O => done
  | S ?n => destruct k as [|k]; [injection Hd as <-|split_entries n k Hd]
  end.
Ltac each_entry id d Hd :=
  let k := fresh "k" in
  revert id d Hd; refine (by_entry _ _); intros k d Hd; split_entries 25%nat k Hd.

Lemma entry_bufs id d e x :
  arr_get cot_desc id = Some d -> e ∈ authenticated_data d -> in_param e x -> exists b, b ∈ bufs_of id /\ in_buf b x.
Proof.
  intros Hd. revert e. each_entry id d Hd; intros e He [Ht Hx];
    repeat (apply elem_of_cons in He as [->|He]; [first [by destruct Ht|eexists; split; [|exact Hx]; vm_compute; by repeat constructor]|]);
    by apply elem_of_nil in He.
Qed.

Definition digest_buf (id : Z) : option cot_buf :=
  if id =? BL2_IMAGE_ID then Some tb_fw_hash_buf
  else if id =? HW_CONFIG_ID then Some hw_config_hash_buf
  else if id =? TB_FW_CONFIG_ID then Some tb_fw_config_hash_buf
  else if id =? SCP_BL2_IMAGE_ID then Some scp_fw_hash_buf
  else if id =? BL31_IMAGE_ID then Some soc_fw_hash_buf
  else if id =? BL32_IMAGE_ID then Some tos_fw_hash_buf
  else if id =? BL32_EXTRA1_IMAGE_ID then Some tos_fw_extra1_hash_buf
  else if id =? BL32_EXTRA2_IMAGE_ID then Some tos_fw_extra2_hash_buf
  else if id =? BL33_IMAGE_ID then Some nt_world_bl_hash_buf
  else if id =? SCP_BL2U_IMAGE_ID then Some scp_fw_hash_buf
  else if id =? BL2U_IMAGE_ID then Some tb_fw_hash_buf
  else if id =? NS_BL2U_IMAGE_ID then Some nt_world_bl_hash_buf else None.

(** An image has one hash method, for the digest its parent saves, and saves
    nothing itself. *)
Lemma raw_facts id d : arr_get cot_desc id = Some d -> raw_image id = true ->
  img_type d = IMG_RAW /\ (forall e, e ∈ authenticated_data d -> type_desc e = None) /\ is_Some (parent d) /\
  exists hp, AUTH_METHOD_HASH hp ∈ img_auth_methods d.
Proof.
  intros Hd Hraw. unfold raw_image in Hraw. rewrite Hd in Hraw. apply andb_true_iff in Hraw as [Hl Hraw%bool_decide_eq_true].
  split; [done|]. revert Hl Hraw. each_entry id d Hd; intros Hl Hraw; try discriminate Hl; try discriminate Hraw;
    (split; [intros e He; repeat (apply elem_of_cons in He as [->|He]; [done|]); by apply elem_of_nil in He|]); (split; [by eexists|]);
    eexists; cbn; by left.
Qed.

Lemma digest_at id d hp p pd e : arr_get cot_desc id = Some d -> raw_image id = true -> AUTH_METHOD_HASH hp ∈ img_auth_methods d ->
  parent d = Some p -> arr_get cot_desc p = Some pd -> find_param (h_hash hp) (authenticated_data pd) = Some e ->
  exists b, digest_buf id = Some b /\ ptr (data e) = buf_addr b /\ len (data e) = buf_size b.
Proof.
  intros Hd Hraw Hm Hp Hpd He. unfold raw_image in Hraw. rewrite Hd in Hraw. apply andb_true_iff in Hraw as [Hl Hraw%bool_decide_eq_true].
  revert Hl Hraw Hm Hp Hpd He. each_entry id d Hd; intros Hl Hraw Hm Hp Hpd He; try discriminate Hl; try discriminate Hraw;
    injection Hp as <-; injection Hpd as <-;
    (repeat (apply elem_of_cons in Hm as [Hm|Hm]; [first [discriminate Hm|injection Hm as ->]|]));
    try (by apply elem_of_nil in Hm); vm_compute in He; injection He as <-; by eexists.
Qed.

(** No certificate but the parent writes the digest of an image. *)
Lemma digest_private id d p q b : arr_get cot_desc id = Some d -> boot_id id = true -> parent d = Some p -> boot_id q = true ->
  0 <= q < 25 -> q <> p -> digest_buf id = Some b -> b ∉ bufs_of q.
Proof.
  intros Hd. each_entry id d Hd; intros Hb Hp Hq Hr Hne Hbuf; try discriminate Hb; try discriminate Hbuf; injection Hbuf as <-; injection Hp as <-;
    intros Hin; assert (Hk : exists k, (k < 25)%nat /\ q = Z.of_nat k) by (exists (Z.to_nat q); lia); destruct Hk as (k & Hk & ->);
    do 25 (destruct k as [|k]; [first [discriminate Hq|by destruct (Hne eq_refl)|revert Hin; apply (bool_decide_eq_true_1 (_ ∉ _)); vm_compute; reflexivity]|]); lia.
Qed.

Lemma boot_parent id d p : arr_get cot_desc id = Some d -> boot_id id = true -> parent d = Some p -> boot_id p = true.
Proof. intros Hd. each_entry id d Hd; intros Hb Hp; try discriminate Hb; try discriminate Hp; injection Hp as <-; reflexivity. Qed.

Lemma boot_listed id : boot_id id = true -> listed id = true.
Proof. unfold boot_id. intros [Hl _]%andb_true_iff. exact Hl. Qed.
Lemma raw_listed id : raw_image id = true -> listed id = true.
Proof. unfold raw_image. intros [Hl _]%andb_true_iff. exact Hl. Qed.

(** The chain of trust leads every image back to the root.  In each entry
    of the table, the ones it leaves uninitialised apart: the entry carries its
    own identifier, some method authenticates the image, the hash or key that
    method needs is found among the parameters the parent saves (the search
    never meets a null descriptor), a root is reached in at most three steps,
    and each saved parameter has a buffer of the declared size. *)
Theorem cot_wellformed {P} id d (s : tb_state P) :
  arr_get cot_desc id = Some d -> id <> FIP_IMAGE_ID -> id <> NS_BL1U_IMAGE_ID ->
  img_id d = id /\ existsb authenticates (img_auth_methods d) = true /\
  (exists k, root_depth 3 d = Some k) /\
  (forall hp, AUTH_METHOD_HASH hp ∈ img_auth_methods d -> exists p pd q k,
     parent d = Some p /\ arr_get cot_desc p = Some pd /\ auth_get_param (h_hash hp) pd s = Ret (0, q, k) s) /\
  (forall sp p, AUTH_METHOD_SIG sp ∈ img_auth_methods d -> parent d = Some p -> exists pd q k,
     arr_get cot_desc p = Some pd /\ auth_get_param (s_pk sp) pd s = Ret (0, q, k) s) /\
  (forall e td, e ∈ authenticated_data d -> type_desc e = Some td ->
     exists b, ptr (data e) = buf_addr b /\ len (data e) = buf_size b).
Proof.
  intros Hd H0 H16. destruct (entry_facts id d Hd (proj2 (listed_ne id) (conj H0 H16))) as (Hid & _ & _ & [k Hk] & _ & Hau & Hm).
  rewrite forallb_forall in Hm.
  split_and!; [done|done|by exists k| | |intros e td; by apply buffers_fit, (arr_get_elem _ id)].
  - intros hp Hhp%list_elem_of_In. specialize (Hm _ Hhp). cbn in Hm.
    apply (parent_saves_run (P := P)) in Hm as (p & pd & Hp & Hpd & Hrun). destruct (Hrun s) as (q & l & Hr). by eexists _, _, _, _.
  - intros sp p Hsp%list_elem_of_In Hp. specialize (Hm _ Hsp). cbn in Hm. rewrite Hp in Hm.
    apply (parent_saves_run (P := P)) in Hm as (p' & pd & Hp' & Hpd & Hrun). destruct (Hrun s) as (q & l & Hr).
    simplify_eq. by eexists _, _, _.
Qed.
End cot.

(** Buffers at a distance of 512 bytes, as in the examples. *)
Lemma spaced_apart (start : Z) : @bufs_apart (fun b => start + 512 * TbbExample.buf_index b).
Proof.
  intros b b' x Hne Hx Hx'. apply Hne. unfold in_buf in *.
  assert (Hs : forall c, 0 <= buf_size c <= 512) by (intros []; vm_compute; split; discriminate).
  pose proof (Hs b). pose proof (Hs b'). unfold buf_addr in *.
  assert (Hi : TbbExample.buf_index b = TbbExample.buf_index b') by lia. by destruct b, b'.
Qed.
