(* ===== verification/TbbProps.v ===== *)
(** * Trusted board boot: theorems

    Acceptance of an image by the authentication module, the authenticated
    load of an image with its parents, and the decoding of counters. *)
From stdpp Require Import base list numbers option strings sets.
From Stdlib Require Import ZArith Lia.
From S2P Require Import Prelude TbbDefs AuthMod TbbrCot BlCommon TbbExample TbbLemmas AuthProps CotProps.
#[local] Open Scope Z_scope.

(** ** Non-volatile counters *)

(** The DER encoding of a non-negative integer below 2^39. *)
Definition der_length (n : Z) : Z :=
  if n <? 2 ^ 7 then 1 else if n <? 2 ^ 15 then 2 else if n <? 2 ^ 23 then 3 else if n <? 2 ^ 31 then 4 else 5.
Definition der_integer (n : Z) : list Z :=
  [ASN1_INTEGER; der_length n] ++ map (fun i => n / 2 ^ (8 * (der_length n - 1 - i)) mod 256) (seqZ 0 (der_length n)).

Lemma shift_in c b : 0 <= c < 2 ^ 24 -> 0 <= b < 256 -> Z.lor (u32 (Z.shiftl c 8)) b = c * 256 + b.
Proof.
  intros Hc Hb. rewrite Z.shiftl_mul_pow2 by lia. rewrite u32_small by lia.
  rewrite <- (Z.shiftl_mul_pow2 c 8) by lia. by apply (lor_shiftl_add c 8 b).
Qed.

Lemma read_byte m p bs i v : read_bytes m p (Z.of_nat (length bs)) = bs -> bs !! i = Some v -> m (p + Z.of_nat i) = v.
Proof.
  intros Hr Hv. pose proof (lookup_lt_Some _ _ _ Hv) as Hlt.
  pose proof (read_lookup m p (Z.of_nat (length bs)) (Z.of_nat i) ltac:(lia)) as Hl.
  rewrite Hr, Nat2Z.id, Hv in Hl. by injection Hl.
Qed.

(** The sign bit of a byte. *)
Lemma sign_bit b : 0 <= b < 256 -> truthy (Z.land b 0x80) = (128 <=? b).
Proof.
  intros Hb. assert (Hall : forallb (fun i => Bool.eqb (truthy (Z.land i 0x80)) (128 <=? i)) (seqZ 0 256) = true) by reflexivity.
  rewrite forallb_forall in Hall. specialize (Hall b). rewrite <- list_elem_of_In, elem_of_seqZ in Hall.
  apply eqb_prop, Hall. lia.
Qed.

(** Decoding [k] bytes, most significant first, of a value below 2^32. *)
Lemma fold_bytes m p bs :
  Forall (fun b => 0 <= b < 256) bs -> (length bs <= 4)%nat -> read_bytes m p (Z.of_nat (length bs)) = bs ->
  foldl (fun c i => Z.lor (u32 (Z.shiftl c 8)) (der_byte m (p + i))) 0 (seqZ 0 (Z.of_nat (length bs))) =
  foldl (fun c b => c * 256 + b) 0 bs.
Proof.
  intros Hbs Hlen Hr.
  assert (Hb : forall k v, bs !! Z.to_nat k = Some v -> 0 <= k -> der_byte m (p + k) = v).
  { intros k v Hv Hk. unfold der_byte. replace k with (Z.of_nat (Z.to_nat k)) by lia.
    rewrite (read_byte m p bs _ v Hr Hv). apply u8_small. rewrite Forall_lookup in Hbs. by apply (Hbs (Z.to_nat k)). }
  destruct bs as [|b0 [|b1 [|b2 [|b3 [|]]]]]; cbn in Hlen; try lia; [done|..];
    repeat match goal with H : Forall _ (_ :: _) |- _ => apply Forall_cons in H as [? H] end;
    match goal with |- context [seqZ 0 ?k] => let l := eval vm_compute in (seqZ 0 k) in change (seqZ 0 k) with l end;
    cbn [foldl]; rewrite ?(Hb 0 _ eq_refl), ?(Hb 1 _ eq_refl), ?(Hb 2 _ eq_refl), ?(Hb 3 _ eq_refl) by lia;
    repeat match goal with |- context [Z.lor (u32 (Z.shiftl ?c 8)) ?b] =>
      lazymatch c with context [Z.lor] => fail | _ => rewrite (shift_in c b) by lia end end; lia.
Qed.

Definition der_body (n : Z) : list Z :=
  map (fun i => n / 2 ^ (8 * (der_length n - 1 - i)) mod 256) (seqZ 0 (der_length n)).

Lemma der_length_range n : 1 <= der_length n <= 5.
Proof. unfold der_length. repeat case_match; lia. Qed.

Lemma length_der_body n : Z.of_nat (length (der_body n)) = der_length n.
Proof. unfold der_body. rewrite length_map, length_seqZ. pose proof (der_length_range n). lia. Qed.

Lemma der_body_bytes n : Forall (fun b => 0 <= b < 256) (der_body n).
Proof. apply Forall_fmap, Forall_true. intros i. apply Z.mod_pos_bound. lia. Qed.

(** The bytes of an encoded integer in memory. *)
Lemma der_in_memory n m p :
  read_bytes m p (Z.of_nat (length (der_integer n))) = der_integer n ->
  der_byte m p = ASN1_INTEGER /\ der_byte m (p + 1) = der_length n /\
  der_byte m (p + 2) = n / 2 ^ (8 * (der_length n - 1)) mod 256 /\
  read_bytes m (p + 2) (Z.of_nat (length (der_body n))) = der_body n.
Proof.
  intros Hr. assert (Hbs : read_bytes m (p + 2) (Z.of_nat (length (der_body n))) = der_body n).
  { unfold der_integer in Hr. fold (der_body n) in Hr. rewrite length_app, Nat2Z.inj_add, read_app in Hr by lia.
    by apply app_inj_1 in Hr as [_ Hr]; [|rewrite length_read; cbn; lia]. }
  pose proof (read_byte m p _ 0%nat _ Hr eq_refl) as H0. pose proof (read_byte m p _ 1%nat _ Hr eq_refl) as H1.
  rewrite Z.add_0_r in H0. change (Z.of_nat 1) with 1 in H1. pose proof (der_length_range n). unfold der_byte.
  split_and!; [by rewrite H0|rewrite H1; apply u8_small; lia| |done].
  replace (p + 2) with (p + 2 + Z.of_nat 0) by lia.
  rewrite (read_byte m (p + 2) _ 0 (n / 2 ^ (8 * (der_length n - 1)) mod 256) Hbs).
  - apply u8_small, Z.mod_pos_bound. lia.
  - apply list_lookup_fmap_Some. exists 0. split; [by rewrite Z.sub_0_r|]. apply lookup_seqZ. lia.
Qed.

Lemma der_body_value n : 0 <= n < 2 ^ 31 -> foldl (fun c b => c * 256 + b) 0 (der_body n) = n.
Proof.
  intros Hn. unfold der_body, der_length.
  repeat case_match; try lia;
    repeat match goal with H : (_ <? _) = _ |- _ => rewrite ?Z.ltb_lt, ?Z.ltb_ge in H end;
    match goal with |- context [seqZ 0 ?k] => let l := eval vm_compute in (seqZ 0 k) in change (seqZ 0 k) with l end;
    cbn [map foldl];
    repeat match goal with |- context [2 ^ ?e] => let v := eval vm_compute in (2 ^ e) in change (2 ^ e) with v end;
    Z.div_mod_to_equations; lia.
Qed.

(** The counter of a certificate is decoded correctly: from memory that
    holds the DER encoding of [n], [auth_nvctr] reads [n] if it is below 2^31,
    and refuses it otherwise, although the counter is meant to have 32 bits:
    from 2^31 on the encoding needs five bytes. *)
Theorem nv_ctr_der n m p :
  0 <= n < 2 ^ 32 -> read_bytes m p (Z.of_nat (length (der_integer n))) = der_integer n ->
  nv_ctr_value m p = if n <? 2 ^ 31 then Some n else None.
Proof.
  intros Hn Hr. destruct (der_in_memory n m p Hr) as (E0 & E1 & E2 & Hbs). pose proof (der_length_range n) as Hl.
  unfold nv_ctr_value. rewrite E0, E1, E2. change (ASN1_INTEGER =? ASN1_INTEGER) with true. cbn [negb].
  change 0x7f with (Z.ones 7). rewrite (land_ones_small 7 (der_length n)) by lia.
  rewrite (sign_bit (der_length n)), sign_bit by (lia || (apply Z.mod_pos_bound; lia)).
  destruct (Z.leb_spec 128 (der_length n)); [lia|]. cbn [orb].
  pose proof (length_der_body n) as Hlen. destruct (Z.ltb_spec n (2 ^ 31)) as [Hlt|Hge].
  - assert (Hl4 : der_length n <= 4) by (unfold der_length; repeat case_match; lia).
    destruct (Z.ltb_spec 4 (der_length n)); [lia|].
    assert (Hs : n / 2 ^ (8 * (der_length n - 1)) mod 256 < 128).
    { unfold der_length in *. repeat case_match; try lia;
        repeat match goal with H : (_ <? _) = _ |- _ => rewrite ?Z.ltb_lt, ?Z.ltb_ge in H end;
        match goal with |- context [2 ^ ?e] => let v := eval vm_compute in (2 ^ e) in change (2 ^ e) with v end; Z.div_mod_to_equations; lia. }
    destruct (Z.leb_spec 128 (n / 2 ^ (8 * (der_length n - 1)) mod 256)); [lia|]. f_equal.
    rewrite <- Hlen at 1. rewrite (fold_bytes m (p + 2) (der_body n)) by (apply der_body_bytes || done || lia).
    apply der_body_value. lia.
  - assert (der_length n = 5) as -> by (unfold der_length; repeat case_match; lia). done.
Qed.

Lemma nv_ctr_der_witness : nv_ctr_value (write_bytes (fun _ => 0) 0x5000 (der_integer 70000)) 0x5000 = Some 70000.
Proof. apply (nv_ctr_der 70000); [lia|apply read_write_same]. Defined.

(** ** Verification with the TBBR chain of trust *)
Section tbbr.
Context {P : Type} `{!TbEnv P} `{!CotBufs}.
Context (Hcot : cot_desc_ptr = cot_desc).
Implicit Types (s : tb_state P).

(** [C14] What the acceptance of an image by [auth_mod_verify_img] means.  When
    it returns 0 for an image the table describes, the methods of the image's
    entry have all been passed, in order, on the bytes and buffers of that
    state and with the platform in the state in which each method asked it
    ([methods_passed]): the hash of the image matches the one that its parent
    left in its buffer; the signature verifies under the key in the parent's
    buffer or, without a parent, under the platform's root of trust key, or
    the image's own key with the hash the platform gives; the counter is not
    behind the platform's counter and, if ahead, the platform has stored it.
    If the platform says that no root of trust key is deployed, the image's own
    key is used unchecked.  At least one method is a hash or a signature, and
    the image is then marked authenticated. *)
Theorem tbbr_verify_sound id p n s s' :
  listed id = true -> auth_mod_verify_img id p n s = Ret 0 s' ->
  exists d, arr_get cot_desc id = Some d /\ flagged s' id /\
    methods_passed s d p n (img_auth_methods d) (tb_plat s) (tb_plat s') /\
    exists m, m ∈ img_auth_methods d /\ authenticates m = true.
Proof.
  intros Hl Hv. apply verify_img_sound in Hv as (d & Hd & Hm & Hf & _). rewrite Hcot in Hd.
  destruct (entry_facts id d Hd Hl) as (Hid & _ & _ & _ & Hlen & Ha & _). rewrite Hid in Hf. exists d.
  rewrite take_ge in Hm by lia. split_and!; [done..|].
  apply existsb_exists in Ha as (m & Hin%list_elem_of_In & Hau). by exists m.
Qed.

(** The identifiers the table does not initialise: the entries 0 (FIP) and
    16 (NS_BL1U) have no authentication method, and any image verifies under
    them; for the configuration images 25 to 27 the table is indexed out of
    its range. *)
Theorem cot_unlisted_ids p n s :
  p <> 0 -> n <> 0 -> Z.of_nat (length (auth_img_flags s)) = MAX_NUMBER_IDS ->
  (exists s', auth_mod_verify_img FIP_IMAGE_ID p n s = Ret 0 s') /\
  (exists s', auth_mod_verify_img NS_BL1U_IMAGE_ID p n s = Ret 0 s') /\
  forall id, SOC_FW_CONFIG_ID <= id < MAX_NUMBER_IDS -> auth_mod_verify_img id p n s = Halt HUndef s.
Proof.
  intros Hp Hn Hlen.
  assert (Hrun : forall id, arr_get cot_desc id = Some cot_none -> exists s', auth_mod_verify_img id p n s = Ret 0 s').
  { intros id Hid. unfold auth_mod_verify_img, cot_entry. rewrite Hcot, Hid.
    assert (Hi : img_parser_check_integrity (img_type cot_none) p n s = Ret 0 s).
    { unfold img_parser_check_integrity, tb_assert, truthy.
      rewrite (proj2 (Z.eqb_neq p 0) Hp), (proj2 (Z.eqb_neq n 0) Hn), andb_false_r. done. }
    rewrite (bind_run _ _ s cot_none s eq_refl). unfold return_if_error.
    rewrite (bind_run _ _ s 0 s Hi). cbn [Z.eqb].
    rewrite (bind_run _ _ s 0 s eq_refl). cbn [Z.eqb]. rewrite (bind_run _ _ s 0 s eq_refl). cbn [Z.eqb].
    unfold mark_authenticated. rewrite (bind_run (gets auth_img_flags) _ s (auth_img_flags s) s eq_refl).
    destruct (arr_get_in_range (auth_img_flags s) 0) as [f Hf].
    { rewrite Hlen. unfold MAX_NUMBER_IDS. lia. }
    change (img_id cot_none) with 0. rewrite Hf, (bind_run (deref (Some f)) _ s f s eq_refl).
    rewrite arr_set_in_range by (rewrite Hlen; unfold MAX_NUMBER_IDS; lia). eexists. reflexivity. }
  split_and!; [by apply Hrun|by apply Hrun|]. intros id Hid. unfold auth_mod_verify_img, cot_entry. rewrite Hcot.
  assert (arr_get cot_desc id = None) as ->; [|done]. unfold arr_get.
  unfold SOC_FW_CONFIG_ID in Hid. destruct (Z.leb_spec 0 id); [|done]. apply lookup_ge_None_2. cbn. lia.
Qed.

(** ** Loading with authentication *)

(** Opening, reading and closing an image leaves the authentication flags
    alone. *)
Definition same_flags s s' : Prop := auth_img_flags s' = auth_img_flags s.
#[global] Instance same_flags_preorder : PreOrder same_flags.
Proof. split; unfold same_flags; [done|congruence]. Qed.

Lemma hook_same_flags {A} (m : M P A) : within same_flags (tb_hook m).
Proof. eapply within_mono; [|apply within_hook]. unfold plat_only, same_flags. intros [] ? ->. done. Qed.
Lemma store_same_flags a bs : within same_flags (store_bytes a bs).
Proof. unfold store_bytes. by apply within_modify. Qed.
#[local] Hint Resolve hook_same_flags store_same_flags : frame.

Lemma load_image_v2_flags id info : within same_flags (load_image_v2 id info).
Proof. unfold load_image_v2, with_image, read_image. frame. Qed.

Lemma load_image_v2_run id info s rc info' s' :
  0 <= image_max_size info < 2 ^ 32 -> load_image_v2 id info s = Ret (rc, info') s' ->
  image_base info' = image_base info /\ image_max_size info' = image_max_size info /\
  (info' = info \/ 0 <= image_size info' <= image_max_size info).
Proof.
  unfold load_image_v2, with_image. intros Hmax Hr. inv_run Hr. destruct a as [[rc0 dev] spec].
  destruct (negb (rc0 =? 0)); [injection Hr as <- <- <-; eauto|]. inv_run Hr.
  destruct (negb (a.1 =? 0)); [injection Hr as <- <- <-; eauto|]. inv_run Hr. inv_run Hr. inv_run Hr. inv_run Hr.
  injection Hr as -> <-. destruct (_ || _); [injection Hr3 as <- <- <-; eauto|].
  destruct (Z.ltb_spec (image_max_size info) (u64 a0.2)); [injection Hr3 as <- <- <-; eauto|].
  inv_run Hr3. injection Hr3 as <- <- <-. cbn. split_and!; [done|done|]. right.
  pose proof (u64_range a0.2). rewrite u32_small; lia.
Qed.

Lemma get_parent_id_run id s x s' :
  listed id = true -> auth_mod_get_parent_id id s = Ret x s' ->
  s' = s /\ exists d, arr_get cot_desc id = Some d /\
    (x.1 = 0 -> parent d = Some x.2 /\ listed x.2 = true /\ ~ flagged s x.2) /\
    (x.1 <> 0 -> forall p, parent d = Some p -> flagged s p).
Proof.
  unfold auth_mod_get_parent_id, cot_entry. rewrite Hcot. intros Hl Hr. inv_run Hr. apply deref_run in Hr0 as [Hd ->].
  destruct (entry_facts id a Hd Hl) as (_ & _ & Hpar & _). destruct (parent a) as [p|] eqn:Ep.
  - inv_run Hr. apply deref_run in Hr0 as [Hpd ->]. inv_run Hr. unfold gets in Hr0. injection Hr0 as <- <-.
    inv_run Hr. apply deref_run in Hr0 as [Hf ->].
    destruct (entry_facts p a0 Hpd (Hpar _ eq_refl)) as (Hid & _). rewrite Hid in *.
    destruct (truthy (Z.land a1 IMG_FLAG_AUTHENTICATED)) eqn:Et; injection Hr as <- <-; (split; [done|]); exists a;
      rewrite Ep; (split; [done|]); cbn.
    + split; [done|]. intros _ p' [= <-]. exists a1. split; [done|]. unfold truthy, IMG_FLAG_AUTHENTICATED in *.
      change 1 with (Z.ones 1) in *. rewrite Z.land_ones in * by lia. pose proof (Z.mod_pos_bound a1 (2 ^ 1)).
      change (Z.ones 1) with 1. apply negb_true_iff, Z.eqb_neq in Et. lia.
    + split; [|done]. intros _. split_and!; [done|by eauto|]. intros (f & Hf' & Hb). rewrite Hf in Hf'. injection Hf' as <-. by rewrite Hb in Et.
  - injection Hr as <- <-. split; [done|]. exists a. by rewrite Ep.
Qed.

Definition info_ok (info : image_info_t) : Prop :=
  0 <= image_size info <= image_max_size info /\ image_max_size info < 2 ^ 32 /\
  forall x, image_base info <= x < image_base info + image_max_size info -> ~ param_region x.

(** ** The digest of an image *)

(** The bytes at [a] match the digest that the parent certificate of image
    [id] has left in its buffer, all in the memory [m]. *)
Definition digest_matches (m : memory) (id a n : Z) : Prop :=
  exists d hp p pd e, arr_get cot_desc id = Some d /\ AUTH_METHOD_HASH hp ∈ img_auth_methods d /\ parent d = Some p /\
    arr_get cot_desc p = Some pd /\ find_param (h_hash hp) (authenticated_data pd) = Some e /\
    crypto_verify_hash (read_bytes m a n) (read_bytes m (ptr (data e)) (len (data e))) = 0.

(** The parent of an entry, if there is one, has been authenticated. *)
Definition parent_flagged (d : auth_img_desc_t) s : Prop := forall p, parent d = Some p -> flagged s p.

(** An image in memory that is authentic in the state [s]: it and its parent
    certificate are marked authenticated, and its bytes match the digest in the
    buffer of the parent. *)
Definition authentic s (id : Z) (info : image_info_t) : Prop :=
  flagged s id /\ (exists d, arr_get cot_desc id = Some d /\ parent_flagged d s) /\
  digest_matches (tb_mem s) id (image_base info) (image_size info).

Lemma digest_ext m m' id a n :
  (forall x, a <= x < a + n -> m' x = m x) ->
  (forall d hp p pd e x, arr_get cot_desc id = Some d -> AUTH_METHOD_HASH hp ∈ img_auth_methods d -> parent d = Some p ->
     arr_get cot_desc p = Some pd -> find_param (h_hash hp) (authenticated_data pd) = Some e ->
     ptr (data e) <= x < ptr (data e) + len (data e) -> m' x = m x) ->
  digest_matches m id a n -> digest_matches m' id a n.
Proof.
  intros Hb He (d & hp & p & pd & e & Hd & Hm & Hp & Hpd & Hf & Hv). exists d, hp, p, pd, e. split_and!; [done..|].
  rewrite (read_ext m m' a n) by done. rewrite (read_ext m m') by (intros; by eapply He). done.
Qed.

Lemma find_param_elem td es e : find_param td es = Some e -> e ∈ es /\ type_desc e = Some td.
Proof. unfold find_param. intros ([i x] & (Hl & Ht & _)%list_find_Some & ->)%fmap_Some. split; [by eapply list_elem_of_lookup_2|done]. Qed.

Lemma methods_hash s d p n ms pl pl' hp : methods_passed s d p n ms pl pl' -> AUTH_METHOD_HASH hp ∈ ms -> hash_passed s hp d p n.
Proof.
  revert pl. induction ms as [|m ms IH]; intros pl Hm Hin; [by apply elem_of_nil in Hin|]. destruct Hm as (p1 & Hm & Hms).
  apply elem_of_cons in Hin as [<-|Hin]; [apply Hm|by eapply IH].
Qed.

Lemma hash_passed_digest s hp id d a n : arr_get cot_desc id = Some d -> AUTH_METHOD_HASH hp ∈ img_auth_methods d -> img_type d = IMG_RAW ->
  hash_passed s hp d a n -> digest_matches (tb_mem s) id a n.
Proof.
  intros Hd Hm Ht (r & h & Hr & Hh & Hv). unfold param_at in Hr. rewrite decide_True in Hr by done. injection Hr as <-.
  unfold parent_param in Hh. destruct (parent d) as [p|] eqn:Hp; [|done]. cbn in Hh. rewrite Hcot in Hh.
  destruct (arr_get cot_desc p) as [pd|] eqn:Hpd; [|done]. cbn in Hh. destruct (find_param (h_hash hp) _) as [e|] eqn:He; [|done].
  injection Hh as <-. by exists d, hp, p, pd, e.
Qed.

Lemma raw_no_buffer id d x : arr_get cot_desc id = Some d -> raw_image id = true -> ~ own_buffer d x.
Proof. intros Hd Hraw (e & He & [Ht _]). destruct (raw_facts id d Hd Hraw) as (_ & Hn & _). rewrite (Hn e He) in Ht. by destruct Ht. Qed.

(** An image that passes the verification matches its digest. *)
Lemma raw_verified id a n s s' : raw_image id = true -> auth_mod_verify_img id a n s = Ret 0 s' -> digest_matches (tb_mem s') id a n.
Proof.
  intros Hraw Hv. pose proof Hv as Hv2. apply verify_img_sound in Hv as (d & Hd & Hm & _). apply verify_img_effect in Hv2 as (d' & Hd' & _ & Hmem).
  rewrite Hcot in Hd, Hd'. rewrite Hd in Hd'. injection Hd' as <-. destruct (raw_facts id d Hd Hraw) as (Ht & _ & _ & hp & Hin).
  destruct (entry_facts id d Hd (raw_listed id Hraw)) as (_ & _ & _ & _ & Hlen & _). rewrite take_ge in Hm by lia.
  assert (Hsame : forall x, tb_mem s' x = tb_mem s x) by (intros x; apply Hmem; by apply (raw_no_buffer id)).
  apply (digest_ext (tb_mem s)); [done|done|]. by eapply hash_passed_digest, methods_hash.
Qed.

(** ** What a load changes

    The memory of the image, and the buffers of certificates that were not
    authenticated before: a certificate that is marked is not loaded again. *)
Definition open_buffer (F : Z -> Prop) (x : Z) : Prop :=
  exists q d, boot_id q = true /\ ~ F q /\ arr_get cot_desc q = Some d /\ own_buffer d x.
Record load_frame (F W : Z -> Prop) s s' : Prop := {
  lf_flags : forall j, flagged s j -> flagged s' j;
  lf_mem : forall x, ~ W x -> ~ open_buffer F x -> tb_mem s' x = tb_mem s x
}.
#[global] Instance load_frame_preorder F W : PreOrder (load_frame F W).
Proof. split; [done|]. intros s1 s2 s3 [F1 M1] [F2 M2]. split; [by auto|]. intros x Hx Ho. by rewrite M2, M1. Qed.

Lemma load_frame_same (F W : Z -> Prop) s s' : auth_img_flags s' = auth_img_flags s ->
  (forall x, ~ W x -> tb_mem s' x = tb_mem s x) -> load_frame F W s s'.
Proof. intros Hf Hm. split; [intros j; unfold flagged; by rewrite Hf|auto]. Qed.

Lemma own_buffer_region id d x : arr_get cot_desc id = Some d -> own_buffer d x -> param_region x.
Proof. intros Hd (e & He & Hx). exists d, e. rewrite Hcot. split_and!; [by eapply arr_get_elem|done|done]. Qed.
Lemma open_region F x : open_buffer F x -> param_region x.
Proof. intros (q & d & _ & _ & Hd & Hx). by eapply own_buffer_region. Qed.

(** An image that does not save anything, or whose buffers are open. *)
Definition fresh (F : Z -> Prop) (id : Z) : Prop := raw_image id = true \/ ~ F id.
Lemma verify_frame (F W : Z -> Prop) id a n s rc s' : boot_id id = true -> fresh F id ->
  auth_mod_verify_img id a n s = Ret rc s' -> load_frame F W s s'.
Proof.
  intros Hb Hf Hv. apply verify_img_effect in Hv as (d & Hd & Hk & Hm). rewrite Hcot in Hd. split; [done|]. intros x _ Ho. apply Hm.
  intros Hx. destruct Hf as [Hraw|Hn]; [by eapply raw_no_buffer|]. apply Ho. by exists id, d.
Qed.

(** A later load keeps an authentic image, if it goes elsewhere. *)
Lemma authentic_keeps (W : Z -> Prop) id info s s' :
  bufs_apart -> raw_image id = true -> boot_id id = true -> load_frame (flagged s) W s s' ->
  (forall x, W x -> ~ param_region x) -> (forall x, image_base info <= x < image_base info + image_size info -> ~ W x /\ ~ param_region x) ->
  authentic s id info -> authentic s' id info.
Proof.
  intros Hap Hraw Hboot [Hk Hm] HW Himg (Hf & (d & Hd & Hpf) & Hdig). split_and!; [by auto|exists d; split; [done|]; intros p Hp; by auto|].
  apply (digest_ext (tb_mem s)); [|clear Hdig|exact Hdig].
  - intros x Hx. destruct (Himg x Hx) as [Hw Hp]. apply Hm; [done|]. intros Ho. by apply Hp, (open_region (flagged s)).
  - intros d' hp p pd e x Hd' Hin Hp Hpd He Hx. rewrite Hd in Hd'. injection Hd' as <-. destruct (find_param_elem _ _ _ He) as [Hel Hty].
    assert (Hpar : in_param e x) by (split; [by rewrite Hty|done]).
    apply Hm. { intros Hw. apply (HW x Hw). eapply own_buffer_region; [exact Hpd|]. by exists e. }
    intros (q & dq & Hbq & Hnq & Hdq & e' & He' & Hx'). destruct (digest_at _ _ _ _ _ _ Hd Hraw Hin Hp Hpd He) as (b & Hb & Hpb & Hlb).
    destruct (entry_bufs _ _ _ _ Hdq He' Hx') as (b' & Hb' & Hxb'). pose proof (arr_get_Some_range _ _ _ Hdq) as Hrq. cbn in Hrq.
    destruct (decide (b' = b)) as [->|Hne]; [|apply (Hap b' b x); [done|done|unfold in_buf; by rewrite <- Hpb, <- Hlb]].
    apply (digest_private id d p q b Hd Hboot Hp Hbq ltac:(lia)); [|done|done]. intros ->. by apply Hnq, Hpf.
Qed.

(** A hook of the platform changes neither memory nor marks. *)
Definition same_auth s s' : Prop := tb_mem s' = tb_mem s /\ auth_img_flags s' = auth_img_flags s.
Lemma hook_same_auth {A} (m : M P A) s a s' : tb_hook m s = Ret a s' -> same_auth s s'.
Proof. intros [_ Hp]%hook_run. rewrite Hp. by destruct s. Qed.
Lemma same_auth_frame (F W : Z -> Prop) s s' : same_auth s s' -> load_frame F W s s'.
Proof. intros [Hm Hf]. apply load_frame_same; [done|]. intros x _. by rewrite Hm. Qed.
Lemma authentic_same id info s s' : same_auth s s' -> authentic s id info -> authentic s' id info.
Proof. intros [Hm Hf] (H1 & (d & Hd & H2) & H3). unfold authentic, parent_flagged, flagged in *. rewrite Hm, Hf. split_and!; [done|by exists d|done]. Qed.

(** ** One attempt *)

(** The last part of a successful load: the image comes from the storage into
    memory, and the authentication module accepts what is there. *)
Definition verified_load (id : Z) (info : image_info_t) s (info' : image_info_t) s' : Prop :=
  exists s1 s2, load_image_v2 id info s = Ret (0, info') s1 /\
    auth_mod_verify_img id (image_base info') (image_size info') s1 = Ret 0 s2 /\
    tb_mem s' = tb_mem s2 /\ auth_img_flags s' = auth_img_flags s2 /\ tb_plat s' = tb_plat s2.

Lemma verified_flags id info s info' s' : listed id = true -> verified_load id info s info' s' ->
  flagged s' id /\ forall j, flagged s j -> flagged s' j.
Proof.
  intros Hl (s1 & s2 & Hr & Hv & _ & Hf & _). assert (Hfl : same_flags s s1) by (eapply within_run, Hr; apply load_image_v2_flags).
  pose proof (verify_img_sound _ _ _ _ _ Hv) as (d & Hd & _ & Hf2 & Hk & _). rewrite Hcot in Hd.
  destruct (entry_facts id d Hd Hl) as (Hid & _). rewrite Hid in Hf2. unfold flagged in *. rewrite Hf. split; [done|]. intros j Hj. apply Hk. by rewrite Hfl.
Qed.
Lemma verified_digest id info s info' s' : raw_image id = true -> verified_load id info s info' s' ->
  digest_matches (tb_mem s') id (image_base info') (image_size info').
Proof. intros Hraw (s1 & s2 & _ & Hv & -> & _). by eapply raw_verified. Qed.

Lemma load_then_auth_ok id info b s info' s' :
  TRUSTED_BOARD_BOOT = true -> load_then_auth_v2 id info b s = Ret (0, info') s' -> verified_load id info s info' s'.
Proof.
  intros Ht Hr. unfold load_then_auth_v2 in Hr. inv_run Hr. destruct a as [rc inf]. cbn in Hr.
  destruct (Z.eqb_spec rc 0) as [->|Hne]; cbn in Hr; [|by injection Hr]. inv_run Hr. unfold auth_loaded in Hr1.
  rewrite Ht in Hr1. inv_run Hr1. destruct (Z.eqb_spec a0 0) as [->|Hne].
  - injection Hr1 as <- <-. cbn in Hr. inv_run Hr. injection Hr as <- <-. exists s0, s2. split_and!; [done|done|..].
    all: destruct b; cbn in Hr1; [by injection Hr1 as <- <-|]; unfold flush_dcache_range, tb_emit, modify in Hr1; by injection Hr1 as <- <-.
  - inv_run Hr1. inv_run Hr1. injection Hr1 as <- <-. by injection Hr.
Qed.

(** Whatever the result, the image information stays within bounds. *)
Definition same_place (info info' : image_info_t) : Prop :=
  image_base info' = image_base info /\ image_max_size info' = image_max_size info /\ info_ok info'.

Lemma load_then_auth_place id info b s rc info' s' :
  info_ok info -> load_then_auth_v2 id info b s = Ret (rc, info') s' -> same_place info info'.
Proof.
  intros (Hsz & Hmax & Hx) Hr. unfold load_then_auth_v2 in Hr. inv_run Hr. destruct a as [rc0 inf].
  pose proof (load_image_v2_run _ _ _ _ _ _ (conj (Z.le_trans _ _ _ (proj1 Hsz) (proj2 Hsz)) Hmax) Hr0) as (Hb & Hm & Hs).
  assert (Hp : same_place info inf).
  { unfold same_place, info_ok. rewrite Hb, Hm. split_and!; try done; destruct Hs as [->|]; lia. }
  cbn in Hr. destruct (negb (rc0 =? 0)); [by injection Hr as _ <-|]. inv_run Hr.
  destruct (negb (a =? 0)); [by injection Hr as _ <-|]. inv_run Hr. by injection Hr as _ <-.
Qed.

Lemma same_place_trans a b c : same_place a b -> same_place b c -> same_place a c.
Proof. unfold same_place. intros (? & ? & ?) (? & ? & ?). split_and!; congruence || done. Qed.

Lemma load_internal_place fuel id info b s rc info' s' :
  info_ok info -> load_auth_image_internal_v2 fuel id info b s = Ret (rc, info') s' -> same_place info info'.
Proof.
  revert id info b s rc info' s'. induction fuel as [|fuel IH]; intros id info b s rc info' s' Hok Hr; [done|].
  cbn in Hr. destruct TRUSTED_BOARD_BOOT; [|by eapply load_then_auth_place]. inv_run Hr.
  destruct (a.1 =? 0); [|by eapply load_then_auth_place]. inv_run Hr. destruct a0 as [rc0 inf]. cbn in Hr.
  pose proof (IH _ _ _ _ _ _ _ Hok Hr1) as Hp. destruct (negb (rc0 =? 0)); [by injection Hr as _ <-|].
  eapply same_place_trans; [done|]. eapply load_then_auth_place; [apply Hp|done].
Qed.

(** An image is loaded when its parent is authenticated; otherwise the parent
    is loaded first, into the same memory, and so on to the root. *)
Inductive trusted_load : Z -> image_info_t -> tb_state P -> image_info_t -> tb_state P -> Prop :=
  | tl_here id d info s info' s' : arr_get cot_desc id = Some d -> parent_flagged d s ->
      verified_load id info s info' s' -> trusted_load id info s info' s'
  | tl_parent id d p info s info1 s1 info' s' : arr_get cot_desc id = Some d -> parent d = Some p -> ~ flagged s p ->
      trusted_load p info s info1 s1 -> parent_flagged d s1 -> verified_load id info1 s1 info' s' ->
      trusted_load id info s info' s'.

Lemma load_internal_ok fuel id info b s info' s' :
  TRUSTED_BOARD_BOOT = true -> listed id = true ->
  load_auth_image_internal_v2 fuel id info b s = Ret (0, info') s' ->
  trusted_load id info s info' s' /\ flagged s' id /\ (forall j, flagged s j -> flagged s' j).
Proof.
  intros Ht. revert id info b s info' s'. induction fuel as [|fuel IH]; intros id info b s info' s' Hl Hr; [done|].
  cbn in Hr. rewrite Ht in Hr. inv_run Hr. destruct (get_parent_id_run id s a s0 Hl Hr0) as (-> & d & Hd & H0 & H1).
  destruct (Z.eqb_spec a.1 0) as [Ha|Ha].
  - destruct (H0 Ha) as (Hp & Hlp & Hnf). inv_run Hr. destruct a0 as [rc inf]. cbn in Hr.
    destruct (Z.eqb_spec rc 0) as [->|Hne]; cbn in Hr; [|by injection Hr].
    destruct (IH _ _ _ _ _ _ Hlp Hr1) as (Htl & Hfp & Hk). apply load_then_auth_ok in Hr as Hv; [|done].
    destruct (verified_flags _ _ _ _ _ Hl Hv) as [Hf Hk']. split_and!; [|done|by auto].
    eapply (tl_parent id d); [done..| |done]. intros q Hq. rewrite Hp in Hq. by injection Hq as <-.
  - apply load_then_auth_ok in Hr as Hv; [|done]. destruct (verified_flags _ _ _ _ _ Hl Hv) as [Hf Hk]. split_and!; [|done|done].
    apply (tl_here id d); [done| |done]. intros p. by apply H1.
Qed.

(** What a trusted load has established at its end. *)
Lemma trusted_parent id info s info' s' : listed id = true -> trusted_load id info s info' s' ->
  exists d, arr_get cot_desc id = Some d /\ parent_flagged d s'.
Proof.
  intros Hl Htl. revert Hl. destruct Htl as [id0 d i0 s0 i' s0' Hd Hp Hv|id0 d p i0 s0 i1 s1 i' s0' Hd Hp Hn Htl Hpf Hv]; intros Hl; exists d; (split; [done|]); intros q Hq;
    by apply (proj2 (verified_flags _ _ _ _ _ Hl Hv)); auto.
Qed.
Lemma trusted_digest id info s info' s' : raw_image id = true -> trusted_load id info s info' s' ->
  digest_matches (tb_mem s') id (image_base info') (image_size info').
Proof. intros Hraw Htl. revert Hraw. destruct Htl; intros Hraw; by eapply verified_digest. Qed.

(** ** All attempts *)

(** The attempts that fail, with a change of the boot source after each. *)
Inductive attempts (fuel : nat) (id : Z) : image_info_t -> tb_state P -> image_info_t -> tb_state P -> Prop :=
  | at_first info s : attempts fuel id info s info s
  | at_again info s rc info1 s1 again s2 info3 s3 :
      load_auth_image_internal_v2 fuel id info false s = Ret (rc, info1) s1 -> rc <> 0 ->
      tb_hook plat_try_next_boot_source s1 = Ret again s2 -> again <> 0 ->
      attempts fuel id info1 s2 info3 s3 -> attempts fuel id info s info3 s3.

Lemma load_auth_v2_ok tries fuel id info s info' s' :
  TRUSTED_BOARD_BOOT = true -> listed id = true -> info_ok info ->
  load_auth_image_v2 tries fuel id info s = Ret (0, info') s' ->
  image_base info' = image_base info /\ 0 <= image_size info' <= image_max_size info /\
  (exists info0 s0, attempts fuel id info s info0 s0 /\ trusted_load id info0 s0 info' s') /\ flagged s' id.
Proof.
  intros Ht Hl. revert info s. induction tries as [|tries IH]; intros info s Hok Hr; [done|]. cbn in Hr.
  inv_run Hr. destruct a as [rc inf]. cbn in Hr. destruct (load_internal_place _ _ _ _ _ _ _ _ Hok Hr0) as (Hb & Hm & Hok').
  destruct (Z.eqb_spec rc 0) as [->|Hne].
  - injection Hr as <- <-. destruct (load_internal_ok _ _ _ _ _ _ _ Ht Hl Hr0) as (Htl & Hf & _).
    destruct Hok' as (Hsz & _). rewrite Hm in Hsz. split_and!; [done|lia|lia| |done]. exists info, s. split; [constructor|done].
  - inv_run Hr. unfold truthy in Hr. destruct (Z.eqb_spec a 0) as [|Ha]; cbn in Hr; [by injection Hr|].
    destruct (IH _ _ Hok' Hr) as (Hb' & Hsz & (i0 & t0 & Hat & Htl) & Hf). rewrite Hm in Hsz.
    split_and!; [congruence|lia|lia| |done]. exists i0, t0. split; [by econstructor|done].
Qed.

Lemma load_auth_v2_authentic tries fuel id info s info' s' :
  TRUSTED_BOARD_BOOT = true -> raw_image id = true -> info_ok info ->
  load_auth_image_v2 tries fuel id info s = Ret (0, info') s' -> authentic s' id info'.
Proof.
  intros Ht Hraw Hok Hr. pose proof (raw_listed id Hraw) as Hl.
  destruct (load_auth_v2_ok _ _ _ _ _ _ _ Ht Hl Hok Hr) as (_ & _ & (i0 & t0 & _ & Htl) & Hf).
  split_and!; [done|by eapply trusted_parent|by eapply trusted_digest].
Qed.

(** [C12] A loaded image is an authenticated image.  When [load_auth_image] with
    trusted board boot returns 0, then, after attempts that failed and changed
    the boot source, this run brought the image from the storage into memory
    within its maximum size, [auth_mod_verify_img] returned 0 for the bytes
    in memory at that point of the run, and memory has not changed since; at
    that point the parent was marked authenticated, either before the attempt
    or because it had been loaded and verified in the same way in this attempt
    ([trusted_load]).  At the end the image and its parent are marked
    authenticated; and the bytes of an image that is not a certificate match the
    digest that is in the buffer of its parent at the end, whatever the storage
    delivered. *)
Theorem load_auth_image_authenticates tries fuel id info s info' s' :
  TRUSTED_BOARD_BOOT = true -> listed id = true -> info_ok info ->
  load_auth_image_v2 tries fuel id info s = Ret (0, info') s' ->
  image_base info' = image_base info /\ 0 <= image_size info' <= image_max_size info /\
  (exists info0 s0, attempts fuel id info s info0 s0 /\ trusted_load id info0 s0 info' s') /\
  flagged s' id /\ (exists d, arr_get cot_desc id = Some d /\ parent_flagged d s') /\
  (raw_image id = true -> digest_matches (tb_mem s') id (image_base info') (image_size info')).
Proof.
  intros Ht Hl Hok Hr. destruct (load_auth_v2_ok _ _ _ _ _ _ _ Ht Hl Hok Hr) as (Hb & Hsz & Hrun & Hf).
  destruct Hrun as (i0 & t0 & Hat & Htl). split_and!; [done|lia|lia|by exists i0, t0|done|by eapply trusted_parent|]. intros Hraw. by eapply trusted_digest.
Qed.

Lemma load_internal_S f id info b s :
  load_auth_image_internal_v2 (S f) id info b s =
  (if TRUSTED_BOARD_BOOT then
     let! p := auth_mod_get_parent_id id in
     if p.1 =? 0 then
       let! r := load_auth_image_internal_v2 f p.2 info true in
       if negb (r.1 =? 0) then ret r else load_then_auth_v2 id r.2 b
     else load_then_auth_v2 id info b
   else load_then_auth_v2 id info b) s.
Proof. done. Qed.

Lemma fuel_depth k : forall d id info b s f,
  arr_get cot_desc id = Some d -> listed id = true -> is_Some (root_depth k d) ->
  load_auth_image_internal_v2 (S (k + f)) id info b s = load_auth_image_internal_v2 (S k) id info b s.
Proof.
  induction k as [|k IH]; intros d id info b s f Hd Hl [n Hn]; cbn [Nat.add]; rewrite !load_internal_S;
    (destruct TRUSTED_BOARD_BOOT; [|done]); unfold bind;
    destruct (auth_mod_get_parent_id id s) as [a s0|] eqn:Ea; [|done| |done];
    destruct (get_parent_id_run id s a s0 Hl Ea) as (-> & d' & Hd' & H0 & _); simplify_eq;
    (destruct (Z.eqb_spec a.1 0) as [Ha|]; [|done]); destruct (H0 Ha) as (Hp & Hlp & _).
  - cbn in Hn. by rewrite Hp in Hn.
  - cbn in Hn. rewrite Hp in Hn. destruct (arr_get cot_desc a.2) as [pd|] eqn:Epd; [|done]. cbn in Hn.
    destruct (root_depth k pd) as [n'|] eqn:En; [|done]. by rewrite (IH pd a.2 _ _ _ _ Epd Hlp (ex_intro _ n' En)).
Qed.

(** [C29] The recursion over the parents ends: with the TBBR chain of trust no
    image needs more than four levels, whatever the authentication flags are,
    so a larger bound on the depth of [load_auth_image] changes nothing. *)
Theorem load_auth_recursion_ends extra id d info b s :
  arr_get cot_desc id = Some d -> listed id = true ->
  load_auth_image_internal_v2 (4 + extra) id info b s = load_auth_image_internal_v2 4 id info b s.
Proof. intros Hd Hl. eapply (fuel_depth 3); [done..|]. by destruct (entry_facts id d Hd Hl) as (_ & _ & _ & Hr & _). Qed.
End tbbr.

(** ** Concrete instances *)
Module TbbWitnesses.
Import TbbExample.

(** BL2 with its certificate: hash byte 9, counter 3, signed by the root key. *)
Definition content (id : Z) : list Z :=
  if id =? TRUSTED_BOOT_FW_CERT_ID then cert 1 9 3 7 else if id =? BL2_IMAGE_ID then [9; 8; 7] else [].
#[local] Instance e : TbEnv Z := env true true true content 0.
Definition bl2_info : image_info_t := ImageInfo 0x4000000 0 0x1000.
Definition start : tb_state Z := boot_state (mem_with 0 []) [].
Definition cert_loaded : tb_state Z := boot_state (mem_with 0x4000000 (cert 1 9 3 7)) [].

Lemma tbbr_verify_sound_witness :
  exists d, arr_get cot_desc TRUSTED_BOOT_FW_CERT_ID = Some d /\
    flagged (final (auth_mod_verify_img TRUSTED_BOOT_FW_CERT_ID 0x4000000 32 cert_loaded)) TRUSTED_BOOT_FW_CERT_ID.
Proof.
  destruct (tbbr_verify_sound (TbEnv0 := e) eq_refl TRUSTED_BOOT_FW_CERT_ID 0x4000000 32 cert_loaded
    (final (auth_mod_verify_img TRUSTED_BOOT_FW_CERT_ID 0x4000000 32 cert_loaded)) eq_refl) as (d & Hd & Hf & _).
  - apply returned_final. vm_compute. reflexivity.
  - exists d. split; [exact Hd|exact Hf].
Defined.

Lemma cot_unlisted_ids_witness : exists s', auth_mod_verify_img NS_BL1U_IMAGE_ID 0x4000000 32 start = Ret 0 s'.
Proof.
  destruct (cot_unlisted_ids (TbEnv0 := e) eq_refl 0x4000000 32 start) as (_ & Hn & _); [done|done|reflexivity|exact Hn].
Defined.

Lemma cot_wellformed_witness :
  exists k, root_depth 3 cot_BL31_IMAGE_ID = Some k.
Proof.
  destruct (cot_wellformed BL31_IMAGE_ID cot_BL31_IMAGE_ID start) as (_ & _ & Hk & _); [reflexivity|done|done|exact Hk].
Defined.

Lemma load_auth_recursion_ends_witness :
  load_auth_image_internal_v2 (4 + 3) BL2_IMAGE_ID bl2_info false start =
  load_auth_image_internal_v2 4 BL2_IMAGE_ID bl2_info false start.
Proof.
  exact (load_auth_recursion_ends (TbEnv0 := e) eq_refl 3 BL2_IMAGE_ID cot_BL2_IMAGE_ID bl2_info false start eq_refl eq_refl).
Defined.

(** The image's memory does not meet the buffers. *)
Lemma bl2_info_ok : info_ok bl2_info.
Proof.
  unfold info_ok, bl2_info. cbn. split_and!; [lia|lia|lia|]. intros x Hx (d & en & Hd & He & [td Ht] & Hin).
  destruct (buffers_fit d en td Hd He Ht) as (b & Hp & Hl). rewrite Hp, Hl in Hin.
  assert (buf_addr b + buf_size b <= 0x200000) by (destruct b; vm_compute; discriminate). lia.
Qed.

#[local] Abbreviation bl2_loaded := (final (load_auth_image_v2 1 4 BL2_IMAGE_ID bl2_info start)).
Lemma load_auth_image_authenticates_witness :
  read_bytes (tb_mem bl2_loaded) 0x4000000 3 = [9; 8; 7] /\ flagged bl2_loaded BL2_IMAGE_ID /\ digest_matches (tb_mem bl2_loaded) BL2_IMAGE_ID 0x4000000 3.
Proof.
  destruct (load_auth_image_authenticates (TbEnv0 := e) eq_refl 1 4 BL2_IMAGE_ID bl2_info start (ImageInfo 0x4000000 3 0x1000)
    bl2_loaded eq_refl eq_refl bl2_info_ok) as (_ & _ & _ & Hf & _ & Hdig).
  - apply returned_final. vm_compute. reflexivity.
  - split; [vm_compute; reflexivity|]. split; [exact Hf|]. apply Hdig. vm_compute. reflexivity.
Defined.
End TbbWitnesses.
