(* ===== verification/LoadProps.v ===== *)
(** * Image loading: memory layout arithmetic, short reads, the older loader

    [reserve_mem] and [page_align] of bl_common.c, what [load_image] makes of a
    read that delivers too few bytes, and what [load_auth_image] leaves without
    LOAD_IMAGE_V2, when the caller names the address and passes the memory
    layout: where it writes, what it reports, and that an image it accepts was
    authenticated.  The memory an image can reach is bounded by the layout
    ([layout_room]) or by the sizes that the storage reports ([sized_room]);
    the lemmas are stated for any such bound. *)
From stdpp Require Import base list numbers option strings sets.
From Stdlib Require Import ZArith Lia.
From S2P Require Import Prelude TbbDefs AuthMod TbbrCot BlCommon TbbExample TbbLemmas AuthProps CotProps TbbProps.
#[local] Open Scope Z_scope.

Lemma overflow_spec a n : 0 <= n < 2 ^ 64 -> check_uptr_overflow a n = (2 ^ 64 <=? a + n).
Proof.
  intros Hn. unfold check_uptr_overflow, UINTPTR_MAX.
  destruct (Z.ltb_spec (2 ^ 64 - 1 - n) a), (Z.leb_spec (2 ^ 64) (a + n)); done || lia.
Qed.

Lemma is_mem_free_spec fb fs a n :
  0 <= fb < 2 ^ 64 -> 0 <= fs < 2 ^ 64 -> 0 <= a < 2 ^ 64 -> 0 <= n < 2 ^ 64 ->
  is_mem_free fb fs a n = true <-> n = 0 \/ (fb + fs <= 2 ^ 64 /\ fb <= a /\ a + n <= fb + fs).
Proof.
  intros Hfb Hfs Ha Hn. unfold is_mem_free. destruct (Z.eqb_spec n 0); [naive_solver|].
  destruct (Z.eqb_spec fs 0) as [->|]; [split; [done|lia]|]. rewrite !overflow_spec by lia.
  destruct (Z.leb_spec (2 ^ 64) (fb + (fs - 1))); [split; [done|lia]|].
  destruct (Z.leb_spec (2 ^ 64) (a + (n - 1))); [split; [done|lia]|].
  rewrite andb_true_iff, !Z.leb_le. lia.
Qed.

Lemma reserve_mem_spec {P} `{!TbEnv P} fb fs a n (s : tb_state P) :
  0 <= fb < 2 ^ 64 -> 0 <= fs < 2 ^ 64 -> 0 <= a < 2 ^ 64 -> 0 < n < 2 ^ 64 -> is_mem_free fb fs a n = true ->
  exists fb' fs', reserve_mem fb fs a n s = Ret (fb', fs') s /\ 0 <= fb' < 2 ^ 64 /\
    fs' = Z.max (a - fb) (fb + fs - (a + n)) /\
    (0 < fs' -> fb <= fb' /\ fb' + fs' <= fb + fs) /\
    (forall x, fb' <= x < fb' + fs' -> ~ (a <= x < a + n)).
Proof.
  intros Hfb Hfs Ha Hn Hfree. pose proof Hfree as Hf. rewrite is_mem_free_spec in Hf by lia.
  destruct Hf as [|(H1 & H2 & H3)]; [lia|]. unfold reserve_mem, choose_mem_pos, tb_assert. rewrite Hfree.
  rewrite (u64_small (fb + (fs - 1))), (u64_small (a + (n - 1))) by lia.
  rewrite (proj2 (Z.leb_le fb a)), (proj2 (Z.leb_le a (a + (n - 1)))), (proj2 (Z.leb_le (a + (n - 1)) (fb + (fs - 1)))) by lia.
  rewrite andb_false_r. unfold bind, ret. destruct (Z.eqb_spec n 0); [lia|].
  rewrite (u64_small (fb + (fs - 1) - (a + (n - 1)))), (u64_small (a - fb)) by lia.
  destruct (Z.ltb_spec (fb + (fs - 1) - (a + (n - 1))) (a - fb)); cbn.
  - rewrite (u64_small (n + _)), (u64_small (fs - _)) by lia. do 2 eexists. split_and!; [done|lia|lia|lia|lia|intros; lia].
  - rewrite (u64_small (n + _)), (u64_small (fs - _)) by lia. do 2 eexists. split; [done|].
    destruct (decide (a + n = 2 ^ 64)) as [He|Hne].
    + rewrite He. change (u64 (2 ^ 64)) with 0. split_and!; [lia|lia|lia|lia|intros; lia].
    + rewrite u64_small by lia. split_and!; [lia|lia|lia|lia|intros; lia].
Qed.

(** Reserving memory: for a request that [is_mem_free] accepts,
    [reserve_mem] returns, with assertions on or off; what stays free lies
    inside the old free region, does not meet the reserved bytes, and is the
    larger of the two pieces around them. *)
Theorem reserve_mem_keeps_free {P} `{!TbEnv P} fb fs a n (s : tb_state P) :
  0 <= fb < 2 ^ 64 -> 0 <= fs < 2 ^ 64 -> 0 <= a < 2 ^ 64 -> 0 < n < 2 ^ 64 -> is_mem_free fb fs a n = true ->
  exists fb' fs', reserve_mem fb fs a n s = Ret (fb', fs') s /\ 0 <= fb' < 2 ^ 64 /\
    fs' = Z.max (a - fb) (fb + fs - (a + n)) /\
    (0 < fs' -> fb <= fb' /\ fb' + fs' <= fb + fs) /\
    (forall x, fb' <= x < fb' + fs' -> ~ (a <= x < a + n)).
Proof. apply reserve_mem_spec. Qed.

Lemma reserve_mem_keeps_free_witness :
  let e := TbbExample.env true false false (fun _ => []) 0 in
  let s := TbbExample.boot_state (fun _ => 0) [] in
  exists fb' fs', reserve_mem (TbEnv0 := e) 0x4001000 0x3f000 0x4020000 0x10000 s = Ret (fb', fs') s /\
    fs' = 0x1f000.
Proof.
  intros e s. destruct (reserve_mem_keeps_free (TbEnv0 := e) 0x4001000 0x3f000 0x4020000 0x10000 s) as (fb & fs & Hrun & _ & Hfs & _);
    [lia|lia|lia|lia|reflexivity|]. exists fb, fs. split; [exact Hrun|exact Hfs].
Defined.

(** [page_align] works on addresses below 4 GB only: the complement of
    PAGE_SIZE - 1 is a 32-bit value, so an address that is not aligned loses
    its upper half, in both directions. *)
Theorem page_align_truncates v dir :
  0 <= v < 2 ^ 63 ->
  page_align v dir =
    if v mod PAGE_SIZE =? 0 then v
    else v mod 2 ^ 32 - v mod PAGE_SIZE + (if dir =? UP then PAGE_SIZE else 0).
Proof.
  intros Hv. unfold page_align. change (PAGE_SIZE - 1) with (Z.ones 12). rewrite Z.land_ones by lia.
  change (2 ^ 12) with PAGE_SIZE. unfold truthy. destruct (Z.eqb_spec (v mod PAGE_SIZE) 0); [done|]. cbn [negb].
  assert (Hland : Z.land v (u32 (Z.lnot (Z.ones 12))) = v mod 2 ^ 32 - v mod PAGE_SIZE).
  { change (u32 (Z.lnot (Z.ones 12))) with (Z.land (Z.ones 32) (Z.lnot (Z.ones 12))). rewrite Z.land_assoc, Z.land_ones by lia.
    rewrite <- Z.ldiff_land, Z.ldiff_ones_r, Z.shiftr_div_pow2, Z.shiftl_mul_pow2 by lia. unfold PAGE_SIZE.
    change 4096 with (2 ^ 12). pose proof (Z.div_mod (v mod 2 ^ 32) (2 ^ 12)).
    assert (v mod 2 ^ 32 mod 2 ^ 12 = v mod 2 ^ 12) by (apply Z.mod_mod_divide; exists (2 ^ 20); lia). lia. }
  rewrite Hland. unfold PAGE_SIZE in *. pose proof (Z.mod_pos_bound v (2 ^ 32)). pose proof (Z.mod_pos_bound v 4096).
  assert (0 <= v mod 2 ^ 32 - v mod 4096).
  { rewrite <- Hland. apply Z.land_nonneg. left. lia. }
  destruct (dir =? UP); [|lia]. rewrite u64_small; lia.
Qed.

Lemma page_align_truncates_witness : page_align 0x123456789 UP = 0x23457000.
Proof. rewrite (page_align_truncates 0x123456789 UP); [reflexivity|lia]. Defined.

(** ** Short reads *)
Section short_read.
Context {P : Type} `{!TbEnv P} (id dev spec h n : Z) (bs : list Z).

(** Storage in which image [id] has [n] bytes and a read of it delivers [bs]
    and reports success. *)
Record delivers : Prop := {
  dl_source : forall p, plat_get_image_source id p = Ret (0, dev, spec) p;
  dl_open : forall p, io_open dev spec p = Ret (0, h) p;
  dl_size : forall p, io_size h p = Ret (0, n) p;
  dl_read : forall b p, io_read h b n p = Ret (0, bs) p;
  dl_close : forall p, io_close h p = Ret 0 p;
  dl_dev_close : forall p, io_dev_close dev p = Ret 0 p
}.

Lemma tb_hook_run {A} (m : M P A) (a : A) (s : tb_state P) :
  (forall p, m p = Ret a p) -> tb_hook m s = Ret a s.
Proof. intros Hm. unfold tb_hook, zoom. rewrite Hm. by destruct s. Qed.

(** One hook of [with_image]. *)
Ltac run_hook H := rewrite (bind_run _ _ _ _ _ (tb_hook_run _ _ _ H)); cbn [fst snd].

(** A short read counts as success: when the storage delivers fewer bytes
    than the size of the image and reports no error, [load_image] of the
    LOAD_IMAGE_V2 build returns 0 and records the full size, so the rest of
    the image is whatever the memory held before. *)
Theorem load_image_short_read info (s : tb_state P) :
  delivers -> 0 < n <= image_max_size info -> image_max_size info < 2 ^ 32 -> Z.of_nat (length bs) < n ->
  exists s', load_image_v2 id info s = Ret (0, ImageInfo (image_base info) n (image_max_size info)) s' /\
    forall x, ~ (image_base info <= x < image_base info + Z.of_nat (length bs)) -> tb_mem s' x = tb_mem s x.
Proof.
  intros [H1 H2 H3 H4 H5 H6] Hn Hmax Hlen. unfold load_image_v2, with_image.
  run_hook H1. cbn [Z.eqb negb]. run_hook H2. cbn [Z.eqb negb]. run_hook H3. rewrite (u64_small n) by lia.
  cbn [Z.eqb negb]. destruct (Z.eqb_spec n 0); [lia|]. cbn [orb].
  destruct (Z.ltb_spec (image_max_size info) n); [lia|].
  assert (Hrd : read_image h (image_base info) n s =
    Ret (0, Z.of_nat (length bs)) (set_mem (write_bytes (tb_mem s) (image_base info) bs) s)).
  { unfold read_image. run_hook (H4 (image_base info)). done. }
  erewrite (bind_run _ _ s); [|rewrite (bind_run _ _ _ _ _ Hrd); reflexivity]. run_hook H5. run_hook H6.
  eexists. split; [rewrite (u32_small n) by lia; reflexivity|]. intros x Hx. cbn.
  unfold write_bytes. destruct (Z.leb_spec (image_base info) x), (Z.ltb_spec x (image_base info + Z.of_nat (length bs))); done || lia.
Qed.
End short_read.

Lemma load_image_short_read_witness :
  let e := TbbExample.env false false true (fun _ => replicate 16 5) 4 in
  exists s', load_image_v2 (TbEnv0 := e) 3 (ImageInfo 0x4000000 0 0x1000) (TbbExample.boot_state (fun _ => 0) []) =
    Ret (0, ImageInfo 0x4000000 16 0x1000) s'.
Proof.
  intros e. destruct (load_image_short_read (TbEnv0 := e) 3 0 3 3 16 (replicate 12 5) (ImageInfo 0x4000000 0 0x1000)
    (TbbExample.boot_state (fun _ => 0) [])) as (s' & Hrun & _).
  - split; reflexivity.
  - cbn. lia.
  - cbn. lia.
  - cbn. lia.
  - exists s'. exact Hrun.
Defined.

(** ** Where an image can go *)
Section room.
Context {P : Type} `{!TbEnv P}.
Implicit Types (s : tb_state P).

(** A size that the storage can report. *)
Definition sized (n : Z) : Prop := exists h p r p', io_size h p = Ret r p' /\ n = u64 r.2.

(** An image at [b] that the layout has room for lies in [W]; the layouts that
    [lay] describes are kept when memory is reserved. *)
Record room (b : Z) (lay : meminfo_t -> Prop) (W : Z -> Prop) : Prop := {
  rm_base : 0 <= b < 2 ^ 64;
  rm_fit : forall l n x, lay l -> 0 < n < 2 ^ 64 -> sized n -> is_mem_free (free_base l) (free_size l) b n = true -> b <= x < b + n -> W x;
  rm_reserve : forall l n f s s', lay l -> 0 < n < 2 ^ 64 -> is_mem_free (free_base l) (free_size l) b n = true ->
    reserve_mem (free_base l) (free_size l) b n s = Ret f s' -> lay (MemInfo (total_base l) (total_size l) f.1 f.2)
}.

(** The free memory of the layout [l0] before the load. *)
Definition in_free (l0 : meminfo_t) (x : Z) : Prop := free_base l0 <= x < free_base l0 + free_size l0.
Record layout_in (l0 l : meminfo_t) : Prop := {
  li_base : 0 <= free_base l < 2 ^ 64;
  li_size : 0 <= free_size l < 2 ^ 64;
  li_in : 0 < free_size l -> free_base l0 <= free_base l /\ free_base l + free_size l <= free_base l0 + free_size l0
}.

Lemma layout_room l0 b : 0 <= b < 2 ^ 64 -> room b (layout_in l0) (in_free l0).
Proof.
  intros Hb. split; [done| |].
  - intros l n x [Hlb Hls Hli] Hn _ Hf Hx. rewrite is_mem_free_spec in Hf by lia. destruct Hf as [|(_ & H1 & H2)]; [lia|]. unfold in_free. lia.
  - intros l n f s s' [Hlb Hls Hli] Hn Hf Hr.
    destruct (reserve_mem_spec (free_base l) (free_size l) b n s) as (fb & fs & Hres & Hfbr & Hfs' & Hin & _); [lia|lia|lia|lia|done|].
    rewrite Hres in Hr. injection Hr as <- _. rewrite is_mem_free_spec in Hf by lia. destruct Hf as [|(_ & H1 & H2)]; [lia|].
    split; cbn; [lia|lia|]. intros Hpos. destruct (Hin Hpos). lia.
Qed.

(** The layout does not matter when the sizes are limited. *)
Lemma sized_room max b : 0 <= b < 2 ^ 64 -> (forall n, sized n -> n <= max) -> room b (fun _ => True) (fun x => b <= x < b + max).
Proof. intros Hb Hmax. split; [done| |done]. intros l n x _ Hn Hs _ Hx. specialize (Hmax n Hs). lia. Qed.
End room.

Lemma hook_mem {P A} `{!TbEnv P} (m : M P A) (s : tb_state P) a s' : tb_hook m s = Ret a s' -> tb_mem s' = tb_mem s.
Proof. intros [_ Hp]%hook_run. rewrite Hp. by destruct s. Qed.

Section v1.
Context {P : Type} `{!TbEnv P} {bufs : CotBufs} (Hcot : cot_desc_ptr = cot_desc).
Implicit Types (s : tb_state P).
Context (b : Z) (lay : meminfo_t -> Prop) (W : Z -> Prop) (Hroom : room b lay W).

Record info_in (info : image_info_t) : Prop := {
  ii_size : 0 <= image_size info < 2 ^ 32;
  ii_in : forall x, image_base info <= x < image_base info + image_size info -> W x
}.
Definition out_in (o : load_out) : Prop := lay (lo_layout o) /\ info_in (lo_info o).

Lemma load_image_v1_flags id o : within same_flags (load_image_v1 id b o).
Proof.
  pose proof (@hook_same_flags P). pose proof (@store_same_flags P).
  unfold load_image_v1, with_image, read_image, reserve_mem, choose_mem_pos, flush_dcache_range, tb_emit. frame; eauto with frame.
  by apply within_modify.
Qed.

Lemma load_image_v1_place id o s rc o' s' :
  out_in o -> load_image_v1 id b o s = Ret (rc, o') s' -> out_in o'.
Proof.
  intros Ho Hr. unfold load_image_v1, with_image in Hr. inv_run Hr. destruct a as [[rc0 dev] spec].
  destruct (negb (rc0 =? 0)); [by injection Hr as _ <- _|]. inv_run Hr.
  destruct (negb (a.1 =? 0)); [by injection Hr as _ <- _|]. inv_run Hr. inv_run Hr. inv_run Hr. inv_run Hr.
  injection Hr as -> _. destruct (negb (a0.1 =? 0) || (u64 a0.2 =? 0)) eqn:Ez; [by injection Hr3 as _ <- _|].
  apply orb_false_iff in Ez as [_ Hn%Z.eqb_neq]. pose proof (u64_range a0.2) as Hr64.
  assert (Hsz : sized (u64 a0.2)) by (apply hook_run in Hr2 as [Hsz _]; by do 4 eexists). set (n := u64 a0.2) in *.
  rename Hr3 into Hk. destruct (is_mem_free _ _ b n) eqn:Ef; cbn [negb] in Hk; [|by injection Hk as _ <- _].
  apply bind_ret_inv in Hk as (rd & t1 & _ & Hk). destruct (negb (rd.1 =? 0) || (rd.2 <? n)); [by injection Hk as _ <- _|].
  apply bind_ret_inv in Hk as (o1 & t2 & Ho1 & Hk). apply bind_ret_inv in Hk as (u & t3 & _ & Hk). injection Hk as _ <- _.
  destruct Ho as [Hlay Hinfo].
  assert (Hnew : info_in (ImageInfo b (u32 n) (image_max_size (lo_info o)))).
  { pose proof (u32_range n). assert (u32 n <= n) by (apply Z.mod_le; lia). split; cbn; [lia|]. intros x Hx. eapply (rm_fit _ _ _ Hroom _ n); [done|lia|done|done|lia]. }
  destruct (lo_pc o); [|injection Ho1 as <- _; by split].
  apply bind_ret_inv in Ho1 as (f & t4 & Hf & Ho1). injection Ho1 as <- _. split; [|done]. cbn. eapply (rm_reserve _ _ _ Hroom _ n); [done|lia|done|exact Hf].
Qed.

(** ** Authentication after the load *)

Lemma load_then_auth_v1_place id o p s rc o' s' :
  out_in o -> load_then_auth_v1 id b o p s = Ret (rc, o') s' -> out_in o'.
Proof.
  intros Ho Hr. unfold load_then_auth_v1 in Hr. inv_run Hr. destruct a as [rc0 o1].
  pose proof (load_image_v1_place _ _ _ _ _ _ Ho Hr0) as Ho1. cbn in Hr. destruct (negb (rc0 =? 0)); [by injection Hr as _ <- _|].
  inv_run Hr. destruct (negb (a =? 0)); [by injection Hr as _ <- _|]. inv_run Hr. by injection Hr as _ <- _.
Qed.

Lemma load_then_auth_v1_ok id o p s o' s' :
  TRUSTED_BOARD_BOOT = true -> listed id = true -> load_then_auth_v1 id b o p s = Ret (0, o') s' ->
  flagged s' id /\ (forall j, flagged s j -> flagged s' j) /\
  (raw_image id = true -> digest_matches (tb_mem s') id (image_base (lo_info o')) (image_size (lo_info o'))).
Proof.
  intros Ht Hl Hr. unfold load_then_auth_v1 in Hr. inv_run Hr. destruct a as [rc0 o1].
  cbn in Hr.
  assert (Hfl : same_flags s s0) by (eapply within_run, Hr0; apply load_image_v1_flags).
  destruct (Z.eqb_spec rc0 0) as [->|]; cbn [negb] in Hr; [|by injection Hr]. rename Hr into Hk.
  apply bind_ret_inv in Hk as (rc1 & s2 & Hv & Hk). destruct (Z.eqb_spec rc1 0) as [->|]; cbn [negb] in Hk; [|by injection Hk].
  apply bind_ret_inv in Hk as (u & s3 & Hfs3 & Hk). injection Hk as <- <-.
  assert (Hmem : tb_mem s3 = tb_mem s2 /\ auth_img_flags s3 = auth_img_flags s2).
  { unfold when in Hfs3. destruct (_ && _); [|by injection Hfs3 as _ <-]. unfold flush_dcache_range, tb_emit, modify in Hfs3.
    by injection Hfs3 as _ <-. }
  destruct Hmem as [Hm Hflags]. unfold auth_loaded in Hv. rewrite Ht in Hv. apply bind_ret_inv in Hv as (rc & s4 & Hv & Hk).
  destruct (Z.eqb_spec rc 0) as [->|].
  2: { do 2 (apply bind_ret_inv in Hk as (? & ? & _ & Hk)). by injection Hk. }
  injection Hk as ->. pose proof (verify_img_sound _ _ _ _ _ Hv) as (d & Hd & _ & Hf & Hkeep & _). rewrite Hcot in Hd.
  destruct (entry_facts id d Hd Hl) as (Hid & _). rewrite Hid in Hf. unfold flagged in *. rewrite Hm, Hflags.
  split_and!; [done| |intros Hraw; by eapply raw_verified]. intros j Hj. apply Hkeep. by rewrite Hfl.
Qed.

Lemma load_internal_v1_place fuel id o p s rc o' s' :
  out_in o -> load_auth_image_internal_v1 fuel id b o p s = Ret (rc, o') s' -> out_in o'.
Proof.
  revert id o p s rc o' s'. induction fuel as [|fuel IH]; intros id o p s rc o' s' Ho Hr; [done|]. cbn in Hr.
  destruct TRUSTED_BOARD_BOOT; [|by eapply load_then_auth_v1_place]. inv_run Hr.
  destruct (a.1 =? 0); [|by eapply load_then_auth_v1_place]. inv_run Hr. destruct a0 as [rc0 o1]. cbn in Hr.
  assert (Ho1 : out_in o1) by (eapply IH, Hr1; by destruct Ho).
  destruct (negb (rc0 =? 0)); [injection Hr as _ <- _; by destruct Ho1|].
  eapply load_then_auth_v1_place, Hr. by destruct Ho1.
Qed.

Lemma load_internal_v1_ok fuel id o p s o' s' :
  TRUSTED_BOARD_BOOT = true -> listed id = true ->
  load_auth_image_internal_v1 fuel id b o p s = Ret (0, o') s' ->
  flagged s' id /\ (forall j, flagged s j -> flagged s' j) /\
  (exists d, arr_get cot_desc id = Some d /\ parent_flagged d s') /\
  (raw_image id = true -> digest_matches (tb_mem s') id (image_base (lo_info o')) (image_size (lo_info o'))).
Proof.
  intros Ht. revert id o p s o' s'. induction fuel as [|fuel IH]; intros id o p s o' s' Hl Hr; [done|]. cbn in Hr.
  rewrite Ht in Hr. inv_run Hr. destruct (get_parent_id_run Hcot id s a s0 Hl Hr0) as (-> & d & Hd & H0 & H1).
  destruct (Z.eqb_spec a.1 0) as [Ha|Ha].
  - destruct (H0 Ha) as (Hp & Hlp & _). inv_run Hr. destruct a0 as [rc o1]. cbn in Hr.
    destruct (Z.eqb_spec rc 0) as [->|Hne]; cbn in Hr; [|by injection Hr].
    destruct (IH _ _ _ _ _ _ Hlp Hr1) as (Hfp & Hk & _).
    destruct (load_then_auth_v1_ok _ _ _ _ _ _ Ht Hl Hr) as (Hf & Hk' & Hdig).
    split_and!; [done|by auto| |done]. exists d. split; [done|]. intros q Hq. rewrite Hp in Hq. injection Hq as <-. by auto.
  - destruct (load_then_auth_v1_ok _ _ _ _ _ _ Ht Hl Hr) as (Hf & Hk' & Hdig).
    split_and!; [done|done| |done]. exists d. split; [done|]. intros q Hq. by auto.
Qed.

Lemma load_auth_v1_ok tries fuel id o s o' s' :
  TRUSTED_BOARD_BOOT = true -> raw_image id = true ->
  load_auth_image_v1 tries fuel id b o s = Ret (0, o') s' -> authentic s' id (lo_info o').
Proof.
  intros Ht Hraw. revert o s. induction tries as [|tries IH]; intros o s Hr; [done|]. cbn in Hr. inv_run Hr.
  destruct a as [rc o1]. cbn in Hr. destruct (Z.eqb_spec rc 0) as [->|Hne].
  - injection Hr as <- <-. destruct (load_internal_v1_ok _ _ _ _ _ _ _ Ht (raw_listed id Hraw) Hr0) as (Hf & _ & Hd & Hdig). split_and!; auto.
  - inv_run Hr. destruct (truthy a); [|by injection Hr]. by eapply IH.
Qed.

(** ** What is written *)
(** The storage delivers what it was asked for, or reports an error; a file
    has a size. *)
Record storage_ok : Prop := {
  so_len : forall h a n p r p', 0 <= n -> io_read h a n p = Ret r p' -> Z.of_nat (length r.2) <= n;
  so_read : forall h a n p r p', 0 <= n -> io_read h a n p = Ret r p' -> r.1 = 0 -> n <= Z.of_nat (length r.2);
  so_size : forall h p r p', io_size h p = Ret r p' -> r.1 = 0 -> u64 r.2 <> 0
}.
Context (Hstore : storage_ok) (Ht : TRUSTED_BOARD_BOOT = true) (F : Z -> Prop).

Lemma reserve_same fb fs a n s f s' : reserve_mem fb fs a n s = Ret f s' -> s' = s.
Proof.
  intros Hr. unfold reserve_mem in Hr. apply bind_ret_inv in Hr as (u & s1 & H1 & Hr). apply assert_run in H1 as ->. destruct (n =? 0); [by injection Hr|].
  apply bind_ret_inv in Hr as (c & s2 & Hc & Hr). unfold choose_mem_pos in Hc. do 3 (apply bind_ret_inv in Hc as (? & ? & ?%assert_run & Hc)).
  injection Hc as _ ?. injection Hr as _ ?. congruence.
Qed.

#[local] Abbreviation v1_frame := (load_frame F W).

(** The entry point is left alone or set to the address of the image. *)
Definition pc_shape (o o' : load_out) : Prop := lo_pc o' = lo_pc o \/ (is_Some (lo_pc o) /\ lo_pc o' = Some b).
#[local] Instance pc_shape_preorder : PreOrder pc_shape.
Proof. split; [by left|]. intros o1 o2 o3 [H1|[H1 H1']] [H2|[H2 H2']]; unfold pc_shape; rewrite ?H2, ?H2', ?H1, ?H1'; auto. rewrite H1 in H2. auto. Qed.
Definition loaded_at (o o' : load_out) : Prop := image_base (lo_info o') = b /\ (is_Some (lo_pc o) -> lo_pc o' = Some b).

Lemma load_image_v1_writes id o s rc o' s' : out_in o -> load_image_v1 id b o s = Ret (rc, o') s' ->
  (forall x, ~ W x -> tb_mem s' x = tb_mem s x) /\ pc_shape o o' /\ (rc = 0 -> loaded_at o o').
Proof.
  intros [Hlay _] Hr. unfold load_image_v1, with_image in Hr. inv_run Hr. destruct a as [[rc0 dev] spec]. apply hook_mem in Hr0.
  assert (Hsame : forall t : tb_state P, tb_mem t = tb_mem s -> forall x, ~ W x -> tb_mem t x = tb_mem s x) by (by intros t Ht' x _; rewrite Ht').
  destruct (Z.eqb_spec rc0 0) as [->|]; cbn [negb] in Hr; [|injection Hr as <- <- <-; split_and!; [auto|by left|done]].
  inv_run Hr. apply hook_mem in Hr1. destruct (Z.eqb_spec a.1 0) as [Ha|]; cbn [negb] in Hr; [|injection Hr as <- <- <-; split_and!; [apply Hsame; congruence|by left|done]].
  inv_run Hr. pose proof (hook_mem _ _ _ _ Hr2) as Hm2. inv_run Hr. inv_run Hr. apply hook_mem in Hr4. inv_run Hr. apply hook_mem in Hr5. injection Hr as -> <-.
  apply hook_run in Hr2 as [Hsize _]. cut ((forall x, ~ W x -> tb_mem s3 x = tb_mem s2 x) /\ pc_shape o o' /\ (rc = 0 -> loaded_at o o')).
  { intros (Hf & Hp & Hl). split_and!; [|done|done]. intros x Hx. rewrite Hr5, Hr4, (Hf x Hx). congruence. }
  destruct (Z.eqb_spec a0.1 0) as [Hz|]; cbn [negb orb] in Hr3; [|injection Hr3 as <- <- <-; split_and!; [done|by left|done]].
  pose proof (so_size Hstore _ _ _ _ Hsize Hz) as Hn. pose proof (u64_range a0.2) as Hr64. assert (Hsz : sized (u64 a0.2)) by (by do 4 eexists).
  rewrite (proj2 (Z.eqb_neq _ _) Hn) in Hr3. set (n := u64 a0.2) in *.
  destruct (is_mem_free _ _ b n) eqn:Ef; cbn [negb] in Hr3; [|injection Hr3 as <- <- <-; split_and!; [done|by left|done]].
  apply bind_ret_inv in Hr3 as (rd & t1 & Hrd & Hk). unfold read_image in Hrd. apply bind_ret_inv in Hrd as (got & t2 & Hgot & Hrd).
  pose proof (hook_mem _ _ _ _ Hgot) as Hgm. apply hook_run in Hgot as [Hgot _]. apply bind_ret_inv in Hrd as (u & t3 & Hst & Hrd).
  injection Hst as <- <-. injection Hrd as <- <-. cbn [fst snd] in Hk. pose proof (so_len Hstore _ _ n _ _ _ ltac:(lia) Hgot) as Hlen.
  assert (Hfr : forall x, ~ W x -> write_bytes (tb_mem t2) b got.2 x = tb_mem s2 x).
  { intros x Hx. rewrite write_outside; [by rewrite Hgm|]. intros Hin. apply Hx. eapply (rm_fit _ _ _ Hroom _ n); [done|lia|done|done|lia]. }
  destruct (Z.eqb_spec got.1 0) as [Hz2|Hz2]; cbn [negb orb] in Hk; [|injection Hk as <- <- <-; split_and!; [done|by left|done]].
  rewrite (proj2 (Z.ltb_ge _ _) (so_read Hstore _ _ n _ _ _ ltac:(lia) Hgot Hz2)) in Hk.
  apply bind_ret_inv in Hk as (o1 & t4 & Ho1 & Hk). apply bind_ret_inv in Hk as (u & t5 & Hfl & Hk). injection Hk as <- <- <-.
  assert (Hm5 : tb_mem t5 = tb_mem t4) by (unfold when in Hfl; destruct (negb _); by injection Hfl as <- <-).
  assert (H1 : tb_mem t4 = write_bytes (tb_mem t2) b got.2 /\ pc_shape o o1 /\ loaded_at o o1).
  { unfold loaded_at, pc_shape. destruct (lo_pc o); [|injection Ho1 as <- <-; cbn; split_and!; [done|by left|done|by intros []]].
    apply bind_ret_inv in Ho1 as (f & t6 & Hf & Ho1). injection Ho1 as <- <-. cbn. apply reserve_same in Hf as ->. split_and!; [done|right; by split|done|done]. }
  destruct H1 as (Hm4 & Hp & Hl). split_and!; [|done|done]. intros x Hx. rewrite Hm5, Hm4. exact (Hfr x Hx).
Qed.

Lemma auth_loaded_writes id info s rc s' : boot_id id = true -> fresh F id -> info_in info -> auth_loaded id info s = Ret rc s' -> v1_frame s s'.
Proof.
  intros Hb Hfr [Hsz Hin] Hr. unfold auth_loaded in Hr. rewrite Ht in Hr.
  apply bind_ret_inv in Hr as (a & s1 & Hv & Hr). apply (verify_frame Hcot F W) in Hv; [|done|done]. transitivity s1; [done|].
  destruct (a =? 0); [injection Hr as <- <-; done|].
  apply bind_ret_inv in Hr as (u & s2 & Hz & Hr). injection Hz as <- <-. apply bind_ret_inv in Hr as (u & s3 & Hfl & Hr).
  injection Hfl as <- <-. injection Hr as <- <-. apply load_frame_same; [done|]. intros x Hx. cbn. apply zero_outside. intros Hbx. by apply Hx, Hin.
Qed.

Lemma load_then_auth_v1_writes id o q s rc o' s' : boot_id id = true -> fresh F id -> out_in o -> load_then_auth_v1 id b o q s = Ret (rc, o') s' ->
  v1_frame s s' /\ pc_shape o o' /\ (rc = 0 -> loaded_at o o').
Proof.
  intros Hb Hfr Ho Hr. unfold load_then_auth_v1 in Hr. apply bind_ret_inv in Hr as ([rc0 o1] & s1 & Hl & Hr).
  destruct (load_image_v1_place _ _ _ _ _ _ Ho Hl) as [_ Hi].
  assert (Hf : v1_frame s s1).
  { apply load_frame_same; [|by eapply load_image_v1_writes]. eapply (within_run same_flags), Hl. apply load_image_v1_flags. }
  apply load_image_v1_writes in Hl as (_ & Hp & Hld); [|done]. cbn [fst snd] in Hr.
  destruct (Z.eqb_spec rc0 0) as [->|]; cbn [negb] in Hr; [|by injection Hr as <- <- <-].
  apply bind_ret_inv in Hr as (rc1 & s2 & Ha & Hr). apply auth_loaded_writes in Ha; [|done..].
  destruct (Z.eqb_spec rc1 0) as [->|]; cbn [negb] in Hr; [|injection Hr as <- <- <-; split_and!; [by transitivity s1|done|done]].
  apply bind_ret_inv in Hr as (u & s3 & Hfl & Hr). injection Hr as <- <- <-. split_and!; [|done|by auto].
  transitivity s1; [done|]. transitivity s2; [done|]. unfold when in Hfl. destruct (_ && _); by injection Hfl as <- <-.
Qed.

Lemma load_internal_v1_writes fuel id o q s rc o' s' : boot_id id = true -> fresh F id -> (forall j, F j -> flagged s j) -> out_in o ->
  load_auth_image_internal_v1 fuel id b o q s = Ret (rc, o') s' ->
  v1_frame s s' /\ pc_shape o o' /\ (rc = 0 -> loaded_at o o').
Proof.
  revert id o q s rc o' s'. induction fuel as [|fuel IH]; intros id o q s rc o' s' Hb Hfr HF Ho Hr; [done|]. cbn in Hr.
  rewrite Ht in Hr. apply bind_ret_inv in Hr as (a & s1 & Hp & Hr).
  destruct (get_parent_id_run Hcot id s a s1 (boot_listed id Hb) Hp) as (-> & d & Hd & H0 & _).
  destruct (Z.eqb_spec a.1 0) as [Ha|]; [|by eapply load_then_auth_v1_writes]. destruct (H0 Ha) as (Hpar' & _ & Hnf).
  apply bind_ret_inv in Hr as ([rc0 o1] & s2 & Hi & Hr). pose proof Hi as Hi0. apply load_internal_v1_place in Hi0; [|by destruct Ho].
  apply IH in Hi as (Hf & _ & _); [|by eapply boot_parent|right; by auto|done|by destruct Ho]. cbn [fst snd] in Hr.
  destruct (Z.eqb_spec rc0 0) as [->|]; cbn [negb] in Hr; [|injection Hr as <- <- <-; split_and!; [done|by left|done]].
  apply load_then_auth_v1_writes in Hr as (Hf2 & Hsh & Hld); [|done|done|by destruct Hi0]. split_and!; [by transitivity s2|done|done].
Qed.

Lemma load_auth_v1_writes tries fuel id o s rc o' s' : boot_id id = true -> fresh F id -> (forall j, F j -> flagged s j) -> out_in o ->
  load_auth_image_v1 tries fuel id b o s = Ret (rc, o') s' ->
  out_in o' /\ v1_frame s s' /\ pc_shape o o' /\ (rc = 0 -> loaded_at o o').
Proof.
  intros Hb Hfr. revert o s. induction tries as [|tries IH]; intros o s HF Ho Hr; [done|]. cbn in Hr.
  apply bind_ret_inv in Hr as ([rc0 o1] & s1 & Hi & Hr). pose proof (load_internal_v1_place _ _ _ _ _ _ _ _ Ho Hi) as Ho1.
  apply load_internal_v1_writes in Hi as (Hf & Hp & Hld); [|done..]. cbn [fst snd] in Hr. destruct (rc0 =? 0); [by injection Hr as <- <- <-|].
  apply bind_ret_inv in Hr as (again & s2 & Hh & Hr).
  assert (Hf2 : v1_frame s s2).
  { transitivity s1; [done|]. apply load_frame_same; [eapply (within_run same_flags), Hh; apply hook_same_flags|].
    apply hook_mem in Hh. intros x _. by rewrite Hh. }
  destruct (truthy again); [|by injection Hr as <- <- <-].
  apply IH in Hr as (Ho' & Hf3 & Hp3 & Hld3); [|intros j Hj; by apply (lf_flags _ _ _ _ Hf2), HF|done]. split_and!; [done|by transitivity s2|by transitivity o1|].
  intros Hz. destruct (Hld3 Hz) as [Hbb Hpc]. split; [done|]. intros Hsome. apply Hpc. destruct Hp as [-> | [_ ->]]; [done|by eexists].
Qed.
End v1.
