(* ===== verification/IoLemmas.v ===== *)
(** * I/O storage: the pool of entities and the memory-mapped driver

    [io_at es f mm m]: the entities [es] are open, in this order, and the
    files, the backend and the storage are as given.  Every operation on the
    newest entity is described by what it does to these. *)
From stdpp Require Import base list numbers option strings sets.
From Stdlib Require Import ZArith Lia.
From S2P Require Import Prelude TbbDefs TbbLemmas IoStorage IoDrivers.
#[local] Open Scope Z_scope.

Lemma find_index_app x l1 l2 i : x ∉ l1 -> find_index x (l1 ++ x :: l2) i = Some (i + Z.of_nat (length l1)).
Proof.
  revert i. induction l1 as [|y l1 IH]; intros i Hx; cbn.
  - rewrite Z.eqb_refl. f_equal. lia.
  - destruct (Z.eqb_spec y x) as [->|]; [set_solver|]. rewrite IH by set_solver. f_equal. lia.
Qed.

Section lemmas.
Context `{!IoEnv} (Hmax : 0 < MAX_IO_HANDLES < 2 ^ 32).
Implicit Types (s : io_state) (es : list io_entity_t).

(** The map of used entities when the first [k] are in use. *)
Definition map_of (k : nat) : list Z := seqZ 1 (Z.of_nat k) ++ replicate (Z.to_nat MAX_IO_HANDLES - k) 0.

Record io_at es (f : fip_file_t) (bk : Z * Z) (mm : memmap_file_t) (m : memory) s : Prop := {
  at_entities : take (length es) (entity_pool s) = es;
  at_pool : length (entity_pool s) = Z.to_nat MAX_IO_HANDLES;
  at_map : entity_map s = map_of (length es);
  at_count : entity_count s = Z.of_nat (length es);
  at_fip : fip_current s = f;
  at_backend : (backend_dev_handle s, backend_image_spec s) = bk;
  at_memmap : memmap_current s = mm;
  at_mem : io_mem s = m;
  at_handles : fip_dev_handle s = fip_dev_info /\ memmap_dev_handle s = memmap_dev_info
}.

Lemma at_length es f bk mm m s : io_at es f bk mm m s -> (length es <= Z.to_nat MAX_IO_HANDLES)%nat.
Proof. intros [He Hp _ _ _ _ _ _ _]. rewrite <- He, length_take. lia. Qed.

Lemma wp_io_assert b Q E s : b = true -> Q tt s -> wp (io_assert b) Q E s.
Proof. intros -> HQ. unfold io_assert. rewrite andb_false_r. by apply wp_ret. Qed.

(** ** The pool *)
Lemma map_of_split k : (k < Z.to_nat MAX_IO_HANDLES)%nat ->
  map_of k = seqZ 1 (Z.of_nat k) ++ 0 :: replicate (Z.to_nat MAX_IO_HANDLES - S k) 0.
Proof. intros Hk. unfold map_of. by replace (Z.to_nat MAX_IO_HANDLES - k)%nat with (S (Z.to_nat MAX_IO_HANDLES - S k)) by lia. Qed.

Lemma map_of_succ k : map_of (S k) = seqZ 1 (Z.of_nat k) ++ (Z.of_nat k + 1) :: replicate (Z.to_nat MAX_IO_HANDLES - S k) 0.
Proof.
  unfold map_of. replace (Z.of_nat (S k)) with (Z.of_nat k + 1) by lia. rewrite seqZ_app by lia.
  rewrite <- app_assoc. f_equal. rewrite (Z.add_comm 1). done.
Qed.

Lemma length_map_of k : (k <= Z.to_nat MAX_IO_HANDLES)%nat -> length (map_of k) = Z.to_nat MAX_IO_HANDLES.
Proof. intros Hk. unfold map_of. rewrite length_app, length_seqZ, length_replicate. lia. Qed.

Lemma wp_allocate es f bk mm m Q E s :
  io_at es f bk mm m s -> (length es < Z.to_nat MAX_IO_HANDLES)%nat ->
  (forall e s', io_at (es ++ [e]) f bk mm m s' -> Q (0, Z.of_nat (length es) + 1) s') -> wp allocate_entity Q E s.
Proof.
  intros [He Hp Hm Hc Hf Hb Hmm Hmem Hh] Hlt HQ. unfold allocate_entity. wp_steps. rewrite Hc.
  destruct (Z.ltb_spec (Z.of_nat (length es)) MAX_IO_HANDLES); [|lia]. unfold find_first_entity. wp_steps.
  assert (Hnin : 0 ∉ seqZ 1 (Z.of_nat (length es))) by (rewrite elem_of_seqZ; lia).
  assert (Hfind : find_index 0 (entity_map s) 0 = Some (Z.of_nat (length es))).
  { rewrite Hm, map_of_split by done. rewrite find_index_app by done. rewrite length_seqZ. f_equal. lia. }
  rewrite Hfind. cbn [default from_option]. unfold id. rewrite decide_True by done. apply wp_io_assert; [done|]. wp_steps.
  rewrite arr_set_in_range by (rewrite Hm, length_map_of by lia; lia). wp_steps.
  destruct (lookup_lt_is_Some_2 (entity_pool s) (length es)) as [e Hl]; [lia|]. apply (HQ e). split; cbn; try done.
  - by rewrite length_app, Nat.add_1_r, (take_S_r _ _ e), He.
  - rewrite length_app, Nat.add_1_r, map_of_succ, Nat2Z.id, Hm, map_of_split by done.
    rewrite insert_app_r_alt by (rewrite length_seqZ; lia). by rewrite length_seqZ, Nat2Z.id, Nat.sub_diag.
  - rewrite length_app, u32_small by (cbn; lia). cbn. lia.
Qed.

Lemma at_lookup es i e f bk mm m s :
  io_at es f bk mm m s -> es !! i = Some e -> arr_get (entity_pool s) (Z.of_nat i) = Some e.
Proof.
  intros [He _ _ _ _ _ _ _ _] Hi. unfold arr_get. destruct (Z.leb_spec 0 (Z.of_nat i)); [|lia]. rewrite Nat2Z.id.
  rewrite <- He in Hi. by apply lookup_take_Some in Hi as [Hi _].
Qed.

Lemma wp_get_entity es i e f bk mm m (Q : io_entity_t -> io_state -> Prop) E s :
  io_at es f bk mm m s -> es !! i = Some e -> Q e s -> wp (get_entity (Z.of_nat i + 1)) Q E s.
Proof.
  intros Hat Hi HQ. unfold get_entity. wp_steps. rewrite Z.add_simpl_r, (at_lookup _ _ _ _ _ _ _ _ Hat Hi). by wp_steps.
Qed.

Lemma wp_put_entity es i e' f bk mm m (Q : unit -> io_state -> Prop) E s :
  io_at es f bk mm m s -> (i < length es)%nat -> (forall s', io_at (<[i := e']> es) f bk mm m s' -> Q tt s') ->
  wp (put_entity (Z.of_nat i + 1) e') Q E s.
Proof.
  intros Hat Hi HQ. pose proof (at_length _ _ _ _ _ _ Hat) as Hlen. destruct Hat as [He Hp Hm Hc Hf Hb Hmm Hmem Hh].
  unfold put_entity. wp_steps. rewrite Z.add_simpl_r, arr_set_in_range by lia. wp_steps. apply HQ. rewrite Nat2Z.id.
  split; cbn; rewrite ?length_insert; try done. by rewrite take_insert_lt, He by lia.
Qed.

Lemma last_lookup {A} (l : list A) x : (l ++ [x]) !! length l = Some x.
Proof. by rewrite lookup_app_r, Nat.sub_diag by lia. Qed.
Lemma last_insert {A} (l : list A) x y : <[length l := y]> (l ++ [x]) = l ++ [y].
Proof. by rewrite insert_app_r_alt, Nat.sub_diag by lia. Qed.

Lemma wp_get_last es e f bk mm m (Q : io_entity_t -> io_state -> Prop) E s :
  io_at (es ++ [e]) f bk mm m s -> Q e s -> wp (get_entity (Z.of_nat (length es) + 1)) Q E s.
Proof. intros Hat HQ. eapply wp_get_entity; [exact Hat|apply last_lookup|exact HQ]. Qed.

Lemma wp_put_last es e e' f bk mm m (Q : unit -> io_state -> Prop) E s :
  io_at (es ++ [e]) f bk mm m s -> (forall s', io_at (es ++ [e']) f bk mm m s' -> Q tt s') ->
  wp (put_entity (Z.of_nat (length es) + 1) e') Q E s.
Proof.
  intros Hat HQ. eapply wp_put_entity; [exact Hat|rewrite length_app; cbn; lia|]. by rewrite last_insert.
Qed.

(** Freeing the newest entity. *)
Lemma wp_free_last es e f bk mm m (Q : Z -> io_state -> Prop) E s :
  io_at (es ++ [e]) f bk mm m s -> (forall s', io_at es f bk mm m s' -> Q 0 s') ->
  wp (free_entity (Z.of_nat (length es) + 1)) Q E s.
Proof.
  intros Hat HQ. pose proof (at_length _ _ _ _ _ _ Hat) as Hlen. destruct Hat as [He Hp Hm Hc Hf Hb Hmm Hmem Hh].
  rewrite length_app, Nat.add_1_r in *. cbn [length] in *. unfold free_entity. wp_steps. apply wp_io_assert.
  { unfold truthy. apply negb_true_iff, Z.eqb_neq. lia. }
  wp_steps. unfold find_first_entity. wp_steps.
  assert (Hnin : Z.of_nat (length es) + 1 ∉ seqZ 1 (Z.of_nat (length es))) by (rewrite elem_of_seqZ; lia).
  assert (Hfind : find_index (Z.of_nat (length es) + 1) (entity_map s) 0 = Some (Z.of_nat (length es))).
  { rewrite Hm, map_of_succ, find_index_app by done. rewrite length_seqZ. f_equal. lia. }
  rewrite Hfind. wp_steps. rewrite arr_set_in_range by (rewrite Hm, length_map_of by lia; lia). wp_steps. apply HQ.
  split; cbn; try done.
  - pose proof (f_equal (take (length es)) He) as Ht. rewrite take_take, take_app_length in Ht.
    by replace (length es `min` S (length es))%nat with (length es) in Ht by lia.
  - rewrite Nat2Z.id, Hm, map_of_succ, map_of_split by lia. rewrite insert_app_r_alt by (rewrite length_seqZ; lia).
    by rewrite length_seqZ, Nat2Z.id, Nat.sub_diag.
  - rewrite Hc, u32_small by lia. lia.
Qed.

(** ** Operations on the newest entity, whatever the device *)
Section device.
Context (T : Z -> option io_dev_funcs_t) (dev : Z) (F : io_dev_funcs_t).
Context (HT : T dev = Some F) (Hdev : is_valid_dev T dev = true).

Lemma handle_valid n : truthy (Z.of_nat n + 1) = true.
Proof. unfold truthy. apply negb_true_iff, Z.eqb_neq. lia. Qed.

Lemma wp_valid_entity es x f bk mm m (Q : unit -> io_state -> Prop) E s :
  io_at (es ++ [IoEntity dev x]) f bk mm m s -> Q tt s -> wp (assert_valid_entity T (Z.of_nat (length es) + 1)) Q E s.
Proof.
  intros Hat HQ. unfold assert_valid_entity. destruct IO_ASSERTIONS; [|by wp_steps]. wp_steps.
  apply wp_io_assert; [apply handle_valid|]. wp_steps. eapply wp_get_last; [done|]. by apply wp_io_assert.
Qed.

Lemma wp_dev_funcs (Q : io_dev_funcs_t -> io_state -> Prop) E s : Q F s -> wp (dev_funcs_of T dev) Q E s.
Proof. intros HQ. unfold dev_funcs_of. rewrite HT. by wp_steps. Qed.

(** [g] is the open function of the driver: it fails or leaves its own mark in
    the new entity. *)
Lemma wp_io_open es f bk mm m spec g (Q : Z * Z -> io_state -> Prop) E s :
  io_at es f bk mm m s -> (length es < Z.to_nat MAX_IO_HANDLES)%nat -> truthy spec = true -> f_open F = Some g ->
  (forall e s1, io_at (es ++ [e]) f bk mm m s1 ->
     wp (g dev spec (Z.of_nat (length es) + 1))
       (fun rc s2 => exists e2 f2 bk2 mm2 m2, io_at (es ++ [e2]) f2 bk2 mm2 m2 s2 /\
          if rc =? 0 then forall s3, io_at (es ++ [IoEntity dev (info e2)]) f2 bk2 mm2 m2 s3 -> Q (0, Z.of_nat (length es) + 1) s3
          else forall s3, io_at es f2 bk2 mm2 m2 s3 -> Q (rc, 0) s3) E s1) ->
  wp (io_open T dev spec) Q E s.
Proof.
  intros Hat Hlt Hspec Hg HQ. unfold io_open. wp_steps. apply wp_io_assert; [done|]. wp_steps. apply wp_io_assert; [done|]. wp_steps.
  eapply wp_allocate; [done|done|]. intros e s1 Hs1. cbn [fst snd Z.eqb]. wp_steps. apply wp_dev_funcs. wp_steps.
  rewrite Hg. apply wp_io_assert; [done|]. wp_steps. eapply wp_mono; [by eapply HQ| |done].
  cbn. intros rc s2 (e2 & f2 & bk2 & mm2 & m2 & Hs2 & Hrc). destruct (rc =? 0).
  - wp_steps. eapply wp_get_last; [done|]. wp_steps. eapply wp_put_last; [done|]. intros s3 Hs3. wp_steps. by apply Hrc.
  - wp_steps. eapply wp_free_last; [done|]. intros s3 Hs3. wp_steps. by apply Hrc.
Qed.

Lemma wp_io_close es x f bk mm m g (Q : Z -> io_state -> Prop) E s :
  io_at (es ++ [IoEntity dev x]) f bk mm m s -> f_close F = Some g ->
  wp (g (Z.of_nat (length es) + 1))
    (fun rc s2 => exists e2 f2 bk2 mm2 m2, io_at (es ++ [e2]) f2 bk2 mm2 m2 s2 /\
       forall s3, io_at es f2 bk2 mm2 m2 s3 -> Q rc s3) E s ->
  wp (io_close T (Z.of_nat (length es) + 1)) Q E s.
Proof.
  intros Hat Hg HQ. unfold io_close. wp_steps. eapply wp_valid_entity; [done|]. wp_steps. eapply wp_get_last; [done|]. wp_steps.
  apply wp_dev_funcs. wp_steps. rewrite Hg. eapply wp_mono; [exact HQ| |done]. cbn. intros rc s2 (e2 & f2 & bk2 & mm2 & m2 & Hs2 & Hrc).
  wp_steps. eapply wp_free_last; [done|]. intros s3 Hs3. wp_steps. by apply Hrc.
Qed.

Lemma wp_io_seek es x f bk mm m mode off g (Q : Z -> io_state -> Prop) E s :
  io_at (es ++ [IoEntity dev x]) f bk mm m s -> f_seek F = Some g -> is_valid_seek_mode mode = true ->
  wp (g (Z.of_nat (length es) + 1) mode off) Q E s -> wp (io_seek T (Z.of_nat (length es) + 1) mode off) Q E s.
Proof.
  intros Hat Hg Hmode HQ. unfold io_seek. wp_steps. eapply wp_valid_entity; [done|]. wp_steps. apply wp_io_assert; [done|]. wp_steps.
  eapply wp_get_last; [done|]. wp_steps. apply wp_dev_funcs. by rewrite Hg.
Qed.

Lemma wp_io_size es x f bk mm m g (Q : Z * Z -> io_state -> Prop) E s :
  io_at (es ++ [IoEntity dev x]) f bk mm m s -> f_size F = Some g ->
  wp (g (Z.of_nat (length es) + 1)) Q E s -> wp (io_size T (Z.of_nat (length es) + 1)) Q E s.
Proof.
  intros Hat Hg HQ. unfold io_size. wp_steps. eapply wp_valid_entity; [done|]. wp_steps. eapply wp_get_last; [done|].
  wp_steps. apply wp_dev_funcs. by rewrite Hg.
Qed.

Lemma wp_io_read es x f bk mm m buffer n g (Q : Z * list Z -> io_state -> Prop) E s :
  io_at (es ++ [IoEntity dev x]) f bk mm m s -> f_read F = Some g -> PLAT_ALLOW_ZERO_ADDR_COPY || truthy buffer = true ->
  wp (g (Z.of_nat (length es) + 1) buffer n) Q E s -> wp (io_read T (Z.of_nat (length es) + 1) buffer n) Q E s.
Proof.
  intros Hat Hg Hb HQ. unfold io_read. wp_steps. eapply wp_valid_entity; [done|]. wp_steps. apply wp_io_assert; [done|]. wp_steps.
  eapply wp_get_last; [done|]. wp_steps. apply wp_dev_funcs. by rewrite Hg.
Qed.
End device.

(** ** The memory-mapped driver *)
Section memmap.
Context (T : Z -> option io_dev_funcs_t) (HT : T memmap_dev_info = Some memmap_dev_funcs).
Definition mm_entity : io_entity_t := IoEntity memmap_dev_info memmap_file_ptr.

Lemma memmap_valid : is_valid_dev T memmap_dev_info = true.
Proof. unfold is_valid_dev. by rewrite HT. Qed.

Lemma wp_set_info es e x f bk mm m (Q : unit -> io_state -> Prop) E s :
  io_at (es ++ [e]) f bk mm m s -> (forall s', io_at (es ++ [IoEntity (dev_handle e) x]) f bk mm m s' -> Q tt s') ->
  wp (set_entity_info (Z.of_nat (length es) + 1) x) Q E s.
Proof. intros Hat HQ. unfold set_entity_info. wp_steps. eapply wp_get_last; [done|]. by eapply wp_put_last. Qed.

Lemma wp_set_info_at es i e x f bk mm m (Q : unit -> io_state -> Prop) E s :
  io_at es f bk mm m s -> es !! i = Some e -> (forall s', io_at (<[i := IoEntity (dev_handle e) x]> es) f bk mm m s' -> Q tt s') ->
  wp (set_entity_info (Z.of_nat i + 1) x) Q E s.
Proof.
  intros Hat Hi HQ. unfold set_entity_info. wp_steps. eapply wp_get_entity; [done|done|]. eapply wp_put_entity; [done| |done].
  by eapply lookup_lt_Some.
Qed.

Lemma at_set_memmap es f bk mm mm' m s : io_at es f bk mm m s -> io_at es f bk mm' m (set_memmap mm' s).
Proof. by intros []. Qed.
Lemma at_set_fip es f f' bk mm m s : io_at es f bk mm m s -> io_at es f' bk mm m (set_fip f' s).
Proof. by intros []. Qed.
Lemma at_set_backend es f bk d sp mm m s : io_at es f bk mm m s -> io_at es f (d, sp) mm m (set_backend d sp s).
Proof. by intros []. Qed.

Lemma wp_memmap_file es f bk mm m (Q : memmap_file_t -> io_state -> Prop) E s :
  io_at (es ++ [mm_entity]) f bk mm m s -> Q mm s -> wp (memmap_file (Z.of_nat (length es) + 1)) Q E s.
Proof.
  intros Hat HQ. unfold memmap_file. wp_steps. eapply wp_get_last; [done|]. cbn. wp_steps. by rewrite (at_memmap _ _ _ _ _ _ Hat).
Qed.

(** Opening the block of the package: the driver serves one file at a time. *)
Lemma wp_mm_open es f bk mm m (Q : Z * Z -> io_state -> Prop) E s :
  io_at es f bk mm m s -> (length es < Z.to_nat MAX_IO_HANDLES)%nat -> in_use mm = 0 ->
  (forall s', io_at (es ++ [mm_entity]) f bk (MemmapFile 1 PLAT_MARVELL_FIP_BASE 0 PLAT_MARVELL_FIP_MAX_SIZE) m s' ->
     Q (0, Z.of_nat (length es) + 1) s') ->
  wp (io_open T memmap_dev_info fip_block_spec) Q E s.
Proof.
  intros Hat Hlt Huse HQ. eapply (wp_io_open T memmap_dev_info memmap_dev_funcs HT memmap_valid); [done|done|done|done|].
  intros e s1 Hs1. unfold memmap_block_open. wp_steps. rewrite (at_memmap _ _ _ _ _ _ Hs1), Huse. cbn [Z.eqb].
  wp_steps. apply wp_io_assert; [done|]. wp_steps. apply wp_io_assert; [apply handle_valid|]. wp_steps.
  unfold block_of_spec. cbn [Z.eqb Pos.eqb fip_block_spec]. wp_steps.
  eapply wp_set_info; [by eapply at_set_memmap|]. intros s2 Hs2. wp_steps. do 5 eexists. split; [exact Hs2|]. exact HQ.
Qed.

Lemma wp_mm_seek es f bk mm m off (Q : Z -> io_state -> Prop) E s :
  io_at (es ++ [mm_entity]) f bk mm m s -> 0 <= off < mm_size mm -> mm_size mm <= 2 ^ 64 ->
  (forall s', io_at (es ++ [mm_entity]) f bk (MemmapFile (in_use mm) (mm_base mm) off (mm_size mm)) m s' -> Q 0 s') ->
  wp (io_seek T (Z.of_nat (length es) + 1) IO_SEEK_SET off) Q E s.
Proof.
  intros Hat Hoff Hsz HQ. eapply (wp_io_seek T memmap_dev_info memmap_dev_funcs HT memmap_valid); [done|done|done|].
  unfold memmap_block_seek. cbn [Z.eqb IO_SEEK_SET Pos.eqb]. wp_steps. eapply wp_memmap_file; [done|]. wp_steps.
  rewrite u64_small by lia. apply wp_io_assert.
  { apply andb_true_iff. rewrite Z.leb_le, Z.ltb_lt. lia. }
  wp_steps. apply HQ. by eapply at_set_memmap.
Qed.

Lemma wp_mm_read es f bk mm m buffer n (Q : Z * list Z -> io_state -> Prop) E s :
  io_at (es ++ [mm_entity]) f bk mm m s -> PLAT_ALLOW_ZERO_ADDR_COPY || truthy buffer = true ->
  0 <= mm_pos mm -> 0 <= n -> mm_pos mm + n <= mm_size mm -> mm_size mm < 2 ^ 64 ->
  0 <= mm_base mm -> mm_base mm + mm_pos mm < 2 ^ 64 ->
  (forall s', io_at (es ++ [mm_entity]) f bk (MemmapFile (in_use mm) (mm_base mm) (mm_pos mm + n) (mm_size mm)) m s' ->
     Q (0, read_bytes m (mm_base mm + mm_pos mm) n) s') ->
  wp (io_read T (Z.of_nat (length es) + 1) buffer n) Q E s.
Proof.
  intros Hat Hbuf Hp Hn Hfit Hsz Hb Hb2 HQ. eapply (wp_io_read T memmap_dev_info memmap_dev_funcs HT memmap_valid); [done|done|done|].
  unfold memmap_block_read. wp_steps. apply wp_io_assert; [done|]. wp_steps. eapply wp_memmap_file; [done|]. wp_steps.
  rewrite (u64_small (mm_pos mm + n)), (u64_small (mm_base mm + mm_pos mm)) by lia. apply wp_io_assert.
  { apply andb_true_iff. rewrite !Z.leb_le. lia. }
  wp_steps. rewrite (at_mem _ _ _ _ _ _ Hat). apply HQ. by eapply at_set_memmap.
Qed.

Lemma wp_mm_close es f bk mm m (Q : Z -> io_state -> Prop) E s :
  io_at (es ++ [mm_entity]) f bk mm m s -> (forall s', io_at es f bk (MemmapFile 0 0 0 0) m s' -> Q 0 s') ->
  wp (io_close T (Z.of_nat (length es) + 1)) Q E s.
Proof.
  intros Hat HQ. eapply (wp_io_close T memmap_dev_info memmap_dev_funcs HT memmap_valid); [done|done|].
  unfold memmap_block_close. wp_steps. eapply wp_set_info; [done|]. intros s1 Hs1. wp_steps. do 5 eexists.
  split; [by eapply at_set_memmap|]. exact HQ.
Qed.
End memmap.
End lemmas.
