(* ===== verification/IoBlockProps.v ===== *)
(** * The block driver gives exact byte access

    [low_level_driver] is the contract of the functions of a device
    specification: they transfer whole blocks through the bounce buffer, maybe
    fewer bytes than requested.  Against it, [block_read] and [block_write] are
    proved to move exactly the bytes of the caller and nothing else, whatever
    the position and the length and however short the transfers are. *)
From stdpp Require Import base list numbers option.
From Stdlib Require Import ZArith Lia.
From S2P Require Import Prelude TbbDefs TbbLemmas IoStorage IoLemmas IoBlock.
#[local] Open Scope Z_scope.

(** ** Arithmetic of blocks *)
Lemma lnot_pow2_u64 k : 0 <= k < 64 -> u64 (Z.lnot (2 ^ k - 1)) = Z.ldiff (Z.ones 64) (Z.ones k).
Proof.
  intros Hk. unfold u64. rewrite <- Z.land_ones by lia.
  replace (2 ^ k - 1) with (Z.ones k) by (rewrite Z.ones_equiv; lia).
  rewrite Z.land_comm. by rewrite <- Z.ldiff_land.
Qed.

Lemma block_offset_mod k x : 0 <= k < 64 -> block_offset (2 ^ k) x = x mod 2 ^ k.
Proof.
  intros Hk. unfold block_offset.
  assert (2 ^ k < 2 ^ 64) by (apply Z.pow_lt_mono_r; lia). assert (0 < 2 ^ k) by (apply Z.pow_pos_nonneg; lia).
  rewrite u64_small by lia. replace (2 ^ k - 1) with (Z.ones k) by (rewrite Z.ones_equiv; lia).
  apply Z.land_ones. lia.
Qed.

Lemma block_floor_eq k x : 0 <= k < 64 -> 0 <= x < 2 ^ 64 -> block_floor (2 ^ k) x = x - x mod 2 ^ k.
Proof.
  intros Hk Hx. unfold block_floor. rewrite lnot_pow2_u64 by done.
  replace (Z.land x _) with (Z.ldiff x (Z.ones k)).
  - rewrite Z.ldiff_ones_r, Z.shiftl_mul_pow2, Z.shiftr_div_pow2 by lia.
    pose proof (Z.div_mod x (2 ^ k) ltac:(apply Z.pow_nonzero; lia)). lia.
  - rewrite !Z.ldiff_land, Z.land_assoc. by rewrite (land_ones_small 64 x) by lia.
Qed.

(** The block that holds position [pos] of a region starting at the block
    boundary [base]. *)
Lemma block_start bs base pos : 0 < bs -> base mod bs = 0 -> (pos + base) / bs * bs = base + pos - pos mod bs.
Proof.
  intros Hbs Hb. pose proof (Z.div_mod (pos + base) bs ltac:(lia)) as H1.
  rewrite Z.add_mod, Hb, Z.add_0_r, Z.mod_mod in H1 by lia. lia.
Qed.

Lemma write_bytes_at m a bs x :
  write_bytes m a bs x =
  (if decide (a <= x < a + Z.of_nat (length bs)) then default 0 (bs !! Z.to_nat (x - a)) else m x).
Proof.
  unfold write_bytes. destruct (Z.leb_spec a x), (Z.ltb_spec x (a + Z.of_nat (length bs))), (decide _); done || lia.
Qed.

(** [memcpy], pointwise. *)
Lemma copy_bytes_at m dst src n x : 0 <= n ->
  write_bytes m dst (read_bytes m src n) x = (if decide (dst <= x < dst + n) then m (src + (x - dst)) else m x).
Proof.
  intros Hn. rewrite write_bytes_at, length_read, Z2Nat.id by done.
  destruct (decide _); [|done]. by rewrite read_lookup by lia.
Qed.

(** ** The contract of a low-level driver *)
Section contract.
Context {D : Type} (contents : D -> memory).

Record low_level_driver (sp : io_block_dev_spec_t D) : Prop := {
  ll_read : exists f, ops_read (bd_ops sp) = Some f /\
    forall lba size m d,
      0 <= lba -> 0 <= size <= spec_length (bd_buffer sp) -> size mod block_size sp = 0 ->
      exists n m' d', f lba (spec_offset (bd_buffer sp)) size (m, d) = Ret n (m', d') /\ 0 <= n <= size /\
        (forall a, contents d' a = contents d a) /\
        (forall i, 0 <= i < n -> m' (spec_offset (bd_buffer sp) + i) = contents d (lba * block_size sp + i)) /\
        (forall x, ~ (spec_offset (bd_buffer sp) <= x < spec_offset (bd_buffer sp) + size) -> m' x = m x);
  ll_write : exists f, ops_write (bd_ops sp) = Some f /\
    forall lba size m d,
      0 <= lba -> 0 <= size <= spec_length (bd_buffer sp) -> size mod block_size sp = 0 ->
      exists n d', f lba (spec_offset (bd_buffer sp)) size (m, d) = Ret n (m, d') /\ 0 <= n <= size /\
        forall a, contents d' a =
          (if decide (lba * block_size sp <= a < lba * block_size sp + n)
           then m (spec_offset (bd_buffer sp) + (a - lba * block_size sp)) else contents d a)
}.

(** The transfers are never short. *)
Definition full_transfers (sp : io_block_dev_spec_t D) : Prop :=
  (forall f lba size hw n hw', ops_read (bd_ops sp) = Some f ->
     f lba (spec_offset (bd_buffer sp)) size hw = Ret n hw' -> n = size) /\
  (forall f lba size hw n hw', ops_write (bd_ops sp) = Some f ->
     f lba (spec_offset (bd_buffer sp)) size hw = Ret n hw' -> n = size).

(** What [block_dev_open] asserts of a device specification. *)
Record wf_dev_spec (sp : io_block_dev_spec_t D) (k : Z) : Prop := {
  wf_k : 0 <= k < 64;
  wf_block : block_size sp = 2 ^ k;
  wf_buf : 0 <= spec_offset (bd_buffer sp);
  wf_len : 0 <= spec_length (bd_buffer sp);
  wf_end : spec_offset (bd_buffer sp) + spec_length (bd_buffer sp) < 2 ^ 64;
  wf_mult : spec_length (bd_buffer sp) mod 2 ^ k = 0
}.

(** An access of [length] bytes at the position of [cur] through the buffer of
    the caller at [buffer]: the region starts at a block, block numbers fit an
    [int], and the caller's buffer is not the bounce buffer. *)
Record wf_access (sp : io_block_dev_spec_t D) (k : Z) (cur : block_dev_state_t) (buffer len : Z) : Prop := {
  wa_spec : wf_dev_spec sp k;
  wa_base : 0 <= bs_base cur /\ bs_base cur mod 2 ^ k = 0;
  wa_pos : 0 <= file_pos cur;
  wa_len : 0 < len;
  wa_lba : bs_base cur + file_pos cur + len <= 2 ^ k * 2 ^ 31;
  wa_wrap : bs_base cur + file_pos cur + len + 2 * 2 ^ k < 2 ^ 64;
  wa_buffer : 0 <= buffer /\ buffer + len <= 2 ^ 64;
  wa_disjoint : buffer + len <= spec_offset (bd_buffer sp) \/
                spec_offset (bd_buffer sp) + spec_length (bd_buffer sp) <= buffer
}.
End contract.

(** A request is a whole number of blocks that fits the bounce buffer, and
    covers what is asked for unless the buffer is the limit. *)
Lemma request_size_spec {D} (sp : io_block_dev_spec_t D) k skip left :
  wf_dev_spec sp k -> 0 <= skip < 2 ^ k -> 0 < left -> skip + left + 2 ^ k < 2 ^ 64 ->
  0 <= request_size sp skip left <= spec_length (bd_buffer sp) /\ request_size sp skip left mod 2 ^ k = 0 /\
  (skip + left <= request_size sp skip left \/ request_size sp skip left = spec_length (bd_buffer sp)).
Proof.
  intros [Hk Hb Ho Hl He Hm] Hs Hleft Hw. unfold request_size. rewrite Hb.
  assert (2 ^ k < 2 ^ 64) by (apply Z.pow_lt_mono_r; lia).
  rewrite (u64_small (skip + left)) by lia.
  destruct (Z.ltb_spec (spec_length (bd_buffer sp)) (skip + left)); [lia|].
  rewrite (u64_small (2 ^ k - 1)), u64_small by lia. rewrite block_floor_eq by lia.
  set (x := skip + left + (2 ^ k - 1)).
  pose proof (Z.mod_pos_bound x (2 ^ k) ltac:(lia)) as Hx.
  assert (Hr : (x - x mod 2 ^ k) mod 2 ^ k = 0) by (rewrite Zminus_mod_idemp_r, Z.sub_diag; apply Z.mod_0_l; lia).
  assert (x - x mod 2 ^ k <= spec_length (bd_buffer sp)).
  { apply Z.mod_divide in Hm as [a Ha]; [|lia]. apply Z.mod_divide in Hr as [b Hb']; [|lia].
    rewrite Ha, Hb'. apply Z.mul_le_mono_nonneg_r; [lia|]. rewrite Ha in *. subst x. nia. }
  subst x. split_and!; lia || done || (left; lia).
Qed.

(** The bytes of the caller in a request. *)
Lemma payload_spec request skip left :
  0 <= skip <= request -> request < 2 ^ 64 -> 0 < left -> payload request skip left = Z.min (request - skip) left.
Proof.
  intros. unfold payload. rewrite u64_small by lia. destruct (Z.ltb_spec left (request - skip)); lia.
Qed.

(** ** Reading and writing *)
Section access.
Context {D : Type} (contents : D -> memory) (sp : io_block_dev_spec_t D) (k e buffer len : Z) (cur0 : block_dev_state_t).
Context (s0 : blk_state D).
Context (Hll : low_level_driver contents sp) (Hwf : wf_access sp k cur0 buffer len).
Context (He : arr_get (state_pool s0) (e - 1) = Some cur0).
#[local] Abbreviation mem s := (blk_hw s).1.
#[local] Abbreviation disk s := (contents (blk_hw s).2).
#[local] Abbreviation start := (bs_base cur0 + file_pos cur0).
#[local] Abbreviation buf := (spec_offset (bd_buffer sp)).
#[local] Abbreviation buflen := (spec_length (bd_buffer sp)).

(** After [count] bytes: only the position of the file has changed in the
    driver's own data. *)
Record moved (s : blk_state D) (count : Z) : Prop := {
  mv_pool : state_pool s = <[Z.to_nat (e - 1) := set_file_pos (file_pos cur0 + count) cur0]> (state_pool s0);
  mv_infos : dev_info_pool s = dev_info_pool s0;
  mv_count : block_dev_count s = block_dev_count s0;
  mv_ents : entity_info s = entity_info s0
}.

Lemma moved_start : moved s0 0.
Proof.
  split; [|done..]. symmetry. apply list_insert_id. pose proof (arr_get_Some_range _ _ _ He).
  unfold arr_get in He. destruct (Z.leb_spec 0 (e - 1)); [|lia]. rewrite He. f_equal. destruct cur0; unfold set_file_pos; simpl.
  f_equal. lia.
Qed.

Lemma moved_hw s count hw : moved s count -> moved (set_blk_hw hw s) count.
Proof. by intros [? ? ? ?]; split. Qed.

Lemma moved_get s count : moved s count -> get_block_state e s = Ret (set_file_pos (file_pos cur0 + count) cur0) s.
Proof.
  intros [Hp _ _ _]. unfold get_block_state. cbn. rewrite Hp, arr_get_insert_eq; [done|].
  by eapply arr_get_Some_range.
Qed.

Lemma moved_put s count n :
  moved s count ->
  exists s', put_block_state e (set_file_pos (file_pos cur0 + (count + n)) cur0) s = Ret tt s' /\
             moved s' (count + n) /\ blk_hw s' = blk_hw s.
Proof.
  intros [Hp Hi Hc Hn]. pose proof (arr_get_Some_range _ _ _ He) as Hr. unfold put_block_state. cbn.
  rewrite Hp, arr_set_in_range by (rewrite length_insert; lia). cbn. rewrite list_insert_insert_eq.
  eexists. split; [done|]. by split.
Qed.

(** The block and the offset in it of the current position. *)
Lemma position_spec count :
  0 <= count < len ->
  let cur := set_file_pos (file_pos cur0 + count) cur0 in
  let skip := block_offset (block_size sp) (file_pos cur) in
  0 <= skip < 2 ^ k /\ 0 <= current_lba sp cur /\ current_lba sp cur * block_size sp = start + count - skip /\
  0 <= request_size sp skip (len - count) <= buflen /\ request_size sp skip (len - count) mod block_size sp = 0 /\
  (skip + (len - count) <= request_size sp skip (len - count) \/ request_size sp skip (len - count) = buflen).
Proof.
  intros Hc cur skip. destruct Hwf as [Hsp [Hb Hbm] Hp Hl Hlba Hw _ _]. pose proof Hsp as [Hk Hbs _ _ _ _].
  assert (0 < 2 ^ k) by (apply Z.pow_pos_nonneg; lia).
  assert (Hs : skip = (file_pos cur0 + count) mod 2 ^ k) by (subst skip cur; rewrite Hbs; apply block_offset_mod; lia).
  pose proof (Z.mod_pos_bound (file_pos cur0 + count) (2 ^ k) ltac:(lia)) as Hsr. rewrite <- Hs in Hsr.
  assert (Hq : current_lba sp cur = (file_pos cur0 + count + bs_base cur0) / 2 ^ k).
  { unfold current_lba. simpl. rewrite Hbs, u64_small by lia. apply s32_small. split; [apply Z.div_pos; lia|].
    apply Z.div_lt_upper_bound; lia. }
  assert (skip <= file_pos cur0 + count) by (rewrite Hs; apply Z.mod_le; lia).
  pose proof (request_size_spec sp k skip (len - count) Hsp Hsr ltac:(lia) ltac:(lia)) as Hreq. rewrite Hbs.
  split_and!; try apply Hreq; try lia.
  - rewrite Hq. apply Z.div_pos; lia.
  - rewrite Hq, block_start, <- Hs by lia. lia.
Qed.

(** ** [block_read] *)
Definition read_inv (s : blk_state D) (count : Z) : Prop :=
  moved s count /\ (forall a, disk s a = disk s0 a) /\
  (forall x, ~ (buf <= x < buf + buflen) ->
     mem s x = (if decide (buffer <= x < buffer + count) then disk s0 (start + (x - buffer)) else mem s0 x)).

Lemma read_step fuel s count :
  read_inv s count -> 0 <= count < len ->
  (exists s', block_read_loop (S fuel) e buffer sp (len - count) count s = Ret None s' /\ read_inv s' count /\
              ~ (full_transfers sp /\ 0 < buflen)) \/
  (exists n s', 0 < n <= len - count /\ read_inv s' (count + n) /\
     block_read_loop (S fuel) e buffer sp (len - count) count s =
     block_read_loop fuel e buffer sp (len - count - n) (count + n) s').
Proof.
  intros (Hmv & Hd & Hm) Hc. pose proof (position_spec count Hc) as Hpos. cbv zeta in Hpos.
  set (cur := set_file_pos (file_pos cur0 + count) cur0) in *.
  set (skip := block_offset (block_size sp) (file_pos cur)) in *.
  set (rq := request_size sp skip (len - count)) in *.
  destruct Hpos as (Hskip & Hlba0 & Hlba & Hrq & Hmod & Hbig).
  destruct Hwf as [[Hk Hbs Hbo Hbl Hbe Hbm] [Hb0 _] Hp Hl _ Hw Hbuf Hdisj].
  destruct (ll_read _ _ Hll) as (f & Hf & Hfs).
  destruct (Hfs (current_lba sp cur) rq (mem s) (blk_hw s).2 Hlba0 Hrq Hmod) as (n & m' & d' & Hrun & Hn & Hd' & Hin & Hout).
  assert (Hlow : low_level (ops_read (bd_ops sp)) (current_lba sp cur) buf rq s = Ret n (set_blk_hw (m', d') s)).
  { unfold low_level. rewrite Hf. cbn. unfold zoom. rewrite (surjective_pairing (blk_hw s)), Hrun. done. }
  cbn [block_read_loop]. destruct (Z.leb_spec (len - count) 0); [lia|].
  erewrite bind_run by (by apply moved_get). fold cur skip rq. erewrite bind_run by exact Hlow.
  destruct (Z.leb_spec n skip) as [Hle|Hgt].
  - left. eexists. split; [done|]. split.
    + split; [by apply moved_hw|]. split; simpl; [intros a; by rewrite Hd', Hd|].
      intros x Hx. rewrite Hout by lia. by apply Hm.
    + intros [[Hfull _] Hpos]. specialize (Hfull f _ _ _ _ _ Hf Hrun). subst n.
      destruct Hbig as [?|Hb]; [lia|]. rewrite Hb in *.
      assert (2 ^ k <= buflen) by (apply Z.divide_pos_le; [lia|]; apply Z.mod_divide; lia). lia.
  - right. rewrite payload_spec by lia. set (nb := Z.min (n - skip) (len - count)).
    erewrite bind_run by reflexivity.
    rewrite (u64_small (file_pos cur + nb)) by (simpl; lia). subst cur. simpl.
    destruct (moved_put (set_blk_hw (write_bytes m' (u64 (buffer + count)) (read_bytes m' (u64 (buf + skip)) nb), d') s)
                count nb (moved_hw _ _ _ Hmv)) as (s' & Hput & Hmv' & Hhw).
    exists nb, s'. split; [lia|]. split.
    + split; [done|]. rewrite Hhw. simpl. split; [intros a; by rewrite Hd', Hd|].
      intros x Hx. rewrite copy_bytes_at, !u64_small by lia.
      destruct (decide (buffer + count <= x < buffer + count + nb)) as [Hxin|Hxout].
      * destruct (decide _); [|lia]. rewrite <- Z.add_assoc, Hin, Hd, Hlba by lia. f_equal. lia.
      * rewrite Hout by lia. rewrite Hm by done. destruct (decide _), (decide _); done || lia.
    + rewrite <- Z.add_assoc in *. erewrite bind_run; [|exact Hput]. f_equal; lia.
Qed.

Lemma read_loop_spec fuel s count :
  read_inv s count -> 0 <= count <= len -> len - count <= Z.of_nat fuel ->
  exists r s' c, block_read_loop fuel e buffer sp (len - count) count s = Ret r s' /\ read_inv s' c /\ 0 <= c <= len /\
    ((r = Some len /\ c = len) \/ (r = None /\ c < len /\ ~ (full_transfers sp /\ 0 < buflen))).
Proof.
  revert s count. induction fuel as [|fuel IH]; intros s count Hi Hc Hf.
  - exists (Some count), s, count. simpl. destruct (Z.leb_spec (len - count) 0); [|lia].
    split_and!; [done|done|lia|lia|]. left. split; [f_equal; lia|lia].
  - destruct (decide (count = len)) as [->|Hne].
    { exists (Some len), s, len. simpl. destruct (Z.leb_spec (len - len) 0); [|lia]. split_and!; [done|done|lia|lia|by left]. }
    destruct (read_step fuel s count Hi ltac:(lia)) as [(s' & Hrun & Hi' & Hfull)|(n & s' & Hn & Hi' & Hrun)]; rewrite Hrun.
    + exists None, s', count. split_and!; [done|done|lia|lia|]. right. split_and!; done || lia.
    + replace (len - count - n) with (len - (count + n)) by lia. apply IH; [done|lia..].
Qed.

(** ** [block_write] *)
Definition write_inv (s : blk_state D) (count : Z) : Prop :=
  moved s count /\
  (forall a, disk s a = (if decide (start <= a < start + count) then mem s0 (buffer + (a - start)) else disk s0 a)) /\
  (forall x, ~ (buf <= x < buf + buflen) -> mem s x = mem s0 x).

(** The partial blocks at the ends of a request are in the bounce buffer. *)
Lemma preserve_spec s count :
  0 <= count < len ->
  let cur := set_file_pos (file_pos cur0 + count) cur0 in
  let skip := block_offset (block_size sp) (file_pos cur) in
  exists r hw, preserve_blocks sp (current_lba sp cur) skip (len - count) s = Ret r (set_blk_hw hw s) /\
    (forall a, contents hw.2 a = disk s a) /\ (forall x, ~ (buf <= x < buf + buflen) -> hw.1 x = mem s x) /\
    match r with
    | None => ~ (full_transfers sp /\ 0 < buflen)
    | Some rq => skip <= rq <= buflen /\ rq mod block_size sp = 0 /\ (skip = 0 /\ rq = 0 -> buflen = 0) /\ (rq <= skip -> rq = 0) /\
        ((skip = 0 /\ rq <= len - count) \/ forall i, 0 <= i < rq -> hw.1 (buf + i) = disk s (current_lba sp cur * block_size sp + i))
    end.
Proof.
  intros Hc. pose proof (position_spec count Hc) as Hpos. cbv zeta in *.
  set (cur := set_file_pos (file_pos cur0 + count) cur0) in *.
  set (skip := block_offset (block_size sp) (file_pos cur)) in *.
  unfold preserve_blocks. set (rq := request_size sp skip (len - count)) in *.
  destruct Hpos as (Hskip & Hlba0 & Hlba & Hrq & Hmod & Hbig).
  destruct Hwf as [[Hk Hbs Hbo Hbl Hbe Hbm] [Hb0 _] Hp Hl _ Hw Hbuf Hdisj].
  assert (0 < 2 ^ k) by (apply Z.pow_pos_nonneg; lia).
  assert (Hbig' : 0 < buflen -> skip < rq).
  { intros Hpos. destruct Hbig as [?|Hb]; [lia|]. assert (2 ^ k <= buflen) by (apply Z.divide_pos_le; [lia|]; apply Z.mod_divide; lia). lia. }
  destruct ((0 <? skip) || _) eqn:Hpart.
  - destruct (ll_read _ _ Hll) as (f & Hf & Hfs).
    destruct (Hfs (current_lba sp cur) rq (mem s) (blk_hw s).2 Hlba0 Hrq Hmod) as (n & m' & d' & Hrun & Hn & Hd' & Hin & Hout).
    assert (Hlow : low_level (ops_read (bd_ops sp)) (current_lba sp cur) buf rq s = Ret n (set_blk_hw (m', d') s)).
    { unfold low_level. rewrite Hf. cbn. unfold zoom. rewrite (surjective_pairing (blk_hw s)), Hrun. done. }
    erewrite bind_run by exact Hlow. rewrite Hbs, block_floor_eq by lia.
    pose proof (Z.mod_pos_bound n (2 ^ k) ltac:(lia)).
    eexists _, _. split; [done|]. split; [done|]. split; [intros x Hx; apply Hout; lia|].
    destruct (Z.leb_spec (n - n mod 2 ^ k) skip) as [Hle|Hgt].
    + intros [[Hfull _] Hpos]. specialize (Hfull f _ _ _ _ _ Hf Hrun). subst n. rewrite Hbs in Hmod. specialize (Hbig' Hpos). lia.
    + split; [lia|]. rewrite Zminus_mod_idemp_r, Z.sub_diag. split; [apply Z.mod_0_l; lia|]. split; [lia|]. split; [lia|].
      right. intros i Hi. rewrite <- Hbs. apply Hin. lia.
  - apply orb_false_iff in Hpart as [Hs Hpd]. apply Z.ltb_ge in Hs. apply Z.ltb_ge in Hpd.
    exists (Some rq), (blk_hw s). split; [by destruct s|]. split; [done|]. split; [done|]. rewrite u64_small in Hpd by lia.
    split; [lia|]. split; [done|]. split; [lia|]. split; [lia|]. left. split; [lia|].
    destruct (Z.ltb_spec (len - count) (rq - skip)); lia.
Qed.

(** The bytes of the device after a transfer of [n] bytes from a bounce buffer
    that holds the caller's bytes between the preserved ones. *)
Lemma written_bytes (m1 : memory) (s : blk_state D) count lo skip rq n a :
  write_inv s count -> 0 <= count < len -> lo = start + count - skip -> 0 <= skip <= rq -> 0 <= n <= rq -> rq <= buflen ->
  (forall x, ~ (buf <= x < buf + buflen) -> m1 x = mem s x) ->
  ((skip = 0 /\ rq <= len - count) \/ forall i, 0 <= i < rq -> m1 (buf + i) = disk s (lo + i)) ->
  let nb := Z.min (rq - skip) (len - count) in
  let m2 := write_bytes m1 (buf + skip) (read_bytes m1 (buffer + count) nb) in
  (if decide (lo <= a < lo + n) then m2 (buf + (a - lo)) else disk s a) =
  (if decide (start <= a < start + (count + Z.max 0 (Z.min (n - skip) (len - count)))) then mem s0 (buffer + (a - start)) else disk s0 a).
Proof.
  intros (_ & Hd & Hm) Hc -> Hs Hn Hrq Hout Hin. cbv zeta. destruct Hwf as [_ _ _ _ _ _ _ Hdisj].
  destruct (decide (start + count - skip <= a < _)) as [Ha|Ha].
  - rewrite copy_bytes_at by lia.
    destruct (decide (buf + skip <= _ < _)) as [Hx|Hx].
    + rewrite Hout, Hm by lia. destruct (decide _); [|lia]. f_equal. lia.
    + destruct Hin as [[-> ?]|Hin]; [lia|]. rewrite Hin by lia. replace (start + count - skip + _) with a by lia.
      rewrite Hd. destruct (decide _), (decide _); done || lia.
  - rewrite Hd. destruct (decide _), (decide _); done || lia.
Qed.

Lemma write_step fuel s count :
  write_inv s count -> 0 <= count < len ->
  (exists s', block_write_loop (S fuel) e buffer sp (len - count) count s = Ret None s' /\ write_inv s' count /\
              ~ (full_transfers sp /\ 0 < buflen)) \/
  (exists n s', 0 < n <= len - count /\ write_inv s' (count + n) /\
     block_write_loop (S fuel) e buffer sp (len - count) count s =
     block_write_loop fuel e buffer sp (len - count - n) (count + n) s').
Proof.
  intros Hinv Hc. pose proof Hinv as (Hmv & Hd & Hm). pose proof (position_spec count Hc) as Hpos.
  destruct (preserve_spec s count Hc) as (r & [m1 d1] & Hpres & Hd1 & Hm1 & Hr). cbv zeta in *.
  cbn [block_write_loop]. destruct (Z.leb_spec (len - count) 0); [lia|]. erewrite bind_run by (by apply moved_get).
  erewrite bind_run by exact Hpres. simpl in Hd1, Hm1.
  set (cur := set_file_pos (file_pos cur0 + count) cur0) in *.
  set (skip := block_offset (block_size sp) (file_pos cur)) in *.
  destruct Hpos as (Hskip & Hlba0 & Hlba & _). destruct Hwf as [[Hk Hbs Hbo Hbl Hbe Hbm] [Hb0 _] Hp Hl _ Hw Hbuf Hdisj].
  destruct r as [rq|].
  2:{ left. eexists. split; [done|]. split; [|done]. split; [by apply moved_hw|]. simpl.
      split; [intros a; by rewrite Hd1, Hd|intros x Hx; by rewrite Hm1, Hm]. }
  destruct Hr as (Hrq & Hmod & Hz & Hz' & Hin). rewrite payload_spec by lia.
  erewrite bind_run by reflexivity. rewrite !u64_small by lia. simpl.
  set (m2 := write_bytes m1 (buf + skip) _).
  destruct (ll_write _ _ Hll) as (f & Hf & Hfs).
  destruct (Hfs (current_lba sp cur) rq m2 d1 Hlba0 ltac:(lia) Hmod) as (n & d' & Hrun & Hn & Hd').
  erewrite bind_run.
  2:{ unfold low_level. rewrite Hf. cbn. unfold zoom. simpl. by rewrite Hrun. }
  assert (Hdisk : forall a, contents d' a = (if decide (start <= a < start + (count + Z.max 0 (Z.min (n - skip) (len - count))))
                                     then mem s0 (buffer + (a - start)) else disk s0 a)).
  { intros a. rewrite Hd', Hd1. rewrite Hlba in *.
    apply (written_bytes m1 s count _ skip rq n a); [done|done|lia|lia|lia|lia|done|].
    destruct Hin as [?|Hin]; [by left|right]. exact Hin. }
  assert (Hmem : forall x, ~ (buf <= x < buf + buflen) -> m2 x = mem s0 x).
  { intros x Hx. subst m2. rewrite copy_bytes_at by lia. destruct (decide _); [lia|]. by rewrite Hm1, Hm. }
  destruct (Z.leb_spec n skip) as [Hle|Hgt].
  - left. eexists. split; [done|]. split.
    + split; [by repeat apply moved_hw|]. simpl. split; [|done]. intros a. rewrite Hdisk.
      rewrite Z.max_l by lia. by rewrite Z.add_0_r.
    + intros [[_ Hfull] Hpos]. specialize (Hfull f _ _ _ _ _ Hf Hrun). lia.
  - right. rewrite payload_spec by lia. set (nb := Z.min (n - skip) (len - count)) in *. subst cur. simpl.
    rewrite u64_small by lia. rewrite <- Z.add_assoc.
    destruct (moved_put (set_blk_hw (m2, d') (set_blk_hw (m2, d1) (set_blk_hw (m1, d1) s))) count nb
                ltac:(by repeat apply moved_hw)) as (s' & Hput & Hmv' & Hhw).
    exists nb, s'. split; [lia|]. split.
    + split; [done|]. rewrite Hhw. simpl. split; [|done]. intros a. rewrite Hdisk, Z.max_r by lia. done.
    + by erewrite bind_run; [|exact Hput].
Qed.

Lemma write_loop_spec fuel s count :
  write_inv s count -> 0 <= count <= len -> len - count <= Z.of_nat fuel ->
  exists r s' c, block_write_loop fuel e buffer sp (len - count) count s = Ret r s' /\ write_inv s' c /\ 0 <= c <= len /\
    ((r = Some len /\ c = len) \/ (r = None /\ c < len /\ ~ (full_transfers sp /\ 0 < buflen))).
Proof.
  revert s count. induction fuel as [|fuel IH]; intros s count Hi Hc Hf.
  - exists (Some count), s, count. simpl. destruct (Z.leb_spec (len - count) 0); [|lia].
    split_and!; [done|done|lia|lia|]. left. split; [f_equal; lia|lia].
  - destruct (decide (count = len)) as [->|Hne].
    { exists (Some len), s, len. simpl. destruct (Z.leb_spec (len - len) 0); [|lia]. split_and!; [done|done|lia|lia|by left]. }
    destruct (write_step fuel s count Hi ltac:(lia)) as [(s' & Hrun & Hi' & Hfull)|(n & s' & Hn & Hi' & Hrun)]; rewrite Hrun.
    + exists None, s', count. split_and!; [done|done|lia|lia|]. right. split_and!; done || lia.
    + replace (len - count - n) with (len - (count + n)) by lia. apply IH; [done|lia..].
Qed.
End access.

Section claims.
Context {D : Type} `{!IoEnv} (MAX_IO_BLOCK_DEVICES : Z).
Context (dev_specs : Z -> option (io_block_dev_spec_t D)) (region_specs : Z -> option io_block_spec_t).
Context (contents : D -> memory).

Lemma blk_assert_true (b : bool) (s : blk_state D) : b = true -> blk_assert b s = Ret tt s.
Proof. intros ->. unfold blk_assert. by rewrite andb_false_r. Qed.

Lemma blk_assert_inv (b : bool) (s s' : blk_state D) x : blk_assert b s = Ret x s' -> s' = s.
Proof. unfold blk_assert. destruct (IO_ASSERTIONS && _); [done|]. by intros [= _ <-]. Qed.

(** The common start of a transfer. *)
Lemma entity_ptr (s : blk_state D) entity e cur :
  arr_get (entity_info s) (entity - 1) = Some e -> arr_get (state_pool s) (e - 1) = Some cur ->
  get_entity_info entity s = Ret e s /\ get_block_state e s = Ret cur s /\ truthy e = true.
Proof.
  intros He Hc. unfold get_entity_info, get_block_state. cbn. rewrite He, Hc. split_and!; [done..|].
  apply arr_get_Some_range in Hc. unfold truthy. destruct (Z.eqb_spec e 0); [lia|done].
Qed.

(** [C30] Reading [len] bytes through the block driver, from any position and
    with any length, terminates and puts exactly the bytes of the device at
    [base + file_pos] into the caller's buffer, however short the transfers of
    the low-level driver are: on success all [len] of them, and on -EIO a
    proper prefix.  The position advances by the number of bytes copied; the
    device, the other driver data and all memory other than the bounce buffer
    and the copied bytes are unchanged.  -EIO only happens when the low-level
    driver transfers less than requested or the bounce buffer is empty. *)
Theorem block_read_exact s entity e cur sp k buffer len :
  low_level_driver contents sp ->
  arr_get (entity_info s) (entity - 1) = Some e -> arr_get (state_pool s) (e - 1) = Some cur ->
  dev_specs (bs_dev_spec cur) = Some sp -> wf_access sp k cur buffer len -> len <= bs_size cur ->
  exists r n c s', block_read dev_specs entity buffer len s = Ret (r, n) s' /\ 0 <= c <= len /\
    ((r = 0 /\ n = len /\ c = len) \/
     (r = - EIO /\ c < len /\ ~ (full_transfers sp /\ 0 < spec_length (bd_buffer sp)))) /\
    read_bytes (blk_hw s').1 buffer c = read_bytes (contents (blk_hw s).2) (bs_base cur + file_pos cur) c /\
    (forall a, contents (blk_hw s').2 a = contents (blk_hw s).2 a) /\
    (forall x, ~ (spec_offset (bd_buffer sp) <= x < spec_offset (bd_buffer sp) + spec_length (bd_buffer sp)) ->
       ~ (buffer <= x < buffer + c) -> (blk_hw s').1 x = (blk_hw s).1 x) /\
    moved e cur s s' c.
Proof.
  intros Hll Hent Hst Hsp Hwf Hsize. destruct (entity_ptr s entity e cur Hent Hst) as (He & Hc & Ht).
  destruct (ll_read _ _ Hll) as (f & Hf & _). pose proof Hwf as [_ _ _ Hl _ _ _ Hdisj].
  destruct (read_loop_spec contents sp k e buffer len cur s Hll Hwf Hst (Z.to_nat len) s 0) as (r & s' & c & Hrun & Hinv & Hcr & Hr).
  { split; [by eapply moved_start|]. split; [done|]. intros x _. destruct (decide _); [lia|done]. }
  { lia. } { lia. }
  rewrite Z.sub_0_r in Hrun. destruct Hinv as (Hmv & Hd & Hm).
  unfold block_read. erewrite bind_run by exact He. erewrite bind_run by (by apply blk_assert_true).
  erewrite bind_run by exact Hc. rewrite Hsp. erewrite bind_run by reflexivity.
  erewrite bind_run.
  2:{ apply blk_assert_true. rewrite Hf. rewrite (bool_decide_eq_true_2 _ (mk_is_Some _ _ eq_refl)), andb_true_r.
      destruct (Z.leb_spec len (bs_size cur)), (Z.ltb_spec 0 len); done || lia. }
  erewrite bind_run by exact Hrun.
  exists (match r with Some _ => 0 | None => - EIO end), (match r with Some _ => len | None => 0 end), c, s'. split.
  { destruct Hr as [[-> ->]|[-> _]]; [|done]. simpl. rewrite Z.eqb_refl. by erewrite bind_run by (by apply blk_assert_true). }
  split; [done|]. split; [destruct Hr as [[-> ->]|(-> & ? & ?)]; [left|right]; auto|]. split; [|split; [done|split; [|done]]].
  - apply list_eq. intros i. destruct (decide (Z.of_nat i < c)) as [Hi|Hi].
    + rewrite <- (Nat2Z.id i), !read_lookup by lia. f_equal. rewrite Hm by lia.
      destruct (decide _); [|lia]. f_equal. lia.
    + rewrite !lookup_ge_None_2; rewrite ?length_read; done || lia.
  - intros x Hx Hx'. rewrite Hm by done. by destruct (decide _).
Qed.

(** [C22] Writing [len] bytes through the block driver, from any position and
    with any length, terminates and changes exactly the bytes of the device it
    is asked to change, although only whole blocks are written: on success the
    [len] bytes at [base + file_pos] are the caller's and every other byte of
    the device is what it was; on -EIO that holds of a proper prefix. *)
Theorem block_write_exact s entity e cur sp k buffer len :
  low_level_driver contents sp ->
  arr_get (entity_info s) (entity - 1) = Some e -> arr_get (state_pool s) (e - 1) = Some cur ->
  dev_specs (bs_dev_spec cur) = Some sp -> wf_access sp k cur buffer len -> len <= bs_size cur ->
  exists r n c s', block_write dev_specs entity buffer len s = Ret (r, n) s' /\ 0 <= c <= len /\
    ((r = 0 /\ n = len /\ c = len) \/
     (r = - EIO /\ c < len /\ ~ (full_transfers sp /\ 0 < spec_length (bd_buffer sp)))) /\
    (forall a, contents (blk_hw s').2 a =
       write_bytes (contents (blk_hw s).2) (bs_base cur + file_pos cur) (read_bytes (blk_hw s).1 buffer c) a) /\
    (forall x, ~ (spec_offset (bd_buffer sp) <= x < spec_offset (bd_buffer sp) + spec_length (bd_buffer sp)) ->
       (blk_hw s').1 x = (blk_hw s).1 x) /\
    moved e cur s s' c.
Proof.
  intros Hll Hent Hst Hsp Hwf Hsize. destruct (entity_ptr s entity e cur Hent Hst) as (He & Hc & Ht).
  destruct (ll_read _ _ Hll) as (f & Hf & _). destruct (ll_write _ _ Hll) as (g & Hg & _). pose proof Hwf as [_ _ _ Hl _ _ _ _].
  destruct (write_loop_spec contents sp k e buffer len cur s Hll Hwf Hst (Z.to_nat len) s 0) as (r & s' & c & Hrun & Hinv & Hcr & Hr).
  { split; [by eapply moved_start|]. split; [|done]. intros a. destruct (decide _); [lia|done]. }
  { lia. } { lia. }
  rewrite Z.sub_0_r in Hrun. destruct Hinv as (Hmv & Hd & Hm).
  unfold block_write. erewrite bind_run by exact He. erewrite bind_run by (by apply blk_assert_true).
  erewrite bind_run by exact Hc. rewrite Hsp. erewrite bind_run by reflexivity.
  erewrite bind_run.
  2:{ apply blk_assert_true. rewrite Hf, Hg, !(bool_decide_eq_true_2 _ (mk_is_Some _ _ eq_refl)), !andb_true_r.
      destruct (Z.leb_spec len (bs_size cur)), (Z.ltb_spec 0 len); done || lia. }
  erewrite bind_run by exact Hrun.
  exists (match r with Some _ => 0 | None => - EIO end), (match r with Some _ => len | None => 0 end), c, s'. split.
  { destruct Hr as [[-> ->]|[-> _]]; [|done]. simpl. rewrite Z.eqb_refl. by erewrite bind_run by (by apply blk_assert_true). }
  split; [done|]. split; [destruct Hr as [[-> ->]|(-> & ? & ?)]; [left|right]; auto|]. split; [|done].
  intros a. rewrite Hd, write_bytes_at, length_read, Z2Nat.id by lia.
  destruct (decide _); [|done]. by rewrite read_lookup by lia.
Qed.

(** ** The pool of devices *)
Definition slot_ok (i : nat) (st : block_dev_state_t) (di : block_dev_info_t) : Prop :=
  (st = zero_block_dev_state /\ di = BlockDevInfo 0 0) \/
  (bs_dev_spec st <> 0 /\ di = BlockDevInfo block_dev_funcs_ptr (Z.of_nat i + 1)).

Record pool_inv (s : blk_state D) : Prop := {
  pi_states : Z.of_nat (length (state_pool s)) = MAX_IO_BLOCK_DEVICES;
  pi_infos : length (dev_info_pool s) = length (state_pool s);
  pi_slots : forall i st di, state_pool s !! i = Some st -> dev_info_pool s !! i = Some di -> slot_ok i st di;
  pi_count : block_dev_count s = Z.of_nat (length (filter (fun st => bs_dev_spec st <> 0) (state_pool s)))
}.

Lemma find_index_elem x l :
  x ∈ l -> exists j l1 l2, l = (l1 ++ x :: l2) /\ j = length l1 /\ find_index x l 0 = Some (Z.of_nat j).
Proof.
  intros (l1 & l2 & -> & Hn)%list_elem_of_split_l. exists (length l1), l1, l2. split; [done|]. split; [done|].
  rewrite find_index_app by done. f_equal; lia.
Qed.

Lemma filter_used_all l :
  Forall (fun st => bs_dev_spec st <> 0) l -> filter (fun st => bs_dev_spec st <> 0) l = l.
Proof. induction 1 as [|st l Hst _ IH]; [done|]. rewrite filter_cons_True by done. by rewrite IH. Qed.

Lemma pool_free_slot s :
  pool_inv s -> block_dev_count s < MAX_IO_BLOCK_DEVICES ->
  exists j p1 p2, state_pool s = (p1 ++ zero_block_dev_state :: p2) /\ length p1 = j /\
    find_index 0 (map bs_dev_spec (state_pool s)) 0 = Some (Z.of_nat j) /\ dev_info_pool s !! j = Some (BlockDevInfo 0 0).
Proof.
  intros [Hs Hi Hsl Hc] Hlt.
  assert (H0 : 0 ∈ map bs_dev_spec (state_pool s)).
  { destruct (decide (0 ∈ map bs_dev_spec (state_pool s))) as [|Hn]; [done|exfalso].
    assert (Hall : Forall (fun st => bs_dev_spec st <> 0) (state_pool s)).
    { apply Forall_forall. intros st Hst Hz. apply Hn, list_elem_of_In. rewrite <- Hz. by apply in_map. }
    rewrite (filter_used_all _ Hall) in Hc. lia. }
  destruct (find_index_elem _ _ H0) as (j & l1 & l2 & Hl & -> & Hf).
  apply map_eq_app in Hl as (p1 & p2' & Hp & <- & Hp2). apply map_eq_cons in Hp2 as (st & p2 & -> & Hst & _).
  rewrite length_map in *. exists (length p1), p1, p2.
  destruct (lookup_lt_is_Some_2 (dev_info_pool s) (length p1)) as [di Hdi]; [rewrite Hi, Hp, length_app; simpl; lia|].
  assert (Hlk : state_pool s !! length p1 = Some st) by (rewrite Hp; by apply list_lookup_middle).
  destruct (Hsl _ _ _ Hlk Hdi) as [[-> ->]|[Hne _]]; [|done]. done.
Qed.

(** The state with slot [j] taken by [dev_spec]. *)
Definition slot_taken (j : nat) (dev_spec : Z) (s : blk_state D) : blk_state D :=
  BlkState (<[j := BlockDevState dev_spec 0 0 0]> (state_pool s))
    (<[j := BlockDevInfo block_dev_funcs_ptr (Z.of_nat j + 1)]> (dev_info_pool s))
    (block_dev_count s + 1) (entity_info s) (blk_hw s).

Lemma pool_used_le s : pool_inv s -> 0 <= block_dev_count s <= MAX_IO_BLOCK_DEVICES.
Proof. intros [<- _ _ ->]. pose proof (length_filter (fun st => bs_dev_spec st <> 0) (state_pool s)). lia. Qed.

Lemma slot_taken_inv s j dev_spec :
  pool_inv s -> dev_spec <> 0 -> state_pool s !! j = Some zero_block_dev_state -> pool_inv (slot_taken j dev_spec s).
Proof.
  intros [Hs Hi Hsl Hc] Hnz Hj. pose proof (lookup_lt_Some _ _ _ Hj) as Hlt. split; simpl.
  - by rewrite length_insert.
  - by rewrite !length_insert.
  - intros i st di. destruct (decide (i = j)) as [->|Hij].
    + rewrite !list_lookup_insert_eq by (rewrite ?Hi; done). intros [= <-] [= <-]. by right.
    + rewrite !list_lookup_insert_ne by done. apply Hsl.
  - rewrite Hc. rewrite <- (take_drop_middle _ _ _ Hj) at 1. rewrite insert_take_drop by done.
    rewrite !list.filter_app, !length_app, !filter_cons. simpl. destruct (decide (0 <> 0)), (decide (dev_spec <> 0)); simpl; done || lia.
Qed.

Lemma get_dev_info_run j p di (s : blk_state D) : p = Z.of_nat j + 1 -> dev_info_pool s !! j = Some di -> get_dev_info p s = Ret di s.
Proof.
  intros -> Hj. unfold get_dev_info. erewrite bind_run by reflexivity. unfold arr_get.
  destruct (Z.leb_spec 0 (Z.of_nat j + 1 - 1)); [|lia]. replace (Z.to_nat _) with j by lia. by rewrite Hj.
Qed.

Lemma get_block_state_run j p st (s : blk_state D) : p = Z.of_nat j + 1 -> state_pool s !! j = Some st -> get_block_state p s = Ret st s.
Proof.
  intros -> Hj. unfold get_block_state. erewrite bind_run by reflexivity. unfold arr_get.
  destruct (Z.leb_spec 0 (Z.of_nat j + 1 - 1)); [|lia]. replace (Z.to_nat _) with j by lia. by rewrite Hj.
Qed.

Lemma put_dev_info_run j p di (s : blk_state D) :
  p = Z.of_nat j + 1 -> (j < length (dev_info_pool s))%nat ->
  put_dev_info p di s = Ret tt (set_dev_info_pool (<[j := di]> (dev_info_pool s)) s).
Proof.
  intros -> Hj. unfold put_dev_info. erewrite bind_run by reflexivity. rewrite arr_set_in_range by lia.
  erewrite bind_run by reflexivity. by replace (Z.to_nat _) with j by lia.
Qed.

Lemma put_block_state_run j p st (s : blk_state D) :
  p = Z.of_nat j + 1 -> (j < length (state_pool s))%nat ->
  put_block_state p st s = Ret tt (set_state_pool (<[j := st]> (state_pool s)) s).
Proof.
  intros -> Hj. unfold put_block_state. erewrite bind_run by reflexivity. rewrite arr_set_in_range by lia.
  erewrite bind_run by reflexivity. by replace (Z.to_nat _) with j by lia.
Qed.

Lemma block_dev_open_run s j dev_spec sp k :
  pool_inv s -> MAX_IO_BLOCK_DEVICES < 2 ^ 32 -> block_dev_count s < MAX_IO_BLOCK_DEVICES ->
  state_pool s !! j = Some zero_block_dev_state ->
  find_index 0 (map bs_dev_spec (state_pool s)) 0 = Some (Z.of_nat j) ->
  dev_specs dev_spec = Some sp -> wf_dev_spec sp k -> spec_offset (bd_buffer sp) mod 2 ^ k = 0 ->
  block_dev_open MAX_IO_BLOCK_DEVICES dev_specs dev_spec s = Ret (0, Z.of_nat j + 1) (slot_taken j dev_spec s).
Proof.
  intros Hinv Hmax Hlt Hj Hf Hsp [Hk Hb _ _ _ Hm] Hoff. pose proof (pool_used_le s Hinv) as Hle. destruct Hinv as [Hs Hi _ _].
  pose proof (lookup_lt_Some _ _ _ Hj) as Hjl.
  assert (Hp2 : is_power_of_2 (2 ^ k) = true).
  { unfold is_power_of_2. fold (block_offset (2 ^ k) (2 ^ k)). rewrite block_offset_mod, Z.mod_same by (try apply Z.pow_nonzero; lia).
    destruct (Z.eqb_spec (2 ^ k) 0) as [H0|]; [|done]. pose proof (Z.pow_pos_nonneg 2 k ltac:(lia) ltac:(lia)). lia. }
  assert (Ha : allocate_dev_info MAX_IO_BLOCK_DEVICES s =
               Ret (0, Z.of_nat j + 1) (BlkState (state_pool s) (<[j := BlockDevInfo block_dev_funcs_ptr (Z.of_nat j + 1)]> (dev_info_pool s))
                                           (block_dev_count s + 1) (entity_info s) (blk_hw s))).
  { unfold allocate_dev_info. erewrite bind_run by reflexivity.
    destruct (Z.ltb_spec (block_dev_count s) MAX_IO_BLOCK_DEVICES); [|lia].
    erewrite bind_run by (unfold find_first_block_state, gets; rewrite Hf; reflexivity). cbv zeta.
    destruct (decide (is_Some _)) as [_|Hn]; [|destruct Hn; eauto].
    erewrite bind_run by (by apply blk_assert_true).
    erewrite bind_run by (apply (put_dev_info_run j); [done|rewrite Hi; lia]).
    simpl. by rewrite u32_small by lia. }
  unfold block_dev_open. erewrite bind_run by exact Ha. cbn [fst snd Z.eqb].
  erewrite bind_run by (apply (get_dev_info_run j); [lia|apply list_lookup_insert_eq; lia]).
  erewrite bind_run by (apply (get_block_state_run j); [simpl; lia|exact Hj]).
  erewrite bind_run by (apply (put_block_state_run j); [simpl; lia|simpl; lia]).
  rewrite Hsp. erewrite bind_run by reflexivity. erewrite bind_run; [done|].
  destruct IO_ASSERTIONS; [|done]. apply blk_assert_true. rewrite Hb, Hp2, Hoff, Hm, !andb_true_r.
  apply Z.ltb_lt, Z.pow_pos_nonneg; lia.
Qed.

(** Closing the device of a slot. *)
Lemma block_dev_close_run s j dev_spec :
  pool_inv s -> MAX_IO_BLOCK_DEVICES < 2 ^ 32 -> dev_spec <> 0 -> state_pool s !! j = Some zero_block_dev_state ->
  dev_info_pool s !! j = Some (BlockDevInfo 0 0) ->
  block_dev_close (Z.of_nat j + 1) (slot_taken j dev_spec s) = Ret 0 s.
Proof.
  intros Hinv Hmax Hnz Hj Hdi. pose proof (pool_used_le s Hinv) as Hle. destruct Hinv as [Hs Hi _ Hc].
  pose proof (lookup_lt_Some _ _ _ Hj) as Hjl. unfold block_dev_close, free_dev_info.
  erewrite bind_run by (apply blk_assert_true; unfold truthy; destruct (Z.eqb_spec (Z.of_nat j + 1) 0); [lia|done]).
  erewrite bind_run by (apply (get_dev_info_run j); [lia|apply list_lookup_insert_eq; lia]).
  erewrite bind_run by (apply (get_block_state_run j); [simpl; lia|apply list_lookup_insert_eq; lia]).
  assert (Hel : dev_spec ∈ map bs_dev_spec (state_pool (slot_taken j dev_spec s))).
  { apply list_elem_of_In, in_map_iff. eexists. split; [|eapply list_elem_of_In, (list_elem_of_lookup_2 _ j), list_lookup_insert_eq; done].
    done. }
  destruct (find_index_elem _ _ Hel) as (i & _ & _ & _ & _ & Hf).
  erewrite bind_run by (unfold find_first_block_state, gets; simpl bs_dev_spec; rewrite Hf; reflexivity). cbv iota.
  erewrite bind_run by (apply (put_block_state_run j); [simpl; lia|simpl; rewrite length_insert; lia]).
  erewrite bind_run by (apply (put_dev_info_run j); [lia|simpl; rewrite length_insert; lia]).
  cbn. rewrite !list_insert_insert_eq, !list_insert_id by done. rewrite u32_small by lia.
  replace (block_dev_count s + 1 - 1) with (block_dev_count s) by lia. by destruct s.
Qed.


(** Opening a block device either fails with -ENOENT, exactly when the pool
    is full, or takes a free slot of the pool, which keeps the pool's invariant
    (a slot is all zero or holds a device, and the count is the number of
    devices), and closing it gives back the very state before. *)
Theorem block_dev_roundtrip s dev_spec sp k :
  pool_inv s -> 0 <= MAX_IO_BLOCK_DEVICES < 2 ^ 32 -> dev_spec <> 0 -> dev_specs dev_spec = Some sp -> wf_dev_spec sp k ->
  spec_offset (bd_buffer sp) mod 2 ^ k = 0 ->
  (block_dev_count s = MAX_IO_BLOCK_DEVICES /\
   block_dev_open MAX_IO_BLOCK_DEVICES dev_specs dev_spec s = Ret (- ENOENT, 0) s) \/
  (block_dev_count s < MAX_IO_BLOCK_DEVICES /\
   exists d s', block_dev_open MAX_IO_BLOCK_DEVICES dev_specs dev_spec s = Ret (0, d) s' /\ pool_inv s' /\
     arr_get (dev_info_pool s') (d - 1) = Some (BlockDevInfo block_dev_funcs_ptr d) /\
     arr_get (state_pool s') (d - 1) = Some (BlockDevState dev_spec 0 0 0) /\
     block_dev_close d s' = Ret 0 s).
Proof.
  intros Hinv Hmax Hnz Hsp Hwf Hoff. pose proof (pool_used_le s Hinv) as Hlen.
  destruct (decide (block_dev_count s = MAX_IO_BLOCK_DEVICES)) as [Heq|Hne].
  { left. split; [done|]. unfold block_dev_open. rewrite (bind_run _ _ s (- ENOMEM, 0) s); [reflexivity|].
    unfold allocate_dev_info. erewrite bind_run by reflexivity. rewrite Heq, Z.ltb_irrefl. reflexivity. }
  right. split; [lia|]. destruct (pool_free_slot s Hinv ltac:(lia)) as (j & p1 & p2 & Hp & Hj & Hf & Hdi).
  assert (Hz : state_pool s !! j = Some zero_block_dev_state) by (rewrite Hp, <- Hj; by apply list_lookup_middle).
  pose proof (lookup_lt_Some _ _ _ Hz). pose proof (lookup_lt_Some _ _ _ Hdi).
  exists (Z.of_nat j + 1), (slot_taken j dev_spec s). replace (Z.of_nat j + 1 - 1) with (Z.of_nat j) by lia. split_and!.
  - apply (block_dev_open_run s j dev_spec sp k); done || lia.
  - by apply slot_taken_inv.
  - simpl. rewrite <- (Nat2Z.id j) at 1. by rewrite arr_get_insert_eq by lia.
  - simpl. rewrite <- (Nat2Z.id j) at 1. by rewrite arr_get_insert_eq by lia.
  - apply block_dev_close_run; done || lia.
Qed.
(** ** Entities share the state of their device *)
Lemma block_open_inv dev_info spec entity (s s' : blk_state D) r :
  block_open dev_specs region_specs dev_info spec entity s = Ret r s' ->
  exists di region cur, arr_get (dev_info_pool s) (dev_info - 1) = Some di /\ region_specs spec = Some region /\
    dev_info_pool s' = dev_info_pool s /\
    arr_set (entity_info s) (entity - 1) (bi_info di) = Some (entity_info s') /\
    arr_get (state_pool s') (bi_info di - 1) = Some (BlockDevState (bs_dev_spec cur) (spec_offset region) 0 (spec_length region)).
Proof.
  unfold block_open. intros H1.
  apply bind_ret_inv in H1 as (di & s1 & Hdi & H1). apply bind_ret_inv in H1 as (e & s2 & He & H1).
  apply bind_ret_inv in H1 as (? & s3 & Ha & H1). apply bind_ret_inv in H1 as (region & s4 & Hr & H1).
  apply bind_ret_inv in H1 as (cur & s5 & Hc & H1). apply bind_ret_inv in H1 as (? & s6 & Hb & H1).
  apply bind_ret_inv in H1 as (? & s7 & Hp & H1). apply bind_ret_inv in H1 as (? & s8 & Hq & [= <- <-]).
  unfold get_dev_info, get_entity_info, get_block_state, put_block_state, put_entity_info, deref, bind, gets, modify, ret, halt_with in *.
  destruct (arr_get (dev_info_pool s) _) as [di'|] eqn:Hd1; [|done]. injection Hdi as -> <-.
  destruct (arr_get (entity_info s) _); [|done]. injection He as _ <-.
  apply blk_assert_inv in Ha as ->.
  destruct (region_specs spec) as [rg|] eqn:Hrg; [|done]. injection Hr as -> <-.
  destruct (arr_get (state_pool s) _) as [c|]; [|done]. injection Hc as -> <-.
  assert (s6 = s) as ->.
  { destruct IO_ASSERTIONS eqn:Has; [|by injection Hb]. destruct (dev_specs _); [|done]. destruct (_ =? 0); [done|].
    by apply blk_assert_inv in Hb. }
  destruct (arr_set (state_pool s) _ _) as [l|] eqn:Hset; [|done]. injection Hp as _ <-. simpl in Hq.
  destruct (arr_set (entity_info s) _ _) as [le|] eqn:Hse; [|done]. injection Hq as _ <-. simpl.
  apply arr_set_Some in Hset as [Hrange ->]. exists di, region, cur. rewrite arr_get_insert_eq by done. done.
Qed.

(** Two entities opened on one device refer to one state: the second open moves
    the first entity to the second region. *)
Lemma block_open_shares_state d spec1 spec2 e1 e2 (s s1 s2 : blk_state D) :
  block_open dev_specs region_specs d spec1 e1 s = Ret 0 s1 -> block_open dev_specs region_specs d spec2 e2 s1 = Ret 0 s2 ->
  e1 <> e2 -> forall buffer len, block_read dev_specs e1 buffer len s2 = block_read dev_specs e2 buffer len s2.
Proof.
  intros (di & _ & _ & Hd1 & _ & Hi1 & Hs1 & _)%block_open_inv (di' & _ & _ & Hd2 & _ & _ & Hs2 & _)%block_open_inv Hne buffer len.
  rewrite Hi1, Hd1 in Hd2. injection Hd2 as <-.
  apply arr_set_Some in Hs1 as [Hr1 Hs1]. apply arr_set_Some in Hs2 as [Hr2 Hs2].
  assert (Hg2 : get_entity_info e2 s2 = Ret (bi_info di) s2).
  { unfold get_entity_info. erewrite bind_run by reflexivity. rewrite Hs2, arr_get_insert_eq by done. done. }
  assert (Hg1 : get_entity_info e1 s2 = Ret (bi_info di) s2).
  { unfold get_entity_info. erewrite bind_run by reflexivity. rewrite Hs2, arr_get_insert_ne by lia.
    rewrite Hs1, arr_get_insert_eq by done. done. }
  unfold block_read. erewrite (bind_run _ _ s2 _ s2 Hg1), (bind_run _ _ s2 _ s2 Hg2). done.
Qed.
End claims.

(** ** A device with short transfers *)
Module BlockExample.
(** The bytes of the device and, per operation, how many bytes it transfers. *)
Record disk : Type := Disk { d_bytes : memory; d_limits : list Z }.
Definition limit (d : disk) (size : Z) : Z :=
  match d_limits d with [] => size | n :: _ => Z.max 0 (Z.min n size) end.
Definition disk_read (lba buf size : Z) : M (memory * disk) Z := fun hw =>
  let n := limit hw.2 size in
  Ret n (write_bytes hw.1 buf (read_bytes (d_bytes hw.2) (lba * 4) n), Disk (d_bytes hw.2) (tail (d_limits hw.2))).
Definition disk_write (lba buf size : Z) : M (memory * disk) Z := fun hw =>
  let n := limit hw.2 size in
  Ret n (hw.1, Disk (write_bytes (d_bytes hw.2) (lba * 4) (read_bytes hw.1 buf n)) (tail (d_limits hw.2))).
Definition spec : io_block_dev_spec_t disk :=
  BlockDevSpec (BlockSpec 0x1000 8) (BlockOps (Some disk_read) (Some disk_write)) 4.
Definition specs (p : Z) : option (io_block_dev_spec_t disk) := if p =? 1 then Some spec else None.

Lemma limit_range d size : 0 <= size -> 0 <= limit d size <= size.
Proof. unfold limit. destruct (d_limits d); lia. Qed.

Lemma spec_driver : low_level_driver d_bytes spec.
Proof.
  split; eexists; (split; [reflexivity|]); intros lba size m d _ Hs _; pose proof (limit_range d size ltac:(lia)) as Hl.
  - unfold disk_read. eexists _, _, _. split; [reflexivity|]. simpl. split_and!; [lia..|done| |].
    + intros i Hi. rewrite write_bytes_at, length_read, Z2Nat.id by lia. destruct (decide _); [|lia].
      replace (0x1000 + i - 0x1000) with i by lia. by rewrite read_lookup by lia.
    + intros x Hx. apply write_outside. rewrite length_read. lia.
  - unfold disk_write. eexists _, _. split; [reflexivity|]. simpl. split_and!; [lia..|].
    intros a. rewrite write_bytes_at, length_read, Z2Nat.id by lia. destruct (decide _); [|done]. by rewrite read_lookup by lia.
Qed.

Lemma spec_wf : wf_dev_spec spec 2.
Proof. split; done. Qed.

Definition cur : block_dev_state_t := BlockDevState 1 16 3 64.
Definition st : blk_state disk :=
  BlkState [cur] [BlockDevInfo 1 1] 1 [1] (fun x => x mod 7, Disk (fun a => a mod 256) [5; 8; 6; 8]).
Definition env : IoEnv :=
  {| IO_ASSERTIONS := true; MAX_IO_HANDLES := 4; MAX_IO_DEVICES := 4; PLAT_ALLOW_ZERO_ADDR_COPY := false;
     PLAT_MARVELL_FIP_BASE := 0; PLAT_MARVELL_FIP_MAX_SIZE := 0 |}.

Lemma access_ok : wf_access spec 2 cur 0x2000 10.
Proof. split; [exact spec_wf|apply (bool_decide_unpack _); vm_compute; exact I..]. Qed.

Lemma block_read_exact_witness :
  exists r n c s', block_read (H := env) specs 1 0x2000 10 st = Ret (r, n) s' /\ 0 <= c <= 10 /\
    read_bytes (blk_hw s').1 0x2000 c = read_bytes (d_bytes (blk_hw st).2) (16 + 3) c.
Proof.
  destruct (@block_read_exact disk env specs d_bytes st 1 1 cur spec 2 0x2000 10)
    as (r & n & c & s' & Hrun & Hc & _ & Hb & _); [exact spec_driver|reflexivity..|exact access_ok|vm_compute; discriminate|].
  exists r, n, c, s'. split; [exact Hrun|]. split; [exact Hc|exact Hb].
Defined.

Lemma block_write_exact_witness :
  exists r n c s', block_write (H := env) specs 1 0x2000 10 st = Ret (r, n) s' /\ 0 <= c <= 10 /\
    forall a, d_bytes (blk_hw s').2 a = write_bytes (d_bytes (blk_hw st).2) (16 + 3) (read_bytes (blk_hw st).1 0x2000 c) a.
Proof.
  destruct (@block_write_exact disk env specs d_bytes st 1 1 cur spec 2 0x2000 10)
    as (r & n & c & s' & Hrun & Hc & _ & Hb & _); [exact spec_driver|reflexivity..|exact access_ok|vm_compute; discriminate|].
  exists r, n, c, s'. split; [exact Hrun|]. split; [exact Hc|exact Hb].
Defined.

(** With these limits both transfers succeed in several short steps. *)
Example read_ten :
  match block_read (H := env) specs 1 0x2000 10 st with
  | Ret (r, n) s' => r = 0 /\ n = 10 /\ read_bytes (blk_hw s').1 0x2000 10 = [19; 20; 21; 22; 23; 24; 25; 26; 27; 28]
  | Halt _ _ => False
  end.
Proof. vm_compute. done. Qed.

Definition empty : blk_state disk :=
  BlkState [zero_block_dev_state] [BlockDevInfo 0 0] 0 [0] (fun _ => 0, Disk (fun _ => 0) []).

Lemma block_dev_roundtrip_witness :
  exists d s', block_dev_open (H := env) 1 specs 1 empty = Ret (0, d) s' /\ block_dev_close (H := env) d s' = Ret 0 empty.
Proof.
  destruct (@block_dev_roundtrip disk env 1 specs empty 1 spec 2) as [[Hc _]|(_ & d & s' & Ho & _ & _ & _ & Hcl)].
  - split; [done..| |done]. intros [|i] st di; simpl; [intros [= <-] [= <-]; by left|done].
  - lia.
  - done.
  - done.
  - exact spec_wf.
  - done.
  - vm_compute in Hc. discriminate.
  - exists d, s'. split; [exact Ho|exact Hcl].
Defined.
End BlockExample.
