(* ===== verification/FipProps.v ===== *)
(** * The FIP driver: finding and reading the files of a package

    [fip_in] says what a package in the storage looks like; on such a package
    each operation of io_fip.c, of the layer above it and of the load policy
    finds and reads the file that [toc_find] names. *)
From stdpp Require Import base list numbers option strings sets.
From Stdlib Require Import ZArith Lia.
From S2P Require Import Prelude TbbDefs TbbrCot TbbLemmas IoStorage IoDrivers IoLemmas.
#[local] Open Scope Z_scope.

(** ** The table of contents *)

(** The search: [Some (Some e)] is the entry of the file, [Some None] the end
    of the table, [None] a table without an end. *)
Fixpoint toc_find (uuid : list Z) (toc : list (list Z)) : option (option (list Z)) :=
  match toc with
  | [] => None
  | e :: rest =>
      if decide (entry_uuid e = uuid) then Some (Some e)
      else if decide (entry_uuid e = uuid_null) then Some None
      else toc_find uuid rest
  end.

Lemma field_app bs x off n : (off + n <= length bs)%nat -> field (bs ++ x) off n = field bs off n.
Proof.
  intros Hl. unfold field. rewrite drop_app_le by lia. rewrite take_app_le; [done|]. rewrite length_drop. lia.
Qed.

Section fip.
Context {ioe : IoEnv} (Hmax : 2 <= MAX_IO_HANDLES < 2 ^ 32).
Context (Hbase : 0 <= PLAT_MARVELL_FIP_BASE) (Hsize : 0 <= PLAT_MARVELL_FIP_MAX_SIZE < 2 ^ 63)
        (Hend : PLAT_MARVELL_FIP_BASE + PLAT_MARVELL_FIP_MAX_SIZE <= 2 ^ 64).
Context (toc_fuel : nat) (stack : list Z).
Abbreviation T0 := (dev_table toc_fuel stack 0).
Abbreviation T1 := (dev_table toc_fuel stack 1).
Abbreviation closed := (MemmapFile 0 0 0 0).

(** Entries one after the other in the storage. *)
Fixpoint toc_at (m : memory) (a : Z) (toc : list (list Z)) : Prop :=
  match toc with
  | [] => True
  | e :: rest => read_bytes m a TOC_ENTRY_SIZE = e /\ toc_at m (a + TOC_ENTRY_SIZE) rest
  end.

(** A package in the storage. *)
Record fip_in (m : memory) (toc : list (list Z)) : Prop := {
  fi_header : is_valid_header (read_bytes m PLAT_MARVELL_FIP_BASE TOC_HEADER_SIZE) = true;
  fi_entries : toc_at m (PLAT_MARVELL_FIP_BASE + TOC_HEADER_SIZE) toc;
  fi_fits : TOC_HEADER_SIZE + TOC_ENTRY_SIZE * Z.of_nat (length toc) <= PLAT_MARVELL_FIP_MAX_SIZE
}.

(** A closed FIP file. *)
Record fip_closed (f : fip_file_t) : Prop := {
  fc_length : length (fip_entry f) = 40%nat;
  fc_offset : entry_offset (fip_entry f) = 0
}.

Lemma valid_header_overwrite bs : length bs = 16%nat -> is_valid_header (overwrite stack bs) = is_valid_header bs.
Proof.
  intros Hl. unfold is_valid_header, header_name, header_serial, overwrite. by rewrite !field_app by lia.
Qed.

Lemma overwrite_all (old bs : list Z) : length old = length bs -> overwrite old bs = bs.
Proof. intros Hl. unfold overwrite. rewrite drop_ge by lia. apply app_nil_r. Qed.

Lemma Hpos : 0 < MAX_IO_HANDLES < 2 ^ 32.
Proof. lia. Qed.
#[local] Hint Resolve Hpos : core.

(** ** The search *)
Lemma wp_toc_loop fuel es m toc pos f bk r uuid (Q : Z * bool -> io_state -> Prop) E s :
  toc_at m (PLAT_MARVELL_FIP_BASE + pos) toc -> 0 <= pos -> pos + TOC_ENTRY_SIZE * Z.of_nat (length toc) <= PLAT_MARVELL_FIP_MAX_SIZE ->
  length (fip_entry f) = 40%nat -> (length toc <= fuel)%nat -> toc_find uuid toc = Some r ->
  io_at (es ++ [mm_entity]) f bk (MemmapFile 1 PLAT_MARVELL_FIP_BASE pos PLAT_MARVELL_FIP_MAX_SIZE) m s ->
  (forall f' mm s', io_at (es ++ [mm_entity]) f' bk mm m s' -> length (fip_entry f') = 40%nat ->
     (match r with Some e => fip_entry f' = e | None => True end) -> Q (0, bool_decide (is_Some r)) s') ->
  wp (toc_loop T0 fuel (Z.of_nat (length es) + 1) uuid) Q E s.
Proof.
  revert toc pos f s. induction fuel as [|fuel IH]; intros toc pos f s Htoc Hp Hfit Hlen Hfuel Hfind Hat HQ.
  { destruct toc; [done|cbn in Hfuel; lia]. }
  destruct toc as [|e rest]; [done|]. destruct Htoc as [Hread Hrest]. unfold TOC_ENTRY_SIZE in *. cbn [length] in Hfit, Hfuel.
  assert (Hle : length e = 40%nat) by (rewrite <- Hread, length_read; done).
  cbn [toc_loop]. wp_steps. unfold TOC_ENTRY_SIZE.
  eapply (wp_mm_read T0 eq_refl); [exact Hat|by rewrite orb_true_r|cbn; lia..|]. intros s1 Hs1. cbn [mm_base mm_pos mm_size in_use] in Hs1 |- *.
  rewrite Hread. cbn [fst snd]. wp_steps. cbn [Z.eqb]. rewrite (at_fip _ _ _ _ _ _ Hs1), overwrite_all by lia.
  wp_steps. cbn [fip_current set_fip fip_entry]. cbn [toc_find] in Hfind.
  assert (Hs2 := at_set_fip _ _ (FipFile (fip_pos f) e) _ _ _ _ Hs1).
  destruct (decide (entry_uuid e = uuid)) as [Hu|Hu].
  { wp_steps. injection Hfind as <-. by eapply HQ. }
  destruct (decide (entry_uuid e = uuid_null)) as [Hn|Hn].
  { wp_steps. injection Hfind as <-. by eapply HQ. }
  eapply (IH rest (pos + 40) (FipFile (fip_pos f) e)); [by rewrite Z.add_assoc|lia|lia|exact Hle|lia|exact Hfind|exact Hs2|exact HQ].
Qed.

(** ** The operations of the driver

    In all of them the package is read through the memory-mapped driver. *)
Abbreviation backend := (memmap_dev_info, fip_block_spec).

Lemma backend_dev es f mm m s : io_at es f backend mm m s -> backend_dev_handle s = memmap_dev_info.
Proof. intros Hat. by injection (at_backend _ _ _ _ _ _ Hat). Qed.
Lemma backend_spec es f mm m s : io_at es f backend mm m s -> backend_image_spec s = fip_block_spec.
Proof. intros Hat. by injection (at_backend _ _ _ _ _ _ Hat). Qed.

Lemma wp_fip_open es e f mm m toc spec uuid r (Q : Z -> io_state -> Prop) E s :
  fip_in m toc -> fip_closed f -> in_use mm = 0 -> (S (length es) < Z.to_nat MAX_IO_HANDLES)%nat ->
  truthy spec = true -> uuid_of_spec spec = Some uuid -> (length toc <= toc_fuel)%nat -> toc_find uuid toc = Some r ->
  io_at (es ++ [e]) f backend mm m s ->
  (forall e' f' s', io_at (es ++ [e']) f' backend closed m s' -> length (fip_entry f') = 40%nat ->
     match r with
     | Some en => f' = FipFile 0 en /\ e' = IoEntity (dev_handle e) fip_file_ptr
     | None => entry_offset (fip_entry f') = 0
     end -> Q (if decide (is_Some r) then 0 else - ENOENT) s') ->
  wp (fip_file_open T0 toc_fuel fip_dev_info spec (Z.of_nat (length es) + 1)) Q E s.
Proof.
  intros Hfip [Hlen Hoff] Huse Hroom Hspec Huuid Hfuel Hfind Hat HQ. pose proof Hfip as [_ Htoc Hfit]. unfold fip_file_open. wp_steps.
  apply wp_io_assert; [done|]. wp_steps. apply wp_io_assert; [apply handle_valid|]. wp_steps. rewrite (at_fip _ _ _ _ _ _ Hat), Hoff.
  cbn [truthy Z.eqb negb]. wp_steps. rewrite (backend_dev _ _ _ _ _ Hat), (backend_spec _ _ _ _ _ Hat).
  eapply (wp_mm_open Hpos T0 eq_refl); [exact Hat|rewrite length_app; cbn; lia|done|]. intros s1 Hs1. cbn [fst snd Z.eqb negb]. wp_steps.
  unfold TOC_HEADER_SIZE in *. eapply (wp_mm_seek T0 eq_refl); [exact Hs1|cbn; unfold TOC_ENTRY_SIZE in *; destruct toc; [done|cbn in Hfit; lia]|cbn; lia|].
  intros s2 Hs2. cbn in Hs2. cbn [Z.eqb negb]. wp_steps. rewrite Huuid. wp_steps.
  eapply wp_toc_loop; [exact Htoc|lia|exact Hfit|exact Hlen|exact Hfuel|exact Hfind|exact Hs2|].
  intros f' mm' s3 Hs3 Hlen' Hr. cbn [fst snd Z.eqb negb]. destruct r as [en|].
  - rewrite bool_decide_eq_true_2 by eauto. wp_steps. rewrite (at_fip _ _ _ _ _ _ Hs3), Hr.
    assert (Hs4 := at_set_fip _ _ (FipFile 0 en) _ _ _ _ Hs3).
    eapply (wp_set_info_at Hpos); [exact Hs4|by rewrite lookup_app_l, last_lookup by (rewrite length_app; cbn; lia)|].
    intros s5 Hs5. rewrite insert_app_l, last_insert in Hs5 by (rewrite length_app; cbn; lia). wp_steps.
    replace (length (es ++ [e])) with (length (es ++ [IoEntity (dev_handle e) fip_file_ptr])) by (by rewrite !length_app).
    eapply (wp_mm_close Hpos T0 eq_refl); [exact Hs5|]. intros s6 Hs6. wp_steps. rewrite decide_True in HQ by eauto.
    eapply HQ; [exact Hs6|by rewrite <- Hr|done].
  - rewrite bool_decide_eq_false_2 by (by intros [? ?]). wp_steps. rewrite (at_fip _ _ _ _ _ _ Hs3).
    assert (Hs4 := at_set_fip _ _ (FipFile (fip_pos f') (clear_offset (fip_entry f'))) _ _ _ _ Hs3).
    eapply (wp_mm_close Hpos T0 eq_refl); [exact Hs4|]. intros s6 Hs6. wp_steps. rewrite decide_False in HQ by (by intros [? ?]).
    eapply HQ; [exact Hs6| |]; cbn.
    + unfold clear_offset. rewrite !length_app, length_take, length_drop, length_replicate, Hlen'. done.
    + unfold entry_offset, clear_offset, field. rewrite drop_app_length' by (rewrite length_take, Hlen'; done).
      rewrite take_app_length' by done. done.
Qed.

Lemma wp_fip_close es e f mm m (Q : Z -> io_state -> Prop) E s :
  length (fip_entry f) = 40%nat -> io_at (es ++ [e]) f backend mm m s ->
  (forall f' s', io_at (es ++ [IoEntity (dev_handle e) 0]) f' backend mm m s' -> fip_closed f' -> Q 0 s') ->
  wp (fip_file_close (Z.of_nat (length es) + 1)) Q E s.
Proof.
  intros Hlen Hat HQ. unfold fip_file_close. wp_steps. rewrite (at_fip _ _ _ _ _ _ Hat). apply wp_when; intros Ho; wp_steps.
  - eapply (wp_set_info Hpos); [by eapply at_set_fip|]. intros s1 Hs1. wp_steps. by eapply HQ.
  - eapply (wp_set_info Hpos); [exact Hat|]. intros s1 Hs1. wp_steps. eapply HQ; [exact Hs1|]. split; [done|].
    by apply negb_false_iff, Z.eqb_eq in Ho.
Qed.

Lemma wp_fip_init es f bk mm m toc (Q : Z -> io_state -> Prop) E s :
  fip_in m toc -> in_use mm = 0 -> (length es < Z.to_nat MAX_IO_HANDLES)%nat -> io_at es f bk mm m s ->
  (forall s', io_at es f backend closed m s' -> Q 0 s') ->
  wp (fip_dev_init T0 (plat_get_image_source T0) stack fip_dev_info FIP_IMAGE_ID) Q E s.
Proof.
  intros [Hh _ Hfit] Huse Hroom Hat HQ. unfold fip_dev_init, plat_get_image_source. wp_steps. apply wp_io_assert; [done|]. wp_steps.
  change (arr_get (policies T0) (u32 FIP_IMAGE_ID)) with (Some (PlatIoPolicy memmap_dev_handle fip_block_spec (open_memmap T0))).
  wp_steps. cbn [check image_spec p_handle]. unfold open_memmap, open_probe. wp_steps.
  destruct (at_handles _ _ _ _ _ _ Hat) as [_ Hmh]. rewrite Hmh. unfold io_dev_init. wp_steps. apply wp_io_assert; [done|]. wp_steps.
  apply wp_io_assert; [done|]. wp_steps. unfold dev_funcs_of. cbn [dev_table memmap_dev_info Z.eqb Pos.eqb]. wp_steps.
  cbn [f_dev_init memmap_dev_funcs Z.eqb]. wp_steps. cbn [Z.eqb]. wp_steps.
  eapply (wp_mm_open Hpos T0 eq_refl); [exact Hat|done|done|]. intros s1 Hs1. cbn [fst snd Z.eqb]. wp_steps.
  eapply (wp_mm_close Hpos T0 eq_refl); [exact Hs1|]. intros s2 Hs2. wp_steps. cbn [Z.eqb]. wp_steps.
  destruct (at_handles _ _ _ _ _ _ Hs2) as [_ Hmh2]. rewrite Hmh2. cbn [Z.eqb negb]. wp_steps.
  assert (Hs3 := at_set_backend _ _ _ memmap_dev_info fip_block_spec _ _ _ Hs2).
  eapply (wp_mm_open Hpos T0 eq_refl); [exact Hs3|done|done|]. intros s4 Hs4. cbn [fst snd Z.eqb negb]. wp_steps.
  unfold TOC_HEADER_SIZE, TOC_ENTRY_SIZE in *.
  eapply (wp_mm_read T0 eq_refl); [exact Hs4|by rewrite orb_true_r|cbn; lia..|]. intros s5 Hs5. cbn [mm_base mm_pos] in *. rewrite Z.add_0_r.
  cbn [fst snd Z.eqb]. wp_steps. rewrite valid_header_overwrite by (by rewrite length_read). unfold TOC_HEADER_SIZE in Hh. rewrite Hh.
  eapply (wp_mm_close Hpos T0 eq_refl); [exact Hs5|]. intros s6 Hs6. wp_steps. by apply HQ.
Qed.

(** ** The device-independent layer on top *)
Lemma fip_table : T1 fip_dev_info = Some (fip_dev_funcs T0 (plat_get_image_source T0) toc_fuel stack).
Proof. done. Qed.
Lemma fip_valid : is_valid_dev T1 fip_dev_info = true.
Proof. done. Qed.
Abbreviation fip_entity := (IoEntity fip_dev_info fip_file_ptr).

(** Nothing is open. *)
Definition idle (m : memory) (s : io_state) : Prop :=
  exists f bk mm, io_at [] f bk mm m s /\ fip_closed f /\ in_use mm = 0.

(** The same with the package as the backend. *)
Definition ready (m : memory) (s : io_state) : Prop :=
  exists f mm, io_at [] f backend mm m s /\ fip_closed f /\ in_use mm = 0.
Lemma ready_idle m s : ready m s -> idle m s.
Proof. intros (f & mm & Hat & Hf & Hm). by exists f, backend, mm. Qed.

Lemma wp_open_file m toc spec uuid r (Q : Z * Z -> io_state -> Prop) E s :
  ready m s -> fip_in m toc -> uuid_of_spec spec = Some uuid -> (length toc <= toc_fuel)%nat -> toc_find uuid toc = Some r ->
  (match r with
   | Some en => forall s', io_at [fip_entity] (FipFile 0 en) backend closed m s' -> length en = 40%nat -> Q (0, 1) s'
   | None => forall s', ready m s' -> Q (- ENOENT, 0) s'
   end) -> wp (io_open T1 fip_dev_info spec) Q E s.
Proof.
  intros (f & mm & Hat & Hf & Huse) Hfip Huuid Hfuel Hfind HQ.
  assert (Hspec : truthy spec = true) by (unfold truthy; destruct (Z.eqb_spec spec 0) as [->|]; done).
  eapply (wp_io_open Hpos T1 fip_dev_info _ fip_table fip_valid []); [exact Hat|cbn; lia|done|reflexivity|].
  intros e s1 Hs1. eapply (wp_fip_open [] e); [done|done|done|cbn; lia|done|done|done|done|exact Hs1|].
  intros e' f' s2 Hs2 Hlen Hr. exists e', f', backend, closed, m. split; [exact Hs2|]. destruct r as [en|].
  - rewrite decide_True by eauto. destruct Hr as [-> ->]. intros s3 Hs3. by apply HQ.
  - rewrite decide_False by (by intros [? ?]). intros s3 Hs3. apply HQ. exists f', closed. split_and!; [done|by split|done].
Qed.

Lemma wp_close_file m f mm x (Q : Z -> io_state -> Prop) E s :
  io_at [IoEntity fip_dev_info x] f backend mm m s -> length (fip_entry f) = 40%nat -> in_use mm = 0 ->
  (forall s', ready m s' -> Q 0 s') -> wp (io_close T1 1) Q E s.
Proof.
  intros Hat Hlen Huse HQ. eapply (wp_io_close Hpos T1 fip_dev_info _ fip_table fip_valid []); [exact Hat|reflexivity|].
  eapply (wp_fip_close [] (IoEntity fip_dev_info x)); [exact Hlen|exact Hat|]. intros f' s1 Hs1 Hf'. do 5 eexists.
  split; [exact Hs1|]. intros s2 Hs2. apply HQ. exists f', mm. by split_and!.
Qed.

(** [open_fip] and the policy: an image is available when its UUID is in the
    package. *)
Lemma wp_open_fip m toc spec uuid r (Q : Z -> io_state -> Prop) E s :
  idle m s -> fip_in m toc -> uuid_of_spec spec = Some uuid -> (length toc <= toc_fuel)%nat -> toc_find uuid toc = Some r ->
  (forall s', ready m s' -> Q (if decide (is_Some r) then 0 else - ENOENT) s') -> wp (open_fip T1 spec) Q E s.
Proof.
  intros (f & bk & mm & Hat & Hf & Huse) Hfip Huuid Hfuel Hfind HQ. unfold open_fip, open_probe. wp_steps.
  destruct (at_handles _ _ _ _ _ _ Hat) as [Hfh _]. rewrite Hfh. unfold io_dev_init. wp_steps. apply wp_io_assert; [done|]. wp_steps.
  apply wp_io_assert; [done|]. wp_steps. unfold dev_funcs_of. rewrite fip_table. wp_steps. cbn [f_dev_init fip_dev_funcs].
  eapply (wp_fip_init []); [done|done|cbn; lia|exact Hat|]. intros s1 Hs1. cbn [Z.eqb]. wp_steps.
  assert (Hready : ready m s1) by (by exists f, closed). destruct r as [en|].
  - eapply wp_open_file; [done|done|done|done|done|]. intros s2 Hs2 Hlen. cbn [fst snd Z.eqb]. wp_steps.
    eapply wp_close_file; [exact Hs2|done|done|]. intros s3 Hs3. wp_steps. rewrite decide_True in HQ by eauto. by apply HQ.
  - eapply wp_open_file; [done|done|done|done|done|]. intros s2 Hs2. cbn [fst snd]. change (- ENOENT =? 0) with false. cbv iota. wp_steps.
    rewrite decide_False in HQ by (by intros [? ?]). by apply HQ.
Qed.

(** The specification of an image identifier in the policy table. *)
Definition spec_of_id (id : Z) : option Z :=
  if id =? BL2_IMAGE_ID then Some bl2_uuid_spec else if id =? SCP_BL2_IMAGE_ID then Some scp_bl2_uuid_spec
  else if id =? BL31_IMAGE_ID then Some bl31_uuid_spec else if id =? BL32_IMAGE_ID then Some bl32_uuid_spec
  else if id =? BL33_IMAGE_ID then Some bl33_uuid_spec else None.

Lemma policy_of_id id spec :
  spec_of_id id = Some spec ->
  id < Z.of_nat (length (policies T1)) /\ arr_get (policies T1) id = Some (PlatIoPolicy fip_dev_handle spec (open_fip T1)).
Proof.
  unfold spec_of_id. intros Hs.
  repeat match type of Hs with
         | (if _ =? ?y then _ else _) = _ => destruct (Z.eqb_spec id y) as [->|_]; [injection Hs as <-; split; [done|reflexivity]|]
         end. done.
Qed.

Lemma wp_get_source m toc id spec uuid r (Q : Z * Z * Z -> io_state -> Prop) E s :
  idle m s -> fip_in m toc -> spec_of_id id = Some spec -> uuid_of_spec spec = Some uuid -> (length toc <= toc_fuel)%nat ->
  toc_find uuid toc = Some r ->
  (forall s', ready m s' -> Q (if decide (is_Some r) then (0, fip_dev_info, spec) else (- ENOENT, 0, 0)) s') ->
  wp (plat_get_image_source T1 id) Q E s.
Proof.
  intros Hidle Hfip Hid Huuid Hfuel Hfind HQ. destruct (policy_of_id id spec Hid) as [Hlt Hpol]. unfold plat_get_image_source.
  wp_steps. apply wp_io_assert; [by apply Z.ltb_lt|]. wp_steps. rewrite Hpol. wp_steps. cbn [check image_spec p_handle].
  eapply wp_open_fip; [done|done|done|done|done|]. intros s1 Hs1. specialize (HQ s1 Hs1). destruct (decide (is_Some r)).
  - cbn [Z.eqb]. wp_steps. destruct Hs1 as (f & mm & Hat & _). destruct (at_handles _ _ _ _ _ _ Hat) as [Hfh _]. by rewrite Hfh.
  - change (- ENOENT =? 0) with false. cbv iota. unfold plat_marvell_get_alt_image_source. by wp_steps.
Qed.

(** Reading from the open file. *)
Lemma wp_size_file m en (Q : Z * Z -> io_state -> Prop) E s :
  io_at [fip_entity] (FipFile 0 en) backend closed m s -> Q (0, entry_size en) s -> wp (io_size T1 1) Q E s.
Proof.
  intros Hat HQ. eapply (wp_io_size T1 fip_dev_info _ fip_table fip_valid []); [exact Hat|reflexivity|].
  cbn [f_size fip_dev_funcs]. unfold fip_file_len, fip_file. wp_steps. eapply (wp_get_last []); [exact Hat|]. cbn. wp_steps.
  by rewrite (at_fip _ _ _ _ _ _ Hat).
Qed.

Lemma wp_read_file m en buffer n (Q : Z * list Z -> io_state -> Prop) E s :
  io_at [fip_entity] (FipFile 0 en) backend closed m s -> PLAT_ALLOW_ZERO_ADDR_COPY || truthy buffer = true ->
  0 <= entry_offset en -> 0 <= n -> entry_offset en < PLAT_MARVELL_FIP_MAX_SIZE -> entry_offset en + n <= PLAT_MARVELL_FIP_MAX_SIZE ->
  (forall f s', io_at [fip_entity] f backend closed m s' -> fip_entry f = en ->
     Q (0, read_bytes m (PLAT_MARVELL_FIP_BASE + entry_offset en) n) s') ->
  wp (io_read T1 1 buffer n) Q E s.
Proof.
  intros Hat Hbuf Ho Hn Hlt Hfit HQ. eapply (wp_io_read T1 fip_dev_info _ fip_table fip_valid []); [exact Hat|reflexivity|done|].
  cbn [f_read fip_dev_funcs length]. unfold fip_file_read. wp_steps. apply wp_io_assert; [done|]. wp_steps.
  eapply (wp_get_last []); [exact Hat|]. wp_steps. apply wp_io_assert; [done|]. wp_steps.
  rewrite (backend_dev _ _ _ _ _ Hat), (backend_spec _ _ _ _ _ Hat).
  eapply (wp_mm_open Hpos T0 eq_refl [fip_entity]); [exact Hat|cbn; lia|done|]. intros s1 Hs1. cbn [fst snd Z.eqb negb]. wp_steps.
  unfold fip_file. wp_steps. eapply (wp_get_entity _ 0); [exact Hs1|done|]. cbn [info Z.eqb Pos.eqb fip_file_ptr]. wp_steps.
  rewrite (at_fip _ _ _ _ _ _ Hs1). cbn [fip_entry fip_pos]. rewrite Z.add_0_r, u64_small by lia.
  replace (s64 (entry_offset en)) with (entry_offset en) by (unfold s64; rewrite Z.mod_small; lia).
  eapply (wp_mm_seek T0 eq_refl [fip_entity]); [exact Hs1|cbn; lia|cbn; lia|]. intros s2 Hs2. cbn [Z.eqb negb]. wp_steps.
  eapply (wp_mm_read T0 eq_refl [fip_entity]); [exact Hs2|done|cbn; lia..|]. intros s3 Hs3. cbn [fst snd Z.eqb negb mm_base mm_pos]. wp_steps.
  eapply (wp_mm_close Hpos T0 eq_refl [fip_entity]); [by eapply at_set_fip|]. intros s4 Hs4. wp_steps.
  eapply HQ; [exact Hs4|]. cbn. by rewrite (at_fip _ _ _ _ _ _ Hs3).
Qed.

Lemma wp_dev_close_fip m (Q : Z -> io_state -> Prop) E s :
  ready m s -> (forall s', idle m s' -> Q 0 s') -> wp (io_dev_close T1 fip_dev_info) Q E s.
Proof.
  intros (f & mm & Hat & Hf & Hu) HQ. unfold io_dev_close. wp_steps. apply wp_io_assert; [done|]. wp_steps. apply wp_io_assert; [done|]. wp_steps.
  unfold dev_funcs_of. rewrite fip_table. wp_steps. cbn [f_dev_close fip_dev_funcs]. unfold fip_dev_close. wp_steps. apply HQ.
  exists f, (0, 0), mm. split_and!; [by eapply at_set_backend|done|done].
Qed.
End fip.
