(* ===== verification/FiptoolProps.v ===== *)
(** * The packaging tool: what a package contains

    Where [pack_images] puts headers, entries and payloads ([packed]), and that
    [parse_fip] reads the same table back. *)
From stdpp Require Import base list numbers option strings sets.
From Stdlib Require Import ZArith Lia.
From S2P Require Import Prelude TbbDefs TbbLemmas IoStorage IoDrivers Fiptool FipProps.
#[local] Open Scope Z_scope.
Import Fiptool.

(** ** Little-endian numbers *)
Lemma length_le_bytes n v : length (le_bytes n v) = n.
Proof. unfold le_bytes. by rewrite length_map, length_seq. Qed.

Lemma le_bytes_S n v : le_bytes (S n) v = u8 v :: le_bytes n (Z.shiftr v 8).
Proof.
  unfold le_bytes. cbn [seq map]. rewrite Z.shiftr_0_r. f_equal. rewrite <- seq_shift, map_map. apply map_ext. intros i.
  rewrite Z.shiftr_shiftr by lia. f_equal. f_equal. lia.
Qed.

Lemma le_value_bytes n v : 0 <= v < 2 ^ (8 * Z.of_nat n) -> le_value (le_bytes n v) = v.
Proof.
  revert v. induction n as [|n IH]; intros v Hv; [cbn in *; lia|]. rewrite le_bytes_S. cbn [le_value foldr].
  fold (le_value (le_bytes n (Z.shiftr v 8))). rewrite Z.shiftr_div_pow2 by lia. rewrite IH.
  - unfold u8. change (2 ^ 8) with 256. pose proof (Z.div_mod v 256). lia.
  - replace (8 * Z.of_nat (S n)) with (8 + 8 * Z.of_nat n) in Hv by lia. rewrite Z.pow_add_r in Hv by lia.
    split; [apply Z.div_pos; lia|]. apply Z.div_lt_upper_bound; lia.
Qed.

(** A field of a structure. *)
Lemma field_le_bytes pre n v post : 0 <= v < 2 ^ (8 * Z.of_nat n) -> field (pre ++ le_bytes n v ++ post) (length pre) n = v.
Proof.
  intros Hv. unfold field. rewrite drop_app_length, take_app_length' by (by rewrite length_le_bytes). by apply le_value_bytes.
Qed.

(** ** Alignment *)
Lemma align_up_bounds x k :
  0 <= k < 64 -> 0 <= x -> x + 2 ^ k - 1 < 2 ^ 64 ->
  x <= align_up x (2 ^ k) <= x + 2 ^ k - 1 /\ (2 ^ k | align_up x (2 ^ k)).
Proof.
  intros Hk Hx Hlt. unfold align_up. assert (Hp : 0 < 2 ^ k) by (apply Z.pow_pos_nonneg; lia). rewrite u64_small by lia.
  set (y := x + 2 ^ k - 1) in *.
  assert (Hm : Z.land y (u64 (Z.lnot (2 ^ k - 1))) = y - y mod 2 ^ k).
  { replace (2 ^ k - 1) with (Z.ones k) by (rewrite Z.ones_equiv; lia).
    change (u64 (Z.lnot (Z.ones k))) with (Z.lnot (Z.ones k) mod 2 ^ 64). rewrite <- Z.land_ones by lia.
    rewrite (Z.land_comm (Z.lnot _)), Z.land_assoc, (land_ones_small 64 y) by lia.
    rewrite <- Z.ldiff_land, Z.ldiff_ones_r, Z.shiftr_div_pow2, Z.shiftl_mul_pow2 by lia.
    pose proof (Z.div_mod y (2 ^ k)). lia. }
  rewrite Hm. pose proof (Z.mod_pos_bound y (2 ^ k)). split; [lia|]. exists (y / 2 ^ k). pose proof (Z.div_mod y (2 ^ k)). lia.
Qed.

(** ** Placement *)
Abbreviation off i := (offset_address (toc_e i)).
Abbreviation sz i := (toc_size (toc_e i)).

(** The images lie one after the other between [lo] and [hi]. *)
Fixpoint placed (l : list image_t) (lo hi : Z) : Prop :=
  match l with
  | [] => lo <= hi
  | i :: rest => lo <= off i /\ placed rest (off i + sz i) hi
  end.

Record wf_image (i : image_t) : Prop := {
  wi_uuid : length (uuid (toc_e i)) = 16%nat;
  wi_size : sz i = Z.of_nat (length (buffer i));
  wi_nonempty : 0 < sz i;
  wi_flags : 0 <= toc_e_flags (toc_e i) < 2 ^ 64
}.

(** The space that a list of images can take. *)
Definition space (l : list image_t) (align : Z) : Z := foldr (fun i n => sz i + align + n) 0 l.

Lemma space_nonneg l align : Forall wf_image l -> 0 <= align -> 0 <= space l align.
Proof.
  intros Hl Ha. induction Hl as [|i l [_ Hs Hpos _] Hl IH]; [done|]. unfold space in *. cbn. lia.
Qed.

(** The same image at a multiple of the alignment. *)
Definition moved (align : Z) (i j : image_t) : Prop := exists x, (align | x) /\ 0 <= x < 2 ^ 64 /\ j = set_offset x i.

Lemma place_spec images k o :
  0 <= k < 64 -> Forall wf_image images -> 0 <= o -> o + space images (2 ^ k) < 2 ^ 64 ->
  let r := place images (2 ^ k) o in
  Forall2 (moved (2 ^ k)) images r.1 /\
  placed r.1 o r.2 /\ r.2 <= o + space images (2 ^ k).
Proof.
  intros Hk Hwf. revert o. induction Hwf as [|i l [_ Hs Hszp _] Hl IH]; intros o Ho Hsp; cbn in *; [by split_and!; [|lia|lia]|].
  pose proof (space_nonneg l (2 ^ k) Hl ltac:(pose proof (Z.pow_pos_nonneg 2 k); lia)) as Hnn.
  pose proof (Z.pow_pos_nonneg 2 k ltac:(lia) ltac:(lia)) as Hp. unfold space in Hsp, Hnn. fold (space l (2 ^ k)) in Hsp, Hnn.
  pose proof (align_up_bounds o k Hk Ho ltac:(lia)) as [Ha Hdiv]. rewrite u64_small by lia.
  destruct (IH (align_up o (2 ^ k) + sz i) ltac:(lia) ltac:(lia)) as (H1 & H2 & H3). split_and!.
  - constructor; [|done]. eexists. split_and!; [exact Hdiv|lia|lia|done].
  - lia.
  - exact H2.
  - fold (space l (2 ^ k)). lia.
Qed.

(** ** The file *)
Lemma placed_lower l lo lo' hi : placed l lo hi -> lo' <= lo -> placed l lo' hi.
Proof. destruct l; cbn; [lia|]. intros [H1 H2] H. split; [lia|done]. Qed.

Lemma read_fwrite_other f a bs p n :
  p + n <= a \/ a + Z.of_nat (length bs) <= p -> read_bytes (contents (fwrite_at f a bs)) p n = read_bytes (contents f) p n.
Proof. destruct bs; [done|]. apply read_write_other. Qed.
Lemma read_fwrite_same f a bs : read_bytes (contents (fwrite_at f a bs)) a (Z.of_nat (length bs)) = bs.
Proof. destruct bs; [done|]. apply read_write_same. Qed.
Lemma size_fwrite f a bs : bs <> [] -> file_size (fwrite_at f a bs) = Z.max (file_size f) (a + Z.of_nat (length bs)).
Proof. by destruct bs. Qed.
Lemma size_fwrite_le f a bs : file_size f <= file_size (fwrite_at f a bs).
Proof. destruct bs; cbn; lia. Qed.

(** Writing the payloads. *)
Definition write_payload (f : file_t) (i : image_t) : file_t := fwrite_at f (off i) (take (Z.to_nat (sz i)) (buffer i)).

Lemma payload_bytes i : wf_image i -> take (Z.to_nat (sz i)) (buffer i) = buffer i.
Proof. intros [_ Hs Hpos _]. rewrite Hs, Nat2Z.id. by apply take_ge. Qed.

Lemma payloads_below l f lo hi a n :
  Forall wf_image l -> placed l lo hi -> a + n <= lo ->
  read_bytes (contents (foldl write_payload f l)) a n = read_bytes (contents f) a n.
Proof.
  revert f lo. induction l as [|i l IH]; intros f lo Hwf Hpl Hn; [done|]. inversion Hwf as [|? ? Hi Hl]; subst. destruct Hpl as [H1 H2].
  destruct (Hi) as [_ Hs _ _]. cbn [foldl]. rewrite (IH _ _ Hl H2) by lia. apply read_fwrite_other.
  rewrite payload_bytes by done. lia.
Qed.

Lemma placed_bounds l lo hi : Forall wf_image l -> placed l lo hi -> lo <= hi.
Proof.
  intros Hl. revert lo. induction Hl as [|k l [_ Hk Hkp _] Hl IH]; cbn; intros x Hp; [done|].
  destruct Hp as [Hp1 Hp2]. specialize (IH _ Hp2). lia.
Qed.

Lemma payloads_size l f : file_size f <= file_size (foldl write_payload f l).
Proof.
  revert f. induction l as [|i l IH]; intros f; [done|]. cbn [foldl]. etrans; [|apply IH]. apply size_fwrite_le.
Qed.

Lemma payloads_at l f lo hi i :
  Forall wf_image l -> placed l lo hi -> i ∈ l ->
  read_bytes (contents (foldl write_payload f l)) (off i) (sz i) = buffer i /\ lo <= off i /\ off i + sz i <= hi /\
  off i + sz i <= file_size (foldl write_payload f l).
Proof.
  revert f lo. induction l as [|j l IH]; intros f lo Hwf Hpl Hin; [by apply elem_of_nil in Hin|].
  inversion Hwf as [|? ? Hj Hl]; subst. destruct Hpl as [H1 H2]. cbn [foldl]. destruct (Hj) as [_ Hs Hpos _].
  apply elem_of_cons in Hin as [->|Hin].
  - split_and!; [|done|by eapply placed_bounds|].
    + rewrite (payloads_below _ _ _ _ _ _ Hl H2) by lia. unfold write_payload. rewrite payload_bytes by done.
      rewrite Hs. apply read_fwrite_same.
    + etrans; [|apply payloads_size]. unfold write_payload. rewrite payload_bytes by done.
      rewrite size_fwrite by (intros E; rewrite E in Hs; cbn in Hs; lia). lia.
  - destruct (IH (write_payload f j) _ Hl H2 Hin) as (? & ? & ? & ?). split_and!; [done|lia|done|done].
Qed.

(** ** Entries *)
Record wf_entry (e : fip_toc_entry_t) : Prop := {
  we_uuid : length (uuid e) = 16%nat;
  we_offset : 0 <= offset_address e < 2 ^ 64;
  we_size : 0 <= toc_size e < 2 ^ 64;
  we_flags : 0 <= toc_e_flags e < 2 ^ 64
}.

Lemma length_entry e : length (uuid e) = 16%nat -> length (entry_bytes e) = 40%nat.
Proof. intros Hu. unfold entry_bytes. rewrite !length_app, !length_le_bytes, Hu. done. Qed.

Lemma entry_uuid_bytes e : length (uuid e) = 16%nat -> entry_uuid (entry_bytes e) = uuid e.
Proof. intros Hu. unfold entry_uuid, entry_bytes. by rewrite take_app_length' by done. Qed.

Lemma field_at pre n v post k : length pre = k -> 0 <= v < 2 ^ (8 * Z.of_nat n) -> field (pre ++ le_bytes n v ++ post) k n = v.
Proof. intros <- Hv. by apply field_le_bytes. Qed.

Lemma entry_roundtrip e : wf_entry e -> entry_of_bytes (entry_bytes e) = e.
Proof.
  intros [Hu Ho Hs Hf]. unfold entry_of_bytes. rewrite entry_uuid_bytes by done. unfold entry_offset, entry_size, entry_bytes.
  rewrite (field_at (uuid e)) by done.
  rewrite (app_assoc (uuid e)), (field_at (uuid e ++ le_bytes 8 (offset_address e)))
    by (rewrite ?length_app, ?length_le_bytes, ?Hu; done).
  rewrite (app_assoc (uuid e ++ _)), <- (app_nil_r (le_bytes 8 (toc_e_flags e))).
  rewrite (field_at ((uuid e ++ _) ++ _)) by (rewrite ?length_app, ?length_le_bytes, ?Hu; done). by destruct e.
Qed.

Lemma entry_offset_bytes e : wf_entry e -> entry_offset (entry_bytes e) = offset_address e.
Proof. intros He. pose proof (entry_roundtrip e He) as Hx. by apply (f_equal offset_address) in Hx. Qed.
Lemma entry_size_bytes e : wf_entry e -> entry_size (entry_bytes e) = toc_size e.
Proof. intros He. pose proof (entry_roundtrip e He) as Hx. by apply (f_equal toc_size) in Hx. Qed.

(** Records of one length, one after the other. *)
Lemma toc_at_join m a (l : list (list Z)) :
  Forall (fun e => length e = 40%nat) l -> read_bytes m a (40 * Z.of_nat (length l)) = mjoin l -> toc_at m a l.
Proof.
  intros Hl. revert a. induction Hl as [|e l He Hl IH]; intros a Hr; [done|]. cbn [length] in Hr.
  replace (40 * Z.of_nat (S (length l))) with (40 + 40 * Z.of_nat (length l)) in Hr by lia. rewrite read_app in Hr by lia.
  apply app_inj_1 in Hr as [H1 H2]; [|by rewrite length_read, He]. split; [done|by apply IH].
Qed.

Lemma length_join40 (l : list (list Z)) : Forall (fun e => length e = 40%nat) l -> length (mjoin l) = (40 * length l)%nat.
Proof. induction 1 as [|e l He Hl IH]; [done|]. change (mjoin (e :: l)) with (e ++ mjoin l). rewrite length_app, He, IH. cbn. lia. Qed.

(** ** A package *)
Definition terminator (te : Z) : fip_toc_entry_t := TocEntry uuid_null te 0 0.
Definition toc_bytes (images : list image_t) (te : Z) : list (list Z) :=
  map (fun i => entry_bytes (toc_e i)) images ++ [entry_bytes (terminator te)].

Record packed (f : file_t) (toc_flags : Z) (images : list image_t) (te : Z) : Prop := {
  pk_header : read_bytes (contents f) 0 16 = header_bytes toc_flags;
  pk_toc : toc_at (contents f) 16 (toc_bytes images te);
  pk_size : 16 + 40 * Z.of_nat (length (toc_bytes images te)) <= file_size f;
  pk_images i : i ∈ images -> wf_image i /\ wf_entry (toc_e i) /\ 0 < off i /\ off i + sz i < 2 ^ 64 /\
    read_bytes (contents f) (off i) (sz i) = buffer i /\ off i + sz i <= file_size f
}.

Lemma length_toc images te : length (toc_bytes images te) = S (length images).
Proof. unfold toc_bytes. rewrite length_app, length_map. cbn. lia. Qed.
Lemma toc_lengths images te : Forall wf_image images -> Forall (fun e => length e = 40%nat) (toc_bytes images te).
Proof.
  intros Hwf. apply Forall_app. split; [|by repeat constructor]. apply Forall_map. eapply Forall_impl; [exact Hwf|].
  intros i [Hu _ _ _]. by apply length_entry.
Qed.

Lemma placed_images images k o :
  0 <= k < 64 -> Forall wf_image images -> 0 <= o -> o + space images (2 ^ k) < 2 ^ 64 ->
  let r := place images (2 ^ k) o in
  Forall wf_image r.1 /\ Forall (fun i => wf_entry (toc_e i)) r.1 /\ length r.1 = length images.
Proof.
  intros Hk Hwf Ho Hsp r. destruct (place_spec images k o Hk Hwf Ho Hsp) as (Hr & Hpl & Hend). fold r in Hr, Hpl, Hend.
  assert (Hw : Forall wf_image r.1).
  { eapply Forall2_Forall_r; [exact Hr|]. eapply Forall_impl; [exact Hwf|]. intros i [? ? ? ?] j (x & _ & _ & ->). by split. }
  split_and!; [done| |by apply Forall2_length in Hr].
  apply Forall_forall. intros i Hi. rewrite Forall_forall in Hw. destruct (Hw i Hi) as [Hu Hs Hp Hf].
  destruct (payloads_at r.1 empty_file o r.2 i) as (_ & H1 & H2 & _); [by apply Forall_forall|done|done|]. split; [done|lia|lia|done].
Qed.

(** What [pack_images] writes is a package of the images of the table. *)
Lemma pack_images_packed descs toc_flags k :
  let images := present descs in
  let base := 16 + 40 * (Z.of_nat (length images) + 1) in
  0 <= k < 64 -> Forall wf_image images -> base + space images (2 ^ k) + 2 ^ k <= 2 ^ 64 ->
  let r := place images (2 ^ k) base in
  packed (pack_images descs toc_flags (2 ^ k)) toc_flags r.1 (align_up r.2 (2 ^ k)).
Proof.
  intros images base Hk Hwf Hsp r. assert (Hp : 0 < 2 ^ k) by (apply Z.pow_pos_nonneg; lia).
  destruct (place_spec images k base Hk Hwf ltac:(unfold base; lia) ltac:(lia)) as (_ & Hpl & Hend). fold r in Hpl, Hend.
  destruct (placed_images images k base Hk Hwf ltac:(unfold base; lia) ltac:(lia)) as (Hw & He & Hlen). fold r in Hw, He, Hlen.
  pose proof (placed_bounds _ _ _ Hw Hpl) as Hlo.
  unfold pack_images. fold images. fold base. fold r. set (te := align_up r.2 (2 ^ k)).
  set (buf := header_bytes toc_flags ++ _). set (f0 := fwrite_at empty_file 0 buf).
  change (foldl _ f0 r.1) with (foldl write_payload f0 r.1). set (f1 := foldl write_payload f0 r.1).
  set (f := fwrite_at f1 r.2 _).
  assert (Hbuf : buf = header_bytes toc_flags ++ mjoin (toc_bytes r.1 te)).
  { unfold buf, toc_bytes. rewrite join_app. by do 2 f_equal. }
  assert (Hhl : length (header_bytes toc_flags) = 16%nat) by (unfold header_bytes; by rewrite !length_app, !length_le_bytes).
  assert (Hl : Z.of_nat (length buf) = base).
  { rewrite Hbuf, length_app, Hhl, length_join40 by (by apply toc_lengths). rewrite length_toc, Hlen. unfold base. lia. }
  assert (Hread : read_bytes (contents f) 0 base = buf).
  { unfold f. rewrite read_fwrite_other by lia. unfold f1. rewrite (payloads_below _ _ _ _ _ _ Hw Hpl) by lia.
    rewrite <- Hl. apply read_fwrite_same. }
  replace base with (16 + 40 * Z.of_nat (length (toc_bytes r.1 te))) in Hread by (unfold base; rewrite length_toc, Hlen; lia).
  rewrite read_app, Hbuf in Hread by lia. apply app_inj_1 in Hread as [Hh Ht]; [|by rewrite length_read, Hhl].
  split.
  - exact Hh.
  - apply toc_at_join; [by apply toc_lengths|exact Ht].
  - rewrite length_toc, Hlen. etrans; [|apply size_fwrite_le]. etrans; [|apply payloads_size]. unfold f0.
    rewrite size_fwrite by (rewrite Hbuf; done). rewrite Hl. unfold base. lia.
  - intros i Hi. rewrite Forall_forall in He. pose proof (proj1 (Forall_forall _ _) Hw i Hi) as Hwi.
    destruct (payloads_at r.1 f0 base r.2 i Hw Hpl Hi) as (H1 & H2 & H3 & H4). split_and!; [done|by apply He|unfold base in H2; lia|lia| |].
    + unfold f. rewrite read_fwrite_other by lia. exact H1.
    + etrans; [exact H4|apply size_fwrite_le].
Qed.

(** ** Parsing a package *)
Fixpoint attach_all (images : list image_t) (descs : list image_desc_t) : option (list image_desc_t) :=
  match images with
  | [] => Some descs
  | i :: rest => descs' ← attach i descs; attach_all rest descs'
  end.

Lemma parse_entries_attaches f images te fuel pos descs :
  0 <= pos -> toc_at (contents f) pos (toc_bytes images te) -> pos + 40 * Z.of_nat (length (toc_bytes images te)) <= file_size f ->
  (forall i, i ∈ images -> wf_entry (toc_e i) /\ uuid (toc_e i) <> uuid_null /\ off i + sz i < 2 ^ 64 /\
    read_bytes (contents f) (off i) (sz i) = buffer i /\ off i + sz i <= file_size f) ->
  (length images < fuel)%nat -> parse_entries fuel f pos descs = attach_all images descs.
Proof.
  revert fuel pos descs. induction images as [|i images IH]; intros fuel pos descs Hpos Htoc Hsz Him Hfuel;
    (destruct fuel as [|fuel]; [cbn in *; lia|]); cbn [parse_entries]; rewrite length_toc in Hsz; cbn [length] in Hsz.
  - destruct Htoc as [Hr _]. unfold TOC_ENTRY_SIZE in Hr. rewrite Hr. destruct (Z.ltb_spec (pos + 40 - 1) (file_size f)); [|lia].
    cbn [uuid entry_of_bytes]. rewrite entry_uuid_bytes by done. by rewrite decide_True.
  - destruct Htoc as [Hr Hrest]. unfold TOC_ENTRY_SIZE in Hr, Hrest. rewrite Hr. destruct (Him i ltac:(set_solver)) as (He & Hnn & Hlt & Hb & Hend).
    destruct (Z.ltb_spec (pos + 40 - 1) (file_size f)); [|lia]. rewrite entry_roundtrip by done. rewrite decide_False by done.
    unfold UINTPTR_MAX. destruct (Z.ltb_spec (2 ^ 64 - 1 - off i) (sz i)); [lia|].
    destruct (Z.ltb_spec (file_size f) (sz i + off i)); [lia|]. rewrite Hb.
    cbn [attach_all]. replace (Image (toc_e i) (buffer i)) with i by (by destruct i).
    destruct (attach i descs) as [descs'|]; [|done]. cbn. apply IH; [lia|exact Hrest|rewrite length_toc; lia| |cbn in Hfuel; lia].
    intros j Hj. apply Him. set_solver.
Qed.

(** The table without its images. *)
Definition blank (descs : list image_desc_t) : list image_desc_t := map (fun d => ImageDesc (d_uuid d) None) descs.

Lemma lookup_uuid_skip u pre rest k :
  u ∉ map d_uuid pre -> lookup_image_desc_from_uuid u (pre ++ rest) k = lookup_image_desc_from_uuid u rest (length pre + k).
Proof.
  revert k. induction pre as [|d pre IH]; intros k Hu; [done|]. cbn in Hu |- *. apply not_elem_of_cons in Hu as [H1 H2].
  rewrite decide_False by done. rewrite IH by done. f_equal. lia.
Qed.

Lemma attach_present pre descs :
  NoDup (map d_uuid (pre ++ descs)) ->
  (forall d i, d ∈ descs -> image d = Some i -> uuid (toc_e i) = d_uuid d) ->
  attach_all (present descs) (pre ++ blank descs) = Some (pre ++ descs).
Proof.
  revert pre. induction descs as [|d descs IH]; intros pre Hnd Hu; [done|]. cbn [blank map].
  assert (Happ : pre ++ d :: descs = (pre ++ [d]) ++ descs) by (by rewrite <- app_assoc).
  assert (Hu' : forall d' i, d' ∈ descs -> image d' = Some i -> uuid (toc_e i) = d_uuid d') by (intros; apply Hu; [by right|done]).
  unfold present. cbn [omap list_omap]. destruct (image d) as [i|] eqn:Hi.
  - cbn [attach_all]. unfold attach. rewrite (Hu d i ltac:(left) Hi). rewrite lookup_uuid_skip.
    + cbn. rewrite decide_True by done. rewrite Nat.add_0_r, list_lookup_middle by done.
      rewrite insert_app_r_alt, Nat.sub_diag by lia. cbn.
      replace (ImageDesc (d_uuid d) (Some i)) with d by (destruct d; cbn in *; by rewrite Hi).
      rewrite Happ. rewrite Happ in Hnd. specialize (IH _ Hnd Hu'). rewrite <- app_assoc in IH. exact IH.
    + rewrite map_app in Hnd. apply NoDup_app in Hnd as (_ & Hd & _). intros Hin. apply (Hd _ Hin). by left.
  - replace (ImageDesc (d_uuid d) None) with d by (destruct d; cbn in *; by rewrite Hi).
    rewrite Happ. rewrite Happ in Hnd. specialize (IH _ Hnd Hu'). rewrite <- app_assoc in IH. exact IH.
Qed.

(** The table with its images at their places. *)
Fixpoint refill (descs : list image_desc_t) (images : list image_t) : list image_desc_t :=
  match descs, images with
  | ImageDesc u (Some _) :: descs', i :: images' => ImageDesc u (Some i) :: refill descs' images'
  | d :: descs', _ => d :: refill descs' images
  | [], _ => []
  end.

Definition same_image (align : Z) (d d' : image_desc_t) : Prop :=
  d_uuid d' = d_uuid d /\
  match image d with Some i => exists j, image d' = Some j /\ moved align i j | None => image d' = None end.

Lemma refill_same align descs images :
  Forall2 (moved align) (present descs) images ->
  Forall2 (same_image align) descs (refill descs images) /\ present (refill descs images) = images.
Proof.
  revert images. induction descs as [|[u [i|]] descs IH]; intros images Hf; unfold present in *; cbn in *.
  - by inversion Hf.
  - inversion Hf as [|? j ? images' Hj Hf']; subst. destruct (IH _ Hf') as [H1 H2]. cbn. split; [|by rewrite H2].
    constructor; [|done]. split; cbn; eauto.
  - destruct (IH _ Hf) as [H1 H2]. destruct images; cbn; (split; [by constructor|done]).
Qed.

Lemma same_uuids align descs descs' : Forall2 (same_image align) descs descs' -> map d_uuid descs' = map d_uuid descs.
Proof. induction 1 as [|d d' l l' [Hu _] Hl IH]; cbn; [done|by rewrite Hu, IH]. Qed.

(** A table of the tool: one descriptor for each UUID, and each image is the
    one of its descriptor. *)
Record wf_table (descs : list image_desc_t) : Prop := {
  wt_nodup : NoDup (map d_uuid descs);
  wt_images : Forall wf_image (present descs);
  wt_uuid d i : d ∈ descs -> image d = Some i -> uuid (toc_e i) = d_uuid d /\ d_uuid d <> uuid_null
}.

(** The room that the tool needs: offsets are 64 bits wide. *)
Definition table_fits (descs : list image_desc_t) (align : Z) : Prop :=
  16 + 40 * (Z.of_nat (length (present descs)) + 1) + space (present descs) align + align <= 2 ^ 64.

Lemma present_uuid descs images :
  wf_table descs -> forall k, Forall2 (moved k) (present descs) images -> forall i, i ∈ images -> uuid (toc_e i) <> uuid_null.
Proof.
  intros [_ _ Hu] k Hf i Hi. apply list_elem_of_lookup in Hi as [n Hn].
  destruct (Forall2_lookup_r _ _ _ _ _ Hf Hn) as (j & Hj & x & _ & _ & ->). cbn.
  apply list_elem_of_lookup_2, list_elem_of_omap in Hj as (d & Hd & Hdj). destruct (Hu d j Hd Hdj) as [-> ?]. done.
Qed.

(** [C20] Reading a package back: for every table with one descriptor for each
    UUID and images that are not empty, and every alignment that is a power of
    two, [parse_fip] of the file that [pack_images] writes fills the empty
    table with the same images, byte for byte, each at a multiple of the
    alignment; no bound is assumed other than that the offsets fit 64 bits. *)
Theorem fiptool_roundtrip descs toc_flags k :
  0 <= k < 64 -> wf_table descs -> table_fits descs (2 ^ k) ->
  exists descs', parse_fip (pack_images descs toc_flags (2 ^ k)) (blank descs) = Some descs' /\
    Forall2 (same_image (2 ^ k)) descs descs'.
Proof.
  intros Hk Hwt Hfit. destruct (Hwt) as [Hnd Hwf Hu]. unfold table_fits in Hfit.
  pose proof (pack_images_packed descs toc_flags k Hk Hwf Hfit) as [Hh Htoc Hsz Him].
  destruct (place_spec (present descs) k (16 + 40 * (Z.of_nat (length (present descs)) + 1)) Hk Hwf ltac:(lia) ltac:(pose proof (Z.pow_pos_nonneg 2 k); lia)) as (Hmv & _).
  set (r := place _ _ _) in *. destruct (refill_same _ _ _ Hmv) as [Hsame Hpres]. exists (refill descs r.1). split; [|exact Hsame].
  set (f := pack_images _ _ _) in *. rewrite length_toc in Hsz. unfold parse_fip. destruct (Z.ltb_spec (file_size f) 16); [lia|].
  rewrite Hh. change (negb _) with false. cbv iota.
  rewrite (parse_entries_attaches f r.1 (align_up r.2 (2 ^ k))); [|lia|exact Htoc|rewrite length_toc; lia| |].
  - pose proof (attach_present [] (refill descs r.1)) as Hatt. rewrite Hpres in Hatt.
    replace (blank descs) with (blank (refill descs r.1)).
    + apply Hatt; cbn; [by rewrite (same_uuids _ _ _ Hsame)|]. intros d' i' Hd Hi.
      apply list_elem_of_lookup in Hd as [n Hn]. destruct (Forall2_lookup_r _ _ _ _ _ Hsame Hn) as (d & Hd & Hud & Him').
      destruct (image d) as [i|] eqn:Hdi; [|congruence]. destruct Him' as (j & Hj & x & _ & _ & ->). rewrite Hj in Hi. injection Hi as <-.
      cbn. rewrite Hud. eapply Hu; [by eapply list_elem_of_lookup_2|done].
    + unfold blank. rewrite <- !(map_map d_uuid (fun u => ImageDesc u None)). by rewrite (same_uuids _ _ _ Hsame).
  - intros i Hi. destruct (Him i Hi) as (_ & He & _ & Hlt & Hb & Hend). split_and!; try done. by eapply present_uuid.
  - apply Nat2Z.inj_lt. rewrite Z2Nat.id by (apply Z.add_nonneg_nonneg; [apply Z.div_pos; lia|lia]).
    apply Z.le_lt_trans with (file_size f / 40); [|lia]. apply Z.div_le_lower_bound; lia.
Qed.

(** ** Instances *)
Module FiptoolWitnesses.

Definition bl2_uuid : list Z := default uuid_null (uuid_of_spec bl2_uuid_spec).
Definition bl31_uuid : list Z := default uuid_null (uuid_of_spec bl31_uuid_spec).
Definition bl33_uuid : list Z := default uuid_null (uuid_of_spec bl33_uuid_spec).
Definition some_image (u : list Z) (bs : list Z) : image_t := Image (TocEntry u 0 (Z.of_nat (length bs)) 0) bs.
Definition some_table (bl31 : list Z) : list image_desc_t :=
  [ImageDesc bl2_uuid (Some (some_image bl2_uuid [0xAA; 0xBB; 0xCC]));
   ImageDesc bl33_uuid None;
   ImageDesc bl31_uuid (Some (some_image bl31_uuid bl31))].

Lemma some_table_wf b bs : wf_table (some_table (b :: bs)).
Proof.
  split.
  - cbn. apply NoDup_ListNoDup. repeat constructor; vm_compute; intuition congruence.
  - repeat constructor; cbn; lia || reflexivity.
  - intros d i Hd Hi. unfold some_table in Hd.
    repeat (apply elem_of_cons in Hd as [->|Hd]; [cbn in Hi; first [discriminate Hi|injection Hi as <-; cbn; split; [done|vm_compute; congruence]]|]).
    by apply elem_of_nil in Hd.
Qed.

(** The package at an alignment of 16 bytes. *)
Lemma fiptool_roundtrip_witness :
  exists descs', parse_fip (pack_images (some_table [1; 2; 3; 4]) 0 (2 ^ 4)) (blank (some_table [1; 2; 3; 4])) = Some descs' /\
    Forall2 (same_image (2 ^ 4)) (some_table [1; 2; 3; 4]) descs'.
Proof. apply (fiptool_roundtrip (some_table [1; 2; 3; 4]) 0 4); [lia|apply some_table_wf|vm_compute; congruence]. Defined.

(** An empty image at the end, with an alignment: its offset is past the end
    of the file that the tool writes, and the tool does not read the file
    back. *)
Lemma empty_last_image_unreadable : parse_fip (pack_images (some_table []) 0 16) (blank (some_table [])) = None.
Proof. vm_compute. reflexivity. Qed.
End FiptoolWitnesses.
