(* ===== verification/IoBoot.v ===== *)
(** * Loading from a firmware package: the image loader on top of the drivers

    The environment of the image loader with the I/O stack of the platform in
    it, and the composition: a package written by the packaging tool, put into
    the storage, loaded by [load_image].  The storage is a memory apart from
    the one images are loaded into: the load areas do not meet the package. *)
From stdpp Require Import base list numbers option strings sets.
From Stdlib Require Import ZArith Lia.
From S2P Require Import Prelude TbbDefs AuthMod TbbrCot BlCommon IoStorage IoDrivers Fiptool TbbExample TbbLemmas LoadProps IoLemmas FipProps FiptoolProps.
#[local] Open Scope Z_scope.

(** ** The environment

    The rest of the platform keeps a state [P0] next to the one of the I/O
    layer. *)
Section env.
Context {P0 : Type} {E0 : TbEnv P0} {ioe : IoEnv} (toc_fuel : nat) (stack : list Z).
Definition on_rest {A} (m : M P0 A) : M (P0 * io_state) A := zoom fst (fun p x => (p, x.2)) m.
Definition on_io {A} (m : M io_state A) : M (P0 * io_state) A := zoom snd (fun s x => (x.1, s)) m.
Abbreviation devs := (dev_table toc_fuel stack 1).

Definition with_io : TbEnv (P0 * io_state) := {|
  TB_ASSERTIONS := TB_ASSERTIONS;
  TRUSTED_BOARD_BOOT := TRUSTED_BOARD_BOOT;
  LOAD_IMAGE_V2 := LOAD_IMAGE_V2;
  FWU_MAX_SIMULTANEOUS_IMAGES := FWU_MAX_SIMULTANEOUS_IMAGES;
  cot_desc_ptr := cot_desc_ptr;
  parser_lib_descs := parser_lib_descs;
  crypto_verify_signature := crypto_verify_signature;
  crypto_verify_hash := crypto_verify_hash;
  plat_get_rotpk_info := fun c => on_rest (plat_get_rotpk_info c);
  plat_get_nv_ctr := fun c => on_rest (plat_get_nv_ctr c);
  plat_set_nv_ctr := fun c v => on_rest (plat_set_nv_ctr c v);
  bl1_plat_mem_check := fun p n f => on_rest (bl1_plat_mem_check p n f);
  bl1_plat_handle_pre_image_load := fun i => on_rest (bl1_plat_handle_pre_image_load i);
  bl1_plat_handle_post_image_load := fun i => on_rest (bl1_plat_handle_post_image_load i);
  bl1_plat_set_ep_info := fun i => on_rest (bl1_plat_set_ep_info i);
  EL2_IMPLEMENTED := EL2_IMPLEMENTED;
  bl1_plat_sec_mem_layout := bl1_plat_sec_mem_layout;
  TbbDefs.plat_get_image_source := fun id => on_io (IoDrivers.plat_get_image_source devs id);
  TbbDefs.io_open := fun d sp => on_io (IoStorage.io_open devs d sp);
  TbbDefs.io_size := fun h => on_io (IoStorage.io_size devs h);
  TbbDefs.io_read := fun h b n => on_io (IoStorage.io_read devs h b n);
  TbbDefs.io_close := fun h => on_io (IoStorage.io_close devs h);
  TbbDefs.io_dev_close := fun d => on_io (IoStorage.io_dev_close devs d);
  plat_try_next_boot_source := on_rest plat_try_next_boot_source
|}.
End env.

(** ** A package in the storage *)
Section storage.
Context {ioe : IoEnv}.
Import Fiptool.

(** The storage holds the file at the address of the package. *)
Record stored (f : file_t) (m : memory) : Prop := {
  st_bytes x : 0 <= x < file_size f -> m (PLAT_MARVELL_FIP_BASE + x) = contents f x;
  st_fits : file_size f <= PLAT_MARVELL_FIP_MAX_SIZE
}.

Lemma stored_read f m a n :
  stored f m -> 0 <= a -> a + n <= file_size f -> read_bytes m (PLAT_MARVELL_FIP_BASE + a) n = read_bytes (contents f) a n.
Proof.
  intros [Hb _] Ha Hn. unfold read_bytes. apply map_ext_in. intros i Hi. apply list_elem_of_In, elem_of_seqZ in Hi.
  rewrite <- Z.add_assoc. apply Hb. lia.
Qed.

Lemma stored_toc f m pos toc :
  stored f m -> 0 <= pos -> pos + 40 * Z.of_nat (length toc) <= file_size f -> toc_at (contents f) pos toc ->
  toc_at m (PLAT_MARVELL_FIP_BASE + pos) toc.
Proof.
  intros Hst. revert pos. induction toc as [|e toc IH]; intros pos Hp Hl Ht; [done|]. cbn [length] in Hl. destruct Ht as [Hr Hrest].
  unfold TOC_ENTRY_SIZE in *. split; [unfold TOC_ENTRY_SIZE; by rewrite (stored_read _ _ _ _ Hst) by lia|].
  unfold TOC_ENTRY_SIZE. rewrite <- Z.add_assoc. apply IH; [lia|lia|done].
Qed.

Lemma packed_fip_in f flags images te m : packed f flags images te -> stored f m -> fip_in m (toc_bytes images te).
Proof.
  intros [Hh Ht Hs _] Hst. pose proof (st_fits _ _ Hst). split; unfold TOC_HEADER_SIZE, TOC_ENTRY_SIZE in *.
  - rewrite <- (Z.add_0_r PLAT_MARVELL_FIP_BASE), (stored_read _ _ _ _ Hst), Hh by lia. reflexivity.
  - apply (stored_toc f); [done|lia|lia|done].
  - lia.
Qed.

Lemma toc_find_absent u images te :
  Forall wf_image images -> u <> uuid_null -> (forall j, j ∈ images -> uuid (toc_e j) <> u /\ uuid (toc_e j) <> uuid_null) ->
  toc_find u (toc_bytes images te) = Some None.
Proof.
  intros Hwf Hu. induction Hwf as [|i images [Hl _ _ _] Hwf IH]; intros Hj; unfold toc_bytes; cbn [map app toc_find].
  - by rewrite entry_uuid_bytes, decide_False, decide_True by done.
  - destruct (Hj i ltac:(left)) as [H1 H2]. rewrite entry_uuid_bytes, !decide_False by done. apply IH. intros j Hin. apply Hj. by right.
Qed.

Lemma toc_find_present i images te :
  Forall wf_image images -> NoDup (map (fun j => uuid (toc_e j)) images) -> (forall j, j ∈ images -> uuid (toc_e j) <> uuid_null) ->
  i ∈ images -> toc_find (uuid (toc_e i)) (toc_bytes images te) = Some (Some (entry_bytes (toc_e i))).
Proof.
  intros Hwf. induction Hwf as [|j images [Hl _ _ _] Hwf IH]; intros Hnd Hnn Hi; [by apply elem_of_nil in Hi|].
  unfold toc_bytes. cbn [map app toc_find] in *. apply NoDup_cons in Hnd as [Hj Hnd]. rewrite entry_uuid_bytes by done.
  apply elem_of_cons in Hi as [->|Hi]; [by rewrite decide_True|].
  rewrite decide_False; [rewrite decide_False by (apply Hnn; left)|].
  - apply IH; [done| |done]. intros k Hk. apply Hnn. by right.
  - intros E. apply Hj. rewrite E. apply (list_elem_of_fmap_2 (fun j => uuid (toc_e j)) _ _ Hi).
Qed.

(** The images of a table, by their UUID. *)
Lemma present_nodup descs : wf_table descs -> NoDup (map (fun j => uuid (toc_e j)) (present descs)).
Proof.
  intros [Hnd _ Hu]. induction descs as [|d descs IH]; [constructor|]. apply NoDup_cons in Hnd as [Hd Hnd].
  assert (Hrest : NoDup (map (fun j => uuid (toc_e j)) (present descs))) by (apply IH; [done|]; intros; apply Hu; [by right|done]).
  unfold present in *. cbn. destruct (image d) as [i|] eqn:Hi; [|exact Hrest]. cbn. apply NoDup_cons. split; [|exact Hrest].
  destruct (Hu d i ltac:(left) Hi) as [-> _]. intros (j & Hj & Hin)%list_elem_of_fmap.
  apply list_elem_of_omap in Hin as (d' & Hd' & Hj'). apply Hd. rewrite Hj.
  destruct (Hu d' j ltac:(by right) Hj') as [-> _]. by apply (list_elem_of_fmap_2 d_uuid).
Qed.

Lemma moved_uuids k images images' :
  Forall2 (moved k) images images' -> map (fun j => uuid (toc_e j)) images' = map (fun j => uuid (toc_e j)) images.
Proof. induction 1 as [|i j l l' (x & _ & _ & ->) Hl IH]; cbn; [done|by rewrite IH]. Qed.

(** The image that the table has for a UUID. *)
Fixpoint image_of (u : list Z) (descs : list image_desc_t) : option image_t :=
  match descs with
  | [] => None
  | d :: rest => if decide (d_uuid d = u) then image d else image_of u rest
  end.

Lemma image_of_in u descs i : wf_table descs -> image_of u descs = Some i -> i ∈ present descs /\ uuid (toc_e i) = u.
Proof.
  intros [_ _ Hu] Hi. assert (exists d, d ∈ descs /\ image d = Some i /\ d_uuid d = u) as (d & Hd & Hdi & <-).
  { clear Hu. induction descs as [|d descs IH]; [done|]. cbn in Hi. destruct (decide (d_uuid d = u)) as [Hd|_].
    - exists d. split_and!; [left|done|done].
    - destruct (IH Hi) as (d' & Hd' & Hrest). exists d'. split; [by right|done]. }
  split; [apply list_elem_of_omap; by exists d|]. by apply Hu.
Qed.

Lemma image_of_none u descs j : wf_table descs -> image_of u descs = None -> j ∈ present descs -> uuid (toc_e j) <> u.
Proof.
  intros [Hnd _ Hu] Hn (d & Hd & Hdj)%list_elem_of_omap. destruct (Hu d j Hd Hdj) as [-> _]. clear Hu.
  induction descs as [|d' descs IH]; [by apply elem_of_nil in Hd|]. cbn in Hn. apply NoDup_cons in Hnd as [Hnin Hnd].
  destruct (decide (d_uuid d' = u)) as [<-|Hne]; apply elem_of_cons in Hd as [->|Hd]; [congruence| |done|by apply IH].
  intros E. apply Hnin. rewrite <- E. by apply (list_elem_of_fmap_2 d_uuid).
Qed.

(** An entry of a stored package for the image. *)
Record entry_for (m : memory) (i : image_t) (e : list Z) : Prop := {
  ef_size : entry_size e = sz i;
  ef_offset : 0 < entry_offset e;
  ef_fits : entry_offset e + sz i <= PLAT_MARVELL_FIP_MAX_SIZE;
  ef_bytes : read_bytes m (PLAT_MARVELL_FIP_BASE + entry_offset e) (sz i) = buffer i
}.

(** What the search in the storage finds is what the table had. *)
Lemma package_search descs flags k m u :
  0 <= k < 64 -> wf_table descs -> table_fits descs (2 ^ k) -> stored (pack_images descs flags (2 ^ k)) m -> u <> uuid_null ->
  exists toc r, fip_in m toc /\ length toc = S (length (present descs)) /\ toc_find u toc = Some r /\
    match image_of u descs with Some i => exists e, r = Some e /\ entry_for m i e | None => r = None end.
Proof.
  intros Hk Hwt Hfit Hst Hu. destruct (Hwt) as [_ Hwf _]. unfold table_fits in Hfit.
  pose proof (pack_images_packed descs flags k Hk Hwf Hfit) as Hpk.
  assert (Hp : 0 < 2 ^ k) by (apply Z.pow_pos_nonneg; lia).
  destruct (place_spec (present descs) k (16 + 40 * (Z.of_nat (length (present descs)) + 1)) Hk Hwf ltac:(lia) ltac:(lia)) as (Hmv & _).
  destruct (placed_images (present descs) k (16 + 40 * (Z.of_nat (length (present descs)) + 1)) Hk Hwf ltac:(lia) ltac:(lia)) as (Hw & _ & Hlen).
  set (r := place _ _ _) in *. set (f := pack_images _ _ _) in *. cbv zeta in Hpk. set (te := align_up _ _) in *.
  pose proof (present_uuid _ _ Hwt _ Hmv) as Hnn. exists (toc_bytes r.1 te).
  destruct (image_of u descs) as [i|] eqn:Hi.
  - destruct (image_of_in _ _ _ Hwt Hi) as [Hin <-]. apply list_elem_of_lookup in Hin as [n Hn].
    destruct (Forall2_lookup_l _ _ _ _ _ Hmv Hn) as (j & Hj & x & _ & _ & ->). apply list_elem_of_lookup_2 in Hj.
    eexists. split_and!; [by eapply packed_fip_in|by rewrite length_toc, Hlen| |].
    + change (uuid (toc_e i)) with (uuid (toc_e (set_offset x i))). apply toc_find_present; [done| |done|done].
      rewrite (moved_uuids _ _ _ Hmv). by apply present_nodup.
    + eexists. split; [reflexivity|]. destruct (pk_images _ _ _ _ Hpk _ Hj) as (_ & He & Hpos & _ & Hb & Hend).
      pose proof (st_fits _ _ Hst). split; rewrite ?entry_offset_bytes, ?entry_size_bytes by done; cbn in *; [done|done|lia|].
      by rewrite (stored_read _ _ _ _ Hst) by lia.
  - eexists. split_and!; [by eapply packed_fip_in|by rewrite length_toc, Hlen| |done].
    apply toc_find_absent; [done|done|]. intros j Hj. split; [|by apply Hnn]. apply list_elem_of_lookup in Hj as [n Hn].
    destruct (Forall2_lookup_r _ _ _ _ _ Hmv Hn) as (i & Hii & x & _ & _ & ->). cbn.
    eapply image_of_none; [done|done|by eapply list_elem_of_lookup_2].
Qed.
End storage.

(** ** Loading *)
Section load.
Context {ioe : IoEnv} (Hmax : 2 <= MAX_IO_HANDLES < 2 ^ 32).
Context (Hbase : 0 <= PLAT_MARVELL_FIP_BASE) (Hsize : 0 <= PLAT_MARVELL_FIP_MAX_SIZE < 2 ^ 63)
        (Hend : PLAT_MARVELL_FIP_BASE + PLAT_MARVELL_FIP_MAX_SIZE <= 2 ^ 64).
Context {P0 : Type} {E0 : TbEnv P0} (toc_fuel : nat) (stack : list Z).
#[local] Instance booting : TbEnv (P0 * io_state) := with_io toc_fuel stack.
Abbreviation bstate := (tb_state (P0 * io_state)).
Abbreviation fip_entity := (IoEntity fip_dev_info fip_file_ptr).
Abbreviation backend := (memmap_dev_info, fip_block_spec).
Abbreviation closed := (MemmapFile 0 0 0 0).

(** The same state with another one of the I/O layer. *)
Definition put_io (i : io_state) (s : bstate) : bstate := set_tb_plat ((tb_plat s).1, i) s.
Abbreviation io_of s := ((tb_plat s).2).

Lemma wp_io_hook {A} (mm : M io_state A) Q E (s : bstate) :
  wp mm (fun a i => Q a (put_io i s)) (fun h i => E h (put_io i s)) (io_of s) -> wp (tb_hook (on_io mm)) Q E s.
Proof. intros Hw. unfold tb_hook, on_io. by do 2 apply wp_zoom. Qed.

(** Nothing is open and the storage holds [m]. *)
Abbreviation ready_for m s := (idle m (io_of s)).
(** The package file at [e] is open, as the only one. *)
Abbreviation reading e f m s := (io_at [fip_entity] f backend closed m (io_of s) /\ fip_entry f = e).

(** [with_image] on a stored package: an image that is not in it is reported,
    another one is opened for the body and closed after it. *)
Lemma wp_with_image {A} m toc id spec u r (out : A) body Q E (s : bstate) :
  ready_for m s -> fip_in m toc -> spec_of_id id = Some spec -> uuid_of_spec spec = Some u ->
  (length toc <= toc_fuel)%nat -> toc_find u toc = Some r ->
  match r with
  | None => forall i, idle m i -> Q (- ENOENT, out) (put_io i s)
  | Some e => 0 < entry_size e < 2 ^ 64 /\
      forall i, io_at [fip_entity] (FipFile 0 e) backend closed m i ->
      wp (body 1 (entry_size e))
         (fun r s2 => exists f, reading e f m s2 /\ forall i2, idle m i2 -> Q r (put_io i2 s2)) E (put_io i s)
  end -> wp (with_image id out body) Q E s.
Proof.
  intros Hidle Hfip Hid Huuid Hfuel Hfind HQ. unfold with_image. wp_step. apply wp_io_hook.
  eapply (wp_get_source Hmax Hbase Hsize Hend toc_fuel stack); [done|done|done|done|done|done|]. intros i1 Hready.
  destruct r as [e|].
  2:{ rewrite decide_False by (by intros [? ?]). change (negb (- ENOENT =? 0)) with true. cbv iota. apply wp_ret, HQ. by apply ready_idle. }
  rewrite decide_True by eauto. cbn [Z.eqb negb]. wp_step. apply wp_io_hook. cbn [put_io set_tb_plat tb_plat snd].
  eapply (wp_open_file Hmax Hbase Hsize Hend toc_fuel stack); [done|done|done|done|done|]. intros i2 Hat Hlen. cbn [fst snd Z.eqb negb].
  wp_step. apply wp_io_hook. cbn [put_io set_tb_plat tb_plat snd fst]. destruct HQ as [Hsz HQ].
  eapply (wp_size_file toc_fuel stack); [exact Hat|]. cbn [fst snd Z.eqb negb orb]. rewrite u64_small by lia.
  destruct (Z.eqb_spec (entry_size e) 0); [lia|]. wp_step. eapply wp_mono; [exact (HQ i2 Hat)| |done]. cbn beta.
  intros a s2 (f & [Hat2 Hf] & HQ2). wp_step. apply wp_io_hook.
  eapply (wp_close_file Hmax toc_fuel stack); [exact Hat2|by rewrite Hf|done|]. intros i3 Hr3. wp_step. apply wp_io_hook.
  eapply (wp_dev_close_fip toc_fuel stack); [exact Hr3|]. intros i4 Hi4. apply wp_ret. exact (HQ2 _ Hi4).
Qed.

(** [image_size()] on a stored package. *)
Lemma wp_size_of_image m toc id spec u r Q E (s : bstate) :
  ready_for m s -> fip_in m toc -> spec_of_id id = Some spec -> uuid_of_spec spec = Some u ->
  (length toc <= toc_fuel)%nat -> toc_find u toc = Some r ->
  (forall i, idle m i -> Q (match r with Some e => u64 (entry_size e) | None => 0 end) (put_io i s)) ->
  wp (size_of_image id) Q E s.
Proof.
  intros Hidle Hfip Hid Huuid Hfuel Hfind HQ. unfold size_of_image. wp_step. apply wp_io_hook.
  eapply (wp_get_source Hmax Hbase Hsize Hend toc_fuel stack); [done|done|done|done|done|done|]. intros i1 Hready.
  destruct r as [e|].
  2:{ rewrite decide_False by (by intros [? ?]). change (negb (- ENOENT =? 0)) with true. cbv iota. apply wp_ret, HQ. by apply ready_idle. }
  rewrite decide_True by eauto. cbn [Z.eqb negb]. wp_step. apply wp_io_hook. cbn [put_io set_tb_plat tb_plat snd].
  eapply (wp_open_file Hmax Hbase Hsize Hend toc_fuel stack); [done|done|done|done|done|]. intros i2 Hat Hlen. cbn [fst snd Z.eqb negb].
  wp_step. apply wp_io_hook. cbn [put_io set_tb_plat tb_plat snd fst]. eapply (wp_size_file toc_fuel stack); [exact Hat|]. wp_step.
  apply wp_io_hook. eapply (wp_close_file Hmax toc_fuel stack); [exact Hat|done|done|]. intros i3 Hr3. wp_step. apply wp_io_hook.
  eapply (wp_dev_close_fip toc_fuel stack); [exact Hr3|]. intros i4 Hi4. apply wp_ret. exact (HQ _ Hi4).
Qed.

Lemma wp_read_packaged m i e base Q E (s : bstate) :
  entry_for m i e -> Fiptool.toc_size (Fiptool.toc_e i) = Z.of_nat (length (Fiptool.buffer i)) -> 0 < Fiptool.toc_size (Fiptool.toc_e i) ->
  PLAT_ALLOW_ZERO_ADDR_COPY || truthy base = true ->
  io_at [fip_entity] (FipFile 0 e) backend closed m (io_of s) ->
  (forall f i1, io_at [fip_entity] f backend closed m i1 -> fip_entry f = e ->
     Q (0, entry_size e) (set_mem (write_bytes (tb_mem s) base (Fiptool.buffer i)) (put_io i1 s))) ->
  wp (read_image 1 base (entry_size e)) Q E s.
Proof.
  intros [Hs Ho Hf Hb] Hlen Hpos Hz Hat HQ. unfold read_image. wp_step. apply wp_io_hook.
  eapply (wp_read_file Hmax Hbase Hsize Hend toc_fuel stack); [exact Hat|done|lia|lia|lia|lia|]. intros f i1 Hat1 Hf1. unfold store_bytes. wp_steps.
  cbn [fst snd]. rewrite Hs, Hb, <- Hlen. rewrite Hs in HQ. exact (HQ f i1 Hat1 Hf1).
Qed.

(** A package of the table [descs] in the storage, big enough tables of the
    model, and an image identifier of the load policy. *)
Record package (descs : list Fiptool.image_desc_t) (flags k : Z) (m : memory) (id spec : Z) (u : list Z) : Prop := {
  pa_align : 0 <= k < 64;
  pa_table : wf_table descs;
  pa_fits : table_fits descs (2 ^ k);
  pa_stored : stored (Fiptool.pack_images descs flags (2 ^ k)) m;
  pa_fuel : (length (Fiptool.present descs) < toc_fuel)%nat;
  pa_spec : spec_of_id id = Some spec;
  pa_uuid : uuid_of_spec spec = Some u
}.

Lemma spec_uuid_not_null spec u : uuid_of_spec spec = Some u -> u <> uuid_null.
Proof.
  unfold uuid_of_spec. intros Hu. repeat (destruct (_ =? _); [injection Hu as <-; vm_compute; congruence|]). done.
Qed.

Lemma package_image descs flags k m id spec u i :
  package descs flags k m id spec u -> image_of u descs = Some i ->
  Fiptool.toc_size (Fiptool.toc_e i) = Z.of_nat (length (Fiptool.buffer i)) /\ 0 < Fiptool.toc_size (Fiptool.toc_e i).
Proof.
  intros [_ Hwt _ _ _ _ _] Hi. destruct (image_of_in _ _ _ Hwt Hi) as [Hin _].
  destruct (proj1 (Forall_forall _ _) (wt_images _ Hwt) i Hin) as [_ Hs Hp _]. done.
Qed.

(** The body of [load_image] runs for an image of the package, with its entry
    open; everything else is reported as missing. *)
Lemma wp_with_packaged {A} descs flags k m id spec u (out : A) body Q E (s : bstate) :
  package descs flags k m id spec u -> ready_for m s ->
  match image_of u descs with
  | None => forall i, idle m i -> Q (- ENOENT, out) (put_io i s)
  | Some im => forall e i, entry_for m im e -> io_at [fip_entity] (FipFile 0 e) backend closed m i ->
      wp (body 1 (entry_size e))
         (fun r s2 => exists f, reading e f m s2 /\ forall i2, idle m i2 -> Q r (put_io i2 s2)) E (put_io i s)
  end -> wp (with_image id out body) Q E s.
Proof.
  intros Hpa Hidle HQ. destruct (Hpa) as [Hk Hwt Hfit Hst Hfuel Hspec Huuid].
  destruct (package_search _ _ _ _ u Hk Hwt Hfit Hst (spec_uuid_not_null _ _ Huuid)) as (toc & r & Hfip & Hlen & Hfind & Hr).
  eapply wp_with_image; [done|done|done|done|by rewrite Hlen|done|]. destruct (image_of u descs) as [im|] eqn:Hi; [|by subst].
  destruct Hr as (e & -> & He). destruct (package_image _ _ _ _ _ _ _ _ Hpa Hi). pose proof (ef_size _ _ _ He).
  split; [pose proof (ef_fits _ _ _ He); pose proof (ef_offset _ _ _ He); lia|]. intros i Hat. by apply HQ.
Qed.

(** [image_size()] reports the size of a packaged image, and 0 for another. *)
Lemma packaged_image_size descs flags k m id spec u (s : bstate) :
  package descs flags k m id spec u -> idle m (tb_plat s).2 ->
  exists i', idle m i' /\
    size_of_image id s = Ret (from_option (fun im => Fiptool.toc_size (Fiptool.toc_e im)) 0 (image_of u descs)) (put_io i' s).
Proof.
  intros Hpa Hidle. destruct (Hpa) as [Hk Hwt Hfit Hst Hfuel Hspec Huuid].
  destruct (package_search _ _ _ _ u Hk Hwt Hfit Hst (spec_uuid_not_null _ _ Huuid)) as (toc & r & Hfip & Hlen & Hfind & Hr).
  destruct (wp_returns (size_of_image id) (fun n s' => exists i', idle m i' /\ s' = put_io i' s /\
    n = match r with Some e => u64 (entry_size e) | None => 0 end) s) as (n & s' & Hrun & i' & Hi' & -> & ->).
  { eapply wp_size_of_image; [done|done|done|done|by rewrite Hlen|done|]. intros i Hi. by exists i. }
  exists i'. split; [done|]. rewrite Hrun. f_equal. destruct (image_of u descs) as [im|] eqn:Hi; [|by subst].
  destruct Hr as (e & -> & He). cbn. rewrite (ef_size _ _ _ He), u64_small; [done|].
  destruct (package_image _ _ _ _ _ _ _ _ Hpa Hi). pose proof (ef_fits _ _ _ He). pose proof (ef_offset _ _ _ He). lia.
Qed.

(** From the packaging tool to the memory of the boot loader: the image
    loader of the LOAD_IMAGE_V2 build, run on the FIP driver, the
    memory-mapped driver and a package that [pack_images] wrote, puts exactly
    the bytes of the packaged image at the load address and records its size;
    an image above the size limit and an image that is not in the package are
    refused and nothing is written; in every case all handles are closed
    again. *)
Theorem packaged_image_loads descs flags k m id spec u info (s : bstate) :
  package descs flags k m id spec u -> idle m (tb_plat s).2 ->
  image_max_size info < 2 ^ 32 -> PLAT_ALLOW_ZERO_ADDR_COPY || truthy (image_base info) = true ->
  exists rc info' mem' i', load_image_v2 id info s = Ret (rc, info') (set_mem mem' (put_io i' s)) /\ idle m i' /\
    match image_of u descs with
    | None => rc = - ENOENT /\ info' = info /\ mem' = tb_mem s
    | Some im =>
        if image_max_size info <? Fiptool.toc_size (Fiptool.toc_e im)
        then rc = - EFBIG /\ info' = info /\ mem' = tb_mem s
        else rc = 0 /\ info' = ImageInfo (image_base info) (Fiptool.toc_size (Fiptool.toc_e im)) (image_max_size info) /\
             mem' = write_bytes (tb_mem s) (image_base info) (Fiptool.buffer im)
    end.
Proof.
  intros Hpa Hidle Hmx Hz.
  assert (Hw : wp (load_image_v2 id info) (fun r s' => exists mem' i', s' = set_mem mem' (put_io i' s) /\ idle m i' /\
    match image_of u descs with
    | None => r = (- ENOENT, info) /\ mem' = tb_mem s
    | Some im =>
        if image_max_size info <? Fiptool.toc_size (Fiptool.toc_e im) then r = (- EFBIG, info) /\ mem' = tb_mem s
        else r = (0, ImageInfo (image_base info) (Fiptool.toc_size (Fiptool.toc_e im)) (image_max_size info)) /\
             mem' = write_bytes (tb_mem s) (image_base info) (Fiptool.buffer im)
    end) (fun _ _ => False) s).
  { unfold load_image_v2. eapply wp_with_packaged; [done|done|].
    destruct (image_of u descs) as [im|] eqn:Hi; [|by intros i Hi2; exists (tb_mem s), i; destruct s].
    destruct (package_image _ _ _ _ _ _ _ _ Hpa Hi) as [Hlen Hpos]. intros e i He Hat. rewrite (ef_size _ _ _ He).
    destruct (Z.ltb_spec (image_max_size info) (Fiptool.toc_size (Fiptool.toc_e im))) as [Hbig|Hok].
    - apply wp_ret. exists (FipFile 0 e). split_and!; [done|done|]. intros i2 Hi2. exists (tb_mem s), i2. by destruct s.
    - wp_step. rewrite <- (ef_size _ _ _ He). eapply (wp_read_packaged m im); [done|done|done|done|exact Hat|].
      intros f i1 Hat1 Hf. apply wp_ret. exists f. split_and!; [done|done|]. intros i2 Hi2. do 2 eexists.
      split_and!; [reflexivity|done|by rewrite (ef_size _ _ _ He), u32_small by lia|done]. }
  destruct (wp_returns _ _ _ Hw) as ([rc info'] & s' & Hrun & mem' & i' & -> & Hi' & Hcase). exists rc, info', mem', i'.
  split_and!; [done|done|]. destruct (image_of u descs) as [im|]; [destruct (_ <? _)|]; by destruct Hcase as [[= -> ->] ->].
Qed.

(** What stays free does not meet the bytes from [a]. *)
Definition keeps_clear (l : meminfo_t) (a n : Z) : Prop :=
  forall x, free_base l <= x < free_base l + free_size l -> ~ (a <= x < a + n).

(** [C10] The same for the build without LOAD_IMAGE_V2, which the platform
    uses, on behalf of a caller that passes an entry point: the image is
    loaded when the free memory of the layout has room for it at the load
    address and refused with -ENOMEM otherwise; after a load the entry point
    is the load address and the memory that stays free does not meet the
    image. *)
Theorem packaged_image_loads_v1 descs flags k m id spec u base o pc (s : bstate) :
  package descs flags k m id spec u -> idle m (tb_plat s).2 -> PLAT_ALLOW_ZERO_ADDR_COPY || truthy base = true ->
  0 <= base < 2 ^ 64 -> 0 <= free_base (lo_layout o) < 2 ^ 64 -> 0 <= free_size (lo_layout o) < 2 ^ 64 -> lo_pc o = Some pc ->
  exists rc o' s', load_image_v1 id base o s = Ret (rc, o') s' /\ idle m (tb_plat s').2 /\
    match image_of u descs with
    | None => rc = - ENOENT /\ o' = o /\ tb_mem s' = tb_mem s
    | Some im =>
        let n := Fiptool.toc_size (Fiptool.toc_e im) in
        if is_mem_free (free_base (lo_layout o)) (free_size (lo_layout o)) base n
        then rc = 0 /\ lo_info o' = ImageInfo base (u32 n) (image_max_size (lo_info o)) /\ lo_pc o' = Some base /\
             tb_mem s' = write_bytes (tb_mem s) base (Fiptool.buffer im) /\ keeps_clear (lo_layout o') base n
        else rc = - ENOMEM /\ o' = o /\ tb_mem s' = tb_mem s
    end.
Proof.
  intros Hpa Hidle Hz Hb Hfb Hfs Hpc. set (post := fun r (s' : bstate) => idle m (tb_plat s').2 /\
    match image_of u descs with
    | None => r = (- ENOENT, o) /\ tb_mem s' = tb_mem s
    | Some im =>
        let n := Fiptool.toc_size (Fiptool.toc_e im) in
        if is_mem_free (free_base (lo_layout o)) (free_size (lo_layout o)) base n
        then r.1 = 0 /\ lo_info r.2 = ImageInfo base (u32 n) (image_max_size (lo_info o)) /\ lo_pc r.2 = Some base /\
             tb_mem s' = write_bytes (tb_mem s) base (Fiptool.buffer im) /\ keeps_clear (lo_layout r.2) base n
        else r = (- ENOMEM, o) /\ tb_mem s' = tb_mem s
    end).
  assert (Hw : wp (load_image_v1 id base o) post (fun _ _ => False) s).
  { unfold load_image_v1. eapply wp_with_packaged; [done|done|]. unfold post.
    destruct (image_of u descs) as [im|] eqn:Hi; [|done]. destruct (package_image _ _ _ _ _ _ _ _ Hpa Hi) as [Hlen Hpos].
    intros e i He Hat. pose proof (ef_fits _ _ _ He). pose proof (ef_offset _ _ _ He). rewrite (ef_size _ _ _ He). cbv zeta.
    destruct (is_mem_free _ _ base _) eqn:Hfree; cbn [negb]; [|apply wp_ret; exists (FipFile 0 e); by split_and!].
    wp_step. rewrite <- (ef_size _ _ _ He). eapply (wp_read_packaged m im); [done|done|done|done|exact Hat|]. intros f i1 Hat1 Hf. cbn [fst snd].
    rewrite Z.ltb_irrefl. cbn [Z.eqb negb orb]. rewrite Hpc, (ef_size _ _ _ He). wp_step. wp_step.
    assert (Hn : 0 < Fiptool.toc_size (Fiptool.toc_e im) < 2 ^ 64) by lia.
    destruct (reserve_mem_spec _ _ _ _ (set_mem (write_bytes (tb_mem s) base (Fiptool.buffer im)) (put_io i1 s)) Hfb Hfs Hb
      Hn Hfree) as (fb & fs & Hrun & _ & _ & _ & Hclear).
    eapply wp_run; [exact Hrun|]. wp_step. wp_step. apply wp_when; intros Ht; unfold flush_dcache_range, tb_emit; wp_steps;
      exists f; split_and!; done. }
  destruct (wp_returns _ _ _ Hw) as ([rc o'] & s' & Hrun & Hi' & Hcase). exists rc, o', s'. split_and!; [done|done|].
  destruct (image_of u descs) as [im|]; [cbv zeta in *; destruct (is_mem_free _ _ _ _); [done|]|]; by destruct Hcase as [[= -> ->] ->].
Qed.
End load.

(** ** Set-up *)
Section setup.
Context {ioe : IoEnv} (Hdev : 2 <= MAX_IO_DEVICES < 2 ^ 32).

(** The I/O layer in zeroed memory, with [m] in the storage. *)
Definition io_zero (m : memory) : io_state :=
  IoState (replicate (Z.to_nat MAX_IO_HANDLES) (IoEntity 0 0)) (replicate (Z.to_nat MAX_IO_HANDLES) 0) 0
    (replicate (Z.to_nat MAX_IO_DEVICES) 0) 0 (FipFile 0 (replicate 40 0)) 0 0 (MemmapFile 0 0 0 0) m 0 0.

Lemma wp_register d Q E s :
  truthy d = true -> 0 <= dev_count s < MAX_IO_DEVICES -> length (devices s) = Z.to_nat MAX_IO_DEVICES ->
  (forall l, length l = Z.to_nat MAX_IO_DEVICES -> Q 0 (set_devices l (dev_count s + 1) s)) -> wp (io_register_device d) Q E s.
Proof.
  intros Hd Hc Hl HQ. unfold io_register_device. wp_steps. apply wp_io_assert; [done|]. wp_steps.
  destruct (Z.ltb_spec (dev_count s) MAX_IO_DEVICES); [|lia]. wp_steps. rewrite arr_set_in_range by lia. wp_steps.
  rewrite u32_small by lia. apply HQ. by rewrite length_insert.
Qed.

(** [marvell_io_setup] registers and opens both devices; nothing is open. *)
Lemma io_setup_idle m : exists s', marvell_io_setup (io_zero m) = Ret tt s' /\ idle m s'.
Proof.
  assert (Hw : wp marvell_io_setup (fun _ s => idle m s) (fun _ _ => False) (io_zero m)).
  { unfold marvell_io_setup, register_io_dev_fip, register_io_dev_memmap. wp_steps.
    apply wp_register; [done|cbn; lia|cbn; by rewrite length_replicate|]. intros l Hl. wp_steps. apply wp_io_assert; [done|]. wp_steps.
    apply wp_register; [done|cbn; lia|done|]. intros l2 Hl2. wp_steps. apply wp_io_assert; [done|]. wp_steps. cbn [fst snd Z.eqb].
    unfold io_dev_open. wp_steps. apply wp_io_assert; [done|]. wp_steps. unfold fip_dev_open. wp_steps. apply wp_io_assert; [done|]. wp_steps.
    apply wp_io_assert; [done|]. wp_steps. unfold memmap_dev_open. wp_steps. apply wp_io_assert; [done|].
    exists (FipFile 0 (replicate 40 0)), (0, 0), (MemmapFile 0 0 0 0). split_and!; [|done|done].
    split; cbn; try done; [by rewrite length_replicate|]. unfold map_of. cbn. by rewrite Nat.sub_0_r. }
  destruct (wp_returns _ _ _ Hw) as ([] & s' & ? & ?). by exists s'.
Qed.
End setup.

(** ** Instances *)
Module BootWitnesses.
Import FiptoolWitnesses.

Definition ioe : IoEnv := {|
  IO_ASSERTIONS := true; MAX_IO_HANDLES := 4; MAX_IO_DEVICES := 3; PLAT_ALLOW_ZERO_ADDR_COPY := false;
  PLAT_MARVELL_FIP_BASE := 0x4120000; PLAT_MARVELL_FIP_MAX_SIZE := 0x4000000 |}.
Definition table : list Fiptool.image_desc_t := some_table [1; 2; 3; 4].
Definition fip : Fiptool.file_t := Fiptool.pack_images table 0 (2 ^ 4).
Definition storage : memory := fun x => Fiptool.contents fip (x - 0x4120000).
Definition e0 : TbEnv Z := TbbExample.env true false false (fun _ => []) 0.

Lemma package_stored : package (ioe := ioe) 8 table 0 4 storage BL31_IMAGE_ID bl31_uuid_spec bl31_uuid.
Proof.
  split; [lia|apply some_table_wf|vm_compute; congruence| |vm_compute; lia|reflexivity|reflexivity].
  split; [intros x _; unfold storage; f_equal; cbn; lia|vm_compute; congruence].
Qed.

(** The state of the boot loader after the set-up of the I/O layer. *)
Definition booted (i : io_state) : tb_state (Z * io_state) :=
  TbState (fun _ => 0) [INVALID_IDX; INVALID_IDX; 0] [] [] INVALID_IMAGE_ID [] (0, i) [].

Lemma devices_ok : 2 <= MAX_IO_DEVICES (IoEnv := ioe) < 2 ^ 32.
Proof. vm_compute; by split. Qed.
Lemma handles_ok : 2 <= MAX_IO_HANDLES (IoEnv := ioe) < 2 ^ 32.
Proof. vm_compute; by split. Qed.
Lemma base_ok : 0 <= PLAT_MARVELL_FIP_BASE (IoEnv := ioe).
Proof. done. Qed.
Lemma size_ok : 0 <= PLAT_MARVELL_FIP_MAX_SIZE (IoEnv := ioe) < 2 ^ 63.
Proof. vm_compute; by split. Qed.
Lemma end_ok : PLAT_MARVELL_FIP_BASE (IoEnv := ioe) + PLAT_MARVELL_FIP_MAX_SIZE (IoEnv := ioe) <= 2 ^ 64.
Proof. done. Qed.

Lemma packaged_image_loads_witness :
  exists i i', idle (ioe := ioe) storage i' /\
    load_image_v2 (TbEnv0 := with_io (E0 := e0) (ioe := ioe) 8 []) BL31_IMAGE_ID (ImageInfo 0x4020000 0 0x1000) (booted i) =
    Ret (0, ImageInfo 0x4020000 4 0x1000) (set_mem (write_bytes (fun _ => 0) 0x4020000 [1; 2; 3; 4]) (put_io i' (booted i))).
Proof.
  destruct (io_setup_idle (ioe := ioe) devices_ok storage) as (i & _ & Hi). exists i.
  destruct (packaged_image_loads (ioe := ioe) handles_ok base_ok size_ok end_ok (E0 := e0) 8 []
    table 0 4 storage BL31_IMAGE_ID bl31_uuid_spec bl31_uuid (ImageInfo 0x4020000 0 0x1000) (booted i))
    as (rc & info' & mem' & i' & Hrun & Hi' & Hres); [apply package_stored|exact Hi|cbn; lia|reflexivity|].
  exists i'. split; [exact Hi'|]. destruct Hres as (-> & -> & ->). exact Hrun.
Defined.

Lemma packaged_image_loads_v1_witness :
  exists i o' s', idle (ioe := ioe) storage (tb_plat s').2 /\ lo_pc o' = Some 0x4020000 /\
    load_image_v1 (TbEnv0 := with_io (E0 := e0) (ioe := ioe) 8 []) BL31_IMAGE_ID 0x4020000
      (LoadOut (MemInfo 0x4000000 0x40000 0x4001000 0x3f000) (ImageInfo 0 0 0) (Some 0)) (booted i) = Ret (0, o') s'.
Proof.
  destruct (io_setup_idle (ioe := ioe) devices_ok storage) as (i & _ & Hi). exists i.
  destruct (packaged_image_loads_v1 (ioe := ioe) handles_ok base_ok size_ok end_ok (E0 := e0) 8 []
    table 0 4 storage BL31_IMAGE_ID bl31_uuid_spec bl31_uuid 0x4020000
    (LoadOut (MemInfo 0x4000000 0x40000 0x4001000 0x3f000) (ImageInfo 0 0 0) (Some 0)) 0 (booted i))
    as (rc & o' & s' & Hrun & Hi' & Hres); [apply package_stored|exact Hi|reflexivity|cbn; lia|cbn; lia|cbn; lia|reflexivity|].
  destruct Hres as (-> & _ & Hpc & _). exists o', s'. split; [exact Hi'|]. split; [exact Hpc|exact Hrun].
Defined.
End BootWitnesses.
