(* ===== verification/FwuInv.v ===== *)
(** * Firmware update: the invariant of the image descriptors

    Which images are loaded, where their bytes are and what is known about
    them, in terms of the descriptor table, the table of loaded identifiers
    and memory.  [inv_update] is the single rule by which every operation of
    bl1_fwu.c is shown to preserve it. *)
From stdpp Require Import base list numbers option strings sets.
From Stdlib Require Import ZArith Lia.
From S2P Require Import Prelude TbbDefs AuthMod BlCommon Bl1Fwu TbbLemmas AuthProps.
#[local] Open Scope Z_scope.

(** What is known about an authenticated image: its identifier, address, size
    and bytes. *)
Definition evidence : Type := Z -> Z -> Z -> list Z -> Prop.

Section inv.
Context {P : Type} `{!TbEnv P}.

Context {V : evidence}.
Implicit Types (s : tb_state P) (d e : image_desc_t) (ds : list image_desc_t) (ld : list Z) (m : memory).

Definition secure d : Prop := GET_SECURITY_STATE (ep_attr d) = SECURE.
Definition base d : Z := image_base (image_info d).
Definition size d : Z := image_size (image_info d).
Definition in_image d (x : Z) : Prop := base d <= x < base d + size d.

(** The memory an image may be copied to: up to its maximum size, or the free
    memory of the platform in builds without LOAD_IMAGE_V2. *)
Definition window d (x : Z) : Prop :=
  if LOAD_IMAGE_V2 then base d <= x < base d + image_max_size (image_info d)
  else free_base bl1_plat_sec_mem_layout <= x < free_base bl1_plat_sec_mem_layout + free_size bl1_plat_sec_mem_layout.

(** What never changes about a descriptor, and the ranges of its numbers. *)
Record desc_ok d : Prop := {
  do_id : image_id d <> INVALID_IMAGE_ID;
  do_base : 0 <= base d < 2 ^ 64;
  do_max : 0 <= image_max_size (image_info d) < 2 ^ 32;
  do_window : secure d -> forall x, window d x -> 0 <= x < 2 ^ 64 /\ ~ param_region x;
  do_size : 0 <= size d < 2 ^ 32;
  do_copied : 0 <= copied_size d < 2 ^ 32
}.

(** An image with bytes in memory: some have been copied and it is loaded. *)
Definition live ld d : Prop := image_id d ∈ ld /\ copied_size d <> 0.

Definition state_ok m ld d : Prop :=
  match state d with
  | IMAGE_STATE_RESET => image_id d ∈ ld -> copied_size d = 0
  | IMAGE_STATE_COPYING => live ld d /\ copied_size d < size d
  | IMAGE_STATE_COPIED => live ld d /\ copied_size d = size d
  | IMAGE_STATE_AUTHENTICATED =>
      secure d -> live ld d /\ copied_size d = size d /\ V (image_id d) (base d) (size d) (read_bytes m (base d) (size d))
  | IMAGE_STATE_EXECUTED | IMAGE_STATE_INTERRUPTED => True
  end.

Record live_ok d : Prop := {
  lo_secure : secure d;
  lo_copied : copied_size d <= size d;
  lo_fits : forall x, in_image d x -> window d x
}.

Definition disjoint d e : Prop := forall x, ~ (in_image d x /\ in_image e x).

Record image_ok m ld d : Prop := {
  io_desc : desc_ok d;
  io_state : state_ok m ld d;
  io_live : live ld d -> live_ok d;
  io_copied : ~ secure d -> copied_size d = 0
}.

(** Every identifier is at most once in the table of loaded images. *)
Definition loaded_ok ld : Prop := forall i j x, ld !! i = Some x -> ld !! j = Some x -> x <> INVALID_IMAGE_ID -> i = j.

Record inv ds ld m : Prop := {
  iv_layout : 0 <= free_base bl1_plat_sec_mem_layout < 2 ^ 64 /\ 0 <= free_size bl1_plat_sec_mem_layout < 2 ^ 64;
  iv_ids : NoDup (image_id <$> ds);
  iv_images : forall d, d ∈ ds -> image_ok m ld d;
  iv_loaded : loaded_ok ld;
  iv_disjoint : forall d e, d ∈ ds -> e ∈ ds -> image_id d <> image_id e -> live ld d -> live ld e -> disjoint d e
}.
Definition fwu_inv s : Prop := inv (bl1_tbbr_image_descs s) (bl1_fwu_loaded_ids s) (tb_mem s).

(** ** Replacing one descriptor *)
Lemma desc_unique ds i j d e :
  NoDup (image_id <$> ds) -> ds !! i = Some d -> ds !! j = Some e -> image_id d = image_id e -> i = j.
Proof.
  intros Hnd Hd He Hid. eapply NoDup_lookup; [done|..]; rewrite list_lookup_fmap, ?Hd, ?He; cbn; by rewrite ?Hid.
Qed.

Lemma ids_insert ds i d d' :
  ds !! i = Some d -> image_id d' = image_id d -> image_id <$> <[i := d']> ds = image_id <$> ds.
Proof.
  intros Hd Hid. rewrite list_fmap_insert, Hid. apply list_insert_id. by rewrite list_lookup_fmap, Hd.
Qed.

Lemma elem_insert ds i d d' e :
  NoDup (image_id <$> ds) -> ds !! i = Some d -> image_id d' = image_id d ->
  e ∈ <[i := d']> ds <-> e = d' \/ (e ∈ ds /\ image_id e <> image_id d).
Proof.
  intros Hnd Hd Hid. pose proof (lookup_lt_Some _ _ _ Hd) as Hlt. rewrite !list_elem_of_lookup. split.
  - intros [j Hj]. destruct (decide (i = j)) as [<-|Hne].
    + rewrite list_lookup_insert_eq in Hj by done. left. congruence.
    + rewrite list_lookup_insert_ne in Hj by done. right. split; [by exists j|]. intros He.
      apply Hne. by eapply desc_unique.
  - intros [->|[[j Hj] He]]; [exists i; by apply list_lookup_insert_eq|]. exists j.
    rewrite list_lookup_insert_ne; [done|]. intros <-. congruence.
Qed.

Definition same_static d d' : Prop :=
  image_id d' = image_id d /\ base d' = base d /\ image_max_size (image_info d') = image_max_size (image_info d) /\
  ep_attr d' = ep_attr d.

Lemma desc_ok_static d d' :
  same_static d d' -> 0 <= size d' < 2 ^ 32 -> 0 <= copied_size d' < 2 ^ 32 -> desc_ok d -> desc_ok d'.
Proof.
  intros (Hi & Hb & Hm & Ha) Hs Hc [H1 H2 H3 H4 H5 H6]. split; try done; [congruence|congruence|congruence|].
  unfold secure, window in *. rewrite Ha, Hb, Hm. exact H4.
Qed.

(** The images other than [d] do not notice the update. *)
Lemma inv_update ds ld m i d d' ld' m' :
  inv ds ld m -> ds !! i = Some d -> image_id d' = image_id d -> loaded_ok ld' ->
  (forall j, j <> image_id d -> j <> INVALID_IMAGE_ID -> j ∈ ld' <-> j ∈ ld) ->
  (forall e x, e ∈ ds -> image_id e <> image_id d -> live ld e -> in_image e x -> m' x = m x) ->
  image_ok m' ld' d' ->
  (live ld' d' -> forall e, e ∈ ds -> image_id e <> image_id d -> live ld e -> disjoint d' e) ->
  inv (<[i := d']> ds) ld' m'.
Proof.
  intros [Hlay Hnd Him Hld Hdj] Hd Hid Hld' Hmem Hm Hok Hdis.
  assert (Hlive : forall e, e ∈ ds -> image_id e <> image_id d -> live ld' e <-> live ld e).
  { intros e He Hne. unfold live. rewrite Hmem; [done|done|apply (Him e He)]. }
  pose proof (fun e => proj1 (elem_insert ds i d d' e Hnd Hd Hid)) as Hel. split; [done|..].
  - by rewrite (ids_insert _ _ d).
  - intros e [->|[He Hne]]%Hel; [done|].
    destruct (Him e He) as [H1 H2 H3 H4]. split; [done| | |done].
    + unfold state_ok in *. destruct (state e); rewrite ?Hlive by done; try done.
      * unfold live in *. rewrite Hmem; [done|done|apply H1].
      * intros Hs. destruct (H2 Hs) as (Hl & Hc & Ha). split_and!; [done|done|].
        erewrite read_ext; [done|]. intros x Hx. eapply Hm; [done|done|done|exact Hx].
    + rewrite Hlive by done. done.
  - done.
  - intros e f [->|[He Hne1]]%Hel [->|[Hf Hne2]]%Hel Hne; [done|..].
    + intros Hl1 Hl2. apply Hdis; [done|done|done|]. by apply Hlive.
    + intros Hl1 Hl2 x [Hx1 Hx2]. eapply (Hdis Hl2 e); [done|done|by apply Hlive|done].
    + rewrite !Hlive by done. by apply Hdj.
Qed.
End inv.
#[global] Arguments state_ok V m ld d : clear implicits.
#[global] Arguments image_ok {P TbEnv0} V m ld d.
#[global] Arguments inv {P TbEnv0} V ds ld m.
#[global] Arguments fwu_inv {P TbEnv0} V s.
