(* ===== verification/FwuOps.v ===== *)
(** * Firmware update: what each operation does

    Runs of the operations of bl1_fwu.c that return, in terms of the
    descriptor table, the loaded identifiers and memory, and the preservation
    of the invariant of FwuInv.v by each of them. *)
From stdpp Require Import base list numbers option strings sets.
From Stdlib Require Import ZArith Lia.
From S2P Require Import Prelude TbbDefs AuthMod BlCommon Bl1Fwu TbbLemmas AuthProps LoadProps FwuInv.
#[local] Open Scope Z_scope.

Section ops.
Context {P : Type} `{!TbEnv P} {V : evidence}.
#[local] Abbreviation inv := (inv V).
#[local] Abbreviation fwu_inv := (fwu_inv V).
#[local] Abbreviation image_ok := (image_ok V).
Implicit Types (s : tb_state P) (d e : image_desc_t) (ds : list image_desc_t) (ld : list Z) (m : memory).

(** ** Descriptors *)
Lemma not_non_secure (x : Z) : GET_SECURITY_STATE x <> NON_SECURE -> GET_SECURITY_STATE x = SECURE.
Proof.
  unfold GET_SECURITY_STATE, PARAM_EP_SECURITY_MASK, SECURE, NON_SECURE. change 1 with (Z.ones 1) at 1 3.
  rewrite Z.land_ones by lia. change (2 ^ 1) with 2. pose proof (Z.mod_pos_bound x 2). lia.
Qed.

Lemma non_secure_flags (x : Z) : GET_SECURITY_STATE x <> SECURE -> GET_SECURITY_STATE x = NON_SECURE.
Proof. intros Hx. destruct (decide (GET_SECURITY_STATE x = NON_SECURE)) as [|Hn]; [done|]. by apply not_non_secure in Hn. Qed.

Lemma find_desc_Some id ds k i :
  find_desc id ds k = Some i -> exists d, arr_get ds (i - k) = Some d /\ image_id d = id /\ k <= i.
Proof.
  revert k. induction ds as [|d ds IH]; cbn; intros k H; [done|]. destruct (Z.eqb_spec (image_id d) id) as [<-|Hne].
  - injection H as <-. exists d. rewrite Z.sub_diag. split_and!; [done|done|lia].
  - destruct (IH _ H) as (e & He & Hid & Hle). exists e. split_and!; [|done|lia]. revert He. unfold arr_get.
    destruct (Z.leb_spec 0 (i - (k + 1))); [|done]. destruct (Z.leb_spec 0 (i - k)); [|lia].
    by replace (Z.to_nat (i - k)) with (S (Z.to_nat (i - (k + 1)))) by lia.
Qed.

Lemma plat_get_run id s o s' :
  bl1_plat_get_image_desc id s = Ret o s' ->
  s' = s /\ forall i, o = Some i -> exists d, arr_get (bl1_tbbr_image_descs s) i = Some d /\ image_id d = id.
Proof.
  unfold bl1_plat_get_image_desc, gets. intros [= <- ->]. split; [done|]. intros i (d & Hd & Hid & _)%find_desc_Some.
  rewrite Z.sub_0_r in Hd. eauto.
Qed.

Lemma get_desc_run i s d s' : get_desc i s = Ret d s' -> s' = s /\ arr_get (bl1_tbbr_image_descs s) i = Some d.
Proof. unfold get_desc. intros H. inv_run H. injection H0 as <- <-. by apply deref_run in H as [H ->]. Qed.

Lemma upd_desc_run i f s u s' :
  upd_desc i f s = Ret u s' -> exists d, arr_get (bl1_tbbr_image_descs s) i = Some d /\
    s' = set_descs (<[Z.to_nat i := f d]> (bl1_tbbr_image_descs s)) s.
Proof.
  unfold upd_desc, put_desc. intros H. inv_run H. apply get_desc_run in H0 as [-> Hd]. inv_run H. injection H0 as <- <-.
  inv_run H. apply deref_run in H0 as [Hl ->]. injection H as _ <-. apply arr_set_Some in Hl as [_ ->]. eauto.
Qed.

Lemma hook_ret {A} (f : M P A) s a s' : tb_hook f s = Ret a s' -> exists p, s' = set_tb_plat p s.
Proof. intros [_ Hp]%hook_run. eexists. exact Hp. Qed.

(** ** The table of loaded images *)
Lemma replace_first_Some old new ld ld' :
  replace_first old new ld = Some ld' -> exists k, ld !! k = Some old /\ ld' = <[k := new]> ld.
Proof.
  revert ld'. induction ld as [|x ld IH]; cbn; intros ld' H; [done|]. destruct (Z.eqb_spec x old) as [->|Hne].
  - injection H as <-. by exists 0%nat.
  - apply fmap_Some in H as (l & Hl & ->). destruct (IH _ Hl) as (k & Hk & ->). by exists (S k).
Qed.

Lemma replace_first_None old new ld : replace_first old new ld = None -> old ∉ ld.
Proof.
  induction ld as [|x ld IH]; cbn; [set_solver|]. destruct (Z.eqb_spec x old) as [->|Hne]; [done|].
  intros H%fmap_None. set_solver.
Qed.

(** A change of the table that concerns [id] only. *)
Record ld_step (id : Z) ld ld' : Prop := {
  ls_ok : loaded_ok ld -> loaded_ok ld';
  ls_other : forall j, j <> id -> j <> INVALID_IMAGE_ID -> j ∈ ld' <-> j ∈ ld
}.
Lemma ld_step_refl id ld : ld_step id ld ld.
Proof. by split. Qed.
Lemma ld_step_trans id ld1 ld2 ld3 : ld_step id ld1 ld2 -> ld_step id ld2 ld3 -> ld_step id ld1 ld3.
Proof. intros [H1 H2] [H3 H4]. split; [auto|]. intros j Hj Hi. by rewrite H4, H2. Qed.

Lemma elem_replace ld k old new j :
  ld !! k = Some old -> j <> old -> j <> new -> j ∈ <[k := new]> ld <-> j ∈ ld.
Proof.
  intros Hk Ho Hn. pose proof (lookup_lt_Some _ _ _ Hk). rewrite !list_elem_of_lookup. split; intros [n Hj].
  - destruct (decide (k = n)) as [<-|Hne].
    + rewrite list_lookup_insert_eq in Hj by done. congruence.
    + rewrite list_lookup_insert_ne in Hj by done. eauto.
  - exists n. rewrite list_lookup_insert_ne; [done|]. intros <-. congruence.
Qed.

Lemma existsb_elem id ld : existsb (Z.eqb id) ld = true <-> id ∈ ld.
Proof.
  rewrite existsb_exists. split.
  - intros (x & Hx & ->%Z.eqb_eq). by apply list_elem_of_In.
  - intros H. exists id. split; [by apply list_elem_of_In|apply Z.eqb_refl].
Qed.

Lemma add_loaded_run id s rc s' :
  id <> INVALID_IMAGE_ID -> bl1_fwu_add_loaded_id id s = Ret rc s' ->
  (rc <> 0 /\ s' = s) \/
  (rc = 0 /\ exists ld, s' = set_loaded ld s /\ id ∈ ld /\ ld_step id (bl1_fwu_loaded_ids s) ld /\
     (id ∈ bl1_fwu_loaded_ids s -> ld = bl1_fwu_loaded_ids s)).
Proof.
  intros Hid. unfold bl1_fwu_add_loaded_id. intros H. inv_run H. injection H0 as <- <-.
  destruct (existsb _ _) eqn:Ee.
  { injection H as <- <-. right. split; [done|]. apply existsb_elem in Ee. exists (bl1_fwu_loaded_ids s).
    split_and!; [by destruct s|done|apply ld_step_refl|done]. }
  destruct (replace_first _ _ _) as [ld|] eqn:El; [|injection H as <- <-; by left].
  inv_run H. injection H0 as <- <-. injection H as <- <-. right. split; [done|]. exists ld.
  assert (Hnin : id ∉ bl1_fwu_loaded_ids s) by (rewrite <- existsb_elem; by rewrite Ee).
  apply replace_first_Some in El as (k & Hk & ->). pose proof (lookup_lt_Some _ _ _ Hk) as Hlt.
  split_and!; [done|by apply list_elem_of_lookup_2 with k, list_lookup_insert_eq| |done]. split.
  - intros Hok i j x. rewrite !list_lookup_insert_Some. intros [(<- & <- & _)|(? & Hi)] [(<- & Hx & _)|(? & Hj)] Hinv;
      [done|..|by eapply Hok]; subst; exfalso; apply Hnin; by eapply list_elem_of_lookup_2.
  - intros j Hj Hj'. by apply elem_replace with INVALID_IMAGE_ID.
Qed.

Lemma remove_loaded_run id s rc s' :
  id <> INVALID_IMAGE_ID -> bl1_fwu_remove_loaded_id id s = Ret rc s' ->
  (rc <> 0 /\ s' = s /\ id ∉ bl1_fwu_loaded_ids s) \/
  (rc = 0 /\ id ∈ bl1_fwu_loaded_ids s /\ exists ld, s' = set_loaded ld s /\ ld_step id (bl1_fwu_loaded_ids s) ld /\
     (loaded_ok (bl1_fwu_loaded_ids s) -> id ∉ ld)).
Proof.
  intros Hid. unfold bl1_fwu_remove_loaded_id. intros H. inv_run H. injection H0 as <- <-.
  destruct (replace_first _ _ _) as [ld|] eqn:El.
  2: { injection H as <- <-. left. split_and!; [done|done|by eapply replace_first_None]. }
  inv_run H. injection H0 as <- <-. injection H as <- <-. right.
  apply replace_first_Some in El as (k & Hk & ->). split_and!; [done|by eapply list_elem_of_lookup_2|].
  eexists. split_and!; [done|split|].
  - intros Hok i j x. rewrite !list_lookup_insert_Some. intros [(<- & <- & _)|(? & Hi)] [(<- & Hx & _)|(? & Hj)] Hinv;
      [done|done|by subst|by eapply Hok].
  - intros j Hj Hj'. by apply elem_replace with id.
  - intros Hok (j & Hj)%list_elem_of_lookup. apply list_lookup_insert_Some in Hj as [(<- & ? & _)|(Hne & Hj)]; [done|].
    apply Hne. by eapply Hok.
Qed.

(** ** Overlaps *)
Lemma overlaps_run ids id b f s rc s' :
  overlaps_loop ids id b f s = Ret rc s' ->
  s' = s /\ (rc = 0 -> forall x, x ∈ ids -> x <> INVALID_IMAGE_ID -> x <> id ->
    exists d, d ∈ bl1_tbbr_image_descs s /\ image_id d = x /\
      (size d = 0 \/ u64 (base d + size d - 1) < b \/ f < base d)).
Proof.
  induction ids as [|y ids IH]; cbn; intros H; [injection H as <- <-; split; [done|set_solver]|].
  destruct ((y =? INVALID_IMAGE_ID) || (y =? id)) eqn:Ey.
  { destruct (IH H) as [-> Hx]. split; [done|]. intros Hrc x [->|Hin]%elem_of_cons Hx1 Hx2; [|by apply Hx].
    apply orb_true_iff in Ey as [Ey|Ey]; apply Z.eqb_eq in Ey; done. }
  inv_run H. apply plat_get_run in H0 as [-> Ho]. inv_run H. apply deref_run in H0 as [-> ->].
  inv_run H. apply get_desc_run in H0 as [-> Hd]. destruct (Ho _ eq_refl) as (d & Hd' & Hid).
  rewrite Hd in Hd'. injection Hd' as ->. inv_run H. apply assert_run in H0 as ->.
  assert (Hnext : (size d = 0 \/ u64 (base d + size d - 1) < b \/ f < base d) ->
    overlaps_loop ids id b f s = Ret rc s' -> s' = s /\ (rc = 0 -> forall x, x ∈ y :: ids -> x <> INVALID_IMAGE_ID -> x <> id ->
      exists d, d ∈ bl1_tbbr_image_descs s /\ image_id d = x /\ (size d = 0 \/ u64 (base d + size d - 1) < b \/ f < base d))).
  { intros Hcase Hl. destruct (IH Hl) as [-> Hx]. split; [done|]. intros Hrc x [->|Hin]%elem_of_cons Hx1 Hx2; [|by apply Hx].
    exists d. split_and!; [by eapply arr_get_elem|done|done]. }
  fold (size d) in H. fold (base d) in H. destruct (Z.eqb_spec (size d) 0); [apply Hnext; [by left|done]|].
  inv_run H. apply assert_run in H0 as ->. clear Ey. destruct (_ || _) eqn:Eo in H.
  - apply Hnext; [|done]. right. apply orb_true_iff in Eo as [Eo|Eo]; apply Z.ltb_lt in Eo; auto.
  - injection H as <- <-. done.
Qed.

(** Which addresses a live image can have. *)
Lemma live_addresses m ld d : image_ok m ld d -> live ld d -> 0 < size d /\ base d + size d <= 2 ^ 64.
Proof.
  intros [Hd _ Hl _] Hlive. destruct (Hl Hlive) as [Hs Hc Hf]. destruct Hlive as [_ Hne]. destruct Hd. split; [lia|].
  destruct (do_window Hs (base d + size d - 1)); [|lia]. apply Hf. unfold in_image. lia.
Qed.

Lemma inv_desc_unique s i j d e :
  fwu_inv s -> arr_get (bl1_tbbr_image_descs s) i = Some d -> arr_get (bl1_tbbr_image_descs s) j = Some e ->
  image_id d = image_id e -> d = e.
Proof.
  intros Hinv Hd%arr_get_lookup He%arr_get_lookup Hid. pose proof (desc_unique _ _ _ _ _ (iv_ids _ _ _ Hinv) Hd He Hid). congruence.
Qed.

Lemma check_overlaps_run s i d rc s' :
  NoDup (image_id <$> bl1_tbbr_image_descs s) -> arr_get (bl1_tbbr_image_descs s) i = Some d ->
  bl1_fwu_image_check_overlaps (image_id d) s = Ret rc s' ->
  s' = s /\ (rc = 0 -> forall x, x ∈ bl1_fwu_loaded_ids s -> x <> INVALID_IMAGE_ID -> x <> image_id d ->
    exists e, e ∈ bl1_tbbr_image_descs s /\ image_id e = x /\
      (size e = 0 \/ u64 (base e + size e - 1) < base d \/ u64 (base d + size d - 1) < base e)).
Proof.
  intros Hnd Hd H. unfold bl1_fwu_image_check_overlaps in H. inv_run H. apply plat_get_run in H0 as [-> Ho].
  inv_run H. apply deref_run in H0 as [-> ->]. inv_run H. apply get_desc_run in H0 as [-> Hd1].
  destruct (Ho _ eq_refl) as (d' & Hd' & Hid). rewrite Hd1 in Hd'. injection Hd' as ->.
  assert (d' = d) as ->.
  { pose proof (desc_unique _ _ _ _ _ Hnd (arr_get_lookup _ _ _ Hd1) (arr_get_lookup _ _ _ Hd) Hid) as Heq.
    apply arr_get_lookup in Hd1, Hd. congruence. }
  inv_run H. apply assert_run in H0 as ->. inv_run H. injection H0 as <- <-. by apply overlaps_run in H.
Qed.

(** ** Idle images *)

(** An image that ends up reset, with no bytes of its own in memory. *)
Lemma inv_idle ds ld m i d d' ld' m' :
  inv ds ld m -> ds !! i = Some d -> same_static d d' -> state d' = IMAGE_STATE_RESET ->
  0 <= size d' < 2 ^ 32 -> 0 <= copied_size d' < 2 ^ 32 ->
  (image_id d ∈ ld' -> copied_size d' = 0) -> (~ secure d -> copied_size d' = 0) -> ld_step (image_id d) ld ld' ->
  (forall e x, e ∈ ds -> image_id e <> image_id d -> live ld e -> in_image e x -> m' x = m x) ->
  inv (<[i := d']> ds) ld' m'.
Proof.
  intros Hinv Hd Hst Hreset Hsz Hcp Hnl Hns [Hok Hother] Hm.
  pose proof (iv_images _ _ _ Hinv d (list_elem_of_lookup_2 _ _ _ Hd)) as Him.
  assert (Hlive : ~ live ld' d'). { intros [Hin Hne]. apply Hne, Hnl. by rewrite <- (proj1 Hst). }
  apply (inv_update ds ld m i d); [done|done|apply Hst|apply Hok, (iv_loaded _ _ _ Hinv)|done|done| |done].
  split; [by eapply desc_ok_static, Him| |done|].
  - unfold state_ok. rewrite Hreset. by rewrite (proj1 Hst).
  - unfold secure in *. destruct Hst as (_ & _ & _ & ->). done.
Qed.

(** The invariant depends on three fields only. *)
Lemma inv_same s s' :
  fwu_inv s -> bl1_tbbr_image_descs s' = bl1_tbbr_image_descs s -> bl1_fwu_loaded_ids s' = bl1_fwu_loaded_ids s ->
  tb_mem s' = tb_mem s -> fwu_inv s'.
Proof. unfold fwu_inv. by intros H -> -> ->. Qed.
End ops.
