(* ===== verification/FwuCopy.v ===== *)
(** * Firmware update: IMAGE_COPY

    What the two halves of [bl1_fwu_image_copy] do, and the preservation of
    the invariant. *)
From stdpp Require Import base list numbers option strings sets.
From Stdlib Require Import ZArith Lia.
From S2P Require Import Prelude TbbDefs AuthMod BlCommon Bl1Fwu TbbLemmas AuthProps LoadProps FwuInv FwuOps.
#[local] Open Scope Z_scope.

Section copy.
Context {P : Type} `{!TbEnv P} {V : evidence}.
#[local] Abbreviation inv := (inv V).
#[local] Abbreviation fwu_inv := (fwu_inv V).
#[local] Abbreviation image_ok := (image_ok V).
Implicit Types (s : tb_state P) (d e : image_desc_t).

(** The descriptor after the checks of a first request, and after [n] bytes in
    all have been copied. *)
Definition opened d (n : Z) : image_desc_t := with_copied 0 (with_size n d).
Definition copied_to d (n : Z) : image_desc_t :=
  with_state (if decide (n = size d) then IMAGE_STATE_COPIED else IMAGE_STATE_COPYING) (with_copied n d).

(** An image with room for more: it lies in its window and away from the
    others. *)
Record room s d : Prop := {
  rm_secure : secure d;
  rm_copied : 0 <= copied_size d < size d;
  rm_size : size d < 2 ^ 32;
  rm_fits : forall x, in_image d x -> window d x;
  rm_apart : forall e, e ∈ bl1_tbbr_image_descs s -> image_id e <> image_id d -> live (bl1_fwu_loaded_ids s) e -> disjoint d e
}.

Lemma first_fits d n :
  desc_ok d -> 0 <= free_base bl1_plat_sec_mem_layout < 2 ^ 64 -> 0 <= free_size bl1_plat_sec_mem_layout < 2 ^ 64 ->
  0 < n < 2 ^ 32 ->
  (if LOAD_IMAGE_V2 then image_max_size (image_info d) <? n
   else negb (is_mem_free (free_base bl1_plat_sec_mem_layout) (free_size bl1_plat_sec_mem_layout)
                (image_base (image_info d)) n)) = false ->
  forall x, in_image (with_size n d) x -> window d x.
Proof.
  intros [_ Hb Hm _ _ _] Hfb Hfs Hn. unfold window, in_image, base, size in *. cbn. destruct LOAD_IMAGE_V2.
  - intros H%Z.ltb_ge x Hx. lia.
  - intros Hf%negb_false_iff x Hx. rewrite is_mem_free_spec in Hf by lia. lia.
Qed.

Lemma copy_first_run s i d n rc s' :
  fwu_inv s -> arr_get (bl1_tbbr_image_descs s) i = Some d -> secure d -> 0 <= n < 2 ^ 32 ->
  copy_first (image_id d) i n s = Ret rc s' ->
  (rc <> 0 /\ (s' = s \/ s' = set_descs (<[Z.to_nat i := with_size 0 d]> (bl1_tbbr_image_descs s)) s)) \/
  (rc = 0 /\ s' = set_descs (<[Z.to_nat i := opened d n]> (bl1_tbbr_image_descs s)) s /\ room s (opened d n)).
Proof.
  intros Hinv Hd Hsec Hn H. unfold copy_first in H. pose proof Hinv as [[Hfb Hfs] Hnd Him Hld _].
  pose proof (arr_get_Some_range _ _ _ Hd) as Hi.
  destruct (Z.eqb_spec n 0); [injection H as <- <-; left; split; [done|by left]|].
  inv_run H. apply get_desc_run in H0 as [-> Hd1]. rewrite Hd in Hd1. injection Hd1 as <-.
  destruct (if LOAD_IMAGE_V2 then _ else _) eqn:Efit; [injection H as <- <-; left; split; [done|by left]|].
  pose proof (io_desc _ _ _ (Him d (arr_get_elem _ _ _ Hd))) as Hdok.
  pose proof (first_fits d n Hdok Hfb Hfs ltac:(lia) Efit) as Hfits. clear Efit.
  inv_run H. apply upd_desc_run in H0 as (d1 & Hd1 & ->). rewrite Hd in Hd1. injection Hd1 as <-.
  inv_run H. apply (check_overlaps_run _ i (with_size n d)) in H0 as [-> Hov].
  2: { cbn. by rewrite (ids_insert _ _ d) by (done || by apply arr_get_lookup). }
  2: { cbn. by apply arr_get_insert_eq. }
  unfold truthy in H. destruct (Z.eqb_spec a0 0) as [->|Hrc]; cbn [negb] in H; inv_run H; injection H as <- <-;
    apply upd_desc_run in H0 as (d1 & Hd1 & ->); cbn in Hd1; rewrite arr_get_insert_eq in Hd1 by done;
    injection Hd1 as <-; cbn; rewrite list_insert_insert_eq; [right|left; split; [done|by right]].
  split_and!; [done|done|]. split; [done|cbn; unfold size; cbn; lia|unfold size; cbn; lia|done|].
  intros e He Hne Hlive. destruct (Hov eq_refl (image_id e)) as (e' & He' & Hid & Hdis);
    [apply Hlive|apply (Him e He)|done|]. cbn in He'.
  apply (elem_insert _ _ d) in He' as [->|[He' _]]; [..|done|by apply arr_get_lookup|done]; [done|].
  assert (e' = e) as ->.
  { apply list_elem_of_lookup in He as [k1 Hk1], He' as [k2 Hk2].
    pose proof (desc_unique _ _ _ _ _ Hnd Hk2 Hk1 Hid). congruence. }
  destruct (live_addresses _ _ _ (Him e He) Hlive) as [Hse Hle]. destruct Hdok as [_ Hb _ Hw _ _].
  destruct (Hw Hsec (base d + n - 1)) as [Hw' _]; [apply Hfits; unfold in_image, base, size; cbn; lia|].
  destruct (Him e He) as [[_ Hbe _ _ _ _] _ _ _].
  unfold disjoint, in_image, base, size in *. cbn in *. rewrite !u64_small in Hdis by lia. intros x [Hx1 Hx2]. lia.
Qed.

Lemma copy_next_run s i rc s' : copy_next i s = Ret rc s' -> s' = s /\ rc = 0.
Proof.
  unfold copy_next. intros H. inv_run H. apply get_desc_run in H0 as [-> _].
  do 3 (inv_run H; apply assert_run in H0 as ->). by injection H as <- <-.
Qed.

(** The bytes of one request: the block, cut to what the image still lacks. *)
Definition block_len d (n : Z) : Z := Z.min (size d - copied_size d) n.

Lemma copy_block_run s i d src n flags rc s' :
  desc_ok d -> arr_get (bl1_tbbr_image_descs s) i = Some d -> room s d -> 0 < n ->
  copy_block (image_id d) i src n flags s = Ret rc s' ->
  exists ld, bl1_fwu_loaded_ids s' = ld /\ ld_step (image_id d) (bl1_fwu_loaded_ids s) ld /\
    (image_id d ∈ bl1_fwu_loaded_ids s -> ld = bl1_fwu_loaded_ids s) /\
    ((rc <> 0 /\ tb_mem s' = tb_mem s /\ bl1_tbbr_image_descs s' = bl1_tbbr_image_descs s) \/
     (rc = 0 /\ image_id d ∈ ld /\
      tb_mem s' = write_bytes (tb_mem s) (base d + copied_size d) (read_bytes (tb_mem s) src (block_len d n)) /\
      bl1_tbbr_image_descs s' = <[Z.to_nat i := copied_to d (copied_size d + block_len d n)]> (bl1_tbbr_image_descs s))).
Proof.
  intros Hok Hd [Hsec Hcop Hsz Hfits _] Hn H. unfold copy_block in H. pose proof (arr_get_Some_range _ _ _ Hd) as Hi.
  inv_run H. apply get_desc_run in H0 as [-> Hd1]. rewrite Hd in Hd1. injection Hd1 as <-.
  fold (size d) in H. rewrite (u32_small (size d - copied_size d)) in H by lia.
  assert (Hmin : (if size d - copied_size d <? n then size d - copied_size d else n) = block_len d n).
  { unfold block_len. destruct (Z.ltb_spec (size d - copied_size d) n); lia. }
  rewrite Hmin in H. inv_run H. apply hook_ret in H0 as [p ->].
  destruct (truthy a).
  { injection H as <- <-. eexists. split_and!; [done|apply ld_step_refl|done|]. by left. }
  inv_run H. apply add_loaded_run in H0; [|apply Hok]. destruct H0 as [[Hrc ->]|(-> & ld & -> & Hin & Hls & Hsame)].
  { unfold truthy in H. rewrite (proj2 (Z.eqb_neq _ _) Hrc) in H. injection H as <- <-.
    eexists. split_and!; [done|apply ld_step_refl|done|]. by left. }
  cbn in H, Hls, Hsame. inv_run H.
  assert (exists p', s0 = set_loaded ld (set_tb_plat p' s)) as [p' ->].
  { destruct (decide (state d = IMAGE_STATE_RESET)).
    - apply hook_ret in H0 as [p' ->]. by exists p'.
    - injection H0 as _ <-. by exists p. }
  exists ld. destruct (truthy a0).
  { injection H as <- <-. split_and!; [done|done|done|]. by left. }
  inv_run H. injection H1 as <- <-. inv_run H. injection H1 as _ <-. inv_run H. injection H1 as _ <-.
  inv_run H. apply upd_desc_run in H1 as (d1 & Hd1 & ->). cbn in Hd1. rewrite Hd in Hd1. injection Hd1 as <-.
  inv_run H. apply upd_desc_run in H1 as (d1 & Hd1 & ->). cbn in Hd1. rewrite arr_get_insert_eq in Hd1 by done.
  injection Hd1 as <-. injection H as <- <-. cbn. split_and!; [done|done|done|]. right.
  destruct (do_window _ Hok Hsec (base d + copied_size d)) as [Hw _].
  { apply Hfits. unfold in_image. lia. }
  rewrite list_insert_insert_eq. unfold base in *. rewrite u64_small by lia. split_and!; [done|done|done|].
  f_equal. unfold copied_to. rewrite u32_small by (unfold block_len; lia). f_equal.
  destruct (decide (copied_size d + block_len d n = size d)), (Z.eqb_spec (block_len d n) (size d - copied_size d)); done || lia.
Qed.

(** ** The whole operation *)

(** A request that copied its block: [d] is the descriptor before it and [d0]
    the one the block was added to. *)
Definition copy_done (id src n total : Z) s s' : Prop :=
  0 < n /\ exists i d d0, arr_get (bl1_tbbr_image_descs s) i = Some d /\ image_id d = id /\
    (state d = IMAGE_STATE_COPYING /\ d0 = d \/ state d = IMAGE_STATE_RESET /\ d0 = opened d total) /\ room s d0 /\
    tb_mem s' = write_bytes (tb_mem s) (base d0 + copied_size d0) (read_bytes (tb_mem s) src (block_len d0 n)) /\
    bl1_tbbr_image_descs s' = <[Z.to_nat i := copied_to d0 (copied_size d0 + block_len d0 n)]> (bl1_tbbr_image_descs s) /\
    id ∈ bl1_fwu_loaded_ids s' /\ ld_step id (bl1_fwu_loaded_ids s) (bl1_fwu_loaded_ids s').

(** A request that was refused: at most the size of a reset image and its
    place in the table of loaded images have changed. *)
Definition copy_refused (id : Z) s s' : Prop :=
  tb_mem s' = tb_mem s /\
  ((bl1_tbbr_image_descs s' = bl1_tbbr_image_descs s /\ bl1_fwu_loaded_ids s' = bl1_fwu_loaded_ids s) \/
   exists i d d', arr_get (bl1_tbbr_image_descs s) i = Some d /\ image_id d = id /\ secure d /\
     state d = IMAGE_STATE_RESET /\ same_static d d' /\ state d' = IMAGE_STATE_RESET /\ 0 <= size d' < 2 ^ 32 /\
     bl1_tbbr_image_descs s' = <[Z.to_nat i := d']> (bl1_tbbr_image_descs s) /\
     ((copied_size d' = copied_size d /\ bl1_fwu_loaded_ids s' = bl1_fwu_loaded_ids s) \/
      (copied_size d' = 0 /\ ld_step id (bl1_fwu_loaded_ids s) (bl1_fwu_loaded_ids s')))).

Lemma opened_static d n : same_static d (opened d n).
Proof. done. Qed.

Lemma room_opened s l d : room s d -> room (set_descs (<[l := d]> (bl1_tbbr_image_descs s)) s) d.
Proof.
  intros [? ? ? ? Ha]. split; [done..|]. cbn. intros e [j Hj]%list_elem_of_lookup Hne Hl.
  apply list_lookup_insert_Some in Hj as [(_ & -> & _)|[_ Hj]]; [done|]. apply Ha; [by eapply list_elem_of_lookup_2|done|done].
Qed.

Lemma image_copy_run s id src n total flags rc s' :
  fwu_inv s -> 0 <= n -> 0 <= total < 2 ^ 32 -> bl1_fwu_image_copy id src n total flags s = Ret rc s' ->
  (rc <> 0 /\ copy_refused id s s') \/ (rc = 0 /\ copy_done id src n total s s').
Proof.
  intros Hinv Hn Htot H. unfold bl1_fwu_image_copy in H. assert (Hnop : copy_refused id s s) by (split; [done|by left]).
  inv_run H. apply plat_get_run in H0 as [-> Ho]. destruct a as [i|]; [|injection H as <- <-; by left].
  destruct (Ho i eq_refl) as (d & Hd & <-). clear Ho. inv_run H. apply get_desc_run in H0 as [-> Hd1].
  rewrite Hd in Hd1. injection Hd1 as <-. pose proof (iv_images _ _ _ Hinv d (arr_get_elem _ _ _ Hd)) as Him.
  destruct (GET_SECURITY_STATE flags =? SECURE); [injection H as <- <-; by left|].
  destruct (Z.eqb_spec (GET_SECURITY_STATE (ep_attr d)) NON_SECURE) as [|Hns]; [injection H as <- <-; by left|].
  assert (Hsec : secure d) by (by apply not_non_secure).
  destruct (_ && _) eqn:Est; [injection H as <- <-; by left|].
  destruct ((src =? 0) || _ || _) eqn:Earg; [injection H as <- <-; by left|].
  apply orb_false_iff in Earg as [[_ Hn0%Z.eqb_neq]%orb_false_iff _]. inv_run H.
  destruct (decide (state d = IMAGE_STATE_COPYING)) as [Hst|Hst].
  - apply copy_next_run in H0 as [-> ->]. cbn in H.
    assert (Hstate := io_state _ _ _ Him). unfold state_ok in Hstate. rewrite Hst in Hstate. destruct Hstate as [Hl Hlt].
    destruct (io_live _ _ _ Him Hl) as [_ Hc Hf]. pose proof (io_desc _ _ _ Him) as Hok.
    assert (Hroom : room s d).
    { split; [done|destruct Hok; destruct Hl; lia|apply Hok|done|]. intros e He Hne Hle.
      apply (iv_disjoint _ _ _ Hinv); [by eapply arr_get_elem|done|done|done|done]. }
    destruct (copy_block_run s i d src n flags rc s' Hok Hd Hroom ltac:(lia) H) as (ld & <- & Hls & Hsame & [(Hrc & Hm & Hds)|(Hrc & Hin & Hm & Hds)]).
    + left. split; [done|]. split; [done|]. left. split; [done|]. apply Hsame, Hl.
    + right. split; [done|]. split; [lia|]. exists i, d, d. split_and!; try done. by left.
  - assert (state d = IMAGE_STATE_RESET) as Hreset.
    { apply andb_false_iff in Est as [?%bool_decide_eq_false|?%bool_decide_eq_false]; by apply dec_stable. }
    destruct (copy_first_run s i d total a s0 Hinv Hd Hsec Htot H0) as [[Hrc Hs0]|(-> & -> & Hroom)].
    { unfold truthy in H. rewrite (proj2 (Z.eqb_neq _ _) Hrc) in H. injection H as <- <-. left. split; [done|].
      destruct Hs0 as [->| ->]; [done|]. split; [done|]. right. exists i, d, (with_size 0 d).
      split_and!; try done; [by left]. }
    cbn in H. pose proof (arr_get_Some_range _ _ _ Hd) as Hi.
    assert (Hok : desc_ok (opened d total)).
    { eapply desc_ok_static; [apply opened_static|unfold size; cbn; lia|cbn; lia|apply Him]. }
    eapply (copy_block_run _ i (opened d total)) in H; [|done|by apply arr_get_insert_eq|by apply room_opened|lia].
    destruct H as (ld & <- & Hls & Hsame & [(Hrc & Hm & Hds)|(Hrc & Hin & Hm & Hds)]).
    + left. split; [done|]. split; [done|]. right. exists i, d, (opened d total). split_and!; try done; try (unfold size; cbn; lia). by right.
    + right. split; [done|]. split; [lia|]. exists i, d, (opened d total). cbn in Hds. rewrite list_insert_insert_eq in Hds.
      split_and!; try done. by right.
Qed.

(** ** Preservation of the invariant *)
Lemma refused_inv id s s' : fwu_inv s -> copy_refused id s s' -> fwu_inv s'.
Proof.
  intros Hinv (Hm & [[Hds Hld]|(i & d & d' & Hd & <- & Hsec & Hr & Hst & Hr' & Hsz & Hds & Hcl)]); [by eapply inv_same|].
  pose proof (iv_images _ _ _ Hinv d (arr_get_elem _ _ _ Hd)) as [Hok Hs _ _]. unfold state_ok in Hs. rewrite Hr in Hs.
  unfold fwu_inv. rewrite Hds, Hm. apply arr_get_lookup in Hd. destruct Hok.
  destruct Hcl as [[Hc Hl]|[Hc Hls]]; [rewrite Hl|]; (eapply inv_idle; [exact Hinv|done..| | | | |done]); rewrite ?Hc; try done.
Qed.

Lemma block_len_bounds s d n : room s d -> 0 < n -> 0 < block_len d n <= size d - copied_size d.
Proof. intros [_ Hc _ _ _] Hn. unfold block_len. lia. Qed.

(** Where the bytes of a request go. *)
Lemma block_in_image s d n m src x :
  room s d -> 0 < n -> ~ in_image d x ->
  write_bytes m (base d + copied_size d) (read_bytes m src (block_len d n)) x = m x.
Proof.
  intros Hroom Hn Hx. pose proof (block_len_bounds _ _ _ Hroom Hn). apply write_outside. rewrite length_read.
  intros Hin. apply Hx. unfold in_image. destruct Hroom. lia.
Qed.

Lemma done_inv id src n total s s' :
  fwu_inv s -> 0 <= total < 2 ^ 32 -> copy_done id src n total s s' -> fwu_inv s'.
Proof.
  intros Hinv Htot (Hn & i & d & d0 & Hd & <- & Hd0 & Hroom & Hm & Hds & Hin & Hls).
  pose proof (block_len_bounds _ _ _ Hroom Hn) as Hlen. pose proof Hroom as [Hsec Hc Hsz Hfits Hapart].
  pose proof (iv_images _ _ _ Hinv d (arr_get_elem _ _ _ Hd)) as Him.
  assert (Hst : same_static d d0) by (by destruct Hd0 as [[_ ->]|[_ ->]]). pose proof Hst as (Hid & _).
  unfold fwu_inv. rewrite Hds. set (k := copied_size d0 + block_len d0 n) in *.
  assert (Hlive : live (bl1_fwu_loaded_ids s') (copied_to d0 k)).
  { split; cbn; [by rewrite Hid|unfold k; lia]. }
  eapply (inv_update _ (bl1_fwu_loaded_ids s) (tb_mem s) _ d); [exact Hinv|by apply arr_get_lookup|done| |apply Hls| | |].
  - apply Hls, (iv_loaded _ _ _ Hinv).
  - intros e x He Hne Hle Hx. rewrite Hm. eapply block_in_image; [done|done|]. intros Hx0.
    eapply (Hapart e); [done|congruence|done|]. by split.
  - split.
    + eapply desc_ok_static; [exact Hst|unfold size in *; cbn; lia|cbn; unfold k; lia|apply Him].
    + unfold state_ok, copied_to in *. cbn in *. destruct (decide (k = size d0)); split; try done; unfold size in *; cbn; lia.
    + intros _. split; [done|unfold size in *; cbn; unfold k; lia|done].
    + intros []. done.
  - intros _ e He Hne Hle. apply Hapart; [done|congruence|done].
Qed.

Lemma image_copy_inv s id src n total flags rc s' :
  fwu_inv s -> 0 <= n -> 0 <= total < 2 ^ 32 -> bl1_fwu_image_copy id src n total flags s = Ret rc s' -> fwu_inv s'.
Proof.
  intros Hinv Hn Ht Hrun. destruct (image_copy_run _ _ _ _ _ _ _ _ Hinv Hn Ht Hrun) as [[_ H]|[_ H]].
  - by eapply refused_inv.
  - by eapply done_inv.
Qed.
End copy.
