(* ===== verification/FwuHandlers.v ===== *)
(** * Firmware update: authentication, execution, resumption and reset

    Preservation of the invariant by the remaining operations, and by every
    SMC. *)
From stdpp Require Import base list numbers option strings sets.
From Stdlib Require Import ZArith Lia.
From S2P Require Import Prelude TbbDefs AuthMod BlCommon Bl1Fwu TbbLemmas AuthProps FwuInv FwuOps FwuCopy.
#[local] Open Scope Z_scope.

Section handlers.
Context {P : Type} `{!TbEnv P} {V : evidence}.
#[local] Abbreviation inv := (inv V).
#[local] Abbreviation fwu_inv := (fwu_inv V).
#[local] Abbreviation image_ok := (image_ok V).
Implicit Types (s : tb_state P) (d e : image_desc_t) (ds : list image_desc_t) (ld : list Z) (m : memory).

(** ** Two more rules *)

(** Memory changes that spare the authenticated secure images. *)
Lemma inv_mem ds ld m m' :
  inv ds ld m ->
  (forall d x, d ∈ ds -> secure d -> state d = IMAGE_STATE_AUTHENTICATED -> in_image d x -> m' x = m x) -> inv ds ld m'.
Proof.
  intros [Hlay Hnd Him Hld Hdj] Hm. split; [done|done| |done|done]. intros d Hd. destruct (Him d Hd) as [H1 H2 H3 H4].
  split; [done| |done|done]. unfold state_ok in *. destruct (state d) eqn:Est; try done. intros Hs.
  destruct (H2 Hs) as (Hl & Hc & Ha). split_and!; [done|done|]. erewrite read_ext; [done|]. intros x Hx. by apply (Hm d).
Qed.

Lemma inv_frame s s1 : fwu_inv s -> auth_frame s s1 -> fwu_inv s1.
Proof.
  intros Hinv [Hds _ Hld _ _ _ Hm]. unfold fwu_inv. rewrite Hds, Hld. eapply inv_mem; [exact Hinv|].
  intros d x Hd Hs Ha Hx. apply Hm. destruct (iv_images _ _ _ Hinv d Hd) as [Hok Hst Hl _].
  unfold state_ok in Hst. rewrite Ha in Hst. destruct (Hst Hs) as [Hlive _].
  by eapply (do_window _ Hok Hs), (lo_fits _ (Hl Hlive)).
Qed.

(** A new state (or entry-point field) for a descriptor. *)
Lemma inv_restate ds ld m i d d' :
  inv ds ld m -> ds !! i = Some d -> same_static d d' -> size d' = size d -> copied_size d' = copied_size d ->
  state_ok V m ld d' -> inv (<[i := d']> ds) ld m.
Proof.
  intros Hinv Hd Hst Hsz Hc Hs. pose proof (list_elem_of_lookup_2 _ _ _ Hd) as Hin.
  pose proof (iv_images _ _ _ Hinv d Hin) as [Hok _ Hl Hn]. pose proof Hst as (Hid & Hb & Hmx & Hat).
  assert (Hin_image : forall x, in_image d' x <-> in_image d x) by (intros x; unfold in_image; by rewrite Hb, Hsz).
  assert (Hlive : live ld d' <-> live ld d) by (unfold live; by rewrite Hid, Hc).
  apply (inv_update ds ld m i d); [done|done|done|apply (iv_loaded _ _ _ Hinv)|done|done| |].
  - split; [by eapply desc_ok_static; [done|rewrite Hsz; apply Hok|rewrite Hc; apply Hok|done]|done| |].
    + rewrite Hlive. intros [H1 H2 H3]%Hl. split; unfold secure, window in *; rewrite ?Hat, ?Hc, ?Hsz, ?Hb, ?Hmx; try done.
      intros x Hx%Hin_image. by apply H3.
    + unfold secure. rewrite Hat, Hc. exact Hn.
  - rewrite Hlive. intros Hld e He Hne Hle x. rewrite Hin_image. by apply (iv_disjoint _ _ _ Hinv).
Qed.

(** ** IMAGE_AUTH *)
Lemma auth_image_run s i d b n rc s' :
  arr_get (bl1_tbbr_image_descs s) i = Some d -> image_id d <> INVALID_IMAGE_ID ->
  auth_image (image_id d) i b n s = Ret rc s' ->
  exists r s1, auth_mod_verify_img (image_id d) b n s = Ret r s1 /\
    ((r = 0 /\ rc = 0 /\ tb_mem s' = tb_mem s1 /\ bl1_fwu_loaded_ids s' = bl1_fwu_loaded_ids s /\
      bl1_tbbr_image_descs s' = <[Z.to_nat i := with_state IMAGE_STATE_AUTHENTICATED d]> (bl1_tbbr_image_descs s)) \/
     (r <> 0 /\ rc = - EAUTH /\ ld_step (image_id d) (bl1_fwu_loaded_ids s) (bl1_fwu_loaded_ids s') /\
      (loaded_ok (bl1_fwu_loaded_ids s) -> image_id d ∉ bl1_fwu_loaded_ids s') /\
      if decide (state d = IMAGE_STATE_COPIED) then
        tb_mem s' = zero_bytes (tb_mem s1) b n /\
        bl1_tbbr_image_descs s' = <[Z.to_nat i := with_state IMAGE_STATE_RESET d]> (bl1_tbbr_image_descs s)
      else tb_mem s' = tb_mem s1 /\ bl1_tbbr_image_descs s' = bl1_tbbr_image_descs s)).
Proof.
  intros Hd Hid H. unfold auth_image in H. inv_run H. exists a, s0. split; [done|].
  pose proof (within_run _ _ _ _ _ (frame_verify _ _ _) H0) as [Hds _ Hld _ _ _ _]. clear H0.
  unfold truthy in H. destruct (Z.eqb_spec a 0) as [->|Hne]; cbn [negb] in H; [left|right].
  - inv_run H. apply upd_desc_run in H0 as (d1 & Hd1 & ->). rewrite Hds, Hd in Hd1. injection Hd1 as <-.
    inv_run H. apply hook_ret in H0 as [p ->]. destruct (negb _); [done|]. inv_run H. injection H0 as _ <-.
    injection H as <- <-. cbn. by rewrite Hds.
  - inv_run H. apply get_desc_run in H0 as [-> Hd1]. rewrite Hds, Hd in Hd1. injection Hd1 as <-.
    inv_run H. inv_run H. injection H as <- <-.
    assert (Hs1 : bl1_fwu_loaded_ids s1 = bl1_fwu_loaded_ids s /\
      if decide (state d = IMAGE_STATE_COPIED) then
        tb_mem s1 = zero_bytes (tb_mem s0) b n /\
        bl1_tbbr_image_descs s1 = <[Z.to_nat i := with_state IMAGE_STATE_RESET d]> (bl1_tbbr_image_descs s)
      else tb_mem s1 = tb_mem s0 /\ bl1_tbbr_image_descs s1 = bl1_tbbr_image_descs s).
    { destruct (decide (state d = IMAGE_STATE_COPIED)) as [Hc|Hc].
      - rewrite bool_decide_eq_true_2 in H0 by done. cbn [when] in H0. rename H0 into Hw. inv_run Hw. injection Hw0 as _ <-. inv_run Hw.
        injection Hw0 as _ <-. apply upd_desc_run in Hw as (d1 & Hd1 & ->). cbn in Hd1. rewrite Hds, Hd in Hd1. injection Hd1 as <-. cbn. by rewrite Hds.
      - rewrite bool_decide_eq_false_2 in H0 by done. injection H0 as _ <-. done. }
    destruct Hs1 as [Hl1 Hs1]. apply remove_loaded_run in H1; [|done].
    destruct H1 as [(_ & -> & Hnin)|(_ & _ & ld & -> & Hls & Hnin)]; cbn; rewrite ?Hl1 in *; split_and!; try done.
Qed.

(** The calls of [auth_image] that IMAGE_AUTH makes: on the copied bytes, or on
    an image in place that was reset. *)
Lemma image_auth_run s id src n flags rc s' :
  fwu_inv s -> bl1_fwu_image_auth id src n flags s = Ret rc s' ->
  (rc <> 0 /\ exists p, s' = set_tb_plat p s) \/
  (exists i d, arr_get (bl1_tbbr_image_descs s) i = Some d /\ image_id d = id /\ state d = IMAGE_STATE_COPIED /\
     GET_SECURITY_STATE flags = NON_SECURE /\ auth_image id i (base d) (size d) s = Ret rc s') \/
  (exists i d p ld, arr_get (bl1_tbbr_image_descs s) i = Some d /\ image_id d = id /\ state d = IMAGE_STATE_RESET /\
     (GET_SECURITY_STATE flags = SECURE \/ ~ secure d) /\ id ∈ ld /\ ld_step id (bl1_fwu_loaded_ids s) ld /\
     auth_image id i src n (set_descs (<[Z.to_nat i := with_size n d]> (bl1_tbbr_image_descs s)) (set_loaded ld (set_tb_plat p s)))
       = Ret rc s').
Proof.
  intros Hinv H. unfold bl1_fwu_image_auth in H. assert (Hnop : exists p, s = set_tb_plat p s) by (exists (tb_plat s); by destruct s).
  inv_run H. apply plat_get_run in H0 as [-> Ho]. destruct a as [i|]; [|injection H as <- <-; by left].
  destruct (Ho i eq_refl) as (d & Hd & <-). clear Ho. inv_run H. apply get_desc_run in H0 as [-> Hd1].
  rewrite Hd in Hd1. injection Hd1 as <-. destruct (auth_allowed d flags) eqn:Eal; [|injection H as <- <-; by left].
  cbn [negb] in H. destruct (decide (state d = IMAGE_STATE_COPIED)) as [Hst|Hst].
  { right. left. exists i, d. split_and!; [done|done|done| |done]. apply non_secure_flags. intros Hf. unfold auth_allowed in Eal.
    rewrite Hf, Hst in Eal. done. }
  destruct (_ || _ || _); [injection H as <- <-; by left|]. inv_run H. apply hook_ret in H0 as [p ->].
  destruct (truthy a); [injection H as <- <-; left; eauto|]. inv_run H.
  apply add_loaded_run in H0; [|apply (iv_images _ _ _ Hinv d), (arr_get_elem _ _ _ Hd)].
  destruct H0 as [[Hrc ->]|(-> & ld & -> & Hin & Hls & _)].
  { unfold truthy in H. rewrite (proj2 (Z.eqb_neq _ _) Hrc) in H. injection H as <- <-. left. eauto. }
  cbn in H. right. right. inv_run H. apply upd_desc_run in H0 as (d1 & Hd1 & ->). cbn in Hd1. rewrite Hd in Hd1.
  injection Hd1 as <-. exists i, d, p, ld. split_and!; try done; unfold auth_allowed in Eal;
    destruct (Z.eqb_spec (GET_SECURITY_STATE flags) SECURE); [by apply bool_decide_eq_true in Eal| |by left|].
  - by destruct (_ =? _); apply bool_decide_eq_true in Eal.
  - right. intros Hs. unfold secure in Hs. rewrite Hs in Eal. by apply bool_decide_eq_true in Eal.
Qed.

(** The authentication of a copied image is evidence for it; what the secure
    world has authenticated in place is not covered. *)
Lemma image_auth_inv s id src n flags rc s' :
  fwu_inv s -> 0 <= n < 2 ^ 32 ->
  (GET_SECURITY_STATE flags = NON_SECURE -> rc = 0 -> forall d s1, d ∈ bl1_tbbr_image_descs s -> image_id d = id ->
     auth_mod_verify_img id (base d) (size d) s = Ret 0 s1 -> V id (base d) (size d) (read_bytes (tb_mem s) (base d) (size d))) ->
  (GET_SECURITY_STATE flags = SECURE -> rc = 0 -> forall d, d ∈ bl1_tbbr_image_descs s -> image_id d = id -> ~ secure d) ->
  bl1_fwu_image_auth id src n flags s = Ret rc s' -> fwu_inv s'.
Proof.
  intros Hinv Hn HV Hcaller [(_ & p & ->)|[(i & d & Hd & <- & Hst & Hfl & H)|(i & d & p & ld & Hd & <- & Hst & Hns & Hin & Hls & H)]]%image_auth_run;
    [by eapply inv_same|..|done]; pose proof (arr_get_elem _ _ _ Hd) as Hel;
    pose proof (iv_images _ _ _ Hinv d Hel) as Him; pose proof (io_desc _ _ _ Him) as Hok.
  - pose proof (io_state _ _ _ Him) as Hcp. unfold state_ok in Hcp. rewrite Hst in Hcp. destruct Hcp as [Hl Hcs].
    destruct (io_live _ _ _ Him Hl) as [Hsec _ Hfits]. apply auth_image_run in H as (r & s1 & Hv & Hcase); [|done|apply Hok].
    pose proof (within_run _ _ _ _ _ (frame_verify _ _ _) Hv) as Hfr. pose proof (inv_frame _ _ Hinv Hfr) as Hinv1.
    destruct Hfr as [Hds _ Hld _ _ _ Hmem]. unfold fwu_inv in Hinv1 |- *. rewrite Hds, Hld in Hinv1. rewrite Hst in Hcase. cbn in Hcase.
    destruct Hcase as [(-> & -> & -> & -> & ->)|(_ & _ & Hls & Hnin & -> & ->)].
    + eapply inv_restate; [exact Hinv1|by apply arr_get_lookup|done..|]. unfold state_ok. cbn. intros _. split_and!; [done|done|].
      change (V (image_id d) (base d) (size d) (read_bytes (tb_mem s1) (base d) (size d))).
      rewrite (read_ext (tb_mem s)); [by eapply HV|]. intros x Hx. apply Hmem. by eapply (do_window _ Hok Hsec), Hfits.
    + eapply inv_idle; [exact Hinv1|by apply arr_get_lookup|done|done|apply Hok|apply Hok| |done|done|].
      * intros []%Hnin. apply (iv_loaded _ _ _ Hinv).
      * intros e x He Hne Hle Hx. apply zero_outside. intros Hxd.
        by apply (iv_disjoint _ _ _ Hinv d e Hel He (not_eq_sym Hne) Hl Hle x).
  - pose proof (arr_get_Some_range _ _ _ Hd) as Hi.
    apply (auth_image_run _ i (with_size n d)) in H as (r & s1 & Hv & Hcase); [|by apply arr_get_insert_eq|apply Hok].
    pose proof (within_run _ _ _ _ _ (frame_verify _ _ _) Hv) as Hfr. cbn in Hcase. rewrite Hst in Hcase. cbn in Hcase.
    destruct Hcase as [(-> & -> & Hm & Hl & Hds)|(_ & _ & Hls' & Hnin & Hm & Hds)].
    + assert (Hsec : ~ secure d) by (destruct Hns as [Hf|]; [by apply Hcaller|done]). pose proof (io_copied _ _ _ Him Hsec) as Hc.
      assert (Hinv0 : fwu_inv (set_descs (<[Z.to_nat i := with_size n d]> (bl1_tbbr_image_descs s)) (set_loaded ld (set_tb_plat p s)))).
      { eapply inv_idle; [exact Hinv|by apply arr_get_lookup|done|done|done|apply Hok|done|done|done|done]. }
      pose proof (inv_frame _ _ Hinv0 Hfr) as Hinv1. destruct Hfr as [Hds1 _ Hld1 _ _ _ _].
      unfold fwu_inv in Hinv1 |- *. rewrite Hds1, Hld1 in Hinv1. cbn in Hinv1. rewrite Hm, Hl, Hds.
      eapply inv_restate; [exact Hinv1|by apply arr_get_lookup, arr_get_insert_eq|done..|]. done.
    + unfold fwu_inv. rewrite Hm, Hds. eapply inv_idle; [exact Hinv|by apply arr_get_lookup|done|done|done|apply Hok| | |by eapply ld_step_trans|].
      * intros []%Hnin. apply Hls, (iv_loaded _ _ _ Hinv).
      * intros Hsec. by apply (io_copied _ _ _ Him).
      * intros e x He Hne Hle Hx. rewrite (af_mem _ _ Hfr); [done|]. destruct (iv_images _ _ _ Hinv e He) as [Hoke _ Hle' _].
        destruct (Hle' Hle) as [Hse _ Hfe]. by eapply (do_window _ Hoke Hse), Hfe.
Qed.

(** ** IMAGE_EXECUTE *)
Lemma assert_holds b s u s' : tb_assert b s = Ret u s' -> s' = s /\ (TB_ASSERTIONS = true -> b = true).
Proof. unfold tb_assert. destruct TB_ASSERTIONS, b; cbn; intros [= _ ->]; done. Qed.

(** The descriptor of the image [id]. *)
Definition desc_of s (id i : Z) d : Prop := arr_get (bl1_tbbr_image_descs s) i = Some d /\ image_id d = id.

Lemma prepare_run s id u s' :
  bl1_prepare_next_image id s = Ret u s' ->
  exists i d v, desc_of s id i d /\ tb_mem s' = tb_mem s /\ bl1_fwu_loaded_ids s' = bl1_fwu_loaded_ids s /\
    bl1_tbbr_image_descs s' = <[Z.to_nat i := with_state IMAGE_STATE_EXECUTED (with_spsr v d)]> (bl1_tbbr_image_descs s) /\
    tb_log s' = EvEl3Exit (GET_SECURITY_STATE (ep_attr d)) :: EvInitContext id :: tb_log s.
Proof.
  unfold bl1_prepare_next_image. intros H. inv_run H. apply plat_get_run in H0 as [-> Ho]. inv_run H. apply assert_run in H0 as ->.
  inv_run H. apply deref_run in H0 as [-> ->]. destruct (Ho _ eq_refl) as (d & Hd & Hid). inv_run H.
  apply get_desc_run in H0 as [-> Hd1]. rewrite Hd in Hd1. injection Hd1 as <-. pose proof (arr_get_Some_range _ _ _ Hd) as Hi.
  inv_run H. apply upd_desc_run in H0 as (d1 & Hd1 & ->). rewrite Hd in Hd1. injection Hd1 as <-.
  inv_run H. apply hook_ret in H0 as [p ->]. do 2 (inv_run H; injection H0 as _ <-).
  apply upd_desc_run in H as (d1 & Hd1 & ->). cbn in Hd1. rewrite arr_get_insert_eq in Hd1 by done. injection Hd1 as <-. cbn.
  rewrite list_insert_insert_eq. by eexists _, _, _.
Qed.

Lemma image_execute_run s id flags rc s' :
  fwu_inv s -> bl1_fwu_image_execute id flags s = Ret rc s' ->
  (rc <> 0 /\ s' = s) \/
  (rc = 0 /\ GET_SECURITY_STATE flags = NON_SECURE /\ exists i d v, desc_of s id i d /\ secure d /\
     EP_GET_EXE (ep_attr d) <> NON_EXECUTABLE /\ state d = IMAGE_STATE_AUTHENTICATED /\ sec_exec_image_id s' = id /\
     tb_mem s' = tb_mem s /\ bl1_fwu_loaded_ids s' = bl1_fwu_loaded_ids s /\
     bl1_tbbr_image_descs s' = <[Z.to_nat i := with_state IMAGE_STATE_EXECUTED (with_spsr v d)]> (bl1_tbbr_image_descs s) /\
     tb_log s' = EvEl3Exit SECURE :: EvInitContext id :: EvSaveEl1 NON_SECURE :: tb_log s).
Proof.
  intros Hinv H. unfold bl1_fwu_image_execute in H. inv_run H. apply plat_get_run in H0 as [-> Ho].
  destruct a as [i|]; [|injection H as <- <-; by left]. destruct (Ho i eq_refl) as (d & Hd & Hid). inv_run H.
  apply get_desc_run in H0 as [-> Hd1]. rewrite Hd in Hd1. injection Hd1 as <-. clear Ho.
  destruct (_ || _ || _ || _) eqn:Eg; [injection H as <- <-; by left|]. right.
  apply orb_false_iff in Eg as [[[Eg1%Z.eqb_neq Eg2%Z.eqb_neq]%orb_false_iff Eg3%Z.eqb_neq]%orb_false_iff Eg4%bool_decide_eq_false].
  apply dec_stable in Eg4. inv_run H. injection H0 as _ <-. inv_run H. apply prepare_run in H0 as (j & e & v & [He Hid'] & Hm & Hl & Hds & Hlog).
  cbn in He, Hm, Hl, Hds, Hlog. inv_run H. injection H0 as _ <-. injection H as <- <-.
  assert (e = d) as -> by (eapply inv_desc_unique; [done|done|exact Hd|congruence]).
  assert (Hsec : secure d) by (by apply not_non_secure). split; [done|]. split.
  { destruct (decide (GET_SECURITY_STATE flags = NON_SECURE)) as [|Hne]; [done|]. by apply not_non_secure in Hne. }
  exists j, d, v. rewrite Hsec in Hlog. split_and!; done.
Qed.

Lemma image_execute_inv s id flags rc s' : fwu_inv s -> bl1_fwu_image_execute id flags s = Ret rc s' -> fwu_inv s'.
Proof.
  intros Hinv [[_ ->]|(_ & _ & i & d & v & [Hd _] & _ & _ & _ & _ & Hm & Hl & Hds & _)]%image_execute_run; [done| |done].
  unfold fwu_inv. rewrite Hm, Hl, Hds. by eapply inv_restate; [exact Hinv|by apply arr_get_lookup|done..].
Qed.

(** ** IMAGE_RESUME and SEC_IMAGE_DONE *)
Lemma image_resume_run s param flags rc s' :
  bl1_fwu_image_resume param flags s = Ret rc s' ->
  let sec := GET_SECURITY_STATE flags in
  (rc = - EPERM /\ s' = s) \/
  (rc = param /\ exists i d, desc_of s (sec_exec_image_id s) i d /\
     tb_mem s' = tb_mem s /\ bl1_fwu_loaded_ids s' = bl1_fwu_loaded_ids s /\ sec_exec_image_id s' = sec_exec_image_id s /\
     bl1_tbbr_image_descs s' =
       <[Z.to_nat i := with_state (if sec =? SECURE then IMAGE_STATE_INTERRUPTED else IMAGE_STATE_EXECUTED) d]> (bl1_tbbr_image_descs s) /\
     (TB_ASSERTIONS = true -> state d = if sec =? SECURE then IMAGE_STATE_EXECUTED else IMAGE_STATE_INTERRUPTED)).
Proof.
  intros H sec. unfold bl1_fwu_image_resume in H. fold sec in H. inv_run H. injection H0 as <- <-. inv_run H.
  apply plat_get_run in H0 as [-> Ho]. destruct (_ && _); [injection H as <- <-; by left|]. right.
  inv_run H. apply assert_run in H0 as ->. inv_run H. apply deref_run in H0 as [-> ->]. destruct (Ho _ eq_refl) as (d & Hd & Hid).
  inv_run H. apply get_desc_run in H0 as [-> Hd1]. rewrite Hd in Hd1. injection Hd1 as <-.
  do 2 (inv_run H; apply assert_run in H0 as ->). inv_run H. do 3 (inv_run H; injection H1 as _ <-). injection H as <- <-.
  split; [done|]. eexists _, d. split; [split; [exact Hd|done]|].
  rename H0 into Hw. destruct (sec =? SECURE); inv_run Hw; apply assert_holds in Hw0 as [-> Ha]; inv_run Hw;
    apply upd_desc_run in Hw0 as (d1 & Hd1 & ->); rewrite Hd in Hd1; injection Hd1 as <-; injection Hw as _ <-;
    (split_and!; [done|done|done|done|]); intros HA%Ha; by apply bool_decide_eq_true in HA.
Qed.

Lemma image_resume_inv s param flags rc s' : fwu_inv s -> bl1_fwu_image_resume param flags s = Ret rc s' -> fwu_inv s'.
Proof.
  intros Hinv [[_ ->]|(_ & i & d & [Hd _] & Hm & Hl & _ & Hds & _)]%image_resume_run; [done|].
  unfold fwu_inv. rewrite Hm, Hl, Hds. eapply inv_restate; [exact Hinv|by apply arr_get_lookup|done..|].
  unfold state_ok. cbn. by destruct (_ =? _).
Qed.

Lemma sec_image_done_run s flags rc s' :
  fwu_inv s -> bl1_fwu_sec_image_done flags s = Ret rc s' ->
  (rc <> 0 /\ s' = s) \/
  (rc = 0 /\ GET_SECURITY_STATE flags = SECURE /\ exists i d, desc_of s (sec_exec_image_id s) i d /\
     tb_mem s' = tb_mem s /\ ld_step (image_id d) (bl1_fwu_loaded_ids s) (bl1_fwu_loaded_ids s') /\
     ~ (image_id d ∈ bl1_fwu_loaded_ids s') /\ sec_exec_image_id s' = INVALID_IMAGE_ID /\
     bl1_tbbr_image_descs s' = <[Z.to_nat i := with_state IMAGE_STATE_RESET d]> (bl1_tbbr_image_descs s) /\
     (TB_ASSERTIONS = true -> state d = IMAGE_STATE_EXECUTED)).
Proof.
  intros Hinv H. unfold bl1_fwu_sec_image_done in H. destruct (Z.eqb_spec (GET_SECURITY_STATE flags) NON_SECURE) as [|Hns%not_non_secure].
  { injection H as <- <-. by left. }
  right. inv_run H. injection H0 as <- <-. inv_run H. apply plat_get_run in H0 as [-> Ho]. inv_run H. apply assert_run in H0 as ->.
  inv_run H. apply deref_run in H0 as [-> ->]. destruct (Ho _ eq_refl) as (d & Hd & Hid). inv_run H.
  apply get_desc_run in H0 as [-> Hd1]. rewrite Hd in Hd1. injection Hd1 as <-. do 2 (inv_run H; apply assert_run in H0 as ->).
  inv_run H. apply assert_holds in H0 as [-> Ha]. inv_run H. rewrite <- Hid in H0.
  pose proof (iv_images _ _ _ Hinv d (arr_get_elem _ _ _ Hd)) as Him. apply remove_loaded_run in H0; [|apply Him].
  assert (exists ld, s0 = set_loaded ld s /\ ld_step (image_id d) (bl1_fwu_loaded_ids s) ld /\ image_id d ∉ ld) as (ld & -> & Hls & Hnin).
  { destruct H0 as [(_ & -> & Hnin)|(_ & _ & ld & -> & Hls & Hnin)]; [|exists ld; split_and!; [done|done|apply Hnin, (iv_loaded _ _ _ Hinv)]].
    exists (bl1_fwu_loaded_ids s). split_and!; [by destruct s|apply ld_step_refl|done]. }
  inv_run H. apply assert_run in H1 as ->. inv_run H. apply upd_desc_run in H1 as (d1 & Hd1 & ->). cbn in Hd1. rewrite Hd in Hd1.
  injection Hd1 as <-. do 3 (inv_run H; injection H1 as _ <-). injection H as <- <-. cbn.
  split_and!; [done|done|]. eexists _, d. split; [split; [exact Hd|done]|]. split_and!; try done. intros HA%Ha. by apply bool_decide_eq_true in HA.
Qed.

Lemma sec_image_done_inv s flags rc s' : fwu_inv s -> bl1_fwu_sec_image_done flags s = Ret rc s' -> fwu_inv s'.
Proof.
  intros Hinv [[_ ->]|(_ & _ & i & d & [Hd _] & Hm & Hls & Hnin & _ & Hds & _)]%sec_image_done_run; [done| |done].
  pose proof (iv_images _ _ _ Hinv d (arr_get_elem _ _ _ Hd)) as [Hok _ _ Hns].
  unfold fwu_inv. rewrite Hm, Hds. by eapply inv_idle; [exact Hinv|by apply arr_get_lookup|done|done|apply Hok|apply Hok|..].
Qed.

(** ** IMAGE_RESET *)
Definition wiped d : image_desc_t := with_state IMAGE_STATE_RESET (with_size 0 (with_copied 0 d)).

Definition wiped_mem m d : memory :=
  if truthy (copied_size d) then zero_bytes m (base d) (copied_size d) else m.

Lemma reset_image_run s i d rc s' :
  fwu_inv s -> arr_get (bl1_tbbr_image_descs s) i = Some d -> reset_image (image_id d) i s = Ret rc s' ->
  (rc <> 0 /\ s' = s /\ ~ (image_id d ∈ bl1_fwu_loaded_ids s)) \/
  (rc = 0 /\ image_id d ∈ bl1_fwu_loaded_ids s /\ ld_step (image_id d) (bl1_fwu_loaded_ids s) (bl1_fwu_loaded_ids s') /\
   ~ (image_id d ∈ bl1_fwu_loaded_ids s') /\ tb_mem s' = wiped_mem (tb_mem s) d /\
   sec_exec_image_id s' = sec_exec_image_id s /\
   bl1_tbbr_image_descs s' = <[Z.to_nat i := wiped d]> (bl1_tbbr_image_descs s)).
Proof.
  intros Hinv Hd H. unfold reset_image in H. inv_run H. pose proof (arr_get_Some_range _ _ _ Hd) as Hi.
  apply remove_loaded_run in H0; [|apply (iv_images _ _ _ Hinv d), (arr_get_elem _ _ _ Hd)].
  destruct H0 as [(Hne & -> & Hnin)|(-> & Hin & ld & -> & Hls & Hnin)].
  { unfold truthy in H. rewrite (proj2 (Z.eqb_neq _ _) Hne) in H. injection H as <- <-. by left. }
  right. cbn in H. inv_run H. apply get_desc_run in H0 as [-> Hd1]. cbn in Hd1. rewrite Hd in Hd1. injection Hd1 as <-.
  inv_run H. assert (exists l, s0 = set_tb_log l (set_mem (wiped_mem (tb_mem s) d) (set_loaded ld s))) as [l ->].
  { unfold wiped_mem. destruct (truthy (copied_size d)); cbn [when] in H0; [|injection H0 as _ <-; exists (tb_log s); by destruct s].
    rename H0 into Hw. inv_run Hw. apply assert_run in Hw0 as ->. inv_run Hw. injection Hw0 as _ <-. injection Hw as _ <-.
      by eexists. }
  clear H0. inv_run H. apply upd_desc_run in H0 as (d1 & Hd1 & ->). cbn in Hd1. rewrite Hd in Hd1. injection Hd1 as <-.
  do 2 (inv_run H; apply upd_desc_run in H0 as (d1 & Hd1 & ->); cbn in Hd1;
    rewrite arr_get_insert_eq in Hd1 by (rewrite ?length_insert; done); injection Hd1 as <-).
  inv_run H. injection H0 as <- <-. inv_run H. apply deref_run in H0 as [_ ->]. inv_run H. injection H0 as _ <-. injection H as <- <-.
  cbn. rewrite !list_insert_insert_eq. split_and!; try done. apply Hnin, (iv_loaded _ _ _ Hinv).
Qed.

(** The outcomes of IMAGE_RESET on the descriptor [d] of the image. *)
Lemma image_reset_run s id flags rc s' :
  fwu_inv s -> bl1_fwu_image_reset id flags s = Ret rc s' ->
  (s' = s /\ (rc = 0 -> exists i d, desc_of s id i d /\ (state d = IMAGE_STATE_RESET \/ state d = IMAGE_STATE_EXECUTED))) \/
  (rc = 0 /\ GET_SECURITY_STATE flags = NON_SECURE /\ exists i d, desc_of s id i d /\ state d <> IMAGE_STATE_RESET /\
   state d <> IMAGE_STATE_EXECUTED /\ id ∈ bl1_fwu_loaded_ids s /\ ld_step id (bl1_fwu_loaded_ids s) (bl1_fwu_loaded_ids s') /\
   ~ (id ∈ bl1_fwu_loaded_ids s') /\ tb_mem s' = wiped_mem (tb_mem s) d /\
   sec_exec_image_id s' = sec_exec_image_id s /\
   bl1_tbbr_image_descs s' = <[Z.to_nat i := wiped d]> (bl1_tbbr_image_descs s)).
Proof.
  intros Hinv H. unfold bl1_fwu_image_reset in H. inv_run H. apply plat_get_run in H0 as [-> Ho].
  destruct a as [i|]; [|injection H as <- <-; left; by split]. destruct (Ho i eq_refl) as (d & Hd & <-). clear Ho.
  destruct (Z.eqb_spec (GET_SECURITY_STATE flags) SECURE) as [|Hns]; [injection H as <- <-; left; by split|].
  assert (Hflag : GET_SECURITY_STATE flags = NON_SECURE).
  { destruct (decide (GET_SECURITY_STATE flags = NON_SECURE)) as [|Hn]; [done|]. by apply not_non_secure in Hn. }
  inv_run H. apply get_desc_run in H0 as [-> Hd1]. rewrite Hd in Hd1. injection Hd1 as <-.
  destruct (state d) eqn:Est;
    (try (apply reset_image_run in H; [|done|done]; destruct H as [(Hne & -> & _)|(-> & ? & ? & ? & ? & ? & ?)]; [left; by split|];
          right; split; [done|]; split; [done|]; exists i, d; rewrite Est; split_and!; done)).
  - injection H as <- <-. left. split; [done|]. intros _. exists i, d. by split; [|left].
  - inv_run H. apply assert_run in H0 as ->. injection H as <- <-. left. split; [done|]. intros _. exists i, d. by split; [|right].
Qed.

Lemma image_reset_inv s id flags rc s' : fwu_inv s -> bl1_fwu_image_reset id flags s = Ret rc s' -> fwu_inv s'.
Proof.
  intros Hinv [[-> _]|(_ & _ & i & d & [Hd <-] & _ & _ & Hin & Hls & Hnin & Hm & _ & Hds)]%image_reset_run; [done| |done].
  pose proof (arr_get_elem _ _ _ Hd) as Hel. pose proof (iv_images _ _ _ Hinv d Hel) as [Hok _ Hl _].
  unfold fwu_inv. rewrite Hm, Hds. eapply inv_idle; [exact Hinv|by apply arr_get_lookup|done..|]. intros e x He Hne Hle Hx.
  unfold wiped_mem, truthy. destruct (Z.eqb_spec (copied_size d) 0) as [|Hnz]; [done|]. apply zero_outside. intros Hxd.
  assert (Hld : live (bl1_fwu_loaded_ids s) d) by done. destruct (Hl Hld) as [_ Hc _].
  apply (iv_disjoint _ _ _ Hinv d e Hel He (not_eq_sym Hne) Hld Hle x). unfold in_image in *. lia.
Qed.

(** ** Every SMC *)

(** The request of the secure world for the authentication of a secure image,
    which stays where it is, was granted. *)
Definition in_place_auth s (fid x1 flags rc : Z) : bool :=
  (fid =? FWU_SMC_IMAGE_AUTH) && (GET_SECURITY_STATE flags =? SECURE) && (rc =? 0) &&
  existsb (fun d => (image_id d =? u32 x1) && (GET_SECURITY_STATE (ep_attr d) =? SECURE)) (bl1_tbbr_image_descs s).

Lemma not_in_place s x1 flags rc d :
  in_place_auth s FWU_SMC_IMAGE_AUTH x1 flags rc = false -> GET_SECURITY_STATE flags = SECURE -> rc = 0 ->
  d ∈ bl1_tbbr_image_descs s -> image_id d = u32 x1 -> ~ secure d.
Proof.
  unfold in_place_auth. intros Hf Hfl Hrc Hd%list_elem_of_In Hid Hs. rewrite Hfl, Hrc in Hf. cbn in Hf. apply eq_true_false_abs with (2 := Hf).
  apply existsb_exists. exists d. split; [done|]. by rewrite Hid, Z.eqb_refl, Hs.
Qed.

Lemma smc_inv s uid fid x1 x2 x3 x4 flags rc s' :
  fwu_inv s -> in_place_auth s fid x1 flags rc = false ->
  (fid = FWU_SMC_IMAGE_AUTH -> GET_SECURITY_STATE flags = NON_SECURE -> rc = 0 -> forall d s1,
     d ∈ bl1_tbbr_image_descs s -> image_id d = u32 x1 -> auth_mod_verify_img (u32 x1) (base d) (size d) s = Ret 0 s1 ->
     V (u32 x1) (base d) (size d) (read_bytes (tb_mem s) (base d) (size d))) ->
  bl1_smc_handler uid fid x1 x2 x3 x4 flags s = Ret rc s' -> fwu_inv s'.
Proof.
  intros Hinv Hip HV H. unfold bl1_smc_handler in H. destruct (TRUSTED_BOARD_BOOT && is_fwu_fid fid).
  2: { repeat (destruct (_ =? _); [by injection H as _ <-|]). by injection H as _ <-. }
  unfold bl1_fwu_smc_handler in H. pose proof (u32_range x3). pose proof (u32_range x4).
  destruct (Z.eqb_spec fid FWU_SMC_IMAGE_COPY); [eapply image_copy_inv, H; [done|lia|lia]|].
  destruct (Z.eqb_spec fid FWU_SMC_IMAGE_AUTH) as [->|].
  { eapply image_auth_inv, H; [done|lia|exact (HV eq_refl)|]. intros Hf Hrc d Hd Hid. by eapply not_in_place. }
  destruct (fid =? FWU_SMC_IMAGE_EXECUTE); [by eapply image_execute_inv|].
  destruct (fid =? FWU_SMC_IMAGE_RESUME); [by eapply image_resume_inv|].
  destruct (fid =? FWU_SMC_SEC_IMAGE_DONE); [by eapply sec_image_done_inv|].
  destruct (fid =? FWU_SMC_IMAGE_RESET); [by eapply image_reset_inv|].
  destruct (fid =? FWU_SMC_UPDATE_DONE); [done|].
  inv_run H. apply assert_run in H2 as ->. by injection H as _ <-.
Qed.

End handlers.

(** More evidence does no harm. *)
Lemma inv_evidence {P} `{!TbEnv P} (V V' : evidence) (s : tb_state P) :
  (forall id b n bs, V id b n bs -> V' id b n bs) -> fwu_inv V s -> fwu_inv V' s.
Proof.
  intros HV [Hlay Hnd Him Hld Hdj]. split; [done|done| |done|done]. intros d Hd. destruct (Him d Hd) as [H1 H2 H3 H4].
  split; [done| |done|done]. unfold state_ok in *. destruct (state d); try done. intros Hs. destruct (H2 Hs) as (Hl & Hc & Ha). by auto.
Qed.
