(* ===== verification/FwuProps.v ===== *)
(** * Firmware update: properties

    What holds after every history of SMCs of the two worlds, with any
    arguments, and of their own memory accesses.  A history in which the secure
    world had a secure image authenticated in place is kept apart
    ([some_in_place]): what then happens is [fwu_in_place_auth_executes]. *)
From stdpp Require Import base list numbers option strings sets.
From Stdlib Require Import ZArith Lia.
From S2P Require Import Prelude TbbDefs AuthMod TbbrCot BlCommon Bl1Fwu Bl1Main TbbExample TbbLemmas AuthProps CotProps FwuInv FwuOps FwuCopy FwuHandlers.
#[local] Open Scope Z_scope.

Section props.
Context {P : Type} `{!TbEnv P}.
Implicit Types (s : tb_state P) (d e : image_desc_t).

(** ** The system *)

(** BL1 as the update begins: no image is loaded. *)
Record fwu_start s : Prop := {
  fs_layout : 0 <= free_base bl1_plat_sec_mem_layout < 2 ^ 64 /\ 0 <= free_size bl1_plat_sec_mem_layout < 2 ^ 64;
  fs_ids : NoDup (image_id <$> bl1_tbbr_image_descs s);
  fs_descs : forall d, d ∈ bl1_tbbr_image_descs s -> desc_ok d /\ state d = IMAGE_STATE_RESET /\ copied_size d = 0;
  fs_loaded : bl1_fwu_loaded_ids s = replicate (Z.to_nat FWU_MAX_SIMULTANEOUS_IMAGES) INVALID_IMAGE_ID
}.

(** What happens: an SMC with its arguments and its result, or writes to
    memory by the software that runs in between. *)
Inductive fwu_event : Type :=
| Smc (uid fid x1 x2 x3 x4 flags rc : Z)
| Writes.

(** One step.  The writes spare the secure images that are not executing. *)
Inductive fwu_step s : fwu_event -> tb_state P -> Prop :=
| StepSmc uid fid x1 x2 x3 x4 flags rc s' :
    bl1_smc_handler uid fid x1 x2 x3 x4 flags s = Ret rc s' -> fwu_step s (Smc uid fid x1 x2 x3 x4 flags rc) s'
| StepWrite m :
    (forall d x, d ∈ bl1_tbbr_image_descs s -> secure d -> state d <> IMAGE_STATE_EXECUTED -> in_image d x -> m x = tb_mem s x) ->
    fwu_step s Writes (set_mem m s).

(** An update from its start: the history holds every event, the last one
    first, with the state in which it happened. *)
Inductive fwu_run s0 : list (tb_state P * fwu_event) -> tb_state P -> Prop :=
| run_start : fwu_run s0 [] s0
| run_step h s (ev : fwu_event) s' : fwu_run s0 h s -> fwu_step s ev s' -> fwu_run s0 ((s, ev) :: h) s'.

(** The secure world has had a secure image authenticated in place. *)
Definition in_place (p : tb_state P * fwu_event) : bool :=
  match p.2 with Smc _ fid x1 _ _ _ flags rc => in_place_auth p.1 fid x1 flags rc | Writes => false end.
Definition some_in_place (h : list (tb_state P * fwu_event)) : bool := existsb in_place h.

(** In the history, the normal world has asked for the authentication of image
    [id] with success, and at that moment [auth_mod_verify_img] returned 0 for
    the [n] bytes [bs] at [b]. *)
Definition verified_in (h : list (tb_state P * fwu_event)) : evidence := fun id b n bs =>
  exists s1 s2 uid x1 x2 x3 x4 flags, (s1, Smc uid FWU_SMC_IMAGE_AUTH x1 x2 x3 x4 flags 0) ∈ h /\
    GET_SECURITY_STATE flags = NON_SECURE /\ u32 x1 = id /\
    auth_mod_verify_img id b n s1 = Ret 0 s2 /\ read_bytes (tb_mem s1) b n = bs.

(** Reached without an authentication in place. *)
Definition reached s0 s : Prop := exists h, fwu_run s0 h s /\ some_in_place h = false.

Lemma start_inv (V : evidence) s : fwu_start s -> fwu_inv V s.
Proof.
  intros [Hlay Hnd Hds Hld]. assert (Hnone : forall j, j <> INVALID_IMAGE_ID -> ~ (j ∈ bl1_fwu_loaded_ids s)).
  { rewrite Hld. intros j Hj [-> _]%elem_of_replicate. done. }
  split; [done|done| | |].
  - intros d Hd. destruct (Hds d Hd) as (Hok & Hst & Hc). split; [done| |by intros [_ ?]|done]. unfold state_ok. by rewrite Hst.
  - rewrite Hld. intros i j x Hi%lookup_replicate_1 _ Hx. by destruct Hi.
  - intros d e Hd He _ [_ Hne]. by destruct (Hds d Hd) as (_ & _ & ?).
Qed.

Lemma run_inv s0 h s : fwu_start s0 -> fwu_run s0 h s -> some_in_place h = false -> fwu_inv (verified_in h) s.
Proof.
  intros Hs Hr. induction Hr as [|h s e s' Hr IH Hstep]; intros Hip; [by apply start_inv|].
  cbn in Hip. apply orb_false_iff in Hip as [Hip Hips]. specialize (IH Hips).
  assert (Hmono : fwu_inv (verified_in ((s, e) :: h)) s).
  { eapply inv_evidence, IH. intros id b n bs (s1 & s2 & uid & x1 & x2 & x3 & x4 & flags & Hin & Hrest).
    exists s1, s2, uid, x1, x2, x3, x4, flags. split; [by right|done]. }
  destruct Hstep as [uid fid x1 x2 x3 x4 flags rc s2 Hrun|m Hm].
  - eapply smc_inv; [exact Hmono|exact Hip| |exact Hrun]. intros -> Hf -> d s1 Hd Hid Hv.
    exists s, s1, uid, x1, x2, x3, x4, flags. split_and!; [by left|done..].
  - eapply inv_mem; [exact Hmono|]. intros d x Hd Hsec Ha Hx. apply (Hm d); try done. by rewrite Ha.
Qed.

Lemma reached_inv s0 s : fwu_start s0 -> reached s0 s -> exists V, fwu_inv V s.
Proof. intros Hs (h & Hr & Hip). eexists. by eapply run_inv. Qed.

(** The two calls of interest, without the dispatch. *)
Lemma smc_execute uid x1 x2 x3 x4 flags s rc s' :
  bl1_smc_handler uid FWU_SMC_IMAGE_EXECUTE x1 x2 x3 x4 flags s = Ret rc s' ->
  bl1_fwu_image_execute (u32 x1) flags s = Ret rc s' \/ (rc = SMC_UNK /\ s' = s).
Proof.
  unfold bl1_smc_handler. destruct TRUSTED_BOARD_BOOT; [by left|]. intros [= <- <-]. by right.
Qed.
Lemma smc_copy uid x1 x2 x3 x4 flags s rc s' :
  bl1_smc_handler uid FWU_SMC_IMAGE_COPY x1 x2 x3 x4 flags s = Ret rc s' ->
  bl1_fwu_image_copy (u32 x1) x2 (u32 x3) (u32 x4) flags s = Ret rc s' \/ (rc = SMC_UNK /\ s' = s).
Proof.
  unfold bl1_smc_handler. destruct TRUSTED_BOARD_BOOT; [by left|]. intros [= <- <-]. by right.
Qed.
Lemma copy_smc_run (V : evidence) uid x1 x2 x3 x4 flags s rc s' :
  fwu_inv V s -> bl1_smc_handler uid FWU_SMC_IMAGE_COPY x1 x2 x3 x4 flags s = Ret rc s' ->
  (rc <> 0 /\ tb_mem s' = tb_mem s) \/ (rc = 0 /\ copy_done (u32 x1) x2 (u32 x3) (u32 x4) s s').
Proof.
  intros Hinv [Hrun|[-> ->]]%smc_copy; [|by left]. pose proof (u32_range x3). pose proof (u32_range x4).
  destruct (image_copy_run s (u32 x1) x2 (u32 x3) (u32 x4) flags rc s' Hinv ltac:(lia) ltac:(lia) Hrun) as [[Hrc [Hm _]]|[-> Hdone]]; [by left|by right].
Qed.

(** ** Execution *)

(** [C2] Only verified images are executed.  After any history of SMCs of both
    worlds, with any arguments, and of memory writes that spare the idle secure
    images, when IMAGE_EXECUTE returns 0 then, unless the history holds an
    IMAGE_AUTH with which the secure world had a secure image authenticated in
    place: the image is secure and executable, BL1 leaves for the secure world,
    and the history holds an IMAGE_AUTH of this image by the normal world that
    returned 0, at which [auth_mod_verify_img] returned 0 for the bytes at the
    address of the image, for its whole size, and these are the bytes that are
    there now.  With such a call the claim fails: see
    [fwu_in_place_auth_executes]. *)
Theorem fwu_execute_authenticated s0 h s uid x1 x2 x3 x4 flags s' :
  fwu_start s0 -> fwu_run s0 h s -> bl1_smc_handler uid FWU_SMC_IMAGE_EXECUTE x1 x2 x3 x4 flags s = Ret 0 s' ->
  some_in_place h = true \/
  exists d, d ∈ bl1_tbbr_image_descs s /\ image_id d = u32 x1 /\ secure d /\ EP_GET_EXE (ep_attr d) <> NON_EXECUTABLE /\
    verified_in h (image_id d) (base d) (size d) (read_bytes (tb_mem s') (base d) (size d)) /\
    sec_exec_image_id s' = image_id d /\
    tb_log s' = EvEl3Exit SECURE :: EvInitContext (image_id d) :: EvSaveEl1 NON_SECURE :: tb_log s.
Proof.
  intros Hs Hr [Hrun|[]]%smc_execute; [|done]. destruct (some_in_place h) eqn:Hip; [by left|right]. pose proof (run_inv _ _ _ Hs Hr Hip) as Hinv.
  apply (image_execute_run _ _ _ _ _ Hinv) in Hrun as [[]|(_ & _ & i & d & v & [Hd Hid] & Hsec & Hexe & Hst & Hex & Hm & _ & _ & Hlog)]; [done|].
  pose proof (arr_get_elem _ _ _ Hd) as Hel. exists d. pose proof (io_state _ _ _ (iv_images _ _ _ Hinv d Hel)) as Hacc.
  unfold state_ok in Hacc. rewrite Hst in Hacc. destruct (Hacc Hsec) as (_ & _ & Ha). rewrite Hm, Hid in *. by split_and!.
Qed.

(** ** Authentication in place *)
Lemma find_desc_in id ds k : id ∈ image_id <$> ds -> is_Some (find_desc id ds k).
Proof.
  revert k. induction ds as [|d ds IH]; intros k Hin; [by apply elem_of_nil in Hin|]. cbn. destruct (Z.eqb_spec (image_id d) id); [done|].
  apply IH. cbn in Hin. set_solver.
Qed.

Lemma smc_auth uid x1 x2 x3 x4 flags s rc s' :
  bl1_smc_handler uid FWU_SMC_IMAGE_AUTH x1 x2 x3 x4 flags s = Ret rc s' ->
  bl1_fwu_image_auth (u32 x1) x2 (u32 x3) flags s = Ret rc s' \/ (rc = SMC_UNK /\ s' = s).
Proof. unfold bl1_smc_handler. destruct TRUSTED_BOARD_BOOT; [by left|]. intros [= <- <-]. by right. Qed.

(** The descriptor that a search finds, when identifiers are unique. *)
Lemma plat_get_found id i d s :
  NoDup (image_id <$> bl1_tbbr_image_descs s) -> desc_of s id i d ->
  exists j, bl1_plat_get_image_desc id s = Ret (Some j) s /\ arr_get (bl1_tbbr_image_descs s) j = Some d.
Proof.
  intros Hnd [Hd Hid]. destruct (find_desc_in id (bl1_tbbr_image_descs s) 0) as [j Hj].
  { rewrite <- Hid. apply list_elem_of_fmap_2. by eapply arr_get_elem. }
  exists j. unfold bl1_plat_get_image_desc, gets. rewrite Hj. split; [done|]. apply find_desc_Some in Hj as (e & He & Heid & _). rewrite Z.sub_0_r in He.
  apply arr_get_lookup in Hd. pose proof (arr_get_lookup _ _ _ He) as He'. pose proof (desc_unique _ _ _ _ _ Hnd He' Hd ltac:(congruence)). congruence.
Qed.

Lemma get_desc_ok j d s : arr_get (bl1_tbbr_image_descs s) j = Some d -> get_desc j s = Ret d s.
Proof. intros Hd. unfold get_desc, bind, gets, deref. by rewrite Hd. Qed.
Lemma upd_desc_ok j d f s : arr_get (bl1_tbbr_image_descs s) j = Some d ->
  upd_desc j f s = Ret tt (set_descs (<[Z.to_nat j := f d]> (bl1_tbbr_image_descs s)) s).
Proof.
  intros Hd. unfold upd_desc. rewrite (bind_run _ _ _ _ _ (get_desc_ok _ _ _ Hd)). unfold put_desc, bind, gets, deref.
  by rewrite arr_set_in_range by (by eapply arr_get_Some_range).
Qed.

(** Execution of an authenticated secure image. *)
Lemma execute_ok id flags i d s :
  NoDup (image_id <$> bl1_tbbr_image_descs s) -> desc_of s id i d -> secure d -> EP_GET_EXE (ep_attr d) <> NON_EXECUTABLE ->
  state d = IMAGE_STATE_AUTHENTICATED -> GET_SECURITY_STATE flags = NON_SECURE ->
  (forall p, exists p', bl1_plat_set_ep_info id p = Ret tt p') ->
  exists s', bl1_fwu_image_execute id flags s = Ret 0 s' /\ tb_mem s' = tb_mem s /\ sec_exec_image_id s' = id /\
    tb_log s' = EvEl3Exit SECURE :: EvInitContext id :: EvSaveEl1 NON_SECURE :: tb_log s.
Proof.
  intros Hnd Hd Hsec Hexe Hst Hfl Hhook. destruct (plat_get_found _ _ _ _ Hnd Hd) as (j & Hg & Hj). unfold bl1_fwu_image_execute.
  rewrite (bind_run _ _ _ _ _ Hg), (bind_run _ _ _ _ _ (get_desc_ok _ _ _ Hj)), Hfl. rewrite Hsec.
  rewrite (proj2 (Z.eqb_neq (EP_GET_EXE (ep_attr d)) NON_EXECUTABLE) Hexe), Hst.
  change (NON_SECURE =? SECURE) with false. change (SECURE =? NON_SECURE) with false.
  rewrite bool_decide_eq_false_2 by (intros []; done). cbn [orb]. erewrite bind_run by done. set (s1 := set_tb_log _ s).
  assert (Hd1 : arr_get (bl1_tbbr_image_descs s1) j = Some d) by exact Hj.
  destruct (Hhook (tb_plat s)) as [p' Hp].
  assert (Hprep : exists s', bl1_prepare_next_image id s1 = Ret tt s' /\ tb_mem s' = tb_mem s /\
    tb_log s' = EvEl3Exit SECURE :: EvInitContext id :: EvSaveEl1 NON_SECURE :: tb_log s).
  { unfold bl1_prepare_next_image. assert (Hg1 : bl1_plat_get_image_desc id s1 = Ret (Some j) s1).
    { unfold bl1_plat_get_image_desc, gets in *. injection Hg as Hf. unfold s1. cbn. by rewrite Hf. }
    rewrite (bind_run _ _ _ _ _ Hg1). erewrite bind_run by (unfold tb_assert; cbn; by rewrite andb_false_r). erewrite bind_run by done.
    rewrite (bind_run _ _ _ _ _ (get_desc_ok _ _ _ Hd1)), (bind_run _ _ _ _ _ (upd_desc_ok _ _ _ _ Hd1)).
    set (s2 := set_descs _ s1). assert (Hh : tb_hook (bl1_plat_set_ep_info id) s2 = Ret tt (set_tb_plat p' s2)).
    { unfold tb_hook, zoom. change (tb_plat s2) with (tb_plat s). by rewrite Hp. }
    rewrite (bind_run _ _ _ _ _ Hh). do 2 erewrite bind_run by done. erewrite upd_desc_ok.
    2: { cbn. apply arr_get_insert_eq. by eapply arr_get_Some_range. }
    rewrite Hsec. eexists. split; [reflexivity|]. done. }
  destruct Hprep as (s' & Hprep & Hm & Hlog). rewrite (bind_run _ _ _ _ _ Hprep). erewrite bind_run by done. eexists. split; [reflexivity|]. done.
Qed.

(** [C39] What the secure world authenticates in place, the normal world can
    have executed elsewhere.  In any state an update can reach: when the secure
    world has an executable secure image authenticated with an address and a
    size of its choice and BL1 answers 0, the bytes that
    [auth_mod_verify_img] accepted are the ones at that address; an
    IMAGE_EXECUTE of the normal world, if the platform's hook returns, then
    returns 0 and leaves for the image at its own base address, where nothing
    has been verified or written: memory outside the buffers of the
    authentication module is what it was before the authentication. *)
Theorem fwu_in_place_auth_executes s0 s uid x1 x2 x3 x4 flags s1 uid' y2 y3 y4 flags' i d :
  TRUSTED_BOARD_BOOT = true -> fwu_start s0 -> reached s0 s -> desc_of s (u32 x1) i d -> secure d -> EP_GET_EXE (ep_attr d) <> NON_EXECUTABLE ->
  GET_SECURITY_STATE flags = SECURE -> GET_SECURITY_STATE flags' = NON_SECURE ->
  (forall p, exists p', bl1_plat_set_ep_info (u32 x1) p = Ret tt p') ->
  bl1_smc_handler uid FWU_SMC_IMAGE_AUTH x1 x2 x3 x4 flags s = Ret 0 s1 ->
  (exists sv sv', auth_mod_verify_img (u32 x1) x2 (u32 x3) sv = Ret 0 sv' /\ tb_mem sv = tb_mem s) /\
  (exists j d1, desc_of s1 (u32 x1) j d1 /\ base d1 = base d /\ size d1 = u32 x3 /\ copied_size d1 = copied_size d) /\
  exists s2, bl1_smc_handler uid' FWU_SMC_IMAGE_EXECUTE x1 y2 y3 y4 flags' s1 = Ret 0 s2 /\ sec_exec_image_id s2 = u32 x1 /\
    tb_log s2 = EvEl3Exit SECURE :: EvInitContext (u32 x1) :: EvSaveEl1 NON_SECURE :: tb_log s1 /\
    forall x, ~ param_region x -> tb_mem s2 x = tb_mem s x.
Proof.
  intros Ht Hs Hr [Hd Hid] Hsec Hexe Hfl Hfl' Hhook [Hrun|[]]%smc_auth; [|done]. destruct (reached_inv _ _ Hs Hr) as [V Hinv].
  apply (image_auth_run _ _ _ _ _ _ _ Hinv) in Hrun as [[]|[(j & e & _ & _ & _ & Hns & _)|(j & e & p & ld & He & Heid & Hst & _ & _ & _ & H)]]; [done|by rewrite Hfl in Hns|].
  assert (e = d) as -> by (eapply inv_desc_unique; [done|done|exact Hd|congruence]). rewrite <- Hid in *.
  pose proof (arr_get_Some_range _ _ _ He) as Hj. pose proof (iv_ids _ _ _ Hinv) as Hnd.
  apply (auth_image_run _ j (with_size (u32 x3) d)) in H as (r & sv & Hv & Hcase);
    [|by apply arr_get_insert_eq|apply (iv_images _ _ _ Hinv d), (arr_get_elem _ _ _ Hd)].
  destruct Hcase as [(-> & _ & Hm & _ & Hds)|(_ & ? & _)]; [|done]. cbn in Hds. rewrite list_insert_insert_eq in Hds.
  pose proof (within_run _ _ _ _ _ (frame_verify _ _ _) Hv) as Hfr. cbn in Hv.
  assert (Hd1 : desc_of s1 (image_id d) j (with_state IMAGE_STATE_AUTHENTICATED (with_size (u32 x3) d))).
  { split; [rewrite Hds; by apply arr_get_insert_eq|done]. }
  split; [by eexists _, sv|]. split; [by exists j, (with_state IMAGE_STATE_AUTHENTICATED (with_size (u32 x3) d))|].
  assert (Hnd1 : NoDup (image_id <$> bl1_tbbr_image_descs s1)) by (rewrite Hds, (ids_insert _ _ d); [done|by apply arr_get_lookup|done]).
  destruct (execute_ok (image_id d) flags' _ _ s1 Hnd1 Hd1 Hsec Hexe eq_refl Hfl' Hhook) as (s2 & Hx & Hm2 & Hsx & Hlog).
  exists s2. split_and!; [|done|done|].
  - unfold bl1_smc_handler. rewrite Ht. change (bl1_fwu_image_execute (u32 x1) flags' s1 = Ret 0 s2). by rewrite <- Hid.
  - intros x Hx'. rewrite Hm2, Hm. by apply (af_mem _ _ Hfr).
Qed.

(** ** Copying *)

(** [C26] IMAGE_COPY stays in its place.  Every byte that the call changes, with
    any arguments, lies in the window of the secure image it names, and not
    in any other image that has bytes in memory; a call that returns an error
    changes no memory. *)
Theorem fwu_copy_confined s0 s uid x1 x2 x3 x4 flags rc s' x :
  fwu_start s0 -> reached s0 s -> bl1_smc_handler uid FWU_SMC_IMAGE_COPY x1 x2 x3 x4 flags s = Ret rc s' ->
  tb_mem s' x <> tb_mem s x ->
  rc = 0 /\ exists d, d ∈ bl1_tbbr_image_descs s /\ image_id d = u32 x1 /\ secure d /\ window d x /\
    forall e, e ∈ bl1_tbbr_image_descs s -> image_id e <> u32 x1 -> live (bl1_fwu_loaded_ids s) e -> ~ in_image e x.
Proof.
  intros Hs Hr Hrun Hx. destruct (reached_inv _ _ Hs Hr) as [V Hinv].
  destruct (copy_smc_run _ _ _ _ _ _ _ _ _ _ Hinv Hrun) as [[_ Hm]|[-> Hdone]]; [by rewrite Hm in Hx|].
  destruct Hdone as (Hn & i & d & d0 & Hd & Hid & Hd0 & Hroom & Hm & _). split; [done|]. exists d.
  assert (Hst : same_static d d0) by (by destruct Hd0 as [[_ ->]|[_ ->]]). destruct Hst as (Hid0 & Hb & Hmx & Hat).
  assert (Hin : in_image d0 x).
  { destruct (decide (base d0 <= x < base d0 + size d0)) as [|Hout]; [done|]. rewrite Hm in Hx. by erewrite block_in_image in Hx. }
  destruct Hroom as [Hsec _ _ Hf Ha]. split_and!; [by eapply arr_get_elem|done| | |].
  - unfold secure in *. by rewrite <- Hat.
  - specialize (Hf x Hin). unfold window in *. by rewrite <- Hb, <- Hmx.
  - intros e He Hne Hl Hxe. eapply (Ha e); [done|congruence|done|by split].
Qed.

(** IMAGE_COPY appends.  A call that returns 0 leaves at the image's
    address the bytes that were copied before (none, when the image was
    reset) followed by the block at the source address, cut to the rest of
    the image; the image is COPIED exactly when it is complete, and COPYING
    otherwise. *)
Theorem fwu_copy_appends s0 s uid x1 x2 x3 x4 flags s' :
  fwu_start s0 -> reached s0 s -> bl1_smc_handler uid FWU_SMC_IMAGE_COPY x1 x2 x3 x4 flags s = Ret 0 s' ->
  exists i d d', desc_of s (u32 x1) i d /\ desc_of s' (u32 x1) i d' /\
    let before := if decide (state d = IMAGE_STATE_COPYING) then copied_size d else 0 in
    let total := if decide (state d = IMAGE_STATE_COPYING) then size d else u32 x4 in
    let n := Z.min (total - before) (u32 x3) in
    size d' = total /\ copied_size d' = before + n /\ 0 < n /\
    read_bytes (tb_mem s') (base d) (before + n) =
      read_bytes (tb_mem s) (base d) before ++ read_bytes (tb_mem s) x2 n /\
    state d' = if decide (before + n = total) then IMAGE_STATE_COPIED else IMAGE_STATE_COPYING.
Proof.
  intros Hs Hr Hrun. destruct (reached_inv _ _ Hs Hr) as [V Hinv].
  destruct (copy_smc_run _ _ _ _ _ _ _ _ _ _ Hinv Hrun) as [[[] _]|[_ Hdone]]; [done|].
  destruct Hdone as (Hn & i & d & d0 & Hd & Hid & Hd0 & Hroom & Hm & Hds & _). pose proof (arr_get_Some_range _ _ _ Hd) as Hi.
  pose proof (block_len_bounds _ _ _ Hroom Hn) as Hlen.
  exists i, d, (copied_to d0 (copied_size d0 + block_len d0 (u32 x3))).
  assert (Hcase : base d0 = base d /\ image_id d0 = image_id d /\
    (if decide (state d = IMAGE_STATE_COPYING) then copied_size d else 0) = copied_size d0 /\
    (if decide (state d = IMAGE_STATE_COPYING) then size d else u32 x4) = size d0).
  { destruct Hd0 as [[-> ->]|[-> ->]]; done. }
  destruct Hcase as (Hb & Hi0 & -> & ->). split; [done|]. split.
  { split; [rewrite Hds; by apply arr_get_insert_eq|cbn; congruence]. }
  cbn zeta. fold (block_len d0 (u32 x3)). split_and!; [done|done|lia| |done].
  destruct Hroom as [_ Hc _ _ _]. rewrite read_app by lia. rewrite Hm, <- Hb. f_equal.
  - apply read_write_other. lia.
  - assert (Hl : Z.of_nat (length (read_bytes (tb_mem s) x2 (block_len d0 (u32 x3)))) = block_len d0 (u32 x3))
      by (rewrite length_read; lia). rewrite <- Hl at 2. apply read_write_same.
Qed.

(** ** Erasure *)
Lemma smc_reset uid x1 x2 x3 x4 flags s rc s' :
  bl1_smc_handler uid FWU_SMC_IMAGE_RESET x1 x2 x3 x4 flags s = Ret rc s' ->
  bl1_fwu_image_reset (u32 x1) flags s = Ret rc s' \/ (rc = SMC_UNK /\ s' = s).
Proof. unfold bl1_smc_handler. destruct TRUSTED_BOARD_BOOT; [by left|]. intros [= <- <-]. by right. Qed.

(** The image [id], which had the descriptor [d], is gone: it is reset, not
    registered as loaded, and its first [n] bytes are 0. *)
Definition erased s' (id : Z) d (n : Z) : Prop :=
  ~ (id ∈ bl1_fwu_loaded_ids s') /\ read_bytes (tb_mem s') (base d) n = replicate (Z.to_nat n) 0 /\
  exists i d', desc_of s' id i d' /\ state d' = IMAGE_STATE_RESET.

Lemma auth_copied (V : evidence) s i d src n flags :
  fwu_inv V s -> arr_get (bl1_tbbr_image_descs s) i = Some d -> state d = IMAGE_STATE_COPIED ->
  GET_SECURITY_STATE flags = NON_SECURE -> forall rc s', bl1_fwu_image_auth (image_id d) src n flags s = Ret rc s' ->
  exists j, arr_get (bl1_tbbr_image_descs s) j = Some d /\ auth_image (image_id d) j (base d) (size d) s = Ret rc s'.
Proof.
  intros Hinv Hd Hst Hfl rc s' H. pose proof (iv_images _ _ _ Hinv d (arr_get_elem _ _ _ Hd)) as Him.
  pose proof (io_state _ _ _ Him) as Hl. unfold state_ok in Hl. rewrite Hst in Hl. destruct Hl as [Hl _].
  pose proof (lo_secure _ (io_live _ _ _ Him Hl)) as Hsec. unfold secure in Hsec.
  unfold bl1_fwu_image_auth in H. inv_run H. unfold bl1_plat_get_image_desc, gets in H0. injection H0 as <- <-.
  destruct (find_desc _ _ 0) as [j|] eqn:Ef.
  - apply find_desc_Some in Ef as (e & He & Hid & _). rewrite Z.sub_0_r in He.
    assert (e = d) as -> by (by eapply inv_desc_unique). inv_run H. apply get_desc_run in H0 as [-> Hd1]. rewrite He in Hd1.
    injection Hd1 as <-. unfold auth_allowed in H. rewrite Hfl, Hsec, Hst in H. cbn in H. by exists j.
  - exfalso. clear -Ef Hd. apply arr_get_elem in Hd. revert Ef. generalize 0 at 1.
    induction (bl1_tbbr_image_descs s) as [|e ds IH]; intros k Hf; [by apply elem_of_nil in Hd|]. cbn in Hf.
    destruct (Z.eqb_spec (image_id e) (image_id d)) as [|Hne]; [done|]. apply elem_of_cons in Hd as [->|Hd]; [done|]. by eapply IH.
Qed.

(** A rejected image is erased.  When the normal world asks for the
    authentication of a copied image and BL1 answers with an error, every
    byte of the image in secure memory is 0, the image is reset and it is no
    longer registered as loaded. *)
Theorem fwu_reject_erases s0 s uid x1 x2 x3 x4 flags rc s' i d :
  TRUSTED_BOARD_BOOT = true -> fwu_start s0 -> reached s0 s -> desc_of s (u32 x1) i d -> state d = IMAGE_STATE_COPIED ->
  GET_SECURITY_STATE flags = NON_SECURE -> bl1_smc_handler uid FWU_SMC_IMAGE_AUTH x1 x2 x3 x4 flags s = Ret rc s' -> rc <> 0 ->
  rc = - EAUTH /\ erased s' (u32 x1) d (size d).
Proof.
  intros Ht Hs Hr [Hd Hid] Hst Hfl Hrun Hrc. destruct (reached_inv _ _ Hs Hr) as [V Hinv].
  assert (Hauth : bl1_fwu_image_auth (u32 x1) x2 (u32 x3) flags s = Ret rc s').
  { revert Hrun. unfold bl1_smc_handler. by rewrite Ht. }
  rewrite <- Hid in *. destruct (auth_copied _ _ _ _ _ _ _ Hinv Hd Hst Hfl _ _ Hauth) as (j & Hj & Ha).
  pose proof (iv_images _ _ _ Hinv d (arr_get_elem _ _ _ Hd)) as [Hok _ _ _].
  apply auth_image_run in Ha as (r & s1 & _ & Hcase); [|done|apply Hok]. rewrite Hst in Hcase. cbn in Hcase.
  destruct Hcase as [(_ & -> & _)|(_ & -> & _ & Hnin & Hm & Hds)]; [done|]. split; [done|]. split_and!.
  - apply Hnin, (iv_loaded _ _ _ Hinv).
  - rewrite Hm. apply read_zero, (do_size _ Hok).
  - exists j. eexists. split; [split; [rewrite Hds; apply arr_get_insert_eq; by eapply arr_get_Some_range|done]|done].
Qed.

(** IMAGE_RESET erases.  When the normal world resets an image that was
    neither reset nor executing and BL1 answers 0, every byte that had been
    copied is 0, the image is reset and it is no longer registered. *)
Theorem fwu_reset_erases s0 s uid x1 x2 x3 x4 flags s' i d :
  fwu_start s0 -> reached s0 s -> desc_of s (u32 x1) i d ->
  state d <> IMAGE_STATE_RESET -> state d <> IMAGE_STATE_EXECUTED ->
  bl1_smc_handler uid FWU_SMC_IMAGE_RESET x1 x2 x3 x4 flags s = Ret 0 s' ->
  erased s' (u32 x1) d (copied_size d).
Proof.
  intros Hs Hr [Hd Hid] Hn1 Hn2 Hrun. destruct (reached_inv _ _ Hs Hr) as [V Hinv].
  apply smc_reset in Hrun as [Hrun|[? _]]; [|done].
  apply (image_reset_run _ _ _ _ _ Hinv) in Hrun as [[-> Hno]|(_ & _ & j & e & [He Heid] & _ & _ & _ & _ & Hnin & Hm & _ & Hds)].
  { destruct (Hno eq_refl) as (j & e & [He Heid] & Hse). assert (e = d) as -> by (eapply inv_desc_unique; [done|done|exact Hd|congruence]).
    by destruct Hse. }
  assert (e = d) as -> by (eapply inv_desc_unique; [done|done|exact Hd|congruence]).
  pose proof (iv_images _ _ _ Hinv d (arr_get_elem _ _ _ Hd)) as [Hok _ _ _]. split_and!; [done| |].
  - rewrite Hm. unfold wiped_mem, truthy. destruct (Z.eqb_spec (copied_size d) 0) as [->|]; [done|]. apply read_zero, (do_copied _ Hok).
  - exists j. eexists. split; [split; [rewrite Hds; apply arr_get_insert_eq; by eapply arr_get_Some_range|cbn; congruence]|done].
Qed.

(** ** The state machine of an image *)

(** The transitions of docs/firmware-update: by call and by the world that
    makes it. *)
Inductive image_moves : Z -> Z -> image_state -> image_state -> Prop :=
| mv_copy a b : a = IMAGE_STATE_RESET \/ a = IMAGE_STATE_COPYING -> b = IMAGE_STATE_COPYING \/ b = IMAGE_STATE_COPIED ->
    image_moves FWU_SMC_IMAGE_COPY NON_SECURE a b
| mv_auth sec a : a = IMAGE_STATE_RESET \/ a = IMAGE_STATE_COPIED -> image_moves FWU_SMC_IMAGE_AUTH sec a IMAGE_STATE_AUTHENTICATED
| mv_auth_failed sec : image_moves FWU_SMC_IMAGE_AUTH sec IMAGE_STATE_COPIED IMAGE_STATE_RESET
| mv_execute : image_moves FWU_SMC_IMAGE_EXECUTE NON_SECURE IMAGE_STATE_AUTHENTICATED IMAGE_STATE_EXECUTED
| mv_interrupt : image_moves FWU_SMC_IMAGE_RESUME SECURE IMAGE_STATE_EXECUTED IMAGE_STATE_INTERRUPTED
| mv_resume : image_moves FWU_SMC_IMAGE_RESUME NON_SECURE IMAGE_STATE_INTERRUPTED IMAGE_STATE_EXECUTED
| mv_done : image_moves FWU_SMC_SEC_IMAGE_DONE SECURE IMAGE_STATE_EXECUTED IMAGE_STATE_RESET
| mv_reset a : a <> IMAGE_STATE_RESET -> a <> IMAGE_STATE_EXECUTED -> image_moves FWU_SMC_IMAGE_RESET NON_SECURE a IMAGE_STATE_RESET.

(** At most one descriptor changes, its fixed fields stay, and its state moves
    along the machine or not at all. *)
Definition one_moves (fid sec : Z) s s' : Prop :=
  bl1_tbbr_image_descs s' = bl1_tbbr_image_descs s \/
  exists i d d', bl1_tbbr_image_descs s !! i = Some d /\ bl1_tbbr_image_descs s' = <[i := d']> (bl1_tbbr_image_descs s) /\
    same_static d d' /\ (state d' = state d \/ image_moves fid sec (state d) (state d')).

Lemma one_moves_intro fid sec s s' i d d' :
  arr_get (bl1_tbbr_image_descs s) i = Some d -> bl1_tbbr_image_descs s' = <[Z.to_nat i := d']> (bl1_tbbr_image_descs s) ->
  same_static d d' -> state d' = state d \/ image_moves fid sec (state d) (state d') -> one_moves fid sec s s'.
Proof. intros Hd%arr_get_lookup Hds Hst Hmv. right. by exists (Z.to_nat i), d, d'. Qed.

Lemma copy_moves (V : evidence) s id src n total flags rc s' :
  fwu_inv V s -> 0 <= n -> 0 <= total < 2 ^ 32 -> bl1_fwu_image_copy id src n total flags s = Ret rc s' ->
  one_moves FWU_SMC_IMAGE_COPY (GET_SECURITY_STATE flags) s s'.
Proof.
  intros Hinv Hn Ht Hrun. assert (Hfl : GET_SECURITY_STATE flags = SECURE -> s' = s).
  { intros Hsec. revert Hrun. unfold bl1_fwu_image_copy. rewrite Hsec. intros Hrun. inv_run Hrun.
    apply plat_get_run in Hrun0 as [-> _]. destruct a as [i|]; [|by injection Hrun as _ <-]. inv_run Hrun.
    apply get_desc_run in Hrun0 as [-> _]. by injection Hrun as _ <-. }
  destruct (decide (GET_SECURITY_STATE flags = SECURE)) as [Hsec|Hns%non_secure_flags]; [left; by rewrite Hfl|]. rewrite Hns.
  destruct (image_copy_run s id src n total flags rc s' Hinv Hn Ht Hrun) as
    [[_ [_ [[Hds _]|(i & d & d' & Hd & _ & _ & Hr & Hst & Hr' & _ & Hds & _)]]]|[_ (_ & i & d & d0 & Hd & _ & Hd0 & _ & _ & Hds & _)]].
  - by left.
  - eapply one_moves_intro; [done|done|done|]. left. congruence.
  - eapply one_moves_intro; [done|done|by destruct Hd0 as [[_ ->]|[_ ->]]|]. right. cbn. constructor.
    + destruct Hd0 as [[-> _]|[-> _]]; auto.
    + destruct (decide _); auto.
Qed.

Lemma auth_moves (V : evidence) s id src n flags rc s' :
  fwu_inv V s -> bl1_fwu_image_auth id src n flags s = Ret rc s' ->
  one_moves FWU_SMC_IMAGE_AUTH (GET_SECURITY_STATE flags) s s'.
Proof.
  intros Hinv [(_ & p & ->)|[(i & d & Hd & <- & Hst & _ & H)|(i & d & p & ld & Hd & <- & Hst & _ & _ & _ & H)]]%(image_auth_run (V := V)).
  - by left.
  - pose proof (do_id _ (io_desc _ _ _ (iv_images _ _ _ Hinv d (arr_get_elem _ _ _ Hd)))) as Hid.
    apply auth_image_run in H as (r & s1 & _ & Hcase); [|done|done]. rewrite Hst in Hcase. cbn in Hcase.
    destruct Hcase as [(_ & _ & _ & _ & Hds)|(_ & _ & _ & _ & _ & Hds)]; (eapply one_moves_intro; [done|done|done|]); right;
      rewrite Hst; constructor. by right.
  - pose proof (do_id _ (io_desc _ _ _ (iv_images _ _ _ Hinv d (arr_get_elem _ _ _ Hd)))) as Hid.
    apply (auth_image_run _ i (with_size n d)) in H as (r & s1 & _ & Hcase);
      [|apply arr_get_insert_eq; by eapply arr_get_Some_range|done]. cbn in Hcase. rewrite Hst in Hcase. cbn in Hcase.
    destruct Hcase as [(_ & _ & _ & _ & Hds)|(_ & _ & _ & _ & _ & Hds)].
    + rewrite list_insert_insert_eq in Hds. eapply one_moves_intro; [done|done|done|]. right. rewrite Hst. constructor. by left.
    + eapply one_moves_intro; [done|done|done|]. by left.
  - done.
Qed.

(** [C21] BL1 implements the state machine of the update.  In a build with
    assertions, every SMC that returns, whatever its arguments, changes at
    most one image descriptor, keeps its identifier, address, limit and
    attributes, and moves its state only along a transition that the machine
    allows for that call and that world. *)
Theorem fwu_state_machine s0 s uid fid x1 x2 x3 x4 flags rc s' :
  TB_ASSERTIONS = true -> fwu_start s0 -> reached s0 s -> bl1_smc_handler uid fid x1 x2 x3 x4 flags s = Ret rc s' ->
  one_moves fid (GET_SECURITY_STATE flags) s s'.
Proof.
  intros HA Hs Hr H. destruct (reached_inv _ _ Hs Hr) as [V Hinv]. unfold bl1_smc_handler in H.
  destruct (TRUSTED_BOARD_BOOT && is_fwu_fid fid).
  2: { left. repeat (destruct (_ =? _); [by injection H as _ <-|]). by injection H as _ <-. }
  unfold bl1_fwu_smc_handler in H. pose proof (u32_range x3). pose proof (u32_range x4).
  destruct (Z.eqb_spec fid FWU_SMC_IMAGE_COPY) as [->|_]; [eapply copy_moves, H; [done|lia|lia]|].
  destruct (Z.eqb_spec fid FWU_SMC_IMAGE_AUTH) as [->|_]; [by eapply auth_moves, H|].
  destruct (Z.eqb_spec fid FWU_SMC_IMAGE_EXECUTE) as [->|_].
  { apply (image_execute_run _ _ _ _ _ Hinv) in H as [[_ ->]|(_ & -> & i & d & v & [Hd _] & _ & _ & Hst & _ & _ & _ & Hds & _)]; [by left|].
    eapply one_moves_intro; [done|done|done|]. right. rewrite Hst. constructor. }
  destruct (Z.eqb_spec fid FWU_SMC_IMAGE_RESUME) as [->|_].
  { apply image_resume_run in H as [[_ ->]|(_ & i & d & [Hd _] & _ & _ & _ & Hds & Hst)]; [by left|].
    eapply one_moves_intro; [done|done|done|]. right. cbn. rewrite (Hst HA).
    destruct (Z.eqb_spec (GET_SECURITY_STATE flags) SECURE) as [->|Hns%non_secure_flags]; [|rewrite Hns]; constructor. }
  destruct (Z.eqb_spec fid FWU_SMC_SEC_IMAGE_DONE) as [->|_].
  { apply (sec_image_done_run _ _ _ _ Hinv) in H as [[_ ->]|(_ & -> & i & d & [Hd _] & _ & _ & _ & _ & Hds & Hst)]; [by left|].
    eapply one_moves_intro; [done|done|done|]. right. cbn. rewrite (Hst HA). constructor. }
  destruct (Z.eqb_spec fid FWU_SMC_IMAGE_RESET) as [->|_].
  { apply (image_reset_run _ _ _ _ _ Hinv) in H as [[-> _]|(_ & -> & i & d & [Hd _] & Hn1 & Hn2 & _ & _ & _ & _ & _ & Hds)]; [by left|].
    eapply one_moves_intro; [done|done|done|]. right. by constructor. }
  destruct (fid =? FWU_SMC_UPDATE_DONE); [done|]. inv_run H. apply assert_run in H2 as ->. injection H as _ <-. by left.
Qed.
End props.

(** ** The TBBR image table *)
Section table.
Context {P : Type} `{!TbEnv P} {lay : Bl1Layout}.

(** A range for a secure image: in the address space, smaller than 4 GB and
    away from the buffers of the authentication module. *)
Definition range_ok (b lim : Z) : Prop :=
  0 <= b <= lim /\ lim < 2 ^ 64 /\ lim - b < 2 ^ 32 /\ forall x, b <= x < lim -> ~ param_region x.

(** The platform's addresses; without LOAD_IMAGE_V2 the secure images go to
    the free part of the trusted RAM. *)
Record layout_ok : Prop := {
  ly_bl2 : range_ok BL2_BASE BL2_LIMIT;
  ly_scp : range_ok SCP_BL2U_BASE SCP_BL2U_LIMIT;
  ly_bl2u : range_ok BL2U_BASE BL2U_LIMIT;
  ly_free : let l := bl1_plat_sec_mem_layout in
    range_ok (free_base l) (free_base l + free_size l)
}.

Lemma secure_desc_ok id b lim attr :
  id <> INVALID_IMAGE_ID -> layout_ok -> range_ok b lim -> desc_ok (ImageDesc id IMAGE_STATE_RESET 0 (ImageInfo b 0 (max_size lim b)) attr 0).
Proof.
  intros Hid [_ _ _ (Hf1 & Hf2 & Hf3 & Hf4)] (Hb1 & Hb2 & Hb3 & Hb4). unfold max_size.
  split; unfold base, size, window; cbn; try done; try lia; destruct LOAD_IMAGE_V2; rewrite ?u32_small by lia; try lia.
  - intros _ x Hx. split; [lia|]. apply Hb4. lia.
  - intros _ x Hx. split; [lia|]. apply Hf4. lia.
Qed.

Lemma ns_desc_ok id attr :
  id <> INVALID_IMAGE_ID -> GET_SECURITY_STATE attr = NON_SECURE -> desc_ok (ImageDesc id IMAGE_STATE_RESET 0 (ImageInfo 0 0 0) attr 0).
Proof.
  intros Hid Hns. split; unfold base, size, secure; cbn; try done; try lia. rewrite Hns. done.
Qed.

Lemma tbbr_table_start s :
  layout_ok -> bl1_tbbr_image_descs s = tbbr_image_descs ->
  bl1_fwu_loaded_ids s = replicate (Z.to_nat FWU_MAX_SIMULTANEOUS_IMAGES) INVALID_IMAGE_ID -> fwu_start s.
Proof.
  intros Hlay Hds Hld. pose proof Hlay as [H1 H2 H3 H4]. split; [|rewrite Hds..|done].
  - destruct H4 as (Hf1 & Hf2 & Hf3 & _). lia.
  - unfold tbbr_image_descs, if_base. repeat destruct (truthy _); cbn; by apply (bool_decide_eq_true_1 (NoDup _)); vm_compute.
  - apply Forall_forall; unfold tbbr_image_descs, if_base, BL2_IMAGE_DESC;
      rewrite !Forall_app; repeat destruct (truthy _); split_and!; repeat (apply Forall_nil_2 || apply Forall_cons_2);
      (split_and!; [by apply secure_desc_ok || by apply ns_desc_ok|done|done]).
Qed.

(** [C27] The update's tables stay well formed.  On any platform whose address
    ranges are in the address space, below 4 GB in size and away from the
    buffers of the authentication module, for every choice of optional images,
    starting from the descriptors of tbbr_img_desc.c with no image loaded:
    after every history of SMCs and writes in which the secure world has not had
    a secure image authenticated in place, identifiers are unique and registered
    at most once, sizes and copied sizes agree with the image states, images
    with bytes in memory are secure, lie in their windows and do not overlap,
    and the bytes of an authenticated secure image are the ones that were
    verified at an IMAGE_AUTH of the history.  An authentication in place of a
    secure image does break this: it leaves the image authenticated with the
    size of the caller and with no bytes copied. *)
Theorem fwu_tables_wellformed s0 h s :
  layout_ok -> bl1_tbbr_image_descs s0 = tbbr_image_descs ->
  bl1_fwu_loaded_ids s0 = replicate (Z.to_nat FWU_MAX_SIMULTANEOUS_IMAGES) INVALID_IMAGE_ID ->
  fwu_run s0 h s -> some_in_place h = false -> fwu_inv (verified_in h) s.
Proof. intros Hlay Hds Hld. apply run_inv. by apply tbbr_table_start. Qed.
End table.
