(* ===== verification/FwuRuns.v ===== *)
(** * Firmware update: concrete runs

    The update of the image BL2U with its certificate on a small platform,
    which instantiates the theorems of FwuProps.v, and a run of a build
    without assertions that resumes an image after it was reset. *)
From stdpp Require Import base list numbers option strings sets.
From Stdlib Require Import ZArith Lia.
From S2P Require Import Prelude TbbDefs AuthMod TbbrCot BlCommon Bl1Fwu Bl1Main TbbExample TbbLemmas AuthProps CotProps FwuInv FwuOps FwuCopy FwuHandlers FwuProps.
#[local] Open Scope Z_scope.

Module FwuRuns.
Import TbbExample.

#[local] Instance lay : Bl1Layout := {|
  BL2_BASE := 0x4001000; BL2_LIMIT := 0x4009000; NS_BL1U_BASE := 0x8001000; NS_BL2U_BASE := 0x8002000;
  SCP_BL2U_BASE := 0; SCP_BL2U_LIMIT := 0; BL2U_BASE := 0x4010000; BL2U_LIMIT := 0x4018000;
  BL1_RAM_BASE := 0x4000000; BL1_RAM_LIMIT := 0x4001000; BL1_RW_BASE := 0x4030000; CACHE_WRITEBACK_GRANULE := 64
|}.

(** The certificate and two versions of BL2U in the normal world's memory. *)
Definition source : memory :=
  write_bytes (write_bytes (mem_with 0x80000000 (cert 1 9 3 7)) 0x80001000 [9; 8; 7]) 0x80002000 [6; 6; 6].

(** Builds with and without assertions. *)
#[local] Instance e1 : TbEnv Z := env true true true (fun _ => []) 0.
Definition e0 : TbEnv Z := env false true true (fun _ => []) 0.
Definition start : tb_state Z := boot_state source tbbr_image_descs.

Lemma buffers_low x : param_region (TbEnv0 := e1) x -> x < 0x200000.
Proof.
  intros (d & en & Hd & He & [td Ht] & Hin). destruct (buffers_fit d en td Hd He Ht) as (b & Hp & Hl). rewrite Hp, Hl in Hin.
  assert (buf_addr b + buf_size b <= 0x200000) by (destruct b; vm_compute; discriminate). lia.
Qed.

Lemma high_range b lim : 0x200000 <= b <= lim -> lim < 2 ^ 64 -> lim - b < 2 ^ 32 -> range_ok b lim.
Proof. intros Hb Hl Hs. split_and!; [lia|lia|done|lia|]. intros x Hx Hp%buffers_low. lia. Qed.

Lemma lay_ok : layout_ok.
Proof.
  split; cbn; try (apply high_range; lia). split_and!; [lia|lia|lia|lia|]. intros x Hx. lia.
Qed.

(** Normal-world calls. *)
#[local] Abbreviation call fid x1 x2 x3 x4 := (bl1_smc_handler 0 fid x1 x2 x3 x4 NON_SECURE).
#[local] Abbreviation after m s := (final (m s)).
#[local] Abbreviation copy_cert := (call FWU_SMC_IMAGE_COPY FWU_CERT_ID 0x80000000 32 32).
#[local] Abbreviation auth_cert := (call FWU_SMC_IMAGE_AUTH FWU_CERT_ID 0 0 0).
#[local] Abbreviation copy_bl2u := (call FWU_SMC_IMAGE_COPY BL2U_IMAGE_ID 0x80001000 2 3).
#[local] Abbreviation copy_rest := (call FWU_SMC_IMAGE_COPY BL2U_IMAGE_ID 0x80001002 8 0).
#[local] Abbreviation auth_bl2u := (call FWU_SMC_IMAGE_AUTH BL2U_IMAGE_ID 0 0 0).
#[local] Abbreviation execute_bl2u := (call FWU_SMC_IMAGE_EXECUTE BL2U_IMAGE_ID 0 0 0).

(** The state after the certificate and the image were copied, in two blocks,
    and authenticated. *)
Definition updated : tb_state Z :=
  after auth_bl2u (after copy_rest (after copy_bl2u (after auth_cert (after copy_cert start)))).

(** ** The theorems at work *)
Lemma start_ok : fwu_start start.
Proof. apply (tbbr_table_start (TbEnv0 := e1)); [apply (lay_ok)|reflexivity|reflexivity]. Qed.

(** The history of a list of normal-world calls, which all return 0. *)
#[local] Abbreviation smc fid x1 x2 x3 x4 := (Smc 0 fid x1 x2 x3 x4 NON_SECURE 0).
Lemma call_run h (s0 s : tb_state Z) fid x1 x2 x3 x4 :
  fwu_run s0 h s -> returned (call fid x1 x2 x3 x4 s) = Some 0 ->
  fwu_run s0 ((s, smc fid x1 x2 x3 x4) :: h) (after (call fid x1 x2 x3 x4) s).
Proof. intros Hr Hrc. eapply run_step; [exact Hr|]. apply StepSmc. by apply returned_final. Qed.

Definition update_history : list (tb_state Z * fwu_event) :=
  let s1 := after copy_cert start in let s2 := after auth_cert s1 in
  let s3 := after copy_bl2u s2 in let s4 := after copy_rest s3 in
  [(s4, smc FWU_SMC_IMAGE_AUTH BL2U_IMAGE_ID 0 0 0); (s3, smc FWU_SMC_IMAGE_COPY BL2U_IMAGE_ID 0x80001002 8 0);
   (s2, smc FWU_SMC_IMAGE_COPY BL2U_IMAGE_ID 0x80001000 2 3); (s1, smc FWU_SMC_IMAGE_AUTH FWU_CERT_ID 0 0 0);
   (start, smc FWU_SMC_IMAGE_COPY FWU_CERT_ID 0x80000000 32 32)].
Lemma run_update : fwu_run start update_history updated.
Proof. do 5 (apply call_run; [|vm_compute; reflexivity]). apply run_start. Qed.

Lemma fwu_tables_wellformed_witness : fwu_inv (verified_in update_history) updated.
Proof.
  apply (fwu_tables_wellformed (TbEnv0 := e1) (lay := lay) start); [apply (lay_ok)|reflexivity|reflexivity|apply run_update|reflexivity].
Defined.

Lemma fwu_execute_authenticated_witness :
  exists d, image_id d = BL2U_IMAGE_ID /\ secure d /\
    verified_in update_history BL2U_IMAGE_ID (base d) (size d) (read_bytes (tb_mem (after execute_bl2u updated)) (base d) (size d)).
Proof.
  destruct (fwu_execute_authenticated (TbEnv0 := e1) start update_history updated 0 BL2U_IMAGE_ID 0 0 0 NON_SECURE
    (after execute_bl2u updated)) as [Hip|(d & _ & Hid & Hsec & _ & Ha & _)].
  - apply start_ok.
  - apply run_update.
  - apply returned_final. vm_compute. reflexivity.
  - exfalso. vm_compute in Hip. discriminate Hip.
  - exists d. change (u32 BL2U_IMAGE_ID) with BL2U_IMAGE_ID in Hid. rewrite Hid in Ha. split; [exact Hid|split; [exact Hsec|exact Ha]].
Defined.

Lemma reached_start : reached start start.
Proof. exists []. split; [apply run_start|reflexivity]. Qed.

Lemma fwu_copy_confined_witness :
  exists d, image_id d = FWU_CERT_ID /\ secure d /\ window d 0x4001000.
Proof.
  destruct (fwu_copy_confined (TbEnv0 := e1) start start 0 FWU_CERT_ID 0x80000000 32 32 NON_SECURE 0
    (after copy_cert start) 0x4001000) as (_ & d & _ & Hid & Hsec & Hw & _).
  - apply start_ok.
  - apply reached_start.
  - apply returned_final. vm_compute. reflexivity.
  - vm_compute. discriminate.
  - exists d. split; [exact Hid|split; [exact Hsec|exact Hw]].
Defined.

Lemma fwu_copy_appends_witness :
  exists i d', desc_of (after copy_cert start) FWU_CERT_ID i d' /\ copied_size d' = 32.
Proof.
  destruct (fwu_copy_appends (TbEnv0 := e1) start start 0 FWU_CERT_ID 0x80000000 32 32 NON_SECURE
    (after copy_cert start)) as (i & d & d' & Hd & Hd' & _ & Hc & _).
  - apply start_ok.
  - apply reached_start.
  - apply returned_final. vm_compute. reflexivity.
  - exists i, d'. split; [exact Hd'|]. rewrite Hc. destruct Hd as [Hd _]. apply arr_get_elem in Hd.
    assert (Hr : state d = IMAGE_STATE_RESET) by (apply (fs_descs _ start_ok d Hd)). rewrite Hr. reflexivity.
Defined.

Lemma fwu_state_machine_witness :
  one_moves FWU_SMC_IMAGE_COPY NON_SECURE start (after copy_cert start).
Proof.
  apply (fwu_state_machine (TbEnv0 := e1) start start 0 FWU_SMC_IMAGE_COPY FWU_CERT_ID 0x80000000 32 32 NON_SECURE 0).
  - reflexivity.
  - apply start_ok.
  - apply reached_start.
  - apply returned_final. vm_compute. reflexivity.
Defined.

(** A copied image whose certificate has not been authenticated. *)
Definition copied_only : tb_state Z := after copy_bl2u start.
Definition complete : tb_state Z := after copy_rest copied_only.
Lemma reached_complete : reached start complete.
Proof.
  exists [(copied_only, smc FWU_SMC_IMAGE_COPY BL2U_IMAGE_ID 0x80001002 8 0); (start, smc FWU_SMC_IMAGE_COPY BL2U_IMAGE_ID 0x80001000 2 3)].
  split; [|reflexivity]. do 2 (apply call_run; [|vm_compute; reflexivity]). apply run_start.
Qed.
Definition bl2u_copied : image_desc_t := ImageDesc BL2U_IMAGE_ID IMAGE_STATE_COPIED 3 (ImageInfo 0x4010000 3 0x8000) 8 0.

Lemma fwu_reject_erases_witness :
  erased (after auth_bl2u complete) BL2U_IMAGE_ID bl2u_copied 3.
Proof.
  apply (fwu_reject_erases (TbEnv0 := e1) start complete 0 BL2U_IMAGE_ID 0 0 0 NON_SECURE (- EAUTH)
    (after auth_bl2u complete) 2 bl2u_copied).
  - reflexivity.
  - apply start_ok.
  - apply reached_complete.
  - split; vm_compute; reflexivity.
  - reflexivity.
  - reflexivity.
  - apply returned_final. vm_compute. reflexivity.
  - discriminate.
Defined.

Lemma fwu_reset_erases_witness :
  erased (after (call FWU_SMC_IMAGE_RESET BL2U_IMAGE_ID 0 0 0) complete) BL2U_IMAGE_ID bl2u_copied 3.
Proof.
  apply (fwu_reset_erases (TbEnv0 := e1) start complete 0 BL2U_IMAGE_ID 0 0 0 NON_SECURE
    (after (call FWU_SMC_IMAGE_RESET BL2U_IMAGE_ID 0 0 0) complete) 2 bl2u_copied).
  - apply start_ok.
  - apply reached_complete.
  - split; vm_compute; reflexivity.
  - discriminate.
  - discriminate.
  - apply returned_final. vm_compute. reflexivity.
Defined.

(** ** Resuming a replaced image *)

(** The same calls in the build without assertions. *)
#[local] Abbreviation call0 fid x1 x2 x3 x4 flags := (bl1_smc_handler (TbEnv0 := e0) 0 fid x1 x2 x3 x4 flags).
Definition interrupted : tb_state Z :=
  let s := after (call0 FWU_SMC_IMAGE_COPY FWU_CERT_ID 0x80000000 32 32 NON_SECURE) start in
  let s := after (call0 FWU_SMC_IMAGE_AUTH FWU_CERT_ID 0 0 0 NON_SECURE) s in
  let s := after (call0 FWU_SMC_IMAGE_COPY BL2U_IMAGE_ID 0x80001000 3 3 NON_SECURE) s in
  let s := after (call0 FWU_SMC_IMAGE_AUTH BL2U_IMAGE_ID 0 0 0 NON_SECURE) s in
  let s := after (call0 FWU_SMC_IMAGE_EXECUTE BL2U_IMAGE_ID 0 0 0 NON_SECURE) s in
  after (call0 FWU_SMC_IMAGE_RESUME 0 0 0 0 SECURE) s.
Definition replaced : tb_state Z :=
  let s := after (call0 FWU_SMC_IMAGE_RESET BL2U_IMAGE_ID 0 0 0 NON_SECURE) interrupted in
  after (call0 FWU_SMC_IMAGE_COPY BL2U_IMAGE_ID 0x80002000 3 3 NON_SECURE) s.

(** A call that returns extends the run; only an authentication by the secure
    world could be one in place. *)
Lemma call0_step fid x1 x2 x3 x4 flags (s0 s : tb_state Z) :
  fid <> FWU_SMC_IMAGE_AUTH \/ flags = NON_SECURE ->
  reached (TbEnv0 := e0) s0 s -> (exists rc, returned (call0 fid x1 x2 x3 x4 flags s) = Some rc) ->
  reached (TbEnv0 := e0) s0 (after (call0 fid x1 x2 x3 x4 flags) s).
Proof.
  intros Hf (h & Hr & Hip) [rc Hrc]. exists ((s, Smc 0 fid x1 x2 x3 x4 flags rc) :: h). split.
  - eapply run_step; [exact Hr|]. apply StepSmc. by apply returned_final.
  - cbn. unfold some_in_place in Hip. rewrite Hip, orb_false_r. unfold in_place, in_place_auth. cbn.
    destruct Hf as [Hf%Z.eqb_neq| ->]; [by rewrite Hf|]. by rewrite andb_false_r.
Qed.

Lemma reached_replaced : reached (TbEnv0 := e0) start replaced.
Proof.
  do 8 (apply call0_step; [(left; discriminate) || (right; reflexivity)| |eexists; vm_compute; reflexivity]).
  exists []. split; [apply run_start|reflexivity].
Qed.

(** Without assertions, IMAGE_RESUME can run an image that was replaced.
    There is a sequence of allowed calls after which the normal world has
    reset an interrupted secure image and copied other bytes in its place;
    IMAGE_RESUME then still returns to the secure world at the interrupted
    context, although the memory of the image holds bytes that
    [auth_mod_verify_img] rejects.  Only an assertion checks the state. *)
Example fwu_resume_runs_replaced_image :
  exists s s' log, reached (TbEnv0 := e0) start s /\
    call0 FWU_SMC_IMAGE_RESUME 5 0 0 0 NON_SECURE s = Ret 5 s' /\ tb_log s' = EvNextEret SECURE :: EvRestoreEl1 SECURE :: log /\
    read_bytes (tb_mem s') BL2U_BASE 3 = [6; 6; 6] /\
    returned (auth_mod_verify_img (TbEnv0 := e0) BL2U_IMAGE_ID BL2U_BASE 3 s') = Some 1.
Proof.
  exists replaced, (after (call0 FWU_SMC_IMAGE_RESUME 5 0 0 0 NON_SECURE) replaced),
    (drop 2 (tb_log (after (call0 FWU_SMC_IMAGE_RESUME 5 0 0 0 NON_SECURE) replaced))). split_and!.
  - apply reached_replaced.
  - apply returned_final. vm_compute. reflexivity.
  - vm_compute. reflexivity.
  - vm_compute. reflexivity.
  - vm_compute. reflexivity.
Qed.

(** ** Authentication in place

    The certificate is authenticated; the secure world then has the good BL2U
    in the normal world's memory authenticated there, and BL2U's own memory,
    which holds zeros, is executed. *)
Definition cert_ready : tb_state Z := after auth_cert (after copy_cert start).
Lemma reached_cert : reached start cert_ready.
Proof.
  exists [(after copy_cert start, smc FWU_SMC_IMAGE_AUTH FWU_CERT_ID 0 0 0); (start, smc FWU_SMC_IMAGE_COPY FWU_CERT_ID 0x80000000 32 32)].
  split; [|reflexivity]. do 2 (apply call_run; [|vm_compute; reflexivity]). apply run_start.
Qed.
#[local] Abbreviation auth_in_place := (bl1_smc_handler 0 FWU_SMC_IMAGE_AUTH BL2U_IMAGE_ID 0x80001000 3 0 SECURE).
Definition bl2u_reset : image_desc_t := ImageDesc BL2U_IMAGE_ID IMAGE_STATE_RESET 0 (ImageInfo 0x4010000 0 0x8000) 8 0.

Lemma fwu_in_place_auth_executes_witness :
  exists s2, execute_bl2u (after auth_in_place cert_ready) = Ret 0 s2 /\ sec_exec_image_id s2 = BL2U_IMAGE_ID /\
    read_bytes (tb_mem cert_ready) 0x4010000 3 = [0; 0; 0].
Proof.
  destruct (fwu_in_place_auth_executes (TbEnv0 := e1) start cert_ready 0 BL2U_IMAGE_ID 0x80001000 3 0 SECURE (after auth_in_place cert_ready)
    0 0 0 0 NON_SECURE 2 bl2u_reset) as (_ & _ & s2 & Hx & Hid & _).
  - reflexivity.
  - apply start_ok.
  - apply reached_cert.
  - split; vm_compute; reflexivity.
  - reflexivity.
  - discriminate.
  - reflexivity.
  - reflexivity.
  - intros p. exists p. reflexivity.
  - apply returned_final. vm_compute. reflexivity.
  - exists s2. split; [exact Hx|split; [exact Hid|vm_compute; reflexivity]].
Defined.

Definition halted {S A} (o : outcome S A) : option halt := match o with Ret _ _ => None | Halt h _ => Some h end.
Lemma halted_final {S A} (o : outcome S A) h : halted o = Some h -> o = Halt h (final o).
Proof. destruct o; [done|]. by intros [= ->]. Qed.

(** A one-byte image that is loaded stops the next IMAGE_COPY in a build with
    assertions: the overlap check expects the last address of an image to be
    above its first. *)
Lemma one_byte_image_asserts :
  let s := after (call FWU_SMC_IMAGE_COPY FWU_CERT_ID 0x80000000 1 1) start in
  copy_bl2u s = Halt HAssert (final (copy_bl2u s)).
Proof. apply halted_final. vm_compute. reflexivity. Qed.
End FwuRuns.
