(* ===== verification/Bl1Props.v ===== *)
(** * BL1: the boot of BL2

    The chain from storage to hand-over in both builds: what BL1 leaves for
    is the image that was authenticated, but for the memory layout structure
    that BL1 writes for BL2. *)
From stdpp Require Import base list numbers option strings sets.
From Stdlib Require Import ZArith Lia.
From S2P Require Import Prelude TbbDefs AuthMod TbbrCot BlCommon Bl1Fwu Bl1Main TbbExample TbbLemmas AuthProps CotProps TbbProps LoadProps FwuInv FwuOps FwuHandlers.
#[local] Open Scope Z_scope.

(** ** BL1 *)
Section bl1.
Context {P : Type} `{!TbEnv P} {bufs : CotBufs} {lay : Bl1Layout} {benv : Bl1Env P} (Hcot : cot_desc_ptr = cot_desc).
Implicit Types (s : tb_state P).

(** The image descriptors stay. *)
Definition same_descs s s' : Prop := bl1_tbbr_image_descs s' = bl1_tbbr_image_descs s.
#[local] Instance same_descs_preorder : PreOrder same_descs.
Proof. split; unfold same_descs; [done|congruence]. Qed.
Lemma hook_same_descs {A} (m : M P A) : within same_descs (tb_hook m).
Proof. eapply within_mono; [|apply within_hook]. unfold plat_only, same_descs. intros [] ? ->. done. Qed.
#[local] Hint Resolve hook_same_descs : frame.

Lemma init_same_descs : within same_descs auth_mod_init.
Proof.
  assert (Hset : forall l, within same_descs (modify (set_indices l))) by (intros; by apply within_modify).
  assert (Hloop : forall libs i, within same_descs (parser_init_loop i libs)) by (induction libs; intros; cbn; frame; auto).
  unfold auth_mod_init, img_parser_init. frame; auto.
Qed.

(** Loading keeps the descriptors. *)
Lemma store_same_descs a bs : within same_descs (store_bytes a bs).
Proof. unfold store_bytes. by apply within_modify. Qed.
Lemma flush_same_descs a n : within same_descs (flush_dcache_range a n).
Proof. unfold flush_dcache_range, tb_emit. by apply within_modify. Qed.
Lemma zero_same_descs a n : within same_descs (zero_normalmem a n).
Proof. unfold zero_normalmem. by apply within_modify. Qed.
Lemma verify_same_descs id p n : within same_descs (auth_mod_verify_img id p n).
Proof. eapply within_mono; [|apply frame_verify]. by intros s s' []. Qed.
Lemma parent_id_same_descs id : within same_descs (auth_mod_get_parent_id id).
Proof. eapply within_mono; [|apply frame_up, frame_get_parent_id]. by intros s s' []. Qed.
#[local] Hint Resolve store_same_descs flush_same_descs zero_same_descs verify_same_descs parent_id_same_descs : frame.

Lemma load_v2_same_descs tries fuel id info : within same_descs (load_auth_image_v2 tries fuel id info).
Proof.
  assert (Hload : forall id info p, within same_descs (load_then_auth_v2 id info p)).
  { intros. unfold load_then_auth_v2, load_image_v2, with_image, read_image, auth_loaded. frame. }
  assert (Hint : forall fuel id info p, within same_descs (load_auth_image_internal_v2 fuel id info p)).
  { intros f. induction f as [|f IH]; intros; cbn; frame; auto. }
  revert info. induction tries as [|tries IH]; intros; cbn; frame; auto.
Qed.
Lemma load_v1_same_descs tries fuel id b o : within same_descs (load_auth_image_v1 tries fuel id b o).
Proof.
  assert (Hload : forall id o p, within same_descs (load_then_auth_v1 id b o p)).
  { intros. unfold load_then_auth_v1, load_image_v1, with_image, read_image, reserve_mem, choose_mem_pos, auth_loaded. frame. }
  assert (Hint : forall fuel id o p, within same_descs (load_auth_image_internal_v1 fuel id b o p)).
  { intros f. induction f as [|f IH]; intros; cbn; frame; auto. }
  revert o. induction tries as [|tries IH]; intros; cbn; frame; auto.
Qed.

(** What BL1's main function does before the load of BL2. *)
Lemma setup_same_descs : within same_descs (bl1_check_caches ;;; bl1_arch_setup ;;; when TRUSTED_BOARD_BOOT auth_mod_init ;;; tb_hook bl1_platform_setup).
Proof. pose proof init_same_descs. unfold bl1_check_caches, bl1_arch_setup. frame; auto. Qed.

Lemma calc_layout_same l : within eq (bl1_calc_bl2_mem_layout l : M (tb_state P) meminfo_t).
Proof. unfold bl1_calc_bl2_mem_layout, reserve_mem, choose_mem_pos. frame. Qed.

(** The address of the layout structure for BL2. *)
Definition layout_addr (l : meminfo_t) : Z := if LOAD_IMAGE_V2 then total_base l else free_base l.

Lemma post_load_run l s rc s' :
  plat_post_image_load l BL2_IMAGE_ID s = Ret rc s' ->
  exists l2, tb_mem s' = write_bytes (tb_mem s) (layout_addr l) (meminfo_bytes l2) /\ same_descs s s' /\ same_flags s s'.
Proof.
  unfold plat_post_image_load. cbn [Z.eqb negb BL2_IMAGE_ID Pos.eqb]. intros H. inv_run H. apply plat_get_run in H0 as [-> _].
  inv_run H. apply assert_run in H0 as ->. inv_run H. apply deref_run in H0 as [_ ->]. inv_run H.
  pose proof (within_run _ _ _ _ _ (calc_layout_same l) H0) as <-. inv_run H. injection H1 as _ <-. inv_run H. injection H1 as _ <-.
  injection H as _ <-. by eexists.
Qed.

(** BL2's descriptor and the memory it is loaded to: away from the buffers of
    the authentication module. *)
Definition bl2_placed (l : meminfo_t) (info : image_info_t) : Prop :=
  if LOAD_IMAGE_V2 then info_ok info
  else 0 <= image_base info < 2 ^ 64 /\ (0 <= free_base l < 2 ^ 64 /\ 0 <= free_size l < 2 ^ 64) /\ info_in (in_free l) info /\
    forall x, in_free l x -> ~ param_region x.

(** The state in which BL1 calls the loader for BL2: after the checks, the
    initialisation of the authentication module, the platform set-up and the
    choice of the image. *)
Definition bl2_load_point s s0 : Prop :=
  exists s1 s2 err, (bl1_check_caches ;;; bl1_arch_setup ;;; when TRUSTED_BOARD_BOOT auth_mod_init ;;; tb_hook bl1_platform_setup) s = Ret tt s1 /\
    tb_hook bl1_plat_get_next_image_id s1 = Ret BL2_IMAGE_ID s2 /\
    tb_hook (bl1_plat_handle_pre_image_load BL2_IMAGE_ID) s2 = Ret err s0 /\ truthy err = false.
(** The loader returns 0 in the state [s1], with the image described by [info']. *)
Definition bl2_loaded (tries fuel : nat) (l : meminfo_t) (info info' : image_info_t) s0 s1 : Prop :=
  if LOAD_IMAGE_V2 then load_auth_image_v2 tries fuel BL2_IMAGE_ID info s0 = Ret (0, info') s1
  else exists o, load_auth_image_v1 tries fuel BL2_IMAGE_ID (image_base info) (LoadOut l info (Some (image_base info))) s0 = Ret (0, o) s1 /\
    info' = lo_info o.

Lemma load_accepts tries fuel l info s r s' :
  (if LOAD_IMAGE_V2 then
     let! r := load_auth_image_v2 tries fuel BL2_IMAGE_ID info in ret (r.1, (r.2, l))
   else
     let! r := load_auth_image_v1 tries fuel BL2_IMAGE_ID (image_base info) (LoadOut l info (Some (image_base info))) in
     ret (r.1, (lo_info r.2, lo_layout r.2))) s = Ret r s' ->
  TRUSTED_BOARD_BOOT = true -> bl2_placed l info -> r.1 = 0 ->
  bl2_loaded tries fuel l info r.2.1 s s' /\ authentic s' BL2_IMAGE_ID r.2.1 /\ same_descs s s'.
Proof.
  unfold bl2_placed, bl2_loaded. intros H Ht Hp Hr. destruct LOAD_IMAGE_V2.
  - inv_run H. injection H as <- <-. cbn in *. destruct a as [rc info']. cbn in Hr. subst rc. split_and!; [done| |].
    + by apply (load_auth_v2_authentic Hcot _ _ _ _ _ _ _ Ht (eq_refl : raw_image BL2_IMAGE_ID = true) Hp H0).
    + by eapply within_run, H0; apply load_v2_same_descs.
  - inv_run H. injection H as <- <-. cbn in *. destruct a as [rc o']. cbn in Hr. subst rc. split_and!; [by exists o'| |].
    + by apply (load_auth_v1_ok Hcot _ _ _ _ _ _ _ _ Ht (eq_refl : raw_image BL2_IMAGE_ID = true) H0).
    + by eapply within_run, H0; apply load_v1_same_descs.
Qed.

Lemma load_bl2_ok tries fuel l s l' s' :
  TRUSTED_BOARD_BOOT = true -> (forall i d, desc_of s BL2_IMAGE_ID i d -> bl2_placed l (image_info d)) ->
  bl1_load_bl2 tries fuel l s = Ret l' s' ->
  image_id <$> bl1_tbbr_image_descs s' = image_id <$> bl1_tbbr_image_descs s /\
  exists i d info err s0 s1 l2, desc_of s' BL2_IMAGE_ID i d /\ desc_of s BL2_IMAGE_ID i (with_info info d) /\
    tb_hook (bl1_plat_handle_pre_image_load BL2_IMAGE_ID) s = Ret err s0 /\ truthy err = false /\
    bl2_loaded tries fuel l info (image_info d) s0 s1 /\ authentic s1 BL2_IMAGE_ID (image_info d) /\ same_flags s1 s' /\
    tb_mem s' = write_bytes (tb_mem s1) (layout_addr l') (meminfo_bytes l2).
Proof.
  intros Ht Hpl H. unfold bl1_load_bl2 in H. inv_run H. apply plat_get_run in H0 as [-> Ho]. inv_run H. apply assert_run in H0 as ->.
  inv_run H. apply deref_run in H0 as [-> ->]. apply bind_ret_inv in H as (err & s0 & Hpre & H). pose proof Hpre as Hpre0.
  apply hook_ret in Hpre0 as [p ->]. destruct (truthy err) eqn:Herr; [done|].
  inv_run H. apply get_desc_run in H0 as [-> Hd]. destruct (Ho _ eq_refl) as (d & Hd' & Hid). cbn in Hd. rewrite Hd in Hd'.
  injection Hd' as ->. rename H into Hk. apply bind_ret_inv in Hk as (r & s1 & Hload & Hk).
  apply bind_ret_inv in Hk as (u & s2 & Hup & Hk). apply upd_desc_run in Hup as (d1 & Hd1 & ->).
  unfold truthy in Hk. destruct (Z.eqb_spec r.1 0) as [Hr|]; [|done]. cbn [negb] in Hk.
  apply load_accepts in Hload as (Hl & Hacc & Hsd); [|done|by apply (Hpl _ _ (conj Hd Hid))|done].
  apply bind_ret_inv in Hk as (err2 & s3 & Hpost & Hk). apply post_load_run in Hpost as (l2 & Hm & Hds & Hfl).
  destruct (negb (err2 =? 0)); [done|]. injection Hk as <- <-. unfold same_descs, same_flags in *. cbn in Hds, Hsd, Hm, Hfl.
  rewrite Hsd, Hd in Hd1. injection Hd1 as <-. split.
  { rewrite Hds, Hsd. by apply (ids_insert _ _ d); [apply arr_get_lookup|]. }
  eexists _, (with_info r.2.1 d), (image_info d), err, _, s1, l2.
  split_and!; [split; [rewrite Hds; apply arr_get_insert_eq; rewrite Hsd; by eapply arr_get_Some_range|done]| |exact Hpre|done|done|done|done|done].
  split; [by destruct d|done].
Qed.

Lemma prepare_flags id : within same_flags (bl1_prepare_next_image id).
Proof.
  pose proof (@hook_same_flags P). unfold bl1_prepare_next_image, bl1_plat_get_image_desc, upd_desc, put_desc, get_desc, tb_emit.
  frame; eauto with frame; by apply within_modify.
Qed.

(** [C4] BL1 boots what it authenticated.  With trusted board boot, in the
    builds with and without LOAD_IMAGE_V2, with descriptors of distinct
    identifiers and BL2's memory away from the buffers of the authentication
    module ([bl2_placed]), when BL1's main function hands over to BL2: in this run the loader was called for BL2, in the state the set-up
    had led to, and returned 0 in a state in which BL2 and its certificate were
    marked authenticated and the bytes of BL2 matched the digest in the buffer
    of its certificate; the marks are still there at the hand-over, and memory
    has not changed since, except for the memory layout structure that BL1
    itself writes, at the start of the trusted RAM or of its free part. *)
Theorem bl1_boots_authenticated_bl2 tries fuel l s l' s' sec log :
  TRUSTED_BOARD_BOOT = true -> NoDup (image_id <$> bl1_tbbr_image_descs s) ->
  (forall i d, desc_of s BL2_IMAGE_ID i d -> bl2_placed l (image_info d)) ->
  bl1_main tries fuel l s = Ret l' s' -> tb_log s' = EvEl3Exit sec :: EvInitContext BL2_IMAGE_ID :: log ->
  exists d info s0 s1 l2, d ∈ bl1_tbbr_image_descs s' /\ image_id d = BL2_IMAGE_ID /\ state d = IMAGE_STATE_EXECUTED /\
    bl2_load_point s s0 /\ bl2_loaded tries fuel l info (image_info d) s0 s1 /\ authentic s1 BL2_IMAGE_ID (image_info d) /\
    auth_img_flags s' = auth_img_flags s1 /\ tb_mem s' = write_bytes (tb_mem s1) (layout_addr l') (meminfo_bytes l2).
Proof.
  intros Ht Hnd Hpl H Hlog. unfold bl1_main in H.
  apply bind_ret_inv in H as (u1 & s1 & H1 & H). apply bind_ret_inv in H as (u2 & s2 & H2 & H).
  apply bind_ret_inv in H as (u3 & s3 & H3 & H). apply bind_ret_inv in H as ([] & s4 & H4 & H).
  assert (Hsetup : (bl1_check_caches ;;; bl1_arch_setup ;;; when TRUSTED_BOARD_BOOT auth_mod_init ;;; tb_hook bl1_platform_setup) s = Ret tt s4).
  { unfold bind. by rewrite H1, H2, H3, H4. }
  assert (Hds : same_descs s s4) by (by eapply within_run, Hsetup; apply setup_same_descs).
  apply bind_ret_inv in H as (id & s5 & Hid & H). pose proof Hid as Hid0. apply hook_ret in Hid as [p ->].
  apply bind_ret_inv in H as (l1 & s6 & Hl & H). apply bind_ret_inv in H as (u5 & s7 & Hprep & H). injection H as -> ->.
  assert (Hpf : same_flags s6 s') by (eapply within_run, Hprep; apply prepare_flags).
  apply prepare_run in Hprep as (i & d & v & [Hd Hdid] & Hm & _ & Hds' & Hlog'). rewrite Hlog' in Hlog. injection Hlog as _ Hbl2 _.
  rewrite Hbl2 in Hl, Hdid, Hid0. rewrite Z.eqb_refl in Hl. unfold same_descs in Hds.
  apply load_bl2_ok in Hl as (Hids & j & d1 & info & err & t0 & t1 & l2 & [Hd1 Hid1] & _ & Hpre & Herr & Hld & Hacc & Hfl & Hm1); [|done|].
  2: { intros k e [He Hek]. cbn in He. rewrite Hds in He. by apply (Hpl k). }
  assert (d1 = d) as ->.
  { cbn in Hids. rewrite Hds in Hids. rewrite <- Hids in Hnd. apply arr_get_lookup in Hd, Hd1.
    pose proof (desc_unique _ _ _ _ _ Hnd Hd1 Hd ltac:(congruence)). congruence. }
  exists (with_state IMAGE_STATE_EXECUTED (with_spsr v d)), info, t0, t1, l2. rewrite Hds', Hm, Hm1. unfold same_flags in *.
  split_and!; [|done|done|by eexists _, _, err|done|done|congruence|done].
  eapply arr_get_elem, arr_get_insert_eq. by eapply arr_get_Some_range.
Qed.
End bl1.

(** ** A concrete boot *)
Module Bl1Witnesses.
Import TbbExample.

#[local] Instance lay : Bl1Layout := {|
  BL2_BASE := 0x4001000; BL2_LIMIT := 0x4009000; NS_BL1U_BASE := 0; NS_BL2U_BASE := 0;
  SCP_BL2U_BASE := 0; SCP_BL2U_LIMIT := 0; BL2U_BASE := 0; BL2U_LIMIT := 0;
  BL1_RAM_BASE := 0x4000000; BL1_RAM_LIMIT := 0x4001000; BL1_RW_BASE := 0x4030000; CACHE_WRITEBACK_GRANULE := 64
|}.
#[local] Instance arch : Bl1Env Z := {|
  read_sctlr_el3 := ret 0x1005; read_ctr_el0 := ret 0; read_scr_el3 := ret 0; write_scr_el3 := fun _ => ret tt;
  bl1_platform_setup := ret tt; bl1_plat_get_next_image_id := ret BL2_IMAGE_ID
|}.
Definition content (id : Z) : list Z :=
  if id =? TRUSTED_BOOT_FW_CERT_ID then cert 1 9 3 7 else if id =? BL2_IMAGE_ID then [9; 8; 7] else [].

(** The build without LOAD_IMAGE_V2, as on the Armada 3700. *)
#[local] Instance e : TbEnv Z := env true true false content 0.
Definition ram : meminfo_t := MemInfo 0x4000000 0x40000 0x4001000 0x3f000.
Definition start : tb_state Z := boot_state (mem_with 0 []) [BL2_IMAGE_DESC].
#[local] Abbreviation booted := (final (bl1_main 1 4 ram start)).

Lemma buffers_below x : param_region (TbEnv0 := e) x -> x < 0x200000.
Proof.
  intros (d & en & Hd & He & [td Ht] & Hin). destruct (buffers_fit d en td Hd He Ht) as (b & Hp & Hl). rewrite Hp, Hl in Hin.
  assert (buf_addr b + buf_size b <= 0x200000) by (destruct b; vm_compute; discriminate). lia.
Qed.

Lemma bl2_placed_ok i d : desc_of start BL2_IMAGE_ID i d -> bl2_placed ram (image_info d).
Proof.
  intros [Hd _]. apply arr_get_elem in Hd. apply list_elem_of_singleton in Hd as ->. unfold bl2_placed. cbn.
  split_and!; try lia.
  - split; cbn; [lia|]. intros x Hx. lia.
  - intros x Hx Hp%buffers_below. unfold in_free in Hx. cbn in Hx. lia.
Qed.

Lemma bl1_boots_authenticated_bl2_witness :
  exists d info s0 s1, image_id d = BL2_IMAGE_ID /\ state d = IMAGE_STATE_EXECUTED /\ bl2_load_point start s0 /\
    bl2_loaded 1 4 ram info (image_info d) s0 s1 /\ authentic s1 BL2_IMAGE_ID (image_info d).
Proof.
  destruct (bl1_boots_authenticated_bl2 (TbEnv0 := e) (lay := lay) (benv := arch) eq_refl 1 4 ram start
    (MemInfo 0x4000000 0x40000 0x4001003 0x3effd) booted SECURE (drop 2 (tb_log booted))) as (d & info & s0 & s1 & l2 & _ & Hid & Hst & Hp & Hl & Ha & _).
  - reflexivity.
  - apply (bool_decide_eq_true_1 (NoDup _)). vm_compute. reflexivity.
  - apply bl2_placed_ok.
  - apply returned_final. vm_compute. reflexivity.
  - vm_compute. reflexivity.
  - exists d, info, s0, s1. split; [exact Hid|split; [exact Hst|split; [exact Hp|split; [exact Hl|exact Ha]]]].
Defined.
End Bl1Witnesses.
