(* ===== verification/Bl2.v ===== *)
(** * BL2 with LOAD_IMAGE_V2 (common/desc_image_load.c, bl2/bl2_image_load_v2.c,
    bl2/bl2_main.c, plat/arm/common/arm_image_load.c)

    BL2 works on an array of image descriptors.  Each descriptor carries the
    memory of two list nodes; the list of images to load and the list of images
    to execute are threaded through the array.  A pointer to a member of a
    descriptor is the index of the descriptor, or nothing for NULL.

    Of the arguments of an entry point the three that this code touches are
    modelled. *)
From stdpp Require Import base list numbers option.
From Stdlib Require Import ZArith Lia.
From S2P Require Import Prelude TbbDefs AuthMod TbbrCot BlCommon.
#[local] Open Scope Z_scope.

Definition EP_FIRST_EXE_MASK : Z := 0x10.
Definition EP_FIRST_EXE : Z := 0x10.
Definition EP_GET_FIRST_EXE (x : Z) : Z := Z.land x EP_FIRST_EXE_MASK.
Definition IMAGE_ATTRIB_SKIP_LOADING : Z := 0x02.
Definition IMAGE_ATTRIB_PLAT_SETUP : Z := 0x04.
Definition PARAM_BL_LOAD_INFO : Z := 0x04.
Definition PARAM_BL_PARAMS : Z := 0x05.
Definition PARAM_VERSION_2 : Z := 0x02.

Record bl_load_info_node_t : Type := LoadNode { ln_image_id : Z; ln_image_info : option Z; next_load_info : option Z }.
Record bl_params_node_t : Type := ParamsNode { pn_image_id : Z; pn_image_info : option Z; pn_ep_info : option Z; next_params_info : option Z }.
Record ep_info_t : Type := EpInfo { epi_attr : Z; epi_pc : Z; epi_spsr : Z; arg0 : Z; arg1 : Z; arg2 : Z }.

(** [mp_attr] is [image_info.h.attr]. *)
Record bl_mem_params_node_t : Type := MemParams {
  mp_image_id : Z; mp_attr : Z; mp_image_info : image_info_t; mp_ep_info : ep_info_t; next_handoff_image_id : Z;
  load_node_mem : bl_load_info_node_t; params_node_mem : bl_params_node_t
}.
Definition mp_set_info (i : image_info_t) (d : bl_mem_params_node_t) : bl_mem_params_node_t :=
  MemParams (mp_image_id d) (mp_attr d) i (mp_ep_info d) (next_handoff_image_id d) (load_node_mem d) (params_node_mem d).
Definition mp_set_ep (e : ep_info_t) (d : bl_mem_params_node_t) : bl_mem_params_node_t :=
  MemParams (mp_image_id d) (mp_attr d) (mp_image_info d) e (next_handoff_image_id d) (load_node_mem d) (params_node_mem d).
Definition mp_set_load (n : bl_load_info_node_t) (d : bl_mem_params_node_t) : bl_mem_params_node_t :=
  MemParams (mp_image_id d) (mp_attr d) (mp_image_info d) (mp_ep_info d) (next_handoff_image_id d) n (params_node_mem d).
Definition mp_set_params (n : bl_params_node_t) (d : bl_mem_params_node_t) : bl_mem_params_node_t :=
  MemParams (mp_image_id d) (mp_attr d) (mp_image_info d) (mp_ep_info d) (next_handoff_image_id d) (load_node_mem d) n.
Definition set_arg0 (v : Z) (e : ep_info_t) : ep_info_t := EpInfo (epi_attr e) (epi_pc e) (epi_spsr e) v (arg1 e) (arg2 e).
Definition set_arg1 (v : Z) (e : ep_info_t) : ep_info_t := EpInfo (epi_attr e) (epi_pc e) (epi_spsr e) (arg0 e) v (arg2 e).
Definition set_arg2 (v : Z) (e : ep_info_t) : ep_info_t := EpInfo (epi_attr e) (epi_pc e) (epi_spsr e) (arg0 e) (arg1 e) v.

(** A list head: [h.type], [h.version] and [head]. *)
Record list_head : Type := ListHead { lh_type : Z; lh_version : Z; lh_head : option Z }.
Inductive bl2_event : Type := EvFlushParams | EvRunImage (ep : Z).

Record bl2_state (P : Type) : Type := Bl2State {
  b2_tb : tb_state P; mem_params : list bl_mem_params_node_t;
  bl_load_info : list_head; next_bl_params : list_head; b2_log : list bl2_event
}.
Arguments Bl2State {P}.
Arguments b2_tb {P}.
Arguments mem_params {P}.
Arguments bl_load_info {P}.
Arguments next_bl_params {P}.
Arguments b2_log {P}.

(** Hooks of the platform; the address of [next_bl_params]. *)
Class Bl2Env (P : Type) : Type := {
  bl2_platform_setup : M P unit;
  bl2_arch_setup : M P unit;
  bl2_plat_preload_setup : M P unit;
  bl2_plat_handle_pre_image_load : Z -> M P Z;
  bl2_plat_handle_post_image_load : Z -> M P Z;
  next_bl_params_addr : Z
}.

Section bl2.
Context {P : Type} `{!TbEnv P} `{!Bl2Env P}.
#[local] Abbreviation BM := (M (bl2_state P)).

Definition set_b2_tb (t : tb_state P) (s : bl2_state P) : bl2_state P :=
  Bl2State t (mem_params s) (bl_load_info s) (next_bl_params s) (b2_log s).
Definition set_mem_params (l : list bl_mem_params_node_t) (s : bl2_state P) : bl2_state P :=
  Bl2State (b2_tb s) l (bl_load_info s) (next_bl_params s) (b2_log s).
Definition set_load_info (h : list_head) (s : bl2_state P) : bl2_state P :=
  Bl2State (b2_tb s) (mem_params s) h (next_bl_params s) (b2_log s).
Definition set_next_params (h : list_head) (s : bl2_state P) : bl2_state P :=
  Bl2State (b2_tb s) (mem_params s) (bl_load_info s) h (b2_log s).
Definition b2_emit (e : bl2_event) : BM unit :=
  modify (fun s => Bl2State (b2_tb s) (mem_params s) (bl_load_info s) (next_bl_params s) (e :: b2_log s)).
Definition in_tb {A} (m : M (tb_state P) A) : BM A := zoom b2_tb set_b2_tb m.
Definition b2_assert (b : bool) : BM unit := if TB_ASSERTIONS && negb b then halt_with HAssert else ret tt.
(** [plat_error_handler] does not return. *)
Definition bl2_error_handler {A} : BM A := halt_with HHang.

Definition get_mp (i : Z) : BM bl_mem_params_node_t := let! l := gets mem_params in deref (arr_get l i).
Definition upd_mp (i : Z) (f : bl_mem_params_node_t -> bl_mem_params_node_t) : BM unit :=
  let! l := gets mem_params in
  let! d := deref (arr_get l i) in
  let! l' := deref (arr_set l i (f d)) in
  modify (set_mem_params l').
Definition bl_mem_params_desc_num : BM Z := let! l := gets mem_params in ret (Z.of_nat (length l)).

(** Use of a pointer that may be NULL. *)
Definition non_null (ok : bool) : BM unit := deref (if ok then Some tt else None).

(** ** desc_image_load.c *)
Definition flush_bl_params_desc : BM unit := b2_emit EvFlushParams.

Fixpoint node_index_loop (l : list bl_mem_params_node_t) (index image_id : Z) : Z :=
  match l with
  | [] => -1
  | d :: l' => if mp_image_id d =? image_id then index else node_index_loop l' (index + 1) image_id
  end.
Definition get_bl_params_node_index (image_id : Z) : BM Z :=
  b2_assert (negb (image_id =? INVALID_IMAGE_ID)) ;;;
  let! l := gets mem_params in ret (node_index_loop l 0 image_id).

Definition get_bl_mem_params_node (image_id : Z) : BM (option Z) :=
  b2_assert (negb (image_id =? INVALID_IMAGE_ID)) ;;;
  let! index := get_bl_params_node_index image_id in
  ret (if 0 <=? index then Some index else None).

(** [for (; index < num; index++)]; [n] iterations are left. *)
Fixpoint load_info_loop (n : nat) (index node num : Z) : BM unit :=
  match n with
  | O => ret tt
  | S n' =>
      let! d := get_mp index in
      upd_mp node (fun e => mp_set_load (LoadNode (mp_image_id d) (ln_image_info (load_node_mem e)) (next_load_info (load_node_mem e))) e) ;;;
      upd_mp node (fun e => mp_set_load (LoadNode (ln_image_id (load_node_mem e)) (Some index) (next_load_info (load_node_mem e))) e) ;;;
      if index + 1 <? num then
        upd_mp node (fun e => mp_set_load (LoadNode (ln_image_id (load_node_mem e)) (ln_image_info (load_node_mem e)) (Some (index + 1))) e) ;;;
        load_info_loop n' (index + 1) (index + 1) num
      else load_info_loop n' (index + 1) node num
  end.

(** Whether the result is not NULL. *)
Definition get_bl_load_info_from_mem_params_desc : BM bool :=
  let! num := bl_mem_params_desc_num in
  if num =? 0 then ret false
  else
    modify (set_load_info (ListHead PARAM_BL_LOAD_INFO PARAM_VERSION_2 (Some 0))) ;;;
    load_info_loop (Z.to_nat num) 0 0 num ;;;
    ret true.

Definition first_exe (d : bl_mem_params_node_t) : bool :=
  (EP_GET_EXE (epi_attr (mp_ep_info d)) =? EXECUTABLE) && (EP_GET_FIRST_EXE (epi_attr (mp_ep_info d)) =? EP_FIRST_EXE).
Fixpoint head_loop (l : list bl_mem_params_node_t) (count : Z) : option Z :=
  match l with
  | [] => None
  | d :: l' => if first_exe d then Some count else head_loop l' (count + 1)
  end.

(** [if (bl_last_exec_node) ...]: link the previous node to this one. *)
Definition link_last (last : option Z) (link_index : Z) : BM unit :=
  match last with
  | None => ret tt
  | Some j =>
      let! e := get_mp j in
      b2_assert (bool_decide (next_params_info (params_node_mem e) = None)) ;;;
      upd_mp j (fun e => mp_set_params (ParamsNode (pn_image_id (params_node_mem e)) (pn_image_info (params_node_mem e))
        (pn_ep_info (params_node_mem e)) (Some link_index)) e)
  end.

(** The bounded loop that links the images; returns [img_id]. *)
Fixpoint exec_loop (n : nat) (link_index : Z) (last : option Z) (img_id num : Z) : BM Z :=
  match n with
  | O => ret img_id
  | S n' =>
      let! d := get_mp link_index in
      b2_assert (EP_GET_EXE (epi_attr (mp_ep_info d)) =? EXECUTABLE) ;;;
      upd_mp link_index (fun e => mp_set_params
        (ParamsNode (mp_image_id e) (Some link_index) (Some link_index) (next_params_info (params_node_mem e))) e) ;;;
      link_last last link_index ;;;
      let img_id := next_handoff_image_id d in
      if img_id =? INVALID_IMAGE_ID then ret img_id
      else
        let! link := get_bl_params_node_index img_id in
        b2_assert ((0 <? link) && (link <? num)) ;;;
        exec_loop n' link (Some link_index) img_id num
  end.

Definition get_next_bl_params_from_mem_params_desc : BM bool :=
  let! num := bl_mem_params_desc_num in
  if num =? 0 then ret false
  else
    let! l := gets mem_params in
    let first := head_loop l 0 in
    (match first with
     | Some count => modify (fun s => set_next_params (ListHead (lh_type (next_bl_params s)) (lh_version (next_bl_params s)) (Some count)) s)
     | None => ret tt
     end) ;;;
    let! h := gets next_bl_params in
    b2_assert (bool_decide (is_Some (lh_head h))) ;;;
    modify (fun s => set_next_params (ListHead PARAM_BL_PARAMS PARAM_VERSION_2 (lh_head (next_bl_params s))) s) ;;;
    let! img_id := exec_loop (Z.to_nat num) (default 0 first) None 0 num in
    b2_assert (img_id =? INVALID_IMAGE_ID) ;;;
    ret true.

Definition config_of (image_id : Z) : Z :=
  if image_id =? BL31_IMAGE_ID then SOC_FW_CONFIG_ID
  else if image_id =? BL32_IMAGE_ID then TOS_FW_CONFIG_ID
  else if image_id =? BL33_IMAGE_ID then NT_FW_CONFIG_ID
  else INVALID_IMAGE_ID.

Definition base_of (image_id : Z) : BM Z :=
  let! o := get_bl_mem_params_node image_id in
  match o with
  | Some i => let! d := get_mp i in ret (image_base (mp_image_info d))
  | None => ret 0
  end.
Definition if_zero (get : ep_info_t -> Z) (set : Z -> ep_info_t -> ep_info_t) (v : Z) (e : ep_info_t) : ep_info_t :=
  if get e =? 0 then set v e else e.

(** The loop over the list; a list longer than the array is a cycle, on which
    the loop does not end. *)
Fixpoint config_loop (n : nat) (head : option Z) (node : option Z) (hw_config_base : Z) : BM unit :=
  match node with
  | None => ret tt
  | Some i =>
      match n with
      | O => halt_with HHang
      | S n' =>
          let! d := get_mp i in
          let fw_config_id := config_of (pn_image_id (params_node_mem d)) in
          let! fw_config_base := (if fw_config_id =? INVALID_IMAGE_ID then ret 0 else base_of fw_config_id) in
          let! k := deref (pn_ep_info (params_node_mem d)) in
          (if bool_decide (Some i = head) then
             upd_mp k (fun e => mp_set_ep (if_zero arg1 set_arg1 fw_config_base (mp_ep_info e)) e) ;;;
             upd_mp k (fun e => mp_set_ep (if_zero arg2 set_arg2 hw_config_base (mp_ep_info e)) e)
           else
             upd_mp k (fun e => mp_set_ep (if_zero arg0 set_arg0 fw_config_base (mp_ep_info e)) e) ;;;
             upd_mp k (fun e => mp_set_ep (if_zero arg1 set_arg1 hw_config_base (mp_ep_info e)) e)) ;;;
          let! d := get_mp i in
          config_loop n' head (next_params_info (params_node_mem d)) hw_config_base
      end
  end.

Definition populate_next_bl_params_config (ok : bool) : BM unit :=
  b2_assert ok ;;;
  let! hw_config_base := base_of HW_CONFIG_ID in
  non_null ok ;;;
  let! h := gets next_bl_params in
  let! num := bl_mem_params_desc_num in
  config_loop (Z.to_nat num) (lh_head h) (lh_head h) hw_config_base.

(** ** arm_image_load.c *)
Definition plat_flush_next_bl_params : BM unit := flush_bl_params_desc.
Definition plat_get_bl_image_load_info : BM bool := get_bl_load_info_from_mem_params_desc.
Definition plat_get_next_bl_params : BM bool :=
  let! next_bl_params := get_next_bl_params_from_mem_params_desc in
  populate_next_bl_params_config next_bl_params ;;;
  ret next_bl_params.

(** ** bl2_image_load_v2.c *)
Definition b2_hook {A} (m : M P A) : BM A := in_tb (tb_hook m).

(** The body of the loop for one node; [n] bounds the list as above. *)
Definition load_one (tries fuel : nat) (image_id k : Z) : BM unit :=
  let! d := get_mp k in
  let! err := b2_hook (bl2_plat_handle_pre_image_load image_id) in
  if truthy err then bl2_error_handler
  else
    (if truthy (Z.land (mp_attr d) IMAGE_ATTRIB_SKIP_LOADING) then ret tt
     else
       let! r := in_tb (load_auth_image_v2 tries fuel image_id (mp_image_info d)) in
       upd_mp k (mp_set_info r.2) ;;;
       if truthy r.1 then bl2_error_handler else ret tt) ;;;
    let! err := b2_hook (bl2_plat_handle_post_image_load image_id) in
    if truthy err then bl2_error_handler else ret tt.

Fixpoint load_images_loop (n tries fuel : nat) (node : option Z) (plat_setup_done : bool) : BM unit :=
  match node with
  | None => ret tt
  | Some i =>
      match n with
      | O => halt_with HHang
      | S n' =>
          let! d := get_mp i in
          let! k := deref (ln_image_info (load_node_mem d)) in
          let! e := get_mp k in
          let setup := truthy (Z.land (mp_attr e) IMAGE_ATTRIB_PLAT_SETUP) in
          when (setup && negb plat_setup_done) (b2_hook bl2_platform_setup) ;;;
          load_one tries fuel (ln_image_id (load_node_mem d)) k ;;;
          let! d := get_mp i in
          load_images_loop n' tries fuel (next_load_info (load_node_mem d)) (plat_setup_done || setup)
      end
  end.

(** Returns the descriptor whose entry point is next. *)
Definition bl2_load_images (tries fuel : nat) : BM Z :=
  let! ok := plat_get_bl_image_load_info in
  b2_assert ok ;;;
  non_null ok ;;;
  let! h := gets bl_load_info in
  b2_assert (bool_decide (is_Some (lh_head h))) ;;;
  b2_assert (lh_type h =? PARAM_BL_LOAD_INFO) ;;;
  b2_assert (PARAM_VERSION_2 <=? lh_version h) ;;;
  let! num := bl_mem_params_desc_num in
  load_images_loop (Z.to_nat num) tries fuel (lh_head h) false ;;;
  let! ok := plat_get_next_bl_params in
  b2_assert ok ;;;
  non_null ok ;;;
  let! h := gets next_bl_params in
  b2_assert (bool_decide (is_Some (lh_head h))) ;;;
  b2_assert (lh_type h =? PARAM_BL_PARAMS) ;;;
  b2_assert (PARAM_VERSION_2 <=? lh_version h) ;;;
  let! i := deref (lh_head h) in
  let! d := get_mp i in
  b2_assert (bool_decide (is_Some (pn_ep_info (params_node_mem d)))) ;;;
  let! k := deref (pn_ep_info (params_node_mem d)) in
  upd_mp k (fun e => mp_set_ep (if_zero arg0 set_arg0 next_bl_params_addr (mp_ep_info e)) e) ;;;
  plat_flush_next_bl_params ;;;
  ret k.

(** ** bl2_main.c, for a BL2 in S-EL1 *)
Definition bl2_main (tries fuel : nat) : BM unit :=
  b2_hook bl2_arch_setup ;;;
  when TRUSTED_BOARD_BOOT (in_tb auth_mod_init) ;;;
  b2_hook bl2_plat_preload_setup ;;;
  let! ep := bl2_load_images tries fuel in
  b2_emit (EvRunImage ep).
End bl2.
