(* ===== verification/Bl2Props.v ===== *)
(** * BL2: the lists of images, and what BL2 hands over to

    The list of images to load names every descriptor in order; the list of
    images to execute is the chain of hand-offs from the first image, or an
    assertion fails; and when BL2 hands over, every image it loaded is in
    memory as it was authenticated. *)
From stdpp Require Import base list numbers option.
From Stdlib Require Import ZArith Lia.
From S2P Require Import Prelude TbbDefs AuthMod TbbrCot BlCommon Bl2 TbbLemmas AuthProps CotProps TbbProps LoadProps.
#[local] Open Scope Z_scope.

Section lists.
Context {P : Type} `{!TbEnv P} `{!Bl2Env P}.
Implicit Types (s : bl2_state P) (l : list bl_mem_params_node_t).
#[local] Abbreviation BM := (M (bl2_state P)).

(** ** Access to the array *)
Lemma get_mp_run i d s : arr_get (mem_params s) i = Some d -> get_mp i s = Ret d s.
Proof. intros Hd. unfold get_mp, bind, gets, deref. by rewrite Hd. Qed.

Lemma upd_mp_run i d f s : arr_get (mem_params s) i = Some d ->
  upd_mp i f s = Ret tt (set_mem_params (<[Z.to_nat i := f d]> (mem_params s)) s).
Proof.
  intros Hd. unfold upd_mp, bind, gets, deref. rewrite Hd. unfold ret.
  by rewrite arr_set_in_range by (by eapply arr_get_Some_range).
Qed.

Lemma mem_params_set l s : mem_params (set_mem_params l s) = l.
Proof. done. Qed.
Lemma set_mem_params_twice l l' s : set_mem_params l (set_mem_params l' s) = set_mem_params l s.
Proof. done. Qed.

Lemma arr_get_insert {A} (l : list A) i j x : 0 <= i < Z.of_nat (length l) ->
  arr_get (<[Z.to_nat i := x]> l) j = if j =? i then Some x else arr_get l j.
Proof.
  intros Hi. destruct (Z.eqb_spec j i) as [->|]; [by apply arr_get_insert_eq|]. destruct (Z.leb_spec 0 j).
  - apply arr_get_insert_ne; lia.
  - unfold arr_get. by rewrite (proj2 (Z.leb_gt 0 j)).
Qed.

(** ** The list of images to load *)

(** Node [k] names image [k] and leads to the next one. *)
Definition load_node num (k : Z) (d : bl_mem_params_node_t) : bl_mem_params_node_t :=
  mp_set_load (LoadNode (mp_image_id d) (Some k) (if k + 1 <? num then Some (k + 1) else next_load_info (load_node_mem d))) d.

Lemma load_loop_run n i s : 0 <= i -> i + Z.of_nat n = Z.of_nat (length (mem_params s)) ->
  exists l', load_info_loop n i i (i + Z.of_nat n) s = Ret tt (set_mem_params l' s) /\ length l' = length (mem_params s) /\
    forall k, arr_get l' k = (fun d => if i <=? k then load_node (i + Z.of_nat n) k d else d) <$> arr_get (mem_params s) k.
Proof.
  revert i s. induction n as [|n IH]; intros i s Hi Hn.
  { exists (mem_params s). split_and!; [by destruct s|done|]. intros k. destruct (arr_get (mem_params s) k) as [d|] eqn:E; [|done].
    apply arr_get_Some_range in E. cbn. by rewrite (proj2 (Z.leb_gt i k)) by lia. }
  destruct (arr_get_in_range (mem_params s) i ltac:(lia)) as [d Hd]. cbn [load_info_loop]. erewrite bind_run by (by apply get_mp_run).
  assert (Hr : 0 <= i < Z.of_nat (length (mem_params s))) by lia.
  erewrite bind_run by (by apply upd_mp_run). erewrite bind_run by (apply upd_mp_run, arr_get_insert_eq; exact Hr).
  rewrite mem_params_set, list_insert_insert_eq, set_mem_params_twice. cbn [load_node_mem mp_set_load ln_image_id next_load_info].
  destruct (Z.ltb_spec (i + 1) (i + Z.of_nat (S n))) as [Hlt|Hge].
  - erewrite bind_run by (apply upd_mp_run, arr_get_insert_eq; exact Hr). rewrite mem_params_set, list_insert_insert_eq, set_mem_params_twice.
    set (s1 := set_mem_params _ s). replace (i + Z.of_nat (S n)) with (i + 1 + Z.of_nat n) in * by lia.
    destruct (IH (i + 1) s1) as (l' & Hrun & Hlen & Hget); [lia|unfold s1; rewrite mem_params_set, length_insert; lia|].
    exists l'. split_and!; [exact Hrun|rewrite Hlen; unfold s1; by rewrite mem_params_set, length_insert|].
    intros k. rewrite Hget. unfold s1. rewrite mem_params_set, arr_get_insert by done. destruct (Z.eqb_spec k i) as [->|Hne].
    + rewrite Hd. cbn. rewrite Z.leb_refl, (proj2 (Z.leb_gt (i + 1) i)) by lia. unfold load_node. by rewrite (proj2 (Z.ltb_lt _ _)) by lia.
    + destruct (arr_get (mem_params s) k); [|done]. cbn. f_equal. destruct (Z.leb_spec (i + 1) k), (Z.leb_spec i k); done || lia.
  - assert (n = 0%nat) as -> by lia. cbn [load_info_loop]. eexists. split_and!; [reflexivity|by rewrite length_insert|].
    intros k. rewrite arr_get_insert by done. destruct (Z.eqb_spec k i) as [->|Hne].
    + rewrite Hd. cbn. rewrite Z.leb_refl. unfold load_node. by rewrite (proj2 (Z.ltb_ge _ _)) by lia.
    + destruct (arr_get (mem_params s) k) eqn:E; [|done]. cbn. f_equal. apply arr_get_Some_range in E. by rewrite (proj2 (Z.leb_gt i k)) by lia.
Qed.

(** ** The list of images to execute *)
Definition executable (d : bl_mem_params_node_t) : bool := EP_GET_EXE (epi_attr (mp_ep_info d)) =? EXECUTABLE.

(** The first entry of the array with a property. *)
Definition first_with (Q : bl_mem_params_node_t -> Prop) l (j : Z) : Prop :=
  exists n d, j = Z.of_nat n /\ l !! n = Some d /\ Q d /\ forall k e, l !! k = Some e -> (k < n)%nat -> ~ Q e.

(** The chain of hand-offs from image [i]: executable images, each naming the
    next by its identifier, the first entry with it, which is not the first of
    the array; the last names none. *)
Inductive handoff_chain l : Z -> list Z -> Prop :=
  | hc_last i d : arr_get l i = Some d -> executable d = true -> next_handoff_image_id d = INVALID_IMAGE_ID -> handoff_chain l i [i]
  | hc_next i d j xs : arr_get l i = Some d -> executable d = true -> next_handoff_image_id d <> INVALID_IMAGE_ID ->
      first_with (fun e => mp_image_id e = next_handoff_image_id d) l j -> 0 < j -> handoff_chain l j xs -> handoff_chain l i (i :: xs).

(** The chain from image [i], of at most [n] images, as a computation. *)
Fixpoint handoff l (n : nat) (i : Z) : option (list Z) :=
  match n with
  | O => None
  | S n' =>
      match arr_get l i with
      | None => None
      | Some d =>
          if executable d then
            if next_handoff_image_id d =? INVALID_IMAGE_ID then Some [i]
            else
              let j := node_index_loop l 0 (next_handoff_image_id d) in
              if 0 <? j then cons i <$> handoff l n' j else None
          else None
      end
  end.

Lemma handoff_det l n m i xs ys : handoff l n i = Some xs -> handoff l m i = Some ys -> xs = ys.
Proof.
  revert m i xs ys. induction n as [|n IH]; intros [|m] i xs ys Hx Hy; try done. cbn in Hx, Hy.
  destruct (arr_get l i) as [d|]; [|done]. destruct (executable d); [|done]. destruct (_ =? INVALID_IMAGE_ID); [congruence|].
  destruct (0 <? _); [|done]. destruct (handoff l n _) as [xs'|] eqn:Ex; [|done]. destruct (handoff l m _) as [ys'|] eqn:Ey; [|done].
  cbn in Hx, Hy. simplify_eq. f_equal. by eapply IH.
Qed.

Lemma handoff_suffix l n i xs k : handoff l n i = Some xs -> k ∈ xs ->
  exists m ys, handoff l m k = Some ys /\ (length ys <= length xs)%nat.
Proof.
  revert i xs. induction n as [|n IH]; intros i xs Hx Hk; [done|]. pose proof Hx as Hx0. cbn in Hx.
  destruct (arr_get l i) as [d|]; [|done]. destruct (executable d); [|done]. destruct (_ =? INVALID_IMAGE_ID).
  { injection Hx as <-. apply list_elem_of_singleton in Hk as ->. by exists (S n), [i]. }
  destruct (0 <? _); [|done]. destruct (handoff l n _) as [xs'|] eqn:Ex; [|done]. cbn in Hx. injection Hx as <-.
  apply elem_of_cons in Hk as [->|Hk]; [by exists (S n), (i :: xs')|]. destruct (IH _ _ Ex Hk) as (m & ys & Hm & Hl). exists m, ys. cbn. split; [done|lia].
Qed.

Lemma handoff_head l n i xs : handoff l n i = Some xs -> head xs = Some i /\ is_Some (arr_get l i).
Proof.
  destruct n; [done|]. cbn. destruct (arr_get l i); [|done]. destruct (executable _); [|done].
  destruct (_ =? INVALID_IMAGE_ID); [by intros [= <-]|]. destruct (0 <? _); [|done]. destruct (handoff l n _); [|done]. by intros [= <-].
Qed.

(** A chain that ends visits no image twice. *)
Lemma handoff_nodup l n i xs : handoff l n i = Some xs -> NoDup xs.
Proof.
  revert i xs. induction n as [|n IH]; intros i xs Hx; [done|]. pose proof Hx as Hx0. cbn in Hx.
  destruct (arr_get l i) as [d|]; [|done]. destruct (executable d); [|done]. destruct (_ =? INVALID_IMAGE_ID).
  { injection Hx as <-. apply NoDup_singleton. }
  destruct (0 <? _); [|done]. destruct (handoff l n _) as [xs'|] eqn:Ex; [|done]. cbn in Hx. injection Hx as <-.
  constructor; [|by eapply IH]. intros Hin. destruct (handoff_suffix _ _ _ _ _ Ex Hin) as (m & ys & Hm & Hl).
  pose proof (handoff_det _ _ _ _ _ _ Hx0 Hm) as <-. cbn in Hl. lia.
Qed.

(** What linking the images leaves alone. *)
Definition static (d : bl_mem_params_node_t) : bl_mem_params_node_t := mp_set_params (ParamsNode 0 None None None) d.
Definition same_static l l' : Prop := static <$> l' = static <$> l.

Lemma arr_get_static l k : arr_get (static <$> l) k = static <$> arr_get l k.
Proof. unfold arr_get. destruct (0 <=? k); [apply list_lookup_fmap|done]. Qed.
Lemma node_index_static l k id : node_index_loop (static <$> l) k id = node_index_loop l k id.
Proof. revert k. induction l as [|d l IH]; intros k; [done|]. cbn. by rewrite IH. Qed.
Lemma handoff_of_static l n i : handoff (static <$> l) n i = handoff l n i.
Proof.
  revert i. induction n as [|n IH]; intros i; [done|]. cbn. rewrite arr_get_static. destruct (arr_get l i) as [d|]; [|done].
  cbn [fmap option_fmap option_map]. rewrite node_index_static, IH. done.
Qed.
Lemma handoff_static l l' n i : same_static l l' -> handoff l' n i = handoff l n i.
Proof. intros H. by rewrite <- handoff_of_static, H, handoff_of_static. Qed.
Lemma node_index_same l l' k id : same_static l l' -> node_index_loop l' k id = node_index_loop l k id.
Proof. intros H. by rewrite <- node_index_static, H, node_index_static. Qed.
Lemma static_length l l' : same_static l l' -> length l' = length l.
Proof. intros H. apply (f_equal length) in H. by rewrite !length_fmap in H. Qed.
Lemma static_insert l i d p : arr_get l i = Some d -> same_static l (<[Z.to_nat i := mp_set_params p d]> l).
Proof.
  intros Hd. unfold same_static. rewrite list_fmap_insert. apply list_insert_id. rewrite list_lookup_fmap.
  unfold arr_get in Hd. destruct (0 <=? i); [|done]. by rewrite Hd.
Qed.

(** The nodes from a pointer on are those of the images [xs], filled in. *)
Fixpoint exec_list l (node : option Z) (xs : list Z) : Prop :=
  match xs with
  | [] => node = None
  | i :: xs' =>
      node = Some i /\ exists d, arr_get l i = Some d /\ executable d = true /\
        pn_image_id (params_node_mem d) = mp_image_id d /\ pn_image_info (params_node_mem d) = Some i /\
        pn_ep_info (params_node_mem d) = Some i /\ exec_list l (next_params_info (params_node_mem d)) xs'
  end.

Lemma node_index_range l k id : node_index_loop l k id = -1 \/ k <= node_index_loop l k id < k + Z.of_nat (length l).
Proof.
  revert k. induction l as [|d l IH]; intros k; [by left|]. cbn [node_index_loop]. destruct (_ =? _); [cbn; lia|].
  destruct (IH (k + 1)) as [->|H]; [by left|right; cbn [length]; lia].
Qed.

(** Changes elsewhere do not matter to a list. *)
Lemma exec_list_ext l l' node xs : (forall k, k ∈ xs -> arr_get l' k = arr_get l k) -> exec_list l node xs -> exec_list l' node xs.
Proof.
  revert node. induction xs as [|i xs IH]; intros node Hk; cbn; [done|]. intros [Hn (d & Hd & He & Hid & Hi & Hep & Hrest)]. split; [done|].
  exists d. rewrite (Hk i) by by left. split_and!; [done..|]. apply IH; [|done]. intros k Hin. apply Hk. by right.
Qed.

Definition unlinked l (k : Z) : Prop := forall d, arr_get l k = Some d -> next_params_info (params_node_mem d) = None.
Definition set_next (nxt : option Z) (d : bl_mem_params_node_t) : bl_mem_params_node_t :=
  mp_set_params (ParamsNode (pn_image_id (params_node_mem d)) (pn_image_info (params_node_mem d)) (pn_ep_info (params_node_mem d)) nxt) d.
Definition filled (i : Z) (d : bl_mem_params_node_t) : bl_mem_params_node_t :=
  mp_set_params (ParamsNode (mp_image_id d) (Some i) (Some i) (next_params_info (params_node_mem d))) d.

Section asserting.
Context (Hassert : TB_ASSERTIONS = true).

Lemma assert_true b s : b = true -> b2_assert b s = Ret tt s.
Proof. intros ->. unfold b2_assert. by rewrite andb_false_r. Qed.
Lemma assert_false b s : b = false -> b2_assert b s = Halt HAssert s.
Proof. intros ->. unfold b2_assert. by rewrite Hassert. Qed.

(** The step that fills node [i] and links the node before to it. *)
Lemma link_step i d last s : arr_get (mem_params s) i = Some d ->
  (forall j, last = Some j -> j <> i /\ exists e, arr_get (mem_params s) j = Some e /\ next_params_info (params_node_mem e) = None) ->
  exists l', (upd_mp i (fun e => mp_set_params
      (ParamsNode (mp_image_id e) (Some i) (Some i) (next_params_info (params_node_mem e))) e) ;;;
    link_last last i) s = Ret tt (set_mem_params l' s) /\ same_static (mem_params s) l' /\
    arr_get l' i = Some (filled i d) /\
    (forall j e, last = Some j -> arr_get (mem_params s) j = Some e -> arr_get l' j = Some (set_next (Some i) e)) /\
    (forall k, k <> i -> Some k <> last -> arr_get l' k = arr_get (mem_params s) k).
Proof.
  intros Hd Hlast. pose proof (arr_get_Some_range _ _ _ Hd) as Hi. erewrite bind_run by (by apply upd_mp_run).
  set (l1 := <[Z.to_nat i := _]> (mem_params s)). assert (Hs1 : same_static (mem_params s) l1) by (by apply static_insert).
  assert (Hg : forall k, arr_get l1 k = if k =? i then Some (filled i d) else arr_get (mem_params s) k) by (intros; by apply arr_get_insert).
  destruct last as [j|]; cbn [link_last].
  - destruct (Hlast j eq_refl) as [Hne (e & He & Hnx)]. assert (Hj : arr_get l1 j = Some e) by (by rewrite Hg, (proj2 (Z.eqb_neq j i))).
    erewrite bind_run by (by apply get_mp_run). erewrite bind_run by (by apply assert_true, bool_decide_eq_true).
    rewrite (upd_mp_run j e) by exact Hj. rewrite mem_params_set, set_mem_params_twice. eexists. split; [reflexivity|].
    pose proof (arr_get_Some_range _ _ _ Hj) as Hjr. split_and!.
    + unfold same_static in *. rewrite <- Hs1. by apply static_insert.
    + rewrite arr_get_insert, (proj2 (Z.eqb_neq i j)), Hg, Z.eqb_refl by done. done.
    + intros j' e' [= <-] He'. rewrite arr_get_insert, Z.eqb_refl by done. simplify_eq. done.
    + intros k Hk Hkl. rewrite arr_get_insert, (proj2 (Z.eqb_neq k j)), Hg, (proj2 (Z.eqb_neq k i)) by (done || congruence). done.
  - exists l1. split_and!; [done|done|by rewrite Hg, Z.eqb_refl|done|]. intros k Hk _. by rewrite Hg, (proj2 (Z.eqb_neq k i)).
Qed.

Lemma then_then (a b : BM unit) {A} (c : BM A) s s' : (a ;;; b) s = Ret tt s' -> (a ;;; b ;;; c) s = c s'.
Proof. unfold bind. destruct (a s) as [[] s1|]; [|done]. by intros ->. Qed.

Lemma index_run id l' s : same_static (mem_params s) l' -> id <> INVALID_IMAGE_ID ->
  get_bl_params_node_index id (set_mem_params l' s) = Ret (node_index_loop (mem_params s) 0 id) (set_mem_params l' s).
Proof.
  intros Hst Hne. unfold get_bl_params_node_index. erewrite bind_run by (apply assert_true; by rewrite (proj2 (Z.eqb_neq _ _))).
  erewrite bind_run by done. by rewrite mem_params_set, (node_index_same _ _ _ _ Hst).
Qed.

Lemma exec_loop_chain n i last img xs s :
  handoff (mem_params s) n i = Some xs -> (forall k, k ∈ xs \/ Some k = last -> unlinked (mem_params s) k) ->
  (forall j, last = Some j -> (j ∉ xs) /\ is_Some (arr_get (mem_params s) j)) ->
  exists l', exec_loop n i last img (Z.of_nat (length (mem_params s))) s = Ret INVALID_IMAGE_ID (set_mem_params l' s) /\
    same_static (mem_params s) l' /\ exec_list l' (Some i) xs /\
    (forall j e, last = Some j -> arr_get (mem_params s) j = Some e -> arr_get l' j = Some (set_next (Some i) e)) /\
    (forall k, k ∉ xs -> Some k <> last -> arr_get l' k = arr_get (mem_params s) k).
Proof.
  revert i last img xs s. induction n as [|n IH]; intros i last img xs s Hx Hun Hlast; [done|].
  pose proof (handoff_nodup _ _ _ _ Hx) as Hnd. cbn [handoff] in Hx.
  destruct (arr_get (mem_params s) i) as [d|] eqn:Hd; [|done]. destruct (executable d) eqn:Hex; [|done].
  cbn [exec_loop]. erewrite bind_run by (by apply get_mp_run). erewrite bind_run by (by apply assert_true).
  assert (Hin : i ∈ xs).
  { destruct (_ =? INVALID_IMAGE_ID); [injection Hx as <-; by left|]. destruct (0 <? _); [|done]. destruct (handoff _ _ _); [|done]. injection Hx as <-. by left. }
  destruct (link_step i d last s Hd) as (l1 & Hrun & Hst & Hi & Hj & Hk).
  { intros j ->. destruct (Hlast j eq_refl) as [Hnin [e He]]. split; [by intros ->|]. exists e. split; [done|]. apply (Hun j); [by right|done]. }
  rewrite (then_then _ _ _ _ _ Hrun).
  destruct (next_handoff_image_id d =? INVALID_IMAGE_ID) eqn:Einv.
  { injection Hx as <-. apply Z.eqb_eq in Einv. rewrite Einv. exists l1. split_and!; [done|done| |done|].
    - cbn. split; [done|]. exists (filled i d). split_and!; [done..|]. cbn. apply (Hun i); [left; by left|done].
    - intros k Hnk. apply Hk. intros ->. by apply Hnk, list_elem_of_singleton. }
  destruct (Z.ltb_spec 0 (node_index_loop (mem_params s) 0 (next_handoff_image_id d))) as [Hpos|]; [|done].
  set (j := node_index_loop (mem_params s) 0 (next_handoff_image_id d)) in *.
  destruct (handoff (mem_params s) n j) as [xs'|] eqn:Ex; [|done]. cbn in Hx. injection Hx as <-.
  inversion Hnd as [|? ? Hnin Hnd']; subst.
  erewrite bind_run by (apply (index_run _ _ s Hst); by apply Z.eqb_neq). change (node_index_loop _ 0 _) with j.
  pose proof (node_index_range (mem_params s) 0 (next_handoff_image_id d)) as Hrange. change (node_index_loop _ 0 _) with j in Hrange.
  erewrite bind_run by (apply assert_true; rewrite (proj2 (Z.ltb_lt 0 j)), (proj2 (Z.ltb_lt j _)) by lia; done).
  destruct (IH j (Some i) (next_handoff_image_id d) xs' (set_mem_params l1 s)) as (l2 & Hrun2 & Hst2 & Hel & Hj2 & Hk2).
  { rewrite mem_params_set. by rewrite (handoff_static _ _ _ _ Hst). }
  { rewrite mem_params_set. intros k Hkin e He. destruct (decide (k = i)) as [->|Hne].
    - rewrite Hi in He. injection He as <-. cbn. apply (Hun i); [left; by left|done].
    - destruct Hkin as [Hkin|[= ->]]; [|done]. rewrite Hk in He; [apply (Hun k); [left; by right|done]|done|].
      intros <-. destruct (Hlast k eq_refl) as [Hnk _]. apply Hnk. by right. }
  { intros k [= <-]. split; [done|]. by rewrite mem_params_set, Hi. }
  rewrite mem_params_set in *. rewrite (static_length _ _ Hst) in Hrun2. exists l2. rewrite set_mem_params_twice in Hrun2.
  split_and!; [exact Hrun2|unfold same_static in *; congruence| | |].
  - cbn [exec_list]. split; [done|]. exists (set_next (Some j) (filled i d)). rewrite (Hj2 i (filled i d) eq_refl Hi). split_and!; [done..|exact Hel].
  - intros k e -> He. destruct (Hlast k eq_refl) as [Hnk _]. rewrite elem_of_cons in Hnk. rewrite Hk2; [by apply Hj|naive_solver|naive_solver].
  - intros k Hnk Hkl. rewrite elem_of_cons in Hnk. rewrite Hk2; [apply Hk; naive_solver|naive_solver|naive_solver].
Qed.

(** Where the chain does not end, the loop runs into an assertion or comes to
    its bound. *)
Definition asserts {A} (o : outcome (bl2_state P) A) (Q : A -> Prop) : Prop :=
  match o with Ret a _ => Q a | Halt h _ => h = HAssert end.

Lemma link_last_cases last i s : (forall j, last = Some j -> is_Some (arr_get (mem_params s) j)) ->
  match link_last last i s with
  | Ret _ s' => exists l', s' = set_mem_params l' s /\ same_static (mem_params s) l'
  | Halt h _ => h = HAssert
  end.
Proof.
  intros Hlast. destruct last as [j|]; cbn [link_last]; [|exists (mem_params s); by destruct s].
  destruct (Hlast j eq_refl) as [e He]. erewrite bind_run by (by apply get_mp_run).
  destruct (bool_decide (next_params_info (params_node_mem e) = None)).
  - erewrite bind_run by (by apply assert_true). rewrite (upd_mp_run j e) by done. eexists. split; [reflexivity|]. by apply static_insert.
  - by erewrite bind_halt by (by apply assert_false).
Qed.

Lemma exec_loop_broken n i last img s :
  handoff (mem_params s) n i = None -> is_Some (arr_get (mem_params s) i) -> img <> INVALID_IMAGE_ID ->
  (forall j, last = Some j -> is_Some (arr_get (mem_params s) j)) ->
  asserts (exec_loop n i last img (Z.of_nat (length (mem_params s))) s) (fun img' => img' <> INVALID_IMAGE_ID).
Proof.
  revert i last img s. induction n as [|n IH]; intros i last img s Hx [d Hd] Himg Hlast; [done|]. cbn [handoff] in Hx. rewrite Hd in Hx.
  cbn [exec_loop]. erewrite bind_run by (by apply get_mp_run). destruct (executable d) eqn:Hex.
  2:{ erewrite bind_halt by (by apply assert_false). done. }
  erewrite bind_run by (by apply assert_true). erewrite bind_run by (by apply upd_mp_run).
  set (l1 := <[Z.to_nat i := _]> (mem_params s)). assert (Hs1 : same_static (mem_params s) l1) by (by apply static_insert).
  assert (Hcont : forall l2, same_static (mem_params s) l2 -> asserts ((if next_handoff_image_id d =? INVALID_IMAGE_ID then ret (next_handoff_image_id d)
      else let! link := get_bl_params_node_index (next_handoff_image_id d) in
        b2_assert ((0 <? link) && (link <? Z.of_nat (length (mem_params s)))) ;;;
        exec_loop n link (Some i) (next_handoff_image_id d) (Z.of_nat (length (mem_params s)))) (set_mem_params l2 s))
      (fun img' => img' <> INVALID_IMAGE_ID)).
  { intros l2 Hst. destruct (Z.eqb_spec (next_handoff_image_id d) INVALID_IMAGE_ID) as [|Hne]; [done|].
    erewrite bind_run by (by apply (index_run _ _ s Hst)). set (j := node_index_loop _ 0 _) in *.
    destruct (Z.ltb_spec 0 j) as [Hpos|]; [|erewrite bind_halt by (by apply assert_false); done].
    pose proof (node_index_range (mem_params s) 0 (next_handoff_image_id d)) as Hrange. change (node_index_loop _ 0 _) with j in Hrange.
    erewrite bind_run by (apply assert_true; rewrite (proj2 (Z.ltb_lt j _)) by lia; done). rewrite <- (static_length _ _ Hst).
    apply (IH j (Some i) (next_handoff_image_id d) (set_mem_params l2 s)).
    - rewrite mem_params_set, (handoff_static _ _ _ _ Hst). by destruct (handoff (mem_params s) n j).
    - apply arr_get_in_range. rewrite mem_params_set, (static_length _ _ Hst). lia.
    - done.
    - intros k [= <-]. apply arr_get_in_range. rewrite mem_params_set, (static_length _ _ Hst). by eapply arr_get_Some_range. }
  pose proof (link_last_cases last i (set_mem_params l1 s)) as Hlink.
  destruct (link_last last i (set_mem_params l1 s)) as [[] s2|h s2] eqn:El.
  - erewrite bind_run by exact El. destruct Hlink as (l2 & -> & Hst2).
    { intros j Hj. rewrite mem_params_set. apply arr_get_in_range. rewrite (static_length _ _ Hs1). destruct (Hlast j Hj). by eapply arr_get_Some_range. }
    apply Hcont. unfold same_static in *. rewrite mem_params_set in Hst2. congruence.
  - erewrite bind_halt by exact El. apply Hlink. intros j Hj. rewrite mem_params_set. apply arr_get_in_range.
    rewrite (static_length _ _ Hs1). destruct (Hlast j Hj). by eapply arr_get_Some_range.
Qed.

Lemma head_loop_spec l k f : head_loop l k = Some f -> k <= f < k + Z.of_nat (length l) /\ exists d, l !! Z.to_nat (f - k) = Some d /\ first_exe d = true.
Proof.
  revert k. induction l as [|d l IH]; intros k; cbn [head_loop]; [done|]. destruct (first_exe d) eqn:E.
  - intros [= <-]. cbn [length]. split; [lia|]. exists d. by replace (Z.to_nat (k - k)) with 0%nat by lia.
  - intros H. destruct (IH _ H) as [Hr (e & He & Hf)]. cbn [length]. split; [lia|]. exists e.
    by replace (Z.to_nat (f - k)) with (S (Z.to_nat (f - (k + 1)))) by lia.
Qed.

(** The computation finds the chains. *)
Lemma first_find Q `{!forall d, Decision (Q d)} l j : first_with Q l j <-> exists n d, list_find Q l = Some (n, d) /\ j = Z.of_nat n.
Proof.
  split.
  - intros (n & d & -> & Hd & HQ & Hf). exists n, d. split; [|done]. apply list_find_Some. by eauto.
  - intros (n & d & (Hd & HQ & Hf)%list_find_Some & ->). by exists n, d.
Qed.
Lemma node_index_find l k id :
  node_index_loop l k id = match list_find (fun e => mp_image_id e = id) l with Some (n, _) => k + Z.of_nat n | None => -1 end.
Proof.
  revert k. induction l as [|d l IH]; intros k; [done|]. cbn. destruct (Z.eqb_spec (mp_image_id d) id) as [E|E].
  - rewrite decide_True by done. lia.
  - rewrite decide_False by done. rewrite IH. destruct (list_find _ l) as [[n e]|]; cbn; [lia|done].
Qed.
Lemma node_index_first l id j : 0 <= j -> node_index_loop l 0 id = j <-> first_with (fun e => mp_image_id e = id) l j.
Proof.
  intros Hj. rewrite (first_find (fun e => mp_image_id e = id)), node_index_find. destruct (list_find _ l) as [[n d]|]; [|split; [lia|intros (n & d & [=] & _)]].
  split; [intros <-; by exists n, d|]. intros (n' & d' & [= -> ->] & ->). done.
Qed.
Lemma head_loop_first l j : head_loop l 0 = Some j <-> first_with (fun d => first_exe d = true) l j.
Proof.
  assert (Hh : forall k, head_loop l k = (fun p => k + Z.of_nat p.1) <$> list_find (fun d => first_exe d = true) l).
  { clear. induction l as [|d l IH]; intros k; [done|]. cbn. destruct (first_exe d) eqn:E.
    - rewrite decide_True by done. cbn. f_equal. lia.
    - rewrite decide_False by congruence. rewrite IH. destruct (list_find _ l) as [[n e]|]; cbn; [f_equal; lia|done]. }
  rewrite (first_find (fun d => first_exe d = true)), Hh. destruct (list_find _ l) as [[n d]|]; cbn; [|split; [done|intros (n & d & [=] & _)]].
  split; [intros [= <-]; by exists n, d|]. intros (n' & d' & [= -> ->] & ->). done.
Qed.

Lemma handoff_more l n m i xs : handoff l n i = Some xs -> (n <= m)%nat -> handoff l m i = Some xs.
Proof.
  revert m i xs. induction n as [|n IH]; intros [|m] i xs Hx Hle; [done|done|lia|]. cbn in Hx |- *.
  destruct (arr_get l i) as [d|]; [|done]. destruct (executable d); [|done]. destruct (_ =? INVALID_IMAGE_ID); [done|].
  destruct (0 <? _); [|done]. destruct (handoff l n _) as [ys|] eqn:E; [|done]. erewrite IH; [exact Hx|done|lia].
Qed.
Lemma handoff_in_range l n i xs k : handoff l n i = Some xs -> k ∈ xs -> 0 <= k < Z.of_nat (length l).
Proof. intros Hx Hk. destruct (handoff_suffix _ _ _ _ _ Hx Hk) as (m & ys & Hm & _). destruct (handoff_head _ _ _ _ Hm) as [_ [d Hd]]. by eapply arr_get_Some_range. Qed.
Lemma handoff_fits l n i xs : handoff l n i = Some xs -> (length xs <= length l)%nat.
Proof.
  intros Hx. pose proof (handoff_nodup _ _ _ _ Hx) as Hnd. assert (Hs : xs ⊆+ seqZ 0 (Z.of_nat (length l))).
  { apply NoDup_submseteq; [done|]. intros k Hk. apply elem_of_seqZ. pose proof (handoff_in_range _ _ _ _ _ Hx Hk). lia. }
  apply submseteq_length in Hs. rewrite length_seqZ in Hs. lia.
Qed.
Lemma handoff_chain_spec l i xs : handoff_chain l i xs <-> handoff l (length l) i = Some xs.
Proof.
  split.
  - intros Hc. assert (Hx : handoff l (length xs) i = Some xs).
    { induction Hc as [i d Hd He Hn|i d j xs Hd He Hn Hf Hj Hc IH]; cbn; rewrite Hd, He; [by rewrite (proj2 (Z.eqb_eq _ _) Hn)|].
      rewrite (proj2 (Z.eqb_neq _ _) Hn). apply node_index_first in Hf as ->; [|lia]. rewrite (proj2 (Z.ltb_lt 0 j)) by done. by rewrite IH. }
    eapply handoff_more; [exact Hx|]. by eapply handoff_fits.
  - generalize (length l). intros n. revert i xs. induction n as [|n IH]; intros i xs Hx; [done|]. cbn in Hx.
    destruct (arr_get l i) as [d|] eqn:Hd; [|done]. destruct (executable d) eqn:He; [|done].
    destruct (Z.eqb_spec (next_handoff_image_id d) INVALID_IMAGE_ID) as [E|E]; [injection Hx as <-; by econstructor|].
    destruct (Z.ltb_spec 0 (node_index_loop l 0 (next_handoff_image_id d))) as [Hj|]; [|done]. destruct (handoff l n _) as [ys|] eqn:Ey; [|done].
    injection Hx as <-. eapply hc_next; [done..| |exact Hj|by apply IH]. by apply node_index_first; [lia|].
Qed.

(** The list of images to execute, for a non-empty array: its nodes are filled
    in and linked, and nothing else in the array changes. *)
Definition built l (head : Z) (xs : list Z) s s' : Prop :=
  exists l', s' = set_next_params (ListHead PARAM_BL_PARAMS PARAM_VERSION_2 (Some head)) (set_mem_params l' s) /\
    same_static l l' /\ (forall k, k ∉ xs -> arr_get l' k = arr_get l k) /\ exec_list l' (Some head) xs.

Lemma get_next_run s : mem_params s <> [] -> lh_head (next_bl_params s) = None ->
  (forall k, unlinked (mem_params s) k) ->
  let r := get_next_bl_params_from_mem_params_desc s in
  match head_loop (mem_params s) 0 ≫= (fun f => pair f <$> handoff (mem_params s) (length (mem_params s)) f) with
  | Some (f, xs) => exists s', r = Ret true s' /\ built (mem_params s) f xs s s'
  | None => exists s', r = Halt HAssert s'
  end.
Proof.
  intros Hne Hnull Hun r. unfold r, get_next_bl_params_from_mem_params_desc, bl_mem_params_desc_num.
  erewrite bind_run by done. assert (Hl : 0 < Z.of_nat (length (mem_params s))) by (destruct (mem_params s); [done|cbn; lia]).
  rewrite (proj2 (Z.eqb_neq _ 0)) by lia. erewrite bind_run by done. rewrite Nat2Z.id.
  destruct (head_loop (mem_params s) 0) as [f|] eqn:Ef; cbn [mbind option_bind default from_option id].
  2:{ erewrite bind_run by done. erewrite bind_run by done. rewrite Hnull. erewrite bind_halt by (by apply assert_false). eauto. }
  do 2 erewrite bind_run by done. cbn [next_bl_params set_next_params lh_head].
  erewrite bind_run by (apply assert_true, bool_decide_eq_true; eauto). erewrite bind_run by done.
  set (s1 := set_next_params _ _). change (mem_params s) with (mem_params s1) in Hun, Hl, Ef |- *.
  destruct (head_loop_spec _ _ _ Ef) as [Hr _].
  destruct (handoff (mem_params s1) (length (mem_params s1)) f) as [xs|] eqn:Ex; cbn [fmap option_fmap option_map].
  - destruct (exec_loop_chain (length (mem_params s1)) f None 0 xs s1 Ex) as (l' & Hrun & Hst & Hel & _ & Hoff); [auto|done|].
    erewrite bind_run by exact Hrun. erewrite bind_run by (by apply assert_true). eexists. split; [reflexivity|]. exists l'. split_and!; [done|done|intros k Hk; by apply Hoff|done].
  - pose proof (exec_loop_broken (length (mem_params s1)) f None 0 s1 Ex (arr_get_in_range (mem_params s1) f ltac:(lia)) ltac:(done) ltac:(done)) as Hb.
    destruct (exec_loop _ _ _ _ _ _) as [img s2|h s2] eqn:El; cbn in Hb.
    + erewrite bind_run by exact El. erewrite bind_halt by (by apply assert_false, Z.eqb_neq). eauto.
    + subst h. erewrite bind_halt by exact El. eauto.
Qed.

(** [C34] The list of images to execute is the chain of hand-offs.  From an
    array whose nodes are unlinked, as at boot, and with assertions compiled
    in: [get_next_bl_params_from_mem_params_desc] returns NULL for an empty
    array.  Otherwise, if some image is marked as the first to execute and the
    chain of hand-off identifiers from the first such image consists of
    executable images and ends, it returns the list of this chain: each node
    has the identifier, image and entry point of its own image and leads to the
    next; of the images of the chain only this node changes, and the other
    entries of the array do not change at all.  In every other case, a chain
    that runs in a circle included, an assertion fails. *)
Theorem bl_params_list_exact s : lh_head (next_bl_params s) = None -> (forall k, unlinked (mem_params s) k) ->
  let l := mem_params s in let r := get_next_bl_params_from_mem_params_desc s in
  if bool_decide (l = []) then r = Ret false s
  else (exists f xs s', first_with (fun d => first_exe d = true) l f /\ handoff_chain l f xs /\ r = Ret true s' /\ built l f xs s s') \/
       ((~ exists f xs, first_with (fun d => first_exe d = true) l f /\ handoff_chain l f xs) /\ exists s', r = Halt HAssert s').
Proof.
  intros Hnull Hun l r. unfold l, r. destruct (bool_decide_reflect (mem_params s = [])) as [E|Hne].
  { unfold get_next_bl_params_from_mem_params_desc, bl_mem_params_desc_num. erewrite bind_run by done. by rewrite E. }
  pose proof (get_next_run s Hne Hnull Hun) as Hr. cbn zeta in Hr.
  destruct (head_loop (mem_params s) 0) as [f|] eqn:Ef; cbn in Hr.
  - apply head_loop_first in Ef. destruct (handoff (mem_params s) (length (mem_params s)) f) as [xs|] eqn:Ex; cbn in Hr.
    + left. destruct Hr as (s' & Hr & Hb). exists f, xs, s'. split_and!; [done|by apply handoff_chain_spec|done|done].
    + right. split; [|done]. intros (f' & xs & Hf & Hc%handoff_chain_spec). apply head_loop_first in Ef, Hf. congruence.
  - right. split; [|done]. intros (f' & xs & Hf & _). apply head_loop_first in Hf. congruence.
Qed.
End asserting.
End lists.

(** ** What loading an image writes *)
Section frame.
Context {P : Type} `{!TbEnv P} `{!CotBufs}.
Context (Hcot : cot_desc_ptr = cot_desc) (Ht : TRUSTED_BOARD_BOOT = true) (F : Z -> Prop).
(** The storage delivers no more bytes than it was asked for. *)
Context (Hio : forall h a n p r p', 0 <= n -> io_read h a n p = Ret r p' -> Z.of_nat (length r.2) <= n).
Implicit Types (s : tb_state P).

Definition window (info : image_info_t) (x : Z) : Prop := image_base info <= x < image_base info + image_max_size info.
Lemma load_image_frame id info s rc info' s' : load_image_v2 id info s = Ret (rc, info') s' ->
  forall x, ~ window info x -> tb_mem s' x = tb_mem s x.
Proof.
  unfold load_image_v2, with_image. intros Hr x Hx. inv_run Hr. destruct a as [[rc0 dev] spec]. apply hook_mem in Hr0.
  destruct (negb (rc0 =? 0)); [injection Hr as <- <- <-; congruence|]. inv_run Hr. apply hook_mem in Hr1.
  destruct (negb (a.1 =? 0)); [injection Hr as <- <- <-; congruence|]. inv_run Hr. apply hook_mem in Hr2.
  inv_run Hr. inv_run Hr. apply hook_mem in Hr4. inv_run Hr. apply hook_mem in Hr5. injection Hr as -> <-.
  assert (Hm : tb_mem s3 x = tb_mem s2 x); [|congruence].
  destruct (_ || _); [by injection Hr3 as <- <- <-|].
  destruct (Z.ltb_spec (image_max_size info) (u64 a0.2)); [by injection Hr3 as <- <- <-|].
  apply bind_ret_inv in Hr3 as (q & s6 & Hread & Hr3). injection Hr3 as <- <- <-. unfold read_image in Hread.
  apply bind_ret_inv in Hread as (got & s7 & Hgot & Hread). pose proof (hook_mem _ _ _ _ Hgot) as Hgm. apply hook_run in Hgot as [Hlen _].
  apply Hio in Hlen; [|apply u64_range]. apply bind_ret_inv in Hread as (u & s8 & Hst & Hread). injection Hread as <- <-. unfold store_bytes, modify in Hst.
  injection Hst as <- <-. cbn. rewrite write_outside; [congruence|]. unfold window in Hx. lia.
Qed.

Lemma frame_same_place info info' s s' : same_place info info' -> load_frame F (window info') s s' -> load_frame F (window info) s s'.
Proof. intros (Hb & Hm & _) [Hf Hfr]. split; [done|]. intros x Hx. apply Hfr. unfold window in *. by rewrite Hb, Hm. Qed.

Lemma auth_loaded_frame id info s rc s' : boot_id id = true -> fresh F id -> info_ok info -> auth_loaded id info s = Ret rc s' ->
  load_frame F (window info) s s'.
Proof.
  intros Hb Hfr (Hsz & _) Hr. unfold auth_loaded in Hr. rewrite Ht in Hr.
  apply bind_ret_inv in Hr as (a & s1 & Hv & Hr). apply (verify_frame Hcot F (window info)) in Hv; [|done|done]. transitivity s1; [done|].
  destruct (a =? 0); [by injection Hr as <- <-|].
  apply bind_ret_inv in Hr as (u & s2 & Hz & Hr). injection Hz as <- <-. apply bind_ret_inv in Hr as (u & s3 & Hfl & Hr).
  injection Hfl as <- <-. injection Hr as <- <-. apply load_frame_same; [done|]. intros x Hx. cbn. apply zero_outside. unfold window in Hx. lia.
Qed.

Lemma load_then_auth_frame id info b s rc info' s' : boot_id id = true -> fresh F id -> info_ok info ->
  load_then_auth_v2 id info b s = Ret (rc, info') s' -> load_frame F (window info) s s'.
Proof.
  intros Hbt Hfr Hok Hr. unfold load_then_auth_v2 in Hr. apply bind_ret_inv in Hr as ([rc0 inf] & s1 & Hl & Hr).
  pose proof Hok as (Hsz & Hmax & Hx). pose proof (load_image_v2_run _ _ _ _ _ _ (conj (Z.le_trans _ _ _ (proj1 Hsz) (proj2 Hsz)) Hmax) Hl) as (Hb & Hm & Hs).
  assert (Hp : same_place info inf).
  { unfold same_place, info_ok. rewrite Hb, Hm. split_and!; try done; destruct Hs as [->|]; lia. }
  assert (Hf1 : load_frame F (window info) s s1).
  { apply load_frame_same; [eapply (within_run same_flags), Hl; apply load_image_v2_flags|by eapply load_image_frame]. }
  cbn in Hr. destruct (negb (rc0 =? 0)); [by injection Hr as <- <- <-|].
  apply bind_ret_inv in Hr as (rc1 & s2 & Ha & Hr). apply auth_loaded_frame in Ha; [|done|done|apply Hp].
  transitivity s1; [done|]. transitivity s2; [by eapply frame_same_place|]. destruct (negb (rc1 =? 0)); [by injection Hr as <- <- <-|].
  apply bind_ret_inv in Hr as (u & s3 & Hf & Hr). injection Hr as <- <- <-. destruct b; cbn in Hf; by injection Hf as <- <-.
Qed.

Lemma load_internal_frame fuel id info b s rc info' s' :
  boot_id id = true -> fresh F id -> (forall j, F j -> flagged s j) ->
  info_ok info -> load_auth_image_internal_v2 fuel id info b s = Ret (rc, info') s' -> load_frame F (window info) s s'.
Proof.
  revert id info b s rc info' s'. induction fuel as [|fuel IH]; intros id info b s rc info' s' Hb Hfr HF Hok Hr; [done|].
  cbn in Hr. rewrite Ht in Hr. apply bind_ret_inv in Hr as (a & s1 & Hp & Hr).
  destruct (get_parent_id_run Hcot id s a s1 (boot_listed id Hb) Hp) as (-> & d & Hd & H0 & _).
  destruct (Z.eqb_spec a.1 0) as [Ha|]; [|by eapply load_then_auth_frame]. destruct (H0 Ha) as (Hpar & _ & Hnf).
  apply bind_ret_inv in Hr as ([rc0 inf] & s2 & Hi & Hr). pose proof (load_internal_place _ _ _ _ _ _ _ _ Hok Hi) as Hpl.
  apply IH in Hi; [|by eapply boot_parent|right; by auto|done|done]. transitivity s2; [done|]. cbn in Hr. destruct (negb (rc0 =? 0)); [by injection Hr as <- <- <-|].
  eapply frame_same_place; [done|]. eapply load_then_auth_frame; [done|done|apply Hpl|done].
Qed.

Lemma load_auth_frame tries fuel id info s rc info' s' :
  boot_id id = true -> fresh F id -> (forall j, F j -> flagged s j) ->
  info_ok info -> load_auth_image_v2 tries fuel id info s = Ret (rc, info') s' -> load_frame F (window info) s s' /\ same_place info info'.
Proof.
  intros Hb Hfr. revert info s. induction tries as [|tries IH]; intros info s HF Hok Hr; [done|]. cbn in Hr.
  apply bind_ret_inv in Hr as ([rc0 inf] & s1 & Hi & Hr). pose proof (load_internal_place _ _ _ _ _ _ _ _ Hok Hi) as Hpl.
  apply load_internal_frame in Hi; [|done..]. cbn in Hr. destruct (rc0 =? 0); [by injection Hr as <- <- <-|].
  apply bind_ret_inv in Hr as (again & s2 & Hh & Hr).
  assert (Hm2 : load_frame F (window info) s s2).
  { transitivity s1; [done|]. apply load_frame_same; [eapply (within_run same_flags), Hh; apply hook_same_flags|].
    apply hook_mem in Hh. intros x _. by rewrite Hh. }
  destruct (truthy again); [|by injection Hr as <- <- <-]. apply IH in Hr as [Hfr' Hpl']; [|intros j Hj; by apply (lf_flags _ _ _ _ Hm2), HF|apply Hpl].
  split; [transitivity s2; [done|by eapply frame_same_place]|by eapply same_place_trans].
Qed.
End frame.
