(* ===== verification/Bl2Boot.v ===== *)
(** * BL2: from the descriptors to the hand-over

    The configuration of the arguments leaves the list of images alone, the
    loading loop visits every descriptor, and the composition: when BL2 hands
    over, every image that it loaded is in memory as it was authenticated, and
    control goes to the first executable image. *)
From stdpp Require Import base list numbers option.
From Stdlib Require Import ZArith Lia.
From S2P Require Import Prelude TbbDefs AuthMod TbbrCot BlCommon Bl2 TbbExample TbbLemmas AuthProps CotProps TbbProps LoadProps Bl2Props.
#[local] Open Scope Z_scope.

Section config.
Context {P : Type} `{!TbEnv P} `{!Bl2Env P}.
Context (Hassert : TB_ASSERTIONS = true).
Implicit Types (s : bl2_state P) (l : list bl_mem_params_node_t).

(** ** Passing the configuration addresses *)

(** Everything but the arguments of the entry point. *)
Definition noargs (d : bl_mem_params_node_t) : bl_mem_params_node_t :=
  mp_set_ep (EpInfo (epi_attr (mp_ep_info d)) (epi_pc (mp_ep_info d)) (epi_spsr (mp_ep_info d)) 0 0 0) d.
Definition args_only l l' : Prop := noargs <$> l' = noargs <$> l.
#[local] Instance args_only_preorder : PreOrder args_only.
Proof. split; [done|]. unfold args_only. congruence. Qed.

Lemma arr_get_noargs l k : arr_get (noargs <$> l) k = noargs <$> arr_get l k.
Proof. unfold arr_get. destruct (0 <=? k); [apply list_lookup_fmap|done]. Qed.
Lemma args_only_get l l' k : args_only l l' -> noargs <$> arr_get l' k = noargs <$> arr_get l k.
Proof. intros Ha. by rewrite <- !arr_get_noargs, Ha. Qed.
Lemma args_only_length l l' : args_only l l' -> length l' = length l.
Proof. intros Ha. apply (f_equal length) in Ha. by rewrite !length_fmap in Ha. Qed.

Lemma exec_list_noargs l node xs : exec_list (noargs <$> l) node xs <-> exec_list l node xs.
Proof.
  revert node. induction xs as [|i xs IH]; intros node; cbn; [done|]. rewrite arr_get_noargs. apply and_iff_compat_l.
  split; intros (d & Hd & He & Hid & Hi & Hep & Hrest).
  - destruct (arr_get l i) as [e|]; [|done]. injection Hd as <-. exists e. split_and!; [done..|]. by apply IH.
  - exists (noargs d). rewrite Hd. split_and!; [done..|]. by apply IH.
Qed.
Lemma exec_list_args l l' node xs : args_only l l' -> exec_list l node xs -> exec_list l' node xs.
Proof. intros Ha. by rewrite <- exec_list_noargs, <- Ha, exec_list_noargs. Qed.

Lemma upd_args i d f s : arr_get (mem_params s) i = Some d -> (forall e, noargs (mp_set_ep (f e) e) = noargs e) ->
  exists l', upd_mp i (fun e => mp_set_ep (f e) e) s = Ret tt (set_mem_params l' s) /\ args_only (mem_params s) l'.
Proof.
  intros Hd Hf. rewrite (upd_mp_run i d) by done. eexists. split; [reflexivity|]. unfold args_only. rewrite list_fmap_insert, Hf.
  apply list_insert_id. rewrite list_lookup_fmap. unfold arr_get in Hd. destruct (0 <=? i); [|done]. by rewrite Hd.
Qed.
Lemma if_zero_noargs get set v e :
  (forall w ep, epi_attr (set w ep) = epi_attr ep /\ epi_pc (set w ep) = epi_pc ep /\ epi_spsr (set w ep) = epi_spsr ep) ->
  noargs (mp_set_ep (if_zero get set v (mp_ep_info e)) e) = noargs e.
Proof.
  intros Hs. unfold if_zero, noargs. destruct (get _ =? 0); cbn; [|done]. by destruct (Hs v (mp_ep_info e)) as (-> & -> & ->).
Qed.

Lemma base_of_run id s : id <> INVALID_IMAGE_ID -> exists v, base_of id s = Ret v s.
Proof.
  intros Hid. unfold base_of, get_bl_mem_params_node.
  assert (Hn : negb (id =? INVALID_IMAGE_ID) = true) by (by rewrite (proj2 (Z.eqb_neq _ _))).
  assert (Hi : get_bl_params_node_index id s = Ret (node_index_loop (mem_params s) 0 id) s).
  { unfold get_bl_params_node_index. by erewrite bind_run by (by apply assert_true). }
  assert (Hg : (b2_assert (negb (id =? INVALID_IMAGE_ID)) ;;; let! index := get_bl_params_node_index id in
    ret (if 0 <=? index then Some index else None)) s =
    Ret (if 0 <=? node_index_loop (mem_params s) 0 id then Some (node_index_loop (mem_params s) 0 id) else None) s).
  { erewrite bind_run by (by apply assert_true). by erewrite bind_run by exact Hi. }
  erewrite bind_run by exact Hg. pose proof (node_index_range (mem_params s) 0 id) as Hr.
  destruct (Z.leb_spec 0 (node_index_loop (mem_params s) 0 id)); [|by eexists].
  destruct (arr_get_in_range (mem_params s) (node_index_loop (mem_params s) 0 id) ltac:(lia)) as [d Hd].
  erewrite bind_run by (by apply get_mp_run). by eexists.
Qed.

Lemma config_loop_run n head node hw xs s : (length xs <= n)%nat -> exec_list (mem_params s) node xs ->
  exists l', config_loop n head node hw s = Ret tt (set_mem_params l' s) /\ args_only (mem_params s) l'.
Proof.
  revert node xs s. induction n as [|n IH]; intros node [|i xs] s Hn Hx; cbn in Hn; try lia.
  1, 2: cbn in Hx; subst; exists (mem_params s); by destruct s.
  destruct Hx as [-> (d & Hd & _ & _ & _ & Hep & Hrest)]. cbn [config_loop]. erewrite bind_run by (by apply get_mp_run).
  assert (Hfw : exists v, (if config_of (pn_image_id (params_node_mem d)) =? INVALID_IMAGE_ID then ret 0
    else base_of (config_of (pn_image_id (params_node_mem d)))) s = Ret v s).
  { destruct (Z.eqb_spec (config_of (pn_image_id (params_node_mem d))) INVALID_IMAGE_ID); [by eexists|by apply base_of_run]. }
  destruct Hfw as [v Hfw]. erewrite bind_run by exact Hfw. rewrite Hep. erewrite bind_run by done.
  assert (Hone : exists l1, (if bool_decide (Some i = head) then
      upd_mp i (fun e => mp_set_ep (if_zero arg1 set_arg1 v (mp_ep_info e)) e) ;;;
      upd_mp i (fun e => mp_set_ep (if_zero arg2 set_arg2 hw (mp_ep_info e)) e)
    else upd_mp i (fun e => mp_set_ep (if_zero arg0 set_arg0 v (mp_ep_info e)) e) ;;;
      upd_mp i (fun e => mp_set_ep (if_zero arg1 set_arg1 hw (mp_ep_info e)) e)) s = Ret tt (set_mem_params l1 s) /\ args_only (mem_params s) l1).
  { assert (Htwo : forall f g, (forall e, noargs (mp_set_ep (f e) e) = noargs e) -> (forall e, noargs (mp_set_ep (g e) e) = noargs e) ->
      exists l1, (upd_mp i (fun e => mp_set_ep (f e) e) ;;; upd_mp i (fun e => mp_set_ep (g e) e)) s = Ret tt (set_mem_params l1 s) /\ args_only (mem_params s) l1).
    { intros f g Hf Hg. destruct (upd_args i d f s Hd Hf) as (l1 & Hr1 & Ha1). erewrite bind_run by exact Hr1.
      pose proof (args_only_get _ _ i Ha1) as Hi. rewrite Hd in Hi. destruct (arr_get l1 i) as [d1|] eqn:Hd1; [|done].
      destruct (upd_args i d1 g (set_mem_params l1 s) Hd1 Hg) as (l2 & Hr2 & Ha2). exists l2. split; [exact Hr2|by etransitivity]. }
    destruct (bool_decide (Some i = head)); apply Htwo; intros e; by apply if_zero_noargs. }
  destruct Hone as (l1 & Hr1 & Ha1). erewrite bind_run by exact Hr1.
  pose proof (args_only_get _ _ i Ha1) as Hi. rewrite Hd in Hi. destruct (arr_get l1 i) as [d1|] eqn:Hd1; [|done].
  erewrite bind_run by (by apply get_mp_run). assert (Hpn : params_node_mem (noargs d1) = params_node_mem (noargs d)) by (cbn in Hi; congruence). cbn in Hpn.
  destruct (IH (next_params_info (params_node_mem d1)) xs (set_mem_params l1 s)) as (l2 & Hr2 & Ha2); [lia|rewrite Hpn; by eapply exec_list_args|].
  exists l2. split; [exact Hr2|by etransitivity].
Qed.
End config.

(** ** Loading *)
Section boot.
Context {P : Type} `{!TbEnv P} `{!CotBufs} `{!Bl2Env P}.
Context (Hcot : cot_desc_ptr = cot_desc) (Ht : TRUSTED_BOARD_BOOT = true) (Hap : bufs_apart).
Context (Hio : forall h a n p r p', 0 <= n -> io_read h a n p = Ret r p' -> Z.of_nat (length r.2) <= n).
Implicit Types (s : bl2_state P) (l : list bl_mem_params_node_t).

Definition loads (d : bl_mem_params_node_t) : bool := negb (truthy (Z.land (mp_attr d) IMAGE_ATTRIB_SKIP_LOADING)).

(** The images that are loaded are images of the boot in the chain of trust,
    not certificates and not of the firmware update, and their windows meet neither the buffers of the authentication module nor each other. *)
Record images_ok l : Prop := {
  io_img : forall k d, arr_get l k = Some d -> loads d = true ->
    raw_image (mp_image_id d) = true /\ boot_id (mp_image_id d) = true /\ info_ok (mp_image_info d);
  io_disj : forall j k d e, arr_get l j = Some d -> arr_get l k = Some e -> j <> k -> loads d = true -> loads e = true ->
    forall x, window (mp_image_info d) x -> ~ window (mp_image_info e) x
}.
(** The list of images to load, as [get_bl_load_info_from_mem_params_desc]
    builds it. *)
Definition load_linked l : Prop := forall k d, arr_get l k = Some d ->
  load_node_mem d = LoadNode (mp_image_id d) (Some k) (if k + 1 <? Z.of_nat (length l) then Some (k + 1) else None).

(** The image of a descriptor is in memory, complete and authentic. *)
Definition in_memory (t : tb_state P) (d : bl_mem_params_node_t) : Prop :=
  0 <= image_size (mp_image_info d) <= image_max_size (mp_image_info d) /\ authentic t (mp_image_id d) (mp_image_info d).

Lemma in_tb_ret {A} (m : M (tb_state P) A) s a s' : in_tb m s = Ret a s' -> exists t, m (b2_tb s) = Ret a t /\ s' = set_b2_tb t s.
Proof. unfold in_tb, zoom. destruct (m (b2_tb s)) as [b t|]; [|done]. intros [= <- <-]. by exists t. Qed.
Lemma b2_hook_ret {A} (m : M P A) s a s' : b2_hook m s = Ret a s' -> exists t, s' = set_b2_tb t s /\ same_auth (b2_tb s) t.
Proof. intros (t & Hm & ->)%in_tb_ret. apply hook_same_auth in Hm. by exists t. Qed.
Lemma get_mp_inv i s d s' : get_mp i s = Ret d s' -> s' = s /\ arr_get (mem_params s) i = Some d.
Proof.
  intros Hr. apply bind_ret_inv in Hr as (l & s1 & Hl & Hr). injection Hl as <- <-. destruct (arr_get _ i) as [e|]; [|done].
  by injection Hr as <- <-.
Qed.

(** One image: what changes in the array and in memory. *)
Lemma load_one_ok tries fuel id k s s' d :
  arr_get (mem_params s) k = Some d -> id = mp_image_id d -> images_ok (mem_params s) -> load_one tries fuel id k s = Ret tt s' ->
  exists info t, s' = set_mem_params (<[Z.to_nat k := mp_set_info info d]> (mem_params s)) (set_b2_tb t s) /\
    (if loads d then same_place (mp_image_info d) info /\ in_memory t (mp_set_info info d) else info = mp_image_info d) /\
    load_frame (flagged (b2_tb s)) (fun x => loads d = true /\ window (mp_image_info d) x) (b2_tb s) t.
Proof.
  intros Hd -> Hok Hr. unfold load_one in Hr. apply bind_ret_inv in Hr as (d' & s0 & Hg & Hr). apply get_mp_inv in Hg as [-> Hg].
  rewrite Hd in Hg. injection Hg as <-. apply bind_ret_inv in Hr as (err & s1 & Hpre & Hr). apply b2_hook_ret in Hpre as (t1 & -> & Hm1).
  destruct (truthy err); [done|]. apply bind_ret_inv in Hr as (u & s2 & Hload & Hr). apply bind_ret_inv in Hr as (err2 & s3 & Hpost & Hr).
  apply b2_hook_ret in Hpost as (t3 & -> & Hm3). destruct (truthy err2); [done|]. injection Hr as <-. unfold loads.
  destruct (truthy (Z.land (mp_attr d) IMAGE_ATTRIB_SKIP_LOADING)) eqn:Hskip; cbn [negb].
  - injection Hload as <- <-. exists (mp_image_info d), t3. cbn in Hm3. split_and!; [|done|].
    + rewrite list_insert_id; [done|]. destruct d. unfold arr_get in Hd. by destruct (0 <=? k).
    + transitivity t1; by apply same_auth_frame.
  - apply bind_ret_inv in Hload as ([rc info] & s4 & Hl & Hload). apply in_tb_ret in Hl as (t4 & Hl & ->).
    apply bind_ret_inv in Hload as (u2 & s5 & Hup & Hload). rewrite (upd_mp_run k d) in Hup by done. injection Hup as <- <-.
    cbn in Hload. unfold truthy in Hload. destruct (Z.eqb_spec rc 0) as [->|]; [|done]. injection Hload as <- <-.
    destruct (io_img _ Hok k d Hd) as (Hraw & Hboot & Hinfo); [unfold loads; by rewrite Hskip|]. cbn in Hl, Hm3.
    destruct (load_auth_frame Hcot Ht (flagged (b2_tb s)) Hio _ _ _ _ _ _ _ _ Hboot (or_introl Hraw)
      (lf_flags _ _ _ _ (same_auth_frame (flagged (b2_tb s)) (fun _ => True) _ _ Hm1)) Hinfo Hl) as [Hfr Hpl].
    destruct (load_auth_v2_ok Hcot _ _ _ _ _ _ _ Ht (raw_listed _ Hraw) Hinfo Hl) as (_ & Hsz & _).
    exists info, t3. split_and!; [done|done| |].
    + destruct Hpl as (_ & Hmx & _). split; [cbn; by rewrite Hmx|]. eapply authentic_same; [exact Hm3|]. by eapply (load_auth_v2_authentic Hcot).
    + transitivity t1; [by apply same_auth_frame|]. transitivity t4; [|by apply same_auth_frame].
      destruct Hfr as [Hff Hfm]. split; [done|]. intros x Hx Ho. apply Hfm; [tauto|done].
Qed.

(** Everything but the image information. *)
Definition noinfo (d : bl_mem_params_node_t) : bl_mem_params_node_t := mp_set_info (ImageInfo 0 0 0) d.
Definition info_only l l' : Prop := noinfo <$> l' = noinfo <$> l.

Lemma info_only_insert l k d info : arr_get l k = Some d -> info_only l (<[Z.to_nat k := mp_set_info info d]> l).
Proof.
  intros Hd. unfold info_only. rewrite list_fmap_insert. apply list_insert_id. rewrite list_lookup_fmap.
  unfold arr_get in Hd. destruct (0 <=? k); [|done]. by rewrite Hd.
Qed.
Lemma info_only_get l l' k d' : info_only l l' -> arr_get l' k = Some d' -> exists d, arr_get l k = Some d /\ d' = mp_set_info (mp_image_info d') d.
Proof.
  intros Hi Hd. assert (Hg : noinfo <$> arr_get l' k = noinfo <$> arr_get l k).
  { unfold arr_get. destruct (0 <=? k); [|done]. by rewrite <- !list_lookup_fmap, Hi. }
  rewrite Hd in Hg. destruct (arr_get l k) as [d|]; [|done]. exists d. split; [done|]. destruct d, d'. cbn in Hg. injection Hg. intros. subst. done.
Qed.
Lemma info_only_length l l' : info_only l l' -> length l' = length l.
Proof. intros Hi. apply (f_equal length) in Hi. by rewrite !length_fmap in Hi. Qed.
Lemma info_only_linked l l' : info_only l l' -> load_linked l -> load_linked l'.
Proof. intros Hi Hl k d' Hd. destruct (info_only_get _ _ _ _ Hi Hd) as (d & Hg & ->). rewrite (info_only_length _ _ Hi). apply (Hl k d Hg). Qed.

Lemma images_ok_insert l k d info : images_ok l -> arr_get l k = Some d ->
  (loads d = true -> same_place (mp_image_info d) info) -> images_ok (<[Z.to_nat k := mp_set_info info d]> l).
Proof.
  intros [Himg Hdisj] Hd Hpl. pose proof (arr_get_Some_range _ _ _ Hd) as Hr.
  assert (Hw : forall j e, arr_get (<[Z.to_nat k := mp_set_info info d]> l) j = Some e -> loads e = true ->
    exists e0, arr_get l j = Some e0 /\ loads e0 = true /\ mp_image_id e = mp_image_id e0 /\ same_place (mp_image_info e0) (mp_image_info e)).
  { intros j e. rewrite arr_get_insert by done. destruct (Z.eqb_spec j k) as [->|].
    - intros [= <-] Hlo. exists d. split_and!; [done|exact Hlo|done|apply Hpl, Hlo].
    - intros He Hlo. exists e. split_and!; [done|done|done|]. split_and!; [done|done|]. by apply (Himg j e). }
  split.
  - intros j e He Hlo. destruct (Hw j e He Hlo) as (e0 & He0 & Hl0 & -> & Hp). destruct (Himg j e0 He0 Hl0) as (Hraw & Hbt & _). split_and!; [done|done|apply Hp].
  - intros i j e f He Hf Hne Hle Hlf x. destruct (Hw i e He Hle) as (e0 & He0 & Hl0 & _ & (Hb & Hm & _)), (Hw j f Hf Hlf) as (f0 & Hf0 & Hlf0 & _ & (Hb' & Hm' & _)).
    unfold window. rewrite Hb, Hm, Hb', Hm'. apply (Hdisj i j e0 f0); done.
Qed.

Definition all_authentic (t : tb_state P) (below : Z) l : Prop :=
  forall k d, k < below -> arr_get l k = Some d -> loads d = true -> in_memory t d.

Lemma load_images_ok n tries fuel i done s s' :
  0 <= i -> images_ok (mem_params s) -> load_linked (mem_params s) -> all_authentic (b2_tb s) i (mem_params s) ->
  load_images_loop n tries fuel (if i <? Z.of_nat (length (mem_params s)) then Some i else None) done s = Ret tt s' ->
  exists t l', s' = set_mem_params l' (set_b2_tb t s) /\ info_only (mem_params s) l' /\
    all_authentic t (Z.of_nat (length l')) l'.
Proof.
  revert i done s. induction n as [|n IH]; intros i done s Hi Hok Hlk Haut Hr.
  all: destruct (Z.ltb_spec i (Z.of_nat (length (mem_params s)))) as [Hlt|Hge]; cbn [load_images_loop] in Hr;
    [|injection Hr as <-; exists (b2_tb s), (mem_params s); split_and!; [by destruct s|reflexivity|
      intros k d Hk Hd; apply (Haut k d); [pose proof (arr_get_Some_range _ _ _ Hd); lia|done]]]; try discriminate Hr.
  destruct (arr_get_in_range (mem_params s) i ltac:(lia)) as [d Hd]. pose proof (Hlk i d Hd) as Hnode.
  apply bind_ret_inv in Hr as (d0 & s0 & Hg & Hr). apply get_mp_inv in Hg as [-> Hg]. rewrite Hd in Hg. injection Hg as <-.
  rewrite Hnode in Hr. cbn [ln_image_info ln_image_id next_load_info] in Hr. apply bind_ret_inv in Hr as (k & s0 & Hk & Hr). injection Hk as <- <-.
  apply bind_ret_inv in Hr as (e & s0 & Hg & Hr). apply get_mp_inv in Hg as [-> Hg]. rewrite Hd in Hg. injection Hg as <-.
  apply bind_ret_inv in Hr as (u & s1 & Hset & Hr). assert (Hs1 : exists t1, s1 = set_b2_tb t1 s /\ same_auth (b2_tb s) t1).
  { destruct (_ && _); cbn in Hset; [by apply b2_hook_ret in Hset|]. injection Hset as <- <-. exists (b2_tb s). by destruct s. }
  destruct Hs1 as (t1 & -> & Hm1). apply bind_ret_inv in Hr as ([] & s2 & Hone & Hr).
  destruct (load_one_ok tries fuel _ i (set_b2_tb t1 s) s2 d Hd eq_refl Hok Hone) as (info & t2 & -> & Hload & Hfr). cbn in Hfr.
  pose proof (arr_get_Some_range _ _ _ Hd) as Hr0. set (l1 := <[Z.to_nat i := mp_set_info info d]> (mem_params s)) in *.
  assert (Hio1 : info_only (mem_params s) l1) by (by apply info_only_insert).
  assert (Hg1 : arr_get l1 i = Some (mp_set_info info d)) by (by apply arr_get_insert_eq).
  apply bind_ret_inv in Hr as (d1 & s3 & Hg & Hr). apply get_mp_inv in Hg as [-> Hg]. change (arr_get l1 i = Some d1) in Hg. rewrite Hg1 in Hg. injection Hg as <-.
  cbn [load_node_mem mp_set_info] in Hr. rewrite Hnode in Hr. cbn [next_load_info] in Hr. rewrite <- (info_only_length _ _ Hio1) in Hr.
  apply (IH (i + 1) _ (set_mem_params l1 (set_b2_tb t2 (set_b2_tb t1 s)))) in Hr as (t & l' & -> & Hio' & Ha); [|lia| | |].
  - exists t, l'. split_and!; [done|unfold info_only in *; cbn in Hio'; congruence|done].
  - apply images_ok_insert; [done|done|]. intros Hlo. rewrite Hlo in Hload. apply Hload.
  - by apply (info_only_linked (mem_params s)).
  - intros k e Hk He Hlo. cbn in He |- *. unfold l1 in He. rewrite arr_get_insert in He by done. destruct (Z.eqb_spec k i) as [->|Hne].
    + injection He as <-. assert (Hlo' : loads d = true) by exact Hlo. rewrite Hlo' in Hload. apply Hload.
    + destruct (io_img _ Hok k e He Hlo) as (Hraw & Hboot & Hinfo). destruct (Haut k e ltac:(lia) He Hlo) as [Hsz Ha]. split; [done|].
      apply (authentic_same _ _ _ _ Hm1) in Ha. eapply (authentic_keeps Hcot _ _ _ t1); [done|done|done|exact Hfr| | |exact Ha].
      * intros x [Hld Hw]. by apply (io_img _ Hok i d Hd Hld).
      * intros x Hx. assert (Hwin : window (mp_image_info e) x) by (unfold window; lia). split; [|by apply Hinfo].
        intros [Hld Hw]. eapply (io_disj _ Hok k i e d); done.
Qed.

(** ** The whole of BL2 *)

(** The parts of a descriptor that loading and linking read. *)
Definition img (d : bl_mem_params_node_t) : Z * Z * image_info_t * Z := (mp_image_id d, mp_attr d, mp_image_info d, epi_attr (mp_ep_info d)).
Definition same_images l l' : Prop := forall k, img <$> arr_get l' k = img <$> arr_get l k.

Lemma same_images_get l l' k d' : same_images l l' -> arr_get l' k = Some d' ->
  exists d, arr_get l k = Some d /\ mp_image_id d' = mp_image_id d /\ mp_attr d' = mp_attr d /\ mp_image_info d' = mp_image_info d /\
    epi_attr (mp_ep_info d') = epi_attr (mp_ep_info d).
Proof.
  intros Hs Hd. specialize (Hs k). rewrite Hd in Hs. destruct (arr_get l k) as [d|]; [|done]. exists d. unfold img in Hs. cbn in Hs. by simplify_eq.
Qed.
Lemma images_ok_ext l l' : same_images l l' -> images_ok l -> images_ok l'.
Proof.
  intros Hs [Himg Hdisj]. split.
  - intros k d' Hd Hlo. destruct (same_images_get _ _ _ _ Hs Hd) as (d & Hg & Hid & Ha & Hi & _). unfold loads in Hlo. rewrite Ha in Hlo.
    rewrite Hid, Hi. by apply (Himg k).
  - intros j k d' e' Hd He Hne Hlo Hlo' x. destruct (same_images_get _ _ _ _ Hs Hd) as (d & Hg & _ & Ha & -> & _),
      (same_images_get _ _ _ _ Hs He) as (e & Hg' & _ & Ha' & -> & _). unfold loads in *. rewrite Ha in Hlo. rewrite Ha' in Hlo'. by apply (Hdisj j k).
Qed.
Lemma all_authentic_ext m n l l' : same_images l l' -> all_authentic m n l -> all_authentic m n l'.
Proof.
  intros Hs Ha k d' Hk Hd Hlo. destruct (same_images_get _ _ _ _ Hs Hd) as (d & Hg & Hid & Hat & Hi & _).
  unfold in_memory. rewrite Hid, Hi. apply (Ha k d Hk Hg). unfold loads in *. by rewrite <- Hat.
Qed.
Lemma args_same_images l l' : args_only l l' -> same_images l l'.
Proof.
  intros Ha k. pose proof (args_only_get _ _ k Ha) as Hg. destruct (arr_get l' k), (arr_get l k); try done. cbn in *. unfold noargs, mp_set_ep in Hg.
  unfold img. injection Hg. intros. congruence.
Qed.
Lemma static_same_images l l' : same_static l l' -> same_images l l'.
Proof.
  intros Hs k. assert (Hg : static <$> arr_get l' k = static <$> arr_get l k) by (by rewrite <- !arr_get_static, Hs).
  destruct (arr_get l' k), (arr_get l k); try done. cbn in *. unfold static, mp_set_params in Hg. unfold img. injection Hg. intros. congruence.
Qed.
#[local] Instance same_images_preorder : PreOrder same_images.
Proof. split; [done|]. intros l1 l2 l3 H1 H2 k. by rewrite H2, H1. Qed.

Lemma handoff_length l n i xs : handoff l n i = Some xs -> (length xs <= n)%nat.
Proof.
  revert i xs. induction n as [|n IH]; intros i xs Hx; [done|]. cbn in Hx. destruct (arr_get l i); [|done]. destruct (executable _); [|done].
  destruct (_ =? INVALID_IMAGE_ID); [injection Hx as <-; cbn; lia|]. destruct (0 <? _); [|done]. destruct (handoff l n _) as [ys|] eqn:E; [|done].
  injection Hx as <-. apply IH in E. cbn. lia.
Qed.

(** The state in which BL2 starts: nodes and list heads are zero. *)
Record bl2_start s : Prop := {
  bs_images : images_ok (mem_params s);
  bs_load : forall k d, arr_get (mem_params s) k = Some d -> next_load_info (load_node_mem d) = None;
  bs_exec : forall k, unlinked (mem_params s) k;
  bs_head : lh_head (next_bl_params s) = None
}.

(** The list of images to load: it is never NULL for a non-empty array. *)
Lemma load_info_ok s : bl2_start s -> mem_params s <> [] ->
  exists l1, get_bl_load_info_from_mem_params_desc s =
    Ret true (set_load_info (ListHead PARAM_BL_LOAD_INFO PARAM_VERSION_2 (Some 0)) (set_mem_params l1 s)) /\
    length l1 = length (mem_params s) /\ load_linked l1 /\ same_images (mem_params s) l1 /\ forall k, unlinked l1 k.
Proof.
  intros [_ Hld Hex _] Hne. unfold get_bl_load_info_from_mem_params_desc, bl_mem_params_desc_num. erewrite bind_run by done.
  assert (Hl : 0 < Z.of_nat (length (mem_params s))) by (destruct (mem_params s); [done|cbn; lia]).
  rewrite (proj2 (Z.eqb_neq _ 0)) by lia. erewrite bind_run by done. rewrite Nat2Z.id.
  destruct (load_loop_run (length (mem_params s)) 0 (set_load_info (ListHead PARAM_BL_LOAD_INFO PARAM_VERSION_2 (Some 0)) s)) as (l1 & Hrun & Hlen & Hget);
    [lia|cbn; lia|]. cbn [Z.add] in Hrun. erewrite bind_run by exact Hrun. exists l1. change (mem_params (set_load_info _ s)) with (mem_params s) in *.
  assert (Hg : forall k, arr_get l1 k = load_node (Z.of_nat (length (mem_params s))) k <$> arr_get (mem_params s) k).
  { intros k. rewrite Hget. destruct (arr_get (mem_params s) k) eqn:E; [|done]. apply arr_get_Some_range in E. cbn. by rewrite (proj2 (Z.leb_le 0 k)) by lia. }
  split_and!; [done|done| | |].
  - intros k d1 Hd. rewrite Hg in Hd. destruct (arr_get (mem_params s) k) as [d|] eqn:E; [|done]. injection Hd as <-. cbn. rewrite Hlen.
    by rewrite (Hld k d E).
  - intros k. rewrite Hg. by destruct (arr_get (mem_params s) k).
  - intros k d1 Hd. rewrite Hg in Hd. destruct (arr_get (mem_params s) k) as [d|] eqn:E; [|done]. injection Hd as <-. exact (Hex k d E).
Qed.

Section asserting.
Context (Hassert : TB_ASSERTIONS = true).

Lemma b2_assert_inv b s u s' : b2_assert b s = Ret u s' -> s' = s /\ b = true.
Proof. unfold b2_assert. rewrite Hassert. destruct b; [|done]. by intros [= _ <-]. Qed.
Ltac skip_assert H :=
  let u := fresh in let t := fresh in let E := fresh in
  apply bind_ret_inv in H as (u & t & E & H); apply b2_assert_inv in E as [-> E]; clear u E.
Ltac skip_pure H :=
  let u := fresh in let t := fresh in let E := fresh in
  apply bind_ret_inv in H as (u & t & E & H); injection E as <- <-.

(** The list of images to execute, with the configuration passed on. *)
Lemma next_params_ok s ok s' : (forall k, unlinked (mem_params s) k) -> lh_head (next_bl_params s) = None ->
  plat_get_next_bl_params s = Ret ok s' -> mem_params s <> [] ->
  exists f xs l', s' = set_next_params (ListHead PARAM_BL_PARAMS PARAM_VERSION_2 (Some f)) (set_mem_params l' s) /\
    same_images (mem_params s) l' /\ exec_list l' (Some f) (f :: xs) /\
    exists d, arr_get l' f = Some d /\ first_exe d = true.
Proof.
  intros Hun Hh Hr Hne. unfold plat_get_next_bl_params in Hr. pose proof (get_next_run Hassert s Hne Hh Hun) as Hn. cbn zeta in Hn.
  apply bind_ret_inv in Hr as (b & s1 & Hg & Hr). rewrite Hg in Hn.
  destruct (head_loop (mem_params s) 0) as [f|] eqn:Ef; cbn in Hn; [|by destruct Hn].
  destruct (handoff (mem_params s) (length (mem_params s)) f) as [xs|] eqn:Ex; cbn in Hn; [|by destruct Hn].
  destruct Hn as (s1' & [= -> <-] & l1 & -> & Hst & _ & Hel). destruct (handoff_head _ _ _ _ Ex) as [Hhd _].
  destruct xs as [|f' xs]; [done|]. injection Hhd as ->. apply bind_ret_inv in Hr as (u & s2 & Hpop & Hr). injection Hr as <- <-.
  unfold populate_next_bl_params_config in Hpop. set (s1 := set_next_params _ _) in Hpop.
  destruct (base_of_run HW_CONFIG_ID s1 ltac:(done)) as [hw Hhw]. skip_assert Hpop. rewrite (bind_run _ _ _ _ _ Hhw) in Hpop.
  do 3 skip_pure Hpop. rewrite Nat2Z.id in Hpop. cbn [lh_head] in Hpop.
  destruct (config_loop_run (length (mem_params s1)) (Some f) (Some f) hw (f :: xs) s1) as (l2 & Hrun & Ha).
  { change (mem_params s1) with l1. rewrite (static_length _ _ Hst). by eapply handoff_length. }
  { exact Hel. }
  change (mem_params s1) with l1 in Hrun, Ha. rewrite Hrun in Hpop. injection Hpop as <- <-.
  assert (Hsi : same_images (mem_params s) l2) by (etransitivity; [by apply static_same_images|by apply args_same_images]).
  exists f, xs, l2. split_and!; [done|done|by eapply exec_list_args|].
  destruct (head_loop_spec _ _ _ Ef) as [Hr (d0 & Hd0 & Hf0)]. rewrite Z.sub_0_r in Hd0.
  assert (Hg0 : arr_get (mem_params s) f = Some d0) by (unfold arr_get; by rewrite (proj2 (Z.leb_le 0 f)) by lia).
  specialize (Hsi f). rewrite Hg0 in Hsi. destruct (arr_get l2 f) as [d|]; [|done]. exists d. split; [done|]. unfold img in Hsi. cbn in Hsi.
  injection Hsi as _ _ _ He. unfold first_exe. by rewrite He.
Qed.

Lemma load_images_hands_over tries fuel s k s' :
  bl2_start s -> bl2_load_images tries fuel s = Ret k s' ->
  exists log d, b2_log s' = EvFlushParams :: log /\ lh_head (next_bl_params s') = Some k /\
    arr_get (mem_params s') k = Some d /\ first_exe d = true /\
    forall i e, arr_get (mem_params s') i = Some e -> loads e = true -> in_memory (b2_tb s') e.
Proof.
  intros Hst Hr. unfold bl2_load_images in Hr. destruct (decide (mem_params s = [])) as [E|Hne].
  { apply bind_ret_inv in Hr as (ok & s1 & Hi & Hr). unfold plat_get_bl_image_load_info, get_bl_load_info_from_mem_params_desc, bl_mem_params_desc_num in Hi.
    skip_pure Hi. rewrite E in Hi. injection Hi as <- <-. apply bind_ret_inv in Hr as (u & s2 & Ha & Hr).
    by apply b2_assert_inv in Ha as [_ Ha]. }
  destruct (load_info_ok s Hst Hne) as (l1 & Hli & Hlen & Hlk & Hsi & Hun). unfold plat_get_bl_image_load_info in Hr.
  rewrite (bind_run _ _ _ _ _ Hli) in Hr. set (s1 := set_load_info _ _) in Hr.
  skip_assert Hr. do 2 skip_pure Hr. do 3 skip_assert Hr. skip_pure Hr.
  apply bind_ret_inv in Hr as ([] & s2 & Hloop & Hr).
  assert (Hstart : Some 0 = (if 0 <? Z.of_nat (length (mem_params s1)) then Some 0 else None)).
  { cbn. rewrite (proj2 (Z.ltb_lt 0 _)); [done|]. rewrite Hlen. destruct (mem_params s); [done|cbn; lia]. }
  cbn [lh_head] in Hloop. rewrite Hstart in Hloop. apply load_images_ok in Hloop as (t & l2 & -> & Hio2 & Haut);
    [|lia|by apply (images_ok_ext (mem_params s)); [|apply Hst]|done|intros i d Hi Hd; apply arr_get_Some_range in Hd; lia].
  set (s2 := set_mem_params l2 _) in Hr. apply bind_ret_inv in Hr as (ok & s3 & Hnp & Hr).
  apply next_params_ok in Hnp as (f & xs & l3 & -> & Hsi3 & Hel & d & Hd & Hfe).
  2:{ intros i d' Hd'. destruct (info_only_get _ _ _ _ Hio2 Hd') as (d & Hg & ->). exact (Hun i d Hg). }
  2:{ apply Hst. }
  2:{ cbn. intros E. apply info_only_length in Hio2. rewrite E in Hio2. cbn in Hio2. rewrite Hlen in Hio2. by destruct (mem_params s). }
  set (s3 := set_next_params _ _) in Hr. skip_assert Hr. apply bind_ret_inv in Hr as (u & s4 & Hnn & Hr).
  destruct ok; [injection Hnn as <- <-|done]. skip_pure Hr. do 3 skip_assert Hr. skip_pure Hr.
  apply bind_ret_inv in Hr as (d0 & s4 & Hg & Hr). apply get_mp_inv in Hg as [-> Hg]. change (mem_params s3) with l3 in Hg.
  rewrite Hd in Hg. injection Hg as <-. skip_assert Hr. destruct Hel as [_ (d' & Hd' & _ & _ & _ & Hep & _)]. rewrite Hd in Hd'. injection Hd' as <-.
  rewrite Hep in Hr. skip_pure Hr.
  destruct (upd_args f d (fun e => if_zero arg0 set_arg0 next_bl_params_addr (mp_ep_info e)) s3 Hd) as (l4 & Hup & Ha4);
    [intros e; by apply if_zero_noargs|]. rewrite (bind_run _ _ _ _ _ Hup) in Hr. skip_pure Hr. injection Hr as <- <-. change (mem_params s3) with l3 in Ha4.
  pose proof (args_same_images _ _ Ha4) as Hsi4. pose proof (Hsi4 f) as Hf4. rewrite Hd in Hf4. destruct (arr_get l4 f) as [d4|] eqn:Hd4; [|done].
  unfold img in Hf4. cbn in Hf4. injection Hf4 as _ _ _ Hat4. eexists _, d4. split_and!; [reflexivity|reflexivity|exact Hd4|unfold first_exe; by rewrite Hat4|].
  assert (Hsi24 : same_images l2 l4) by (by transitivity l3).
  intros i e He Hlo. apply (all_authentic_ext _ _ _ l4) in Haut; [|done]. apply (Haut i e); [|exact He|done].
  destruct (same_images_get _ _ _ _ Hsi24 He) as (e2 & He2 & _). apply arr_get_Some_range in He2. lia.
Qed.

(** [C9] What BL2 hands over to.  With trusted board boot and assertions, storage
    that delivers no more bytes than asked for, and buffers of the
    authentication module that are apart, from any array of descriptors whose
    nodes are unlinked and whose loaded images are images of the boot in the
    chain of trust with windows apart from each other and from the buffers
    ([bl2_start]): when BL2's main function comes to the call that runs the next
    image, every image that it was to load is in memory, with a size within its
    limit, and in this state it and its parent certificate are marked
    authenticated and its bytes match the digest in the buffer of that
    certificate, so none was overwritten by a later image; and the entry point
    it passes is the one of an executable image that is marked as the first, at
    the head of the list of images it passes on. *)
Theorem bl2_hands_over_authenticated tries fuel s s' :
  bl2_start s -> bl2_main tries fuel s = Ret tt s' ->
  exists k log d, b2_log s' = EvRunImage k :: EvFlushParams :: log /\ lh_head (next_bl_params s') = Some k /\
    arr_get (mem_params s') k = Some d /\ first_exe d = true /\
    forall i e, arr_get (mem_params s') i = Some e -> loads e = true -> in_memory (b2_tb s') e.
Proof.
  intros Hst Hr. unfold bl2_main in Hr. apply bind_ret_inv in Hr as (u1 & s1 & H1 & Hr). apply b2_hook_ret in H1 as (t1 & -> & _).
  apply bind_ret_inv in Hr as (u2 & s2 & H2 & Hr). rewrite Ht in H2. cbn [when] in H2. apply in_tb_ret in H2 as (t2 & _ & ->).
  apply bind_ret_inv in Hr as (u3 & s3 & H3 & Hr). apply b2_hook_ret in H3 as (t3 & -> & _).
  apply bind_ret_inv in Hr as (k & s4 & Hload & Hr). injection Hr as <-.
  set (b := set_b2_tb t3 _) in Hload. assert (Hb : bl2_start b) by (destruct Hst; by split).
  destruct (load_images_hands_over tries fuel b k s4 Hb Hload) as (log & d & Hl & Hh & Hd & Hf & Ha). exists k, log, d. split_and!; [cbn; by rewrite Hl|done|done|done|done].
Qed.
End asserting.
End boot.

Module Bl2Witnesses.
Import TbbExample.

(** BL31 and BL33 with their certificates: the root key is 7, the key of the
    trusted and of the normal world 1, the keys of the contents 2 and 4. *)
Definition content (id : Z) : list Z :=
  if id =? TRUSTED_KEY_CERT_ID then cert 1 0 3 7
  else if id =? SOC_FW_KEY_CERT_ID then cert 2 0 3 1
  else if id =? SOC_FW_CONTENT_CERT_ID then cert 0 9 3 2
  else if id =? NON_TRUSTED_FW_KEY_CERT_ID then cert 4 0 3 1
  else if id =? NON_TRUSTED_FW_CONTENT_CERT_ID then cert 0 5 3 4
  else if id =? BL31_IMAGE_ID then [9; 8; 7]
  else if id =? BL33_IMAGE_ID then [5; 5; 6; 7] else [].
#[local] Instance e : TbEnv Z := env true true true content 0.
#[local] Instance hooks : Bl2Env Z := {|
  bl2_platform_setup := ret tt; bl2_arch_setup := ret tt; bl2_plat_preload_setup := ret tt;
  bl2_plat_handle_pre_image_load := fun _ => ret 0; bl2_plat_handle_post_image_load := fun _ => ret 0;
  next_bl_params_addr := 0x4010000 |}.

Definition no_load : bl_load_info_node_t := LoadNode 0 None None.
Definition no_params : bl_params_node_t := ParamsNode 0 None None None.
Definition bl31 (next : Z) : bl_mem_params_node_t :=
  MemParams BL31_IMAGE_ID IMAGE_ATTRIB_PLAT_SETUP (ImageInfo 0x4000000 0 0x1000)
    (EpInfo (Z.lor EXECUTABLE EP_FIRST_EXE) 0x4000000 0 0 0 0) next no_load no_params.
Definition bl33 (next : Z) : bl_mem_params_node_t :=
  MemParams BL33_IMAGE_ID 0 (ImageInfo 0x4002000 0 0x1000) (EpInfo EXECUTABLE 0x4002000 0 0 0 0) next no_load no_params.
Definition at_reset (l : list bl_mem_params_node_t) : bl2_state Z :=
  Bl2State (boot_state (mem_with 0 []) []) l (ListHead 0 0 None) (ListHead 0 0 None) [].
Definition two : bl2_state Z := at_reset [bl31 BL33_IMAGE_ID; bl33 INVALID_IMAGE_ID].
Definition circle : bl2_state Z := at_reset [bl33 INVALID_IMAGE_ID; bl31 BL31_IMAGE_ID].

(** A property of the descriptors of a two-element array. *)
Lemma two_elements (Q : Z -> bl_mem_params_node_t -> Prop) a b : Q 0 a -> Q 1 b -> forall k d, arr_get [a; b] k = Some d -> Q k d.
Proof.
  intros Ha Hb k d Hd. pose proof (arr_get_Some_range _ _ _ Hd) as Hr. cbn in Hr.
  assert (k = 0 \/ k = 1) as [-> | ->] by lia; injection Hd as <-; done.
Qed.

(** A window above the buffers. *)
Lemma window_ok base : 0x4000000 <= base -> base + 0x1000 < 2 ^ 64 -> info_ok (ImageInfo base 0 0x1000).
Proof.
  intros Hb Hm. unfold info_ok. cbn. split_and!; [lia|lia|lia|]. intros x Hx (d & en & Hd & He & [td Ht'] & Hin).
  destruct (buffers_fit d en td Hd He Ht') as (b & Hp & Hl). rewrite Hp, Hl in Hin.
  assert (buf_addr b + buf_size b <= 0x200000) by (destruct b; vm_compute; discriminate). lia.
Qed.

Lemma two_start : bl2_start two.
Proof.
  split.
  - split.
    + apply (two_elements (fun _ d => loads d = true -> raw_image (mp_image_id d) = true /\ boot_id (mp_image_id d) = true /\ info_ok (mp_image_info d)));
        intros _; (split; [reflexivity|split; [reflexivity|apply window_ok; lia]]).
    + intros j k d f Hd Hf Hjk _ _. revert j d Hd k f Hf Hjk.
      apply (two_elements (fun j d => forall k f, arr_get (mem_params two) k = Some f -> j <> k -> forall x, window (mp_image_info d) x -> ~ window (mp_image_info f) x));
        match goal with |- forall k f, _ -> ?j <> k -> forall x, window ?i x -> _ =>
          apply (two_elements (fun k f => j <> k -> forall x, window i x -> ~ window (mp_image_info f) x)) end;
        intros Hjk x; unfold window; cbn; lia.
  - by apply (two_elements (fun _ d => next_load_info (load_node_mem d) = None)).
  - intros k d. revert k d. by apply (two_elements (fun _ d => next_params_info (params_node_mem d) = None)).
  - done.
Qed.

Lemma bl2_hands_over_authenticated_witness :
  exists k d, arr_get (mem_params (final (bl2_main 1 5 two))) k = Some d /\ first_exe d = true /\
    in_memory (b2_tb (final (bl2_main 1 5 two))) d.
Proof.
  destruct (bl2_hands_over_authenticated (TbEnv0 := e) (Bl2Env0 := hooks) eq_refl eq_refl (spaced_apart 0x100000)) with (tries := 1%nat) (fuel := 5%nat) (s := two)
    (s' := final (bl2_main 1 5 two)) as (k & log & d & _ & Hh & Hd & Hf & Ha).
  - intros h a n p r p' Hn [= <- <-]. cbn. rewrite length_take. lia.
  - reflexivity.
  - exact two_start.
  - apply returned_final. vm_compute. reflexivity.
  - exists k, d. split; [exact Hd|split; [exact Hf|]]. apply (Ha k d Hd). vm_compute in Hh. injection Hh as <-. vm_compute in Hd. injection Hd as <-. reflexivity.
Defined.

Lemma bl_params_list_exact_witness :
  (exists f xs s', handoff_chain (mem_params two) f xs /\ get_next_bl_params_from_mem_params_desc two = Ret true s' /\ built (mem_params two) f xs two s') /\
  exists s', get_next_bl_params_from_mem_params_desc circle = Halt HAssert s'.
Proof.
  split.
  - destruct (bl_params_list_exact (TbEnv0 := e) eq_refl two eq_refl (bs_exec _ two_start)) as [(f & xs & s' & _ & Hc & Hr & Hb)|[Hno _]].
    + exists f, xs, s'. split; [exact Hc|split; [exact Hr|exact Hb]].
    + exfalso. apply Hno. exists 0, [0; 1]. split; [by apply head_loop_first|by apply handoff_chain_spec].
  - destruct (bl_params_list_exact (TbEnv0 := e) eq_refl circle eq_refl) as [(f & xs & s' & Hf & Hc & _)|[_ Hr]]; [| |exact Hr].
    + intros k d. revert k d. by apply (two_elements (fun _ d => next_params_info (params_node_mem d) = None)).
    + exfalso. apply head_loop_first in Hf. injection Hf as <-. apply handoff_chain_spec in Hc. discriminate Hc.
Defined.
End Bl2Witnesses.
