(* ===== verification/XlatTables.v ===== *)
(** * Translation tables (lib/xlat_tables/xlat_tables_common.c,
    lib/xlat_tables/aarch64/xlat_tables.c)

    The list of memory regions, the construction of the translation tables
    from it and the code that turns the MMU on, for AArch64 and the 4 KB
    granule.  A pointer into the array of regions is an index; a table is the
    base table ([None]) or a table of the pool ([Some i]); the addresses that
    the linker gives to both are parameters.  The registers of the MMU and the
    order of the writes to them, of the TLB invalidation and of the barriers
    are kept in the state. *)
From stdpp Require Import base list numbers option.
From Stdlib Require Import ZArith Lia.
From S2P Require Import Prelude.
#[local] Open Scope Z_scope.

(** ** xlat_tables_defs.h, xlat_tables_aarch64.h, xlat_tables_arch.h *)
Definition INVALID_DESC : Z := 0x0.
Definition BLOCK_DESC : Z := 0x1.
Definition TABLE_DESC : Z := 0x3.
Definition PAGE_DESC : Z := 0x3.
Definition XN : Z := Z.shiftl 1 2.
Definition PXN : Z := Z.shiftl 1 1.
Definition UPPER_ATTRS (x : Z) : Z := Z.shiftl (Z.land x 0x7) 52.
Definition ACCESS_FLAG : Z := Z.shiftl 1 8.
Definition OSH : Z := Z.shiftl 0x2 6.
Definition ISH : Z := Z.shiftl 0x3 6.
Definition PAGE_SIZE_SHIFT : Z := 12.
Definition PAGE_SIZE_MASK : Z := Z.shiftl 1 PAGE_SIZE_SHIFT - 1.
Definition IS_PAGE_ALIGNED (addr : Z) : bool := Z.land addr PAGE_SIZE_MASK =? 0.
Definition XLAT_TABLE_SIZE : Z := Z.shiftl 1 12.
Definition XLAT_TABLE_LEVEL_MAX : Z := 3.
Definition XLAT_TABLE_ENTRIES_SHIFT : Z := 9.
Definition XLAT_TABLE_ENTRIES : Z := Z.shiftl 1 XLAT_TABLE_ENTRIES_SHIFT.
Definition XLAT_TABLE_ENTRIES_MASK : Z := XLAT_TABLE_ENTRIES - 1.
Definition L3_XLAT_ADDRESS_SHIFT : Z := PAGE_SIZE_SHIFT.
Definition L2_XLAT_ADDRESS_SHIFT : Z := L3_XLAT_ADDRESS_SHIFT + XLAT_TABLE_ENTRIES_SHIFT.
Definition L1_XLAT_ADDRESS_SHIFT : Z := L2_XLAT_ADDRESS_SHIFT + XLAT_TABLE_ENTRIES_SHIFT.
Definition L0_XLAT_ADDRESS_SHIFT : Z := L1_XLAT_ADDRESS_SHIFT + XLAT_TABLE_ENTRIES_SHIFT.
Definition XLAT_ADDR_SHIFT (level : Z) : Z := u32 (PAGE_SIZE_SHIFT + (XLAT_TABLE_LEVEL_MAX - level) * XLAT_TABLE_ENTRIES_SHIFT).
Definition XLAT_BLOCK_SIZE (level : Z) : Z := Z.shiftl 1 (XLAT_ADDR_SHIFT level).
Definition XLAT_BLOCK_MASK (level : Z) : Z := XLAT_BLOCK_SIZE level - 1.
Definition AP_RO : Z := Z.shiftl 0x1 5.
Definition AP_RW : Z := Z.shiftl 0x0 5.
Definition NS : Z := Z.shiftl 0x1 3.
Definition ATTR_NON_CACHEABLE_INDEX : Z := 0x2.
Definition ATTR_DEVICE_INDEX : Z := 0x1.
Definition ATTR_IWBWA_OWBWA_NTR_INDEX : Z := 0x0.
Definition LOWER_ATTRS (x : Z) : Z := Z.shiftl (Z.land x 0xfff) 2.
Definition MAKE_MAIR_NORMAL_MEMORY (inner outer : Z) : Z := Z.lor inner (Z.shiftl outer 4).
Definition MAIR_DEV_nGnRE : Z := 0x4.
Definition MAIR_NORM_NC : Z := 0x4.
Definition MAIR_NORM_WB_NTR_RWA : Z := 0xf.
Definition ATTR_NON_CACHEABLE : Z := MAKE_MAIR_NORMAL_MEMORY MAIR_NORM_NC MAIR_NORM_NC.
Definition ATTR_DEVICE : Z := MAIR_DEV_nGnRE.
Definition ATTR_IWBWA_OWBWA_NTR : Z := MAKE_MAIR_NORMAL_MEMORY MAIR_NORM_WB_NTR_RWA MAIR_NORM_WB_NTR_RWA.
Definition MAIR_ATTR_SET (attr index : Z) : Z := Z.shiftl attr (Z.shiftl index 3).
Definition MIN_LVL_BLOCK_DESC : Z := 1.
Definition XLAT_TABLE_LEVEL_MIN : Z := 0.
Definition GET_XLAT_TABLE_LEVEL_BASE (virt_addr_space_size : Z) : Z :=
  if Z.shiftl 1 L0_XLAT_ADDRESS_SHIFT <? virt_addr_space_size then 0
  else if Z.shiftl 1 L1_XLAT_ADDRESS_SHIFT <? virt_addr_space_size then 1 else 2.
Definition GET_NUM_BASE_LEVEL_ENTRIES (addr_space_size : Z) : Z :=
  Z.shiftr addr_space_size (XLAT_ADDR_SHIFT (GET_XLAT_TABLE_LEVEL_BASE addr_space_size)).
Definition IS_POWER_OF_TWO (x : Z) : bool := Z.land x (x - 1) =? 0.
Definition MIN_VIRT_ADDR_SPACE_SIZE : Z := Z.shiftl 1 (64 - 39).
Definition MAX_VIRT_ADDR_SPACE_SIZE : Z := Z.shiftl 1 (64 - 16).
Definition CHECK_VIRT_ADDR_SPACE_SIZE (size : Z) : bool :=
  (MIN_VIRT_ADDR_SPACE_SIZE <=? size) && (size <=? MAX_VIRT_ADDR_SPACE_SIZE) && IS_POWER_OF_TWO size.
Definition CHECK_PHY_ADDR_SPACE_SIZE (size : Z) : bool := IS_POWER_OF_TWO size.

(** ** xlat_tables.h *)
Definition MT_TYPE (attr : Z) : Z := Z.land attr 0x7.
Definition MT_DEVICE : Z := 0.
Definition MT_NON_CACHEABLE : Z := 1.
Definition MT_MEMORY : Z := 2.
Definition MT_RO : Z := Z.shiftl 0 3.
Definition MT_RW : Z := Z.shiftl 1 3.
Definition MT_SECURE : Z := Z.shiftl 0 4.
Definition MT_NS : Z := Z.shiftl 1 4.
Definition MT_EXECUTE : Z := Z.shiftl 0 5.
Definition MT_EXECUTE_NEVER : Z := Z.shiftl 1 5.
Definition MT_CODE : Z := Z.lor (Z.lor MT_MEMORY MT_RO) MT_EXECUTE.
Definition MT_RO_DATA : Z := Z.lor (Z.lor MT_MEMORY MT_RO) MT_EXECUTE_NEVER.

Record mmap_region_t : Type := MapRegion { mm_base_pa : Z; mm_base_va : Z; mm_size : Z; mm_attr : Z }.
#[global] Instance mmap_region_eq_dec : EqDecision mmap_region_t.
Proof. solve_decision. Defined.
Definition MAP_REGION_FLAT (adr sz attr : Z) : mmap_region_t := MapRegion adr adr sz attr.
Definition end_region : mmap_region_t := MapRegion 0 0 0 0.

(** ** arch.h *)
Definition GET_EL (mode : Z) : Z := Z.land (Z.shiftr mode 2) 3.
Definition ID_AA64MMFR0_EL1_PARANGE_MASK : Z := 0xf.
Definition pa_range_bits_arr : list Z := [32; 36; 40; 42; 44; 48].
Definition SCTLR_M_BIT : Z := Z.shiftl 1 0.
Definition SCTLR_C_BIT : Z := Z.shiftl 1 2.
Definition SCTLR_WXN_BIT : Z := Z.shiftl 1 19.
Definition TCR_EL3_RES1 : Z := Z.lor (Z.shiftl 1 31) (Z.shiftl 1 23).
Definition TCR_EL1_IPS_SHIFT : Z := 32.
Definition TCR_EL3_PS_SHIFT : Z := 16.
Definition TCR_PS_BITS_4GB : Z := 0x0.
Definition TCR_PS_BITS_64GB : Z := 0x1.
Definition TCR_PS_BITS_1TB : Z := 0x2.
Definition TCR_PS_BITS_4TB : Z := 0x3.
Definition TCR_PS_BITS_16TB : Z := 0x4.
Definition TCR_PS_BITS_256TB : Z := 0x5.
Definition ADDR_MASK_48_TO_63 : Z := 0xFFFF000000000000.
Definition ADDR_MASK_44_TO_47 : Z := 0x0000F00000000000.
Definition ADDR_MASK_42_TO_43 : Z := 0x00000C0000000000.
Definition ADDR_MASK_40_TO_41 : Z := 0x0000030000000000.
Definition ADDR_MASK_36_TO_39 : Z := 0x000000F000000000.
Definition ADDR_MASK_32_TO_35 : Z := 0x0000000F00000000.
Definition TCR_RGN_INNER_NC : Z := Z.shiftl 0x0 8.
Definition TCR_RGN_INNER_WBA : Z := Z.shiftl 0x1 8.
Definition TCR_RGN_OUTER_NC : Z := Z.shiftl 0x0 10.
Definition TCR_RGN_OUTER_WBA : Z := Z.shiftl 0x1 10.
Definition TCR_SH_NON_SHAREABLE : Z := Z.shiftl 0x0 12.
Definition TCR_SH_INNER_SHAREABLE : Z := Z.shiftl 0x3 12.
Definition TCR_EPD1_BIT : Z := Z.shiftl 1 23.
Definition DISABLE_DCACHE : Z := Z.shiftl 1 0.
Definition XLAT_TABLE_NC : Z := Z.shiftl 1 1.

(** ** State *)
Inductive regime : Type := EL1 | EL3.
#[global] Instance regime_eq_dec : EqDecision regime.
Proof. solve_decision. Defined.
Inductive mmu_event : Type := EvMair (v : Z) | EvTlbi | EvTcr (v : Z) | EvTtbr0 (v : Z) | EvDsb | EvIsb | EvSctlr (v : Z).
Record mmu_regs : Type := MmuRegs { r_mair : Z; r_tcr : Z; r_ttbr0 : Z; r_sctlr : Z }.

Record xlat_state : Type := XlatState {
  mmap : list mmap_region_t;
  xlat_tables : list (list Z);
  base_xlation_table : list Z;
  next_xlat : Z; xlat_max_pa : Z; xlat_max_va : Z; execute_never_mask : Z; tcr_ps_bits : Z;
  mmu : regime -> mmu_regs; mmu_log : list mmu_event
}.

(** Build options, the addresses of the tables, and the identification
    registers of the core. *)
Class XlatEnv : Type := {
  XL_ASSERTIONS : bool;
  MAX_XLAT_TABLES : Z;
  MAX_MMAP_REGIONS : Z;
  PLAT_VIRT_ADDR_SPACE_SIZE : Z;
  PLAT_PHY_ADDR_SPACE_SIZE : Z;
  xlat_tables_addr : Z;
  base_xlation_table_addr : Z;
  CurrentEl : Z;
  id_aa64mmfr0_el1 : Z
}.

Section xlat.
Context `{!XlatEnv}.
#[local] Abbreviation XM := (M xlat_state).

Definition set_mmap (l : list mmap_region_t) (s : xlat_state) : xlat_state :=
  XlatState l (xlat_tables s) (base_xlation_table s) (next_xlat s) (xlat_max_pa s) (xlat_max_va s) (execute_never_mask s) (tcr_ps_bits s) (mmu s) (mmu_log s).
Definition set_xlat_tables (t : list (list Z)) (s : xlat_state) : xlat_state :=
  XlatState (mmap s) t (base_xlation_table s) (next_xlat s) (xlat_max_pa s) (xlat_max_va s) (execute_never_mask s) (tcr_ps_bits s) (mmu s) (mmu_log s).
Definition set_base_table (t : list Z) (s : xlat_state) : xlat_state :=
  XlatState (mmap s) (xlat_tables s) t (next_xlat s) (xlat_max_pa s) (xlat_max_va s) (execute_never_mask s) (tcr_ps_bits s) (mmu s) (mmu_log s).
Definition set_next_xlat (n : Z) (s : xlat_state) : xlat_state :=
  XlatState (mmap s) (xlat_tables s) (base_xlation_table s) n (xlat_max_pa s) (xlat_max_va s) (execute_never_mask s) (tcr_ps_bits s) (mmu s) (mmu_log s).
Definition set_maxima (pa va : Z) (s : xlat_state) : xlat_state :=
  XlatState (mmap s) (xlat_tables s) (base_xlation_table s) (next_xlat s) pa va (execute_never_mask s) (tcr_ps_bits s) (mmu s) (mmu_log s).
Definition set_xn_mask (v : Z) (s : xlat_state) : xlat_state :=
  XlatState (mmap s) (xlat_tables s) (base_xlation_table s) (next_xlat s) (xlat_max_pa s) (xlat_max_va s) v (tcr_ps_bits s) (mmu s) (mmu_log s).
Definition set_tcr_ps_bits (v : Z) (s : xlat_state) : xlat_state :=
  XlatState (mmap s) (xlat_tables s) (base_xlation_table s) (next_xlat s) (xlat_max_pa s) (xlat_max_va s) (execute_never_mask s) v (mmu s) (mmu_log s).
Definition set_mmu (el : regime) (r : mmu_regs) (e : mmu_event) (s : xlat_state) : xlat_state :=
  XlatState (mmap s) (xlat_tables s) (base_xlation_table s) (next_xlat s) (xlat_max_pa s) (xlat_max_va s) (execute_never_mask s) (tcr_ps_bits s)
    (fun el' => if decide (el' = el) then r else mmu s el') (e :: mmu_log s).

Definition x_assert (b : bool) : XM unit := if XL_ASSERTIONS && negb b then halt_with HAssert else ret tt.
Definition get_mm (mm : Z) : XM mmap_region_t := let! l := gets mmap in deref (arr_get l mm).

(** ** xlat_tables_common.c: the list of regions *)
Definition UNSET_DESC : Z := 2 ^ 64 - 1.

(** The last byte of a region, as the code computes it. *)
Definition mm_end_va (mm : mmap_region_t) : Z := u64 (mm_base_va mm + mm_size mm - 1).
Definition mm_end_pa (mm : mmap_region_t) : Z := u64 (mm_base_pa mm + mm_size mm - 1).

(** The loop of the overlap checks, present in builds with assertions. *)
Fixpoint overlap_loop (l : list mmap_region_t) (base_pa base_va size end_pa end_va : Z) : XM unit :=
  match l with
  | [] => halt_with HUndef
  | mm :: l' =>
      if mm_size mm =? 0 then ret tt
      else
        let fully_overlapped_va :=
          ((mm_base_va mm <=? base_va) && (end_va <=? mm_end_va mm)) ||
          ((base_va <=? mm_base_va mm) && (mm_end_va mm <=? end_va)) in
        (if fully_overlapped_va then
           x_assert (u64 (mm_base_va mm - mm_base_pa mm) =? u64 (base_va - base_pa)) ;;;
           x_assert (negb (base_va =? mm_base_va mm) || negb (size =? mm_size mm))
         else
           let separated_pa := (end_pa <? mm_base_pa mm) || (mm_end_pa mm <? base_pa) in
           let separated_va := (end_va <? mm_base_va mm) || (mm_end_va mm <? base_va) in
           x_assert (separated_va && separated_pa)) ;;;
        overlap_loop l' base_pa base_va size end_pa end_va
  end.

(** The two loops that look for the place of a new region. *)
Fixpoint skip_lower (l : list mmap_region_t) (mm base_va : Z) : option Z :=
  match l with
  | [] => None
  | r :: l' => if (mm_base_va r <? base_va) && negb (mm_size r =? 0) then skip_lower l' (mm + 1) base_va else Some mm
  end.
Fixpoint skip_wider (l : list mmap_region_t) (mm base_va size : Z) : option Z :=
  match l with
  | [] => None
  | r :: l' => if (mm_base_va r =? base_va) && (size <? mm_size r) then skip_wider l' (mm + 1) base_va size else Some mm
  end.

(** [memmove(mm + 1, mm, mm_last - mm)] *)
Definition make_room (l : list mmap_region_t) (mm mm_last : Z) : list mmap_region_t :=
  take (Z.to_nat (mm + 1)) l ++ take (Z.to_nat (mm_last - mm)) (drop (Z.to_nat mm) l).

Definition mmap_add_region (base_pa base_va size attr : Z) : XM unit :=
  let end_pa := u64 (base_pa + size - 1) in
  let end_va := u64 (base_va + size - 1) in
  let! l := gets mmap in
  let mm_last := Z.of_nat (length l) - 1 in
  x_assert (IS_PAGE_ALIGNED base_pa) ;;;
  x_assert (IS_PAGE_ALIGNED base_va) ;;;
  x_assert (IS_PAGE_ALIGNED size) ;;;
  if size =? 0 then ret tt
  else
    x_assert (base_pa <? end_pa) ;;;
    x_assert (base_va <? end_va) ;;;
    x_assert (end_va <=? PLAT_VIRT_ADDR_SPACE_SIZE - 1) ;;;
    x_assert (end_pa <=? PLAT_PHY_ADDR_SPACE_SIZE - 1) ;;;
    when XL_ASSERTIONS (overlap_loop l base_pa base_va size end_pa end_va) ;;;
    let! mm := deref (skip_lower l 0 base_va) in
    let! mm := deref (skip_wider (drop (Z.to_nat mm) l) mm base_va size) in
    modify (set_mmap (make_room l mm mm_last)) ;;;
    let! last := get_mm mm_last in
    x_assert (mm_size last =? 0) ;;;
    let! l := gets mmap in
    let! l := deref (arr_set l mm (MapRegion base_pa base_va size attr)) in
    modify (set_mmap l) ;;;
    modify (fun s => set_maxima (if xlat_max_pa s <? end_pa then end_pa else xlat_max_pa s) (xlat_max_va s) s) ;;;
    modify (fun s => set_maxima (xlat_max_pa s) (if xlat_max_va s <? end_va then end_va else xlat_max_va s) s).

Fixpoint mmap_add (mm : list mmap_region_t) : XM unit :=
  match mm with
  | [] => halt_with HUndef
  | r :: mm' =>
      if mm_size r =? 0 then ret tt
      else mmap_add_region (mm_base_pa r) (mm_base_va r) (mm_size r) (mm_attr r) ;;; mmap_add mm'
  end.

(** ** xlat_tables_common.c: the tables *)
Definition mmap_desc (attr addr_pa level : Z) : XM Z :=
  x_assert (Z.land addr_pa (XLAT_BLOCK_MASK level) =? 0) ;;;
  let! xn := gets execute_never_mask in
  let desc := addr_pa in
  let desc := Z.lor desc (if level =? XLAT_TABLE_LEVEL_MAX then PAGE_DESC else BLOCK_DESC) in
  let desc := Z.lor desc (if truthy (Z.land attr MT_NS) then LOWER_ATTRS NS else 0) in
  let desc := Z.lor desc (if truthy (Z.land attr MT_RW) then LOWER_ATTRS AP_RW else LOWER_ATTRS AP_RO) in
  let desc := Z.lor desc (LOWER_ATTRS ACCESS_FLAG) in
  let mem_type := MT_TYPE attr in
  if mem_type =? MT_DEVICE then
    let desc := Z.lor desc (LOWER_ATTRS (Z.lor ATTR_DEVICE_INDEX OSH)) in
    ret (Z.lor desc xn)
  else
    let desc := if truthy (Z.land attr MT_RW) || truthy (Z.land attr MT_EXECUTE_NEVER) then Z.lor desc xn else desc in
    if mem_type =? MT_MEMORY then ret (Z.lor desc (LOWER_ATTRS (Z.lor ATTR_IWBWA_OWBWA_NTR_INDEX ISH)))
    else
      x_assert (mem_type =? MT_NON_CACHEABLE) ;;;
      ret (Z.lor desc (LOWER_ATTRS (Z.lor ATTR_NON_CACHEABLE_INDEX OSH))).

(** The loop of [mmap_region_attr]; [attr] is [*attr] when [ret] is 0, and
    nothing when it is -1. *)
Fixpoint mmap_region_attr (l : list mmap_region_t) (base_va size : Z) (attr : option Z) : XM (option Z) :=
  match l with
  | [] => halt_with HUndef
  | mm :: l' =>
      if mm_size mm =? 0 then ret attr
      else if u64 (base_va + size - 1) <? mm_base_va mm then ret attr
      else if mm_end_va mm <? base_va then mmap_region_attr l' base_va size attr
      else if bool_decide (attr = Some (mm_attr mm)) then mmap_region_attr l' base_va size attr
      else if (base_va <? mm_base_va mm) || (mm_end_va mm <? u64 (base_va + size - 1)) then ret None
      else mmap_region_attr l' base_va size (Some (mm_attr mm))
  end.

(** Entry [i] of table [t]. *)
Definition write_entry (t : option Z) (i desc : Z) : XM unit :=
  match t with
  | None =>
      let! l := gets base_xlation_table in
      let! l := deref (arr_set l i desc) in
      modify (set_base_table l)
  | Some k =>
      let! ts := gets xlat_tables in
      let! l := deref (arr_get ts k) in
      let! l := deref (arr_set l i desc) in
      let! ts := deref (arr_set ts k l) in
      modify (set_xlat_tables ts)
  end.

(** The address of a table of the pool. *)
Definition table_addr (k : Z) : Z := xlat_tables_addr + XLAT_TABLE_SIZE * k.

(** The condition of the loop in [init_xlation_table_inner]. *)
Definition more_entries (base_va level_index_mask : Z) : bool :=
  truthy (Z.land base_va level_index_mask) && (u64 (base_va - 1) <? PLAT_VIRT_ADDR_SPACE_SIZE - 1).

(** The descriptor of one entry before a finer table is considered. *)
Definition entry_desc (mm : Z) (m : mmap_region_t) (base_va level_size level : Z) : XM Z :=
  let desc := if mm_size m =? 0 then INVALID_DESC else UNSET_DESC in
  if u64 (base_va + level_size - 1) <? mm_base_va m then ret INVALID_DESC
  else if MIN_LVL_BLOCK_DESC <=? level then
    let! l := gets mmap in
    let! r := mmap_region_attr (drop (Z.to_nat mm) l) base_va level_size None in
    match r with
    | Some attr => mmap_desc attr (u64 (base_va - mm_base_va m + mm_base_pa m)) level
    | None => ret desc
    end
  else ret desc.

Section entries.
Context (inner : Z -> Z -> option Z -> Z -> XM Z).

(** The [do ... while] loop; [n] bounds the iterations, [i] is the entry that
    [table] points to. *)
Fixpoint entries_loop (n : nat) (level level_size level_index_mask : Z) (table : option Z) (i mm base_va : Z) : XM Z :=
  match n with
  | O => halt_with HHang
  | S n' =>
      let! m := get_mm mm in
      if negb (mm_size m =? 0) && (mm_end_va m <? base_va) then
        if more_entries base_va level_index_mask
        then entries_loop n' level level_size level_index_mask table i (mm + 1) base_va
        else ret (mm + 1)
      else
        let! desc := entry_desc mm m base_va level_size level in
        let! r := (if desc =? UNSET_DESC then
                     let! k := gets next_xlat in
                     modify (set_next_xlat (u32 (k + 1))) ;;;
                     x_assert (u32 (k + 1) <=? MAX_XLAT_TABLES) ;;;
                     let! mm := inner mm base_va (Some k) (level + 1) in
                     ret (mm, Z.lor TABLE_DESC (table_addr k))
                   else ret (mm, desc)) in
        write_entry table i r.2 ;;;
        let base_va := u64 (base_va + level_size) in
        if more_entries base_va level_index_mask
        then entries_loop n' level level_size level_index_mask table (i + 1) r.1 base_va
        else ret r.1
  end.
End entries.

(** Bounds: a level above 4 shifts by more than the width of the word; a table
    has [XLAT_TABLE_ENTRIES] entries, and a region is overtaken once. *)
Fixpoint init_xlation_table_inner (depth : nat) (mm base_va : Z) (table : option Z) (level : Z) : XM Z :=
  match depth with
  | O => halt_with HHang
  | S depth' =>
      x_assert ((XLAT_TABLE_LEVEL_MIN <=? level) && (level <=? XLAT_TABLE_LEVEL_MAX)) ;;;
      let level_size_shift := u32 (L0_XLAT_ADDRESS_SHIFT - level * XLAT_TABLE_ENTRIES_SHIFT) in
      (if 64 <=? level_size_shift then halt_with HUndef else ret tt) ;;;
      let level_size := Z.shiftl 1 level_size_shift in
      let level_index_mask := u64 (Z.shiftl XLAT_TABLE_ENTRIES_MASK level_size_shift) in
      let! l := gets mmap in
      entries_loop (init_xlation_table_inner depth') (Z.to_nat XLAT_TABLE_ENTRIES + length l) level level_size level_index_mask table 0 mm base_va
  end.
Definition max_depth : nat := 6.

(** ** aarch64/xlat_tables.c *)
Definition XLAT_TABLE_LEVEL_BASE : Z := GET_XLAT_TABLE_LEVEL_BASE PLAT_VIRT_ADDR_SPACE_SIZE.
Definition NUM_BASE_LEVEL_ENTRIES : Z := GET_NUM_BASE_LEVEL_ENTRIES PLAT_VIRT_ADDR_SPACE_SIZE.

Definition calc_physical_addr_size_bits (max_addr : Z) : XM Z :=
  x_assert (Z.land max_addr ADDR_MASK_48_TO_63 =? 0) ;;;
  if truthy (Z.land max_addr ADDR_MASK_44_TO_47) then ret TCR_PS_BITS_256TB
  else if truthy (Z.land max_addr ADDR_MASK_42_TO_43) then ret TCR_PS_BITS_16TB
  else if truthy (Z.land max_addr ADDR_MASK_40_TO_41) then ret TCR_PS_BITS_4TB
  else if truthy (Z.land max_addr ADDR_MASK_36_TO_39) then ret TCR_PS_BITS_1TB
  else if truthy (Z.land max_addr ADDR_MASK_32_TO_35) then ret TCR_PS_BITS_64GB
  else ret TCR_PS_BITS_4GB.

Definition get_max_supported_pa : XM Z :=
  let pa_range := Z.land id_aa64mmfr0_el1 ID_AA64MMFR0_EL1_PARANGE_MASK in
  x_assert (pa_range <? Z.of_nat (length pa_range_bits_arr)) ;;;
  let! bits := deref (arr_get pa_range_bits_arr pa_range) in
  ret (Z.shiftl 1 bits - 1).

Definition xlat_arch_current_el : XM Z :=
  let el := GET_EL CurrentEl in
  x_assert (0 <? el) ;;; ret el.

Definition xlat_arch_get_xn_desc (el : Z) : XM Z :=
  if el =? 3 then ret (UPPER_ATTRS XN) else x_assert (el =? 1) ;;; ret (UPPER_ATTRS PXN).

(** Returns [*max_va] and [*max_pa]. *)
Definition init_xlation_table (base_va : Z) (table : option Z) (level : Z) : XM (Z * Z) :=
  let! el := xlat_arch_current_el in
  let! xn := xlat_arch_get_xn_desc el in
  modify (set_xn_mask xn) ;;;
  let! _ := init_xlation_table_inner max_depth 0 base_va table level in
  let! max_va := gets xlat_max_va in
  let! max_pa := gets xlat_max_pa in
  ret (max_va, max_pa).

Definition init_xlat_tables : XM unit :=
  let! r := init_xlation_table 0 None XLAT_TABLE_LEVEL_BASE in
  x_assert (r.1 <=? PLAT_VIRT_ADDR_SPACE_SIZE - 1) ;;;
  x_assert (r.2 <=? PLAT_PHY_ADDR_SPACE_SIZE - 1) ;;;
  when XL_ASSERTIONS (let! pa := get_max_supported_pa in x_assert (PLAT_PHY_ADDR_SPACE_SIZE - 1 <=? pa)) ;;;
  let! bits := calc_physical_addr_size_bits r.2 in
  modify (set_tcr_ps_bits bits).

(** Register writes, barriers and the invalidation of the TLB. *)
Definition mmu_write (el : regime) (f : mmu_regs -> mmu_regs) (e : mmu_event) : XM unit :=
  modify (fun s => set_mmu el (f (mmu s el)) e s).
Definition mmu_barrier (el : regime) (e : mmu_event) : XM unit := mmu_write el (fun r => r) e.
Definition el_number (el : regime) : Z := match el with EL1 => 1 | EL3 => 3 end.

(** [__builtin_ctzll] of a power of two below 2^64. *)
Definition ctzll (x : Z) : Z := Z.log2 x.

(** [DEFINE_ENABLE_MMU_EL(_el, _tcr_extra, _tlbi_fct)] *)
Definition enable_mmu_el (el : regime) (tcr_extra : Z) (flags : Z) : XM unit :=
  x_assert (GET_EL CurrentEl =? el_number el) ;;;
  let! regs := gets (fun s => mmu s el) in
  x_assert (Z.land (r_sctlr regs) SCTLR_M_BIT =? 0) ;;;
  let mair := MAIR_ATTR_SET ATTR_DEVICE ATTR_DEVICE_INDEX in
  let mair := Z.lor mair (MAIR_ATTR_SET ATTR_IWBWA_OWBWA_NTR ATTR_IWBWA_OWBWA_NTR_INDEX) in
  let mair := Z.lor mair (MAIR_ATTR_SET ATTR_NON_CACHEABLE ATTR_NON_CACHEABLE_INDEX) in
  mmu_write el (fun r => MmuRegs mair (r_tcr r) (r_ttbr0 r) (r_sctlr r)) (EvMair mair) ;;;
  mmu_barrier el EvTlbi ;;;
  let t0sz := 64 - ctzll PLAT_VIRT_ADDR_SPACE_SIZE in
  let tcr := if truthy (Z.land flags XLAT_TABLE_NC)
             then Z.lor (Z.lor (Z.lor TCR_SH_NON_SHAREABLE TCR_RGN_OUTER_NC) TCR_RGN_INNER_NC) t0sz
             else Z.lor (Z.lor (Z.lor TCR_SH_INNER_SHAREABLE TCR_RGN_OUTER_WBA) TCR_RGN_INNER_WBA) t0sz in
  let tcr := Z.lor tcr tcr_extra in
  mmu_write el (fun r => MmuRegs (r_mair r) tcr (r_ttbr0 r) (r_sctlr r)) (EvTcr tcr) ;;;
  let ttbr := base_xlation_table_addr in
  mmu_write el (fun r => MmuRegs (r_mair r) (r_tcr r) ttbr (r_sctlr r)) (EvTtbr0 ttbr) ;;;
  mmu_barrier el EvDsb ;;;
  mmu_barrier el EvIsb ;;;
  let! regs := gets (fun s => mmu s el) in
  let sctlr := Z.lor (u32 (r_sctlr regs)) (Z.lor SCTLR_WXN_BIT SCTLR_M_BIT) in
  let sctlr := if truthy (Z.land flags DISABLE_DCACHE) then Z.land sctlr (2 ^ 32 - 1 - SCTLR_C_BIT) else Z.lor sctlr SCTLR_C_BIT in
  mmu_write el (fun r => MmuRegs (r_mair r) (r_tcr r) (r_ttbr0 r) sctlr) (EvSctlr sctlr) ;;;
  mmu_barrier el EvIsb.

Definition enable_mmu_el1 (flags : Z) : XM unit :=
  let! ps := gets tcr_ps_bits in enable_mmu_el EL1 (Z.lor TCR_EPD1_BIT (Z.shiftl ps TCR_EL1_IPS_SHIFT)) flags.
Definition enable_mmu_el3 (flags : Z) : XM unit :=
  let! ps := gets tcr_ps_bits in enable_mmu_el EL3 (Z.lor TCR_EL3_RES1 (Z.shiftl ps TCR_EL3_PS_SHIFT)) flags.
End xlat.
