(* ===== verification/XlatWalk.v ===== *)
(** * What the MMU does with the tables

    The table walk of the ARMv8-A architecture for stage 1 with the 4 KB
    granule, as a function of the registers and of the memory that holds the
    tables, and what it makes of the descriptors that [mmap_desc] computes. *)
From stdpp Require Import base list numbers option.
From Stdlib Require Import ZArith Lia.
From S2P Require Import Prelude XlatTables.
#[local] Open Scope Z_scope.

(** A translation: the physical address, the address space, the permissions at
    the exception level of the regime, the memory attribute of MAIR and the
    shareability field. *)
Record xlation : Type := Xlation { x_pa : Z; x_ns : bool; x_write : bool; x_exec : bool; x_memattr : Z; x_sh : Z }.

Definition field (v lsb width : Z) : Z := Z.land (Z.shiftr v lsb) (Z.ones width).

(** Bits [47:sh] of a register or a descriptor, in place. *)
Definition addr_field (v sh : Z) : Z := Z.land v (Z.shiftl (Z.ones (48 - sh)) sh).

(** The physical address size that TCR_ELx.(I)PS selects. *)
Definition ps_bits (ps : Z) : Z :=
  match ps with 0 => 32 | 1 => 36 | 2 => 40 | 3 => 42 | 4 => 44 | _ => 48 end.

Section walk.
Context `{!XlatEnv}.

(** The descriptor at a physical address: an entry of the base table or of a
    table of the pool. *)
Definition phys_entry (s : xlat_state) (a : Z) : option Z :=
  if (base_xlation_table_addr <=? a) && (a <? base_xlation_table_addr + 8 * Z.of_nat (length (base_xlation_table s)))
  then arr_get (base_xlation_table s) ((a - base_xlation_table_addr) / 8)
  else arr_get (xlat_tables s) ((a - xlat_tables_addr) / 4096) ≫= (fun t => arr_get t ((a - xlat_tables_addr) mod 4096 / 8)).

Definition level_shift (level : Z) : Z := 12 + 9 * (3 - level).

(** The walk from a table: the last descriptor and its level, or a translation
    fault. *)
Fixpoint walk (n : nat) (s : xlat_state) (level table va : Z) : option (Z * Z) :=
  match n with
  | O => None
  | S n' =>
      phys_entry s (table + 8 * field va (level_shift level) 9) ≫= (fun d =>
        if negb (Z.testbit d 0) then None
        else if level =? 3 then (if Z.testbit d 1 then Some (d, level) else None)
        else if Z.testbit d 1 then walk n' s (level + 1) (addr_field d 12) va
        else if level =? 0 then None
        else Some (d, level))
  end.

(** The translation of a block or page descriptor; faults on a clear access
    flag and on an address outside the configured size. *)
Definition leaf (el : regime) (r : mmu_regs) (d level va : Z) : option xlation :=
  let sh := level_shift level in
  let pa := addr_field d sh + va mod 2 ^ sh in
  let ps := field (r_tcr r) (match el with EL1 => 32 | EL3 => 16 end) 3 in
  if negb (Z.testbit d 10) then None
  else if 2 ^ ps_bits ps <=? pa then None
  else
    let write := negb (Z.testbit d 7) in
    let xn := Z.testbit d (match el with EL1 => 53 | EL3 => 54 end) in
    Some (Xlation pa (Z.testbit d 5) write
      (negb xn && negb (Z.testbit (r_sctlr r) 19 && write))
      (field (r_mair r) (8 * field d 2 3) 8) (field d 8 2)).

(** The translation of a virtual address below 2^63 with the MMU on. *)
Definition translate (el : regime) (s : xlat_state) (va : Z) : option xlation :=
  let r := mmu s el in
  let t0sz := field (r_tcr r) 0 6 in
  if 2 ^ (64 - t0sz) <=? va then None
  else
    let level := if t0sz <? 25 then 0 else if t0sz <? 34 then 1 else 2 in
    let x := 64 - t0sz - level_shift level + 3 in
    walk 4 s level (addr_field (r_ttbr0 r) x) va ≫= (fun dl => leaf el r dl.1 dl.2 va).
End walk.

(** ** Bit fields *)
Lemma addr_field_bit v sh n : 0 <= sh <= 48 -> 0 <= n -> Z.testbit (addr_field v sh) n = Z.testbit v n && (sh <=? n) && (n <? 48).
Proof.
  intros Hs Hn. unfold addr_field. rewrite Z.land_spec, Z.shiftl_spec by lia. destruct (Z.leb_spec sh n).
  - rewrite Z.testbit_ones by lia. replace (0 <=? n - sh) with true by (symmetry; apply Z.leb_le; lia).
    replace (n - sh <? 48 - sh) with (n <? 48) by (apply eq_true_iff_eq; rewrite !Z.ltb_lt; lia). by destruct (Z.testbit v n), (n <? 48).
  - rewrite (Z.testbit_neg_r (Z.ones _) (n - sh)) by lia. by rewrite !andb_false_r.
Qed.

(** An address that is aligned and has at most 48 bits. *)
Lemma aligned_bit_low a sh n : a mod 2 ^ sh = 0 -> 0 <= n < sh -> Z.testbit a n = false.
Proof.
  intros Ha Hn. rewrite (Z.div_mod a (2 ^ sh)) by (apply Z.pow_nonzero; lia). rewrite Ha, Z.add_0_r, Z.mul_comm. apply Z.mul_pow2_bits_low. lia.
Qed.
Lemma small_bit_high a k n : 0 <= a < 2 ^ k -> 0 <= k <= n -> Z.testbit a n = false.
Proof.
  intros Ha Hn. destruct (Z.eq_dec a 0) as [->|Hz]; [apply Z.testbit_0_l|]. apply Z.bits_above_log2; [lia|].
  apply Z.lt_le_trans with k; [apply Z.log2_lt_pow2; lia|lia].
Qed.
Lemma addr_field_id a sh : 0 <= sh <= 48 -> a mod 2 ^ sh = 0 -> 0 <= a < 2 ^ 48 -> addr_field a sh = a.
Proof.
  intros Hs Ha Hr. apply Z.bits_inj'. intros n Hn. rewrite addr_field_bit by lia.
  destruct (Z.leb_spec sh n); [|by rewrite (aligned_bit_low a sh n)]. destruct (Z.ltb_spec n 48); [by rewrite !andb_true_r|].
  by rewrite (small_bit_high a 48 n).
Qed.

(** A bit pattern without bits of the address field does not disturb it. *)
Lemma addr_field_lor a low sh : 12 <= sh <= 48 -> a mod 2 ^ sh = 0 -> 0 <= a < 2 ^ 48 -> addr_field low 12 = 0 ->
  addr_field (Z.lor a low) sh = a.
Proof.
  intros Hs Ha Hr Hl. rewrite <- (addr_field_id a sh) at 2 by (done || lia). apply Z.bits_inj'. intros n Hn. rewrite !addr_field_bit, Z.lor_spec by lia.
  destruct (Z.leb_spec sh n); [|by rewrite !andb_false_r]. destruct (Z.ltb_spec n 48); [|by rewrite !andb_false_r].
  assert (Hb : Z.testbit (addr_field low 12) n = false) by (rewrite Hl; apply Z.testbit_0_l). rewrite addr_field_bit in Hb by lia.
  rewrite (proj2 (Z.leb_le 12 n)), (proj2 (Z.ltb_lt n 48)), !andb_true_r in Hb by lia. by rewrite Hb, orb_false_r.
Qed.

(** Outside the address field only the pattern shows. *)
Lemma lor_bit_outside a low sh n : 12 <= sh -> a mod 2 ^ sh = 0 -> 0 <= a < 2 ^ 48 -> 0 <= n < 12 \/ 48 <= n ->
  Z.testbit (Z.lor a low) n = Z.testbit low n.
Proof.
  intros Hs Ha Hr Hn. rewrite Z.lor_spec. destruct Hn as [Hn|Hn]; [by rewrite (aligned_bit_low a sh n) by (done || lia)|by rewrite (small_bit_high a 48 n) by lia].
Qed.
Lemma lor_field_outside a low sh lsb w : 12 <= sh -> a mod 2 ^ sh = 0 -> 0 <= a < 2 ^ 48 -> 0 <= lsb -> 0 <= w -> lsb + w <= 12 ->
  field (Z.lor a low) lsb w = field low lsb w.
Proof.
  intros Hs Ha Hr Hl Hw Hlw. apply Z.bits_inj'. intros n Hn. unfold field. rewrite !Z.land_spec, !Z.shiftr_spec by lia.
  destruct (Z.ltb_spec n w) as [Hlt|Hge].
  - f_equal. apply (lor_bit_outside a low sh); [done..|lia].
  - rewrite Z.testbit_ones_nonneg by lia. rewrite (proj2 (Z.ltb_ge n w)) by lia. by rewrite !andb_false_r.
Qed.

(** ** The descriptors of [mmap_desc] *)

(** The bits of a descriptor outside its address. *)
Definition low_bits (xn attr level : Z) : Z :=
  let d := Z.lor (if level =? 3 then PAGE_DESC else BLOCK_DESC)
    (Z.lor (if truthy (Z.land attr MT_NS) then LOWER_ATTRS NS else 0)
      (Z.lor (if truthy (Z.land attr MT_RW) then LOWER_ATTRS AP_RW else LOWER_ATTRS AP_RO) (LOWER_ATTRS ACCESS_FLAG))) in
  if MT_TYPE attr =? MT_DEVICE then Z.lor d (Z.lor (LOWER_ATTRS (Z.lor ATTR_DEVICE_INDEX OSH)) xn)
  else
    let d := if truthy (Z.land attr MT_RW) || truthy (Z.land attr MT_EXECUTE_NEVER) then Z.lor d xn else d in
    if MT_TYPE attr =? MT_MEMORY then Z.lor d (LOWER_ATTRS (Z.lor ATTR_IWBWA_OWBWA_NTR_INDEX ISH))
    else Z.lor d (LOWER_ATTRS (Z.lor ATTR_NON_CACHEABLE_INDEX OSH)).

Definition typed (attr : Z) : Prop := MT_TYPE attr = MT_DEVICE \/ MT_TYPE attr = MT_NON_CACHEABLE \/ MT_TYPE attr = MT_MEMORY.

(** The execute-never bit of a regime. *)
Definition xn_of (el : regime) : Z := match el with EL1 => UPPER_ATTRS PXN | EL3 => UPPER_ATTRS XN end.

Section desc.
Context `{!XlatEnv}.

Lemma mmap_desc_run attr pa level s : typed attr ->
  mmap_desc attr pa level s =
    if XL_ASSERTIONS && negb (Z.land pa (XLAT_BLOCK_MASK level) =? 0) then Halt HAssert s
    else Ret (Z.lor pa (low_bits (execute_never_mask s) attr level)) s.
Proof.
  intros Hty. unfold mmap_desc, x_assert. destruct (XL_ASSERTIONS && _) eqn:Ha; [done|].
  erewrite bind_run by done. erewrite bind_run by done. unfold low_bits. change XLAT_TABLE_LEVEL_MAX with 3.
  destruct Hty as [-> | [-> | ->]]; cbn [Z.eqb MT_DEVICE MT_MEMORY MT_NON_CACHEABLE Pos.eqb].
  all: destruct (truthy (Z.land attr MT_RW) || truthy (Z.land attr MT_EXECUTE_NEVER)); try (erewrite bind_run by (by rewrite andb_false_r)); unfold ret; f_equal; by rewrite <- !Z.lor_assoc.
Qed.
End desc.

(** What the regime makes of a descriptor for a region. *)
Definition region_xlation (attr pa : Z) : xlation :=
  let write := truthy (Z.land attr MT_RW) in
  Xlation pa (truthy (Z.land attr MT_NS)) write
    (negb write && negb (MT_TYPE attr =? MT_DEVICE) && negb (truthy (Z.land attr MT_EXECUTE_NEVER)))
    (if MT_TYPE attr =? MT_DEVICE then ATTR_DEVICE else if MT_TYPE attr =? MT_MEMORY then ATTR_IWBWA_OWBWA_NTR else ATTR_NON_CACHEABLE)
    (if MT_TYPE attr =? MT_MEMORY then 3 else 2).

Ltac attr_cases attr Hty :=
  unfold low_bits; destruct Hty as [-> | [-> | ->]];
  destruct (truthy (Z.land attr MT_NS)), (truthy (Z.land attr MT_RW)), (truthy (Z.land attr MT_EXECUTE_NEVER)).

Lemma low_bits_field el attr level : typed attr -> addr_field (low_bits (xn_of el) attr level) 12 = 0 /\ 0 <= low_bits (xn_of el) attr level < 2 ^ 55 /\
  Z.testbit (low_bits (xn_of el) attr level) 0 = true /\ Z.testbit (low_bits (xn_of el) attr level) 1 = (level =? 3).
Proof. intros Hty. destruct (level =? 3) eqn:El; attr_cases attr Hty; rewrite El; destruct el; by vm_compute. Qed.

(** The MAIR value that [enable_mmu_el] writes. *)
Definition mair_value : Z :=
  Z.lor (Z.lor (MAIR_ATTR_SET ATTR_DEVICE ATTR_DEVICE_INDEX) (MAIR_ATTR_SET ATTR_IWBWA_OWBWA_NTR ATTR_IWBWA_OWBWA_NTR_INDEX))
    (MAIR_ATTR_SET ATTR_NON_CACHEABLE ATTR_NON_CACHEABLE_INDEX).

Lemma leaf_region el r attr pa level va : typed attr -> 1 <= level <= 3 -> pa mod 2 ^ level_shift level = 0 -> 0 <= pa < 2 ^ 48 ->
  r_mair r = mair_value -> Z.testbit (r_sctlr r) 19 = true ->
  pa + va mod 2 ^ level_shift level < 2 ^ ps_bits (field (r_tcr r) (match el with EL1 => 32 | EL3 => 16 end) 3) ->
  leaf el r (Z.lor pa (low_bits (xn_of el) attr level)) level va = Some (region_xlation attr (pa + va mod 2 ^ level_shift level)).
Proof.
  intros Hty Hlv Ha Hr Hm Hw Hps. unfold leaf. assert (Hs : 12 <= level_shift level <= 48) by (unfold level_shift; lia).
  destruct (low_bits_field el attr level Hty) as (Hf & _ & _). rewrite addr_field_lor by done.
  rewrite (proj2 (Z.leb_gt _ _) Hps), Hm, Hw.
  rewrite !(lor_bit_outside pa _ (level_shift level)) by (done || lia || (destruct el; lia)).
  rewrite !(lor_field_outside pa _ (level_shift level)) by (done || lia).
  unfold region_xlation. attr_cases attr Hty; destruct (level =? 3), el; reflexivity.
Qed.
