(* ===== verification/XlatMmap.v ===== *)
(** * The list of memory regions

    [mmap_add_region] accepts a region exactly when it is well formed and each
    region before it is apart from it or nested with it at the same offset; it
    keeps the regions in order of their base address, the outer ones first. *)
From stdpp Require Import base list numbers option sorting.
From Stdlib Require Import ZArith Lia.
From S2P Require Import Prelude XlatTables XlatWalk.
#[local] Open Scope Z_scope.

Definition contains (r : mmap_region_t) (va : Z) : bool := (mm_base_va r <=? va) && (va <? mm_base_va r + mm_size r).
Definition within (r r' : mmap_region_t) : Prop := mm_base_va r' <= mm_base_va r /\ mm_base_va r + mm_size r <= mm_base_va r' + mm_size r'.
Definition nested (r r' : mmap_region_t) : Prop := within r r' \/ within r' r.
Definition offset (r : mmap_region_t) : Z := mm_base_va r - mm_base_pa r.
Definition same_area (r r' : mmap_region_t) : Prop := mm_base_va r = mm_base_va r' /\ mm_size r = mm_size r'.
Definition apart (r r' : mmap_region_t) : Prop :=
  (mm_base_va r + mm_size r <= mm_base_va r' \/ mm_base_va r' + mm_size r' <= mm_base_va r) /\
  (mm_base_pa r + mm_size r <= mm_base_pa r' \/ mm_base_pa r' + mm_size r' <= mm_base_pa r).
#[global] Instance nested_dec r r' : Decision (nested r r').
Proof. unfold nested, within. apply _. Defined.
(** Nested regions have one offset and are not the same area; others are apart. *)
Definition related (r r' : mmap_region_t) : Prop :=
  if decide (nested r r') then offset r = offset r' /\ ~ same_area r r' else apart r r'.
#[global] Instance related_dec r r' : Decision (related r r').
Proof. unfold related, same_area, apart. destruct (decide (nested r r')); apply _. Defined.

Lemma related_sym r r' : related r r' -> related r' r.
Proof.
  unfold related. intros H. destruct (decide (nested r r')) as [Hn|Hn], (decide (nested r' r)) as [Hn'|Hn'].
  - destruct H as [Ho Hs]. split; [done|]. intros [Hb Hz]. by apply Hs.
  - destruct Hn'. unfold nested in *. tauto.
  - destruct Hn. unfold nested in *. tauto.
  - unfold apart in *. lia.
Qed.

(** Two related regions with a common address are nested at the same offset. *)
Lemma related_common r r' va : related r r' -> contains r va = true -> contains r' va = true -> nested r r' /\ offset r = offset r' /\ ~ same_area r r'.
Proof. unfold related, contains. intros H Hr Hr'. destruct (decide _) as [Hn|Hn]; [done|]. unfold apart in H. exfalso. lia. Qed.

(** The order of the list. *)
Definition before (r r' : mmap_region_t) : Prop :=
  mm_base_va r < mm_base_va r' \/ mm_base_va r = mm_base_va r' /\ mm_size r' < mm_size r.
#[global] Instance before_dec r r' : Decision (before r r').
Proof. unfold before. apply _. Defined.
Lemma before_trans r1 r2 r3 : before r1 r2 -> before r2 r3 -> before r1 r3.
Proof. unfold before. lia. Qed.
Lemma before_total r r' : ~ same_area r r' -> ~ before r r' -> before r' r.
Proof. unfold before, same_area. lia. Qed.
Lemma related_not_same r r' : 0 < mm_size r -> related r r' -> ~ same_area r r'.
Proof.
  unfold related. intros Hs H [Hb Hz]. destruct (decide _) as [Hn|Hn]; [by destruct H as [_ []]|]. apply Hn. left. unfold within. lia.
Qed.

Fixpoint place (r : mmap_region_t) (l : list mmap_region_t) : nat :=
  match l with
  | [] => 0
  | x :: l' => if decide (before x r) then S (place r l') else 0
  end.
Definition insert_region (r : mmap_region_t) (l : list mmap_region_t) : list mmap_region_t := take (place r l) l ++ r :: drop (place r l) l.

Lemma place_le r l : (place r l <= length l)%nat.
Proof. induction l as [|x l IH]; cbn; [lia|]. destruct (decide _); lia. Qed.
Lemma insert_perm r l : insert_region r l ≡ₚ r :: l.
Proof. unfold insert_region. rewrite <- Permutation_middle. by rewrite take_drop. Qed.
Lemma insert_cons r x l : insert_region r (x :: l) = if decide (before x r) then x :: insert_region r l else r :: x :: l.
Proof. unfold insert_region. cbn. by destruct (decide _). Qed.
Lemma insert_sorted r l : StronglySorted before l -> Forall (fun x => ~ same_area x r) l -> StronglySorted before (insert_region r l).
Proof.
  induction l as [|x l IH]; intros Hs Hd; [by repeat constructor|]. rewrite insert_cons. inversion Hs as [|?? Hs' Hx]; subst. inversion Hd; subst.
  destruct (decide (before x r)) as [Hb|Hb].
  - constructor; [by apply IH|]. rewrite insert_perm. by constructor.
  - pose proof (before_total x r ltac:(done) Hb) as Hrx. constructor; [done|]. constructor; [done|].
    eapply List.Forall_impl; [|exact Hx]. intros y Hy. by eapply before_trans.
Qed.

Section regions.
Context `{!XlatEnv}.
Context (Hva : 0 < PLAT_VIRT_ADDR_SPACE_SIZE <= 2 ^ 48) (Hpa : 0 < PLAT_PHY_ADDR_SPACE_SIZE <= 2 ^ 48).
Implicit Types (r : mmap_region_t) (s : xlat_state) (l : list mmap_region_t).

Definition region_ok r : Prop :=
  (mm_base_pa r mod 4096 = 0 /\ mm_base_va r mod 4096 = 0 /\ mm_size r mod 4096 = 0) /\ 0 < mm_size r /\
  (0 <= mm_base_va r /\ mm_base_va r + mm_size r <= PLAT_VIRT_ADDR_SPACE_SIZE) /\
  (0 <= mm_base_pa r /\ mm_base_pa r + mm_size r <= PLAT_PHY_ADDR_SPACE_SIZE).
#[local] Instance region_ok_dec r : Decision (region_ok r).
Proof. unfold region_ok. apply _. Defined.

Lemma region_ends r : region_ok r -> mm_end_va r = mm_base_va r + mm_size r - 1 /\ mm_end_pa r = mm_base_pa r + mm_size r - 1.
Proof. unfold region_ok, mm_end_va, mm_end_pa. intros Hok. split; apply u64_small; lia. Qed.

Lemma page_aligned_mod a : IS_PAGE_ALIGNED a = (a mod 4096 =? 0).
Proof. unfold IS_PAGE_ALIGNED. change PAGE_SIZE_MASK with (Z.ones 12). by rewrite Z.land_ones by lia. Qed.

(** The values of a region of 64-bit fields. *)
Definition u64_region r : Prop := 0 <= mm_base_pa r < 2 ^ 64 /\ 0 <= mm_base_va r < 2 ^ 64 /\ 0 <= mm_size r < 2 ^ 64.

(** The assertions before the loop. *)
Definition fits r : bool :=
  IS_PAGE_ALIGNED (mm_base_pa r) && IS_PAGE_ALIGNED (mm_base_va r) && IS_PAGE_ALIGNED (mm_size r) &&
  (mm_base_pa r <? mm_end_pa r) && (mm_base_va r <? mm_end_va r) &&
  (mm_end_va r <=? PLAT_VIRT_ADDR_SPACE_SIZE - 1) && (mm_end_pa r <=? PLAT_PHY_ADDR_SPACE_SIZE - 1).

Lemma end_small b n : 0 <= b < 2 ^ 64 -> 0 < n < 2 ^ 64 -> (b <? u64 (b + n - 1)) = true -> u64 (b + n - 1) = b + n - 1.
Proof.
  intros Hb Hn Hlt. apply Z.ltb_lt in Hlt. apply u64_small. split; [lia|]. destruct (Z_lt_ge_dec (b + n - 1) (2 ^ 64)) as [|Hge]; [done|].
  assert (u64 (b + n - 1) = b + n - 1 - 2 ^ 64); [|lia]. unfold u64. symmetry. apply Z.mod_unique with 1; lia.
Qed.
Lemma fits_ok r : u64_region r -> mm_size r <> 0 -> fits r = true <-> region_ok r.
Proof.
  intros (Hp & Hv & Hs) Hz. unfold fits. rewrite !page_aligned_mod, !andb_true_iff, !Z.eqb_eq. split.
  - intros ((((((Ha & Hb) & Hc) & Hlp) & Hlv) & Hev) & Hep). unfold mm_end_pa, mm_end_va in *.
    rewrite end_small in Hev by (done || lia). rewrite end_small in Hep by (done || lia). unfold region_ok. lia.
  - intros Hok. destruct (region_ends r Hok) as [-> ->]. destruct Hok as ((Ha & Hb & Hc) & Hs0 & Hr).
    assert (4096 <= mm_size r) by (apply Z.mod_divide in Hc as [q Hq]; lia). lia.
Qed.

Section asserting.
Context (Hassert : XL_ASSERTIONS = true).

Lemma x_assert_run b s : x_assert b s = if b then Ret tt s else Halt HAssert s.
Proof. unfold x_assert. rewrite Hassert. by destruct b. Qed.
Lemma x_assert_bind {A} b (m : M xlat_state A) s : (x_assert b ;;; m) s = if b then m s else Halt HAssert s.
Proof. unfold bind. rewrite x_assert_run. by destruct b. Qed.

Lemma related_iff r x : related r x <-> nested r x /\ offset r = offset x /\ ~ same_area r x \/ ~ nested r x /\ apart r x.
Proof. unfold related. destruct (decide (nested r x)); tauto. Qed.
Lemma related_checks r x : region_ok r -> region_ok x ->
  ((mm_base_va x <=? mm_base_va r) && (mm_base_va r + mm_size r - 1 <=? mm_base_va x + mm_size x - 1) ||
    (mm_base_va r <=? mm_base_va x) && (mm_base_va x + mm_size x - 1 <=? mm_base_va r + mm_size r - 1)) = bool_decide (nested r x) /\
  (u64 (mm_base_va x - mm_base_pa x) =? u64 (mm_base_va r - mm_base_pa r)) = bool_decide (offset r = offset x) /\
  (negb (mm_base_va r =? mm_base_va x) || negb (mm_size r =? mm_size x)) = bool_decide (~ (mm_base_va r = mm_base_va x /\ mm_size r = mm_size x)) /\
  (((mm_base_va r + mm_size r - 1 <? mm_base_va x) || (mm_base_va x + mm_size x - 1 <? mm_base_va r)) &&
    ((mm_base_pa r + mm_size r - 1 <? mm_base_pa x) || (mm_base_pa x + mm_size x - 1 <? mm_base_pa r))) =
    bool_decide ((mm_base_va r + mm_size r <= mm_base_va x \/ mm_base_va x + mm_size x <= mm_base_va r) /\
      (mm_base_pa r + mm_size r <= mm_base_pa x \/ mm_base_pa x + mm_size x <= mm_base_pa r)).
Proof.
  intros (_ & Hrs & Hrv & Hrp) (_ & Hxs & Hxv & Hxp). split_and!; apply eq_true_iff_eq; rewrite bool_decide_eq_true.
  - unfold nested, within. lia.
  - rewrite Z.eqb_eq. unfold offset, u64. split; [|intros E; f_equal; lia].
    intros E. apply Z.cong_iff_0 in E. apply Z.mod_divide in E as [q Hq]; [|done]. nia.
  - lia.
  - lia.
Qed.

Lemma overlap_run r l rest s : region_ok r -> Forall region_ok l ->
  overlap_loop (l ++ end_region :: rest) (mm_base_pa r) (mm_base_va r) (mm_size r) (mm_end_pa r) (mm_end_va r) s =
  if decide (Forall (related r) l) then Ret tt s else Halt HAssert s.
Proof.
  intros Hr Hl. induction Hl as [|x l Hx Hl IH]; [by destruct (decide (Forall _ [])) as [|[]]|]. cbn [overlap_loop app].
  rewrite (proj2 (Z.eqb_neq (mm_size x) 0)) by (destruct Hx; lia).
  destruct (region_ends r Hr) as [Her Hep], (region_ends x Hx) as [Hex Hexp]. rewrite Hex, Hexp, Her, Hep in *.
  set (chk := if _ || _ then _ else _). assert (Hchk : chk s = if decide (related r x) then Ret tt s else Halt HAssert s).
  { unfold chk. destruct (related_checks r x Hr Hx) as (-> & -> & -> & ->). pose proof (related_iff r x) as Hiff. unfold same_area, apart in Hiff.
    repeat case_bool_decide; rewrite ?x_assert_bind, ?x_assert_run; destruct (decide (related r x)); first [done|exfalso; tauto]. }
  unfold bind. rewrite Hchk. destruct (decide (related r x)) as [Hrx|Hrx].
  - rewrite IH. destruct (decide (Forall _ l)) as [Hf|Hf], (decide (Forall _ (x :: l))) as [Hf'|Hf']; try done.
    + destruct Hf'. by constructor.
    + destruct Hf. by inversion Hf'.
  - destruct (decide (Forall _ (x :: l))) as [Hf'|]; [|done]. by inversion Hf'.
Qed.

(** The two search loops find the place of the region. *)
Lemma skip_wider_place r l k i : Forall (fun x => mm_base_va r <= mm_base_va x) l -> 0 <= mm_size r ->
  skip_wider (l ++ replicate (S k) end_region) i (mm_base_va r) (mm_size r) = Some (i + Z.of_nat (place r l)).
Proof.
  intros Hl Hs. revert i. induction Hl as [|x l Hx Hl IH]; intros i; cbn [skip_wider app replicate place].
  - rewrite (proj2 (Z.ltb_ge (mm_size r) (mm_size end_region))) by (cbn; lia). rewrite andb_false_r. f_equal. lia.
  - destruct (decide (before x r)) as [Hb|Hb].
    + rewrite (proj2 (Z.eqb_eq _ _)), (proj2 (Z.ltb_lt _ _)) by (unfold before in Hb; lia). cbn. rewrite IH. f_equal. lia.
    + replace (_ && _) with false; [f_equal; lia|]. symmetry. apply not_true_is_false. intros E. apply Hb. unfold before. lia.
Qed.
Lemma skips_place r l k i : StronglySorted before l -> Forall region_ok l -> 0 <= mm_size r ->
  exists p, skip_lower (l ++ replicate (S k) end_region) i (mm_base_va r) = Some (i + Z.of_nat p) /\
    skip_wider (drop p (l ++ replicate (S k) end_region)) (i + Z.of_nat p) (mm_base_va r) (mm_size r) = Some (i + Z.of_nat (place r l)).
Proof.
  intros Hs Hl Hr. revert i. induction Hs as [|x l Hs IH Hx]; intros i.
  - exists 0%nat. cbn [skip_lower app replicate]. rewrite andb_false_r. cbn [drop]. split; [f_equal; lia|].
    rewrite (skip_wider_place r [] k) by done. cbn. f_equal. lia.
  - inversion Hl as [|?? Hxok Hl']; subst. cbn [skip_lower app place]. destruct (Z.ltb_spec (mm_base_va x) (mm_base_va r)) as [Hlt|Hge].
    + rewrite (proj2 (Z.eqb_neq _ _)) by (destruct Hxok; lia). cbn [negb andb]. destruct (IH Hl' (i + 1)) as (p & Hp & Hw). exists (S p). cbn [drop].
      rewrite decide_True by (unfold before; lia). split; [rewrite Hp; f_equal; lia|].
      replace (i + Z.of_nat (S p)) with (i + 1 + Z.of_nat p) by lia. rewrite Hw. f_equal. lia.
    + exists 0%nat. cbn [andb drop]. split; [f_equal; lia|]. rewrite Z.add_0_r. rewrite app_comm_cons, (skip_wider_place r (x :: l)); [done| |done].
      constructor; [done|]. eapply List.Forall_impl; [|exact Hx]. intros y [Hy|[Hy _]]; cbn; lia.
Qed.
Lemma make_room_run l k p : (p <= length l)%nat ->
  make_room (l ++ replicate (S (S k)) end_region) (Z.of_nat p) (Z.of_nat (length l + S (S k)) - 1) =
  take (S p) (l ++ [end_region]) ++ drop p l ++ replicate (S k) end_region.
Proof.
  intros Hp. unfold make_room. replace (Z.to_nat (Z.of_nat p + 1)) with (S p) by lia. rewrite Nat2Z.id.
  replace (Z.to_nat _) with (length l - p + S k)%nat by lia. f_equal.
  - rewrite !take_app. f_equal. destruct (S p - length l)%nat as [|q] eqn:E; [by rewrite !take_0|]. assert (q = 0%nat) as -> by lia. done.
  - rewrite drop_app_le by done. rewrite take_app, length_drop, take_ge by (rewrite length_drop; lia). f_equal.
    replace (length l - p + S k - (length l - p))%nat with (S k) by lia. rewrite (replicate_S_end (S k)).
    rewrite take_app_le by (rewrite length_replicate; lia). rewrite take_ge; [done|]. rewrite length_replicate. lia.
Qed.
Lemma room_filled r l k p : (p <= length l)%nat ->
  arr_set (take (S p) (l ++ [end_region]) ++ drop p l ++ replicate (S k) end_region) (Z.of_nat p) r =
  Some ((take p l ++ r :: drop p l) ++ replicate (S k) end_region).
Proof.
  intros Hp. destruct (lookup_lt_is_Some_2 (l ++ [end_region]) p) as [x Hx]; [rewrite length_app; cbn; lia|].
  rewrite (take_S_r _ _ x Hx), take_app_le, <- !app_assoc by done. cbn [app]. unfold arr_set.
  rewrite (proj2 (Z.leb_le 0 _)), (proj2 (Z.ltb_lt _ _)) by (rewrite ?length_app, ?length_take; cbn [length]; lia). cbn [andb]. rewrite Nat2Z.id. f_equal.
  rewrite insert_app_r_alt by (rewrite length_take; lia). rewrite length_take, Nat.min_l, Nat.sub_diag by done. done.
Qed.

(** The state after a region was added. *)
Definition added r l s : xlat_state :=
  set_maxima (Z.max (xlat_max_pa s) (mm_end_pa r)) (Z.max (xlat_max_va s) (mm_end_va r)) (set_mmap l s).

Lemma added_run r l s : mmap s = l ->
  (modify (fun s => set_maxima (if xlat_max_pa s <? mm_end_pa r then mm_end_pa r else xlat_max_pa s) (xlat_max_va s) s) ;;;
   modify (fun s => set_maxima (xlat_max_pa s) (if xlat_max_va s <? mm_end_va r then mm_end_va r else xlat_max_va s) s)) s = Ret tt (added r l s).
Proof.
  intros <-. erewrite bind_run by done. unfold modify, added. cbn [xlat_max_pa xlat_max_va set_maxima]. f_equal. unfold set_maxima, set_mmap. cbn. f_equal.
  - destruct (Z.ltb_spec (xlat_max_pa s) (mm_end_pa r)); lia.
  - destruct (Z.ltb_spec (xlat_max_va s) (mm_end_va r)); lia.
Qed.
Lemma full_room l p : (p <= length l)%nat -> exists x,
  arr_get (make_room (l ++ [end_region]) (Z.of_nat p) (Z.of_nat (length l))) (Z.of_nat (length l)) = Some x /\
  (p = length l -> x = end_region /\ make_room (l ++ [end_region]) (Z.of_nat p) (Z.of_nat (length l)) = l ++ [end_region]) /\
  ((p < length l)%nat -> x ∈ l).
Proof.
  intros Hp. unfold make_room. replace (Z.to_nat (Z.of_nat p + 1)) with (S p) by lia. rewrite Nat2Z.id.
  replace (Z.to_nat (Z.of_nat (length l) - Z.of_nat p)) with (length l - p)%nat by lia.
  unfold arr_get. rewrite (proj2 (Z.leb_le 0 _)) by lia. rewrite Nat2Z.id. destruct (decide (p = length l)) as [->|Hne].
  - rewrite Nat.sub_diag, take_0, app_nil_r, take_ge by (rewrite length_app; cbn; lia). exists end_region. split_and!; [|done|lia].
    by rewrite lookup_app_r, Nat.sub_diag.
  - rewrite lookup_app_r by (rewrite length_take, length_app; cbn [length]; lia). rewrite length_take, length_app. cbn [length].
    replace (length l - S p `min` (length l + 1))%nat with (length l - S p)%nat by lia. rewrite lookup_take_lt, lookup_drop by lia.
    rewrite lookup_app_l by lia. destruct (lookup_lt_is_Some_2 l (p + (length l - S p))) as [x Hx]; [lia|]. exists x. rewrite Hx.
    split_and!; [done|lia|]. intros _. by eapply list_elem_of_lookup_2.
Qed.

Lemma arr_set_last l x r : arr_set (l ++ [x]) (Z.of_nat (length l)) r = Some (l ++ [r]).
Proof.
  unfold arr_set. rewrite (proj2 (Z.leb_le 0 _)), (proj2 (Z.ltb_lt _ _)) by (rewrite ?length_app; cbn [length]; lia). cbn [andb]. rewrite Nat2Z.id.
  f_equal. rewrite insert_app_r_alt by done. by rewrite Nat.sub_diag.
Qed.
Lemma room_last l k p : (p <= length l)%nat ->
  arr_get (take (S p) (l ++ [end_region]) ++ drop p l ++ replicate (S k) end_region) (Z.of_nat (length l + S (S k)) - 1) = Some end_region.
Proof.
  intros Hp. unfold arr_get. rewrite (proj2 (Z.leb_le 0 _)) by lia. replace (Z.to_nat _) with (length l + S k)%nat by lia.
  rewrite lookup_app_r; rewrite length_take, length_app; cbn [length]; [|lia]. rewrite lookup_app_r; rewrite length_drop; [|lia].
  apply lookup_replicate_2. lia.
Qed.

Lemma add_region_run r l k s : mmap s = l ++ replicate (S k) end_region -> StronglySorted before l -> Forall region_ok l ->
  u64_region r -> mm_size r <> 0 ->
  mmap_add_region (mm_base_pa r) (mm_base_va r) (mm_size r) (mm_attr r) s =
    if decide (region_ok r /\ Forall (related r) l) then
      match k with
      | O => if decide (place r l = length l) then Ret tt (added r (l ++ [r]) s)
             else Halt HAssert (set_mmap (make_room (mmap s) (Z.of_nat (place r l)) (Z.of_nat (length l))) s)
      | S k' => Ret tt (added r (insert_region r l ++ replicate (S k') end_region) s)
      end
    else Halt HAssert s.
Proof.
  intros Hm Hs Hl Hu Hz. unfold mmap_add_region. erewrite bind_run by done. rewrite Hm. rewrite !x_assert_bind.
  rewrite (proj2 (Z.eqb_neq _ _) Hz), !x_assert_bind. fold (mm_end_va r) (mm_end_pa r).
  pose proof (fits_ok r Hu Hz) as Hf. unfold fits in Hf. destruct (decide (region_ok r /\ Forall (related r) l)) as [[Hok Hrel]|Hno].
  2:{ destruct (decide (region_ok r)) as [Hok|Hnok].
      - apply Hf in Hok as Hb. rewrite !andb_true_iff in Hb. destruct Hb as ((((((-> & ->) & ->) & ->) & ->) & ->) & ->).
        rewrite Hassert. cbn [when]. erewrite bind_halt; [done|]. change (replicate (S k) end_region) with (end_region :: replicate k end_region).
        rewrite overlap_run by done. destruct (decide _); tauto.
      - repeat (match goal with |- (if ?b then _ else _) = _ => destruct b end; try done). exfalso. by apply Hnok, Hf. }
  apply Hf in Hok as Hb. rewrite !andb_true_iff in Hb. destruct Hb as ((((((-> & ->) & ->) & ->) & ->) & ->) & ->).
  rewrite Hassert. cbn [when]. erewrite bind_run.
  2:{ change (replicate (S k) end_region) with (end_region :: replicate k end_region). rewrite overlap_run by done. by rewrite decide_True. }
  destruct (skips_place r l k 0 Hs Hl ltac:(destruct Hok; lia)) as (p & Hp & Hw). rewrite Hp. cbn [deref]. erewrite bind_run by done.
  rewrite Z.add_0_l in *. rewrite Nat2Z.id, Hw. cbn [deref]. erewrite bind_run by done. erewrite bind_run by done.
  pose proof (place_le r l) as Hple. unfold insert_region. set (q := place r l) in *. clearbody q. rewrite Z.add_0_l.
  replace (MapRegion _ _ _ _) with r by (by destruct r). rewrite length_app, length_replicate.
  destruct k as [|k].
  - replace (Z.of_nat (length l + 1) - 1) with (Z.of_nat (length l)) by lia. change (replicate 1 end_region) with [end_region].
    destruct (full_room l q Hple) as (x & Hx & Heq & Hlt). unfold get_mm. erewrite bind_run.
    2:{ erewrite bind_run by done. cbn [mmap set_mmap]. rewrite Hx. done. }
    rewrite x_assert_bind. destruct (decide (q = length l)) as [E|Hne].
    + destruct (Heq E) as [-> HM]. cbn [mm_size end_region Z.eqb]. erewrite bind_run by done. cbn [mmap set_mmap]. rewrite HM.
      subst q. rewrite arr_set_last. cbn [deref]. erewrite bind_run by done. erewrite bind_run by done. by rewrite (added_run r (l ++ [r])).
    + rewrite (proj2 (Z.eqb_neq (mm_size x) 0)); [done|]. pose proof (proj1 (Forall_forall _ _) Hl x (Hlt ltac:(lia))) as (_ & Hx0 & _). lia.
  - rewrite make_room_run by done.
    unfold get_mm. erewrite bind_run.
    2:{ erewrite bind_run by done. cbn [mmap set_mmap]. rewrite room_last by done. done. }
    rewrite x_assert_bind. cbn [mm_size end_region Z.eqb]. erewrite bind_run by done. cbn [mmap set_mmap]. rewrite room_filled by done.
    cbn [deref]. erewrite bind_run by done. erewrite bind_run by done. by erewrite added_run by done.
Qed.


(** The list of regions and the maxima that go with it. *)
Record mm_inv l (k : nat) s : Prop := {
  mi_list : mmap s = l ++ replicate (S k) end_region;
  mi_sorted : StronglySorted before l;
  mi_ok : Forall region_ok l;
  mi_rel : forall r r', r ∈ l -> r' ∈ l -> r = r' \/ related r r';
  mi_max : Forall (fun r => mm_base_pa r + mm_size r - 1 <= xlat_max_pa s) l;
  mi_pa : 0 <= xlat_max_pa s <= PLAT_PHY_ADDR_SPACE_SIZE - 1;
  mi_va : 0 <= xlat_max_va s <= PLAT_VIRT_ADDR_SPACE_SIZE - 1
}.

Lemma added_inv r l k s : mm_inv l (S k) s -> region_ok r -> Forall (related r) l ->
  mm_inv (insert_region r l) k (added r (insert_region r l ++ replicate (S k) end_region) s).
Proof.
  intros [Hl Hs Hok Hrel Hmax Hp Hv] Hr Hrl. destruct (region_ends r Hr) as [Hev Hep]. pose proof Hr as (_ & Hsz & Hrv & Hrp).
  split; cbn [mmap added set_maxima set_mmap xlat_max_pa xlat_max_va].
  - done.
  - apply insert_sorted; [done|]. eapply List.Forall_impl; [|exact Hrl]. intros x Hx [E1 E2]. by apply (related_not_same r x Hsz Hx).
  - rewrite insert_perm. by constructor.
  - intros x y. rewrite !insert_perm, !elem_of_cons. intros [->|Hx] [->|Hy]; [by left| | |by apply Hrel]; right.
    + by apply (proj1 (Forall_forall _ _) Hrl).
    + apply related_sym. by apply (proj1 (Forall_forall _ _) Hrl).
  - rewrite insert_perm. constructor; [lia|]. eapply List.Forall_impl; [|exact Hmax]. cbn. lia.
  - lia.
  - lia.
Qed.

(** What [mmap_add] accepts after the regions [l]. *)
Definition accepts l (rs : list mmap_region_t) : Prop :=
  Forall region_ok rs /\ ForallOrdPairs related rs /\ Forall (fun r => Forall (related r) l) rs.
Lemma accepts_cons l r rs : accepts l (r :: rs) <-> (region_ok r /\ Forall (related r) l) /\ accepts (insert_region r l) rs.
Proof.
  unfold accepts. assert (Hins : Forall (fun x => Forall (related x) (insert_region r l)) rs <-> Forall (related r) rs /\ Forall (fun x => Forall (related x) l) rs).
  { rewrite !Forall_forall. setoid_rewrite insert_perm. setoid_rewrite Forall_cons. split.
    - intros Hx0. split; [intros x Hx; apply related_sym|intros x Hx]; apply (Hx0 x Hx).
    - intros [H1 H2] x Hx. split; [apply related_sym; by apply H1|by apply H2]. }
  rewrite Hins, !Forall_cons. split.
  - intros ([Hr Hrs] & Hp & [Hrl Hl]). inversion Hp; subst. tauto.
  - intros ((Hr & Hrl) & Hrs & Hp & Hrr & Hl). split_and!; [done|done|by constructor|done|done].
Qed.

Definition mm_only s s' : Prop := s' = set_maxima (xlat_max_pa s') (xlat_max_va s') (set_mmap (mmap s') s).
Lemma mmap_add_run rs l k s : mm_inv l (length rs + k) s -> Forall u64_region rs -> Forall (fun r => mm_size r <> 0) rs ->
  (accepts l rs -> exists s' l', mmap_add (rs ++ [end_region]) s = Ret tt s' /\ l' ≡ₚ rs ++ l /\ mm_inv l' k s' /\ mm_only s s') /\
  (~ accepts l rs -> exists s', mmap_add (rs ++ [end_region]) s = Halt HAssert s').
Proof.
  revert l s. induction rs as [|r rs IH]; intros l s Hinv Hu Hz; cbn [app mmap_add].
  - split; [|intros []; unfold accepts; split_and!; constructor]. intros _. exists s, l. split_and!; [done|done|done|by destruct s].
  - inversion Hu; subst. inversion Hz; subst. rewrite (proj2 (Z.eqb_neq _ 0)) by done. cbn [length Nat.add] in Hinv.
    rewrite accepts_cons. pose proof (add_region_run r l (S (length rs + k)) s (mi_list _ _ _ Hinv) (mi_sorted _ _ _ Hinv) (mi_ok _ _ _ Hinv)) as Hrun.
    cbn beta iota in Hrun. rewrite (decide_ext _ (region_ok r /\ Forall (related r) l)) in Hrun by done.
    destruct (decide (region_ok r /\ Forall (related r) l)) as [[Hr Hrl]|Hno].
    + erewrite bind_run by (by apply Hrun). destruct (IH (insert_region r l) _ (added_inv _ _ _ _ Hinv Hr Hrl)) as [Hyes Hnot]; [done|done|]. split.
      * intros [_ Ha]. destruct (Hyes Ha) as (s' & l' & Hs' & Hp & Hi & Ho). exists s', l'. split_and!; [done| |done|].
        -- rewrite Hp, insert_perm. symmetry. apply Permutation_middle.
        -- unfold mm_only in *. rewrite Ho. cbn. done.
      * intros Hna. apply Hnot. tauto.
    + erewrite bind_halt by (by apply Hrun). split; [tauto|]. eauto.
Qed.
End asserting.
End regions.
