(* ===== verification/XlatBuild.v ===== *)
(** * The tables that [init_xlation_table_inner] builds

    For a list of regions in order, the walk of the MMU through the tables
    gives for each address the last region of the list that contains it. *)
From stdpp Require Import base list numbers option sorting.
From Stdlib Require Import ZArith Lia.
From S2P Require Import Prelude XlatTables XlatWalk XlatMmap.
#[local] Open Scope Z_scope.

(** The last region of a list that contains an address. *)
Fixpoint inner (acc : option mmap_region_t) (l : list mmap_region_t) (va : Z) : option mmap_region_t :=
  match l with
  | [] => acc
  | r :: l' => inner (if contains r va then Some r else acc) l' va
  end.

Lemma inner_app acc l1 l2 va : inner acc (l1 ++ l2) va = inner (inner acc l1 va) l2 va.
Proof. revert acc. induction l1; intros acc; cbn; auto. Qed.
Lemma inner_none acc l va : Forall (fun r => contains r va = false) l -> inner acc l va = acc.
Proof. intros Hl. revert acc. induction Hl as [|r l Hr Hl IH]; intros acc; cbn; [done|]. by rewrite Hr. Qed.
Lemma inner_some acc l va r : inner acc l va = Some r -> acc = Some r \/ r ∈ l /\ contains r va = true.
Proof.
  revert acc. induction l as [|x l IH]; intros acc; cbn; [by left|]. intros H. destruct (IH _ H) as [E|[Hin Hc]].
  - destruct (contains x va) eqn:Hx; [|by left]. injection E as ->. right. split; [by left|done].
  - right. split; [by right|done].
Qed.
Lemma inner_acc acc l va : inner acc l va = match inner None l va with Some r => Some r | None => acc end.
Proof.
  revert acc. induction l as [|x l IH]; intros acc; cbn; [done|]. rewrite IH. destruct (contains x va); [|done].
  rewrite (IH (Some x)). by destruct (inner None l va).
Qed.

(** In a sorted list of related regions it is the smallest one. *)
Lemma inner_smallest l va r : StronglySorted before l -> (forall x y, x ∈ l -> y ∈ l -> x = y \/ related x y) ->
  r ∈ l -> contains r va = true -> (forall x, x ∈ l -> contains x va = true -> mm_size r <= mm_size x) -> inner None l va = Some r.
Proof.
  intros Hs. induction Hs as [|x l Hs IH Hx]; intros Hrel Hin Hc Hmin; [by apply elem_of_nil in Hin|].
  apply elem_of_cons in Hin as [->|Hin].
  - cbn. rewrite Hc, inner_acc. destruct (inner None l va) as [y|] eqn:Ey; [|done]. exfalso.
    apply inner_some in Ey as [|[Hy Hcy]]; [done|]. pose proof (proj1 (Forall_forall _ _) Hx y Hy) as Hb.
    pose proof (Hmin y ltac:(by right) Hcy) as Hle. destruct (Hrel x y ltac:(by left) ltac:(by right)) as [->|Hr]; [unfold before in Hb; lia|].
    destruct (related_common x y va Hr Hc Hcy) as (Hn & _ & Hd). unfold before, nested, within, same_area in *. lia.
  - cbn. rewrite inner_acc. rewrite IH; [done| |done|done|].
    + intros y z Hy Hz. apply Hrel; by right.
    + intros y Hy. apply Hmin. by right.
Qed.

Section build.
Context `{!XlatEnv}.
Context (Hva : 0 < PLAT_VIRT_ADDR_SPACE_SIZE <= 2 ^ 48) (Hpa : 0 < PLAT_PHY_ADDR_SPACE_SIZE <= 2 ^ 48).
Context (Hassert : XL_ASSERTIONS = true).
Context (l : list mmap_region_t) (k : nat) (el : regime).
Context (Hsorted : StronglySorted before l) (Hok : Forall region_ok l).
Context (Hrel : forall r r', r ∈ l -> r' ∈ l -> r = r' \/ related r r').
Context (Htyped : Forall (fun r => typed (mm_attr r)) l).
(** The areas, as level and number, that a boundary of a region cuts or, at
    level 0, that a region meets; from level [lmin] on. *)
Context (C : list (Z * Z)) (lmin : Z).
Implicit Types (s : xlat_state) (t : option Z).

Definition bs (level : Z) : Z := 2 ^ level_shift level.
Definition cut_by (r : mmap_region_t) (level b : Z) : Prop :=
  if level =? 0 then mm_base_va r < b + bs level /\ b < mm_base_va r + mm_size r
  else b < mm_base_va r < b + bs level \/ b < mm_base_va r + mm_size r < b + bs level.
Context (Hcuts : forall r level b, r ∈ l -> lmin <= level -> 0 <= level <= 2 -> 0 <= b -> b mod bs level = 0 -> cut_by r level b -> (level, b / bs level) ∈ C).

(** ** The attributes of an area *)
Lemma region_attr_run l2 b n acc s : StronglySorted before l2 -> Forall region_ok l2 -> 0 <= b -> 0 < n -> b + n <= 2 ^ 64 ->
  exists out, mmap_region_attr (l2 ++ replicate (S k) end_region) b n acc s = Ret out s /\
    (forall a, out = Some a -> forall va, b <= va < b + n -> match inner None l2 va with Some r => mm_attr r = a | None => acc = Some a end) /\
    (out = None -> acc = None /\ Forall (fun r => forall va, b <= va < b + n -> contains r va = false) l2 \/
      exists r, r ∈ l2 /\ mm_base_va r < b + n /\ b < mm_base_va r + mm_size r /\ ~ (mm_base_va r <= b /\ b + n <= mm_base_va r + mm_size r)).
Proof.
  intros Hs Hl Hb Hn Hw. assert (Hu : u64 (b + n - 1) = b + n - 1) by (apply u64_small; lia). revert acc.
  induction Hs as [|x l2 Hs IH Hx]; intros acc.
  { exists acc. split_and!; [done|by intros a ->|intros ->; left; done]. }
  inversion Hl as [|?? Hxok Hl']; subst. cbn [mmap_region_attr app]. rewrite (proj2 (Z.eqb_neq _ 0)) by (destruct Hxok; lia).
  rewrite Hu. destruct (region_ends Hva Hpa x Hxok) as [-> _]. pose proof Hxok as (_ & Hxs & Hxv & _).
  destruct (Z.ltb_spec (b + n - 1) (mm_base_va x)) as [Hafter|Hin1].
  { assert (Hall : Forall (fun r => forall va, b <= va < b + n -> contains r va = false) (x :: l2)).
    { constructor; [|eapply List.Forall_impl; [|exact Hx]]; unfold contains, before; intros; lia. }
    exists acc. split_and!; [done| |by left]. intros a -> va Hva'. rewrite inner_none; [done|].
    eapply List.Forall_impl; [|exact Hall]. auto. }
  specialize (IH Hl'). destruct (Z.ltb_spec (mm_base_va x + mm_size x - 1) b) as [Hbefore|Hin2].
  { destruct (IH acc) as (out & Hrun & Hsome & Hnone). exists out. split_and!; [done| |].
    - intros a Ha va Hva'. specialize (Hsome a Ha va Hva'). cbn. replace (contains x va) with false by (unfold contains; lia). done.
    - intros Ho. destruct (Hnone Ho) as [[-> Hf]|(r & Hr & Hr')]; [left|right]; [|exists r; split; [by right|done]].
      split; [done|]. constructor; [intros va Hva'; unfold contains; lia|done]. }
  case_bool_decide as Hsame.
  { destruct (IH acc) as (out & Hrun & Hsome & Hnone). exists out. split_and!; [done| |].
    - intros a Ha va Hva'. specialize (Hsome a Ha va Hva'). cbn. destruct (contains x va); [|done]. rewrite inner_acc.
      destruct (inner None l2 va); [done|]. congruence.
    - intros Ho. destruct (Hnone Ho) as [[-> Hf]|(r & Hr & Hr')]; [done|]. right. exists r. split; [by right|done]. }
  destruct (Z.ltb_spec b (mm_base_va x)) as [Hp1|Hp1]; cbn [orb].
  { exists None. split_and!; [done|done|]. intros _. right. exists x. split; [by left|lia]. }
  destruct (Z.ltb_spec (mm_base_va x + mm_size x - 1) (b + n - 1)) as [Hp2|Hp2].
  { exists None. split_and!; [done|done|]. intros _. right. exists x. split; [by left|lia]. }
  destruct (IH (Some (mm_attr x))) as (out & Hrun & Hsome & Hnone). exists out. split_and!; [done| |].
  - intros a Ha va Hva'. specialize (Hsome a Ha va Hva'). cbn. replace (contains x va) with true by (unfold contains; lia). rewrite inner_acc.
    destruct (inner None l2 va); [done|]. congruence.
  - intros Ho. destruct (Hnone Ho) as [[? _]|(r & Hr & Hr')]; [done|]. right. exists r. split; [by right|done].
Qed.

(** The first region, when it meets the area, covers it if there is a result. *)
Lemma region_attr_first x l2 b n s a : region_ok x -> 0 <= b -> 0 < n -> b + n <= 2 ^ 64 -> mm_base_va x < b + n -> b < mm_base_va x + mm_size x ->
  mmap_region_attr (x :: l2) b n None s = Ret (Some a) s -> mm_base_va x <= b /\ b + n <= mm_base_va x + mm_size x.
Proof.
  intros Hx Hb Hn Hw H1 H2. cbn. assert (Hu : u64 (b + n - 1) = b + n - 1) by (apply u64_small; lia). rewrite Hu.
  destruct (region_ends Hva Hpa x Hx) as [-> _]. rewrite (proj2 (Z.eqb_neq _ 0)) by (destruct Hx; lia).
  rewrite (proj2 (Z.ltb_ge (b + n - 1) _)), (proj2 (Z.ltb_ge _ b)) by lia.
  destruct (Z.ltb_spec b (mm_base_va x)); cbn [orb]; [done|]. destruct (Z.ltb_spec (mm_base_va x + mm_size x - 1) (b + n - 1)); [done|]. lia.
Qed.

(** ** Tables in memory *)
Record layout : Prop := {
  ly_max : 0 <= MAX_XLAT_TABLES < 2 ^ 32 - 1;
  ly_align : xlat_tables_addr mod 4096 = 0;
  ly_addr : 0 <= xlat_tables_addr /\ xlat_tables_addr + 4096 * MAX_XLAT_TABLES <= 2 ^ 48;
  ly_apart : base_xlation_table_addr + 8 * NUM_BASE_LEVEL_ENTRIES <= xlat_tables_addr \/
    xlat_tables_addr + 4096 * MAX_XLAT_TABLES <= base_xlation_table_addr
}.
Context (Hlay : layout).

Definition tab s t : list Z := match t with None => base_xlation_table s | Some j => default [] (arr_get (xlat_tables s) j) end.
Definition taddr t : Z := match t with None => base_xlation_table_addr | Some j => table_addr j end.
Definition tlen t : Z := match t with None => NUM_BASE_LEVEL_ENTRIES | Some _ => 512 end.
Definition valid t : Prop := match t with None => True | Some j => 0 <= j < MAX_XLAT_TABLES end.
Definition wf s : Prop := Z.of_nat (length (xlat_tables s)) = MAX_XLAT_TABLES /\ Forall (fun row => length row = 512%nat) (xlat_tables s) /\
  Z.of_nat (length (base_xlation_table s)) = NUM_BASE_LEVEL_ENTRIES.

Lemma arr_get_some {A} (a : list A) i : 0 <= i < Z.of_nat (length a) -> exists x, arr_get a i = Some x.
Proof. intros Hi. destruct (arr_get_in_range a i Hi) as [x Hx]. by exists x. Qed.
Lemma tab_get s j : wf s -> 0 <= j < MAX_XLAT_TABLES -> arr_get (xlat_tables s) j = Some (tab s (Some j)) /\ length (tab s (Some j)) = 512%nat.
Proof.
  intros (Hl & Hf & _) Hj. destruct (arr_get_some (xlat_tables s) j ltac:(lia)) as [x Hx]. cbn. rewrite Hx. split; [done|]. cbn.
  apply (proj1 (Forall_forall _ _) Hf). unfold arr_get in Hx. destruct (0 <=? j); [|done]. by eapply list_elem_of_lookup_2.
Qed.
Lemma tab_length s t : wf s -> valid t -> Z.of_nat (length (tab s t)) = tlen t.
Proof. intros Hw Ht. destruct t as [j|]; [|by destruct Hw as (_ & _ & ?)]. destruct (tab_get s j Hw Ht) as [_ ->]. done. Qed.

(** Reading a descriptor through its address. *)
Lemma phys_entry_tab s t i : wf s -> valid t -> 0 <= i < tlen t -> phys_entry s (taddr t + 8 * i) = arr_get (tab s t) i.
Proof.
  intros Hw Ht Hi. unfold phys_entry. destruct Hw as (Hl & Hf & Hb). rewrite Hb. destruct Hlay as [_ _ _ Hap]. destruct t as [j|]; cbn [taddr tlen valid] in *.
  - unfold table_addr. change XLAT_TABLE_SIZE with 4096. replace (_ && _) with false by lia.
    replace (xlat_tables_addr + 4096 * j + 8 * i - xlat_tables_addr) with (8 * i + j * 4096) by lia.
    rewrite Z.div_add, Z.mod_add, (Z.div_small (8 * i)), (Z.mod_small (8 * i)) by lia. rewrite Z.add_0_l, Z.mul_comm, Z.div_mul by done.
    destruct (tab_get s j (conj Hl (conj Hf Hb)) Ht) as [-> _]. done.
  - replace (_ && _) with true by lia. replace (base_xlation_table_addr + 8 * i - base_xlation_table_addr) with (i * 8) by lia. by rewrite Z.div_mul.
Qed.

Lemma write_entry_run s t i d : wf s -> valid t -> 0 <= i < tlen t -> exists s', write_entry t i d s = Ret tt s' /\ wf s' /\
  s' = set_base_table (base_xlation_table s') (set_xlat_tables (xlat_tables s') s) /\
  tab s' t = <[Z.to_nat i := d]> (tab s t) /\ forall t', t' <> t -> tab s' t' = tab s t'.
Proof.
  intros Hw Ht Hi. pose proof (tab_length s t Hw Ht) as Hlen. assert (Hset : arr_set (tab s t) i d = Some (<[Z.to_nat i := d]> (tab s t))).
  { unfold arr_set. by rewrite (proj2 (Z.leb_le 0 i)), (proj2 (Z.ltb_lt i _)) by lia. }
  destruct t as [j|]; cbn [write_entry].
  - destruct (tab_get s j Hw Ht) as [Hg Hl5]. pose proof Hw as (Hl & Hf & Hb). cbn in Ht.
    erewrite bind_run by done. rewrite Hg. cbn [deref]. erewrite bind_run by done. rewrite Hset. erewrite bind_run by done.
    unfold arr_set at 1. rewrite (proj2 (Z.leb_le 0 j)), (proj2 (Z.ltb_lt j _)) by lia. erewrite bind_run by done. eexists. split; [reflexivity|].
    set (row := <[Z.to_nat i := d]> (tab s (Some j))). assert (Hrow : length row = 512%nat) by (unfold row; by rewrite length_insert).
    assert (Hget : forall j', arr_get (<[Z.to_nat j := row]> (xlat_tables s)) j' = if decide (j' = j) then Some row else arr_get (xlat_tables s) j').
    { intros j'. unfold arr_get. destruct (Z.leb_spec 0 j'); [|destruct (decide _); [lia|done]]. destruct (decide (j' = j)) as [->|Hne].
      - apply list_lookup_insert_eq. lia.
      - apply list_lookup_insert_ne. lia. }
    split_and!; [|by destruct s|cbn; by rewrite Hget, decide_True|].
    + split_and!; [cbn; by rewrite length_insert|cbn; by apply Forall_insert|done].
    + intros [j'|] Hne; cbn; [|done]. rewrite Hget, decide_False by congruence. done.
  - erewrite bind_run by done. cbn [tab] in Hset. rewrite Hset. erewrite bind_run by done. eexists. split; [reflexivity|].
    destruct Hw as (Hl & Hf & Hb). split_and!; [|by destruct s|done|by intros [j'|]].
    split_and!; [done|done|cbn; by rewrite length_insert].
Qed.

(** ** What the walk should find *)
Definition walked (va : Z) (res : option (Z * Z)) : Prop :=
  match inner None l va with
  | None => res = None
  | Some r => exists level pa, 1 <= level <= 3 /\ res = Some (Z.lor pa (low_bits (xn_of el) (mm_attr r) level), level) /\
      pa mod bs level = 0 /\ pa + va mod bs level = va - offset r
  end.

(** The part of the walk that follows the reading of a descriptor. *)
Definition step (n : nat) s (level va d : Z) : option (Z * Z) :=
  if negb (Z.testbit d 0) then None
  else if level =? 3 then (if Z.testbit d 1 then Some (d, level) else None)
  else if Z.testbit d 1 then walk n s (level + 1) (addr_field d 12) va
  else if level =? 0 then None
  else Some (d, level).
Lemma walk_step n s level t va : wf s -> valid t -> field va (level_shift level) 9 < tlen t ->
  walk (S n) s level (taddr t) va = arr_get (tab s t) (field va (level_shift level) 9) ≫= step n s level va.
Proof.
  intros Hw Ht Hi. cbn [walk]. rewrite phys_entry_tab; [done|done|done|]. split; [|done]. unfold field. rewrite Z.land_ones by lia. by apply Z.mod_pos_bound.
Qed.

(** Tables [lo] to [hi] are the same. *)
Definition agree (lo hi : Z) s s' : Prop := forall j, lo <= j < hi -> tab s' (Some j) = tab s (Some j).
Lemma agree_trans lo hi s1 s2 s3 : agree lo hi s1 s2 -> agree lo hi s2 s3 -> agree lo hi s1 s3.
Proof. intros H1 H2 j Hj. by rewrite H2, H1. Qed.

(** A descriptor for the area at [b] that is right as long as these tables stay. *)
Definition desc_ok (lo hi : Z) s (level d b : Z) : Prop :=
  forall s', wf s' -> agree lo hi s s' -> forall n va, 3 - level <= Z.of_nat n -> b <= va < b + bs level -> walked va (step n s' level va d).
Lemma desc_ok_mono lo hi lo' hi' s s' level d b : lo' <= lo -> hi <= hi' -> agree lo hi s s' -> desc_ok lo hi s level d b -> desc_ok lo' hi' s' level d b.
Proof.
  intros Hlo Hhi Ha Hd s2 Hw Ha2. apply Hd; [done|]. eapply agree_trans; [done|]. intros j Hj. apply Ha2. lia.
Qed.
Definition filled (n lo hi : Z) s t (level b : Z) : Prop :=
  forall j, 0 <= j < n -> exists d, arr_get (tab s t) j = Some d /\ desc_ok lo hi s level d (b + j * bs level).

Lemma bs_pos level : 0 <= level <= 3 -> 0 < bs level.
Proof. intros Hl. unfold bs, level_shift. apply Z.pow_pos_nonneg; lia. Qed.
Lemma bs_next level : 0 <= level <= 2 -> bs level = 512 * bs (level + 1).
Proof. intros Hl. unfold bs, level_shift. replace (12 + 9 * (3 - level)) with (9 + (12 + 9 * (3 - (level + 1)))) by lia. rewrite Z.pow_add_r by lia. done. Qed.

(** The index of an address in its table. *)
Lemma index_of level b va : 0 <= level <= 3 -> 0 <= b -> b mod (512 * bs level) = 0 -> b <= va < b + 512 * bs level ->
  field va (level_shift level) 9 = (va - b) / bs level /\ 0 <= (va - b) / bs level < 512 /\
  b + (va - b) / bs level * bs level <= va < b + (va - b) / bs level * bs level + bs level.
Proof.
  intros Hlv Hb Hal Hr. pose proof (bs_pos level Hlv) as Hbs. apply Z.mod_divide in Hal as [q Hq]; [|lia].
  assert (H0 : 0 <= (va - b) / bs level) by (apply Z.div_pos; lia). assert (H1 : (va - b) / bs level < 512) by (apply Z.div_lt_upper_bound; lia).
  pose proof (Z.div_mod (va - b) (bs level) ltac:(lia)) as Hdm. pose proof (Z.mod_pos_bound (va - b) (bs level) Hbs) as Hmb. split_and!; [|done|done|lia|lia].
  unfold field. rewrite Z.land_ones, Z.shiftr_div_pow2 by (unfold level_shift; lia). fold (bs level).
  assert (E : va / bs level = (va - b) / bs level + q * 512); [|by rewrite E, Z.mod_add, Z.mod_small].
  replace va with (va - b + q * 512 * bs level) at 1 by lia. by rewrite Z.div_add by lia.
Qed.

(** A table that is filled makes a descriptor that points to it right. *)
Lemma table_desc_ok lo hi s j level b : wf s -> 0 <= level <= 2 -> 0 <= j < MAX_XLAT_TABLES -> 0 <= b -> b mod bs level = 0 ->
  filled 512 lo hi s (Some j) (level + 1) b -> desc_ok (Z.min j lo) (Z.max (j + 1) hi) s level (Z.lor TABLE_DESC (table_addr j)) b.
Proof.
  intros Hw Hlv Hj Hb Hal Hf s' Hw' Ha n va Hn Hva'. destruct Hlay as [_ Halign [Ha0 Ha1] _].
  assert (Hta : table_addr j mod 2 ^ 12 = 0).
  { unfold table_addr. change XLAT_TABLE_SIZE with 4096. change (2 ^ 12) with 4096. rewrite Z.mul_comm, Z.mod_add by done. done. }
  assert (Htr : 0 <= table_addr j < 2 ^ 48) by (unfold table_addr; change XLAT_TABLE_SIZE with 4096; lia).
  unfold step. rewrite (Z.lor_comm TABLE_DESC), addr_field_lor by (done || lia).
  rewrite !(lor_bit_outside _ _ 12) by (done || lia). rewrite (proj2 (Z.eqb_neq level 3)) by lia. cbn [TABLE_DESC Z.testbit Pos.testbit negb].
  destruct n as [|n]; [lia|]. change (table_addr j) with (taddr (Some j)). rewrite bs_next in Hal, Hva' by lia.
  destruct (index_of (level + 1) b va ltac:(lia) Hb Hal Hva') as (Hidx & Hir & Hvr). rewrite walk_step, Hidx by (done || rewrite Hidx; cbn; lia).
  rewrite (Ha j) by lia. destruct (Hf _ Hir) as (d & -> & Hd). cbn. apply Hd; [done| |lia|done]. intros j' Hj'. apply Ha. lia.
Qed.

(** ** One entry *)
Definition overtaken (mm b : Z) : Prop := 0 <= mm <= Z.of_nat (length l) /\ Forall (fun r => mm_base_va r + mm_size r <= b) (take (Z.to_nat mm) l).
Definition built s : Prop := mmap s = l ++ replicate (S k) end_region /\ execute_never_mask s = xn_of el.
(** Why the construction may stop: out of tables, or an offset that a block
    descriptor cannot express. *)
Definition stops (h : halt) s : Prop :=
  h = HAssert /\ (MAX_XLAT_TABLES < Z.of_nat (length C) \/ exists r, r ∈ l /\ offset r mod 2 ^ 30 <> 0).

Lemma overtaken_inner mm b va : overtaken mm b -> b <= va -> inner None l va = inner None (drop (Z.to_nat mm) l) va.
Proof.
  intros [_ Ho] Hb. rewrite <- (take_drop (Z.to_nat mm) l) at 1. rewrite inner_app, (inner_none None (take _ l)); [done|].
  eapply List.Forall_impl; [|exact Ho]. cbn. intros r Hr. unfold contains. lia.
Qed.
Lemma overtaken_mono mm b b' : overtaken mm b -> b <= b' -> overtaken mm b'.
Proof. intros [Hm Ho] Hb. split; [done|]. eapply List.Forall_impl; [|exact Ho]. cbn. lia. Qed.

Lemma drop_mmap s mm : built s -> 0 <= mm <= Z.of_nat (length l) ->
  drop (Z.to_nat mm) (mmap s) = drop (Z.to_nat mm) l ++ replicate (S k) end_region.
Proof. intros [-> _] Hm. apply drop_app_le. lia. Qed.
Lemma get_mmap s mm : built s -> 0 <= mm <= Z.of_nat (length l) ->
  arr_get (mmap s) mm = Some (default end_region (head (drop (Z.to_nat mm) l))).
Proof.
  intros Hb Hm. unfold arr_get. rewrite (proj2 (Z.leb_le 0 mm)) by lia. replace (Z.to_nat mm) with (Z.to_nat mm + 0)%nat at 1 by lia.
  rewrite <- lookup_drop, drop_mmap by done. by destruct (drop (Z.to_nat mm) l).
Qed.
Lemma suffix_sorted mm : StronglySorted before (drop mm l) /\ Forall region_ok (drop mm l).
Proof.
  split; [|by apply Forall_drop]. revert mm. clear -Hsorted. induction Hsorted as [|x l' Hs IH Hx]; intros [|mm]; cbn; try done; try constructor; auto.
Qed.

Lemma invalid_ok lo hi s level b : (forall va, b <= va < b + bs level -> inner None l va = None) -> desc_ok lo hi s level INVALID_DESC b.
Proof. intros Hn s' _ _ n va _ Hva'. unfold walked. by rewrite Hn. Qed.

Lemma same_offset r r' va : r ∈ l -> r' ∈ l -> contains r va = true -> contains r' va = true -> offset r = offset r'.
Proof. intros Hr Hr' Hc Hc'. destruct (Hrel r r' Hr Hr') as [->|H']; [done|]. apply (related_common r r' va H' Hc Hc'). Qed.

Lemma block_mask_mod pa level : 0 <= level <= 3 -> Z.land pa (XLAT_BLOCK_MASK level) = pa mod bs level.
Proof.
  intros Hl. unfold bs. rewrite <- Z.land_ones by (unfold level_shift; lia). f_equal. unfold XLAT_BLOCK_MASK, XLAT_BLOCK_SIZE, XLAT_ADDR_SHIFT.
  rewrite Z.ones_equiv, Z.shiftl_1_l, Z.sub_1_r. do 2 f_equal. unfold level_shift, XLAT_TABLE_ENTRIES_SHIFT, XLAT_TABLE_LEVEL_MAX, PAGE_SIZE_SHIFT.
  rewrite u32_small; lia.
Qed.

(** A block or page descriptor for an area that one region covers, with the
    attribute of the innermost region everywhere. *)
Lemma leaf_ok lo hi s level b x a : 1 <= level <= 3 -> 0 <= b -> b mod bs level = 0 -> x ∈ l -> mm_base_va x <= b -> b + bs level <= mm_base_va x + mm_size x ->
  (forall va, b <= va < b + bs level -> match inner None l va with Some r => mm_attr r = a | None => False end) -> typed a -> offset x mod bs level = 0 ->
  let d := Z.lor (b - offset x) (low_bits (xn_of el) a level) in d <> UNSET_DESC /\ desc_ok lo hi s level d b.
Proof.
  intros Hlv Hb Hal Hx Hx1 Hx2 Hattr Hty Hof d. pose proof (proj1 (Forall_forall _ _) Hok x Hx) as (_ & _ & Hxv & Hxp). pose proof (bs_pos level ltac:(lia)) as Hbs.
  assert (Hpr : 0 <= b - offset x < 2 ^ 48) by (unfold offset; lia).
  assert (Hpm : (b - offset x) mod bs level = 0) by (rewrite Zminus_mod, Hal, Hof; apply Zmod_0_l).
  destruct (low_bits_field el a level Hty) as (Hlow & Hlr & Hl0 & Hl1). split.
  - intros E. assert (Hbit : Z.testbit d 60 = true) by (rewrite E; reflexivity). unfold d in Hbit.
    rewrite (lor_bit_outside _ _ (level_shift level)) in Hbit; [|unfold level_shift; lia|done|done|lia].
    by rewrite (small_bit_high _ 55 60) in Hbit by lia.
  - intros s' _ _ n va _ Hva'. specialize (Hattr va Hva'). unfold walked. destruct (inner None l va) as [r|] eqn:Er; [|done].
    apply inner_some in Er as [|[Hr Hcr]]; [done|]. exists level, (b - offset x).
    assert (Hbit : forall i, 0 <= i < 12 -> Z.testbit d i = Z.testbit (low_bits (xn_of el) a level) i)
      by (intros i Hi; apply (lor_bit_outside _ _ (level_shift level)); [unfold level_shift; lia|done|done|lia]).
    split_and!; [lia|lia| |done|].
    + unfold step. rewrite !Hbit, Hl0, Hl1 by lia. cbn [negb]. rewrite Hattr. fold d.
      destruct (Z.eqb_spec level 3); [done|]. by rewrite (proj2 (Z.eqb_neq level 0)) by lia.
    + rewrite (same_offset r x va Hr Hx Hcr ltac:(unfold contains; lia)). apply Z.mod_divide in Hal as [q Hq]; [|lia].
      replace (va mod bs level) with (va - b); [lia|]. replace va with (va - b + q * bs level) at 2 by lia. rewrite Z.mod_add by lia. rewrite Z.mod_small; lia.
Qed.

(** At the last level every region that meets a page covers it. *)
Lemma page_covered r b : region_ok r -> b mod bs 3 = 0 -> mm_base_va r < b + bs 3 -> b < mm_base_va r + mm_size r -> mm_base_va r <= b /\ b + bs 3 <= mm_base_va r + mm_size r.
Proof.
  change (bs 3) with 4096. intros ((_ & Hv & Hz) & _) Hb H1 H2. apply Z.mod_divide in Hv as [q1 E1]; [|done]. apply Z.mod_divide in Hz as [q2 E2]; [|done].
  apply Z.mod_divide in Hb as [q3 E3]; [|done]. lia.
Qed.

Definition entry_result s level d b : Prop := d <> UNSET_DESC /\ forall lo hi, desc_ok lo hi s level d b.
Lemma invalid_result s level b : (forall va, b <= va < b + bs level -> inner None l va = None) -> entry_result s level INVALID_DESC b.
Proof. intros Hn. split; [done|]. intros lo hi. by apply invalid_ok. Qed.

Lemma desc_run s level b x a : built s -> 1 <= level <= 3 -> 0 <= b -> b mod bs level = 0 -> x ∈ l -> mm_base_va x <= b -> b + bs level <= mm_base_va x + mm_size x ->
  (forall va, b <= va < b + bs level -> match inner None l va with Some r => mm_attr r = a | None => False end) -> typed a ->
  wp (mmap_desc a (u64 (b - mm_base_va x + mm_base_pa x)) level) (fun d s' => s' = s /\ entry_result s level d b) stops s.
Proof.
  intros [_ Hxn] Hlv Hb Hal Hx Hx1 Hx2 Hattr Hty. pose proof (proj1 (Forall_forall _ _) Hok x Hx) as (_ & _ & Hxv & Hxp). pose proof (bs_pos level ltac:(lia)) as Hbs.
  rewrite u64_small by lia. replace (b - mm_base_va x + mm_base_pa x) with (b - offset x) by (unfold offset; lia).
  apply wp_unfold. rewrite (mmap_desc_run _ _ _ _ Hty), Hassert, Hxn, block_mask_mod by lia.
  assert (Hmod : (b - offset x) mod bs level = 0 <-> offset x mod bs level = 0).
  { rewrite !Z.mod_divide by lia. apply Z.mod_divide in Hal; [|lia]. split; intros Hd.
    - replace (offset x) with (b - (b - offset x)) by lia. by apply Z.divide_sub_r.
    - by apply Z.divide_sub_r. }
  destruct (Z.eqb_spec ((b - offset x) mod bs level) 0) as [E|Hne]; cbn [andb negb].
  - split; [done|]. pose proof (fun lo hi => leaf_ok lo hi s level b x a Hlv Hb Hal Hx Hx1 Hx2 Hattr Hty (proj1 Hmod E)) as Hleaf. cbn zeta in Hleaf.
    split; [exact (proj1 (Hleaf 0 0))|intros lo hi; apply Hleaf].
  - split; [done|]. right. exists x. split; [done|]. intros Ho. apply Hne, Hmod. apply Z.mod_divide in Ho; [|done]. apply Z.mod_divide; [lia|].
    etransitivity; [|exact Ho]. unfold bs, level_shift. exists (2 ^ (30 - (12 + 9 * (3 - level)))). rewrite <- Z.pow_add_r by lia. f_equal. lia.
Qed.

Lemma entry_desc_ok s mm b level : built s -> overtaken mm b -> 0 <= level <= 3 -> lmin <= level -> 0 <= b -> b mod bs level = 0 -> b + bs level <= PLAT_VIRT_ADDR_SPACE_SIZE ->
  let m := default end_region (head (drop (Z.to_nat mm) l)) in (mm_size m <> 0 -> b < mm_base_va m + mm_size m) ->
  wp (entry_desc mm m b (bs level) level)
    (fun d s' => s' = s /\ (d = UNSET_DESC /\ level <= 2 /\ (level, b / bs level) ∈ C \/ entry_result s level d b)) stops s.
Proof.
  intros Hbt Hov Hlv Hmin Hb Hal Hsz m Hm. pose proof (bs_pos level Hlv) as Hbs. pose proof (suffix_sorted (Z.to_nat mm)) as [Hss Hso].
  unfold entry_desc. rewrite u64_small by lia. destruct (drop (Z.to_nat mm) l) as [|x l2] eqn:Ed; cbn [head default from_option id] in m; unfold m in *.
  - assert (Hres : entry_result s level INVALID_DESC b).
    { apply invalid_result. intros va Hva'. rewrite (overtaken_inner mm b) by (done || lia). by rewrite Ed. }
    cbn [mm_base_va mm_size end_region Z.eqb]. rewrite (proj2 (Z.ltb_ge _ 0)) by lia. destruct (MIN_LVL_BLOCK_DESC <=? level); [|apply wp_ret; tauto].
    apply wp_bind, wp_gets, wp_bind. rewrite (drop_mmap s mm Hbt (proj1 Hov)), Ed. cbn. by apply wp_ret, wp_ret; auto.
  - assert (Hx : x ∈ l) by (rewrite <- (take_drop (Z.to_nat mm) l), Ed; apply elem_of_app; right; by left). pose proof (proj1 (Forall_forall _ _) Hok x Hx) as Hxok.
    pose proof Hxok as (_ & Hxs & Hxv & _). specialize (Hm ltac:(lia)). rewrite (proj2 (Z.eqb_neq (mm_size x) 0)) by lia.
    destruct (Z.ltb_spec (b + bs level - 1) (mm_base_va x)) as [Hafter|Hmeet].
    { apply wp_ret. split; [done|]. right. apply invalid_result. intros va Hva'. rewrite (overtaken_inner mm b), Ed by (done || lia).
      apply inner_none. inversion Hss as [|?? _ Hf]; subst. constructor; [unfold contains; lia|]. eapply List.Forall_impl; [|exact Hf].
      cbn. intros y Hy. unfold contains, before in *. lia. }
    destruct (Z.leb_spec MIN_LVL_BLOCK_DESC level) as [Hblk|Hl0]; unfold MIN_LVL_BLOCK_DESC in *.
    2:{ apply wp_ret. split; [done|]. left. assert (level = 0) as -> by lia. split_and!; [done|done|]. apply (Hcuts x); try done. cbn. lia. }
    apply wp_bind, wp_gets, wp_bind. rewrite (drop_mmap s mm Hbt (proj1 Hov)), Ed.
    destruct (region_attr_run (x :: l2) b (bs level) None s Hss Hso Hb Hbs ltac:(lia)) as (out & Hrun & Hsome & Hnone).
    eapply wp_run; [exact Hrun|]. destruct out as [a|].
    + destruct (region_attr_first x _ b (bs level) s a Hxok Hb Hbs ltac:(lia) ltac:(lia) ltac:(lia) Hrun) as [Hc1 Hc2].
      assert (Hattr : forall va, b <= va < b + bs level -> match inner None l va with Some r => mm_attr r = a | None => False end).
      { intros va Hva'. rewrite (overtaken_inner mm b), Ed by (done || lia). specialize (Hsome a eq_refl va Hva'). by destruct (inner None (x :: l2) va). }
      assert (Hta : typed a).
      { specialize (Hattr b ltac:(lia)). destruct (inner None l b) as [r|] eqn:Er; [|done]. apply inner_some in Er as [|[Hr _]]; [done|].
        rewrite <- Hattr. by apply (proj1 (Forall_forall _ _) Htyped). }
      eapply wp_mono; [apply desc_run; done || lia| |done]. cbn. intros d s' [-> Hd]. split; [done|]. by right.
    + apply wp_ret. split; [done|]. left. destruct (Hnone eq_refl) as [[_ Hf]|(r & Hr & Hr1 & Hr2 & Hr3)].
      { inversion Hf as [|?? Hf1 _]; subst. specialize (Hf1 (Z.max b (mm_base_va x)) ltac:(lia)). unfold contains in Hf1. lia. }
      destruct (Z.le_gt_cases level 2) as [Hl2|Hl3].
      * split_and!; [done|done|]. apply (Hcuts r); try done; try lia.
        -- rewrite <- (take_drop (Z.to_nat mm) l), Ed. apply elem_of_app. by right.
        -- unfold cut_by. rewrite (proj2 (Z.eqb_neq level 0)) by lia. lia.
      * exfalso. assert (level = 3) as -> by lia. apply Hr3. apply page_covered; [by apply (proj1 (Forall_forall _ _) Hso)|done|done|done].
Qed.

(** ** How many tables are used *)
Definition counted (level lo hi : Z) (p : Z * Z) : Prop := level <= p.1 /\ 0 <= p.1 <= 2 /\ lo <= p.2 * bs p.1 /\ (p.2 + 1) * bs p.1 <= hi.
#[local] Instance counted_dec level lo hi p : Decision (counted level lo hi p).
Proof. unfold counted. apply _. Defined.
Definition cnt (level lo hi : Z) : Z := Z.of_nat (length (filter (counted level lo hi) C)).

Lemma filter_disjoint {A} (P Q R : A -> Prop) `{!forall x, Decision (P x)} `{!forall x, Decision (Q x)} `{!forall x, Decision (R x)} (xs : list A) :
  (forall x, P x -> Q x -> False) -> (forall x, P x -> R x) -> (forall x, Q x -> R x) ->
  (length (filter P xs) + length (filter Q xs) <= length (filter R xs))%nat.
Proof.
  intros Hd HP HQ. induction xs as [|x xs IH]; [done|]. rewrite !filter_cons.
  destruct (decide (P x)) as [HPx|], (decide (Q x)) as [HQx|], (decide (R x)) as [|HR]; cbn; try lia; exfalso; eauto.
Qed.
Lemma cnt_split level lo mid hi : lo <= mid <= hi -> cnt level lo mid + cnt level mid hi <= cnt level lo hi.
Proof.
  intros Hr. unfold cnt. pose proof (filter_disjoint (counted level lo mid) (counted level mid hi) (counted level lo hi) C) as Hd.
  assert (Hpos : forall p : Z * Z, 0 <= p.1 <= 2 -> 0 < bs p.1) by (intros p Hp; apply bs_pos; lia).
  unfold counted in *. specialize (Hd ltac:(intros p Hp Hq; specialize (Hpos p); lia) ltac:(intros p Hp; lia) ltac:(intros p Hp; lia)). lia.
Qed.
Lemma cnt_cut level b : 0 <= level <= 2 -> b mod bs level = 0 -> (level, b / bs level) ∈ C -> 1 + cnt (level + 1) b (b + bs level) <= cnt level b (b + bs level).
Proof.
  intros Hl Hal Hin. unfold cnt. pose proof (bs_pos level ltac:(lia)) as Hbs. apply Z.mod_divide in Hal as [q Hq]; [|lia].
  pose proof (filter_disjoint (fun p => p = (level, b / bs level)) (counted (level + 1) b (b + bs level)) (counted level b (b + bs level)) C) as Hd.
  assert (H1 : 1 <= Z.of_nat (length (filter (fun p => p = (level, b / bs level)) C))).
  { clear -Hin. induction C as [|x xs IH]; [by apply elem_of_nil in Hin|]. rewrite filter_cons. destruct (decide _) as [|Hne]; [cbn; lia|].
    apply elem_of_cons in Hin as [E|Hin]; [by destruct Hne|]. by apply IH. }
  specialize (Hd ltac:(intros p -> [Hp _]; cbn in Hp; lia)). assert (b / bs level = q) as E by (rewrite Hq; apply Z.div_mul; lia).
  specialize (Hd ltac:(intros p ->; unfold counted; cbn; rewrite E; lia) ltac:(intros p; unfold counted; lia)). lia.
Qed.
Lemma cnt_nonneg level lo hi : 0 <= cnt level lo hi.
Proof. unfold cnt. lia. Qed.

Lemma cnt_le level lo hi : cnt level lo hi <= Z.of_nat (length C).
Proof. unfold cnt. pose proof (length_filter (counted level lo hi) C). lia. Qed.

(** ** A whole table *)
Record frame t s s' : Prop := {
  fr_only : s' = set_next_xlat (next_xlat s') (set_base_table (base_xlation_table s') (set_xlat_tables (xlat_tables s') s));
  fr_next : next_xlat s <= next_xlat s' <= MAX_XLAT_TABLES;
  fr_wf : wf s';
  fr_tabs : forall t', t' <> t -> match t' with Some j => 0 <= j < next_xlat s | None => True end -> tab s' t' = tab s t'
}.
Lemma frame_built t s s' : frame t s s' -> built s -> built s'.
Proof. intros [-> _ _ _] Hb. exact Hb. Qed.
Lemma frame_agree t s s' lo : frame t s s' -> match t with Some j => j < lo | None => True end -> 0 <= lo -> agree lo (next_xlat s) s s'.
Proof. intros Hf Ht Hlo j Hj. apply (fr_tabs _ _ _ Hf); [|lia]. intros <-. lia. Qed.
Lemma frame_trans t s1 s2 s3 : frame t s1 s2 -> frame t s2 s3 -> frame t s1 s3.
Proof.
  intros [H1 Hn1 Hw1 Ht1] [H2 Hn2 Hw2 Ht2]. split; [|lia|done|].
  - rewrite H2 at 1. rewrite H1. done.
  - intros t' Hne Hj. rewrite Ht2, Ht1; [done|done|done|done|]. destruct t'; [lia|done].
Qed.

Lemma more_entries_run level b j n : 0 <= level <= 3 -> 0 <= b -> b mod (512 * bs level) = 0 -> 1 <= j <= n -> n <= 512 ->
  b + n * bs level <= PLAT_VIRT_ADDR_SPACE_SIZE -> n = 512 \/ b + n * bs level = PLAT_VIRT_ADDR_SPACE_SIZE ->
  more_entries (b + j * bs level) (511 * bs level) = (j <? n).
Proof.
  intros Hlv Hb Hal Hj Hn Hsz Hend. pose proof (bs_pos level Hlv) as Hbs. apply Z.mod_divide in Hal as [q Hq]; [|lia].
  unfold more_entries. rewrite u64_small by nia.
  assert (Hland : Z.land (b + j * bs level) (511 * bs level) = (j mod 512) * bs level).
  { replace (b + j * bs level) with ((j + q * 512) * bs level) by nia. unfold bs. rewrite <- !Z.shiftl_mul_pow2 by (unfold level_shift; lia).
    rewrite <- Z.shiftl_land. f_equal. change 511 with (Z.ones 9). rewrite Z.land_ones by lia. apply Z.mod_add. done. }
  rewrite Hland. unfold truthy. destruct (Z.ltb_spec j n) as [Hlt|Hge].
  - rewrite Z.mod_small by lia. rewrite (proj2 (Z.eqb_neq _ 0)) by nia. cbn [negb andb]. apply Z.ltb_lt. nia.
  - assert (j = n) as -> by lia. destruct Hend as [->|He]; [done|]. rewrite He, Z.ltb_irrefl. apply andb_false_r.
Qed.

Definition ready (mm b : Z) : Prop :=
  let m := default end_region (head (drop (Z.to_nat mm) l)) in mm_size m <> 0 -> b < mm_base_va m + mm_size m.

Section loop.
Context (f : Z -> Z -> option Z -> Z -> M xlat_state Z) (level : Z) (Hlv : 0 <= level <= 3) (Hmin : lmin <= level).
(** The finer tables are built correctly. *)
Context (Hin : level <= 2 -> forall mm b j s, built s -> wf s -> 0 <= j < next_xlat s -> next_xlat s <= MAX_XLAT_TABLES -> 0 <= b -> b mod bs level = 0 ->
  b + bs level <= PLAT_VIRT_ADDR_SPACE_SIZE -> overtaken mm b -> ready mm b -> (Z.of_nat (length C) <= MAX_XLAT_TABLES -> next_xlat s + cnt (level + 1) b (b + bs level) <= MAX_XLAT_TABLES) ->
  wp (f mm b (Some j) (level + 1)) (fun mm' s' => frame (Some j) s s' /\ next_xlat s' <= next_xlat s + cnt (level + 1) b (b + bs level) /\ (mm <= mm' /\ overtaken mm' (b + bs level)) /\
    filled 512 (next_xlat s) (next_xlat s') s' (Some j) (level + 1) b) stops s).

(** The descriptor of an entry, with the finer table where one is needed. *)
Lemma finer_ok s mm b d lo : built s -> wf s -> 0 <= lo <= next_xlat s -> next_xlat s <= MAX_XLAT_TABLES -> 0 <= b -> b mod bs level = 0 ->
  b + bs level <= PLAT_VIRT_ADDR_SPACE_SIZE -> overtaken mm b -> ready mm b ->
  d = UNSET_DESC /\ level <= 2 /\ (level, b / bs level) ∈ C \/ entry_result s level d b ->
  (Z.of_nat (length C) <= MAX_XLAT_TABLES -> next_xlat s + cnt level b (b + bs level) <= MAX_XLAT_TABLES) ->
  wp (if d =? UNSET_DESC then
        let! j := gets next_xlat in
        modify (set_next_xlat (u32 (j + 1))) ;;;
        x_assert (u32 (j + 1) <=? MAX_XLAT_TABLES) ;;;
        let! mm := f mm b (Some j) (level + 1) in
        ret (mm, Z.lor TABLE_DESC (table_addr j))
      else ret (mm, d))
    (fun r s' => (s' = set_next_xlat (next_xlat s') (set_base_table (base_xlation_table s') (set_xlat_tables (xlat_tables s') s)) /\
       (next_xlat s <= next_xlat s' <= MAX_XLAT_TABLES /\ next_xlat s' <= next_xlat s + cnt level b (b + bs level)) /\ wf s' /\
       forall t', match t' with Some j => 0 <= j < next_xlat s | None => True end -> tab s' t' = tab s t') /\
      (mm <= r.1 /\ overtaken r.1 (b + bs level)) /\ desc_ok lo (next_xlat s') s' level r.2 b) stops s.
Proof.
  intros Hbt Hw Hlo Hmax Hb Hal Hsz Hov Hrd Hd Hbud. pose proof (bs_pos level Hlv) as Hbs. pose proof (ly_max Hlay) as Hmr. pose proof (cnt_nonneg level b (b + bs level)) as Hc0.
  destruct Hd as [(-> & Hl2 & Hcut)|[Hne Hd]].
  - rewrite Z.eqb_refl. apply wp_bind, wp_gets, wp_bind, wp_modify, wp_bind. rewrite u32_small by lia. apply wp_unfold. rewrite x_assert_run by done.
    pose proof (cnt_cut level b ltac:(lia) Hal Hcut) as Hcc. pose proof (cnt_nonneg (level + 1) b (b + bs level)) as Hc1.
    destruct (Z.leb_spec (next_xlat s + 1) MAX_XLAT_TABLES) as [Hle|Hgt]; [|split; [done|left; lia]]. apply wp_bind.
    set (s1 := set_next_xlat (next_xlat s + 1) s).
    eapply wp_mono; [apply (Hin Hl2 mm b (next_xlat s) s1); try done; cbn; lia| |done]. cbn beta. intros mm' s2 (Hfr & Hnb & [Hge Hov'] & Hfill).
    apply wp_ret. destruct Hfr as [Ho Hn Hw2 Ht]. change (next_xlat s1) with (next_xlat s + 1) in *. split_and!; [|lia|lia|lia|done| |cbn; lia|done|].
    + rewrite Ho at 1. done.
    + intros t' Hj. apply Ht; [destruct t' as [j|]; [intros [= ->]; lia|done]|]. destruct t'; [lia|done].
    + cbn [snd]. eapply desc_ok_mono; [| | |apply (table_desc_ok (next_xlat s + 1) (next_xlat s2) s2 (next_xlat s) level b); done || lia]; [lia|lia|done].
  - rewrite (proj2 (Z.eqb_neq _ _) Hne). apply wp_ret. split_and!; [by destruct s|lia|lia|lia|done|done|cbn; lia|eapply overtaken_mono; [done|lia]|apply Hd].
Qed.

(** The next region, when the current one has been overtaken. *)
Lemma overtaken_next mm b : overtaken mm b -> let m := default end_region (head (drop (Z.to_nat mm) l)) in
  mm_size m <> 0 -> mm_base_va m + mm_size m <= b -> overtaken (mm + 1) b.
Proof.
  intros [Hm Ho] m Hz Hle. unfold m in *. destruct (drop (Z.to_nat mm) l) as [|x l2] eqn:Ed; [done|]. cbn in Hle.
  assert (Hlt : (Z.to_nat mm < length l)%nat).
  { destruct (decide (Z.to_nat mm < length l)%nat); [done|]. by rewrite drop_ge in Ed by lia. }
  split; [lia|]. replace (Z.to_nat (mm + 1)) with (S (Z.to_nat mm)) by lia. rewrite (take_S_r l (Z.to_nat mm) x).
  - apply Forall_app. split; [done|]. by repeat constructor.
  - rewrite <- (Nat.add_0_r (Z.to_nat mm)), <- lookup_drop, Ed. done.
Qed.

Lemma filled_next i lo hi hi' s s' t b d : 0 <= i -> hi <= hi' -> agree lo hi s s' -> (forall j, 0 <= j < i -> arr_get (tab s' t) j = arr_get (tab s t) j) ->
  filled i lo hi s t level b -> arr_get (tab s' t) i = Some d -> desc_ok lo hi' s' level d (b + i * bs level) -> filled (i + 1) lo hi' s' t level b.
Proof.
  intros Hi Hhi Ha Hsame Hf Hd Hok' j Hj. destruct (decide (j = i)) as [->|Hne]; [by exists d|]. destruct (Hf j ltac:(lia)) as (dj & Hdj & Hoj).
  exists dj. rewrite Hsame by lia. split; [done|]. by eapply desc_ok_mono; [| | |exact Hoj].
Qed.

Lemma entries_ok t b num lo (Ht : valid t) (Hb : 0 <= b) (Hal : b mod (512 * bs level) = 0) (Hnum : num <= tlen t) (Hn5 : num <= 512)
  (Hsz : b + num * bs level <= PLAT_VIRT_ADDR_SPACE_SIZE) (Hend : num = 512 \/ b + num * bs level = PLAT_VIRT_ADDR_SPACE_SIZE)
  (Hlo : match t with Some j => j < lo | None => True end) n : forall i mm s,
  built s -> wf s -> 0 <= lo <= next_xlat s -> next_xlat s <= MAX_XLAT_TABLES -> 0 <= i < num -> overtaken mm (b + i * bs level) ->
  (i = 0 -> ready mm b) -> num - i + (Z.of_nat (length l) - mm) <= Z.of_nat n -> filled i lo (next_xlat s) s t level b ->
  (Z.of_nat (length C) <= MAX_XLAT_TABLES -> next_xlat s + cnt level (b + i * bs level) (b + num * bs level) <= MAX_XLAT_TABLES) ->
  wp (entries_loop f n level (bs level) (511 * bs level) t i mm (b + i * bs level))
    (fun mm' s' => frame t s s' /\ next_xlat s' <= next_xlat s + cnt level (b + i * bs level) (b + num * bs level) /\
      (mm <= mm' /\ overtaken mm' (b + num * bs level)) /\ filled num lo (next_xlat s') s' t level b) stops s.
Proof.
  pose proof (bs_pos level Hlv) as Hbs. induction n as [|n IH]; intros i mm s Hbt Hw Hls Hmax Hi Hov Hfirst Hfuel Hfill Hbud; [destruct Hov; lia|].
  cbn [entries_loop]. unfold get_mm. apply wp_bind. apply wp_bind, wp_gets. rewrite (get_mmap s mm Hbt (proj1 Hov)). apply wp_ret.
  set (m := default end_region (head (drop (Z.to_nat mm) l))). set (bi := b + i * bs level) in *.
  assert (Hbi : 0 <= bi /\ bi + bs level <= PLAT_VIRT_ADDR_SPACE_SIZE) by (unfold bi; nia).
  assert (Hmend : mm_size m <> 0 -> mm_end_va m = mm_base_va m + mm_size m - 1).
  { intros Hz. apply (region_ends Hva Hpa). pose proof (proj2 (suffix_sorted (Z.to_nat mm))) as Hso. unfold m in *.
    destruct (drop (Z.to_nat mm) l); [done|]. by inversion Hso. }
  destruct (negb (mm_size m =? 0) && (mm_end_va m <? bi)) eqn:Hc.
  - apply andb_true_iff in Hc as [Hz Hlt]. apply negb_true_iff, Z.eqb_neq in Hz. apply Z.ltb_lt in Hlt. rewrite Hmend in Hlt by done.
    assert (Hi0 : i <> 0) by (intros ->; specialize (Hfirst eq_refl Hz); fold m in Hfirst; unfold bi in *; lia).
    unfold bi at 1. rewrite (more_entries_run level b i num) by (done || lia). rewrite (proj2 (Z.ltb_lt i num)) by lia.
    eapply wp_mono; [apply (IH i (mm + 1) s); try done; [apply overtaken_next; [done|done|fold m; lia]|lia]| |done].
    cbn. intros mm' s' (Hfr & Hnb & [Hge Hov'] & Hf'). split_and!; [done|done|lia|done|done].
  - assert (Hrd : ready mm bi).
    { intros Hz. fold m in Hz |- *. apply andb_false_iff in Hc as [Hc|Hc]; [apply negb_false_iff, Z.eqb_eq in Hc; lia|].
      apply Z.ltb_ge in Hc. rewrite Hmend in Hc by done. lia. }
    assert (Hali : bi mod bs level = 0).
    { unfold bi. rewrite Z.mod_add by lia. apply Z.mod_divide in Hal as [q Hq]; [|lia]. apply Z.mod_divide; [lia|]. exists (q * 512). lia. }
    pose proof (cnt_split level bi (bi + bs level) (b + num * bs level) ltac:(unfold bi; nia)) as Hsplit.
    pose proof (cnt_nonneg level (bi + bs level) (b + num * bs level)) as Hrest.
    apply wp_bind. eapply wp_mono; [apply (entry_desc_ok s mm bi level); done || lia| |done]. cbn beta. intros d s1 [-> Hd]. apply wp_bind.
    eapply wp_mono; [apply (finer_ok s mm bi d lo); try done; try lia; destruct Hd; tauto| |done]. cbn beta. intros [mm1 d1] s1 ((Ho1 & [Hn1 Hnc] & Hw1 & Ht1) & [Hmm1 Hov1] & Hd1).
    cbn [fst snd] in *. destruct (write_entry_run s1 t i d1 Hw1 Ht ltac:(lia)) as (s2 & Hwr & Hw2 & Ho2 & Htab & Hoth).
    apply wp_bind. eapply wp_run; [exact Hwr|]. assert (Hfr : frame t s s2).
    { split; [|rewrite Ho2; cbn; lia|done|].
      - rewrite Ho2 at 1. rewrite Ho1. cbn. rewrite Ho2. cbn. done.
      - intros t' Hne Hj. rewrite Hoth by done. by apply Ht1. }
    assert (Hns : next_xlat s2 = next_xlat s1) by (by rewrite Ho2).
    assert (Hag : agree lo (next_xlat s1) s1 s2) by (intros j Hj; apply Hoth; intros <-; lia).
    assert (Hfill' : filled (i + 1) lo (next_xlat s2) s2 t level b).
    { pose proof (tab_length s1 t Hw1 Ht) as Hlen. assert (Htt : tab s1 t = tab s t) by (apply Ht1; destruct t; cbn in *; lia || done).
      apply (filled_next i lo (next_xlat s) (next_xlat s2) s s2 t b d1); [lia|lia| | |done| |].
      - apply (frame_agree t); [done|done|lia].
      - intros j Hj. rewrite Htab, Htt. unfold arr_get. destruct (0 <=? j); [|done]. apply list_lookup_insert_ne. lia.
      - rewrite Htab. unfold arr_get. rewrite (proj2 (Z.leb_le 0 i)) by lia. apply list_lookup_insert_eq. lia.
      - rewrite Hns. by eapply desc_ok_mono; [| |exact Hag|exact Hd1]. }
    rewrite u64_small by lia. replace (bi + bs level) with (b + (i + 1) * bs level) in * by (unfold bi; lia).
    rewrite (more_entries_run level b (i + 1) num) by (done || lia). destruct (Z.ltb_spec (i + 1) num) as [Hlt|Hge].
    + eapply wp_mono; [apply (IH (i + 1) mm1 s2); try done; try lia; by eapply frame_built| |done].
      cbn. intros mm' s' (Hfr' & Hnb & [Hge Hov'] & Hf'). split_and!; [by eapply frame_trans|lia|lia|done|done].
    + apply wp_ret. assert (i + 1 = num) as <- by lia. split_and!; [done|lia|lia|done|done].
Qed.
End loop.

(** The table for an area and everything below it. *)
Lemma level_size_bs level : 0 <= level <= 3 -> u32 (L0_XLAT_ADDRESS_SHIFT - level * XLAT_TABLE_ENTRIES_SHIFT) = level_shift level.
Proof. intros Hl. unfold level_shift, L0_XLAT_ADDRESS_SHIFT, L1_XLAT_ADDRESS_SHIFT, L2_XLAT_ADDRESS_SHIFT, L3_XLAT_ADDRESS_SHIFT, XLAT_TABLE_ENTRIES_SHIFT, PAGE_SIZE_SHIFT. rewrite u32_small; lia. Qed.

Lemma inner_table_ok depth : forall level t b num mm s, 0 <= level <= 3 -> lmin <= level -> 4 <= Z.of_nat depth + level -> valid t -> 0 <= b -> b mod (512 * bs level) = 0 ->
  num <= tlen t -> 1 <= num <= 512 -> b + num * bs level <= PLAT_VIRT_ADDR_SPACE_SIZE -> num = 512 \/ b + num * bs level = PLAT_VIRT_ADDR_SPACE_SIZE ->
  match t with Some j => j < next_xlat s | None => True end -> built s -> wf s -> 0 <= next_xlat s <= MAX_XLAT_TABLES -> overtaken mm b -> ready mm b ->
  (Z.of_nat (length C) <= MAX_XLAT_TABLES -> next_xlat s + cnt level b (b + num * bs level) <= MAX_XLAT_TABLES) ->
  wp (init_xlation_table_inner depth mm b t level)
    (fun mm' s' => frame t s s' /\ next_xlat s' <= next_xlat s + cnt level b (b + num * bs level) /\
      (mm <= mm' /\ overtaken mm' (b + num * bs level)) /\ filled num (next_xlat s) (next_xlat s') s' t level b) stops s.
Proof.
  induction depth as [|depth IH]; intros level t b num mm s Hlv Hmin Hdep Ht Hb Hal Hnum Hn5 Hsz Hend Hj Hbt Hw Hmax Hov Hrd Hbud; [lia|].
  cbn [init_xlation_table_inner]. apply wp_bind, wp_unfold. rewrite x_assert_run by done.
  rewrite (proj2 (Z.leb_le XLAT_TABLE_LEVEL_MIN level)), (proj2 (Z.leb_le level XLAT_TABLE_LEVEL_MAX)) by (unfold XLAT_TABLE_LEVEL_MIN, XLAT_TABLE_LEVEL_MAX; lia).
  cbn [andb]. rewrite level_size_bs by done. apply wp_bind. rewrite (proj2 (Z.leb_gt 64 _)) by (unfold level_shift; lia). apply wp_ret.
  assert (Hshift : 0 <= level_shift level <= 39) by (unfold level_shift; lia). apply wp_bind, wp_gets.
  rewrite !Z.shiftl_mul_pow2, Z.mul_1_l by lia. fold (bs level). change XLAT_TABLE_ENTRIES_MASK with 511.
  rewrite u64_small by (unfold bs; pose proof (Z.pow_le_mono_r 2 _ _ ltac:(lia) (proj2 Hshift)); lia).
  replace b with (b + 0 * bs level) at 1 by lia.
  eapply wp_mono; [apply (entries_ok (init_xlation_table_inner depth) level Hlv Hmin) with (b := b) (num := num) (lo := next_xlat s); try done; try lia| |done].
  - intros Hl2 mm1 b1 j s1 Hbt1 Hw1 Hj1 Hm1 Hb1 Hal1 Hsz1 Hov1 Hrd1 Hbud1. rewrite bs_next in * by lia.
    apply (IH (level + 1) (Some j) b1 512 mm1 s1); try done; cbn; lia.
  - by rewrite Z.mul_0_l, Z.add_0_r.
  - rewrite (proj1 Hbt), length_app, length_replicate. change (Z.to_nat XLAT_TABLE_ENTRIES) with 512%nat. destruct Hov as [? _]. lia.
  - intros j' Hj'. lia.
  - by rewrite Z.mul_0_l, Z.add_0_r.
  - cbn beta. by rewrite Z.mul_0_l, Z.add_0_r.
Qed.
End build.
