(* ===== verification/XlatProps.v ===== *)
(** * From memory regions to the MMU

    The list of regions that [mmap_add] leaves, and the translation that the
    MMU performs after [init_xlat_tables] and [enable_mmu_el1/3]. *)
From stdpp Require Import base list numbers option sorting.
From Stdlib Require Import ZArith Lia.
From S2P Require Import Prelude XlatTables XlatWalk XlatMmap XlatBuild.
#[local] Open Scope Z_scope.

(** ** Sizes *)
Lemma power_of_two x : 0 < x -> IS_POWER_OF_TWO x = true -> x = 2 ^ Z.log2 x.
Proof.
  intros Hx Hp. unfold IS_POWER_OF_TWO in Hp. apply Z.eqb_eq in Hp. pose proof (Z.log2_spec x Hx) as [Hlo Hhi]. pose proof (Z.log2_nonneg x) as Hn.
  destruct (Z.eq_dec x (2 ^ Z.log2 x)) as [|Hne]; [done|]. exfalso.
  assert (Hl : Z.log2 (x - 1) = Z.log2 x) by (apply Z.log2_unique; lia).
  assert (Hb : Z.testbit (Z.land x (x - 1)) (Z.log2 x) = true).
  { rewrite Z.land_spec, Z.bit_log2 by done. rewrite <- Hl at 1. apply Z.bit_log2. pose proof (Z.pow_pos_nonneg 2 (Z.log2 x) ltac:(lia) Hn). lia. }
  rewrite Hp in Hb. by rewrite Z.testbit_0_l in Hb.
Qed.

(** The widths of the virtual address spaces that the build accepts. *)
Lemma virt_space_width size : CHECK_VIRT_ADDR_SPACE_SIZE size = true -> exists w, size = 2 ^ w /\ 25 <= w <= 48.
Proof.
  unfold CHECK_VIRT_ADDR_SPACE_SIZE. rewrite !andb_true_iff, !Z.leb_le. intros [[Hlo Hhi] Hp]. exists (Z.log2 size).
  change MIN_VIRT_ADDR_SPACE_SIZE with (2 ^ 25) in Hlo. change MAX_VIRT_ADDR_SPACE_SIZE with (2 ^ 48) in Hhi.
  split; [apply power_of_two; [lia|done]|]. split.
  - change 25 with (Z.log2 (2 ^ 25)). by apply Z.log2_le_mono.
  - change 48 with (Z.log2 (2 ^ 48)). by apply Z.log2_le_mono.
Qed.
(** The base level and the number of its entries. *)
Definition base_level (w : Z) : Z := if w <? 31 then 2 else if w <? 40 then 1 else 0.
Lemma base_level_of w : 25 <= w <= 48 -> GET_XLAT_TABLE_LEVEL_BASE (2 ^ w) = base_level w /\
  GET_NUM_BASE_LEVEL_ENTRIES (2 ^ w) = 2 ^ (w - level_shift (base_level w)) /\ 4 <= w - level_shift (base_level w) + 3 <= 12.
Proof.
  intros Hw. assert (Hall : Forall (fun w => GET_XLAT_TABLE_LEVEL_BASE (2 ^ w) = base_level w /\
    GET_NUM_BASE_LEVEL_ENTRIES (2 ^ w) = 2 ^ (w - level_shift (base_level w)) /\ 4 <= w - level_shift (base_level w) + 3 <= 12) (seqZ 25 24)).
  { apply (bool_decide_unpack _). vm_compute. exact I. }
  apply (proj1 (Forall_forall _ _) Hall). apply elem_of_seqZ. lia.
Qed.

(** ** Registers *)
Lemma high_bits_clear a i j : 0 <= i <= j -> 0 <= a < 2 ^ j -> Z.land a (Z.shiftl (Z.ones (j - i)) i) = 0 -> a < 2 ^ i.
Proof.
  intros Hij Ha Hz. assert (Hq : Z.shiftr a i = 0).
  { apply Z.bits_inj'. intros n Hn. rewrite Z.bits_0, Z.shiftr_spec by done. destruct (Z.ltb_spec (n + i) j) as [Hlt|Hge].
    - assert (Hb : Z.testbit (Z.land a (Z.shiftl (Z.ones (j - i)) i)) (n + i) = false) by (rewrite Hz; apply Z.testbit_0_l).
      rewrite Z.land_spec, Z.shiftl_spec, Z.testbit_ones_nonneg in Hb by lia. rewrite (proj2 (Z.ltb_lt (n + i - i) (j - i))), andb_true_r in Hb by lia. done.
    - apply (small_bit_high a j); lia. }
  rewrite Z.shiftr_div_pow2 in Hq by lia. apply Z.div_small_iff in Hq; [lia|]. apply Z.pow_nonzero; lia.
Qed.

Definition tcr_value (el : regime) (nc : bool) (w ps : Z) : Z :=
  Z.lor (if nc then Z.lor (Z.lor (Z.lor TCR_SH_NON_SHAREABLE TCR_RGN_OUTER_NC) TCR_RGN_INNER_NC) (64 - w)
         else Z.lor (Z.lor (Z.lor TCR_SH_INNER_SHAREABLE TCR_RGN_OUTER_WBA) TCR_RGN_INNER_WBA) (64 - w))
    (match el with EL1 => Z.lor TCR_EPD1_BIT (Z.shiftl ps TCR_EL1_IPS_SHIFT) | EL3 => Z.lor TCR_EL3_RES1 (Z.shiftl ps TCR_EL3_PS_SHIFT) end).
Lemma tcr_fields el nc w ps : 25 <= w <= 48 -> 0 <= ps <= 5 ->
  field (tcr_value el nc w ps) 0 6 = 64 - w /\ field (tcr_value el nc w ps) (match el with EL1 => 32 | EL3 => 16 end) 3 = ps.
Proof.
  intros Hw Hp. assert (Hall : Forall (fun w => Forall (fun ps => field (tcr_value el nc w ps) 0 6 = 64 - w /\
    field (tcr_value el nc w ps) (match el with EL1 => 32 | EL3 => 16 end) 3 = ps) (seqZ 0 6)) (seqZ 25 24)).
  { destruct el, nc; apply (bool_decide_unpack _); vm_compute; exact I. }
  apply (proj1 (Forall_forall _ _) (proj1 (Forall_forall _ _) Hall w ltac:(apply elem_of_seqZ; lia))). apply elem_of_seqZ. lia.
Qed.

Definition sctlr_value (old flags : Z) : Z :=
  let sctlr := Z.lor (u32 old) (Z.lor SCTLR_WXN_BIT SCTLR_M_BIT) in
  if truthy (Z.land flags DISABLE_DCACHE) then Z.land sctlr (2 ^ 32 - 1 - SCTLR_C_BIT) else Z.lor sctlr SCTLR_C_BIT.
Lemma sctlr_bits old flags : Z.testbit (sctlr_value old flags) 0 = true /\ Z.testbit (sctlr_value old flags) 19 = true.
Proof. unfold sctlr_value. destruct (truthy _); rewrite ?Z.land_spec, !Z.lor_spec; split; by rewrite orb_true_r. Qed.

(** ** Finer tables *)
Section areas.
Context `{!XlatEnv}.

(** The areas for which a finer table is needed: above the base level those
    that a boundary of a region cuts, at level 0 those that a region meets. *)
Definition cuts_at (lmin level p : Z) : list (Z * Z) :=
  if (lmin <=? level) && negb (p mod bs level =? 0) then [(level, p / bs level)] else [].
Definition areas_met (r : mmap_region_t) : list Z :=
  seqZ (mm_base_va r / bs 0) ((mm_base_va r + mm_size r - 1) / bs 0 - mm_base_va r / bs 0 + 1).
Definition cut_areas (lmin : Z) (r : mmap_region_t) : list (Z * Z) :=
  (if lmin =? 0 then pair 0 <$> areas_met r else []) ++
  cuts_at lmin 1 (mm_base_va r) ++ cuts_at lmin 1 (mm_base_va r + mm_size r) ++ cuts_at lmin 2 (mm_base_va r) ++ cuts_at lmin 2 (mm_base_va r + mm_size r).
Definition needed_areas (rs : list mmap_region_t) : list (Z * Z) := remove_dups (rs ≫= cut_areas XLAT_TABLE_LEVEL_BASE).
Definition tables_needed (rs : list mmap_region_t) : Z := Z.of_nat (length (needed_areas rs)).

Lemma cuts_at_elem lmin level b p : 0 <= level <= 2 -> lmin <= level -> b mod bs level = 0 -> b < p < b + bs level -> (level, b / bs level) ∈ cuts_at lmin level p.
Proof.
  intros Hl Hm Hal Hp. pose proof (bs_pos level ltac:(lia)) as Hbs. apply Z.mod_divide in Hal as [q Hq]; [|lia]. unfold cuts_at.
  assert (Hd : p / bs level = q) by (symmetry; apply Z.div_unique with (p - b); lia). assert (Hr : p mod bs level = p - b) by (symmetry; apply Z.mod_unique with q; lia).
  rewrite (proj2 (Z.leb_le _ _) Hm), Hd, Hr, (proj2 (Z.eqb_neq _ _)) by lia. cbn. rewrite Hq, Z.div_mul by lia. by left.
Qed.
Lemma needed_cut rs r level b : r ∈ rs -> XLAT_TABLE_LEVEL_BASE <= level -> 0 <= XLAT_TABLE_LEVEL_BASE -> 0 <= level <= 2 -> 0 <= b -> b mod bs level = 0 ->
  cut_by r level b -> (level, b / bs level) ∈ needed_areas rs.
Proof.
  intros Hr Hm H0 Hl Hb Hal Hc. apply elem_of_remove_dups, list_elem_of_bind. exists r. split; [|done]. unfold cut_areas. unfold cut_by in Hc.
  destruct (Z.eqb_spec level 0) as [->|Hne].
  - assert (XLAT_TABLE_LEVEL_BASE = 0) as -> by lia. apply elem_of_app. left. apply list_elem_of_fmap. exists (b / bs 0). split; [done|]. apply elem_of_seqZ.
    pose proof (bs_pos 0 ltac:(lia)) as Hbs. apply Z.mod_divide in Hal as [q Hq]; [|lia]. rewrite Hq, Z.div_mul by lia. split.
    + enough (mm_base_va r / bs 0 < q + 1) by lia. apply Z.div_lt_upper_bound; lia.
    + enough (q <= (mm_base_va r + mm_size r - 1) / bs 0) by lia. apply Z.div_le_lower_bound; lia.
  - apply elem_of_app. right. assert (level = 1 \/ level = 2) as [-> | ->] by lia; rewrite !elem_of_app; destruct Hc as [Hc|Hc];
      apply (cuts_at_elem XLAT_TABLE_LEVEL_BASE) in Hc; try done; tauto.
Qed.

End areas.

Section setup.
Context `{!XlatEnv}.
Context (el : regime) (w : Z) (Hw : 25 <= w <= 48) (Hsize : PLAT_VIRT_ADDR_SPACE_SIZE = 2 ^ w).
Context (Hpa : 0 < PLAT_PHY_ADDR_SPACE_SIZE <= 2 ^ 48).
Context (Hassert : XL_ASSERTIONS = true).
Implicit Types (s : xlat_state).

Lemma virt_space_range : 0 < PLAT_VIRT_ADDR_SPACE_SIZE <= 2 ^ 48.
Proof. rewrite Hsize. split; [apply Z.pow_pos_nonneg; lia|apply Z.pow_le_mono_r; lia]. Qed.

Lemma calc_bits_run max s : 0 <= max < 2 ^ 48 -> exists ps, calc_physical_addr_size_bits max s = Ret ps s /\ 0 <= ps <= 5 /\ max < 2 ^ ps_bits ps.
Proof.
  intros Hm. unfold calc_physical_addr_size_bits. rewrite x_assert_bind by done.
  assert (H48 : Z.land max ADDR_MASK_48_TO_63 = 0).
  { apply Z.bits_inj'. intros n Hn. rewrite Z.land_spec, Z.testbit_0_l. destruct (Z.ltb_spec n 48) as [Hlt|Hge]; [|by rewrite (small_bit_high max 48)].
    change ADDR_MASK_48_TO_63 with (Z.shiftl (Z.ones 16) 48). rewrite Z.shiftl_spec, (Z.testbit_neg_r _ (n - 48)) by lia. apply andb_false_r. }
  rewrite H48. cbn [Z.eqb]. unfold truthy.
  change ADDR_MASK_44_TO_47 with (Z.shiftl (Z.ones (48 - 44)) 44). change ADDR_MASK_42_TO_43 with (Z.shiftl (Z.ones (44 - 42)) 42).
  change ADDR_MASK_40_TO_41 with (Z.shiftl (Z.ones (42 - 40)) 40). change ADDR_MASK_36_TO_39 with (Z.shiftl (Z.ones (40 - 36)) 36).
  change ADDR_MASK_32_TO_35 with (Z.shiftl (Z.ones (36 - 32)) 32).
  repeat match goal with |- context [Z.land max (Z.shiftl (Z.ones (?j - ?i)) ?i) =? 0] =>
    let E := fresh in destruct (Z.eqb_spec (Z.land max (Z.shiftl (Z.ones (j - i)) i)) 0) as [E|_]; cbn [negb];
    [apply (high_bits_clear max i j) in E; [|lia|lia]|eexists; split; [reflexivity|split; [done|cbn; lia]]] end.
  eexists. split; [reflexivity|split; [done|cbn; lia]].
Qed.

Definition enable_mmu (e : regime) (flags : Z) : M xlat_state unit := match e with EL1 => enable_mmu_el1 flags | EL3 => enable_mmu_el3 flags end.
Lemma enable_run flags s : GET_EL CurrentEl = el_number el -> Z.land (r_sctlr (mmu s el)) SCTLR_M_BIT = 0 -> exists s',
  enable_mmu el flags s = Ret tt s' /\ base_xlation_table s' = base_xlation_table s /\ xlat_tables s' = xlat_tables s /\
  mmu s' el = MmuRegs mair_value (tcr_value el (truthy (Z.land flags XLAT_TABLE_NC)) w (tcr_ps_bits s)) base_xlation_table_addr
    (sctlr_value (r_sctlr (mmu s el)) flags).
Proof.
  intros Hel Hm. unfold enable_mmu. destruct el; [unfold enable_mmu_el1|unfold enable_mmu_el3]; (erewrite bind_run by done; unfold enable_mmu_el;
    rewrite x_assert_bind by done; rewrite Hel; cbn [Z.eqb el_number Pos.eqb]; erewrite bind_run by done; rewrite x_assert_bind by done; rewrite Hm; cbn [Z.eqb];
    repeat (erewrite bind_run by done); eexists; split; [reflexivity|split_and!; [done|done|]]; unfold ctzll, tcr_value; rewrite Hsize, Z.log2_pow2 by lia;
    cbn; unfold sctlr_value, mair_value; by destruct (truthy (Z.land flags XLAT_TABLE_NC))).
Qed.

(** The processor supports the physical address space of the build. *)
Definition pa_supported : Prop :=
  exists bits, arr_get pa_range_bits_arr (Z.land id_aa64mmfr0_el1 ID_AA64MMFR0_EL1_PARANGE_MASK) = Some bits /\ PLAT_PHY_ADDR_SPACE_SIZE <= 2 ^ bits.

Section tables.
Context (l : list mmap_region_t) (k : nat) (C : list (Z * Z)).
Context (Hcuts : forall r level b, r ∈ l -> XLAT_TABLE_LEVEL_BASE <= level -> 0 <= level <= 2 -> 0 <= b -> b mod bs level = 0 -> cut_by r level b -> (level, b / bs level) ∈ C).
Context (Hlay : layout) (Hel : GET_EL CurrentEl = el_number el) (Hsup : pa_supported).
Context (Htyped : Forall (fun r => typed (mm_attr r)) l).
#[local] Abbreviation L0 := (base_level w).

Lemma base_entries : NUM_BASE_LEVEL_ENTRIES = 2 ^ (w - level_shift L0) /\ XLAT_TABLE_LEVEL_BASE = L0 /\ NUM_BASE_LEVEL_ENTRIES * bs L0 = PLAT_VIRT_ADDR_SPACE_SIZE /\
  1 <= NUM_BASE_LEVEL_ENTRIES <= 512 /\ 0 <= L0 <= 2.
Proof.
  unfold NUM_BASE_LEVEL_ENTRIES, XLAT_TABLE_LEVEL_BASE. rewrite Hsize. destruct (base_level_of w Hw) as (-> & -> & Hr).
  assert (Hl : 0 <= L0 <= 2) by (unfold base_level; destruct (w <? 31), (w <? 40); lia). split_and!; try done; try lia.
  - unfold bs. rewrite <- Z.pow_add_r by (unfold level_shift in *; lia). f_equal. lia.
  - change 512 with (2 ^ 9). apply Z.pow_le_mono_r; lia.
Qed.

(** What [init_xlat_tables] leaves. *)
Definition tables_ready s : Prop :=
  filled l el NUM_BASE_LEVEL_ENTRIES 0 (next_xlat s) s None L0 0 /\ wf s /\ 0 <= tcr_ps_bits s <= 5 /\ xlat_max_pa s < 2 ^ ps_bits (tcr_ps_bits s).

Lemma xn_run s : (let! e := xlat_arch_current_el in xlat_arch_get_xn_desc e) s = Ret (xn_of el) s.
Proof.
  unfold xlat_arch_current_el, xlat_arch_get_xn_desc. rewrite Hel. unfold bind. rewrite x_assert_run by done. by destruct el; cbn; rewrite ?x_assert_run by done.
Qed.

Lemma init_ok s : mm_inv l k s -> wf s -> next_xlat s = 0 ->
  wp init_xlat_tables (fun _ s' => tables_ready s' /\ xlat_max_pa s' = xlat_max_pa s /\ mmu s' = mmu s) (stops l C) s.
Proof.
  intros Hinv Hwf Hn. destruct base_entries as (_ & HL & Hspan & Hnum & HL0). pose proof virt_space_range as Hvr. pose proof (ly_max Hlay) as Hmr.
  unfold init_xlat_tables, init_xlation_table. apply wp_bind, wp_bind. pose proof (xn_run s) as Hxn. unfold bind at 1 in Hxn.
  destruct (xlat_arch_current_el s) as [e s0|] eqn:Ee; [|done]. eapply wp_run; [exact Ee|]. apply wp_bind. eapply wp_run; [exact Hxn|].
  apply wp_bind, wp_modify, wp_bind. set (s1 := set_xn_mask (xn_of el) s).
  eapply wp_mono; [apply (inner_table_ok Hvr Hpa Hassert l k el) with (lmin := XLAT_TABLE_LEVEL_BASE) (C := C) (num := NUM_BASE_LEVEL_ENTRIES) (s := s1)|..]; try done; try apply Hinv.
  all: try (rewrite HL; lia).
  - rewrite HL. unfold max_depth. lia.
  - split; [apply Hinv|done].
  - cbn. lia.
  - split; [lia|]. constructor.
  - unfold ready. intros Hz. pose proof (mi_ok _ _ _ Hinv) as Hok. destruct l as [|x l']; [done|]. change (drop (Z.to_nat 0) (x :: l')) with (x :: l') in *. cbn [head default from_option id]. inversion Hok as [|?? Hx _]; subst. destruct Hx as (_ & ? & ? & _). lia.
  - intros Hb. change (next_xlat s1) with (next_xlat s). rewrite Hn. etransitivity; [|exact Hb]. apply cnt_le.
  - cbn beta. intros mm' s2 (Hfr & _ & _ & Hfill). destruct Hfr as [Ho Hnx Hw2 _]. apply wp_bind, wp_gets, wp_bind, wp_gets, wp_ret. cbn [fst snd].
    assert (Hmp : xlat_max_pa s2 = xlat_max_pa s) by (by rewrite Ho). assert (Hmv : xlat_max_va s2 = xlat_max_va s) by (by rewrite Ho).
    rewrite Hmp, Hmv. pose proof (mi_pa _ _ _ Hinv) as Hp. pose proof (mi_va _ _ _ Hinv) as Hv.
    apply wp_bind, wp_unfold. rewrite x_assert_run, (proj2 (Z.leb_le _ _)) by (done || lia).
    apply wp_bind, wp_unfold. rewrite x_assert_run, (proj2 (Z.leb_le _ _)) by (done || lia).
    apply wp_bind. rewrite Hassert. cbn [when]. unfold get_max_supported_pa. destruct Hsup as (bits & Hbits & Hle). rewrite Hbits.
    apply wp_bind. apply wp_bind, wp_unfold. rewrite x_assert_run, (proj2 (Z.ltb_lt _ _)) by (done || (apply arr_get_Some_range in Hbits; lia)).
    apply wp_bind, wp_ret, wp_ret, wp_unfold. rewrite x_assert_run, (proj2 (Z.leb_le _ _)) by (done || (rewrite Z.shiftl_1_l; lia)).
    apply wp_bind. destruct (calc_bits_run (xlat_max_pa s) s2 ltac:(lia)) as (ps & Hrun & Hps & Hlt). eapply wp_run; [exact Hrun|].
    apply wp_modify. rewrite HL in Hfill. change (next_xlat s1) with (next_xlat s) in Hfill. rewrite Hn in Hfill. split; [unfold tables_ready|split]; [split_and!; [exact Hfill|exact Hw2|cbn; lia|cbn; lia|cbn; by rewrite Hmp]|done|by rewrite Ho].
Qed.

(** The walk in any later state with these tables. *)
Lemma walk_found s s' va : tables_ready s -> wf s' -> base_xlation_table s' = base_xlation_table s -> xlat_tables s' = xlat_tables s ->
  0 <= va < PLAT_VIRT_ADDR_SPACE_SIZE -> walked l el va (walk 4 s' L0 base_xlation_table_addr va).
Proof.
  intros (Hfill & _ & _) Hw' Hb Ht Hr. destruct base_entries as (_ & _ & Hspan & Hnum & HL0). pose proof (bs_pos L0 ltac:(lia)) as Hbs.
  destruct (index_of L0 0 va ltac:(lia) ltac:(lia) ltac:(apply Z.mod_0_l; lia) ltac:(nia)) as (Hidx & Hir & Hvr). rewrite Z.sub_0_r in *.
  assert (Hlt : va / bs L0 < NUM_BASE_LEVEL_ENTRIES) by (apply Z.div_lt_upper_bound; nia).
  change base_xlation_table_addr with (taddr None). rewrite (walk_step Hlay), Hidx by (done || rewrite Hidx; cbn; lia). cbn [tab]. rewrite Hb.
  destruct (Hfill (va / bs L0) ltac:(lia)) as (d & Hd & Hok). cbn [tab] in Hd. rewrite Hd. cbn. apply Hok; [done| |cbn; lia|lia].
  intros j Hj. cbn. by rewrite Ht.
Qed.

(** The base table is aligned to its size. *)
Definition base_aligned : Prop := 0 <= base_xlation_table_addr < 2 ^ 48 /\ base_xlation_table_addr mod (8 * NUM_BASE_LEVEL_ENTRIES) = 0.

Lemma translate_run s s' nc old flags va : tables_ready s -> Forall region_ok l -> Forall (fun r => mm_base_pa r + mm_size r - 1 <= xlat_max_pa s) l ->
  base_aligned -> wf s' -> base_xlation_table s' = base_xlation_table s -> xlat_tables s' = xlat_tables s ->
  mmu s' el = MmuRegs mair_value (tcr_value el nc w (tcr_ps_bits s)) base_xlation_table_addr (sctlr_value old flags) -> 0 <= va ->
  translate el s' va = (fun r => region_xlation (mm_attr r) (va - offset r)) <$> inner None l va.
Proof.
  intros Hrd Hok Hmax [Hba Hbal] Hw' Hb Ht Hm Hva0. destruct base_entries as (HN & _ & Hspan & Hnum & HL0). pose proof Hrd as (_ & _ & Hps & Hlt).
  unfold translate. rewrite Hm. cbn [r_tcr r_ttbr0]. destruct (tcr_fields el nc w (tcr_ps_bits s) Hw Hps) as [Ht0 Hpsf]. rewrite Ht0.
  replace (64 - (64 - w)) with w by lia. rewrite <- Hsize. destruct (Z.leb_spec PLAT_VIRT_ADDR_SPACE_SIZE va) as [Hout|Hin].
  { rewrite inner_none; [done|]. eapply List.Forall_impl; [|exact Hok]. intros r (_ & _ & Hrv & _). unfold contains. lia. }
  replace (if 64 - w <? 25 then 0 else if 64 - w <? 34 then 1 else 2) with L0.
  2:{ unfold base_level. destruct (Z.ltb_spec w 31), (Z.ltb_spec w 40), (Z.ltb_spec (64 - w) 25), (Z.ltb_spec (64 - w) 34); lia. }
  destruct (base_level_of w Hw) as (_ & _ & Hx). rewrite addr_field_id; [|lia| |done].
  2:{ rewrite HN in Hbal. replace (w - level_shift L0 + 3) with (3 + (w - level_shift L0)) by lia. by rewrite Z.pow_add_r by lia. }
  pose proof (walk_found s s' va Hrd Hw' Hb Ht ltac:(lia)) as Hwk. unfold walked in Hwk. destruct (inner None l va) as [r|] eqn:Er; [|by rewrite Hwk].
  apply inner_some in Er as [|[Hr Hc]]; [done|]. destruct Hwk as (level & pa & Hlv & -> & Hpal & Hpa'). cbn [mbind option_bind fst snd fmap option_fmap option_map].
  pose proof (proj1 (Forall_forall _ _) Hok r Hr) as (_ & _ & Hrv & Hrp). pose proof (proj1 (Forall_forall _ _) Hmax r Hr) as Hrm. cbn in Hrm.
  pose proof (bs_pos level ltac:(lia)) as Hbs. pose proof (Z.mod_pos_bound va (bs level) Hbs) as Hmb. unfold contains in Hc. unfold bs in *.
  assert (Hpr : 0 <= pa < 2 ^ 48).
  { apply Z.mod_divide in Hpal as [q Hq]; [|lia]. unfold offset in Hpa'. split; [|lia]. assert (- 1 < q); [|nia]. nia. }
  rewrite leaf_region; [by rewrite Hpa'| |lia|done|done|done| |].
  - by apply (proj1 (Forall_forall _ _) Htyped).
  - apply sctlr_bits.
  - cbn [r_tcr]. rewrite Hpsf. unfold offset in Hpa'. lia.
Qed.
End tables.

(** ** The whole set-up *)

(** Before the regions are added: zeroed data, tables of the declared sizes,
    the MMU off. *)
Record cold s : Prop := {
  co_mmap : mmap s = replicate (S (Z.to_nat MAX_MMAP_REGIONS)) end_region;
  co_max : xlat_max_pa s = 0 /\ xlat_max_va s = 0;
  co_next : next_xlat s = 0;
  co_wf : wf s;
  co_mmu : Z.land (r_sctlr (mmu s el)) SCTLR_M_BIT = 0
}.
Lemma cold_inv s (rs : list mmap_region_t) : cold s -> Z.of_nat (length rs) <= MAX_MMAP_REGIONS -> mm_inv [] (length rs + (Z.to_nat MAX_MMAP_REGIONS - length rs)) s.
Proof.
  intros [Hm [Hp Hv] _ _ _] Hl. pose proof virt_space_range. split.
  - rewrite Hm. cbn [app]. do 2 f_equal. lia.
  - constructor.
  - constructor.
  - intros r r' Hr. by apply elem_of_nil in Hr.
  - constructor.
  - rewrite Hp. lia.
  - rewrite Hv. lia.
Qed.
End setup.

(** ** Theorems *)
Section theorems.
Context `{!XlatEnv}.
Implicit Types (s : xlat_state) (r : mmap_region_t).

(** What the build and the processor guarantee: the compile-time checks of
    xlat_tables_private.h, tables placed as their sections say, a physical
    address space that the processor supports, the exception level. *)
Record xlat_config (el : regime) : Prop := {
  xc_assert : XL_ASSERTIONS = true;
  xc_virt : CHECK_VIRT_ADDR_SPACE_SIZE PLAT_VIRT_ADDR_SPACE_SIZE = true;
  xc_phys : 0 < PLAT_PHY_ADDR_SPACE_SIZE;
  xc_supported : pa_supported;
  xc_layout : layout;
  xc_base : base_aligned;
  xc_el : GET_EL CurrentEl = el_number el
}.
Lemma config_phys el : xlat_config el -> 0 < PLAT_PHY_ADDR_SPACE_SIZE <= 2 ^ 48.
Proof.
  intros [_ _ Hp (bits & Hb & Hle) _ _ _]. split; [done|]. assert (2 ^ bits <= 2 ^ 48); [|lia]. apply Z.pow_le_mono_r; [lia|].
  unfold arr_get in Hb. destruct (0 <=? _); [|done]. apply list_elem_of_lookup_2 in Hb. unfold pa_range_bits_arr in Hb.
  repeat (apply elem_of_cons in Hb as [->|Hb]; [lia|]). by apply elem_of_nil in Hb.
Qed.
Lemma config_virt el : xlat_config el -> 0 < PLAT_VIRT_ADDR_SPACE_SIZE <= 2 ^ 48.
Proof. intros Hc. destruct (virt_space_width _ (xc_virt _ Hc)) as (w & Hs & Hw). by apply (virt_space_range w). Qed.
Lemma accepted_fields el rs : xlat_config el -> accepts [] rs -> Forall u64_region rs /\ Forall (fun r => mm_size r <> 0) rs.
Proof.
  intros Hc [Ho _]. pose proof (config_phys el Hc). pose proof (config_virt el Hc).
  split; eapply List.Forall_impl; [|exact Ho| |exact Ho]; cbn; intros r (_ & ? & ? & ?); [unfold u64_region; lia|lia].
Qed.

(** The set-up in terms of the sorted list. *)
Lemma setup_translates el rs flags s :
  xlat_config el -> cold el s -> accepts [] rs -> Forall (fun r => typed (mm_attr r)) rs -> Z.of_nat (length rs) <= MAX_MMAP_REGIONS ->
  match (mmap_add (rs ++ [end_region]) ;;; init_xlat_tables ;;; enable_mmu el flags) s with
  | Ret _ s' =>
      Z.testbit (r_sctlr (mmu s' el)) 0 = true /\ exists l, l ≡ₚ rs /\ StronglySorted before l /\ (forall r r', r ∈ l -> r' ∈ l -> r = r' \/ related r r') /\
      forall va, 0 <= va -> translate el s' va = (fun r => region_xlation (mm_attr r) (va - offset r)) <$> inner None l va
  | Halt h s' => h = HAssert /\ (MAX_XLAT_TABLES < tables_needed rs \/ exists r, r ∈ rs /\ offset r mod 2 ^ 30 <> 0)
  end.
Proof.
  intros Hc Hcold Hacc Hty Hlen. pose proof (config_phys el Hc) as Hp. pose proof (config_virt el Hc) as Hv. destruct (accepted_fields el rs Hc Hacc) as [Hu Hz].
  destruct (virt_space_width _ (xc_virt _ Hc)) as (w & Hs & Hw). destruct Hc as [Has _ _ Hsup Hlay Hbase Hel].
  destruct (mmap_add_run Hv Hp Has rs [] _ s (cold_inv el w Hw Hs Hp s rs Hcold Hlen) Hu Hz) as [Hyes _].
  destruct (Hyes Hacc) as (s1 & l & Hadd & Hperm & Hinv & Honly). rewrite app_nil_r in Hperm. erewrite bind_run by exact Hadd.
  assert (Hty' : Forall (fun r => typed (mm_attr r)) l) by (by rewrite Hperm).
  assert (Hw1 : wf s1) by (rewrite Honly; apply Hcold). assert (Hn1 : next_xlat s1 = 0) by (rewrite Honly; apply Hcold).
  assert (Hcuts : forall r level b, r ∈ l -> XLAT_TABLE_LEVEL_BASE <= level -> 0 <= level <= 2 -> 0 <= b -> b mod bs level = 0 -> cut_by r level b ->
    (level, b / bs level) ∈ needed_areas rs).
  { intros r level b Hr Hm. rewrite Hperm in Hr. apply needed_cut; [done|done|]. destruct (base_entries w Hw Hs) as (_ & -> & _ & _ & ?). lia. }
  pose proof (init_ok el w Hw Hs Hp Has l _ (needed_areas rs) Hcuts Hlay Hel Hsup Hty' s1 Hinv Hw1 Hn1) as Hinit. apply wp_unfold in Hinit. unfold bind at 1.
  destruct (init_xlat_tables s1) as [[] s2|h s2].
  2:{ destruct Hinit as [-> Hst]. split; [done|]. destruct Hst as [|(r & Hr & Ho)]; [by left|]. right. exists r. by rewrite <- Hperm. }
  destruct Hinit as (Hrd & Hmp & Hmmu). destruct (enable_run el w Hw Hs Has flags s2 Hel) as (s3 & -> & Hb & Ht & Hregs).
  { rewrite Hmmu, Honly. apply Hcold. }
  split; [rewrite Hregs; apply sctlr_bits|]. exists l. split_and!; [done|apply Hinv|apply Hinv|]. intros va Hva.
  eapply (translate_run el w Hw Hs Hp l Hlay Hty' s2); [done|apply Hinv|rewrite Hmp; apply Hinv|done| |done|done|done|done].
  destruct Hrd as (_ & Hwf & _). unfold wf in *. by rewrite Hb, Ht.
Qed.

(** [C11] The MMU maps what was asked for.  For every set of regions that
    [mmap_add] accepts, in any order and with any nesting, in either exception
    level and with any flags: when the regions have been added, the tables
    initialised and the MMU turned on, the MMU translates an address that lies
    in some region to the physical address that the smallest region containing
    it gives, in its security state, writable and executable exactly as its
    attributes say, with its memory type; every other address faults.  The
    set-up does return, unless more areas are cut by boundaries of regions than
    the pool has tables, or a region is mapped at an offset that is not a
    multiple of 1 GB. *)
Theorem xlat_maps_regions el rs flags s :
  xlat_config el -> cold el s -> accepts [] rs -> Forall (fun r => typed (mm_attr r)) rs -> Z.of_nat (length rs) <= MAX_MMAP_REGIONS ->
  match (mmap_add (rs ++ [end_region]) ;;; init_xlat_tables ;;; enable_mmu el flags) s with
  | Ret _ s' =>
      Z.testbit (r_sctlr (mmu s' el)) 0 = true /\
      forall va, 0 <= va ->
        (forall r, r ∈ rs -> contains r va = true -> (forall r', r' ∈ rs -> contains r' va = true -> mm_size r <= mm_size r') ->
           translate el s' va = Some (region_xlation (mm_attr r) (va - offset r))) /\
        (Forall (fun r => contains r va = false) rs -> translate el s' va = None)
  | Halt h s' => h = HAssert /\ (MAX_XLAT_TABLES < tables_needed rs \/ exists r, r ∈ rs /\ offset r mod 2 ^ 30 <> 0)
  end.
Proof.
  intros Hc Hcold Hacc Hty Hlen. pose proof (setup_translates el rs flags s Hc Hcold Hacc Hty Hlen) as Hrun.
  destruct ((mmap_add (rs ++ [end_region]) ;;; init_xlat_tables ;;; enable_mmu el flags) s) as [[] s'|h s']; [|done]. destruct Hrun as (Hbit & l & Hperm & Hs & Hrel & Htr). split; [done|]. intros va Hva. rewrite Htr by done. split.
  - intros r Hr Hcon Hmin. rewrite (inner_smallest l va r); [done|done|done|by rewrite Hperm|done|]. intros x. rewrite Hperm. apply Hmin.
  - intros Hnone. rewrite inner_none; [done|]. by rewrite Hperm.
Qed.

(** [C35] What [mmap_add] accepts, and the order it keeps.  From the zeroed
    array and for up to [MAX_MMAP_REGIONS] regions: it returns exactly when
    each region is aligned, not empty and inside both address spaces, and any
    two regions are either apart in both address spaces, or nested with one
    offset and not the same area; then the array holds exactly these regions,
    by ascending base address and the wider first, followed by empty entries.
    Otherwise an assertion fails. *)
Theorem mmap_add_exact el rs s :
  xlat_config el -> cold el s -> Forall u64_region rs -> Forall (fun r => mm_size r <> 0) rs -> Z.of_nat (length rs) <= MAX_MMAP_REGIONS ->
  (accepts [] rs -> exists s' l k, mmap_add (rs ++ [end_region]) s = Ret tt s' /\ mmap s' = l ++ replicate (S k) end_region /\
     l ≡ₚ rs /\ StronglySorted before l) /\
  (~ accepts [] rs -> exists s', mmap_add (rs ++ [end_region]) s = Halt HAssert s').
Proof.
  intros Hc Hcold Hu Hz Hlen. pose proof (config_phys el Hc) as Hp. pose proof (config_virt el Hc) as Hv.
  destruct (virt_space_width _ (xc_virt _ Hc)) as (w & Hs & Hw). destruct Hc as [Has _ _ _ _ _ _].
  destruct (mmap_add_run Hv Hp Has rs [] _ s (cold_inv el w Hw Hs Hp s rs Hcold Hlen) Hu Hz) as [Hyes Hno]. split; [|done].
  intros Hacc. destruct (Hyes Hacc) as (s' & l & Hadd & Hperm & Hinv & _). rewrite app_nil_r in Hperm. exists s', l. eexists. split_and!; [done|apply Hinv|done|apply Hinv].
Qed.

(** The check for a full array.  When the array of regions is full, an
    acceptable region that belongs before another one stops at the assertion
    that guards the terminating entry; a region that belongs at the end is
    written over that entry, the call returns, and the array has no end. *)
Theorem mmap_full_check el l r s :
  xlat_config el -> mmap s = l ++ [end_region] -> StronglySorted before l -> Forall region_ok l -> region_ok r -> Forall (related r) l ->
  let run := mmap_add_region (mm_base_pa r) (mm_base_va r) (mm_size r) (mm_attr r) s in
  (Exists (before r) l -> exists s', run = Halt HAssert s') /\
  (Forall (fun x => before x r) l -> exists s', run = Ret tt s' /\ mmap s' = l ++ [r] /\ Forall (fun x => mm_size x <> 0) (mmap s')).
Proof.
  intros Hc Hm Hs Hl Hr Hrel run. pose proof (config_phys el Hc) as Hp. pose proof (config_virt el Hc) as Hv. pose proof Hr as (_ & Hsz & Hrv & Hrp).
  pose proof (add_region_run Hv Hp (xc_assert _ Hc) r l 0 s Hm Hs Hl ltac:(unfold u64_region; lia) ltac:(lia)) as Hrun. rewrite decide_True in Hrun by done.
  fold run in Hrun. split.
  - intros Hex. destruct (decide (place r l = length l)) as [E|_]; [|eauto]. exfalso. clear -Hex E. induction l as [|x l IH]; [by inversion Hex|].
    cbn in E. destruct (decide (before x r)) as [Hb|]; [|done]. injection E as E. inversion Hex as [?? Hb'|]; subst; [unfold before in *; lia|]. by apply IH.
  - intros Hall. assert (E : place r l = length l).
    { clear -Hall. induction Hall as [|x l Hx Hl IH]; cbn; [done|]. rewrite decide_True by done. by rewrite IH. }
    rewrite decide_True in Hrun by done. eexists. split_and!; [done|done|]. cbn. apply Forall_app. split; [|repeat constructor; lia].
    eapply List.Forall_impl; [|exact Hl]. intros x (_ & ? & _). lia.
Qed.
End theorems.
