(* ===== verification/PsciDefs.v ===== *)
(** * PSCI: data model (include/lib/psci/psci.h, psci_lib.h, lib/psci/psci_private.h)

    The constants, types and per-CPU data of the PSCI library, the state its
    functions share, and the primitive accesses they are written with.  The
    macros a platform port defines are the fields of [PlatCfg]; the functions
    a port links in are the fields of [PlatEnv]; the hooks a port and the
    secure-payload dispatcher register are the records [plat_psci_ops] and
    [spd_pm_ops].  Hooks are computations over the state [P] of the hardware;
    they cannot touch PSCI's variables.  Every function runs on a CPU [me],
    the value [plat_my_core_pos()] has on it.

    Lock words are abstracted to their owner (the bakery algorithm is verified
    in Bakery.v); cache maintenance, event publication, context management and
    the calls of hooks are recorded in a trace, newest event first, so that
    the order of operations can be stated. *)
From stdpp Require Import base list numbers option.
From Stdlib Require Import ZArith Lia.
From S2P Require Import Prelude.
#[local] Open Scope Z_scope.

(** ** Build configuration *)
Class PlatCfg : Type := {
  PLATFORM_CORE_COUNT : Z;
  PLAT_MAX_PWR_LVL : Z;
  PSCI_NUM_NON_CPU_PWR_DOMAINS : Z;
  PLAT_MAX_RET_STATE : Z;
  PLAT_MAX_OFF_STATE : Z;
  PLAT_MAX_PWR_LVL_STATES : Z;
  ENABLE_ASSERTIONS : bool;
  ENABLE_PSCI_STAT : bool;
  PSCI_EXTENDED_STATE_ID : bool;
  HW_ASSISTED_COHERENCY : bool;
  USE_COHERENT_MEM : bool;
  WARMBOOT_ENABLE_DCACHE_EARLY : bool
}.

(** The compile-time assertions ([CASSERT]) of psci_common.c, the range of
    [plat_local_state_t] and of a core position. *)
Class PlatCfgOk `{PlatCfg} : Prop := {
  cfg_cores : 0 < PLATFORM_CORE_COUNT < 2 ^ 31;
  cfg_lvl : 0 <= PLAT_MAX_PWR_LVL <= 3;
  cfg_states : 0 <= PLAT_MAX_RET_STATE < PLAT_MAX_OFF_STATE;
  cfg_off_u8 : PLAT_MAX_OFF_STATE < 2 ^ 8
}.

Section constants.
Context `{PlatCfg}.

Definition PSCI_CPU_PWR_LVL : Z := 0.
Definition PSCI_INVALID_PWR_LVL : Z := PLAT_MAX_PWR_LVL + 1.
Definition PSCI_INVALID_MPIDR : Z := 2 ^ 64 - 1.
Definition PSCI_LOCAL_STATE_RUN : Z := 0.

Definition is_local_state_run (st : Z) : bool := st =? PSCI_LOCAL_STATE_RUN.
Definition is_local_state_retn (st : Z) : bool :=
  (PSCI_LOCAL_STATE_RUN <? st) && (st <=? PLAT_MAX_RET_STATE).
Definition is_local_state_off (st : Z) : bool :=
  (PLAT_MAX_RET_STATE <? st) && (st <=? PLAT_MAX_OFF_STATE).

(** *** Error codes *)
Definition PSCI_E_SUCCESS : Z := 0.
Definition PSCI_E_NOT_SUPPORTED : Z := -1.
Definition PSCI_E_INVALID_PARAMS : Z := -2.
Definition PSCI_E_DENIED : Z := -3.
Definition PSCI_E_ALREADY_ON : Z := -4.
Definition PSCI_E_ON_PENDING : Z := -5.
Definition PSCI_E_INTERN_FAIL : Z := -6.
Definition PSCI_E_NOT_PRESENT : Z := -7.
Definition PSCI_E_INVALID_ADDRESS : Z := -9.

(** *** Function identifiers *)
Definition PSCI_VERSION : Z := 0x84000000.
Definition PSCI_CPU_SUSPEND_AARCH32 : Z := 0x84000001.
Definition PSCI_CPU_SUSPEND_AARCH64 : Z := 0xc4000001.
Definition PSCI_CPU_OFF : Z := 0x84000002.
Definition PSCI_CPU_ON_AARCH32 : Z := 0x84000003.
Definition PSCI_CPU_ON_AARCH64 : Z := 0xc4000003.
Definition PSCI_AFFINITY_INFO_AARCH32 : Z := 0x84000004.
Definition PSCI_AFFINITY_INFO_AARCH64 : Z := 0xc4000004.
Definition PSCI_MIG_AARCH32 : Z := 0x84000005.
Definition PSCI_MIG_AARCH64 : Z := 0xc4000005.
Definition PSCI_MIG_INFO_TYPE : Z := 0x84000006.
Definition PSCI_MIG_INFO_UP_CPU_AARCH32 : Z := 0x84000007.
Definition PSCI_MIG_INFO_UP_CPU_AARCH64 : Z := 0xc4000007.
Definition PSCI_SYSTEM_OFF : Z := 0x84000008.
Definition PSCI_SYSTEM_RESET : Z := 0x84000009.
Definition PSCI_FEATURES : Z := 0x8400000A.
Definition PSCI_NODE_HW_STATE_AARCH32 : Z := 0x8400000d.
Definition PSCI_NODE_HW_STATE_AARCH64 : Z := 0xc400000d.
Definition PSCI_SYSTEM_SUSPEND_AARCH32 : Z := 0x8400000E.
Definition PSCI_SYSTEM_SUSPEND_AARCH64 : Z := 0xc400000E.
Definition PSCI_STAT_RESIDENCY_AARCH32 : Z := 0x84000010.
Definition PSCI_STAT_RESIDENCY_AARCH64 : Z := 0xc4000010.
Definition PSCI_STAT_COUNT_AARCH32 : Z := 0x84000011.
Definition PSCI_STAT_COUNT_AARCH64 : Z := 0xc4000011.
Definition PSCI_SYSTEM_RESET2_AARCH32 : Z := 0x84000012.
Definition PSCI_SYSTEM_RESET2_AARCH64 : Z := 0xc4000012.
Definition PSCI_MEM_PROTECT : Z := 0x84000013.
Definition PSCI_MEM_CHK_RANGE_AARCH32 : Z := 0x84000014.
Definition PSCI_MEM_CHK_RANGE_AARCH64 : Z := 0xc4000014.

Definition define_psci_cap (x : Z) : Z := u32 (Z.shiftl 1 (Z.land x 0x1f)).
Definition is_psci_fid (fid : Z) : bool := Z.land fid 0xffe0 =? 0.

(** *** Secure payload migration *)
Definition PSCI_TOS_UP_MIG_CAP : Z := 0.
Definition PSCI_TOS_NOT_UP_MIG_CAP : Z := 1.
Definition PSCI_TOS_NOT_PRESENT_MP : Z := 2.

(** *** The power_state parameter of CPU_SUSPEND *)
Definition PSTATE_VALID_MASK : Z := if PSCI_EXTENDED_STATE_ID then 0xB0000000 else 0xFCFE0000.
Definition PSTATE_TYPE_SHIFT : Z := if PSCI_EXTENDED_STATE_ID then 30 else 16.
Definition PSTATE_TYPE_MASK : Z := 0x1.
Definition PSTATE_TYPE_POWERDOWN : Z := 1.
Definition psci_get_pstate_type (pstate : Z) : Z :=
  Z.land (Z.shiftr pstate PSTATE_TYPE_SHIFT) PSTATE_TYPE_MASK.
Definition psci_check_power_state (pstate : Z) : Z := Z.land pstate PSTATE_VALID_MASK.

(** *** PSCI_FEATURES flags and version *)
Definition FF_PSTATE : Z := if PSCI_EXTENDED_STATE_ID then 1 else 0.
Definition FF_PSTATE_SHIFT : Z := 1.
Definition FF_MODE_SUPPORT_SHIFT : Z := 0.
Definition FF_SUPPORTS_OS_INIT_MODE : Z := 1.
Definition PSCI_MAJOR_VER : Z := Z.shiftl 1 16.
Definition PSCI_MINOR_VER : Z := 1.
Definition PSCI_RESET2_TYPE_VENDOR_SHIFT : Z := 31.
Definition PSCI_RESET2_SYSTEM_WARM_RESET : Z := 0.

(** *** Capability masks (psci_private.h) *)
Definition PSCI_GENERIC_CAP : Z :=
  Z.lor (define_psci_cap PSCI_VERSION)
    (Z.lor (define_psci_cap PSCI_AFFINITY_INFO_AARCH64) (define_psci_cap PSCI_FEATURES)).
Definition PSCI_CAP_64BIT_MASK : Z :=
  foldr (fun f acc => Z.lor (define_psci_cap f) acc) 0
    [PSCI_CPU_SUSPEND_AARCH64; PSCI_CPU_ON_AARCH64; PSCI_AFFINITY_INFO_AARCH64;
     PSCI_MIG_AARCH64; PSCI_MIG_INFO_UP_CPU_AARCH64; PSCI_NODE_HW_STATE_AARCH64;
     PSCI_SYSTEM_SUSPEND_AARCH64; PSCI_STAT_RESIDENCY_AARCH64; PSCI_STAT_COUNT_AARCH64;
     PSCI_SYSTEM_RESET2_AARCH64; PSCI_MEM_CHK_RANGE_AARCH64].

Definition is_cpu_standby_req (is_power_down_state retn_lvl : Z) : bool :=
  negb (truthy is_power_down_state) && (retn_lvl =? 0).
End constants.

(** ** Types *)
Inductive aff_info_state_t : Type := AFF_STATE_ON | AFF_STATE_OFF | AFF_STATE_ON_PENDING.
#[global] Instance aff_info_state_eq_dec : EqDecision aff_info_state_t.
Proof. solve_decision. Defined.

Definition aff_value (a : aff_info_state_t) : Z :=
  match a with AFF_STATE_ON => 0 | AFF_STATE_OFF => 1 | AFF_STATE_ON_PENDING => 2 end.

(** [psci_power_state_t]: the local state of each power level. *)
Definition psci_power_state_t : Type := list Z.

Record non_cpu_pd_node_t : Type := NonCpuNode {
  cpu_start_idx : Z;
  ncpus : Z;
  parent_node : Z;
  local_state : Z;
  level : Z;
  lock_index : Z
}.

(** [cpu_lock] is the owner of the spinlock. *)
Record cpu_pd_node_t : Type := CpuNode {
  mpidr : Z;
  cpu_parent_node : Z;
  cpu_lock : option Z
}.

Record psci_cpu_data_t : Type := PsciCpuData {
  aff_info_state : aff_info_state_t;
  target_pwrlvl : Z;
  cpu_local_state : Z
}.

Record psci_stat_t : Type := PsciStat { residency : Z; count : Z }.

(** The parts of [entry_point_info_t] PSCI fills in. *)
Record entry_point_info_t : Type := EntryPoint {
  ep_attr : Z;
  ep_pc : Z;
  ep_spsr : Z;
  ep_arg0 : Z
}.

(** Hooks of the platform port; a null pointer is [None]. *)
Record plat_psci_ops (P : Type) : Type := PlatPsciOps {
  cpu_standby : option (Z -> M P unit);
  pwr_domain_on : option (Z -> M P Z);
  pwr_domain_off : option (psci_power_state_t -> M P unit);
  pwr_domain_suspend_pwrdown_early : option (psci_power_state_t -> M P unit);
  pwr_domain_suspend : option (psci_power_state_t -> M P unit);
  pwr_domain_on_finish : option (psci_power_state_t -> M P unit);
  pwr_domain_suspend_finish : option (psci_power_state_t -> M P unit);
  pwr_domain_pwr_down_wfi : option (psci_power_state_t -> M P unit);
  system_off : option (M P unit);
  system_reset : option (M P unit);
  validate_power_state : option (Z -> psci_power_state_t -> M P (Z * psci_power_state_t));
  validate_ns_entrypoint : option (Z -> M P Z);
  get_sys_suspend_power_state : option (psci_power_state_t -> M P psci_power_state_t);
  get_pwr_lvl_state_idx : option (Z -> Z -> M P Z);
  translate_power_state_by_mpidr :
    option (Z -> Z -> psci_power_state_t -> M P (Z * psci_power_state_t));
  get_node_hw_state : option (Z -> Z -> M P Z);
  mem_protect_chk : option (Z -> Z -> M P Z);
  read_mem_protect : option (M P (Z * Z));
  write_mem_protect : option (Z -> M P Z);
  system_reset2 : option (Z -> Z -> Z -> M P Z)
}.

Record spd_pm_ops (P : Type) : Type := SpdPmOps {
  svc_on : option (Z -> M P unit);
  svc_off : option (Z -> M P Z);
  svc_suspend : option (Z -> M P unit);
  svc_on_finish : option (Z -> M P unit);
  svc_suspend_finish : option (Z -> M P unit);
  svc_migrate : option (Z -> Z -> M P Z);
  svc_migrate_info : option (M P (Z * Z));
  svc_system_off : option (M P unit);
  svc_system_reset : option (M P unit)
}.

Arguments cpu_standby {P} _.
Arguments pwr_domain_on {P} _.
Arguments pwr_domain_off {P} _.
Arguments pwr_domain_suspend_pwrdown_early {P} _.
Arguments pwr_domain_suspend {P} _.
Arguments pwr_domain_on_finish {P} _.
Arguments pwr_domain_suspend_finish {P} _.
Arguments pwr_domain_pwr_down_wfi {P} _.
Arguments system_off {P} _.
Arguments system_reset {P} _.
Arguments validate_power_state {P} _.
Arguments validate_ns_entrypoint {P} _.
Arguments get_sys_suspend_power_state {P} _.
Arguments get_pwr_lvl_state_idx {P} _.
Arguments translate_power_state_by_mpidr {P} _.
Arguments get_node_hw_state {P} _.
Arguments mem_protect_chk {P} _.
Arguments read_mem_protect {P} _.
Arguments write_mem_protect {P} _.
Arguments system_reset2 {P} _.
Arguments svc_on {P} _.
Arguments svc_off {P} _.
Arguments svc_suspend {P} _.
Arguments svc_on_finish {P} _.
Arguments svc_suspend_finish {P} _.
Arguments svc_migrate {P} _.
Arguments svc_migrate_info {P} _.
Arguments svc_system_off {P} _.
Arguments svc_system_reset {P} _.

(** ** Trace *)
Inductive hook : Type :=
| HkCpuStandby | HkOn | HkOff | HkSuspendEarly | HkSuspend | HkOnFinish
| HkSuspendFinish | HkPwrDownWfi | HkSystemOff | HkSystemReset | HkValidatePowerState
| HkValidateNsEntrypoint | HkGetSysSuspend | HkStateIdx | HkTranslate | HkNodeHwState
| HkMemChk | HkReadMemProtect | HkWriteMemProtect | HkSystemReset2
| HkSpdOn | HkSpdOff | HkSpdSuspend | HkSpdOnFinish | HkSpdSuspendFinish
| HkSpdMigrate | HkSpdMigrateInfo | HkSpdSystemOff | HkSpdSystemReset
| HkStatStart | HkStatStop | HkStatResidency.

Inductive pub_event : Type :=
| psci_cpu_on_finish_event | psci_suspend_pwrdown_start_event | psci_suspend_pwrdown_finish_event.

Inductive event : Type :=
| EvLock (node : Z)
| EvUnlock (node : Z)
| EvCpuLock (cpu : Z)
| EvCpuUnlock (cpu : Z)
| EvHook (h : hook) (args : list Z)
| EvPublish (e : pub_event)
| EvFlushNode (node : Z)
| EvFlushCpuData (cpu : Z)
| EvInvCpuData (cpu : Z)
| EvFlushOps
| EvDsbish
| EvPwrDownSequence (lvl : Z)
| EvPwrUpCache
| EvWfi
| EvArchSetup
| EvCntfrq (freq : Z)
| EvCmSetContext (cpu : Z)
| EvCmInitContext (cpu : Z) (ep : entry_point_info_t)
| EvCmPrepareEl3Exit (cpu : Z)
| EvPrintPowerDomainMap
| EvConsoleFlush.

(** ** Shared state *)
Record psci_state (P : Type) : Type := PsciState {
  psci_req_local_pwr_states : list (list Z);
  psci_non_cpu_pd_nodes : list non_cpu_pd_node_t;
  psci_cpu_pd_nodes : list cpu_pd_node_t;
  percpu_data : list psci_cpu_data_t;
  psci_caps : Z;
  psci_plat_pm_ops : option (plat_psci_ops P);
  psci_spd_pm : option (spd_pm_ops P);
  last_cpu_in_non_cpu_pd : list Z;
  psci_cpu_stat : list (list psci_stat_t);
  psci_non_cpu_stat : list (list psci_stat_t);
  psci_locks : list (option Z);
  trace : list event;
  hw : P
}.
Arguments PsciState {P}.
Arguments psci_req_local_pwr_states {P} _.
Arguments psci_non_cpu_pd_nodes {P} _.
Arguments psci_cpu_pd_nodes {P} _.
Arguments percpu_data {P} _.
Arguments psci_caps {P} _.
Arguments psci_plat_pm_ops {P} _.
Arguments psci_spd_pm {P} _.
Arguments last_cpu_in_non_cpu_pd {P} _.
Arguments psci_cpu_stat {P} _.
Arguments psci_non_cpu_stat {P} _.
Arguments psci_locks {P} _.
Arguments trace {P} _.
Arguments hw {P} _.

Section setters.
Context {P : Type}.
Implicit Types s : psci_state P.

Definition set_req v s := let 'PsciState r n c d k o p l cs ns lk t h := s in PsciState v n c d k o p l cs ns lk t h.
Definition set_nodes v s := let 'PsciState r n c d k o p l cs ns lk t h := s in PsciState r v c d k o p l cs ns lk t h.
Definition set_cpus v s := let 'PsciState r n c d k o p l cs ns lk t h := s in PsciState r n v d k o p l cs ns lk t h.
Definition set_percpu v s := let 'PsciState r n c d k o p l cs ns lk t h := s in PsciState r n c v k o p l cs ns lk t h.
Definition set_caps v s := let 'PsciState r n c d k o p l cs ns lk t h := s in PsciState r n c d v o p l cs ns lk t h.
Definition set_ops v s := let 'PsciState r n c d k o p l cs ns lk t h := s in PsciState r n c d k v p l cs ns lk t h.
Definition set_spd v s := let 'PsciState r n c d k o p l cs ns lk t h := s in PsciState r n c d k o v l cs ns lk t h.
Definition set_last_cpu v s := let 'PsciState r n c d k o p l cs ns lk t h := s in PsciState r n c d k o p v cs ns lk t h.
Definition set_cpu_stat v s := let 'PsciState r n c d k o p l cs ns lk t h := s in PsciState r n c d k o p l v ns lk t h.
Definition set_non_cpu_stat v s := let 'PsciState r n c d k o p l cs ns lk t h := s in PsciState r n c d k o p l cs v lk t h.
Definition set_locks v s := let 'PsciState r n c d k o p l cs ns lk t h := s in PsciState r n c d k o p l cs ns v t h.
Definition set_trace v s := let 'PsciState r n c d k o p l cs ns lk t h := s in PsciState r n c d k o p l cs ns lk v h.
Definition set_hw v s := let 'PsciState r n c d k o p l cs ns lk t h := s in PsciState r n c d k o p l cs ns lk t v.
End setters.

(** ** What the platform port links in *)
Class PlatEnv (P : Type) : Type := {
  plat_core_pos_by_mpidr : Z -> Z;
  plat_get_power_domain_tree_desc : list Z;
  plat_setup_psci_ops : Z -> M P (plat_psci_ops P);
  plat_get_syscnt_freq2 : Z;
  read_mpidr : Z -> Z;
  read_isr_el1 : Z -> M P Z;
  read_scr_el3 : Z -> M P Z;
  read_sctlr_el1 : Z -> M P Z;
  read_sctlr_el2 : Z -> M P Z;
  plat_psci_stat_accounting_start : Z -> psci_power_state_t -> M P unit;
  plat_psci_stat_accounting_stop : Z -> psci_power_state_t -> M P unit;
  plat_psci_stat_get_residency : Z -> Z -> psci_power_state_t -> Z -> M P Z
}.

(** ** Primitive accesses *)
Section primitives.
Context `{PlatCfg} {P : Type}.
#[local] Abbreviation PM := (M (psci_state P)).

Definition emit (e : event) : PM unit := modify (fun s => set_trace (e :: trace s) s).
Definition assertM (b : bool) : PM unit :=
  if ENABLE_ASSERTIONS && negb b then halt_with HAssert else ret tt.
Definition panic {A} : PM A := halt_with HPanic.
Definition plat {A} (m : M P A) : PM A := zoom hw set_hw m.
Definition call {A} (h : hook) (args : list Z) (m : M P A) : PM A := emit (EvHook h args) ;;; plat m.

(** [psci_plat_pm_ops->...]: the pointer is dereferenced. *)
Definition get_ops : PM (plat_psci_ops P) :=
  let! o := gets psci_plat_pm_ops in deref o.

(** A hook called without a null check. *)
Definition hook_of {A} (o : option A) : PM A := deref o.

(** [if (psci_spd_pm && psci_spd_pm->svc) psci_spd_pm->svc(...)]. *)
Definition spd_hook {A} (f : spd_pm_ops P -> option A) : PM (option A) :=
  let! o := gets psci_spd_pm in
  ret (match o with Some ops => f ops | None => None end).
Definition call_spd (h : hook) (f : spd_pm_ops P -> option (Z -> M P unit)) (arg : Z) : PM unit :=
  let! o := spd_hook f in
  match o with Some g => call h [arg] (g arg) | None => ret tt end.
Definition call_spd0 (h : hook) (f : spd_pm_ops P -> option (M P unit)) : PM unit :=
  let! o := spd_hook f in
  match o with Some g => call h [] g | None => ret tt end.

(** Array elements. *)
Definition get_node (i : Z) : PM non_cpu_pd_node_t :=
  let! l := gets psci_non_cpu_pd_nodes in deref (arr_get l i).
Definition put_node (i : Z) (n : non_cpu_pd_node_t) : PM unit :=
  let! l := gets psci_non_cpu_pd_nodes in
  let! l' := deref (arr_set l i n) in
  modify (set_nodes l').
Definition get_cpu_node (i : Z) : PM cpu_pd_node_t :=
  let! l := gets psci_cpu_pd_nodes in deref (arr_get l i).
Definition put_cpu_node (i : Z) (n : cpu_pd_node_t) : PM unit :=
  let! l := gets psci_cpu_pd_nodes in
  let! l' := deref (arr_set l i n) in
  modify (set_cpus l').
Definition get_cpu_data (i : Z) : PM psci_cpu_data_t :=
  let! l := gets percpu_data in deref (arr_get l i).
Definition put_cpu_data (i : Z) (d : psci_cpu_data_t) : PM unit :=
  let! l := gets percpu_data in
  let! l' := deref (arr_set l i d) in
  modify (set_percpu l').
Definition ps_get (st : psci_power_state_t) (lvl : Z) : PM Z := deref (arr_get st lvl).
Definition ps_set (st : psci_power_state_t) (lvl v : Z) : PM psci_power_state_t :=
  deref (arr_set st lvl v).

(** The accessor macros of psci_private.h; [idx] is [me] for the variants
    without an index. *)
Definition psci_get_aff_info_state_by_idx (idx : Z) : PM aff_info_state_t :=
  let! d := get_cpu_data idx in ret (aff_info_state d).
Definition psci_set_aff_info_state_by_idx (idx : Z) (a : aff_info_state_t) : PM unit :=
  let! d := get_cpu_data idx in
  put_cpu_data idx (PsciCpuData a (target_pwrlvl d) (cpu_local_state d)).
Definition psci_get_suspend_pwrlvl (me : Z) : PM Z :=
  let! d := get_cpu_data me in ret (target_pwrlvl d).
Definition psci_set_suspend_pwrlvl (me lvl : Z) : PM unit :=
  let! d := get_cpu_data me in
  put_cpu_data me (PsciCpuData (aff_info_state d) (u8 lvl) (cpu_local_state d)).
Definition psci_get_cpu_local_state_by_idx (idx : Z) : PM Z :=
  let! d := get_cpu_data idx in ret (cpu_local_state d).
Definition psci_set_cpu_local_state (me st : Z) : PM unit :=
  let! d := get_cpu_data me in
  put_cpu_data me (PsciCpuData (aff_info_state d) (target_pwrlvl d) (u8 st)).

(** Cache maintenance that is compiled out with hardware-assisted coherency. *)
Definition psci_flush_cpu_data (me : Z) : PM unit :=
  when (negb HW_ASSISTED_COHERENCY) (emit (EvFlushCpuData me)).
Definition psci_inv_cpu_data (me : Z) : PM unit :=
  when (negb HW_ASSISTED_COHERENCY) (emit (EvInvCpuData me)).
Definition psci_dsbish : PM unit := when (negb HW_ASSISTED_COHERENCY) (emit EvDsbish).

(** *** Locks *)
Definition psci_lock_get (me node : Z) : PM unit :=
  let! n := get_node node in
  let! lk := gets psci_locks in
  let! owner := deref (arr_get lk (lock_index n)) in
  match owner with
  | Some _ => halt_with HBlocked
  | None =>
      let! lk' := deref (arr_set lk (lock_index n) (Some me)) in
      modify (set_locks lk') ;;;
      emit (EvLock node)
  end.

Definition psci_lock_release (me node : Z) : PM unit :=
  let! n := get_node node in
  let! lk := gets psci_locks in
  let! owner := deref (arr_get lk (lock_index n)) in
  assertM (bool_decide (owner = Some me)) ;;;
  let! lk' := deref (arr_set lk (lock_index n) (if decide (owner = Some me) then None else owner)) in
  modify (set_locks lk') ;;;
  emit (EvUnlock node).

Definition psci_lock_init (node : Z) : PM unit :=
  let! n := get_node node in
  put_node node (NonCpuNode (cpu_start_idx n) (ncpus n) (parent_node n) (local_state n) (level n) (u8 node)).

Definition psci_spin_lock_cpu (me idx : Z) : PM unit :=
  let! n := get_cpu_node idx in
  match cpu_lock n with
  | Some _ => halt_with HBlocked
  | None => put_cpu_node idx (CpuNode (mpidr n) (cpu_parent_node n) (Some me)) ;;; emit (EvCpuLock idx)
  end.
Definition psci_spin_unlock_cpu (idx : Z) : PM unit :=
  let! n := get_cpu_node idx in
  put_cpu_node idx (CpuNode (mpidr n) (cpu_parent_node n) None) ;;; emit (EvCpuUnlock idx).
End primitives.
