(* ===== verification/PsciCommon.v ===== *)
(** * PSCI: common routines (lib/psci/psci_common.c, plat/common/plat_psci_common.c)

    One definition per function of psci_common.c, in source order.  Loops over
    power levels carry the level and the parent node index, as the C loops do;
    the number of iterations left is the structural argument.  The AArch32
    variant of [psci_get_ns_ep_info], the compatibility helpers under
    [ENABLE_PLAT_COMPAT] (0 on this platform) and the run-time
    instrumentation time stamps are not modelled. *)
From stdpp Require Import base list numbers option.
From Stdlib Require Import ZArith Lia.
From S2P Require Import Prelude PsciDefs.
#[local] Open Scope Z_scope.

Inductive plat_local_state_type : Type := STATE_TYPE_RUN | STATE_TYPE_RETN | STATE_TYPE_OFF.
Definition state_type_value (t : plat_local_state_type) : Z :=
  match t with STATE_TYPE_RUN => 0 | STATE_TYPE_RETN => 1 | STATE_TYPE_OFF => 2 end.

Section psci_common.
Context `{PlatCfg} {P : Type} `{!PlatEnv P}.
#[local] Abbreviation PM := (M (psci_state P)).

Definition find_local_state_type (st : Z) : plat_local_state_type :=
  if truthy st then (if PLAT_MAX_RET_STATE <? st then STATE_TYPE_OFF else STATE_TYPE_RETN)
  else STATE_TYPE_RUN.

Definition psci_validate_power_state (power_state : Z) (state_info : psci_power_state_t) :
    PM (Z * psci_power_state_t) :=
  if truthy (psci_check_power_state power_state) then ret (PSCI_E_INVALID_PARAMS, state_info)
  else
    let! ops := get_ops in
    assertM (bool_decide (is_Some (validate_power_state ops))) ;;;
    let! f := hook_of (validate_power_state ops) in
    call HkValidatePowerState [power_state] (f power_state state_info).

Definition psci_query_sys_suspend_pwrstate (state_info : psci_power_state_t) :
    PM psci_power_state_t :=
  let! ops := get_ops in
  assertM (bool_decide (is_Some (get_sys_suspend_power_state ops))) ;;;
  let! f := hook_of (get_sys_suspend_power_state ops) in
  call HkGetSysSuspend [] (f state_info).

Fixpoint last_on_cpu_loop (me : Z) (idxs : list Z) : PM Z :=
  match idxs with
  | [] => ret 1
  | cpu_idx :: rest =>
      if cpu_idx =? me then
        let! a := psci_get_aff_info_state_by_idx me in
        assertM (bool_decide (a = AFF_STATE_ON)) ;;;
        last_on_cpu_loop me rest
      else
        let! a := psci_get_aff_info_state_by_idx cpu_idx in
        if decide (a = AFF_STATE_OFF) then last_on_cpu_loop me rest else ret 0
  end.
Definition psci_is_last_on_cpu (me : Z) : PM Z :=
  last_on_cpu_loop me (seqZ 0 PLATFORM_CORE_COUNT).

Definition get_power_on_target_pwrlvl (me : Z) : PM Z :=
  let! pwrlvl := psci_get_suspend_pwrlvl me in
  ret (if pwrlvl =? PSCI_INVALID_PWR_LVL then PLAT_MAX_PWR_LVL else pwrlvl).

Definition psci_set_req_local_pwr_state (pwrlvl cpu_idx req_pwr_state : Z) : PM unit :=
  assertM (PSCI_CPU_PWR_LVL <? pwrlvl) ;;;
  let! req := gets psci_req_local_pwr_states in
  let! row := deref (arr_get req (pwrlvl - 1)) in
  let! row' := deref (arr_set row cpu_idx req_pwr_state) in
  let! req' := deref (arr_set req (pwrlvl - 1) row') in
  modify (set_req req').

(** [memset] of the whole array to the byte PLAT_MAX_OFF_STATE. *)
Definition psci_init_req_local_pwr_states : PM unit :=
  modify (fun s => set_req (map (map (fun _ => u8 PLAT_MAX_OFF_STATE)) (psci_req_local_pwr_states s)) s).

(** The array from [cpu_idx] on in the row of [pwrlvl]. *)
Definition psci_get_req_local_pwr_states (pwrlvl cpu_idx : Z) : PM (list Z) :=
  assertM (PSCI_CPU_PWR_LVL <? pwrlvl) ;;;
  let! req := gets psci_req_local_pwr_states in
  let! row := deref (arr_get req (pwrlvl - 1)) in
  if 0 <=? cpu_idx then ret (drop (Z.to_nat cpu_idx) row) else halt_with HUndef.

Definition get_non_cpu_pd_node_local_state (parent_idx : Z) : PM Z :=
  when (negb USE_COHERENT_MEM || negb HW_ASSISTED_COHERENCY) (emit (EvFlushNode parent_idx)) ;;;
  let! n := get_node parent_idx in
  ret (local_state n).

Definition set_non_cpu_pd_node_local_state (parent_idx state : Z) : PM unit :=
  let! n := get_node parent_idx in
  put_node parent_idx
    (NonCpuNode (cpu_start_idx n) (ncpus n) (parent_node n) state (level n) (lock_index n)) ;;;
  when (negb USE_COHERENT_MEM || negb HW_ASSISTED_COHERENCY) (emit (EvFlushNode parent_idx)).

Fixpoint get_target_loop (n : nat) (lvl parent_idx : Z) (pd_state : psci_power_state_t) :
    PM psci_power_state_t :=
  match n with
  | O => ret pd_state
  | S n' =>
      let! ls := get_non_cpu_pd_node_local_state parent_idx in
      let! pd_state' := ps_set pd_state lvl ls in
      let! nd := get_node parent_idx in
      get_target_loop n' (lvl + 1) (parent_node nd) pd_state'
  end.

Fixpoint set_run_loop (lvls : list Z) (pd_state : psci_power_state_t) : PM psci_power_state_t :=
  match lvls with
  | [] => ret pd_state
  | lvl :: rest =>
      let! pd_state' := ps_set pd_state lvl PSCI_LOCAL_STATE_RUN in
      set_run_loop rest pd_state'
  end.

Definition psci_get_target_local_pwr_states (me end_pwrlvl : Z) (target_state : psci_power_state_t) :
    PM psci_power_state_t :=
  let! cl := psci_get_cpu_local_state_by_idx me in
  let! pd_state := ps_set target_state PSCI_CPU_PWR_LVL cl in
  let! cn := get_cpu_node me in
  let! pd_state := get_target_loop (Z.to_nat end_pwrlvl) (PSCI_CPU_PWR_LVL + 1) (cpu_parent_node cn) pd_state in
  set_run_loop (seqZ (end_pwrlvl + 1) (PLAT_MAX_PWR_LVL - end_pwrlvl)) pd_state.

Fixpoint set_target_loop (n : nat) (lvl parent_idx : Z) (pd_state : psci_power_state_t) : PM unit :=
  match n with
  | O => ret tt
  | S n' =>
      let! v := ps_get pd_state lvl in
      set_non_cpu_pd_node_local_state parent_idx v ;;;
      let! nd := get_node parent_idx in
      set_target_loop n' (lvl + 1) (parent_node nd) pd_state
  end.

Definition psci_set_target_local_pwr_states (me end_pwrlvl : Z) (target_state : psci_power_state_t) :
    PM unit :=
  let! v := ps_get target_state PSCI_CPU_PWR_LVL in
  psci_set_cpu_local_state me v ;;;
  psci_flush_cpu_data me ;;;
  let! cn := get_cpu_node me in
  set_target_loop (Z.to_nat end_pwrlvl) 1 (cpu_parent_node cn) target_state.

Fixpoint parent_nodes_loop (n : nat) (parent : Z) : PM (list Z) :=
  match n with
  | O => ret []
  | S n' =>
      let! nd := get_node parent in
      let! rest := parent_nodes_loop n' (parent_node nd) in
      ret (parent :: rest)
  end.

Definition psci_get_parent_pwr_domain_nodes (cpu_idx end_lvl : Z) : PM (list Z) :=
  let! cn := get_cpu_node cpu_idx in
  parent_nodes_loop (Z.to_nat end_lvl) (cpu_parent_node cn).

Fixpoint set_to_run_loop (n : nat) (cpu_idx lvl parent_idx : Z) : PM unit :=
  match n with
  | O => ret tt
  | S n' =>
      set_non_cpu_pd_node_local_state parent_idx PSCI_LOCAL_STATE_RUN ;;;
      psci_set_req_local_pwr_state lvl cpu_idx PSCI_LOCAL_STATE_RUN ;;;
      let! nd := get_node parent_idx in
      set_to_run_loop n' cpu_idx (lvl + 1) (parent_node nd)
  end.

Definition psci_set_pwr_domains_to_run (me end_pwrlvl : Z) : PM unit :=
  let! cn := get_cpu_node me in
  set_to_run_loop (Z.to_nat end_pwrlvl) me (PSCI_CPU_PWR_LVL + 1) (cpu_parent_node cn) ;;;
  psci_set_aff_info_state_by_idx me AFF_STATE_ON ;;;
  psci_set_cpu_local_state me PSCI_LOCAL_STATE_RUN ;;;
  psci_flush_cpu_data me.

(** plat_psci_common.c: the minimum of the [ncpu] requested states.  The
    [do ... while (--ncpu)] loop reads one state per iteration. *)
Fixpoint target_pwr_state_loop (states : list Z) (ncpu target : Z) : PM Z :=
  match states with
  | [] => halt_with HUndef
  | temp :: states' =>
      let target' := if temp <? target then temp else target in
      if u32 (ncpu - 1) =? 0 then ret target'
      else target_pwr_state_loop states' (u32 (ncpu - 1)) target'
  end.
Definition plat_get_target_pwr_state (lvl : Z) (states : list Z) (ncpu : Z) : PM Z :=
  assertM (truthy ncpu) ;;;
  target_pwr_state_loop states ncpu PLAT_MAX_OFF_STATE.

(** First loop: returns the negotiated states and the level at exit. *)
Fixpoint coordinate_loop (n : nat) (cpu_idx lvl parent_idx : Z) (state_info : psci_power_state_t) :
    PM (psci_power_state_t * Z) :=
  match n with
  | O => ret (state_info, lvl)
  | S n' =>
      let! v := ps_get state_info lvl in
      psci_set_req_local_pwr_state lvl cpu_idx v ;;;
      let! nd := get_node parent_idx in
      let! req_states := psci_get_req_local_pwr_states lvl (cpu_start_idx nd) in
      let! target_state := plat_get_target_pwr_state lvl req_states (ncpus nd) in
      let! state_info' := ps_set state_info lvl target_state in
      if is_local_state_run target_state then ret (state_info', lvl)
      else coordinate_loop n' cpu_idx (lvl + 1) (parent_node nd) state_info'
  end.

(** Second loop: the levels above a level that stays in RUN. *)
Fixpoint coordinate_run_loop (n : nat) (cpu_idx lvl : Z) (state_info : psci_power_state_t) :
    PM psci_power_state_t :=
  match n with
  | O => ret state_info
  | S n' =>
      let! v := ps_get state_info lvl in
      psci_set_req_local_pwr_state lvl cpu_idx v ;;;
      let! state_info' := ps_set state_info lvl PSCI_LOCAL_STATE_RUN in
      coordinate_run_loop n' cpu_idx (lvl + 1) state_info'
  end.

Definition psci_do_state_coordination (me end_pwrlvl : Z) (state_info : psci_power_state_t) :
    PM psci_power_state_t :=
  assertM (end_pwrlvl <=? PLAT_MAX_PWR_LVL) ;;;
  let! cn := get_cpu_node me in
  let! r := coordinate_loop (Z.to_nat end_pwrlvl) me (PSCI_CPU_PWR_LVL + 1) (cpu_parent_node cn) state_info in
  let! state_info := coordinate_run_loop (Z.to_nat (end_pwrlvl - r.2)) me (r.2 + 1) r.1 in
  psci_set_target_local_pwr_states me end_pwrlvl state_info ;;;
  ret state_info.

(** The scans from PLAT_MAX_PWR_LVL down to the CPU level; [i] is the level
    under test. *)
Fixpoint find_lvl_down (p : Z -> bool) (state_info : psci_power_state_t) (i : nat) : option Z :=
  match arr_get state_info (Z.of_nat i) with
  | None => None
  | Some st =>
      if p st then Some (Z.of_nat i)
      else match i with O => Some PSCI_INVALID_PWR_LVL | S i' => find_lvl_down p state_info i' end
  end.

Definition psci_find_max_off_lvl (state_info : psci_power_state_t) : PM Z :=
  deref (find_lvl_down is_local_state_off state_info (Z.to_nat PLAT_MAX_PWR_LVL)).

Definition psci_find_target_suspend_lvl (state_info : psci_power_state_t) : PM Z :=
  deref (find_lvl_down (fun st => negb (is_local_state_run st)) state_info (Z.to_nat PLAT_MAX_PWR_LVL)).

(** The loop over decreasing levels: false when a lower level asks for a
    shallower type of state than a higher one. *)
Fixpoint suspend_req_loop (state_info : psci_power_state_t) (i : nat) (deepest : plat_local_state_type) :
    PM bool :=
  let! state := ps_get state_info (Z.of_nat i) in
  let req_state_type := find_local_state_type state in
  if state_type_value req_state_type <? state_type_value deepest then ret false
  else match i with O => ret true | S i' => suspend_req_loop state_info i' req_state_type end.

Definition psci_validate_suspend_req (state_info : psci_power_state_t) (is_power_down_state : Z) : PM Z :=
  let! target_lvl := psci_find_target_suspend_lvl state_info in
  if target_lvl =? PSCI_INVALID_PWR_LVL then ret PSCI_E_INVALID_PARAMS
  else
    let! ok := suspend_req_loop state_info (Z.to_nat target_lvl) STATE_TYPE_RUN in
    if negb ok then ret PSCI_E_INVALID_PARAMS
    else
      let! max_off_lvl := psci_find_max_off_lvl state_info in
      let max_retn_lvl := if target_lvl =? max_off_lvl then PSCI_INVALID_PWR_LVL else target_lvl in
      if negb (truthy is_power_down_state) &&
         (negb (max_off_lvl =? PSCI_INVALID_PWR_LVL) || (max_retn_lvl =? PSCI_INVALID_PWR_LVL))
      then ret PSCI_E_INVALID_PARAMS
      else ret PSCI_E_SUCCESS.

Fixpoint acquire_loop (n : nat) (me parent_idx : Z) : PM unit :=
  match n with
  | O => ret tt
  | S n' =>
      psci_lock_get me parent_idx ;;;
      let! nd := get_node parent_idx in
      acquire_loop n' me (parent_node nd)
  end.

Definition psci_acquire_pwr_domain_locks (me end_pwrlvl cpu_idx : Z) : PM unit :=
  let! cn := get_cpu_node cpu_idx in
  acquire_loop (Z.to_nat end_pwrlvl) me (cpu_parent_node cn).

(** The parents are saved in an array of PLAT_MAX_PWR_LVL entries and unlocked
    top down. *)
Definition psci_release_pwr_domain_locks (me end_pwrlvl cpu_idx : Z) : PM unit :=
  if PLAT_MAX_PWR_LVL <? end_pwrlvl then halt_with HUndef
  else
    let! parent_nodes := psci_get_parent_pwr_domain_nodes cpu_idx end_pwrlvl in
    forM_ (rev parent_nodes) (fun parent_idx => psci_lock_release me parent_idx).

Definition psci_validate_mpidr (mpidr : Z) : PM Z :=
  ret (if plat_core_pos_by_mpidr mpidr <? 0 then PSCI_E_INVALID_PARAMS else PSCI_E_SUCCESS).

(** *** Entry points *)
Definition SCR_RW_BIT : Z := Z.shiftl 1 10.
Definition SCR_HCE_BIT : Z := Z.shiftl 1 8.
Definition SCTLR_EE_BIT : Z := Z.shiftl 1 25.
Definition EP_ST_DISABLE : Z := 0.
Definition EP_EE_BIG : Z := 2.
Definition MODE_EL2 : Z := 2.
Definition MODE_EL1 : Z := 1.
Definition MODE_SP_ELX : Z := 1.
Definition MODE32_hyp : Z := 0xa.
Definition MODE32_svc : Z := 0x3.
Definition DISABLE_ALL_EXCEPTIONS : Z := 0xf.
Definition DAIF_ABT_IRQ_FIQ : Z := Z.lor (Z.lor (Z.shiftl 1 2) (Z.shiftl 1 1)) (Z.shiftl 1 0).

Definition SPSR_64 (el sp daif : Z) : Z :=
  Z.lor (Z.lor (Z.shiftl (Z.land el 3) 2) (Z.shiftl (Z.land sp 1) 0)) (Z.shiftl (Z.land daif 0xf) 6).
Definition SPSR_MODE32 (mode isa endian aif : Z) : Z :=
  Z.lor (Z.lor (Z.lor (Z.lor (Z.shiftl 1 4) (Z.shiftl (Z.land mode 0xf) 0)) (Z.shiftl (Z.land isa 1) 5))
           (Z.shiftl (Z.land endian 1) 9)) (Z.shiftl (Z.land aif 7) 6).

(** AArch64 variant: the error code and the entry point filled in so far. *)
Definition psci_get_ns_ep_info (me entrypoint context_id : Z) : PM (Z * entry_point_info_t) :=
  let! ns_scr_el3 := plat (read_scr_el3 me) in
  let! ns_sctlr_el1 := plat (read_sctlr_el1 me) in
  let! sctlr := (if truthy (Z.land ns_scr_el3 SCR_HCE_BIT) then plat (read_sctlr_el2 me)
                 else ret ns_sctlr_el1) in
  let big := truthy (Z.land sctlr SCTLR_EE_BIT) in
  let ee := b2z big in
  let ep_attr := Z.lor (Z.lor NON_SECURE EP_ST_DISABLE) (if big then EP_EE_BIG else 0) in
  if truthy (Z.land ns_scr_el3 SCR_RW_BIT) then
    if truthy (Z.land entrypoint 1)
    then ret (PSCI_E_INVALID_ADDRESS, EntryPoint ep_attr entrypoint 0 context_id)
    else
      let mode := if truthy (Z.land ns_scr_el3 SCR_HCE_BIT) then MODE_EL2 else MODE_EL1 in
      ret (PSCI_E_SUCCESS,
           EntryPoint ep_attr entrypoint (SPSR_64 mode MODE_SP_ELX DISABLE_ALL_EXCEPTIONS) context_id)
  else
    let mode := if truthy (Z.land ns_scr_el3 SCR_HCE_BIT) then MODE32_hyp else MODE32_svc in
    ret (PSCI_E_SUCCESS,
         EntryPoint ep_attr entrypoint (SPSR_MODE32 mode (Z.land entrypoint 1) ee DAIF_ABT_IRQ_FIQ) context_id).

Definition psci_validate_entry_point (me entrypoint context_id : Z) : PM (Z * option entry_point_info_t) :=
  let! ops := get_ops in
  let! rc := match validate_ns_entrypoint ops with
             | Some f => call HkValidateNsEntrypoint [entrypoint] (f entrypoint)
             | None => ret PSCI_E_SUCCESS
             end in
  if negb (rc =? PSCI_E_SUCCESS) then ret (PSCI_E_INVALID_ADDRESS, None)
  else
    let! r := psci_get_ns_ep_info me entrypoint context_id in
    ret (r.1, Some r.2).

Definition psci_register_spd_pm_hook (pm : spd_pm_ops P) : PM unit :=
  modify (set_spd (Some pm)) ;;;
  when (bool_decide (is_Some (svc_migrate pm)))
    (modify (fun s => set_caps (Z.lor (psci_caps s) (define_psci_cap PSCI_MIG_AARCH64)) s)) ;;;
  when (bool_decide (is_Some (svc_migrate_info pm)))
    (modify (fun s => set_caps (Z.lor (psci_caps s)
       (Z.lor (define_psci_cap PSCI_MIG_INFO_UP_CPU_AARCH64) (define_psci_cap PSCI_MIG_INFO_TYPE))) s)).

(** Returns the code and, when the hook was called, the resident CPU. *)
Definition psci_spd_migrate_info : PM (Z * option Z) :=
  let! o := spd_hook svc_migrate_info in
  match o with
  | None => ret (PSCI_E_NOT_SUPPORTED, None)
  | Some f =>
      let! r := call HkSpdMigrateInfo [] f in
      assertM ((r.1 =? PSCI_TOS_UP_MIG_CAP) || (r.1 =? PSCI_TOS_NOT_UP_MIG_CAP) ||
               (r.1 =? PSCI_TOS_NOT_PRESENT_MP) || (r.1 =? PSCI_E_NOT_SUPPORTED)) ;;;
      ret (r.1, Some r.2)
  end.

Definition psci_print_power_domain_map : PM unit := emit EvPrintPowerDomainMap.

Definition psci_secondaries_brought_up : PM Z :=
  let! l := gets psci_cpu_pd_nodes in
  let n_valid := length (filter (fun n => mpidr n <> PSCI_INVALID_MPIDR) l) in
  assertM (negb (Nat.eqb n_valid 0)) ;;;
  ret (b2z (Nat.ltb 1 n_valid)).

(** [prepare_cpu_pwr_dwn] or [psci_do_pwrdown_cache_maintenance]: assembly. *)
Definition psci_do_pwrdown_sequence (power_level : Z) : PM unit := emit (EvPwrDownSequence power_level).
End psci_common.
