(* ===== verification/PsciSetup.v ===== *)
(** * PSCI: initialisation (lib/psci/psci_setup.c)

    The power domain tree is built breadth first from the topology array of
    the platform; [psci_setup] then marks the boot CPU's domains as running
    and derives the capability mask from the hooks that are present. *)
From stdpp Require Import base list numbers option.
From Stdlib Require Import ZArith Lia.
From S2P Require Import Prelude PsciDefs PsciCommon.
#[local] Open Scope Z_scope.

(** [psci_lib_args_t]; [mailbox_ep] is the warm boot entry point. *)
Record psci_lib_args_t : Type := PsciLibArgs {
  la_type : Z; la_version : Z; la_size : Z; la_attr : Z; mailbox_ep : Z
}.
Definition PARAM_PSCI_LIB_ARGS : Z := 0x06.
Definition VERSION_1 : Z := 0x01.
Definition PSCI_LIB_ARGS_SIZE : Z := 16.
Definition VERIFY_PSCI_LIB_ARGS_V1 (a : psci_lib_args_t) : bool :=
  (la_type a =? PARAM_PSCI_LIB_ARGS) && (la_version a =? VERSION_1) &&
  (la_size a =? PSCI_LIB_ARGS_SIZE) && (la_attr a =? 0) && truthy (mailbox_ep a).

Definition MPIDR_AFFINITY_MASK : Z := 0xff00ffffff.

Section psci_setup.
Context `{PlatCfg} {P : Type} `{!PlatEnv P}.
#[local] Abbreviation PM := (M (psci_state P)).

Definition psci_init_pwr_domain_node (node_idx parent_idx level : Z) : PM unit :=
  if PSCI_CPU_PWR_LVL <? level then
    let! n := get_node node_idx in
    put_node node_idx (NonCpuNode (cpu_start_idx n) (ncpus n) (parent_node n) (local_state n)
                         (u8 level) (lock_index n)) ;;;
    psci_lock_init node_idx ;;;
    let! n := get_node node_idx in
    put_node node_idx (NonCpuNode (cpu_start_idx n) (ncpus n) (u32 parent_idx) PLAT_MAX_OFF_STATE
                         (PsciDefs.level n) (lock_index n))
  else
    let! n := get_cpu_node node_idx in
    put_cpu_node node_idx (CpuNode PSCI_INVALID_MPIDR (u32 parent_idx) (cpu_lock n)) ;;;
    put_cpu_data node_idx (PsciCpuData AFF_STATE_OFF PSCI_INVALID_PWR_LVL PLAT_MAX_OFF_STATE) ;;;
    psci_flush_cpu_data node_idx ;;;
    emit (EvCmSetContext node_idx).

(** Body of the loop over [j] for one CPU: [nodes_idx] is the node last seen at
    each level, [temp_index] the ancestors of the CPU; level [j] runs down. *)
Fixpoint limits_cpu_loop (n : nat) (cpu_idx : Z) (nodes_idx temp_index : list Z) : PM (list Z) :=
  match n with
  | O => ret nodes_idx
  | S n' =>
      let j := Z.of_nat n' in
      let! t := deref (arr_get temp_index j) in
      let! o := deref (arr_get nodes_idx j) in
      let! nodes_idx' :=
        (if t =? o then ret nodes_idx
         else
           let! l := deref (arr_set nodes_idx j t) in
           let! nd := get_node t in
           put_node t (NonCpuNode cpu_idx (ncpus nd) (parent_node nd) (local_state nd) (level nd) (lock_index nd)) ;;;
           ret l) in
      let! nd := get_node t in
      put_node t (NonCpuNode (cpu_start_idx nd) (u32 (ncpus nd + 1)) (parent_node nd) (local_state nd)
                    (level nd) (lock_index nd)) ;;;
      limits_cpu_loop n' cpu_idx nodes_idx' temp_index
  end.

Fixpoint limits_loop (cpu_idxs : list Z) (nodes_idx : list Z) : PM unit :=
  match cpu_idxs with
  | [] => ret tt
  | cpu_idx :: rest =>
      let! temp_index := psci_get_parent_pwr_domain_nodes cpu_idx PLAT_MAX_PWR_LVL in
      let! nodes_idx' := limits_cpu_loop (Z.to_nat PLAT_MAX_PWR_LVL) cpu_idx nodes_idx temp_index in
      limits_loop rest nodes_idx'
  end.

Definition psci_update_pwrlvl_limits : PM unit :=
  limits_loop (seqZ 0 PLATFORM_CORE_COUNT) (replicate (Z.to_nat PLAT_MAX_PWR_LVL) 0).

(** [for (j = node_index; j < node_index + num_children; j++)]; returns [j]. *)
Fixpoint populate_children (n : nat) (j parent_idx level : Z) : PM Z :=
  match n with
  | O => ret j
  | S n' => psci_init_pwr_domain_node j parent_idx level ;;; populate_children n' (j + 1) parent_idx level
  end.

(** The loop over the parents of one level: node_index, parent_node_index,
    num_nodes_at_next_lvl and [j] are carried through. *)
Fixpoint populate_parents (n : nat) (topology : list Z) (level node_index parent_node_index next j : Z) :
    PM (Z * Z * Z * Z) :=
  match n with
  | O => ret (node_index, parent_node_index, next, j)
  | S n' =>
      assertM (parent_node_index <=? PSCI_NUM_NON_CPU_PWR_DOMAINS) ;;;
      let! num_children := deref (arr_get topology parent_node_index) in
      let! j' := populate_children (Z.to_nat num_children) node_index (parent_node_index - 1) level in
      populate_parents n' topology level j' (parent_node_index + 1) (next + num_children) j'
  end.

(** The loop over the levels, from PLAT_MAX_PWR_LVL down to the CPU level;
    returns the last [j]. *)
Fixpoint populate_levels (n : nat) (topology : list Z) (level num_nodes node_index parent_node_index j : Z) :
    PM Z :=
  match n with
  | O => ret j
  | S n' =>
      let! r := populate_parents (Z.to_nat num_nodes) topology level node_index parent_node_index 0 j in
      let '(ni, pni, next, j') := r in
      let level' := level - 1 in
      let ni' := if level' =? PSCI_CPU_PWR_LVL then 0 else ni in
      populate_levels n' topology level' next ni' pni j'
  end.

Definition populate_power_domain_tree (topology : list Z) : PM unit :=
  let! j := populate_levels (Z.to_nat (PLAT_MAX_PWR_LVL + 1)) topology PLAT_MAX_PWR_LVL 1 0 0 0 in
  assertM (j =? PLATFORM_CORE_COUNT).

Definition psci_arch_setup : PM unit :=
  emit (EvCntfrq plat_get_syscnt_freq2) ;;;
  emit EvArchSetup.

Definition add_cap (fid : Z) : PM unit :=
  modify (fun s => set_caps (Z.lor (psci_caps s) (define_psci_cap fid)) s).

(** The capability mask derived from the hooks, second half of [psci_setup]. *)
Definition psci_setup_caps (ops : plat_psci_ops P) : PM unit :=
  let has {A} (o : option A) := bool_decide (is_Some o) in
  modify (set_caps PSCI_GENERIC_CAP) ;;;
  when (has (pwr_domain_off ops)) (add_cap PSCI_CPU_OFF) ;;;
  when (has (pwr_domain_on ops) && has (pwr_domain_on_finish ops)) (add_cap PSCI_CPU_ON_AARCH64) ;;;
  when (has (pwr_domain_suspend ops) && has (pwr_domain_suspend_finish ops))
    (add_cap PSCI_CPU_SUSPEND_AARCH64 ;;;
     when (has (get_sys_suspend_power_state ops)) (add_cap PSCI_SYSTEM_SUSPEND_AARCH64)) ;;;
  when (has (PsciDefs.system_off ops)) (add_cap PSCI_SYSTEM_OFF) ;;;
  when (has (PsciDefs.system_reset ops)) (add_cap PSCI_SYSTEM_RESET) ;;;
  when (has (get_node_hw_state ops)) (add_cap PSCI_NODE_HW_STATE_AARCH64) ;;;
  when (has (read_mem_protect ops) && has (write_mem_protect ops)) (add_cap PSCI_MEM_PROTECT) ;;;
  when (has (mem_protect_chk ops)) (add_cap PSCI_MEM_CHK_RANGE_AARCH64) ;;;
  when (has (system_reset2 ops)) (add_cap PSCI_SYSTEM_RESET2_AARCH64) ;;;
  when ENABLE_PSCI_STAT (add_cap PSCI_STAT_RESIDENCY_AARCH64 ;;; add_cap PSCI_STAT_COUNT_AARCH64).

Definition psci_setup (me : Z) (lib_args : psci_lib_args_t) : PM Z :=
  assertM (VERIFY_PSCI_LIB_ARGS_V1 lib_args) ;;;
  psci_arch_setup ;;;
  populate_power_domain_tree plat_get_power_domain_tree_desc ;;;
  psci_update_pwrlvl_limits ;;;
  let! n := get_cpu_node me in
  put_cpu_node me (CpuNode (Z.land (read_mpidr me) MPIDR_AFFINITY_MASK) (cpu_parent_node n) (cpu_lock n)) ;;;
  psci_init_req_local_pwr_states ;;;
  psci_set_pwr_domains_to_run me PLAT_MAX_PWR_LVL ;;;
  let! ops := plat (plat_setup_psci_ops (mailbox_ep lib_args)) in
  modify (set_ops (Some ops)) ;;;
  when (negb HW_ASSISTED_COHERENCY) (emit EvFlushOps) ;;;
  psci_setup_caps ops ;;;
  ret 0.

Definition psci_prepare_next_non_secure_ctx (me : Z) (next_image_info : entry_point_info_t) : PM unit :=
  assertM (Z.land (ep_attr next_image_info) 1 =? NON_SECURE) ;;;
  emit (EvCmInitContext me next_image_info) ;;;
  emit (EvCmPrepareEl3Exit me).

(** The statically zero-initialised variables before [psci_setup]. *)
Definition psci_bss (p : P) : psci_state P :=
  let cores := Z.to_nat PLATFORM_CORE_COUNT in
  let domains := Z.to_nat PSCI_NUM_NON_CPU_PWR_DOMAINS in
  PsciState
    (replicate (Z.to_nat PLAT_MAX_PWR_LVL) (replicate cores 0))
    (replicate domains (NonCpuNode 0 0 0 0 0 0))
    (replicate cores (CpuNode 0 0 None))
    (replicate cores (PsciCpuData AFF_STATE_ON 0 0))
    0 None None
    (replicate domains (-1))
    (replicate cores (replicate (Z.to_nat PLAT_MAX_PWR_LVL_STATES) (PsciStat 0 0)))
    (replicate domains (replicate (Z.to_nat PLAT_MAX_PWR_LVL_STATES) (PsciStat 0 0)))
    (replicate domains None) [] p.
End psci_setup.
