(* ===== verification/PsciStat.v ===== *)
(** * PSCI: statistics (lib/psci/psci_stat.c, plat/common/plat_psci_common.c)

    Residency and usage counters per power state, updated when a CPU leaves a
    low power state and read by the PSCI_STAT calls. *)
From stdpp Require Import base list numbers option.
From Stdlib Require Import ZArith Lia.
From S2P Require Import Prelude PsciDefs PsciCommon.
#[local] Open Scope Z_scope.

(** [calc_stat_residency]; [freq] is CNTFRQ_EL0.  [None]: division by zero. *)
Definition MHZ_TICKS_PER_SEC : Z := 1000000.
Definition MAX_TS : Z := 2 ^ 64 - 1.
Definition calc_stat_residency (freq pwrupts pwrdnts : Z) : option Z :=
  let residency_div := freq / MHZ_TICKS_PER_SEC in
  let res := if pwrupts <? pwrdnts then u64 (MAX_TS - pwrdnts + pwrupts) else pwrupts - pwrdnts in
  if residency_div =? 0 then None else Some (res / residency_div).

Section psci_stat.
Context `{PlatCfg} {P : Type} `{!PlatEnv P}.
#[local] Abbreviation PM := (M (psci_state P)).

Definition get_stat_idx (local_state pwr_lvl : Z) : PM Z :=
  let! ops := get_ops in
  match get_pwr_lvl_state_idx ops with
  | None =>
      assertM (PLAT_MAX_PWR_LVL_STATES =? 2) ;;;
      if is_local_state_retn local_state then ret 0
      else assertM (is_local_state_off local_state) ;;; ret 1
  | Some f =>
      let! idx := call HkStateIdx [local_state; pwr_lvl] (f local_state pwr_lvl) in
      assertM ((0 <=? idx) && (idx <? PLAT_MAX_PWR_LVL_STATES)) ;;;
      ret idx
  end.

Fixpoint stats_down_loop (n : nat) (cpu_idx lvl parent_idx : Z) (state_info : psci_power_state_t) : PM unit :=
  match n with
  | O => ret tt
  | S n' =>
      let! st := ps_get state_info lvl in
      if is_local_state_run st then ret tt
      else
        let! l := gets last_cpu_in_non_cpu_pd in
        let! l' := deref (arr_set l parent_idx cpu_idx) in
        modify (set_last_cpu l') ;;;
        let! nd := get_node parent_idx in
        stats_down_loop n' cpu_idx (lvl + 1) (parent_node nd) state_info
  end.

Definition psci_stats_update_pwr_down (me end_pwrlvl : Z) (state_info : psci_power_state_t) : PM unit :=
  assertM (end_pwrlvl <=? PLAT_MAX_PWR_LVL) ;;;
  let! cn := get_cpu_node me in
  stats_down_loop (Z.to_nat end_pwrlvl) me (PSCI_CPU_PWR_LVL + 1) (cpu_parent_node cn) state_info.

Definition bump (res : Z) (st : psci_stat_t) : psci_stat_t :=
  PsciStat (u64 (residency st + res)) (u64 (count st + 1)).

Definition bump_at (get : psci_state P -> list (list psci_stat_t))
    (put : list (list psci_stat_t) -> psci_state P -> psci_state P) (row_idx stat_idx res : Z) : PM unit :=
  let! tab := gets get in
  let! row := deref (arr_get tab row_idx) in
  let! st := deref (arr_get row stat_idx) in
  let! row' := deref (arr_set row stat_idx (bump res st)) in
  let! tab' := deref (arr_set tab row_idx row') in
  modify (put tab').

Fixpoint stats_up_loop (n : nat) (me lvl parent_idx : Z) (state_info : psci_power_state_t) : PM unit :=
  match n with
  | O => ret tt
  | S n' =>
      let! local_state := ps_get state_info lvl in
      if is_local_state_run local_state then ret tt
      else
        let! l := gets last_cpu_in_non_cpu_pd in
        let! last := deref (arr_get l parent_idx) in
        assertM (negb (last =? -1)) ;;;
        let! res := call HkStatResidency [lvl; last] (plat_psci_stat_get_residency me lvl state_info last) in
        let! l' := deref (arr_set l parent_idx (-1)) in
        modify (set_last_cpu l') ;;;
        let! stat_idx := get_stat_idx local_state lvl in
        bump_at psci_non_cpu_stat set_non_cpu_stat parent_idx stat_idx res ;;;
        let! nd := get_node parent_idx in
        stats_up_loop n' me (lvl + 1) (parent_node nd) state_info
  end.

Definition psci_stats_update_pwr_up (me end_pwrlvl : Z) (state_info : psci_power_state_t) : PM unit :=
  assertM (end_pwrlvl <=? PLAT_MAX_PWR_LVL) ;;;
  let! local_state := ps_get state_info PSCI_CPU_PWR_LVL in
  let! stat_idx := get_stat_idx local_state PSCI_CPU_PWR_LVL in
  let! res := call HkStatResidency [PSCI_CPU_PWR_LVL; me]
                (plat_psci_stat_get_residency me PSCI_CPU_PWR_LVL state_info me) in
  bump_at psci_cpu_stat set_cpu_stat me stat_idx res ;;;
  let! cn := get_cpu_node me in
  let! l := gets last_cpu_in_non_cpu_pd in
  let! last := deref (arr_get l (cpu_parent_node cn)) in
  if last =? -1 then ret tt
  else stats_up_loop (Z.to_nat end_pwrlvl) me (PSCI_CPU_PWR_LVL + 1) (cpu_parent_node cn) state_info.

Fixpoint stat_parent_loop (n : nat) (parent_idx : Z) : PM Z :=
  match n with
  | O => ret parent_idx
  | S n' => let! nd := get_node parent_idx in stat_parent_loop n' (parent_node nd)
  end.

(** The error code and, on success, the statistics. *)
Definition psci_get_stat (target_cpu power_state : Z) : PM (Z * option psci_stat_t) :=
  let target_idx := plat_core_pos_by_mpidr target_cpu in
  if target_idx =? -1 then ret (PSCI_E_INVALID_PARAMS, None)
  else
    let state_info := replicate (Z.to_nat (PLAT_MAX_PWR_LVL + 1)) PSCI_LOCAL_STATE_RUN in
    let! ops := get_ops in
    let! r := match translate_power_state_by_mpidr ops with
              | None => psci_validate_power_state power_state state_info
              | Some f => call HkTranslate [target_cpu; power_state] (f target_cpu power_state state_info)
              end in
    if negb (r.1 =? PSCI_E_SUCCESS) then ret (PSCI_E_INVALID_PARAMS, None)
    else
      let! pwrlvl := psci_find_target_suspend_lvl r.2 in
      if pwrlvl =? PSCI_INVALID_PWR_LVL then panic
      else
        let! local_state := ps_get r.2 pwrlvl in
        let! stat_idx := get_stat_idx local_state pwrlvl in
        if PSCI_CPU_PWR_LVL <? pwrlvl then
          let! cn := get_cpu_node target_idx in
          let! parent_idx := stat_parent_loop (Z.to_nat (pwrlvl - 1)) (cpu_parent_node cn) in
          let! tab := gets psci_non_cpu_stat in
          let! row := deref (arr_get tab parent_idx) in
          let! st := deref (arr_get row stat_idx) in
          ret (PSCI_E_SUCCESS, Some st)
        else
          let! tab := gets psci_cpu_stat in
          let! row := deref (arr_get tab target_idx) in
          let! st := deref (arr_get row stat_idx) in
          ret (PSCI_E_SUCCESS, Some st).

Definition psci_stat_residency (target_cpu power_state : Z) : PM Z :=
  let! r := psci_get_stat target_cpu power_state in
  ret (match r.2 with Some st => residency st | None => 0 end).

Definition psci_stat_count (target_cpu power_state : Z) : PM Z :=
  let! r := psci_get_stat target_cpu power_state in
  ret (match r.2 with Some st => count st | None => 0 end).
End psci_stat.
