(* ===== verification/PsciPower.v ===== *)
(** * PSCI: power operations (lib/psci/psci_on.c, psci_off.c, psci_suspend.c,
    psci_system_off.c, psci_mem_protect.c, and the warm boot entry of
    psci_common.c)

    Each handler is the whole C function: parameter checks, lock acquisition,
    state coordination, hooks in order, cache maintenance and the final wait
    for interrupt, after which the CPU does not return. *)
From stdpp Require Import base list numbers option.
From Stdlib Require Import ZArith Lia.
From S2P Require Import Prelude PsciDefs PsciCommon PsciSetup PsciStat.
#[local] Open Scope Z_scope.

Section psci_power.
Context `{PlatCfg} {P : Type} `{!PlatEnv P}.
#[local] Abbreviation PM := (M (psci_state P)).

(** ** psci_on.c *)
Definition cpu_on_validate_state (aff_state : aff_info_state_t) : PM Z :=
  match aff_state with
  | AFF_STATE_ON => ret PSCI_E_ALREADY_ON
  | AFF_STATE_ON_PENDING => ret PSCI_E_ON_PENDING
  | AFF_STATE_OFF => ret PSCI_E_SUCCESS
  end.

(** The part of [psci_cpu_on_start] between the state check and [exit:]. *)
Definition cpu_on_power_up (target_cpu target_idx : Z) (ep : entry_point_info_t) : PM Z :=
  call_spd HkSpdOn svc_on target_cpu ;;;
  psci_set_aff_info_state_by_idx target_idx AFF_STATE_ON_PENDING ;;;
  emit (EvFlushCpuData target_idx) ;;;
  let! target_aff_state := psci_get_aff_info_state_by_idx target_idx in
  when (bool_decide (target_aff_state <> AFF_STATE_ON_PENDING))
    (assertM (bool_decide (target_aff_state = AFF_STATE_OFF)) ;;;
     psci_set_aff_info_state_by_idx target_idx AFF_STATE_ON_PENDING ;;;
     emit (EvFlushCpuData target_idx) ;;;
     let! a := psci_get_aff_info_state_by_idx target_idx in
     assertM (bool_decide (a = AFF_STATE_ON_PENDING))) ;;;
  let! ops := get_ops in
  let! on := hook_of (pwr_domain_on ops) in
  let! rc := call HkOn [target_cpu] (on target_cpu) in
  assertM ((rc =? PSCI_E_SUCCESS) || (rc =? PSCI_E_INTERN_FAIL)) ;;;
  (if rc =? PSCI_E_SUCCESS then emit (EvCmInitContext target_idx ep)
   else
     psci_set_aff_info_state_by_idx target_idx AFF_STATE_OFF ;;;
     emit (EvFlushCpuData target_idx)) ;;;
  ret rc.

Definition psci_cpu_on_start (me target_cpu : Z) (ep : entry_point_info_t) : PM Z :=
  let target_idx := u32 (plat_core_pos_by_mpidr target_cpu) in
  assertM (0 <=? s32 target_idx) ;;;
  let! ops := get_ops in
  assertM (bool_decide (is_Some (pwr_domain_on ops)) && bool_decide (is_Some (pwr_domain_on_finish ops))) ;;;
  psci_spin_lock_cpu me target_idx ;;;
  emit (EvFlushCpuData target_idx) ;;;
  let! a := psci_get_aff_info_state_by_idx target_idx in
  let! rc := cpu_on_validate_state a in
  let! rc := (if negb (rc =? PSCI_E_SUCCESS) then ret rc
              else cpu_on_power_up target_cpu target_idx ep) in
  psci_spin_unlock_cpu target_idx ;;;
  ret rc.

Definition psci_cpu_on_finish (me cpu_idx : Z) (state_info : psci_power_state_t) : PM unit :=
  let! ops := get_ops in
  let! fin := hook_of (pwr_domain_on_finish ops) in
  call HkOnFinish state_info (fin state_info) ;;;
  when (negb (HW_ASSISTED_COHERENCY || WARMBOOT_ENABLE_DCACHE_EARLY)) (emit EvPwrUpCache) ;;;
  psci_arch_setup ;;;
  psci_spin_lock_cpu me cpu_idx ;;;
  psci_spin_unlock_cpu cpu_idx ;;;
  let! a := psci_get_aff_info_state_by_idx me in
  assertM (bool_decide (a = AFF_STATE_ON_PENDING)) ;;;
  call_spd HkSpdOnFinish svc_on_finish 0 ;;;
  emit (EvPublish psci_cpu_on_finish_event) ;;;
  let! n := get_cpu_node cpu_idx in
  put_cpu_node cpu_idx (CpuNode (Z.land (read_mpidr me) MPIDR_AFFINITY_MASK) (cpu_parent_node n) (cpu_lock n)) ;;;
  emit (EvCmPrepareEl3Exit me).

(** ** psci_off.c *)
Definition psci_set_power_off_state : psci_power_state_t :=
  map (fun _ => PLAT_MAX_OFF_STATE) (seqZ PSCI_CPU_PWR_LVL (PLAT_MAX_PWR_LVL + 1)).

(** [psci_power_down_wfi]: the CPU waits for its power to be removed. *)
Definition psci_power_down_wfi : PM unit := halt_with HPwrDownWfi.

Definition pwr_down_wfi (state_info : psci_power_state_t) : PM unit :=
  let! ops := get_ops in
  match pwr_domain_pwr_down_wfi ops with
  | Some f => call HkPwrDownWfi state_info (f state_info)
  | None => psci_power_down_wfi
  end.

(** The critical section of [psci_do_cpu_off] after the dispatcher agreed. *)
Definition cpu_off_coordinate (me end_pwrlvl : Z) (state_info : psci_power_state_t) :
    PM psci_power_state_t :=
  let! state_info := psci_do_state_coordination me end_pwrlvl state_info in
  when ENABLE_PSCI_STAT (psci_stats_update_pwr_down me end_pwrlvl state_info) ;;;
  let! max_off := psci_find_max_off_lvl state_info in
  psci_do_pwrdown_sequence max_off ;;;
  let! ops := get_ops in
  let! off := hook_of (pwr_domain_off ops) in
  call HkOff state_info (off state_info) ;;;
  when ENABLE_PSCI_STAT (call HkStatStart state_info (plat_psci_stat_accounting_start me state_info)) ;;;
  ret state_info.

Definition psci_do_cpu_off (me end_pwrlvl : Z) : PM Z :=
  let! ops := get_ops in
  assertM (bool_decide (is_Some (pwr_domain_off ops))) ;;;
  let state_info := psci_set_power_off_state in
  psci_acquire_pwr_domain_locks me end_pwrlvl me ;;;
  let! off := spd_hook svc_off in
  let! rc := match off with Some f => call HkSpdOff [0] (f 0) | None => ret PSCI_E_SUCCESS end in
  let! state_info := (if truthy rc then ret state_info else cpu_off_coordinate me end_pwrlvl state_info) in
  psci_release_pwr_domain_locks me end_pwrlvl me ;;;
  when (rc =? PSCI_E_SUCCESS)
    (psci_flush_cpu_data me ;;;
     psci_set_aff_info_state_by_idx me AFF_STATE_OFF ;;;
     psci_dsbish ;;;
     psci_inv_cpu_data me ;;;
     pwr_down_wfi state_info) ;;;
  ret rc.

(** ** psci_suspend.c *)
Definition psci_suspend_to_standby_finisher (me cpu_idx end_pwrlvl : Z) : PM unit :=
  let state_info := replicate (Z.to_nat (PLAT_MAX_PWR_LVL + 1)) 0 in
  psci_acquire_pwr_domain_locks me end_pwrlvl cpu_idx ;;;
  let! state_info := psci_get_target_local_pwr_states me end_pwrlvl state_info in
  when ENABLE_PSCI_STAT
    (call HkStatStop state_info (plat_psci_stat_accounting_stop me state_info) ;;;
     psci_stats_update_pwr_up me end_pwrlvl state_info) ;;;
  let! ops := get_ops in
  let! fin := hook_of (pwr_domain_suspend_finish ops) in
  call HkSuspendFinish state_info (fin state_info) ;;;
  psci_set_pwr_domains_to_run me end_pwrlvl ;;;
  psci_release_pwr_domain_locks me end_pwrlvl cpu_idx.

Definition psci_suspend_to_pwrdown_start (me end_pwrlvl : Z) (ep : option entry_point_info_t)
    (state_info : psci_power_state_t) : PM unit :=
  let! max_off_lvl := psci_find_max_off_lvl state_info in
  emit (EvPublish psci_suspend_pwrdown_start_event) ;;;
  psci_set_suspend_pwrlvl me end_pwrlvl ;;;
  psci_flush_cpu_data me ;;;
  call_spd HkSpdSuspend svc_suspend max_off_lvl ;;;
  let! ops := get_ops in
  when (negb HW_ASSISTED_COHERENCY)
    (match pwr_domain_suspend_pwrdown_early ops with
     | Some f => call HkSuspendEarly state_info (f state_info)
     | None => ret tt
     end) ;;;
  let! ep := deref ep in
  emit (EvCmInitContext me ep) ;;;
  psci_do_pwrdown_sequence max_off_lvl.

(** The critical section of [psci_cpu_suspend_start] when no interrupt is
    pending. *)
Definition suspend_coordinate (me end_pwrlvl : Z) (ep : option entry_point_info_t)
    (state_info : psci_power_state_t) (is_power_down_state : Z) : PM psci_power_state_t :=
  let! state_info := psci_do_state_coordination me end_pwrlvl state_info in
  when ENABLE_PSCI_STAT (psci_stats_update_pwr_down me end_pwrlvl state_info) ;;;
  when (truthy is_power_down_state) (psci_suspend_to_pwrdown_start me end_pwrlvl ep state_info) ;;;
  let! ops := get_ops in
  let! susp := hook_of (pwr_domain_suspend ops) in
  call HkSuspend state_info (susp state_info) ;;;
  when ENABLE_PSCI_STAT (call HkStatStart state_info (plat_psci_stat_accounting_start me state_info)) ;;;
  ret state_info.

(** [psci_cpu_suspend_start] up to the wait for interrupt: true when a pending
    interrupt makes it give up. *)
Definition suspend_enter (me : Z) (ep : option entry_point_info_t) (end_pwrlvl : Z)
    (state_info : psci_power_state_t) (is_power_down_state : Z) : PM bool :=
  let! ops := get_ops in
  assertM (bool_decide (is_Some (pwr_domain_suspend ops)) &&
           bool_decide (is_Some (pwr_domain_suspend_finish ops))) ;;;
  psci_acquire_pwr_domain_locks me end_pwrlvl me ;;;
  let! isr := plat (read_isr_el1 me) in
  let skip_wfi := truthy isr in
  let! state_info := (if skip_wfi then ret state_info
                      else suspend_coordinate me end_pwrlvl ep state_info is_power_down_state) in
  psci_release_pwr_domain_locks me end_pwrlvl me ;;;
  if skip_wfi then ret true
  else
    when (truthy is_power_down_state) (pwr_down_wfi state_info) ;;;
    ret false.

Definition psci_cpu_suspend_start (me : Z) (ep : option entry_point_info_t) (end_pwrlvl : Z)
    (state_info : psci_power_state_t) (is_power_down_state : Z) : PM unit :=
  let! skip_wfi := suspend_enter me ep end_pwrlvl state_info is_power_down_state in
  if skip_wfi then ret tt
  else
    emit EvWfi ;;;
    psci_suspend_to_standby_finisher me me end_pwrlvl.

Definition psci_cpu_suspend_finish (me : Z) (state_info : psci_power_state_t) : PM unit :=
  let! a := psci_get_aff_info_state_by_idx me in
  let! st := ps_get state_info PSCI_CPU_PWR_LVL in
  assertM (bool_decide (a = AFF_STATE_ON) && is_local_state_off st) ;;;
  let! ops := get_ops in
  let! fin := hook_of (pwr_domain_suspend_finish ops) in
  call HkSuspendFinish state_info (fin state_info) ;;;
  when (negb (HW_ASSISTED_COHERENCY || WARMBOOT_ENABLE_DCACHE_EARLY)) (emit EvPwrUpCache) ;;;
  emit (EvCntfrq plat_get_syscnt_freq2) ;;;
  let! o := spd_hook svc_suspend_finish in
  match o with
  | Some f =>
      let! max_off_lvl := psci_find_max_off_lvl state_info in
      assertM (negb (max_off_lvl =? PSCI_INVALID_PWR_LVL)) ;;;
      call HkSpdSuspendFinish [max_off_lvl] (f max_off_lvl)
  | None => ret tt
  end ;;;
  psci_set_suspend_pwrlvl me PSCI_INVALID_PWR_LVL ;;;
  emit (EvPublish psci_suspend_pwrdown_finish_event) ;;;
  emit (EvCmPrepareEl3Exit me).

(** ** Warm boot (psci_common.c) *)
Definition psci_warmboot_entrypoint (me : Z) : PM unit :=
  let state_info := replicate (Z.to_nat (PLAT_MAX_PWR_LVL + 1)) PSCI_LOCAL_STATE_RUN in
  let! a := psci_get_aff_info_state_by_idx me in
  if decide (a = AFF_STATE_OFF) then panic
  else
    let! end_pwrlvl := get_power_on_target_pwrlvl me in
    psci_acquire_pwr_domain_locks me end_pwrlvl me ;;;
    let! state_info := psci_get_target_local_pwr_states me end_pwrlvl state_info in
    when ENABLE_PSCI_STAT (call HkStatStop state_info (plat_psci_stat_accounting_stop me state_info)) ;;;
    let! a := psci_get_aff_info_state_by_idx me in
    (if decide (a = AFF_STATE_ON_PENDING) then psci_cpu_on_finish me me state_info
     else psci_cpu_suspend_finish me state_info) ;;;
    psci_set_pwr_domains_to_run me end_pwrlvl ;;;
    when ENABLE_PSCI_STAT (psci_stats_update_pwr_up me end_pwrlvl state_info) ;;;
    psci_release_pwr_domain_locks me end_pwrlvl me.

(** ** psci_system_off.c *)
Definition psci_system_off : PM unit :=
  psci_print_power_domain_map ;;;
  let! ops := get_ops in
  assertM (bool_decide (is_Some (PsciDefs.system_off ops))) ;;;
  call_spd0 HkSpdSystemOff svc_system_off ;;;
  emit EvConsoleFlush ;;;
  let! f := hook_of (PsciDefs.system_off ops) in
  call HkSystemOff [] f.

Definition psci_system_reset : PM unit :=
  psci_print_power_domain_map ;;;
  let! ops := get_ops in
  assertM (bool_decide (is_Some (PsciDefs.system_reset ops))) ;;;
  call_spd0 HkSpdSystemReset svc_system_reset ;;;
  emit EvConsoleFlush ;;;
  let! f := hook_of (PsciDefs.system_reset ops) in
  call HkSystemReset [] f.

Definition psci_system_reset2 (reset_type cookie : Z) : PM Z :=
  psci_print_power_domain_map ;;;
  let! ops := get_ops in
  assertM (bool_decide (is_Some (system_reset2 ops))) ;;;
  let is_vendor := Z.land (Z.shiftr reset_type PSCI_RESET2_TYPE_VENDOR_SHIFT) 1 in
  let! early :=
    (if truthy is_vendor then ret None
     else if negb (reset_type =? PSCI_RESET2_SYSTEM_WARM_RESET) then ret (Some PSCI_E_INVALID_PARAMS)
     else match write_mem_protect ops with
          | None => ret None
          | Some f =>
              let! r := call HkWriteMemProtect [0] (f 0) in
              ret (if r <? 0 then Some PSCI_E_NOT_SUPPORTED else None)
          end) in
  match early with
  | Some rc => ret rc
  | None =>
      call_spd0 HkSpdSystemReset svc_system_reset ;;;
      emit EvConsoleFlush ;;;
      let! f := hook_of (system_reset2 ops) in
      call HkSystemReset2 [is_vendor; reset_type; cookie] (f is_vendor reset_type cookie)
  end.

(** ** psci_mem_protect.c *)
Definition psci_mem_protect (enable : Z) : PM Z :=
  let! ops := get_ops in
  assertM (bool_decide (is_Some (read_mem_protect ops))) ;;;
  assertM (bool_decide (is_Some (write_mem_protect ops))) ;;;
  let! rd := hook_of (read_mem_protect ops) in
  let! r := call HkReadMemProtect [] rd in
  if r.1 <? 0 then ret PSCI_E_NOT_SUPPORTED
  else
    let! wr := hook_of (write_mem_protect ops) in
    let! w := call HkWriteMemProtect [enable] (wr enable) in
    if w <? 0 then ret PSCI_E_NOT_SUPPORTED
    else ret (b2z (truthy r.2)).

Definition psci_mem_chk_range (base length : Z) : PM Z :=
  let! ops := get_ops in
  assertM (bool_decide (is_Some (mem_protect_chk ops))) ;;;
  if (length =? 0) || check_uptr_overflow base (u64 (length - 1)) then ret PSCI_E_DENIED
  else
    let! f := hook_of (mem_protect_chk ops) in
    let! r := call HkMemChk [base; length] (f base length) in
    ret (if r <? 0 then PSCI_E_DENIED else PSCI_E_SUCCESS).
End psci_power.
