(* ===== verification/PsciMain.v ===== *)
(** * PSCI: front end (lib/psci/psci_main.c)

    The functions behind the SMC function identifiers and the dispatcher.
    Return values are C integers; [psci_smc_handler] converts them to the
    64-bit register the caller sees. *)
From stdpp Require Import base list numbers option.
From Stdlib Require Import ZArith Lia.
From S2P Require Import Prelude PsciDefs PsciCommon PsciSetup PsciStat PsciPower.
#[local] Open Scope Z_scope.

(** smccc.h *)
Definition SMCCC_VERSION : Z := 0x80000000.
Definition FUNCID_CC_SHIFT : Z := 30.
Definition FUNCID_CC_MASK : Z := 1.
Definition SMC_64 : Z := 1.
Definition SMC_32 : Z := 0.
Definition is_caller_secure (flags : Z) : bool := Z.land flags 1 =? 0.
Definition is_std_svc_call (fid : Z) : bool := Z.land (Z.shiftr fid 24) 0x3f =? 4.
Definition is_valid_fast_smc (fid : Z) : bool :=
  (Z.land (Z.shiftr fid 16) 0xff =? 0) && (Z.land (Z.shiftr fid 31) 1 =? 1).

Section psci_main.
Context `{PlatCfg} {P : Type} `{!PlatEnv P}.
#[local] Abbreviation PM := (M (psci_state P)).

Definition psci_cpu_on (me target_cpu entrypoint context_id : Z) : PM Z :=
  let! rc := psci_validate_mpidr target_cpu in
  if negb (rc =? PSCI_E_SUCCESS) then ret PSCI_E_INVALID_PARAMS
  else
    let! r := psci_validate_entry_point me entrypoint context_id in
    if negb (r.1 =? PSCI_E_SUCCESS) then ret r.1
    else
      let! ep := deref r.2 in
      psci_cpu_on_start me target_cpu ep.

Definition psci_version : PM Z := ret (Z.lor PSCI_MAJOR_VER PSCI_MINOR_VER).

(** Fast path of [psci_cpu_suspend] for a CPU standby request. *)
Definition cpu_suspend_standby (me : Z) (state_info : psci_power_state_t) : PM Z :=
  let! ops := get_ops in
  match cpu_standby ops with
  | None => ret PSCI_E_INVALID_PARAMS
  | Some standby =>
      let! cpu_pd_state := ps_get state_info PSCI_CPU_PWR_LVL in
      psci_set_cpu_local_state me cpu_pd_state ;;;
      when ENABLE_PSCI_STAT (call HkStatStart state_info (plat_psci_stat_accounting_start me state_info)) ;;;
      call HkCpuStandby [cpu_pd_state] (standby cpu_pd_state) ;;;
      psci_set_cpu_local_state me PSCI_LOCAL_STATE_RUN ;;;
      when ENABLE_PSCI_STAT
        (call HkStatStop state_info (plat_psci_stat_accounting_stop me state_info) ;;;
         psci_stats_update_pwr_up me PSCI_CPU_PWR_LVL state_info) ;;;
      ret PSCI_E_SUCCESS
  end.

Definition psci_cpu_suspend (me power_state entrypoint context_id : Z) : PM Z :=
  let state_info := replicate (Z.to_nat (PLAT_MAX_PWR_LVL + 1)) PSCI_LOCAL_STATE_RUN in
  let! r := psci_validate_power_state power_state state_info in
  if negb (r.1 =? PSCI_E_SUCCESS) then
    assertM (r.1 =? PSCI_E_INVALID_PARAMS) ;;; ret r.1
  else
    let state_info := r.2 in
    let is_power_down_state := psci_get_pstate_type power_state in
    when ENABLE_ASSERTIONS
      (let! v := psci_validate_suspend_req state_info is_power_down_state in
       assertM (v =? PSCI_E_SUCCESS)) ;;;
    let! target_pwrlvl := psci_find_target_suspend_lvl state_info in
    if target_pwrlvl =? PSCI_INVALID_PWR_LVL then panic
    else if is_cpu_standby_req is_power_down_state target_pwrlvl then
      cpu_suspend_standby me state_info
    else
      let! e := (if truthy is_power_down_state
                 then psci_validate_entry_point me entrypoint context_id
                 else ret (PSCI_E_SUCCESS, None)) in
      if negb (e.1 =? PSCI_E_SUCCESS) then ret e.1
      else
        psci_cpu_suspend_start me e.2 target_pwrlvl state_info is_power_down_state ;;;
        ret PSCI_E_SUCCESS.

(** [state_info] is not initialised by the C code before the query; the
    platform fills it in. *)
Definition psci_system_suspend (me entrypoint context_id : Z) : PM Z :=
  let! last := psci_is_last_on_cpu me in
  if negb (truthy last) then ret PSCI_E_DENIED
  else
    let! r := psci_validate_entry_point me entrypoint context_id in
    if negb (r.1 =? PSCI_E_SUCCESS) then ret r.1
    else
      let! state_info :=
        psci_query_sys_suspend_pwrstate (replicate (Z.to_nat (PLAT_MAX_PWR_LVL + 1)) 0) in
      when ENABLE_ASSERTIONS
        (let! t := psci_find_target_suspend_lvl state_info in
         assertM (t =? PLAT_MAX_PWR_LVL) ;;;
         let! v := psci_validate_suspend_req state_info PSTATE_TYPE_POWERDOWN in
         assertM (v =? PSCI_E_SUCCESS) ;;;
         let! st := ps_get state_info PLAT_MAX_PWR_LVL in
         assertM (is_local_state_off st)) ;;;
      psci_cpu_suspend_start me r.2 PLAT_MAX_PWR_LVL state_info PSTATE_TYPE_POWERDOWN ;;;
      ret PSCI_E_SUCCESS.

Definition psci_cpu_off (me : Z) : PM Z :=
  let! rc := psci_do_cpu_off me PLAT_MAX_PWR_LVL in
  assertM (rc =? PSCI_E_DENIED) ;;;
  ret rc.

Definition psci_affinity_info (target_affinity lowest_affinity_level : Z) : PM Z :=
  if PSCI_CPU_PWR_LVL <? lowest_affinity_level then ret PSCI_E_INVALID_PARAMS
  else
    let target_idx := plat_core_pos_by_mpidr target_affinity in
    if target_idx =? -1 then ret PSCI_E_INVALID_PARAMS
    else
      emit (EvFlushCpuData target_idx) ;;;
      let! a := psci_get_aff_info_state_by_idx target_idx in
      ret (aff_value a).

Definition psci_migrate (me target_cpu : Z) : PM Z :=
  let! r := psci_spd_migrate_info in
  if negb (r.1 =? PSCI_TOS_UP_MIG_CAP) then
    ret (if r.1 =? PSCI_TOS_NOT_UP_MIG_CAP then PSCI_E_DENIED else PSCI_E_NOT_SUPPORTED)
  else
    let! resident := deref r.2 in
    if negb (resident =? read_mpidr me) then ret PSCI_E_NOT_PRESENT
    else
      let! rc := psci_validate_mpidr target_cpu in
      if negb (rc =? PSCI_E_SUCCESS) then ret PSCI_E_INVALID_PARAMS
      else
        let! o := spd_hook svc_migrate in
        assertM (bool_decide (is_Some o)) ;;;
        let! f := hook_of o in
        let! rc := call HkSpdMigrate [read_mpidr me; target_cpu] (f (read_mpidr me) target_cpu) in
        assertM ((rc =? PSCI_E_SUCCESS) || (rc =? PSCI_E_INTERN_FAIL)) ;;;
        ret rc.

Definition psci_migrate_info_type : PM Z :=
  let! r := psci_spd_migrate_info in ret r.1.

Definition psci_migrate_info_up_cpu : PM Z :=
  let! r := psci_spd_migrate_info in
  if negb (r.1 =? PSCI_TOS_NOT_UP_MIG_CAP) && negb (r.1 =? PSCI_TOS_UP_MIG_CAP)
  then ret PSCI_E_INVALID_PARAMS
  else deref r.2.

Definition HW_ON : Z := 0.
Definition HW_STANDBY : Z := 2.
Definition psci_node_hw_state (target_cpu power_level : Z) : PM Z :=
  let! rc := psci_validate_mpidr target_cpu in
  if negb (rc =? PSCI_E_SUCCESS) then ret PSCI_E_INVALID_PARAMS
  else if PLAT_MAX_PWR_LVL <? power_level then ret PSCI_E_INVALID_PARAMS
  else
    let! ops := get_ops in
    assertM (bool_decide (is_Some (get_node_hw_state ops))) ;;;
    let! f := hook_of (get_node_hw_state ops) in
    let! rc := call HkNodeHwState [target_cpu; power_level] (f target_cpu power_level) in
    assertM (((HW_ON <=? rc) && (rc <=? HW_STANDBY)) || (rc =? PSCI_E_NOT_SUPPORTED) ||
             (rc =? PSCI_E_INVALID_PARAMS)) ;;;
    ret rc.

Definition features_of (caps psci_fid : Z) : Z :=
  let local_caps := if Z.land (Z.shiftr psci_fid FUNCID_CC_SHIFT) FUNCID_CC_MASK =? SMC_64
                    then Z.land caps PSCI_CAP_64BIT_MASK else caps in
  if psci_fid =? SMCCC_VERSION then PSCI_E_SUCCESS
  else if negb (is_std_svc_call psci_fid && is_valid_fast_smc psci_fid && is_psci_fid psci_fid)
  then PSCI_E_NOT_SUPPORTED
  else if negb (truthy (Z.land local_caps (define_psci_cap psci_fid))) then PSCI_E_NOT_SUPPORTED
  else if (psci_fid =? PSCI_CPU_SUSPEND_AARCH32) || (psci_fid =? PSCI_CPU_SUSPEND_AARCH64)
  then Z.lor (Z.shiftl FF_PSTATE FF_PSTATE_SHIFT)
         (Z.shiftl (b2z (negb (truthy FF_SUPPORTS_OS_INIT_MODE))) FF_MODE_SUPPORT_SHIFT)
  else PSCI_E_SUCCESS.

Definition psci_features (psci_fid : Z) : PM Z :=
  let! caps := gets psci_caps in ret (features_of caps psci_fid).

(** The 32-bit half of the switch of [psci_smc_handler]; [None]: the [default]
    case, or a call that was not expected to return. *)
Definition smc32_call (me smc_fid x1 x2 x3 : Z) : PM (option Z) :=
  let some (m : PM Z) : PM (option Z) := (let! v := m in ret (Some v)) in
  if smc_fid =? PSCI_VERSION then some psci_version
  else if smc_fid =? PSCI_CPU_OFF then some (psci_cpu_off me)
  else if smc_fid =? PSCI_CPU_SUSPEND_AARCH32 then some (psci_cpu_suspend me x1 x2 x3)
  else if smc_fid =? PSCI_CPU_ON_AARCH32 then some (psci_cpu_on me x1 x2 x3)
  else if smc_fid =? PSCI_AFFINITY_INFO_AARCH32 then some (psci_affinity_info x1 (u32 x2))
  else if smc_fid =? PSCI_MIG_AARCH32 then some (psci_migrate me x1)
  else if smc_fid =? PSCI_MIG_INFO_TYPE then some psci_migrate_info_type
  else if smc_fid =? PSCI_MIG_INFO_UP_CPU_AARCH32 then some psci_migrate_info_up_cpu
  else if smc_fid =? PSCI_NODE_HW_STATE_AARCH32 then some (psci_node_hw_state x1 (u32 x2))
  else if smc_fid =? PSCI_SYSTEM_SUSPEND_AARCH32 then some (psci_system_suspend me x1 x2)
  else if smc_fid =? PSCI_SYSTEM_OFF then psci_system_off ;;; ret None
  else if smc_fid =? PSCI_SYSTEM_RESET then psci_system_reset ;;; ret None
  else if smc_fid =? PSCI_FEATURES then some (psci_features (u32 x1))
  else if ENABLE_PSCI_STAT && (smc_fid =? PSCI_STAT_RESIDENCY_AARCH32)
  then some (psci_stat_residency x1 (u32 x2))
  else if ENABLE_PSCI_STAT && (smc_fid =? PSCI_STAT_COUNT_AARCH32)
  then some (psci_stat_count x1 (u32 x2))
  else if smc_fid =? PSCI_MEM_PROTECT then some (psci_mem_protect (u32 x1))
  else if smc_fid =? PSCI_MEM_CHK_RANGE_AARCH32 then some (psci_mem_chk_range x1 x2)
  else if smc_fid =? PSCI_SYSTEM_RESET2_AARCH32 then some (psci_system_reset2 (u32 x1) x2)
  else ret None.

Definition smc64_call (me smc_fid x1 x2 x3 : Z) : PM (option Z) :=
  let some (m : PM Z) : PM (option Z) := (let! v := m in ret (Some v)) in
  if smc_fid =? PSCI_CPU_SUSPEND_AARCH64 then some (psci_cpu_suspend me (u32 x1) x2 x3)
  else if smc_fid =? PSCI_CPU_ON_AARCH64 then some (psci_cpu_on me x1 x2 x3)
  else if smc_fid =? PSCI_AFFINITY_INFO_AARCH64 then some (psci_affinity_info x1 (u32 x2))
  else if smc_fid =? PSCI_MIG_AARCH64 then some (psci_migrate me x1)
  else if smc_fid =? PSCI_MIG_INFO_UP_CPU_AARCH64 then some psci_migrate_info_up_cpu
  else if smc_fid =? PSCI_NODE_HW_STATE_AARCH64 then some (psci_node_hw_state x1 (u32 x2))
  else if smc_fid =? PSCI_SYSTEM_SUSPEND_AARCH64 then some (psci_system_suspend me x1 x2)
  else if ENABLE_PSCI_STAT && (smc_fid =? PSCI_STAT_RESIDENCY_AARCH64)
  then some (psci_stat_residency x1 (u32 x2))
  else if ENABLE_PSCI_STAT && (smc_fid =? PSCI_STAT_COUNT_AARCH64)
  then some (psci_stat_count x1 (u32 x2))
  else if smc_fid =? PSCI_MEM_CHK_RANGE_AARCH64 then some (psci_mem_chk_range x1 x2)
  else if smc_fid =? PSCI_SYSTEM_RESET2_AARCH64 then some (psci_system_reset2 (u32 x1) x2)
  else ret None.

Definition psci_smc_handler (me smc_fid x1 x2 x3 flags : Z) : PM Z :=
  if is_caller_secure flags then ret (u64 SMC_UNK)
  else
    let! caps := gets psci_caps in
    if negb (truthy (Z.land caps (define_psci_cap smc_fid))) then ret (u64 SMC_UNK)
    else
      let! r := (if Z.land (Z.shiftr smc_fid FUNCID_CC_SHIFT) FUNCID_CC_MASK =? SMC_32
                 then smc32_call me smc_fid (u32 x1) (u32 x2) (u32 x3)
                 else smc64_call me smc_fid x1 x2 x3) in
      ret (u64 (match r with Some v => v | None => SMC_UNK end)).
End psci_main.
