(* ===== verification/PsciSpec.v ===== *)
(** * PSCI: abstract view of the shared state

    The functions of PSCI work on arrays of C structures linked by indices.
    This file gives the abstract state they implement: a topology of power
    domains ([Topo], with the laws of a tree in [TopoOk]), and for every CPU
    and domain the requested states, the domain states, the per-CPU data and
    the lock owners ([view]).  [rep s g] says that the concrete state [s]
    represents the view [g]; the rules below are the specifications of the
    primitive accesses against [rep].  [PlatContract] is the interface between
    PSCI and the platform port: what the hooks promise. *)
From stdpp Require Import base list numbers option functions.
From Stdlib Require Import ZArith Lia.
From S2P Require Import Prelude PsciDefs PsciCommon PsciPower.
#[local] Open Scope Z_scope.

Lemma fn_insert_same {A} (f : Z -> A) i j : <[i := f i]> f j = f j.
Proof.
  destruct (decide (j = i)) as [->|]; [apply fn_lookup_insert|by apply fn_lookup_insert_ne].
Qed.

(** ** Topology *)
Class Topo : Type := {
  anc : Z -> Z -> Z;
  dom_start : Z -> Z;
  dom_ncpus : Z -> Z
}.

Definition cpu_ok `{PlatCfg} (c : Z) : Prop := 0 <= c < PLATFORM_CORE_COUNT.
Definition lvl_ok `{PlatCfg} (lvl : Z) : Prop := 1 <= lvl <= PLAT_MAX_PWR_LVL.

(** The domains form a tree whose leaves are the CPUs in order: the level-[lvl]
    domain of a CPU covers a contiguous range of CPUs, exactly those that have
    it as ancestor, and domains of different levels are different nodes. *)
Class TopoOk `{PlatCfg, !Topo} : Prop := {
  anc_range c lvl : cpu_ok c -> lvl_ok lvl -> 0 <= anc c lvl < PSCI_NUM_NON_CPU_PWR_DOMAINS;
  anc_level c c' l l' : cpu_ok c -> cpu_ok c' -> lvl_ok l -> lvl_ok l' ->
    anc c l = anc c' l' -> l = l';
  anc_members c c' lvl : cpu_ok c -> cpu_ok c' -> lvl_ok lvl ->
    (anc c' lvl = anc c lvl <->
     dom_start (anc c lvl) <= c' < dom_start (anc c lvl) + dom_ncpus (anc c lvl));
  dom_bounds c lvl : cpu_ok c -> lvl_ok lvl ->
    0 <= dom_start (anc c lvl) /\ 0 < dom_ncpus (anc c lvl) < 2 ^ 32 /\
    dom_start (anc c lvl) + dom_ncpus (anc c lvl) <= PLATFORM_CORE_COUNT;
  anc_nested c c' l l' : cpu_ok c -> cpu_ok c' -> lvl_ok l -> lvl_ok l' -> l <= l' ->
    anc c l = anc c' l -> anc c l' = anc c' l'
}.

(** The local state a [psci_power_state_t] holds for a level. *)
Definition st_at (st : psci_power_state_t) (lvl : Z) : Z := default 0 (arr_get st lvl).

(** ** The platform contract

    [PLAT_MAX_PWR_LVL + 1] local states, none beyond PLAT_MAX_OFF_STATE. *)
Definition ps_ok `{PlatCfg} (st : psci_power_state_t) : Prop :=
  Z.of_nat (length st) = PLAT_MAX_PWR_LVL + 1 /\
  forall lvl, 0 <= lvl <= PLAT_MAX_PWR_LVL -> 0 <= st_at st lvl <= PLAT_MAX_OFF_STATE.

(** A composite power state a CPU may ask for: some level leaves RUN, a level
    never asks for a deeper type of state than a level below it, and the CPU
    itself is turned off exactly by a power down request. *)
Definition suspend_req_ok `{PlatCfg} (st : psci_power_state_t) (is_power_down_state : Z) : Prop :=
  (exists lvl, 0 <= lvl <= PLAT_MAX_PWR_LVL /\ st_at st lvl <> PSCI_LOCAL_STATE_RUN) /\
  (forall l l', 0 <= l <= l' -> l' <= PLAT_MAX_PWR_LVL ->
     state_type_value (find_local_state_type (st_at st l')) <=
     state_type_value (find_local_state_type (st_at st l))) /\
  (is_power_down_state = 0 ->
     forall lvl, 0 <= lvl <= PLAT_MAX_PWR_LVL -> is_local_state_off (st_at st lvl) = false).

Section contract.
Context {P : Type} (hwI : P -> Prop).

(** A platform routine that returns a result in [R]. *)
Definition returns {A} (m : M P A) (R : A -> Prop) : Prop :=
  forall p, hwI p -> wp m (fun a p' => R a /\ hwI p') (fun _ _ => False) p.

(** The same for a routine that may call [panic()] when [b] allows it. *)
Definition returns_or_panics {A} (b : Prop) (m : M P A) (R : A -> Prop) : Prop :=
  forall p, hwI p -> wp m (fun a p' => R a /\ hwI p') (fun h p' => h = HPanic /\ b /\ hwI p') p.

(** A platform routine that never returns. *)
Definition ends {A} (m : M P A) (h : halt) : Prop :=
  forall p, hwI p -> wp m (fun _ _ => False) (fun h' p' => h' = h /\ hwI p') p.
Definition ends_or_panics {A} (b : Prop) (m : M P A) (h : halt) : Prop :=
  forall p, hwI p -> wp m (fun _ _ => False) (fun h' p' => (h' = h \/ (h' = HPanic /\ b)) /\ hwI p') p.

(** A platform routine that returns or stops with [h]. *)
Definition may_end {A} (m : M P A) (h : halt) : Prop :=
  forall p, hwI p -> wp m (fun _ p' => hwI p') (fun h' p' => h' = h /\ hwI p') p.

(** [panics h]: the port leaves hook [h] unimplemented. *)
Record ops_ok `{PlatCfg} (panics : hook -> Prop) (ops : plat_psci_ops P) : Prop := {
  oc_standby f st : cpu_standby ops = Some f ->
    returns_or_panics (panics HkCpuStandby) (f st) (fun _ => True);
  oc_on f m : pwr_domain_on ops = Some f ->
    returns (f m) (fun rc => rc = PSCI_E_SUCCESS \/ rc = PSCI_E_INTERN_FAIL);
  oc_off f st : pwr_domain_off ops = Some f -> returns (f st) (fun _ => True);
  oc_early f st : pwr_domain_suspend_pwrdown_early ops = Some f -> returns (f st) (fun _ => True);
  oc_suspend f st : pwr_domain_suspend ops = Some f -> returns (f st) (fun _ => True);
  oc_on_finish f st : pwr_domain_on_finish ops = Some f -> returns (f st) (fun _ => True);
  oc_suspend_finish f st : pwr_domain_suspend_finish ops = Some f -> returns (f st) (fun _ => True);
  oc_wfi f st : pwr_domain_pwr_down_wfi ops = Some f -> ends (f st) HPwrDownWfi;
  oc_system_off f : PsciDefs.system_off ops = Some f -> ends_or_panics (panics HkSystemOff) f HSystemDown;
  oc_system_reset f : PsciDefs.system_reset ops = Some f -> ends f HSystemDown;
  oc_validate f ps st : validate_power_state ops = Some f ->
    Z.of_nat (length st) = PLAT_MAX_PWR_LVL + 1 ->
    returns_or_panics (panics HkValidatePowerState) (f ps st) (fun r =>
      (r.1 = PSCI_E_SUCCESS /\ ps_ok r.2 /\ suspend_req_ok r.2 (psci_get_pstate_type ps) /\
       (psci_get_pstate_type ps <> 0 -> is_local_state_off (st_at r.2 0) = true)) \/
      r.1 = PSCI_E_INVALID_PARAMS);
  oc_entrypoint f e : validate_ns_entrypoint ops = Some f -> returns (f e) (fun _ => True);
  oc_sys_suspend f st : get_sys_suspend_power_state ops = Some f ->
    returns (f st) (fun st' => ps_ok st' /\
      forall lvl, 0 <= lvl <= PLAT_MAX_PWR_LVL -> is_local_state_off (st_at st' lvl) = true);
  oc_hw_state f m l : get_node_hw_state ops = Some f ->
    returns (f m l) (fun rc => 0 <= rc <= 2 \/ rc = PSCI_E_NOT_SUPPORTED \/ rc = PSCI_E_INVALID_PARAMS);
  oc_mem_chk f b l : mem_protect_chk ops = Some f -> returns (f b l) (fun _ => True);
  oc_mem_read f : read_mem_protect ops = Some f -> returns f (fun _ => True);
  oc_mem_write f v : write_mem_protect ops = Some f -> returns (f v) (fun _ => True);
  oc_reset2 f v t c : PsciDefs.system_reset2 ops = Some f -> may_end (f v t c) HSystemDown;
  oc_has_validate : is_Some (pwr_domain_suspend ops) -> is_Some (validate_power_state ops)
}.

Record spd_ok (pm : spd_pm_ops P) : Prop := {
  sc_on f a : svc_on pm = Some f -> returns (f a) (fun _ => True);
  sc_off f a : svc_off pm = Some f -> returns (f a) (fun rc => rc = PSCI_E_SUCCESS \/ rc = PSCI_E_DENIED);
  sc_suspend f a : svc_suspend pm = Some f -> returns (f a) (fun _ => True);
  sc_on_finish f a : svc_on_finish pm = Some f -> returns (f a) (fun _ => True);
  sc_suspend_finish f a : svc_suspend_finish pm = Some f -> returns (f a) (fun _ => True);
  sc_migrate f a b : svc_migrate pm = Some f ->
    returns (f a b) (fun rc => rc = PSCI_E_SUCCESS \/ rc = PSCI_E_INTERN_FAIL);
  sc_migrate_info f : svc_migrate_info pm = Some f ->
    returns f (fun r => r.1 = PSCI_TOS_UP_MIG_CAP \/ r.1 = PSCI_TOS_NOT_UP_MIG_CAP \/
                        r.1 = PSCI_TOS_NOT_PRESENT_MP \/ r.1 = PSCI_E_NOT_SUPPORTED);
  sc_system_off f : svc_system_off pm = Some f -> returns f (fun _ => True);
  sc_system_reset f : svc_system_reset pm = Some f -> returns f (fun _ => True)
}.
End contract.

(** What a capability bit promises: the hooks its handler calls exist. *)
Definition has_cap (caps fid : Z) : bool := truthy (Z.land caps (define_psci_cap fid)).
Record caps_ok {P} (ops : plat_psci_ops P) (spd : option (spd_pm_ops P)) (caps : Z) : Prop := {
  cc_off : has_cap caps PSCI_CPU_OFF = true -> is_Some (pwr_domain_off ops);
  cc_on : has_cap caps PSCI_CPU_ON_AARCH64 = true ->
    is_Some (pwr_domain_on ops) /\ is_Some (pwr_domain_on_finish ops);
  cc_suspend : has_cap caps PSCI_CPU_SUSPEND_AARCH64 = true ->
    is_Some (pwr_domain_suspend ops) /\ is_Some (pwr_domain_suspend_finish ops);
  cc_sys_suspend : has_cap caps PSCI_SYSTEM_SUSPEND_AARCH64 = true ->
    is_Some (pwr_domain_suspend ops) /\ is_Some (pwr_domain_suspend_finish ops) /\
    is_Some (get_sys_suspend_power_state ops);
  cc_system_off : has_cap caps PSCI_SYSTEM_OFF = true -> is_Some (PsciDefs.system_off ops);
  cc_system_reset : has_cap caps PSCI_SYSTEM_RESET = true -> is_Some (PsciDefs.system_reset ops);
  cc_hw_state : has_cap caps PSCI_NODE_HW_STATE_AARCH64 = true -> is_Some (get_node_hw_state ops);
  cc_mem_protect : has_cap caps PSCI_MEM_PROTECT = true ->
    is_Some (read_mem_protect ops) /\ is_Some (write_mem_protect ops);
  cc_mem_chk : has_cap caps PSCI_MEM_CHK_RANGE_AARCH64 = true -> is_Some (mem_protect_chk ops);
  cc_reset2 : has_cap caps PSCI_SYSTEM_RESET2_AARCH64 = true -> is_Some (PsciDefs.system_reset2 ops);
  cc_migrate : has_cap caps PSCI_MIG_AARCH64 = true ->
    exists pm, spd = Some pm /\ is_Some (svc_migrate pm)
}.

(** The platform port as PSCI sees it: the registered hooks, an invariant of
    the hardware state they maintain, and the build options of this image. *)
Class PlatContract (P : Type) `{PlatCfg, !PlatEnv P} : Type := {
  the_ops : plat_psci_ops P;
  the_spd : option (spd_pm_ops P);
  hwI : P -> Prop;
  hook_panics : hook -> Prop;
  pc_ops : ops_ok hwI hook_panics the_ops;
  pc_spd pm : the_spd = Some pm -> spd_ok hwI pm;
  pc_core_pos m : plat_core_pos_by_mpidr m = -1 \/ cpu_ok (plat_core_pos_by_mpidr m);
  pc_isr c : returns hwI (read_isr_el1 c) (fun _ => True);
  pc_scr c : returns hwI (read_scr_el3 c) (fun _ => True);
  pc_sctlr1 c : returns hwI (read_sctlr_el1 c) (fun _ => True);
  pc_sctlr2 c : returns hwI (read_sctlr_el2 c) (fun _ => True);
  pc_no_stat : ENABLE_PSCI_STAT = false
}.

(** ** Views *)
Record view : Type := View {
  v_req : Z -> Z -> Z;
  v_ls : Z -> Z;
  v_aff : Z -> aff_info_state_t;
  v_tgt : Z -> Z;
  v_cls : Z -> Z;
  v_lk : Z -> option Z;
  v_clk : Z -> option Z
}.

Definition with_req f g := View f (v_ls g) (v_aff g) (v_tgt g) (v_cls g) (v_lk g) (v_clk g).
Definition with_ls f g := View (v_req g) f (v_aff g) (v_tgt g) (v_cls g) (v_lk g) (v_clk g).
Definition with_aff f g := View (v_req g) (v_ls g) f (v_tgt g) (v_cls g) (v_lk g) (v_clk g).
Definition with_tgt f g := View (v_req g) (v_ls g) (v_aff g) f (v_cls g) (v_lk g) (v_clk g).
Definition with_cls f g := View (v_req g) (v_ls g) (v_aff g) (v_tgt g) f (v_lk g) (v_clk g).
Definition with_lk f g := View (v_req g) (v_ls g) (v_aff g) (v_tgt g) (v_cls g) f (v_clk g).
Definition with_clk f g := View (v_req g) (v_ls g) (v_aff g) (v_tgt g) (v_cls g) (v_lk g) f.

Section spec.
Context `{PlatCfg} {P : Type} `{!Topo, !TopoOk, !PlatEnv P, !PlatContract P}.

(** Two views that agree on the CPUs, levels and domains of the platform. *)
Record view_eq (g g' : view) : Prop := {
  ve_req lvl c : lvl_ok lvl -> cpu_ok c -> v_req g lvl c = v_req g' lvl c;
  ve_ls c lvl : cpu_ok c -> lvl_ok lvl -> v_ls g (anc c lvl) = v_ls g' (anc c lvl);
  ve_aff c : cpu_ok c -> v_aff g c = v_aff g' c;
  ve_tgt c : cpu_ok c -> v_tgt g c = v_tgt g' c;
  ve_cls c : cpu_ok c -> v_cls g c = v_cls g' c;
  ve_lk c lvl : cpu_ok c -> lvl_ok lvl -> v_lk g (anc c lvl) = v_lk g' (anc c lvl);
  ve_clk c : cpu_ok c -> v_clk g c = v_clk g' c
}.

#[global] Instance view_eq_equiv : Equivalence view_eq.
Proof.
  split.
  - intros g. by split.
  - intros g g' Heq. split; intros; symmetry; by apply Heq.
  - intros g1 g2 g3 Ha Hb. split; intros; (etrans; [by apply Ha|by apply Hb]).
Qed.

(** A domain node: its index is its own lock index, its parent is the ancestor
    one level up. *)
Definition dom_node (g : view) (c lvl : Z) (nd : non_cpu_pd_node_t) : Prop :=
  cpu_start_idx nd = dom_start (anc c lvl) /\ ncpus nd = dom_ncpus (anc c lvl) /\
  local_state nd = v_ls g (anc c lvl) /\ level nd = lvl /\ lock_index nd = anc c lvl /\
  (lvl < PLAT_MAX_PWR_LVL -> parent_node nd = anc c (lvl + 1)).

Record rep (s : psci_state P) (g : view) : Prop := {
  rep_ops : psci_plat_pm_ops s = Some the_ops;
  rep_spd : psci_spd_pm s = the_spd;
  rep_caps : caps_ok the_ops the_spd (psci_caps s);
  rep_hw : hwI (hw s);
  rep_req_len : Z.of_nat (length (psci_req_local_pwr_states s)) = PLAT_MAX_PWR_LVL;
  rep_req lvl : lvl_ok lvl -> exists row,
    arr_get (psci_req_local_pwr_states s) (lvl - 1) = Some row /\
    Z.of_nat (length row) = PLATFORM_CORE_COUNT /\
    forall c, cpu_ok c -> arr_get row c = Some (v_req g lvl c);
  rep_node c lvl : cpu_ok c -> lvl_ok lvl -> exists nd,
    arr_get (psci_non_cpu_pd_nodes s) (anc c lvl) = Some nd /\ dom_node g c lvl nd;
  rep_cpu c : cpu_ok c -> exists mp pn,
    arr_get (psci_cpu_pd_nodes s) c = Some (CpuNode mp pn (v_clk g c)) /\
    (1 <= PLAT_MAX_PWR_LVL -> pn = anc c 1);
  rep_percpu c : cpu_ok c ->
    arr_get (percpu_data s) c = Some (PsciCpuData (v_aff g c) (v_tgt g c) (v_cls g c));
  rep_lk c lvl : cpu_ok c -> lvl_ok lvl -> arr_get (psci_locks s) (anc c lvl) = Some (v_lk g (anc c lvl))
}.

#[global] Instance rep_proper s : Proper (view_eq ==> iff) (rep s).
Proof.
  assert (forall g g', view_eq g g' -> rep s g -> rep s g') as Himp.
  { intros g g' Heq Hr. split.
    - apply Hr.
    - apply Hr.
    - apply Hr.
    - apply Hr.
    - apply Hr.
    - intros lvl Hl. destruct (rep_req _ _ Hr lvl Hl) as (row & Hrow & Hlen & Hget).
      exists row. split_and!; [done..|]. intros c Hc. rewrite Hget by done. f_equal. by apply Heq.
    - intros c lvl Hc Hl. destruct (rep_node _ _ Hr c lvl Hc Hl) as (nd & Hnd & Hd).
      exists nd. split; [done|]. unfold dom_node in *.
      rewrite <- (ve_ls _ _ Heq) by done. naive_solver.
    - intros c Hc. destruct (rep_cpu _ _ Hr c Hc) as (mp & pn & Hcn & Hpn).
      exists mp, pn. by rewrite <- (ve_clk _ _ Heq).
    - intros c Hc. rewrite (rep_percpu _ _ Hr c Hc).
      by rewrite (ve_aff _ _ Heq), (ve_tgt _ _ Heq), (ve_cls _ _ Heq).
    - intros c lvl Hc Hl. rewrite <- (ve_lk _ _ Heq) by done. by apply Hr. }
  intros g g' Heq. split; apply Himp; [done|by symmetry].
Qed.

(** ** Specifications of the primitive accesses *)
Implicit Types (s : psci_state P) (g : view) (E : halt -> psci_state P -> Prop).

Lemma wp_emit e Q E s g :
  rep s g -> (forall s', rep s' g -> Q tt s') -> wp (emit e) Q E s.
Proof. intros Hr HQ. apply wp_modify, HQ. destruct s. by destruct Hr; split. Qed.

Lemma wp_assert (b : bool) Q E s : b = true -> Q tt s -> wp (assertM b) Q E s.
Proof. intros -> HQ. unfold assertM. rewrite andb_false_r. by apply wp_ret. Qed.

Lemma wp_plat {A} (m : M P A) R (Q : A -> psci_state P -> Prop) E s g :
  rep s g -> returns hwI m R -> (forall a s', R a -> rep s' g -> Q a s') -> wp (plat m) Q E s.
Proof.
  intros Hr Hm HQ. unfold plat. apply wp_zoom. eapply wp_mono; [apply Hm, Hr| |done].
  intros a p' [HR Hp]. apply HQ; [done|]. destruct s. by destruct Hr; split.
Qed.

Lemma wp_call {A} h args (m : M P A) R (Q : A -> psci_state P -> Prop) E s g :
  rep s g -> returns hwI m R -> (forall a s', R a -> rep s' g -> Q a s') -> wp (call h args m) Q E s.
Proof.
  intros Hr Hm HQ. unfold call. wp_step. eapply wp_emit; [done|]. intros s' Hr'.
  by eapply wp_plat.
Qed.

Lemma wp_call_panics {A} h args b (m : M P A) R (Q : A -> psci_state P -> Prop) E s g :
  rep s g -> returns_or_panics hwI b m R -> (forall a s', R a -> rep s' g -> Q a s') ->
  (b -> forall s', rep s' g -> E HPanic s') -> wp (call h args m) Q E s.
Proof.
  intros Hr Hm HQ HE. unfold call. wp_step. eapply wp_emit; [done|]. clear s Hr. intros s Hr.
  unfold plat. apply wp_zoom. eapply wp_mono; [apply Hm, Hr|..].
  - intros a p' [HR Hp]. apply HQ; [done|]. destruct s. by destruct Hr; split.
  - intros h' p' (-> & Hb & Hp). apply HE; [done|]. destruct s. by destruct Hr; split.
Qed.

Lemma wp_call_ends_panics {A} h args b (m : M P A) hlt (Q : A -> psci_state P -> Prop) E s g :
  rep s g -> ends_or_panics hwI b m hlt -> (forall s', rep s' g -> E hlt s') ->
  (b -> forall s', rep s' g -> E HPanic s') -> wp (call h args m) Q E s.
Proof.
  intros Hr Hm HE HP. unfold call. wp_step. eapply wp_emit; [done|]. clear s Hr. intros s Hr.
  unfold plat. apply wp_zoom. eapply wp_mono; [apply Hm, Hr|done|].
  intros h' p' [[->|[-> Hb]] Hp]; [apply HE|apply HP; [done|]]; destruct s; by destruct Hr; split.
Qed.

Lemma wp_call_ends {A} h args (m : M P A) hlt (Q : A -> psci_state P -> Prop) E s g :
  rep s g -> ends hwI m hlt -> (forall s', rep s' g -> E hlt s') -> wp (call h args m) Q E s.
Proof.
  intros Hr Hm HE. unfold call. wp_step. eapply wp_emit; [done|]. clear s Hr. intros s Hr.
  unfold plat. apply wp_zoom. eapply wp_mono; [apply Hm, Hr|done|].
  intros h' p' [-> Hp]. apply HE. destruct s. by destruct Hr; split.
Qed.

Lemma wp_get_ops Q E s g : rep s g -> Q the_ops s -> wp get_ops Q E s.
Proof. intros Hr HQ. unfold get_ops. wp_steps. eapply wp_deref; [apply Hr|done]. Qed.

Lemma wp_hook_of {A} (o : option A) (Q : A -> psci_state P -> Prop) E s :
  is_Some o -> (forall f, o = Some f -> Q f s) -> wp (hook_of o) Q E s.
Proof. intros [f Hf] HQ. eapply wp_deref; eauto. Qed.

Lemma wp_spd_hook {A} (f : spd_pm_ops P -> option A) Q E s g :
  rep s g ->
  (forall r, (forall h, r = Some h -> exists pm, the_spd = Some pm /\ f pm = Some h) -> Q r s) ->
  wp (spd_hook f) Q E s.
Proof.
  intros Hr HQ. unfold spd_hook. wp_steps. apply HQ. rewrite (rep_spd _ _ Hr).
  destruct the_spd; naive_solver.
Qed.

Lemma wp_call_spd h f a Q E s g :
  rep s g -> (forall pm k, the_spd = Some pm -> f pm = Some k -> returns hwI (k a) (fun _ => True)) ->
  (forall s', rep s' g -> Q tt s') -> wp (call_spd h f a) Q E s.
Proof.
  intros Hr Hf HQ. unfold call_spd. wp_step. eapply wp_spd_hook; [done|]. intros r Hk.
  destruct r as [k|]; [|by wp_step; auto]. destruct (Hk k eq_refl) as (pm & ? & ?).
  eapply wp_call; eauto. intros [] s' _. apply HQ.
Qed.

Lemma wp_call_spd0 h f Q E s g :
  rep s g -> (forall pm k, the_spd = Some pm -> f pm = Some k -> returns hwI k (fun _ => True)) ->
  (forall s', rep s' g -> Q tt s') -> wp (call_spd0 h f) Q E s.
Proof.
  intros Hr Hf HQ. unfold call_spd0. wp_step. eapply wp_spd_hook; [done|]. intros r Hk.
  destruct r as [k|]; [|by wp_step; auto]. destruct (Hk k eq_refl) as (pm & ? & ?).
  eapply wp_call; eauto. intros [] s' _. apply HQ.
Qed.

(** *** Domain nodes *)
Lemma wp_get_node c lvl Q E s g :
  rep s g -> cpu_ok c -> lvl_ok lvl ->
  (forall nd, dom_node g c lvl nd -> Q nd s) -> wp (get_node (anc c lvl)) Q E s.
Proof.
  intros Hr Hc Hl HQ. destruct (rep_node _ _ Hr c lvl Hc Hl) as (nd & Hg & Hd).
  unfold get_node. wp_steps. eapply wp_deref; eauto.
Qed.

Lemma wp_get_cpu_node c Q E s g :
  rep s g -> cpu_ok c ->
  (forall n, cpu_lock n = v_clk g c -> (1 <= PLAT_MAX_PWR_LVL -> cpu_parent_node n = anc c 1) -> Q n s) ->
  wp (get_cpu_node c) Q E s.
Proof.
  intros Hr Hc HQ. destruct (rep_cpu _ _ Hr c Hc) as (mp & pn & Hg & Hp).
  unfold get_cpu_node. wp_steps. eapply wp_deref; eauto.
Qed.

(** The local state is the only field of a node that changes after set-up. *)
Lemma rep_set_node s g c lvl v nd :
  rep s g -> cpu_ok c -> lvl_ok lvl ->
  dom_node (with_ls (<[anc c lvl := v]> (v_ls g)) g) c lvl nd ->
  rep (set_nodes (<[Z.to_nat (anc c lvl) := nd]> (psci_non_cpu_pd_nodes s)) s)
      (with_ls (<[anc c lvl := v]> (v_ls g)) g).
Proof.
  intros Hr Hc Hl Hnd. destruct (rep_node _ _ Hr c lvl Hc Hl) as (nd0 & Hg0 & Hd0).
  assert (Hrg := arr_get_Some_range _ _ _ Hg0).
  split; try (destruct s; by apply Hr). intros c' lvl' Hc' Hl'. destruct s as [? nodes]; cbn in *.
  destruct (decide (anc c' lvl' = anc c lvl)) as [He|Hne].
  - assert (lvl' = lvl) as -> by eauto using anc_level. rewrite He, arr_get_insert_eq by done.
    exists nd. split; [done|]. unfold dom_node in *. rewrite He in *. destruct Hnd as (?&?&?&?&?&Hp).
    split_and!; try done. intros Hlt. rewrite Hp by done. symmetry.
    apply (anc_nested c' c lvl (lvl + 1)); unfold lvl_ok in *; lia || done.
  - destruct (rep_node _ _ Hr c' lvl' Hc' Hl') as (nd' & Hg' & Hd').
    rewrite arr_get_insert_ne by (congruence || lia). exists nd'. split; [done|].
    unfold dom_node in *. cbn. by rewrite fn_lookup_insert_ne by congruence.
Qed.

Lemma wp_maybe_emit b e Q E s g :
  rep s g -> (forall s', rep s' g -> Q tt s') -> wp (when b (emit e)) Q E s.
Proof. intros Hr HQ. apply wp_when; intros _; [by eapply wp_emit|by apply HQ]. Qed.

Lemma wp_get_local_state c lvl Q E s g :
  rep s g -> cpu_ok c -> lvl_ok lvl ->
  (forall s', rep s' g -> Q (v_ls g (anc c lvl)) s') ->
  wp (get_non_cpu_pd_node_local_state (anc c lvl)) Q E s.
Proof.
  intros Hr Hc Hl HQ. unfold get_non_cpu_pd_node_local_state. wp_step.
  eapply wp_maybe_emit; [done|]. intros s' Hr'. wp_step. eapply wp_get_node; [done..|].
  intros nd (_ & _ & Hls & _). wp_step. rewrite Hls. by apply HQ.
Qed.

Lemma wp_set_local_state c lvl v Q E s g :
  rep s g -> cpu_ok c -> lvl_ok lvl ->
  (forall s', rep s' (with_ls (<[anc c lvl := v]> (v_ls g)) g) -> Q tt s') ->
  wp (set_non_cpu_pd_node_local_state (anc c lvl) v) Q E s.
Proof.
  intros Hr Hc Hl HQ. unfold set_non_cpu_pd_node_local_state. wp_step.
  destruct (rep_node _ _ Hr c lvl Hc Hl) as (nd & Hg & Hd).
  assert (Hrg := arr_get_Some_range _ _ _ Hg).
  unfold get_node. wp_steps. eapply wp_deref; [done|]. wp_step. unfold put_node. wp_steps.
  eapply wp_deref; [by apply arr_set_in_range|]. wp_step.
  eapply wp_maybe_emit; [|done]. apply rep_set_node; [done..|].
  unfold dom_node in *; cbn. rewrite fn_lookup_insert.
  destruct Hd as (?&?&_&?&?&?). by split_and!.
Qed.

(** *** Requested states *)
Lemma wp_set_req lvl c v Q E s g :
  rep s g -> lvl_ok lvl -> cpu_ok c ->
  (forall s', rep s' (with_req (<[lvl := <[c := v]> (v_req g lvl)]> (v_req g)) g) -> Q tt s') ->
  wp (psci_set_req_local_pwr_state lvl c v) Q E s.
Proof.
  intros Hr Hl Hc HQ. unfold psci_set_req_local_pwr_state. wp_step.
  apply wp_assert; [unfold PSCI_CPU_PWR_LVL, lvl_ok in *; lia|].
  destruct (rep_req _ _ Hr lvl Hl) as (row & Hrow & Hlen & Hget).
  assert (Hrg := arr_get_Some_range _ _ _ Hrow). wp_steps.
  eapply wp_deref; [done|]. wp_steps.
  eapply wp_deref; [apply arr_set_in_range; unfold cpu_ok in *; lia|]. wp_steps.
  eapply wp_deref; [by apply arr_set_in_range|]. wp_steps. apply HQ.
  split; try (destruct s; by apply Hr); destruct s as [req]; cbn in *.
  { rewrite length_insert. apply Hr. }
  intros lvl' Hl'. destruct (decide (lvl' = lvl)) as [->|Hne].
  - rewrite arr_get_insert_eq by done. eexists. split_and!; [done|by rewrite length_insert|].
    intros c' Hc'. rewrite fn_lookup_insert. destruct (decide (c' = c)) as [->|Hne].
    + rewrite fn_lookup_insert, arr_get_insert_eq by (unfold cpu_ok in *; lia). done.
    + rewrite fn_lookup_insert_ne, arr_get_insert_ne by (congruence || unfold cpu_ok in *; lia).
      by apply Hget.
  - rewrite arr_get_insert_ne by (unfold lvl_ok in *; lia). rewrite fn_lookup_insert_ne by congruence.
    by apply Hr.
Qed.

Lemma wp_get_req c lvl Q E s g :
  rep s g -> cpu_ok c -> lvl_ok lvl ->
  (forall row, (forall c', cpu_ok c' -> arr_get row c' = Some (v_req g lvl c')) ->
     Q (drop (Z.to_nat (dom_start (anc c lvl))) row) s) ->
  wp (psci_get_req_local_pwr_states lvl (dom_start (anc c lvl))) Q E s.
Proof.
  intros Hr Hc Hl HQ. unfold psci_get_req_local_pwr_states. wp_step.
  apply wp_assert; [unfold PSCI_CPU_PWR_LVL, lvl_ok in *; lia|].
  destruct (rep_req _ _ Hr lvl Hl) as (row & Hrow & Hlen & Hget). wp_steps.
  eapply wp_deref; [done|]. destruct (dom_bounds c lvl Hc Hl) as (Hs & _).
  destruct (Z.leb_spec 0 (dom_start (anc c lvl))); [|lia]. wp_step. by apply HQ.
Qed.

(** *** Per-CPU data *)
Lemma rep_set_percpu s g c a t cl :
  rep s g -> cpu_ok c ->
  rep (set_percpu (<[Z.to_nat c := PsciCpuData a t cl]> (percpu_data s)) s)
      (with_aff (<[c := a]> (v_aff g)) (with_tgt (<[c := t]> (v_tgt g)) (with_cls (<[c := cl]> (v_cls g)) g))).
Proof.
  intros Hr Hc. assert (Hrg := arr_get_Some_range _ _ _ (rep_percpu _ _ Hr c Hc)).
  split; try (destruct s; by apply Hr). intros c' Hc'. destruct s; cbn in *.
  destruct (decide (c' = c)) as [->|Hne].
  - by rewrite !fn_lookup_insert, arr_get_insert_eq by done.
  - rewrite !fn_lookup_insert_ne, arr_get_insert_ne by (congruence || lia). by apply Hr.
Qed.

Lemma wp_get_cpu_data c Q E s g :
  rep s g -> cpu_ok c -> Q (PsciCpuData (v_aff g c) (v_tgt g c) (v_cls g c)) s ->
  wp (get_cpu_data c) Q E s.
Proof. intros Hr Hc HQ. unfold get_cpu_data. wp_steps. eapply wp_deref; [by apply Hr|done]. Qed.

Lemma wp_put_cpu_data c a t cl Q E s g :
  rep s g -> cpu_ok c ->
  (forall s', rep s' (with_aff (<[c := a]> (v_aff g)) (with_tgt (<[c := t]> (v_tgt g))
                        (with_cls (<[c := cl]> (v_cls g)) g))) -> Q tt s') ->
  wp (put_cpu_data c (PsciCpuData a t cl)) Q E s.
Proof.
  intros Hr Hc HQ. assert (Hrg := arr_get_Some_range _ _ _ (rep_percpu _ _ Hr c Hc)).
  unfold put_cpu_data. wp_steps. eapply wp_deref; [by apply arr_set_in_range|]. wp_steps.
  apply HQ. by apply rep_set_percpu.
Qed.

Lemma wp_get_aff c Q E s g :
  rep s g -> cpu_ok c -> Q (v_aff g c) s -> wp (psci_get_aff_info_state_by_idx c) Q E s.
Proof.
  intros Hr Hc HQ. unfold psci_get_aff_info_state_by_idx. wp_step.
  eapply wp_get_cpu_data; [done..|]. by wp_step.
Qed.

Lemma wp_get_tgt c Q E s g :
  rep s g -> cpu_ok c -> Q (v_tgt g c) s -> wp (psci_get_suspend_pwrlvl c) Q E s.
Proof.
  intros Hr Hc HQ. unfold psci_get_suspend_pwrlvl. wp_step.
  eapply wp_get_cpu_data; [done..|]. by wp_step.
Qed.

Lemma wp_get_cls c Q E s g :
  rep s g -> cpu_ok c -> Q (v_cls g c) s -> wp (psci_get_cpu_local_state_by_idx c) Q E s.
Proof.
  intros Hr Hc HQ. unfold psci_get_cpu_local_state_by_idx. wp_step.
  eapply wp_get_cpu_data; [done..|]. by wp_step.
Qed.

Lemma wp_set_aff c a Q E s g :
  rep s g -> cpu_ok c -> (forall s', rep s' (with_aff (<[c := a]> (v_aff g)) g) -> Q tt s') ->
  wp (psci_set_aff_info_state_by_idx c a) Q E s.
Proof.
  intros Hr Hc HQ. unfold psci_set_aff_info_state_by_idx. wp_step.
  eapply wp_get_cpu_data; [done..|]. eapply wp_put_cpu_data; [done..|]. intros s' Hr'. apply HQ.
  eapply rep_proper; [|exact Hr']. split; cbn; intros; by rewrite ?fn_insert_same.
Qed.

Lemma wp_set_tgt c t Q E s g :
  rep s g -> cpu_ok c -> 0 <= t < 2 ^ 8 ->
  (forall s', rep s' (with_tgt (<[c := t]> (v_tgt g)) g) -> Q tt s') ->
  wp (psci_set_suspend_pwrlvl c t) Q E s.
Proof.
  intros Hr Hc Ht HQ. unfold psci_set_suspend_pwrlvl. rewrite u8_small by done. wp_step.
  eapply wp_get_cpu_data; [done..|]. eapply wp_put_cpu_data; [done..|]. intros s' Hr'. apply HQ.
  eapply rep_proper; [|exact Hr']. split; cbn; intros; by rewrite ?fn_insert_same.
Qed.

Lemma wp_set_cls c v Q E s g :
  rep s g -> cpu_ok c -> 0 <= v < 2 ^ 8 ->
  (forall s', rep s' (with_cls (<[c := v]> (v_cls g)) g) -> Q tt s') ->
  wp (psci_set_cpu_local_state c v) Q E s.
Proof.
  intros Hr Hc Ht HQ. unfold psci_set_cpu_local_state. rewrite u8_small by done. wp_step.
  eapply wp_get_cpu_data; [done..|]. eapply wp_put_cpu_data; [done..|]. intros s' Hr'. apply HQ.
  eapply rep_proper; [|exact Hr']. split; cbn; intros; by rewrite ?fn_insert_same.
Qed.

Lemma wp_ps_get st lvl Q E s :
  Z.of_nat (length st) = PLAT_MAX_PWR_LVL + 1 -> 0 <= lvl <= PLAT_MAX_PWR_LVL ->
  Q (st_at st lvl) s -> wp (ps_get (P := P) st lvl) Q E s.
Proof.
  intros Hlen Hl HQ. destruct (arr_get_in_range st lvl) as [v Hv]; [lia|].
  unfold ps_get. eapply wp_deref; [done|]. unfold st_at in HQ. by rewrite Hv in HQ.
Qed.

Lemma wp_ps_set st lvl v Q E s :
  Z.of_nat (length st) = PLAT_MAX_PWR_LVL + 1 -> 0 <= lvl <= PLAT_MAX_PWR_LVL ->
  (forall st', Z.of_nat (length st') = PLAT_MAX_PWR_LVL + 1 -> st_at st' lvl = v ->
     (forall l, l <> lvl -> st_at st' l = st_at st l) -> Q st' s) ->
  wp (ps_set (P := P) st lvl v) Q E s.
Proof.
  intros Hlen Hl HQ. unfold ps_set. eapply wp_deref; [apply arr_set_in_range; lia|].
  apply HQ; unfold st_at.
  - by rewrite length_insert.
  - by rewrite arr_get_insert_eq by lia.
  - intros l Hne. by rewrite arr_get_insert_ne by lia.
Qed.

(** *** Locks *)
Lemma rep_set_lock s g c lvl o :
  rep s g -> cpu_ok c -> lvl_ok lvl ->
  rep (set_locks (<[Z.to_nat (anc c lvl) := o]> (psci_locks s)) s)
      (with_lk (<[anc c lvl := o]> (v_lk g)) g).
Proof.
  intros Hr Hc Hl. assert (Hrg := arr_get_Some_range _ _ _ (rep_lk _ _ Hr c lvl Hc Hl)).
  split; try (destruct s; by apply Hr). intros c' lvl' Hc' Hl'. destruct s; cbn in *.
  destruct (decide (anc c' lvl' = anc c lvl)) as [->|Hne].
  - by rewrite fn_lookup_insert, arr_get_insert_eq.
  - rewrite fn_lookup_insert_ne, arr_get_insert_ne by (congruence || lia). by apply Hr.
Qed.

Lemma wp_lock_get me c lvl Q E s g :
  rep s g -> cpu_ok c -> lvl_ok lvl -> v_lk g (anc c lvl) = None ->
  (forall s', rep s' (with_lk (<[anc c lvl := Some me]> (v_lk g)) g) -> Q tt s') ->
  wp (psci_lock_get me (anc c lvl)) Q E s.
Proof.
  intros Hr Hc Hl Hfree HQ. assert (Hrg := arr_get_Some_range _ _ _ (rep_lk _ _ Hr c lvl Hc Hl)).
  unfold psci_lock_get. wp_step. eapply wp_get_node; [done..|].
  intros nd (_ & _ & _ & _ & -> & _). wp_steps. eapply wp_deref; [by apply Hr|]. rewrite Hfree.
  wp_steps. eapply wp_deref; [by apply arr_set_in_range|]. wp_steps.
  eapply wp_emit; [by apply rep_set_lock|done].
Qed.

Lemma wp_lock_release me c lvl Q E s g :
  rep s g -> cpu_ok c -> lvl_ok lvl -> v_lk g (anc c lvl) = Some me ->
  (forall s', rep s' (with_lk (<[anc c lvl := None]> (v_lk g)) g) -> Q tt s') ->
  wp (psci_lock_release me (anc c lvl)) Q E s.
Proof.
  intros Hr Hc Hl Hheld HQ. assert (Hrg := arr_get_Some_range _ _ _ (rep_lk _ _ Hr c lvl Hc Hl)).
  unfold psci_lock_release. wp_step. eapply wp_get_node; [done..|].
  intros nd (_ & _ & _ & _ & -> & _). wp_steps. eapply wp_deref; [by apply Hr|]. rewrite Hheld.
  wp_step. apply wp_assert; [by apply bool_decide_eq_true|]. rewrite decide_True by done.
  wp_steps. eapply wp_deref; [by apply arr_set_in_range|]. wp_steps.
  eapply wp_emit; [by apply rep_set_lock|done].
Qed.

Lemma wp_put_cpu_node c mp pn o Q E s g :
  rep s g -> cpu_ok c -> (1 <= PLAT_MAX_PWR_LVL -> pn = anc c 1) ->
  (forall s', rep s' (with_clk (<[c := o]> (v_clk g)) g) -> Q tt s') ->
  wp (put_cpu_node c (CpuNode mp pn o)) Q E s.
Proof.
  intros Hr Hc Hpn HQ. destruct (rep_cpu _ _ Hr c Hc) as (mp0 & pn0 & Hg & _).
  assert (Hrg := arr_get_Some_range _ _ _ Hg). unfold put_cpu_node. wp_steps.
  eapply wp_deref; [by apply arr_set_in_range|]. wp_steps. apply HQ.
  split; try (destruct s; by apply Hr). intros c' Hc'. destruct s; cbn in *.
  destruct (decide (c' = c)) as [->|Hne].
  - rewrite fn_lookup_insert, arr_get_insert_eq by done. eauto.
  - rewrite fn_lookup_insert_ne, arr_get_insert_ne by (congruence || lia). by apply Hr.
Qed.

Lemma wp_spin_lock me c Q E s g :
  rep s g -> cpu_ok c -> v_clk g c = None ->
  (forall s', rep s' (with_clk (<[c := Some me]> (v_clk g)) g) -> Q tt s') ->
  wp (psci_spin_lock_cpu me c) Q E s.
Proof.
  intros Hr Hc Hfree HQ. unfold psci_spin_lock_cpu. wp_step. eapply wp_get_cpu_node; [done..|].
  intros n Hn Hpn. rewrite Hn, Hfree. wp_step. eapply wp_put_cpu_node; [done..|].
  intros s' Hr'. by eapply wp_emit.
Qed.

Lemma wp_spin_unlock c Q E s g :
  rep s g -> cpu_ok c ->
  (forall s', rep s' (with_clk (<[c := None]> (v_clk g)) g) -> Q tt s') ->
  wp (psci_spin_unlock_cpu c) Q E s.
Proof.
  intros Hr Hc HQ. unfold psci_spin_unlock_cpu. wp_step. eapply wp_get_cpu_node; [done..|].
  intros n _ Hpn. wp_step. eapply wp_put_cpu_node; [done..|]. intros s' Hr'. by eapply wp_emit.
Qed.
End spec.

(** A step that changes nothing the view records. *)
Ltac same_view :=
  match goal with Hr : rep ?s _ |- _ => clear Hr; clear s end;
  let s := fresh "s" in let Hr := fresh "Hr" in intros s Hr.
Ltac step_emit := first [eapply wp_emit; [done|] | eapply wp_maybe_emit; [done|]]; same_view.
