(* ===== verification/PsciCoord.v ===== *)
(** * PSCI: state coordination and the walks over the power domain tree

    Specifications of the loops of psci_common.c against the abstract view.
    [psci_do_state_coordination] records what the calling CPU asks for at each
    level and puts every domain in the deepest state all its CPUs agree on:
    the minimum of their requests, or RUN above a level that stays in RUN. *)
From stdpp Require Import base sets list numbers option functions.
From Stdlib Require Import ZArith Lia.
From S2P Require Import Prelude PsciDefs PsciCommon PsciPower PsciSpec.
#[local] Open Scope Z_scope.

(** ** Minimum of a list *)
Definition min_list (t : Z) (l : list Z) : Z := foldl Z.min t l.

Lemma min_list_lb t l : min_list t l <= t /\ Forall (fun x => min_list t l <= x) l.
Proof.
  revert t. induction l as [|x l IH]; intros t; simpl; [by split; [lia|constructor]|].
  destruct (IH (Z.min t x)) as [H1 H2]. split; [unfold min_list in *; lia|].
  constructor; [unfold min_list in *; simpl in *; lia|done].
Qed.

Lemma min_list_elem t l : min_list t l = t \/ min_list t l ∈ l.
Proof.
  revert t. induction l as [|x l IH]; intros t; simpl; [by left|].
  unfold min_list in *. simpl. destruct (IH (Z.min t x)) as [He|He]; [|right; set_solver].
  rewrite He. destruct (Z.min_spec t x) as [[_ ->]|[_ ->]]; [by left|right; set_solver].
Qed.

Lemma min_list_nonneg t l : 0 <= t -> Forall (fun x => 0 <= x) l -> 0 <= min_list t l.
Proof.
  intros Ht Hl. destruct (min_list_elem t l) as [->|He]; [done|].
  rewrite Forall_forall in Hl. by apply Hl, list_elem_of_In.
Qed.

Section coord.
Context `{PlatCfg, !PlatCfgOk} {P : Type} `{!Topo, !TopoOk, !PlatEnv P, !PlatContract P}.
Implicit Types (s : psci_state P) (g : view) (E : halt -> psci_state P -> Prop).

Lemma target_loop_min states ncpu t Q E s :
  0 < ncpu < 2 ^ 32 -> ncpu <= Z.of_nat (length states) ->
  Q (min_list t (take (Z.to_nat ncpu) states)) s ->
  wp (target_pwr_state_loop (P := P) states ncpu t) Q E s.
Proof.
  revert ncpu t. induction states as [|x states IH]; intros ncpu t Hn Hlen HQ; simpl in *; [lia|].
  destruct (Z.to_nat ncpu) as [|k] eqn:Hk; [lia|]. simpl in HQ.
  assert ((if x <? t then x else t) = Z.min t x) as ->.
  { destruct (Z.ltb_spec x t); lia. }
  rewrite u32_small by lia. destruct (Z.eqb_spec (ncpu - 1) 0) as [He|Hne].
  - replace k with O in HQ by lia. by wp_step.
  - apply IH; [lia..|]. by replace (Z.to_nat (ncpu - 1)) with k by lia.
Qed.

(** The states requested by the CPUs of a domain, and what they agree on. *)
Definition dom_req (R : Z -> Z -> Z) (c lvl : Z) : list Z :=
  map (R lvl) (seqZ (dom_start (anc c lvl)) (dom_ncpus (anc c lvl))).
Definition dom_min (R : Z -> Z -> Z) (c lvl : Z) : Z := min_list PLAT_MAX_OFF_STATE (dom_req R c lvl).
Definition coord_target (R : Z -> Z -> Z) (c lvl : Z) : Z :=
  if existsb (fun l => dom_min R c l =? PSCI_LOCAL_STATE_RUN) (seqZ 1 lvl) then PSCI_LOCAL_STATE_RUN
  else dom_min R c lvl.

Lemma dom_req_row R c lvl row :
  cpu_ok c -> lvl_ok lvl ->
  (forall c', cpu_ok c' -> arr_get row c' = Some (R lvl c')) ->
  Z.of_nat (length row) >= dom_start (anc c lvl) + dom_ncpus (anc c lvl) /\
  take (Z.to_nat (dom_ncpus (anc c lvl))) (drop (Z.to_nat (dom_start (anc c lvl))) row) = dom_req R c lvl.
Proof.
  intros Hc Hl Hrow. destruct (dom_bounds c lvl Hc Hl) as (Hs & [Hn _] & Hsum).
  set (st := dom_start (anc c lvl)) in *. set (n := dom_ncpus (anc c lvl)) in *.
  assert (Hlen : st + n <= Z.of_nat (length row)).
  { pose proof (Hrow (st + n - 1) ltac:(unfold cpu_ok; lia)) as Hx%arr_get_Some_range. lia. }
  split; [lia|]. apply list_eq. intros i. unfold dom_req. fold st n.
  destruct (decide (i < Z.to_nat n)%nat) as [Hi|Hi].
  - rewrite lookup_take_lt, lookup_drop, list_lookup_fmap by done.
    rewrite lookup_seqZ_lt by lia. simpl.
    pose proof (Hrow (st + Z.of_nat i) ltac:(unfold cpu_ok; lia)) as Hx.
    unfold arr_get in Hx. destruct (Z.leb_spec 0 (st + Z.of_nat i)); [|lia].
    rewrite <- Hx. f_equal. lia.
  - rewrite !lookup_ge_None_2; [done|..].
    + rewrite length_map, length_seqZ. lia.
    + rewrite length_take, length_drop. lia.
Qed.

Lemma dom_req_elem R c lvl x : x ∈ dom_req R c lvl <-> exists c', x = R lvl c' /\
  dom_start (anc c lvl) <= c' < dom_start (anc c lvl) + dom_ncpus (anc c lvl).
Proof. unfold dom_req. rewrite list_elem_of_fmap. by setoid_rewrite elem_of_seqZ. Qed.

(** The agreed state is not deeper than the request of any CPU of the domain. *)
Lemma dom_min_le R c c' lvl :
  cpu_ok c -> cpu_ok c' -> lvl_ok lvl -> anc c' lvl = anc c lvl -> dom_min R c lvl <= R lvl c'.
Proof.
  intros Hc Hc' Hl Ha. unfold dom_min.
  destruct (min_list_lb PLAT_MAX_OFF_STATE (dom_req R c lvl)) as [_ Hall].
  rewrite Forall_forall in Hall. apply Hall, list_elem_of_In, dom_req_elem. exists c'. split; [done|].
  by apply (anc_members c c' lvl).
Qed.

Lemma dom_min_range R c lvl :
  cpu_ok c -> lvl_ok lvl -> (forall c', cpu_ok c' -> 0 <= R lvl c') ->
  0 <= dom_min R c lvl <= PLAT_MAX_OFF_STATE.
Proof.
  intros Hc Hl HR. destruct (dom_bounds c lvl Hc Hl) as (? & ? & ?). split.
  - apply min_list_nonneg; [pose proof cfg_states; lia|]. apply Forall_forall.
    intros x (c' & -> & Hr)%list_elem_of_In%dom_req_elem. apply HR. unfold cpu_ok. lia.
  - apply min_list_lb.
Qed.

(** ** Updates along the path from a CPU to the root *)

(** Set [anc c lo], ..., [anc c (lo + k - 1)] to [v lo], ... *)
Fixpoint path_upd {A} (c lo : Z) (k : nat) (v : Z -> A) (f : Z -> A) : Z -> A :=
  match k with
  | O => f
  | S k' => path_upd c (lo + 1) k' v (<[anc c lo := v lo]> f)
  end.

Definition req_upd (me lo : Z) (k : nat) (v : Z -> Z) (R : Z -> Z -> Z) : Z -> Z -> Z :=
  fun lvl c => if (c =? me) && (lo <=? lvl) && (lvl <? lo + Z.of_nat k) then v lvl else R lvl c.

Lemma path_upd_lookup {A} c lo k (v f : Z -> A) c' l :
  cpu_ok c -> cpu_ok c' -> lvl_ok l -> 1 <= lo -> lo + Z.of_nat k - 1 <= PLAT_MAX_PWR_LVL ->
  path_upd c lo k v f (anc c' l) =
  if bool_decide (lo <= l < lo + Z.of_nat k /\ anc c' l = anc c l) then v l else f (anc c' l).
Proof.
  intros Hc Hc' Hl. revert lo f. induction k as [|k IH]; intros lo f Hlo Hk; simpl.
  { rewrite bool_decide_eq_false_2 by lia. done. }
  rewrite IH by lia. destruct (decide (anc c' l = anc c lo)) as [He|Hne].
  - assert (l = lo) as ->.
    { apply (anc_level c' c); unfold lvl_ok in *; lia || done. }
    rewrite bool_decide_eq_false_2, bool_decide_eq_true_2 by (lia || (split; [lia|done])).
    by rewrite He, fn_lookup_insert.
  - rewrite fn_lookup_insert_ne by done. case_bool_decide as Ha; case_bool_decide as Hb; try done; exfalso.
    + apply Hb. split; [lia|apply Ha].
    + destruct (decide (l = lo)) as [->|]; [by destruct Hb|]. apply Ha. split; [lia|apply Hb].
Qed.

Lemma req_upd_me me lo k v R lvl :
  lo <= lvl < lo + Z.of_nat k -> req_upd me lo k v R lvl me = v lvl.
Proof.
  intros Hl. unfold req_upd. rewrite Z.eqb_refl.
  destruct (Z.leb_spec lo lvl), (Z.ltb_spec lvl (lo + Z.of_nat k)); done || lia.
Qed.

Lemma req_upd_out me lo k v R lvl c :
  ~ (c = me /\ lo <= lvl < lo + Z.of_nat k) -> req_upd me lo k v R lvl c = R lvl c.
Proof.
  intros Hn. unfold req_upd.
  destruct (Z.eqb_spec c me), (Z.leb_spec lo lvl), (Z.ltb_spec lvl (lo + Z.of_nat k)); done || lia.
Qed.

Lemma req_upd_step me lo k v R :
  forall lvl c, req_upd me (lo + 1) k v (<[lo := <[me := v lo]> (R lo)]> R) lvl c = req_upd me lo (S k) v R lvl c.
Proof.
  intros lvl c. unfold req_upd. destruct (decide (lvl = lo)) as [->|].
  - rewrite fn_lookup_insert. destruct (decide (c = me)) as [->|].
    + rewrite fn_lookup_insert. rewrite Z.eqb_refl.
      destruct (Z.leb_spec (lo + 1) lo), (Z.leb_spec lo lo), (Z.ltb_spec lo (lo + Z.of_nat (S k))); done || lia.
    + rewrite fn_lookup_insert_ne by done. destruct (Z.eqb_spec c me); done.
  - rewrite fn_lookup_insert_ne by done. destruct (Z.eqb_spec c me); [|done].
    destruct (Z.leb_spec (lo + 1) lvl), (Z.leb_spec lo lvl), (Z.ltb_spec lvl (lo + 1 + Z.of_nat k)),
      (Z.ltb_spec lvl (lo + Z.of_nat (S k))); done || lia.
Qed.

Lemma dom_min_ext R R' c lvl :
  cpu_ok c -> lvl_ok lvl -> (forall c', cpu_ok c' -> R lvl c' = R' lvl c') -> dom_min R c lvl = dom_min R' c lvl.
Proof.
  intros Hc Hl Heq. unfold dom_min, dom_req. f_equal. apply map_ext_in. intros c' Hin.
  destruct (dom_bounds c lvl Hc Hl) as (? & ? & ?).
  apply list_elem_of_In, elem_of_seqZ in Hin. apply Heq. unfold cpu_ok. lia.
Qed.

Lemma req_upd_ext me lo k v v' R R' lvl c :
  (forall l, lo <= l < lo + Z.of_nat k -> v l = v' l) -> R lvl c = R' lvl c ->
  req_upd me lo k v R lvl c = req_upd me lo k v' R' lvl c.
Proof.
  intros Hv HR. unfold req_upd.
  destruct (Z.eqb_spec c me), (Z.leb_spec lo lvl), (Z.ltb_spec lvl (lo + Z.of_nat k)); simpl; auto.
Qed.

Lemma rep_with_req s g R R' :
  rep s (with_req R g) -> (forall l c, lvl_ok l -> cpu_ok c -> R l c = R' l c) -> rep s (with_req R' g).
Proof. intros Hr HR. eapply rep_proper; [|exact Hr]. split; cbn; intros; by rewrite ?HR. Qed.

Lemma rep_with_ls s g f f' :
  rep s (with_ls f g) -> (forall c l, cpu_ok c -> lvl_ok l -> f (anc c l) = f' (anc c l)) ->
  rep s (with_ls f' g).
Proof. intros Hr Hf. eapply rep_proper; [|exact Hr]. split; cbn; intros; by rewrite ?Hf. Qed.

Lemma rep_with_lk s g f f' :
  rep s (with_lk f g) -> (forall c l, cpu_ok c -> lvl_ok l -> f (anc c l) = f' (anc c l)) ->
  rep s (with_lk f' g).
Proof. intros Hr Hf. eapply rep_proper; [|exact Hr]. split; cbn; intros; by rewrite ?Hf. Qed.

(** ** First loop of the coordination

    [m] levels were visited; the walk stops early at a level that stays in
    RUN. *)
Definition coordinate_post (me lvl : Z) (n : nat) (st : psci_power_state_t) (g : view)
    (st' : psci_power_state_t) (x : Z) (m : nat) : Prop :=
  let D := dom_min (req_upd me lvl n (st_at st) (v_req g)) me in
  (m <= n)%nat /\ Z.of_nat (length st') = PLAT_MAX_PWR_LVL + 1 /\
  (forall l, lvl <= l < lvl + Z.of_nat m -> st_at st' l = D l) /\
  (forall l, ~ (lvl <= l < lvl + Z.of_nat m) -> st_at st' l = st_at st l) /\
  (forall l, lvl <= l < lvl + Z.of_nat m - 1 -> D l <> PSCI_LOCAL_STATE_RUN) /\
  ((m = n /\ x = lvl + Z.of_nat n /\ ((0 < n)%nat -> D (lvl + Z.of_nat n - 1) <> PSCI_LOCAL_STATE_RUN)) \/
   ((0 < m)%nat /\ x = lvl + Z.of_nat m - 1 /\ D x = PSCI_LOCAL_STATE_RUN)).

Lemma wp_agree {A} me lvl (k : non_cpu_pd_node_t -> Z -> M (psci_state P) A) Q E s g :
  rep s g -> cpu_ok me -> lvl_ok lvl ->
  (forall nd, dom_node g me lvl nd -> wp (k nd (dom_min (v_req g) me lvl)) Q E s) ->
  wp (let! nd := get_node (anc me lvl) in
      let! req_states := psci_get_req_local_pwr_states lvl (cpu_start_idx nd) in
      let! target_state := plat_get_target_pwr_state lvl req_states (ncpus nd) in
      k nd target_state) Q E s.
Proof.
  intros Hr Hme Hl HQ. wp_step. eapply wp_get_node; [done..|]. intros nd Hnd.
  destruct (id Hnd) as (-> & -> & _). wp_step. eapply wp_get_req; [done..|].
  intros row Hrow. destruct (dom_bounds me lvl Hme Hl) as (Hb1 & Hb2 & Hb3).
  destruct (dom_req_row _ _ _ _ Hme Hl Hrow) as [Hlen Htake].
  unfold plat_get_target_pwr_state. wp_steps. apply wp_assert; [unfold truthy; lia|].
  apply target_loop_min; [done|rewrite length_drop; lia|]. rewrite Htake. by apply HQ.
Qed.

Lemma wp_coordinate_loop n me lvl parent_idx st Q E s g :
  rep s g -> cpu_ok me -> 1 <= lvl -> lvl + Z.of_nat n - 1 <= PLAT_MAX_PWR_LVL ->
  Z.of_nat (length st) = PLAT_MAX_PWR_LVL + 1 -> ((0 < n)%nat -> parent_idx = anc me lvl) ->
  (forall st' x m s', coordinate_post me lvl n st g st' x m ->
     rep s' (with_req (req_upd me lvl m (st_at st) (v_req g)) g) -> Q (st', x) s') ->
  wp (coordinate_loop n me lvl parent_idx st) Q E s.
Proof.
  revert lvl parent_idx st s g. induction n as [|n IH]; intros lvl parent_idx st s g Hr Hme Hlo Hn Hlen Hp HQ.
  { simpl. wp_step. apply (HQ _ _ 0%nat).
    - unfold coordinate_post. split_and!; first [done|lia|intros; lia|left; split_and!; lia].
    - eapply rep_proper; [|exact Hr]. split; cbn; intros; try done. by rewrite req_upd_out by lia. }
  simpl. rewrite Hp by lia. assert (Hl : lvl_ok lvl) by (unfold lvl_ok; lia). wp_step.
  apply wp_ps_get; [lia..|]. wp_step. eapply wp_set_req; [done..|]. clear s Hr. intros s Hr.
  eapply wp_agree; [done..|]. intros nd Hnd. wp_step. apply wp_ps_set; [lia..|].
  intros st1 Hlen1 Hst1 Hst1'.
  set (R := req_upd me lvl (S n) (st_at st) (v_req g)) in *.
  assert (HD : forall l c, lvl_ok l -> req_upd me (lvl + 1) n (st_at st1)
      (v_req (with_req (<[lvl := <[me := st_at st lvl]> (v_req g lvl)]> (v_req g)) g)) l c = R l c).
  { intros l c Hlv. unfold R. rewrite <- req_upd_step. apply req_upd_ext; [|done]. intros; apply Hst1'; lia. }
  assert (HDl : dom_min (v_req (with_req (<[lvl := <[me := st_at st lvl]> (v_req g lvl)]> (v_req g)) g)) me lvl
                = dom_min R me lvl).
  { apply dom_min_ext; [done..|]. intros c' _. rewrite <- HD by done. rewrite req_upd_out by lia. done. }
  rewrite HDl in *. unfold is_local_state_run. case_match eqn:Hrun.
  - wp_step. apply (HQ _ _ 1%nat).
    + apply Z.eqb_eq in Hrun. unfold coordinate_post. fold R. split_and!; [lia|done|..].
      * intros l Hlv. by replace l with lvl by lia.
      * intros l Hlv. apply Hst1'. lia.
      * intros l Hlv. lia.
      * right. split_and!; [lia..|]. by replace (lvl + Z.of_nat 1 - 1) with lvl by lia.
    + eapply rep_with_req; [exact Hr|]. intros l c Hlv Hc. rewrite <- req_upd_step. by rewrite req_upd_out by lia.
  - apply Z.eqb_neq in Hrun. eapply IH; try done; try lia.
    { intros Hn0. apply Hnd. lia. }
    intros st' x m s' Hpost Hr'. apply (HQ _ _ (S m)).
    + revert Hpost. unfold coordinate_post. fold R. intros (Hm & Hlen' & Hin & Hout & Hlow & Hend).
      assert (HDe : forall l, lvl_ok l -> dom_min (req_upd me (lvl + 1) n (st_at st1)
        (v_req (with_req (<[lvl := <[me := st_at st lvl]> (v_req g lvl)]> (v_req g)) g))) me l = dom_min R me l).
      { intros l Hlv. apply dom_min_ext; [done..|]. intros; by apply HD. }
      split_and!; [lia|done|..].
      * intros l Hlv. destruct (decide (l = lvl)) as [->|]; [rewrite Hout by lia; done|].
        rewrite Hin, HDe by (unfold lvl_ok; lia). done.
      * intros l Hlv. rewrite Hout by lia. apply Hst1'. lia.
      * intros l Hlv. destruct (decide (l = lvl)) as [->|]; [done|].
        rewrite <- HDe by (unfold lvl_ok; lia). apply Hlow. lia.
      * destruct Hend as [(-> & -> & Hn0)|(Hm0 & -> & Hx)].
        -- left. split_and!; [done|lia|]. intros _. destruct (decide (n = 0%nat)) as [->|].
           { by replace (lvl + Z.of_nat 1 - 1) with lvl by lia. }
           replace (lvl + Z.of_nat (S n) - 1) with (lvl + 1 + Z.of_nat n - 1) by lia.
           rewrite <- HDe by (unfold lvl_ok; lia). apply Hn0. lia.
        -- right. split_and!; [lia..|]. rewrite <- HDe by (unfold lvl_ok; lia). done.
    + eapply rep_with_req; [exact Hr'|]. intros l c Hlv Hc. rewrite <- req_upd_step.
      apply req_upd_ext; [|done]. intros; apply Hst1'; lia.
Qed.

Lemma wp_coordinate_run_loop n me lvl st Q E s g :
  rep s g -> cpu_ok me -> 1 <= lvl -> ((0 < n)%nat -> lvl + Z.of_nat n - 1 <= PLAT_MAX_PWR_LVL) ->
  Z.of_nat (length st) = PLAT_MAX_PWR_LVL + 1 ->
  (forall st' s', Z.of_nat (length st') = PLAT_MAX_PWR_LVL + 1 ->
     (forall l, lvl <= l < lvl + Z.of_nat n -> st_at st' l = PSCI_LOCAL_STATE_RUN) ->
     (forall l, ~ (lvl <= l < lvl + Z.of_nat n) -> st_at st' l = st_at st l) ->
     rep s' (with_req (req_upd me lvl n (st_at st) (v_req g)) g) -> Q st' s') ->
  wp (coordinate_run_loop n me lvl st) Q E s.
Proof.
  revert lvl st s g. induction n as [|n IH]; intros lvl st s g Hr Hme Hlo Hn Hlen HQ; simpl.
  { wp_step. apply HQ; [done|lia|done|].
    eapply rep_proper; [|exact Hr]. split; cbn; intros; try done. by rewrite req_upd_out by lia. }
  assert (Hl : lvl_ok lvl) by (unfold lvl_ok; lia). wp_step. apply wp_ps_get; [lia..|].
  wp_step. eapply wp_set_req; [done..|]. clear s Hr. intros s Hr. wp_step. apply wp_ps_set; [lia..|].
  intros st1 Hlen1 Hst1 Hst1'. eapply IH; [done|done|lia..|]. intros st' s' Hlen' Hin Hout Hr'.
  apply HQ; [done|..].
  - intros l Hlv. destruct (decide (l = lvl)) as [->|]; [by rewrite Hout by lia|apply Hin; lia].
  - intros l Hlv. rewrite Hout by lia. apply Hst1'. lia.
  - eapply rep_with_req; [exact Hr'|]. intros l c Hlv Hc. rewrite <- req_upd_step.
    apply req_upd_ext; [|done]. intros; apply Hst1'; lia.
Qed.

Lemma wp_set_target_loop n me lvl parent_idx st Q E s g :
  rep s g -> cpu_ok me -> 1 <= lvl -> lvl + Z.of_nat n - 1 <= PLAT_MAX_PWR_LVL ->
  Z.of_nat (length st) = PLAT_MAX_PWR_LVL + 1 -> ((0 < n)%nat -> parent_idx = anc me lvl) ->
  (forall s', rep s' (with_ls (path_upd me lvl n (st_at st) (v_ls g)) g) -> Q tt s') ->
  wp (set_target_loop n lvl parent_idx st) Q E s.
Proof.
  revert lvl parent_idx s g. induction n as [|n IH]; intros lvl pidx s g Hr Hme Hlo Hn Hlen Hp HQ; simpl.
  { wp_step. apply HQ. by destruct g. }
  assert (Hl : lvl_ok lvl) by (unfold lvl_ok; lia). rewrite Hp by lia. wp_step. apply wp_ps_get; [lia..|].
  wp_step. eapply wp_set_local_state; [done..|]. clear s Hr. intros s Hr.
  wp_step. eapply wp_get_node; [done..|]. intros nd Hnd. eapply IH; [done|done|lia..| |done].
  intros Hn0. apply Hnd. lia.
Qed.

(** ** The whole coordination

    The view after CPU [me] asked for [st] up to level [L]. *)
Definition coord_view (me L : Z) (st : psci_power_state_t) (g : view) : view :=
  let R := req_upd me 1 (Z.to_nat L) (st_at st) (v_req g) in
  View R (path_upd me 1 (Z.to_nat L) (coord_target R me) (v_ls g)) (v_aff g) (v_tgt g)
    (<[me := st_at st 0]> (v_cls g)) (v_lk g) (v_clk g).

(** The composite state the CPU ends up with. *)
Definition coord_result (me L : Z) (st st' : psci_power_state_t) (g : view) : Prop :=
  Z.of_nat (length st') = PLAT_MAX_PWR_LVL + 1 /\
  (forall l, 1 <= l <= L -> st_at st' l = coord_target (v_req (coord_view me L st g)) me l) /\
  (forall l, ~ (1 <= l <= L) -> st_at st' l = st_at st l).

Lemma coord_target_run R me l l' :
  1 <= l' <= l -> dom_min R me l' = PSCI_LOCAL_STATE_RUN -> coord_target R me l = PSCI_LOCAL_STATE_RUN.
Proof.
  intros Hl HD. unfold coord_target. replace (existsb _ _) with true; [done|]. symmetry.
  apply existsb_exists. exists l'. split; [apply list_elem_of_In, elem_of_seqZ; lia|by apply Z.eqb_eq].
Qed.

Lemma coord_target_min R me l :
  (forall l', 1 <= l' < l -> dom_min R me l' <> PSCI_LOCAL_STATE_RUN) ->
  coord_target R me l = dom_min R me l.
Proof.
  intros HD. unfold coord_target. destruct (existsb _ _) eqn:He; [|done].
  apply existsb_exists in He as (l' & Hin & HR%Z.eqb_eq).
  apply list_elem_of_In, elem_of_seqZ in Hin. destruct (decide (l' = l)) as [->|]; [done|].
  exfalso. apply (HD l'); [lia|done].
Qed.

Lemma wp_state_coordination me L st Q E s g :
  rep s g -> cpu_ok me -> 0 <= L <= PLAT_MAX_PWR_LVL -> ps_ok st ->
  (forall st' s', coord_result me L st st' g -> rep s' (coord_view me L st g) -> Q st' s') ->
  wp (psci_do_state_coordination me L st) Q E s.
Proof.
  intros Hr Hme HL [Hlen Hrange] HQ. unfold psci_do_state_coordination. wp_step.
  apply wp_assert; [lia|]. wp_step. eapply wp_get_cpu_node; [done..|]. intros cn _ Hpar.
  change (PSCI_CPU_PWR_LVL + 1) with 1. wp_step.
  eapply wp_coordinate_loop; [done|done|lia|lia|lia|intros; apply Hpar; lia|].
  clear s Hr. intros st1 x m s (Hm & Hlen1 & Hin & Hout & Hlow & Hend) Hr. cbn [fst snd].
  set (R := req_upd me 1 (Z.to_nat L) (st_at st) (v_req g)) in *. wp_step.
  assert (Hx : 1 <= x /\ Z.of_nat m <= x /\ Z.of_nat (Z.to_nat (L - x)) = Z.max 0 (L - x)) by lia.
  assert (HxL : (x = Z.of_nat m /\ x <= L) \/ (x = L + 1 /\ Z.of_nat m = L)) by lia.
  eapply wp_coordinate_run_loop; [done|done|lia|lia|lia|]. clear s Hr.
  intros st2 s Hlen2 Hin2 Hout2 Hr. wp_step.
  assert (Hst2 : forall l, 1 <= l <= L -> st_at st2 l = coord_target R me l).
  { intros l Hlv. destruct (decide (l <= Z.of_nat m)) as [Hle|Hgt].
    - rewrite Hout2, Hin by lia. symmetry. apply coord_target_min. intros l' Hl'. apply Hlow. lia.
    - rewrite Hin2 by lia. symmetry. apply (coord_target_run _ _ _ x); [lia|].
      destruct Hend as [(?&?&?)|(?&?&?)]; [lia|done]. }
  assert (Hst2' : forall l, ~ (1 <= l <= L) -> st_at st2 l = st_at st l).
  { intros l Hlv. rewrite Hout2, Hout by lia. done. }
  unfold psci_set_target_local_pwr_states. unfold PSCI_CPU_PWR_LVL. wp_step. apply wp_ps_get; [lia..|]. wp_step.
  rewrite Hst2' by lia. eapply wp_set_cls; [done|done| |].
  { pose proof (Hrange 0 ltac:(lia)). pose proof cfg_off_u8. lia. }
  clear s Hr. intros s Hr. wp_step. eapply wp_maybe_emit; [done|]. clear s Hr. intros s Hr.
  wp_step. eapply wp_get_cpu_node; [done..|]. intros cn' _ Hpar'.
  eapply wp_set_target_loop; [done|done|lia|lia|lia|intros; apply Hpar'; lia|].
  clear s Hr. intros s Hr. wp_step. apply HQ; [done|].
  eapply rep_proper; [|exact Hr]. split; cbn; intros; try done.
  - fold R. destruct (decide (c = me /\ x + 1 <= lvl < x + 1 + Z.of_nat (Z.to_nat (L - x)))) as [[-> Hlv]|Hn].
    + rewrite req_upd_me by lia. unfold R. rewrite req_upd_me by lia. symmetry. apply Hout. lia.
    + rewrite req_upd_out by done. unfold R, req_upd. destruct (Z.eqb_spec c me); [|done].
      destruct (Z.leb_spec 1 lvl), (Z.ltb_spec lvl (1 + Z.of_nat m)),
        (Z.ltb_spec lvl (1 + Z.of_nat (Z.to_nat L))); done || lia.
  - rewrite !path_upd_lookup by (done || lia). case_bool_decide as Hb; [|done]. symmetry. apply Hst2. lia.
Qed.
End coord.
