(* ===== verification/PsciWalk.v ===== *)
(** * PSCI: lock acquisition, return to RUN, and level searches

    The remaining walks of psci_common.c against the abstract view: taking and
    releasing the locks of the ancestors of a CPU, collecting and resetting
    their states, and the searches over a composite power state. *)
From Stdlib Require Import ZArith Lia.
From stdpp Require Import base sets list numbers option functions.
From S2P Require Import Prelude PsciDefs PsciCommon PsciPower PsciSpec PsciCoord.
#[local] Open Scope Z_scope.

Section walk.
Context `{PlatCfg, !PlatCfgOk} {P : Type} `{!Topo, !TopoOk, !PlatEnv P, !PlatContract P}.
Implicit Types (s : psci_state P) (g : view) (E : halt -> psci_state P -> Prop).

(** ** Locks *)
Definition lock_view (me L : Z) (g : view) : view :=
  with_lk (path_upd me 1 (Z.to_nat L) (fun _ => Some me) (v_lk g)) g.

Lemma wp_acquire_loop n me lvl parent_idx Q E s g :
  rep s g -> cpu_ok me -> 1 <= lvl -> lvl + Z.of_nat n - 1 <= PLAT_MAX_PWR_LVL ->
  ((0 < n)%nat -> parent_idx = anc me lvl) ->
  (forall l, lvl <= l < lvl + Z.of_nat n -> v_lk g (anc me l) = None) ->
  (forall s', rep s' (with_lk (path_upd me lvl n (fun _ => Some me) (v_lk g)) g) -> Q tt s') ->
  wp (acquire_loop n me parent_idx) Q E s.
Proof.
  revert lvl parent_idx s g. induction n as [|n IH]; intros lvl pidx s g Hr Hme Hlo Hn Hp Hfree HQ; simpl.
  { wp_step. apply HQ. by destruct g. }
  assert (Hl : lvl_ok lvl) by (unfold lvl_ok; lia). rewrite Hp by lia. wp_step.
  eapply wp_lock_get; [done..|apply Hfree; lia|]. clear s Hr. intros s Hr.
  wp_step. eapply wp_get_node; [done..|]. intros nd Hnd.
  eapply (IH (lvl + 1)); [done|done|lia..| | |done].
  - intros Hn0. apply Hnd. lia.
  - intros l Hlv. cbn. rewrite fn_lookup_insert_ne; [apply Hfree; lia|].
    intros He. apply anc_level in He; [lia|done..|]. unfold lvl_ok. lia.
Qed.

Lemma wp_acquire me L Q E s g :
  rep s g -> cpu_ok me -> 0 <= L <= PLAT_MAX_PWR_LVL ->
  (forall l, 1 <= l <= L -> v_lk g (anc me l) = None) ->
  (forall s', rep s' (lock_view me L g) -> Q tt s') ->
  wp (psci_acquire_pwr_domain_locks me L me) Q E s.
Proof.
  intros Hr Hme HL Hfree HQ. unfold psci_acquire_pwr_domain_locks. wp_step.
  eapply wp_get_cpu_node; [done..|]. intros cn _ Hp.
  eapply (wp_acquire_loop _ me 1); [done|done|lia|lia|intros; apply Hp; lia| |done].
  intros l Hl. apply Hfree. lia.
Qed.

Lemma wp_parent_nodes_loop n c lvl parent_idx Q E s g :
  rep s g -> cpu_ok c -> 1 <= lvl -> lvl + Z.of_nat n - 1 <= PLAT_MAX_PWR_LVL ->
  ((0 < n)%nat -> parent_idx = anc c lvl) ->
  Q (map (anc c) (seqZ lvl (Z.of_nat n))) s ->
  wp (parent_nodes_loop n parent_idx) Q E s.
Proof.
  revert lvl parent_idx Q. induction n as [|n IH]; intros lvl pidx Q Hr Hc Hlo Hn Hp HQ; simpl.
  { by wp_step. }
  assert (Hl : lvl_ok lvl) by (unfold lvl_ok; lia). rewrite Hp by lia. wp_step.
  eapply wp_get_node; [done..|]. intros nd Hnd. wp_step.
  eapply (IH (lvl + 1)); [done|done|lia..| |].
  - intros Hn0. apply Hnd. lia.
  - wp_step. rewrite seqZ_cons in HQ by lia. simpl in HQ.
    by replace (Z.pred (Z.of_nat (S n))) with (Z.of_nat n) in HQ by lia.
Qed.

(** Releasing the locks of levels [1..L], from the top down. *)
Lemma wp_release me L Q E s g :
  rep s g -> cpu_ok me -> 0 <= L <= PLAT_MAX_PWR_LVL ->
  (forall l, 1 <= l <= L -> v_lk g (anc me l) = Some me) ->
  (forall s', rep s' (with_lk (path_upd me 1 (Z.to_nat L) (fun _ => None) (v_lk g)) g) -> Q tt s') ->
  wp (psci_release_pwr_domain_locks me L me) Q E s.
Proof.
  intros Hr Hme HL Hheld HQ. unfold psci_release_pwr_domain_locks.
  destruct (Z.ltb_spec PLAT_MAX_PWR_LVL L); [lia|]. wp_step. unfold psci_get_parent_pwr_domain_nodes.
  wp_step. eapply wp_get_cpu_node; [done..|]. intros cn _ Hp.
  eapply (wp_parent_nodes_loop _ me 1); [done|done|lia|lia|intros; apply Hp; lia|].
  set (path := map (anc me) (seqZ 1 (Z.of_nat (Z.to_nat L)))).
  eapply (wp_forM_ (fun dn s' => rep s' (with_lk (fun n => if decide (n ∈ dn) then None else v_lk g n) g))).
  - eapply rep_proper; [|exact Hr]. split; cbn; intros; try done.
  - intros dn x rest s' Hpath Hr'.
    assert (Hx : x ∈ path).
    { apply list_elem_of_In, in_rev, list_elem_of_In. rewrite Hpath. apply elem_of_app. right. by left. }
    apply list_elem_of_fmap in Hx as (l & -> & Hl%elem_of_seqZ).
    assert (Hlv : lvl_ok l) by (unfold lvl_ok; lia).
    assert (Hnin : anc me l ∉ dn).
    { assert (NoDup (rev path)) as Hnd.
      { apply NoDup_ListNoDup, List.NoDup_rev, NoDup_ListNoDup. unfold path.
        apply NoDup_fmap_2_strong; [|apply NoDup_seqZ].
        intros a b Ha%elem_of_seqZ Hb%elem_of_seqZ. apply anc_level; unfold lvl_ok; lia || done. }
      rewrite Hpath in Hnd. apply list.NoDup_app in Hnd as (_ & Hd & _). set_solver. }
    eapply wp_lock_release; [done..| |].
    { cbn. rewrite decide_False by done. apply Hheld. lia. }
    intros s'' Hr''. eapply rep_with_lk; [exact Hr''|]. intros c k Hc Hk.
    destruct (decide (anc c k = anc me l)) as [->|Hne].
    + rewrite fn_lookup_insert, decide_True by set_solver. done.
    + rewrite fn_lookup_insert_ne by done. cbn.
      destruct (decide (anc c k ∈ dn)); [rewrite decide_True by set_solver|rewrite decide_False by set_solver]; done.
  - intros s' Hr'. apply HQ. eapply rep_with_lk; [exact Hr'|]. intros c k Hc Hk. cbn.
    rewrite path_upd_lookup by (done || lia). case_bool_decide as Hb.
    + rewrite decide_True; [done|]. apply list_elem_of_In. rewrite <- in_rev. apply list_elem_of_In.
      unfold path. destruct Hb as [Hb ->]. apply list_elem_of_fmap. exists k. split; [done|].
      apply elem_of_seqZ. lia.
    + rewrite decide_False; [done|]. rewrite list_elem_of_In, <- in_rev, <- list_elem_of_In.
      intros (l & He & Hl%elem_of_seqZ)%list_elem_of_fmap. apply Hb.
      assert (k = l) as -> by (apply (anc_level c me); unfold lvl_ok in *; lia || done). split; [lia|done].
Qed.

(** ** Back to RUN *)
Definition run_view (me L : Z) (g : view) : view :=
  View (req_upd me 1 (Z.to_nat L) (fun _ => PSCI_LOCAL_STATE_RUN) (v_req g))
    (path_upd me 1 (Z.to_nat L) (fun _ => PSCI_LOCAL_STATE_RUN) (v_ls g))
    (<[me := AFF_STATE_ON]> (v_aff g)) (v_tgt g) (<[me := PSCI_LOCAL_STATE_RUN]> (v_cls g))
    (v_lk g) (v_clk g).

Lemma wp_set_to_run_loop n me lvl parent_idx Q E s g :
  rep s g -> cpu_ok me -> 1 <= lvl -> lvl + Z.of_nat n - 1 <= PLAT_MAX_PWR_LVL ->
  ((0 < n)%nat -> parent_idx = anc me lvl) ->
  (forall s', rep s' (with_req (req_upd me lvl n (fun _ => PSCI_LOCAL_STATE_RUN) (v_req g))
                (with_ls (path_upd me lvl n (fun _ => PSCI_LOCAL_STATE_RUN) (v_ls g)) g)) -> Q tt s') ->
  wp (set_to_run_loop n me lvl parent_idx) Q E s.
Proof.
  revert lvl parent_idx s g. induction n as [|n IH]; intros lvl pidx s g Hr Hme Hlo Hn Hp HQ; simpl.
  { wp_step. apply HQ. eapply rep_proper; [|exact Hr]. split; cbn; intros; try done.
    by rewrite req_upd_out by lia. }
  assert (Hl : lvl_ok lvl) by (unfold lvl_ok; lia). rewrite Hp by lia. wp_step.
  eapply wp_set_local_state; [done..|]. clear s Hr. intros s Hr. wp_step.
  eapply wp_set_req; [done..|]. clear s Hr. intros s Hr. wp_step.
  eapply wp_get_node; [done..|]. intros nd Hnd.
  eapply (IH (lvl + 1)); [done|done|lia..|intros; apply Hnd; lia|].
  clear s Hr. intros s Hr. apply HQ. eapply rep_proper; [|exact Hr]. split; cbn; intros; try done.
  by rewrite <- (req_upd_step _ _ _ (fun _ => PSCI_LOCAL_STATE_RUN)).
Qed.

Lemma wp_set_pwr_domains_to_run me L Q E s g :
  rep s g -> cpu_ok me -> 0 <= L <= PLAT_MAX_PWR_LVL ->
  (forall s', rep s' (run_view me L g) -> Q tt s') ->
  wp (psci_set_pwr_domains_to_run me L) Q E s.
Proof.
  intros Hr Hme HL HQ. unfold psci_set_pwr_domains_to_run. wp_step.
  eapply wp_get_cpu_node; [done..|]. intros cn _ Hp. change (PSCI_CPU_PWR_LVL + 1) with 1. wp_step.
  eapply wp_set_to_run_loop; [done|done|lia|lia|intros; apply Hp; lia|].
  clear s Hr. intros s Hr. wp_step. eapply wp_set_aff; [done..|]. clear s Hr. intros s Hr.
  wp_step. eapply wp_set_cls; [done..|unfold PSCI_LOCAL_STATE_RUN; lia|]. clear s Hr. intros s Hr.
  by eapply wp_maybe_emit.
Qed.

(** ** Current states of the domains of a CPU *)
Definition target_states (me L : Z) (st : psci_power_state_t) (g : view) : Prop :=
  Z.of_nat (length st) = PLAT_MAX_PWR_LVL + 1 /\ st_at st 0 = v_cls g me /\
  (forall l, 1 <= l <= L -> st_at st l = v_ls g (anc me l)) /\
  (forall l, L < l <= PLAT_MAX_PWR_LVL -> st_at st l = PSCI_LOCAL_STATE_RUN).

Lemma wp_get_target_loop n me lvl parent_idx st Q E s g :
  rep s g -> cpu_ok me -> 1 <= lvl -> lvl + Z.of_nat n - 1 <= PLAT_MAX_PWR_LVL ->
  Z.of_nat (length st) = PLAT_MAX_PWR_LVL + 1 -> ((0 < n)%nat -> parent_idx = anc me lvl) ->
  (forall st' s', Z.of_nat (length st') = PLAT_MAX_PWR_LVL + 1 -> rep s' g ->
     (forall l, lvl <= l < lvl + Z.of_nat n -> st_at st' l = v_ls g (anc me l)) ->
     (forall l, ~ (lvl <= l < lvl + Z.of_nat n) -> st_at st' l = st_at st l) -> Q st' s') ->
  wp (get_target_loop n lvl parent_idx st) Q E s.
Proof.
  revert lvl parent_idx st s. induction n as [|n IH]; intros lvl pidx st s Hr Hme Hlo Hn Hlen Hp HQ; simpl.
  { wp_step. apply HQ; [done..|lia|done]. }
  assert (Hl : lvl_ok lvl) by (unfold lvl_ok; lia). rewrite Hp by lia. wp_step.
  eapply wp_get_local_state; [done..|]. clear s Hr. intros s Hr. wp_step. apply wp_ps_set; [lia..|].
  intros st1 Hlen1 Hst1 Hst1'. wp_step. eapply wp_get_node; [done..|]. intros nd Hnd.
  eapply (IH (lvl + 1)); [done|done|lia..|intros; apply Hnd; lia|].
  intros st' s' Hlen' Hr' Hin Hout. apply HQ; [done..| |].
  - intros l Hlv. destruct (decide (l = lvl)) as [->|]; [by rewrite Hout by lia|apply Hin; lia].
  - intros l Hlv. rewrite Hout by lia. apply Hst1'. lia.
Qed.

Lemma wp_set_run_loop lvls st Q E s :
  Z.of_nat (length st) = PLAT_MAX_PWR_LVL + 1 ->
  Forall (fun l => 0 <= l <= PLAT_MAX_PWR_LVL) lvls ->
  (forall st', Z.of_nat (length st') = PLAT_MAX_PWR_LVL + 1 ->
     (forall l, l ∈ lvls -> st_at st' l = PSCI_LOCAL_STATE_RUN) ->
     (forall l, l ∉ lvls -> st_at st' l = st_at st l) -> Q st' s) ->
  wp (set_run_loop (P := P) lvls st) Q E s.
Proof.
  revert st. induction lvls as [|lvl lvls IH]; intros st Hlen Hall HQ; simpl.
  { wp_step. apply HQ; [done|set_solver|done]. }
  apply Forall_cons_iff in Hall as [Hl Hall]. wp_step. apply wp_ps_set; [lia..|].
  intros st1 Hlen1 Hst1 Hst1'. apply IH; [done..|]. intros st' Hlen' Hin Hout. apply HQ; [done| |].
  - intros l [->|Hl']%elem_of_cons; [|by apply Hin].
    destruct (decide (lvl ∈ lvls)); [by apply Hin|by rewrite Hout].
  - intros l [Hne Hl']%not_elem_of_cons. rewrite Hout by done. by apply Hst1'.
Qed.

Lemma wp_get_target_states me L st Q E s g :
  rep s g -> cpu_ok me -> 0 <= L <= PLAT_MAX_PWR_LVL -> Z.of_nat (length st) = PLAT_MAX_PWR_LVL + 1 ->
  (forall st' s', target_states me L st' g -> rep s' g -> Q st' s') ->
  wp (psci_get_target_local_pwr_states me L st) Q E s.
Proof.
  intros Hr Hme HL Hlen HQ. unfold psci_get_target_local_pwr_states. wp_step.
  eapply wp_get_cls; [done..|]. wp_step. unfold PSCI_CPU_PWR_LVL.
  apply wp_ps_set; [pose proof cfg_lvl; lia..|]. intros st1 Hlen1 Hst1 _. wp_step.
  eapply wp_get_cpu_node; [done..|]. intros cn _ Hp. wp_step.
  eapply (wp_get_target_loop _ me); [done|done|lia|lia|lia|intros; apply Hp; lia|].
  clear s Hr. intros st2 s Hlen2 Hr Hin Hout. apply wp_set_run_loop; [done| |].
  { apply list.Forall_forall. intros l Hl%elem_of_seqZ. lia. }
  intros st3 Hlen3 Hrun Hkeep. apply HQ; [|done].
  assert (forall l, l <= L -> l ∉ seqZ (L + 1) (PLAT_MAX_PWR_LVL - L)).
  { intros l Hl Hin'%elem_of_seqZ. lia. }
  split_and!; [done|..].
  - rewrite Hkeep, Hout by auto with lia. done.
  - intros l Hl. rewrite Hkeep by auto with lia. apply Hin. lia.
  - intros l Hl. apply Hrun, elem_of_seqZ. lia.
Qed.

(** ** Searches over a composite power state *)
Definition highest (p : Z -> bool) (st : psci_power_state_t) (top x : Z) : Prop :=
  (x = PSCI_INVALID_PWR_LVL /\ forall l, 0 <= l <= top -> p (st_at st l) = false) \/
  (0 <= x <= top /\ p (st_at st x) = true /\ forall l, x < l <= top -> p (st_at st l) = false).

Lemma find_lvl_down_spec p st i :
  Z.of_nat (length st) = PLAT_MAX_PWR_LVL + 1 -> Z.of_nat i <= PLAT_MAX_PWR_LVL ->
  exists x, find_lvl_down p st i = Some x /\ highest p st (Z.of_nat i) x.
Proof.
  intros Hlen. induction i as [|i IH]; intros Hi; cbn [find_lvl_down].
  all: destruct (arr_get_in_range st (Z.of_nat 0)) as [v0 Hv0]; [lia|].
  - rewrite Hv0. destruct (p v0) eqn:Hp; eexists; (split; [done|]).
    + right. unfold st_at. rewrite Hv0. split_and!; [lia..|done|lia].
    + left. split; [done|]. intros l Hl. replace l with (Z.of_nat 0) by lia. unfold st_at. by rewrite Hv0.
  - destruct (arr_get_in_range st (Z.of_nat (S i))) as [v Hv]; [lia|]. rewrite Hv.
    assert (Hat : st_at st (Z.of_nat (S i)) = v) by (unfold st_at; by rewrite Hv).
    destruct (p v) eqn:Hp.
    + eexists. split; [done|]. right. rewrite Hat. split_and!; [lia..|done|lia].
    + destruct IH as (x & Hx & Hh); [lia|]. exists x. split; [done|].
      destruct Hh as [[-> Hh]|(Hr & Hpx & Hh)]; [left|right].
      * split; [done|]. intros l Hl. destruct (decide (l = Z.of_nat (S i))) as [->|]; [by rewrite Hat|].
        apply Hh. lia.
      * split_and!; [lia..|done|]. intros l Hl. destruct (decide (l = Z.of_nat (S i))) as [->|];
          [by rewrite Hat|]. apply Hh. lia.
Qed.

Lemma wp_find_max_off_lvl st Q E s :
  Z.of_nat (length st) = PLAT_MAX_PWR_LVL + 1 ->
  (forall x, highest is_local_state_off st PLAT_MAX_PWR_LVL x -> Q x s) ->
  wp (psci_find_max_off_lvl (P := P) st) Q E s.
Proof.
  intros Hlen HQ. pose proof cfg_lvl.
  destruct (find_lvl_down_spec is_local_state_off st (Z.to_nat PLAT_MAX_PWR_LVL)) as (x & Hx & Hh); [lia..|].
  eapply wp_deref; [exact Hx|]. apply HQ. by rewrite Z2Nat.id in Hh by lia.
Qed.

Lemma wp_find_target_suspend_lvl st Q E s :
  Z.of_nat (length st) = PLAT_MAX_PWR_LVL + 1 ->
  (forall x, highest (fun v => negb (is_local_state_run v)) st PLAT_MAX_PWR_LVL x -> Q x s) ->
  wp (psci_find_target_suspend_lvl (P := P) st) Q E s.
Proof.
  intros Hlen HQ. pose proof cfg_lvl.
  destruct (find_lvl_down_spec (fun v => negb (is_local_state_run v)) st (Z.to_nat PLAT_MAX_PWR_LVL))
    as (x & Hx & Hh); [lia..|].
  eapply wp_deref; [exact Hx|]. apply HQ. by rewrite Z2Nat.id in Hh by lia.
Qed.

Definition type_at (st : psci_power_state_t) (l : Z) : Z :=
  state_type_value (find_local_state_type (st_at st l)).

Lemma wp_suspend_req_loop st i deepest Q E s :
  Z.of_nat (length st) = PLAT_MAX_PWR_LVL + 1 -> Z.of_nat i <= PLAT_MAX_PWR_LVL ->
  (forall b, (b = true <-> state_type_value deepest <= type_at st (Z.of_nat i) /\
      forall l l', 0 <= l <= l' -> l' <= Z.of_nat i -> type_at st l' <= type_at st l) -> Q b s) ->
  wp (suspend_req_loop (P := P) st i deepest) Q E s.
Proof.
  intros Hlen. revert deepest Q. induction i as [|i IH]; intros deepest Q Hi HQ; cbn [suspend_req_loop].
  all: wp_step; apply wp_ps_get; [done|lia|]; cbv zeta.
  - fold (type_at st (Z.of_nat 0)).
    destruct (Z.ltb_spec (type_at st (Z.of_nat 0)) (state_type_value deepest)) as [Hlt|Hge]; wp_step; apply HQ.
    + split; [done|]. lia.
    + split; [|done]. intros _. split; [lia|]. intros l l' Hl Hl'. by replace l with l' by lia.
  - fold (type_at st (Z.of_nat (S i))).
    destruct (Z.ltb_spec (type_at st (Z.of_nat (S i))) (state_type_value deepest)) as [Hlt|Hge].
    { wp_step. apply HQ. split; [done|]. lia. }
    apply IH; [lia|]. intros b Hb. apply HQ. rewrite Hb. fold (type_at st (Z.of_nat (S i))).
    split; intros [Hd Hmono]; (split; [try lia|]).
    + intros l l' Hl Hl'. destruct (decide (l' = Z.of_nat (S i))) as [->|]; [|apply Hmono; lia].
      destruct (decide (l = Z.of_nat (S i))) as [->|]; [lia|].
      etrans; [exact Hd|]. apply Hmono; lia.
    + apply Hmono; lia.
    + intros l l' Hl Hl'. apply Hmono; lia.
Qed.

Lemma type_at_run st l : ps_ok st -> 0 <= l <= PLAT_MAX_PWR_LVL ->
  (is_local_state_run (st_at st l) = true <-> type_at st l = 0).
Proof.
  intros [_ Hr] Hl. specialize (Hr l Hl). unfold is_local_state_run, type_at, find_local_state_type, truthy.
  destruct (Z.eqb_spec (st_at st l) PSCI_LOCAL_STATE_RUN) as [He|Hne]; unfold PSCI_LOCAL_STATE_RUN in *.
  - by rewrite He.
  - destruct (Z.eqb_spec (st_at st l) 0); [done|]. simpl. by destruct (PLAT_MAX_RET_STATE <? st_at st l).
Qed.

Lemma off_not_run st l :
  is_local_state_off (st_at st l) = true -> negb (is_local_state_run (st_at st l)) = true.
Proof.
  unfold is_local_state_off, is_local_state_run, PSCI_LOCAL_STATE_RUN. pose proof cfg_states.
  destruct (Z.eqb_spec (st_at st l) 0); [|done]. lia.
Qed.

Lemma wp_validate_suspend_req st pd Q E s :
  ps_ok st ->
  (forall rc, (rc = PSCI_E_SUCCESS /\ suspend_req_ok st pd) \/
              (rc = PSCI_E_INVALID_PARAMS /\ ~ suspend_req_ok st pd) -> Q rc s) ->
  wp (psci_validate_suspend_req (P := P) st pd) Q E s.
Proof.
  intros Hst HQ. destruct (id Hst) as [Hlen Hrange]. unfold psci_validate_suspend_req. wp_step.
  apply wp_find_target_suspend_lvl; [done|]. intros tl Htl.
  destruct Htl as [[-> Hnone]|(Htl & Htp & Habove)].
  { rewrite Z.eqb_refl. wp_step. apply HQ. right. split; [done|]. intros ((l & Hl & Hne) & _).
    specialize (Hnone l Hl). unfold is_local_state_run in Hnone.
    apply negb_false_iff, Z.eqb_eq in Hnone. done. }
  destruct (Z.eqb_spec tl PSCI_INVALID_PWR_LVL) as [He|_]; [unfold PSCI_INVALID_PWR_LVL in He; lia|].
  wp_step. apply wp_suspend_req_loop; [done|lia|]. rewrite Z2Nat.id by lia. intros b Hb.
  assert (Hmono : b = true <-> forall l l', 0 <= l <= l' -> l' <= PLAT_MAX_PWR_LVL -> type_at st l' <= type_at st l).
  { rewrite Hb. split.
    - intros [_ Hm] l l' Hl Hl'. destruct (decide (l' <= tl)); [apply Hm; lia|].
      assert (type_at st l' = 0) as ->.
      { apply type_at_run; [done|lia|]. apply negb_false_iff, Habove. lia. }
      unfold type_at. by destruct (find_local_state_type _).
    - intros Hm. split; [unfold type_at; by destruct (find_local_state_type _)|].
      intros; apply Hm; lia. }
  destruct b; simpl.
  2:{ wp_step. apply HQ. right. split; [done|]. intros (_ & Hm & _). by apply Hmono in Hm. }
  wp_step. apply wp_find_max_off_lvl; [done|]. intros mo Hmo.
  assert (Hex : exists lvl, 0 <= lvl <= PLAT_MAX_PWR_LVL /\ st_at st lvl <> PSCI_LOCAL_STATE_RUN).
  { exists tl. split; [lia|]. unfold is_local_state_run in Htp. by apply negb_true_iff, Z.eqb_neq in Htp. }
  destruct Hmo as [[-> Hno]|(Hmo & Hmp & _)].
  - destruct (Z.eqb_spec tl PSCI_INVALID_PWR_LVL) as [He|Hne]; [unfold PSCI_INVALID_PWR_LVL in He; lia|].
    rewrite Z.eqb_refl. apply Z.eqb_neq in Hne. rewrite Hne, andb_false_r. wp_step. apply HQ. left.
    split; [done|]. split_and!; [done|by apply Hmono|auto].
  - destruct (Z.eqb_spec mo PSCI_INVALID_PWR_LVL) as [He|Hne]; [unfold PSCI_INVALID_PWR_LVL in He; lia|].
    simpl. rewrite andb_true_r. unfold truthy. destruct (Z.eqb_spec pd 0) as [->|Hpd]; simpl; wp_step; apply HQ.
    + right. split; [done|]. intros (_ & _ & Hoff). specialize (Hoff eq_refl mo Hmo). congruence.
    + left. split; [done|]. split_and!; [done|by apply Hmono|done].
Qed.
End walk.
