(* ===== verification/PsciInv.v ===== *)
(** * PSCI: the power-management invariant

    A CPU is up, waiting in a standby state, or down.  The invariant ties the
    tables of PSCI to these modes: no domain is in a deeper state than any of
    its CPUs asked for, a CPU that is up has asked for RUN everywhere, a down
    CPU is either off (or on its way on) or suspended to a recorded level, and
    no lock is held between two calls. *)
From Stdlib Require Import ZArith Lia.
From stdpp Require Import base sets list numbers option functions.
From S2P Require Import Prelude PsciDefs PsciCommon PsciPower PsciSpec PsciCoord PsciWalk.
#[local] Open Scope Z_scope.

Inductive mode : Type := MUp | MStandby (lvl : Z) | MDown.
#[global] Instance mode_eq_dec : EqDecision mode.
Proof. solve_decision. Defined.

Section inv.
Context `{PlatCfg, !PlatCfgOk} {P : Type} `{!Topo, !TopoOk, !PlatEnv P, !PlatContract P}.
Implicit Types (s : psci_state P) (g : view) (md : Z -> mode).

(** ** The invariant *)
Record core (g : view) : Prop := {
  core_req lvl c : lvl_ok lvl -> cpu_ok c -> 0 <= v_req g lvl c <= PLAT_MAX_OFF_STATE;
  core_ls c lvl : cpu_ok c -> lvl_ok lvl -> 0 <= v_ls g (anc c lvl) <= v_req g lvl c
}.

(** Levels above [L] were never asked to leave RUN. *)
Definition req_below (g : view) (c L : Z) : Prop :=
  forall lvl, lvl_ok lvl -> L < lvl -> v_req g lvl c = PSCI_LOCAL_STATE_RUN.

Definition mode_ok (g : view) (c : Z) (m : mode) : Prop :=
  match m with
  | MUp => v_aff g c = AFF_STATE_ON /\ v_tgt g c = PSCI_INVALID_PWR_LVL /\
           v_cls g c = PSCI_LOCAL_STATE_RUN /\ req_below g c 0
  | MStandby L => v_aff g c = AFF_STATE_ON /\ v_tgt g c = PSCI_INVALID_PWR_LVL /\
           0 <= L <= PLAT_MAX_PWR_LVL /\ req_below g c L
  | MDown => (v_aff g c <> AFF_STATE_ON /\ v_tgt g c = PSCI_INVALID_PWR_LVL /\
              (v_aff g c = AFF_STATE_ON_PENDING -> is_Some (pwr_domain_on_finish the_ops))) \/
             (v_aff g c = AFF_STATE_ON /\ 0 <= v_tgt g c <= PLAT_MAX_PWR_LVL /\
              is_local_state_off (v_cls g c) = true /\ req_below g c (v_tgt g c) /\
              is_Some (pwr_domain_suspend_finish the_ops))
  end.

Definition unlocked (g : view) : Prop :=
  (forall c lvl, cpu_ok c -> lvl_ok lvl -> v_lk g (anc c lvl) = None) /\
  (forall c, cpu_ok c -> v_clk g c = None).

Record Inv (md : Z -> mode) (g : view) : Prop := {
  inv_core : core g;
  inv_mode c : cpu_ok c -> mode_ok g c (md c);
  inv_unlocked : unlocked g
}.

#[global] Instance core_proper : Proper (view_eq ==> iff) core.
Proof.
  assert (forall g g', view_eq g g' -> core g -> core g') as Himp.
  { intros g g' Heq [Hreq Hls]. split; intros.
    - rewrite <- (ve_req _ _ Heq) by done. by apply Hreq.
    - rewrite <- (ve_req _ _ Heq), <- (ve_ls _ _ Heq) by done. by apply Hls. }
  intros g g' Heq. split; apply Himp; [done|by symmetry].
Qed.

Lemma mode_ok_frame g g' c m :
  v_aff g' c = v_aff g c -> v_tgt g' c = v_tgt g c -> v_cls g' c = v_cls g c ->
  (forall lvl, lvl_ok lvl -> v_req g' lvl c = v_req g lvl c) -> mode_ok g c m -> mode_ok g' c m.
Proof.
  intros Ha Ht Hc Hr. unfold mode_ok, req_below. rewrite Ha, Ht, Hc.
  destruct m; naive_solver (rewrite ?Hr by done; eauto).
Qed.

#[global] Instance Inv_proper md : Proper (view_eq ==> iff) (Inv md).
Proof.
  assert (forall g g', view_eq g g' -> Inv md g -> Inv md g') as Himp.
  { intros g g' Heq [Hc Hm [Hu1 Hu2]]. split.
    - by rewrite <- Heq.
    - intros c Hok. eapply (mode_ok_frame g); [..|by apply Hm]; intros; symmetry; by apply Heq.
    - split; intros; [rewrite <- (ve_lk _ _ Heq)|rewrite <- (ve_clk _ _ Heq)]; auto. }
  intros g g' Heq. split; apply Himp; [done|by symmetry].
Qed.

(** ** Safety: a running CPU is never powered through a sleeping domain *)
Lemma up_domains_run md g c lvl :
  Inv md g -> cpu_ok c -> lvl_ok lvl -> md c = MUp -> v_ls g (anc c lvl) = PSCI_LOCAL_STATE_RUN.
Proof.
  intros HI Hc Hl Hup. pose proof (inv_mode _ _ HI c Hc) as Hm. rewrite Hup in Hm.
  destruct Hm as (_ & _ & _ & Hb). pose proof (core_ls _ (inv_core _ _ HI) c lvl Hc Hl).
  rewrite (Hb lvl Hl) in * by (unfold lvl_ok in *; lia). unfold PSCI_LOCAL_STATE_RUN in *. lia.
Qed.

(** ** Preservation by the updates *)
Lemma coord_target_range R c lvl :
  cpu_ok c -> lvl_ok lvl -> (forall c', cpu_ok c' -> 0 <= R lvl c') -> 0 <= coord_target R c lvl.
Proof.
  intros Hc Hl HR. unfold coord_target. destruct (existsb _ _); [done|]. by apply dom_min_range.
Qed.

Lemma coord_target_le R c c' lvl :
  cpu_ok c -> cpu_ok c' -> lvl_ok lvl -> anc c' lvl = anc c lvl -> 0 <= R lvl c' ->
  coord_target R c lvl <= R lvl c'.
Proof.
  intros Hc Hc' Hl Ha HR. unfold coord_target. destruct (existsb _ _); [done|]. by apply dom_min_le.
Qed.

Lemma core_coord me L st g :
  core g -> cpu_ok me -> 0 <= L <= PLAT_MAX_PWR_LVL -> ps_ok st -> core (coord_view me L st g).
Proof.
  intros [Hreq Hls] Hme HL [_ Hst].
  assert (HR : forall lvl c, lvl_ok lvl -> cpu_ok c ->
    0 <= v_req (coord_view me L st g) lvl c <= PLAT_MAX_OFF_STATE).
  { intros lvl c Hl Hc. cbn. unfold req_upd. destruct (_ && _); [|by apply Hreq].
    apply Hst. unfold lvl_ok in *. lia. }
  split; [done|]. intros c lvl Hc Hl. cbn -[req_upd]. rewrite path_upd_lookup by (done || lia).
  case_bool_decide as Hb.
  - destruct Hb as [Hb Ha]. split.
    + apply coord_target_range; [done..|]. intros; by apply HR.
    + apply coord_target_le; [done..|]. by apply HR.
  - rewrite req_upd_out; [by apply Hls|]. intros [-> Hlv]. by apply Hb.
Qed.

Lemma core_run me L g :
  core g -> cpu_ok me -> 0 <= L <= PLAT_MAX_PWR_LVL -> core (run_view me L g).
Proof.
  intros [Hreq Hls] Hme HL. pose proof cfg_states. split.
  - intros lvl c Hl Hc. cbn. unfold req_upd. destruct (_ && _); [unfold PSCI_LOCAL_STATE_RUN; lia|by apply Hreq].
  - intros c lvl Hc Hl. cbn -[req_upd]. rewrite path_upd_lookup by (done || lia). case_bool_decide as Hb.
    + split; [done|]. unfold req_upd. destruct (_ && _); [done|]. by apply Hreq.
    + rewrite req_upd_out; [by apply Hls|]. intros [-> Hlv]. by apply Hb.
Qed.
End inv.
