(* ===== verification/PsciHandlers.v ===== *)
(** * PSCI: specifications of the power operations

    Each handler of psci_on.c, psci_off.c, psci_suspend.c and the warm boot
    entry against the abstract view: which view it leaves behind on every
    path, that it returns or stops only in the ways it should, and that the
    invariant of PsciInv.v is preserved. *)
From Stdlib Require Import ZArith Lia.
From stdpp Require Import base sets list numbers option functions.
From S2P Require Import Prelude PsciDefs PsciCommon PsciSetup PsciStat PsciPower PsciSpec PsciCoord PsciWalk PsciInv.
#[local] Open Scope Z_scope.

Section handlers.
Context `{PlatCfg, !PlatCfgOk} {P : Type} `{!Topo, !TopoOk, !PlatEnv P, !PlatContract P}.
Implicit Types (s : psci_state P) (g : view) (md : Z -> mode) (E : halt -> psci_state P -> Prop).

(** ** Views after each operation *)
Definition off_view (me : Z) (g : view) : view :=
  let g' := coord_view me PLAT_MAX_PWR_LVL psci_set_power_off_state g in
  with_aff (<[me := AFF_STATE_OFF]> (v_aff g')) g'.
Definition suspend_view (me L : Z) (st : psci_power_state_t) (g : view) : view :=
  let g' := coord_view me L st g in with_tgt (<[me := L]> (v_tgt g')) g'.
Definition wake_lvl (g : view) (me : Z) : Z :=
  if v_tgt g me =? PSCI_INVALID_PWR_LVL then PLAT_MAX_PWR_LVL else v_tgt g me.
Definition warm_view (me : Z) (g : view) : view :=
  run_view me (wake_lvl g me) (with_tgt (<[me := PSCI_INVALID_PWR_LVL]> (v_tgt g)) g).
Definition pending_view (c : Z) (g : view) : view := with_aff (<[c := AFF_STATE_ON_PENDING]> (v_aff g)) g.

Lemma Inv_update md g g' me m :
  Inv md g -> core g' -> unlocked g' -> mode_ok g' me m ->
  (forall c, cpu_ok c -> c <> me -> v_aff g' c = v_aff g c /\ v_tgt g' c = v_tgt g c /\ v_cls g' c = v_cls g c /\
     forall lvl, lvl_ok lvl -> v_req g' lvl c = v_req g lvl c) ->
  Inv (<[me := m]> md) g'.
Proof.
  intros HI Hc Hu Hm Hf. split; [done| |done]. intros c Hok.
  destruct (decide (c = me)) as [->|Hne]; [by rewrite fn_lookup_insert|].
  rewrite fn_lookup_insert_ne by done. destruct (Hf c Hok Hne) as (?&?&?&?).
  by eapply mode_ok_frame, HI.
Qed.

Lemma ps_ok_off : ps_ok psci_set_power_off_state.
Proof.
  pose proof cfg_lvl. pose proof cfg_states. unfold psci_set_power_off_state. split.
  - rewrite length_map, length_seqZ. lia.
  - intros lvl Hl. unfold st_at, arr_get. destruct (Z.leb_spec 0 lvl); [|lia].
    rewrite list_lookup_fmap, lookup_seqZ_lt by lia. simpl. lia.
Qed.

Lemma off_state_at lvl : 0 <= lvl <= PLAT_MAX_PWR_LVL -> st_at psci_set_power_off_state lvl = PLAT_MAX_OFF_STATE.
Proof.
  intros Hl. unfold psci_set_power_off_state, st_at, arr_get. destruct (Z.leb_spec 0 lvl); [|lia].
  by rewrite list_lookup_fmap, lookup_seqZ_lt by lia.
Qed.

Lemma off_is_off : is_local_state_off PLAT_MAX_OFF_STATE = true.
Proof. unfold is_local_state_off. pose proof cfg_states. lia. Qed.

Lemma off_view_Inv md me g :
  Inv md g -> cpu_ok me -> md me = MUp -> Inv (<[me := MDown]> md) (off_view me g).
Proof.
  intros HI Hme Hup. pose proof cfg_lvl. eapply Inv_update; [done|..].
  - destruct (core_coord me PLAT_MAX_PWR_LVL psci_set_power_off_state g (inv_core _ _ HI) Hme) as [Ha Hb];
      [lia|apply ps_ok_off|by split].
  - apply HI.
  - left. cbn. rewrite fn_lookup_insert. split_and!; [done| |done].
    pose proof (inv_mode _ _ HI me Hme) as Hm. rewrite Hup in Hm. apply Hm.
  - intros c Hc Hne. cbn. rewrite !fn_lookup_insert_ne by done. split_and!; [done..|].
    intros lvl Hl. apply req_upd_out. lia.
Qed.

Lemma suspend_view_Inv md me L st g :
  Inv md g -> cpu_ok me -> md me = MUp -> 0 <= L <= PLAT_MAX_PWR_LVL -> ps_ok st ->
  is_local_state_off (st_at st 0) = true -> is_Some (pwr_domain_suspend_finish the_ops) ->
  Inv (<[me := MDown]> md) (suspend_view me L st g).
Proof.
  intros HI Hme Hup HL Hst Hoff Hfin. pose proof (inv_mode _ _ HI me Hme) as Hm. rewrite Hup in Hm.
  destruct Hm as (Ha & _ & _ & Hb). eapply Inv_update; [done|..].
  - pose proof (core_coord me L _ g (inv_core _ _ HI) Hme HL Hst) as [Hx Hy]. by split.
  - apply HI.
  - right. cbn -[req_upd]. rewrite !fn_lookup_insert. split_and!; [done|lia..|done| |done].
    intros lvl Hl Hgt. cbn. rewrite req_upd_out by lia. apply Hb; [done|unfold lvl_ok in *; lia].
  - intros c Hc Hne. cbn. rewrite !fn_lookup_insert_ne by done. split_and!; [done..|].
    intros lvl Hl. apply req_upd_out. lia.
Qed.

(** A standby request: the CPU keeps its affinity state and its level. *)
Lemma standby_view_Inv md me L st g :
  Inv md g -> cpu_ok me -> md me = MUp -> 0 <= L <= PLAT_MAX_PWR_LVL -> ps_ok st ->
  Inv (<[me := MStandby L]> md) (coord_view me L st g).
Proof.
  intros HI Hme Hup HL Hst. pose proof (inv_mode _ _ HI me Hme) as Hm. rewrite Hup in Hm.
  destruct Hm as (Ha & Ht & _ & Hb). eapply Inv_update; [done|..].
  - by apply core_coord; [apply HI|..].
  - apply HI.
  - split_and!; [done..|lia|lia|].
    intros lvl Hl Hgt. cbn. rewrite req_upd_out by lia. apply Hb; [done|unfold lvl_ok in *; lia].
  - intros c Hc Hne. cbn. rewrite !fn_lookup_insert_ne by done. split_and!; [done..|].
    intros lvl Hl. apply req_upd_out. lia.
Qed.

Lemma run_mode_up me L g :
  0 <= L <= PLAT_MAX_PWR_LVL -> req_below g me L -> v_tgt g me = PSCI_INVALID_PWR_LVL ->
  mode_ok (run_view me L g) me MUp.
Proof.
  intros HL Hb Ht. cbn -[req_upd]. rewrite !fn_lookup_insert. split_and!; [done..|].
  intros lvl Hl Hgt. cbn. destruct (decide (lvl <= L)).
  - by rewrite req_upd_me by (unfold lvl_ok in *; lia).
  - rewrite req_upd_out by lia. apply Hb; [done|lia].
Qed.

Lemma run_view_Inv md me L g :
  Inv md g -> cpu_ok me -> md me = MStandby L -> Inv (<[me := MUp]> md) (run_view me L g).
Proof.
  intros HI Hme Hs. pose proof (inv_mode _ _ HI me Hme) as Hm. rewrite Hs in Hm.
  destruct Hm as (Ha & Ht & HL & Hb). eapply Inv_update; [done|..].
  - by apply core_run; [apply HI|..].
  - apply HI.
  - by apply run_mode_up.
  - intros c Hc Hne. cbn. rewrite !fn_lookup_insert_ne by done. split_and!; [done..|].
    intros lvl Hl. apply req_upd_out. lia.
Qed.

Lemma wake_lvl_range md g me : Inv md g -> cpu_ok me -> 0 <= wake_lvl g me <= PLAT_MAX_PWR_LVL.
Proof.
  intros HI Hme. pose proof cfg_lvl. unfold wake_lvl.
  destruct (Z.eqb_spec (v_tgt g me) PSCI_INVALID_PWR_LVL); [lia|].
  pose proof (inv_mode _ _ HI me Hme) as Hm. destruct (md me); cbn in Hm; naive_solver.
Qed.

Lemma warm_view_Inv md me g :
  Inv md g -> cpu_ok me -> md me = MDown -> Inv (<[me := MUp]> md) (warm_view me g).
Proof.
  intros HI Hme Hd. pose proof (wake_lvl_range _ _ _ HI Hme) as HL.
  pose proof (inv_mode _ _ HI me Hme) as Hm. rewrite Hd in Hm. eapply Inv_update; [done|..].
  - apply core_run; [|done..]. destruct (inv_core _ _ HI). by split.
  - apply HI.
  - apply run_mode_up; [done| |cbn; by rewrite fn_lookup_insert].
    intros lvl Hl Hgt. cbn. unfold wake_lvl in *.
    destruct (Z.eqb_spec (v_tgt g me) PSCI_INVALID_PWR_LVL); [unfold lvl_ok in *; lia|].
    destruct Hm as [(_ & ? & _)|(_ & _ & _ & Hb & _)]; [done|by apply Hb].
  - intros c Hc Hne. cbn. rewrite !fn_lookup_insert_ne by done. split_and!; [done..|].
    intros lvl Hl. apply req_upd_out. lia.
Qed.

Lemma pending_view_Inv md c g :
  Inv md g -> cpu_ok c -> v_aff g c = AFF_STATE_OFF -> is_Some (pwr_domain_on_finish the_ops) ->
  md c = MDown /\ Inv md (pending_view c g).
Proof.
  intros HI Hc Ha Hfin. pose proof (inv_mode _ _ HI c Hc) as Hm.
  assert (Hd : md c = MDown).
  { destruct (md c); [destruct Hm as (?&_)|destruct Hm as (?&_)|done]; congruence. }
  split; [done|]. rewrite Hd in Hm. split.
  - destruct (inv_core _ _ HI). by split.
  - intros c' Hc'. destruct (decide (c' = c)) as [->|Hne].
    + rewrite Hd. left. cbn. rewrite fn_lookup_insert. split_and!; [done| |done]. destruct Hm as [(_&?&_)|(?&_)]; congruence.
    + eapply (mode_ok_frame g); [..|by apply HI]; cbn; intros; by rewrite ?fn_lookup_insert_ne.
  - apply HI.
Qed.

(** ** Shared steps *)
Lemma relock me L (lk : Z -> option Z) c lvl :
  cpu_ok me -> 0 <= L <= PLAT_MAX_PWR_LVL -> cpu_ok c -> lvl_ok lvl ->
  (forall c lvl, cpu_ok c -> lvl_ok lvl -> lk (anc c lvl) = None) ->
  path_upd me 1 (Z.to_nat L) (fun _ => None) (path_upd me 1 (Z.to_nat L) (fun _ => Some me) lk) (anc c lvl)
  = lk (anc c lvl).
Proof.
  intros Hme HL Hc Hl Hfree. rewrite !path_upd_lookup by (done || lia).
  case_bool_decide; [|done]. by rewrite Hfree.
Qed.

Lemma locked_by_me me L (lk : Z -> option Z) l :
  cpu_ok me -> 0 <= L <= PLAT_MAX_PWR_LVL -> 1 <= l <= L ->
  path_upd me 1 (Z.to_nat L) (fun _ => Some me) lk (anc me l) = Some me.
Proof.
  intros Hme HL Hl. rewrite path_upd_lookup by (done || unfold lvl_ok; lia).
  by rewrite bool_decide_eq_true_2 by (split; [lia|done]).
Qed.

Lemma wp_no_stat m (Q : unit -> psci_state P -> Prop) E s : Q tt s -> wp (when ENABLE_PSCI_STAT m) Q E s.
Proof. rewrite pc_no_stat. by apply wp_ret. Qed.

Lemma wp_pwr_down_wfi st Q E s g :
  rep s g -> (forall s', rep s' g -> E HPwrDownWfi s') -> wp (pwr_down_wfi st) Q E s.
Proof.
  intros Hr HE. unfold pwr_down_wfi. wp_step. eapply wp_get_ops; [done|].
  destruct (pwr_domain_pwr_down_wfi the_ops) as [f|] eqn:Hf.
  - eapply wp_call_ends; [done|by eapply (oc_wfi _ _ _ pc_ops)|done].
  - apply wp_halt. by apply HE.
Qed.

(** ** CPU_OFF *)
Lemma wp_cpu_off_coordinate me L st Q E s g :
  rep s g -> cpu_ok me -> 0 <= L <= PLAT_MAX_PWR_LVL -> ps_ok st -> is_Some (pwr_domain_off the_ops) ->
  (forall st' s', rep s' (coord_view me L st g) -> Q st' s') ->
  wp (cpu_off_coordinate me L st) Q E s.
Proof.
  intros Hr Hme HL Hst Hoff HQ. unfold cpu_off_coordinate. wp_step.
  eapply wp_state_coordination; [done..|]. clear s Hr. intros st' s Hres Hr. wp_step.
  apply wp_no_stat. wp_step. apply wp_find_max_off_lvl; [apply Hres|]. intros mo _. wp_step.
  unfold psci_do_pwrdown_sequence. step_emit. wp_step. eapply wp_get_ops; [done|]. wp_step.
  apply wp_hook_of; [done|]. intros off Hf. wp_step.
  eapply wp_call; [done|by eapply (oc_off _ _ _ pc_ops)|]. clear s Hr. intros _ s _ Hr. wp_step.
  apply wp_no_stat. wp_step. by apply HQ.
Qed.

(** The dispatcher may refuse, and then nothing has changed; otherwise the CPU
    does not return. *)
Lemma wp_do_cpu_off me (Q : Z -> psci_state P -> Prop) E s g :
  rep s g -> cpu_ok me -> unlocked g -> is_Some (pwr_domain_off the_ops) ->
  (forall s', rep s' g -> Q PSCI_E_DENIED s') ->
  (forall s', rep s' (off_view me g) -> E HPwrDownWfi s') ->
  wp (psci_do_cpu_off me PLAT_MAX_PWR_LVL) Q E s.
Proof.
  intros Hr Hme [Hlk Hclk] Hoff HQ HE. pose proof cfg_lvl. assert (HL : 0 <= PLAT_MAX_PWR_LVL <= PLAT_MAX_PWR_LVL) by lia.
  unfold psci_do_cpu_off. wp_step. eapply wp_get_ops; [done|]. wp_step.
  apply wp_assert; [by apply bool_decide_eq_true|]. wp_step.
  eapply wp_acquire; [done..| |]. { intros l Hl. apply Hlk; unfold lvl_ok; lia || done. }
  same_view. wp_step. eapply wp_spd_hook; [done|]. intros r Hspd. wp_step.
  assert (Hrest : forall rc s, rc = PSCI_E_SUCCESS \/ rc = PSCI_E_DENIED -> rep s (lock_view me PLAT_MAX_PWR_LVL g) ->
    wp (let! st := if truthy rc then ret psci_set_power_off_state
                   else cpu_off_coordinate me PLAT_MAX_PWR_LVL psci_set_power_off_state in
        psci_release_pwr_domain_locks me PLAT_MAX_PWR_LVL me ;;;
        when (rc =? PSCI_E_SUCCESS)
          (psci_flush_cpu_data me ;;; psci_set_aff_info_state_by_idx me AFF_STATE_OFF ;;;
           psci_dsbish ;;; psci_inv_cpu_data me ;;; pwr_down_wfi st) ;;; ret rc) Q E s).
  { clear s Hr r Hspd. intros rc s [->| ->] Hr; cbn [truthy Z.eqb negb PSCI_E_SUCCESS PSCI_E_DENIED].
    - wp_step. eapply wp_cpu_off_coordinate; [done..|apply ps_ok_off|done|]. clear s Hr. intros st' s Hr. wp_step.
      eapply wp_release; [done..| |]. { intros l Hl. by apply locked_by_me. }
      same_view. wp_step. apply wp_when; [intros _|done]. wp_step. step_emit. wp_step.
      eapply wp_set_aff; [done..|]. same_view. wp_step. step_emit. wp_step. step_emit.
      eapply wp_pwr_down_wfi; [done|]. intros s' Hr'. apply HE. eapply rep_proper; [|exact Hr'].
      split; cbn; intros; try done. symmetry. by apply relock.
    - wp_steps. eapply wp_release; [done..| |]. { intros l Hl. by apply locked_by_me. }
      same_view. wp_step. apply wp_when; [done|intros _]. wp_step. apply HQ. eapply rep_proper; [|exact Hr].
      split; cbn; intros; try done. symmetry. by apply relock. }
  destruct r as [f|].
  - destruct (Hspd f eq_refl) as (pm & Hpm & Hf).
    eapply wp_call; [done|by eapply sc_off, Hf; eapply pc_spd|]. intros rc s' Hrc Hr'. by apply Hrest.
  - wp_step. apply Hrest; [by left|done].
Qed.

(** ** CPU_ON *)
Lemma wp_cpu_on_power_up target c ep (Q : Z -> psci_state P -> Prop) E s g :
  rep s g -> cpu_ok c -> is_Some (pwr_domain_on the_ops) ->
  (forall s', rep s' (pending_view c g) -> Q PSCI_E_SUCCESS s') ->
  (forall s', rep s' (with_aff (<[c := AFF_STATE_OFF]> (v_aff g)) g) -> Q PSCI_E_INTERN_FAIL s') ->
  wp (cpu_on_power_up target c ep) Q E s.
Proof.
  intros Hr Hc Hon HQ1 HQ2. unfold cpu_on_power_up. wp_step.
  eapply wp_call_spd; [done|intros; eapply sc_on; [by apply pc_spd|done]|]. same_view. wp_step.
  eapply wp_set_aff; [done..|]. same_view. wp_step. step_emit. wp_step.
  eapply wp_get_aff; [done..|]. cbn [v_aff with_aff]. rewrite fn_lookup_insert. wp_step.
  apply wp_when; [intros Hb; by apply bool_decide_eq_true in Hb|intros _]. wp_step.
  eapply wp_get_ops; [done|]. wp_step. apply wp_hook_of; [done|]. intros f Hf. wp_step.
  eapply wp_call; [done|by eapply (oc_on _ _ _ pc_ops)|]. clear s Hr. intros rc s Hrc Hr. wp_step.
  apply wp_assert.
  { destruct Hrc as [->| ->]; done. }
  wp_step. destruct Hrc as [->| ->]; cbn [Z.eqb PSCI_E_SUCCESS PSCI_E_INTERN_FAIL].
  - step_emit. wp_step. by apply HQ1.
  - wp_step. eapply wp_set_aff; [done..|]. same_view. step_emit. wp_step. apply HQ2.
    eapply rep_proper; [|exact Hr]. split; cbn; intros; try done.
    destruct (decide (c0 = c)) as [->|]; [by rewrite !fn_lookup_insert|by rewrite !fn_lookup_insert_ne].
Qed.

(** Every outcome of [psci_cpu_on_start]; the spinlock is free again. *)
Lemma wp_cpu_on_start me target ep (Q : Z -> psci_state P -> Prop) E s g :
  let c := plat_core_pos_by_mpidr target in
  rep s g -> cpu_ok c -> v_clk g c = None ->
  is_Some (pwr_domain_on the_ops) -> is_Some (pwr_domain_on_finish the_ops) ->
  (v_aff g c = AFF_STATE_ON -> forall s', rep s' g -> Q PSCI_E_ALREADY_ON s') ->
  (v_aff g c = AFF_STATE_ON_PENDING -> forall s', rep s' g -> Q PSCI_E_ON_PENDING s') ->
  (v_aff g c = AFF_STATE_OFF -> forall s', rep s' g -> Q PSCI_E_INTERN_FAIL s') ->
  (v_aff g c = AFF_STATE_OFF -> forall s', rep s' (pending_view c g) -> Q PSCI_E_SUCCESS s') ->
  wp (psci_cpu_on_start me target ep) Q E s.
Proof.
  intros c Hr Hc Hclk Hon Hfin HQon HQpend HQfail HQok. pose proof cfg_cores. unfold psci_cpu_on_start. fold c.
  rewrite (u32_small c) by (unfold cpu_ok in *; lia). wp_step.
  apply wp_assert; [rewrite s32_small by (unfold cpu_ok in *; lia); unfold cpu_ok in *; lia|]. wp_step.
  eapply wp_get_ops; [done|]. wp_step.
  apply wp_assert; [by rewrite !bool_decide_eq_true_2|]. wp_step.
  eapply wp_spin_lock; [done..|]. same_view. wp_step. step_emit. wp_step. eapply wp_get_aff; [done..|].
  cbn [v_aff with_clk]. wp_step.
  assert (Hexit : forall rc (g1 : view) s, rep s (with_clk (<[c := Some me]> (v_clk g)) g1) -> v_clk g1 = v_clk g ->
    (forall s', rep s' g1 -> Q rc s') -> wp (psci_spin_unlock_cpu c ;;; ret rc) Q E s).
  { clear s Hr. intros rc g1 s Hr Hg1 HQ. wp_step. eapply wp_spin_unlock; [done..|]. same_view. wp_step. apply HQ.
    eapply rep_proper; [|exact Hr]. split; cbn; intros; try done. rewrite Hg1.
    destruct (decide (c0 = c)) as [->|]; [by rewrite !fn_lookup_insert|by rewrite !fn_lookup_insert_ne]. }
  destruct (v_aff g c) eqn:Ha; cbn [cpu_on_validate_state]; do 2 wp_step;
    cbn [Z.eqb negb PSCI_E_SUCCESS PSCI_E_ALREADY_ON PSCI_E_ON_PENDING].
  - wp_step. eapply Hexit; [done|done|auto].
  - eapply wp_cpu_on_power_up; [done..| |].
    + same_view. eapply (Hexit _ (pending_view c g)); [exact Hr|done|auto].
    + same_view. eapply (Hexit _ g); [|done|auto]. eapply rep_proper; [|exact Hr].
      split; cbn; intros; try done. rewrite <- Ha. by rewrite fn_insert_same.
  - wp_step. eapply Hexit; [done|done|auto].
Qed.

(** ** CPU_SUSPEND *)
Lemma wp_pwrdown_start me L ep st Q E s g :
  rep s g -> cpu_ok me -> 0 <= L <= PLAT_MAX_PWR_LVL -> Z.of_nat (length st) = PLAT_MAX_PWR_LVL + 1 ->
  is_Some ep -> (forall s', rep s' (with_tgt (<[me := L]> (v_tgt g)) g) -> Q tt s') ->
  wp (psci_suspend_to_pwrdown_start me L ep st) Q E s.
Proof.
  intros Hr Hme HL Hlen [e ->] HQ. pose proof cfg_lvl. unfold psci_suspend_to_pwrdown_start. wp_step.
  apply wp_find_max_off_lvl; [done|]. intros mo _. wp_step. step_emit. wp_step.
  eapply wp_set_tgt; [done..|lia|]. same_view. wp_step. step_emit. wp_step.
  eapply wp_call_spd; [done|intros; eapply sc_suspend; [by apply pc_spd|done]|]. same_view. wp_step.
  eapply wp_get_ops; [done|]. wp_step.
  assert (Hk : forall s, rep s (with_tgt (<[me := L]> (v_tgt g)) g) ->
    wp (let! ep := deref (Some e) in emit (EvCmInitContext me ep) ;;; psci_do_pwrdown_sequence mo) Q E s).
  { clear s Hr. intros s Hr. wp_steps. step_emit. unfold psci_do_pwrdown_sequence. step_emit. by apply HQ. }
  apply wp_when; intros _; [|by apply Hk].
  destruct (pwr_domain_suspend_pwrdown_early the_ops) as [f|] eqn:Hf; [|wp_step; by apply Hk].
  eapply wp_call; [done|by eapply (oc_early _ _ _ pc_ops)|]. intros _ s' _ Hr'. by apply Hk.
Qed.

Definition sleep_view (me L : Z) (st : psci_power_state_t) (pd : Z) (g : view) : view :=
  if truthy pd then suspend_view me L st g else coord_view me L st g.

Lemma wp_suspend_coordinate me L ep st pd Q E s g :
  rep s g -> cpu_ok me -> 0 <= L <= PLAT_MAX_PWR_LVL -> ps_ok st -> is_Some (pwr_domain_suspend the_ops) ->
  (truthy pd = true -> is_Some ep) ->
  (forall st' s', rep s' (sleep_view me L st pd g) -> Q st' s') ->
  wp (suspend_coordinate me L ep st pd) Q E s.
Proof.
  intros Hr Hme HL Hst Hsus Hep HQ. unfold suspend_coordinate, sleep_view in *. wp_step.
  eapply wp_state_coordination; [done..|]. clear s Hr. intros st' s Hres Hr. wp_step.
  apply wp_no_stat. wp_step.
  assert (Hk : forall s, rep s (if truthy pd then suspend_view me L st g else coord_view me L st g) ->
    wp (let! ops := get_ops in
        let! susp := hook_of (pwr_domain_suspend ops) in
        call HkSuspend st' (susp st') ;;;
        when ENABLE_PSCI_STAT (call HkStatStart st' (plat_psci_stat_accounting_start me st')) ;;;
        ret st') Q E s).
  { clear s Hr. intros s Hr. wp_step. eapply wp_get_ops; [done|]. wp_step.
    apply wp_hook_of; [done|]. intros f Hf. wp_step. eapply wp_call; [done|by eapply (oc_suspend _ _ _ pc_ops)|].
    clear s Hr. intros _ s _ Hr. wp_step. apply wp_no_stat. wp_step. by apply HQ. }
  apply wp_when; intros Hpd; rewrite Hpd in *.
  - eapply wp_pwrdown_start; [done..|apply Hres|auto|]. same_view. by apply Hk.
  - by apply Hk.
Qed.

(** Up to the wait for interrupt: nothing happens when an interrupt is
    pending; a power down request does not return; a standby request returns
    in the coordinated state. *)
Lemma wp_suspend_enter me L ep st pd (Q : bool -> psci_state P -> Prop) E s g :
  rep s g -> cpu_ok me -> 0 <= L <= PLAT_MAX_PWR_LVL -> unlocked g -> ps_ok st ->
  is_Some (pwr_domain_suspend the_ops) -> is_Some (pwr_domain_suspend_finish the_ops) ->
  (truthy pd = true -> is_Some ep) ->
  (forall s', rep s' g -> Q true s') ->
  (truthy pd = false -> forall s', rep s' (coord_view me L st g) -> Q false s') ->
  (truthy pd = true -> forall s', rep s' (suspend_view me L st g) -> E HPwrDownWfi s') ->
  wp (suspend_enter me ep L st pd) Q E s.
Proof.
  intros Hr Hme HL [Hlk Hclk] Hst Hsus Hfin Hep HQskip HQret HE. unfold suspend_enter. wp_step.
  eapply wp_get_ops; [done|]. wp_step. apply wp_assert; [by rewrite !bool_decide_eq_true_2|]. wp_step.
  eapply wp_acquire; [done..| |]. { intros l Hl. apply Hlk; unfold lvl_ok; lia || done. }
  same_view. wp_step. eapply wp_plat; [done|apply pc_isr|]. clear s Hr. intros isr s _ Hr. wp_step.
  destruct (truthy isr).
  - wp_steps. eapply wp_release; [done..| |]. { intros l Hl. by apply locked_by_me. }
    same_view. wp_step. apply HQskip. eapply rep_proper; [|exact Hr].
    split; cbn; intros; try done. symmetry. by apply relock.
  - eapply wp_suspend_coordinate; [done..|]. clear s Hr. intros st' s Hr. wp_step.
    eapply wp_release; [done..| |].
    { intros l Hl. unfold sleep_view. destruct (truthy pd); by apply locked_by_me. }
    same_view. wp_step. unfold sleep_view in *. apply wp_when; intros Hpd; rewrite Hpd in *.
    + eapply wp_pwr_down_wfi; [done|]. intros s' Hr'. apply HE; [done|]. eapply rep_proper; [|exact Hr'].
      split; cbn; intros; try done. symmetry. by apply relock.
    + wp_step. apply HQret; [done|]. eapply rep_proper; [|exact Hr].
      split; cbn; intros; try done. symmetry. by apply relock.
Qed.

Lemma wp_standby_finisher me L Q E s g :
  rep s g -> cpu_ok me -> 0 <= L <= PLAT_MAX_PWR_LVL -> unlocked g ->
  is_Some (pwr_domain_suspend_finish the_ops) ->
  (forall s', rep s' (run_view me L g) -> Q tt s') ->
  wp (psci_suspend_to_standby_finisher me me L) Q E s.
Proof.
  intros Hr Hme HL [Hlk Hclk] Hfin HQ. pose proof cfg_lvl. unfold psci_suspend_to_standby_finisher. wp_step.
  eapply wp_acquire; [done..| |]. { intros l Hl. apply Hlk; unfold lvl_ok; lia || done. }
  same_view. wp_step. eapply wp_get_target_states; [done..| |].
  { rewrite length_replicate. lia. }
  clear s Hr. intros st' s Hst' Hr. wp_step. apply wp_no_stat. wp_step. eapply wp_get_ops; [done|]. wp_step.
  apply wp_hook_of; [done|]. intros f Hf. wp_step.
  eapply wp_call; [done|by eapply (oc_suspend_finish _ _ _ pc_ops)|]. clear s Hr. intros _ s _ Hr. wp_step.
  eapply wp_set_pwr_domains_to_run; [done..|]. same_view.
  eapply wp_release; [done..| |]. { intros l Hl. by apply locked_by_me. }
  same_view. apply HQ. eapply rep_proper; [|exact Hr]. split; cbn; intros; try done. symmetry. by apply relock.
Qed.

(** ** Warm boot *)
Lemma wp_cpu_on_finish me st Q E s g :
  rep s g -> cpu_ok me -> v_clk g me = None -> v_aff g me = AFF_STATE_ON_PENDING ->
  is_Some (pwr_domain_on_finish the_ops) ->
  (forall s', rep s' g -> Q tt s') -> wp (psci_cpu_on_finish me me st) Q E s.
Proof.
  intros Hr Hme Hclk Ha Hfin HQ. unfold psci_cpu_on_finish, psci_arch_setup. wp_step.
  eapply wp_get_ops; [done|]. wp_step. apply wp_hook_of; [done|]. intros f Hf. wp_step.
  eapply wp_call; [done|by eapply (oc_on_finish _ _ _ pc_ops)|]. clear s Hr. intros _ s _ Hr. wp_step.
  step_emit. do 2 wp_step. step_emit. step_emit. wp_step.
  eapply wp_spin_lock; [done..|]. same_view. wp_step. eapply wp_spin_unlock; [done..|]. same_view. wp_step.
  eapply wp_get_aff; [done..|]. wp_step. apply wp_assert; [by apply bool_decide_eq_true|]. wp_step.
  eapply wp_call_spd; [done|intros; eapply sc_on_finish; [by apply pc_spd|done]|]. same_view. wp_step.
  step_emit. wp_step. eapply wp_get_cpu_node; [done..|]. intros n Hn Hp. wp_step.
  eapply wp_put_cpu_node; [done..|]. same_view. step_emit. apply HQ.
  eapply rep_proper; [|exact Hr]. split; cbn; intros; try done. rewrite Hn. cbn.
  destruct (decide (c = me)) as [->|]; [by rewrite !fn_lookup_insert|by rewrite !fn_lookup_insert_ne].
Qed.

Lemma wp_cpu_suspend_finish me st Q E s g :
  rep s g -> cpu_ok me -> Z.of_nat (length st) = PLAT_MAX_PWR_LVL + 1 ->
  v_aff g me = AFF_STATE_ON -> is_local_state_off (st_at st 0) = true ->
  is_Some (pwr_domain_suspend_finish the_ops) ->
  (forall s', rep s' (with_tgt (<[me := PSCI_INVALID_PWR_LVL]> (v_tgt g)) g) -> Q tt s') ->
  wp (psci_cpu_suspend_finish me st) Q E s.
Proof.
  intros Hr Hme Hlen Ha Hoff Hfin HQ. pose proof cfg_lvl. unfold psci_cpu_suspend_finish. wp_step.
  eapply wp_get_aff; [done..|]. wp_step. unfold PSCI_CPU_PWR_LVL. apply wp_ps_get; [lia..|]. wp_step.
  apply wp_assert; [by rewrite Hoff, bool_decide_eq_true_2|]. wp_step. eapply wp_get_ops; [done|]. wp_step.
  apply wp_hook_of; [done|]. intros f Hf. wp_step.
  eapply wp_call; [done|by eapply (oc_suspend_finish _ _ _ pc_ops)|]. clear s Hr. intros _ s _ Hr. wp_step.
  step_emit. wp_step. step_emit. wp_step. eapply wp_spd_hook; [done|]. intros r Hspd. wp_step.
  assert (Hk : forall s, rep s g -> wp (psci_set_suspend_pwrlvl me PSCI_INVALID_PWR_LVL ;;;
     emit (EvPublish psci_suspend_pwrdown_finish_event) ;;; emit (EvCmPrepareEl3Exit me)) Q E s).
  { clear s Hr. intros s Hr. wp_step. eapply wp_set_tgt; [done..|unfold PSCI_INVALID_PWR_LVL; lia|]. same_view.
    wp_step. step_emit. step_emit. by apply HQ. }
  destruct r as [k|]; [|wp_step; by apply Hk]. destruct (Hspd k eq_refl) as (pm & Hpm & Hpf). wp_step.
  apply wp_find_max_off_lvl; [done|]. intros mo Hmo. wp_step. apply wp_assert.
  { destruct Hmo as [[-> Hno]|(Hmo & _)]; [rewrite Hno in Hoff by lia; done|].
    unfold PSCI_INVALID_PWR_LVL. lia. }
  eapply wp_call; [done|by eapply sc_suspend_finish, Hpf; apply pc_spd|]. intros _ s' _ Hr'. by apply Hk.
Qed.

Lemma wp_warmboot md me Q E s g :
  rep s g -> Inv md g -> cpu_ok me -> md me = MDown -> v_aff g me <> AFF_STATE_OFF ->
  (forall s', rep s' (warm_view me g) -> Q tt s') -> wp (psci_warmboot_entrypoint me) Q E s.
Proof.
  intros Hr HI Hme Hd Haff HQ. pose proof cfg_lvl. destruct (inv_unlocked _ _ HI) as [Hlk Hclk].
  pose proof (wake_lvl_range _ _ _ HI Hme) as HL.
  pose proof (inv_mode _ _ HI me Hme) as Hm. rewrite Hd in Hm.
  unfold psci_warmboot_entrypoint. wp_step. eapply wp_get_aff; [done..|]. rewrite decide_False by done.
  wp_step. unfold get_power_on_target_pwrlvl. wp_step. eapply wp_get_tgt; [done..|]. wp_step.
  fold (wake_lvl g me). wp_step.
  eapply wp_acquire; [done..| |]. { intros l Hl. apply Hlk; unfold lvl_ok; lia || done. }
  same_view. wp_step. eapply wp_get_target_states; [done..| |]. { rewrite length_replicate. lia. }
  clear s Hr. intros st s (Hlen & Hst0 & _) Hr. wp_step. apply wp_no_stat. wp_step.
  eapply wp_get_aff; [done..|]. wp_step. cbn [v_aff v_cls with_lk lock_view] in *.
  assert (Hk : forall s g', rep s (with_lk (v_lk (lock_view me (wake_lvl g me) g)) g') ->
    view_eq g' (with_tgt (<[me := PSCI_INVALID_PWR_LVL]> (v_tgt g)) g) ->
    wp (psci_set_pwr_domains_to_run me (wake_lvl g me) ;;;
        when ENABLE_PSCI_STAT (psci_stats_update_pwr_up me (wake_lvl g me) st) ;;;
        psci_release_pwr_domain_locks me (wake_lvl g me) me) Q E s).
  { clear s Hr. intros s g' Hr Heq. wp_step. eapply wp_set_pwr_domains_to_run; [done..|]. same_view.
    wp_step. apply wp_no_stat. eapply wp_release; [done..| |]. { intros l Hl. by apply locked_by_me. }
    same_view. apply HQ. eapply rep_proper; [|exact Hr]. unfold warm_view.
    split; cbn -[req_upd]; intros; try (destruct Heq; cbn in *; done).
    - symmetry. apply req_upd_ext; [done|]. by apply Heq.
    - rewrite !path_upd_lookup by (done || lia). case_bool_decide; [done|]. symmetry. by apply Heq.
    - destruct (decide (c = me)) as [->|]; [by rewrite !fn_lookup_insert|].
      rewrite !fn_lookup_insert_ne by done. symmetry. by apply Heq.
    - symmetry. by apply Heq.
    - destruct (decide (c = me)) as [->|]; [by rewrite !fn_lookup_insert|].
      rewrite !fn_lookup_insert_ne by done. symmetry. by apply Heq.
    - symmetry. by apply relock.
    - symmetry. by apply Heq. }
  destruct Hm as [(Hna & Ht & Hfin)|(Ha & Ht & Hoff & Hb & Hfin)].
  - assert (v_aff g me = AFF_STATE_ON_PENDING) as Hp by (destruct (v_aff g me); done).
    rewrite decide_True by done. eapply wp_cpu_on_finish; [done..|by apply Hclk|done|auto|].
    same_view. apply (Hk s g); [done|]. split; cbn; intros; try done. rewrite <- Ht. by rewrite fn_insert_same.
  - rewrite decide_False by congruence. eapply wp_cpu_suspend_finish; [done..|by rewrite Hst0|done|].
    same_view. apply (Hk s (with_tgt (<[me := PSCI_INVALID_PWR_LVL]> (v_tgt g)) g)); [done|reflexivity].
Qed.
End handlers.
