(* ===== verification/PsciSmc.v ===== *)
(** * PSCI: the SMC interface refines an abstract power-management machine

    [psci_abs] is the abstract specification of one PSCI call: the views it
    may leave behind and the ways in which it may end.  Every call of
    [psci_smc_handler] by a running CPU is an abstract step, and abstract
    steps preserve the invariant; so no call of the interface, whatever its
    arguments, fails an assertion, accesses an array out of range, calls a
    null hook, panics or blocks on a lock. *)
From Stdlib Require Import ZArith Lia.
From stdpp Require Import base sets list numbers option functions.
From S2P Require Import Prelude PsciDefs PsciCommon PsciSetup PsciStat PsciPower PsciMain PsciSpec PsciCoord PsciWalk PsciInv PsciHandlers.
#[local] Open Scope Z_scope.

Section smc.
Context `{PlatCfg, !PlatCfgOk} {P : Type} `{!Topo, !TopoOk, !PlatEnv P, !PlatContract P}.
Implicit Types (s : psci_state P) (g : view) (md : Z -> mode) (E : halt -> psci_state P -> Prop).

(** ** Abstract machine

    [hs] are the hooks a call may reach among those a port may leave
    unimplemented. *)
Inductive psci_abs (hs : list hook) (me : Z) (g : view) : option halt -> view -> Prop :=
| abs_stay : psci_abs hs me g None g
| abs_on c :
    cpu_ok c -> v_aff g c = AFF_STATE_OFF -> is_Some (pwr_domain_on_finish the_ops) ->
    psci_abs hs me g None (pending_view c g)
| abs_standby L st :
    0 <= L <= PLAT_MAX_PWR_LVL -> ps_ok st ->
    psci_abs hs me g None (run_view me L (coord_view me L st g))
| abs_off : psci_abs hs me g (Some HPwrDownWfi) (off_view me g)
| abs_suspend L st :
    0 <= L <= PLAT_MAX_PWR_LVL -> ps_ok st -> is_local_state_off (st_at st 0) = true ->
    is_Some (pwr_domain_suspend_finish the_ops) ->
    psci_abs hs me g (Some HPwrDownWfi) (suspend_view me L st g)
| abs_down : psci_abs hs me g (Some HSystemDown) g
| abs_panic h g' : h ∈ hs -> hook_panics h -> psci_abs hs me g (Some HPanic) g'.

(** The modes after a call. *)
Definition mode_after (me : Z) (o : option halt) (md : Z -> mode) : Z -> mode :=
  match o with Some HPwrDownWfi => <[me := MDown]> md | _ => md end.

Lemma Inv_md_ext md md' g : (forall c, cpu_ok c -> md c = md' c) -> Inv md g -> Inv md' g.
Proof. intros Heq [Hc Hm Hu]. split; [done| |done]. intros c Hok. rewrite <- Heq by done. by apply Hm. Qed.

Lemma psci_abs_Inv hs md me g o g' :
  Inv md g -> cpu_ok me -> md me = MUp -> psci_abs hs me g o g' -> o <> Some HPanic ->
  Inv (mode_after me o md) g'.
Proof.
  intros HI Hme Hup Hstep Hnp.
  destruct Hstep as [|c Hc Ha Hf|L st HL Hst| |L st HL Hst Hoff Hf| |h g' Hh Hp]; cbn; [done| | | | |done|done].
  - by apply pending_view_Inv.
  - pose proof (standby_view_Inv _ _ _ _ _ HI Hme Hup HL Hst) as Hs.
    eapply Inv_md_ext, run_view_Inv; [|exact Hs|done|by rewrite fn_lookup_insert].
    intros c _. destruct (decide (c = me)) as [->|]; [by rewrite fn_lookup_insert|by rewrite !fn_lookup_insert_ne].
  - by apply off_view_Inv.
  - by apply suspend_view_Inv.
Qed.

(** What a call leaves behind. *)
Definition sim (hs : list hook) (me : Z) (g : view) (o : option halt) (s : psci_state P) : Prop :=
  exists g', rep s g' /\ psci_abs hs me g o g'.

Lemma sim_stay hs me g s : rep s g -> sim hs me g None s.
Proof. intros Hr. exists g. split; [done|constructor]. Qed.

Definition refines {A} (hs : list hook) (me : Z) (m : M (psci_state P) A) : Prop :=
  forall md s g, rep s g -> Inv md g -> md me = MUp ->
    wp m (fun _ s' => sim hs me g None s') (fun h s' => sim hs me g (Some h) s') s.

(** ** The handlers refine the abstract machine *)
Lemma wp_validate_mpidr m Q E s :
  (plat_core_pos_by_mpidr m = -1 -> Q PSCI_E_INVALID_PARAMS s) ->
  (cpu_ok (plat_core_pos_by_mpidr m) -> Q PSCI_E_SUCCESS s) ->
  wp (psci_validate_mpidr (P := P) m) Q E s.
Proof.
  intros Hbad Hok. unfold psci_validate_mpidr. wp_step.
  destruct (pc_core_pos m) as [Hm|Hm]; [rewrite Hm; by apply Hbad|].
  destruct (Z.ltb_spec (plat_core_pos_by_mpidr m) 0); [unfold cpu_ok in Hm; lia|by apply Hok].
Qed.

Lemma wp_get_ns_ep_info me e c Q E s g :
  rep s g -> (forall rc ep s', rep s' g -> rc = PSCI_E_SUCCESS \/ rc = PSCI_E_INVALID_ADDRESS -> Q (rc, ep) s') ->
  wp (psci_get_ns_ep_info me e c) Q E s.
Proof.
  intros Hr HQ. unfold psci_get_ns_ep_info. wp_step. eapply wp_plat; [done|apply pc_scr|].
  clear s Hr. intros scr s _ Hr. wp_step. eapply wp_plat; [done|apply pc_sctlr1|].
  clear s Hr. intros sctlr s _ Hr. wp_step.
  assert (Hk : forall v s, rep s g -> wp (let big := truthy (Z.land v SCTLR_EE_BIT) in
     let ee := b2z big in
     let ep_attr := Z.lor (Z.lor NON_SECURE EP_ST_DISABLE) (if big then EP_EE_BIG else 0) in
     if truthy (Z.land scr SCR_RW_BIT) then
       if truthy (Z.land e 1) then ret (PSCI_E_INVALID_ADDRESS, EntryPoint ep_attr e 0 c)
       else let mode := if truthy (Z.land scr SCR_HCE_BIT) then MODE_EL2 else MODE_EL1 in
         ret (PSCI_E_SUCCESS, EntryPoint ep_attr e (SPSR_64 mode MODE_SP_ELX DISABLE_ALL_EXCEPTIONS) c)
     else let mode := if truthy (Z.land scr SCR_HCE_BIT) then MODE32_hyp else MODE32_svc in
       ret (PSCI_E_SUCCESS, EntryPoint ep_attr e (SPSR_MODE32 mode (Z.land e 1) ee DAIF_ABT_IRQ_FIQ) c)) Q E s).
  { intros v s' Hr'. cbv zeta. repeat case_match; wp_step; apply HQ; auto. }
  destruct (truthy (Z.land scr SCR_HCE_BIT)).
  - eapply wp_plat; [done|apply pc_sctlr2|]. intros v s' _ Hr'. by apply Hk.
  - wp_step. by apply Hk.
Qed.

Lemma wp_validate_entry_point me e c Q E s g :
  rep s g ->
  (forall rc ep s', rep s' g -> rc = PSCI_E_SUCCESS \/ rc = PSCI_E_INVALID_ADDRESS ->
     (rc = PSCI_E_SUCCESS -> is_Some ep) -> Q (rc, ep) s') ->
  wp (psci_validate_entry_point me e c) Q E s.
Proof.
  intros Hr HQ. unfold psci_validate_entry_point. wp_step. eapply wp_get_ops; [done|]. wp_step.
  assert (Hk : forall rc s, rep s g ->
    wp (if negb (rc =? PSCI_E_SUCCESS) then ret (PSCI_E_INVALID_ADDRESS, None)
        else let! r := psci_get_ns_ep_info me e c in ret (r.1, Some r.2)) Q E s).
  { clear s Hr. intros rc s Hr. destruct (rc =? PSCI_E_SUCCESS); simpl; wp_step.
    - eapply wp_get_ns_ep_info; [done|]. intros rc' ep s' Hr' Hrc'. wp_step. apply HQ; eauto.
    - apply HQ; [done|by right|done]. }
  destruct (validate_ns_entrypoint the_ops) as [f|] eqn:Hf.
  - eapply wp_call; [done|by eapply (oc_entrypoint _ _ _ pc_ops)|]. intros rc s' _ Hr'. by apply Hk.
  - wp_step. by apply Hk.
Qed.

Lemma cpu_on_refines hs me t e c :
  cpu_ok me -> is_Some (pwr_domain_on the_ops) -> is_Some (pwr_domain_on_finish the_ops) ->
  refines hs me (psci_cpu_on me t e c).
Proof.
  intros Hme Hon Hfin md s g Hr HI Hup. unfold psci_cpu_on. wp_step.
  apply wp_validate_mpidr; intros Hpos; cbn; [wp_step; by apply sim_stay|]. wp_step.
  eapply wp_validate_entry_point; [done|]. clear s Hr. intros rc ep s Hr _ Hep. cbn [fst snd].
  destruct (Z.eqb_spec rc PSCI_E_SUCCESS) as [->|]; cbn [negb]; [|wp_step; by apply sim_stay].
  destruct Hep as [ep' ->]; [done|]. wp_steps. eapply wp_cpu_on_start; [done..|by apply HI|done|done| | | |].
  1-3: intros; by apply sim_stay.
  intros Hoff s' Hr'. exists (pending_view (plat_core_pos_by_mpidr t) g). split; [done|by constructor].
Qed.

Lemma cpu_off_refines hs me : cpu_ok me -> is_Some (pwr_domain_off the_ops) -> refines hs me (psci_cpu_off me).
Proof.
  intros Hme Hoff md s g Hr HI Hup. unfold psci_cpu_off. wp_step.
  eapply wp_do_cpu_off; [done..|apply HI|done| |].
  - intros s' Hr'. wp_step. apply wp_assert; [done|]. wp_step. by apply sim_stay.
  - intros s' Hr'. exists (off_view me g). split; [done|constructor].
Qed.

Lemma suspend_start_refines hs me ep L st pd :
  cpu_ok me -> 0 <= L <= PLAT_MAX_PWR_LVL -> ps_ok st ->
  is_Some (pwr_domain_suspend the_ops) -> is_Some (pwr_domain_suspend_finish the_ops) ->
  (truthy pd = true -> is_Some ep /\ is_local_state_off (st_at st 0) = true) ->
  refines hs me (psci_cpu_suspend_start me ep L st pd).
Proof.
  intros Hme HL Hst Hsus Hfin Hpd md s g Hr HI Hup. unfold psci_cpu_suspend_start. wp_step.
  eapply wp_suspend_enter; [done|done|done|apply HI|done|done|done|intros Ht; by apply Hpd| | |].
  - intros s' Hr'. wp_step. by apply sim_stay.
  - intros _. same_view. wp_step. step_emit.
    eapply wp_standby_finisher; [done..| |done|].
    { apply (inv_unlocked (<[me := MStandby L]> md)). by apply standby_view_Inv. }
    intros s' Hr'. eexists. split; [exact Hr'|by constructor].
  - intros Ht s' Hr'. eexists. split; [exact Hr'|]. constructor; [done..|by apply Hpd|done].
Qed.

Lemma wp_validate_power_state ps st Q E s g :
  rep s g -> Z.of_nat (length st) = PLAT_MAX_PWR_LVL + 1 -> is_Some (validate_power_state the_ops) ->
  (forall st' s', rep s' g -> Q (PSCI_E_INVALID_PARAMS, st') s') ->
  (forall st' s', rep s' g -> ps_ok st' -> suspend_req_ok st' (psci_get_pstate_type ps) ->
     (psci_get_pstate_type ps <> 0 -> is_local_state_off (st_at st' 0) = true) ->
     Q (PSCI_E_SUCCESS, st') s') ->
  (hook_panics HkValidatePowerState -> forall s', rep s' g -> E HPanic s') ->
  wp (psci_validate_power_state ps st) Q E s.
Proof.
  intros Hr Hlen Hval HQ1 HQ2 HE. unfold psci_validate_power_state.
  destruct (truthy (psci_check_power_state ps)); [wp_step; by apply HQ1|]. wp_step.
  eapply wp_get_ops; [done|]. wp_step. apply wp_assert; [by apply bool_decide_eq_true|]. wp_step.
  apply wp_hook_of; [done|]. intros f Hf.
  eapply wp_call_panics; [done|by eapply (oc_validate _ _ _ pc_ops)| |done]. intros [rc st'] s' Hrc Hr'. cbn in Hrc.
  destruct Hrc as [(-> & ?&?&?)| ->]; [by apply HQ2|by apply HQ1].
Qed.

Lemma cpu_suspend_standby_refines hs me st :
  HkCpuStandby ∈ hs -> cpu_ok me -> ps_ok st -> refines hs me (cpu_suspend_standby me st).
Proof.
  intros Hhs Hme [Hlen Hst] md s g Hr HI Hup. pose proof cfg_lvl. pose proof cfg_off_u8.
  pose proof (inv_mode _ _ HI me Hme) as Hm. rewrite Hup in Hm. destruct Hm as (_ & _ & Hcls & _).
  unfold cpu_suspend_standby. wp_step. eapply wp_get_ops; [done|].
  destruct (cpu_standby the_ops) as [f|] eqn:Hf; [|wp_step; by apply sim_stay]. wp_step.
  unfold PSCI_CPU_PWR_LVL. apply wp_ps_get; [lia..|]. wp_step.
  eapply wp_set_cls; [done..|specialize (Hst 0); lia|]. same_view. wp_step. apply wp_no_stat. wp_step.
  eapply wp_call_panics; [done|by eapply (oc_standby _ _ _ pc_ops)| |].
  2:{ intros Hp s' Hr'. exists (with_cls (<[me := st_at st 0]> (v_cls g)) g). split; [done|by eapply abs_panic]. }
  clear s Hr. intros _ s _ Hr. wp_step.
  eapply wp_set_cls; [done..|unfold PSCI_LOCAL_STATE_RUN; lia|]. same_view. wp_step. apply wp_no_stat. wp_step.
  apply sim_stay. eapply rep_proper; [|exact Hr]. split; cbn; intros; try done.
  destruct (decide (c = me)) as [->|]; [by rewrite fn_lookup_insert|by rewrite !fn_lookup_insert_ne].
Qed.

Lemma target_lvl_exists st pd x :
  suspend_req_ok st pd -> highest (fun v => negb (is_local_state_run v)) st PLAT_MAX_PWR_LVL x ->
  0 <= x <= PLAT_MAX_PWR_LVL.
Proof.
  intros ((l & Hl & Hne) & _) [[_ Hno]|[Hx _]]; [|done]. specialize (Hno l Hl).
  unfold is_local_state_run in Hno. by apply negb_false_iff, Z.eqb_eq in Hno.
Qed.

Lemma cpu_suspend_refines hs me ps e c :
  HkCpuStandby ∈ hs -> HkValidatePowerState ∈ hs ->
  cpu_ok me -> is_Some (pwr_domain_suspend the_ops) -> is_Some (pwr_domain_suspend_finish the_ops) ->
  refines hs me (psci_cpu_suspend me ps e c).
Proof.
  intros Hh1 Hh2 Hme Hsus Hfin md s g Hr HI Hup. pose proof cfg_lvl. unfold psci_cpu_suspend. wp_step.
  eapply wp_validate_power_state; [done|rewrite length_replicate; lia|by apply (oc_has_validate _ _ _ pc_ops)| | |].
  3:{ intros Hp s' Hr'. exists g. split; [done|by eapply abs_panic]. }
  { clear s Hr. intros st s Hr. cbn [fst snd Z.eqb negb PSCI_E_INVALID_PARAMS PSCI_E_SUCCESS]. wp_step.
    apply wp_assert; [done|]. wp_step. by apply sim_stay. }
  clear s Hr. intros st s Hr Hst Hreq Hoff. cbn [fst snd Z.eqb negb PSCI_E_SUCCESS]. wp_step.
  assert (Hk : wp (let! target_pwrlvl := psci_find_target_suspend_lvl st in
    if target_pwrlvl =? PSCI_INVALID_PWR_LVL then panic
    else if is_cpu_standby_req (psci_get_pstate_type ps) target_pwrlvl then cpu_suspend_standby me st
    else let! e := (if truthy (psci_get_pstate_type ps) then psci_validate_entry_point me e c
                    else ret (PSCI_E_SUCCESS, None)) in
      if negb (e.1 =? PSCI_E_SUCCESS) then ret e.1
      else psci_cpu_suspend_start me e.2 target_pwrlvl st (psci_get_pstate_type ps) ;;; ret PSCI_E_SUCCESS)
    (fun _ s' => sim hs me g None s') (fun h s' => sim hs me g (Some h) s') s).
  { wp_step. apply wp_find_target_suspend_lvl; [apply Hst|]. intros tl Htl.
    pose proof (target_lvl_exists _ _ _ Hreq Htl) as Hrange.
    destruct (Z.eqb_spec tl PSCI_INVALID_PWR_LVL); [unfold PSCI_INVALID_PWR_LVL in *; lia|].
    destruct (is_cpu_standby_req _ _); [by eapply cpu_suspend_standby_refines|]. wp_step.
    assert (Hstart : forall s ep, rep s g -> (truthy (psci_get_pstate_type ps) = true -> is_Some ep) ->
      wp (psci_cpu_suspend_start me ep tl st (psci_get_pstate_type ps) ;;; ret PSCI_E_SUCCESS)
        (fun _ s' => sim hs me g None s') (fun h s' => sim hs me g (Some h) s') s).
    { clear s Hr. intros s ep Hr Hep. wp_step. eapply wp_mono; [eapply (suspend_start_refines hs); try done| |done].
      - intros Ht. split; [auto|]. apply Hoff. intros H0'. by rewrite H0' in Ht.
      - intros a s' Hs. by wp_step. }
    destruct (truthy (psci_get_pstate_type ps)) eqn:Hpd.
    - eapply wp_validate_entry_point; [done|]. clear s Hr. intros rc ep s Hr _ Hep. cbn [fst snd].
      destruct (Z.eqb_spec rc PSCI_E_SUCCESS) as [->|]; cbn [negb]; [|wp_step; by apply sim_stay]. apply Hstart; auto.
    - wp_step. cbn [fst snd Z.eqb negb PSCI_E_SUCCESS]. by apply Hstart. }
  apply wp_when; intros _; [|done]. wp_step. apply wp_validate_suspend_req; [done|].
  intros rc [[-> _]|[_ Hbad]]; [|done]. by apply wp_assert.
Qed.

(** ** SYSTEM_SUSPEND *)
Definition others_off (g : view) (me : Z) : Prop :=
  forall c, cpu_ok c -> c <> me -> v_aff g c = AFF_STATE_OFF.

Lemma wp_last_on_cpu_loop me idxs (Q : Z -> psci_state P -> Prop) E s g :
  rep s g -> cpu_ok me -> v_aff g me = AFF_STATE_ON -> Forall cpu_ok idxs ->
  (forall r, (r = 1 /\ Forall (fun c => c <> me -> v_aff g c = AFF_STATE_OFF) idxs) \/
             (r = 0 /\ ~ Forall (fun c => c <> me -> v_aff g c = AFF_STATE_OFF) idxs) -> Q r s) ->
  wp (last_on_cpu_loop me idxs) Q E s.
Proof.
  intros Hr Hme Hon. induction idxs as [|c idxs IH]; intros Hall HQ; simpl.
  { wp_step. apply HQ. by left. }
  apply Forall_cons_iff in Hall as [Hc Hall]. destruct (Z.eqb_spec c me) as [->|Hne].
  - wp_step. eapply wp_get_aff; [done..|]. wp_step. apply wp_assert; [by apply bool_decide_eq_true|].
    apply IH; [done|]. intros r Hcase. apply HQ. rewrite Forall_cons_iff. intuition congruence.
  - wp_step. eapply wp_get_aff; [done..|]. destruct (decide (v_aff g c = AFF_STATE_OFF)) as [Ha|Ha].
    + apply IH; [done|]. intros r Hcase. apply HQ. rewrite Forall_cons_iff. intuition congruence.
    + wp_step. apply HQ. right. rewrite Forall_cons_iff. intuition congruence.
Qed.

Lemma wp_is_last_on_cpu me (Q : Z -> psci_state P -> Prop) E s g :
  rep s g -> cpu_ok me -> v_aff g me = AFF_STATE_ON ->
  (forall r, (r = 1 /\ others_off g me) \/ (r = 0 /\ ~ others_off g me) -> Q r s) ->
  wp (psci_is_last_on_cpu me) Q E s.
Proof.
  intros Hr Hme Hon HQ. unfold psci_is_last_on_cpu. eapply wp_last_on_cpu_loop; [done..| |].
  - apply list.Forall_forall. intros c Hc%elem_of_seqZ. unfold cpu_ok. lia.
  - intros r Hcase. apply HQ. unfold others_off. rewrite list.Forall_forall in Hcase.
    setoid_rewrite elem_of_seqZ in Hcase. unfold cpu_ok.
    destruct Hcase as [[-> Hx]|[-> Hx]]; [left|right]; (split; [done|]).
    + intros c Hc. apply Hx. lia.
    + intros Hy. apply Hx. intros c Hc. apply Hy. lia.
Qed.

Lemma all_off_req_ok st :
  (forall lvl, 0 <= lvl <= PLAT_MAX_PWR_LVL -> is_local_state_off (st_at st lvl) = true) ->
  suspend_req_ok st PSTATE_TYPE_POWERDOWN.
Proof.
  intros Hoff. pose proof cfg_lvl. split_and!; [| |done].
  - exists 0. split; [lia|]. specialize (Hoff 0 ltac:(lia)). pose proof cfg_states.
    unfold is_local_state_off, PSCI_LOCAL_STATE_RUN in *. lia.
  - assert (Ht : forall l, 0 <= l <= PLAT_MAX_PWR_LVL -> find_local_state_type (st_at st l) = STATE_TYPE_OFF).
    { intros l Hl. specialize (Hoff l Hl). pose proof cfg_states. unfold find_local_state_type, is_local_state_off, truthy in *.
      destruct (Z.eqb_spec (st_at st l) 0), (Z.ltb_spec PLAT_MAX_RET_STATE (st_at st l)); simpl in *; done || lia. }
    intros l l' Hl Hl'. rewrite !Ht by lia. done.
Qed.

Lemma system_suspend_refines hs me e c :
  cpu_ok me -> is_Some (pwr_domain_suspend the_ops) -> is_Some (pwr_domain_suspend_finish the_ops) ->
  is_Some (get_sys_suspend_power_state the_ops) -> refines hs me (psci_system_suspend me e c).
Proof.
  intros Hme Hsus Hfin Hsys md s g Hr HI Hup. pose proof cfg_lvl.
  pose proof (inv_mode _ _ HI me Hme) as Hm. rewrite Hup in Hm. destruct Hm as (Hon & _).
  unfold psci_system_suspend. wp_step. eapply wp_is_last_on_cpu; [done..|].
  intros r [[-> _]|[-> _]]; cbn [truthy Z.eqb negb]; [|wp_step; by apply sim_stay]. wp_step.
  eapply wp_validate_entry_point; [done|]. clear s Hr. intros rc ep s Hr _ Hep. cbn [fst snd].
  destruct (Z.eqb_spec rc PSCI_E_SUCCESS) as [->|]; cbn [negb]; [|wp_step; by apply sim_stay]. wp_step.
  unfold psci_query_sys_suspend_pwrstate. wp_step. eapply wp_get_ops; [done|]. wp_step.
  apply wp_assert; [by apply bool_decide_eq_true|]. wp_step. apply wp_hook_of; [done|]. intros f Hf.
  eapply wp_call; [done|by eapply (oc_sys_suspend _ _ _ pc_ops)|]. clear s Hr. intros st s [Hst Hoff] Hr. wp_step.
  assert (Hk : wp (psci_cpu_suspend_start me ep PLAT_MAX_PWR_LVL st PSTATE_TYPE_POWERDOWN ;;; ret PSCI_E_SUCCESS)
    (fun _ s' => sim hs me g None s') (fun h s' => sim hs me g (Some h) s') s).
  { wp_step. eapply wp_mono; [eapply (suspend_start_refines hs); try done| |done].
    - lia.
    - intros _. split; [auto|]. apply Hoff. lia.
    - intros a s' Hs. by wp_step. }
  apply wp_when; intros _; [|done]. wp_step. apply wp_find_target_suspend_lvl; [apply Hst|]. intros tl Htl. wp_step.
  apply wp_assert.
  { assert (Ho : is_local_state_off (st_at st PLAT_MAX_PWR_LVL) = true) by (apply Hoff; lia).
    apply off_not_run in Ho. apply Z.eqb_eq.
    destruct Htl as [[_ Hno]|(Hx & _ & Hab)]; [by rewrite Hno in Ho by lia|].
    destruct (decide (tl = PLAT_MAX_PWR_LVL)); [done|]. rewrite Hab in Ho by lia. done. }
  wp_step. apply wp_validate_suspend_req; [done|]. intros rc [[-> _]|[_ Hbad]]; [|by destruct Hbad; apply all_off_req_ok].
  wp_step. apply wp_assert; [done|]. wp_step. apply wp_ps_get; [apply Hst|lia|]. apply wp_assert; [apply Hoff; lia|done].
Qed.

(** ** Calls that leave the tables alone *)
Lemma affinity_info_refines hs me t l : refines hs me (psci_affinity_info t l).
Proof.
  intros md s g Hr HI Hup. unfold psci_affinity_info.
  destruct (PSCI_CPU_PWR_LVL <? l); [wp_step; by apply sim_stay|].
  destruct (Z.eqb_spec (plat_core_pos_by_mpidr t) (-1)); [wp_step; by apply sim_stay|].
  destruct (pc_core_pos t) as [|Hc]; [done|]. wp_step. step_emit. wp_step.
  eapply wp_get_aff; [done..|]. wp_step. by apply sim_stay.
Qed.

Lemma wp_migrate_info Q E s g :
  rep s g ->
  (forall r s', rep s' g -> (r.1 = PSCI_TOS_UP_MIG_CAP \/ r.1 = PSCI_TOS_NOT_UP_MIG_CAP -> is_Some r.2) -> Q r s') ->
  wp psci_spd_migrate_info Q E s.
Proof.
  intros Hr HQ. unfold psci_spd_migrate_info. wp_step. eapply wp_spd_hook; [done|]. intros r Hspd.
  destruct r as [f|]; [|wp_step; apply HQ; [done|by intros [|]]].
  destruct (Hspd f eq_refl) as (pm & Hpm & Hf). wp_step.
  eapply wp_call; [done|eapply sc_migrate_info; [by apply pc_spd|done]|]. intros r s' Hrc Hr'. wp_step.
  apply wp_assert.
  { destruct Hrc as [->|[->|[->| ->]]]; done. }
  wp_step. apply HQ; [done|]. cbn. eauto.
Qed.

Lemma migrate_refines hs me t :
  (exists pm, the_spd = Some pm /\ is_Some (svc_migrate pm)) -> refines hs me (psci_migrate me t).
Proof.
  intros (pm & Hpm & Hmig) md s g Hr HI Hup. unfold psci_migrate. wp_step. eapply wp_migrate_info; [done|].
  clear s Hr. intros r s Hr Hres. destruct (Z.eqb_spec r.1 PSCI_TOS_UP_MIG_CAP) as [He|]; cbn [negb];
    [|wp_step; by apply sim_stay].
  destruct (Hres (or_introl He)) as [v Hv]. rewrite Hv. wp_steps.
  destruct (negb (v =? read_mpidr me)); [wp_step; by apply sim_stay|]. wp_step.
  apply wp_validate_mpidr; intros Hpos; cbn; [wp_step; by apply sim_stay|]. wp_step.
  unfold spd_hook. wp_steps. rewrite (rep_spd _ _ Hr), Hpm. wp_steps.
  apply wp_assert; [by apply bool_decide_eq_true|]. wp_step. apply wp_hook_of; [done|]. intros f Hf. wp_step.
  eapply wp_call; [done|eapply sc_migrate; [by apply pc_spd|done]|]. clear s Hr. intros rc s Hrc Hr. wp_step.
  apply wp_assert; [by destruct Hrc as [->| ->]|]. wp_step. by apply sim_stay.
Qed.

Lemma migrate_info_refines hs me : refines hs me psci_migrate_info_type /\ refines hs me psci_migrate_info_up_cpu.
Proof.
  split; intros md s g Hr HI Hup.
  - unfold psci_migrate_info_type. wp_step. eapply wp_migrate_info; [done|]. intros r s' Hr' _. wp_step. by apply sim_stay.
  - unfold psci_migrate_info_up_cpu. wp_step. eapply wp_migrate_info; [done|]. intros r s' Hr' Hres.
    destruct (negb _ && negb _) eqn:Hb; [wp_step; by apply sim_stay|].
    destruct Hres as [v Hv].
    { apply andb_false_iff in Hb as [Hb%negb_false_iff%Z.eqb_eq|Hb%negb_false_iff%Z.eqb_eq]; auto. }
    rewrite Hv. wp_steps. by apply sim_stay.
Qed.

Lemma node_hw_state_refines hs me t l :
  is_Some (get_node_hw_state the_ops) -> refines hs me (psci_node_hw_state t l).
Proof.
  intros Hhw md s g Hr HI Hup. unfold psci_node_hw_state. wp_step.
  apply wp_validate_mpidr; intros Hpos; cbn; [wp_step; by apply sim_stay|].
  destruct (PLAT_MAX_PWR_LVL <? l); [wp_step; by apply sim_stay|]. wp_step. eapply wp_get_ops; [done|]. wp_step.
  apply wp_assert; [by apply bool_decide_eq_true|]. wp_step. apply wp_hook_of; [done|]. intros f Hf. wp_step.
  eapply wp_call; [done|by eapply (oc_hw_state _ _ _ pc_ops)|]. clear s Hr. intros rc s Hrc Hr. wp_step.
  apply wp_assert.
  { unfold HW_ON, HW_STANDBY. destruct Hrc as [Hrc|[->| ->]]; [|done..].
    destruct (Z.leb_spec 0 rc), (Z.leb_spec rc 2); done || lia. }
  wp_step. by apply sim_stay.
Qed.

Lemma features_refines hs me f : refines hs me (psci_features f).
Proof. intros md s g Hr HI Hup. unfold psci_features. wp_steps. by apply sim_stay. Qed.

Lemma system_off_refines hs me :
  HkSystemOff ∈ hs -> is_Some (PsciDefs.system_off the_ops) -> refines hs me PsciPower.psci_system_off.
Proof.
  intros Hhs Hoff md s g Hr HI Hup. unfold PsciPower.psci_system_off, psci_print_power_domain_map. wp_step. step_emit. wp_step.
  eapply wp_get_ops; [done|]. wp_step. apply wp_assert; [by apply bool_decide_eq_true|]. wp_step.
  eapply wp_call_spd0; [done|intros; eapply sc_system_off; [by apply pc_spd|done]|]. same_view. wp_step. step_emit. wp_step.
  apply wp_hook_of; [done|]. intros f Hf. eapply wp_call_ends_panics; [done|by eapply (oc_system_off _ _ _ pc_ops)|..].
  - intros s' Hr'. exists g. split; [done|constructor].
  - intros Hp s' Hr'. exists g. split; [done|by eapply abs_panic].
Qed.

Lemma system_reset_refines hs me : is_Some (PsciDefs.system_reset the_ops) -> refines hs me PsciPower.psci_system_reset.
Proof.
  intros Hoff md s g Hr HI Hup. unfold PsciPower.psci_system_reset, psci_print_power_domain_map. wp_step. step_emit. wp_step.
  eapply wp_get_ops; [done|]. wp_step. apply wp_assert; [by apply bool_decide_eq_true|]. wp_step.
  eapply wp_call_spd0; [done|intros; eapply sc_system_reset; [by apply pc_spd|done]|]. same_view. wp_step. step_emit. wp_step.
  apply wp_hook_of; [done|]. intros f Hf. eapply wp_call_ends; [done|by eapply (oc_system_reset _ _ _ pc_ops)|].
  intros s' Hr'. exists g. split; [done|constructor].
Qed.

Lemma system_reset2_refines hs me t c : is_Some (PsciDefs.system_reset2 the_ops) -> refines hs me (psci_system_reset2 t c).
Proof.
  intros Hres md s g Hr HI Hup. unfold psci_system_reset2, psci_print_power_domain_map. wp_step. step_emit. wp_step.
  eapply wp_get_ops; [done|]. wp_step. apply wp_assert; [by apply bool_decide_eq_true|]. cbv zeta.
  set (v := Z.land (Z.shiftr t PSCI_RESET2_TYPE_VENDOR_SHIFT) 1).
  assert (Hk : forall early s, rep s g ->
    wp (match early with
        | Some rc => ret rc
        | None => call_spd0 HkSpdSystemReset svc_system_reset ;;; emit EvConsoleFlush ;;;
            let! f := hook_of (PsciDefs.system_reset2 the_ops) in
            call HkSystemReset2 [v; t; c] (f v t c)
        end) (fun _ s' => sim hs me g None s') (fun h s' => sim hs me g (Some h) s') s).
  { clear s Hr. intros [rc|] s Hr; [wp_step; by apply sim_stay|]. wp_step.
    eapply wp_call_spd0; [done|intros; eapply sc_system_reset; [by apply pc_spd|done]|]. same_view. wp_step. step_emit.
    wp_step. apply wp_hook_of; [done|]. intros f Hf. unfold call. wp_step. step_emit. unfold plat.
    apply wp_zoom. eapply wp_mono; [eapply (oc_reset2 _ _ _ pc_ops), Hr; done|..].
    - intros rc p' Hp. apply sim_stay. destruct s. by destruct Hr; split.
    - intros h p' [-> Hp]. exists g. split; [destruct s; by destruct Hr; split|constructor]. }
  wp_step. destruct (truthy v); [wp_step; by apply (Hk None)|].
  destruct (negb (t =? PSCI_RESET2_SYSTEM_WARM_RESET)); [wp_step; by apply (Hk (Some _))|].
  destruct (write_mem_protect the_ops) as [f|] eqn:Hf; [|wp_step; by apply (Hk None)]. wp_step.
  eapply wp_call; [done|by eapply (oc_mem_write _ _ _ pc_ops)|]. intros r s' _ Hr'. wp_step. by apply Hk.
Qed.

Lemma mem_protect_refines hs me v :
  is_Some (read_mem_protect the_ops) -> is_Some (write_mem_protect the_ops) -> refines hs me (psci_mem_protect v).
Proof.
  intros Hrd Hwr md s g Hr HI Hup. unfold psci_mem_protect. wp_step. eapply wp_get_ops; [done|]. wp_step.
  apply wp_assert; [by apply bool_decide_eq_true|]. wp_step. apply wp_assert; [by apply bool_decide_eq_true|]. wp_step.
  apply wp_hook_of; [done|]. intros f Hf. wp_step. eapply wp_call; [done|by eapply (oc_mem_read _ _ _ pc_ops)|].
  clear s Hr. intros r s _ Hr. destruct (r.1 <? 0); [wp_step; by apply sim_stay|]. wp_step.
  apply wp_hook_of; [done|]. intros k Hk. wp_step. eapply wp_call; [done|by eapply (oc_mem_write _ _ _ pc_ops)|].
  clear s Hr. intros w s _ Hr. destruct (w <? 0); wp_step; by apply sim_stay.
Qed.

Lemma mem_chk_range_refines hs me b l : is_Some (mem_protect_chk the_ops) -> refines hs me (psci_mem_chk_range b l).
Proof.
  intros Hchk md s g Hr HI Hup. unfold psci_mem_chk_range. wp_step. eapply wp_get_ops; [done|]. wp_step.
  apply wp_assert; [by apply bool_decide_eq_true|]. destruct (_ || _); [wp_step; by apply sim_stay|]. wp_step.
  apply wp_hook_of; [done|]. intros f Hf. wp_step. eapply wp_call; [done|by eapply (oc_mem_chk _ _ _ pc_ops)|].
  clear s Hr. intros r s _ Hr. wp_step. by apply sim_stay.
Qed.

(** ** The dispatcher *)
Lemma refines_map {A B} hs me (m : M (psci_state P) A) (f : A -> B) :
  refines hs me m -> refines hs me (let! v := m in ret (f v)).
Proof. intros Hm md s g Hr HI Hup. wp_step. eapply wp_mono; [by eapply Hm| |done]. intros a s' Hs. by wp_step. Qed.

Lemma refines_ret {A} hs me (a : A) : refines hs me (ret a).
Proof. intros md s g Hr HI Hup. wp_step. by apply sim_stay. Qed.

(** The hooks behind an identifier that a port may leave unimplemented. *)
Definition smc_hooks (fid : Z) : list hook :=
  if (fid =? PSCI_CPU_SUSPEND_AARCH32) || (fid =? PSCI_CPU_SUSPEND_AARCH64)
  then [HkCpuStandby; HkValidatePowerState]
  else if fid =? PSCI_SYSTEM_OFF then [HkSystemOff] else [].

(** A call is only made when the capability bit of its identifier is set. *)
Lemma smc32_refines caps me fid x1 x2 x3 :
  cpu_ok me -> caps_ok the_ops the_spd caps -> has_cap caps fid = true ->
  refines (smc_hooks fid) me (smc32_call me fid x1 x2 x3).
Proof.
  intros Hme Hcaps Hcap. unfold smc32_call. rewrite pc_no_stat. cbn [andb].
  repeat match goal with |- refines _ _ (if ?a =? ?b then _ else _) => destruct (Z.eqb_spec a b) as [->|] end;
    try apply refines_map; try apply refines_ret.
  - by apply cpu_off_refines, (cc_off _ _ _ Hcaps).
  - apply cpu_suspend_refines; [set_solver|set_solver|done|by apply (cc_suspend _ _ _ Hcaps)..].
  - by apply cpu_on_refines; [|apply (cc_on _ _ _ Hcaps)..].
  - apply affinity_info_refines.
  - by apply migrate_refines, (cc_migrate _ _ _ Hcaps).
  - apply migrate_info_refines.
  - apply migrate_info_refines.
  - by apply node_hw_state_refines, (cc_hw_state _ _ _ Hcaps).
  - by apply system_suspend_refines; [|apply (cc_sys_suspend _ _ _ Hcaps)..].
  - apply system_off_refines; [set_solver|by apply (cc_system_off _ _ _ Hcaps)].
  - by apply system_reset_refines, (cc_system_reset _ _ _ Hcaps).
  - apply features_refines.
  - by apply mem_protect_refines; apply (cc_mem_protect _ _ _ Hcaps).
  - by apply mem_chk_range_refines, (cc_mem_chk _ _ _ Hcaps).
  - by apply system_reset2_refines, (cc_reset2 _ _ _ Hcaps).
Qed.

Lemma smc64_refines caps me fid x1 x2 x3 :
  cpu_ok me -> caps_ok the_ops the_spd caps -> has_cap caps fid = true ->
  refines (smc_hooks fid) me (smc64_call me fid x1 x2 x3).
Proof.
  intros Hme Hcaps Hcap. unfold smc64_call. rewrite pc_no_stat. cbn [andb].
  repeat match goal with |- refines _ _ (if ?a =? ?b then _ else _) => destruct (Z.eqb_spec a b) as [->|] end;
    try apply refines_map; try apply refines_ret.
  - apply cpu_suspend_refines; [set_solver|set_solver|done|by apply (cc_suspend _ _ _ Hcaps)..].
  - by apply cpu_on_refines; [|apply (cc_on _ _ _ Hcaps)..].
  - apply affinity_info_refines.
  - by apply migrate_refines, (cc_migrate _ _ _ Hcaps).
  - apply migrate_info_refines.
  - by apply node_hw_state_refines, (cc_hw_state _ _ _ Hcaps).
  - by apply system_suspend_refines; [|apply (cc_sys_suspend _ _ _ Hcaps)..].
  - by apply mem_chk_range_refines, (cc_mem_chk _ _ _ Hcaps).
  - by apply system_reset2_refines, (cc_reset2 _ _ _ Hcaps).
Qed.

Lemma smc_handler_refines me fid x1 x2 x3 flags :
  cpu_ok me -> refines (smc_hooks fid) me (psci_smc_handler me fid x1 x2 x3 flags).
Proof.
  intros Hme md s g Hr HI Hup. unfold psci_smc_handler.
  destruct (is_caller_secure flags); [wp_step; by apply sim_stay|]. wp_steps. fold (has_cap (psci_caps s) fid).
  destruct (has_cap (psci_caps s) fid) eqn:Hcap; cbn [negb]; [|wp_step; by apply sim_stay].
  pose proof (rep_caps _ _ Hr) as Hcaps.
  eapply (refines_map _ me _ (fun r => u64 (match r with Some v => v | None => SMC_UNK end))); [|done..].
  destruct (_ =? SMC_32); [by eapply smc32_refines|by eapply smc64_refines].
Qed.
End smc.
#[export] Hint Resolve sim_stay : fw.
