(* ===== verification/PsciSystem.v ===== *)
(** * PSCI: the system of CPUs

    CPUs call PSCI by SMC, wait in a standby state and come back, or lose
    power and enter again at the warm boot entry point.  A step of the system
    is one of these activities of one CPU; the calls of different CPUs
    interleave in any order, also between the entry into and the exit from a
    standby state.  (Within one call, the tables are only changed under the
    locks of the domains concerned, so a call is one step.)

    The environment promises that only a CPU that was asked to start, or that
    suspended, comes out of reset. *)
From Stdlib Require Import ZArith Lia.
From stdpp Require Import base sets list numbers option functions.
From S2P Require Import Prelude PsciDefs PsciCommon PsciSetup PsciStat PsciPower PsciMain PsciSpec PsciCoord PsciWalk PsciInv PsciHandlers PsciSmc.
#[local] Open Scope Z_scope.

Section system.
Context `{PlatCfg, !PlatCfgOk} {P : Type} `{!Topo, !TopoOk, !PlatEnv P, !PlatContract P}.
Implicit Types (s : psci_state P) (g : view) (md : Z -> mode).

Definition system : Type := psci_state P * (Z -> mode).

Definition aff_of (s : psci_state P) (c : Z) : option aff_info_state_t := aff_info_state <$> arr_get (percpu_data s) c.

Inductive sys_step : system -> system -> Prop :=
| step_call s md c fid x1 x2 x3 flags v s' :
    cpu_ok c -> md c = MUp -> psci_smc_handler c fid x1 x2 x3 flags s = Ret v s' ->
    sys_step (s, md) (s', md)
| step_power_down s md c fid x1 x2 x3 flags s' :
    cpu_ok c -> md c = MUp -> psci_smc_handler c fid x1 x2 x3 flags s = Halt HPwrDownWfi s' ->
    sys_step (s, md) (s', <[c := MDown]> md)
| step_standby_enter s md c L st s' :
    cpu_ok c -> md c = MUp -> 0 <= L <= PLAT_MAX_PWR_LVL -> ps_ok st -> suspend_req_ok st 0 ->
    is_Some (pwr_domain_suspend the_ops) -> is_Some (pwr_domain_suspend_finish the_ops) ->
    suspend_enter c None L st 0 s = Ret false s' ->
    sys_step (s, md) (s', <[c := MStandby L]> md)
| step_standby_exit s md c L s' :
    cpu_ok c -> md c = MStandby L -> is_Some (pwr_domain_suspend_finish the_ops) ->
    psci_suspend_to_standby_finisher c c L s = Ret tt s' ->
    sys_step (s, md) (s', <[c := MUp]> md)
| step_warm_boot s md c s' :
    cpu_ok c -> md c = MDown -> aff_of s c <> Some AFF_STATE_OFF ->
    psci_warmboot_entrypoint c s = Ret tt s' ->
    sys_step (s, md) (s', <[c := MUp]> md).

(** The invariant of the system. *)
Definition sys_inv (x : system) : Prop := exists g, rep x.1 g /\ Inv x.2 g.

Lemma aff_of_rep s g c : rep s g -> cpu_ok c -> aff_of s c = Some (v_aff g c).
Proof. intros Hr Hc. unfold aff_of. by rewrite (rep_percpu _ _ Hr c Hc). Qed.

Lemma wp_ret_inv {A} (m : M (psci_state P) A) Q E s a s' : wp m Q E s -> m s = Ret a s' -> Q a s'.
Proof. intros Hw Hrun. apply wp_unfold in Hw. by rewrite Hrun in Hw. Qed.

Lemma wp_halt_inv {A} (m : M (psci_state P) A) Q E s h s' : wp m Q E s -> m s = Halt h s' -> E h s'.
Proof. intros Hw Hrun. apply wp_unfold in Hw. by rewrite Hrun in Hw. Qed.

Lemma sys_step_inv x y : sys_inv x -> sys_step x y -> sys_inv y.
Proof.
  intros (g & Hr & HI) Hstep.
  destruct Hstep as [s md c fid x1 x2 x3 flags v s' Hc Hm Hrun|s md c fid x1 x2 x3 flags s' Hc Hm Hrun
    |s md c L st s' Hc Hm HL Hst Hreq Hsus Hfin Hrun|s md c L s' Hc Hm Hfin Hrun|s md c s' Hc Hm Ha Hrun];
    cbn [fst snd] in *.
  - destruct (wp_ret_inv _ _ _ _ _ _ (smc_handler_refines c fid x1 x2 x3 flags Hc md s g Hr HI Hm) Hrun)
      as (g' & Hr' & Habs).
    exists g'. split; [done|]. by eapply (psci_abs_Inv _ md c g None).
  - destruct (wp_halt_inv _ _ _ _ _ _ (smc_handler_refines c fid x1 x2 x3 flags Hc md s g Hr HI Hm) Hrun)
      as (g' & Hr' & Habs).
    exists g'. split; [done|]. by eapply (psci_abs_Inv _ md c g (Some HPwrDownWfi)).
  - assert (Hw : wp (suspend_enter c None L st 0)
      (fun b s' => b = false -> rep s' (coord_view c L st g)) (fun _ _ => True) s).
    { eapply wp_suspend_enter; try done. apply HI. }
    exists (coord_view c L st g). split; [by apply (wp_ret_inv _ _ _ _ _ _ Hw Hrun)|by apply standby_view_Inv].
  - pose proof (inv_mode _ _ HI c Hc) as Hmd. rewrite Hm in Hmd. destruct Hmd as (_ & _ & HL & _).
    assert (Hw : wp (psci_suspend_to_standby_finisher c c L)
      (fun _ s' => rep s' (run_view c L g)) (fun _ _ => True) s).
    { eapply wp_standby_finisher; try done. apply HI. }
    exists (run_view c L g). split; [by apply (wp_ret_inv _ _ _ _ _ _ Hw Hrun)|by apply run_view_Inv].
  - rewrite (aff_of_rep _ _ _ Hr Hc) in Ha.
    assert (Hw : wp (psci_warmboot_entrypoint c) (fun _ s' => rep s' (warm_view c g)) (fun _ _ => True) s).
    { eapply wp_warmboot; try done. congruence. }
    exists (warm_view c g). split; [by apply (wp_ret_inv _ _ _ _ _ _ Hw Hrun)|by apply warm_view_Inv].
Qed.

Lemma reachable_inv x y : sys_inv x -> star sys_step x y -> sys_inv y.
Proof. intros Hx Hs. eapply star_invariant; [done|done|]. intros a b. apply sys_step_inv. Qed.
End system.
