(* ===== verification/A3700Hw.v ===== *)
(** * Armada 3700: register access (include/lib/mmio.h) and the hardware behind it

    Firmware sees the SoC as 32-bit registers.  [a3700_hw] is the part of the
    hardware the modelled code observes: the value of each register (and of
    the words of the mailbox in shared RAM), the number of polls after which
    the DRAM write buffer reports empty, and a log of register writes and of
    calls into the drivers that are not modelled (interrupt controller,
    interconnect, cache maintenance), newest first.

    Behaviour of the hardware used here: a plain register holds the value last
    written; the interrupt status registers are write-one-to-clear; writing
    the magic value to the warm reset register resets the system; the write
    buffer drains after finitely many polls. *)
From stdpp Require Import base list numbers option gmap.
From Stdlib Require Import ZArith Lia.
From S2P Require Import Prelude.
#[local] Open Scope Z_scope.

(** ** Register map (a3700_plat_def.h, plat_pm.c) *)
Definition MVEBU_REGS_BASE : Z := 0xD0000000.
Definition MVEBU_NB_REGS_BASE : Z := MVEBU_REGS_BASE + 0x13000.
Definition MVEBU_SB_REGS_BASE : Z := MVEBU_REGS_BASE + 0x18000.
Definition MVEBU_NB_GPIO_REG_BASE : Z := MVEBU_NB_REGS_BASE + 0x800.
Definition MVEBU_NB_GPIO_IRQ_REG_BASE : Z := MVEBU_NB_REGS_BASE + 0xC00.
Definition MVEBU_SB_GPIO_IRQ_REG_BASE : Z := MVEBU_SB_REGS_BASE + 0xC00.
Definition MVEBU_NB_SB_IRQ_REG_BASE : Z := MVEBU_REGS_BASE + 0x8A00.
Definition MVEBU_DRAM_REG_BASE : Z := MVEBU_REGS_BASE.
Definition MVEBU_SB_WAKEUP_REG_BASE : Z := MVEBU_REGS_BASE + 0x19000.
Definition MVEBU_PMSU_REG_BASE : Z := MVEBU_REGS_BASE + 0x14000.
Definition MVEBU_NB_STEP_DOWN_REG_BASE : Z := MVEBU_REGS_BASE + 0x12800.
Definition MVEBU_CPU_DEC_WIN_REG_BASE : Z := MVEBU_REGS_BASE + 0xCF00.
Definition MVEBU_AVS_REG_BASE : Z := MVEBU_REGS_BASE + 0x11500.

Definition MVEBU_WARM_RESET_REG : Z := MVEBU_NB_REGS_BASE + 0x840.
Definition MVEBU_WARM_RESET_MAGIC : Z := 0x1D1E.
Definition MVEBU_NB_IRQ_STATUS_1_REG : Z := MVEBU_NB_SB_IRQ_REG_BASE.
Definition MVEBU_NB_IRQ_STATUS_2_REG : Z := MVEBU_NB_SB_IRQ_REG_BASE + 0x10.
Definition MVEBU_SB_IRQ_STATUS_1_REG : Z := MVEBU_NB_SB_IRQ_REG_BASE + 0x40.
Definition MVEBU_SB_IRQ_STATUS_2_REG : Z := MVEBU_NB_SB_IRQ_REG_BASE + 0x50.
Definition MVEBU_NB_GPIO_IRQ_STATUS_LOW_REG : Z := MVEBU_NB_GPIO_IRQ_REG_BASE + 0x10.
Definition MVEBU_NB_GPIO_IRQ_STATUS_HIGH_REG : Z := MVEBU_NB_GPIO_IRQ_REG_BASE + 0x14.
Definition MVEBU_SB_GPIO_IRQ_STATUS_REG : Z := MVEBU_SB_GPIO_IRQ_REG_BASE + 0x10.
Definition MVEBU_DRAM_STATS_CH0_REG : Z := MVEBU_DRAM_REG_BASE + 0x4.
Definition MVEBU_DRAM_WCP_EMPTY : Z := BIT 19.

Definition irq_status_regs : list Z :=
  [MVEBU_NB_IRQ_STATUS_1_REG; MVEBU_NB_IRQ_STATUS_2_REG; MVEBU_SB_IRQ_STATUS_1_REG;
   MVEBU_SB_IRQ_STATUS_2_REG; MVEBU_NB_GPIO_IRQ_STATUS_LOW_REG;
   MVEBU_NB_GPIO_IRQ_STATUS_HIGH_REG; MVEBU_SB_GPIO_IRQ_STATUS_REG].

(** ** Hardware state *)
Inductive dev_call : Type :=
| GicCpuifDisable | GicCpuifEnable | GicIrqSave | GicIrqRestore | GicInit | GicPcpuInit
| GicIrqPcpuRestore | InterconnectInit | InterconnectEnterCoherency | Dsb | Isb
| FlushDcache (addr size : Z).

Inductive hw_event : Type :=
| HwWrite (addr value : Z)
| HwDev (d : dev_call).

Record a3700_hw : Type := Hw { regs : gmap Z Z; drain : nat; hw_log : list hw_event }.
#[local] Abbreviation HM := (M a3700_hw).

Definition reg (p : a3700_hw) (a : Z) : Z := default 0 (regs p !! a).
Definition set_reg (a v : Z) (p : a3700_hw) : a3700_hw :=
  Hw (<[a := u32 v]> (regs p)) (drain p) (HwWrite a (u32 v) :: hw_log p).

(** ** Accessors *)
Definition mmio_write_32 (addr value : Z) : HM unit := fun p =>
  let p' := set_reg addr (if decide (addr ∈ irq_status_regs) then Z.ldiff (reg p addr) value else value) p in
  if (addr =? MVEBU_WARM_RESET_REG) && (u32 value =? MVEBU_WARM_RESET_MAGIC)
  then Halt HSystemDown p' else Ret tt p'.

Definition mmio_read_32 (addr : Z) : HM Z := fun p =>
  if addr =? MVEBU_DRAM_STATS_CH0_REG then
    match drain p with
    | O => Ret (Z.lor (reg p addr) MVEBU_DRAM_WCP_EMPTY) p
    | S n => Ret (Z.ldiff (reg p addr) MVEBU_DRAM_WCP_EMPTY) (Hw (regs p) n (hw_log p))
    end
  else Ret (reg p addr) p.

Definition mmio_clrbits_32 (addr clear : Z) : HM unit :=
  let! v := mmio_read_32 addr in mmio_write_32 addr (Z.ldiff v clear).
Definition mmio_setbits_32 (addr set : Z) : HM unit :=
  let! v := mmio_read_32 addr in mmio_write_32 addr (Z.lor v set).

(** A 64-bit store to RAM is two words here. *)
Definition store_64 (addr value : Z) : HM unit :=
  mmio_write_32 addr (u32 value) ;;;
  mmio_write_32 (addr + 4) (u32 (Z.shiftr value 32)).

Definition dev (d : dev_call) : HM unit :=
  modify (fun p => Hw (regs p) (drain p) (HwDev d :: hw_log p)).

(** ** Rules *)
Definition plain (a : Z) : Prop :=
  (a ∉ irq_status_regs) /\ a <> MVEBU_WARM_RESET_REG /\ a <> MVEBU_DRAM_STATS_CH0_REG.
#[global] Instance plain_dec a : Decision (plain a).
Proof. unfold plain. solve_decision. Defined.

Lemma wp_mmio_write a v (Q : unit -> a3700_hw -> Prop) E p :
  plain a -> Q tt (set_reg a v p) -> wp (mmio_write_32 a v) Q E p.
Proof.
  intros (Hs & Hr & _) HQ. apply wp_unfold. unfold mmio_write_32. rewrite decide_False by done.
  by destruct (Z.eqb_spec a MVEBU_WARM_RESET_REG).
Qed.

Lemma wp_mmio_read a (Q : Z -> a3700_hw -> Prop) E p :
  plain a -> Q (reg p a) p -> wp (mmio_read_32 a) Q E p.
Proof.
  intros (_ & _ & Hd) HQ. apply wp_unfold. unfold mmio_read_32.
  by destruct (Z.eqb_spec a MVEBU_DRAM_STATS_CH0_REG).
Qed.

Lemma wp_setbits a v (Q : unit -> a3700_hw -> Prop) E p :
  plain a -> Q tt (set_reg a (Z.lor (reg p a) v) p) -> wp (mmio_setbits_32 a v) Q E p.
Proof. intros Ha HQ. unfold mmio_setbits_32. wp_step. apply wp_mmio_read; [done|]. by apply wp_mmio_write. Qed.

Lemma wp_clrbits a v (Q : unit -> a3700_hw -> Prop) E p :
  plain a -> Q tt (set_reg a (Z.ldiff (reg p a) v) p) -> wp (mmio_clrbits_32 a v) Q E p.
Proof. intros Ha HQ. unfold mmio_clrbits_32. wp_step. apply wp_mmio_read; [done|]. by apply wp_mmio_write. Qed.

Lemma reg_set_eq a v p : reg (set_reg a v p) a = u32 v.
Proof. unfold reg, set_reg; cbn. by rewrite lookup_insert_eq. Qed.

Lemma reg_set_ne a b v p : a <> b -> reg (set_reg a v p) b = reg p b.
Proof. intros Hne. unfold reg, set_reg; cbn. by rewrite lookup_insert_ne. Qed.
