(* ===== verification/A3700Win.v ===== *)
(** * Armada 3700: address decode windows

    The CPU-to-target decode windows (a3700/common/dram_win.c), the decode
    windows of the I/O units towards DRAM (io_addr_dec.c, with the table of
    marvell_plat_config.c), and the DRAM size calculation they depend on
    (marvell_ddr_info.c).  Every I/O unit must reach exactly the DRAM the CPU
    reaches: this is what the theorems at the end establish. *)
From stdpp Require Import base list numbers option gmap.
From Stdlib Require Import ZArith Lia.
From S2P Require Import Prelude A3700Hw.
#[local] Open Scope Z_scope.
#[local] Abbreviation HM := (M a3700_hw).

(** ** DRAM size (marvell_ddr_info.c) *)
Definition DRAM_MAX_IFACE : Z := 1.
Definition DRAM_MAX_CS_NUM : Z := 2.
Definition DRAM_CH0_MMAP_LOW_OFFSET : Z := 0x200.
Definition DRAM_CH0_MMAP_LOW_REG (iface cs base : Z) : Z :=
  base + DRAM_CH0_MMAP_LOW_OFFSET + iface * 0x10000 + cs * 0x8.
Definition DRAM_CS_VALID_ENABLED_MASK : Z := 0x1.
Definition DRAM_AREA_LENGTH_OFFS : Z := 16.
Definition DRAM_AREA_LENGTH_MASK : Z := Z.shiftl 0x1f DRAM_AREA_LENGTH_OFFS.
Definition DRAM_REGION_SIZE_EVEN (c : Z) : bool := (7 <=? c) && (c <=? 26).
Definition GET_DRAM_REGION_SIZE_EVEN (c : Z) : Z := u64 (Z.shiftl 1 (c + 16)).
Definition DRAM_REGION_SIZE_ODD (c : Z) : bool := c <=? 4.
Definition GET_DRAM_REGION_SIZE_ODD (c : Z) : Z := u64 (Z.shiftl 0x18000000 c).

(** The size of a region code; [None]: the invalid codes. *)
Definition region_size (region_code : Z) : option Z :=
  if DRAM_REGION_SIZE_EVEN region_code then Some (GET_DRAM_REGION_SIZE_EVEN region_code)
  else if DRAM_REGION_SIZE_ODD region_code then Some (GET_DRAM_REGION_SIZE_ODD region_code)
  else None.

(** The loop over the chip selects of one interface: the size so far, or
    [None] after an invalid code. *)
Fixpoint dram_cs_loop (css : list Z) (iface base mem_size : Z) : HM (option Z) :=
  match css with
  | [] => ret (Some mem_size)
  | cs :: rest =>
      let! v := mmio_read_32 (DRAM_CH0_MMAP_LOW_REG iface cs base) in
      if Z.land v DRAM_CS_VALID_ENABLED_MASK =? 0 then ret (Some mem_size)
      else
        let! v := mmio_read_32 (DRAM_CH0_MMAP_LOW_REG iface cs base) in
        let region_code := u8 (Z.shiftr (Z.land v DRAM_AREA_LENGTH_MASK) DRAM_AREA_LENGTH_OFFS) in
        match region_size region_code with
        | Some sz => dram_cs_loop rest iface base (u64 (mem_size + sz))
        | None => ret None
        end
  end.

Fixpoint dram_iface_loop (ifaces : list Z) (base mem_size : Z) : HM Z :=
  match ifaces with
  | [] => ret mem_size
  | iface :: rest =>
      let! r := dram_cs_loop (seqZ 0 DRAM_MAX_CS_NUM) iface base mem_size in
      match r with
      | Some m => dram_iface_loop rest base m
      | None => ret 0
      end
  end.

Definition mvebu_get_dram_size (ap_base_addr : Z) : HM Z :=
  dram_iface_loop (seqZ 0 DRAM_MAX_IFACE) ap_base_addr 0.

(** ** CPU decode windows (dram_win.c) *)
Definition MV_CPU_WIN_NUM : Z := 5.
Definition DRAM_WIN_MAP_NUM_MAX : Z := 5.
Definition DRAM_CPU_DEC_TARGET_NUM : Z := 0.
Definition CPU_DEC_WIN_CTRL_REG (win : Z) : Z := MVEBU_CPU_DEC_WIN_REG_BASE + win * 0x10.
Definition CPU_DEC_WIN_SIZE_REG (win : Z) : Z := MVEBU_CPU_DEC_WIN_REG_BASE + 0x4 + win * 0x10.
Definition CPU_DEC_WIN_BASE_REG (win : Z) : Z := MVEBU_CPU_DEC_WIN_REG_BASE + 0x8 + win * 0x10.
Definition CPU_DEC_REMAP_LOW_REG (win : Z) : Z := MVEBU_CPU_DEC_WIN_REG_BASE + 0xC + win * 0x10.
Definition CPU_DEC_CR_WIN_ENABLE : Z := 0x1.
Definition CPU_DEC_CR_WIN_TARGET_OFFS : Z := 4.
Definition CPU_DEC_CR_WIN_TARGET_MASK : Z := Z.shiftl 0xf CPU_DEC_CR_WIN_TARGET_OFFS.
Definition CPU_DEC_CR_WIN_SIZE_MASK : Z := 0xffff.
Definition CPU_DEC_BR_BASE_MASK : Z := 0xffff.
Definition CPU_DEC_RLR_REMAP_LOW_MASK : Z := 0xffff.
Definition CPU_DEC_CR_WIN_SIZE_ALIGNMENT : Z := 0x10000.

Inductive cpu_win_target : Type :=
| CPU_WIN_TARGET_DRAM | CPU_WIN_TARGET_INTERNAL_REG | CPU_WIN_TARGET_PCIE
| CPU_WIN_TARGET_PCIE_OVER_MCI | CPU_WIN_TARGET_BOOT_ROM | CPU_WIN_TARGET_MCI_EXTERNAL
| CPU_WIN_TARGET_RWTM_RAM | CPU_WIN_TARGET_CCI400_REG.
Definition target_value (t : cpu_win_target) : Z :=
  match t with
  | CPU_WIN_TARGET_DRAM => 0 | CPU_WIN_TARGET_INTERNAL_REG => 1 | CPU_WIN_TARGET_PCIE => 2
  | CPU_WIN_TARGET_PCIE_OVER_MCI => 3 | CPU_WIN_TARGET_BOOT_ROM => 4 | CPU_WIN_TARGET_MCI_EXTERNAL => 5
  | CPU_WIN_TARGET_RWTM_RAM => 7 | CPU_WIN_TARGET_CCI400_REG => 8
  end.

Record cpu_win_configuration : Type := CpuWin {
  enabled : Z; target : cpu_win_target; base_addr : Z; size : Z; remap_addr : Z
}.

Definition mv_cpu_wins_2gb : list cpu_win_configuration :=
  [CpuWin 1 CPU_WIN_TARGET_DRAM 0x0 0x08000000 0x0;
   CpuWin 1 CPU_WIN_TARGET_MCI_EXTERNAL 0xe0000000 0x08000000 0xe0000000;
   CpuWin 1 CPU_WIN_TARGET_PCIE 0xe8000000 0x08000000 0xe8000000;
   CpuWin 1 CPU_WIN_TARGET_RWTM_RAM 0xf0000000 0x00020000 0x1fff0000;
   CpuWin 1 CPU_WIN_TARGET_PCIE_OVER_MCI 0x80000000 0x10000000 0x80000000].
Definition mv_cpu_wins_4gb : list cpu_win_configuration :=
  [CpuWin 1 CPU_WIN_TARGET_DRAM 0x0 0x80000000 0x0;
   CpuWin 1 CPU_WIN_TARGET_DRAM 0x80000000 0x40000000 0x80000000;
   CpuWin 1 CPU_WIN_TARGET_DRAM 0xc0000000 0x10000000 0xc0000000;
   CpuWin 1 CPU_WIN_TARGET_DRAM 0xe0000000 0x08000000 0xe0000000;
   CpuWin 1 CPU_WIN_TARGET_PCIE 0xe8000000 0x08000000 0xe8000000].
Definition mv_cpu_wins : list (list cpu_win_configuration) := [mv_cpu_wins_2gb; mv_cpu_wins_4gb].

Definition cpu_win_set (win_id : Z) (win_cfg : cpu_win_configuration) : HM unit :=
  let! ctrl_reg := mmio_read_32 (CPU_DEC_WIN_CTRL_REG win_id) in
  let ctrl_reg := Z.ldiff ctrl_reg CPU_DEC_CR_WIN_ENABLE in
  mmio_write_32 (CPU_DEC_WIN_CTRL_REG win_id) ctrl_reg ;;;
  if enabled win_cfg =? 0 then ret tt
  else
    let base_reg := Z.land (u32 (base_addr win_cfg / CPU_DEC_CR_WIN_SIZE_ALIGNMENT)) CPU_DEC_BR_BASE_MASK in
    mmio_write_32 (CPU_DEC_WIN_BASE_REG win_id) base_reg ;;;
    let remap_reg := Z.land (u32 (remap_addr win_cfg / CPU_DEC_CR_WIN_SIZE_ALIGNMENT)) CPU_DEC_RLR_REMAP_LOW_MASK in
    mmio_write_32 (CPU_DEC_REMAP_LOW_REG win_id) remap_reg ;;;
    let size_reg := Z.land (u32 (size win_cfg / CPU_DEC_CR_WIN_SIZE_ALIGNMENT - 1)) CPU_DEC_CR_WIN_SIZE_MASK in
    mmio_write_32 (CPU_DEC_WIN_SIZE_REG win_id) size_reg ;;;
    let ctrl_reg := Z.ldiff ctrl_reg CPU_DEC_CR_WIN_TARGET_MASK in
    let ctrl_reg := Z.lor ctrl_reg (Z.shiftl (target_value (target win_cfg)) CPU_DEC_CR_WIN_TARGET_OFFS) in
    let ctrl_reg := Z.lor ctrl_reg CPU_DEC_CR_WIN_ENABLE in
    mmio_write_32 (CPU_DEC_WIN_CTRL_REG win_id) ctrl_reg.

Definition _2GB_ : Z := 0x80000000.

Definition cpu_wins_init : HM unit :=
  let! dram_size := mvebu_get_dram_size MVEBU_REGS_BASE in
  let! wins := deref (arr_get mv_cpu_wins (if dram_size <=? _2GB_ then 0 else 1)) in
  forM_ (seqZ 1 (MV_CPU_WIN_NUM - 1))
    (fun win_id => let! cfg := deref (arr_get wins win_id) in cpu_win_set win_id cfg).

Record dram_win : Type := DramWin { w_base : Z; w_size : Z }.

(** Windows in the order they are appended to [dram_windows]. *)
Fixpoint dram_win_loop (ids : list Z) (acc : list dram_win) : HM (list dram_win) :=
  match ids with
  | [] => ret acc
  | win_id :: rest =>
      let! ctrl_reg := mmio_read_32 (CPU_DEC_WIN_CTRL_REG win_id) in
      let target := Z.shiftr (Z.land ctrl_reg CPU_DEC_CR_WIN_TARGET_MASK) CPU_DEC_CR_WIN_TARGET_OFFS in
      let enabled := Z.land ctrl_reg CPU_DEC_CR_WIN_ENABLE in
      if (enabled =? 0) || negb (target =? DRAM_CPU_DEC_TARGET_NUM) then dram_win_loop rest acc
      else
        let! base_reg := mmio_read_32 (CPU_DEC_WIN_BASE_REG win_id) in
        let! size_reg := mmio_read_32 (CPU_DEC_WIN_SIZE_REG win_id) in
        let base := Z.land base_reg CPU_DEC_BR_BASE_MASK * CPU_DEC_CR_WIN_SIZE_ALIGNMENT in
        let sz := (Z.land size_reg CPU_DEC_CR_WIN_SIZE_MASK + 1) * CPU_DEC_CR_WIN_SIZE_ALIGNMENT in
        dram_win_loop rest (acc ++ [DramWin base sz])
  end.
Definition dram_win_map_build : HM (list dram_win) := dram_win_loop (seqZ 0 DRAM_WIN_MAP_NUM_MAX) [].

(** ** I/O decode windows (io_addr_dec.c, marvell_plat_config.c) *)
Record dec_win_config : Type := DecWin {
  dec_reg_base : Z; win_attr : Z; max_dram_win : Z; max_remap : Z; win_offset : Z
}.
Definition io_dec_win_conf : list dec_win_config :=
  [DecWin 0xc000 0x3d 2 0 0x08;
   DecWin 0xc100 0x3d 3 0 0x10;
   DecWin 0xc200 0x3d 2 0 0x10;
   DecWin 0xc300 0x3d 2 0 0x10;
   DecWin 0xc400 0x3d 2 0 0x10;
   DecWin 0xc500 0x3d 2 0 0x10;
   DecWin 0xc800 0x3d 3 0 0x10;
   DecWin 0xca00 0x3d 3 0 0x08;
   DecWin 0xcb00 0x3d 3 0 0x10;
   DecWin 0xce00 0x3d 2 0 0x08].

Definition MVEBU_DEC_WIN_CTRL_REG (base win off : Z) : Z := MVEBU_REGS_BASE + base + win * off.
Definition MVEBU_DEC_WIN_BASE_REG (base win off : Z) : Z := MVEBU_REGS_BASE + base + win * off + 0x4.
Definition MVEBU_DEC_WIN_REMAP_REG (base win off : Z) : Z := MVEBU_REGS_BASE + base + win * off + 0x8.
Definition MVEBU_DEC_WIN_CTRL_SIZE_OFF : Z := 16.
Definition MVEBU_DEC_WIN_ENABLE : Z := 0x1.
Definition MVEBU_DEC_WIN_CTRL_ATTR_OFF : Z := 8.
Definition MVEBU_DEC_WIN_CTRL_TARGET_OFF : Z := 4.
Definition MVEBU_DEC_WIN_CTRL_EN_OFF : Z := 0.
Definition MVEBU_DEC_WIN_BASE_OFF : Z := 16.
Definition MVEBU_WIN_BASE_SIZE_ALIGNMENT : Z := 0x10000.
Definition IO_UNIT_NUM_MAX : Z := 14.
Definition MVEBU_MAX_ADDRSS_4GB : Z := 0x100000000.

Definition set_io_addr_dec_win (win_id base_addr win_size : Z) (dec_win : dec_win_config) : HM unit :=
  let ctrl := u32 (Z.shiftl (u64 (win_size / MVEBU_WIN_BASE_SIZE_ALIGNMENT - 1)) MVEBU_DEC_WIN_CTRL_SIZE_OFF) in
  let ctrl := Z.lor ctrl (u32 (Z.shiftl (win_attr dec_win) MVEBU_DEC_WIN_CTRL_ATTR_OFF)) in
  let ctrl := Z.lor ctrl (Z.shiftl DRAM_CPU_DEC_TARGET_NUM MVEBU_DEC_WIN_CTRL_TARGET_OFF) in
  let base := u32 (Z.shiftl (base_addr / MVEBU_WIN_BASE_SIZE_ALIGNMENT) MVEBU_DEC_WIN_BASE_OFF) in
  mmio_write_32 (MVEBU_DEC_WIN_BASE_REG (dec_reg_base dec_win) win_id (win_offset dec_win)) base ;;;
  when (win_id <? max_remap dec_win)
    (mmio_write_32 (MVEBU_DEC_WIN_REMAP_REG (dec_reg_base dec_win) win_id (win_offset dec_win)) base) ;;;
  mmio_write_32 (MVEBU_DEC_WIN_CTRL_REG (dec_reg_base dec_win) win_id (win_offset dec_win)) ctrl ;;;
  let ctrl := Z.lor ctrl (Z.shiftl MVEBU_DEC_WIN_ENABLE MVEBU_DEC_WIN_CTRL_EN_OFF) in
  mmio_write_32 (MVEBU_DEC_WIN_CTRL_REG (dec_reg_base dec_win) win_id (win_offset dec_win)) ctrl.

(** [for (id = 0; id < win_map->dram_win_num; id++)] *)
Fixpoint io_win_loop (id : Z) (wins : list dram_win) (dec_win : dec_win_config) : HM unit :=
  match wins with
  | [] => ret tt
  | win :: rest =>
      set_io_addr_dec_win id (w_base win) (w_size win) dec_win ;;;
      io_win_loop (id + 1) rest dec_win
  end.

Definition set_io_addr_dec (win_map : list dram_win) (dec_win : dec_win_config) : HM Z :=
  forM_ (seqZ 0 (max_dram_win dec_win)) (fun id =>
    mmio_write_32 (MVEBU_DEC_WIN_CTRL_REG (dec_reg_base dec_win) id (win_offset dec_win)) 0) ;;;
  (if max_dram_win dec_win <? Z.of_nat (length win_map)
   then set_io_addr_dec_win 0 0 MVEBU_MAX_ADDRSS_4GB dec_win
   else io_win_loop 0 win_map dec_win) ;;;
  ret 0.

Fixpoint io_unit_loop (win_map : list dram_win) (units : list dec_win_config) : HM Z :=
  match units with
  | [] => ret 0
  | u :: rest =>
      let! r := set_io_addr_dec win_map u in
      if negb (r =? 0) then ret (-1) else io_unit_loop win_map rest
  end.

(** A null pointer is [None]. *)
Definition init_io_addr_dec (dram_wins_map : option (list dram_win))
    (io_dec_config : option (list dec_win_config)) : HM Z :=
  match io_dec_config with
  | None | Some [] => ret (-1)
  | Some units =>
      if IO_UNIT_NUM_MAX <? Z.of_nat (length units) then ret (-1)
      else match dram_wins_map with
           | None => ret (-1)
           | Some wins => io_unit_loop wins units
           end
  end.

Definition marvell_get_io_dec_win_conf : Z * list dec_win_config := (0, io_dec_win_conf).

(** ** I/O units see the CPU's DRAM *)

(** A window the decoders can express: whole 64 KB units below 4 GB. *)
Definition win_ok (w : dram_win) : Prop :=
  exists b n, w = DramWin (b * 0x10000) (n * 0x10000) /\ 0 <= b < 0x10000 /\ 0 < n <= 0x10000.

(** What unit [u] decodes with its window [id]: attribute, target, base, size. *)
Definition io_window (p : a3700_hw) (u : dec_win_config) (id : Z) : option (Z * Z * Z * Z) :=
  let ctrl := reg p (MVEBU_DEC_WIN_CTRL_REG (dec_reg_base u) id (win_offset u)) in
  let base := reg p (MVEBU_DEC_WIN_BASE_REG (dec_reg_base u) id (win_offset u)) in
  if Z.testbit ctrl 0
  then Some (Z.land (Z.shiftr ctrl 8) 0xff, Z.land (Z.shiftr ctrl 4) 0xf,
             Z.shiftr base 16 * 0x10000, (Z.shiftr ctrl 16 + 1) * 0x10000)
  else None.

Definition in_unit (u : dec_win_config) (a : Z) : Prop :=
  MVEBU_REGS_BASE + dec_reg_base u <= a < MVEBU_REGS_BASE + dec_reg_base u + 0x100.

(** A unit of the table: no remap registers, windows that do not overlap, all
    inside a 256-byte block of plain registers. *)
Record unit_ok (u : dec_win_config) : Prop := {
  uo_attr : 0 <= win_attr u < 2 ^ 8;
  uo_max : 0 < max_dram_win u;
  uo_remap : max_remap u = 0;
  uo_off : 8 <= win_offset u;
  uo_fit : max_dram_win u * win_offset u + 8 <= 0x100;
  uo_plain a : in_unit u a -> plain a
}.

Definition ctrl_of (attr n : Z) : Z := Z.lor (Z.shiftl (n - 1) 16) (Z.shiftl attr 8).

Lemma ctrl_of_add attr n : 0 <= attr < 2 ^ 8 -> ctrl_of attr n = (n - 1) * 2 ^ 16 + attr * 2 ^ 8.
Proof.
  intros Ha. unfold ctrl_of. rewrite (lor_shiftl_add _ 16); [|lia|].
  - rewrite Z.shiftl_mul_pow2 by lia. lia.
  - rewrite Z.shiftl_mul_pow2 by lia. lia.
Qed.

Lemma ctrl_en_add attr n : 0 <= attr < 2 ^ 8 -> Z.lor (ctrl_of attr n) 1 = (n - 1) * 2 ^ 16 + attr * 2 ^ 8 + 1.
Proof.
  intros Ha. rewrite ctrl_of_add by done.
  transitivity (Z.lor (Z.shiftl ((n - 1) * 2 ^ 8 + attr) 8) 1).
  - f_equal. rewrite Z.shiftl_mul_pow2 by lia. lia.
  - rewrite lor_shiftl_add by lia. lia.
Qed.

(** One window, symbolically. *)
Lemma wp_set_io_win u id b n (Q : unit -> a3700_hw -> Prop) E p :
  unit_ok u -> 0 <= id < max_dram_win u -> 0 <= b < 0x10000 -> 0 < n <= 0x10000 ->
  let C := MVEBU_DEC_WIN_CTRL_REG (dec_reg_base u) id (win_offset u) in
  let B := MVEBU_DEC_WIN_BASE_REG (dec_reg_base u) id (win_offset u) in
  Q tt (set_reg C (Z.lor (ctrl_of (win_attr u) n) 1) (set_reg C (ctrl_of (win_attr u) n)
          (set_reg B (Z.shiftl b 16) p))) ->
  wp (set_io_addr_dec_win id (b * 0x10000) (n * 0x10000) u) Q E p.
Proof.
  intros Hu Hid Hb Hn C B HQ. unfold set_io_addr_dec_win, MVEBU_WIN_BASE_SIZE_ALIGNMENT,
    MVEBU_DEC_WIN_CTRL_SIZE_OFF, MVEBU_DEC_WIN_CTRL_ATTR_OFF, DRAM_CPU_DEC_TARGET_NUM,
    MVEBU_DEC_WIN_CTRL_TARGET_OFF, MVEBU_DEC_WIN_BASE_OFF, MVEBU_DEC_WIN_ENABLE, MVEBU_DEC_WIN_CTRL_EN_OFF.
  destruct Hu as [Hattr Hmax Hremap Hoff Hfit Hplain].
  rewrite !Z.div_mul by lia. rewrite (u64_small (n - 1)) by lia.
  rewrite (u32_small (Z.shiftl (n - 1) 16)) by (rewrite Z.shiftl_mul_pow2; lia).
  rewrite (u32_small (Z.shiftl (win_attr u) 8)) by (rewrite Z.shiftl_mul_pow2; lia).
  rewrite (u32_small (Z.shiftl b 16)) by (rewrite Z.shiftl_mul_pow2; lia).
  rewrite Z.shiftl_0_l, Z.lor_0_r. fold (ctrl_of (win_attr u) n) C B. change (Z.shiftl 1 0) with 1. cbv zeta.
  assert (Hin : 0 <= id * win_offset u <= 0x100 - 8) by nia.
  assert (plain C /\ plain B) as [HC HB].
  { split; apply Hplain; unfold in_unit, C, B, MVEBU_DEC_WIN_CTRL_REG, MVEBU_DEC_WIN_BASE_REG; lia. }
  wp_step. apply wp_mmio_write; [done|]. wp_step. rewrite Hremap.
  destruct (Z.ltb_spec id 0); [lia|]. wp_step. wp_step. apply wp_mmio_write; [done|].
  apply wp_mmio_write; done.
Qed.

Definition win_regs_after (u : dec_win_config) (id b n : Z) (p : a3700_hw) : a3700_hw :=
  let C := MVEBU_DEC_WIN_CTRL_REG (dec_reg_base u) id (win_offset u) in
  let B := MVEBU_DEC_WIN_BASE_REG (dec_reg_base u) id (win_offset u) in
  set_reg C (Z.lor (ctrl_of (win_attr u) n) 1) (set_reg C (ctrl_of (win_attr u) n) (set_reg B (Z.shiftl b 16) p)).

Lemma land_ff x : Z.land x 0xff = x mod 2 ^ 8.
Proof. change 0xff with (Z.ones 8). by apply Z.land_ones. Qed.

Lemma land_f x : Z.land x 0xf = x mod 2 ^ 4.
Proof. change 0xf with (Z.ones 4). by apply Z.land_ones. Qed.

Lemma ctrl_fields attr n :
  0 <= attr < 2 ^ 8 -> 0 < n <= 0x10000 ->
  let c := Z.lor (ctrl_of attr n) 1 in
  0 <= c < 2 ^ 32 /\ Z.testbit c 0 = true /\ Z.land (Z.shiftr c 8) 0xff = attr /\
  Z.land (Z.shiftr c 4) 0xf = 0 /\ Z.shiftr c 16 = n - 1.
Proof.
  intros Ha Hn c. unfold c. rewrite ctrl_en_add by done. split_and!; [lia|lia| | | |].
  - rewrite Z.bit0_odd. apply Z.odd_spec. exists ((n - 1) * 2 ^ 15 + attr * 2 ^ 7). lia.
  - replace ((n - 1) * 2 ^ 16 + attr * 2 ^ 8 + 1) with (((n - 1) * 2 ^ 8 + attr) * 2 ^ 8 + 1) by lia.
    rewrite shiftr_add_low, land_ff by lia. rewrite Z.add_comm, Z.mod_add by lia. by apply Z.mod_small.
  - replace ((n - 1) * 2 ^ 16 + attr * 2 ^ 8 + 1) with (((n - 1) * 2 ^ 8 * 2 ^ 4 + attr * 2 ^ 4) * 2 ^ 4 + 1) by lia.
    rewrite shiftr_add_low, land_f by lia. rewrite <- Z.mul_add_distr_r. apply Z.mod_mul. lia.
  - replace ((n - 1) * 2 ^ 16 + attr * 2 ^ 8 + 1) with ((n - 1) * 2 ^ 16 + (attr * 2 ^ 8 + 1)) by lia.
    by rewrite shiftr_add_low by lia.
Qed.

Lemma win_decode u id b n p :
  unit_ok u -> 0 <= b < 0x10000 -> 0 < n <= 0x10000 ->
  io_window (win_regs_after u id b n p) u id = Some (win_attr u, 0, b * 0x10000, n * 0x10000).
Proof.
  intros Hu Hb Hn. destruct (ctrl_fields (win_attr u) n (uo_attr _ Hu) Hn) as (Hr & Hen & Ha & Ht & Hs).
  unfold io_window, win_regs_after. rewrite reg_set_eq, u32_small by done. rewrite Hen, Ha, Ht, Hs.
  rewrite !reg_set_ne, reg_set_eq
    by (unfold MVEBU_DEC_WIN_CTRL_REG, MVEBU_DEC_WIN_BASE_REG; lia).
  rewrite u32_small by (rewrite Z.shiftl_mul_pow2; lia).
  rewrite Z.shiftr_shiftl_l, Z.sub_diag, Z.shiftl_0_r by lia. repeat f_equal. lia.
Qed.

Lemma win_other u id id' b n p :
  unit_ok u -> id <> id' -> io_window (win_regs_after u id b n p) u id' = io_window p u id'.
Proof.
  intros Hu Hne. pose proof (uo_off _ Hu). unfold io_window, win_regs_after.
  rewrite !reg_set_ne; [done|unfold MVEBU_DEC_WIN_CTRL_REG, MVEBU_DEC_WIN_BASE_REG; nia..].
Qed.

(** Programming unit [u] leaves the registers of other blocks alone. *)
Definition only_unit (u : dec_win_config) (p p' : a3700_hw) : Prop :=
  forall a, ~ in_unit u a -> reg p' a = reg p a.

Lemma win_only_unit u id b n p :
  unit_ok u -> 0 <= id < max_dram_win u -> only_unit u p (win_regs_after u id b n p).
Proof.
  intros Hu Hid a Ha. destruct Hu as [_ _ _ Hoff Hfit _]. assert (0 <= id * win_offset u <= 0x100 - 8) by nia.
  unfold win_regs_after. rewrite !reg_set_ne; [done|..]; intros <-; apply Ha;
    unfold in_unit, MVEBU_DEC_WIN_CTRL_REG, MVEBU_DEC_WIN_BASE_REG; lia.
Qed.

(** What a unit decodes after it has been set up for the windows [wins]. *)
Definition unit_decodes (p : a3700_hw) (u : dec_win_config) (wins : list dram_win) : Prop :=
  forall id, 0 <= id < max_dram_win u ->
    io_window p u id =
    if max_dram_win u <? Z.of_nat (length wins)
    then (if id =? 0 then Some (win_attr u, 0, 0, MVEBU_MAX_ADDRSS_4GB) else None)
    else match arr_get wins id with
         | Some w => Some (win_attr u, 0, w_base w, w_size w)
         | None => None
         end.

Lemma wp_io_win_loop u wins : forall id (Q : unit -> a3700_hw -> Prop) E p,
  unit_ok u -> 0 <= id -> id + Z.of_nat (length wins) <= max_dram_win u -> Forall win_ok wins ->
  (forall p', only_unit u p p' ->
     (forall k w, arr_get wins k = Some w -> io_window p' u (id + k) = Some (win_attr u, 0, w_base w, w_size w)) ->
     (forall j, ~ (id <= j < id + Z.of_nat (length wins)) -> io_window p' u j = io_window p u j) -> Q tt p') ->
  wp (io_win_loop id wins u) Q E p.
Proof.
  induction wins as [|w wins IH]; intros id Q E p Hu Hid Hlen Hok HQ; simpl.
  { wp_step. apply HQ; [done| |done]. intros k w Hk%arr_get_Some_range. simpl in Hk. lia. }
  apply Forall_cons_iff in Hok as [(b & n & -> & Hb & Hn) Hok]. simpl in Hlen. wp_step.
  apply wp_set_io_win; [done|lia|done|done|]. fold (win_regs_after u id b n p).
  apply IH; [done|lia|lia|done|]. intros p' Honly Hin Hout. apply HQ.
  - intros a Ha. rewrite (Honly a Ha). apply win_only_unit; [done|lia|done].
  - intros k w Hk. pose proof (arr_get_Some_range _ _ _ Hk) as Hr. destruct (decide (k = 0)) as [->|Hne].
    + injection Hk as <-. rewrite Z.add_0_r, Hout by lia. by apply win_decode.
    + replace (id + k) with (id + 1 + (k - 1)) by lia. apply Hin. revert Hk. unfold arr_get.
      destruct (Z.leb_spec 0 k), (Z.leb_spec 0 (k - 1)); try lia.
      by replace (Z.to_nat k) with (S (Z.to_nat (k - 1))) by lia.
  - intros j Hj. simpl in Hj. rewrite Hout by lia. apply win_other; [done|lia].
Qed.

(** The loop that disables all windows of a unit. *)
Lemma wp_disable_wins u (Q : unit -> a3700_hw -> Prop) E p :
  unit_ok u ->
  (forall p', only_unit u p p' -> (forall id, 0 <= id < max_dram_win u -> io_window p' u id = None) -> Q tt p') ->
  wp (forM_ (seqZ 0 (max_dram_win u)) (fun id =>
    mmio_write_32 (MVEBU_DEC_WIN_CTRL_REG (dec_reg_base u) id (win_offset u)) 0)) Q E p.
Proof.
  intros Hu HQ. pose proof Hu as [_ _ _ Hoff Hfit Hplain].
  apply (wp_forM_ (fun dn p' => only_unit u p p' /\ forall id, id ∈ dn -> io_window p' u id = None)).
  - split; [done|]. intros id Hid. by apply not_elem_of_nil in Hid.
  - intros dn id rest p' Hs [Honly Hdn].
    assert (Hid : 0 <= id < max_dram_win u).
    { assert (id ∈ seqZ 0 (max_dram_win u)) as Hin.
      { rewrite Hs. apply elem_of_app. right. apply elem_of_cons. by left. }
      apply elem_of_seqZ in Hin. lia. }
    assert (0 <= id * win_offset u <= 0x100 - 8) by nia.
    assert (HC : in_unit u (MVEBU_DEC_WIN_CTRL_REG (dec_reg_base u) id (win_offset u)))
      by (unfold in_unit, MVEBU_DEC_WIN_CTRL_REG; lia).
    apply wp_mmio_write; [by apply Hplain|]. split.
    + intros a Ha. rewrite reg_set_ne; [by apply Honly|]. intros <-. by apply Ha.
    + intros id' [Hid'|Hid']%elem_of_app.
      * destruct (decide (id' = id)) as [->|Hne].
        { unfold io_window. by rewrite reg_set_eq. }
        rewrite <- (Hdn id' Hid'). unfold io_window.
        rewrite !reg_set_ne; [done|unfold MVEBU_DEC_WIN_CTRL_REG, MVEBU_DEC_WIN_BASE_REG; nia..].
      * apply list_elem_of_singleton in Hid' as ->. unfold io_window. by rewrite reg_set_eq.
  - intros p' [Honly Hdn]. apply HQ; [done|]. intros id Hid. apply Hdn, elem_of_seqZ. lia.
Qed.

Lemma wp_set_io_addr_dec u wins (Q : Z -> a3700_hw -> Prop) E p :
  unit_ok u -> Forall win_ok wins ->
  (forall p', only_unit u p p' -> unit_decodes p' u wins -> Q 0 p') ->
  wp (set_io_addr_dec wins u) Q E p.
Proof.
  intros Hu Hok HQ. unfold set_io_addr_dec. wp_step. apply wp_disable_wins; [done|].
  intros p1 Ho1 Hoff1. wp_step. pose proof (uo_max _ Hu) as Hmax.
  destruct (Z.ltb_spec (max_dram_win u) (Z.of_nat (length wins))) as [Hlt|Hge].
  - change 0x100000000 with (0x10000 * 0x10000).
    apply (wp_set_io_win u 0 0 0x10000); [done|lia..|]. fold (win_regs_after u 0 0 0x10000 p1). wp_step. apply HQ.
    + intros a Ha. rewrite (win_only_unit u 0 0 0x10000 p1 Hu ltac:(lia) a Ha). by apply Ho1.
    + intros id Hid. destruct (Z.ltb_spec (max_dram_win u) (Z.of_nat (length wins))); [|lia].
      destruct (Z.eqb_spec id 0) as [->|Hne]; [by apply win_decode|].
      rewrite win_other by done. by apply Hoff1.
  - apply wp_io_win_loop; [done|lia|lia|done|]. intros p2 Ho2 Hin Hout. wp_step. apply HQ.
    + intros a Ha. rewrite (Ho2 a Ha). by apply Ho1.
    + intros id Hid. destruct (Z.ltb_spec (max_dram_win u) (Z.of_nat (length wins))); [lia|].
      destruct (arr_get wins id) as [w|] eqn:Hw.
      * by apply (Hin id).
      * rewrite Hout; [by apply Hoff1|]. intros Hr.
        destruct (arr_get_in_range wins id) as [w Hw']; [lia|congruence].
Qed.

Definition units_disjoint (us : list dec_win_config) : Prop :=
  forall i j u v, us !! i = Some u -> us !! j = Some v -> i <> j -> forall a, in_unit u a -> ~ in_unit v a.

Lemma wp_io_unit_loop us wins : forall (Q : Z -> a3700_hw -> Prop) E p,
  Forall unit_ok us -> units_disjoint us -> Forall win_ok wins ->
  (forall p', (forall a, Forall (fun u => ~ in_unit u a) us -> reg p' a = reg p a) ->
     Forall (fun u => unit_decodes p' u wins) us -> Q 0 p') ->
  wp (io_unit_loop wins us) Q E p.
Proof.
  induction us as [|u us IH]; intros Q E p Hus Hdis Hok HQ; simpl.
  { wp_step. by apply HQ. }
  apply Forall_cons_iff in Hus as [Hu Hus]. wp_step. apply wp_set_io_addr_dec; [done..|].
  intros p1 Ho Hdec. simpl. apply IH; [done| |done|].
  { intros i j v w Hi Hj Hne. apply (Hdis (S i) (S j)); [done..|lia]. }
  intros p2 Hfr Hall. apply HQ.
  - intros a Ha. apply Forall_cons_iff in Ha as [Ha1 Ha2]. rewrite (Hfr a Ha2). by apply Ho.
  - apply Forall_cons_iff. split; [|done]. intros id Hid. rewrite <- Hdec by done.
    destruct Hu as [_ _ _ Hoff Hfit _]. assert (0 <= id * win_offset u <= 0x100 - 8) by nia.
    assert (Hsame : forall a, in_unit u a -> reg p2 a = reg p1 a).
    { intros a Ha. apply Hfr, list.Forall_forall. intros v Hv. apply list_elem_of_lookup in Hv as [j Hj].
      by apply (Hdis 0%nat (S j) u v). }
    unfold io_window. rewrite !Hsame; [done|..];
      unfold in_unit, MVEBU_DEC_WIN_CTRL_REG, MVEBU_DEC_WIN_BASE_REG; lia.
Qed.

(** ** CPU windows: what is programmed is what is decoded *)
Definition cpu_window (p : a3700_hw) (id : Z) : option (Z * Z * Z * Z) :=
  let ctrl := reg p (CPU_DEC_WIN_CTRL_REG id) in
  if Z.land ctrl CPU_DEC_CR_WIN_ENABLE =? 0 then None
  else Some (Z.shiftr (Z.land ctrl CPU_DEC_CR_WIN_TARGET_MASK) CPU_DEC_CR_WIN_TARGET_OFFS,
             Z.land (reg p (CPU_DEC_WIN_BASE_REG id)) CPU_DEC_BR_BASE_MASK * CPU_DEC_CR_WIN_SIZE_ALIGNMENT,
             (Z.land (reg p (CPU_DEC_WIN_SIZE_REG id)) CPU_DEC_CR_WIN_SIZE_MASK + 1) * CPU_DEC_CR_WIN_SIZE_ALIGNMENT,
             Z.land (reg p (CPU_DEC_REMAP_LOW_REG id)) CPU_DEC_RLR_REMAP_LOW_MASK * CPU_DEC_CR_WIN_SIZE_ALIGNMENT).

Definition aligned (x : Z) : Prop := exists k, x = k * 0x10000 /\ 0 <= k < 0x10000.
Definition cpu_win_ok (c : cpu_win_configuration) : Prop :=
  aligned (base_addr c) /\ aligned (remap_addr c) /\ exists n, size c = n * 0x10000 /\ 0 < n <= 0x10000.

Definition cpu_win_id (id : Z) : Prop := 0 <= id < MV_CPU_WIN_NUM.

(** The registers of the decode windows. *)
Definition cpu_win_reg (a : Z) : Prop :=
  MVEBU_CPU_DEC_WIN_REG_BASE <= a < MVEBU_CPU_DEC_WIN_REG_BASE + 0x50.

Lemma cpu_win_plain a : cpu_win_reg a -> plain a.
Proof.
  unfold cpu_win_reg. intros Ha. unfold plain, irq_status_regs.
  split_and!; [|unfold MVEBU_CPU_DEC_WIN_REG_BASE, MVEBU_WARM_RESET_REG, MVEBU_NB_REGS_BASE, MVEBU_REGS_BASE in *; lia|
    unfold MVEBU_CPU_DEC_WIN_REG_BASE, MVEBU_DRAM_STATS_CH0_REG, MVEBU_DRAM_REG_BASE, MVEBU_REGS_BASE in *; lia].
  rewrite !not_elem_of_cons. split_and!; try apply not_elem_of_nil; intros ->; revert Ha; vm_compute; intuition congruence.
Qed.

(** Target and enable bits of a control register built from any old value. *)
Lemma ctrl_target x t :
  0 <= t < 2 ^ 4 ->
  let c := Z.lor (Z.lor (Z.ldiff (Z.ldiff x 1) (Z.shiftl 0xf 4)) (Z.shiftl t 4)) 1 in
  Z.shiftr (Z.land c (Z.shiftl 0xf 4)) 4 = t /\ Z.land c 1 = 1.
Proof.
  intros Ht c. split.
  - apply Z.bits_inj'. intros i Hi. unfold c.
    rewrite Z.shiftr_spec, Z.land_spec, !Z.lor_spec, !Z.ldiff_spec, !Z.shiftl_spec by lia.
    replace (i + 4 - 4) with i by lia. rewrite (testbit_below_pow2 1 1 (i + 4)) by lia.
    destruct (decide (i < 4)) as [Hlt|Hge].
    + assert (Z.testbit 0xf i = true) as ->.
      { assert (i = 0 \/ i = 1 \/ i = 2 \/ i = 3) as [->|[->|[->| ->]]] by lia; done. }
      rewrite andb_false_r, andb_true_r, orb_false_r. done.
    + rewrite (testbit_below_pow2 4 0xf i), (testbit_below_pow2 4 t i) by lia. by rewrite andb_false_r.
  - unfold c. apply Z.bits_inj'. intros i Hi. rewrite Z.land_spec, Z.lor_spec.
    destruct (decide (i = 0)) as [->|]; [by rewrite orb_true_r|].
    rewrite (testbit_below_pow2 1 1 i) by lia. by rewrite andb_false_r.
Qed.

Lemma land_ffff k : 0 <= k < 0x10000 -> Z.land k 0xffff = k.
Proof. intros Hk. change 0xffff with (Z.ones 16). apply land_ones_small; [done|]. change (2 ^ 16) with 0x10000. done. Qed.

Lemma target_range t : 0 <= target_value t < 2 ^ 4.
Proof. destruct t; simpl; lia. Qed.

(** The four registers of a window are distinct from those of the others. *)
Ltac win_addr :=
  unfold cpu_win_id, cpu_win_reg, MV_CPU_WIN_NUM, CPU_DEC_WIN_CTRL_REG, CPU_DEC_WIN_SIZE_REG,
    CPU_DEC_WIN_BASE_REG, CPU_DEC_REMAP_LOW_REG, MVEBU_CPU_DEC_WIN_REG_BASE in *; lia.

Lemma wp_cpu_win_set id c (Q : unit -> a3700_hw -> Prop) E p :
  cpu_win_id id -> cpu_win_ok c ->
  (forall p', (forall a, ~ cpu_win_reg a -> reg p' a = reg p a) ->
     (forall j, cpu_win_id j -> j <> id -> cpu_window p' j = cpu_window p j) ->
     cpu_window p' id = (if enabled c =? 0 then None
       else Some (target_value (target c), base_addr c, size c, remap_addr c)) -> Q tt p') ->
  wp (cpu_win_set id c) Q E p.
Proof.
  intros Hid (Hb & Hr & Hs) HQ. unfold cpu_win_set. wp_step. apply wp_mmio_read; [apply cpu_win_plain; win_addr|].
  wp_step. apply wp_mmio_write; [apply cpu_win_plain; win_addr|].
  destruct (enabled c =? 0).
  { wp_step. apply HQ.
    - intros a Ha. rewrite reg_set_ne; [done|]. intros <-. apply Ha. win_addr.
    - intros j Hj Hne. unfold cpu_window. rewrite !reg_set_ne by win_addr. done.
    - unfold cpu_window. rewrite reg_set_eq. unfold CPU_DEC_CR_WIN_ENABLE. rewrite land_u32 by lia.
      by rewrite Z.land_ldiff. }
  destruct Hb as (b & Eb & Hb), Hr as (r & Er & Hr), Hs as (n & Es & Hn). rewrite Eb, Er, Es in *.
  unfold CPU_DEC_CR_WIN_SIZE_ALIGNMENT. rewrite !Z.div_mul by lia. rewrite !u32_small by lia.
  unfold CPU_DEC_BR_BASE_MASK, CPU_DEC_RLR_REMAP_LOW_MASK, CPU_DEC_CR_WIN_SIZE_MASK. rewrite !land_ffff by lia.
  do 3 (wp_step; apply wp_mmio_write; [apply cpu_win_plain; win_addr|]).
  apply wp_mmio_write; [apply cpu_win_plain; win_addr|]. apply HQ.
  - intros a Ha. rewrite !reg_set_ne; [done|..]; intros <-; apply Ha; win_addr.
  - intros j Hj Hne. unfold cpu_window. rewrite !reg_set_ne by win_addr. done.
  - unfold CPU_DEC_CR_WIN_TARGET_MASK, CPU_DEC_CR_WIN_TARGET_OFFS, CPU_DEC_CR_WIN_ENABLE.
    destruct (ctrl_target (reg p (CPU_DEC_WIN_CTRL_REG id)) _ (target_range (target c))) as [Ht He].
    unfold cpu_window, CPU_DEC_CR_WIN_TARGET_MASK, CPU_DEC_CR_WIN_TARGET_OFFS, CPU_DEC_CR_WIN_ENABLE,
      CPU_DEC_CR_WIN_SIZE_ALIGNMENT, CPU_DEC_BR_BASE_MASK, CPU_DEC_RLR_REMAP_LOW_MASK, CPU_DEC_CR_WIN_SIZE_MASK.
    rewrite (reg_set_eq (CPU_DEC_WIN_CTRL_REG id)). rewrite !land_u32 by done. rewrite Ht, He. simpl.
    rewrite (reg_set_ne (CPU_DEC_WIN_CTRL_REG id) (CPU_DEC_WIN_SIZE_REG id)) by win_addr. rewrite reg_set_eq.
    rewrite (reg_set_ne (CPU_DEC_WIN_CTRL_REG id) (CPU_DEC_WIN_BASE_REG id)) by win_addr.
    rewrite (reg_set_ne (CPU_DEC_WIN_SIZE_REG id) (CPU_DEC_WIN_BASE_REG id)) by win_addr.
    rewrite (reg_set_ne (CPU_DEC_REMAP_LOW_REG id) (CPU_DEC_WIN_BASE_REG id)) by win_addr. rewrite reg_set_eq.
    rewrite (reg_set_ne (CPU_DEC_WIN_CTRL_REG id) (CPU_DEC_REMAP_LOW_REG id)) by win_addr.
    rewrite (reg_set_ne (CPU_DEC_WIN_SIZE_REG id) (CPU_DEC_REMAP_LOW_REG id)) by win_addr. rewrite reg_set_eq.
    rewrite !u32_small, !land_ffff by lia. repeat f_equal. lia.
Qed.

(** [dram_win_map_build] lists the enabled windows whose target is DRAM. *)
Definition dram_of (w : option (Z * Z * Z * Z)) : option dram_win :=
  match w with
  | Some (t, b, sz, _) => if t =? DRAM_CPU_DEC_TARGET_NUM then Some (DramWin b sz) else None
  | None => None
  end.

Lemma dram_win_loop_spec ids acc p :
  Forall cpu_win_id ids ->
  dram_win_loop ids acc p = Ret (acc ++ omap (fun id => dram_of (cpu_window p id)) ids) p.
Proof.
  revert acc. induction ids as [|id ids IH]; intros acc Hids; simpl; [by rewrite app_nil_r|].
  apply Forall_cons_iff in Hids as [Hid Hids].
  assert (Hread : forall a, cpu_win_reg a -> mmio_read_32 a p = Ret (reg p a) p).
  { intros a (_ & _ & Hd)%cpu_win_plain. unfold mmio_read_32.
    destruct (Z.eqb_spec a MVEBU_DRAM_STATS_CH0_REG); done. }
  erewrite bind_run by (apply Hread; win_addr). unfold dram_of, cpu_window.
  destruct (Z.land (reg p (CPU_DEC_WIN_CTRL_REG id)) CPU_DEC_CR_WIN_ENABLE =? 0); simpl; [by rewrite IH|].
  destruct (_ =? DRAM_CPU_DEC_TARGET_NUM); simpl; [|by rewrite IH].
  erewrite bind_run by (apply Hread; win_addr). erewrite bind_run by (apply Hread; win_addr).
  rewrite IH by done. by rewrite <- app_assoc.
Qed.

Lemma cpu_ids_ok : Forall cpu_win_id (seqZ 0 DRAM_WIN_MAP_NUM_MAX).
Proof. apply list.Forall_forall. intros id Hid%elem_of_seqZ. unfold cpu_win_id, MV_CPU_WIN_NUM, DRAM_WIN_MAP_NUM_MAX in *. lia. Qed.

(** ** DRAM size *)

(** Size behind a chip select: [None] when it is disabled, [Some None] when
    its area length code is invalid. *)
Definition cs_size (p : a3700_hw) (cs : Z) : option (option Z) :=
  let v := reg p (DRAM_CH0_MMAP_LOW_REG 0 cs MVEBU_REGS_BASE) in
  if Z.land v DRAM_CS_VALID_ENABLED_MASK =? 0 then None
  else Some (region_size (Z.land (Z.shiftr v DRAM_AREA_LENGTH_OFFS) 0x1f)).

Definition dram_total (p : a3700_hw) : Z :=
  match cs_size p 0 with
  | None | Some None => 0
  | Some (Some a) =>
      match cs_size p 1 with
      | None => a
      | Some None => 0
      | Some (Some b) => a + b
      end
  end.

Lemma region_code v :
  u8 (Z.shiftr (Z.land v DRAM_AREA_LENGTH_MASK) DRAM_AREA_LENGTH_OFFS) = Z.land (Z.shiftr v DRAM_AREA_LENGTH_OFFS) 0x1f.
Proof.
  unfold DRAM_AREA_LENGTH_MASK. rewrite Z.shiftr_land.
  rewrite (Z.shiftr_shiftl_l 0x1f), Z.sub_diag, Z.shiftl_0_r by (unfold DRAM_AREA_LENGTH_OFFS; lia).
  apply u8_small. rewrite Z.land_comm. pose proof (land_range 8 0x1f (Z.shiftr v DRAM_AREA_LENGTH_OFFS)).
  change 0x1f with (Z.ones 5). rewrite Z.land_comm, Z.land_ones by lia.
  pose proof (Z.mod_pos_bound (Z.shiftr v DRAM_AREA_LENGTH_OFFS) (2 ^ 5) ltac:(lia)). lia.
Qed.

Lemma region_size_range c sz : 0 <= c < 2 ^ 5 -> region_size c = Some sz -> 0 <= sz <= 2 ^ 42.
Proof.
  intros Hc. assert (H : forall k : nat, (k < 32)%nat -> match region_size (Z.of_nat k) with
    | Some v => (0 <=? v) && (v <=? 2 ^ 42) = true | None => True end).
  { intros k Hk. do 32 (destruct k as [|k]; [vm_compute; done|]). lia. }
  specialize (H (Z.to_nat c) ltac:(lia)). rewrite Z2Nat.id in H by lia. intros Hs. rewrite Hs in H. lia.
Qed.

Lemma dram_size_run p : mvebu_get_dram_size MVEBU_REGS_BASE p = Ret (dram_total p) p.
Proof.
  unfold mvebu_get_dram_size. change (seqZ 0 DRAM_MAX_IFACE) with [0]. cbn [dram_iface_loop].
  change (seqZ 0 DRAM_MAX_CS_NUM) with [0; 1]. cbn [dram_cs_loop]. unfold dram_total, cs_size.
  assert (Hread : forall cs, 0 <= cs <= 1 -> mmio_read_32 (DRAM_CH0_MMAP_LOW_REG 0 cs MVEBU_REGS_BASE) p
    = Ret (reg p (DRAM_CH0_MMAP_LOW_REG 0 cs MVEBU_REGS_BASE)) p).
  { intros cs Hcs. unfold mmio_read_32. destruct (Z.eqb_spec (DRAM_CH0_MMAP_LOW_REG 0 cs MVEBU_REGS_BASE)
      MVEBU_DRAM_STATS_CH0_REG) as [He|]; [|done]. revert He.
    unfold DRAM_CH0_MMAP_LOW_REG, DRAM_CH0_MMAP_LOW_OFFSET, MVEBU_DRAM_STATS_CH0_REG, MVEBU_DRAM_REG_BASE. lia. }
  set (v0 := reg p (DRAM_CH0_MMAP_LOW_REG 0 0 MVEBU_REGS_BASE)) in *.
  set (v1 := reg p (DRAM_CH0_MMAP_LOW_REG 0 1 MVEBU_REGS_BASE)) in *.
  assert (H0 : mmio_read_32 (DRAM_CH0_MMAP_LOW_REG 0 0 MVEBU_REGS_BASE) p = Ret v0 p) by (apply Hread; lia).
  assert (H1 : mmio_read_32 (DRAM_CH0_MMAP_LOW_REG 0 1 MVEBU_REGS_BASE) p = Ret v1 p) by (apply Hread; lia).
  assert (Hcode : forall v sz, region_size (Z.land (Z.shiftr v DRAM_AREA_LENGTH_OFFS) 0x1f) = Some sz -> 0 <= sz <= 2 ^ 42).
  { intros v sz. apply region_size_range. change 0x1f with (Z.ones 5). rewrite Z.land_ones by lia.
    apply Z.mod_pos_bound. lia. }
  unfold bind. rewrite H0. cbv beta iota zeta.
  destruct (Z.land v0 DRAM_CS_VALID_ENABLED_MASK =? 0); [done|]. rewrite H0. cbv beta iota zeta. rewrite region_code.
  destruct (region_size (Z.land (Z.shiftr v0 _) 31)) as [a|] eqn:Ha; [|done]. pose proof (Hcode _ _ Ha).
  rewrite H1. cbv beta iota zeta. rewrite (u64_small (0 + a)) by lia.
  destruct (Z.land v1 DRAM_CS_VALID_ENABLED_MASK =? 0); [done|]. rewrite H1. cbv beta iota zeta. rewrite region_code.
  destruct (region_size (Z.land (Z.shiftr v1 _) 31)) as [b|] eqn:Hb; [|done]. pose proof (Hcode _ _ Hb).
  rewrite u64_small by lia. done.
Qed.

(** ** Programming of the CPU windows *)
Definition cfg_window (c : cpu_win_configuration) : option (Z * Z * Z * Z) :=
  Some (target_value (target c), base_addr c, size c, remap_addr c).

Definition wins_for (p : a3700_hw) : list cpu_win_configuration :=
  if dram_total p <=? _2GB_ then mv_cpu_wins_2gb else mv_cpu_wins_4gb.

Lemma table_ok wins id c :
  wins = mv_cpu_wins_2gb \/ wins = mv_cpu_wins_4gb -> arr_get wins id = Some c -> cpu_win_ok c /\ enabled c = 1.
Proof.
  intros Hw Hc. pose proof (arr_get_Some_range _ _ _ Hc) as Hr.
  assert (Hall : Forall (fun c => cpu_win_ok c /\ enabled c = 1) wins).
  { unfold cpu_win_ok, aligned.
    destruct Hw as [-> | ->]; unfold mv_cpu_wins_2gb, mv_cpu_wins_4gb;
      repeat constructor; cbn;
      match goal with |- exists k, ?x = k * 65536 /\ _ => exists (x / 65536); vm_compute; intuition congruence end. }
  rewrite list.Forall_forall in Hall. apply Hall. unfold arr_get in Hc.
  destruct (0 <=? id); [|done]. by apply list_elem_of_lookup_2 in Hc.
Qed.

Lemma wp_cpu_wins_init (Q : unit -> a3700_hw -> Prop) E p :
  (forall p', (forall a, ~ cpu_win_reg a -> reg p' a = reg p a) -> cpu_window p' 0 = cpu_window p 0 ->
     (forall id c, 1 <= id < MV_CPU_WIN_NUM -> arr_get (wins_for p) id = Some c -> cpu_window p' id = cfg_window c) ->
     Q tt p') ->
  wp cpu_wins_init Q E p.
Proof.
  intros HQ. unfold cpu_wins_init. wp_step. eapply wp_run; [apply dram_size_run|]. wp_step.
  assert (Hget : arr_get mv_cpu_wins (if dram_total p <=? _2GB_ then 0 else 1) = Some (wins_for p))
    by (unfold wins_for; by destruct (dram_total p <=? _2GB_)).
  eapply wp_deref; [exact Hget|].
  assert (Hw : wins_for p = mv_cpu_wins_2gb \/ wins_for p = mv_cpu_wins_4gb)
    by (unfold wins_for; destruct (_ <=? _); auto).
  assert (Hlen : Z.of_nat (length (wins_for p)) = MV_CPU_WIN_NUM) by (by destruct Hw as [-> | ->]).
  apply (wp_forM_ (fun dn p' => (forall a, ~ cpu_win_reg a -> reg p' a = reg p a) /\ cpu_window p' 0 = cpu_window p 0 /\
    forall id c, id ∈ dn -> arr_get (wins_for p) id = Some c -> cpu_window p' id = cfg_window c)).
  - split_and!; [done|done|]. intros id c Hid. by apply not_elem_of_nil in Hid.
  - intros dn id rest p' Hs (Hfr & H0 & Hdn).
    assert (Hid : 1 <= id < MV_CPU_WIN_NUM).
    { assert (id ∈ seqZ 1 (MV_CPU_WIN_NUM - 1)) as Hin.
      { rewrite Hs. apply elem_of_app. right. apply elem_of_cons. by left. }
      apply elem_of_seqZ in Hin. lia. }
    destruct (arr_get_in_range (wins_for p) id) as [c Hc]; [lia|]. wp_step. eapply wp_deref; [done|].
    destruct (table_ok _ _ _ Hw Hc) as [Hok Hen].
    apply wp_cpu_win_set; [unfold cpu_win_id; lia|done|]. intros p2 Hfr2 Hother Hthis. rewrite Hen in Hthis. split_and!.
    + intros a Ha. rewrite (Hfr2 a Ha). by apply Hfr.
    + rewrite Hother by (unfold cpu_win_id, MV_CPU_WIN_NUM; lia). done.
    + intros id' c' Hid' Hc'. destruct (decide (id' = id)) as [->|Hne].
      * assert (c' = c) as -> by congruence. done.
      * apply elem_of_app in Hid' as [Hid'|Hid'%list_elem_of_singleton]; [|done].
        rewrite Hother; [by apply Hdn| |done].
        assert (id' ∈ seqZ 1 (MV_CPU_WIN_NUM - 1)) as Hin%elem_of_seqZ by (rewrite Hs; apply elem_of_app; by left).
        unfold cpu_win_id. lia.
  - intros p' (Hfr & H0 & Hdn). apply HQ; [done|done|]. intros id c Hid Hc. apply Hdn; [|done].
    apply elem_of_seqZ. lia.
Qed.

(** The DRAM windows once the CPU windows are programmed: window 0 as it was,
    and the DRAM windows of the table. *)
Definition dram_wins_after (p : a3700_hw) : list dram_win :=
  option_list (dram_of (cpu_window p 0)) ++ omap (fun c => dram_of (cfg_window c)) (drop 1 (wins_for p)).

Lemma map_build_after p p' :
  cpu_window p' 0 = cpu_window p 0 ->
  (forall id c, 1 <= id < MV_CPU_WIN_NUM -> arr_get (wins_for p) id = Some c -> cpu_window p' id = cfg_window c) ->
  dram_win_map_build p' = Ret (dram_wins_after p) p'.
Proof.
  intros H0 Hrest. unfold dram_win_map_build. rewrite dram_win_loop_spec by apply cpu_ids_ok.
  change (seqZ 0 DRAM_WIN_MAP_NUM_MAX) with [0; 1; 2; 3; 4]. unfold dram_wins_after. f_equal.
  assert (Hw : exists c1 c2 c3 c4 c0, wins_for p = [c0; c1; c2; c3; c4]).
  { unfold wins_for, mv_cpu_wins_2gb, mv_cpu_wins_4gb. destruct (_ <=? _); do 5 eexists; reflexivity. }
  destruct Hw as (c1 & c2 & c3 & c4 & c0 & Hw). rewrite Hw in *. cbn [omap list_omap drop app].
  rewrite H0, (Hrest 1 c1), (Hrest 2 c2), (Hrest 3 c3), (Hrest 4 c4) by (done || unfold MV_CPU_WIN_NUM; lia).
  by destruct (dram_of (cpu_window p 0)).
Qed.
