(* ===== verification/A3700WinProps.v ===== *)
(** * Armada 3700: properties of the address decode windows

    What programming a CPU window makes the hardware decode, the programmed CPU
    windows are the tabled ones and never overlap, and the windows programmed
    into every I/O unit cover exactly the DRAM the CPU sees. *)
From Stdlib Require Import ZArith Lia.
From stdpp Require Import base list numbers option gmap.
From S2P Require Import Prelude A3700Hw A3700Win.
#[local] Open Scope Z_scope.

Lemma io_table_units_ok : Forall unit_ok io_dec_win_conf.
Proof.
  unfold io_dec_win_conf.
  repeat constructor; cbn; try lia; unfold in_unit in *; cbn in *.
  all: unfold irq_status_regs, MVEBU_WARM_RESET_REG, MVEBU_DRAM_STATS_CH0_REG, MVEBU_NB_IRQ_STATUS_1_REG,
    MVEBU_NB_IRQ_STATUS_2_REG, MVEBU_SB_IRQ_STATUS_1_REG, MVEBU_SB_IRQ_STATUS_2_REG,
    MVEBU_NB_GPIO_IRQ_STATUS_LOW_REG, MVEBU_NB_GPIO_IRQ_STATUS_HIGH_REG, MVEBU_SB_GPIO_IRQ_STATUS_REG,
    MVEBU_NB_SB_IRQ_REG_BASE, MVEBU_NB_GPIO_IRQ_REG_BASE, MVEBU_SB_GPIO_IRQ_REG_BASE, MVEBU_NB_REGS_BASE,
    MVEBU_SB_REGS_BASE, MVEBU_DRAM_REG_BASE, MVEBU_REGS_BASE in *.
  all: first [lia | rewrite !not_elem_of_cons; split_and!; try lia; apply not_elem_of_nil].
Qed.

Lemma io_table_disjoint : units_disjoint io_dec_win_conf.
Proof.
  intros i j u v Hi Hj Hne a Hu Hv. unfold in_unit in *.
  do 10 (destruct i as [|i]; [do 10 (destruct j as [|j]; [cbn in Hi, Hj; simplify_eq; cbn in *; lia|]); done|]).
  done.
Qed.

Lemma init_io_run wins p :
  Forall win_ok wins -> exists p', init_io_addr_dec (Some wins) (Some io_dec_win_conf) p = Ret 0 p' /\
    Forall (fun u => unit_decodes p' u wins) io_dec_win_conf /\
    forall a, Forall (fun u => ~ in_unit u a) io_dec_win_conf -> reg p' a = reg p a.
Proof.
  intros Hok.
  destruct (wp_returns (init_io_addr_dec (Some wins) (Some io_dec_win_conf))
    (fun r p' => r = 0 /\ Forall (fun u => unit_decodes p' u wins) io_dec_win_conf /\
       forall a, Forall (fun u => ~ in_unit u a) io_dec_win_conf -> reg p' a = reg p a) p)
    as (r & p' & Hrun & -> & Hdec & Hfr); [|eauto].
  unfold init_io_addr_dec. cbn [io_dec_win_conf length]. change (IO_UNIT_NUM_MAX <? Z.of_nat 10) with false. cbv iota.
  apply wp_io_unit_loop; [apply io_table_units_ok|apply io_table_disjoint|done|].
  intros p' Hfr Hdec. done.
Qed.

(** An address a unit sends to DRAM. *)
Definition unit_reaches (p : a3700_hw) (u : dec_win_config) (a : Z) : Prop :=
  exists id attr b sz, 0 <= id < max_dram_win u /\ io_window p u id = Some (attr, DRAM_CPU_DEC_TARGET_NUM, b, sz) /\
    b <= a < b + sz.

Lemma unit_covers p u wins w a :
  0 < max_dram_win u -> unit_decodes p u wins -> Forall win_ok wins -> w ∈ wins -> w_base w <= a < w_base w + w_size w ->
  a < MVEBU_MAX_ADDRSS_4GB -> unit_reaches p u a.
Proof.
  intros Hmax Hdec Hok Hw Ha H4. rewrite list.Forall_forall in Hok.
  destruct (Hok w Hw) as (b & n & -> & Hb & Hn). cbn in Ha.
  destruct (Z.ltb_spec (max_dram_win u) (Z.of_nat (length wins))) as [Hlt|Hge].
  - exists 0, (win_attr u), 0, MVEBU_MAX_ADDRSS_4GB. split_and!; [lia..| |lia|unfold MVEBU_MAX_ADDRSS_4GB in *; lia].
    rewrite Hdec by lia. destruct (Z.ltb_spec (max_dram_win u) (Z.of_nat (length wins))); [done|lia].
  - apply list_elem_of_lookup in Hw as [i Hi]. pose proof (lookup_lt_Some _ _ _ Hi).
    exists (Z.of_nat i), (win_attr u), (b * 0x10000), (n * 0x10000). split_and!; [lia..| |lia|lia].
    rewrite Hdec by lia. destruct (Z.ltb_spec (max_dram_win u) (Z.of_nat (length wins))); [lia|].
    unfold arr_get. destruct (Z.leb_spec 0 (Z.of_nat i)); [|lia]. by rewrite Nat2Z.id, Hi.
Qed.

Lemma cpu_window_ok p id t b sz r : cpu_window p id = Some (t, b, sz, r) -> win_ok (DramWin b sz).
Proof.
  unfold cpu_window. destruct (_ =? 0); [done|]. intros [= <- <- <- <-].
  eexists _, _. split; [reflexivity|].
  unfold CPU_DEC_BR_BASE_MASK, CPU_DEC_CR_WIN_SIZE_MASK. change 0xffff with (Z.ones 16). rewrite !Z.land_ones by lia.
  pose proof (Z.mod_pos_bound (reg p (CPU_DEC_WIN_BASE_REG id)) (2 ^ 16) ltac:(lia)).
  pose proof (Z.mod_pos_bound (reg p (CPU_DEC_WIN_SIZE_REG id)) (2 ^ 16) ltac:(lia)). lia.
Qed.

(** The windows programmed from the tables are expressible. *)
Lemma dram_wins_after_ok p : Forall win_ok (dram_wins_after p).
Proof.
  pose proof (cpu_window_ok p 0) as H0. unfold dram_wins_after. apply Forall_app. split.
  - destruct (cpu_window p 0) as [[[[t b] sz] r]|]; cbn; [|constructor].
    destruct (t =? DRAM_CPU_DEC_TARGET_NUM); repeat constructor. by eapply H0.
  - unfold wins_for. destruct (_ <=? _); cbn; repeat constructor; unfold win_ok.
    + exists 0x8000, 0x4000. split; [done|lia].
    + exists 0xc000, 0x1000. split; [done|lia].
    + exists 0xe000, 0x0800. split; [done|lia].
Qed.


(** ** Claims *)

(** ** The size register as the hardware reads it

    dram_win.c describes the size field as a run of 1s from the least
    significant bit, followed by 0s: [k] ones open a window of [2 ^ k] units of
    64 KB.  A field with any other pattern has no described meaning. *)
Definition ones_run (v : Z) : option Z := snd <$> list_find (fun k => v = Z.ones k) (seqZ 0 17).

Inductive decoded : Type :=
| Disabled
| Window (tgt base sz remap : Z)
| Undefined.

Definition hw_window (p : a3700_hw) (id : Z) : decoded :=
  let ctrl := reg p (CPU_DEC_WIN_CTRL_REG id) in
  if Z.land ctrl CPU_DEC_CR_WIN_ENABLE =? 0 then Disabled
  else match ones_run (Z.land (reg p (CPU_DEC_WIN_SIZE_REG id)) CPU_DEC_CR_WIN_SIZE_MASK) with
       | Some k => Window (Z.shiftr (Z.land ctrl CPU_DEC_CR_WIN_TARGET_MASK) CPU_DEC_CR_WIN_TARGET_OFFS)
           (Z.land (reg p (CPU_DEC_WIN_BASE_REG id)) CPU_DEC_BR_BASE_MASK * CPU_DEC_CR_WIN_SIZE_ALIGNMENT)
           (2 ^ k * CPU_DEC_CR_WIN_SIZE_ALIGNMENT)
           (Z.land (reg p (CPU_DEC_REMAP_LOW_REG id)) CPU_DEC_RLR_REMAP_LOW_MASK * CPU_DEC_CR_WIN_SIZE_ALIGNMENT)
       | None => Undefined
       end.

(** The registers programming a configuration touches. *)
Definition win_regs (id : Z) (c : cpu_win_configuration) : list Z :=
  CPU_DEC_WIN_CTRL_REG id ::
  if enabled c =? 0 then [] else [CPU_DEC_WIN_BASE_REG id; CPU_DEC_REMAP_LOW_REG id; CPU_DEC_WIN_SIZE_REG id].

Lemma ones_run_some k : 0 <= k <= 16 -> ones_run (Z.ones k) = Some k.
Proof.
  intros Hk. replace k with (Z.of_nat (Z.to_nat k)) by lia. assert (Hn : (Z.to_nat k < 17)%nat) by lia.
  generalize dependent (Z.to_nat k). intros n Hn. do 17 (destruct n as [|n]; [reflexivity|]). lia.
Qed.

Lemma ones_run_inv v k : ones_run v = Some k -> 0 <= k <= 16 /\ v = Z.ones k.
Proof.
  unfold ones_run. intros ([i x] & Hf & ->)%fmap_Some. apply list_find_Some in Hf as (Hl & -> & _).
  apply lookup_seqZ in Hl. cbn. split; [lia|done].
Qed.

(** The two readings of the registers: the firmware's own is linear in the
    size field, the described one needs a run of 1s. *)
Lemma hw_of_cpu_window p id :
  hw_window p id =
  match cpu_window p id with
  | None => Disabled
  | Some (t, b, sz, r) => match ones_run (sz / 0x10000 - 1) with Some _ => Window t b sz r | None => Undefined end
  end.
Proof.
  unfold hw_window, cpu_window, CPU_DEC_CR_WIN_SIZE_ALIGNMENT. destruct (_ =? 0); [done|].
  rewrite Z.div_mul by lia. rewrite Z.add_simpl_r. destruct (ones_run _) as [k|] eqn:Hk; [|done].
  apply ones_run_inv in Hk as [Hr ->]. rewrite Z.ones_equiv. f_equal. lia.
Qed.

Lemma wp_cpu_win_set_regs id c (Q : unit -> a3700_hw -> Prop) E p :
  cpu_win_id id -> (forall p', (forall a, a ∉ win_regs id c -> reg p' a = reg p a) -> Q tt p') ->
  wp (cpu_win_set id c) Q E p.
Proof.
  intros Hid HQ. unfold cpu_win_set. wp_step. apply wp_mmio_read; [apply cpu_win_plain; win_addr|].
  wp_step. apply wp_mmio_write; [apply cpu_win_plain; win_addr|]. unfold win_regs in HQ.
  destruct (enabled c =? 0).
  - wp_step. apply HQ. intros a Ha. rewrite reg_set_ne; set_solver.
  - do 3 (wp_step; apply wp_mmio_write; [apply cpu_win_plain; win_addr|]).
    apply wp_mmio_write; [apply cpu_win_plain; win_addr|]. apply HQ.
    intros a Ha. rewrite !reg_set_ne; set_solver.
Qed.

(** Every enabled window of the board's tables is encodable. *)
Lemma tabled_windows_encodable :
  Forall (fun c => enabled c = 0 \/ exists k, 0 <= k <= 16 /\ size c = 2 ^ k * 0x10000) (concat mv_cpu_wins).
Proof.
  cbn. repeat (apply Forall_cons; split); [..|apply Forall_nil; exact I]; cbn; right;
    match goal with |- exists k, _ /\ ?x = _ => exists (Z.log2 (x / 0x10000)) end; vm_compute; intuition congruence.
Qed.

(** [C31] Programming a CPU decode window, with the size register read as
    dram_win.c describes it (a run of 1s): for every window and every
    configuration in whole 64 KB units, [cpu_win_set] returns and, whatever the
    registers held before, a configuration that is not enabled leaves the
    window disabled; an enabled one whose size is a power of two of 64 KB units
    makes the window decode to exactly the configured target, base, size and
    remap address (the remap address is the configuration's own, not the base
    as the comment in the function has it); and an enabled one of any other
    size, which the function accepts without a check, leaves a size pattern
    with no described meaning.  Only the control register of this window, and
    its base, remap and size registers when the configuration is enabled, can
    change; every other register keeps its value. *)
Theorem cpu_win_set_decodes id c p :
  cpu_win_id id -> cpu_win_ok c ->
  exists p', cpu_win_set id c p = Ret tt p' /\
    (enabled c = 0 -> hw_window p' id = Disabled) /\
    (enabled c <> 0 -> forall k, 0 <= k <= 16 -> size c = 2 ^ k * 0x10000 ->
       hw_window p' id = Window (target_value (target c)) (base_addr c) (size c) (remap_addr c)) /\
    (enabled c <> 0 -> (forall k, 0 <= k <= 16 -> size c <> 2 ^ k * 0x10000) -> hw_window p' id = Undefined) /\
    (forall a, a ∉ win_regs id c -> reg p' a = reg p a).
Proof.
  intros Hid Hok.
  destruct (wp_returns (cpu_win_set id c) (fun _ p' =>
    cpu_window p' id = (if enabled c =? 0 then None else cfg_window c)) p) as ([] & p' & H1 & H2);
    [by apply wp_cpu_win_set|].
  destruct (wp_returns (cpu_win_set id c) (fun _ p' => forall a, a ∉ win_regs id c -> reg p' a = reg p a) p)
    as ([] & p'' & H3 & H4); [by apply wp_cpu_win_set_regs|].
  assert (p'' = p') as -> by congruence. exists p'. rewrite hw_of_cpu_window, H2. unfold cfg_window.
  destruct Hok as (_ & _ & n & Hs & Hn).
  split_and!; [done| | | |done]; intros He; destruct (Z.eqb_spec (enabled c) 0); try done.
  - intros k Hk Hsz. rewrite Hsz, Z.div_mul by lia.
    replace (2 ^ k - 1) with (Z.ones k) by (rewrite Z.ones_equiv; lia). by rewrite ones_run_some.
  - intros Hno. destruct (ones_run _) as [k|] eqn:Hk; [|done]. apply ones_run_inv in Hk as [Hk Hv]. exfalso.
    apply (Hno k Hk). rewrite Hs, Z.div_mul, Z.ones_equiv in * by lia. lia.
Qed.

(** Registers as the boot ROM leaves them on a 4 GB board: one chip select of
    4 GB, CPU window 0 open on the first 2 GB of DRAM. *)
Definition board_4gb : a3700_hw :=
  Hw (list_to_map [(0xD0000200, 0x100001); (0xD000CF00, 0x1); (0xD000CF04, 0x7fff); (0xD000CF08, 0)]) 3 [].

Lemma cpu_win_set_decodes_witness :
  (exists p', cpu_win_set 4 (CpuWin 1 CPU_WIN_TARGET_PCIE 0xe8000000 0x08000000 0xe8000000) board_4gb = Ret tt p' /\
    hw_window p' 4 = Window 2 0xe8000000 0x08000000 0xe8000000) /\
  exists p', cpu_win_set 4 (CpuWin 1 CPU_WIN_TARGET_PCIE 0xe8000000 0x30000 0xe8000000) board_4gb = Ret tt p' /\
    hw_window p' 4 = Undefined.
Proof.
  split.
  - destruct (cpu_win_set_decodes 4 (CpuWin 1 CPU_WIN_TARGET_PCIE 0xe8000000 0x08000000 0xe8000000) board_4gb)
      as (p' & Hrun & _ & Hw & _).
    + unfold cpu_win_id, MV_CPU_WIN_NUM. lia.
    + repeat split; [exists 0xe800|exists 0xe800|exists 0x800]; vm_compute; intuition congruence.
    + exists p'. split; [exact Hrun|]. apply (Hw ltac:(discriminate) 11); [lia|reflexivity].
  - destruct (cpu_win_set_decodes 4 (CpuWin 1 CPU_WIN_TARGET_PCIE 0xe8000000 0x30000 0xe8000000) board_4gb)
      as (p' & Hrun & _ & _ & Hw & _).
    + unfold cpu_win_id, MV_CPU_WIN_NUM. lia.
    + repeat split; [exists 0xe800|exists 0xe800|exists 3]; vm_compute; intuition congruence.
    + exists p'. split; [exact Hrun|]. apply Hw; [discriminate|]. intros k Hk. cbn [size].
      destruct (decide (k <= 1)); [assert (k = 0 \/ k = 1) as [-> | ->] by lia; cbn; lia|].
      pose proof (Z.pow_le_mono_r 2 2 k). lia.
Defined.

(** [cpu_wins_init] followed by [dram_win_map_build], as BL31 runs them:
    both return; with at most 2 GB of DRAM the only DRAM windows reported are
    those open in window 0, otherwise the three further DRAM windows of the
    4 GB table follow it; and the DRAM size that decides is the sum of the
    areas of the enabled chip selects. *)
Theorem cpu_wins_init_dram_map p :
  exists p', cpu_wins_init p = Ret tt p' /\
    dram_win_map_build p' = Ret (option_list (dram_of (cpu_window p 0)) ++
      (if dram_total p <=? 0x80000000 then []
       else [DramWin 0x80000000 0x40000000; DramWin 0xc0000000 0x10000000; DramWin 0xe0000000 0x08000000])) p' /\
    mvebu_get_dram_size MVEBU_REGS_BASE p = Ret (dram_total p) p.
Proof.
  destruct (wp_returns cpu_wins_init (fun _ p' => dram_win_map_build p' = Ret (dram_wins_after p) p') p)
    as ([] & p' & Hrun & Hmap).
  - apply wp_cpu_wins_init. intros p' _ H0 Hrest. by apply map_build_after.
  - exists p'. split_and!; [done| |apply dram_size_run]. rewrite Hmap. unfold dram_wins_after, wins_for, _2GB_.
    by destruct (dram_total p <=? 0x80000000).
Qed.

(** [init_io_addr_dec] programs every I/O unit of the board: it returns
    0, and for every list of DRAM windows in whole 64 KB units below 4 GB each
    unit decodes exactly these windows and nothing else, or, when there are
    more of them than the unit has window registers, the single window that
    spans 4 GB; registers outside the units' blocks are unchanged. *)
Theorem init_io_addr_dec_decodes wins p :
  Forall win_ok wins ->
  exists p', init_io_addr_dec (Some wins) (Some io_dec_win_conf) p = Ret 0 p' /\
    Forall (fun u => unit_decodes p' u wins) io_dec_win_conf /\
    forall a, Forall (fun u => ~ in_unit u a) io_dec_win_conf -> reg p' a = reg p a.
Proof. apply init_io_run. Qed.

Lemma init_io_addr_dec_decodes_witness :
  exists p', init_io_addr_dec (Some [DramWin 0 0x80000000; DramWin 0x80000000 0x40000000; DramWin 0xc0000000 0x10000000])
      (Some io_dec_win_conf) board_4gb = Ret 0 p' /\
    Forall (fun u => unit_decodes p' u [DramWin 0 0x80000000; DramWin 0x80000000 0x40000000;
                                        DramWin 0xc0000000 0x10000000]) io_dec_win_conf.
Proof.
  destruct (init_io_addr_dec_decodes
    [DramWin 0 0x80000000; DramWin 0x80000000 0x40000000; DramWin 0xc0000000 0x10000000] board_4gb)
    as (p' & Hrun & Hdec & _).
  - repeat constructor; [exists 0, 0x8000|exists 0x8000, 0x4000|exists 0xc000, 0x1000]; (split; [reflexivity|lia]).
  - exists p'. split; [exact Hrun|exact Hdec].
Defined.

(** [C32] No hole for DMA: whatever the registers held, after the CPU windows
    have been programmed and the I/O units initialised from the map read back,
    every address below 4 GB that the CPU sees as DRAM is decoded to DRAM by
    every I/O unit. *)
Theorem io_units_cover_dram p :
  exists p1 wins p2,
    cpu_wins_init p = Ret tt p1 /\ dram_win_map_build p1 = Ret wins p1 /\
    init_io_addr_dec (Some wins) (Some io_dec_win_conf) p1 = Ret 0 p2 /\
    forall u id b sz r a, u ∈ io_dec_win_conf -> cpu_win_id id ->
      cpu_window p1 id = Some (DRAM_CPU_DEC_TARGET_NUM, b, sz, r) -> b <= a < b + sz ->
      a < MVEBU_MAX_ADDRSS_4GB -> unit_reaches p2 u a.
Proof.
  destruct (wp_returns cpu_wins_init (fun _ p' => dram_win_map_build p' = Ret (dram_wins_after p) p') p)
    as ([] & p1 & Hrun & Hmap).
  { apply wp_cpu_wins_init. intros p' _ H0 Hrest. by apply map_build_after. }
  pose proof (dram_wins_after_ok p) as Hok.
  destruct (init_io_run _ p1 Hok) as (p2 & Hio & Hdec & _).
  exists p1, (dram_wins_after p), p2. split_and!; [done..|]. intros u id b sz r a Hu Hid Hw Ha H4.
  rewrite list.Forall_forall in Hdec.
  assert (Hmax : 0 < max_dram_win u).
  { pose proof io_table_units_ok as Ht. rewrite list.Forall_forall in Ht. by destruct (Ht u Hu). }
  eapply (unit_covers _ _ _ (DramWin b sz)); [done|by apply Hdec|done| |done|done].
  unfold dram_win_map_build in Hmap. rewrite dram_win_loop_spec in Hmap by apply cpu_ids_ok.  rewrite app_nil_l in Hmap.
  assert (Heq : omap (fun id => dram_of (cpu_window p1 id)) (seqZ 0 DRAM_WIN_MAP_NUM_MAX) = dram_wins_after p)
    by congruence.
  rewrite <- Heq. apply list_elem_of_omap. exists id. split.
  - apply elem_of_seqZ. unfold cpu_win_id, MV_CPU_WIN_NUM, DRAM_WIN_MAP_NUM_MAX in *. lia.
  - rewrite Hw. cbn. done.
Qed.

(** Address ranges outside the configurable windows (comment of dram_win.c):
    internal registers, CCI registers, boot ROM. *)
Definition fixed_regions : list (Z * Z) :=
  [(0xD0000000, 0xD2000000); (0xD8000000, 0xD8010000); (0xFFF00000, 0x100000000)].

Definition no_overlap (b1 s1 b2 s2 : Z) : Prop := b1 + s1 <= b2 \/ b2 + s2 <= b1.

(** The CPU windows never overlap: if window 0 opens at most the first
    2 GB, then after [cpu_wins_init] any two different enabled windows are
    disjoint, and none of windows 1 to 4 touches the internal registers, the
    CCI registers or the boot ROM. *)
Theorem cpu_windows_disjoint p t0 s0 r0 :
  cpu_window p 0 = Some (t0, 0, s0, r0) -> s0 <= 0x80000000 ->
  exists p', cpu_wins_init p = Ret tt p' /\
    (forall i j ti bi si ri tj bj sj rj, cpu_win_id i -> cpu_win_id j -> i <> j ->
       cpu_window p' i = Some (ti, bi, si, ri) -> cpu_window p' j = Some (tj, bj, sj, rj) -> no_overlap bi si bj sj) /\
    (forall i t b s r lo hi, 1 <= i < MV_CPU_WIN_NUM -> cpu_window p' i = Some (t, b, s, r) ->
       (lo, hi) ∈ fixed_regions -> no_overlap b s lo (hi - lo)).
Proof.
  intros H0 Hs0.
  destruct (wp_returns cpu_wins_init (fun _ p' => cpu_window p' 0 = cpu_window p 0 /\
    forall id c, 1 <= id < MV_CPU_WIN_NUM -> arr_get (wins_for p) id = Some c -> cpu_window p' id = cfg_window c) p)
    as ([] & p' & Hrun & Hw0 & Hrest).
  { apply wp_cpu_wins_init. auto. }
  exists p'. split; [done|].
  assert (Hw : forall i t b s r, 1 <= i < MV_CPU_WIN_NUM -> cpu_window p' i = Some (t, b, s, r) ->
    exists c, arr_get (wins_for p) i = Some c /\ base_addr c = b /\ size c = s).
  { intros i t b s r Hi Hwi. destruct (arr_get_in_range (wins_for p) i) as [c Hc].
    { unfold wins_for. destruct (_ <=? _); cbn; unfold MV_CPU_WIN_NUM in *; lia. }
    rewrite (Hrest i c Hi Hc) in Hwi. injection Hwi as <- <- <- <-. eauto. }
  split.
  - assert (Hlt : forall i j ti bi si ri tj bj sj rj, cpu_win_id i -> cpu_win_id j -> i < j ->
       cpu_window p' i = Some (ti, bi, si, ri) -> cpu_window p' j = Some (tj, bj, sj, rj) -> no_overlap bi si bj sj).
    { intros i j ti bi si ri tj bj sj rj Hi Hj Hij Hwi Hwj. unfold cpu_win_id, MV_CPU_WIN_NUM in *.
      destruct (Hw j _ _ _ _ ltac:(unfold MV_CPU_WIN_NUM; lia) Hwj) as (cj & Hcj & <- & <-).
      destruct (decide (i = 0)) as [->|Hi0].
      - rewrite Hw0, H0 in Hwi. injection Hwi as <- <- <- <-. left. revert Hcj. unfold wins_for.
        assert (j = 1 \/ j = 2 \/ j = 3 \/ j = 4) as [->|[->|[->| ->]]] by lia;
          (destruct (_ <=? _); intros [= <-]; cbn; lia).
      - destruct (Hw i _ _ _ _ ltac:(unfold MV_CPU_WIN_NUM; lia) Hwi) as (ci & Hci & <- & <-). revert Hci Hcj. unfold wins_for.
        assert (i = 1 \/ i = 2 \/ i = 3) as [->|[->| ->]] by lia;
          assert (j = 2 \/ j = 3 \/ j = 4) as [->|[->| ->]] by lia; try lia;
          (destruct (_ <=? _); intros [= <-] [= <-]; unfold no_overlap; cbn; lia). }
    intros i j ti bi si ri tj bj sj rj Hi Hj Hne Hwi Hwj. destruct (decide (i < j)).
    + by eapply (Hlt i j).
    + assert (no_overlap bj sj bi si) as [Hd|Hd] by (eapply (Hlt j i); eauto; lia); [by right|by left].
  - intros i t b s r lo hi Hi Hwi Hf. destruct (Hw i _ _ _ _ Hi Hwi) as (c & Hc & <- & <-). revert Hc. unfold wins_for.
    unfold MV_CPU_WIN_NUM in Hi. unfold fixed_regions in Hf. rewrite !elem_of_cons in Hf.
    assert (i = 1 \/ i = 2 \/ i = 3 \/ i = 4) as [->|[->|[->| ->]]] by lia;
      destruct Hf as [[= -> ->]|[[= -> ->]|[[= -> ->]|Hf%not_elem_of_nil]]]; try done;
      (destruct (_ <=? _); intros [= <-]; unfold no_overlap; cbn; lia).
Qed.

Lemma cpu_windows_disjoint_witness :
  exists p', cpu_wins_init board_4gb = Ret tt p' /\
    forall i j ti bi si ri tj bj sj rj, cpu_win_id i -> cpu_win_id j -> i <> j ->
       cpu_window p' i = Some (ti, bi, si, ri) -> cpu_window p' j = Some (tj, bj, sj, rj) -> no_overlap bi si bj sj.
Proof.
  destruct (cpu_windows_disjoint board_4gb 0 0x80000000 0) as (p' & Hrun & Hd & _).
  - vm_compute. reflexivity.
  - lia.
  - exists p'. split; [exact Hrun|exact Hd].
Defined.

(** The area length code of a chip select means what the table in the
    comment of marvell_ddr_info.c says: 384 MB << n for 0..4, 8 MB << (n - 7)
    for 7..26, and no other code is accepted. *)
Theorem region_size_table c :
  0 <= c < 2 ^ 5 ->
  region_size c = if c <=? 4 then Some (384 * 2 ^ 20 * 2 ^ c)
                  else if (7 <=? c) && (c <=? 26) then Some (8 * 2 ^ 20 * 2 ^ (c - 7)) else None.
Proof.
  intros Hc. assert (H : forall k : nat, (k < 32)%nat -> region_size (Z.of_nat k) =
    if Z.of_nat k <=? 4 then Some (384 * 2 ^ 20 * 2 ^ Z.of_nat k)
    else if (7 <=? Z.of_nat k) && (Z.of_nat k <=? 26) then Some (8 * 2 ^ 20 * 2 ^ (Z.of_nat k - 7)) else None).
  { intros k Hk. do 32 (destruct k as [|k]; [vm_compute; done|]). lia. }
  specialize (H (Z.to_nat c) ltac:(lia)). by rewrite Z2Nat.id in H by lia.
Qed.

Lemma region_size_table_witness : region_size 16 = Some (4 * 2 ^ 30).
Proof. rewrite (region_size_table 16 ltac:(lia)). vm_compute. reflexivity. Defined.
