(* ===== verification/A3700Pm.v ===== *)
(** * Armada 3700: power management port

    The PSCI hooks of the platform (a3700/common/plat_pm.c), its topology
    (common/marvell_topology.c), the mailbox (common/marvell_pm.c), the board's
    wake-up sources (a3700/board/pm_src.c), the BL31 window set-up
    (a3700/plat_bl31_setup.c) and the SiP service (a3700_sip_svc.c). *)
From stdpp Require Import base list numbers option gmap.
From Stdlib Require Import ZArith Lia.
From S2P Require Import Prelude PsciDefs A3700Hw A3700Win.
#[local] Open Scope Z_scope.
#[local] Abbreviation HM := (M a3700_hw).

(** ** Registers and bits (plat_pm.c) *)
Definition MVEBU_NB_GPIO1_SEL_REG : Z := MVEBU_NB_REGS_BASE + 0x830.
Definition MVEBU_NB_GPIO1_UART1_SEL : Z := BIT 19.
Definition MVEBU_NB_GPIO1_GPIO_25_26_EN : Z := BIT 17.
Definition MVEBU_NB_GPIO1_GPIO_19_EN : Z := BIT 14.
Definition MVEBU_NB_GPIO1_GPIO_18_EN : Z := BIT 13.
Definition MVEBU_CPU_1_RESET_VECTOR : Z := MVEBU_REGS_BASE + 0x14044.
Definition MVEBU_CPU_1_RESET_REG : Z := MVEBU_REGS_BASE + 0xD00C.
Definition MVEBU_CPU_1_RESET_BIT : Z := 31.
Definition MVEBU_NB_GPIO_IRQ_MASK_1_REG : Z := MVEBU_NB_SB_IRQ_REG_BASE + 0xC8.
Definition MVEBU_NB_GPIO_IRQ_MASK_2_REG : Z := MVEBU_NB_SB_IRQ_REG_BASE + 0xD8.
Definition MVEBU_SB_GPIO_IRQ_MASK_REG : Z := MVEBU_NB_SB_IRQ_REG_BASE + 0xE8.
Definition MVEBU_NB_GPIO_IRQ_EN_LOW_REG : Z := MVEBU_NB_GPIO_IRQ_REG_BASE.
Definition MVEBU_NB_GPIO_IRQ_EN_HIGH_REG : Z := MVEBU_NB_GPIO_IRQ_REG_BASE + 0x04.
Definition MVEBU_SB_GPIO_IRQ_EN_REG : Z := MVEBU_SB_GPIO_IRQ_REG_BASE.
Definition MVEBU_PM_NB_PWR_CTRL_REG : Z := MVEBU_PMSU_REG_BASE.
Definition MVEBU_PM_PWR_DN_CNT_SEL : Z := BIT 28.
Definition MVEBU_PM_SB_PWR_DWN : Z := BIT 4.
Definition MVEBU_PM_INTERFACE_IDLE : Z := BIT 0.
Definition MVEBU_PM_NB_CPU_PWR_CTRL_REG : Z := MVEBU_PMSU_REG_BASE + 0x4.
Definition MVEBU_PM_L2_FLUSH_EN : Z := BIT 22.
Definition MVEBU_PM_NB_PWR_OPTION_REG : Z := MVEBU_PMSU_REG_BASE + 0x8.
Definition MVEBU_PM_DDR_SR_EN : Z := BIT 29.
Definition MVEBU_PM_DDR_CLK_DIS_EN : Z := BIT 28.
Definition MVEBU_PM_WARM_RESET_EN : Z := BIT 27.
Definition MVEBU_PM_DDRPHY_PWRDWN_EN : Z := BIT 23.
Definition MVEBU_PM_DDRPHY_PAD_PWRDWN_EN : Z := BIT 22.
Definition MVEBU_PM_TBG_OFF_EN : Z := BIT 20.
Definition MVEBU_PM_CPU_VDDV_OFF_EN : Z := BIT 19.
Definition MVEBU_PM_AVS_DISABLE_MODE : Z := BIT 14.
Definition MVEBU_PM_AVS_VDD2_MODE : Z := BIT 13.
Definition MVEBU_PM_AVS_HOLD_MODE : Z := BIT 12.
(** Bits 8 down to 0. *)
Definition MVEBU_PM_NB_SRAM_LKG_PD_EN : Z := foldr (fun b acc => Z.lor (BIT b) acc) 0 (seqZ 0 9).
Definition MVEBU_PM_NB_PWR_DEBUG_REG : Z := MVEBU_PMSU_REG_BASE + 0xC.
Definition MVEBU_PM_IGNORE_CM3_SLEEP : Z := BIT 21.
Definition MVEBU_PM_IGNORE_CM3_DEEP : Z := BIT 20.
Definition MVEBU_PM_NB_WAKE_UP_EN_REG : Z := MVEBU_PMSU_REG_BASE + 0x2C.
Definition MVEBU_PM_SB_WKP_NB_EN : Z := BIT 31.
Definition MVEBU_PM_NB_GPIO_WKP_EN : Z := BIT 27.
Definition MVEBU_PM_NB_WKP_EN : Z := BIT 16.
Definition MVEBU_PM_CORE1_FIQ_IRQ_WKP_EN : Z := BIT 13.
Definition MVEBU_PM_CORE0_FIQ_IRQ_WKP_EN : Z := BIT 12.
Definition MVEBU_PM_CPU_0_PWR_CTRL_REG : Z := MVEBU_PMSU_REG_BASE + 0x34.
Definition MVEBU_PM_CPU_1_PWR_CTRL_REG : Z := MVEBU_PMSU_REG_BASE + 0x38.
Definition MVEBU_PM_CORE_SOC_PD : Z := BIT 2.
Definition MVEBU_PM_CORE_PROC_PD : Z := BIT 1.
Definition MVEBU_PM_CORE_PD : Z := BIT 0.
Definition MVEBU_PM_CPU_VDD_OFF_INFO_1_REG : Z := MVEBU_PMSU_REG_BASE + 0x48.
Definition MVEBU_PM_CPU_VDD_OFF_INFO_2_REG : Z := MVEBU_PMSU_REG_BASE + 0x4C.
Definition MVEBU_PM_LOW_POWER_STATE : Z := BIT 0.
Definition MVEBU_PM_CPU_WAKE_UP_CONF_REG : Z := MVEBU_PMSU_REG_BASE + 0x54.
Definition MVEBU_PM_CORE1_WAKEUP : Z := BIT 13.
Definition MVEBU_PM_CORE0_WAKEUP : Z := BIT 12.
Definition MVEBU_PM_WAIT_DDR_RDY_VALUE : Z := 0x15.
Definition MVEBU_PM_SB_CPU_PWR_CTRL_REG : Z := MVEBU_SB_WAKEUP_REG_BASE.
Definition MVEBU_PM_SB_PM_START : Z := BIT 0.
Definition MVEBU_PM_SB_PWR_OPTION_REG : Z := MVEBU_SB_WAKEUP_REG_BASE + 0x4.
Definition MVEBU_PM_SDIO_PHY_PDWN_EN : Z := BIT 17.
Definition MVEBU_PM_SB_VDDV_OFF_EN : Z := BIT 16.
(** Bits 11 down to 1. *)
Definition MVEBU_PM_SB_SRAM_LKG_PD_EN : Z := foldr (fun b acc => Z.lor (BIT b) acc) 0 (seqZ 1 11).
Definition MVEBU_PM_SB_WK_EN_REG : Z := MVEBU_SB_WAKEUP_REG_BASE + 0x10.
Definition MVEBU_PM_SB_GPIO_WKP_EN : Z := BIT 24.
Definition MVEBU_PM_SB_WKP_EN : Z := BIT 20.
Definition MVEBU_DRAM_CMD_0_REG : Z := MVEBU_DRAM_REG_BASE + 0x20.
Definition MVEBU_DRAM_CH0_CMD0 : Z := BIT 28.
Definition MVEBU_DRAM_CS_CMD0 : Z := BIT 24.
Definition MVEBU_DRAM_WCB_DRAIN_REQ : Z := BIT 1.
Definition MVEBU_DRAM_PWR_CTRL_REG : Z := MVEBU_DRAM_REG_BASE + 0x54.
Definition MVEBU_DRAM_PHY_CLK_GATING_EN : Z := BIT 1.
Definition MVEBU_DRAM_PHY_AUTO_AC_OFF_EN : Z := BIT 0.
Definition MVEBU_AVS_CTRL_2_REG : Z := MVEBU_AVS_REG_BASE + 0x8.
Definition MVEBU_LOW_VDD_MODE_EN : Z := BIT 6.
Definition MVEBU_NB_CLOCK_SEL_REG : Z := MVEBU_NB_REGS_BASE + 0x10.
Definition MVEBU_A53_CPU_CLK_SEL : Z := BIT 15.
Definition MVEBU_NB_STEP_DOWN_INT_EN_REG : Z := MVEBU_NB_STEP_DOWN_REG_BASE.
Definition MVEBU_NB_GPIO_INT_WAKE_WCPU_CLK : Z := BIT 8.

(** Memory layout (platform_def.h, marvell_def.h, marvell_pm.h). *)
Definition PLAT_MARVELL_ATF_BASE : Z := 0x4000000.
Definition PLAT_MARVELL_CPU_ENTRY_ADDR : Z := PLAT_MARVELL_ATF_BASE + 0x100000.
Definition MARVELL_SHARED_RAM_BASE : Z := PLAT_MARVELL_ATF_BASE.
Definition MARVELL_SHARED_RAM_SIZE : Z := 0x1000.
Definition PLAT_MARVELL_MAILBOX_BASE : Z := PLAT_MARVELL_ATF_BASE + 0x400.
Definition MVEBU_MAILBOX_MAGIC_NUM : Z := 0x6D72766C.
Definition MBOX_IDX_MAGIC : Z := 0.
Definition MBOX_IDX_SEC_ADDR : Z := 1.

(** ** Build configuration (marvell_def.h, psci.h); [debug] selects assertions. *)
Definition PLAT_MARVELL_CLUSTER_COUNT : Z := 1.
Definition PLAT_MARVELL_CLUSTER_CORE_COUNT : Z := 2.
Definition a3700_cfg (debug : bool) : PlatCfg := {|
  PLATFORM_CORE_COUNT := PLAT_MARVELL_CLUSTER_CORE_COUNT;
  PLAT_MAX_PWR_LVL := 1;
  PSCI_NUM_NON_CPU_PWR_DOMAINS := 2 * PLAT_MARVELL_CLUSTER_CORE_COUNT - PLAT_MARVELL_CLUSTER_CORE_COUNT;
  PLAT_MAX_RET_STATE := 1;
  PLAT_MAX_OFF_STATE := 2;
  PLAT_MAX_PWR_LVL_STATES := 2;
  ENABLE_ASSERTIONS := debug;
  ENABLE_PSCI_STAT := false;
  PSCI_EXTENDED_STATE_ID := false;
  HW_ASSISTED_COHERENCY := false;
  USE_COHERENT_MEM := false;
  WARMBOOT_ENABLE_DCACHE_EARLY := false
|}.

(** ** Interrupts *)
Definition ack_one (a : Z) : HM unit :=
  let! reg := mmio_read_32 a in
  when (truthy reg) (mmio_write_32 a reg).

Definition a3700_pm_ack_irq : HM unit :=
  ack_one MVEBU_NB_IRQ_STATUS_1_REG ;;;
  ack_one MVEBU_NB_IRQ_STATUS_2_REG ;;;
  ack_one MVEBU_SB_IRQ_STATUS_1_REG ;;;
  ack_one MVEBU_SB_IRQ_STATUS_2_REG ;;;
  ack_one MVEBU_NB_GPIO_IRQ_STATUS_LOW_REG ;;;
  ack_one MVEBU_NB_GPIO_IRQ_STATUS_HIGH_REG ;;;
  ack_one MVEBU_SB_GPIO_IRQ_STATUS_REG.

(** ** Hooks that are not implemented: they print an error and [panic]. *)
Definition a3700_validate_power_state (power_state : Z) (req_state : psci_power_state_t) :
    HM (Z * psci_power_state_t) := halt_with HPanic.
Definition a3700_cpu_standby (cpu_state : Z) : HM unit := halt_with HPanic.
Definition a3700_system_off : HM unit := halt_with HPanic.

(** ** CPU_ON and CPU_OFF *)
Definition a3700_pwr_domain_on (mpidr : Z) : HM Z :=
  dev Dsb ;;;
  mmio_write_32 MVEBU_CPU_1_RESET_VECTOR (Z.shiftr PLAT_MARVELL_CPU_ENTRY_ADDR 2) ;;;
  mmio_clrbits_32 MVEBU_CPU_1_RESET_REG (BIT MVEBU_CPU_1_RESET_BIT) ;;;
  mmio_setbits_32 MVEBU_CPU_1_RESET_REG (BIT MVEBU_CPU_1_RESET_BIT) ;;;
  ret 0.

Definition a3700_validate_ns_entrypoint (entrypoint : Z) : HM Z := ret PSCI_E_SUCCESS.

Definition a3700_pwr_domain_off (target_state : psci_power_state_t) : HM unit :=
  dev GicCpuifDisable ;;;
  a3700_pm_ack_irq.

(** ** Suspend *)
Definition a3700_set_gen_pwr_off_option : HM unit :=
  mmio_setbits_32 MVEBU_PM_NB_CPU_PWR_CTRL_REG MVEBU_PM_L2_FLUSH_EN ;;;
  mmio_clrbits_32 MVEBU_PM_NB_PWR_OPTION_REG MVEBU_PM_CPU_VDDV_OFF_EN ;;;
  mmio_clrbits_32 MVEBU_NB_CLOCK_SEL_REG MVEBU_A53_CPU_CLK_SEL ;;;
  mmio_setbits_32 MVEBU_PM_NB_PWR_DEBUG_REG MVEBU_PM_IGNORE_CM3_SLEEP ;;;
  mmio_setbits_32 MVEBU_PM_NB_PWR_DEBUG_REG MVEBU_PM_IGNORE_CM3_DEEP ;;;
  mmio_setbits_32 MVEBU_PM_NB_PWR_OPTION_REG MVEBU_PM_NB_SRAM_LKG_PD_EN ;;;
  mmio_setbits_32 MVEBU_PM_NB_PWR_CTRL_REG MVEBU_PM_INTERFACE_IDLE ;;;
  mmio_setbits_32 MVEBU_PM_CPU_0_PWR_CTRL_REG MVEBU_PM_CORE_PD ;;;
  mmio_setbits_32 MVEBU_PM_CPU_1_PWR_CTRL_REG MVEBU_PM_CORE_PD ;;;
  mmio_setbits_32 MVEBU_PM_CPU_0_PWR_CTRL_REG MVEBU_PM_CORE_SOC_PD ;;;
  mmio_setbits_32 MVEBU_PM_CPU_1_PWR_CTRL_REG MVEBU_PM_CORE_SOC_PD ;;;
  mmio_setbits_32 MVEBU_PM_CPU_0_PWR_CTRL_REG MVEBU_PM_CORE_PROC_PD ;;;
  mmio_setbits_32 MVEBU_PM_CPU_1_PWR_CTRL_REG MVEBU_PM_CORE_PROC_PD.

(** [while ((read & EMPTY) != EMPTY)]: stops with [HHang] when the bit does not
    appear in [fuel] reads. *)
Fixpoint drain_poll (fuel : nat) : HM unit :=
  match fuel with
  | O => halt_with HHang
  | S fuel' =>
      let! v := mmio_read_32 MVEBU_DRAM_STATS_CH0_REG in
      if Z.land v MVEBU_DRAM_WCP_EMPTY =? MVEBU_DRAM_WCP_EMPTY then ret tt else drain_poll fuel'
  end.

(** One read more than the write buffer needs to drain. *)
Definition drain_wait : HM unit := let! n := gets drain in drain_poll (S n).

Definition a3700_en_ddr_self_refresh : HM unit :=
  mmio_setbits_32 MVEBU_PM_NB_PWR_CTRL_REG MVEBU_PM_PWR_DN_CNT_SEL ;;;
  mmio_setbits_32 MVEBU_PM_NB_PWR_OPTION_REG MVEBU_PM_DDR_SR_EN ;;;
  mmio_setbits_32 MVEBU_PM_NB_PWR_OPTION_REG MVEBU_PM_DDR_CLK_DIS_EN ;;;
  mmio_setbits_32 MVEBU_PM_NB_PWR_OPTION_REG MVEBU_PM_DDRPHY_PWRDWN_EN ;;;
  mmio_setbits_32 MVEBU_PM_NB_PWR_OPTION_REG MVEBU_PM_DDRPHY_PAD_PWRDWN_EN ;;;
  mmio_write_32 MVEBU_PM_CPU_VDD_OFF_INFO_1_REG MVEBU_PM_WAIT_DDR_RDY_VALUE ;;;
  mmio_write_32 MVEBU_DRAM_CMD_0_REG
    (Z.lor (Z.lor MVEBU_DRAM_CH0_CMD0 MVEBU_DRAM_CS_CMD0) MVEBU_DRAM_WCB_DRAIN_REQ) ;;;
  drain_wait ;;;
  mmio_setbits_32 MVEBU_DRAM_PWR_CTRL_REG (Z.lor MVEBU_DRAM_PHY_CLK_GATING_EN MVEBU_DRAM_PHY_AUTO_AC_OFF_EN).

Definition a3700_pwr_dn_avs : HM unit :=
  mmio_clrbits_32 MVEBU_PM_NB_PWR_OPTION_REG MVEBU_PM_AVS_DISABLE_MODE ;;;
  mmio_setbits_32 MVEBU_PM_NB_PWR_OPTION_REG MVEBU_PM_AVS_VDD2_MODE ;;;
  mmio_setbits_32 MVEBU_PM_NB_PWR_OPTION_REG MVEBU_PM_AVS_HOLD_MODE ;;;
  mmio_setbits_32 MVEBU_AVS_CTRL_2_REG MVEBU_LOW_VDD_MODE_EN.

Definition a3700_pwr_dn_tbg : HM unit := mmio_setbits_32 MVEBU_PM_NB_PWR_OPTION_REG MVEBU_PM_TBG_OFF_EN.

Definition a3700_pwr_dn_sb : HM unit :=
  mmio_setbits_32 MVEBU_PM_NB_PWR_CTRL_REG MVEBU_PM_SB_PWR_DWN ;;;
  mmio_setbits_32 MVEBU_PM_SB_PWR_OPTION_REG MVEBU_PM_SDIO_PHY_PDWN_EN ;;;
  mmio_setbits_32 MVEBU_PM_SB_PWR_OPTION_REG MVEBU_PM_SB_SRAM_LKG_PD_EN ;;;
  mmio_setbits_32 MVEBU_PM_SB_PWR_OPTION_REG MVEBU_PM_SB_VDDV_OFF_EN ;;;
  mmio_setbits_32 MVEBU_PM_SB_CPU_PWR_CTRL_REG MVEBU_PM_SB_PM_START.

Definition a3700_set_pwr_off_option : HM unit :=
  a3700_set_gen_pwr_off_option ;;;
  a3700_en_ddr_self_refresh ;;;
  a3700_pwr_dn_avs ;;;
  a3700_pwr_dn_tbg ;;;
  a3700_pwr_dn_sb.

Definition a3700_set_wake_up_option : HM unit :=
  mmio_setbits_32 MVEBU_PM_NB_WAKE_UP_EN_REG MVEBU_PM_NB_WKP_EN ;;;
  mmio_setbits_32 MVEBU_PM_CPU_WAKE_UP_CONF_REG (Z.lor MVEBU_PM_CORE1_WAKEUP MVEBU_PM_CORE0_WAKEUP) ;;;
  mmio_setbits_32 MVEBU_PM_NB_PWR_OPTION_REG MVEBU_PM_WARM_RESET_EN.

(** ** Wake-up sources *)
Inductive pm_wake_up_src_type : Type :=
| WAKE_UP_SRC_GPIO | WAKE_UP_SRC_TIMER | WAKE_UP_SRC_UART0 | WAKE_UP_SRC_UART1.
#[global] Instance wake_src_eq_dec : EqDecision pm_wake_up_src_type.
Proof. solve_decision. Defined.

(** The GPIO member of the union is the only one the code reads. *)
Record pm_wake_up_src : Type := WakeSrc { wake_up_src_type : pm_wake_up_src_type; bank_num : Z; gpio_num : Z }.

Definition a3700_pm_en_nb_gpio (gpio : Z) : HM unit :=
  (if 32 <=? gpio then
     mmio_clrbits_32 MVEBU_NB_GPIO_IRQ_MASK_2_REG (BIT (gpio - 32)) ;;;
     mmio_setbits_32 MVEBU_NB_GPIO_IRQ_EN_HIGH_REG (BIT (gpio - 32))
   else
     mmio_clrbits_32 MVEBU_NB_GPIO_IRQ_MASK_1_REG (BIT gpio) ;;;
     mmio_setbits_32 MVEBU_NB_GPIO_IRQ_EN_LOW_REG (BIT gpio)) ;;;
  mmio_setbits_32 MVEBU_NB_STEP_DOWN_INT_EN_REG MVEBU_NB_GPIO_INT_WAKE_WCPU_CLK ;;;
  mmio_setbits_32 MVEBU_PM_NB_WAKE_UP_EN_REG
    (Z.lor (Z.lor (Z.lor MVEBU_PM_NB_GPIO_WKP_EN MVEBU_PM_NB_WKP_EN) MVEBU_PM_CORE1_FIQ_IRQ_WKP_EN)
       MVEBU_PM_CORE0_FIQ_IRQ_WKP_EN).

Definition a3700_pm_en_sb_gpio (gpio : Z) : HM unit :=
  mmio_setbits_32 MVEBU_PM_NB_WAKE_UP_EN_REG
    (Z.lor (Z.lor (Z.lor MVEBU_PM_SB_WKP_NB_EN MVEBU_PM_NB_WKP_EN) MVEBU_PM_CORE1_FIQ_IRQ_WKP_EN)
       MVEBU_PM_CORE0_FIQ_IRQ_WKP_EN) ;;;
  mmio_setbits_32 MVEBU_PM_SB_WK_EN_REG (Z.lor MVEBU_PM_SB_GPIO_WKP_EN MVEBU_PM_SB_GPIO_WKP_EN) ;;;
  mmio_clrbits_32 MVEBU_SB_GPIO_IRQ_MASK_REG (BIT gpio) ;;;
  mmio_setbits_32 MVEBU_SB_GPIO_IRQ_EN_REG (BIT gpio).

Definition a3700_pm_src_gpio (src : pm_wake_up_src) : HM Z :=
  (if bank_num src =? 0 then a3700_pm_en_nb_gpio (gpio_num src) else a3700_pm_en_sb_gpio (gpio_num src)) ;;;
  ret 0.

Definition a3700_pm_src_uart1 (src : pm_wake_up_src) : HM Z :=
  mmio_clrbits_32 MVEBU_NB_GPIO1_SEL_REG MVEBU_NB_GPIO1_UART1_SEL ;;;
  mmio_setbits_32 MVEBU_NB_GPIO1_SEL_REG MVEBU_NB_GPIO1_GPIO_19_EN ;;;
  a3700_pm_en_nb_gpio 19 ;;;
  mmio_setbits_32 MVEBU_NB_GPIO1_SEL_REG MVEBU_NB_GPIO1_GPIO_18_EN ;;;
  a3700_pm_en_nb_gpio 18 ;;;
  ret 0.

Definition a3700_pm_src_uart0 (src : pm_wake_up_src) : HM Z :=
  mmio_setbits_32 MVEBU_NB_GPIO1_SEL_REG MVEBU_NB_GPIO1_GPIO_25_26_EN ;;;
  a3700_pm_en_nb_gpio 25 ;;;
  a3700_pm_en_nb_gpio 26 ;;;
  ret 0.

Definition wake_up_src_func : Type := pm_wake_up_src -> HM Z.
Definition src_func_table : list (pm_wake_up_src_type * option wake_up_src_func) :=
  [(WAKE_UP_SRC_GPIO, Some a3700_pm_src_gpio);
   (WAKE_UP_SRC_UART1, Some a3700_pm_src_uart1);
   (WAKE_UP_SRC_UART0, Some a3700_pm_src_uart0);
   (WAKE_UP_SRC_TIMER, None)].

Fixpoint find_src_func (table : list (pm_wake_up_src_type * option wake_up_src_func)) (type : pm_wake_up_src_type) :
    option wake_up_src_func :=
  match table with
  | [] => None
  | (t, f) :: rest => if decide (t = type) then f else find_src_func rest type
  end.
Definition a3700_get_wake_up_src_func (type : pm_wake_up_src_type) : option wake_up_src_func :=
  find_src_func src_func_table type.

(** board/pm_src.c *)
Definition mv_wake_up_src_config_get : list pm_wake_up_src :=
  [WakeSrc WAKE_UP_SRC_GPIO 0 14; WakeSrc WAKE_UP_SRC_GPIO 1 2; WakeSrc WAKE_UP_SRC_UART1 0 0].

Definition a3700_set_wake_up_source (srcs : list pm_wake_up_src) : HM unit :=
  forM_ srcs (fun src =>
    match a3700_get_wake_up_src_func (wake_up_src_type src) with
    | Some f => let! _ := f src in ret tt
    | None => ret tt
    end).

Definition a3700_pm_save_lp_flag : HM unit :=
  mmio_setbits_32 MVEBU_PM_CPU_VDD_OFF_INFO_2_REG MVEBU_PM_LOW_POWER_STATE.
Definition a3700_pm_clear_lp_flag : HM unit :=
  mmio_clrbits_32 MVEBU_PM_CPU_VDD_OFF_INFO_2_REG MVEBU_PM_LOW_POWER_STATE.
Definition a3700_pm_get_lp_flag : HM Z :=
  let! v := mmio_read_32 MVEBU_PM_CPU_VDD_OFF_INFO_2_REG in ret (Z.land v MVEBU_PM_LOW_POWER_STATE).

Definition a3700_pwr_domain_suspend (target_state : psci_power_state_t) : HM unit :=
  dev GicCpuifDisable ;;;
  dev GicIrqSave ;;;
  a3700_set_wake_up_option ;;;
  a3700_set_wake_up_source mv_wake_up_src_config_get ;;;
  a3700_pm_ack_irq ;;;
  a3700_set_pwr_off_option ;;;
  a3700_pm_save_lp_flag ;;;
  dev Isb.

(** ** Wake-up *)
Definition a3700_pwr_domain_on_finish (target_state : psci_power_state_t) : HM unit :=
  dev GicPcpuInit ;;;
  dev GicCpuifEnable ;;;
  let! f := a3700_pm_get_lp_flag in
  when (truthy f) (dev GicIrqPcpuRestore).

(** The window set-up shared by [a3700_pwr_domain_suspend_finish] and
    [bl31_plat_arch_setup]; false when a step reports failure. *)
Definition windows_setup : HM bool :=
  cpu_wins_init ;;;
  let! wins := dram_win_map_build in
  let '(err, conf) := marvell_get_io_dec_win_conf in
  if negb (err =? 0) then ret false
  else
    let! r := init_io_addr_dec (Some wins) (Some conf) in
    ret (r =? 0).

Definition a3700_pwr_domain_suspend_finish (target_state : psci_power_state_t) : HM unit :=
  dev GicInit ;;;
  dev GicIrqRestore ;;;
  dev InterconnectInit ;;;
  dev InterconnectEnterCoherency ;;;
  let! ok := windows_setup in
  when ok a3700_pm_clear_lp_flag.

Definition a3700_get_sys_suspend_power_state (req_state : psci_power_state_t) : HM psci_power_state_t :=
  let cfg := a3700_cfg false in
  ret (map (fun _ => PLAT_MAX_OFF_STATE) (seqZ 0 (PLAT_MAX_PWR_LVL + 1))).

(** ** Reset *)
Definition a3700_system_reset : HM unit :=
  mmio_write_32 PLAT_MARVELL_MAILBOX_BASE 0x0 ;;;
  dev Dsb ;;;
  dev (FlushDcache PLAT_MARVELL_MAILBOX_BASE 16) ;;;
  mmio_write_32 MVEBU_WARM_RESET_REG MVEBU_WARM_RESET_MAGIC ;;;
  halt_with HPanic.

Definition plat_arm_psci_pm_ops : plat_psci_ops a3700_hw :=
  PlatPsciOps a3700_hw
    (Some a3700_cpu_standby) (Some a3700_pwr_domain_on) (Some a3700_pwr_domain_off) None
    (Some a3700_pwr_domain_suspend) (Some a3700_pwr_domain_on_finish)
    (Some a3700_pwr_domain_suspend_finish) None (Some a3700_system_off) (Some a3700_system_reset)
    (Some a3700_validate_power_state) (Some a3700_validate_ns_entrypoint)
    (Some a3700_get_sys_suspend_power_state) None None None None None None None.

(** ** Mailbox (marvell_pm.c) *)
Definition marvell_program_mailbox (address : Z) : HM unit :=
  (if (MARVELL_SHARED_RAM_BASE <=? PLAT_MARVELL_MAILBOX_BASE) &&
      (PLAT_MARVELL_MAILBOX_BASE + 8 <=? MARVELL_SHARED_RAM_BASE + MARVELL_SHARED_RAM_SIZE)
   then ret tt else halt_with HAssert) ;;;
  store_64 (PLAT_MARVELL_MAILBOX_BASE + 8 * MBOX_IDX_MAGIC) MVEBU_MAILBOX_MAGIC_NUM ;;;
  store_64 (PLAT_MARVELL_MAILBOX_BASE + 8 * MBOX_IDX_SEC_ADDR) address ;;;
  dev (FlushDcache (PLAT_MARVELL_MAILBOX_BASE + 8 * MBOX_IDX_MAGIC) 16).

Definition marvell_setup_psci_ops (sec_entrypoint : Z) : HM (plat_psci_ops a3700_hw) :=
  marvell_program_mailbox sec_entrypoint ;;;
  ret plat_arm_psci_pm_ops.

(** ** Topology (marvell_topology.c, marvell_helpers.S) *)
Definition marvell_power_domain_tree_desc : list Z :=
  PLAT_MARVELL_CLUSTER_COUNT ::
  map (fun _ => PLAT_MARVELL_CLUSTER_CORE_COUNT) (seqZ 0 PLAT_MARVELL_CLUSTER_COUNT).

Definition MPIDR_AFFLVL_MASK : Z := 0xff.
Definition MPIDR_CPU_MASK : Z := MPIDR_AFFLVL_MASK.
Definition MPIDR_CLUSTER_MASK : Z := Z.shiftl MPIDR_AFFLVL_MASK 8.
Definition AFFINITY_MASK : Z := 0xff00ffffff.

(** The complement is taken in [unsigned int]. *)
Definition marvell_check_mpidr (mpidr : Z) : Z :=
  let mpidr := Z.land mpidr AFFINITY_MASK in
  let mask := Z.lor (Z.lor MPIDR_CLUSTER_MASK MPIDR_CPU_MASK) (Z.shiftl MPIDR_AFFLVL_MASK 16) in
  if truthy (Z.land mpidr (2 ^ 32 - 1 - mask)) then -1
  else
    let nb_id := Z.land (Z.shiftr mpidr 32) MPIDR_AFFLVL_MASK in
    let cluster_id := Z.land (Z.shiftr mpidr 8) MPIDR_AFFLVL_MASK in
    let cpu_id := Z.land (Z.shiftr mpidr 0) MPIDR_AFFLVL_MASK in
    if PLAT_MARVELL_CLUSTER_COUNT <=? nb_id then -1
    else if PLAT_MARVELL_CLUSTER_COUNT <=? cluster_id then -1
    else if PLAT_MARVELL_CLUSTER_CORE_COUNT <=? cpu_id then -1
    else 0.

Definition plat_marvell_calc_core_pos (mpidr : Z) : Z :=
  Z.land mpidr MPIDR_CPU_MASK + Z.shiftr (Z.land mpidr MPIDR_CLUSTER_MASK) 7.

Definition marvell_core_pos_by_mpidr (mpidr : Z) : Z :=
  if marvell_check_mpidr mpidr =? -1 then -1 else s32 (u32 (plat_marvell_calc_core_pos mpidr)).

(** ** BL31 set-up (plat_bl31_setup.c) *)
Definition MVEBU_NB_GPIO_SEL_REG : Z := MVEBU_NB_GPIO_REG_BASE + 0x30.
Definition MVEBU_NB_GPIO_OUTPUT_EN_HIGH_REG : Z := MVEBU_NB_GPIO_REG_BASE + 0x04.
Definition marvell_bl31_mpp_init : HM unit :=
  mmio_clrbits_32 MVEBU_NB_GPIO_SEL_REG (Z.shiftl 1 10) ;;;
  mmio_setbits_32 MVEBU_NB_GPIO_OUTPUT_EN_HIGH_REG (Z.shiftl 1 28).

(** [common_setup] and [timer_init] are [marvell_bl31_plat_arch_setup] and
    [plat_delay_timer_init]. *)
Definition bl31_plat_arch_setup (common_setup timer_init : HM unit) : HM unit :=
  common_setup ;;;
  marvell_bl31_mpp_init ;;;
  timer_init ;;;
  let! _ := windows_setup in
  ret tt.

(** ** SiP service (a3700_sip_svc.c) *)
Definition MV_SIP_COMPHY_POWER_ON : Z := 0x82000001.
Definition MV_SIP_COMPHY_POWER_OFF : Z := 0x82000002.
Definition MV_SIP_COMPHY_PLL_LOCK : Z := 0x82000003.
Definition MV_SIP_DRAM_SIZE : Z := 0x82000010.
Definition MAX_LANE_NR : Z := 3.
Definition SIP_SMC_UNK : Z := u64 (-1).
Definition is_comphy_fid (fid : Z) : bool := (MV_SIP_COMPHY_POWER_ON <=? fid) && (fid <=? MV_SIP_COMPHY_PLL_LOCK).

Section sip.
(** The COMPHY driver: lane (8 bits), mode (32 bits). *)
Context (comphy_power_on comphy_power_off comphy_is_pll_locked : Z -> Z -> HM Z).

Definition mrvl_sip_smc_handler (smc_fid x1 x2 : Z) : HM Z :=
  if is_comphy_fid smc_fid && (MAX_LANE_NR <=? x1) then ret SIP_SMC_UNK
  else if smc_fid =? MV_SIP_COMPHY_POWER_ON then
    let! r := comphy_power_on (u8 x1) (u32 x2) in ret (u64 r)
  else if smc_fid =? MV_SIP_COMPHY_POWER_OFF then
    let! r := comphy_power_off (u8 x1) (u32 x2) in ret (u64 r)
  else if smc_fid =? MV_SIP_COMPHY_PLL_LOCK then
    let! r := comphy_is_pll_locked (u8 x1) (u32 x2) in ret (u64 r)
  else if smc_fid =? MV_SIP_DRAM_SIZE then mvebu_get_dram_size MVEBU_REGS_BASE
  else ret SIP_SMC_UNK.
End sip.
