(* ===== verification/A3700Psci.v ===== *)
(** * Armada 3700: the port fulfils the PSCI platform contract

    The instances that connect plat_pm.c and marvell_topology.c to the PSCI
    library: configuration, environment, topology, and the proof that the
    registered hooks keep the promises of [PlatContract].  The hooks the port
    leaves unimplemented are exactly [a3700_panics]. *)
From Stdlib Require Import ZArith Lia.
From stdpp Require Import base sets list numbers option functions gmap.
From S2P Require Import Prelude PsciDefs PsciCommon PsciSetup PsciStat PsciPower PsciMain PsciSpec PsciCoord PsciWalk PsciInv PsciHandlers PsciSmc A3700Hw A3700Win A3700WinProps A3700Pm.
#[local] Open Scope Z_scope.
#[local] Abbreviation HM := (M a3700_hw).

(** ** Hooks that return *)
Definition total {A} (m : HM A) : Prop := forall p, wp m (fun _ _ => True) (fun _ _ => False) p.

Lemma total_ret {A} (a : A) : total (ret a).
Proof. intros p. by apply wp_ret. Qed.
Lemma total_bind {A B} (m : HM A) (k : A -> HM B) : total m -> (forall a, total (k a)) -> total (bind m k).
Proof. intros Hm Hk p. apply wp_bind. eapply wp_mono; [apply Hm| |done]. intros a s _. apply Hk. Qed.
Lemma total_when b m : total m -> total (when b m).
Proof. intros Hm. destruct b; [done|apply total_ret]. Qed.
Lemma total_dev d : total (dev d).
Proof. intros p. by apply wp_modify. Qed.
Lemma total_write a v : a <> MVEBU_WARM_RESET_REG -> total (mmio_write_32 a v).
Proof.
  intros Ha p. apply wp_unfold. unfold mmio_write_32. by destruct (Z.eqb_spec a MVEBU_WARM_RESET_REG).
Qed.
Lemma total_read a : total (mmio_read_32 a).
Proof. intros p. apply wp_unfold. unfold mmio_read_32. destruct (_ =? _); [by destruct (drain p)|done]. Qed.
Lemma total_setbits a v : a <> MVEBU_WARM_RESET_REG -> total (mmio_setbits_32 a v).
Proof. intros Ha. apply total_bind; [apply total_read|]. intros; by apply total_write. Qed.
Lemma total_clrbits a v : a <> MVEBU_WARM_RESET_REG -> total (mmio_clrbits_32 a v).
Proof. intros Ha. apply total_bind; [apply total_read|]. intros; by apply total_write. Qed.
Lemma total_forM {A} (l : list A) (f : A -> HM unit) : (forall x, total (f x)) -> total (forM_ l f).
Proof. intros Hf. induction l as [|x l IH]; [apply total_ret|]. apply total_bind; [apply Hf|done]. Qed.
Lemma total_if {A} (b : bool) (m1 m2 : HM A) : total m1 -> total m2 -> total (if b then m1 else m2).
Proof. by destruct b. Qed.

#[export] Hint Resolve total_ret total_bind total_when total_dev total_read total_if : fw.
#[export] Hint Extern 4 (total (mmio_write_32 _ _)) => apply total_write; vm_compute; discriminate : fw.
#[export] Hint Extern 4 (total (mmio_setbits_32 _ _)) => apply total_setbits; vm_compute; discriminate : fw.
#[export] Hint Extern 4 (total (mmio_clrbits_32 _ _)) => apply total_clrbits; vm_compute; discriminate : fw.

(** A straight-line hook. *)
Ltac total_step :=
  lazymatch goal with
  | |- total (bind _ _) => apply total_bind; [|intros]
  | |- total (when _ _) => apply total_when
  | |- total (if _ then _ else _) => apply total_if
  | |- total _ => solve [eauto 2 with fw]
  end.
Ltac total_steps := repeat total_step.

Lemma ack_total : total a3700_pm_ack_irq.
Proof. unfold a3700_pm_ack_irq, ack_one. total_steps. Qed.

(** The busy wait for the DRAM write buffer ends. *)
Lemma drain_poll_total p : wp (drain_poll (S (drain p))) (fun _ _ => True) (fun _ _ => False) p.
Proof.
  destruct p as [r n lg]. cbn [drain]. revert r lg. induction n as [|n IH]; intros r lg; cbn [drain_poll].
  - wp_step. apply wp_unfold. unfold mmio_read_32. rewrite Z.eqb_refl. cbn [drain]. apply wp_unfold.
    rewrite Z.land_comm, Z.lor_comm, Z.land_lor_distr_r, Z.land_diag.
    assert (Habs : forall x, Z.lor MVEBU_DRAM_WCP_EMPTY (Z.land MVEBU_DRAM_WCP_EMPTY x) = MVEBU_DRAM_WCP_EMPTY).
    { intros x. apply Z.bits_inj'. intros i Hi. rewrite Z.lor_spec, Z.land_spec. by destruct (Z.testbit _ i). }
    rewrite Habs, Z.eqb_refl. done.
  - wp_step. apply wp_unfold. unfold mmio_read_32. rewrite Z.eqb_refl. cbn [drain regs hw_log].
    destruct (_ =? MVEBU_DRAM_WCP_EMPTY); [by apply wp_ret|]. apply IH.
Qed.

Lemma drain_wait_total : total drain_wait.
Proof. intros p. unfold drain_wait. wp_step. wp_step. apply drain_poll_total. Qed.

Lemma pwr_off_option_total : total a3700_set_pwr_off_option.
Proof.
  unfold a3700_set_pwr_off_option, a3700_set_gen_pwr_off_option, a3700_en_ddr_self_refresh, a3700_pwr_dn_avs,
    a3700_pwr_dn_tbg, a3700_pwr_dn_sb. total_steps. apply drain_wait_total.
Qed.

Lemma nb_gpio_total gpio : total (a3700_pm_en_nb_gpio gpio).
Proof. unfold a3700_pm_en_nb_gpio. total_steps. Qed.

Lemma wake_up_source_total srcs : total (a3700_set_wake_up_source srcs).
Proof.
  apply total_forM. intros [[] b n]; cbn [wake_up_src_type].
  - change (a3700_get_wake_up_src_func WAKE_UP_SRC_GPIO) with (Some a3700_pm_src_gpio).
    unfold a3700_pm_src_gpio, a3700_pm_en_sb_gpio. total_steps. apply nb_gpio_total.
  - change (a3700_get_wake_up_src_func WAKE_UP_SRC_TIMER) with (@None wake_up_src_func). apply total_ret.
  - change (a3700_get_wake_up_src_func WAKE_UP_SRC_UART0) with (Some a3700_pm_src_uart0).
    unfold a3700_pm_src_uart0. total_steps; apply nb_gpio_total.
  - change (a3700_get_wake_up_src_func WAKE_UP_SRC_UART1) with (Some a3700_pm_src_uart1).
    unfold a3700_pm_src_uart1. total_steps; apply nb_gpio_total.
Qed.

Lemma suspend_total st : total (a3700_pwr_domain_suspend st).
Proof.
  unfold a3700_pwr_domain_suspend, a3700_set_wake_up_option, a3700_pm_save_lp_flag. total_steps.
  - apply wake_up_source_total.
  - apply ack_total.
  - apply pwr_off_option_total.
Qed.

Lemma windows_total : total windows_setup.
Proof.
  intros p. unfold windows_setup. wp_step. apply wp_cpu_wins_init. intros p1 _ H0 Hrest. wp_step.
  eapply wp_run; [by apply map_build_after|]. cbn [marvell_get_io_dec_win_conf Z.eqb negb]. wp_step.
  destruct (init_io_run _ p1 (dram_wins_after_ok p)) as (p2 & Hrun & _). eapply wp_run; [exact Hrun|]. by wp_step.
Qed.

Lemma suspend_finish_total st : total (a3700_pwr_domain_suspend_finish st).
Proof.
  unfold a3700_pwr_domain_suspend_finish, a3700_pm_clear_lp_flag. total_steps. apply windows_total.
Qed.

Lemma on_finish_total st : total (a3700_pwr_domain_on_finish st).
Proof. unfold a3700_pwr_domain_on_finish, a3700_pm_get_lp_flag. total_steps. Qed.

(** ** Instances *)

(** The system registers PSCI reads, as functions of the hardware state; the
    modelled code never writes them. *)
Record sysregs : Type := SysRegs {
  sr_isr : Z -> a3700_hw -> Z;
  sr_scr : Z -> a3700_hw -> Z;
  sr_sctlr1 : Z -> a3700_hw -> Z;
  sr_sctlr2 : Z -> a3700_hw -> Z
}.

(** The hooks that call [panic()]. *)
Definition a3700_panics (h : hook) : Prop := h ∈ [HkCpuStandby; HkValidatePowerState; HkSystemOff].

(** MPIDR_EL1 of a Cortex-A53 core: bit 31 and the core number. *)
Definition a3700_env (sr : sysregs) : PlatEnv a3700_hw := {|
  plat_core_pos_by_mpidr := marvell_core_pos_by_mpidr;
  plat_get_power_domain_tree_desc := marvell_power_domain_tree_desc;
  plat_setup_psci_ops := marvell_setup_psci_ops;
  plat_get_syscnt_freq2 := 12500000;
  read_mpidr := fun c => Z.lor (BIT 31) c;
  read_isr_el1 := fun c => gets (sr_isr sr c);
  read_scr_el3 := fun c => gets (sr_scr sr c);
  read_sctlr_el1 := fun c => gets (sr_sctlr1 sr c);
  read_sctlr_el2 := fun c => gets (sr_sctlr2 sr c);
  plat_psci_stat_accounting_start := fun _ _ => ret tt;
  plat_psci_stat_accounting_stop := fun _ _ => ret tt;
  plat_psci_stat_get_residency := fun _ _ _ _ => ret 0
|}.

(** One cluster, node 0, above both cores. *)
Definition a3700_topo : Topo := {| anc := fun _ _ => 0; dom_start := fun _ => 0; dom_ncpus := fun _ => 2 |}.

Lemma calc_core_pos m :
  plat_marvell_calc_core_pos m = Z.land (Z.shiftr m 0) 0xff + 2 * Z.land (Z.shiftr m 8) 0xff.
Proof.
  unfold plat_marvell_calc_core_pos, MPIDR_CPU_MASK, MPIDR_CLUSTER_MASK, MPIDR_AFFLVL_MASK.
  rewrite Z.shiftr_0_r. f_equal. change 0xff with (Z.ones 8) at 2. rewrite Z.land_ones by lia.
  replace (Z.shiftl 0xff 8) with (Z.shiftl (Z.ones 8) 8) by done.
  assert (Z.land m (Z.shiftl (Z.ones 8) 8) = Z.shiftl (Z.land (Z.shiftr m 8) (Z.ones 8)) 8) as ->.
  { apply Z.bits_inj'. intros i Hi. rewrite Z.land_spec, !Z.shiftl_spec by lia.
    destruct (decide (i < 8)).
    - rewrite !(Z.testbit_neg_r _ (i - 8)) by lia. by rewrite andb_false_r.
    - rewrite Z.land_spec, Z.shiftr_spec by lia. by replace (i - 8 + 8) with i by lia. }
  rewrite Z.shiftr_shiftl_l by lia. change (8 - 7) with 1. rewrite Z.land_ones by lia.
  rewrite Z.shiftl_mul_pow2 by lia. lia.
Qed.

(** Which MPIDRs name a core: affinity 3 and 1 zero, affinity 0 below 2. *)
Lemma core_pos_cases m :
  (Z.land (Z.shiftr m 32) 0xff = 0 /\ Z.land (Z.shiftr m 8) 0xff = 0 /\ Z.land m 0xff < 2 /\
   marvell_core_pos_by_mpidr m = Z.land m 0xff) \/
  (~ (Z.land (Z.shiftr m 32) 0xff = 0 /\ Z.land (Z.shiftr m 8) 0xff = 0 /\ Z.land m 0xff < 2) /\
   marvell_core_pos_by_mpidr m = -1).
Proof.
  assert (Hff : forall x, 0 <= Z.land x 0xff < 256).
  { intros x. rewrite land_ff. apply Z.mod_pos_bound. lia. }
  assert (Hsh : forall k, 0 <= k <= 8 \/ k = 32 ->
    Z.land (Z.shiftr (Z.land m AFFINITY_MASK) k) 0xff = Z.land (Z.shiftr m k) 0xff).
  { intros k Hk. rewrite Z.shiftr_land, <- Z.land_assoc. f_equal.
    destruct Hk as [Hk| ->]; [|done].
    assert (k = 0 \/ k = 1 \/ k = 2 \/ k = 3 \/ k = 4 \/ k = 5 \/ k = 6 \/ k = 7 \/ k = 8)
      as [->|[->|[->|[->|[->|[->|[->|[->| ->]]]]]]]] by lia; done. }
  unfold marvell_core_pos_by_mpidr, marvell_check_mpidr, MPIDR_AFFLVL_MASK.
  replace (Z.land (Z.land m AFFINITY_MASK) _) with 0.
  2:{ rewrite <- Z.land_assoc. symmetry. unfold AFFINITY_MASK, MPIDR_CLUSTER_MASK, MPIDR_CPU_MASK, MPIDR_AFFLVL_MASK.
      vm_compute (Z.land 0xff00ffffff _). apply Z.land_0_r. }
  cbn [truthy Z.eqb negb]. rewrite !Hsh by lia. unfold PLAT_MARVELL_CLUSTER_COUNT, PLAT_MARVELL_CLUSTER_CORE_COUNT.
  pose proof (Hff (Z.shiftr m 32)). pose proof (Hff (Z.shiftr m 8)). pose proof (Hff m). rewrite Z.shiftr_0_r.
  destruct (Z.leb_spec 1 (Z.land (Z.shiftr m 32) 255)); [right; split; [lia|done]|].
  destruct (Z.leb_spec 1 (Z.land (Z.shiftr m 8) 255)); [right; split; [lia|done]|].
  destruct (Z.leb_spec 2 (Z.land m 255)); [right; split; [lia|done]|].
  left. split_and!; [lia|lia|lia|]. cbn [Z.eqb]. rewrite calc_core_pos, Z.shiftr_0_r.
  rewrite u32_small, s32_small by lia. lia.
Qed.

Section a3700.
Context (debug : bool) (sr : sysregs).
#[local] Instance cfg : PlatCfg := a3700_cfg debug.
#[local] Instance env : PlatEnv a3700_hw := a3700_env sr.
#[local] Instance topo : Topo := a3700_topo.

Lemma a3700_cfg_ok : PlatCfgOk.
Proof. split; cbn; unfold PLAT_MARVELL_CLUSTER_CORE_COUNT; lia. Qed.

Lemma a3700_topo_ok : TopoOk.
Proof.
  split; unfold cpu_ok, lvl_ok; cbn; unfold PLAT_MARVELL_CLUSTER_CORE_COUNT; intros; lia.
Qed.

Lemma total_returns {A} (m : HM A) (R : A -> Prop) :
  total m -> (forall p, wp m (fun a _ => R a) (fun _ _ => True) p) -> returns (fun _ => True) m R.
Proof.
  intros Ht HR p _. specialize (Ht p). specialize (HR p). rewrite wp_unfold in *. by destruct (m p).
Qed.

Lemma total_returns_any {A} (m : HM A) : total m -> returns (fun _ => True) m (fun _ => True).
Proof. intros Ht. apply total_returns; [done|]. intros p. eapply wp_mono; [apply Ht|done|done]. Qed.

Lemma a3700_on_returns m : returns (fun _ => True) (a3700_pwr_domain_on m) (fun rc => rc = 0).
Proof.
  apply total_returns; [unfold a3700_pwr_domain_on; total_steps|]. intros p. unfold a3700_pwr_domain_on. wp_step.
  apply wp_unfold. cbn [dev modify]. wp_step. eapply wp_mono; [apply total_write; vm_compute; discriminate| |done].
  intros _ p1 _. wp_step. eapply wp_mono; [apply total_clrbits; vm_compute; discriminate| |done]. intros _ p2 _.
  wp_step. eapply wp_mono; [apply total_setbits; vm_compute; discriminate| |done]. intros _ p3 _. by wp_step.
Qed.

Lemma a3700_reset_ends : ends (fun _ => True) a3700_system_reset HSystemDown.
Proof.
  intros p _. unfold a3700_system_reset. wp_step. eapply wp_mono; [apply total_write; vm_compute; discriminate| |done].
  intros _ p1 _. wp_step. apply wp_unfold. cbn [dev modify]. wp_step. apply wp_unfold. cbn [dev modify]. wp_step.
  apply wp_unfold. unfold mmio_write_32. cbn. done.
Qed.

Lemma a3700_ops_ok : ops_ok (fun _ : a3700_hw => True) a3700_panics plat_arm_psci_pm_ops.
Proof.
  split; cbn; try done.
  - intros f st [= <-] p _. apply wp_halt. split_and!; [done|unfold a3700_panics; set_solver|done].
  - intros f m [= <-] p Hp. eapply wp_mono; [by apply a3700_on_returns| |done]. intros rc p' [-> _]. by split; [left|].
  - intros f st [= <-]. apply total_returns_any. unfold a3700_pwr_domain_off. total_steps. apply ack_total.
  - intros f st [= <-]. apply total_returns_any, suspend_total.
  - intros f st [= <-]. apply total_returns_any, on_finish_total.
  - intros f st [= <-]. apply total_returns_any, suspend_finish_total.
  - intros f [= <-] p _. apply wp_halt. split; [right; split; [done|unfold a3700_panics; set_solver]|done].
  - intros f [= <-]. apply a3700_reset_ends.
  - intros f ps st [= <-] _ p _. apply wp_halt. split_and!; [done|unfold a3700_panics; set_solver|done].
  - intros f e [= <-]. apply total_returns_any, total_ret.
  - intros f st [= <-] p _. apply wp_ret. split; [|done]. split; [split; [done|]|].
    all: intros lvl Hl; cbn in Hl; assert (lvl = 0 \/ lvl = 1) as [->| ->] by lia; vm_compute; intuition congruence.
Qed.

Lemma a3700_core_pos m : marvell_core_pos_by_mpidr m = -1 \/ cpu_ok (marvell_core_pos_by_mpidr m).
Proof.
  assert (Hff : 0 <= Z.land m 0xff < 256) by (rewrite land_ff; apply Z.mod_pos_bound; lia).
  destruct (core_pos_cases m) as [(_ & _ & Hlt & ->)|[_ ->]]; [right|by left].
  unfold cpu_ok. cbn. unfold PLAT_MARVELL_CLUSTER_CORE_COUNT. lia.
Qed.

Lemma gets_returns {A} (f : a3700_hw -> A) : returns (fun _ => True) (gets f) (fun _ => True).
Proof. intros p _. by apply wp_gets. Qed.

Definition a3700_contract : PlatContract a3700_hw := {|
  the_ops := plat_arm_psci_pm_ops;
  the_spd := None;
  hwI := fun _ => True;
  hook_panics := a3700_panics;
  pc_ops := a3700_ops_ok;
  pc_spd := fun pm (H : None = Some pm) => ltac:(discriminate H);
  pc_core_pos := a3700_core_pos;
  pc_isr := fun c => gets_returns _;
  pc_scr := fun c => gets_returns _;
  pc_sctlr1 := fun c => gets_returns _;
  pc_sctlr2 := fun c => gets_returns _;
  pc_no_stat := eq_refl
|}.

#[local] Instance cfg_ok : PlatCfgOk := a3700_cfg_ok.
#[local] Instance topo_ok : TopoOk := a3700_topo_ok.
#[local] Instance contract : PlatContract a3700_hw := a3700_contract.

(** ** The state after [psci_setup] on the boot CPU *)
Definition setup_view : view :=
  View (fun _ c => if c =? 0 then 0 else 2) (fun _ => 0)
    (fun c => if c =? 0 then AFF_STATE_ON else AFF_STATE_OFF) (fun _ => PSCI_INVALID_PWR_LVL)
    (fun c => if c =? 0 then 0 else 2) (fun _ => None) (fun _ => None).
Definition setup_modes (c : Z) : mode := if c =? 0 then MUp else MDown.

Lemma setup_Inv : Inv setup_modes setup_view.
Proof.
  split.
  - split; unfold lvl_ok, cpu_ok; cbn; intros; destruct (_ =? 0); lia.
  - intros c Hc. unfold setup_modes. destruct (Z.eqb_spec c 0) as [->|Hne].
    + by split_and!.
    + left. apply Z.eqb_neq in Hne. cbn. rewrite Hne. by split_and!.
  - by split.
Qed.

Lemma cpu_cases c : cpu_ok c -> c = 0 \/ c = 1.
Proof. unfold cpu_ok. cbn. unfold PLAT_MARVELL_CLUSTER_CORE_COUNT. lia. Qed.

Lemma lvl_cases l : lvl_ok l -> l = 1.
Proof. unfold lvl_ok. cbn. lia. Qed.

Lemma setup_ops_run ep (Q : plat_psci_ops a3700_hw -> a3700_hw -> Prop) E p :
  (forall p', Q plat_arm_psci_pm_ops p') -> wp (marvell_setup_psci_ops ep) Q E p.
Proof.
  intros HQ. unfold marvell_setup_psci_ops. wp_step.
  assert (Ht : total (marvell_program_mailbox ep)).
  { unfold marvell_program_mailbox, store_64. replace (_ && _) with true by reflexivity. cbv iota. total_steps. }
  eapply wp_mono; [apply Ht| |done]. intros _ p' _. wp_step. apply HQ.
Qed.

End a3700.

(** The tables [psci_setup] leaves behind. *)
Definition setup_tables (p : a3700_hw) (tr : list event) : psci_state a3700_hw :=
  PsciState [[0; 2]]
    [NonCpuNode 0 2 (u32 (-1)) 0 1 0; NonCpuNode 0 0 0 0 0 0]
    [CpuNode 0 0 None; CpuNode PSCI_INVALID_MPIDR 0 None]
    [PsciCpuData AFF_STATE_ON 2 0; PsciCpuData AFF_STATE_OFF 2 2]
    0 None None [-1; -1]
    (replicate 2 (replicate 2 (PsciStat 0 0))) (replicate 2 (replicate 2 (PsciStat 0 0)))
    [None; None] tr p.

(** Evaluate one step on a concrete state. *)
Ltac run_step :=
  eapply wp_run; [lazymatch goal with |- ?m = _ => let r := eval vm_compute in m in exact (@eq_refl _ r) end|].

Lemma setup_rep debug sr p tr caps :
  caps_ok plat_arm_psci_pm_ops None caps ->
  @rep (a3700_cfg debug) a3700_hw a3700_topo (a3700_env sr) (a3700_contract debug sr)
    (set_caps caps (set_ops (Some plat_arm_psci_pm_ops) (setup_tables p tr))) (setup_view debug).
Proof.
  intros Hcaps. split; cbn; try done.
  - intros lvl Hl. assert (lvl = 1) as -> by (unfold lvl_ok in Hl; cbn in Hl; lia). exists [0; 2]. split_and!; [done|done|].
    intros c Hc. destruct (cpu_cases debug c Hc) as [->| ->]; reflexivity.
  - intros c lvl Hc Hl. assert (lvl = 1) as -> by (unfold lvl_ok in Hl; cbn in Hl; lia).
    eexists. split; [reflexivity|]. split_and!; try reflexivity. cbn. lia.
  - intros c Hc. destruct (cpu_cases debug c Hc) as [->| ->]; (do 2 eexists; split; [reflexivity|done]).
  - intros c Hc. destruct (cpu_cases debug c Hc) as [->| ->]; reflexivity.
Qed.

(** The capability mask the port ends up with. *)
Definition a3700_caps : Z := 0x471f.

Lemma a3700_caps_ok : caps_ok plat_arm_psci_pm_ops None a3700_caps.
Proof. split; cbn; eauto; vm_compute; discriminate. Qed.

Lemma setup_caps_run debug (s : psci_state a3700_hw) :
  @psci_setup_caps (a3700_cfg debug) a3700_hw plat_arm_psci_pm_ops s = Ret tt (set_caps a3700_caps s).
Proof. destruct s. reflexivity. Qed.

(** The calls of the context library in a trace. *)
Definition is_context_call (e : event) : bool :=
  match e with EvCmSetContext _ | EvCmInitContext _ _ | EvCmPrepareEl3Exit _ => true | _ => false end.

Lemma setup_run_calls debug sr args p :
  VERIFY_PSCI_LIB_ARGS_V1 args = true ->
  exists s, @psci_setup (a3700_cfg debug) a3700_hw (a3700_env sr) 0 args (@psci_bss (a3700_cfg debug) a3700_hw p) = Ret 0 s /\
    @rep (a3700_cfg debug) a3700_hw a3700_topo (a3700_env sr) (a3700_contract debug sr) s (setup_view debug) /\
    psci_caps s = a3700_caps /\ List.filter is_context_call (trace s) = [EvCmSetContext 1; EvCmSetContext 0].
Proof.
  intros Hargs.
  cut (exists r s, @psci_setup (a3700_cfg debug) a3700_hw (a3700_env sr) 0 args (@psci_bss (a3700_cfg debug) a3700_hw p)
    = Ret r s /\ r = 0 /\
    @rep (a3700_cfg debug) a3700_hw a3700_topo (a3700_env sr) (a3700_contract debug sr) s (setup_view debug) /\
    psci_caps s = a3700_caps /\ List.filter is_context_call (trace s) = [EvCmSetContext 1; EvCmSetContext 0]); [intros (r & s & Hrun & -> & Hrep); eauto|].
  apply wp_returns. unfold psci_setup. wp_step. apply wp_assert; [done|].
  destruct debug.
  all: do 3 (wp_step; run_step). all: wp_step; run_step. all: do 3 (wp_step; run_step).
  all: wp_step; unfold plat; apply wp_zoom; apply setup_ops_run; intros p'; do 2 wp_step.
  all: wp_step; apply wp_when; [intros _|done]; unfold emit; do 2 wp_step.
  all: eapply wp_run; [apply setup_caps_run|]; wp_step.
  all: split; [done|split; [|by split]].
  all: match goal with |- rep ?s _ => change s with
    (set_caps a3700_caps (set_ops (Some plat_arm_psci_pm_ops) (setup_tables (hw s) (trace s)))) end.
  all: apply setup_rep, a3700_caps_ok.
Qed.

Lemma setup_run debug sr args p :
  VERIFY_PSCI_LIB_ARGS_V1 args = true ->
  exists s, @psci_setup (a3700_cfg debug) a3700_hw (a3700_env sr) 0 args (@psci_bss (a3700_cfg debug) a3700_hw p) = Ret 0 s /\
    @rep (a3700_cfg debug) a3700_hw a3700_topo (a3700_env sr) (a3700_contract debug sr) s (setup_view debug) /\
    psci_caps s = a3700_caps.
Proof. intros Ha. destruct (setup_run_calls debug sr args p Ha) as (s & Hr & Hrep & Hcaps & _). by exists s. Qed.
