(* ===== verification/PsciProps.v ===== *)
(** * PSCI: correctness properties

    The theorems about the PSCI library, each stated on the functions of the
    C code and followed by an instance on the Armada 3700 port: the state
    after [psci_setup] on the boot CPU of that board. *)
From Stdlib Require Import ZArith Lia.
From stdpp Require Import base sets list numbers option functions gmap.
From S2P Require Import Prelude PsciDefs PsciCommon PsciSetup PsciStat PsciPower PsciMain PsciSpec PsciCoord PsciWalk PsciInv PsciHandlers PsciSmc PsciSystem A3700Hw A3700Win A3700WinProps A3700Pm A3700Psci.
#[local] Open Scope Z_scope.

(** ** A board for the instances

    Assertions compiled in, no interrupt pending, AArch64 non-secure world
    with EL2. *)
Module Board.
Definition regs0 : sysregs :=
  SysRegs (fun _ _ => 0) (fun _ _ => Z.lor SCR_RW_BIT SCR_HCE_BIT) (fun _ _ => 0) (fun _ _ => 0).
Definition args : psci_lib_args_t := PsciLibArgs PARAM_PSCI_LIB_ARGS VERSION_1 PSCI_LIB_ARGS_SIZE 0 0x4100000.
Definition power_on : a3700_hw := Hw ∅ 3 [].

#[export] Instance cfg : PlatCfg := a3700_cfg true.
#[export] Instance env : PlatEnv a3700_hw := a3700_env regs0.
#[export] Instance topo : Topo := a3700_topo.
#[export] Instance cfg_ok : PlatCfgOk := a3700_cfg_ok true.
#[export] Instance topo_ok : TopoOk := a3700_topo_ok true.
#[export] Instance contract : PlatContract a3700_hw := a3700_contract true regs0.

(** The state of the library when the boot CPU has run [psci_setup]. *)
Definition booted : psci_state a3700_hw :=
  match psci_setup 0 args (psci_bss power_on) with Ret _ s => s | Halt _ s => s end.

Lemma booted_run : psci_setup 0 args (psci_bss power_on) = Ret 0 booted.
Proof.
  destruct (setup_run true regs0 args power_on eq_refl) as (s & Hrun & _).
  change (psci_setup 0 args (psci_bss power_on) = Ret 0 s) in Hrun. unfold booted. by rewrite Hrun.
Qed.

Lemma booted_rep : rep booted (setup_view true).
Proof.
  destruct (setup_run true regs0 args power_on eq_refl) as (s & Hrun & Hrep & _).
  change (psci_setup 0 args (psci_bss power_on) = Ret 0 s) in Hrun. unfold booted. by rewrite Hrun.
Qed.

Lemma booted_inv : sys_inv (booted, setup_modes).
Proof. exists (setup_view true). split; [apply booted_rep|apply setup_Inv]. Qed.

Lemma cpu0_ok : cpu_ok 0.
Proof. done. Qed.
Lemma cpu1_ok : cpu_ok 1.
Proof. done. Qed.
Lemma lvl1_ok : lvl_ok 1.
Proof. done. Qed.
End Board.

Section props.
Context `{PlatCfg, !PlatCfgOk} {P : Type} `{!Topo, !TopoOk, !PlatEnv P, !PlatContract P}.
Implicit Types (s : psci_state P) (g : view) (md : Z -> mode).

(** ** The system of CPUs *)

(** [C1] Safety of power coordination.  In every state reachable by
    interleaved PSCI calls, standby entries and exits and warm boots of all
    CPUs, each power domain above a running CPU is in the RUN state: no call
    sequence powers a domain down under a CPU that executes. *)
Theorem running_cpu_domains_run x y c lvl :
  sys_inv x -> star sys_step x y -> cpu_ok c -> lvl_ok lvl -> y.2 c = MUp ->
  exists nd, arr_get (psci_non_cpu_pd_nodes y.1) (anc c lvl) = Some nd /\
    is_local_state_run (local_state nd) = true.
Proof.
  intros Hx Hs Hc Hl Hup. destruct (reachable_inv x y Hx Hs) as (g & Hr & HI).
  destruct (rep_node _ _ Hr c lvl Hc Hl) as (nd & Hnd & Hd). exists nd. split; [done|].
  destruct Hd as (_ & _ & -> & _). rewrite (up_domains_run _ _ _ _ HI Hc Hl Hup). done.
Qed.

(** A domain is never in a deeper state than one of its CPUs asked for,
    in every reachable state: the state of the domain above CPU [c] at level
    [lvl] is at most the entry of [c] in the table of requested states. *)
Theorem domain_within_requests x y c lvl :
  sys_inv x -> star sys_step x y -> cpu_ok c -> lvl_ok lvl ->
  exists nd row r, arr_get (psci_non_cpu_pd_nodes y.1) (anc c lvl) = Some nd /\
    arr_get (psci_req_local_pwr_states y.1) (lvl - 1) = Some row /\ arr_get row c = Some r /\
    0 <= local_state nd <= r /\ r <= PLAT_MAX_OFF_STATE.
Proof.
  intros Hx Hs Hc Hl. destruct (reachable_inv x y Hx Hs) as (g & Hr & HI).
  destruct (rep_node _ _ Hr c lvl Hc Hl) as (nd & Hnd & _ & _ & Hls & _).
  destruct (rep_req _ _ Hr lvl Hl) as (row & Hrow & _ & Hget).
  exists nd, row, (v_req g lvl c). rewrite Hls.
  split_and!; [done|done|by apply Hget|apply HI; done|apply HI; done|apply HI; done].
Qed.

(** [C13] No call fails in a reachable state.  Whatever function identifier,
    arguments and flags a running CPU passes, the call returns, or powers the
    CPU or the system down; it panics only in a hook the port leaves
    unimplemented, and never fails an assertion, accesses a table out of
    range, calls a null hook, blocks on a lock or loops. *)
Theorem smc_never_fails x y c fid x1 x2 x3 flags :
  sys_inv x -> star sys_step x y -> cpu_ok c -> y.2 c = MUp ->
  match psci_smc_handler c fid x1 x2 x3 flags y.1 with
  | Ret _ _ => True
  | Halt h _ => h = HPwrDownWfi \/ h = HSystemDown \/
      (h = HPanic /\ exists k, k ∈ smc_hooks fid /\ hook_panics k)
  end.
Proof.
  intros Hx Hs Hc Hup. destruct (reachable_inv x y Hx Hs) as (g & Hr & HI).
  pose proof (smc_handler_refines c fid x1 x2 x3 flags Hc y.2 y.1 g Hr HI Hup) as Hw.
  apply wp_unfold in Hw. destruct (psci_smc_handler _ _ _ _ _ _ _) as [|h s']; [done|].
  destruct Hw as (g' & _ & Habs). inversion Habs; subst; eauto 6.
Qed.

(** [C24] Every CPU that was asked to start, or that suspended, comes back: in
    a reachable state its warm boot runs to completion, and its domains are
    in RUN afterwards. *)
Theorem warm_boot_completes x y c :
  sys_inv x -> star sys_step x y -> cpu_ok c -> y.2 c = MDown -> aff_of y.1 c <> Some AFF_STATE_OFF ->
  exists s', psci_warmboot_entrypoint c y.1 = Ret tt s' /\ aff_of s' c = Some AFF_STATE_ON /\
    forall lvl, lvl_ok lvl -> exists nd,
      arr_get (psci_non_cpu_pd_nodes s') (anc c lvl) = Some nd /\ local_state nd = PSCI_LOCAL_STATE_RUN.
Proof.
  intros Hx Hs Hc Hd Ha. destruct (reachable_inv x y Hx Hs) as (g & Hr & HI).
  rewrite (aff_of_rep _ _ _ Hr Hc) in Ha.
  assert (Hw : wp (psci_warmboot_entrypoint c) (fun _ s' => rep s' (warm_view c g)) (fun _ _ => False) y.1).
  { eapply wp_warmboot; try done. congruence. }
  apply wp_returns in Hw as ([] & s' & Hrun & Hr'). exists s'.
  pose proof (warm_view_Inv _ _ _ HI Hc Hd) as HI'. split_and!; [done| |].
  - rewrite (aff_of_rep _ _ _ Hr' Hc). cbn. by rewrite fn_lookup_insert.
  - intros lvl Hl. destruct (rep_node _ _ Hr' c lvl Hc Hl) as (nd & Hnd & _ & _ & Hls & _).
    exists nd. split; [done|]. rewrite Hls. eapply up_domains_run; [exact HI'|done..|]. by rewrite fn_lookup_insert.
Qed.

(** ** Coordination of power states *)
Lemma dom_min_attained (R : Z -> Z -> Z) c lvl :
  cpu_ok c -> lvl_ok lvl -> (forall c', cpu_ok c' -> 0 <= R lvl c' <= PLAT_MAX_OFF_STATE) ->
  exists c', cpu_ok c' /\ anc c' lvl = anc c lvl /\ dom_min R c lvl = R lvl c'.
Proof.
  intros Hc Hl HR. pose proof (dom_min_le R c c lvl Hc Hc Hl eq_refl) as Hle.
  unfold dom_min in *. destruct (min_list_elem PLAT_MAX_OFF_STATE (dom_req R c lvl)) as [He|He].
  - exists c. split_and!; [done..|]. specialize (HR c Hc). lia.
  - apply dom_req_elem in He as (c' & He & Hrange). destruct (dom_bounds c lvl Hc Hl) as (?&?&?).
    assert (Hc' : cpu_ok c') by (unfold cpu_ok; lia). exists c'. split_and!; [done| |done].
    by apply anc_members.
Qed.

(** The table of requests after [me] asked for [st] up to level [L]. *)
Definition asked (me L : Z) (st : psci_power_state_t) (g : view) (lvl c : Z) : Z :=
  if (c =? me) && (1 <=? lvl) && (lvl <=? L) then st_at st lvl else v_req g lvl c.

(** [C25] [psci_do_state_coordination] puts the domains of a CPU in the deepest
    state all their CPUs agree on.  Called by CPU [me] with the composite
    state [st] up to level [L], it records the requests of [me], and for each
    level the resulting state is the minimum of the requests of the CPUs in
    that domain (attained by one of them), unless some CPU of a domain at or
    below that level asks for RUN, and then the domain stays in RUN. *)
Theorem coordination_deepest_agreed me L st s g :
  rep s g -> core g -> cpu_ok me -> 0 <= L <= PLAT_MAX_PWR_LVL -> ps_ok st ->
  let R := asked me L st g in
  exists st' s' g', psci_do_state_coordination me L st s = Ret st' s' /\ rep s' g' /\
    (forall lvl c, lvl_ok lvl -> cpu_ok c -> v_req g' lvl c = R lvl c) /\
    (forall l, ~ (1 <= l <= L) -> st_at st' l = st_at st l) /\
    forall l, 1 <= l <= L -> v_ls g' (anc me l) = st_at st' l /\
      ((st_at st' l = PSCI_LOCAL_STATE_RUN /\ exists l' c', 1 <= l' <= l /\ cpu_ok c' /\
          anc c' l' = anc me l' /\ R l' c' = PSCI_LOCAL_STATE_RUN) \/
       ((forall c', cpu_ok c' -> anc c' l = anc me l -> st_at st' l <= R l c') /\
        exists c', cpu_ok c' /\ anc c' l = anc me l /\ st_at st' l = R l c')).
Proof.
  intros Hr Hcore Hme HL Hst R.
  assert (Hw : wp (psci_do_state_coordination me L st)
    (fun st' s' => coord_result me L st st' g /\ rep s' (coord_view me L st g)) (fun _ _ => False) s).
  { eapply wp_state_coordination; eauto. }
  apply wp_returns in Hw as (st' & s' & Hrun & (_ & Hin & Hout) & Hr'). exists st', s', (coord_view me L st g).
  set (R' := v_req (coord_view me L st g)) in *.
  assert (HR : forall lvl c, R' lvl c = R lvl c).
  { intros lvl c. unfold R', R, asked. cbn. unfold req_upd. destruct (c =? me), (1 <=? lvl); cbn; try done.
    destruct (Z.ltb_spec lvl (1 + Z.of_nat (Z.to_nat L))), (Z.leb_spec lvl L); done || lia. }
  pose proof (core_coord me L st g Hcore Hme HL Hst) as Hc'.
  split_and!; [done|done|auto|done|]. intros l Hl. assert (Hlv : lvl_ok l) by (unfold lvl_ok; lia). split.
  { rewrite Hin by done. cbn. rewrite path_upd_lookup by (done || lia).
    by rewrite bool_decide_eq_true_2 by (split; [lia|done]). }
  rewrite Hin by done. unfold coord_target. destruct (existsb _ _) eqn:He.
  - left. split; [done|]. apply existsb_exists in He as (l' & Hl' & Hrun'%Z.eqb_eq).
    apply list_elem_of_In, elem_of_seqZ in Hl'. assert (lvl_ok l') by (unfold lvl_ok in *; lia).
    destruct (dom_min_attained R' me l') as (c' & ? & ? & Hd); [done..|intros; by apply Hc'|].
    exists l', c'. split_and!; [lia|lia|done|done|]. rewrite <- HR. congruence.
  - right. destruct (dom_min_attained R' me l) as (c' & ? & ? & Hd); [done..|intros; by apply Hc'|]. split.
    + intros d Hd' Ha. rewrite <- HR. by apply dom_min_le.
    + exists c'. by rewrite <- HR.
Qed.
(** [plat_get_target_pwr_state] returns the minimum of the first [ncpu]
    requested states, bounded by PLAT_MAX_OFF_STATE, and leaves everything
    else alone; the loop ends after [ncpu] reads, inside the array. *)
Theorem target_state_is_minimum lvl states ncpu s :
  0 < ncpu < 2 ^ 32 -> ncpu <= Z.of_nat (length states) ->
  exists r, plat_get_target_pwr_state lvl states ncpu s = Ret r s /\ r <= PLAT_MAX_OFF_STATE /\
    (forall v, v ∈ take (Z.to_nat ncpu) states -> r <= v) /\
    (r = PLAT_MAX_OFF_STATE \/ r ∈ take (Z.to_nat ncpu) states).
Proof.
  intros Hn Hlen.
  assert (Hw : wp (plat_get_target_pwr_state lvl states ncpu)
    (fun r s' => s' = s /\ r = min_list PLAT_MAX_OFF_STATE (take (Z.to_nat ncpu) states)) (fun _ _ => False) s).
  { unfold plat_get_target_pwr_state. wp_step. apply wp_assert.
    - unfold truthy. destruct (Z.eqb_spec ncpu 0); [lia|done].
    - by apply target_loop_min. }
  apply wp_returns in Hw as (r & s' & Hrun & -> & ->). eexists. split; [exact Hrun|].
  destruct (min_list_lb PLAT_MAX_OFF_STATE (take (Z.to_nat ncpu) states)) as [Hle Hall].
  split_and!; [done| |apply min_list_elem]. intros v Hv. rewrite Forall_forall in Hall.
  by apply Hall.
Qed.

(** [psci_validate_suspend_req] accepts exactly the composite states of
    [suspend_req_ok]: some level leaves RUN, no level asks for a deeper type
    of state than a level below it, and a standby request turns nothing off. *)
Theorem validate_suspend_req_iff st pd s :
  ps_ok st ->
  exists rc, psci_validate_suspend_req st pd s = Ret rc s /\
    (rc = PSCI_E_SUCCESS <-> suspend_req_ok st pd) /\
    (rc = PSCI_E_INVALID_PARAMS <-> ~ suspend_req_ok st pd).
Proof.
  intros Hst.
  assert (Hw : wp (psci_validate_suspend_req st pd)
    (fun rc s' => s' = s /\ ((rc = PSCI_E_SUCCESS /\ suspend_req_ok st pd) \/
              (rc = PSCI_E_INVALID_PARAMS /\ ~ suspend_req_ok st pd))) (fun _ _ => False) s).
  { by apply wp_validate_suspend_req. }
  apply wp_returns in Hw as (rc & s' & Hrun & -> & [[-> Hok]|[-> Hbad]]); eexists; (split; [exact Hrun|]);
    unfold PSCI_E_SUCCESS, PSCI_E_INVALID_PARAMS; split; split; intros; done || lia.
Qed.

(** ** The calls *)

(** *** The platform's part in CPU_ON

    The platform is asked for its opinion of the entry point, if it has one;
    if it agrees, the registers of the caller are read: an odd entry point is
    refused for an AArch64 caller. *)
Definition entry_hook (e : Z) (p : P) (rc : Z) (p1 : P) : Prop :=
  match validate_ns_entrypoint the_ops with Some f => f e p = Ret rc p1 | None => rc = PSCI_E_SUCCESS /\ p1 = p end.
Definition entry_checked (me e : Z) (p : P) (ok : bool) (p' : P) : Prop :=
  exists rc p1, entry_hook e p rc p1 /\
    if rc =? PSCI_E_SUCCESS then
      exists scr p2 v1 p3, read_scr_el3 me p1 = Ret scr p2 /\ read_sctlr_el1 me p2 = Ret v1 p3 /\
        (if truthy (Z.land scr SCR_HCE_BIT) then exists v2, read_sctlr_el2 me p3 = Ret v2 p' else p' = p3) /\
        ok = negb (truthy (Z.land scr SCR_RW_BIT) && truthy (Z.land e 1))
    else ok = false /\ p' = p1.
(** The dispatcher is told, then the platform turns the CPU on and answers
    [rc]. *)
Definition platform_on (t : Z) (p : P) (rc : Z) (p' : P) : Prop :=
  exists on p1, match the_spd ≫= svc_on with Some f => f t p = Ret tt p1 | None => p1 = p end /\
    pwr_domain_on the_ops = Some on /\ on t p1 = Ret rc p'.

(** What CPU_ON for the CPU with the MPIDR [t] answers from the state [s] with
    the view [g], and what it leaves. *)
Definition cpu_on_result (me t e : Z) (s : psci_state P) (g : view) (rc : Z) (s' : psci_state P) : Prop :=
  let c := plat_core_pos_by_mpidr t in
  (rc = PSCI_E_INVALID_PARAMS /\ c = -1 /\ s' = s) \/
  (cpu_ok c /\ rc = PSCI_E_INVALID_ADDRESS /\ entry_checked me e (hw s) false (hw s') /\ rep s' g) \/
  (cpu_ok c /\ exists p1, entry_checked me e (hw s) true p1 /\
     ((rc = PSCI_E_ALREADY_ON /\ v_aff g c = AFF_STATE_ON /\ hw s' = p1 /\ rep s' g) \/
      (rc = PSCI_E_ON_PENDING /\ v_aff g c = AFF_STATE_ON_PENDING /\ hw s' = p1 /\ rep s' g) \/
      (rc = PSCI_E_INTERN_FAIL /\ v_aff g c = AFF_STATE_OFF /\ platform_on t p1 PSCI_E_INTERN_FAIL (hw s') /\ rep s' g) \/
      (rc = PSCI_E_SUCCESS /\ v_aff g c = AFF_STATE_OFF /\ platform_on t p1 PSCI_E_SUCCESS (hw s') /\ rep s' (pending_view c g)))).

(** Steps that leave the platform, the hooks and the CPU data alone. *)
Definition same_port (s s' : psci_state P) : Prop :=
  hw s' = hw s /\ psci_plat_pm_ops s' = psci_plat_pm_ops s /\ psci_spd_pm s' = psci_spd_pm s.
#[local] Instance same_port_preorder : PreOrder same_port.
Proof. split; [done|]. intros s1 s2 s3 (? & ? & ?) (? & ? & ?). split_and!; congruence. Qed.
Definition keeps_port {A} (m : M (psci_state P) A) : Prop := forall s a s', m s = Ret a s' -> same_port s s'.
Lemma tables_kept_ret {A} (a : A) : keeps_port (ret a).
Proof. by intros s b s' [= _ <-]. Qed.
Lemma keeps_gets {A} (f : psci_state P -> A) : keeps_port (gets f).
Proof. by intros s b s' [= _ <-]. Qed.
Lemma keeps_deref {A} (o : option A) : keeps_port (deref o).
Proof. intros s b s'. destruct o; [by intros [= _ <-]|done]. Qed.
Lemma keeps_modify f : (forall s, same_port s (f s)) -> keeps_port (modify f).
Proof. intros Hf s b s' [= _ <-]. apply Hf. Qed.
Lemma tables_kept_bind {A B} (m : M (psci_state P) A) (k : A -> M (psci_state P) B) :
  keeps_port m -> (forall a, keeps_port (k a)) -> keeps_port (bind m k).
Proof. intros Hm Hk s b s' (a & s1 & K1 & K2)%bind_ret_inv. etransitivity; [by eapply Hm|by eapply Hk]. Qed.
Lemma keeps_assert b : keeps_port (assertM b).
Proof. intros s u s'. unfold assertM. destruct (_ && _); [done|]. by intros [= _ <-]. Qed.
Lemma assertM_ret b (s : psci_state P) u s' : assertM b s = Ret u s' -> s' = s.
Proof. unfold assertM. destruct (_ && _); [done|]. by intros [= _ <-]. Qed.
Lemma keeps_emit ev : keeps_port (emit ev).
Proof. apply keeps_modify. intros []. unfold same_port. by split_and!. Qed.
Ltac keeps := repeat first [apply tables_kept_bind; [|intros ?] | apply tables_kept_ret | apply keeps_gets | apply keeps_deref | apply keeps_emit
  | apply keeps_assert | apply keeps_modify; intros []; unfold same_port; by split_and!].
Lemma keeps_lock me i : keeps_port (psci_spin_lock_cpu me i).
Proof. unfold psci_spin_lock_cpu, get_cpu_node, put_cpu_node. keeps. destruct (cpu_lock _); [by intros s b s'|keeps]. Qed.
Lemma keeps_unlock i : keeps_port (psci_spin_unlock_cpu i).
Proof. unfold psci_spin_unlock_cpu, get_cpu_node, put_cpu_node. keeps. Qed.
Lemma keeps_get_aff i : keeps_port (psci_get_aff_info_state_by_idx i).
Proof. unfold psci_get_aff_info_state_by_idx, get_cpu_data. keeps. Qed.
Lemma keeps_set_aff i a : keeps_port (psci_set_aff_info_state_by_idx i a).
Proof. unfold psci_set_aff_info_state_by_idx, get_cpu_data, put_cpu_data. keeps. Qed.
Lemma tables_kept_when b m : keeps_port m -> keeps_port (when b m).
Proof. intros Hm. destruct b; [done|apply tables_kept_ret]. Qed.

Lemma plat_ret {A} (m : M P A) s a s' : plat m s = Ret a s' ->
  m (hw s) = Ret a (hw s') /\ psci_plat_pm_ops s' = psci_plat_pm_ops s /\ psci_spd_pm s' = psci_spd_pm s.
Proof. unfold plat, zoom. destruct (m (hw s)) as [b p1|]; [|done]. intros [= -> <-]. by destruct s. Qed.
Lemma call_ret {A} h args (m : M P A) s a s' : call h args m s = Ret a s' ->
  m (hw s) = Ret a (hw s') /\ psci_plat_pm_ops s' = psci_plat_pm_ops s /\ psci_spd_pm s' = psci_spd_pm s.
Proof.
  unfold call. intros (u & s1 & (Hh & Ho & Hs)%keeps_emit & Hp)%bind_ret_inv. apply plat_ret in Hp as (Hp & Ho' & Hs').
  rewrite <- Hh. split_and!; congruence.
Qed.
Lemma get_ops_ret s ops s' : get_ops s = Ret ops s' -> s' = s /\ psci_plat_pm_ops s = Some ops.
Proof. unfold get_ops. intros (o & s1 & [= <- <-] & Hd)%bind_ret_inv. destruct (psci_plat_pm_ops s); [|done]. by injection Hd as -> <-. Qed.

Lemma ns_ep_info_run me e ctx s rc ep s' :
  psci_get_ns_ep_info me e ctx s = Ret (rc, ep) s' ->
  exists scr p2 v1 p3, read_scr_el3 me (hw s) = Ret scr p2 /\ read_sctlr_el1 me p2 = Ret v1 p3 /\
    (if truthy (Z.land scr SCR_HCE_BIT) then exists v2, read_sctlr_el2 me p3 = Ret v2 (hw s') else hw s' = p3) /\
    rc = if truthy (Z.land scr SCR_RW_BIT) && truthy (Z.land e 1) then PSCI_E_INVALID_ADDRESS else PSCI_E_SUCCESS.
Proof.
  unfold psci_get_ns_ep_info. intros (scr & s1 & K1 & Hr)%bind_ret_inv. apply plat_ret in K1 as [K1 _].
  apply bind_ret_inv in Hr as (v1 & s2 & K2 & Hr). apply plat_ret in K2 as [K2 _]. apply bind_ret_inv in Hr as (v & s3 & K3 & Hr).
  exists scr, (hw s1), v1, (hw s2). assert (Hend : s' = s3) by (repeat (destruct (truthy _)); injection Hr; intros; congruence). subst s3.
  split_and!; [done|done| |].
  - destruct (truthy (Z.land scr SCR_HCE_BIT)); [apply plat_ret in K3 as [K3 _]; by exists v|by injection K3 as _ <-].
  - destruct (truthy (Z.land scr SCR_RW_BIT)); cbn; [destruct (truthy (Z.land e 1)); cbn|]; by injection Hr as <- _.
Qed.

Lemma validate_entry_run me e ctx s rc ep s' : psci_plat_pm_ops s = Some the_ops ->
  psci_validate_entry_point me e ctx s = Ret (rc, ep) s' -> entry_checked me e (hw s) (rc =? PSCI_E_SUCCESS) (hw s').
Proof.
  intros Hops Hr. unfold psci_validate_entry_point in Hr. apply bind_ret_inv in Hr as (ops & s1 & Ho & Hr). apply get_ops_ret in Ho as [-> Ho].
  rewrite Hops in Ho. injection Ho as <-. apply bind_ret_inv in Hr as (rc1 & s1 & Hv & Hr). exists rc1, (hw s1). split.
  { unfold entry_hook. destruct (validate_ns_entrypoint the_ops); [by apply call_ret in Hv as [Hv _]|by injection Hv as <- <-]. }
  destruct (rc1 =? PSCI_E_SUCCESS); cbn [negb] in Hr; [|by injection Hr as <- _ <-].
  apply bind_ret_inv in Hr as ([rc2 ep2] & s2 & Hi & Hr). injection Hr as -> _ <-. apply ns_ep_info_run in Hi as (scr & p2 & v1 & p3 & K1 & K2 & K3 & ->).
  exists scr, p2, v1, p3. split_and!; [done..|]. by destruct (_ && _).
Qed.

Lemma spd_on_run h t s u s' : call_spd h svc_on t s = Ret u s' ->
  match psci_spd_pm s ≫= svc_on with Some f => f t (hw s) = Ret tt (hw s') | None => hw s' = hw s end /\
  psci_plat_pm_ops s' = psci_plat_pm_ops s.
Proof.
  unfold call_spd, spd_hook. intros (o & s1 & (o1 & s2 & [= <- <-] & [= <- <-])%bind_ret_inv & Hr)%bind_ret_inv.
  destruct u. destruct (psci_spd_pm s) as [ops|]; cbn in *; [|by injection Hr as <-].
  destruct (svc_on ops); [by apply call_ret in Hr as (? & ? & _)|by injection Hr as <-].
Qed.

Lemma power_up_run t c ep s rc s' : psci_plat_pm_ops s = Some the_ops -> psci_spd_pm s = the_spd ->
  cpu_on_power_up t c ep s = Ret rc s' -> platform_on t (hw s) rc (hw s').
Proof.
  intros Hops Hspd Hr. unfold cpu_on_power_up in Hr. apply bind_ret_inv in Hr as (u & s1 & K1 & Hr). apply spd_on_run in K1 as [K1 Hops1].
  assert (Hk : forall k s2, (psci_set_aff_info_state_by_idx c AFF_STATE_ON_PENDING ;;; k) s1 = Ret rc s2 ->
    exists s3, k s3 = Ret rc s2 /\ same_port s1 s3).
  { intros k s2 (v & s3 & Ha & Hk)%bind_ret_inv. exists s3. split; [done|]. by eapply keeps_set_aff. }
  apply Hk in Hr as (s2 & Hr & Hp2). apply bind_ret_inv in Hr as (u2 & s3 & K3%keeps_emit & Hr).
  apply bind_ret_inv in Hr as (a & s4 & K4%keeps_get_aff & Hr). apply bind_ret_inv in Hr as (u5 & s5 & K5 & Hr).
  assert (Hp5 : same_port s1 s5).
  { transitivity s2; [done|]. transitivity s3; [done|]. transitivity s4; [done|].
    refine (tables_kept_when _ _ _ _ _ _ K5). keeps; first [apply keeps_set_aff|apply keeps_get_aff|keeps]. }
  apply bind_ret_inv in Hr as (ops & s6 & Ho & Hr). apply get_ops_ret in Ho as [-> Ho]. destruct Hp5 as (Hw5 & Ho5 & _).
  rewrite Ho5, Hops1, Hops in Ho. injection Ho as <-. apply bind_ret_inv in Hr as (on & s6 & Hon & Hr).
  unfold hook_of, deref in Hon. destruct (pwr_domain_on the_ops) as [on'|] eqn:Eon; [injection Hon as -> <-|done].
  apply bind_ret_inv in Hr as (rc1 & s7 & Hcall & Hr). apply call_ret in Hcall as [Hcall _]. apply bind_ret_inv in Hr as (u7 & s8 & K8%keeps_assert & Hr).
  apply bind_ret_inv in Hr as (u9 & s9 & K9 & Hr). injection Hr as <- <-. assert (Hp9 : same_port s7 s9).
  { transitivity s8; [done|]. destruct (rc1 =? PSCI_E_SUCCESS); [by eapply keeps_emit|]. revert K9.
    apply tables_kept_bind; [apply keeps_set_aff|intros _; apply keeps_emit]. }
  destruct Hp9 as [Hw9 _]. exists on, (hw s1). rewrite <- Hspd. split_and!; [|done|].
  - by destruct (psci_spd_pm s ≫= svc_on).
  - by rewrite Hw9, <- Hw5.
Qed.

(** The affinity state that [psci_cpu_on_start] finds decides. *)
Lemma cpu_on_start_run me t ep s rc s' g : rep s g -> cpu_ok (plat_core_pos_by_mpidr t) -> v_clk g (plat_core_pos_by_mpidr t) = None ->
  psci_cpu_on_start me t ep s = Ret rc s' ->
  match v_aff g (plat_core_pos_by_mpidr t) with AFF_STATE_OFF => platform_on t (hw s) rc (hw s') | _ => hw s' = hw s end.
Proof.
  intros Hr Hc Hclk Hrun. set (c := plat_core_pos_by_mpidr t) in *. pose proof cfg_cores. unfold psci_cpu_on_start in Hrun. fold c in Hrun.
  rewrite (u32_small c) in Hrun by (unfold cpu_ok in *; lia).
  apply bind_ret_inv in Hrun as (u0 & s0 & ->%assertM_ret & Hrun). apply bind_ret_inv in Hrun as (ops & s1 & [-> _]%get_ops_ret & Hrun).
  apply bind_ret_inv in Hrun as (u1 & s1 & ->%assertM_ret & Hrun).
  apply bind_ret_inv in Hrun as (u2 & s2 & K2 & Hrun). apply bind_ret_inv in Hrun as (u3 & s3 & K3 & Hrun).
  apply bind_ret_inv in Hrun as (a & s4 & K4 & Hrun). apply bind_ret_inv in Hrun as (rc1 & s5 & K5 & Hrun).
  apply bind_ret_inv in Hrun as (rc2 & s6 & K6 & Hrun). apply bind_ret_inv in Hrun as (u7 & s7 & K7%keeps_unlock & Hrun). injection Hrun as -> <-.
  assert (Hr2 : rep s2 (with_clk (<[c := Some me]> (v_clk g)) g)).
  { refine (wp_ret_inv _ (fun _ s' => rep s' _) (fun _ _ => True) _ _ _ _ K2). by eapply wp_spin_lock. }
  assert (Hr3 : rep s3 (with_clk (<[c := Some me]> (v_clk g)) g)).
  { refine (wp_ret_inv _ (fun _ s' => rep s' _) (fun _ _ => True) _ _ _ _ K3). by eapply wp_emit. }
  assert (Ha : a = v_aff g c /\ s4 = s3).
  { refine (wp_ret_inv _ (fun a s' => a = v_aff g c /\ s' = s3) (fun _ _ => True) _ _ _ _ K4). by eapply wp_get_aff. }
  destruct Ha as [-> ->]. assert (Hp : same_port s s3) by (transitivity s2; [by eapply keeps_lock|by eapply keeps_emit]).
  destruct Hp as (Hw & Ho & Hs), K7 as (Hw7 & _ & _). rewrite Hw7, <- Hw.
  destruct (v_aff g c); injection K5 as <- <-; cbn in K6; [by injection K6 as _ <-| |by injection K6 as _ <-].
  eapply power_up_run; [apply (rep_ops _ _ Hr3)|apply (rep_spd _ _ Hr3)|exact K6].
Qed.

Lemma cpu_on_run me t e ctx s g :
  rep s g -> unlocked g -> is_Some (pwr_domain_on the_ops) -> is_Some (pwr_domain_on_finish the_ops) ->
  exists rc s', psci_cpu_on me t e ctx s = Ret rc s' /\ cpu_on_result me t e s g rc s'.
Proof.
  intros Hr [_ Hclk] Hon Hfin. unfold psci_cpu_on, psci_validate_mpidr, cpu_on_result. erewrite bind_run by done.
  destruct (pc_core_pos t) as [Hm|Hm].
  { rewrite Hm. cbn. exists PSCI_E_INVALID_PARAMS, s. split; [done|]. by left. }
  destruct (Z.ltb_spec (plat_core_pos_by_mpidr t) 0); [unfold cpu_ok in Hm; lia|]. cbn [Z.eqb negb PSCI_E_SUCCESS].
  assert (Hv : wp (psci_validate_entry_point me e ctx) (fun r s' => rep s' g /\ (r.1 = PSCI_E_SUCCESS \/ r.1 = PSCI_E_INVALID_ADDRESS) /\ (r.1 = PSCI_E_SUCCESS -> is_Some r.2))
    (fun _ _ => False) s) by (by eapply wp_validate_entry_point).
  apply wp_returns in Hv as ([rc ep] & s1 & Hv & Hr1 & Hrc & Hep). cbn in Hrc, Hep. rewrite (bind_run _ _ _ _ _ Hv). cbn [fst snd].
  apply validate_entry_run in Hv; [|apply Hr]. destruct Hrc as [->| ->]; cbn in Hv |- *.
  2: { exists PSCI_E_INVALID_ADDRESS, s1. split; [done|]. right. left. by split_and!. }
  destruct (Hep eq_refl) as [ep' ->]. erewrite bind_run by done.
  assert (Hst : wp (psci_cpu_on_start me t ep') (fun rc s' =>
      (rc = PSCI_E_ALREADY_ON /\ v_aff g (plat_core_pos_by_mpidr t) = AFF_STATE_ON /\ rep s' g) \/
      (rc = PSCI_E_ON_PENDING /\ v_aff g (plat_core_pos_by_mpidr t) = AFF_STATE_ON_PENDING /\ rep s' g) \/
      (rc = PSCI_E_INTERN_FAIL /\ v_aff g (plat_core_pos_by_mpidr t) = AFF_STATE_OFF /\ rep s' g) \/
      (rc = PSCI_E_SUCCESS /\ v_aff g (plat_core_pos_by_mpidr t) = AFF_STATE_OFF /\ rep s' (pending_view (plat_core_pos_by_mpidr t) g))) (fun _ _ => False) s1).
  { eapply wp_cpu_on_start; [done|done|by apply Hclk|done..| | | |]; intros; naive_solver. }
  apply wp_returns in Hst as (rc & s' & Hst & Hres). exists rc, s'. split; [done|].
  pose proof (cpu_on_start_run me t ep' s1 rc s' g Hr1 Hm (Hclk _ Hm) Hst) as Hpl. right. right. split; [done|]. exists (hw s1). split; [done|].
  destruct Hres as [(-> & Ha & Hr')|[(-> & Ha & Hr')|[(-> & Ha & Hr')|(-> & Ha & Hr')]]]; rewrite Ha in Hpl |- *; naive_solver.
Qed.

(** [C33] CPU_ON, every branch.  An MPIDR that names no CPU is refused with
    INVALID_PARAMS and no change.  Otherwise the entry point is checked: if the
    platform's hook does not return SUCCESS for it, or it is odd and the caller
    is an AArch64 one, the answer is INVALID_ADDRESS, and it is not in any other
    case.  A CPU that is on is refused with ALREADY_ON and one on its way with
    ON_PENDING, without asking the platform; for a CPU that is off the
    platform, after the secure payload was told, is asked to turn it on, and
    its answer, SUCCESS or INTERN_FAIL, is the answer of the call.  Only with
    SUCCESS has anything changed in PSCI's tables: the CPU is then marked
    ON_PENDING. *)
Theorem cpu_on_outcomes me t e ctx s g :
  rep s g -> unlocked g -> is_Some (pwr_domain_on the_ops) -> is_Some (pwr_domain_on_finish the_ops) ->
  exists rc s', psci_cpu_on me t e ctx s = Ret rc s' /\ cpu_on_result me t e s g rc s'.
Proof. apply cpu_on_run. Qed.

(** The same CPU asked again before it came up. *)
Lemma pending_again c g : v_aff (pending_view c g) c = AFF_STATE_ON_PENDING.
Proof. cbn. by rewrite fn_lookup_insert. Qed.

Lemma cpu_on_success_view me t e ctx s s1 g :
  rep s g -> unlocked g -> is_Some (pwr_domain_on the_ops) -> is_Some (pwr_domain_on_finish the_ops) ->
  psci_cpu_on me t e ctx s = Ret PSCI_E_SUCCESS s1 ->
  cpu_ok (plat_core_pos_by_mpidr t) /\ rep s1 (pending_view (plat_core_pos_by_mpidr t) g).
Proof.
  intros Hr Hun Hon Hfin Hrun.
  destruct (cpu_on_run me t e ctx s g Hr Hun Hon Hfin) as (rc & s' & Hrun' & Hres). rewrite Hrun in Hrun'. injection Hrun' as <- <-.
  destruct Hres as [(?&_)|[(_&?&_)|(? & p1 & _ & [(?&_)|[(?&_)|[(?&_)|(_&_&_&?)]]])]]; done.
Qed.

Lemma wp_affinity_info t s g :
  rep s g -> cpu_ok (plat_core_pos_by_mpidr t) ->
  wp (psci_affinity_info t 0) (fun rc s' => rc = aff_value (v_aff g (plat_core_pos_by_mpidr t)) /\ rep s' g)
    (fun _ _ => False) s.
Proof.
  intros Hr Hc. unfold psci_affinity_info. cbn [Z.ltb Z.compare PSCI_CPU_PWR_LVL].
  destruct (Z.eqb_spec (plat_core_pos_by_mpidr t) (-1)); [unfold cpu_ok in Hc; lia|]. wp_step.
  eapply wp_emit; [done|]. intros s2 Hr2. wp_step. eapply wp_get_aff; [done..|]. by wp_step.
Qed.

(** A CPU is started once: after a CPU_ON that returned SUCCESS, and
    until the target has come up, AFFINITY_INFO reports ON_PENDING for it and
    a further CPU_ON from any CPU is refused without changing anything. *)
Theorem cpu_on_once me me' t e ctx e' ctx' s s1 g :
  rep s g -> unlocked g -> is_Some (pwr_domain_on the_ops) -> is_Some (pwr_domain_on_finish the_ops) ->
  psci_cpu_on me t e ctx s = Ret PSCI_E_SUCCESS s1 ->
  (exists s2, psci_affinity_info t 0 s1 = Ret (aff_value AFF_STATE_ON_PENDING) s2) /\
  exists rc s2, psci_cpu_on me' t e' ctx' s1 = Ret rc s2 /\
    (rc = PSCI_E_ON_PENDING \/ rc = PSCI_E_INVALID_ADDRESS) /\
    rep s2 (pending_view (plat_core_pos_by_mpidr t) g).
Proof.
  intros Hr Hun Hon Hfin Hrun.
  destruct (cpu_on_success_view _ _ _ _ _ _ _ Hr Hun Hon Hfin Hrun) as [Hc Hr1].
  pose proof (pending_again (plat_core_pos_by_mpidr t) g) as Hp. split.
  - destruct (wp_returns _ _ _ (wp_affinity_info t _ _ Hr1 Hc)) as (rc & s2 & Hrun2 & -> & _).
    rewrite Hp in Hrun2. eauto.
  - assert (Hun1 : unlocked (pending_view (plat_core_pos_by_mpidr t) g)) by apply Hun.
    destruct (cpu_on_run me' t e' ctx' _ _ Hr1 Hun1 Hon Hfin) as (rc & s2 & Hrun2 & Hres).
    exists rc, s2. split; [done|]. unfold cpu_ok in Hc.
    destruct Hres as [(_&?&_)|[(_&?&_&?)|(_ & p1 & _ & [(_&?&_)|[(?&_&_&?)|[(_&?&_)|(_&?&_)]]])]]; [lia|auto|congruence|auto|congruence..].
Qed.

(** CPU_OFF.  The call comes back only when the secure payload refuses,
    with DENIED and unchanged tables; otherwise the CPU ends in the power-down
    wait, marked OFF, with all levels offered to be turned off. *)
Theorem cpu_off_outcomes me s g :
  rep s g -> unlocked g -> cpu_ok me -> is_Some (pwr_domain_off the_ops) ->
  (exists s', psci_cpu_off me s = Ret PSCI_E_DENIED s' /\ rep s' g) \/
  (exists s', psci_cpu_off me s = Halt HPwrDownWfi s' /\ rep s' (off_view me g) /\
     aff_of s' me = Some AFF_STATE_OFF).
Proof.
  intros Hr Hun Hme Hoff.
  assert (Hw : wp (psci_cpu_off me) (fun rc s' => rc = PSCI_E_DENIED /\ rep s' g)
    (fun h s' => h = HPwrDownWfi /\ rep s' (off_view me g)) s).
  { unfold psci_cpu_off. wp_step. eapply wp_do_cpu_off; [done..| |done].
    intros s' Hr'. wp_step. apply wp_assert; [done|]. by wp_step. }
  apply wp_outcome in Hw as [(rc & s' & Hrun & -> & Hr')|(h & s' & Hrun & -> & Hr')]; [left|right]; exists s'; [done|].
  split_and!; [done|done|]. rewrite (aff_of_rep _ _ _ Hr' Hme). cbn. by rewrite fn_lookup_insert.
Qed.

(** SYSTEM_SUSPEND is for the last CPU: while another CPU is not off the
    call returns DENIED and changes nothing at all. *)
Theorem system_suspend_denied me c e ctx s g :
  rep s g -> cpu_ok me -> v_aff g me = AFF_STATE_ON -> cpu_ok c -> c <> me -> v_aff g c <> AFF_STATE_OFF ->
  psci_system_suspend me e ctx s = Ret PSCI_E_DENIED s.
Proof.
  intros Hr Hme Hon Hc Hne Ha.
  assert (Hw : wp (psci_system_suspend me e ctx) (fun rc s' => rc = PSCI_E_DENIED /\ s' = s) (fun _ _ => False) s).
  { unfold psci_system_suspend. wp_step. eapply wp_is_last_on_cpu; [done..|].
    intros r [[-> Hoff]|[-> _]]; [by destruct Ha; apply Hoff|by cbn; wp_step]. }
  by apply wp_returns in Hw as (rc & s' & Hrun & -> & ->).
Qed.
(** ** The SMC interface *)

(** [C3] The SMC handler refines the abstract power-management machine.  A
    call by a running CPU in a state that represents [g] is a step of
    [psci_abs] from [g], whether it returns or not, for every function
    identifier and all arguments. *)
Theorem smc_refines_abstract me fid x1 x2 x3 flags md s g :
  rep s g -> Inv md g -> cpu_ok me -> md me = MUp ->
  match psci_smc_handler me fid x1 x2 x3 flags s with
  | Ret _ s' => exists g', rep s' g' /\ psci_abs (smc_hooks fid) me g None g'
  | Halt h s' => exists g', rep s' g' /\ psci_abs (smc_hooks fid) me g (Some h) g'
  end.
Proof.
  intros Hr HI Hme Hup. apply (wp_unfold (psci_smc_handler me fid x1 x2 x3 flags)).
  by eapply smc_handler_refines.
Qed.

(** Every step of the abstract machine preserves the power-management
    invariant, the mode of the calling CPU updated; a panic apart, which
    stops the system. *)
Theorem abstract_step_keeps_invariant hs md me g o g' :
  Inv md g -> cpu_ok me -> md me = MUp -> psci_abs hs me g o g' -> o <> Some HPanic ->
  Inv (mode_after me o md) g'.
Proof. apply psci_abs_Inv. Qed.

(** An identifier [features_of] reports by its capability bit alone. *)
Definition listed_fid (fid : Z) : bool :=
  negb (fid =? SMCCC_VERSION) && is_std_svc_call fid && is_valid_fast_smc fid && is_psci_fid fid &&
  (negb (Z.land (Z.shiftr fid FUNCID_CC_SHIFT) FUNCID_CC_MASK =? SMC_64) ||
   (Z.land PSCI_CAP_64BIT_MASK (define_psci_cap fid) =? define_psci_cap fid)).

Lemma features_listed caps fid :
  listed_fid fid = true -> features_of caps fid = PSCI_E_NOT_SUPPORTED -> has_cap caps fid = false.
Proof.
  unfold listed_fid, features_of, has_cap. rewrite !andb_true_iff, orb_true_iff, negb_true_iff.
  intros [[[[-> ->] ->] ->] H64]. cbn [andb negb].
  replace (Z.land (if _ =? SMC_64 then _ else _) (define_psci_cap fid)) with (Z.land caps (define_psci_cap fid)).
  - destruct (truthy _); [|done]. cbn [negb]. destruct (_ || _); [|done].
    unfold FF_PSTATE. by destruct PSCI_EXTENDED_STATE_ID.
  - destruct H64 as [H64%negb_true_iff|H64%Z.eqb_eq]; [by rewrite H64|].
    destruct (_ =? SMC_64); [|done]. by rewrite <- Z.land_assoc, H64.
Qed.

(** The cases of the two switches are all listed. *)
Ltac unlisted fid :=
  repeat match goal with
  | |- (if ?b then _ else _) _ = _ =>
      let Hb := fresh "Hb" in
      destruct b eqn:Hb;
      [exfalso; try (apply andb_true_iff in Hb as [_ Hb]); apply Z.eqb_eq in Hb; subst fid; discriminate|clear Hb]
  end.

Lemma smc_unlisted me fid x1 x2 x3 s :
  listed_fid fid = false ->
  smc32_call me fid x1 x2 x3 s = Ret None s /\ smc64_call me fid x1 x2 x3 s = Ret None s.
Proof.
  intros Hl. split; [unfold smc32_call|unfold smc64_call]; cbv zeta; unlisted fid; done.
Qed.

(** PSCI_FEATURES tells the truth about what is missing: an identifier it
    reports as NOT_SUPPORTED gets SMC_UNK from the handler, whatever the
    arguments, and the state is untouched. *)
Theorem features_not_supported me fid x1 x2 x3 flags s :
  features_of (psci_caps s) fid = PSCI_E_NOT_SUPPORTED ->
  psci_smc_handler me fid x1 x2 x3 flags s = Ret (u64 SMC_UNK) s.
Proof.
  intros Hf. unfold psci_smc_handler. destruct (is_caller_secure flags); [done|].
  unfold bind, gets. fold (has_cap (psci_caps s) fid). destruct (has_cap (psci_caps s) fid) eqn:Hc; [|done].
  cbn [negb]. destruct (listed_fid fid) eqn:Hl.
  - apply features_listed in Hf; [congruence|done].
  - destruct (smc_unlisted me fid (u32 x1) (u32 x2) (u32 x3) s Hl) as [H32 _].
    destruct (smc_unlisted me fid x1 x2 x3 s Hl) as [_ H64].
    destruct (_ =? SMC_32); [by rewrite H32|by rewrite H64].
Qed.
(** MEM_PROTECT_CHECK_RANGE never passes a range that wraps around the
    address space to the platform: an empty range, and one whose last byte
    lies beyond the 64-bit space, are denied at once; every other range is
    decided by the platform hook alone. *)
Theorem mem_chk_range_bounds b l ops f s :
  psci_plat_pm_ops s = Some ops -> mem_protect_chk ops = Some f -> 0 <= b < 2 ^ 64 -> 0 <= l < 2 ^ 64 ->
  (l = 0 \/ 2 ^ 64 < b + l -> psci_mem_chk_range b l s = Ret PSCI_E_DENIED s) /\
  (0 < l -> b + l <= 2 ^ 64 -> psci_mem_chk_range b l s =
     (let! r := call HkMemChk [b; l] (f b l) in ret (if r <? 0 then PSCI_E_DENIED else PSCI_E_SUCCESS)) s).
Proof.
  intros Hops Hf Hb Hl.
  assert (Hrun : psci_mem_chk_range b l s =
    (if (l =? 0) || check_uptr_overflow b (u64 (l - 1)) then ret PSCI_E_DENIED
     else let! r := call HkMemChk [b; l] (f b l) in ret (if r <? 0 then PSCI_E_DENIED else PSCI_E_SUCCESS)) s).
  { unfold psci_mem_chk_range, get_ops, hook_of, assertM, bind, gets, deref, ret. rewrite Hops, Hf.
    rewrite bool_decide_eq_true_2 by done. rewrite andb_false_r. by destruct (_ || _). }
  rewrite Hrun. unfold check_uptr_overflow, UINTPTR_MAX. split.
  - intros Hbad. replace (_ || _) with true; [done|]. symmetry. apply orb_true_iff.
    destruct (Z.eqb_spec l 0); [by left|right]. apply Z.ltb_lt. rewrite u64_small by lia. lia.
  - intros Hpos Hfit. replace (_ || _) with false; [done|]. symmetry. apply orb_false_iff.
    split; [apply Z.eqb_neq; lia|]. apply Z.ltb_ge. rewrite u64_small by lia. lia.
Qed.

(** ** Locks *)
Lemma wp_lock_get_trace me c lvl s g :
  rep s g -> cpu_ok c -> lvl_ok lvl -> v_lk g (anc c lvl) = None ->
  wp (psci_lock_get me (anc c lvl))
    (fun _ s' => trace s' = EvLock (anc c lvl) :: trace s /\ rep s' (with_lk (<[anc c lvl := Some me]> (v_lk g)) g))
    (fun _ _ => False) s.
Proof.
  intros Hr Hc Hl Hfree. assert (Hrg := arr_get_Some_range _ _ _ (rep_lk _ _ Hr c lvl Hc Hl)).
  unfold psci_lock_get. wp_step. eapply wp_get_node; [done..|].
  intros nd (_ & _ & _ & _ & -> & _). wp_steps. eapply wp_deref; [by apply Hr|]. rewrite Hfree.
  wp_steps. eapply wp_deref; [by apply arr_set_in_range|]. unfold emit. wp_steps.
  split; [by destruct s|].
  pose proof (rep_set_lock s g c lvl (Some me) Hr Hc Hl) as Hr2. destruct s. by destruct Hr2; split.
Qed.

Lemma acquire_loop_trace n me lvl parent_idx s g :
  rep s g -> cpu_ok me -> 1 <= lvl -> lvl + Z.of_nat n - 1 <= PLAT_MAX_PWR_LVL ->
  ((0 < n)%nat -> parent_idx = anc me lvl) ->
  (forall l, lvl <= l < lvl + Z.of_nat n -> v_lk g (anc me l) = None) ->
  wp (acquire_loop n me parent_idx)
    (fun _ s' => trace s' = rev (map (fun l => EvLock (anc me l)) (seqZ lvl (Z.of_nat n))) ++ trace s /\
       rep s' (with_lk (path_upd me lvl n (fun _ => Some me) (v_lk g)) g))
    (fun _ _ => False) s.
Proof.
  revert lvl parent_idx s g. induction n as [|n IH]; intros lvl pidx s g Hr Hme Hlo Hn Hp Hfree.
  { cbn [acquire_loop]. wp_step. split; [done|by destruct g]. }
  cbn [acquire_loop path_upd]. assert (Hl : lvl_ok lvl) by (unfold lvl_ok; lia). rewrite Hp by lia. wp_step.
  eapply wp_mono; [eapply wp_lock_get_trace; [done..|apply Hfree; lia]| |done]. intros _ s1 [Ht Hr1].
  wp_step. eapply wp_get_node; [done..|]. intros nd Hnd. eapply wp_mono; [eapply (IH (lvl + 1)); [done|done|lia..| |]| |done].
  - intros Hn0. apply Hnd. lia.
  - intros l Hlv. cbn. rewrite fn_lookup_insert_ne; [apply Hfree; lia|].
    intros He. apply anc_level in He; [lia|done..|]. unfold lvl_ok. lia.
  - intros _ s2 [Ht2 Hr2]. split; [|done]. rewrite Ht2, Ht, (seqZ_cons lvl) by lia.
    replace (Z.pred (Z.of_nat (S n))) with (Z.of_nat n) by lia. simpl. by rewrite <- app_assoc.
Qed.

(** Lock order.  [psci_acquire_pwr_domain_locks] takes exactly the locks
    of the ancestors of the CPU up to the end level, from the lowest level to
    the highest, when they are free; since the ancestors of a common ancestor
    are common, two CPUs take the locks they share in the same order. *)
Theorem locks_taken_bottom_up me L s g :
  rep s g -> cpu_ok me -> 0 <= L <= PLAT_MAX_PWR_LVL -> (forall l, 1 <= l <= L -> v_lk g (anc me l) = None) ->
  exists s', psci_acquire_pwr_domain_locks me L me s = Ret tt s' /\
    trace s' = rev (map (fun l => EvLock (anc me l)) (seqZ 1 L)) ++ trace s /\
    (forall l, 1 <= l <= L -> arr_get (psci_locks s') (anc me l) = Some (Some me)) /\
    forall c l l', cpu_ok c -> lvl_ok l -> lvl_ok l' -> l <= l' -> anc c l = anc me l -> anc c l' = anc me l'.
Proof.
  intros Hr Hme HL Hfree.
  assert (Hw : wp (psci_acquire_pwr_domain_locks me L me)
    (fun _ s' => trace s' = rev (map (fun l => EvLock (anc me l)) (seqZ 1 L)) ++ trace s /\ rep s' (lock_view me L g))
    (fun _ _ => False) s).
  { unfold psci_acquire_pwr_domain_locks. wp_step. eapply wp_get_cpu_node; [done..|]. intros cn _ Hp.
    replace (seqZ 1 L) with (seqZ 1 (Z.of_nat (Z.to_nat L))) by (f_equal; lia).
    eapply (acquire_loop_trace _ me 1); [done|done|lia|lia|intros; apply Hp; lia|]. intros l Hlv. apply Hfree. lia. }
  apply wp_returns in Hw as ([] & s' & Hrun & Ht & Hr'). exists s'. split_and!; [done|done| |].
  - intros l Hl. rewrite (rep_lk _ _ Hr') by (done || unfold lvl_ok; lia). f_equal. by apply locked_by_me.
  - intros c l l' Hc Hlv Hlv' Hle Ha. by apply (anc_nested c me l l').
Qed.
(** ** Capabilities *)
Definition present {A} (o : option A) : bool := bool_decide (is_Some o).
Definition cap_if (b : bool) (fid : Z) : Z := if b then define_psci_cap fid else 0.

Lemma has_cap_lor a b fid : has_cap (Z.lor a b) fid = has_cap a fid || has_cap b fid.
Proof.
  unfold has_cap, truthy. rewrite Z.land_comm, Z.land_lor_distr_r, !(Z.land_comm (define_psci_cap fid)).
  destruct (Z.eqb_spec (Z.land a (define_psci_cap fid)) 0) as [->|Ha]; [by rewrite Z.lor_0_l|].
  destruct (Z.eqb_spec (Z.lor (Z.land a (define_psci_cap fid)) (Z.land b (define_psci_cap fid))) 0) as [Hl|]; [|done].
  by apply Z.lor_eq_0_l in Hl.
Qed.

Lemma has_cap_if b f fid : has_cap (cap_if b f) fid = b && has_cap (define_psci_cap f) fid.
Proof. by destruct b. Qed.

Lemma when_add_cap b fid a s :
  when b (add_cap fid) (set_caps a s) = Ret tt (set_caps (Z.lor a (cap_if b fid)) s).
Proof.
  destruct s, b; cbn; [done|by rewrite Z.lor_0_r].
Qed.

Lemma when_add_cap2 b fid b' fid' a s :
  when b (add_cap fid ;;; when b' (add_cap fid')) (set_caps a s) =
  Ret tt (set_caps (Z.lor (Z.lor a (cap_if b fid)) (cap_if (b && b') fid')) s).
Proof.
  destruct b; cbn [when andb]; [|cbn; by rewrite !Z.lor_0_r].
  rewrite (bind_run _ _ _ tt (set_caps (Z.lor a (cap_if true fid)) s)); [apply when_add_cap|].
  apply (when_add_cap true).
Qed.

(** [psci_setup] advertises exactly the calls the port can serve: the
    capability bit of a call is set if and only if all the hooks its handler
    needs are registered (the mandatory calls always, MIGRATE never before a
    dispatcher registers). *)
Theorem setup_caps_exact ops s :
  exists caps, psci_setup_caps ops s = Ret tt (set_caps caps s) /\
    has_cap caps PSCI_VERSION && has_cap caps PSCI_AFFINITY_INFO_AARCH64 && has_cap caps PSCI_FEATURES = true /\
    has_cap caps PSCI_CPU_OFF = present (pwr_domain_off ops) /\
    has_cap caps PSCI_CPU_ON_AARCH64 = present (pwr_domain_on ops) && present (pwr_domain_on_finish ops) /\
    has_cap caps PSCI_CPU_SUSPEND_AARCH64 =
      present (pwr_domain_suspend ops) && present (pwr_domain_suspend_finish ops) /\
    has_cap caps PSCI_SYSTEM_SUSPEND_AARCH64 =
      present (pwr_domain_suspend ops) && present (pwr_domain_suspend_finish ops) &&
      present (get_sys_suspend_power_state ops) /\
    has_cap caps PSCI_SYSTEM_OFF = present (PsciDefs.system_off ops) /\
    has_cap caps PSCI_SYSTEM_RESET = present (PsciDefs.system_reset ops) /\
    has_cap caps PSCI_NODE_HW_STATE_AARCH64 = present (get_node_hw_state ops) /\
    has_cap caps PSCI_MEM_PROTECT = present (read_mem_protect ops) && present (write_mem_protect ops) /\
    has_cap caps PSCI_MEM_CHK_RANGE_AARCH64 = present (mem_protect_chk ops) /\
    has_cap caps PSCI_SYSTEM_RESET2_AARCH64 = present (PsciDefs.system_reset2 ops) /\
    has_cap caps PSCI_STAT_COUNT_AARCH64 = ENABLE_PSCI_STAT /\
    has_cap caps PSCI_MIG_AARCH64 = false.
Proof.
  eexists. split.
  - unfold psci_setup_caps.
    rewrite (bind_run _ _ _ tt (set_caps PSCI_GENERIC_CAP s)) by done.
    do 2 (erewrite bind_run by apply when_add_cap). erewrite bind_run by apply when_add_cap2.
    do 6 (erewrite bind_run by apply when_add_cap).
    change (add_cap (P := P) PSCI_STAT_COUNT_AARCH64) with (when true (add_cap (P := P) PSCI_STAT_COUNT_AARCH64)).
    apply when_add_cap2.
  - unfold present. split_and!; rewrite ?has_cap_lor, ?has_cap_if;
      repeat match goal with |- context [has_cap ?a ?b] => let v := eval vm_compute in (has_cap a b) in
        change (has_cap a b) with v end;
      rewrite ?andb_false_r, ?andb_true_r, ?orb_false_r; done.
Qed.
End props.

(** ** Statistics *)

(** [calc_stat_residency] is exact while the counter does not wrap, and
    one tick short when it wraps between the two time stamps: 2^64 - 1 is
    used where the counter has 2^64 values. *)
Theorem stat_residency_ticks freq pwrupts pwrdnts :
  MHZ_TICKS_PER_SEC <= freq -> 0 <= pwrupts < 2 ^ 64 -> 0 <= pwrdnts < 2 ^ 64 ->
  let div := freq / MHZ_TICKS_PER_SEC in
  let elapsed := (pwrupts - pwrdnts) mod 2 ^ 64 in
  calc_stat_residency freq pwrupts pwrdnts =
    Some ((if pwrdnts <=? pwrupts then elapsed else elapsed - 1) / div).
Proof.
  intros Hf Hup Hdn div elapsed. unfold calc_stat_residency. fold div.
  assert (Hdiv : 1 <= div). { unfold div. apply Z.div_le_lower_bound; unfold MHZ_TICKS_PER_SEC in *; lia. }
  destruct (Z.eqb_spec div 0); [lia|]. f_equal. f_equal. unfold elapsed, MAX_TS.
  destruct (Z.ltb_spec pwrupts pwrdnts), (Z.leb_spec pwrdnts pwrupts); try lia.
  - rewrite u64_small by lia. replace (pwrupts - pwrdnts) with (2 ^ 64 + pwrupts - pwrdnts + (-1) * 2 ^ 64) by lia.
    rewrite Z.mod_add, Z.mod_small by lia. lia.
  - by rewrite Z.mod_small by lia.
Qed.

(** ** Instances on the board *)
Module Run.
Import Board.

(** CPU 0 starts CPU 1, which boots and turns itself off again. *)
Definition res {A} (m : M (psci_state a3700_hw) A) (s : psci_state a3700_hw) : psci_state a3700_hw :=
  match m s with Ret _ s' => s' | Halt _ s' => s' end.
Definition started : psci_state a3700_hw := res (psci_smc_handler 0 PSCI_CPU_ON_AARCH64 1 0x200000 7 1) booted.
Definition up : psci_state a3700_hw := res (psci_warmboot_entrypoint 1) started.
Definition off : psci_state a3700_hw := res (psci_smc_handler 1 PSCI_CPU_OFF 0 0 0 1) up.

(** The result of a run, without its state. *)
Definition val {A} (m : M (psci_state a3700_hw) A) (s : psci_state a3700_hw) : A + halt :=
  match m s with Ret a _ => inl a | Halt h _ => inr h end.
Lemma run_ret {A} (m : M (psci_state a3700_hw) A) s a : val m s = inl a -> m s = Ret a (res m s).
Proof. unfold val, res. destruct (m s); naive_solver. Qed.
Lemma run_halt {A} (m : M (psci_state a3700_hw) A) s h : val m s = inr h -> m s = Halt h (res m s).
Proof. unfold val, res. destruct (m s); naive_solver. Qed.

Lemma started_run : psci_smc_handler 0 PSCI_CPU_ON_AARCH64 1 0x200000 7 1 booted = Ret 0 started.
Proof. unfold started. apply run_ret. vm_compute. reflexivity. Qed.
Lemma up_run : psci_warmboot_entrypoint 1 started = Ret tt up.
Proof. unfold up. apply run_ret. vm_compute. reflexivity. Qed.
Lemma off_run : psci_smc_handler 1 PSCI_CPU_OFF 0 0 0 1 up = Halt HPwrDownWfi off.
Proof. unfold off. apply run_halt. vm_compute. reflexivity. Qed.

Definition modes_up : Z -> mode := <[1 := MUp]> setup_modes.
Definition modes_off : Z -> mode := <[1 := MDown]> modes_up.

Lemma star_started : star sys_step (booted, setup_modes) (started, setup_modes).
Proof. eapply star_step; [apply star_refl|]. eapply (step_call _ _ 0); [done|done|exact started_run]. Qed.
Lemma star_up : star sys_step (booted, setup_modes) (up, modes_up).
Proof.
  eapply star_step; [apply star_started|]. eapply (step_warm_boot _ _ 1); [done|done|by vm_compute|exact up_run].
Qed.
Lemma star_off : star sys_step (booted, setup_modes) (off, modes_off).
Proof. eapply star_step; [apply star_up|]. eapply (step_power_down _ _ 1); [done|done|exact off_run]. Qed.
Lemma modes_off_0 : modes_off 0 = MUp.
Proof. reflexivity. Qed.
Lemma modes_up_1 : modes_up 1 = MUp.
Proof. reflexivity. Qed.
Lemma aff_started : aff_of started 1 <> Some AFF_STATE_OFF.
Proof. by vm_compute. Qed.
Definition asked_on : psci_state a3700_hw := res (psci_cpu_on 0 1 0x200000 7) booted.
Lemma asked_on_run : psci_cpu_on 0 1 0x200000 7 booted = Ret PSCI_E_SUCCESS asked_on.
Proof. unfold asked_on. apply run_ret. vm_compute. reflexivity. Qed.
(** MEM_PROTECT is not implemented by the port. *)
Lemma booted_no_mem_protect : features_of (psci_caps booted) PSCI_MEM_PROTECT = PSCI_E_NOT_SUPPORTED.
Proof. vm_compute. reflexivity. Qed.
End Run.
#[global] Opaque Board.booted Run.started Run.up Run.off Run.asked_on.

Module PsciWitnesses.
Import Board Run.

(** CPU 1 turned off, CPU 0 still runs: the cluster stays in RUN. *)
Lemma running_cpu_domains_run_witness :
  exists nd, arr_get (psci_non_cpu_pd_nodes off) (anc 0 1) = Some nd /\ is_local_state_run (local_state nd) = true.
Proof.
  exact (running_cpu_domains_run (booted, setup_modes) (off, modes_off) 0 1
           booted_inv star_off cpu0_ok lvl1_ok modes_off_0).
Defined.

Lemma domain_within_requests_witness :
  exists nd row r, arr_get (psci_non_cpu_pd_nodes off) (anc 1 1) = Some nd /\
    arr_get (psci_req_local_pwr_states off) 0 = Some row /\ arr_get row 1 = Some r /\
    0 <= local_state nd <= r /\ r <= PLAT_MAX_OFF_STATE.
Proof.
  exact (domain_within_requests (booted, setup_modes) (off, modes_off) 1 1 booted_inv star_off cpu1_ok lvl1_ok).
Defined.

Lemma smc_never_fails_witness :
  match psci_smc_handler 1 PSCI_CPU_OFF 0 0 0 1 up with
  | Ret _ _ => True
  | Halt h _ => h = HPwrDownWfi \/ h = HSystemDown \/
      (h = HPanic /\ exists k, k ∈ smc_hooks PSCI_CPU_OFF /\ hook_panics k)
  end.
Proof.
  exact (smc_never_fails (booted, setup_modes) (up, modes_up) 1 PSCI_CPU_OFF 0 0 0 1
           booted_inv star_up cpu1_ok modes_up_1).
Defined.

Lemma warm_boot_completes_witness :
  exists s', psci_warmboot_entrypoint 1 started = Ret tt s' /\ aff_of s' 1 = Some AFF_STATE_ON /\
    forall lvl, lvl_ok lvl -> exists nd,
      arr_get (psci_non_cpu_pd_nodes s') (anc 1 lvl) = Some nd /\ local_state nd = PSCI_LOCAL_STATE_RUN.
Proof.
  exact (warm_boot_completes (booted, setup_modes) (started, setup_modes) 1
           booted_inv star_started cpu1_ok eq_refl aff_started).
Defined.

Lemma setup_unlocked : unlocked (setup_view true).
Proof. apply (inv_unlocked setup_modes), setup_Inv. Qed.
Lemma setup_core : core (setup_view true).
Proof. apply (inv_core setup_modes), setup_Inv. Qed.

(** CPU 0 asks for everything to be turned off. *)
Lemma coordination_deepest_agreed_witness :
  exists st' s' g', psci_do_state_coordination 0 1 psci_set_power_off_state booted = Ret st' s' /\ rep s' g' /\
    v_ls g' (anc 0 1) = st_at st' 1.
Proof.
  destruct (coordination_deepest_agreed 0 1 psci_set_power_off_state booted (setup_view true)
              booted_rep setup_core cpu0_ok ltac:(split; discriminate) ps_ok_off)
    as (st' & s' & g' & Hrun & Hr & _ & _ & Hl).
  exists st', s', g'. split; [exact Hrun|]. split; [exact Hr|]. apply Hl. split; discriminate.
Defined.

Lemma target_state_is_minimum_witness :
  exists r, plat_get_target_pwr_state 1 [2; 1; 0] 2 booted = Ret r booted /\ r <= PLAT_MAX_OFF_STATE /\
    (forall v, v ∈ take 2 [2; 1; 0] -> r <= v) /\ (r = PLAT_MAX_OFF_STATE \/ r ∈ take 2 [2; 1; 0]).
Proof. apply (target_state_is_minimum 1 [2; 1; 0] 2 booted); simpl; lia. Defined.

Lemma validate_suspend_req_iff_witness :
  exists rc, psci_validate_suspend_req [2; 0] PSTATE_TYPE_POWERDOWN booted = Ret rc booted /\
    (rc = PSCI_E_SUCCESS <-> suspend_req_ok [2; 0] PSTATE_TYPE_POWERDOWN) /\
    (rc = PSCI_E_INVALID_PARAMS <-> ~ suspend_req_ok [2; 0] PSTATE_TYPE_POWERDOWN).
Proof.
  apply (validate_suspend_req_iff [2; 0] PSTATE_TYPE_POWERDOWN booted). split; [reflexivity|].
  intros lvl Hl. change (0 <= lvl <= 1) in Hl. assert (lvl = 0 \/ lvl = 1) as [->| ->] by lia; split; discriminate.
Defined.

Lemma cpu_on_outcomes_witness :
  exists rc s', psci_cpu_on 0 1 0x200000 7 booted = Ret rc s' /\ cpu_on_result 0 1 0x200000 booted (setup_view true) rc s'.
Proof.
  exact (cpu_on_outcomes 0 1 0x200000 7 booted (setup_view true) booted_rep setup_unlocked
           (mk_is_Some _ _ eq_refl) (mk_is_Some _ _ eq_refl)).
Defined.

Lemma cpu_on_once_witness :
  (exists s2, psci_affinity_info 1 0 asked_on = Ret 2 s2) /\
  exists rc s2, psci_cpu_on 1 1 0x300000 8 asked_on = Ret rc s2 /\
    (rc = PSCI_E_ON_PENDING \/ rc = PSCI_E_INVALID_ADDRESS) /\ rep s2 (pending_view 1 (setup_view true)).
Proof.
  exact (cpu_on_once 0 1 1 0x200000 7 0x300000 8 booted asked_on (setup_view true) booted_rep setup_unlocked
           (mk_is_Some _ _ eq_refl) (mk_is_Some _ _ eq_refl) asked_on_run).
Defined.

Lemma cpu_off_outcomes_witness :
  (exists s', psci_cpu_off 0 booted = Ret PSCI_E_DENIED s' /\ rep s' (setup_view true)) \/
  (exists s', psci_cpu_off 0 booted = Halt HPwrDownWfi s' /\ rep s' (off_view 0 (setup_view true)) /\
     aff_of s' 0 = Some AFF_STATE_OFF).
Proof.
  exact (cpu_off_outcomes 0 booted (setup_view true) booted_rep setup_unlocked cpu0_ok (mk_is_Some _ _ eq_refl)).
Defined.

(** CPU 1 is on its way up: CPU 0 may not suspend the system. *)
Lemma asked_on_rep : rep asked_on (pending_view 1 (setup_view true)).
Proof.
  destruct (cpu_on_success_view 0 1 0x200000 7 booted asked_on (setup_view true) booted_rep setup_unlocked
              (mk_is_Some _ _ eq_refl) (mk_is_Some _ _ eq_refl) asked_on_run) as [_ Hr]. exact Hr.
Qed.
Lemma system_suspend_denied_witness :
  psci_system_suspend 0 0x200000 0 asked_on = Ret PSCI_E_DENIED asked_on.
Proof.
  exact (system_suspend_denied 0 1 0x200000 0 asked_on (pending_view 1 (setup_view true)) asked_on_rep
           cpu0_ok eq_refl cpu1_ok ltac:(discriminate) ltac:(discriminate)).
Defined.

Lemma smc_refines_abstract_witness :
  match psci_smc_handler 0 PSCI_CPU_ON_AARCH64 1 0x200000 7 1 booted with
  | Ret _ s' => exists g', rep s' g' /\ psci_abs (smc_hooks PSCI_CPU_ON_AARCH64) 0 (setup_view true) None g'
  | Halt h s' => exists g', rep s' g' /\ psci_abs (smc_hooks PSCI_CPU_ON_AARCH64) 0 (setup_view true) (Some h) g'
  end.
Proof.
  exact (smc_refines_abstract 0 PSCI_CPU_ON_AARCH64 1 0x200000 7 1 setup_modes booted (setup_view true)
           booted_rep (setup_Inv true regs0) cpu0_ok eq_refl).
Defined.

Lemma abstract_step_keeps_invariant_witness :
  Inv (mode_after 0 (Some HPwrDownWfi) setup_modes) (off_view 0 (setup_view true)).
Proof.
  exact (abstract_step_keeps_invariant [] setup_modes 0 (setup_view true) (Some HPwrDownWfi) _
           (setup_Inv true regs0) cpu0_ok eq_refl (abs_off [] 0 (setup_view true)) ltac:(discriminate)).
Defined.

Lemma features_not_supported_witness :
  psci_smc_handler 0 PSCI_MEM_PROTECT 1 0 0 1 booted = Ret (u64 SMC_UNK) booted.
Proof. exact (features_not_supported 0 PSCI_MEM_PROTECT 1 0 0 1 booted booted_no_mem_protect). Defined.

(** A port that checks ranges against the first 4 GB. *)
Definition chk_below_4g (b l : Z) : M a3700_hw Z := ret (if b + l <=? 2 ^ 32 then 0 else -1).
Definition chk_ops : plat_psci_ops a3700_hw :=
  PlatPsciOps a3700_hw None None None None None None None None None None None None None None None None
    (Some chk_below_4g) None None None.
Lemma mem_chk_range_bounds_witness :
  psci_mem_chk_range (2 ^ 64 - 1) 2 (set_ops (Some chk_ops) booted) =
    Ret PSCI_E_DENIED (set_ops (Some chk_ops) booted).
Proof.
  apply (mem_chk_range_bounds (2 ^ 64 - 1) 2 chk_ops chk_below_4g (set_ops (Some chk_ops) booted)).
  - destruct booted. reflexivity.
  - reflexivity.
  - lia.
  - lia.
  - right. reflexivity.
Defined.

Lemma locks_taken_bottom_up_witness :
  exists s', psci_acquire_pwr_domain_locks 0 1 0 booted = Ret tt s' /\ trace s' = EvLock 0 :: trace booted.
Proof.
  destruct (locks_taken_bottom_up 0 1 booted (setup_view true) booted_rep cpu0_ok ltac:(split; discriminate)
              (fun _ _ => eq_refl)) as (s' & Hrun & Ht & _).
  exists s'. split; [exact Hrun|exact Ht].
Defined.

Lemma stat_residency_ticks_witness : calc_stat_residency 12000000 5 (2 ^ 64 - 20) = Some 2.
Proof.
  rewrite (stat_residency_ticks 12000000 5 (2 ^ 64 - 20)); [reflexivity| | |]; unfold MHZ_TICKS_PER_SEC; lia.
Defined.
End PsciWitnesses.
