(* ===== verification/A3700PmProps.v ===== *)
(** * Armada 3700: properties of the power management port

    What the hooks of plat_pm.c leave in the registers, the mailbox, which
    MPIDRs name a core, the SiP service, and the PSCI library running on this
    port.  Register contents are followed bit by bit: [keeps m a i] says that
    [m] returns and leaves bit [i] of register [a] alone, [makes m a i b] that
    it returns with that bit equal to [b]. *)
From Stdlib Require Import ZArith Lia.
From stdpp Require Import base sets list numbers option functions gmap.
From S2P Require Import Prelude PsciDefs PsciCommon PsciSetup PsciStat PsciPower PsciMain PsciSpec PsciCoord PsciWalk PsciInv PsciHandlers PsciSmc PsciSystem A3700Hw A3700Win A3700WinProps A3700Pm A3700Psci PsciProps.
#[local] Open Scope Z_scope.
#[local] Abbreviation HM := (M a3700_hw).

(** ** Bits of registers *)
Definition bit_of (p : a3700_hw) (a i : Z) : bool := Z.testbit (reg p a) i.

Section bits.
Context (a i : Z).

Definition keeps {A} (m : HM A) : Prop :=
  forall p, wp m (fun _ p' => bit_of p' a i = bit_of p a i) (fun _ _ => False) p.
Definition makes {A} (b : bool) (m : HM A) : Prop :=
  forall p, wp m (fun _ p' => bit_of p' a i = b) (fun _ _ => False) p.

Lemma keeps_ret {A} (x : A) : keeps (ret x).
Proof. intros p. by apply wp_ret. Qed.

Lemma keeps_bind {A B} (m : HM A) (k : A -> HM B) : keeps m -> (forall x, keeps (k x)) -> keeps (bind m k).
Proof.
  intros Hm Hk p. apply wp_bind. eapply wp_mono; [apply Hm| |done]. intros x p1 H1.
  eapply wp_mono; [apply Hk| |done]. intros y p2 H2. congruence.
Qed.

Lemma keeps_when b m : keeps m -> keeps (when b m).
Proof. intros Hm. destruct b; [done|apply keeps_ret]. Qed.

Lemma keeps_if {A} (b : bool) (m1 m2 : HM A) : keeps m1 -> keeps m2 -> keeps (if b then m1 else m2).
Proof. by destruct b. Qed.

Lemma keeps_dev d : keeps (dev d).
Proof. intros p. by apply wp_modify. Qed.

Lemma keeps_write r v : plain r -> r <> a -> keeps (mmio_write_32 r v).
Proof. intros Hr Hne p. apply wp_mmio_write; [done|]. unfold bit_of. by rewrite reg_set_ne. Qed.

Lemma testbit_u32 x : 0 <= i < 32 -> Z.testbit (u32 x) i = Z.testbit x i.
Proof. intros Hi. unfold u32. apply Z.mod_pow2_bits_low. lia. Qed.

Lemma keeps_setbits r v :
  plain r -> 0 <= i < 32 -> (r =? a) && Z.testbit v i = false -> keeps (mmio_setbits_32 r v).
Proof.
  intros Hr Hi Hv p. apply wp_setbits; [done|]. unfold bit_of. destruct (Z.eqb_spec r a) as [->|Hne].
  - cbn in Hv. by rewrite reg_set_eq, testbit_u32, Z.lor_spec, Hv, orb_false_r.
  - by rewrite reg_set_ne.
Qed.

Lemma keeps_clrbits r v :
  plain r -> 0 <= i < 32 -> (r =? a) && Z.testbit v i = false -> keeps (mmio_clrbits_32 r v).
Proof.
  intros Hr Hi Hv p. apply wp_clrbits; [done|]. unfold bit_of. destruct (Z.eqb_spec r a) as [->|Hne].
  - cbn in Hv. by rewrite reg_set_eq, testbit_u32, Z.ldiff_spec, Hv, andb_true_r.
  - by rewrite reg_set_ne.
Qed.

Lemma makes_setbits v : plain a -> 0 <= i < 32 -> Z.testbit v i = true -> makes true (mmio_setbits_32 a v).
Proof.
  intros Hr Hi Hv p. apply wp_setbits; [done|]. unfold bit_of.
  by rewrite reg_set_eq, testbit_u32, Z.lor_spec, Hv, orb_true_r.
Qed.

Lemma makes_clrbits v : plain a -> 0 <= i < 32 -> Z.testbit v i = true -> makes false (mmio_clrbits_32 a v).
Proof.
  intros Hr Hi Hv p. apply wp_clrbits; [done|]. unfold bit_of.
  by rewrite reg_set_eq, testbit_u32, Z.ldiff_spec, Hv, andb_false_r.
Qed.

(** A bit set early and kept afterwards; a bit set late. *)
Lemma makes_then {A B} b (m : HM A) (k : A -> HM B) :
  makes b m -> (forall x, keeps (k x)) -> makes b (bind m k).
Proof.
  intros Hm Hk p. apply wp_bind. eapply wp_mono; [apply Hm| |done]. intros x p1 H1.
  eapply wp_mono; [apply Hk| |done]. intros y p2 H2. congruence.
Qed.

Lemma makes_later {A B} b (m : HM A) (k : A -> HM B) :
  total m -> (forall x, makes b (k x)) -> makes b (bind m k).
Proof. intros Hm Hk p. apply wp_bind. eapply wp_mono; [apply Hm| |done]. intros x p1 _. apply Hk. Qed.

Lemma keeps_total {A} (m : HM A) : keeps m -> total m.
Proof. intros Hm p. by eapply wp_mono; [apply Hm| |]. Qed.

Lemma makes_run {A} b (m : HM A) p x p' : makes b m -> m p = Ret x p' -> bit_of p' a i = b.
Proof. intros Hm Hrun. specialize (Hm p). apply wp_unfold in Hm. by rewrite Hrun in Hm. Qed.

Lemma keeps_run {A} (m : HM A) p x p' : keeps m -> m p = Ret x p' -> bit_of p' a i = bit_of p a i.
Proof. intros Hm Hrun. specialize (Hm p). apply wp_unfold in Hm. by rewrite Hrun in Hm. Qed.
End bits.

(** ** Interrupt acknowledgement *)
Lemma status_special a : a ∈ irq_status_regs -> a <> MVEBU_WARM_RESET_REG /\ a <> MVEBU_DRAM_STATS_CH0_REG.
Proof.
  unfold irq_status_regs. rewrite !elem_of_cons, elem_of_nil.
  intros [->|[->|[->|[->|[->|[->|[->|[]]]]]]]]; split; discriminate.
Qed.

Lemma wp_ack_one a (Q : unit -> a3700_hw -> Prop) E p :
  a ∈ irq_status_regs ->
  (forall p', reg p' a = 0 -> (forall b, b <> a -> reg p' b = reg p b) -> Q tt p') -> wp (ack_one a) Q E p.
Proof.
  intros Ha HQ. destruct (status_special a Ha) as [Hw Hd]. unfold ack_one. wp_step.
  apply wp_unfold. unfold mmio_read_32. destruct (Z.eqb_spec a MVEBU_DRAM_STATS_CH0_REG); [done|].
  apply wp_when; unfold truthy; intros Hr.
  - apply wp_unfold. unfold mmio_write_32. rewrite decide_True by done.
    destruct (Z.eqb_spec a MVEBU_WARM_RESET_REG); [done|]. cbn [andb]. apply HQ.
    + by rewrite reg_set_eq, Z.ldiff_diag.
    + intros b Hb. by rewrite reg_set_ne.
  - apply HQ; [|done]. by apply negb_false_iff, Z.eqb_eq in Hr.
Qed.

(** The status registers [done] are clear, everything else is unchanged. *)
Definition acked (dn : list Z) (p p' : a3700_hw) : Prop :=
  forall a, reg p' a = if decide (a ∈ dn) then 0 else reg p a.

Lemma wp_ack_next a dn p (Q : unit -> a3700_hw -> Prop) E p1 :
  a ∈ irq_status_regs -> acked dn p p1 -> (forall p', acked (a :: dn) p p' -> Q tt p') -> wp (ack_one a) Q E p1.
Proof.
  intros Ha Hdn HQ. apply wp_ack_one; [done|]. intros p' H0 Hr. apply HQ. intros b.
  destruct (decide (b = a)) as [->|Hne]; [by rewrite decide_True by set_solver|].
  rewrite Hr, Hdn by done. destruct (decide (b ∈ dn)); [by rewrite decide_True by set_solver|].
  by rewrite decide_False by set_solver.
Qed.

Lemma wp_ack_irq (Q : unit -> a3700_hw -> Prop) E p :
  (forall p', acked irq_status_regs p p' -> Q tt p') -> wp a3700_pm_ack_irq Q E p.
Proof.
  intros HQ. unfold a3700_pm_ack_irq. assert (H0 : acked [] p p) by done.
  do 6 (wp_step; eapply wp_ack_next; [unfold irq_status_regs; set_solver|eassumption|]; clear H0; intros ? H0).
  eapply wp_ack_next; [unfold irq_status_regs; set_solver|eassumption|]. clear H0. intros pe H0. apply HQ.
  intros a. rewrite H0. destruct (decide (a ∈ irq_status_regs)) as [Ha|Ha].
  - rewrite decide_True; [done|]. unfold irq_status_regs in Ha. set_solver.
  - rewrite decide_False; [done|]. unfold irq_status_regs in Ha. set_solver.
Qed.

Lemma keeps_ack a i : a ∉ irq_status_regs -> keeps a i a3700_pm_ack_irq.
Proof.
  intros Ha p. apply wp_ack_irq. intros p' Hp'. unfold bit_of. rewrite Hp'. by rewrite decide_False.
Qed.

(** ** The DRAM write buffer *)
Lemma keeps_drain a i : keeps a i drain_wait.
Proof.
  intros p. unfold drain_wait. wp_step. wp_step.
  cut (forall q, regs q = regs p -> drain q = drain p ->
    wp (drain_poll (S (drain p))) (fun _ p' => bit_of p' a i = bit_of p a i) (fun _ _ => False) q).
  { intros Hc. by apply Hc. }
  remember (drain p) as n eqn:Hn. clear Hn. induction n as [|n IH]; intros q Hq Hd; cbn [drain_poll];
    wp_step; apply wp_unfold; unfold mmio_read_32; rewrite Z.eqb_refl, Hd; apply wp_unfold.
  - rewrite Z.land_lor_distr_l, Z.land_diag.
    replace (_ =? _) with true; [unfold ret, bit_of, reg; by rewrite Hq|].
    symmetry. apply Z.eqb_eq, Z.bits_inj'. intros j Hj. rewrite Z.lor_spec, Z.land_spec.
    destruct (Z.testbit MVEBU_DRAM_WCP_EMPTY j); [apply orb_true_r|by rewrite andb_false_r].
  - destruct (_ =? _); [by unfold ret, bit_of, reg; rewrite Hq|]. apply wp_unfold, IH; done.
Qed.

(** ** Straight-line code *)
Ltac by_decide := apply (bool_decide_unpack _); vm_compute; exact I.
Ltac keeps_step :=
  lazymatch goal with
  | |- keeps _ _ (bind _ _) => apply keeps_bind; [|intros ?]
  | |- keeps _ _ (when _ _) => apply keeps_when
  | |- keeps _ _ (ret _) => apply keeps_ret
  | |- keeps _ _ (dev _) => apply keeps_dev
  | |- keeps _ _ drain_wait => apply keeps_drain
  | |- keeps _ _ a3700_pm_ack_irq => apply keeps_ack; vm_compute; set_solver
  | |- keeps _ _ (mmio_write_32 _ _) => apply keeps_write; [by_decide|vm_compute; discriminate]
  | |- keeps _ _ (mmio_setbits_32 _ _) => apply keeps_setbits; [by_decide|lia|vm_compute; reflexivity]
  | |- keeps _ _ (mmio_clrbits_32 _ _) => apply keeps_clrbits; [by_decide|lia|vm_compute; reflexivity]
  end.
Ltac keeps_steps := repeat keeps_step.

(** The wake-up sources of the board: north bridge GPIO 14, south bridge GPIO
    2, UART 1. *)
Lemma wake_sources_eq :
  a3700_set_wake_up_source mv_wake_up_src_config_get =
    (bind (bind (bind (a3700_pm_en_nb_gpio 14) (fun _ => ret 0)) (fun _ => ret tt)) (fun _ =>
     bind (bind (bind (a3700_pm_en_sb_gpio 2) (fun _ => ret 0)) (fun _ => ret tt)) (fun _ =>
     bind (let! _ := a3700_pm_src_uart1 (WakeSrc WAKE_UP_SRC_UART1 0 0) in ret tt) (fun _ => ret tt)))).
Proof. reflexivity. Qed.

Ltac hook_steps :=
  unfold a3700_set_pwr_off_option, a3700_set_gen_pwr_off_option, a3700_en_ddr_self_refresh, a3700_pwr_dn_avs,
    a3700_pwr_dn_tbg, a3700_pwr_dn_sb, a3700_set_wake_up_option, a3700_pm_save_lp_flag, a3700_pm_src_uart1,
    a3700_pm_en_sb_gpio, a3700_pm_en_nb_gpio; cbn [Z.leb Z.compare Pos.compare Pos.compare_cont]; keeps_steps.

(** [makes] by finding the access that sets or clears the bit. *)
Ltac total_part :=
  lazymatch goal with
  | |- total (dev _) => apply total_dev
  | |- total a3700_pm_ack_irq => apply ack_total
  | |- total a3700_set_pwr_off_option => apply pwr_off_option_total
  | |- total _ => apply (keeps_total 0 0); solve [hook_steps]
  end.
Ltac makes_find :=
  lazymatch goal with
  | |- makes _ _ _ (bind _ _) =>
      first [ apply makes_then; [makes_find|intros ?; solve [hook_steps]]
            | apply makes_later; [total_part|intros ?; makes_find] ]
  | |- makes ?a ?i true (mmio_setbits_32 ?a ?v) =>
      apply (makes_setbits a i v); [by_decide|lia|vm_compute; reflexivity]
  | |- makes ?a ?i false (mmio_clrbits_32 ?a ?v) =>
      apply (makes_clrbits a i v); [by_decide|lia|vm_compute; reflexivity]
  | |- makes _ _ _ a3700_set_wake_up_option => unfold a3700_set_wake_up_option; makes_find
  | |- makes _ _ _ (a3700_pm_en_nb_gpio _) => unfold a3700_pm_en_nb_gpio; cbn [Z.leb Z.compare Pos.compare Pos.compare_cont]; makes_find
  | |- makes _ _ _ (a3700_pm_en_sb_gpio _) => unfold a3700_pm_en_sb_gpio; makes_find
  | |- makes _ _ _ (a3700_pm_src_uart1 _) => unfold a3700_pm_src_uart1; makes_find
  | |- makes _ _ _ a3700_set_pwr_off_option => unfold a3700_set_pwr_off_option; makes_find
  | |- makes _ _ _ a3700_set_gen_pwr_off_option => unfold a3700_set_gen_pwr_off_option; makes_find
  | |- makes _ _ _ a3700_en_ddr_self_refresh => unfold a3700_en_ddr_self_refresh; makes_find
  | |- makes _ _ _ a3700_pwr_dn_sb => unfold a3700_pwr_dn_sb; makes_find
  | |- makes _ _ _ a3700_pm_save_lp_flag => unfold a3700_pm_save_lp_flag; makes_find
  end.

(** What a suspended system needs: the low power flag for the next boot, the
    wake-up events of the board's sources (north bridge GPIO 14, UART 1 on GPIO
    18 and 19, south bridge GPIO 2) enabled and unmasked, L2 flush, power down
    of the cores, DDR self refresh, and the start of the power-down sequence. *)
Definition suspend_sets : list (Z * Z) :=
  [(MVEBU_PM_CPU_VDD_OFF_INFO_2_REG, 0);
   (MVEBU_PM_NB_WAKE_UP_EN_REG, 16); (MVEBU_PM_NB_WAKE_UP_EN_REG, 27); (MVEBU_PM_NB_WAKE_UP_EN_REG, 31);
   (MVEBU_PM_NB_WAKE_UP_EN_REG, 12); (MVEBU_PM_NB_WAKE_UP_EN_REG, 13);
   (MVEBU_NB_GPIO_IRQ_EN_LOW_REG, 14); (MVEBU_NB_GPIO_IRQ_EN_LOW_REG, 18); (MVEBU_NB_GPIO_IRQ_EN_LOW_REG, 19);
   (MVEBU_SB_GPIO_IRQ_EN_REG, 2); (MVEBU_PM_SB_WK_EN_REG, 24);
   (MVEBU_PM_NB_CPU_PWR_CTRL_REG, 22); (MVEBU_PM_CPU_0_PWR_CTRL_REG, 0); (MVEBU_PM_CPU_1_PWR_CTRL_REG, 0);
   (MVEBU_PM_NB_PWR_OPTION_REG, 29); (MVEBU_PM_NB_PWR_OPTION_REG, 27); (MVEBU_PM_SB_CPU_PWR_CTRL_REG, 0)].
Definition suspend_clears : list (Z * Z) :=
  [(MVEBU_NB_GPIO_IRQ_MASK_1_REG, 14); (MVEBU_NB_GPIO_IRQ_MASK_1_REG, 18); (MVEBU_NB_GPIO_IRQ_MASK_1_REG, 19);
   (MVEBU_SB_GPIO_IRQ_MASK_REG, 2); (MVEBU_PM_NB_PWR_OPTION_REG, 19)].

Lemma suspend_makes_sets st : Forall (fun '(a, i) => makes a i true (a3700_pwr_domain_suspend st)) suspend_sets.
Proof.
  unfold a3700_pwr_domain_suspend, suspend_sets. rewrite wake_sources_eq.
  repeat (apply List.Forall_cons; [cbv beta iota; makes_find|]). apply List.Forall_nil.
Qed.

Lemma suspend_makes_clears st : Forall (fun '(a, i) => makes a i false (a3700_pwr_domain_suspend st)) suspend_clears.
Proof.
  unfold a3700_pwr_domain_suspend, suspend_clears. rewrite wake_sources_eq.
  repeat (apply List.Forall_cons; [cbv beta iota; makes_find|]). apply List.Forall_nil.
Qed.

Lemma ack_makes a i : a ∈ irq_status_regs -> makes a i false a3700_pm_ack_irq.
Proof.
  intros Ha p. apply wp_ack_irq. intros p' Hp. unfold bit_of. rewrite Hp, decide_True by done. apply Z.bits_0.
Qed.

Lemma suspend_makes_acked st i :
  0 <= i < 32 -> Forall (fun a => makes a i false (a3700_pwr_domain_suspend st)) irq_status_regs.
Proof.
  intros Hi. unfold a3700_pwr_domain_suspend, irq_status_regs. rewrite wake_sources_eq.
  repeat (apply List.Forall_cons;
    [do 4 (apply makes_later; [total_part|intros ?]);
     apply makes_then; [apply ack_makes; unfold irq_status_regs; set_solver|intros ?; hook_steps]|]).
  apply List.Forall_nil.
Qed.

(** Bit 20 of the south bridge wake-up register. *)
Lemma suspend_keeps_sb_wkp st : keeps MVEBU_PM_SB_WK_EN_REG 20 (a3700_pwr_domain_suspend st).
Proof. unfold a3700_pwr_domain_suspend. rewrite wake_sources_eq. hook_steps. Qed.

(** ** Claims *)

(** The suspend hook always completes, from any register contents: the
    busy wait for the DRAM write buffer ends, every bit of [suspend_sets] is
    set and every bit of [suspend_clears] cleared, and no interrupt is left
    pending in the status registers. *)
Theorem suspend_prepares st p :
  exists p', a3700_pwr_domain_suspend st p = Ret tt p' /\
    Forall (fun '(a, i) => bit_of p' a i = true) suspend_sets /\
    Forall (fun '(a, i) => bit_of p' a i = false) suspend_clears /\
    forall a i, a ∈ irq_status_regs -> 0 <= i < 32 -> bit_of p' a i = false.
Proof.
  destruct (wp_returns (a3700_pwr_domain_suspend st) (fun _ _ => True) p (suspend_total st p)) as ([] & p' & Hrun & _).
  exists p'. split; [exact Hrun|]. split_and!.
  - eapply List.Forall_impl; [|apply (suspend_makes_sets st)]. intros [a i] Hm. by eapply makes_run.
  - eapply List.Forall_impl; [|apply (suspend_makes_clears st)]. intros [a i] Hm. by eapply makes_run.
  - intros a i Ha Hi. pose proof (suspend_makes_acked st i Hi) as Hall. rewrite list.Forall_forall in Hall.
    eapply makes_run; [by apply Hall|exact Hrun].
Qed.

(** The south bridge wake-up enable is never set: the suspend hook leaves
    bit 20 (MVEBU_PM_SB_WKP_EN) of the south bridge wake-up register as it
    was, and only sets bit 24, although a south bridge GPIO is one of the
    board's wake-up sources. *)
Theorem suspend_sb_wakeup_not_enabled st p :
  exists p', a3700_pwr_domain_suspend st p = Ret tt p' /\
    bit_of p' MVEBU_PM_SB_WK_EN_REG 24 = true /\
    bit_of p' MVEBU_PM_SB_WK_EN_REG 20 = bit_of p MVEBU_PM_SB_WK_EN_REG 20.
Proof.
  destruct (wp_returns (a3700_pwr_domain_suspend st) (fun _ _ => True) p (suspend_total st p)) as ([] & p' & Hrun & _).
  exists p'. split; [exact Hrun|]. split; [|exact (keeps_run _ _ _ _ _ _ (suspend_keeps_sb_wkp st) Hrun)].
  pose proof (suspend_makes_sets st) as Hall. rewrite list.Forall_forall in Hall.
  assert (Hin : (MVEBU_PM_SB_WK_EN_REG, 24) ∈ suspend_sets) by by_decide.
  specialize (Hall _ Hin). cbv beta iota in Hall. exact (makes_run _ _ _ _ _ _ _ Hall Hrun).
Qed.

(** ** Resume *)
Lemma unit_decodes_ext p p' u wins :
  unit_ok u -> (forall a, in_unit u a -> reg p' a = reg p a) -> unit_decodes p u wins -> unit_decodes p' u wins.
Proof.
  intros Hu Hsame Hd id Hid. rewrite <- Hd by done. unfold io_window.
  destruct Hu as [_ _ _ Hoff Hfit _]. assert (0 <= id * win_offset u <= 0x100 - 8) by nia.
  rewrite !Hsame; [done|..]; unfold in_unit, MVEBU_DEC_WIN_CTRL_REG, MVEBU_DEC_WIN_BASE_REG; lia.
Qed.

Lemma lp_flag_outside : Forall (fun u => ~ in_unit u MVEBU_PM_CPU_VDD_OFF_INFO_2_REG) io_dec_win_conf.
Proof.
  unfold io_dec_win_conf, in_unit, MVEBU_PM_CPU_VDD_OFF_INFO_2_REG, MVEBU_PMSU_REG_BASE.
  repeat (apply List.Forall_cons; [cbn; lia|]). apply List.Forall_nil.
Qed.

(** Resume restores the address decoding: the suspend-finish hook always
    completes, the low power flag is cleared, and every I/O unit decodes the
    DRAM windows computed from the CPU windows again. *)
Theorem resume_restores_windows st p :
  exists p', a3700_pwr_domain_suspend_finish st p = Ret tt p' /\
    bit_of p' MVEBU_PM_CPU_VDD_OFF_INFO_2_REG 0 = false /\
    Forall (fun u => unit_decodes p' u (dram_wins_after p)) io_dec_win_conf.
Proof.
  destruct (wp_returns (a3700_pwr_domain_suspend_finish st) (fun _ p' =>
    bit_of p' MVEBU_PM_CPU_VDD_OFF_INFO_2_REG 0 = false /\
    Forall (fun u => unit_decodes p' u (dram_wins_after p)) io_dec_win_conf) p) as ([] & p' & Hrun & Hp'); [|eauto].
  unfold a3700_pwr_domain_suspend_finish. do 4 (wp_step; apply wp_modify). wp_step. unfold windows_setup. wp_step.
  apply wp_cpu_wins_init. intros p1 _ H0 Hrest. wp_step. eapply wp_run; [by apply map_build_after|].
  cbn [marvell_get_io_dec_win_conf Z.eqb negb]. wp_step. match goal with |- context [dram_wins_after ?q] =>
    destruct (init_io_run (dram_wins_after q) p1 (dram_wins_after_ok q)) as (p2 & Hrun & Hdec & _) end.
  eapply wp_run; [exact Hrun|]. wp_step. cbn [Z.eqb when]. unfold a3700_pm_clear_lp_flag. apply wp_clrbits; [by_decide|].
  split; [unfold bit_of; rewrite reg_set_eq, testbit_u32, Z.ldiff_spec by lia; apply andb_false_r|].
  pose proof io_table_units_ok as Hok. pose proof lp_flag_outside as Hout. rewrite list.Forall_forall in *. intros u Hu.
  apply (unit_decodes_ext p2); [by apply Hok| |by apply Hdec]. intros a Ha. apply reg_set_ne. intros <-.
  by apply (Hout u Hu).
Qed.

(** ** CPU_ON, reset, mailbox *)
Lemma reg_set_if a v p b : reg (set_reg a v p) b = if a =? b then u32 v else reg p b.
Proof. destruct (Z.eqb_spec a b) as [->|]; [apply reg_set_eq|by apply reg_set_ne]. Qed.
Ltac read_back :=
  rewrite !reg_set_if;
  repeat match goal with |- context [?x =? ?y] => let v := eval vm_compute in (x =? y) in change (x =? y) with v end;
  cbv iota.

(** The CPU_ON hook programs the warm boot entry point as the reset
    vector of core 1 and pulses its reset line, bit 31 low and then high, in
    this order and with nothing else; the MPIDR argument makes no difference. *)
Theorem cpu_on_pulses_reset p :
  exists p' v1 v2, (forall m, a3700_pwr_domain_on m p = Ret 0 p') /\
    hw_log p' = HwWrite MVEBU_CPU_1_RESET_REG v2 :: HwWrite MVEBU_CPU_1_RESET_REG v1 ::
      HwWrite MVEBU_CPU_1_RESET_VECTOR (Z.shiftr PLAT_MARVELL_CPU_ENTRY_ADDR 2) :: HwDev Dsb :: hw_log p /\
    Z.testbit v1 31 = false /\ Z.testbit v2 31 = true /\
    reg p' MVEBU_CPU_1_RESET_REG = v2 /\ reg p' MVEBU_CPU_1_RESET_VECTOR = Z.shiftr PLAT_MARVELL_CPU_ENTRY_ADDR 2.
Proof.
  destruct (wp_returns (a3700_pwr_domain_on 0) (fun rc p' => rc = 0 /\ exists v1 v2,
    hw_log p' = HwWrite MVEBU_CPU_1_RESET_REG v2 :: HwWrite MVEBU_CPU_1_RESET_REG v1 ::
      HwWrite MVEBU_CPU_1_RESET_VECTOR (Z.shiftr PLAT_MARVELL_CPU_ENTRY_ADDR 2) :: HwDev Dsb :: hw_log p /\
    Z.testbit v1 31 = false /\ Z.testbit v2 31 = true /\
    reg p' MVEBU_CPU_1_RESET_REG = v2 /\ reg p' MVEBU_CPU_1_RESET_VECTOR = Z.shiftr PLAT_MARVELL_CPU_ENTRY_ADDR 2) p)
    as (rc & p' & Hrun & -> & v1 & v2 & Hlog); [|exists p', v1, v2; split; [intros m; exact Hrun|exact Hlog]].
  unfold a3700_pwr_domain_on. wp_step. apply wp_modify. wp_step. apply wp_mmio_write; [by_decide|]. wp_step.
  apply wp_clrbits; [by_decide|]. wp_step. apply wp_setbits; [by_decide|]. wp_step. split; [done|].
  eexists _, _. split; [unfold set_reg at 1; cbn [hw_log]; unfold set_reg at 1; cbn [hw_log]; reflexivity|].
  rewrite !testbit_u32 by lia. rewrite Z.ldiff_spec, Z.lor_spec. split_and!.
  - apply andb_false_r.
  - apply orb_true_r.
  - rewrite reg_set_eq. done.
  - rewrite !reg_set_ne by (vm_compute; discriminate). by rewrite reg_set_eq.
Qed.

(** SYSTEM_RESET: the mailbox magic word is erased, and made visible by a
    barrier and a cache flush, before the reset is triggered, so the next boot
    is a cold boot; the hook does not return. *)
Theorem system_reset_order p :
  exists p', a3700_system_reset p = Halt HSystemDown p' /\ reg p' PLAT_MARVELL_MAILBOX_BASE = 0 /\
    hw_log p' = HwWrite MVEBU_WARM_RESET_REG MVEBU_WARM_RESET_MAGIC :: HwDev (FlushDcache PLAT_MARVELL_MAILBOX_BASE 16) ::
      HwDev Dsb :: HwWrite PLAT_MARVELL_MAILBOX_BASE 0 :: hw_log p.
Proof.
  assert (Hw : wp a3700_system_reset (fun _ _ => False) (fun h p' => h = HSystemDown /\
    reg p' PLAT_MARVELL_MAILBOX_BASE = 0 /\
    hw_log p' = HwWrite MVEBU_WARM_RESET_REG MVEBU_WARM_RESET_MAGIC :: HwDev (FlushDcache PLAT_MARVELL_MAILBOX_BASE 16) ::
      HwDev Dsb :: HwWrite PLAT_MARVELL_MAILBOX_BASE 0 :: hw_log p) p).
  { unfold a3700_system_reset. wp_step. apply wp_mmio_write; [by_decide|]. do 2 (wp_step; apply wp_modify). wp_step.
    apply wp_unfold. unfold mmio_write_32. cbn [Z.eqb Pos.eqb andb]. rewrite Z.eqb_refl.
    replace (u32 MVEBU_WARM_RESET_MAGIC =? MVEBU_WARM_RESET_MAGIC) with true by reflexivity. cbn [andb].
    split; [done|]. split; [|reflexivity].
    rewrite reg_set_ne by (vm_compute; discriminate). apply (reg_set_eq PLAT_MARVELL_MAILBOX_BASE 0 p). }
  apply wp_outcome in Hw as [(? & ? & _ & [])|(h & p' & Hrun & -> & Hreg & Hlog)]. eauto.
Qed.

(** The mailbox holds what the warm boot code expects: after
    [marvell_program_mailbox] its first double word is the magic number and
    the second the 64-bit entry address, flushed to memory. *)
Theorem mailbox_roundtrip address p :
  0 <= address < 2 ^ 64 ->
  exists p', marvell_program_mailbox address p = Ret tt p' /\
    reg p' PLAT_MARVELL_MAILBOX_BASE + 2 ^ 32 * reg p' (PLAT_MARVELL_MAILBOX_BASE + 4) = MVEBU_MAILBOX_MAGIC_NUM /\
    reg p' (PLAT_MARVELL_MAILBOX_BASE + 8) + 2 ^ 32 * reg p' (PLAT_MARVELL_MAILBOX_BASE + 12) = address /\
    head (hw_log p') = Some (HwDev (FlushDcache PLAT_MARVELL_MAILBOX_BASE 16)).
Proof.
  intros Ha. destruct (wp_returns (marvell_program_mailbox address) (fun _ p' =>
    reg p' PLAT_MARVELL_MAILBOX_BASE + 2 ^ 32 * reg p' (PLAT_MARVELL_MAILBOX_BASE + 4) = MVEBU_MAILBOX_MAGIC_NUM /\
    reg p' (PLAT_MARVELL_MAILBOX_BASE + 8) + 2 ^ 32 * reg p' (PLAT_MARVELL_MAILBOX_BASE + 12) = address /\
    head (hw_log p') = Some (HwDev (FlushDcache PLAT_MARVELL_MAILBOX_BASE 16))) p) as ([] & p' & Hrun & Hp'); [|eauto].
  unfold marvell_program_mailbox, store_64. replace (_ && _) with true by reflexivity. cbv iota. wp_step. wp_step.
  do 4 (repeat wp_step; apply wp_mmio_write; [by_decide|]). apply wp_modify.
  set (p1 := set_reg _ _ _). change (reg (Hw _ _ _)) with (reg p1). split_and!; [| |reflexivity]; unfold p1; clear p1.
  - read_back. reflexivity.
  - read_back. rewrite Z.shiftr_div_pow2 by lia.
    assert (Hq : 0 <= address / 2 ^ 32 < 2 ^ 32) by (split; [apply Z.div_pos|apply Z.div_lt_upper_bound]; lia).
    rewrite (u32_small (u32 address)) by apply u32_range. rewrite !(u32_small (address / 2 ^ 32)) by done.
    unfold u32. pose proof (Z.div_mod address (2 ^ 32) ltac:(lia)). lia.
Qed.

Lemma mailbox_roundtrip_witness :
  exists p', marvell_program_mailbox 0x104100000 board_4gb = Ret tt p' /\
    reg p' (PLAT_MARVELL_MAILBOX_BASE + 8) + 2 ^ 32 * reg p' (PLAT_MARVELL_MAILBOX_BASE + 12) = 0x104100000.
Proof.
  destruct (mailbox_roundtrip 0x104100000 board_4gb) as (p' & Hrun & _ & Ha & _); [lia|].
  exists p'. split; [exact Hrun|exact Ha].
Defined.

(** ** MPIDRs and the SiP service *)

(** Which MPIDRs name a core: exactly those with affinity 3 and 1 zero and
    affinity 0 below 2, and the position is affinity 0; every other value is
    refused with -1, and no value leads outside the two cores. *)
Theorem core_pos_exact m :
  marvell_core_pos_by_mpidr m =
    (if bool_decide (Z.land (Z.shiftr m 32) 0xff = 0 /\ Z.land (Z.shiftr m 8) 0xff = 0 /\ Z.land m 0xff < 2)
     then Z.land m 0xff else -1).
Proof.
  destruct (core_pos_cases m) as [(H3 & H1 & H0 & ->)|(Hn & ->)].
  - by rewrite bool_decide_eq_true_2.
  - by rewrite bool_decide_eq_false_2.
Qed.

Lemma ff_shiftl_lor m k n : 0 <= k < 256 -> n = 0 \/ n = 8 \/ n = 32 ->
  Z.land (Z.shiftr (Z.lor m (Z.shiftl k 16)) n) 0xff = Z.land (Z.shiftr m n) 0xff.
Proof.
  intros Hk Hn. rewrite Z.shiftr_lor, Z.land_lor_distr_l.
  assert (Z.land (Z.shiftr (Z.shiftl k 16) n) 0xff = 0) as ->; [|apply Z.lor_0_r].
  destruct Hn as [->|[->| ->]].
  - rewrite Z.shiftr_0_r. change 0xff with (Z.ones 8). rewrite Z.land_ones, Z.shiftl_mul_pow2 by lia.
    change (2 ^ 16) with (2 ^ 8 * 2 ^ 8). rewrite Z.mul_assoc. by apply Z.mod_mul.
  - rewrite Z.shiftr_shiftl_l by lia. change 0xff with (Z.ones 8). rewrite Z.land_ones, Z.shiftl_mul_pow2 by lia.
    by apply Z.mod_mul.
  - rewrite Z.shiftr_shiftl_r by lia. rewrite Z.shiftr_div_pow2, Z.div_small by lia. done.
Qed.

(** Affinity level 2 is not checked: an MPIDR names the same core whatever
    its affinity 2 field is, although the field is zero on every core of the
    platform; the check of reserved bits uses a 32-bit mask that contains the
    affinity 2 field. *)
Theorem core_pos_ignores_aff2 m k :
  0 <= k < 256 -> marvell_core_pos_by_mpidr (Z.lor m (Z.shiftl k 16)) = marvell_core_pos_by_mpidr m.
Proof.
  intros Hk. pose proof (ff_shiftl_lor m k 0 Hk ltac:(auto)) as H0. rewrite !Z.shiftr_0_r in H0.
  pose proof (ff_shiftl_lor m k 8 Hk ltac:(auto)) as H8. pose proof (ff_shiftl_lor m k 32 Hk ltac:(auto)) as H32.
  pose proof (core_pos_cases (Z.lor m (Z.shiftl k 16))) as Hc. rewrite H0, H8, H32 in Hc.
  pose proof (core_pos_cases m) as Hm. naive_solver congruence.
Qed.

Lemma core_pos_ignores_aff2_witness : marvell_core_pos_by_mpidr 0x80070001 = 1.
Proof. exact (core_pos_ignores_aff2 0x80000001 7 ltac:(lia)). Defined.

(** The SiP service never hands an invalid lane to the COMPHY driver: the
    driver is called for lanes 0 to 2 with the lane unchanged, larger lane
    numbers get SMC_UNK and touch nothing; the DRAM size service returns the
    total size of the enabled chip selects; all other identifiers are
    refused. *)
Theorem sip_lanes comphy_on comphy_off comphy_lock fid lane mode p :
  0 <= lane < 2 ^ 64 ->
  mrvl_sip_smc_handler comphy_on comphy_off comphy_lock fid lane mode p =
    (if is_comphy_fid fid then
       if lane <? 3 then
         (let! r := (if fid =? MV_SIP_COMPHY_POWER_ON then comphy_on
                     else if fid =? MV_SIP_COMPHY_POWER_OFF then comphy_off else comphy_lock) lane (u32 mode) in
          ret (u64 r)) p
       else Ret SIP_SMC_UNK p
     else if fid =? MV_SIP_DRAM_SIZE then Ret (dram_total p) p
     else Ret SIP_SMC_UNK p).
Proof.
  intros Hl. unfold mrvl_sip_smc_handler, is_comphy_fid, MAX_LANE_NR.
  destruct (Z.leb_spec MV_SIP_COMPHY_POWER_ON fid) as [H1|H1], (Z.leb_spec fid MV_SIP_COMPHY_PLL_LOCK) as [H2|H2];
    cbn [andb]; unfold MV_SIP_COMPHY_POWER_ON, MV_SIP_COMPHY_POWER_OFF, MV_SIP_COMPHY_PLL_LOCK, MV_SIP_DRAM_SIZE in *.
  - destruct (Z.leb_spec 3 lane), (Z.ltb_spec lane 3); try lia; [done|]. rewrite u8_small by lia.
    destruct (Z.eqb_spec fid 0x82000001); [done|]. destruct (Z.eqb_spec fid 0x82000002); [done|].
    destruct (Z.eqb_spec fid 0x82000003); [done|lia].
  - repeat (rewrite (proj2 (Z.eqb_neq fid _)) by lia). destruct (fid =? _); [apply dram_size_run|done].
  - repeat (rewrite (proj2 (Z.eqb_neq fid _)) by lia). done.
  - lia.
Qed.

Lemma sip_lanes_witness :
  mrvl_sip_smc_handler (fun l m => ret l) (fun _ _ => ret 0) (fun _ _ => ret 0) MV_SIP_COMPHY_POWER_ON 3 0 board_4gb =
    Ret SIP_SMC_UNK board_4gb.
Proof.
  exact (sip_lanes (fun l m => ret l) (fun _ _ => ret 0) (fun _ _ => ret 0) MV_SIP_COMPHY_POWER_ON 3 0 board_4gb ltac:(lia)).
Defined.

(** ** PSCI on this port *)
Section a3700_psci.
Context (debug : bool) (sr : sysregs).
#[local] Instance cfg : PlatCfg := a3700_cfg debug.
#[local] Instance env : PlatEnv a3700_hw := a3700_env sr.
#[local] Instance topo : Topo := a3700_topo.
#[local] Instance cfg_ok : PlatCfgOk := a3700_cfg_ok debug.
#[local] Instance topo_ok : TopoOk := a3700_topo_ok debug.
#[local] Instance contract : PlatContract a3700_hw := a3700_contract debug sr.

(** [psci_setup] on the boot CPU of this board returns 0 from the zeroed
    tables and any hardware state: it establishes the invariant of the system,
    with the boot CPU up, the other core off and the cluster running, and the
    capability mask 0x471f. *)
Theorem a3700_setup_establishes args p :
  VERIFY_PSCI_LIB_ARGS_V1 args = true ->
  exists s, psci_setup 0 args (psci_bss p) = Ret 0 s /\ sys_inv (s, setup_modes) /\ psci_caps s = 0x471f /\
    aff_of s 0 = Some AFF_STATE_ON /\ aff_of s 1 = Some AFF_STATE_OFF.
Proof.
  intros Ha. destruct (setup_run debug sr args p Ha) as (s & Hrun & Hrep & Hcaps). exists s. split; [exact Hrun|].
  split; [exists (setup_view debug); split; [exact Hrep|apply setup_Inv]|]. split; [exact Hcaps|].
  split; [exact (aff_of_rep s (setup_view debug) 0 Hrep ltac:(done))|
          exact (aff_of_rep s (setup_view debug) 1 Hrep ltac:(done))].
Qed.

(** Calls from a reachable state. *)
Lemma calls_safe_run args p s y c fid x1 x2 x3 flags :
  VERIFY_PSCI_LIB_ARGS_V1 args = true -> psci_setup 0 args (psci_bss p) = Ret 0 s ->
  star sys_step (s, setup_modes) y -> cpu_ok c -> y.2 c = MUp ->
  fid ∉ [PSCI_CPU_SUSPEND_AARCH32; PSCI_CPU_SUSPEND_AARCH64; PSCI_SYSTEM_OFF] ->
  match psci_smc_handler c fid x1 x2 x3 flags y.1 with
  | Ret _ _ => True
  | Halt h _ => h = HPwrDownWfi \/ h = HSystemDown
  end.
Proof.
  intros Ha Hrun0 Hs Hc Hup Hfid. destruct (setup_run debug sr args p Ha) as (s' & Hrun & Hrep & _).
  assert (s' = s) as -> by (change (psci_setup 0 args (psci_bss p) = Ret 0 s') in Hrun; congruence).
  assert (Hinv : sys_inv (s, setup_modes)) by (exists (setup_view debug); split; [exact Hrep|apply setup_Inv]).
  destruct (reachable_inv _ _ Hinv Hs) as (g & Hr & HI).
  pose proof (smc_handler_refines c fid x1 x2 x3 flags Hc y.2 y.1 g Hr HI Hup) as Hw.
  apply wp_unfold in Hw. destruct (psci_smc_handler _ _ _ _ _ _ _) as [|h s1]; [done|].
  destruct Hw as (g' & _ & Habs). inversion Habs as [| | | | | |k ? Hk]; subst; eauto.
  exfalso. revert Hk. unfold smc_hooks. rewrite !elem_of_cons in Hfid.
  destruct (Z.eqb_spec fid PSCI_CPU_SUSPEND_AARCH32), (Z.eqb_spec fid PSCI_CPU_SUSPEND_AARCH64),
    (Z.eqb_spec fid PSCI_SYSTEM_OFF); cbn [orb]; try tauto. apply not_elem_of_nil.
Qed.

(** End to end: from [psci_setup] on, in every state the two cores can
    reach, each PSCI call other than CPU_SUSPEND and SYSTEM_OFF returns, or
    powers the core or the system down; nothing else can happen to it, with
    assertions compiled in or not and whatever the system registers hold. *)
Theorem a3700_calls_safe args p s y c fid x1 x2 x3 flags :
  VERIFY_PSCI_LIB_ARGS_V1 args = true -> psci_setup 0 args (psci_bss p) = Ret 0 s ->
  star sys_step (s, setup_modes) y -> cpu_ok c -> y.2 c = MUp ->
  fid ∉ [PSCI_CPU_SUSPEND_AARCH32; PSCI_CPU_SUSPEND_AARCH64; PSCI_SYSTEM_OFF] ->
  match psci_smc_handler c fid x1 x2 x3 flags y.1 with
  | Ret _ _ => True
  | Halt h _ => h = HPwrDownWfi \/ h = HSystemDown
  end.
Proof. apply calls_safe_run. Qed.

Lemma wp_system_off_panics c s g Q :
  rep s g -> wp (smc32_call c PSCI_SYSTEM_OFF 0 0 0) Q (fun h _ => h = HPanic) s.
Proof.
  intros Hr. change (smc32_call c PSCI_SYSTEM_OFF 0 0 0) with (PsciPower.psci_system_off (P := a3700_hw) ;;; ret (@None Z)).
  wp_step. unfold PsciPower.psci_system_off, psci_print_power_domain_map. wp_step. eapply wp_emit; [exact Hr|].
  clear s Hr. intros s Hr. wp_step. eapply wp_get_ops; [exact Hr|]. wp_step. apply wp_assert; [reflexivity|]. wp_step.
  unfold call_spd0, spd_hook. wp_steps. rewrite (rep_spd _ _ Hr). cbn [the_spd contract a3700_contract].
  wp_steps. eapply wp_emit; [exact Hr|].
  intros s1 Hr1. wp_step. apply wp_hook_of; [done|]. intros f [= <-]. unfold call. wp_step.
  eapply wp_emit; [exact Hr1|]. intros s2 Hr2. unfold plat. apply wp_zoom. by apply wp_halt.
Qed.

Lemma wp_suspend_panics c ps e ctx s g (Q : Z -> psci_state a3700_hw -> Prop) :
  rep s g -> psci_check_power_state ps = 0 -> wp (psci_cpu_suspend c ps e ctx) Q (fun h _ => h = HPanic) s.
Proof.
  intros Hr Hps. unfold psci_cpu_suspend, psci_validate_power_state. wp_step. rewrite Hps. cbn [truthy Z.eqb negb].
  wp_step. eapply wp_get_ops; [exact Hr|]. wp_step. apply wp_assert; [reflexivity|]. wp_step.
  apply wp_hook_of; [done|]. intros f [= <-]. unfold call. wp_step. eapply wp_emit; [exact Hr|]. intros s1 Hr1.
  unfold plat. apply wp_zoom. by apply wp_halt.
Qed.

(** The two exceptions are real: with the capability mask of this port
    PSCI_FEATURES reports CPU_SUSPEND and SYSTEM_OFF as available, and every
    SYSTEM_OFF, and every CPU_SUSPEND with a well-formed power state, made
    from the normal world ends in a panic of the firmware. *)
Theorem a3700_advertised_calls_panic s g c x1 x2 x3 flags :
  rep s g -> psci_caps s = a3700_caps -> is_caller_secure flags = false -> psci_check_power_state (u32 x1) = 0 ->
  features_of (psci_caps s) PSCI_SYSTEM_OFF = PSCI_E_SUCCESS /\
  features_of (psci_caps s) PSCI_CPU_SUSPEND_AARCH64 = PSCI_E_SUCCESS /\
  (exists s', psci_smc_handler c PSCI_SYSTEM_OFF 0 0 0 flags s = Halt HPanic s') /\
  (exists s', psci_smc_handler c PSCI_CPU_SUSPEND_AARCH64 x1 x2 x3 flags s = Halt HPanic s').
Proof.
  intros Hr Hcaps Hns Hps. rewrite Hcaps. split; [reflexivity|]. split; [reflexivity|]. split.
  - assert (Hw : wp (psci_smc_handler c PSCI_SYSTEM_OFF 0 0 0 flags) (fun _ _ => False) (fun h _ => h = HPanic) s).
    { unfold psci_smc_handler. rewrite Hns. wp_steps. rewrite Hcaps.
      change (truthy (Z.land a3700_caps (define_psci_cap PSCI_SYSTEM_OFF))) with true. cbn [negb]. wp_step.
      change (Z.land (Z.shiftr PSCI_SYSTEM_OFF FUNCID_CC_SHIFT) FUNCID_CC_MASK =? SMC_32) with true. cbv iota.
      eapply wp_mono; [eapply wp_system_off_panics, Hr|intros a s' Hx; exact Hx|done]. }
    apply wp_outcome in Hw as [(?&?&_&[])|(h & s' & Hrun & ->)]. eauto.
  - assert (Hw : wp (psci_smc_handler c PSCI_CPU_SUSPEND_AARCH64 x1 x2 x3 flags) (fun _ _ => False) (fun h _ => h = HPanic) s).
    { unfold psci_smc_handler. rewrite Hns. wp_steps. rewrite Hcaps.
      change (truthy (Z.land a3700_caps (define_psci_cap PSCI_CPU_SUSPEND_AARCH64))) with true. cbn [negb]. wp_step.
      change (Z.land (Z.shiftr PSCI_CPU_SUSPEND_AARCH64 FUNCID_CC_SHIFT) FUNCID_CC_MASK =? SMC_32) with false. cbv iota.
      change (smc64_call c PSCI_CPU_SUSPEND_AARCH64 x1 x2 x3)
        with (let! v := psci_cpu_suspend c (u32 x1) x2 x3 in ret (Some v)).
      wp_step. by eapply wp_suspend_panics. }
    apply wp_outcome in Hw as [(?&?&_&[])|(h & s' & Hrun & ->)]. eauto.
Qed.
End a3700_psci.

Module A3700Witnesses.
Import Board Run.

Lemma a3700_setup_establishes_witness :
  exists s, psci_setup 0 args (psci_bss power_on) = Ret 0 s /\ sys_inv (s, setup_modes) /\ psci_caps s = 0x471f /\
    aff_of s 0 = Some AFF_STATE_ON /\ aff_of s 1 = Some AFF_STATE_OFF.
Proof. exact (a3700_setup_establishes true regs0 args power_on eq_refl). Defined.

Lemma version_not_excluded : PSCI_VERSION ∉ [PSCI_CPU_SUSPEND_AARCH32; PSCI_CPU_SUSPEND_AARCH64; PSCI_SYSTEM_OFF].
Proof. by_decide. Qed.

Lemma a3700_calls_safe_witness :
  match psci_smc_handler 0 PSCI_VERSION 0 0 0 1 off with
  | Ret _ _ => True
  | Halt h _ => h = HPwrDownWfi \/ h = HSystemDown
  end.
Proof.
  exact (a3700_calls_safe true regs0 args power_on booted (off, modes_off) 0 PSCI_VERSION 0 0 0 1
           eq_refl booted_run star_off cpu0_ok modes_off_0 version_not_excluded).
Defined.

Lemma booted_caps : psci_caps booted = a3700_caps.
Proof.
  destruct (setup_run true regs0 args power_on eq_refl) as (s & Hrun & _ & Hcaps).
  change (psci_setup 0 args (psci_bss power_on) = Ret 0 s) in Hrun. rewrite booted_run in Hrun. congruence.
Qed.

Lemma a3700_advertised_calls_panic_witness :
  exists s', psci_smc_handler 0 PSCI_CPU_SUSPEND_AARCH64 0x10000 0x200000 0 1 booted = Halt HPanic s'.
Proof.
  destruct (a3700_advertised_calls_panic true regs0 booted (setup_view true) 0 0x10000 0x200000 0 1
              booted_rep booted_caps eq_refl eq_refl) as (_ & _ & _ & Hp). exact Hp.
Defined.
End A3700Witnesses.
