(* ===== verification/RuntimeSvc.v ===== *)
(** * BL31: runtime services (common/runtime_svc.c, services/std_svc)

    The table that maps the owner of an SMC function identifier to the service
    that handles it, its initialisation from the registered descriptors, the
    dispatch of an SMC, and the standard service that forwards PSCI calls.

    The services share a state [T]; a handler gets the calling CPU and returns
    the registers it sets for the caller. *)
From stdpp Require Import base list numbers option.
From Stdlib Require Import ZArith Lia.
From S2P Require Import Prelude PsciDefs PsciCommon PsciSetup PsciMain.
#[local] Open Scope Z_scope.

Definition FUNCID_TYPE_SHIFT : Z := 31.
Definition FUNCID_OEN_SHIFT : Z := 24.
Definition FUNCID_TYPE_MASK : Z := 0x1.
Definition FUNCID_OEN_MASK : Z := 0x3f.
Definition FUNCID_OEN_WIDTH : Z := 6.
Definition SMC_TYPE_FAST : Z := 1.
Definition SMC_TYPE_YIELD : Z := 0.
Definition OEN_STD_START : Z := 4.
Definition OEN_STD_END : Z := 4.
Definition OEN_LIMIT : Z := 64.
Definition MAX_RT_SVCS : Z := 128.

Definition get_unique_oen (oen call_type : Z) : Z :=
  Z.lor (Z.land oen FUNCID_OEN_MASK) (Z.shiftl (Z.land call_type FUNCID_TYPE_MASK) FUNCID_OEN_WIDTH).
Definition get_unique_oen_from_smc_fid (fid : Z) : Z :=
  get_unique_oen (Z.shiftr fid FUNCID_OEN_SHIFT) (Z.shiftr fid FUNCID_TYPE_SHIFT).

Section runtime_svc.
Context {T : Type} (assertions : bool).

(** A handler: calling CPU, function identifier, four arguments, flags. *)
Definition rt_svc_handle_t : Type := Z -> Z -> Z -> Z -> Z -> Z -> Z -> M T (list Z).
Record rt_svc_desc_t : Type := RtSvcDesc {
  start_oen : Z; end_oen : Z; call_type : Z;
  svc_init : option (M T Z); svc_handle : option rt_svc_handle_t
}.

Record rt_state : Type := RtState { rt_svc_descs_indices : list Z; rt_services : T }.
Definition set_svc_indices (l : list Z) (s : rt_state) : rt_state := RtState l (rt_services s).
Definition set_services (t : T) (s : rt_state) : rt_state := RtState (rt_svc_descs_indices s) t.
#[local] Abbreviation RT := (M rt_state).
Definition rt_assert (b : bool) : RT unit := if assertions && negb b then halt_with HAssert else ret tt.
Definition in_service {A} (m : M T A) : RT A := zoom rt_services set_services m.

(** The registered descriptors, in the order the linker gave them. *)
Context (rt_svc_descs : list rt_svc_desc_t).
Definition RT_SVC_DECS_NUM : Z := Z.of_nat (length rt_svc_descs).

Definition handle_runtime_svc (me smc_fid x1 x2 x3 x4 flags : Z) : RT (list Z) :=
  let idx := get_unique_oen_from_smc_fid smc_fid in
  rt_assert (idx <? MAX_RT_SVCS) ;;;
  let! indices := gets rt_svc_descs_indices in
  let! index := deref (arr_get indices idx) in
  if (index <? 0) || (RT_SVC_DECS_NUM <=? index) then ret [u64 SMC_UNK]
  else
    let! d := deref (arr_get rt_svc_descs index) in
    let! handle := deref (svc_handle d) in
    in_service (handle me smc_fid x1 x2 x3 x4 flags).

Definition validate_rt_svc_desc (d : rt_svc_desc_t) : Z :=
  if end_oen d <? start_oen d then - EINVAL
  else if OEN_LIMIT <=? end_oen d then - EINVAL
  else if negb (call_type d =? SMC_TYPE_FAST) && negb (call_type d =? SMC_TYPE_YIELD) then - EINVAL
  else match svc_init d, svc_handle d with None, None => - EINVAL | _, _ => 0 end.

(** [for (; start_idx <= end_idx; start_idx++)]: [n] is the number of indices. *)
Fixpoint fill_indices (n : nat) (start_idx index : Z) : RT unit :=
  match n with
  | O => ret tt
  | S n' =>
      let! l := gets rt_svc_descs_indices in
      let! l' := deref (arr_set l start_idx (u8 index)) in
      modify (set_svc_indices l') ;;;
      fill_indices n' (start_idx + 1) index
  end.

(** The loop over the descriptors. *)
Fixpoint svc_init_loop (descs : list rt_svc_desc_t) (index : Z) : RT unit :=
  match descs with
  | [] => ret tt
  | service :: rest =>
      if truthy (validate_rt_svc_desc service) then halt_with HPanic
      else
        let! rc := (match svc_init service with Some init => in_service init | None => ret 0 end) in
        if truthy rc then svc_init_loop rest (index + 1)
        else
          let start_idx := get_unique_oen (start_oen service) (call_type service) in
          rt_assert (start_idx <? MAX_RT_SVCS) ;;;
          let end_idx := get_unique_oen (end_oen service) (call_type service) in
          rt_assert (end_idx <? MAX_RT_SVCS) ;;;
          fill_indices (Z.to_nat (end_idx - start_idx + 1)) start_idx index ;;;
          svc_init_loop rest (index + 1)
  end.

Definition runtime_svc_init : RT unit :=
  rt_assert (RT_SVC_DECS_NUM <? MAX_RT_SVCS) ;;;
  if RT_SVC_DECS_NUM =? 0 then ret tt
  else
    modify (set_svc_indices (replicate (Z.to_nat MAX_RT_SVCS) (u8 (-1)))) ;;;
    svc_init_loop rt_svc_descs 0.
End runtime_svc.
Arguments rt_svc_desc_t : clear implicits.
Arguments rt_state : clear implicits.

(** ** The architecture service (services/arm_arch_svc/arm_arch_svc_setup.c)

    The build options are booleans; the two queries about the CPU are assembly
    functions and arguments. *)
Definition OEN_ARM_START : Z := 0.
Definition OEN_ARM_END : Z := 0.
Definition SMC_OK : Z := 0.
Definition SMCCC_MAJOR_VERSION : Z := 1.
Definition SMCCC_MINOR_VERSION : Z := 1.
Definition MAKE_SMCCC_VERSION (major minor : Z) : Z := Z.lor (Z.shiftl major 16) minor.
Definition SMCCC_VERSION : Z := 0x80000000.
Definition SMCCC_ARCH_FEATURES : Z := 0x80000001.
Definition SMCCC_ARCH_WORKAROUND_1 : Z := 0x80008000.
Definition SMCCC_ARCH_WORKAROUND_2 : Z := 0x80007FFF.
Definition SMCCC_ARCH_NOT_REQUIRED : Z := -2.
Definition ERRATA_NOT_APPLIES : Z := 0.

Section arm_arch_svc.
Context {T : Type} (WORKAROUND_CVE_2017_5715 WORKAROUND_CVE_2018_3639 DYNAMIC_WORKAROUND_CVE_2018_3639 : bool).
Context (check_wa_cve_2017_5715 wa_cve_2018_3639_get_disable_ptr : Z).

Definition smccc_version : Z := MAKE_SMCCC_VERSION SMCCC_MAJOR_VERSION SMCCC_MINOR_VERSION.

Definition smccc_arch_features (arg : Z) : Z :=
  if (arg =? SMCCC_VERSION) || (arg =? SMCCC_ARCH_FEATURES) then SMC_OK
  else if WORKAROUND_CVE_2017_5715 && (arg =? SMCCC_ARCH_WORKAROUND_1) then
    (if check_wa_cve_2017_5715 =? ERRATA_NOT_APPLIES then 1 else 0)
  else if WORKAROUND_CVE_2018_3639 && (arg =? SMCCC_ARCH_WORKAROUND_2) then
    (if DYNAMIC_WORKAROUND_CVE_2018_3639 then (if wa_cve_2018_3639_get_disable_ptr =? 0 then 1 else 0)
     else SMCCC_ARCH_NOT_REQUIRED)
  else SMC_UNK.

Definition arm_arch_svc_smc_handler : rt_svc_handle_t (T := T) :=
  fun _ smc_fid x1 x2 x3 x4 flags =>
    if smc_fid =? SMCCC_VERSION then ret [u64 smccc_version]
    else if smc_fid =? SMCCC_ARCH_FEATURES then ret [u64 (smccc_arch_features x1)]
    else if WORKAROUND_CVE_2017_5715 && (smc_fid =? SMCCC_ARCH_WORKAROUND_1) then ret []
    else if WORKAROUND_CVE_2018_3639 && (smc_fid =? SMCCC_ARCH_WORKAROUND_2) then ret []
    else ret [u64 SMC_UNK].

Definition arm_arch_svc : rt_svc_desc_t T :=
  RtSvcDesc OEN_ARM_START OEN_ARM_END SMC_TYPE_FAST None (Some arm_arch_svc_smc_handler).
End arm_arch_svc.

(** ** The standard service (services/std_svc/std_svc_setup.c)

    The build of the board has neither ENABLE_SPM nor SDEI_SUPPORT. *)
Definition PSCI_FID_MASK : Z := 0xffe0.
Definition PSCI_FID_VALUE : Z := 0.
Definition is_psci_fid (fid : Z) : bool := Z.land fid PSCI_FID_MASK =? PSCI_FID_VALUE.
Definition ARM_STD_SVC_CALL_COUNT : Z := 0x8400ff00.
Definition ARM_STD_SVC_UID : Z := 0x8400ff01.
Definition ARM_STD_SVC_VERSION : Z := 0x8400ff03.
Definition STD_SVC_VERSION_MAJOR : Z := 0x0.
Definition STD_SVC_VERSION_MINOR : Z := 0x1.


(** A UUID: [time_low], [time_mid], [time_hi_and_version], the two bytes of the
    clock sequence and the six of the node; and the four registers that hold
    its 16 bytes, read as little-endian words. *)
Record uuid_t : Type := Uuid {
  time_low : Z; time_mid : Z; time_hi_and_version : Z;
  clock_seq_hi_and_reserved : Z; clock_seq_low : Z;
  node0 : Z; node1 : Z; node2 : Z; node3 : Z; node4 : Z; node5 : Z
}.
Definition le_word (b0 b1 b2 b3 : Z) : Z := Z.lor b0 (Z.lor (Z.shiftl b1 8) (Z.lor (Z.shiftl b2 16) (Z.shiftl b3 24))).
Definition SMC_UUID_RET (u : uuid_t) : list Z :=
  [time_low u; Z.lor (time_mid u) (Z.shiftl (time_hi_and_version u) 16);
   le_word (clock_seq_hi_and_reserved u) (clock_seq_low u) (node0 u) (node1 u);
   le_word (node2 u) (node3 u) (node4 u) (node5 u)].
Definition arm_svc_uid : uuid_t := Uuid 0x108d905b 0xf863 0x47e8 0xae 0x2d 0xc0 0xfb 0x56 0x41 0xf6 0xe2.

Section std_svc.
Context `{PlatCfg} {P : Type} `{!PlatEnv P}.
Definition PSCI_NUM_CALLS : Z := if ENABLE_PSCI_STAT then 22 else 18.

Definition std_svc_smc_handler : rt_svc_handle_t (T := psci_state P) :=
  fun me smc_fid x1 x2 x3 x4 flags =>
    if is_psci_fid smc_fid then let! r := psci_smc_handler me smc_fid x1 x2 x3 flags in ret [r]
    else if smc_fid =? ARM_STD_SVC_CALL_COUNT then ret [PSCI_NUM_CALLS]
    else if smc_fid =? ARM_STD_SVC_UID then ret (SMC_UUID_RET arm_svc_uid)
    else if smc_fid =? ARM_STD_SVC_VERSION then ret [STD_SVC_VERSION_MAJOR; STD_SVC_VERSION_MINOR]
    else ret [u64 SMC_UNK].

(** [me] is the boot CPU, [svc_arg] the argument that BL31 provides. *)
Definition std_svc_setup (me : Z) (svc_arg : psci_lib_args_t) : M (psci_state P) Z :=
  let! rc := psci_setup me svc_arg in ret (if rc =? PSCI_E_SUCCESS then 0 else 1).

Definition std_svc (me : Z) (svc_arg : psci_lib_args_t) : rt_svc_desc_t (psci_state P) :=
  RtSvcDesc OEN_STD_START OEN_STD_END SMC_TYPE_FAST (Some (std_svc_setup me svc_arg)) (Some std_svc_smc_handler).
End std_svc.
