(* ===== verification/A3700Svc.v ===== *)
(** * Armada 3700: the runtime services of the board

    The SiP service as a runtime service descriptor (plat/marvell/a3700/common/
    a3700_sip_svc.c) and the three services that the build of the board links
    into BL31. *)
From stdpp Require Import base list numbers option.
From Stdlib Require Import ZArith Lia.
From S2P Require Import Prelude PsciDefs PsciCommon PsciSetup PsciMain A3700Hw A3700Pm RuntimeSvc.
#[local] Open Scope Z_scope.

Definition OEN_SIP_START : Z := 2.
Definition OEN_SIP_END : Z := 2.

(** The COMPHY driver is an argument, as in the handler. *)
Record comphy_driver : Type := Comphy {
  comphy_power_on : Z -> Z -> M a3700_hw Z; comphy_power_off : Z -> Z -> M a3700_hw Z; comphy_is_pll_locked : Z -> Z -> M a3700_hw Z
}.

Section services.
Context `{PlatCfg} `{!PlatEnv a3700_hw} (drv : comphy_driver).
Context (WORKAROUND_CVE_2017_5715 WORKAROUND_CVE_2018_3639 DYNAMIC_WORKAROUND_CVE_2018_3639 : bool).
Context (check_wa_cve_2017_5715 wa_cve_2018_3639_get_disable_ptr : Z).

(** [SMC_RET1(handle, ret)] for every case. *)
Definition sip_smc_handler : rt_svc_handle_t (T := psci_state a3700_hw) :=
  fun _ smc_fid x1 x2 x3 x4 flags =>
    let! r := plat (mrvl_sip_smc_handler (comphy_power_on drv) (comphy_power_off drv) (comphy_is_pll_locked drv) smc_fid x1 x2) in ret [r].
Definition marvell_sip_svc : rt_svc_desc_t (psci_state a3700_hw) :=
  RtSvcDesc OEN_SIP_START OEN_SIP_END SMC_TYPE_FAST None (Some sip_smc_handler).

Definition board_arch_svc : rt_svc_desc_t (psci_state a3700_hw) :=
  arm_arch_svc WORKAROUND_CVE_2017_5715 WORKAROUND_CVE_2018_3639 DYNAMIC_WORKAROUND_CVE_2018_3639
    check_wa_cve_2017_5715 wa_cve_2018_3639_get_disable_ptr.

(** In the order of the sources; the linker may choose another. *)
Definition board_services (me : Z) (args : psci_lib_args_t) : list (rt_svc_desc_t (psci_state a3700_hw)) :=
  [board_arch_svc; marvell_sip_svc; std_svc me args].
End services.
