(* ===== verification/RuntimeProps.v ===== *)
(** * BL31: dispatch of runtime services

    [runtime_svc_init] followed by [handle_runtime_svc] is compared with a
    reference that searches the descriptors for the owner of the function
    identifier; the PSCI library is then reached through the table. *)
From stdpp Require Import base sets list numbers option.
From Stdlib Require Import ZArith Lia.
From S2P Require Import Prelude PsciDefs PsciCommon PsciSetup PsciMain PsciSpec A3700Hw A3700Win A3700Pm PsciInv PsciSystem A3700Psci PsciProps RuntimeSvc A3700Svc A3700PmProps.
#[local] Open Scope Z_scope.

(** ** Owners *)
Definition fid_oen (fid : Z) : Z := (fid / 2 ^ 24) mod 64.
Definition fid_type (fid : Z) : Z := (fid / 2 ^ 31) mod 2.

Lemma unique_oen_add o t : get_unique_oen o t = (t mod 2) * 64 + o mod 64.
Proof.
  unfold get_unique_oen, FUNCID_OEN_MASK, FUNCID_TYPE_MASK, FUNCID_OEN_WIDTH.
  change 0x3f with (Z.ones 6). change 0x1 with (Z.ones 1). rewrite !Z.land_ones by lia. rewrite Z.lor_comm.
  apply lor_shiftl_add; [lia|]. apply Z.mod_pos_bound. lia.
Qed.

Lemma fid_unique_oen fid : get_unique_oen_from_smc_fid fid = fid_type fid * 64 + fid_oen fid.
Proof.
  unfold get_unique_oen_from_smc_fid, FUNCID_OEN_SHIFT, FUNCID_TYPE_SHIFT. by rewrite unique_oen_add, !Z.shiftr_div_pow2 by lia.
Qed.

Lemma fid_parts fid : 0 <= fid_type fid < 2 /\ 0 <= fid_oen fid < 64.
Proof. split; apply Z.mod_pos_bound; lia. Qed.

Section dispatch.
Context {T : Type}.
Implicit Types (d : rt_svc_desc_t T) (descs : list (rt_svc_desc_t T)).

(** The descriptor is for the calls of this identifier. *)
Definition serves d (fid : Z) : bool :=
  (call_type d =? fid_type fid) && (start_oen d <=? fid_oen fid) && (fid_oen fid <=? end_oen d).

(** The initialisation functions alone, in order; which of them succeeded. *)
Fixpoint init_all descs : M T (list bool) :=
  match descs with
  | [] => ret []
  | d :: rest =>
      let! rc := (match svc_init d with Some init => init | None => ret 0 end) in
      let! oks := init_all rest in ret (negb (truthy rc) :: oks)
  end.

(** The last initialised descriptor that a test selects, with its number. *)
Fixpoint last_owner (f : rt_svc_desc_t T -> bool) descs (oks : list bool) (k : Z) : option (Z * rt_svc_desc_t T) :=
  match descs, oks with
  | d :: rest, ok :: oks' =>
      match last_owner f rest oks' (k + 1) with
      | Some x => Some x
      | None => if ok && f d then Some (k, d) else None
      end
  | _, _ => None
  end.

Record wf_service d : Prop := {
  ws_valid : validate_rt_svc_desc d = 0;
  ws_start : 0 <= start_oen d
}.

Definition start_idx d : Z := get_unique_oen (start_oen d) (call_type d).
Definition end_idx d : Z := get_unique_oen (end_oen d) (call_type d).
Definition covers (i : Z) d : bool := (start_idx d <=? i) && (i <=? end_idx d).

Lemma service_range d : wf_service d ->
  0 <= call_type d < 2 /\ start_idx d = call_type d * 64 + start_oen d /\ end_idx d = call_type d * 64 + end_oen d /\
  0 <= start_oen d <= end_oen d /\ end_oen d < 64.
Proof.
  intros [Hv Hs]. unfold validate_rt_svc_desc, OEN_LIMIT, EINVAL in Hv.
  destruct (Z.ltb_spec (end_oen d) (start_oen d)); [done|]. destruct (Z.leb_spec 64 (end_oen d)); [done|].
  assert (Hc : 0 <= call_type d < 2).
  { unfold SMC_TYPE_FAST, SMC_TYPE_YIELD in Hv. destruct (Z.eqb_spec (call_type d) 1); [lia|].
    destruct (Z.eqb_spec (call_type d) 0); [lia|done]. }
  unfold start_idx, end_idx. rewrite !unique_oen_add, !Z.mod_small by lia. lia.
Qed.

Lemma covers_serves d fid : wf_service d -> covers (get_unique_oen_from_smc_fid fid) d = serves d fid.
Proof.
  intros (Hc & Hs & He & Ho)%service_range. unfold covers, serves. rewrite Hs, He, fid_unique_oen. destruct (fid_parts fid).
  destruct (Z.eqb_spec (call_type d) (fid_type fid)) as [->|]; cbn [andb].
  - f_equal; apply eq_true_iff_eq; rewrite !Z.leb_le; lia.
  - apply andb_false_iff. rewrite !Z.leb_gt. lia.
Qed.

(** ** The table *)
Lemma fill_run n a k (l : list Z) (t : T) :
  0 <= a -> a + Z.of_nat n <= Z.of_nat (length l) -> 0 <= k < 256 ->
  exists l', fill_indices n a k (RtState l t) = Ret tt (RtState l' t) /\ length l' = length l /\
    forall i, arr_get l' i = if (a <=? i) && (i <? a + Z.of_nat n) then Some k else arr_get l i.
Proof.
  revert a l. induction n as [|n IH]; intros a l Ha Hl Hk.
  { exists l. split_and!; [done|done|]. intros i. destruct (Z.leb_spec a i), (Z.ltb_spec i (a + Z.of_nat 0)); cbn; done || lia. }
  destruct (IH (a + 1) (<[Z.to_nat a := k]> l)) as (l' & Hrun & Hlen & Hget); [lia|rewrite length_insert; lia|done|].
  exists l'. split_and!; [|by rewrite Hlen, length_insert|].
  - cbn [fill_indices]. unfold bind, gets, deref, modify, ret. cbn. rewrite arr_set_in_range by lia. rewrite u8_small by lia. exact Hrun.
  - intros i. rewrite Hget. destruct (Z.eqb_spec i a) as [->|Hne].
    + rewrite arr_get_insert_eq by lia.
      destruct (Z.leb_spec (a + 1) a), (Z.leb_spec a a), (Z.ltb_spec a (a + Z.of_nat (S n))); cbn; done || lia.
    + rewrite arr_get_insert_ne by lia.
      destruct (Z.leb_spec (a + 1) i), (Z.leb_spec a i), (Z.ltb_spec i (a + 1 + Z.of_nat n)), (Z.ltb_spec i (a + Z.of_nat (S n)));
        cbn; done || lia.
Qed.

(** What the loop over the descriptors leaves in the table. *)
Lemma init_loop_run assertions descs oks k (l : list Z) (t t' : T) :
  Forall wf_service descs -> length l = 128%nat -> 0 <= k -> k + Z.of_nat (length descs) < 256 ->
  init_all descs t = Ret oks t' ->
  exists l', svc_init_loop assertions descs k (RtState l t) = Ret tt (RtState l' t') /\ length l' = 128%nat /\
    forall i, arr_get l' i = match last_owner (covers i) descs oks k with Some x => Some x.1 | None => arr_get l i end.
Proof.
  intros Hwf. revert oks k l t. induction Hwf as [|d descs Hd Hwf IH]; intros oks k l t Hl Hk Hb Hinit.
  { injection Hinit as <- <-. by exists l. }
  cbn [init_all] in Hinit. cbn [length] in Hb. apply bind_ret_inv in Hinit as (rc & t1 & Hrc & Hinit).
  apply bind_ret_inv in Hinit as (oks' & t2 & Hall & Hinit). injection Hinit as <- <-. cbn [svc_init_loop last_owner].
  rewrite (ws_valid _ Hd). cbn [truthy Z.eqb negb].
  erewrite bind_run; cycle 1.
  { instantiate (1 := RtState l t1). instantiate (1 := rc). destruct (svc_init d) as [init|]; [|by injection Hrc as -> ->].
    unfold in_service, zoom. cbn. by rewrite Hrc. }
  destruct (truthy rc) eqn:Ht; cbn [negb andb].
  - destruct (IH oks' (k + 1) l t1 Hl ltac:(lia) ltac:(lia) Hall) as (l' & Hrun & Hlen & Hget). exists l'. split_and!; [done|done|].
    intros i. rewrite Hget. by destruct (last_owner _ _ _ _).
  - destruct (service_range _ Hd) as (Hc & Hs & He & Ho & Ho'). fold (start_idx d) (end_idx d).
    destruct (fill_run (Z.to_nat (end_idx d - start_idx d + 1)) (start_idx d) k l t1) as (l1 & Hfill & Hl1 & Hget1); [lia|lia|lia|].
    destruct (IH oks' (k + 1) l1 t1 ltac:(lia) ltac:(lia) ltac:(lia) Hall) as (l' & Hrun & Hlen & Hget). exists l'.
    split_and!; [|done|].
    + unfold rt_assert, MAX_RT_SVCS. rewrite (proj2 (Z.ltb_lt (start_idx d) 128)), (proj2 (Z.ltb_lt (end_idx d) 128)) by lia.
      rewrite andb_false_r. erewrite bind_run by done. erewrite bind_run by done. erewrite bind_run by exact Hfill. exact Hrun.
    + intros i. rewrite Hget, Hget1. destruct (last_owner _ descs oks' (k + 1)); [done|]. unfold covers.
      replace (i <? start_idx d + Z.of_nat (Z.to_nat (end_idx d - start_idx d + 1))) with (i <=? end_idx d); [by destruct (_ && _)|].
      apply eq_true_iff_eq. rewrite Z.leb_le, Z.ltb_lt. lia.
Qed.

Lemma last_owner_index f descs oks k x :
  last_owner f descs oks k = Some x -> k <= x.1 < k + Z.of_nat (length descs) /\ descs !! Z.to_nat (x.1 - k) = Some x.2.
Proof.
  revert oks k. induction descs as [|d descs IH]; intros oks k Hx; [by destruct oks|]. destruct oks as [|ok oks]; [done|]. cbn in Hx |- *.
  destruct (last_owner f descs oks (k + 1)) as [y|] eqn:Hy.
  - injection Hx as <-. destruct (IH _ _ Hy) as [Hr Hl]. split; [lia|].
    replace (Z.to_nat (y.1 - k)) with (S (Z.to_nat (y.1 - (k + 1)))) by lia. exact Hl.
  - destruct (ok && f d); [|done]. injection Hx as <-. cbn. split; [lia|]. by rewrite Z.sub_diag.
Qed.

Lemma last_owner_ext f g descs oks k : (forall d, d ∈ descs -> f d = g d) -> last_owner f descs oks k = last_owner g descs oks k.
Proof.
  revert oks k. induction descs as [|d descs IH]; intros oks k Hfg; [done|]. destruct oks as [|ok oks]; [done|]. cbn.
  rewrite IH by (intros; apply Hfg; by right). by rewrite Hfg by left.
Qed.

(** The service behind an identifier, by a search of the descriptors. *)
Definition dispatch descs (oks : list bool) (me fid x1 x2 x3 x4 flags : Z) : M (rt_state T) (list Z) :=
  match last_owner (fun d => serves d fid) descs oks 0 with
  | Some (_, d) => let! h := deref (svc_handle d) in in_service (h me fid x1 x2 x3 x4 flags)
  | None => ret [u64 SMC_UNK]
  end.

Lemma svc_dispatch_run assertions descs oks (s : rt_state T) t :
  Forall wf_service descs -> Z.of_nat (length descs) < MAX_RT_SVCS -> Z.of_nat (length (rt_svc_descs_indices s)) = MAX_RT_SVCS ->
  init_all descs (rt_services s) = Ret oks t ->
  exists table, runtime_svc_init assertions descs s = Ret tt (RtState table t) /\
    forall me fid x1 x2 x3 x4 flags t',
      handle_runtime_svc assertions descs me fid x1 x2 x3 x4 flags (RtState table t') =
      dispatch descs oks me fid x1 x2 x3 x4 flags (RtState table t').
Proof.
  intros Hwf Hn Hl Hinit. unfold MAX_RT_SVCS in *. destruct s as [l0 t0]. cbn [rt_svc_descs_indices rt_services] in *.
  assert (Hidx : forall fid, 0 <= get_unique_oen_from_smc_fid fid < 128) by (intros fid; rewrite fid_unique_oen; destruct (fid_parts fid); lia).
  unfold runtime_svc_init, handle_runtime_svc, dispatch, rt_assert, RT_SVC_DECS_NUM, MAX_RT_SVCS.
  rewrite (proj2 (Z.ltb_lt _ 128) Hn), andb_false_r.
  rewrite (bind_run (ret tt) _ _ tt _ eq_refl).
  destruct (Z.eqb_spec (Z.of_nat (length descs)) 0) as [H0|Hpos].
  { destruct descs; [|done]. injection Hinit as <- <-. exists l0. split; [done|]. intros me fid x1 x2 x3 x4 flags t'.
    rewrite (proj2 (Z.ltb_lt _ 128) (proj2 (Hidx fid))), andb_false_r. erewrite bind_run by done. erewrite bind_run by done. cbn [rt_svc_descs_indices].
    destruct (arr_get_in_range l0 (get_unique_oen_from_smc_fid fid)) as [x ->]; [by rewrite Hl|]. erewrite bind_run by done.
    cbn [length]. destruct (Z.ltb_spec x 0), (Z.leb_spec (Z.of_nat 0) x); cbn; done || lia. }
  destruct (init_loop_run assertions descs oks 0 (replicate (Z.to_nat 128) (u8 (-1))) t0 t) as (table & Hrun & Hlen & Hget);
    [done|done|lia|lia|done|]. exists table. split; [exact Hrun|]. intros me fid x1 x2 x3 x4 flags t'.
  rewrite (proj2 (Z.ltb_lt _ 128) (proj2 (Hidx fid))), andb_false_r. erewrite bind_run by done. erewrite bind_run by done. cbn [rt_svc_descs_indices].
  rewrite Hget. rewrite (last_owner_ext _ (fun d => serves d fid)); cycle 1.
  { intros d Hd. apply covers_serves. by apply (proj1 (Forall_forall _ _) Hwf d), list_elem_of_In. }
  destruct (last_owner _ descs oks 0) as [[k d]|] eqn:Hown.
  - apply last_owner_index in Hown as [Hk Hd]. cbn [fst snd] in *. rewrite Z.sub_0_r in Hd. erewrite bind_run by done.
    destruct (Z.ltb_spec k 0), (Z.leb_spec (Z.of_nat (length descs)) k); try lia. cbn [orb].
    unfold arr_get. rewrite (proj2 (Z.leb_le 0 k)), Hd by lia. by erewrite bind_run.
  - rewrite arr_get_replicate by (rewrite Z2Nat.id; [apply Hidx|lia]). erewrite bind_run by done. change (u8 (-1)) with 255.
    destruct (Z.leb_spec (Z.of_nat (length descs)) 255); [|lia]. by rewrite orb_true_r.
Qed.

(** SMCs reach the service that owns them.  For fewer than 128 valid
    descriptors whose initialisation functions return, [runtime_svc_init]
    returns, and from then on [handle_runtime_svc] does for every function
    identifier, from every state of the services, what a search of the
    descriptors would: it runs the last descriptor of the identifier's type
    whose range has its owner and whose initialisation succeeded, and answers
    SMC_UNK when there is none. *)
Theorem svc_dispatch assertions descs oks (s : rt_state T) t :
  Forall wf_service descs -> Z.of_nat (length descs) < MAX_RT_SVCS -> Z.of_nat (length (rt_svc_descs_indices s)) = MAX_RT_SVCS ->
  init_all descs (rt_services s) = Ret oks t ->
  exists table, runtime_svc_init assertions descs s = Ret tt (RtState table t) /\
    forall me fid x1 x2 x3 x4 flags t',
      handle_runtime_svc assertions descs me fid x1 x2 x3 x4 flags (RtState table t') =
      dispatch descs oks me fid x1 x2 x3 x4 flags (RtState table t').
Proof. apply svc_dispatch_run. Qed.
End dispatch.

(** ** PSCI behind the table *)
Section others.
Context {T : Type}.
Implicit Types (d : rt_svc_desc_t T) (l : list (rt_svc_desc_t T)).

(** A service without an initialisation function: the architecture and the SiP
    service are such. *)
Record other_service d : Prop := {
  os_wf : wf_service d;
  os_init : svc_init d = None
}.

Lemma init_all_others l t : Forall other_service l -> init_all l t = Ret (replicate (length l) true) t.
Proof.
  induction 1 as [|d l [_ Hi] Hl IH]; [done|]. cbn [init_all]. rewrite Hi. erewrite bind_run by done. by erewrite bind_run by exact IH.
Qed.

Lemma init_all_app l1 d l2 t t1 : Forall other_service l1 -> Forall other_service l2 ->
  (match svc_init d with Some init => init | None => ret 0 end) t = Ret 0 t1 ->
  init_all (l1 ++ d :: l2) t = Ret (replicate (length (l1 ++ d :: l2)) true) t1.
Proof.
  intros H1 H2 Hd. induction H1 as [|e l1 [_ Hi] H1 IH]; cbn [app init_all length replicate].
  - erewrite bind_run by exact Hd. by erewrite bind_run by (by apply init_all_others).
  - rewrite Hi. erewrite bind_run by done. by erewrite bind_run by exact IH.
Qed.

Lemma last_owner_elem f l oks k k' d : last_owner f l oks k = Some (k', d) -> d ∈ l /\ f d = true.
Proof.
  revert oks k. induction l as [|e l IH]; intros oks k; [by destruct oks|]. destruct oks as [|ok oks]; [done|]. cbn.
  destruct (last_owner f l oks (k + 1)) as [[j x]|] eqn:E.
  - intros [= -> ->]. apply IH in E as [? ?]. split; [by right|done].
  - destruct ok, (f e) eqn:Ef; cbn; try done. intros [= _ ->]. split; [by left|done].
Qed.
Lemma last_owner_all f l d k : d ∈ l -> f d = true -> (forall e, e ∈ l -> f e = true -> e = d) ->
  exists k', last_owner f l (replicate (length l) true) k = Some (k', d).
Proof.
  intros Hin Hd. revert k. induction l as [|e l IH]; intros k Hu; [by apply not_elem_of_nil in Hin|]. cbn.
  destruct (last_owner f l _ _) as [[k' e']|] eqn:E.
  - apply last_owner_elem in E as [He' Hf']. exists k'. rewrite (Hu e'); [done|by right|done].
  - apply elem_of_cons in Hin as [<-|Hin]; [rewrite Hd; eauto|].
    destruct (IH Hin (k + 1)) as [k' Hk']; [intros; apply Hu; [by right|done]|]. congruence.
Qed.
End others.

(** Each function of the COMPHY driver returns. *)
Definition comphy_total (d : comphy_driver) : Prop :=
  forall lane mode, total (comphy_power_on d lane mode) /\ total (comphy_power_off d lane mode) /\ total (comphy_is_pll_locked d lane mode).

Section a3700.
Context (debug : bool) (sr : sysregs) (drv : comphy_driver) (wa1 wa2 dyn2 : bool) (check_wa disable_ptr : Z).
#[local] Instance cfg : PlatCfg := a3700_cfg debug.
#[local] Instance env : PlatEnv a3700_hw := a3700_env sr.
#[local] Instance topo : Topo := a3700_topo.
#[local] Instance contract : PlatContract a3700_hw := a3700_contract debug sr.
#[local] Abbreviation services := (board_services drv wa1 wa2 dyn2 check_wa disable_ptr 0).
#[local] Abbreviation arch := (board_arch_svc wa1 wa2 dyn2 check_wa disable_ptr).

Lemma std_svc_wf args : wf_service (std_svc (P := a3700_hw) 0 args).
Proof. by split. Qed.
Lemma arch_other : other_service arch.
Proof. by split. Qed.
Lemma sip_other : other_service (marvell_sip_svc drv).
Proof. by split. Qed.

Lemma services_wf args descs : descs ≡ₚ services args -> Forall wf_service descs.
Proof.
  intros ->. constructor; [apply arch_other|constructor; [apply sip_other|constructor; [apply std_svc_wf|constructor]]].
Qed.

(** The initialisation of PSCI is the only one, wherever it comes. *)
Lemma services_init args descs p s : descs ≡ₚ services args -> psci_setup 0 args (psci_bss p) = Ret 0 s ->
  init_all descs (psci_bss p) = Ret (replicate (length descs) true) s.
Proof.
  intros Hp Hrun. assert (Hin : std_svc 0 args ∈ descs) by (rewrite Hp; set_solver).
  apply list_elem_of_split in Hin as (l1 & l2 & ->).
  assert (Hl : l1 ++ l2 ≡ₚ [arch; marvell_sip_svc drv]).
  { apply (Permutation_cons_inv (a := std_svc 0 args)). rewrite Permutation_middle, Hp. symmetry. apply (Permutation_cons_append [arch; marvell_sip_svc drv]). }
  assert (Ho : Forall other_service (l1 ++ l2)) by (rewrite Hl; constructor; [apply arch_other|constructor; [apply sip_other|constructor]]).
  apply Forall_app in Ho as [H1 H2]. apply init_all_app; [done|done|]. cbn. unfold std_svc_setup. by erewrite bind_run by exact Hrun.
Qed.

(** The service for a function identifier, if any. *)
Definition service_of args (fid : Z) : option (rt_svc_desc_t (psci_state a3700_hw)) :=
  if fid_type fid =? SMC_TYPE_FAST then
    (if fid_oen fid =? OEN_ARM_START then Some arch
     else if fid_oen fid =? OEN_SIP_START then Some (marvell_sip_svc drv)
     else if fid_oen fid =? OEN_STD_START then Some (std_svc 0 args) else None)
  else None.

Lemma service_of_serves args d fid : service_of args fid = Some d -> d ∈ services args /\ serves d fid = true.
Proof.
  unfold service_of, serves. destruct (Z.eqb_spec (fid_type fid) SMC_TYPE_FAST) as [Ht|]; [|done]. rewrite Ht.
  destruct (Z.eqb_spec (fid_oen fid) OEN_ARM_START) as [->|]; [intros [= <-]; split; [unfold board_services; set_solver|done]|].
  destruct (Z.eqb_spec (fid_oen fid) OEN_SIP_START) as [->|]; [intros [= <-]; split; [unfold board_services; set_solver|done]|].
  destruct (Z.eqb_spec (fid_oen fid) OEN_STD_START) as [->|]; [intros [= <-]; split; [unfold board_services; set_solver|done]|]. done.
Qed.

Lemma serves_service_of args d fid : d ∈ services args -> serves d fid = true -> service_of args fid = Some d.
Proof.
  unfold board_services. rewrite !elem_of_cons, elem_of_nil. unfold serves, service_of. intros Hd.
  rewrite !andb_true_iff, Z.eqb_eq, !Z.leb_le. intros [[Ht H1] H2]. rewrite <- Ht.
  destruct Hd as [->|[->|[->|[]]]]; cbn in H1, H2 |- *;
    unfold OEN_ARM_START, OEN_ARM_END, OEN_SIP_START, OEN_SIP_END, OEN_STD_START, OEN_STD_END in *.
  - by assert (fid_oen fid = 0) as -> by lia.
  - by assert (fid_oen fid = 2) as -> by lia.
  - by assert (fid_oen fid = 4) as -> by lia.
Qed.

(** BL31 boots, and every later SMC goes to the service of its owner. *)
Lemma board_run descs args indices p :
  VERIFY_PSCI_LIB_ARGS_V1 args = true -> descs ≡ₚ services args -> Z.of_nat (length indices) = MAX_RT_SVCS ->
  exists table s,
    runtime_svc_init debug descs (RtState indices (psci_bss p)) = Ret tt (RtState table s) /\
    psci_setup 0 args (psci_bss p) = Ret 0 s /\
    forall me fid x1 x2 x3 x4 flags s',
      handle_runtime_svc debug descs me fid x1 x2 x3 x4 flags (RtState table s') =
      match service_of args fid with
      | Some d => (let! h := deref (svc_handle d) in in_service (h me fid x1 x2 x3 x4 flags)) (RtState table s')
      | None => Ret [u64 SMC_UNK] (RtState table s')
      end.
Proof.
  intros Ha Hp Hl. destruct (setup_run debug sr args p Ha) as (s & Hrun & _ & _).
  destruct (svc_dispatch_run debug descs (replicate (length descs) true) (RtState indices (psci_bss p)) s) as (table & Htab & Hdisp);
    [by eapply services_wf|by rewrite Hp|exact Hl|by eapply services_init|].
  exists table, s. split_and!; [exact Htab|exact Hrun|]. intros me fid x1 x2 x3 x4 flags s'. rewrite Hdisp. unfold dispatch.
  destruct (service_of args fid) as [d|] eqn:E.
  - apply service_of_serves in E as Hd. destruct Hd as [Hd Hf].
    destruct (last_owner_all (fun d => serves d fid) descs d 0) as [k ->]; [by rewrite Hp|done| |done].
    intros e He Hfe. rewrite Hp in He. apply (serves_service_of args) in Hfe; [congruence|done].
  - destruct (last_owner _ _ _ _) as [[k d]|] eqn:Ho; [|done]. apply last_owner_elem in Ho as [Hd Hf]. rewrite Hp in Hd.
    apply (serves_service_of args) in Hf; [congruence|done].
Qed.

(** [C28] The SMC interface of the board.  In whatever order the linker placed
    the three runtime services, BL31's [runtime_svc_init] returns from the
    zeroed tables having run [psci_setup] with success.  From then on, in
    every state of the services, a fast call goes to the handler of the
    architecture service, of the SiP service or of the standard service
    according to its owner, and the standard service hands the function
    numbers of PSCI to [psci_smc_handler]; every other call, and every
    yielding one, returns SMC_UNK and changes nothing. *)
Theorem a3700_smc_dispatch descs args indices p :
  VERIFY_PSCI_LIB_ARGS_V1 args = true -> descs ≡ₚ services args -> Z.of_nat (length indices) = MAX_RT_SVCS ->
  exists table s,
    runtime_svc_init debug descs (RtState indices (psci_bss p)) = Ret tt (RtState table s) /\
    psci_setup 0 args (psci_bss p) = Ret 0 s /\
    forall me fid x1 x2 x3 x4 flags s',
      handle_runtime_svc debug descs me fid x1 x2 x3 x4 flags (RtState table s') =
      (if negb (fid_type fid =? SMC_TYPE_FAST) then ret [u64 SMC_UNK]
       else if fid_oen fid =? 0 then
         in_service (arm_arch_svc_smc_handler wa1 wa2 dyn2 check_wa disable_ptr me fid x1 x2 x3 x4 flags)
       else if fid_oen fid =? 2 then in_service (sip_smc_handler drv me fid x1 x2 x3 x4 flags)
       else if fid_oen fid =? 4 then
         if is_psci_fid fid then in_service (let! r := psci_smc_handler me fid x1 x2 x3 flags in ret [r])
         else in_service (std_svc_smc_handler me fid x1 x2 x3 x4 flags)
       else ret [u64 SMC_UNK]) (RtState table s').
Proof.
  intros Ha Hp Hl. destruct (board_run descs args indices p Ha Hp Hl) as (table & s & Hrun & Hset & Hd).
  exists table, s. split_and!; [exact Hrun|exact Hset|]. intros me fid x1 x2 x3 x4 flags s'. rewrite Hd. unfold service_of.
  change OEN_ARM_START with 0. change OEN_SIP_START with 2. change OEN_STD_START with 4.
  destruct (fid_type fid =? SMC_TYPE_FAST); [|done]. cbn [negb]. destruct (fid_oen fid =? 0); [done|]. destruct (fid_oen fid =? 2); [done|].
  destruct (fid_oen fid =? 4); [|done]. erewrite bind_run by done. unfold std_svc_smc_handler. by destruct (is_psci_fid fid).
Qed.

(** *** What the handlers do to the dispatcher *)
Definition ends {S A} (o : outcome S A) : Prop := match o with Ret _ _ => True | Halt h _ => h = HPwrDownWfi \/ h = HSystemDown end.

Lemma in_service_ends {A} (m : M (psci_state a3700_hw) A) table t : ends (m t) ->
  match in_service m (RtState table t) with
  | Ret _ s' => rt_svc_descs_indices s' = table
  | Halt h _ => h = HPwrDownWfi \/ h = HSystemDown
  end.
Proof. unfold in_service, zoom. cbn. by destruct (m t). Qed.

Lemma arch_ends c fid x1 x2 x3 x4 flags t :
  ends (arm_arch_svc_smc_handler (T := psci_state a3700_hw) wa1 wa2 dyn2 check_wa disable_ptr c fid x1 x2 x3 x4 flags t).
Proof. unfold arm_arch_svc_smc_handler. by repeat case_match. Qed.

Lemma ends_total {A B} (m : M a3700_hw A) (k : A -> B) (t : psci_state a3700_hw) : total m ->
  ends ((let! r := plat m in ret (k r)) t).
Proof. intros Hm. specialize (Hm (hw t)). unfold ends, bind, plat, zoom. apply wp_unfold in Hm. by destruct (m (hw t)). Qed.

Lemma sip_ends c fid x1 x2 x3 x4 flags t : comphy_total drv -> ends (sip_smc_handler drv c fid x1 x2 x3 x4 flags t).
Proof.
  intros Hd. unfold sip_smc_handler. apply (ends_total _ (fun r => [r])). unfold mrvl_sip_smc_handler.
  repeat (apply total_if; [|]); try (apply total_bind; [|intros; apply total_ret]); try apply total_ret; try apply Hd.
  intros q. apply wp_unfold. by rewrite dram_size_run.
Qed.

Lemma std_ends c fid x1 x2 x3 x4 flags t :
  ends (psci_smc_handler c fid x1 x2 x3 flags t) -> ends (std_svc_smc_handler c fid x1 x2 x3 x4 flags t).
Proof.
  intros Hp. unfold std_svc_smc_handler. destruct (is_psci_fid fid); [|by repeat case_match].
  unfold ends, bind. by destruct (psci_smc_handler c fid x1 x2 x3 flags t).
Qed.

(** [C15] No SMC brings the firmware of the board down.  After
    [runtime_svc_init], in every state that the two cores can reach through
    PSCI, every SMC of a running core other than CPU_SUSPEND and SYSTEM_OFF,
    with any function identifier and any arguments, returns to the caller with
    the table of services unchanged, or powers the core or the system down as
    asked: no assertion fails, nothing is read outside its array and nothing
    panics, given a COMPHY driver that returns. *)
Theorem a3700_every_smc_ends descs args indices p table s y c fid x1 x2 x3 x4 flags :
  VERIFY_PSCI_LIB_ARGS_V1 args = true -> descs ≡ₚ services args -> Z.of_nat (length indices) = MAX_RT_SVCS ->
  comphy_total drv ->
  runtime_svc_init debug descs (RtState indices (psci_bss p)) = Ret tt (RtState table s) ->
  star sys_step (s, setup_modes) y -> cpu_ok c -> y.2 c = MUp ->
  fid ∉ [PSCI_CPU_SUSPEND_AARCH32; PSCI_CPU_SUSPEND_AARCH64; PSCI_SYSTEM_OFF] ->
  match handle_runtime_svc debug descs c fid x1 x2 x3 x4 flags (RtState table y.1) with
  | Ret _ s' => rt_svc_descs_indices s' = table
  | Halt h _ => h = HPwrDownWfi \/ h = HSystemDown
  end.
Proof.
  intros Ha Hp Hl Hdrv Hrun Hy Hc Hup Hfid. destruct (board_run descs args indices p Ha Hp Hl) as (table' & s' & Hrun' & Hset & Hd).
  rewrite Hrun in Hrun'. injection Hrun' as <- <-. rewrite Hd.
  destruct (service_of args fid) as [d|] eqn:E; [|done]. apply service_of_serves in E as [Hin _]. unfold board_services in Hin.
  rewrite !elem_of_cons, elem_of_nil in Hin. destruct Hin as [->|[->|[->|[]]]]; erewrite bind_run by done.
  all: apply in_service_ends.
  - apply arch_ends.
  - by apply sip_ends.
  - apply std_ends. exact (calls_safe_run debug sr args p s y c fid x1 x2 x3 flags Ha Hset Hy Hc Hup Hfid).
Qed.
End a3700.

(** ** Instances *)
Module RuntimeWitnesses.
Import Board Run.

(** A driver that always succeeds; the services linked in another order. *)
Definition drv0 : comphy_driver := Comphy (fun _ _ => ret 0) (fun _ _ => ret 0) (fun _ _ => ret 1).
Definition linked : list (rt_svc_desc_t (psci_state a3700_hw)) :=
  [std_svc 0 args; board_arch_svc true true false 0 0; marvell_sip_svc drv0].
Lemma linked_services : linked ≡ₚ board_services drv0 true true false 0 0 0 args.
Proof. apply (Permutation_cons_append [board_arch_svc true true false 0 0; marvell_sip_svc drv0]). Qed.
Lemma drv0_total : comphy_total drv0.
Proof. intros lane mode. split_and!; apply total_ret. Qed.

Lemma a3700_smc_dispatch_witness :
  exists table, runtime_svc_init true linked (RtState (replicate 128 0) (psci_bss power_on)) = Ret tt (RtState table booted) /\
    handle_runtime_svc true linked 0 SMCCC_VERSION 0 0 0 0 1 (RtState table booted) = Ret [0x10001] (RtState table booted).
Proof.
  destruct (a3700_smc_dispatch true regs0 drv0 true true false 0 0 linked args (replicate 128 0) power_on eq_refl linked_services eq_refl)
    as (table & s & Hrun & Hset & Hd).
  assert (s = booted) as -> by (pose proof booted_run as Hb; change (psci_setup 0 args (psci_bss power_on) = Ret 0 s) in Hset; congruence).
  exists table. split; [exact Hrun|]. rewrite Hd. reflexivity.
Defined.

Lemma a3700_every_smc_ends_witness :
  exists table, runtime_svc_init true linked (RtState (replicate 128 0) (psci_bss power_on)) = Ret tt (RtState table booted) /\
    match handle_runtime_svc true linked 0 PSCI_VERSION 0 0 0 0 1 (RtState table off) with
    | Ret _ s' => rt_svc_descs_indices s' = table
    | Halt h _ => h = HPwrDownWfi \/ h = HSystemDown
    end.
Proof.
  destruct (board_run true regs0 drv0 true true false 0 0 linked args (replicate 128 0) power_on eq_refl linked_services eq_refl)
    as (table & s & Hrun & Hset & _).
  assert (s = booted) as -> by (pose proof booted_run as Hb; change (psci_setup 0 args (psci_bss power_on) = Ret 0 s) in Hset; congruence).
  exists table. split; [exact Hrun|].
  exact (a3700_every_smc_ends true regs0 drv0 true true false 0 0 linked args (replicate 128 0) power_on table booted (off, modes_off)
    0 PSCI_VERSION 0 0 0 0 1 eq_refl linked_services eq_refl drv0_total Hrun star_off cpu0_ok modes_off_0 A3700Witnesses.version_not_excluded).
Defined.

(** A service whose initialisation fails is not reached; a later descriptor
    for the same owner is. *)
Definition counter_svc (lo hi rc v : Z) : rt_svc_desc_t Z :=
  RtSvcDesc lo hi SMC_TYPE_FAST (Some (modify (Z.add 1) ;;; ret rc)) (Some (fun _ _ _ _ _ _ _ => ret [v])).

Lemma svc_dispatch_witness :
  exists table, runtime_svc_init true [counter_svc 0 3 0 7; counter_svc 3 3 1 8; counter_svc 2 3 0 9] (RtState (replicate 128 0) 0) =
    Ret tt (RtState table 3) /\
    handle_runtime_svc true [counter_svc 0 3 0 7; counter_svc 3 3 1 8; counter_svc 2 3 0 9] 0 0x83000001 0 0 0 0 1 (RtState table 3) =
      Ret [9] (RtState table 3).
Proof.
  destruct (svc_dispatch true [counter_svc 0 3 0 7; counter_svc 3 3 1 8; counter_svc 2 3 0 9] [true; false; true]
    (RtState (replicate 128 0) 0) 3) as (table & Hrun & Hd); [repeat constructor; cbn; lia|done|done|reflexivity|].
  exists table. split; [exact Hrun|]. rewrite Hd. reflexivity.
Defined.
End RuntimeWitnesses.
