(* ===== verification/IntrMgmt.v ===== *)
(** * BL31: interrupt management (bl31/interrupt_mgmt.c)

    The table of handlers and routing models, one entry for each type of
    interrupt, and the SCR_EL3 values it implies for the two security states;
    cm_write_scr_el3_bit of context_mgmt.c and the interrupt lines of
    plat/common/plat_gicv3.c, which the board uses (its check that the CPU is
    in EL3 is left out: BL31 runs nowhere else).

    [cpu_context] holds the saved SCR_EL3 of each security state of the calling
    CPU, or nothing where no context has been set.  A handler is a pointer. *)
From stdpp Require Import base list numbers option.
From Stdlib Require Import ZArith Lia.
From S2P Require Import Prelude.
#[local] Open Scope Z_scope.

Definition EALREADY : Z := 37.
Definition INTR_TYPE_S_EL1 : Z := 0.
Definition INTR_TYPE_EL3 : Z := 1.
Definition INTR_TYPE_NS : Z := 2.
Definition MAX_INTR_TYPES : Z := 3.
Definition INTR_RM_FLAGS_SHIFT : Z := 0x0.
Definition INTR_RM_FLAGS_MASK : Z := 0x3.
Definition INTR_SEL1_VALID_RM0 : Z := 0x2.
Definition INTR_SEL1_VALID_RM1 : Z := 0x3.
Definition INTR_NS_VALID_RM0 : Z := 0x0.
Definition INTR_NS_VALID_RM1 : Z := 0x1.
Definition INTR_EL3_VALID_RM0 : Z := 0x2.
Definition INTR_EL3_VALID_RM1 : Z := 0x3.
Definition INTR_DEFAULT_RM : Z := 0x0.
Definition INTR_TYPE_FLAGS_MASK : Z := 0xFFFFFFFC.
Definition INTR_RM_FROM_FLAG_MASK : Z := 1.
Definition get_interrupt_rm_flag (flag ss : Z) : Z := Z.land (Z.shiftr (Z.shiftr flag INTR_RM_FLAGS_SHIFT) ss) INTR_RM_FROM_FLAG_MASK.
Definition SCR_IRQ_SHIFT : Z := 1.
Definition SCR_FIQ_SHIFT : Z := 2.
Definition SCR_VALID_BIT_MASK : Z := 0x2f8f.
Definition sec_state_is_valid (s : Z) : bool := (s =? SECURE) || (s =? NON_SECURE).

Record intr_type_desc_t : Type := IntrTypeDesc { handler : Z; rm_flags : Z; scr_el3 : list Z }.
Record im_state : Type := ImState { intr_type_descs : list intr_type_desc_t; cpu_context : list (option Z) }.
Definition set_intr_descs (l : list intr_type_desc_t) (s : im_state) : im_state := ImState l (cpu_context s).
Definition set_contexts (l : list (option Z)) (s : im_state) : im_state := ImState (intr_type_descs s) l.

Section interrupt_mgmt.
Context (assertions EL3_EXCEPTION_HANDLING : bool).
#[local] Abbreviation IMM := (M im_state).
Definition im_assert (b : bool) : IMM unit := if assertions && negb b then halt_with HAssert else ret tt.

(** ** The context and the interrupt controller *)
Definition cm_get_context (security_state : Z) : IMM (option Z) :=
  im_assert (security_state <=? NON_SECURE) ;;;
  let! l := gets cpu_context in deref (arr_get l security_state).

Definition cm_write_scr_el3_bit (security_state bit_pos value : Z) : IMM unit :=
  let! ctx := cm_get_context security_state in
  im_assert (bool_decide (is_Some ctx)) ;;;
  im_assert (truthy (Z.land (Z.shiftl 1 bit_pos) SCR_VALID_BIT_MASK)) ;;;
  im_assert (value <=? 1) ;;;
  let! scr := deref ctx in
  let scr := Z.land (u32 scr) (u32 (Z.lnot (Z.shiftl 1 bit_pos))) in
  let scr := Z.lor scr (u32 (Z.shiftl value bit_pos)) in
  let! l := gets cpu_context in
  let! l' := deref (arr_set l security_state (Some scr)) in
  modify (set_contexts l').

Definition plat_interrupt_type_to_line (type security_state : Z) : IMM Z :=
  im_assert ((type =? INTR_TYPE_S_EL1) || (type =? INTR_TYPE_EL3) || (type =? INTR_TYPE_NS)) ;;;
  im_assert (sec_state_is_valid security_state) ;;;
  if type =? INTR_TYPE_S_EL1 then ret (if security_state =? SECURE then SCR_IRQ_SHIFT else SCR_FIQ_SHIFT)
  else if type =? INTR_TYPE_NS then ret (if security_state =? SECURE then SCR_FIQ_SHIFT else SCR_IRQ_SHIFT)
  else if type =? INTR_TYPE_EL3 then ret SCR_FIQ_SHIFT
  else halt_with HPanic.

(** ** The table *)
Definition get_intr_desc (type : Z) : IMM intr_type_desc_t :=
  let! l := gets intr_type_descs in deref (arr_get l type).
Definition put_intr_desc (type : Z) (d : intr_type_desc_t) : IMM unit :=
  let! l := gets intr_type_descs in
  let! l' := deref (arr_set l type d) in modify (set_intr_descs l').

Definition validate_interrupt_type (type : Z) : Z :=
  if (type =? INTR_TYPE_S_EL1) || (type =? INTR_TYPE_NS) || (type =? INTR_TYPE_EL3) then 0 else - EINVAL.

Definition validate_sel1_interrupt_rm (x : Z) : Z :=
  if x =? INTR_SEL1_VALID_RM0 then 0 else if x =? INTR_SEL1_VALID_RM1 then 0 else - EINVAL.
Definition validate_ns_interrupt_rm (x : Z) : Z :=
  if x =? INTR_NS_VALID_RM0 then 0 else if x =? INTR_NS_VALID_RM1 then 0 else - EINVAL.
Definition validate_el3_interrupt_rm (x : Z) : Z :=
  if EL3_EXCEPTION_HANDLING then (if x =? INTR_EL3_VALID_RM1 then 0 else - EINVAL)
  else if x =? INTR_EL3_VALID_RM0 then 0 else if x =? INTR_EL3_VALID_RM1 then 0 else - EINVAL.

Definition validate_routing_model (type flags : Z) : Z :=
  let flags := Z.land (Z.shiftr flags INTR_RM_FLAGS_SHIFT) INTR_RM_FLAGS_MASK in
  if type =? INTR_TYPE_S_EL1 then validate_sel1_interrupt_rm flags
  else if type =? INTR_TYPE_NS then validate_ns_interrupt_rm flags
  else if type =? INTR_TYPE_EL3 then validate_el3_interrupt_rm flags
  else - EINVAL.

Definition get_scr_el3_from_routing_model (security_state : Z) : IMM Z :=
  im_assert (sec_state_is_valid security_state) ;;;
  let! ns := get_intr_desc INTR_TYPE_NS in
  let! a := deref (arr_get (scr_el3 ns) security_state) in
  let! sel1 := get_intr_desc INTR_TYPE_S_EL1 in
  let! b := deref (arr_get (scr_el3 sel1) security_state) in
  let! el3 := get_intr_desc INTR_TYPE_EL3 in
  let! c := deref (arr_get (scr_el3 el3) security_state) in
  ret (Z.lor (Z.lor a b) c).

Definition set_scr_el3_from_rm (type interrupt_type_flags security_state : Z) : IMM unit :=
  let flag := get_interrupt_rm_flag interrupt_type_flags security_state in
  let! bit_pos := plat_interrupt_type_to_line type security_state in
  let! d := get_intr_desc type in
  let! scr := deref (arr_set (scr_el3 d) security_state (u32 (Z.shiftl flag bit_pos))) in
  put_intr_desc type (IntrTypeDesc (handler d) (rm_flags d) scr) ;;;
  let! ctx := cm_get_context security_state in
  when (bool_decide (is_Some ctx)) (cm_write_scr_el3_bit security_state bit_pos flag).

Definition set_routing_model (type flags : Z) : IMM Z :=
  let rc := validate_interrupt_type type in
  if truthy rc then ret rc
  else
    let rc := validate_routing_model type flags in
    if truthy rc then ret rc
    else
      let! d := get_intr_desc type in
      put_intr_desc type (IntrTypeDesc (handler d) flags (scr_el3 d)) ;;;
      set_scr_el3_from_rm type flags SECURE ;;;
      set_scr_el3_from_rm type flags NON_SECURE ;;;
      ret 0.

Definition disable_intr_rm_local (type security_state : Z) : IMM Z :=
  let! d := get_intr_desc type in
  im_assert (truthy (handler d)) ;;;
  let flag := get_interrupt_rm_flag INTR_DEFAULT_RM security_state in
  let! bit_pos := plat_interrupt_type_to_line type security_state in
  cm_write_scr_el3_bit security_state bit_pos flag ;;;
  ret 0.

Definition enable_intr_rm_local (type security_state : Z) : IMM Z :=
  let! d := get_intr_desc type in
  im_assert (truthy (handler d)) ;;;
  let flag := get_interrupt_rm_flag (rm_flags d) security_state in
  let! bit_pos := plat_interrupt_type_to_line type security_state in
  cm_write_scr_el3_bit security_state bit_pos flag ;;;
  ret 0.

Definition register_interrupt_type_handler (type handler0 flags : Z) : IMM Z :=
  if handler0 =? 0 then ret (- EINVAL)
  else if truthy (Z.land flags INTR_TYPE_FLAGS_MASK) then ret (- EINVAL)
  else
    let! d := get_intr_desc type in
    if truthy (handler d) then ret (- EALREADY)
    else
      let! rc := set_routing_model type flags in
      if truthy rc then ret rc
      else
        let! d := get_intr_desc type in
        put_intr_desc type (IntrTypeDesc handler0 (rm_flags d) (scr_el3 d)) ;;;
        ret 0.

(** 0 is a null pointer. *)
Definition get_interrupt_type_handler (type : Z) : IMM Z :=
  if truthy (validate_interrupt_type type) then ret 0
  else let! d := get_intr_desc type in ret (handler d).
End interrupt_mgmt.
