(* ===== verification/IntrProps.v ===== *)
(** * BL31: routing of interrupts

    What registering a handler does on every path, the SCR_EL3 values that the
    table then stands for, and where they differ from the saved contexts. *)
From stdpp Require Import base list numbers option.
From Stdlib Require Import ZArith Lia.
From S2P Require Import Prelude IntrMgmt.
#[local] Open Scope Z_scope.

(** ** Routing models *)

(** The bit of SCR_EL3 that routes a type of interrupt to EL3 from a security
    state, and whether a model asks for it. *)
Definition line (type ss : Z) : Z :=
  if type =? INTR_TYPE_EL3 then SCR_FIQ_SHIFT
  else if (type =? INTR_TYPE_S_EL1) && (ss =? SECURE) || (type =? INTR_TYPE_NS) && negb (ss =? SECURE) then SCR_IRQ_SHIFT
  else SCR_FIQ_SHIFT.
Definition routed (flags ss : Z) : bool := Z.testbit flags ss.

(** The models a type may have: secure EL1 and EL3 interrupts always leave the
    normal world for EL3, non-secure ones never. *)
Definition model_ok (ehf : bool) (type flags : Z) : bool :=
  if type =? INTR_TYPE_NS then negb (routed flags NON_SECURE)
  else routed flags NON_SECURE && (negb (ehf && (type =? INTR_TYPE_EL3)) || routed flags SECURE).

Definition scr_bits (type flags ss : Z) : Z := if routed flags ss then 2 ^ line type ss else 0.
Definition write_bit (scr : option Z) (bit : Z) (b : bool) : option Z :=
  (fun v => Z.lor (Z.ldiff v (2 ^ bit)) (if b then 2 ^ bit else 0)) <$> scr.

(** The table of a running system: three types, two security states. *)
Record wf_im (s : im_state) : Prop := {
  wi_descs : length (intr_type_descs s) = 3%nat;
  wi_scrs : Forall (fun d => length (scr_el3 d) = 2%nat) (intr_type_descs s);
  wi_ctx : length (cpu_context s) = 2%nat;
  wi_range : Forall (fun c => forall v, c = Some v -> 0 <= v < 2 ^ 32) (cpu_context s)
}.

Lemma small_flags flags : 0 <= flags < 2 ^ 32 -> Z.land flags INTR_TYPE_FLAGS_MASK = 0 <-> 0 <= flags < 4.
Proof.
  intros Hf. assert (Hsplit : flags = Z.lor (Z.land flags 3) (Z.land flags INTR_TYPE_FLAGS_MASK)).
  { rewrite <- Z.land_lor_distr_r. change (Z.lor 3 INTR_TYPE_FLAGS_MASK) with (Z.ones 32). by rewrite Z.land_ones, Z.mod_small by lia. }
  split.
  - intros H0. rewrite H0, Z.lor_0_r in Hsplit. rewrite Hsplit. change 3 with (Z.ones 2). rewrite Z.land_ones by lia. apply Z.mod_pos_bound. lia.
  - intros Hr. assert (flags = 0 \/ flags = 1 \/ flags = 2 \/ flags = 3) as [->|[->|[->| ->]]] by lia; reflexivity.
Qed.

Lemma clear_bit v n : 0 <= n < 32 -> 0 <= v < 2 ^ 32 -> Z.land (u32 v) (u32 (Z.lnot (Z.shiftl 1 n))) = Z.ldiff v (2 ^ n).
Proof.
  intros Hn Hv. rewrite u32_small by done. unfold u32. rewrite Z.shiftl_1_l, <- Z.land_ones by lia.
  rewrite (Z.land_comm (Z.lnot _)), Z.land_assoc, (land_ones_small 32 v) by lia. by rewrite Z.ldiff_land.
Qed.

(** ** Writing the saved SCR_EL3 *)
Definition ctx (s : im_state) (ss : Z) : option Z := default None (arr_get (cpu_context s) ss).

(** What a successful registration leaves behind. *)
Definition registered (type h flags : Z) (s : im_state) : im_state :=
  ImState (<[Z.to_nat type := IntrTypeDesc h flags [scr_bits type flags SECURE; scr_bits type flags NON_SECURE]]> (intr_type_descs s))
    [write_bit (ctx s SECURE) (line type SECURE) (routed flags SECURE);
     write_bit (ctx s NON_SECURE) (line type NON_SECURE) (routed flags NON_SECURE)].

Section register.
Context (assertions ehf : bool).

Lemma set_bit_value n b : 0 <= n < 32 -> u32 (Z.shiftl (b2z b) n) = if b then 2 ^ n else 0.
Proof.
  intros Hn. destruct b; cbn [b2z]; rewrite ?Z.shiftl_1_l, ?Z.shiftl_0_l; [|done]. rewrite u32_small; [done|].
  split; [apply Z.pow_nonneg; lia|apply Z.pow_lt_mono_r; lia].
Qed.

Lemma write_scr_run ds c0 c1 ss v bit b :
  ss = SECURE \/ ss = NON_SECURE -> bit = 1 \/ bit = 2 -> 0 <= v < 2 ^ 32 -> arr_get [c0; c1] ss = Some (Some v) ->
  cm_write_scr_el3_bit assertions ss bit (b2z b) (ImState ds [c0; c1]) =
    Ret tt (ImState ds (<[Z.to_nat ss := write_bit (Some v) bit b]> [c0; c1])).
Proof.
  intros Hss Hbit Hv Hc. unfold cm_write_scr_el3_bit, cm_get_context, im_assert, bind, gets, deref, modify, ret.
  assert (Hle : (ss <=? NON_SECURE) = true) by (apply Z.leb_le; unfold SECURE, NON_SECURE in *; lia).
  rewrite Hle, andb_false_r. cbn [cpu_context]. rewrite Hc. cbn [is_Some]. rewrite bool_decide_eq_true_2 by eauto. rewrite andb_false_r.
  assert (Hm : truthy (Z.land (Z.shiftl 1 bit) SCR_VALID_BIT_MASK) = true) by (destruct Hbit as [-> | ->]; reflexivity).
  rewrite Hm, andb_false_r. assert (Hb : (b2z b <=? 1) = true) by (by destruct b). rewrite Hb, andb_false_r.
  rewrite arr_set_in_range by (cbn; unfold SECURE, NON_SECURE in *; lia). unfold set_contexts. cbn [intr_type_descs write_bit].
  rewrite clear_bit, set_bit_value by lia. done.
Qed.

Lemma rm_flag flags ss : 0 <= flags < 4 -> ss = SECURE \/ ss = NON_SECURE -> get_interrupt_rm_flag flags ss = b2z (routed flags ss).
Proof.
  intros Hf Hs. assert (flags = 0 \/ flags = 1 \/ flags = 2 \/ flags = 3) as [->|[->|[->| ->]]] by lia; by destruct Hs as [-> | ->].
Qed.

Lemma line_run type ss s : 0 <= type < 3 -> ss = SECURE \/ ss = NON_SECURE ->
  plat_interrupt_type_to_line assertions type ss s = Ret (line type ss) s.
Proof.
  intros Ht Hs. unfold plat_interrupt_type_to_line, im_assert.
  assert (type = 0 \/ type = 1 \/ type = 2) as [->|[->| ->]] by lia; destruct Hs as [-> | ->]; by destruct assertions.
Qed.

Lemma line_bits type ss : line type ss = 1 \/ line type ss = 2.
Proof. unfold line, SCR_FIQ_SHIFT, SCR_IRQ_SHIFT. destruct (_ =? _); [lia|]. destruct (_ || _); lia. Qed.

(** One security state of [set_scr_el3_from_rm]. *)
Lemma set_scr_run type flags ss ds d r c0 c1 :
  0 <= type < 3 -> 0 <= flags < 4 -> ss = SECURE \/ ss = NON_SECURE -> length ds = 3%nat -> arr_get ds type = Some d ->
  arr_set (scr_el3 d) ss (scr_bits type flags ss) = Some r -> (forall v, arr_get [c0; c1] ss = Some (Some v) -> 0 <= v < 2 ^ 32) ->
  set_scr_el3_from_rm assertions type flags ss (ImState ds [c0; c1]) =
    Ret tt (ImState (<[Z.to_nat type := IntrTypeDesc (handler d) (rm_flags d) r]> ds)
      (<[Z.to_nat ss := write_bit (default None (arr_get [c0; c1] ss)) (line type ss) (routed flags ss)]> [c0; c1])).
Proof.
  intros Ht Hf Hs Hl Hd Hr Hv. pose proof (line_bits type ss) as Hbit. unfold set_scr_el3_from_rm.
  rewrite (bind_run _ _ _ _ _ (line_run type ss _ Ht Hs)). unfold get_intr_desc, put_intr_desc.
  unfold bind at 1 2. unfold gets at 1. unfold deref at 1, ret. cbn [intr_type_descs]. rewrite Hd.
  rewrite rm_flag, set_bit_value by lia || done.
  change (if routed flags ss then 2 ^ line type ss else 0) with (scr_bits type flags ss). rewrite Hr.
  unfold bind at 1. cbn [deref]. unfold bind at 1 2 3, gets, modify, ret, set_intr_descs. cbn [intr_type_descs cpu_context].
  rewrite arr_set_in_range by lia. cbn [deref ret]. unfold bind at 1, cm_get_context at 1, im_assert at 1.
  assert (Hle : (ss <=? NON_SECURE) = true) by (apply Z.leb_le; unfold SECURE, NON_SECURE in *; lia). rewrite Hle, andb_false_r.
  unfold bind at 1 2, ret, gets. cbn [cpu_context].
  destruct (arr_get_in_range [c0; c1] ss) as [c Hc]; [cbn; unfold SECURE, NON_SECURE in *; lia|]. rewrite Hc in *. cbn [deref ret default from_option].
  unfold ret. destruct c as [v|].
  - rewrite bool_decide_eq_true_2 by eauto. cbn [when]. by rewrite (write_scr_run _ _ _ _ v) by (try apply Hv; done).
  - rewrite bool_decide_eq_false_2 by (by intros [? ?]). cbn. unfold ret. f_equal. f_equal. symmetry. apply list_insert_id.
    unfold arr_get in Hc. destruct (Z.leb_spec 0 ss); [exact Hc|done].
Qed.

Lemma validate_type type : 0 <= type -> truthy (validate_interrupt_type type) = negb (type <? 3).
Proof.
  intros Ht. destruct (Z.ltb_spec type 3).
  - by assert (type = 0 \/ type = 1 \/ type = 2) as [->|[->| ->]] by lia.
  - unfold validate_interrupt_type, INTR_TYPE_S_EL1, INTR_TYPE_NS, INTR_TYPE_EL3.
    destruct (Z.eqb_spec type 0), (Z.eqb_spec type 2), (Z.eqb_spec type 1); done || lia.
Qed.

Lemma validate_model type flags : 0 <= type < 3 -> 0 <= flags < 4 ->
  validate_routing_model ehf type flags = if model_ok ehf type flags then 0 else - EINVAL.
Proof.
  intros Ht Hf. assert (type = 0 \/ type = 1 \/ type = 2) as [->|[->| ->]] by lia;
    assert (flags = 0 \/ flags = 1 \/ flags = 2 \/ flags = 3) as [->|[->|[->| ->]]] by lia; by destruct ehf.
Qed.

Lemma put_desc_run type d ds cs : 0 <= type < Z.of_nat (length ds) ->
  put_intr_desc type d (ImState ds cs) = Ret tt (ImState (<[Z.to_nat type := d]> ds) cs).
Proof.
  intros Ht. unfold put_intr_desc, bind, gets, modify, deref, ret. cbn [intr_type_descs]. by rewrite arr_set_in_range.
Qed.
Lemma intr_desc_run type d ds cs : arr_get ds type = Some d -> get_intr_desc type (ImState ds cs) = Ret d (ImState ds cs).
Proof. intros Hd. unfold get_intr_desc, bind, gets. cbn [intr_type_descs]. by rewrite Hd. Qed.

Lemma set_routing_run type flags ds d a b c0 c1 :
  0 <= type < 3 -> 0 <= flags < 4 -> model_ok ehf type flags = true -> length ds = 3%nat -> arr_get ds type = Some d -> scr_el3 d = [a; b] ->
  (forall v, c0 = Some v -> 0 <= v < 2 ^ 32) -> (forall v, c1 = Some v -> 0 <= v < 2 ^ 32) ->
  set_routing_model assertions ehf type flags (ImState ds [c0; c1]) =
    Ret 0 (registered type (handler d) flags (ImState ds [c0; c1])).
Proof.
  intros Ht Hf Hm Hl Hd Hscr H0 H1. unfold set_routing_model. rewrite validate_type, validate_model, Hm by lia.
  rewrite (proj2 (Z.ltb_lt type 3)) by lia. cbn [negb truthy Z.eqb]. rewrite (bind_run _ _ _ _ _ (intr_desc_run _ _ _ _ Hd)).
  rewrite (bind_run _ _ _ _ _ (put_desc_run type _ ds _ ltac:(lia))).
  rewrite Hscr. set (d1 := IntrTypeDesc (handler d) flags [a; b]). set (d2 := IntrTypeDesc (handler d) flags [scr_bits type flags SECURE; b]).
  assert (Hin : 0 <= type < Z.of_nat (length ds)) by lia.
  pose proof (set_scr_run type flags SECURE (<[Z.to_nat type := d1]> ds) d1 [scr_bits type flags SECURE; b] c0 c1 Ht Hf (or_introl eq_refl)
    ltac:(by rewrite length_insert) (arr_get_insert_eq _ _ _ Hin) eq_refl ltac:(intros v [= Hv]; by apply H0)) as R1.
  rewrite (bind_run _ _ _ _ _ R1), list_insert_insert_eq. clear R1.
  set (c0' := write_bit c0 (line type SECURE) (routed flags SECURE)).
  pose proof (set_scr_run type flags NON_SECURE (<[Z.to_nat type := d2]> ds) d2 [scr_bits type flags SECURE; scr_bits type flags NON_SECURE]
    c0' c1 Ht Hf (or_intror eq_refl) ltac:(by rewrite length_insert) (arr_get_insert_eq _ _ _ Hin) eq_refl ltac:(intros v [= Hv]; by apply H1)) as R2.
  erewrite bind_run by exact R2.
  rewrite list_insert_insert_eq. reflexivity.
Qed.

(** Registering a handler, on every path. *)
Lemma register_run type h flags s :
  wf_im s -> 0 <= type < 2 ^ 32 -> 0 <= flags < 2 ^ 32 ->
  register_interrupt_type_handler assertions ehf type h flags s =
    if (h =? 0) || negb (flags <? 4) then Ret (- EINVAL) s
    else match arr_get (intr_type_descs s) type with
         | None => Halt HUndef s
         | Some d =>
             if truthy (handler d) then Ret (- EALREADY) s
             else if model_ok ehf type flags then Ret 0 (registered type h flags s)
             else Ret (- EINVAL) s
         end.
Proof.
  intros [Hds Hscr Hcs Hr] Ht Hf. destruct s as [ds [|c0 [|c1 [|]]]]; try done. cbn [intr_type_descs cpu_context] in *.
  unfold register_interrupt_type_handler. destruct (h =? 0); [done|]. cbn [orb].
  destruct (Z.ltb_spec flags 4) as [Hlt|Hge]; cbn [negb].
  2:{ unfold truthy. destruct (Z.eqb_spec (Z.land flags INTR_TYPE_FLAGS_MASK) 0) as [E|]; [|done]. apply small_flags in E; lia. }
  rewrite (proj2 (small_flags flags Hf)) by lia. cbn [truthy Z.eqb negb].
  destruct (arr_get ds type) as [d|] eqn:Hd; [|unfold get_intr_desc, bind, gets; cbn [intr_type_descs]; by rewrite Hd].
  rewrite (bind_run _ _ _ _ _ (intr_desc_run _ _ _ _ Hd)). destruct (truthy (handler d)); [done|].
  pose proof (arr_get_Some_range _ _ _ Hd) as Hrange. rewrite Hds in Hrange. change (Z.of_nat 3) with 3 in Hrange.
  assert (Hd2 : length (scr_el3 d) = 2%nat).
  { unfold arr_get in Hd. rewrite (proj2 (Z.leb_le 0 type)) in Hd by lia. exact (Forall_lookup_1 _ _ _ _ Hscr Hd). }
  destruct (scr_el3 d) as [|a [|b [|]]] eqn:Hsd; try done. inversion Hr as [|? ? H0 Hr']; subst. inversion Hr' as [|? ? H1 _]; subst.
  destruct (model_ok ehf type flags) eqn:Hm.
  - rewrite (bind_run _ _ _ _ _ (set_routing_run type flags ds d a b c0 c1 Hrange ltac:(lia) Hm Hds Hd Hsd H0 H1)). cbn [truthy Z.eqb negb].
    unfold registered. erewrite bind_run by (apply intr_desc_run, arr_get_insert_eq; cbn [intr_type_descs]; lia).
    erewrite bind_run by (apply put_desc_run; rewrite length_insert; cbn [intr_type_descs]; lia).
    cbn [rm_flags scr_el3 intr_type_descs]. by rewrite list_insert_insert_eq.
  - unfold set_routing_model. rewrite validate_type, validate_model, Hm by lia. rewrite (proj2 (Z.ltb_lt type 3)) by lia. done.
Qed.

(** Registering a handler, on every path.  For every type, handler and
    flags: a null handler, flags outside the two routing bits and a model that
    the type does not allow are refused with -EINVAL, a type that has a
    handler with -EALREADY, all without a change; otherwise exactly the entry
    of the type is filled, with the SCR_EL3 bits of its model, and the saved
    SCR_EL3 of each security state that has a context gets the bit of the
    type's line and keeps its other bits.  A type beyond the table is
    not refused: the table is read out of its range first. *)
Theorem register_outcomes type h flags s :
  wf_im s -> 0 <= type < 2 ^ 32 -> 0 <= flags < 2 ^ 32 ->
  register_interrupt_type_handler assertions ehf type h flags s =
    if (h =? 0) || negb (flags <? 4) then Ret (- EINVAL) s
    else match arr_get (intr_type_descs s) type with
         | None => Halt HUndef s
         | Some d =>
             if truthy (handler d) then Ret (- EALREADY) s
             else if model_ok ehf type flags then Ret 0 (registered type h flags s)
             else Ret (- EINVAL) s
         end.
Proof. apply register_run. Qed.

(** ** The table against the saved contexts *)

(** The routing bits of the saved SCR_EL3 are the ones that the table asks
    for, which [get_scr_el3_from_routing_model] computes. *)
Definition in_sync (s : im_state) (ss : Z) : Prop :=
  forall v w, ctx s ss = Some v -> get_scr_el3_from_routing_model assertions ss s = Ret w s -> Z.land v 6 = w.

Lemma get_scr_run ss ds d0 d1 d2 cs a b c :
  ss = SECURE \/ ss = NON_SECURE -> ds = [d0; d1; d2] ->
  arr_get (scr_el3 d0) ss = Some a -> arr_get (scr_el3 d1) ss = Some b -> arr_get (scr_el3 d2) ss = Some c ->
  get_scr_el3_from_routing_model assertions ss (ImState ds cs) = Ret (Z.lor (Z.lor c a) b) (ImState ds cs).
Proof.
  intros Hs -> Ha Hb Hc. unfold get_scr_el3_from_routing_model, im_assert.
  assert (Hv : sec_state_is_valid ss = true) by (by destruct Hs as [-> | ->]). rewrite Hv, andb_false_r.
  assert (Hdr : forall (o : option Z) x (s : im_state), o = Some x -> deref o s = Ret x s) by (by intros ? ? ? ->).
  erewrite bind_run by reflexivity.
  rewrite (bind_run _ _ _ _ _ (intr_desc_run INTR_TYPE_NS d2 [d0; d1; d2] cs eq_refl)), (bind_run _ _ _ _ _ (Hdr _ _ _ Hc)).
  rewrite (bind_run _ _ _ _ _ (intr_desc_run INTR_TYPE_S_EL1 d0 [d0; d1; d2] cs eq_refl)), (bind_run _ _ _ _ _ (Hdr _ _ _ Ha)).
  rewrite (bind_run _ _ _ _ _ (intr_desc_run INTR_TYPE_EL3 d1 [d0; d1; d2] cs eq_refl)), (bind_run _ _ _ _ _ (Hdr _ _ _ Hb)). done.
Qed.

(** Overwriting bit [l] agrees with adding it unless it clears a set bit. *)
Lemma overwrite_bit P l r : 0 <= l ->
  Z.lor (Z.ldiff P (2 ^ l)) (if r : bool then 2 ^ l else 0) = Z.lor P (if r then 2 ^ l else 0) <-> r = true \/ Z.testbit P l = false.
Proof.
  intros Hl. split.
  - intros E. destruct r; [by left|right]. apply (f_equal (fun x => Z.testbit x l)) in E.
    rewrite !Z.lor_0_r, Z.ldiff_spec, Z.pow2_bits_true in E by done. by rewrite andb_false_r in E.
  - intros H. apply Z.bits_inj'. intros n Hn. rewrite !Z.lor_spec, Z.ldiff_spec. destruct (Z.eq_dec l n) as [-> |Hne].
    + destruct H as [-> | ->]; [rewrite Z.pow2_bits_true by done|]; by rewrite ?orb_true_r, ?andb_false_l.
    + rewrite Z.pow2_bits_false by done. by rewrite andb_true_r.
Qed.

Lemma mask_overwrite v l r : l = 1 \/ l = 2 ->
  Z.land (Z.lor (Z.ldiff v (2 ^ l)) (if r : bool then 2 ^ l else 0)) 6 = Z.lor (Z.ldiff (Z.land v 6) (2 ^ l)) (if r then 2 ^ l else 0).
Proof.
  intros Hl. rewrite Z.land_lor_distr_l. f_equal; [|by destruct Hl as [-> | ->]; destruct r].
  rewrite !Z.ldiff_land, <- !Z.land_assoc. f_equal. apply Z.land_comm.
Qed.

Lemma arr_get_zeros ss : ss = SECURE \/ ss = NON_SECURE -> arr_get [0; 0] ss = Some 0.
Proof. by intros [-> | ->]. Qed.
Lemma arr_get_pair {A} (a b : A) f ss : ss = SECURE \/ ss = NON_SECURE -> (a = f SECURE) -> (b = f NON_SECURE) -> arr_get [a; b] ss = Some (f ss).
Proof. by intros [-> | ->] -> ->. Qed.

Lemma get_scr_total ss s : wf_im s -> ss = SECURE \/ ss = NON_SECURE ->
  exists w, get_scr_el3_from_routing_model assertions ss s = Ret w s.
Proof.
  intros [Hds Hscr _ _] Hs. destruct s as [ds cs]. cbn [intr_type_descs] in *. destruct ds as [|d0 [|d1 [|d2 [|]]]]; try done.
  assert (Hget : forall d, In d [d0; d1; d2] -> exists x, arr_get (scr_el3 d) ss = Some x).
  { intros d Hd. apply arr_get_in_range. rewrite (proj1 (List.Forall_forall _ _) Hscr d Hd). unfold SECURE, NON_SECURE in Hs. lia. }
  destruct (Hget d0), (Hget d1), (Hget d2); cbn; eauto. eexists. by eapply get_scr_run.
Qed.

(** The table after a registration, where the entry was empty. *)
Lemma registered_scr type h flags s ss w :
  wf_im s -> 0 <= type < 3 -> ss = SECURE \/ ss = NON_SECURE ->
  arr_get (intr_type_descs s) type = Some (IntrTypeDesc 0 0 [0; 0]) ->
  get_scr_el3_from_routing_model assertions ss s = Ret w s ->
  get_scr_el3_from_routing_model assertions ss (registered type h flags s) = Ret (Z.lor w (scr_bits type flags ss)) (registered type h flags s).
Proof.
  intros [Hds Hscr _ _] Ht Hs Hd. destruct s as [ds cs]. cbn [intr_type_descs cpu_context] in *.
  destruct ds as [|d0 [|d1 [|d2 [|]]]]; try done. inversion Hscr as [|? ? L0 Hscr1]; subst. inversion Hscr1 as [|? ? L1 Hscr2]; subst.
  inversion Hscr2 as [|? ? L2 _]; subst.
  assert (Hget : forall l : list Z, length l = 2%nat -> exists x, arr_get l ss = Some x).
  { intros l Hl. apply arr_get_in_range. rewrite Hl. unfold SECURE, NON_SECURE in Hs. lia. }
  destruct (Hget _ L0) as [a Ha], (Hget _ L1) as [b Hb], (Hget _ L2) as [c Hc].
  pose proof (arr_get_pair (scr_bits type flags SECURE) (scr_bits type flags NON_SECURE) (scr_bits type flags) ss Hs eq_refl eq_refl) as Hn.
  rewrite (get_scr_run ss _ d0 d1 d2 cs a b c Hs eq_refl Ha Hb Hc). intros [= <-]. unfold registered.
  assert (type = 0 \/ type = 1 \/ type = 2) as [->|[->| ->]] by lia; cbn in Hd; injection Hd as ->; cbn [scr_el3] in Ha, Hb, Hc.
  all: pose proof (arr_get_zeros ss Hs) as Hz; simplify_eq; cbn [intr_type_descs Z.to_nat insert list_insert Pos.to_nat Pos.iter_op].
  all: change (Z.to_nat 0) with 0%nat; try change (Z.to_nat 1) with 1%nat; try change (Z.to_nat 2) with 2%nat; cbn [insert list_insert].
  all: erewrite get_scr_run by (reflexivity || eassumption || done); f_equal; rewrite ?Z.lor_0_r, ?Z.lor_0_l; try done.
  - by rewrite <- !Z.lor_assoc, (Z.lor_comm (scr_bits _ _ _)).
  - by rewrite <- Z.lor_assoc, Z.lor_comm.
Qed.

(** Registering a handler of a type that has none, from a state in which
    the saved SCR_EL3 of a security state holds the routing that the table
    asks for: the saved value and the table still agree afterwards exactly
    when the new model asks for its line, or the line was not routed to EL3
    before.  A handler whose model leaves the line alone thus withdraws the
    routing of an earlier handler that shares the line from the running
    context, while the table, from which the context is set up again, keeps
    it. *)
Theorem register_in_sync_iff type h flags s ss v :
  wf_im s -> 0 <= type < 3 -> 0 <= flags < 4 -> h <> 0 -> model_ok ehf type flags = true -> ss = SECURE \/ ss = NON_SECURE ->
  arr_get (intr_type_descs s) type = Some (IntrTypeDesc 0 0 [0; 0]) -> ctx s ss = Some v -> in_sync s ss ->
  exists s', register_interrupt_type_handler assertions ehf type h flags s = Ret 0 s' /\
    (in_sync s' ss <-> routed flags ss = true \/ Z.testbit v (line type ss) = false).
Proof.
  intros Hwf Ht Hf Hh Hm Hs Hd Hv Hsync. pose proof (line_bits type ss) as Hl. exists (registered type h flags s). split.
  - rewrite register_run by (done || lia). rewrite Hd, Hm, (proj2 (Z.ltb_lt flags 4)), (proj2 (Z.eqb_neq h 0)) by (done || lia). done.
  - destruct (get_scr_total ss s Hwf Hs) as [w Hw]. specialize (Hsync v w Hv Hw). pose proof (registered_scr type h flags s ss w Hwf Ht Hs Hd Hw) as Hw'.
    assert (Hc : ctx (registered type h flags s) ss = write_bit (ctx s ss) (line type ss) (routed flags ss)) by (by destruct Hs as [-> | ->]).
    assert (Hbit : Z.testbit v (line type ss) = Z.testbit w (line type ss)).
    { rewrite <- Hsync, Z.land_spec. destruct Hl as [-> | ->]; by rewrite andb_true_r. }
    rewrite Hbit, <- (overwrite_bit w (line type ss) (routed flags ss)) by lia. unfold in_sync. rewrite Hc, Hv, Hw'. split.
    + intros H. specialize (H _ _ eq_refl eq_refl). by rewrite mask_overwrite, Hsync in H.
    + intros E ? ? [= <-] [= <-]. by rewrite mask_overwrite, Hsync.
Qed.
End register.

(** ** Instances *)
Module IntrWitnesses.
(** The tables at boot, with a context for the secure world only. *)
Definition im0 : im_state := ImState (replicate 3 (IntrTypeDesc 0 0 [0; 0])) [Some 0x431; None].
Lemma im0_wf : wf_im im0.
Proof. split; [reflexivity|repeat constructor|reflexivity|]. constructor; [|constructor; [|constructor]]; intros v Hv; try discriminate; injection Hv as <-; lia. Qed.

Lemma register_outcomes_witness :
  register_interrupt_type_handler true false INTR_TYPE_EL3 0x4000 3 im0 =
    Ret 0 (ImState [IntrTypeDesc 0 0 [0; 0]; IntrTypeDesc 0x4000 3 [4; 4]; IntrTypeDesc 0 0 [0; 0]] [Some 0x435; None]).
Proof. rewrite (register_outcomes true false INTR_TYPE_EL3 0x4000 3 im0 im0_wf ltac:(done) ltac:(done)). vm_compute. reflexivity. Defined.

(** An EL3 handler that takes its interrupts out of the secure world, then a
    non-secure handler with the only models it may have. *)
Definition im1 : im_state := ImState [IntrTypeDesc 0 0 [0; 0]; IntrTypeDesc 0x4000 3 [4; 4]; IntrTypeDesc 0 0 [0; 0]] [Some 0x435; None].
Lemma im1_wf : wf_im im1.
Proof. split; [reflexivity|repeat constructor|reflexivity|]. constructor; [|constructor; [|constructor]]; intros v Hv; try discriminate; injection Hv as <-; lia. Qed.

Lemma register_in_sync_iff_witness :
  exists s', register_interrupt_type_handler true false INTR_TYPE_NS 0x5000 0 im1 = Ret 0 s' /\ ~ in_sync true s' SECURE.
Proof.
  destruct (register_in_sync_iff true false INTR_TYPE_NS 0x5000 0 im1 SECURE 0x435 im1_wf ltac:(done) ltac:(done) ltac:(done)
    eq_refl (or_introl eq_refl) eq_refl eq_refl) as [s' [E H]].
  - intros v w Hv Hw. vm_compute in Hv, Hw. injection Hv as <-. injection Hw as <-. reflexivity.
  - exists s'. split; [exact E|]. intros Hin. apply H in Hin as [Hin|Hin]; vm_compute in Hin; discriminate.
Defined.
End IntrWitnesses.
