(* ===== verification/Ehf.v ===== *)
(** * BL31: exception handling framework (bl31/ehf.c, include/bl31/ehf.h)

    Priority levels at EL3: the bitmap of active priorities of the calling CPU,
    the priority mask of the interrupt controller, and the handlers registered
    for the levels.

    [ehf_state] holds the per-CPU data, the handlers of [exception_data], the
    priority mask and running priority registers of the GIC, the saved x0 of
    the normal world and the tables of interrupt management.  Acknowledging an
    interrupt and calling a handler are arguments. *)
From stdpp Require Import base list numbers option.
From Stdlib Require Import ZArith Lia.
From S2P Require Import Prelude IntrMgmt.
#[local] Open Scope Z_scope.

Definition EHF_INVALID_IDX : Z := -1.
Definition EHF_PRI_VALID : Z := 1.
Definition EHF_NO_HANDLER : Z := Z.lor 0 EHF_PRI_VALID.
Definition GIC_HIGHEST_NS_PRIORITY : Z := 0x80.
Definition INTR_ID_UNAVAILABLE : Z := 0xFFFFFFFF.

Definition EHF_PRI_TO_IDX (pri plat_bits : Z) : Z := Z.shiftr (Z.land pri 0x7f) (7 - plat_bits).
Definition RAW_HANDLER (h : Z) : Z := if truthy (Z.land h EHF_PRI_VALID) then Z.ldiff h EHF_PRI_VALID else 0.
Definition PRI_BIT (idx : Z) : Z := u32 (Z.shiftl 1 idx).
Definition IS_PRI_SECURE (pri : Z) : bool := Z.land pri 0x80 =? 0.
Definition set_interrupt_rm_flag (flag ss : Z) : Z := Z.lor flag (Z.shiftl 1 ss).

(** [__builtin_ctz]: the number of zero bits below the lowest set one; [n] bits
    are looked at. *)
Fixpoint ctz (n : nat) (x : Z) : Z :=
  match n with
  | O => 0
  | S n' => if Z.odd x then 0 else 1 + ctz n' (Z.div2 x)
  end.

Record pe_exc_data_t : Type := PeExcData { active_pri_bits : Z; init_pri_mask : Z; ns_pri_mask : Z }.
Record ehf_state : Type := EhfState {
  pe_data : pe_exc_data_t; ehf_priorities : list Z; icc_pmr : Z; icc_rpr : Z; ns_x0 : option Z; ehf_im : im_state
}.
Definition set_pe (d : pe_exc_data_t) (s : ehf_state) : ehf_state :=
  EhfState d (ehf_priorities s) (icc_pmr s) (icc_rpr s) (ns_x0 s) (ehf_im s).
Definition set_priorities (l : list Z) (s : ehf_state) : ehf_state :=
  EhfState (pe_data s) l (icc_pmr s) (icc_rpr s) (ns_x0 s) (ehf_im s).
Definition set_pmr (m : Z) (s : ehf_state) : ehf_state :=
  EhfState (pe_data s) (ehf_priorities s) m (icc_rpr s) (ns_x0 s) (ehf_im s).
Definition set_ns_x0 (x : option Z) (s : ehf_state) : ehf_state :=
  EhfState (pe_data s) (ehf_priorities s) (icc_pmr s) (icc_rpr s) x (ehf_im s).
Definition set_ehf_im (i : im_state) (s : ehf_state) : ehf_state :=
  EhfState (pe_data s) (ehf_priorities s) (icc_pmr s) (icc_rpr s) (ns_x0 s) i.

Section ehf.
Context (assertions : bool).
(** [exception_data.num_priorities] and [exception_data.pri_bits]. *)
Context (num_priorities pri_bits : Z).
#[local] Abbreviation EM := (M ehf_state).
Definition ehf_assert (b : bool) : EM unit := if assertions && negb b then halt_with HAssert else ret tt.

(** The interrupt controller: plat_gicv3.c and gicv3_main.c. *)
Definition plat_ic_get_running_priority : EM Z := gets icc_rpr.
Definition gicv3_set_pmr (mask : Z) : EM Z :=
  let! old_mask := gets icc_pmr in
  modify (set_pmr (u8 mask)) ;;;
  ret old_mask.
Definition plat_ic_set_priority_mask (mask : Z) : EM Z := gicv3_set_pmr mask.

Definition IDX_TO_PRI (idx : Z) : Z := Z.land (Z.shiftl idx (7 - pri_bits)) 0x7f.

Definition pri_to_idx (priority : Z) : EM Z :=
  let idx := EHF_PRI_TO_IDX priority pri_bits in
  if assertions then
    ehf_assert ((0 <=? idx) && (idx <? num_priorities)) ;;;
    let! l := gets ehf_priorities in
    let! h := deref (arr_get l idx) in
    ehf_assert (truthy (Z.land h EHF_PRI_VALID)) ;;;
    ret idx
  else ret idx.

Definition has_valid_pri_activations (d : pe_exc_data_t) : bool := negb (active_pri_bits d =? 0).

Definition get_pe_highest_active_idx (d : pe_exc_data_t) : Z :=
  if negb (has_valid_pri_activations d) then EHF_INVALID_IDX else ctz 32 (active_pri_bits d).

Definition ehf_activate_priority (priority : Z) : EM unit :=
  let! run_pri := plat_ic_get_running_priority in
  if run_pri <=? priority then halt_with HPanic
  else
    let! d := gets pe_data in
    let cur_pri_idx := get_pe_highest_active_idx d in
    let! idx := pri_to_idx priority in
    if negb (cur_pri_idx =? EHF_INVALID_IDX) && (cur_pri_idx <=? idx) then halt_with HPanic
    else
      modify (set_pe (PeExcData (Z.lor (active_pri_bits d) (PRI_BIT idx)) (init_pri_mask d) (ns_pri_mask d))) ;;;
      let! old_mask := plat_ic_set_priority_mask priority in
      if old_mask <=? priority then halt_with HPanic
      else
        when (cur_pri_idx =? EHF_INVALID_IDX)
          (modify (fun s => set_pe (PeExcData (active_pri_bits (pe_data s)) (u8 old_mask) (ns_pri_mask (pe_data s))) s)).

Definition ehf_deactivate_priority (priority : Z) : EM unit :=
  let! run_pri := plat_ic_get_running_priority in
  if run_pri <=? priority then halt_with HPanic
  else
    let! d := gets pe_data in
    let cur_pri_idx := get_pe_highest_active_idx d in
    let! idx := pri_to_idx priority in
    if (cur_pri_idx =? EHF_INVALID_IDX) || negb (idx =? cur_pri_idx) then halt_with HPanic
    else
      let d' := PeExcData (Z.land (active_pri_bits d) (u32 (active_pri_bits d - 1))) (init_pri_mask d) (ns_pri_mask d) in
      modify (set_pe d') ;;;
      let idx := get_pe_highest_active_idx d' in
      let! old_mask := (if idx =? EHF_INVALID_IDX then plat_ic_set_priority_mask (init_pri_mask d')
                        else plat_ic_set_priority_mask priority) in
      if priority <? old_mask then halt_with HPanic else ret tt.

Definition ehf_exited_normal_world : EM unit :=
  let! run_pri := plat_ic_get_running_priority in
  if IS_PRI_SECURE run_pri then ret tt
  else
    let! d := gets pe_data in
    if has_valid_pri_activations d then ret tt
    else
      ehf_assert (ns_pri_mask d =? 0) ;;;
      let! old := plat_ic_set_priority_mask GIC_HIGHEST_NS_PRIORITY in
      modify (set_pe (PeExcData (active_pri_bits d) (init_pri_mask d) (u8 old))) ;;;
      if IS_PRI_SECURE (u8 old) then halt_with HPanic else ret tt.

Definition ehf_entering_normal_world : EM unit :=
  let! run_pri := plat_ic_get_running_priority in
  if IS_PRI_SECURE run_pri then ret tt
  else
    let! d := gets pe_data in
    if has_valid_pri_activations d then ret tt
    else if ns_pri_mask d =? 0 then ret tt
    else
      let! old_pmr := plat_ic_set_priority_mask (ns_pri_mask d) in
      if negb (old_pmr =? GIC_HIGHEST_NS_PRIORITY) && negb (old_pmr =? ns_pri_mask d) then halt_with HPanic
      else modify (set_pe (PeExcData (active_pri_bits d) (init_pri_mask d) 0)).

Definition ehf_allow_ns_preemption (preempt_ret_code : Z) : EM unit :=
  let! d := gets pe_data in
  ehf_assert (negb (ns_pri_mask d =? 0)) ;;;
  if has_valid_pri_activations d then halt_with HPanic
  else
    let! ns_ctx := gets ns_x0 in
    ehf_assert (bool_decide (is_Some ns_ctx)) ;;;
    let! _ := deref ns_ctx in
    modify (set_ns_x0 (Some preempt_ret_code)) ;;;
    let! _ := plat_ic_set_priority_mask (ns_pri_mask d) in
    modify (set_pe (PeExcData (active_pri_bits d) (init_pri_mask d) 0)).

Definition ehf_is_ns_preemption_allowed : EM Z :=
  let! run_pri := plat_ic_get_running_priority in
  if IS_PRI_SECURE run_pri then ret 0
  else
    let! d := gets pe_data in
    if has_valid_pri_activations d then ret 0
    else if negb (ns_pri_mask d =? 0) then ret 0
    else ret 1.

(** The interrupt identifier of an acknowledged raw value, the acknowledge
    itself, and the call through a handler pointer. *)
Context (plat_ic_get_interrupt_id : Z -> Z) (plat_ic_acknowledge_interrupt : EM Z) (call_handler : Z -> Z -> Z -> EM Z).

Definition ehf_el3_interrupt_handler (id flags : Z) : EM Z :=
  ehf_assert (id =? INTR_ID_UNAVAILABLE) ;;;
  let! intr_raw := plat_ic_acknowledge_interrupt in
  let intr := plat_ic_get_interrupt_id intr_raw in
  if intr =? INTR_ID_UNAVAILABLE then ret 0
  else
    let! pri := plat_ic_get_running_priority in
    ehf_assert (IS_PRI_SECURE pri) ;;;
    let! idx := pri_to_idx pri in
    ehf_assert (pri =? IDX_TO_PRI idx) ;;;
    let! l := gets ehf_priorities in
    let! h := deref (arr_get l idx) in
    let handler := RAW_HANDLER h in
    if handler =? 0 then halt_with HPanic
    else call_handler handler intr_raw flags.

(** [ehf_el3_interrupt_handler] as the pointer that is registered;
    [plat_ic_has_interrupt_type] returns 1 for every type. *)
Context (EL3_EXCEPTION_HANDLING : bool) (handler_ptr : Z).

Definition ehf_init : EM unit :=
  ehf_assert (num_priorities <=? 32) ;;;
  ehf_assert ((1 <=? pri_bits) || (pri_bits <? 8)) ;;;
  let flags := 0 in
  let flags := set_interrupt_rm_flag flags NON_SECURE in
  let flags := set_interrupt_rm_flag flags SECURE in
  let! r := zoom ehf_im set_ehf_im (register_interrupt_type_handler assertions EL3_EXCEPTION_HANDLING INTR_TYPE_EL3 handler_ptr flags) in
  ehf_assert (r =? 0).

Definition ehf_register_priority_handler (pri handler : Z) : EM unit :=
  ehf_assert (negb (handler =? 0)) ;;;
  ehf_assert (Z.land handler 3 =? 0) ;;;
  let! idx := pri_to_idx pri in
  ehf_assert (idx <? num_priorities) ;;;
  ehf_assert (IDX_TO_PRI idx =? pri) ;;;
  let! l := gets ehf_priorities in
  let! h := deref (arr_get l idx) in
  if negb (h =? EHF_NO_HANDLER) then halt_with HPanic
  else
    let! l' := deref (arr_set l idx (Z.lor handler EHF_PRI_VALID)) in
    modify (set_priorities l').
End ehf.
