(* ===== verification/EhfProps.v ===== *)
(** * BL31: the priority stack of the exception handling framework

    The bitmap of active priorities and the priority mask behave like a stack
    of levels; runs that end with no active level restore the mask, across a
    visit of the secure world too; a registered handler is the one that is
    called. *)
From stdpp Require Import base list numbers option sorting.
From Stdlib Require Import ZArith Lia.
From S2P Require Import Prelude IntrMgmt IntrProps Ehf.
#[local] Open Scope Z_scope.

(** ** Bitmaps *)

(** The bitmap of a list of levels. *)
Definition bits (st : list Z) : Z := foldr (fun i a => Z.lor (2 ^ i) a) 0 st.

(** A stack of levels, the most urgent one (the lowest number) on top. *)
Record stack_ok (st : list Z) : Prop := {
  so_sorted : StronglySorted Z.lt st;
  so_range : Forall (fun i => 0 <= i < 32) st
}.

Lemma testbit_bits st n : Forall (fun i => 0 <= i < 32) st -> 0 <= n -> Z.testbit (bits st) n = bool_decide (n ∈ st).
Proof.
  intros Hr Hn. induction Hr as [|i st Hi Hr IH]; [by rewrite Z.bits_0|]. cbn [bits foldr]. rewrite Z.lor_spec.
  change (foldr _ 0 st) with (bits st). rewrite IH, Z.pow2_bits_eqb by lia.
  destruct (Z.eqb_spec i n) as [->|Hne]; cbn [orb]; symmetry.
  - apply bool_decide_eq_true. by left.
  - apply bool_decide_ext. rewrite elem_of_cons. intuition congruence.
Qed.

Lemma bits_range st : Forall (fun i => 0 <= i < 32) st -> 0 <= bits st < 2 ^ 32.
Proof.
  induction 1 as [|i st Hi Hr IH]; cbn [bits foldr]; [lia|]. change (foldr _ 0 st) with (bits st). apply lor_range; [lia| |done].
  split; [apply Z.pow_nonneg; lia|apply Z.pow_lt_mono_r; lia].
Qed.

Lemma ctz_spec n x i : 0 <= i < Z.of_nat n -> Z.testbit x i = true -> (forall j, 0 <= j < i -> Z.testbit x j = false) -> ctz n x = i.
Proof.
  revert x i. induction n as [|n IH]; intros x i Hi Hb Hlow; [lia|]. cbn [ctz]. destruct (Z.eqb_spec i 0) as [->|Hne].
  - by rewrite Z.bit0_odd in Hb; rewrite Hb.
  - rewrite <- Z.bit0_odd, (Hlow 0) by lia. rewrite (IH (Z.div2 x) (i - 1)); [lia|lia|..].
    + rewrite Z.div2_spec, Z.shiftr_spec by lia. by replace (i - 1 + 1) with i by lia.
    + intros j Hj. rewrite Z.div2_spec, Z.shiftr_spec by lia. apply Hlow. lia.
Qed.

(** [x & (x - 1)] clears the lowest set bit. *)
Lemma clear_lowest x i : 0 <= i -> Z.testbit x i = true -> (forall j, 0 <= j < i -> Z.testbit x j = false) ->
  Z.land x (x - 1) = Z.ldiff x (2 ^ i).
Proof.
  intros Hi Hb Hlow. pose (k := x / 2 ^ (i + 1)). assert (Hpos : 0 < 2 ^ i) by (apply Z.pow_pos_nonneg; lia).
  assert (Hmod : x mod 2 ^ (i + 1) = 2 ^ i).
  { apply Z.bits_inj'. intros n Hn. rewrite Z.pow2_bits_eqb by lia. destruct (Z.ltb_spec n (i + 1)) as [Hlt|Hge].
    - rewrite Z.mod_pow2_bits_low by lia. destruct (Z.eqb_spec i n) as [<-|]; [done|]. apply Hlow. lia.
    - rewrite Z.mod_pow2_bits_high by lia. symmetry. apply Z.eqb_neq. lia. }
  assert (H2 : 2 ^ (i + 1) = 2 * 2 ^ i) by (rewrite Z.pow_add_r by lia; lia).
  assert (Hx : x = k * 2 ^ (i + 1) + 2 ^ i) by (rewrite <- Hmod; unfold k; pose proof (Z.div_mod x (2 ^ (i + 1))); lia).
  assert (Hx1 : Z.lor (Z.shiftl k (i + 1)) (2 ^ i) = x) by (rewrite (lor_shiftl_add k (i + 1) (2 ^ i)) by lia; lia).
  assert (Hy1 : Z.lor (Z.shiftl k (i + 1)) (Z.ones i) = x - 1).
  { rewrite (lor_shiftl_add k (i + 1) (Z.ones i)); rewrite ?Z.ones_equiv; lia. }
  rewrite <- Hy1. rewrite <- Hx1 at 1. rewrite <- Hx1. apply Z.bits_inj'. intros n Hn.
  rewrite Z.land_spec, Z.ldiff_spec, !Z.lor_spec, Z.pow2_bits_eqb, Z.testbit_ones_nonneg by lia.
  destruct (Z.eqb_spec i n) as [->|Hne].
  - rewrite Z.shiftl_spec_low, Z.ltb_irrefl by lia. done.
  - destruct (Z.ltb_spec n i); [|by destruct (Z.testbit (Z.shiftl k (i + 1)) n)].
    by rewrite Z.shiftl_spec_low by lia.
Qed.

Lemma top_of_bits i st : stack_ok (i :: st) ->
  Z.testbit (bits (i :: st)) i = true /\ (forall j, 0 <= j < i -> Z.testbit (bits (i :: st)) j = false) /\ 0 <= i < 32.
Proof.
  intros [Hs Hr]. apply Forall_cons_1 in Hr as Hi. destruct Hi as [Hi _]. split_and!; [..|lia|lia].
  - rewrite testbit_bits by (done || lia). apply bool_decide_eq_true. by left.
  - intros j Hj. rewrite testbit_bits by (done || lia). apply bool_decide_eq_false. rewrite elem_of_cons. intros [->|Hin]; [lia|].
    apply StronglySorted_inv in Hs as [_ Hall]. eapply Forall_forall in Hall; [|exact Hin]. lia.
Qed.

Lemma stack_tail i st : stack_ok (i :: st) -> stack_ok st.
Proof. intros [Hs Hr]. split; [by apply StronglySorted_inv in Hs as [? _]|by apply Forall_cons_1 in Hr as [_ ?]]. Qed.

Lemma bits_top i st : stack_ok (i :: st) -> ctz 32 (bits (i :: st)) = i.
Proof. intros (Ht & Hl & Hi)%top_of_bits. by apply ctz_spec; [lia|..]. Qed.

Lemma bits_nonzero i st : stack_ok (i :: st) -> (bits (i :: st) =? 0) = false.
Proof. intros (Ht & _ & _)%top_of_bits. apply Z.eqb_neq. intros E. by rewrite E, Z.bits_0 in Ht. Qed.

Lemma bits_pop i st : stack_ok (i :: st) -> Z.land (bits (i :: st)) (u32 (bits (i :: st) - 1)) = bits st.
Proof.
  intros Hok. pose proof (top_of_bits i st Hok) as (Ht & Hl & Hi). pose proof (bits_range _ (so_range _ Hok)) as Hr.
  pose proof (bits_nonzero _ _ Hok) as Hnz. apply Z.eqb_neq in Hnz. rewrite u32_small by lia. rewrite (clear_lowest _ i) by (done || lia).
  apply Z.bits_inj'. intros n Hn. destruct (stack_tail _ _ Hok) as [Hs' Hr'].
  rewrite Z.ldiff_spec, Z.pow2_bits_eqb, !testbit_bits by (done || lia || apply Hok).
  destruct (Z.eqb_spec i n) as [->|Hne]; cbn [negb]; rewrite ?andb_true_r, ?andb_false_r; symmetry.
  - apply bool_decide_eq_false. intros Hin. destruct Hok as [Hs _]. apply StronglySorted_inv in Hs as [_ Hall].
    eapply Forall_forall in Hall; [|exact Hin]. lia.
  - apply bool_decide_ext. rewrite elem_of_cons. intuition congruence.
Qed.

(** ** The stack machine *)
Record levels : Type := Levels { stk : list Z; lmask : Z; lsaved : Z }.
Inductive ehf_op : Type := Activate (priority : Z) | Deactivate (priority : Z).
Definition op_priority (o : ehf_op) : Z := match o with Activate p | Deactivate p => p end.

Section machine.
Context (assertions : bool) (num_priorities pri_bits : Z).
#[local] Abbreviation idx p := (EHF_PRI_TO_IDX p pri_bits).

(** A level is pushed when it is more urgent than the running priority, the
    top of the stack and the mask; it becomes the mask.  The top is popped by
    its own priority, when the mask is not less urgent; the mask then stays at
    the popped priority, unless the stack is empty: then it is the one saved
    with the first push. *)
Definition abs_op (run : Z) (o : ehf_op) (l : levels) : option levels :=
  match o with
  | Activate p =>
      if (p <? run) && (match stk l with [] => true | i :: _ => idx p <? i end) && (p <? lmask l)
      then Some (Levels (idx p :: stk l) p (match stk l with [] => lmask l | _ => lsaved l end))
      else None
  | Deactivate p =>
      match stk l with
      | [] => None
      | i :: st =>
          if (p <? run) && (idx p =? i) && (lmask l <=? p)
          then Some (Levels st (match st with [] => lsaved l | _ => p end) (lsaved l)) else None
      end
  end.
Fixpoint abs_ops (run : Z) (os : list ehf_op) (l : levels) : option levels :=
  match os with
  | [] => Some l
  | o :: os' => match abs_op run o l with Some l' => abs_ops run os' l' | None => None end
  end.

Definition run_op (o : ehf_op) : M ehf_state unit :=
  match o with
  | Activate p => ehf_activate_priority assertions num_priorities pri_bits p
  | Deactivate p => ehf_deactivate_priority assertions num_priorities pri_bits p
  end.

Record levels_ok (l : levels) : Prop := {
  lo_stack : stack_ok (stk l);
  lo_mask : 0 <= lmask l < 256;
  lo_saved : 0 <= lsaved l < 256
}.

(** The platform has a level for this priority. *)
Record level_ok (prios : list Z) (p : Z) : Prop := {
  lv_range : 0 <= p < 256;
  lv_idx : 0 <= idx p < num_priorities;
  lv_valid : exists h, arr_get prios (idx p) = Some h /\ truthy (Z.land h EHF_PRI_VALID) = true
}.

(** The state that stands for a stack. *)
Definition with_levels (l : levels) (s : ehf_state) : ehf_state :=
  EhfState (PeExcData (bits (stk l)) (lsaved l) (ns_pri_mask (pe_data s))) (ehf_priorities s) (lmask l) (icc_rpr s) (ns_x0 s) (ehf_im s).

Context (Hnum : num_priorities <= 32).

Lemma pri_to_idx_run p s : level_ok (ehf_priorities s) p -> pri_to_idx assertions num_priorities pri_bits p s = Ret (idx p) s.
Proof.
  intros [_ Hi (h & Hh & Hv)]. unfold pri_to_idx. destruct assertions; [|done].
  rewrite (proj2 (Z.leb_le _ _)), (proj2 (Z.ltb_lt _ _)) by lia. unfold ehf_assert. do 2 erewrite bind_run by done.
  rewrite Hh. erewrite bind_run by done. rewrite Hv. by erewrite bind_run by done.
Qed.

Lemma highest_idx l s : levels_ok l ->
  get_pe_highest_active_idx (pe_data (with_levels l s)) = match stk l with [] => EHF_INVALID_IDX | i :: _ => i end.
Proof.
  intros [Hok _ _]. unfold get_pe_highest_active_idx, has_valid_pri_activations. cbn. destruct (stk l) as [|i st]; [done|].
  rewrite (bits_nonzero i st Hok). cbn [negb]. by apply bits_top.
Qed.

Lemma idx_bit p prios : level_ok prios p -> PRI_BIT (idx p) = 2 ^ idx p.
Proof.
  intros [_ Hi _]. unfold PRI_BIT. rewrite Z.shiftl_1_l. apply u32_small. split; [apply Z.pow_nonneg; lia|apply Z.pow_lt_mono_r; lia].
Qed.

Lemma push_ok p prios st : level_ok prios p -> stack_ok st -> (match st with [] => true | i :: _ => idx p <? i end) = true -> stack_ok (idx p :: st).
Proof.
  intros [_ Hi _] [Hs Hr] Htop. split; [|constructor; [lia|done]]. constructor; [done|]. destruct st as [|i st]; [constructor|].
  apply Z.ltb_lt in Htop. apply StronglySorted_inv in Hs as [_ Hall]. constructor; [done|].
  eapply Forall_impl; [exact Hall|]. intros j Hj. cbn in Hj. lia.
Qed.

Lemma abs_op_ok run prios o l l' : levels_ok l -> level_ok prios (op_priority o) -> abs_op run o l = Some l' -> levels_ok l'.
Proof.
  intros [Hst Hm Hs] Hp Ho. pose proof (lv_range _ _ Hp) as Hr. destruct o as [p|p]; cbn [abs_op op_priority] in *.
  - destruct (p <? run); [|done]. destruct (match stk l with [] => true | i :: _ => idx p <? i end) eqn:Ht; [|done].
    destruct (p <? lmask l); [|done]. injection Ho as <-. split; cbn; [by eapply push_ok|lia|by destruct (stk l)].
  - destruct (stk l) as [|i st] eqn:E; [done|]. destruct (_ && _); [|done]. injection Ho as <-.
    split; cbn; [by eapply stack_tail|destruct st; lia|lia].
Qed.

Lemma activate_run p l s : levels_ok l -> level_ok (ehf_priorities s) p ->
  match abs_op (icc_rpr s) (Activate p) l with
  | Some l' => run_op (Activate p) (with_levels l s) = Ret tt (with_levels l' s)
  | None => exists s', run_op (Activate p) (with_levels l s) = Halt HPanic s'
  end.
Proof.
  intros Hl Hp. cbn [run_op abs_op]. unfold ehf_activate_priority, plat_ic_get_running_priority.
  erewrite bind_run by done. change (icc_rpr (with_levels l s)) with (icc_rpr s).
  destruct (Z.ltb_spec p (icc_rpr s)) as [Hlt|Hge]; [rewrite (proj2 (Z.leb_gt _ _)) by lia|rewrite (proj2 (Z.leb_le _ _)) by lia; by eexists].
  cbn [andb]. erewrite bind_run by done. rewrite highest_idx by done. erewrite bind_run by (by apply pri_to_idx_run).
  assert (Hi : 0 <= idx p) by apply Hp.
  assert (Htop : negb ((match stk l with [] => EHF_INVALID_IDX | i :: _ => i end) =? EHF_INVALID_IDX) &&
     ((match stk l with [] => EHF_INVALID_IDX | i :: _ => i end) <=? idx p) = negb (match stk l with [] => true | i :: _ => idx p <? i end)).
  { destruct (stk l) as [|i st] eqn:E; [done|]. pose proof (lo_stack _ Hl) as Hok. rewrite E in Hok. apply top_of_bits in Hok as (_ & _ & Hok).
    rewrite (proj2 (Z.eqb_neq _ _)) by (unfold EHF_INVALID_IDX; lia). cbn. by rewrite Z.leb_antisym. }
  rewrite Htop. destruct (match stk l with [] => true | i :: _ => idx p <? i end) eqn:Ht; [|by eexists]. cbn [negb andb].
  do 2 erewrite bind_run by done. cbn [icc_pmr set_pe with_levels].
  destruct (Z.ltb_spec p (lmask l)) as [Hm|Hm]; [rewrite (proj2 (Z.leb_gt _ _)) by lia|rewrite (proj2 (Z.leb_le _ _)) by lia; by eexists].
  rewrite (idx_bit p _ Hp), Z.lor_comm. change (Z.lor (2 ^ idx p) (active_pri_bits (pe_data (with_levels l s)))) with (bits (idx p :: stk l)).
  rewrite (u8_small p) by apply Hp. unfold with_levels. destruct (stk l) as [|i st] eqn:E; cbn [when].
  - cbn. unfold modify, set_pe, set_pmr. cbn. by rewrite u8_small by apply Hl.
  - pose proof (lo_stack _ Hl) as Hok. rewrite E in Hok. apply top_of_bits in Hok as (_ & _ & Hok).
    rewrite (proj2 (Z.eqb_neq i _)) by (unfold EHF_INVALID_IDX; lia). cbn. done.
Qed.

Lemma deactivate_run p l s : levels_ok l -> level_ok (ehf_priorities s) p ->
  match abs_op (icc_rpr s) (Deactivate p) l with
  | Some l' => run_op (Deactivate p) (with_levels l s) = Ret tt (with_levels l' s)
  | None => exists s', run_op (Deactivate p) (with_levels l s) = Halt HPanic s'
  end.
Proof.
  intros Hl Hp. cbn [run_op abs_op]. unfold ehf_deactivate_priority, plat_ic_get_running_priority.
  erewrite bind_run by done. change (icc_rpr (with_levels l s)) with (icc_rpr s).
  destruct (Z.ltb_spec p (icc_rpr s)) as [Hlt|Hge];
    [rewrite (proj2 (Z.leb_gt (icc_rpr s) p)) by lia|rewrite (proj2 (Z.leb_le (icc_rpr s) p)) by lia; destruct (stk l); by eexists].
  erewrite bind_run by done. rewrite highest_idx by done. erewrite bind_run by (by apply pri_to_idx_run).
  destruct l as [[|i st] m sv]; cbn [stk lmask lsaved] in *; [by eexists|]. pose proof (lo_stack _ Hl) as Hok. cbn [stk] in Hok.
  pose proof (top_of_bits i st Hok) as (_ & _ & Hi). rewrite (proj2 (Z.eqb_neq i _)) by (unfold EHF_INVALID_IDX; lia). cbn [orb andb].
  destruct (idx p =? i); [|by eexists]. cbn [negb andb]. erewrite bind_run by done.
  cbn [active_pri_bits pe_data with_levels stk]. rewrite bits_pop by done.
  change (PeExcData (bits st) _ _) with (pe_data (with_levels (Levels st m sv) s)).
  rewrite highest_idx by (split; [by eapply stack_tail|apply Hl|apply Hl]). cbn [stk].
  assert (Hcmp : (p <? m) = negb (m <=? p)) by apply Z.ltb_antisym.
  destruct st as [|j st].
  - erewrite bind_run by done. cbn [icc_pmr set_pe with_levels lmask]. rewrite Hcmp. destruct (m <=? p); [|by eexists]. cbn. unfold ret.
    rewrite u8_small by apply Hl. done.
  - apply stack_tail, top_of_bits in Hok as (_ & _ & Hj). rewrite (proj2 (Z.eqb_neq j _)) by (unfold EHF_INVALID_IDX; lia).
    erewrite bind_run by done. cbn [icc_pmr set_pe with_levels lmask]. rewrite Hcmp. destruct (m <=? p); [|by eexists]. cbn. unfold ret.
    rewrite u8_small by apply Hp. done.
Qed.

Lemma ops_run os l s : levels_ok l -> Forall (fun o => level_ok (ehf_priorities s) (op_priority o)) os ->
  match abs_ops (icc_rpr s) os l with
  | Some l' => forM_ os run_op (with_levels l s) = Ret tt (with_levels l' s) /\ levels_ok l'
  | None => exists s', forM_ os run_op (with_levels l s) = Halt HPanic s'
  end.
Proof.
  intros Hl Hos. revert l Hl. induction Hos as [|o os Ho Hos IH]; intros l Hl; cbn [abs_ops forM_]; [done|].
  assert (Hone : match abs_op (icc_rpr s) o l with
     | Some l' => run_op o (with_levels l s) = Ret tt (with_levels l' s)
     | None => exists s', run_op o (with_levels l s) = Halt HPanic s' end)
    by (destruct o; [by apply activate_run|by apply deactivate_run]).
  destruct (abs_op (icc_rpr s) o l) as [l'|] eqn:E.
  - specialize (IH l' (abs_op_ok _ _ _ _ _ Hl Ho E)). destruct (abs_ops (icc_rpr s) os l') as [l''|].
    + by erewrite bind_run by exact Hone.
    + destruct IH as [s' IH]. exists s'. by erewrite bind_run by exact Hone.
  - destruct Hone as [s' Hone]. exists s'. by apply bind_halt.
Qed.

(** [C37] The bitmap of active priorities is a stack.  Every sequence of
    activations and deactivations of the platform's priorities, from every
    stack of active levels, returns exactly when the stack machine [abs_op]
    allows it and leaves the state that stands for its result, with nothing
    else changed; when the machine refuses a step, the code panics.  The mask
    that a deactivation leaves while other levels remain active is the
    priority of the level that was popped. *)
Theorem ehf_refines_stack os l s : levels_ok l -> Forall (fun o => level_ok (ehf_priorities s) (op_priority o)) os ->
  match abs_ops (icc_rpr s) os l with
  | Some l' => forM_ os run_op (with_levels l s) = Ret tt (with_levels l' s)
  | None => exists s', forM_ os run_op (with_levels l s) = Halt HPanic s'
  end.
Proof. intros Hl Hos. pose proof (ops_run os l s Hl Hos) as H. by destruct (abs_ops (icc_rpr s) os l); [apply H|]. Qed.

(** While levels are active the mask of the start is saved. *)
Lemma abs_ops_saved run os l l' m : abs_ops run os l = Some l' ->
  (match stk l with [] => lmask l = m | _ => lsaved l = m end) -> match stk l' with [] => lmask l' = m | _ => lsaved l' = m end.
Proof.
  revert l. induction os as [|o os IH]; intros l Hrun Hm; cbn [abs_ops] in Hrun; [by injection Hrun as <-|].
  destruct (abs_op run o l) as [l1|] eqn:E; [|done]. apply (IH l1 Hrun). clear IH Hrun. destruct o as [p|p]; cbn [abs_op] in E.
  - destruct (_ && _); [|done]. injection E as <-. cbn. by destruct (stk l).
  - destruct (stk l) as [|i st]; [done|]. destruct (_ && _); [|done]. injection E as <-. cbn. by destruct st.
Qed.

(** ** A visit of the secure world *)

(** The normal world runs: no level is active, no mask is stashed. *)
Record in_normal_world (s : ehf_state) : Prop := {
  nw_active : active_pri_bits (pe_data s) = 0;
  nw_stashed : ns_pri_mask (pe_data s) = 0;
  nw_saved : 0 <= init_pri_mask (pe_data s) < 256;
  nw_running : 0x80 <= icc_rpr s < 256;
  nw_mask : 0x80 <= icc_pmr s < 256
}.

Lemma not_secure p : 0x80 <= p < 256 -> IS_PRI_SECURE p = false.
Proof.
  intros Hp. unfold IS_PRI_SECURE. apply Z.eqb_neq. intros E. apply (f_equal (fun x => Z.testbit x 7)) in E.
  rewrite Z.land_spec, Z.bits_0 in E. change (Z.testbit 0x80 7) with true in E. rewrite andb_true_r in E.
  rewrite Z.testbit_false in E by lia. change (2 ^ 7) with 128 in E. assert (Hq : p / 128 = 1) by (symmetry; apply Z.div_unique with (p - 128); lia). by rewrite Hq in E.
Qed.

(** A visit of the secure world restores the priority mask of the normal
    world.  When the normal world is left, any sequence of activations and
    deactivations that the code accepts follows, and no level is active at
    its end, then re-entering the normal world returns and the mask, the
    bitmap and the stashed mask are what they were before; with assertions
    or without. *)
Theorem ehf_visit_restores_mask os s s1 :
  in_normal_world s -> Forall (fun o => level_ok (ehf_priorities s) (op_priority o)) os ->
  (ehf_exited_normal_world assertions ;;; forM_ os run_op) s = Ret tt s1 -> active_pri_bits (pe_data s1) = 0 ->
  exists s2, ehf_entering_normal_world s1 = Ret tt s2 /\ icc_pmr s2 = icc_pmr s /\ ehf_priorities s2 = ehf_priorities s /\
    active_pri_bits (pe_data s2) = 0 /\ ns_pri_mask (pe_data s2) = 0.
Proof.
  intros [Ha Hn Hs Hr Hm] Hos. destruct s as [[ab sv ns] pr pmr rpr x0 im]. cbn in Ha, Hn, Hs, Hr, Hm, Hos. subst.
  set (t := EhfState (PeExcData 0 sv pmr) pr 0x80 rpr x0 im).
  assert (Hexit : ehf_exited_normal_world assertions (EhfState (PeExcData 0 sv 0) pr pmr rpr x0 im) = Ret tt t).
  { unfold ehf_exited_normal_world, plat_ic_get_running_priority. erewrite bind_run by done. cbn [icc_rpr]. rewrite not_secure by done.
    erewrite bind_run by done. cbn. unfold ehf_assert. rewrite andb_false_r. do 3 erewrite bind_run by done. cbn [icc_pmr].
    rewrite u8_small by lia. by rewrite not_secure. }
  erewrite bind_run by exact Hexit. change t with (with_levels (Levels [] 0x80 sv) t).
  pose proof (ops_run os (Levels [] 0x80 sv) t ltac:(by split; [split; constructor|..]) Hos) as Hops.
  destruct (abs_ops (icc_rpr t) os (Levels [] 0x80 sv)) as [l'|] eqn:E; [|destruct Hops as [? ->]; done].
  destruct Hops as [-> Hl']. intros [= <-] Hact. cbn [active_pri_bits pe_data with_levels] in Hact. pose proof (abs_ops_saved _ _ _ _ 0x80 E eq_refl) as Hsv.
  destruct l' as [[|i st] m sv']; [|pose proof (bits_nonzero i st (lo_stack _ Hl')) as Hnz; apply Z.eqb_neq in Hnz; by destruct Hnz]. cbn in Hsv. subst m.
  unfold ehf_entering_normal_world, plat_ic_get_running_priority. erewrite bind_run by done. cbn [icc_rpr with_levels t].
  rewrite not_secure by done. erewrite bind_run by done. cbn [with_levels pe_data t stk]. unfold has_valid_pri_activations.
  cbn [active_pri_bits bits foldr ns_pri_mask negb Z.eqb]. rewrite (proj2 (Z.eqb_neq pmr 0)) by lia. erewrite bind_run by done.
  cbn [icc_pmr lmask]. cbn. unfold modify. eexists. split; [reflexivity|]. cbn. rewrite u8_small by lia. done.
Qed.

(** ** Handlers *)
Lemma raw_handler h : Z.land h 3 = 0 -> truthy (Z.land (Z.lor h EHF_PRI_VALID) EHF_PRI_VALID) = true /\ RAW_HANDLER (Z.lor h EHF_PRI_VALID) = h.
Proof.
  intros H3. assert (H0 : Z.testbit h 0 = false).
  { apply (f_equal (fun x => Z.testbit x 0)) in H3. by rewrite Z.land_spec, andb_true_r in H3. }
  assert (Hv : Z.land (Z.lor h EHF_PRI_VALID) EHF_PRI_VALID = 1).
  { rewrite Z.land_lor_distr_l. change (Z.land EHF_PRI_VALID EHF_PRI_VALID) with 1. change EHF_PRI_VALID with (Z.ones 1).
    rewrite Z.land_ones, Z.bit0_odd in * by lia. rewrite Zodd_even_bool in H0. rewrite Zmod_even. by destruct (Z.even h). }
  unfold RAW_HANDLER. rewrite Hv. split; [done|]. cbn [truthy Z.eqb negb]. apply Z.bits_inj'. intros n Hn.
  rewrite Z.ldiff_spec, Z.lor_spec. change EHF_PRI_VALID with (2 ^ 0). rewrite Z.pow2_bits_eqb by lia.
  destruct (Z.eqb_spec 0 n) as [<-|]; [by rewrite H0|by rewrite orb_false_r, andb_true_r].
Qed.

Lemma low_is_secure p : 0 <= p < 0x80 -> IS_PRI_SECURE p = true.
Proof.
  intros Hp. unfold IS_PRI_SECURE. change 0x80 with (2 ^ 7). apply Z.eqb_eq, Z.bits_inj'. intros n Hn.
  rewrite Z.land_spec, Z.pow2_bits_eqb, Z.bits_0 by lia. destruct (Z.eqb_spec 7 n) as [<-|]; [|by rewrite andb_false_r].
  by rewrite (testbit_below_pow2 7) by lia.
Qed.

Lemma register_priority_run pri h t k :
  level_ok (ehf_priorities t) pri -> IDX_TO_PRI pri_bits (idx pri) = pri -> h <> 0 -> Z.land h 3 = 0 ->
  arr_get (ehf_priorities t) (idx pri) = Some k ->
  ehf_register_priority_handler assertions num_priorities pri_bits pri h t =
    if negb (k =? EHF_NO_HANDLER) then Halt HPanic t
    else Ret tt (set_priorities (<[Z.to_nat (idx pri) := Z.lor h EHF_PRI_VALID]> (ehf_priorities t)) t).
Proof.
  intros Ht Hpri Hh H3 Hk. assert (Hn : (idx pri <? num_priorities) = true) by (apply Z.ltb_lt, Ht).
  unfold ehf_register_priority_handler, ehf_assert. rewrite (proj2 (Z.eqb_neq h 0)), H3 by done. cbn [negb Z.eqb].
  rewrite !andb_false_r. do 2 erewrite bind_run by done. erewrite bind_run by (by apply pri_to_idx_run).
  rewrite Hn, Hpri, Z.eqb_refl, !andb_false_r. do 3 erewrite bind_run by done. rewrite Hk. erewrite bind_run by done.
  destruct (k =? EHF_NO_HANDLER); [|done]. cbn [negb]. rewrite arr_set_in_range by (by eapply arr_get_Some_range). done.
Qed.

(** A registered handler is the one that is called.  At a level of the
    platform that has no handler, registering an aligned one returns and
    changes the entry of that level only; from then on, whenever an
    acknowledged interrupt raises the running priority to that level, the
    interrupt handler calls exactly it, with the acknowledged value, and a
    second registration panics. *)
Theorem ehf_handler_called get_id ack call pri h s :
  level_ok (ehf_priorities s) pri -> IDX_TO_PRI pri_bits (idx pri) = pri -> pri < 0x80 ->
  arr_get (ehf_priorities s) (idx pri) = Some EHF_NO_HANDLER -> h <> 0 -> Z.land h 3 = 0 ->
  exists l, ehf_register_priority_handler assertions num_priorities pri_bits pri h s = Ret tt (set_priorities l s) /\
    (forall i, i <> idx pri -> arr_get l i = arr_get (ehf_priorities s) i) /\
    (forall s0 raw s1 flags, ack s0 = Ret raw s1 -> ehf_priorities s1 = l -> icc_rpr s1 = pri -> get_id raw <> INTR_ID_UNAVAILABLE ->
       ehf_el3_interrupt_handler assertions num_priorities pri_bits get_id ack call INTR_ID_UNAVAILABLE flags s0 = call h raw flags s1) /\
    (forall h', h' <> 0 -> Z.land h' 3 = 0 ->
       ehf_register_priority_handler assertions num_priorities pri_bits pri h' (set_priorities l s) = Halt HPanic (set_priorities l s)).
Proof.
  intros Hp Hpri Hsec Hno Hh H3. destruct (raw_handler h H3) as [Hval Hraw]. pose proof (arr_get_Some_range _ _ _ Hno) as Hr.
  exists (<[Z.to_nat (idx pri) := Z.lor h EHF_PRI_VALID]> (ehf_priorities s)).
  assert (Hl : arr_get (<[Z.to_nat (idx pri) := Z.lor h EHF_PRI_VALID]> (ehf_priorities s)) (idx pri) = Some (Z.lor h EHF_PRI_VALID))
    by (by apply arr_get_insert_eq).
  assert (Hp' : level_ok (<[Z.to_nat (idx pri) := Z.lor h EHF_PRI_VALID]> (ehf_priorities s)) pri) by (split; [apply Hp|apply Hp|eauto]).
  split_and!.
  - by rewrite (register_priority_run pri h s EHF_NO_HANDLER).
  - intros i Hi. destruct (Z.leb_spec 0 i); [by apply arr_get_insert_ne; lia|]. unfold arr_get. by rewrite (proj2 (Z.leb_gt 0 i)).
  - intros s0 raw s1 flags Hack Hs1 Hrun Hid. unfold ehf_el3_interrupt_handler, ehf_assert. rewrite Z.eqb_refl, andb_false_r.
    erewrite bind_run by done. erewrite bind_run by exact Hack. rewrite (proj2 (Z.eqb_neq _ _)) by done.
    unfold plat_ic_get_running_priority. erewrite bind_run by done. rewrite Hrun.
    rewrite low_is_secure, andb_false_r by (pose proof (lv_range _ _ Hp); lia). erewrite bind_run by done. erewrite bind_run by (apply pri_to_idx_run; by rewrite Hs1).
    rewrite Hpri, Z.eqb_refl, andb_false_r. do 2 erewrite bind_run by done. rewrite Hs1, Hl. erewrite bind_run by done.
    by rewrite Hraw, (proj2 (Z.eqb_neq h 0)).
  - intros h' Hh' H3'. rewrite (register_priority_run pri h' (set_priorities _ s) _ Hp' Hpri Hh' H3' Hl). destruct (Z.eqb_spec (Z.lor h EHF_PRI_VALID) EHF_NO_HANDLER) as [E|]; [|done].
    rewrite E in Hraw. by vm_compute in Hraw.
Qed.
End machine.

(** [ehf_init] registers with interrupt management the model that takes EL3
    interrupts out of both worlds. *)
Lemma ehf_init_run assertions num pri_bits ehf ptr s d :
  wf_im (ehf_im s) -> num <= 32 -> ptr <> 0 ->
  arr_get (intr_type_descs (ehf_im s)) INTR_TYPE_EL3 = Some d -> handler d = 0 ->
  ehf_init assertions num pri_bits ehf ptr s = Ret tt (set_ehf_im (registered INTR_TYPE_EL3 ptr 3 (ehf_im s)) s).
Proof.
  intros Hwf Hn Hp Hd Hh. unfold ehf_init, ehf_assert. rewrite (proj2 (Z.leb_le num 32)) by done.
  assert (Hb : (1 <=? pri_bits) || (pri_bits <? 8) = true) by (destruct (Z.leb_spec 1 pri_bits), (Z.ltb_spec pri_bits 8); lia || done).
  rewrite Hb, !andb_false_r. do 2 erewrite bind_run by done.
  assert (Hreg : zoom ehf_im set_ehf_im (register_interrupt_type_handler assertions ehf INTR_TYPE_EL3 ptr 3) s =
    Ret 0 (set_ehf_im (registered INTR_TYPE_EL3 ptr 3 (ehf_im s)) s)).
  { unfold zoom. rewrite register_run by done. rewrite Hd, Hh, (proj2 (Z.eqb_neq ptr 0)) by done. by destruct ehf. }
  change (set_interrupt_rm_flag (set_interrupt_rm_flag 0 NON_SECURE) SECURE) with 3. erewrite bind_run by exact Hreg. by rewrite andb_false_r.
Qed.

(** ** Instances *)
Module EhfWitnesses.
(** Three priority bits, handlers allowed at levels 1 and 2; the normal world
    runs with the mask 0xf0. *)
Definition prios : list Z := [0; EHF_NO_HANDLER; EHF_NO_HANDLER; 0; 0; 0; 0; 0].
Definition s0 : ehf_state := EhfState (PeExcData 0 0 0) prios 0xf0 0xff (Some 0) (ImState [] []).
Definition nested : list ehf_op := [Activate 0x20; Activate 0x10; Deactivate 0x10; Deactivate 0x20].

Lemma level_20 : level_ok 8 3 prios 0x20.
Proof. split; [lia|split; [by vm_compute|reflexivity]|by exists EHF_NO_HANDLER]. Qed.
Lemma level_10 : level_ok 8 3 prios 0x10.
Proof. split; [lia|split; [by vm_compute|reflexivity]|by exists EHF_NO_HANDLER]. Qed.
Lemma nested_ok : Forall (fun o => level_ok 8 3 prios (op_priority o)) nested.
Proof. constructor; [apply level_20|constructor; [apply level_10|constructor; [apply level_10|constructor; [apply level_20|constructor]]]]. Qed.

(** The mask between the two deactivations is still 0x10. *)
Lemma ehf_refines_stack_witness :
  forM_ (take 3 nested) (run_op true 8 3) s0 = Ret tt (with_levels (Levels [2] 0x10 0xf0) s0).
Proof.
  exact (ehf_refines_stack true 8 3 ltac:(lia) (take 3 nested) (Levels [] 0xf0 0) s0
    ltac:(split; [split; constructor|cbn; lia|cbn; lia]) (Forall_take _ 3 _ nested_ok)).
Defined.

Lemma ehf_visit_restores_mask_witness :
  exists s1 s2, (ehf_exited_normal_world true ;;; forM_ nested (run_op true 8 3)) s0 = Ret tt s1 /\
    ehf_entering_normal_world s1 = Ret tt s2 /\ icc_pmr s2 = 0xf0.
Proof.
  destruct (ehf_visit_restores_mask true 8 3 ltac:(lia) nested s0 (EhfState (PeExcData 0 0x80 0xf0) prios 0x80 0xff (Some 0) (ImState [] [])))
    as (s2 & Hrun & Hm & _); [split; cbn; lia|exact nested_ok|vm_compute; reflexivity|reflexivity|].
  eexists _, s2. split; [vm_compute; reflexivity|]. split; [exact Hrun|exact Hm].
Defined.

Lemma ehf_handler_called_witness :
  exists l, ehf_register_priority_handler true 8 3 0x20 0x4000 s0 = Ret tt (set_priorities l s0) /\ arr_get l 1 = Some EHF_NO_HANDLER.
Proof.
  destruct (ehf_handler_called true 8 3 (fun raw => raw) (ret 7) (fun h _ _ => ret h) 0x20 0x4000 s0
    level_20 eq_refl ltac:(lia) eq_refl ltac:(lia) eq_refl) as (l & Hreg & Ho & _).
  exists l. split; [exact Hreg|]. rewrite Ho by (vm_compute; discriminate). reflexivity.
Defined.
End EhfWitnesses.
