(* ===== verification/SdeiDefs.v ===== *)
(** * SDEI dispatcher: data, event lookup, handler state machine

    services/std_svc/sdei/sdei_private.h, sdei_state.c, sdei_event.c and the
    types of include/services/sdei.h.

    [sdei_state] holds the two arrays of event mappings, the two tables of
    event entries (the private one has a block per CPU), the dispatch stacks,
    the processing elements and the interrupt controller.  An operation gets
    the index of the CPU it runs on, [me].  A pointer to a mapping or to an
    entry names the array and an index.  The platform, its interrupt controller
    included, is the class [SdeiPlat]: the controller's state is any type [C].
    Taking a lock that is held blocks. *)
From stdpp Require Import base list numbers option.
From Stdlib Require Import ZArith Lia.
From S2P Require Import Prelude IntrMgmt Ehf.
#[local] Open Scope Z_scope.

(** ** Constants *)
Definition SDEI_STATE_UNREGISTERED : Z := 0.
Definition SDEI_STATF_REGISTERED : Z := 0.
Definition SDEI_STATF_ENABLED : Z := 1.
Definition SDEI_STATF_RUNNING : Z := 2.
Definition SDEI_EINVAL : Z := -2.
Definition SDEI_EDENY : Z := -3.
Definition SDEI_EPEND : Z := -5.
Definition SDEI_ENOMEM : Z := -10.
Definition SDEI_INFO_EV_TYPE : Z := 0.
Definition SDEI_INFO_EV_NOT_SIGNALED : Z := 1.
Definition SDEI_INFO_EV_PRIORITY : Z := 2.
Definition SDEI_INFO_EV_ROUTING_MODE : Z := 3.
Definition SDEI_INFO_EV_ROUTING_AFF : Z := 4.
Definition SDEI_REGF_RM_ANY : Z := 0.
Definition SDEI_REGF_RM_PE : Z := 1.
Definition SDEI_MAPF_DYNAMIC : Z := BIT 1.
Definition SDEI_MAPF_BOUND : Z := BIT 2.
Definition SDEI_MAPF_SIGNALABLE : Z := BIT 3.
Definition SDEI_MAPF_PRIVATE : Z := BIT 4.
Definition SDEI_MAPF_CRITICAL : Z := BIT 5.
Definition SDEI_EVENT_0 : Z := 0.
Definition SDEI_DYN_IRQ : Z := 0.
Definition SDEI_FEATURE_BIND_SLOTS : Z := 0.
Definition BIND_SLOTS_MASK : Z := 0xffff.
Definition FEATURE_BIND_SLOTS (priv shrd : Z) : Z :=
  Z.lor (Z.shiftl (Z.land priv BIND_SLOTS_MASK) 0) (Z.shiftl (Z.land shrd BIND_SLOTS_MASK) 16).
Definition MPIDR_AFFINITY_MASK : Z := 0xff00ffffff.
Definition INTR_ROUTING_MODE_PE : Z := 0.
Definition INTR_ROUTING_MODE_ANY : Z := 1.
Definition MODE_EL1 : Z := 1.
Definition MODE_EL2 : Z := 2.
Definition MODE_SP_ELX : Z := 1.
Definition SCR_HCE_BIT : Z := Z.shiftl 1 8.
Definition DISABLE_ALL_EXCEPTIONS : Z := 0xf.
Definition GET_EL (mode : Z) : Z := Z.land (Z.shiftr mode 2) 3.
Definition SPSR_64 (el sp daif : Z) : Z :=
  Z.lor (Z.lor (Z.shiftl (Z.land el 3) 2) (Z.land sp 1)) (Z.shiftl (Z.land daif 0xf) 6).
Definition get_interrupt_src_ss (flag : Z) : Z := Z.land (Z.shiftr flag 0) 1.
Definition PE_MASKED : Z := 1.
Definition PE_NOT_MASKED : Z := 0.
Definition SDEI_SAVED_GPREGS : Z := 18.
Definition MAX_EVENT_NESTING : Z := 2.

Inductive sdei_class_t : Type := SDEI_NORMAL | SDEI_CRITICAL.
#[global] Instance sdei_class_eq_dec : EqDecision sdei_class_t.
Proof. solve_decision. Defined.

(** ** Events *)
Record sdei_entry_t : Type := SdeiEntry { se_ep : Z; se_arg : Z; se_affinity : Z; se_reg_flags : Z; se_state : Z }.
Record sdei_ev_map_t : Type := SdeiEvMap { ev_num : Z; ev_intr : Z; map_flags : Z; reg_count : Z; map_lock : bool }.
Definition set_se_state (x : Z) (se : sdei_entry_t) : sdei_entry_t :=
  SdeiEntry (se_ep se) (se_arg se) (se_affinity se) (se_reg_flags se) x.
Definition set_se_flags (x : Z) (se : sdei_entry_t) : sdei_entry_t :=
  SdeiEntry (se_ep se) (se_arg se) (se_affinity se) x (se_state se).
Definition set_map_lock (b : bool) (m : sdei_ev_map_t) : sdei_ev_map_t :=
  SdeiEvMap (ev_num m) (ev_intr m) (map_flags m) (reg_count m) b.
Definition set_reg_count (x : Z) (m : sdei_ev_map_t) : sdei_ev_map_t :=
  SdeiEvMap (ev_num m) (ev_intr m) (map_flags m) x (map_lock m).
Definition set_intr_flags (i f : Z) (m : sdei_ev_map_t) : sdei_ev_map_t :=
  SdeiEvMap (ev_num m) i f (reg_count m) (map_lock m).

Definition has_flag (m : sdei_ev_map_t) (f : Z) : bool := truthy (Z.land (map_flags m) f).
Definition is_event_private (m : sdei_ev_map_t) : bool := has_flag m SDEI_MAPF_PRIVATE.
Definition is_event_shared (m : sdei_ev_map_t) : bool := negb (is_event_private m).
Definition is_event_critical (m : sdei_ev_map_t) : bool := has_flag m SDEI_MAPF_CRITICAL.
Definition is_event_normal (m : sdei_ev_map_t) : bool := negb (is_event_critical m).
Definition is_event_signalable (m : sdei_ev_map_t) : bool := has_flag m SDEI_MAPF_SIGNALABLE.
Definition is_map_dynamic (m : sdei_ev_map_t) : bool := has_flag m SDEI_MAPF_DYNAMIC.
Definition is_map_bound (m : sdei_ev_map_t) : bool := has_flag m SDEI_MAPF_BOUND.
Definition set_map_bound (m : sdei_ev_map_t) : sdei_ev_map_t :=
  set_intr_flags (ev_intr m) (Z.lor (map_flags m) SDEI_MAPF_BOUND) m.
Definition clr_map_bound (m : sdei_ev_map_t) : sdei_ev_map_t :=
  set_intr_flags (ev_intr m) (Z.land (map_flags m) (u32 (Z.lnot SDEI_MAPF_BOUND))) m.
Definition get_ev_state_bit (se : sdei_entry_t) (bit_no : Z) : bool := truthy (Z.land (se_state se) (BIT bit_no)).
Definition map_to_class (m : sdei_ev_map_t) : sdei_class_t := if is_event_critical m then SDEI_CRITICAL else SDEI_NORMAL.

(** A pointer into the private or the shared array. *)
Inductive map_ptr : Type := PrivMap (i : Z) | ShrdMap (i : Z).
Inductive entry_ptr : Type := PrivEntry (i : Z) | ShrdEntry (i : Z).
#[global] Instance map_ptr_eq_dec : EqDecision map_ptr.
Proof. solve_decision. Defined.
#[global] Instance entry_ptr_eq_dec : EqDecision entry_ptr.
Proof. solve_decision. Defined.

(** ** Dispatch stacks *)
Record sdei_dispatch_context_t : Type := DispatchCtx {
  dc_map : option map_ptr; dc_sec_state : Z; dc_intr_raw : Z; dc_x : list Z; dc_elr_el3 : Z; dc_spsr_el3 : Z
}.
Record sdei_cpu_state_t : Type := SdeiCpu {
  dispatch_stack : list sdei_dispatch_context_t; stack_top : Z; pe_masked : Z; pending_enables : Z
}.
Definition set_dispatch (l : list sdei_dispatch_context_t) (top : Z) (c : sdei_cpu_state_t) : sdei_cpu_state_t :=
  SdeiCpu l top (pe_masked c) (pending_enables c).
Definition set_pe_masked (x : Z) (c : sdei_cpu_state_t) : sdei_cpu_state_t :=
  SdeiCpu (dispatch_stack c) (stack_top c) x (pending_enables c).
Definition set_pending_enables (x : Z) (c : sdei_cpu_state_t) : sdei_cpu_state_t :=
  SdeiCpu (dispatch_stack c) (stack_top c) (pe_masked c) x.

(** ** A processing element

    The saved context of each world (index SECURE or NON_SECURE), the world the
    next exception return resumes, the EL1 system registers in use (only the
    exception return ones are named), those of EL2, SCR_EL3 and SPSR_EL3, and
    what the exception handling framework keeps per CPU. *)
Record el1_regs : Type := El1Regs { elr_el1 : Z; spsr_el1 : Z; el1_rest : Z }.
Record world_ctx : Type := WorldCtx { gpregs : list Z; ctx_elr_el3 : Z; ctx_spsr_el3 : Z; ctx_sysregs : el1_regs }.
Record pe_t : Type := Pe {
  pe_ctx : list (option world_ctx); next_eret : Z; live_el1 : el1_regs; elr_el2 : Z; spsr_el2 : Z;
  r_scr_el3 : Z; r_spsr_el3 : Z; pe_exc : pe_exc_data_t; pe_pmr : Z
}.
Definition set_pe_ctx (l : list (option world_ctx)) (p : pe_t) : pe_t :=
  Pe l (next_eret p) (live_el1 p) (elr_el2 p) (spsr_el2 p) (r_scr_el3 p) (r_spsr_el3 p) (pe_exc p) (pe_pmr p).
Definition set_next_eret (x : Z) (p : pe_t) : pe_t :=
  Pe (pe_ctx p) x (live_el1 p) (elr_el2 p) (spsr_el2 p) (r_scr_el3 p) (r_spsr_el3 p) (pe_exc p) (pe_pmr p).
Definition set_live_el1 (x : el1_regs) (p : pe_t) : pe_t :=
  Pe (pe_ctx p) (next_eret p) x (elr_el2 p) (spsr_el2 p) (r_scr_el3 p) (r_spsr_el3 p) (pe_exc p) (pe_pmr p).
Definition set_el2 (elr spsr : Z) (p : pe_t) : pe_t :=
  Pe (pe_ctx p) (next_eret p) (live_el1 p) elr spsr (r_scr_el3 p) (r_spsr_el3 p) (pe_exc p) (pe_pmr p).
Definition set_pe_ehf (d : pe_exc_data_t) (pmr : Z) (p : pe_t) : pe_t :=
  Pe (pe_ctx p) (next_eret p) (live_el1 p) (elr_el2 p) (spsr_el2 p) (r_scr_el3 p) (r_spsr_el3 p) d pmr.
Definition set_ctx_gpregs (x : list Z) (c : world_ctx) : world_ctx := WorldCtx x (ctx_elr_el3 c) (ctx_spsr_el3 c) (ctx_sysregs c).
Definition set_ctx_el3 (elr spsr : Z) (c : world_ctx) : world_ctx := WorldCtx (gpregs c) elr spsr (ctx_sysregs c).
Definition set_ctx_sysregs (x : el1_regs) (c : world_ctx) : world_ctx := WorldCtx (gpregs c) (ctx_elr_el3 c) (ctx_spsr_el3 c) x.

Record sdei_state (C : Type) : Type := SdeiState {
  priv_maps : list sdei_ev_map_t; shrd_maps : list sdei_ev_map_t;
  priv_table : list sdei_entry_t; shrd_table : list sdei_entry_t;
  sdei_cpus : list sdei_cpu_state_t; num_dyn_priv_slots : Z; num_dyn_shrd_slots : Z;
  pes : list pe_t; sd_priorities : list Z; sd_im : im_state; ic : C
}.
Arguments SdeiState {C}.
Arguments priv_maps {C}.
Arguments shrd_maps {C}.
Arguments priv_table {C}.
Arguments shrd_table {C}.
Arguments sdei_cpus {C}.
Arguments num_dyn_priv_slots {C}.
Arguments num_dyn_shrd_slots {C}.
Arguments pes {C}.
Arguments sd_priorities {C}.
Arguments sd_im {C}.
Arguments ic {C}.

Section setters.
Context {C : Type}.
Implicit Types s : sdei_state C.
Definition set_maps (p sh : list sdei_ev_map_t) s : sdei_state C :=
  SdeiState p sh (priv_table s) (shrd_table s) (sdei_cpus s) (num_dyn_priv_slots s) (num_dyn_shrd_slots s) (pes s)
    (sd_priorities s) (sd_im s) (ic s).
Definition set_tables (p sh : list sdei_entry_t) s : sdei_state C :=
  SdeiState (priv_maps s) (shrd_maps s) p sh (sdei_cpus s) (num_dyn_priv_slots s) (num_dyn_shrd_slots s) (pes s)
    (sd_priorities s) (sd_im s) (ic s).
Definition set_sdei_cpus (l : list sdei_cpu_state_t) s : sdei_state C :=
  SdeiState (priv_maps s) (shrd_maps s) (priv_table s) (shrd_table s) l (num_dyn_priv_slots s) (num_dyn_shrd_slots s) (pes s)
    (sd_priorities s) (sd_im s) (ic s).
Definition set_dyn_slots (p sh : Z) s : sdei_state C :=
  SdeiState (priv_maps s) (shrd_maps s) (priv_table s) (shrd_table s) (sdei_cpus s) p sh (pes s)
    (sd_priorities s) (sd_im s) (ic s).
Definition set_pes (l : list pe_t) s : sdei_state C :=
  SdeiState (priv_maps s) (shrd_maps s) (priv_table s) (shrd_table s) (sdei_cpus s) (num_dyn_priv_slots s) (num_dyn_shrd_slots s) l
    (sd_priorities s) (sd_im s) (ic s).
Definition set_sd_ehf (l : list Z) (im : im_state) s : sdei_state C :=
  SdeiState (priv_maps s) (shrd_maps s) (priv_table s) (shrd_table s) (sdei_cpus s) (num_dyn_priv_slots s) (num_dyn_shrd_slots s) (pes s)
    l im (ic s).
Definition set_ic (c : C) s : sdei_state C :=
  SdeiState (priv_maps s) (shrd_maps s) (priv_table s) (shrd_table s) (sdei_cpus s) (num_dyn_priv_slots s) (num_dyn_shrd_slots s) (pes s)
    (sd_priorities s) (sd_im s) c.
End setters.

(** ** The platform

    The interrupt controller API of docs/platform-interrupt-controller-API.rst:
    the queries and updates get the CPU that makes the call, since private
    interrupts are banked. *)
Class SdeiPlat (C : Type) : Type := {
  sdei_assertions : bool;
  sdei_num_priorities : Z;
  sdei_pri_bits : Z;
  PLAT_SDEI_CRITICAL_PRI : Z;
  PLAT_SDEI_NORMAL_PRI : Z;
  sdei_core_pos_by_mpidr : Z -> Z;
  sdei_mpidr : Z -> Z;
  plat_ic_is_spi : Z -> bool;
  plat_ic_is_ppi : Z -> bool;
  plat_ic_is_sgi : Z -> bool;
  ic_interrupt_id : Z -> Z;
  ic_get_type : C -> Z -> Z -> Z;
  ic_get_active : C -> Z -> Z -> bool;
  ic_running_priority : C -> Z -> Z;
  ic_disable : Z -> Z -> C -> C;
  ic_enable : Z -> Z -> C -> C;
  ic_clear_pending : Z -> Z -> C -> C;
  ic_set_pending : Z -> Z -> C -> C;
  ic_set_type : Z -> Z -> Z -> C -> C;
  ic_set_priority : Z -> Z -> Z -> C -> C;
  ic_set_spi_routing : Z -> Z -> Z -> C -> C;
  ic_end_of_interrupt : Z -> Z -> C -> C;
  ic_raise_el3_sgi : Z -> Z -> C -> C;
  plat_sdei_validate_entry_point : Z -> Z -> Z;
  plat_sdei_handle_masked_trigger : Z -> Z -> C -> C
}.

(** ** The state machine of a handler (sdei_state.c) *)
Definition r_ : Z := 0.
Definition R_ : Z := Z.shiftl 1 SDEI_STATF_RUNNING.
Definition e_ : Z := 0.
Definition E_ : Z := Z.shiftl 1 SDEI_STATF_ENABLED.
Definition g_ : Z := 0.
Definition G_ : Z := Z.shiftl 1 SDEI_STATF_REGISTERED.
Definition reg_ : Z := Z.lor (Z.lor r_ e_) g_.
Definition reG_ : Z := Z.lor (Z.lor r_ e_) G_.
Definition rEg_ : Z := Z.lor (Z.lor r_ E_) g_.
Definition rEG_ : Z := Z.lor (Z.lor r_ E_) G_.
Definition Reg_ : Z := Z.lor (Z.lor R_ e_) g_.
Definition ReG_ : Z := Z.lor (Z.lor R_ e_) G_.
Definition REg_ : Z := Z.lor (Z.lor R_ E_) g_.
Definition REG_ : Z := Z.lor (Z.lor R_ E_) G_.
Definition MAX_STATES : Z := REG_ + 1.
Definition X___ : Z := u8 (-1).
Definition NOP_ : Z := u8 (-2).

Inductive sdei_action_t : Type :=
| DO_REGISTER | DO_RELEASE | DO_ENABLE | DO_DISABLE | DO_UNREGISTER | DO_ROUTING | DO_CONTEXT | DO_COMPLETE
| DO_COMPLETE_RESUME | DO_DISPATCH.
Definition action_index (a : sdei_action_t) : Z :=
  match a with
  | DO_REGISTER => 0 | DO_RELEASE => 1 | DO_ENABLE => 2 | DO_DISABLE => 3 | DO_UNREGISTER => 4 | DO_ROUTING => 5
  | DO_CONTEXT => 6 | DO_COMPLETE => 7 | DO_COMPLETE_RESUME => 8 | DO_DISPATCH => 9
  end.

Definition invalid_row : list Z := replicate 10 X___.
Definition sdei_state_table : list (list Z) := [
  (* reg_ *) [reG_; NOP_; X___; X___; X___; X___; X___; X___; X___; X___];
  (* reG_ *) [X___; X___; rEG_; NOP_; reg_; NOP_; X___; X___; X___; X___];
  (* rEg_ *) invalid_row;
  (* rEG_ *) [X___; X___; NOP_; reG_; reg_; X___; X___; X___; X___; REG_];
  (* Reg_ *) [X___; X___; X___; X___; X___; X___; NOP_; reg_; reg_; X___];
  (* ReG_ *) [X___; X___; REG_; NOP_; Reg_; X___; NOP_; reG_; reG_; X___];
  (* REg_ *) invalid_row;
  (* REG_ *) [X___; X___; NOP_; ReG_; Reg_; X___; NOP_; rEG_; rEG_; X___]].

(** The new state and the answer; [None] is an access out of the table. *)
Definition next_state (st : Z) (act : sdei_action_t) : option (Z * bool) :=
  if MAX_STATES <=? st then Some (st, false)
  else
    row ← arr_get sdei_state_table st;
    next ← arr_get row (action_index act);
    Some (if next =? X___ then (st, false) else if next =? NOP_ then (st, true) else (next, true)).

Section events.
Context {C : Type} `{!SdeiPlat C}.
#[local] Abbreviation SM := (M (sdei_state C)).
Definition sdei_assert (b : bool) : SM unit := if sdei_assertions && negb b then halt_with HAssert else ret tt.

(** ** Mappings and entries *)
Definition get_map (p : map_ptr) : SM sdei_ev_map_t :=
  match p with
  | PrivMap i => let! l := gets priv_maps in deref (arr_get l i)
  | ShrdMap i => let! l := gets shrd_maps in deref (arr_get l i)
  end.
Definition put_map (p : map_ptr) (m : sdei_ev_map_t) : SM unit :=
  match p with
  | PrivMap i =>
      let! l := gets priv_maps in
      let! l' := deref (arr_set l i m) in modify (fun s => set_maps l' (shrd_maps s) s)
  | ShrdMap i =>
      let! l := gets shrd_maps in
      let! l' := deref (arr_set l i m) in modify (fun s => set_maps (priv_maps s) l' s)
  end.
Definition get_entry (p : entry_ptr) : SM sdei_entry_t :=
  match p with
  | PrivEntry i => let! l := gets priv_table in deref (arr_get l i)
  | ShrdEntry i => let! l := gets shrd_table in deref (arr_get l i)
  end.
Definition put_entry (p : entry_ptr) (e : sdei_entry_t) : SM unit :=
  match p with
  | PrivEntry i =>
      let! l := gets priv_table in
      let! l' := deref (arr_set l i e) in modify (fun s => set_tables l' (shrd_table s) s)
  | ShrdEntry i =>
      let! l := gets shrd_table in
      let! l' := deref (arr_set l i e) in modify (fun s => set_tables (priv_table s) l' s)
  end.

Definition sdei_map_lock (p : map_ptr) : SM unit :=
  let! m := get_map p in
  if map_lock m then halt_with HBlocked else put_map p (set_map_lock true m).
Definition sdei_map_unlock (p : map_ptr) : SM unit :=
  let! m := get_map p in put_map p (set_map_lock false m).

(** The offset of [map] in the array its flags select. *)
Definition get_event_entry (me : Z) (p : map_ptr) : SM entry_ptr :=
  let! m := get_map p in
  if is_event_private m then
    let! l := gets priv_maps in
    match p with
    | PrivMap idx => ret (PrivEntry (u32 (me * Z.of_nat (length l)) + idx))
    | ShrdMap _ => halt_with HUndef
    end
  else
    match p with
    | ShrdMap idx => ret (ShrdEntry idx)
    | PrivMap _ => halt_with HUndef
    end.

(** The first mapping of an array that satisfies [f]. *)
Fixpoint find_map (f : sdei_ev_map_t -> bool) (l : list sdei_ev_map_t) (i : Z) : option Z :=
  match l with
  | [] => None
  | m :: rest => if f m then Some i else find_map f rest (i + 1)
  end.

Definition find_event_map_by_intr (intr_num : Z) (shared : bool) : SM (option map_ptr) :=
  let f m := ev_intr m =? u32 intr_num in
  if shared then gets (fun s => ShrdMap <$> find_map f (shrd_maps s) 0)
  else gets (fun s => PrivMap <$> find_map f (priv_maps s) 0).

Definition find_event_map (n : Z) : SM (option map_ptr) :=
  let f m := ev_num m =? n in
  gets (fun s => match find_map f (priv_maps s) 0 with
                 | Some i => Some (PrivMap i)
                 | None => ShrdMap <$> find_map f (shrd_maps s) 0
                 end).

Definition can_sdei_state_trans (p : entry_ptr) (act : sdei_action_t) : SM bool :=
  let! se := get_entry p in
  let! r := deref (next_state (se_state se) act) in
  put_entry p (set_se_state r.1 se) ;;;
  ret r.2.

(** Updates and queries of the interrupt controller by CPU [me]. *)
Definition ic_do (f : C -> C) : SM unit := modify (fun s => set_ic (f (ic s)) s).

Definition sdei_event_priority (m : sdei_ev_map_t) : Z :=
  if is_event_critical m then PLAT_SDEI_CRITICAL_PRI else PLAT_SDEI_NORMAL_PRI.

(** ** Processing elements *)
Definition get_pe (me : Z) : SM pe_t := let! l := gets pes in deref (arr_get l me).
Definition put_pe (me : Z) (p : pe_t) : SM unit :=
  let! l := gets pes in
  let! l' := deref (arr_set l me p) in modify (set_pes l').
Definition get_cpu (me : Z) : SM sdei_cpu_state_t := let! l := gets sdei_cpus in deref (arr_get l me).
Definition put_cpu (me : Z) (c : sdei_cpu_state_t) : SM unit :=
  let! l := gets sdei_cpus in
  let! l' := deref (arr_set l me c) in modify (set_sdei_cpus l').

Definition sdei_client_el (me : Z) : SM Z :=
  let! p := get_pe me in ret (if truthy (Z.land (r_scr_el3 p) SCR_HCE_BIT) then MODE_EL2 else MODE_EL1).

Definition is_secure_sgi (me intr : Z) : SM bool :=
  gets (fun s => plat_ic_is_sgi intr && (ic_get_type (ic s) me intr =? INTR_TYPE_EL3)).

(** The view of the exception handling framework on CPU [me]. *)
Definition ehf_view (me : Z) (p : pe_t) (s : sdei_state C) : ehf_state :=
  EhfState (pe_exc p) (sd_priorities s) (pe_pmr p) (ic_running_priority (ic s) me)
    (c ← arr_get (pe_ctx p) NON_SECURE; c ← c; gpregs c !! 0%nat) (sd_im s).
Definition in_ehf {A} (me : Z) (m : M ehf_state A) : SM A :=
  let! p := get_pe me in
  fun s => match m (ehf_view me p s) with
           | Ret a t => (put_pe me (set_pe_ehf (pe_data t) (icc_pmr t) p) ;;; modify (set_sd_ehf (ehf_priorities t) (ehf_im t)) ;;; ret a) s
           | Halt h t => Halt h s
           end.

(** ** Contexts (lib/el3_runtime/aarch64/context_mgmt.c)

    [save] and [restore] publish the events the framework subscribes to. *)
Definition get_ctx (me ss : Z) : SM (option world_ctx) :=
  let! p := get_pe me in deref (arr_get (pe_ctx p) ss).
Definition put_ctx (me ss : Z) (c : world_ctx) : SM unit :=
  let! p := get_pe me in
  let! l := deref (arr_set (pe_ctx p) ss (Some c)) in put_pe me (set_pe_ctx l p).

Definition cm_el1_sysregs_context_save (me ss : Z) : SM unit :=
  let! ctx := get_ctx me ss in
  sdei_assert (bool_decide (is_Some ctx)) ;;;
  let! c := deref ctx in
  let! p := get_pe me in
  put_ctx me ss (set_ctx_sysregs (live_el1 p) c) ;;;
  (if ss =? SECURE then ret tt else in_ehf me (ehf_exited_normal_world sdei_assertions)).

Definition cm_el1_sysregs_context_restore (me ss : Z) : SM unit :=
  let! ctx := get_ctx me ss in
  sdei_assert (bool_decide (is_Some ctx)) ;;;
  let! c := deref ctx in
  let! p := get_pe me in
  put_pe me (set_live_el1 (ctx_sysregs c) p) ;;;
  (if ss =? SECURE then ret tt else in_ehf me ehf_entering_normal_world).

Definition cm_set_next_eret_context (me ss : Z) : SM unit :=
  let! ctx := get_ctx me ss in
  sdei_assert (bool_decide (is_Some ctx)) ;;;
  let! p := get_pe me in put_pe me (set_next_eret ss p).

Definition cm_set_elr_spsr_el3 (me ss entrypoint spsr : Z) : SM unit :=
  let! ctx := get_ctx me ss in
  sdei_assert (bool_decide (is_Some ctx)) ;;;
  let! c := deref ctx in
  put_ctx me ss (set_ctx_el3 entrypoint (u32 spsr) c).
End events.
