(* ===== verification/SdeiIntr.v ===== *)
(** * SDEI dispatcher: dispatch and completion of events

    services/std_svc/sdei/sdei_intr_mgmt.c: the per-CPU mask and dispatch
    stack, the interrupt handler, the explicit dispatch and the completion. *)
From stdpp Require Import base list numbers option.
From Stdlib Require Import ZArith Lia.
From S2P Require Import Prelude IntrMgmt Ehf SdeiDefs.
#[local] Open Scope Z_scope.

Section intr_mgmt.
Context {C : Type} `{!SdeiPlat C}.
#[local] Abbreviation SM := (M (sdei_state C)).

(** [for_each_private_map] and [for_each_shared_map]: the pointers. *)
Definition private_ptrs (s : sdei_state C) : list map_ptr := map PrivMap (seqZ 0 (Z.of_nat (length (priv_maps s)))).
Definition shared_ptrs (s : sdei_state C) : list map_ptr := map ShrdMap (seqZ 0 (Z.of_nat (length (shrd_maps s)))).

(** ** The mask of a PE *)
Definition sdei_pe_mask (me : Z) : SM Z :=
  let! c := get_cpu me in
  put_cpu me (set_pe_masked PE_MASKED c) ;;;
  ret (Z.lxor (pe_masked c) PE_MASKED).

Definition unmask_private (me : Z) (p : map_ptr) : SM unit :=
  let! sp := get_event_entry me p in
  let! m := get_map p in
  let! se := get_entry sp in
  when (is_map_bound m && get_ev_state_bit se SDEI_STATF_ENABLED) (ic_do (ic_enable me (ev_intr m))).

Definition unmask_shared (me my_mpidr : Z) (p : map_ptr) : SM unit :=
  let! sp := get_event_entry me p in
  sdei_map_lock p ;;;
  let! m := get_map p in
  let! se := get_entry sp in
  when (is_map_bound m && get_ev_state_bit se SDEI_STATF_ENABLED && (se_reg_flags se =? SDEI_REGF_RM_PE) &&
        (se_affinity se =? my_mpidr)) (ic_do (ic_enable me (ev_intr m))) ;;;
  sdei_map_unlock p.

Definition sdei_pe_unmask (me : Z) : SM unit :=
  let my_mpidr := Z.land (sdei_mpidr me) MPIDR_AFFINITY_MASK in
  let! c := get_cpu me in
  when (truthy (pending_enables c))
    (let! ps := gets private_ptrs in
     forM_ ps (unmask_private me) ;;;
     let! ps := gets shared_ptrs in
     forM_ ps (unmask_shared me my_mpidr)) ;;;
  let! c := get_cpu me in put_cpu me (set_pe_masked PE_NOT_MASKED (set_pending_enables 0 c)).

(** ** The dispatch stack

    [push_dispatch] is the write of the slot it returns; the pops return the
    slot they make current. *)
Definition push_dispatch (me : Z) (d : sdei_dispatch_context_t) : SM unit :=
  let! c := get_cpu me in
  sdei_assert (stack_top c <? MAX_EVENT_NESTING) ;;;
  let! l := deref (arr_set (dispatch_stack c) (stack_top c) d) in
  put_cpu me (set_dispatch l (u16 (stack_top c + 1)) c).

Definition pop_dispatch (me : Z) : SM unit :=
  let! c := get_cpu me in
  if stack_top c =? 0 then ret tt
  else
    sdei_assert (stack_top c <=? MAX_EVENT_NESTING) ;;;
    put_cpu me (set_dispatch (dispatch_stack c) (u16 (stack_top c - 1)) c).

Definition get_outstanding_dispatch (me : Z) : SM (option sdei_dispatch_context_t) :=
  let! c := get_cpu me in
  if stack_top c =? 0 then ret None
  else
    sdei_assert (stack_top c <=? MAX_EVENT_NESTING) ;;;
    let! d := deref (arr_get (dispatch_stack c) (stack_top c - 1)) in ret (Some d).

(** ** Contexts: a pointer to a context is the world it belongs to *)
Definition save_event_ctx (me : Z) (p : map_ptr) (tgt sec_state intr_raw : Z) : SM unit :=
  let! tgt_ctx := get_ctx me tgt in
  sdei_assert (bool_decide (is_Some tgt_ctx)) ;;;
  let! c := deref tgt_ctx in
  push_dispatch me (DispatchCtx (Some p) sec_state intr_raw (take (Z.to_nat SDEI_SAVED_GPREGS) (gpregs c))
                      (ctx_elr_el3 c) (ctx_spsr_el3 c)).

Definition restore_event_ctx (me : Z) (d : sdei_dispatch_context_t) (tgt : Z) : SM unit :=
  let! tgt_ctx := get_ctx me tgt in
  sdei_assert (bool_decide (is_Some tgt_ctx)) ;;;
  let! c := deref tgt_ctx in
  put_ctx me tgt (set_ctx_el3 (dc_elr_el3 d) (dc_spsr_el3 d)
                    (set_ctx_gpregs (dc_x d ++ drop (Z.to_nat SDEI_SAVED_GPREGS) (gpregs c)) c)).

Definition save_secure_context (me : Z) : SM unit := cm_el1_sysregs_context_save me SECURE.

Definition restore_and_resume_secure_context (me : Z) : SM unit :=
  cm_el1_sysregs_context_restore me SECURE ;;; cm_set_next_eret_context me SECURE.

(** Returns the world of the context. *)
Definition restore_and_resume_ns_context (me : Z) : SM Z :=
  cm_el1_sysregs_context_restore me NON_SECURE ;;;
  cm_set_next_eret_context me NON_SECURE ;;;
  let! ns_ctx := get_ctx me NON_SECURE in
  sdei_assert (bool_decide (is_Some ns_ctx)) ;;;
  ret NON_SECURE.

Definition setup_ns_dispatch (me : Z) (p : map_ptr) (sp : entry_ptr) (ctx sec_state_to_resume intr_raw : Z) : SM unit :=
  save_event_ctx me p ctx sec_state_to_resume intr_raw ;;;
  let! m := get_map p in
  let! se := get_entry sp in
  let! o := get_ctx me ctx in
  let! c := deref o in
  put_ctx me ctx (set_ctx_gpregs (u64 (ev_num m) :: se_arg se :: ctx_elr_el3 c :: ctx_spsr_el3 c :: drop 4 (gpregs c)) c) ;;;
  let! el := sdei_client_el me in
  cm_set_elr_spsr_el3 me NON_SECURE (se_ep se) (SPSR_64 el MODE_SP_ELX DISABLE_ALL_EXCEPTIONS).

(** ** Interrupts *)
Definition handle_masked_trigger (me : Z) (p : map_ptr) (sp : entry_ptr) (intr_raw : Z) : SM unit :=
  let my_mpidr := Z.land (sdei_mpidr me) MPIDR_AFFINITY_MASK in
  let! m := get_map p in
  let! se := get_entry sp in
  if ev_num m =? SDEI_EVENT_0 then ret tt
  else
    let! disable :=
      (if is_event_private m then ret true
       else if se_reg_flags se =? SDEI_REGF_RM_PE then sdei_assert (se_affinity se =? my_mpidr) ;;; ret true
       else ret false) in
    if disable then
      ic_do (ic_disable me (ev_intr m)) ;;;
      ic_do (ic_set_pending me (ev_intr m)) ;;;
      ic_do (ic_end_of_interrupt me intr_raw) ;;;
      let! c := get_cpu me in put_cpu me (set_pending_enables 1 c)
    else
      sdei_assert (plat_ic_is_spi (ev_intr m)) ;;;
      ic_do (ic_set_pending me (ev_intr m)) ;;;
      ic_do (plat_sdei_handle_masked_trigger my_mpidr (ev_intr m)) ;;;
      ic_do (ic_end_of_interrupt me intr_raw).

(** [m] takes the lock only of a shared event. *)
Definition lock_shared (m : sdei_ev_map_t) (p : map_ptr) : SM unit := when (is_event_shared m) (sdei_map_lock p).
Definition unlock_shared (m : sdei_ev_map_t) (p : map_ptr) : SM unit := when (is_event_shared m) (sdei_map_unlock p).

(** The critical and normal flags of the mapping of an outstanding dispatch. *)
Definition outstanding_critical (d : sdei_dispatch_context_t) : SM bool :=
  let! p := deref (dc_map d) in
  let! m := get_map p in ret (is_event_critical m).

(** The check of the outstanding dispatches before a dispatch by interrupt. *)
Definition assert_preemption (m : sdei_ev_map_t) (disp_ctx : option sdei_dispatch_context_t) : SM unit :=
  if is_event_critical m then
    match disp_ctx with
    | Some d => if sdei_assertions then let! b := outstanding_critical d in sdei_assert (negb b) else ret tt
    | None => ret tt
    end
  else sdei_assert (bool_decide (disp_ctx = None)).

(** [handle] is the interrupted world, whose context the handler is given. *)
Definition sdei_intr_handler (me intr_raw flags handle : Z) : SM Z :=
  let intr := ic_interrupt_id intr_raw in
  let! o := find_event_map_by_intr intr (plat_ic_is_spi intr) in
  match o with
  | None => halt_with HPanic
  | Some p =>
      let! m := get_map p in
      sdei_assert ((ev_num m =? SDEI_EVENT_0) || is_map_bound m) ;;;
      let! sp := get_event_entry me p in
      let! c := get_cpu me in
      if pe_masked c =? PE_MASKED then
        lock_shared m p ;;;
        handle_masked_trigger me p sp intr_raw ;;;
        unlock_shared m p ;;;
        ret 0
      else
        lock_shared m p ;;;
        let! se := get_entry sp in
        (if is_event_shared m && (se_reg_flags se =? SDEI_REGF_RM_PE)
         then sdei_assert (se_affinity se =? Z.land (sdei_mpidr me) MPIDR_AFFINITY_MASK) else ret tt) ;;;
        let! ok := can_sdei_state_trans sp DO_DISPATCH in
        if negb ok then
          let! se := get_entry sp in
          when (get_ev_state_bit se SDEI_STATF_REGISTERED) (ic_do (ic_set_pending me (ev_intr m))) ;;;
          ic_do (ic_end_of_interrupt me intr_raw) ;;;
          unlock_shared m p ;;;
          ret 0
        else
          let! disp_ctx := get_outstanding_dispatch me in
          assert_preemption m disp_ctx ;;;
          let sec_state := get_interrupt_src_ss flags in
          unlock_shared m p ;;;
          let! ctx := (if sec_state =? SECURE then save_secure_context me ;;; restore_and_resume_ns_context me else ret handle) in
          setup_ns_dispatch me p sp ctx sec_state intr_raw ;;;
          ret 0
  end.

Definition sdei_dispatch_event (me n preempted_sec_state : Z) : SM Z :=
  if negb (preempted_sec_state =? SECURE) && negb (preempted_sec_state =? NON_SECURE) then ret (-1)
  else
    let! c := get_cpu me in
    if pe_masked c =? PE_MASKED then ret (-1)
    else if n =? SDEI_EVENT_0 then ret (-1)
    else
      let! o := find_event_map n in
      match o with
      | None => ret (-1)
      | Some p =>
          let! m := get_map p in
          if is_map_dynamic m || is_map_bound m then ret (-1)
          else if is_event_shared m then ret (-1)
          else
            let! disp_ctx := get_outstanding_dispatch me in
            let! refuse :=
              (match disp_ctx with
               | None => ret false
               | Some d => let! crit := outstanding_critical d in ret (crit || is_event_normal m)
               end) in
            if refuse then ret (-1)
            else
              let! sp := get_event_entry me p in
              let! ok := can_sdei_state_trans sp DO_DISPATCH in
              if negb ok then ret (-1)
              else
                in_ehf me (ehf_activate_priority sdei_assertions sdei_num_priorities sdei_pri_bits (sdei_event_priority m)) ;;;
                let! ctx := restore_and_resume_ns_context me in
                setup_ns_dispatch me p sp ctx preempted_sec_state 0 ;;;
                ret 0
      end.

(** ** Completion *)
Definition sdei_event_complete (me : Z) (resume : bool) (pc : Z) : SM Z :=
  let! client_el := sdei_client_el me in
  let! o := get_outstanding_dispatch me in
  match o with
  | None => ret SDEI_EDENY
  | Some d =>
      if resume && negb (plat_sdei_validate_entry_point pc client_el =? 0) then ret SDEI_EDENY
      else
        sdei_assert (bool_decide (is_Some (dc_map d))) ;;;
        let! p := deref (dc_map d) in
        let! sp := get_event_entry me p in
        let! m := get_map p in
        let! ok := can_sdei_state_trans sp (if resume then DO_COMPLETE_RESUME else DO_COMPLETE) in
        if negb ok then unlock_shared m p ;;; ret SDEI_EDENY
        else
          pop_dispatch me ;;;
          lock_shared m p ;;;
          restore_event_ctx me d NON_SECURE ;;;
          when resume
            (cm_set_elr_spsr_el3 me NON_SECURE pc (SPSR_64 client_el MODE_SP_ELX DISABLE_ALL_EXCEPTIONS) ;;;
             let! q := get_pe me in
             put_pe me (if client_el =? MODE_EL2 then set_el2 (dc_elr_el3 d) (dc_spsr_el3 d) q
                        else set_live_el1 (El1Regs (dc_elr_el3 d) (dc_spsr_el3 d) (el1_rest (live_el1 q))) q)) ;;;
          let! allowed := (if dc_sec_state d =? SECURE then in_ehf me ehf_is_ns_preemption_allowed else ret 1) in
          when ((dc_sec_state d =? SECURE) && (allowed =? 0)) (restore_and_resume_secure_context me) ;;;
          let! m := get_map p in
          (if (ev_num m =? SDEI_EVENT_0) || is_map_bound m then ic_do (ic_end_of_interrupt me (dc_intr_raw d))
           else in_ehf me (ehf_deactivate_priority sdei_assertions sdei_num_priorities sdei_pri_bits (sdei_event_priority m))) ;;;
          unlock_shared m p ;;;
          ret 0
  end.

(** The result is an [int]. *)
Definition sdei_event_context (me param : Z) : SM Z :=
  if SDEI_SAVED_GPREGS <=? param then ret SDEI_EINVAL
  else
    let! o := get_outstanding_dispatch me in
    match o with
    | None => ret SDEI_EDENY
    | Some d =>
        sdei_assert (bool_decide (is_Some (dc_map d))) ;;;
        let! p := deref (dc_map d) in
        let! sp := get_event_entry me p in
        let! ok := can_sdei_state_trans sp DO_CONTEXT in
        if negb ok then ret SDEI_EDENY
        else let! x := deref (arr_get (dc_x d) param) in ret (s32 x)
    end.
End intr_mgmt.
