(* ===== verification/SdeiMain.v ===== *)
(** * SDEI dispatcher: initialisation and calls of the client

    services/std_svc/sdei/sdei_main.c: the set-up of the event classes, the
    operations of the SDEI interface and the SMC handler. *)
From stdpp Require Import base list numbers option.
From Stdlib Require Import ZArith Lia.
From S2P Require Import Prelude RuntimeSvc IntrMgmt Ehf SdeiDefs SdeiIntr.
#[local] Open Scope Z_scope.

Definition SDEI_VERSION : Z := 0xC4000020.
Definition SDEI_EVENT_REGISTER : Z := 0xC4000021.
Definition SDEI_EVENT_ENABLE : Z := 0xC4000022.
Definition SDEI_EVENT_DISABLE : Z := 0xC4000023.
Definition SDEI_EVENT_CONTEXT : Z := 0xC4000024.
Definition SDEI_EVENT_COMPLETE : Z := 0xC4000025.
Definition SDEI_EVENT_COMPLETE_AND_RESUME : Z := 0xC4000026.
Definition SDEI_EVENT_UNREGISTER : Z := 0xC4000027.
Definition SDEI_EVENT_STATUS : Z := 0xC4000028.
Definition SDEI_EVENT_GET_INFO : Z := 0xC4000029.
Definition SDEI_EVENT_ROUTING_SET : Z := 0xC400002A.
Definition SDEI_PE_MASK : Z := 0xC400002B.
Definition SDEI_PE_UNMASK : Z := 0xC400002C.
Definition SDEI_INTERRUPT_BIND : Z := 0xC400002D.
Definition SDEI_INTERRUPT_RELEASE : Z := 0xC400002E.
Definition SDEI_EVENT_SIGNAL : Z := 0xC400002F.
Definition SDEI_FEATURES : Z := 0xC4000030.
Definition SDEI_PRIVATE_RESET : Z := 0xC4000031.
Definition SDEI_SHARED_RESET : Z := 0xC4000032.
Definition MAKE_SDEI_VERSION (major minor vendor : Z) : Z :=
  Z.lor (Z.lor (Z.shiftl major 48) (Z.shiftl minor 32)) vendor.
Definition LOWEST_INTR_PRIORITY : Z := 0xff.

Section sdei_main.
Context {C : Type} `{!SdeiPlat C}.
#[local] Abbreviation SM := (M (sdei_state C)).

Definition is_valid_affinity (mpidr : Z) : bool := 0 <=? sdei_core_pos_by_mpidr mpidr.
Definition sdei_version : Z := MAKE_SDEI_VERSION 1 0 0.

(** ** Initialisation *)
Definition init_map (m : sdei_ev_map_t) : sdei_ev_map_t := set_reg_count 0 m.
Definition clear_event_entries (se : sdei_entry_t) : sdei_entry_t := SdeiEntry 0 0 0 0 (se_state se).

Definition cpu_on_init_entry (me : Z) (p : map_ptr) : SM unit :=
  let! sp := get_event_entry me p in
  let! se := get_entry sp in
  put_entry sp (set_se_state 0 (clear_event_entries se)).

Definition sdei_cpu_on_init (me : Z) : SM unit :=
  let! ps := gets private_ptrs in
  forM_ ps (cpu_on_init_entry me) ;;;
  let! _ := sdei_pe_mask me in ret tt.

(** The body of the loop over the shared mappings; [so_far] is
    [ev_num_so_far]. *)
Definition class_init_shared (class : sdei_class_t) (so_far : Z) (p : map_ptr) : SM Z :=
  let! m := get_map p in
  sdei_assert ((so_far <? 0) || (so_far <? ev_num m)) ;;;
  sdei_assert (negb (ev_num m =? SDEI_EVENT_0)) ;;;
  sdei_assert (0 <=? ev_num m) ;;;
  sdei_assert (is_event_shared m) ;;;
  sdei_assert (negb (is_event_signalable m)) ;;;
  (if negb (bool_decide (map_to_class m = class)) then ret tt
   else
     (if is_map_dynamic m then
        sdei_assert (ev_intr m =? SDEI_DYN_IRQ) ;;;
        sdei_assert (is_event_normal m) ;;;
        modify (fun s => set_dyn_slots (num_dyn_priv_slots s) (u32 (num_dyn_shrd_slots s + 1)) s)
      else
        sdei_assert (plat_ic_is_spi (ev_intr m)) ;;;
        put_map p (set_map_bound m)) ;;;
     let! m := get_map p in put_map p (init_map m)) ;;;
  ret (ev_num m).

(** The body of the loop over the private mappings; also returns whether event
    0 has been found. *)
Definition class_init_private (me : Z) (class : sdei_class_t) (acc : Z * bool) (p : map_ptr) : SM (Z * bool) :=
  let! m := get_map p in
  sdei_assert ((acc.1 <? 0) || (acc.1 <? ev_num m)) ;;;
  let! sgi := is_secure_sgi me (ev_intr m) in
  (if ev_num m =? SDEI_EVENT_0 then
     sdei_assert sgi ;;;
     sdei_assert (map_flags m =? Z.lor SDEI_MAPF_SIGNALABLE SDEI_MAPF_PRIVATE)
   else sdei_assert (negb (is_event_signalable m))) ;;;
  sdei_assert (0 <=? ev_num m) ;;;
  sdei_assert (is_event_private m) ;;;
  (if negb (bool_decide (map_to_class m = class)) then ret tt
   else
     when (negb (ev_num m =? SDEI_EVENT_0))
       (if is_map_dynamic m then
          sdei_assert (ev_intr m =? SDEI_DYN_IRQ) ;;;
          sdei_assert (is_event_normal m) ;;;
          modify (fun s => set_dyn_slots (u32 (num_dyn_priv_slots s + 1)) (num_dyn_shrd_slots s) s)
        else
          sdei_assert (plat_ic_is_ppi (ev_intr m)) ;;;
          put_map p (set_map_bound m)) ;;;
     let! m := get_map p in put_map p (init_map m)) ;;;
  ret (ev_num m, acc.2 || (ev_num m =? SDEI_EVENT_0)).

(** A loop that carries a value. *)
Fixpoint foldM {A B} (f : B -> A -> SM B) (b : B) (l : list A) : SM B :=
  match l with
  | [] => ret b
  | x :: l' => let! b' := f b x in foldM f b' l'
  end.

Definition sdei_class_init (me : Z) (class : sdei_class_t) : SM unit :=
  let! ps := gets shared_ptrs in
  let! _ := foldM (class_init_shared class) (-1) ps in
  let! ps := gets private_ptrs in
  let! acc := foldM (class_init_private me class) (-1, false) ps in
  sdei_assert acc.2 ;;;
  sdei_cpu_on_init me.

(** [handler] is the address of [sdei_intr_handler]. *)
Definition sdei_init (me handler : Z) : SM unit :=
  sdei_class_init me SDEI_CRITICAL ;;;
  sdei_class_init me SDEI_NORMAL ;;;
  in_ehf me (ehf_register_priority_handler sdei_assertions sdei_num_priorities sdei_pri_bits PLAT_SDEI_CRITICAL_PRI handler) ;;;
  in_ehf me (ehf_register_priority_handler sdei_assertions sdei_num_priorities sdei_pri_bits PLAT_SDEI_NORMAL_PRI handler).

(** ** Registration *)
Definition set_sdei_entry (se : sdei_entry_t) (ep arg flags affinity : Z) : sdei_entry_t :=
  SdeiEntry ep arg (Z.land affinity MPIDR_AFFINITY_MASK) (u32 flags) (se_state se).

Definition validate_flags (flags mpidr : Z) : Z :=
  if flags =? SDEI_REGF_RM_PE then (if is_valid_affinity mpidr then 0 else SDEI_EINVAL)
  else if flags =? SDEI_REGF_RM_ANY then 0
  else SDEI_EINVAL.

Definition routing_mode (flags : Z) : Z := if flags =? SDEI_REGF_RM_ANY then INTR_ROUTING_MODE_ANY else INTR_ROUTING_MODE_PE.

Definition sdei_event_routing_set (me n flags mpidr : Z) : SM Z :=
  let r := validate_flags flags mpidr in
  if truthy r then ret r
  else
    let! o := find_event_map n in
    match o with
    | None => ret SDEI_EINVAL
    | Some p =>
        let! m := get_map p in
        if is_event_private m then ret SDEI_EINVAL
        else
          let! sp := get_event_entry me p in
          sdei_map_lock p ;;;
          let! m := get_map p in
          let! r :=
            (if negb (is_map_bound m) || is_event_private m then ret SDEI_EINVAL
             else
               let! ok := can_sdei_state_trans sp DO_ROUTING in
               if negb ok then ret SDEI_EDENY
               else
                 let! se := get_entry sp in
                 put_entry sp (set_se_flags (u32 flags) se) ;;;
                 ic_do (ic_set_spi_routing (ev_intr m) (routing_mode flags) mpidr) ;;;
                 ret r) in
          sdei_map_unlock p ;;;
          ret r
    end.

(** Taking over the interrupt of a bound event; [false] is a jump to the
    fallback. *)
Definition take_interrupt (me n : Z) (m : sdei_ev_map_t) (flags mpidr : Z) : SM bool :=
  let! active := gets (fun s => ic_get_active (ic s) me (ev_intr m)) in
  if active then ret false
  else
    let! type := gets (fun s => ic_get_type (ic s) me (ev_intr m)) in
    if negb (type =? INTR_TYPE_NS) then ret false
    else
      ic_do (ic_disable me (ev_intr m)) ;;;
      when (negb (n =? SDEI_EVENT_0)) (ic_do (ic_clear_pending me (ev_intr m))) ;;;
      ic_do (ic_set_type me (ev_intr m) INTR_TYPE_EL3) ;;;
      ic_do (ic_set_priority me (ev_intr m) (sdei_event_priority m)) ;;;
      when (is_event_shared m) (ic_do (ic_set_spi_routing (ev_intr m) (routing_mode flags) mpidr)) ;;;
      ret true.

(** The registration under the lock; [false] is a jump to the fallback. *)
Definition register_locked (me n : Z) (p : map_ptr) (sp : entry_ptr) (ep arg flags mpidr : Z) : SM bool :=
  let! ok := can_sdei_state_trans sp DO_REGISTER in
  if negb ok then ret false
  else
    let! m := get_map p in
    if is_map_dynamic m && negb (is_map_bound m) then ret false
    else
      (if is_event_private m then sdei_assert (0 <=? reg_count m) else sdei_assert (reg_count m =? 0)) ;;;
      let! ok := (if is_map_bound m then take_interrupt me n m flags mpidr else ret true) in
      if negb ok then ret false
      else
        let! se := get_entry sp in
        put_entry sp (set_sdei_entry se ep arg flags mpidr) ;;;
        put_map p (set_reg_count (reg_count m + 1) m) ;;;
        ret true.

Definition sdei_event_register (me n ep arg flags mpidr : Z) : SM Z :=
  let! el := sdei_client_el me in
  if (ep =? 0) || negb (plat_sdei_validate_entry_point ep el =? 0) then ret SDEI_EINVAL
  else
    let r := validate_flags flags mpidr in
    if truthy r then ret r
    else
      let! o := find_event_map n in
      match o with
      | None => ret SDEI_EINVAL
      | Some p =>
          let! m := get_map p in
          let flags := if is_event_private m then SDEI_REGF_RM_PE else flags in
          let! sp := get_event_entry me p in
          sdei_map_lock p ;;;
          let! se := get_entry sp in
          let backup_state := se_state se in
          let! done := register_locked me n p sp ep arg flags mpidr in
          if done then sdei_map_unlock p ;;; ret 0
          else
            let! se := get_entry sp in
            put_entry sp (set_se_state backup_state se) ;;;
            sdei_map_unlock p ;;;
            ret SDEI_EDENY
      end.

(** ** Enabling and disabling *)
Definition sdei_event_enable (me n : Z) : SM Z :=
  let! o := find_event_map n in
  match o with
  | None => ret SDEI_EINVAL
  | Some p =>
      let! sp := get_event_entry me p in
      let! m := get_map p in
      lock_shared m p ;;;
      let! se := get_entry sp in
      let before := get_ev_state_bit se SDEI_STATF_ENABLED in
      let! ok := can_sdei_state_trans sp DO_ENABLE in
      let! r :=
        (if negb ok then ret SDEI_EDENY
         else
           let! se := get_entry sp in
           let after := get_ev_state_bit se SDEI_STATF_ENABLED in
           when (is_map_bound m && (negb before && after)) (ic_do (ic_enable me (ev_intr m))) ;;;
           ret 0) in
      unlock_shared m p ;;;
      ret r
  end.

Definition sdei_event_disable (me n : Z) : SM Z :=
  let! o := find_event_map n in
  match o with
  | None => ret SDEI_EINVAL
  | Some p =>
      let! sp := get_event_entry me p in
      let! m := get_map p in
      lock_shared m p ;;;
      let! se := get_entry sp in
      let before := get_ev_state_bit se SDEI_STATF_ENABLED in
      let! ok := can_sdei_state_trans sp DO_DISABLE in
      let! r :=
        (if negb ok then ret SDEI_EDENY
         else
           let! se := get_entry sp in
           let after := get_ev_state_bit se SDEI_STATF_ENABLED in
           when (is_map_bound m && (before && negb after)) (ic_do (ic_disable me (ev_intr m))) ;;;
           ret 0) in
      unlock_shared m p ;;;
      ret r
  end.

(** ** Queries *)
Definition sdei_event_get_info (me n info : Z) : SM Z :=
  let! o := find_event_map n in
  match o with
  | None => ret SDEI_EINVAL
  | Some p =>
      let! sp := get_event_entry me p in
      let! m := get_map p in
      lock_shared m p ;;;
      let! se := get_entry sp in
      let registered := get_ev_state_bit se SDEI_STATF_REGISTERED in
      let flags := se_reg_flags se in
      let affinity := se_affinity se in
      unlock_shared m p ;;;
      ret (if info =? SDEI_INFO_EV_TYPE then b2z (is_event_shared m)
           else if info =? SDEI_INFO_EV_NOT_SIGNALED then b2z (negb (is_event_signalable m))
           else if info =? SDEI_INFO_EV_PRIORITY then b2z (is_event_critical m)
           else if info =? SDEI_INFO_EV_ROUTING_MODE then
             (if negb (is_event_shared m) then SDEI_EINVAL
              else if negb registered then SDEI_EDENY else b2z (flags =? SDEI_REGF_RM_PE))
           else if info =? SDEI_INFO_EV_ROUTING_AFF then
             (if negb (is_event_shared m) then SDEI_EINVAL
              else if negb registered then SDEI_EDENY
              else if negb (flags =? SDEI_REGF_RM_PE) then SDEI_EINVAL else affinity)
           else SDEI_EINVAL)
  end.

Definition sdei_event_status (me n : Z) : SM Z :=
  let! o := find_event_map n in
  match o with
  | None => ret SDEI_EINVAL
  | Some p =>
      let! sp := get_event_entry me p in
      let! m := get_map p in
      lock_shared m p ;;;
      let! se := get_entry sp in
      unlock_shared m p ;;;
      ret (se_state se)
  end.

(** ** Unregistration *)
Definition give_back_interrupt (me n : Z) (m : sdei_ev_map_t) : SM unit :=
  ic_do (ic_disable me (ev_intr m)) ;;;
  when (negb (n =? SDEI_EVENT_0)) (ic_do (ic_clear_pending me (ev_intr m))) ;;;
  let! type := gets (fun s => ic_get_type (ic s) me (ev_intr m)) in
  sdei_assert (type =? INTR_TYPE_EL3) ;;;
  ic_do (ic_set_type me (ev_intr m) INTR_TYPE_NS) ;;;
  ic_do (ic_set_priority me (ev_intr m) LOWEST_INTR_PRIORITY).

Definition sdei_event_unregister (me n : Z) : SM Z :=
  let! o := find_event_map n in
  match o with
  | None => ret SDEI_EINVAL
  | Some p =>
      let! sp := get_event_entry me p in
      sdei_map_lock p ;;;
      let! ok := can_sdei_state_trans sp DO_UNREGISTER in
      let! r :=
        (if negb ok then
           let! se := get_entry sp in
           ret (if get_ev_state_bit se SDEI_STATF_RUNNING then SDEI_EPEND else SDEI_EDENY)
         else
           let! m := get_map p in
           let m := set_reg_count (reg_count m - 1) m in
           put_map p m ;;;
           (if is_event_private m then sdei_assert (0 <=? reg_count m) else sdei_assert (reg_count m =? 0)) ;;;
           when (is_map_bound m) (give_back_interrupt me n m) ;;;
           let! se := get_entry sp in
           put_entry sp (clear_event_entries se) ;;;
           ret (if get_ev_state_bit se SDEI_STATF_RUNNING then SDEI_EPEND else 0)) in
      sdei_map_unlock p ;;;
      ret r
  end.

(** ** Binding

    The retry of [sdei_interrupt_bind] is a second look at the mappings: alone
    on them, a third would find what the second found. *)
Fixpoint bind_loop (fuel : nat) (me intr_num : Z) (shared_mapping : bool) : SM Z :=
  match fuel with
  | O => halt_with HHang
  | S fuel =>
      let! o := find_event_map_by_intr intr_num shared_mapping in
      let! found :=
        (match o with
         | None => ret None
         | Some p =>
             let! m := get_map p in
             ret (if is_map_dynamic m then (if is_map_bound m then Some (ev_num m) else None) else Some SDEI_EINVAL)
         end) in
      match found with
      | Some r => ret r
      | None =>
          let! o := find_event_map_by_intr SDEI_DYN_IRQ shared_mapping in
          match o with
          | None => ret SDEI_ENOMEM
          | Some p =>
              let! m := get_map p in
              sdei_assert (is_map_dynamic m) ;;;
              let! type := gets (fun s => ic_get_type (ic s) me (u32 intr_num)) in
              if negb (type =? INTR_TYPE_NS) then ret SDEI_EDENY
              else
                sdei_map_lock p ;;;
                let! m := get_map p in
                let retry := is_map_bound m in
                when (negb retry) (put_map p (set_map_bound (set_intr_flags (u32 intr_num) (map_flags m) m))) ;;;
                sdei_map_unlock p ;;;
                if retry then bind_loop fuel me intr_num shared_mapping else ret (ev_num m)
          end
      end
  end.

Definition sdei_interrupt_bind (me intr_num : Z) : SM Z :=
  if plat_ic_is_sgi (u32 intr_num) then ret SDEI_EINVAL
  else bind_loop 2 me intr_num (plat_ic_is_spi (u32 intr_num)).

Definition sdei_interrupt_release (me n : Z) : SM Z :=
  let! o := find_event_map n in
  match o with
  | None => ret SDEI_EINVAL
  | Some p =>
      let! m := get_map p in
      if negb (is_map_dynamic m) then ret SDEI_EINVAL
      else
        let! sp := get_event_entry me p in
        sdei_map_lock p ;;;
        let! m := get_map p in
        let! r :=
          (if negb (reg_count m =? 0) then ret SDEI_EDENY
           else
             let! ok := can_sdei_state_trans sp DO_RELEASE in
             if negb ok then ret SDEI_EDENY
             else if is_map_bound m then
               let! active := gets (fun s => ic_get_active (ic s) me (ev_intr m)) in
               if active then ret SDEI_EDENY
               else put_map p (clr_map_bound (set_intr_flags SDEI_DYN_IRQ (map_flags m) m)) ;;; ret 0
             else ret SDEI_EINVAL) in
        sdei_map_unlock p ;;;
        ret r
  end.

(** ** Reset *)
Definition reset_one (me final_ret : Z) (p : map_ptr) : SM Z :=
  let! m := get_map p in
  let! r := sdei_event_unregister me (ev_num m) in
  ret (if (r =? SDEI_EPEND) && (final_ret =? 0) then SDEI_EDENY else final_ret).

Definition sdei_private_reset (me : Z) : SM Z :=
  let! ps := gets private_ptrs in foldM (reset_one me) 0 ps.

Definition release_one (me final_ret : Z) (p : map_ptr) : SM Z :=
  let! m := get_map p in
  if is_map_dynamic m && is_map_bound m then
    let! r := sdei_interrupt_release me (ev_num m) in
    ret (if negb (r =? 0) && (final_ret =? 0) then r else final_ret)
  else ret final_ret.

Definition sdei_shared_reset (me : Z) : SM Z :=
  let! ps := gets shared_ptrs in
  let! final_ret := foldM (reset_one me) 0 ps in
  if negb (final_ret =? 0) then ret final_ret
  else
    let! ps := gets (fun s => private_ptrs s ++ shared_ptrs s) in
    foldM (release_one me) 0 ps.

(** ** Signals and features *)
Definition sdei_signal (event target_pe : Z) : SM Z :=
  if negb (event =? SDEI_EVENT_0) then ret SDEI_EINVAL
  else
    let! o := find_event_map SDEI_EVENT_0 in
    match o with
    | None => ret SDEI_EINVAL
    | Some p =>
        let! m := get_map p in
        if negb (is_event_signalable m) then ret SDEI_EINVAL
        else if sdei_core_pos_by_mpidr target_pe <? 0 then ret SDEI_EINVAL
        else ic_do (ic_raise_el3_sgi (ev_intr m) target_pe) ;;; ret 0
    end.

Definition sdei_features (feature : Z) : SM Z :=
  if feature =? SDEI_FEATURE_BIND_SLOTS
  then gets (fun s => FEATURE_BIND_SLOTS (num_dyn_priv_slots s) (num_dyn_shrd_slots s))
  else ret SDEI_EINVAL.

(** ** The SMC handler

    The result lists the registers that are set for the caller, whose context
    is that of the normal world once the security state has been checked. *)
Definition sdei_smc_handler (me smc_fid x1 x2 x3 x4 flags : Z) : SM (list Z) :=
  let ret1 (m : SM Z) : SM (list Z) := let! r := m in ret [u64 r] in
  let ss := get_interrupt_src_ss flags in
  if negb (ss =? NON_SECURE) then ret [u64 SMC_UNK]
  else
    let! pe := get_pe me in
    let! el := sdei_client_el me in
    if negb (GET_EL (r_spsr_el3 pe) =? el) then ret [u64 SMC_UNK]
    else if smc_fid =? SDEI_VERSION then ret1 (ret sdei_version)
    else if smc_fid =? SDEI_EVENT_REGISTER then
      let! ctx := get_ctx me NON_SECURE in
      let! c := deref ctx in
      let! x5 := deref (gpregs c !! 5%nat) in
      ret1 (sdei_event_register me (s32 x1) x2 x3 x4 x5)
    else if smc_fid =? SDEI_EVENT_ENABLE then ret1 (sdei_event_enable me (s32 x1))
    else if smc_fid =? SDEI_EVENT_DISABLE then ret1 (sdei_event_disable me (s32 x1))
    else if smc_fid =? SDEI_EVENT_CONTEXT then ret1 (sdei_event_context me (u32 x1))
    else if (smc_fid =? SDEI_EVENT_COMPLETE_AND_RESUME) || (smc_fid =? SDEI_EVENT_COMPLETE) then
      let! r := sdei_event_complete me (smc_fid =? SDEI_EVENT_COMPLETE_AND_RESUME) x1 in
      ret (if truthy r then [u64 r] else [])
    else if smc_fid =? SDEI_EVENT_STATUS then ret1 (sdei_event_status me (s32 x1))
    else if smc_fid =? SDEI_EVENT_GET_INFO then ret1 (sdei_event_get_info me (s32 x1) (s32 x2))
    else if smc_fid =? SDEI_EVENT_UNREGISTER then ret1 (sdei_event_unregister me (s32 x1))
    else if smc_fid =? SDEI_PE_UNMASK then sdei_pe_unmask me ;;; ret [0]
    else if smc_fid =? SDEI_PE_MASK then ret1 (sdei_pe_mask me)
    else if smc_fid =? SDEI_INTERRUPT_BIND then ret1 (sdei_interrupt_bind me (s32 x1))
    else if smc_fid =? SDEI_INTERRUPT_RELEASE then ret1 (sdei_interrupt_release me (s32 x1))
    else if smc_fid =? SDEI_SHARED_RESET then ret1 (sdei_shared_reset me)
    else if smc_fid =? SDEI_PRIVATE_RESET then ret1 (sdei_private_reset me)
    else if smc_fid =? SDEI_EVENT_ROUTING_SET then ret1 (sdei_event_routing_set me (s32 x1) x2 x3)
    else if smc_fid =? SDEI_FEATURES then ret1 (sdei_features (u32 x1))
    else if smc_fid =? SDEI_EVENT_SIGNAL then ret1 (sdei_signal (s32 x1) x2)
    else ret [u64 SMC_UNK].
End sdei_main.
