(* ===== verification/SdeiSpec.v ===== *)
(** * SDEI dispatcher: abstract specification

    A handler is registered, enabled and running or not, and [spec_step] says
    which actions it allows and what they do.  The abstract machine has the
    event numbers, the handlers of every event and CPU, the registration counts
    of the events and the stack of dispatched events of every CPU; [act_on] is
    an action of a CPU on an event, [astep] any action of any CPU on any
    event, under which the invariant [ainv] is kept. *)
From stdpp Require Import base list numbers option.
From Stdlib Require Import ZArith Lia.
From S2P Require Import Prelude SdeiDefs.
#[local] Open Scope Z_scope.

(** ** Handlers *)
Record hstate : Type := HState { h_reg : bool; h_en : bool; h_run : bool }.
Definition h_wf (h : hstate) : bool := implb (h_en h) (h_reg h).
Definition encode (h : hstate) : Z := b2z (h_reg h) + 2 * b2z (h_en h) + 4 * b2z (h_run h).
Definition decode (v : Z) : hstate := HState (Z.testbit v 0) (Z.testbit v 1) (Z.testbit v 2).

(** [None]: the action is not allowed. *)
Definition spec_step (act : sdei_action_t) (h : hstate) : option hstate :=
  match act with
  | DO_REGISTER => if negb (h_reg h) && negb (h_run h) then Some (HState true (h_en h) false) else None
  | DO_RELEASE => if negb (h_reg h) && negb (h_run h) then Some h else None
  | DO_ENABLE => if h_reg h then Some (HState true true (h_run h)) else None
  | DO_DISABLE => if h_reg h then Some (HState true false (h_run h)) else None
  | DO_UNREGISTER => if h_reg h then Some (HState false false (h_run h)) else None
  | DO_ROUTING => if h_reg h && negb (h_en h) && negb (h_run h) then Some h else None
  | DO_CONTEXT => if h_run h then Some h else None
  | DO_COMPLETE | DO_COMPLETE_RESUME => if h_run h then Some (HState (h_reg h) (h_en h) false) else None
  | DO_DISPATCH => if h_reg h && h_en h && negb (h_run h) then Some (HState true true true) else None
  end.

Definition valid_state (v : Z) : Prop := exists h, h_wf h = true /\ v = encode h.

Lemma decode_encode h : decode (encode h) = h.
Proof. by destruct h as [[] [] []]. Qed.

Lemma valid_decode v : valid_state v -> encode (decode v) = v /\ h_wf (decode v) = true.
Proof. intros (h & Hw & ->). by rewrite decode_encode. Qed.

Lemma spec_step_wf act h h' : h_wf h = true -> spec_step act h = Some h' -> h_wf h' = true.
Proof. destruct h as [[] [] []], act; simpl; intros; simplify_eq; done. Qed.

(** The table looks up what the specification says. *)
Lemma next_state_spec v act :
  valid_state v ->
  next_state v act = Some (match spec_step act (decode v) with Some h' => (encode h', true) | None => (v, false) end).
Proof. intros (h & Hw & ->). rewrite decode_encode. by destruct h as [[] [] []], act. Qed.

Lemma encode_valid h : h_wf h = true -> valid_state (encode h).
Proof. by exists h. Qed.

(** The state table of the SDEI handlers is the specification: in each of
    the states a handler can be in, every action is accepted exactly when it is
    allowed (registering needs an unregistered, idle handler, dispatch one that
    is registered, enabled and not running, completion and context queries a
    running one, routing one that is registered, disabled and idle) and gives
    exactly the new state, again a legal one; in every other state value
    nothing is accepted. *)
Theorem sdei_state_table_exact act st :
  0 <= st < 256 ->
  (forall h, h_wf h = true -> st = encode h ->
     next_state st act = Some (match spec_step act h with Some h' => (encode h', true) | None => (st, false) end) /\
     (forall h', spec_step act h = Some h' -> h_wf h' = true)) /\
  ((forall h, h_wf h = true -> st <> encode h) -> next_state st act = Some (st, false)).
Proof.
  intros Hst. split.
  - intros h Hw ->. split; [|intros h'; by apply spec_step_wf].
    rewrite next_state_spec by (by exists h). by rewrite decode_encode.
  - intros Hno. unfold next_state. destruct (Z.leb_spec MAX_STATES st) as [|Hlt]; [done|].
    change MAX_STATES with 8 in Hlt.
    assert (Hcase : st = 2 \/ st = 6).
    { pose proof (Hno (HState false false false) eq_refl). pose proof (Hno (HState true false false) eq_refl).
      pose proof (Hno (HState true true false) eq_refl). pose proof (Hno (HState false false true) eq_refl).
      pose proof (Hno (HState true false true) eq_refl). pose proof (Hno (HState true true true) eq_refl).
      unfold encode, b2z in *. simpl in *. lia. }
    destruct Hcase as [-> | ->]; by destruct act.
Qed.

(** ** The abstract machine *)
Record abs_t : Type := Abs {
  a_priv : list hstate; a_shrd : list hstate; a_pcnt : list Z; a_scnt : list Z; a_stk : list (list (option map_ptr));
  a_pnum : list Z; a_snum : list Z
}.
Definition a_get (a : abs_t) (q : entry_ptr) : option hstate :=
  match q with PrivEntry i => arr_get (a_priv a) i | ShrdEntry i => arr_get (a_shrd a) i end.
Definition a_put (a : abs_t) (q : entry_ptr) (h : hstate) : abs_t :=
  match q with
  | PrivEntry i => Abs (<[Z.to_nat i := h]> (a_priv a)) (a_shrd a) (a_pcnt a) (a_scnt a) (a_stk a) (a_pnum a) (a_snum a)
  | ShrdEntry i => Abs (a_priv a) (<[Z.to_nat i := h]> (a_shrd a)) (a_pcnt a) (a_scnt a) (a_stk a) (a_pnum a) (a_snum a)
  end.
Definition c_get (a : abs_t) (p : map_ptr) : option Z :=
  match p with PrivMap i => arr_get (a_pcnt a) i | ShrdMap i => arr_get (a_scnt a) i end.
Definition c_put (a : abs_t) (p : map_ptr) (n : Z) : abs_t :=
  match p with
  | PrivMap i => Abs (a_priv a) (a_shrd a) (<[Z.to_nat i := n]> (a_pcnt a)) (a_scnt a) (a_stk a) (a_pnum a) (a_snum a)
  | ShrdMap i => Abs (a_priv a) (a_shrd a) (a_pcnt a) (<[Z.to_nat i := n]> (a_scnt a)) (a_stk a) (a_pnum a) (a_snum a)
  end.
Definition stk_put (a : abs_t) (c : Z) (st : list (option map_ptr)) : abs_t :=
  Abs (a_priv a) (a_shrd a) (a_pcnt a) (a_scnt a) (<[Z.to_nat c := st]> (a_stk a)) (a_pnum a) (a_snum a).

(** The entry of an event on CPU [c]: private events have one per CPU. *)
Definition entry_of (a : abs_t) (c : Z) (p : map_ptr) : entry_ptr :=
  match p with
  | PrivMap i => PrivEntry (u32 (c * Z.of_nat (length (a_pcnt a))) + i)
  | ShrdMap i => ShrdEntry i
  end.

(** The event with a number: the first private one, else the first shared. *)
Fixpoint find_num (n : Z) (l : list Z) (i : Z) : option Z :=
  match l with
  | [] => None
  | x :: rest => if x =? n then Some i else find_num n rest (i + 1)
  end.
Definition event_of (a : abs_t) (n : Z) : option map_ptr :=
  match find_num n (a_pnum a) 0 with
  | Some i => Some (PrivMap i)
  | None => ShrdMap <$> find_num n (a_snum a) 0
  end.
Definition n_get (a : abs_t) (p : map_ptr) : option Z :=
  match p with PrivMap i => arr_get (a_pnum a) i | ShrdMap i => arr_get (a_snum a) i end.

(** The event CPU [c] dispatched last and has not completed. *)
Definition outstanding (a : abs_t) (c : Z) : option map_ptr :=
  match arr_get (a_stk a) c with Some st => default None (list.last st) | None => None end.
Definition running (a : abs_t) (c : Z) (p : map_ptr) : bool :=
  match a_get a (entry_of a c p) with Some h => h_run h | None => false end.

(** Action [act] of CPU [c] on event [p]; [None]: refused. *)
Definition act_on (c : Z) (act : sdei_action_t) (p : map_ptr) (a : abs_t) : option abs_t :=
  match a_get a (entry_of a c p) with
  | None => None
  | Some h =>
      match spec_step act h with
      | None => None
      | Some h' =>
          let a1 := a_put a (entry_of a c p) h' in
          match act with
          | DO_REGISTER => (fun n => c_put a1 p (n + 1)) <$> c_get a p
          | DO_UNREGISTER => (fun n => c_put a1 p (n - 1)) <$> c_get a p
          | DO_DISPATCH =>
              match arr_get (a_stk a) c with
              | Some st =>
                  if Z.of_nat (length st) <? MAX_EVENT_NESTING then Some (stk_put a1 c (st ++ [Some p])) else None
              | None => None
              end
          | DO_COMPLETE | DO_COMPLETE_RESUME =>
              match arr_get (a_stk a) c with
              | Some st => if decide (outstanding a c = Some p) then Some (stk_put a1 c (removelast st)) else None
              | None => None
              end
          | _ => Some a1
          end
      end
  end.

Definition local_action (act : sdei_action_t) : bool :=
  match act with
  | DO_RELEASE | DO_ENABLE | DO_DISABLE | DO_ROUTING | DO_CONTEXT => true
  | _ => false
  end.

Inductive astep : abs_t -> abs_t -> Prop :=
| ast_local a q act h h' :
    local_action act = true -> a_get a q = Some h -> spec_step act h = Some h' -> astep a (a_put a q h')
| ast_register a c p h h' n :
    0 <= c < Z.of_nat (length (a_stk a)) ->
    a_get a (entry_of a c p) = Some h -> spec_step DO_REGISTER h = Some h' -> c_get a p = Some n ->
    astep a (c_put (a_put a (entry_of a c p) h') p (n + 1))
| ast_unregister a c p h h' n :
    0 <= c < Z.of_nat (length (a_stk a)) ->
    a_get a (entry_of a c p) = Some h -> spec_step DO_UNREGISTER h = Some h' -> c_get a p = Some n ->
    astep a (c_put (a_put a (entry_of a c p) h') p (n - 1))
| ast_dispatch a c p h h' st :
    a_get a (entry_of a c p) = Some h -> spec_step DO_DISPATCH h = Some h' -> arr_get (a_stk a) c = Some st ->
    Z.of_nat (length st) < MAX_EVENT_NESTING -> astep a (stk_put (a_put a (entry_of a c p) h') c (st ++ [Some p]))
| ast_complete a c p h h' st :
    arr_get (a_stk a) c = Some (st ++ [Some p]) -> a_get a (entry_of a c p) = Some h ->
    spec_step DO_COMPLETE h = Some h' -> astep a (stk_put (a_put a (entry_of a c p) h') c st).

(** ** The invariant *)
Definition sumZ (f : Z -> Z) (l : list Z) : Z := foldr (fun c acc => f c + acc) 0 l.

Lemma sumZ_ext f g l : (forall c, c ∈ l -> f c = g c) -> sumZ f l = sumZ g l.
Proof.
  induction l as [|x l IH]; intros H; [done|]. simpl. rewrite H by (apply elem_of_cons; by left). f_equal. apply IH.
  intros c Hc. apply H, elem_of_cons. by right.
Qed.

Lemma sumZ_update f g l c0 :
  NoDup l -> c0 ∈ l -> (forall c, c ∈ l -> c <> c0 -> g c = f c) -> sumZ g l = sumZ f l + (g c0 - f c0).
Proof.
  induction 1 as [|x l Hx Hnd IH]; intros Hin H; [by apply elem_of_nil in Hin|]. simpl.
  apply elem_of_cons in Hin as [<-|Hin].
  - rewrite (sumZ_ext g f l); [lia|]. intros c Hc. apply H; [apply elem_of_cons; by right|]. by intros ->.
  - rewrite (H x); [|apply elem_of_cons; by left|by intros ->]. rewrite IH; [lia|done|].
    intros c Hc. apply H, elem_of_cons. by right.
Qed.

(** Whether event [i] of the private array is registered on CPU [c]. *)
Definition reg_on (a : abs_t) (i c : Z) : Z :=
  match a_get a (PrivEntry (c * Z.of_nat (length (a_pcnt a)) + i)) with Some h => b2z (h_reg h) | None => 0 end.
Definition all_cpus (a : abs_t) : list Z := seqZ 0 (Z.of_nat (length (a_stk a))).
Definition on_stack (a : abs_t) (c : Z) (p : map_ptr) : Prop :=
  exists st, arr_get (a_stk a) c = Some st /\ Some p ∈ st.

(** The registrations are counted: those of a private event over the CPUs. *)
Record counts_ok (a : abs_t) : Prop := {
  ai_pcnt : forall i n, arr_get (a_pcnt a) i = Some n -> n = sumZ (reg_on a i) (all_cpus a);
  ai_scnt : forall i n, arr_get (a_scnt a) i = Some n -> n = (match a_get a (ShrdEntry i) with Some h => b2z (h_reg h) | None => 0 end)
}.

(** The stacks are short and hold every running handler exactly once. *)
Record stacks_ok (a : abs_t) : Prop := {
  ai_wf : forall q h, a_get a q = Some h -> h_wf h = true;
  ai_depth : forall c st, arr_get (a_stk a) c = Some st -> Z.of_nat (length st) <= MAX_EVENT_NESTING /\ NoDup st;
  ai_some : forall c st x, arr_get (a_stk a) c = Some st -> x ∈ st -> is_Some x;
  ai_stk : forall c p, on_stack a c p -> exists h, a_get a (entry_of a c p) = Some h /\ h_run h = true;
  ai_one : forall c c' p p', on_stack a c p -> on_stack a c' p' -> entry_of a c p = entry_of a c' p' -> c = c' /\ p = p';
  ai_run : forall q h, a_get a q = Some h -> h_run h = true -> exists c p, on_stack a c p /\ q = entry_of a c p
}.

Record ainv (a : abs_t) : Prop := {
  ai_size : Z.of_nat (length (a_stk a)) * Z.of_nat (length (a_pcnt a)) < 2 ^ 32;
  ai_counts : counts_ok a;
  ai_stacks : stacks_ok a
}.

Lemma a_get_put a q h q' h0 :
  a_get a q = Some h0 -> a_get (a_put a q h) q' = (if decide (q = q') then Some h else a_get a q').
Proof.
  destruct q as [i|i], q' as [j|j]; cbn [a_get a_put a_priv a_shrd]; intros Hq; try (by destruct (decide _)).
  - pose proof (arr_get_Some_range _ _ _ Hq). destruct (decide _) as [[= <-]|Hne]; [by apply arr_get_insert_eq|].
    apply arr_get_insert_ne; [lia|congruence].
  - pose proof (arr_get_Some_range _ _ _ Hq). destruct (decide _) as [[= <-]|Hne]; [by apply arr_get_insert_eq|].
    apply arr_get_insert_ne; [lia|congruence].
Qed.

Lemma a_put_fields a q h :
  a_pcnt (a_put a q h) = a_pcnt a /\ a_scnt (a_put a q h) = a_scnt a /\ a_stk (a_put a q h) = a_stk a.
Proof. by destruct q. Qed.

Lemma c_put_fields a p n :
  a_priv (c_put a p n) = a_priv a /\ a_shrd (c_put a p n) = a_shrd a /\ a_stk (c_put a p n) = a_stk a /\
  length (a_pcnt (c_put a p n)) = length (a_pcnt a) /\ length (a_scnt (c_put a p n)) = length (a_scnt a).
Proof. destruct p; simpl; by rewrite ?length_insert. Qed.

Lemma c_get_put a p n p' n0 :
  c_get a p = Some n0 -> c_get (c_put a p n) p' = (if decide (p = p') then Some n else c_get a p').
Proof.
  destruct p as [i|i], p' as [j|j]; cbn [c_get c_put a_pcnt a_scnt]; intros Hp; try (by destruct (decide _)).
  - pose proof (arr_get_Some_range _ _ _ Hp). destruct (decide _) as [[= <-]|Hne]; [by apply arr_get_insert_eq|].
    apply arr_get_insert_ne; [lia|congruence].
  - pose proof (arr_get_Some_range _ _ _ Hp). destruct (decide _) as [[= <-]|Hne]; [by apply arr_get_insert_eq|].
    apply arr_get_insert_ne; [lia|congruence].
Qed.

(** An action that keeps the registration keeps the counts. *)
Lemma reg_on_same a q h h' i c :
  a_get a q = Some h -> h_reg h' = h_reg h -> reg_on (a_put a q h') i c = reg_on a i c.
Proof.
  intros Hq Hr. unfold reg_on. destruct (a_put_fields a q h') as (-> & _ & _).
  rewrite (a_get_put a q h' _ h Hq). destruct (decide _) as [Heq|]; [|done]. rewrite <- Heq, Hq, Hr. done.
Qed.

Lemma shrd_reg_same a q h h' i :
  a_get a q = Some h -> h_reg h' = h_reg h ->
  (match a_get (a_put a q h') (ShrdEntry i) with Some h => b2z (h_reg h) | None => 0 end) =
  (match a_get a (ShrdEntry i) with Some h => b2z (h_reg h) | None => 0 end).
Proof.
  intros Hq Hr. rewrite (a_get_put a q h' _ h Hq). destruct (decide _) as [Heq|]; [|done]. rewrite <- Heq, Hq, Hr. done.
Qed.

Lemma on_stack_put a q h c p : on_stack (a_put a q h) c p <-> on_stack a c p.
Proof. unfold on_stack. by destruct (a_put_fields a q h) as (_ & _ & ->). Qed.

Lemma entry_of_put a q h c p : entry_of (a_put a q h) c p = entry_of a c p.
Proof. unfold entry_of. by destruct (a_put_fields a q h) as (-> & _ & _). Qed.

(** Changing a handler without its running bit. *)
Lemma stacks_put a q h h' :
  stacks_ok a -> a_get a q = Some h -> h_wf h' = true -> h_run h' = h_run h -> stacks_ok (a_put a q h').
Proof.
  intros [Hwf Hd Hso Hst Ho Hr] Hq Hw Hrun. pose proof (a_put_fields a q h') as (_ & _ & Hf3). split.
  - intros q' h0. rewrite (a_get_put a q h' q' h Hq). destruct (decide _); [by intros [= <-]|apply Hwf].
  - rewrite Hf3. apply Hd.
  - rewrite Hf3. apply Hso.
  - intros c p Hon%on_stack_put. rewrite entry_of_put, (a_get_put a q h' _ h Hq). destruct (Hst c p Hon) as (h0 & Hg & Hh).
    destruct (decide _) as [Heq|]; [|eauto]. exists h'. split; [done|]. rewrite Hrun. rewrite <- Heq, Hq in Hg. by injection Hg as ->.
  - intros c c' p p' H1%on_stack_put H2%on_stack_put. rewrite !entry_of_put. by apply Ho.
  - intros q' h0. rewrite (a_get_put a q h' q' h Hq). intros Hg Hh.
    assert (exists h1, a_get a q' = Some h1 /\ h_run h1 = true) as (h1 & Hg1 & Hh1).
    { destruct (decide _) as [<-|]; [|eauto]. injection Hg as <-. exists h. split; [done|congruence]. }
    destruct (Hr q' h1 Hg1 Hh1) as (c & p & Hon & ->). exists c, p. rewrite on_stack_put, entry_of_put. done.
Qed.

Lemma counts_put_same a q h h' : counts_ok a -> a_get a q = Some h -> h_reg h' = h_reg h -> counts_ok (a_put a q h').
Proof.
  intros [Hp Hs] Hq Hreg. pose proof (a_put_fields a q h') as (Hf1 & Hf2 & Hf3). split.
  - intros i n. rewrite Hf1. intros Hi. rewrite (Hp i n Hi). unfold all_cpus. rewrite Hf3. apply sumZ_ext. intros c _.
    symmetry. by eapply reg_on_same.
  - intros i n. rewrite Hf2. intros Hi. rewrite (Hs i n Hi). symmetry. by eapply shrd_reg_same.
Qed.

(** The counts do not matter to the other clauses. *)
Lemma on_stack_cput a p n c p' : on_stack (c_put a p n) c p' <-> on_stack a c p'.
Proof. unfold on_stack. by destruct (c_put_fields a p n) as (_ & _ & -> & _). Qed.

Lemma entry_of_cput a p n c p' : entry_of (c_put a p n) c p' = entry_of a c p'.
Proof. unfold entry_of. by destruct (c_put_fields a p n) as (_ & _ & _ & -> & _). Qed.

Lemma a_get_cput a p n q : a_get (c_put a p n) q = a_get a q.
Proof. unfold a_get. destruct (c_put_fields a p n) as (-> & -> & _). done. Qed.

Lemma stacks_cput a p n : stacks_ok a -> stacks_ok (c_put a p n).
Proof.
  intros [Hwf Hd Hso Hst Ho Hr]. pose proof (c_put_fields a p n) as (_ & _ & Hf3 & _). split.
  - intros q h. rewrite a_get_cput. apply Hwf.
  - rewrite Hf3. apply Hd.
  - rewrite Hf3. apply Hso.
  - intros c p' Hon%on_stack_cput. rewrite entry_of_cput. setoid_rewrite a_get_cput. by apply Hst.
  - intros c c' p1 p2 H1%on_stack_cput H2%on_stack_cput. rewrite !entry_of_cput. by apply Ho.
  - intros q h. rewrite a_get_cput. intros Hg Hh. destruct (Hr q h Hg Hh) as (c & p' & Hon & ->). exists c, p'.
    rewrite on_stack_cput, entry_of_cput. done.
Qed.

Lemma block_index np c c' i i' : 0 <= i < np -> 0 <= i' < np -> c * np + i = c' * np + i' -> c = c' /\ i = i'.
Proof. intros Hi Hi' He. assert (c = c') by nia. subst. lia. Qed.

(** A handler that is registered or unregistered with its count. *)
Lemma counts_put a c p h h' n :
  ainv a -> 0 <= c < Z.of_nat (length (a_stk a)) -> a_get a (entry_of a c p) = Some h -> c_get a p = Some n ->
  counts_ok (c_put (a_put a (entry_of a c p) h') p (n + (b2z (h_reg h') - b2z (h_reg h)))).
Proof.
  intros [Hsz [Hp Hs] _] Hc Hq Hn. set (np := Z.of_nat (length (a_pcnt a))) in *.
  set (a1 := a_put a (entry_of a c p) h'). pose proof (a_put_fields a (entry_of a c p) h') as (Hf1 & Hf2 & Hf3). fold a1 in Hf1, Hf2, Hf3.
  assert (Hn1 : c_get a1 p = Some n) by (unfold c_get in *; by rewrite Hf1, Hf2).
  pose proof (c_put_fields a1 p (n + (b2z (h_reg h') - b2z (h_reg h)))) as (_ & _ & Hg3 & Hg4 & _).
  set (a2 := c_put a1 p _) in *.
  assert (Hget : forall q, a_get a2 q = (if decide (entry_of a c p = q) then Some h' else a_get a q)).
  { intros q. subst a2. rewrite a_get_cput. subst a1. by apply (a_get_put _ _ _ _ h). }
  assert (Hreg : forall i c', reg_on a2 i c' = (if decide (entry_of a c p = PrivEntry (c' * np + i)) then b2z (h_reg h') else reg_on a i c')).
  { intros i c'. unfold reg_on. rewrite Hg4, Hf1, Hget. by destruct (decide _). }
  assert (Hcpus : all_cpus a2 = all_cpus a) by (unfold all_cpus; by rewrite Hg3, Hf3).
  split.
  - intros i n' Hi. change (c_get a2 (PrivMap i) = Some n') in Hi. subst a2. rewrite (c_get_put a1 p _ _ n Hn1) in Hi.
    set (a2 := c_put a1 p _) in *. rewrite Hcpus. destruct (decide (p = PrivMap i)) as [->|Hne].
    + injection Hi as <-. simpl in Hn. rewrite (Hp i n Hn). simpl in Hq. pose proof (arr_get_Some_range _ _ _ Hn) as Hi.
      rewrite u32_small in Hq by (fold np; nia).
      rewrite (sumZ_update (reg_on a i) (reg_on a2 i) (all_cpus a) c).
      * rewrite Hreg. simpl. rewrite u32_small by (fold np; nia). rewrite decide_True by done. unfold reg_on at 3. cbn [a_get]. fold np in Hq |- *. by rewrite Hq.
      * apply NoDup_seqZ.
      * apply elem_of_seqZ. lia.
      * intros c' Hc' Hne. rewrite Hreg. simpl. rewrite u32_small by (fold np; nia). rewrite decide_False; [done|].
        intros [= He]. apply Hne. fold np in He. nia.
    + simpl in Hi. rewrite Hf1 in Hi. pose proof (arr_get_Some_range _ _ _ Hi) as Hir. rewrite (Hp i n' Hi). apply sumZ_ext. intros c' _.
      rewrite Hreg. rewrite decide_False; [done|]. destruct p as [i0|i0]; [|done]. simpl. simpl in Hn.
      pose proof (arr_get_Some_range _ _ _ Hn) as Hi0. fold np in Hi0, Hir |- *. rewrite u32_small by nia. intros [= He].
      destruct (block_index np c c' i0 i) as [_ ->]; done.
  - intros i n' Hi. change (c_get a2 (ShrdMap i) = Some n') in Hi. subst a2. rewrite (c_get_put a1 p _ _ n Hn1) in Hi.
    set (a2 := c_put a1 p _) in *. rewrite Hget. destruct (decide (p = ShrdMap i)) as [->|Hne].
    + injection Hi as <-. simpl in Hn, Hq. rewrite (Hs i n Hn). simpl. rewrite decide_True by done. simpl. rewrite Hq. lia.
    + simpl in Hi. rewrite Hf2 in Hi. rewrite (Hs i n' Hi). rewrite decide_False; [done|]. destruct p as [i0|i0]; simpl; [done|congruence].
Qed.

Lemma on_stack_stkput a c st0 st c' p' :
  arr_get (a_stk a) c = Some st0 ->
  (on_stack (stk_put a c st) c' p' <-> (c' = c /\ Some p' ∈ st) \/ (c' <> c /\ on_stack a c' p')).
Proof.
  intros Hc. pose proof (arr_get_Some_range _ _ _ Hc) as Hr. unfold on_stack. simpl. destruct (decide (c' = c)) as [->|Hne].
  - rewrite arr_get_insert_eq by done. split; [intros (? & [= <-] & ?); by left|intros [[_ ?]|[? _]]; [eauto|done]].
  - rewrite arr_get_insert_ne by (lia || done). split; [intros ?; by right|intros [[? _]|[_ ?]]; done].
Qed.

Lemma arr_get_stkput a c st0 st c' x :
  arr_get (a_stk a) c = Some st0 -> arr_get (a_stk (stk_put a c st)) c' = Some x ->
  (c' = c /\ x = st) \/ (c' <> c /\ arr_get (a_stk a) c' = Some x).
Proof.
  intros Hc. pose proof (arr_get_Some_range _ _ _ Hc) as Hr. simpl. destruct (decide (c' = c)) as [->|Hne].
  - rewrite arr_get_insert_eq by done. intros [= <-]. by left.
  - rewrite arr_get_insert_ne by (lia || done). by right.
Qed.

Lemma stacks_dispatch a c p h h' st :
  stacks_ok a -> a_get a (entry_of a c p) = Some h -> h_run h = false -> h_wf h' = true -> h_run h' = true ->
  arr_get (a_stk a) c = Some st -> Z.of_nat (length st) < MAX_EVENT_NESTING ->
  stacks_ok (stk_put (a_put a (entry_of a c p) h') c (st ++ [Some p])).
Proof.
  intros [Hwf Hd Hso Hst Ho Hr] Hq Hrun Hw Hrun' Hc Hlen.
  pose proof (a_put_fields a (entry_of a c p) h') as (Hf1 & _ & Hf3).
  set (a1 := a_put a (entry_of a c p) h') in *. assert (Hc1 : arr_get (a_stk a1) c = Some st) by (by rewrite Hf3).
  assert (Hent : forall c' p', entry_of (stk_put a1 c (st ++ [Some p])) c' p' = entry_of a c' p').
  { intros c' p'. unfold entry_of. simpl. by rewrite Hf1. }
  assert (Hget : forall q, a_get (stk_put a1 c (st ++ [Some p])) q = (if decide (entry_of a c p = q) then Some h' else a_get a q)).
  { intros q. subst a1. rewrite <- (a_get_put a (entry_of a c p) h' q h Hq). by destruct q. }
  assert (Hfree : forall c' p', on_stack a c' p' -> entry_of a c' p' <> entry_of a c p).
  { intros c' p' Hon Heq. destruct (Hst c' p' Hon) as (h0 & Hg & Hh). rewrite Heq, Hq in Hg. injection Hg as <-. congruence. }
  assert (Hon : forall c' p', on_stack (stk_put a1 c (st ++ [Some p])) c' p' <-> (c' = c /\ p' = p) \/ on_stack a c' p').
  { intros c' p'. rewrite (on_stack_stkput a1 c st) by done. subst a1. rewrite on_stack_put, elem_of_app, list_elem_of_singleton.
    split.
    - intros [[-> [?|[= ->]]]|[_ ?]]; [right; by exists st|by left|by right].
    - intros [[-> ->]|(st' & Hs & Hin)]; [left; auto|]. destruct (decide (c' = c)) as [->|]; [|right; split; [done|by exists st']].
      left. rewrite Hc in Hs. injection Hs as <-. auto. }
  split.
  - intros q h0. rewrite Hget. destruct (decide _); [by intros [= <-]|apply Hwf].
  - intros c' x [[-> ->]|[_ Hx]]%(arr_get_stkput a1 c st); [|rewrite Hf3 in Hx; by apply (Hd c')|done].
    rewrite length_app. simpl. split; [lia|]. apply list.NoDup_app. split; [by eapply Hd|]. split; [|apply NoDup_singleton].
    intros x Hx ->%list_elem_of_singleton. apply (Hfree c p); [by exists st|done].
  - intros c' x y [[-> ->]|[_ Hx]]%(arr_get_stkput a1 c st); [|rewrite Hf3 in Hx; by apply (Hso c' x)|done].
    intros [Hy| ->%list_elem_of_singleton]%elem_of_app; [by eapply Hso|by eexists].
  - intros c' p' Hp'. rewrite Hent, Hget. apply Hon in Hp' as [[-> ->]|Hp'].
    + rewrite decide_True by done. eauto.
    + rewrite decide_False by (intros Heq; by apply (Hfree c' p')). by apply Hst.
  - intros c1 c2 p1 p2 H1%Hon H2%Hon. rewrite !Hent. destruct H1 as [[-> ->]|H1], H2 as [[-> ->]|H2]; intros He.
    + done.
    + exfalso. by apply (Hfree c2 p2).
    + exfalso. by apply (Hfree c1 p1).
    + by apply Ho.
  - intros q h0. rewrite Hget. intros Hg Hh. destruct (decide (entry_of a c p = q)) as [<-|Hne].
    + exists c, p. rewrite Hon, Hent. auto.
    + destruct (Hr q h0 Hg Hh) as (c' & p' & Hp' & ->). exists c', p'. rewrite Hon, Hent. auto.
Qed.

Lemma stacks_complete a c p h h' st :
  stacks_ok a -> a_get a (entry_of a c p) = Some h -> h_wf h' = true -> h_run h' = false ->
  arr_get (a_stk a) c = Some (st ++ [Some p]) -> stacks_ok (stk_put (a_put a (entry_of a c p) h') c st).
Proof.
  intros [Hwf Hd Hso Hst Ho Hr] Hq Hw Hrun' Hc.
  pose proof (a_put_fields a (entry_of a c p) h') as (Hf1 & _ & Hf3).
  set (a1 := a_put a (entry_of a c p) h') in *. assert (Hc1 : arr_get (a_stk a1) c = Some (st ++ [Some p])) by (by rewrite Hf3).
  destruct (Hd c _ Hc) as [Hlen Hnd]. rewrite length_app in Hlen. apply list.NoDup_app in Hnd as (Hnd & Hnot & _).
  assert (Hnp : Some p ∉ st) by (intros Hin; apply (Hnot _ Hin), list_elem_of_singleton; done).
  assert (Hent : forall c' p', entry_of (stk_put a1 c st) c' p' = entry_of a c' p').
  { intros c' p'. unfold entry_of. simpl. by rewrite Hf1. }
  assert (Hget : forall q, a_get (stk_put a1 c st) q = (if decide (entry_of a c p = q) then Some h' else a_get a q)).
  { intros q. subst a1. rewrite <- (a_get_put a (entry_of a c p) h' q h Hq). by destruct q. }
  assert (Honp : on_stack a c p) by (exists (st ++ [Some p]); split; [done|]; apply elem_of_app; right; by apply list_elem_of_singleton).
  assert (Hon : forall c' p', on_stack (stk_put a1 c st) c' p' <-> on_stack a c' p' /\ ~ (c' = c /\ p' = p)).
  { intros c' p'. rewrite (on_stack_stkput a1 c (st ++ [Some p])) by done. subst a1. rewrite on_stack_put. split.
    - intros [[-> Hin]|[Hne Hs]]; [|split; [done|naive_solver]]. split; [exists (st ++ [Some p]); split; [done|]; apply elem_of_app; by left|].
      intros [_ ->]. done.
    - intros [(x & Hx & Hin) Hne]. destruct (decide (c' = c)) as [->|]; [|right; split; [done|by exists x]].
      left. split; [done|]. rewrite Hc in Hx. injection Hx as <-. apply elem_of_app in Hin as [?|[= ->]%list_elem_of_singleton]; [done|].
      exfalso. by apply Hne. }
  assert (Hother : forall c' p', on_stack a c' p' -> ~ (c' = c /\ p' = p) -> entry_of a c p <> entry_of a c' p').
  { intros c' p' Hs Hne Heq. apply Hne. by destruct (Ho c c' p p' Honp Hs Heq) as [-> ->]. }
  split.
  - intros q h0. rewrite Hget. destruct (decide _); [by intros [= <-]|apply Hwf].
  - intros c' x [[-> ->]|[_ Hx]]%(arr_get_stkput a1 c (st ++ [Some p])); [|rewrite Hf3 in Hx; by apply (Hd c')|done].
    split; [lia|done].
  - intros c' x y [[-> ->]|[_ Hx]]%(arr_get_stkput a1 c (st ++ [Some p])); [|rewrite Hf3 in Hx; by apply (Hso c' x)|done].
    intros Hy. eapply Hso; [exact Hc|]. apply elem_of_app. by left.
  - intros c' p' [Hp' Hne]%Hon. rewrite Hent, Hget, decide_False by (by apply Hother). by apply Hst.
  - intros c1 c2 p1 p2 [H1 _]%Hon [H2 _]%Hon. rewrite !Hent. by apply Ho.
  - intros q h0. rewrite Hget. intros Hg Hh. destruct (decide _) as [Heq|Hne]; [congruence|].
    destruct (Hr q h0 Hg Hh) as (c' & p' & Hp' & ->). exists c', p'. rewrite Hon, Hent. split; [|done].
    split; [done|]. intros [-> ->]. done.
Qed.

Lemma counts_stkput a c st : counts_ok a -> counts_ok (stk_put a c st).
Proof.
  intros [Hp Hs]. split; [|done]. intros i n Hi. rewrite (Hp i n Hi). unfold all_cpus. simpl. by rewrite length_insert.
Qed.

(** Every step of the abstract machine preserves the invariant. *)
Lemma ainv_step a a' : ainv a -> astep a a' -> ainv a'.
Proof.
  intros [Hsz Hcnt Hstk] Hstep.
  destruct Hstep as [a q act h h' Hl Hq Hs|a c p h h' n Hc Hq Hs Hn|a c p h h' n Hc Hq Hs Hn|a c p h h' st Hq Hs Hc Hlen|a c p h h' st Hc Hq Hs];
    pose proof (ai_wf _ Hstk _ _ Hq) as Hw; pose proof (spec_step_wf _ _ _ Hw Hs) as Hw'.
  - assert (h_reg h' = h_reg h /\ h_run h' = h_run h) as [Hr1 Hr2] by (destruct h as [[] [] []], act; simpl in *; simplify_eq; done).
    pose proof (a_put_fields a q h') as (Hf1 & _ & Hf3). split; [by rewrite Hf1, Hf3|by eapply counts_put_same|by eapply stacks_put].
  - assert (h_run h' = h_run h /\ b2z (h_reg h') - b2z (h_reg h) = 1) as [Hr1 Hr2] by (destruct h as [[] [] []]; simpl in *; simplify_eq; done).
    pose proof (a_put_fields a (entry_of a c p) h') as (Hf1 & _ & Hf3).
    pose proof (c_put_fields (a_put a (entry_of a c p) h') p (n + 1)) as (_ & _ & Hg3 & Hg4 & _).
    split; [by rewrite Hg3, Hg4, Hf1, Hf3|rewrite <- Hr2; by apply counts_put|by eapply stacks_cput, stacks_put].
  - assert (h_run h' = h_run h /\ b2z (h_reg h') - b2z (h_reg h) = -1) as [Hr1 Hr2] by (destruct h as [[] [] []]; simpl in *; simplify_eq; done).
    pose proof (a_put_fields a (entry_of a c p) h') as (Hf1 & _ & Hf3).
    pose proof (c_put_fields (a_put a (entry_of a c p) h') p (n - 1)) as (_ & _ & Hg3 & Hg4 & _).
    split; [by rewrite Hg3, Hg4, Hf1, Hf3|replace (n - 1) with (n + -1) by lia; rewrite <- Hr2; by apply counts_put|by eapply stacks_cput, stacks_put].
  - assert (h_reg h' = h_reg h /\ h_run h = false /\ h_run h' = true) as (Hr1 & Hr2 & Hr3) by (destruct h as [[] [] []]; simpl in *; simplify_eq; done).
    pose proof (a_put_fields a (entry_of a c p) h') as (Hf1 & _ & Hf3).
    split; [simpl; by rewrite length_insert, Hf1, Hf3|by eapply counts_stkput, counts_put_same|by eapply stacks_dispatch].
  - assert (h_reg h' = h_reg h /\ h_run h' = false) as (Hr1 & Hr2) by (destruct h as [[] [] []]; simpl in *; simplify_eq; done).
    pose proof (a_put_fields a (entry_of a c p) h') as (Hf1 & _ & Hf3).
    split; [simpl; by rewrite length_insert, Hf1, Hf3|by eapply counts_stkput, counts_put_same|by eapply stacks_complete].
Qed.

Lemma outstanding_top a c st p : arr_get (a_stk a) c = Some st -> outstanding a c = Some p <-> list.last st = Some (Some p).
Proof. intros Hc. unfold outstanding. rewrite Hc. by destruct (list.last st) as [[]|]; simpl; split; intros; simplify_eq. Qed.

(** An action of a CPU is a step of the machine. *)
Lemma act_on_step c act p a a' :
  0 <= c < Z.of_nat (length (a_stk a)) -> act_on c act p a = Some a' -> astep a a'.
Proof.
  intros Hc. unfold act_on. destruct (a_get a (entry_of a c p)) as [h|] eqn:Hh; [|done].
  destruct (spec_step act h) as [h'|] eqn:Hsp; [|done]. cbv zeta.
  assert (Hdone : spec_step DO_COMPLETE h = Some h' -> match arr_get (a_stk a) c with
    | Some st => if decide (outstanding a c = Some p) then Some (stk_put (a_put a (entry_of a c p) h') c (removelast st)) else None
    | None => None end = Some a' -> astep a a').
  { intros Hs. destruct (arr_get (a_stk a) c) as [st|] eqn:Hst; [|done]. destruct (decide _) as [Ho|]; [|done]. intros [= <-].
    apply (outstanding_top a c st p Hst) in Ho. apply last_Some in Ho as [st' ->]. rewrite removelast_last.
    by eapply ast_complete. }
  destruct act; try (intros [= <-]; eapply ast_local; [|exact Hh|exact Hsp]; reflexivity); try (by apply Hdone).
  - destruct (c_get a p) as [n|] eqn:Hn; [|done]. intros [= <-]. by eapply ast_register.
  - destruct (c_get a p) as [n|] eqn:Hn; [|done]. intros [= <-]. by eapply ast_unregister.
  - destruct (arr_get (a_stk a) c) as [st|] eqn:Hst; [|done].
    destruct (Z.ltb_spec (Z.of_nat (length st)) MAX_EVENT_NESTING); [|done]. intros [= <-]. by eapply ast_dispatch.
Qed.

(** An action leaves the handlers of the other events and CPUs, the counts of
    the other events and the stacks of the other CPUs alone. *)
Lemma act_on_frame c act p a a' :
  act_on c act p a = Some a' ->
  (forall q, q <> entry_of a c p -> a_get a' q = a_get a q) /\ (forall p', p' <> p -> c_get a' p' = c_get a p') /\
  (forall c', 0 <= c' -> c' <> c -> arr_get (a_stk a') c' = arr_get (a_stk a) c') /\ a_pnum a' = a_pnum a /\ a_snum a' = a_snum a.
Proof.
  unfold act_on. destruct (a_get a (entry_of a c p)) as [h|] eqn:Hh; [|done]. destruct (spec_step act h) as [h'|]; [|done]. cbv zeta.
  pose proof (fun q => a_get_put a (entry_of a c p) h' q h Hh) as Hg. set (a1 := a_put a _ _) in *.
  assert (Hfields : (forall p', c_get a1 p' = c_get a p') /\ a_stk a1 = a_stk a /\ a_pnum a1 = a_pnum a /\ a_snum a1 = a_snum a).
  { unfold a1. destruct (entry_of a c p); by split_and!; [intros []|..]. }
  destruct Hfields as (Hc & Hs & Hp & Hq).
  assert (Hbase : forall q, q <> entry_of a c p -> a_get a1 q = a_get a q) by (intros q Hne; by rewrite Hg, decide_False).
  assert (Hcnt : forall n, (fun n => c_put a1 p n) <$> Some n = Some a' ->
    c_get a p <> None -> (forall q, q <> entry_of a c p -> a_get a' q = a_get a q) /\ (forall p', p' <> p -> c_get a' p' = c_get a p') /\
    (forall c', 0 <= c' -> c' <> c -> arr_get (a_stk a') c' = arr_get (a_stk a) c') /\ a_pnum a' = a_pnum a /\ a_snum a' = a_snum a).
  { intros n [= <-] Hne. destruct (c_put_fields a1 p n) as (_ & _ & Hst & _). destruct (c_get a p) as [n0|] eqn:Hn0; [|done].
    split_and!; [intros q Hq'; rewrite a_get_cput; by apply Hbase|intros p' Hp'|intros; by rewrite Hst, Hs|by destruct p|by destruct p].
    rewrite (c_get_put a1 p n p' n0) by (by rewrite Hc). by rewrite decide_False by congruence. }
  assert (Hstk : forall st st', arr_get (a_stk a) c = Some st -> a' = stk_put a1 c st' ->
    (forall q, q <> entry_of a c p -> a_get a' q = a_get a q) /\ (forall p', p' <> p -> c_get a' p' = c_get a p') /\
    (forall c', 0 <= c' -> c' <> c -> arr_get (a_stk a') c' = arr_get (a_stk a) c') /\ a_pnum a' = a_pnum a /\ a_snum a' = a_snum a).
  { intros st st' Hst ->. pose proof (arr_get_Some_range _ _ _ Hst).
    split_and!; [intros q Hne; rewrite <- (Hbase q Hne); by destruct q|intros p' _; rewrite <- Hc; by destruct p'| |done|done].
    intros c' H0 Hne. simpl. rewrite Hs. apply arr_get_insert_ne; [lia|done]. }
  destruct act; try (intros [= <-]; split_and!; try done; intros; by rewrite ?Hc, ?Hs).
  - destruct (c_get a p) as [n|] eqn:Hn; [|done]. intros Ha. by apply (Hcnt (n + 1)).
  - destruct (c_get a p) as [n|] eqn:Hn; [|done]. intros Ha. by apply (Hcnt (n - 1)).
  - destruct (arr_get (a_stk a) c) as [st|] eqn:Hst; [|done]. destruct (decide _); [|done]. intros [= <-]. by eapply Hstk.
  - destruct (arr_get (a_stk a) c) as [st|] eqn:Hst; [|done]. destruct (decide _); [|done]. intros [= <-]. by eapply Hstk.
  - destruct (arr_get (a_stk a) c) as [st|] eqn:Hst; [|done]. destruct (_ <? _); [|done]. intros [= <-]. by eapply Hstk.
Qed.
