(* ===== verification/SdeiSim.v ===== *)
(** * SDEI dispatcher: the operations refine the abstract machine

    [abs] forgets everything but the event numbers, the handlers, the counts and
    the dispatch stacks.  [quiet] computations leave these alone; they are
    closed under the constructs of the model, so that most of them follow by
    [quiet_auto].  [awp] executes the others on abstract states. *)
From stdpp Require Import base list numbers option.
From Stdlib Require Import ZArith Lia.
From S2P Require Import Prelude IntrMgmt Ehf SdeiDefs SdeiIntr SdeiMain SdeiSpec.
#[local] Open Scope Z_scope.

Definition stack_of (c : sdei_cpu_state_t) : list (option map_ptr) := map dc_map (take (Z.to_nat (stack_top c)) (dispatch_stack c)).
Definition abs {C} (s : sdei_state C) : abs_t :=
  Abs (map (fun e => decode (se_state e)) (priv_table s)) (map (fun e => decode (se_state e)) (shrd_table s))
    (map reg_count (priv_maps s)) (map reg_count (shrd_maps s)) (map stack_of (sdei_cpus s))
    (map ev_num (priv_maps s)) (map ev_num (shrd_maps s)).

Lemma star_trans {S} (R : S -> S -> Prop) a b c : star R a b -> star R b c -> star R a c.
Proof. intros H1 H2. revert a H1. induction H2 as [|x y z _ IH Hr]; intros a H1; [done|]. eapply star_step; [by apply IH|done]. Qed.

Lemma star_one {S} (R : S -> S -> Prop) a b : R a b -> star R a b.
Proof. intros H. eapply star_step; [apply star_refl|done]. Qed.

Lemma map_insert {A B} (f : A -> B) l i x : map f (<[i := x]> l) = <[i := f x]> (map f l).
Proof. apply (list_fmap_insert f). Qed.

Lemma map_insert_same {A B} (f : A -> B) l i x y : l !! i = Some y -> f x = f y -> map f (<[i := x]> l) = map f l.
Proof.
  intros Hi Hf. rewrite map_insert. apply list_insert_id. change (map f l) with (f <$> l).
  rewrite list_lookup_fmap, Hi. simpl. by rewrite Hf.
Qed.

Section sim.
Context {C : Type} `{!SdeiPlat C} (np ncpu : nat).
#[local] Abbreviation SM := (M (sdei_state C)).
Implicit Types s : sdei_state C.

Definition cpu_ok (c : sdei_cpu_state_t) : Prop :=
  Z.of_nat (length (dispatch_stack c)) = MAX_EVENT_NESTING /\ 0 <= stack_top c <= MAX_EVENT_NESTING.

Record swf s : Prop := {
  sw_priv : Forall (fun e => valid_state (se_state e)) (priv_table s);
  sw_shrd : Forall (fun e => valid_state (se_state e)) (shrd_table s);
  sw_cpus : Forall cpu_ok (sdei_cpus s);
  sw_np : length (priv_maps s) = np;
  sw_ncpu : length (sdei_cpus s) = ncpu
}.

Definition quiet {A} (m : SM A) (φ : A -> Prop) : Prop :=
  forall s, swf s -> match m s with Ret a s' => φ a /\ swf s' /\ abs s' = abs s | Halt _ _ => True end.

(** ** Closure *)
Lemma quiet_ret {A} (a : A) (φ : A -> Prop) : φ a -> quiet (ret a) φ.
Proof. by intros H s Hs. Qed.

Lemma quiet_halt {A} h (φ : A -> Prop) : quiet (halt_with h) φ.
Proof. by intros s Hs. Qed.

Lemma quiet_gets {A} (f : sdei_state C -> A) (φ : A -> Prop) : (forall s, swf s -> φ (f s)) -> quiet (gets f) φ.
Proof. intros H s Hs. split; [by apply H|done]. Qed.

Lemma quiet_bind {A B} (m : SM A) (k : A -> SM B) (ψ : A -> Prop) φ :
  quiet m ψ -> (forall a, ψ a -> quiet (k a) φ) -> quiet (bind m k) φ.
Proof.
  intros Hm Hk s Hs. unfold bind. specialize (Hm s Hs). destruct (m s) as [a s1|]; [|done].
  destruct Hm as (Ha & Hs1 & He1). specialize (Hk a Ha s1 Hs1). destruct (k a s1) as [b s2|]; [|done].
  destruct Hk as (Hb & Hs2 & He2). split; [done|]. split; [done|]. congruence.
Qed.

Lemma quiet_mono {A} (m : SM A) (φ ψ : A -> Prop) : quiet m φ -> (forall a, φ a -> ψ a) -> quiet m ψ.
Proof. intros Hm Hi s Hs. specialize (Hm s Hs). destruct (m s); [|done]. destruct Hm as (? & ? & ?). auto. Qed.

Lemma quiet_when b (m : SM unit) φ : φ tt -> quiet m φ -> quiet (when b m) φ.
Proof. destruct b; simpl; [done|]. intros ? _. by apply quiet_ret. Qed.

Lemma quiet_deref {A} (o : option A) (φ : A -> Prop) : (forall a, o = Some a -> φ a) -> quiet (deref o) φ.
Proof. destruct o; intros H; [apply quiet_ret; auto|apply quiet_halt]. Qed.

Lemma quiet_forM {A} (l : list A) (f : A -> SM unit) : (forall x, quiet (f x) (fun _ => True)) -> quiet (forM_ l f) (fun _ => True).
Proof.
  intros Hf. induction l as [|x l IH]; simpl; [by apply quiet_ret|]. eapply quiet_bind; [apply Hf|]. intros _ _. done.
Qed.

(** A modification of the parts that are forgotten. *)
Lemma quiet_modify (f : sdei_state C -> sdei_state C) :
  (forall s, priv_table (f s) = priv_table s /\ shrd_table (f s) = shrd_table s /\ sdei_cpus (f s) = sdei_cpus s /\
             priv_maps (f s) = priv_maps s /\ shrd_maps (f s) = shrd_maps s) ->
  quiet (modify f) (fun _ => True).
Proof.
  intros Hf s [H1 H2 H3 H4 H5]. simpl. destruct (Hf s) as (E1 & E2 & E3 & E4 & E5). split; [done|].
  split; [split; congruence|]. unfold abs. congruence.
Qed.

(** ** Elementary operations *)
Lemma quiet_assert b : quiet (sdei_assert b) (fun _ => True).
Proof. unfold sdei_assert. destruct (_ && _); [apply quiet_halt|by apply quiet_ret]. Qed.

Lemma quiet_get_map p : quiet (get_map p) (fun _ => True).
Proof. destruct p; eapply quiet_bind; try (by apply (quiet_gets _ (fun _ => True))); intros; by apply quiet_deref. Qed.

Lemma quiet_get_entry q : quiet (get_entry q) (fun _ => True).
Proof. destruct q; eapply quiet_bind; try (by apply (quiet_gets _ (fun _ => True))); intros; by apply quiet_deref. Qed.

(** What a pointer points to. *)
Definition map_at (s : sdei_state C) (p : map_ptr) : option sdei_ev_map_t :=
  match p with PrivMap i => arr_get (priv_maps s) i | ShrdMap i => arr_get (shrd_maps s) i end.
Definition entry_at (s : sdei_state C) (q : entry_ptr) : option sdei_entry_t :=
  match q with PrivEntry i => arr_get (priv_table s) i | ShrdEntry i => arr_get (shrd_table s) i end.

Lemma get_map_inv p s m s' : get_map p s = Ret m s' -> s' = s /\ map_at s p = Some m.
Proof. destruct p; unfold get_map, bind, gets, deref, ret, halt_with; simpl; destruct (arr_get _ _); simpl; intros; by simplify_eq. Qed.

Lemma get_map_run p s m : map_at s p = Some m -> get_map p s = Ret m s.
Proof. destruct p; unfold get_map, bind, gets, deref, ret, halt_with; simpl; by intros ->. Qed.

Lemma get_entry_inv q s e s' : get_entry q s = Ret e s' -> s' = s /\ entry_at s q = Some e.
Proof. destruct q; unfold get_entry, bind, gets, deref, ret, halt_with; simpl; destruct (arr_get _ _); simpl; intros; by simplify_eq. Qed.

Lemma get_entry_run q s e : entry_at s q = Some e -> get_entry q s = Ret e s.
Proof. destruct q; unfold get_entry, bind, gets, deref, ret, halt_with; simpl; by intros ->. Qed.

Definition store_map (p : map_ptr) (m : sdei_ev_map_t) (s : sdei_state C) : sdei_state C :=
  match p with
  | PrivMap i => set_maps (<[Z.to_nat i := m]> (priv_maps s)) (shrd_maps s) s
  | ShrdMap i => set_maps (priv_maps s) (<[Z.to_nat i := m]> (shrd_maps s)) s
  end.
Definition store_entry (q : entry_ptr) (e : sdei_entry_t) (s : sdei_state C) : sdei_state C :=
  match q with
  | PrivEntry i => set_tables (<[Z.to_nat i := e]> (priv_table s)) (shrd_table s) s
  | ShrdEntry i => set_tables (priv_table s) (<[Z.to_nat i := e]> (shrd_table s)) s
  end.

Lemma put_map_run p m m0 s : map_at s p = Some m0 -> put_map p m s = Ret tt (store_map p m s).
Proof.
  destruct p; unfold put_map, bind, gets, deref, ret, halt_with, modify, map_at; simpl; intros Hm; pose proof (arr_get_Some_range _ _ _ Hm);
    rewrite arr_set_in_range by done; done.
Qed.

Lemma put_entry_run q e e0 s : entry_at s q = Some e0 -> put_entry q e s = Ret tt (store_entry q e s).
Proof.
  destruct q; unfold put_entry, bind, gets, deref, ret, halt_with, modify, entry_at; simpl; intros Hm; pose proof (arr_get_Some_range _ _ _ Hm);
    rewrite arr_set_in_range by done; done.
Qed.

Lemma abs_entry s q e : entry_at s q = Some e -> a_get (abs s) q = Some (decode (se_state e)).
Proof. destruct q; simpl; intros He; change (map ?f ?l) with (f <$> l); by rewrite arr_get_fmap, He. Qed.

Lemma abs_count s p m : map_at s p = Some m -> c_get (abs s) p = Some (reg_count m).
Proof. destruct p; simpl; intros He; change (map ?f ?l) with (f <$> l); by rewrite arr_get_fmap, He. Qed.

Lemma abs_store_entry s q e : abs (store_entry q e s) = a_put (abs s) q (decode (se_state e)).
Proof. destruct q; unfold abs; simpl; by rewrite map_insert. Qed.

Lemma abs_store_entry_same s q e e0 :
  entry_at s q = Some e0 -> decode (se_state e) = decode (se_state e0) -> abs (store_entry q e s) = abs s.
Proof.
  destruct q; unfold abs; simpl; intros He%arr_get_lookup Hd; rewrite (map_insert_same _ _ _ _ e0); done.
Qed.

Lemma abs_num s p m : map_at s p = Some m -> n_get (abs s) p = Some (ev_num m).
Proof. destruct p; simpl; intros He; change (map ?f ?l) with (f <$> l); by rewrite arr_get_fmap, He. Qed.

Lemma abs_store_map s p m m0 :
  map_at s p = Some m0 -> ev_num m = ev_num m0 -> abs (store_map p m s) = c_put (abs s) p (reg_count m).
Proof.
  destruct p; unfold abs, c_put; simpl; intros He%arr_get_lookup Hn; rewrite (map_insert reg_count), (map_insert_same ev_num _ _ _ m0); done.
Qed.

Lemma abs_store_map_same s p m m0 :
  map_at s p = Some m0 -> reg_count m = reg_count m0 /\ ev_num m = ev_num m0 -> abs (store_map p m s) = abs s.
Proof.
  intros Hm [Hd Hn]. rewrite (abs_store_map s p m m0 Hm Hn). destruct p; unfold abs, c_put; simpl in *; apply arr_get_lookup in Hm;
    rewrite Hd, list_insert_id; try done; change (map ?f ?l) with (f <$> l); by rewrite list_lookup_fmap, Hm.
Qed.

Lemma swf_store_entry s q e : swf s -> valid_state (se_state e) -> swf (store_entry q e s).
Proof. intros [H1 H2 H3 H4 H5] He. destruct q; split; simpl; try done; by apply Forall_insert. Qed.

Lemma swf_store_map s p m : swf s -> swf (store_map p m s).
Proof. intros [H1 H2 H3 H4 H5]. destruct p; split; simpl; try done. by rewrite length_insert. Qed.

Lemma entry_valid s q e : swf s -> entry_at s q = Some e -> valid_state (se_state e).
Proof.
  intros [H1 H2 _ _ _]. destruct q; simpl; intros He%arr_get_lookup.
  - by eapply (Forall_lookup_1 _ _ _ _ H1).
  - by eapply (Forall_lookup_1 _ _ _ _ H2).
Qed.

Lemma store_entry_id s q e : entry_at s q = Some e -> store_entry q e s = s.
Proof. destruct q, s; unfold store_entry, set_tables; simpl; intros He%arr_get_lookup; by rewrite list_insert_id. Qed.

(** A transition either is allowed and made, or is not and changes nothing. *)
Lemma trans_run q act s :
  swf s ->
  match can_sdei_state_trans q act s with
  | Halt _ _ => entry_at s q = None
  | Ret b s' => exists e, entry_at s q = Some e /\
      match spec_step act (decode (se_state e)) with
      | Some h' => b = true /\ s' = store_entry q (set_se_state (encode h') e) s
      | None => b = false /\ s' = s
      end
  end.
Proof.
  intros Hs. unfold can_sdei_state_trans. destruct (entry_at s q) as [e|] eqn:He.
  - erewrite bind_run by (by apply get_entry_run). rewrite (next_state_spec _ act (entry_valid s q e Hs He)).
    erewrite bind_run by reflexivity. destruct (spec_step _ _) as [h'|] eqn:Hsp; simpl fst; simpl snd.
    + erewrite bind_run by (by eapply put_entry_run). exists e. by rewrite Hsp.
    + erewrite bind_run by (by eapply put_entry_run). exists e. rewrite Hsp. split; [done|]. split; [done|].
      destruct e. simpl. by apply store_entry_id.
  - destruct q; unfold get_entry, bind, gets, deref, halt_with; simpl in *; by rewrite He.
Qed.

Lemma trans_valid s q act e h' :
  swf s -> entry_at s q = Some e -> spec_step act (decode (se_state e)) = Some h' -> swf (store_entry q (set_se_state (encode h') e) s).
Proof.
  intros Hs He Hsp. apply swf_store_entry; [done|]. apply encode_valid.
  eapply spec_step_wf; [|exact Hsp]. by apply valid_decode, (entry_valid s q).
Qed.

Lemma quiet_trans_same q act : act = DO_RELEASE \/ act = DO_ROUTING \/ act = DO_CONTEXT -> quiet (can_sdei_state_trans q act) (fun _ => True).
Proof.
  intros Hl s Hs. pose proof (trans_run q act s Hs) as Ht. destruct (can_sdei_state_trans q act s) as [b s'|]; [|done].
  destruct Ht as (e & He & Ht). destruct (spec_step _ _) as [h'|] eqn:Hsp; destruct Ht as [-> ->]; [|done].
  split; [done|]. split; [by eapply trans_valid|]. apply (abs_store_entry_same _ _ _ e); [done|]. simpl. rewrite decode_encode.
  destruct Hl as [->|[->| ->]]; cbn [spec_step] in Hsp; repeat case_match; by simplify_eq.
Qed.

(** A read and a write back of a mapping or an entry. *)
Lemma quiet_map_update {A} p (f : sdei_ev_map_t -> sdei_ev_map_t) (k : sdei_ev_map_t -> SM A) φ :
  (forall m, reg_count (f m) = reg_count m /\ ev_num (f m) = ev_num m) -> (forall m, quiet (k m) φ) ->
  quiet (let! m := get_map p in put_map p (f m) ;;; k m) φ.
Proof.
  intros Hf Hk s Hs. unfold bind at 1. destruct (get_map p s) as [m s'|] eqn:Hm; [|done].
  apply get_map_inv in Hm as [-> Hm]. erewrite bind_run by (by eapply put_map_run).
  pose proof (Hk m _ (swf_store_map s p (f m) Hs)) as H1. destruct (k m _); [|done]. by rewrite (abs_store_map_same s p (f m) m) in H1.
Qed.

Lemma quiet_entry_update {A} q (f : sdei_entry_t -> sdei_entry_t) (k : sdei_entry_t -> SM A) φ :
  (forall e, se_state (f e) = se_state e) -> (forall e, quiet (k e) φ) ->
  quiet (let! e := get_entry q in put_entry q (f e) ;;; k e) φ.
Proof.
  intros Hf Hk s Hs. unfold bind at 1. destruct (get_entry q s) as [e s'|] eqn:He; [|done].
  apply get_entry_inv in He as [-> He]. erewrite bind_run by (by eapply put_entry_run).
  assert (Hs' : swf (store_entry q (f e) s)) by (apply swf_store_entry; [done|rewrite Hf; by eapply entry_valid]).
  pose proof (Hk e _ Hs') as H1. destruct (k e _); [|done].
  rewrite (abs_store_entry_same s q (f e) e) in H1; [done..|by rewrite Hf].
Qed.

Lemma quiet_map_unlock p : quiet (sdei_map_unlock p) (fun _ => True).
Proof.
  intros s Hs. pose proof (quiet_map_update p (set_map_lock false) (fun _ => ret tt) (fun _ => True) ltac:(done) ltac:(by intros; apply quiet_ret) s Hs) as H.
  unfold sdei_map_unlock, bind in *. destruct (get_map p s); [|done]. destruct (put_map _ _ _); done.
Qed.

Lemma quiet_map_lock p : quiet (sdei_map_lock p) (fun _ => True).
Proof.
  intros s Hs. pose proof (quiet_map_update p (set_map_lock true) (fun _ => ret tt) (fun _ => True) ltac:(done) ltac:(by intros; apply quiet_ret) s Hs) as H.
  unfold sdei_map_lock, bind in *. destruct (get_map p s) as [m ?|]; [|done]. destruct (map_lock m); [done|].
  destruct (put_map _ _ _); done.
Qed.

(** The entry of an event on a CPU. *)
Definition eptr (me : Z) (p : map_ptr) : entry_ptr :=
  match p with PrivMap i => PrivEntry (u32 (me * Z.of_nat np) + i) | ShrdMap i => ShrdEntry i end.

Lemma eptr_abs me p s : swf s -> entry_of (abs s) me p = eptr me p.
Proof. intros [_ _ _ H _]. destruct p; simpl; [|done]. by rewrite length_map, H. Qed.

Lemma quiet_get_event_entry me p : quiet (get_event_entry me p) (fun q => q = eptr me p).
Proof.
  intros s Hs. unfold get_event_entry, bind. destruct (get_map p s) as [m s'|] eqn:Hm; [|done].
  apply get_map_inv in Hm as [-> _]. destruct (is_event_private m); unfold gets, ret, halt_with; destruct p; try done.
  simpl. by rewrite (sw_np s Hs).
Qed.

(** ** CPUs *)
Lemma quiet_get_pe me : quiet (get_pe me) (fun _ => True).
Proof. eapply quiet_bind; [by apply (quiet_gets _ (fun _ => True))|]. intros; by apply quiet_deref. Qed.

Lemma quiet_put_pe me x : quiet (put_pe me x) (fun _ => True).
Proof.
  eapply quiet_bind; [by apply (quiet_gets _ (fun _ => True))|]. intros l _. eapply quiet_bind; [by apply (quiet_deref _ (fun _ => True))|].
  intros l' _. by apply quiet_modify.
Qed.

Lemma quiet_get_cpu me : quiet (get_cpu me) (fun _ => True).
Proof. eapply quiet_bind; [by apply (quiet_gets _ (fun _ => True))|]. intros; by apply quiet_deref. Qed.

Lemma quiet_in_ehf {A} me (m : M ehf_state A) : quiet (in_ehf me m) (fun _ => True).
Proof.
  eapply quiet_bind; [apply quiet_get_pe|]. intros pe _ s Hs. destruct (m _) as [a t|]; [|done].
  revert s Hs. apply (quiet_bind _ _ (fun _ => True)); [apply quiet_put_pe|]. intros _ _.
  eapply quiet_bind; [by apply quiet_modify|]. intros _ _. by apply quiet_ret.
Qed.

Lemma quiet_ic_do f : quiet (ic_do f) (fun _ => True).
Proof. by apply quiet_modify. Qed.

Lemma abs_put_cpu s me c c0 :
  arr_get (sdei_cpus s) me = Some c0 -> stack_of c = stack_of c0 -> abs (set_sdei_cpus (<[Z.to_nat me := c]> (sdei_cpus s)) s) = abs s.
Proof. intros Hc%arr_get_lookup Hst. unfold abs. simpl. by rewrite (map_insert_same _ _ _ _ c0). Qed.

Lemma swf_put_cpu s me c : swf s -> cpu_ok c -> swf (set_sdei_cpus (<[Z.to_nat me := c]> (sdei_cpus s)) s).
Proof. intros [H1 H2 H3 H4 H5] Hc. split; simpl; try done; [by apply Forall_insert|by rewrite length_insert]. Qed.

Lemma get_cpu_inv me s c s' : get_cpu me s = Ret c s' -> s' = s /\ arr_get (sdei_cpus s) me = Some c.
Proof. unfold get_cpu, bind, gets, deref, ret, halt_with. destruct (arr_get _ _); intros; by simplify_eq. Qed.

Lemma get_cpu_run me s c : arr_get (sdei_cpus s) me = Some c -> get_cpu me s = Ret c s.
Proof. unfold get_cpu, bind, gets, deref, ret. by intros ->. Qed.

Lemma put_cpu_run me s c c0 :
  arr_get (sdei_cpus s) me = Some c0 -> put_cpu me c s = Ret tt (set_sdei_cpus (<[Z.to_nat me := c]> (sdei_cpus s)) s).
Proof.
  intros Hc. pose proof (arr_get_Some_range _ _ _ Hc). unfold put_cpu, bind, gets, deref, ret, modify.
  by rewrite arr_set_in_range.
Qed.

Lemma cpu_valid s me c : swf s -> arr_get (sdei_cpus s) me = Some c -> cpu_ok c.
Proof. intros [_ _ H _ _] Hc%arr_get_lookup. by eapply (Forall_lookup_1 _ _ _ _ H). Qed.

Lemma quiet_cpu_update {A} me (f : sdei_cpu_state_t -> sdei_cpu_state_t) (k : sdei_cpu_state_t -> SM A) φ :
  (forall c, stack_of (f c) = stack_of c /\ dispatch_stack (f c) = dispatch_stack c /\ stack_top (f c) = stack_top c) ->
  (forall c, quiet (k c) φ) ->
  quiet (let! c := get_cpu me in put_cpu me (f c) ;;; k c) φ.
Proof.
  intros Hf Hk s Hs. unfold bind at 1. destruct (get_cpu me s) as [c s'|] eqn:Hc; [|done].
  apply get_cpu_inv in Hc as [-> Hc]. erewrite bind_run by (by eapply put_cpu_run). destruct (Hf c) as (Hf1 & Hf2 & Hf3).
  assert (Hs' : swf (set_sdei_cpus (<[Z.to_nat me := f c]> (sdei_cpus s)) s)).
  { apply swf_put_cpu; [done|]. unfold cpu_ok. rewrite Hf2, Hf3. by eapply cpu_valid. }
  pose proof (Hk c _ Hs') as H1. destruct (k c _); [|done]. by rewrite (abs_put_cpu s me (f c) c) in H1.
Qed.

Lemma quiet_cpu_update_last me (f : sdei_cpu_state_t -> sdei_cpu_state_t) :
  (forall c, stack_of (f c) = stack_of c /\ dispatch_stack (f c) = dispatch_stack c /\ stack_top (f c) = stack_top c) ->
  quiet (let! c := get_cpu me in put_cpu me (f c)) (fun _ => True).
Proof.
  intros Hf s Hs. pose proof (quiet_cpu_update me f (fun _ => ret tt) (fun _ => True) Hf ltac:(by intros; apply quiet_ret) s Hs) as H.
  unfold bind in *. destruct (get_cpu me s); [|done]. destruct (put_cpu _ _ _); done.
Qed.
End sim.

Create HintDb sdei.
#[export] Hint Resolve quiet_assert quiet_get_map quiet_get_entry quiet_map_unlock quiet_map_lock quiet_get_pe quiet_put_pe
  quiet_get_cpu quiet_in_ehf quiet_ic_do quiet_halt : sdei.

(** One step towards [quiet]: reads with their write-back, then sequencing,
    case analysis and the elementary operations. *)
Ltac quiet_step :=
  cbv beta zeta;
  match goal with
  | |- quiet _ _ (bind (get_event_entry _ _) _) _ => eapply quiet_bind; [apply quiet_get_event_entry|intros ? ->]
  | |- quiet _ _ (bind (get_entry _) (fun _ => bind (put_entry _ _) _)) _ => apply quiet_entry_update; [reflexivity|intros ?]
  | |- quiet _ _ (bind (get_map _) (fun _ => bind (put_map _ _) _)) _ => apply quiet_map_update; [done|intros ?]
  | |- quiet _ _ (bind (get_cpu _) (fun _ => bind (put_cpu _ _) _)) _ => apply quiet_cpu_update; [done|intros ?]
  | |- quiet _ _ (bind (get_cpu _) (fun _ => put_cpu _ _)) _ => apply quiet_cpu_update_last; done
  | |- quiet _ _ (bind _ _) _ => eapply (quiet_bind _ _ _ _ (fun _ => True)); [|intros ? _]
  | |- quiet _ _ (ret _) _ => apply quiet_ret; done
  | |- quiet _ _ (gets _) _ => apply quiet_gets; done
  | |- quiet _ _ (deref _) _ => apply quiet_deref; done
  | |- quiet _ _ (modify _) _ => apply quiet_modify; done
  | |- quiet _ _ (when _ _) _ => apply quiet_when; [done|]
  | |- quiet _ _ (forM_ _ _) _ => apply quiet_forM; intros ?
  | |- quiet _ _ (can_sdei_state_trans _ _) _ => apply quiet_trans_same; tauto
  | |- quiet _ _ (if ?b then _ else _) _ => destruct b
  | |- quiet _ _ (match ?x with _ => _ end) _ => destruct x
  | |- quiet _ _ _ _ => solve [eauto with sdei]
  end.
Ltac quiet_auto := repeat quiet_step.

(** ** Operations that keep the abstract state *)
Section quiet_ops.
Context {C : Type} `{!SdeiPlat C} (np ncpu : nat).
#[local] Abbreviation SM := (M (sdei_state C)).
#[local] Abbreviation calm m := (quiet (C := C) np ncpu m (fun _ => True)).

Lemma quiet_get_ctx me ss : calm (get_ctx me ss).
Proof. unfold get_ctx. quiet_auto. Qed.
Lemma quiet_put_ctx me ss c : calm (put_ctx me ss c).
Proof. unfold put_ctx. quiet_auto. Qed.
#[local] Hint Resolve quiet_get_ctx quiet_put_ctx : sdei.

Lemma quiet_context_save me ss : calm (cm_el1_sysregs_context_save me ss).
Proof. unfold cm_el1_sysregs_context_save. quiet_auto. Qed.
Lemma quiet_context_restore me ss : calm (cm_el1_sysregs_context_restore me ss).
Proof. unfold cm_el1_sysregs_context_restore. quiet_auto. Qed.
Lemma quiet_next_eret me ss : calm (cm_set_next_eret_context me ss).
Proof. unfold cm_set_next_eret_context. quiet_auto. Qed.
Lemma quiet_set_elr_spsr me ss ep spsr : calm (cm_set_elr_spsr_el3 me ss ep spsr).
Proof. unfold cm_set_elr_spsr_el3. quiet_auto. Qed.
#[local] Hint Resolve quiet_context_save quiet_context_restore quiet_next_eret quiet_set_elr_spsr : sdei.

Lemma quiet_save_secure me : calm (save_secure_context me).
Proof. unfold save_secure_context. quiet_auto. Qed.
Lemma quiet_resume_secure me : calm (restore_and_resume_secure_context me).
Proof. unfold restore_and_resume_secure_context. quiet_auto. Qed.
Lemma quiet_resume_ns me : calm (restore_and_resume_ns_context me).
Proof. unfold restore_and_resume_ns_context. quiet_auto. Qed.
Lemma quiet_client_el me : calm (sdei_client_el me).
Proof. unfold sdei_client_el. quiet_auto. Qed.
Lemma quiet_lock_shared m p : calm (lock_shared m p).
Proof. unfold lock_shared. quiet_auto. Qed.
Lemma quiet_unlock_shared m p : calm (unlock_shared m p).
Proof. unfold unlock_shared. quiet_auto. Qed.
Lemma quiet_restore_event me d tgt : calm (restore_event_ctx me d tgt).
Proof. unfold restore_event_ctx. quiet_auto. Qed.
Lemma quiet_outstanding_critical d : calm (outstanding_critical d).
Proof. unfold outstanding_critical. quiet_auto. Qed.
#[local] Hint Resolve quiet_save_secure quiet_resume_secure quiet_resume_ns quiet_client_el quiet_lock_shared quiet_unlock_shared
  quiet_restore_event quiet_outstanding_critical : sdei.

Lemma quiet_assert_preemption m d : calm (assert_preemption m d).
Proof. unfold assert_preemption. quiet_auto. Qed.
Lemma quiet_find_map n : calm (find_event_map n).
Proof. unfold find_event_map. quiet_auto. Qed.
Lemma quiet_find_by_intr i sh : calm (find_event_map_by_intr i sh).
Proof. unfold find_event_map_by_intr. quiet_auto. Qed.
#[local] Hint Resolve quiet_assert_preemption quiet_find_map quiet_find_by_intr : sdei.

Lemma quiet_masked_trigger me p sp raw : calm (handle_masked_trigger me p sp raw).
Proof. unfold handle_masked_trigger. quiet_auto. Qed.
Lemma quiet_get_outstanding me : calm (get_outstanding_dispatch me).
Proof. unfold get_outstanding_dispatch. quiet_auto. Qed.
#[local] Hint Resolve quiet_masked_trigger quiet_get_outstanding : sdei.

Lemma quiet_pe_mask me : calm (sdei_pe_mask me).
Proof. unfold sdei_pe_mask. quiet_auto. Qed.
Lemma quiet_unmask_private me p : calm (unmask_private me p).
Proof. unfold unmask_private. quiet_auto. Qed.
Lemma quiet_unmask_shared me mp p : calm (unmask_shared me mp p).
Proof. unfold unmask_shared. quiet_auto. Qed.
#[local] Hint Resolve quiet_unmask_private quiet_unmask_shared : sdei.
Lemma quiet_pe_unmask me : calm (sdei_pe_unmask me).
Proof. unfold sdei_pe_unmask. quiet_auto. Qed.

Lemma quiet_event_context me param : calm (sdei_event_context me param).
Proof. unfold sdei_event_context. quiet_auto. Qed.
Lemma quiet_take_interrupt me n m flags mpidr : calm (take_interrupt me n m flags mpidr).
Proof. unfold take_interrupt. quiet_auto. Qed.
Lemma quiet_give_back me n m : calm (give_back_interrupt me n m).
Proof. unfold give_back_interrupt. quiet_auto. Qed.
Lemma quiet_get_info me n info : calm (sdei_event_get_info me n info).
Proof. unfold sdei_event_get_info. quiet_auto. Qed.
Lemma quiet_status me n : calm (sdei_event_status me n).
Proof. unfold sdei_event_status. quiet_auto. Qed.
Lemma quiet_signal e t : calm (sdei_signal e t).
Proof. unfold sdei_signal. quiet_auto. Qed.
Lemma quiet_features f : calm (sdei_features f).
Proof. unfold sdei_features. quiet_auto. Qed.
Lemma quiet_routing_set me n flags mpidr : calm (sdei_event_routing_set me n flags mpidr).
Proof. unfold sdei_event_routing_set. quiet_auto. Qed.
End quiet_ops.
#[export] Hint Resolve quiet_get_ctx quiet_put_ctx quiet_context_save quiet_context_restore quiet_next_eret quiet_set_elr_spsr
  quiet_save_secure quiet_resume_secure quiet_resume_ns quiet_client_el quiet_lock_shared quiet_unlock_shared
  quiet_restore_event quiet_outstanding_critical quiet_assert_preemption quiet_find_map quiet_find_by_intr
  quiet_masked_trigger quiet_get_outstanding quiet_pe_mask quiet_pe_unmask quiet_event_context quiet_take_interrupt
  quiet_give_back quiet_get_info quiet_status quiet_signal quiet_features quiet_routing_set : sdei.

Lemma a_put_put a q h h0 : a_put (a_put a q h) q h0 = a_put a q h0.
Proof. destruct q, a; unfold a_put; simpl; by rewrite list_insert_insert_eq. Qed.

Lemma a_put_id a q h : a_get a q = Some h -> a_put a q h = a.
Proof. destruct q, a; unfold a_put; simpl; intros Hq%arr_get_lookup; by rewrite list_insert_id. Qed.

Lemma c_put_id a p n : c_get a p = Some n -> c_put a p n = a.
Proof. destruct p, a; unfold c_put; simpl; intros Hq%arr_get_lookup; by rewrite list_insert_id. Qed.

(** ** Symbolic execution on abstract states *)
Section awp.
Context {C : Type} `{!SdeiPlat C} (np ncpu : nat).
#[local] Abbreviation SM := (M (sdei_state C)).

Definition awp {A} (m : SM A) (Q : A -> abs_t -> Prop) (a : abs_t) : Prop :=
  forall s : sdei_state C, swf np ncpu s -> abs s = a ->
    match m s with Ret x s' => swf np ncpu s' /\ Q x (abs s') | Halt _ _ => True end.

Lemma awp_bind {A B} (m : SM A) (k : A -> SM B) Q a : awp m (fun x a' => awp (k x) Q a') a -> awp (bind m k) Q a.
Proof.
  intros Hm s Hs Ha. unfold bind. specialize (Hm s Hs Ha). destruct (m s) as [x s1|]; [|done]. destruct Hm as [Hs1 Hk]. by apply Hk.
Qed.

Lemma awp_quiet {A} (m : SM A) (ψ : A -> Prop) (Q : A -> abs_t -> Prop) a :
  quiet np ncpu m ψ -> (forall x, ψ x -> Q x a) -> awp m Q a.
Proof. intros Hm HQ s Hs <-. specialize (Hm s Hs). destruct (m s); [|done]. destruct Hm as (Hx & Hs' & ->). auto. Qed.

Lemma awp_quiet_bind {A B} (m : SM A) (k : A -> SM B) (ψ : A -> Prop) Q a :
  quiet np ncpu m ψ -> (forall x, ψ x -> awp (k x) Q a) -> awp (bind m k) Q a.
Proof. intros Hm Hk. apply awp_bind. by eapply awp_quiet. Qed.

Lemma awp_ret {A} (x : A) (Q : A -> abs_t -> Prop) a : Q x a -> awp (ret x) Q a.
Proof. by intros H s Hs <-. Qed.

Lemma awp_trans q act Q a :
  (forall h, a_get a q = Some h -> h_wf h = true ->
     match spec_step act h with Some h' => Q true (a_put a q h') | None => Q false a end) ->
  awp (can_sdei_state_trans q act) Q a.
Proof.
  intros HQ s Hs <-. pose proof (trans_run np ncpu q act s Hs) as Ht. destruct (can_sdei_state_trans q act s) as [b s'|]; [|done].
  destruct Ht as (e & He & Ht). specialize (HQ _ (abs_entry s q e He)).
  specialize (HQ (proj2 (valid_decode _ (entry_valid np ncpu s q e Hs He)))).
  destruct (spec_step _ _) as [h'|] eqn:Hsp; destruct Ht as [-> ->]; [|done]. split; [by eapply trans_valid|].
  by rewrite abs_store_entry; simpl; rewrite decode_encode.
Qed.

Lemma awp_get_map p (Q : sdei_ev_map_t -> abs_t -> Prop) a :
  (forall m, c_get a p = Some (reg_count m) -> n_get a p = Some (ev_num m) -> Q m a) -> awp (get_map p) Q a.
Proof.
  intros HQ s Hs <-. destruct (get_map p s) as [m s'|] eqn:Hm; [|done]. apply get_map_inv in Hm as [-> Hm].
  split; [done|]. apply HQ; [by apply abs_count|by apply abs_num].
Qed.

Lemma awp_put_map p m (Q : unit -> abs_t -> Prop) a :
  n_get a p = Some (ev_num m) -> Q tt (c_put a p (reg_count m)) -> awp (put_map p m) Q a.
Proof.
  intros Hn HQ s Hs <-. destruct (map_at s p) as [m0|] eqn:Hm.
  - rewrite (put_map_run p m m0 s Hm). split; [by apply swf_store_map|]. rewrite (abs_num s p m0 Hm) in Hn.
    rewrite (abs_store_map s p m m0); [done|done|congruence].
  - destruct p as [i|i]; unfold put_map, bind, gets, deref, halt_with; simpl in *.
    + destruct (arr_set (priv_maps s) i m) as [l|] eqn:Hset; [|done]. apply arr_set_Some in Hset as [Hr _].
      destruct (arr_get_in_range _ _ Hr) as [x Hx]. congruence.
    + destruct (arr_set (shrd_maps s) i m) as [l|] eqn:Hset; [|done]. apply arr_set_Some in Hset as [Hr _].
      destruct (arr_get_in_range _ _ Hr) as [x Hx]. congruence.
Qed.

(** The search for an event by its number. *)
Lemma find_map_num n l i : find_map (fun m => ev_num m =? n) l i = find_num n (map ev_num l) i.
Proof. revert i. induction l as [|m l IH]; intros i; simpl; [done|]. destruct (_ =? _); [done|apply IH]. Qed.

Lemma find_event_run n (s : sdei_state C) : find_event_map n s = Ret (event_of (abs s) n) s.
Proof. unfold find_event_map, gets, event_of. simpl. by rewrite !find_map_num. Qed.

Lemma awp_find n (Q : option map_ptr -> abs_t -> Prop) a : Q (event_of a n) a -> awp (find_event_map n) Q a.
Proof. intros HQ s Hs <-. by rewrite find_event_run. Qed.

(** A computation that keeps every abstract state is quiet. *)
Lemma awp_calm {A} (m : SM A) : (forall a, awp m (fun _ a' => a' = a) a) -> quiet np ncpu m (fun _ => True).
Proof. intros H s Hs. specialize (H _ s Hs eq_refl). destruct (m s); [|done]. by destruct H. Qed.

Lemma awp_mono {A} (m : SM A) (Q Q' : A -> abs_t -> Prop) a : awp m Q a -> (forall x a', Q x a' -> Q' x a') -> awp m Q' a.
Proof. intros Hm HQ s Hs Ha. specialize (Hm s Hs Ha). destruct (m s); [|done]. destruct Hm. auto. Qed.

Lemma awp_get_entry q (Q : sdei_entry_t -> abs_t -> Prop) a :
  (forall e, a_get a q = Some (decode (se_state e)) -> valid_state (se_state e) -> Q e a) -> awp (get_entry q) Q a.
Proof.
  intros HQ s Hs <-. destruct (get_entry q s) as [e s'|] eqn:He; [|done]. apply get_entry_inv in He as [-> He].
  split; [done|]. apply HQ; [by apply abs_entry|by eapply entry_valid].
Qed.

Lemma awp_put_entry q e h (Q : unit -> abs_t -> Prop) a :
  a_get a q = Some h -> valid_state (se_state e) -> Q tt (a_put a q (decode (se_state e))) -> awp (put_entry q e) Q a.
Proof.
  intros Hq Hv HQ s Hs <-. destruct (entry_at s q) as [e0|] eqn:He.
  - rewrite (put_entry_run q e e0 s He). split; [by apply swf_store_entry|]. by rewrite abs_store_entry.
  - exfalso. destruct q; simpl in *; change (map ?f ?l) with (f <$> l) in Hq; by rewrite arr_get_fmap, He in Hq.
Qed.

Lemma abs_stack (s : sdei_state C) me c : arr_get (sdei_cpus s) me = Some c -> arr_get (a_stk (abs s)) me = Some (stack_of c).
Proof. intros Hc. simpl. change (map ?f ?l) with (f <$> l). by rewrite arr_get_fmap, Hc. Qed.

Lemma abs_set_cpu (s : sdei_state C) me c : abs (set_sdei_cpus (<[Z.to_nat me := c]> (sdei_cpus s)) s) = stk_put (abs s) me (stack_of c).
Proof. unfold abs, stk_put. simpl. by rewrite map_insert. Qed.

Lemma take_insert_snoc {A} (l : list A) n x : (n < length l)%nat -> take (S n) (<[n := x]> l) = take n l ++ [x].
Proof.
  intros Hn. rewrite (take_S_r _ _ x) by (by apply list_lookup_insert_eq). f_equal. by apply take_insert_ge.
Qed.

Lemma awp_push me d (Q : unit -> abs_t -> Prop) a :
  (forall st, arr_get (a_stk a) me = Some st -> Z.of_nat (length st) < MAX_EVENT_NESTING -> Q tt (stk_put a me (st ++ [dc_map d]))) ->
  awp (push_dispatch me d) Q a.
Proof.
  intros HQ s Hs <-. unfold push_dispatch. unfold bind at 1. destruct (get_cpu me s) as [c s'|] eqn:Hc; [|done].
  apply get_cpu_inv in Hc as [-> Hc]. destruct (cpu_valid _ _ _ _ _ Hs Hc) as [Hlen Htop].
  specialize (HQ _ (abs_stack s me c Hc)). unfold bind at 1. unfold sdei_assert.
  destruct (_ && _); [done|]. cbn [ret]. unfold bind at 1, deref.
  destruct (arr_set (dispatch_stack c) (stack_top c) d) as [l|] eqn:Hset; [|done]. cbn [ret].
  apply arr_set_Some in Hset as [Hr ->]. rewrite (put_cpu_run me s _ c Hc).
  assert (Hst : stack_of (set_dispatch (<[Z.to_nat (stack_top c) := d]> (dispatch_stack c)) (u16 (stack_top c + 1)) c) = stack_of c ++ [dc_map d]).
  { unfold stack_of. simpl. change MAX_EVENT_NESTING with 2 in *. rewrite u16_small by lia.
    replace (Z.to_nat (stack_top c + 1)) with (S (Z.to_nat (stack_top c))) by lia.
    rewrite take_insert_snoc by lia. by rewrite map_app. }
  split.
  - apply swf_put_cpu; [done|]. unfold cpu_ok. simpl. rewrite length_insert. change MAX_EVENT_NESTING with 2 in *. rewrite u16_small by lia. lia.
  - rewrite abs_set_cpu, Hst. apply HQ. unfold stack_of. rewrite length_map, length_take. change MAX_EVENT_NESTING with 2 in *. lia.
Qed.

(** The outstanding dispatch is the top of the stack. *)
Lemma awp_outstanding me (Q : option sdei_dispatch_context_t -> abs_t -> Prop) a :
  (arr_get (a_stk a) me = Some [] -> Q None a) ->
  (forall d st, arr_get (a_stk a) me = Some (st ++ [dc_map d]) -> Q (Some d) a) ->
  awp (get_outstanding_dispatch me) Q a.
Proof.
  intros H0 H1 s Hs <-. unfold get_outstanding_dispatch. unfold bind at 1. destruct (get_cpu me s) as [c s'|] eqn:Hc; [|done].
  apply get_cpu_inv in Hc as [-> Hc]. destruct (cpu_valid _ _ _ _ _ Hs Hc) as [Hlen Htop].
  pose proof (abs_stack s me c Hc) as Hst. destruct (Z.eqb_spec (stack_top c) 0) as [Hz|Hnz].
  - split; [done|]. apply H0. rewrite Hst. unfold stack_of. by rewrite Hz.
  - unfold bind at 1, sdei_assert. destruct (_ && _); [done|]. cbn [ret]. unfold bind, deref.
    destruct (arr_get (dispatch_stack c) (stack_top c - 1)) as [d|] eqn:Hd; [|done]. cbn [ret]. split; [done|].
    apply (H1 d (map dc_map (take (Z.to_nat (stack_top c - 1)) (dispatch_stack c)))). rewrite Hst. f_equal. unfold stack_of.
    replace (Z.to_nat (stack_top c)) with (S (Z.to_nat (stack_top c - 1))) by lia.
    rewrite (take_S_r _ _ d) by (by apply arr_get_lookup). by rewrite map_app.
Qed.

Lemma awp_pop me x st (Q : unit -> abs_t -> Prop) a :
  arr_get (a_stk a) me = Some (st ++ [x]) -> Q tt (stk_put a me st) -> awp (pop_dispatch me) Q a.
Proof.
  intros Ha HQ s Hs <-. unfold pop_dispatch. unfold bind at 1. destruct (get_cpu me s) as [c s'|] eqn:Hc; [|done].
  apply get_cpu_inv in Hc as [-> Hc]. destruct (cpu_valid _ _ _ _ _ Hs Hc) as [Hlen Htop].
  rewrite (abs_stack s me c Hc) in Ha. injection Ha as Ha. pose proof (f_equal length Ha) as Hl. unfold stack_of in Hl.
  rewrite length_app, length_map, length_take in Hl. simpl in Hl. destruct (Z.eqb_spec (stack_top c) 0) as [Hz|Hnz]; [lia|].
  unfold bind, sdei_assert. destruct (_ && _); [done|]. cbn [ret]. rewrite (put_cpu_run me s _ c Hc).
  change MAX_EVENT_NESTING with 2 in *. rewrite u16_small by lia. split.
  - apply swf_put_cpu; [done|]. unfold cpu_ok. simpl. change MAX_EVENT_NESTING with 2. lia.
  - rewrite abs_set_cpu. replace (stack_of _) with st; [done|]. unfold stack_of in *. simpl.
    replace (Z.to_nat (stack_top c)) with (S (Z.to_nat (stack_top c - 1))) in Ha by lia.
    destruct (lookup_lt_is_Some_2 (dispatch_stack c) (Z.to_nat (stack_top c - 1))) as [d Hd]; [lia|].
    rewrite (take_S_r _ _ d Hd), map_app in Ha. by apply app_inj_tail in Ha as [-> _].
Qed.
End awp.
