(* ===== verification/SdeiRefine.v ===== *)
(** * SDEI dispatcher: refinement and reachable states

    [smc_spec] says which action of the calling CPU on which event each call is,
    and what it returns; the calls, the interrupt handler and the explicit
    dispatch keep it.  [sdei_step] is one of these on some CPU, and the states
    reached by such steps satisfy the invariant of the machine. *)
From stdpp Require Import base list numbers option.
From Stdlib Require Import ZArith Lia.
From S2P Require Import Prelude IntrMgmt Ehf SdeiDefs SdeiIntr SdeiMain SdeiSpec SdeiSim.
#[local] Open Scope Z_scope.

(** ** What the calls promise *)

(** Result and effect of enabling and disabling event [n] on CPU [me]. *)
Definition toggle_spec (me : Z) (act : sdei_action_t) (n : Z) (a : abs_t) : Z * abs_t :=
  match event_of a n with
  | None => (SDEI_EINVAL, a)
  | Some p => match act_on me act p a with Some a' => (0, a') | None => (SDEI_EDENY, a) end
  end.

(** A handler that is running is unregistered, but the caller is told to wait. *)
Definition unregister_spec (me n : Z) (a : abs_t) : Z * abs_t :=
  match event_of a n with
  | None => (SDEI_EINVAL, a)
  | Some p =>
      match act_on me DO_UNREGISTER p a with
      | Some a' => (if running a me p then SDEI_EPEND else 0, a')
      | None => (if running a me p then SDEI_EPEND else SDEI_EDENY, a)
      end
  end.

(** Unregistering the events with numbers [ns] one after the other. *)
Definition reset_state (me : Z) (ns : list Z) (a : abs_t) : abs_t := foldl (fun a n => (unregister_spec me n a).2) a ns.
Definition busy (me : Z) (a : abs_t) (n : Z) : bool :=
  match event_of a n with Some p => running a me p | None => false end.
Definition reset_result (me : Z) (ns : list Z) (a : abs_t) : Z := if existsb (busy me a) ns then SDEI_EDENY else 0.

(** The registers of the caller and the state after the call with function
    identifier [fid] and first argument [x1] by CPU [me]. *)
Definition smc_spec (me fid x1 : Z) (a : abs_t) (r : list Z) (a' : abs_t) : Prop :=
  if fid =? SDEI_EVENT_REGISTER then
    (r = [0] /\ exists p, event_of a (s32 x1) = Some p /\ act_on me DO_REGISTER p a = Some a') \/
    ((r = [u64 SDEI_EINVAL] \/ r = [u64 SDEI_EDENY]) /\ a' = a)
  else if fid =? SDEI_EVENT_ENABLE then (r, a') = ([u64 (toggle_spec me DO_ENABLE (s32 x1) a).1], (toggle_spec me DO_ENABLE (s32 x1) a).2)
  else if fid =? SDEI_EVENT_DISABLE then (r, a') = ([u64 (toggle_spec me DO_DISABLE (s32 x1) a).1], (toggle_spec me DO_DISABLE (s32 x1) a).2)
  else if (fid =? SDEI_EVENT_COMPLETE_AND_RESUME) || (fid =? SDEI_EVENT_COMPLETE) then
    (r = [] /\ exists p, outstanding a me = Some p /\ act_on me DO_COMPLETE p a = Some a') \/
    (r = [u64 SDEI_EDENY] /\ a' = a /\
     (fid = SDEI_EVENT_COMPLETE -> forall p, outstanding a me = Some p -> act_on me DO_COMPLETE p a = None))
  else if fid =? SDEI_EVENT_UNREGISTER then (r, a') = ([u64 (unregister_spec me (s32 x1) a).1], (unregister_spec me (s32 x1) a).2)
  else if fid =? SDEI_PRIVATE_RESET then r = [u64 (reset_result me (a_pnum a) a)] /\ a' = reset_state me (a_pnum a) a
  else if fid =? SDEI_SHARED_RESET then
    a' = reset_state me (a_snum a) a /\ (reset_result me (a_snum a) a <> 0 -> r = [u64 (reset_result me (a_snum a) a)])
  else a' = a.

(** Steps towards [awp]: sequencing, and operations that keep the abstract
    state. *)
Ltac awp_skip := eapply (awp_quiet_bind _ _ _ _ (fun _ => True)); [solve [quiet_auto]|intros ? _].
Ltac awp_step :=
  cbv beta iota zeta;
  match goal with
  | |- awp _ _ (bind (get_event_entry _ _) _) _ _ => eapply awp_quiet_bind; [apply quiet_get_event_entry|intros ? ->]
  | |- awp _ _ (bind (find_event_map _) _) _ _ => apply awp_bind, awp_find
  | |- awp _ _ (bind (ret _) _) _ _ => apply awp_bind, awp_ret
  | |- awp _ _ (bind (bind _ _) _) _ _ => apply awp_bind
  | |- awp _ _ (@bind _ unit _ _ _) _ _ => awp_skip
  | |- awp _ _ (bind (match _ with _ => _ end) _) _ _ => apply awp_bind
  | |- awp _ _ (bind _ _) _ _ => awp_skip
  | |- awp _ _ (ret _) _ _ => apply awp_ret
  end.
Ltac awp_auto := repeat awp_step.

Section refine.
Context {C : Type} `{!SdeiPlat C} (np ncpu : nat) (me : Z).
#[local] Abbreviation calm m := (quiet (C := C) np ncpu m (fun _ => True)).
#[local] Abbreviation AWP := (awp (C := C) np ncpu).

(** The sizes of the abstract state. *)
Lemma awp_sizes {A} (m : M (sdei_state C) A) Q a :
  (length (a_stk a) = ncpu -> length (a_pcnt a) = np -> AWP m Q a) -> AWP m Q a.
Proof. intros H s Hs Ha. apply H; [subst a; simpl; rewrite length_map; apply Hs..|done|done]. Qed.

Lemma eptr_entry_of a p : length (a_pcnt a) = np -> eptr np me p = entry_of a me p.
Proof. intros Hl. destruct p; simpl; by rewrite ?Hl. Qed.

Lemma c_get_aput a q h p : c_get (a_put a q h) p = c_get a p.
Proof. by destruct p, q. Qed.
Lemma n_get_aput a q h p : n_get (a_put a q h) p = n_get a p.
Proof. by destruct p, q. Qed.
Lemma n_get_cput a p n p' : n_get (c_put a p n) p' = n_get a p'.
Proof. by destruct p, p'. Qed.

(** A transition that changes nothing but the handler. *)
Lemma act_on_local act p a h :
  local_action act = true -> a_get a (entry_of a me p) = Some h ->
  act_on me act p a = a_put a (entry_of a me p) <$> spec_step act h.
Proof. intros Hl Hh. unfold act_on. rewrite Hh. destruct (spec_step act h); [|done]. by destruct act. Qed.

Lemma awp_toggle act n (m : M (sdei_state C) Z) a :
  act = DO_ENABLE /\ m = sdei_event_enable me n \/ act = DO_DISABLE /\ m = sdei_event_disable me n ->
  AWP m (fun r a' => (r, a') = toggle_spec me act n a) a.
Proof.
  intros Hm. apply awp_sizes. intros _ Hl2. unfold toggle_spec.
  destruct Hm as [[-> ->]|[-> ->]]; [unfold sdei_event_enable|unfold sdei_event_disable]; awp_step; destruct (event_of a n) as [p|];
    [|by awp_auto| |by awp_auto]; do 4 awp_step; rewrite (eptr_entry_of a p Hl2); apply awp_bind, awp_trans; intros h Hh _;
    rewrite (act_on_local _ p a h) by done; destruct (spec_step _ h); simpl; awp_auto; done.
Qed.

(** ** Unregistration *)
Lemma running_at a p h : a_get a (entry_of a me p) = Some h -> running a me p = h_run h.
Proof. unfold running. by intros ->. Qed.

Lemma running_bit e : valid_state (se_state e) -> get_ev_state_bit e SDEI_STATF_RUNNING = h_run (decode (se_state e)).
Proof. intros (h & _ & Hv). unfold get_ev_state_bit. rewrite Hv, decode_encode. by destruct h as [[] [] []]. Qed.

Lemma awp_unregister n a : AWP (sdei_event_unregister me n) (fun r a' => (r, a') = unregister_spec me n a) a.
Proof.
  apply awp_sizes. intros _ Hl2. unfold unregister_spec, sdei_event_unregister. awp_step.
  destruct (event_of a n) as [p|]; [|by awp_auto]. do 2 awp_step. rewrite (eptr_entry_of a p Hl2).
  apply awp_bind, awp_trans. intros h Hh Hw. rewrite (running_at a p h Hh). unfold act_on. rewrite Hh.
  destruct (spec_step DO_UNREGISTER h) as [h'|] eqn:Hsp; cbn [negb].
  - apply awp_bind, awp_bind, awp_get_map. intros mm Hmm Hnn. rewrite c_get_aput in Hmm. rewrite Hmm. simpl.
    apply awp_bind, awp_put_map; [by rewrite n_get_aput in *|]. cbn [reg_count set_reg_count]. do 2 awp_step.
    apply awp_bind, awp_get_entry. intros e He Hv.
    assert (Hg : a_get (c_put (a_put a (entry_of a me p) h') p (reg_count mm - 1)) (entry_of a me p) = Some h').
    { by rewrite a_get_cput, (a_get_put _ _ _ _ h Hh), decide_True. }
    rewrite Hg in He. injection He as He. apply awp_bind. eapply awp_put_entry; [exact Hg|exact Hv|].
    cbn [se_state clear_event_entries]. rewrite <- He, (a_put_id _ _ _ Hg). awp_auto. rewrite (running_bit e Hv), <- He.
    clear - Hsp. destruct h as [[] [] []]; simpl in Hsp; simplify_eq; reflexivity.
  - apply awp_bind, awp_bind, awp_get_entry. intros e He Hv. rewrite Hh in He. injection He as He. awp_auto.
    by rewrite (running_bit e Hv), <- He.
Qed.

(** ** Reset *)
Lemma unregister_frame n a :
  let a' := (unregister_spec me n a).2 in
  a_pnum a' = a_pnum a /\ a_snum a' = a_snum a /\ (forall p, running a' me p = running a me p) /\
  (0 <= me < Z.of_nat (length (a_stk a)) -> star astep a a') /\ length (a_stk a') = length (a_stk a).
Proof.
  cbv zeta. unfold unregister_spec. destruct (event_of a n) as [p|]; [|split_and!; try done; intros _; apply star_refl].
  destruct (act_on me DO_UNREGISTER p a) as [a'|] eqn:Ha; [|split_and!; try done; intros _; apply star_refl]. simpl.
  assert (Hst : 0 <= me < Z.of_nat (length (a_stk a)) -> star astep a a') by (intros Hr; apply star_one; by eapply act_on_step).
  unfold act_on in Ha. destruct (a_get a (entry_of a me p)) as [h|] eqn:Hh; [|done].
  destruct (spec_step DO_UNREGISTER h) as [h'|] eqn:Hsp; [|done]. destruct (c_get a p) as [k|] eqn:Hc; [|done]. injection Ha as <-.
  split_and!; [by destruct p|by destruct p| |done|by destruct p]. intros p'. unfold running.
  rewrite a_get_cput, entry_of_cput, entry_of_put, (a_get_put _ _ _ _ h Hh).
  destruct (decide _) as [Heq|]; [|done]. rewrite <- Heq, Hh. destruct h as [[] [] []]; simpl in Hsp; by simplify_eq.
Qed.

Lemma busy_unregister n a k : busy me (unregister_spec me n a).2 k = busy me a k.
Proof.
  destruct (unregister_frame n a) as (H1 & H2 & H3 & _). unfold busy, event_of. rewrite H1, H2.
  destruct (find_num _ _ _); [by rewrite H3|]. simpl. destruct (find_num _ _ _); simpl; [by rewrite H3|done].
Qed.

Lemma unregister_pend n a : ((unregister_spec me n a).1 =? SDEI_EPEND) = busy me a n.
Proof.
  unfold unregister_spec, busy. destruct (event_of a n) as [p|]; [|done]. destruct (act_on _ _ _ _); by destruct (running a me p).
Qed.

Lemma existsb_same {A} (f g : A -> bool) l : (forall x, f x = g x) -> existsb f l = existsb g l.
Proof. intros H. induction l as [|x l IH]; simpl; [done|]. by rewrite H, IH. Qed.

Lemma awp_reset_loop ps ns fr a :
  Forall2 (fun p n => n_get a p = Some n) ps ns -> (fr = 0 \/ fr = SDEI_EDENY) ->
  AWP (foldM (reset_one me) fr ps)
    (fun r a' => r = (if fr =? 0 then reset_result me ns a else fr) /\ a' = reset_state me ns a) a.
Proof.
  intros Hps. revert ns fr a Hps. induction ps as [|p ps IH]; intros ns fr a Hps Hfr; inversion Hps as [|? n ? ns' Hn Hrest]; subst.
  { simpl. apply awp_ret. split; [|done]. unfold reset_result. simpl. by destruct Hfr as [-> | ->]. }
  cbn [foldM]. apply awp_bind. unfold reset_one at 1. apply awp_bind, awp_get_map. intros m _ Hm. rewrite Hn in Hm. injection Hm as <-.
  apply awp_bind. eapply awp_mono; [apply awp_unregister|]. intros r a' Hr. apply awp_ret.
  destruct (unregister_frame n a) as (H1 & H2 & _). pose proof (unregister_pend n a) as Hpend. pose proof (busy_unregister n a) as Hbusy.
  rewrite <- Hr in H1, H2, Hpend, Hbusy. cbn [fst snd] in *.
  assert (Ha' : a' = (unregister_spec me n a).2) by (by rewrite <- Hr). rewrite Hpend.
  eapply awp_mono; [apply (IH ns' _ a')|].
  - eapply Forall2_impl; [|exact Hrest]. intros [i|i] k Hk; simpl in *; congruence.
  - destruct (busy me a n), Hfr as [-> | ->]; auto.
  - intros r' a'' [-> ->]. unfold reset_state, reset_result. cbn [foldl existsb]. rewrite <- Ha'. split; [|done].
    rewrite (existsb_same (busy me a') (busy me a)) by done.
    by destruct Hfr as [-> | ->], (busy me a n).
Qed.

Lemma ptrs_nums (f : Z -> map_ptr) (l ns : list Z) (a : abs_t) :
  (forall i, n_get a (f i) = arr_get ns i) -> l = seqZ 0 (Z.of_nat (length ns)) ->
  Forall2 (fun p n => n_get a p = Some n) (map f l) ns.
Proof.
  intros Hf ->. apply Forall2_same_length_lookup. rewrite length_map, length_seqZ, Nat2Z.id. split; [done|].
  intros i p n Hp Hn. change (map f ?l) with (f <$> l) in Hp. rewrite list_lookup_fmap in Hp.
  apply fmap_Some in Hp as (k & Hk & ->). apply lookup_seqZ in Hk as [-> Hi]. rewrite Hf. unfold arr_get.
  destruct (Z.leb_spec 0 (0 + Z.of_nat i)); [|lia]. by replace (Z.to_nat (0 + Z.of_nat i)) with i by lia.
Qed.

Lemma awp_private_reset a :
  AWP (sdei_private_reset me) (fun r a' => r = reset_result me (a_pnum a) a /\ a' = reset_state me (a_pnum a) a) a.
Proof.
  apply awp_bind. intros s Hs <-. split; [done|]. eapply awp_mono; [apply (awp_reset_loop _ (a_pnum (abs s))); [|by left]|by intros r a' [-> ->]].
  apply (ptrs_nums PrivMap); [done|]. simpl. by rewrite length_map.
Qed.

(** ** Registration *)
Lemma awp_register_locked n p ep arg flags mpidr (Q : bool -> abs_t -> Prop) a :
  (forall h, a_get a (entry_of a me p) = Some h -> h_wf h = true -> forall h1, Q false (a_put a (entry_of a me p) h1)) ->
  (forall a', act_on me DO_REGISTER p a = Some a' -> Q true a') ->
  AWP (register_locked me n p (entry_of a me p) ep arg flags mpidr) Q a.
Proof.
  intros HF HT. unfold register_locked. apply awp_bind, awp_trans. intros h Hh Hw.
  destruct (spec_step DO_REGISTER h) as [h'|] eqn:Hsp; cbn [negb].
  2:{ apply awp_ret. rewrite <- (a_put_id a (entry_of a me p) h Hh). by apply (HF h). }
  apply awp_bind, awp_get_map. intros m Hm Hn. rewrite c_get_aput in Hm.
  destruct (is_map_dynamic m && negb (is_map_bound m)); [by apply awp_ret, (HF h)|].
  awp_skip. awp_skip. destruct x0; cbn [negb]; [|by apply awp_ret, (HF h)].
  assert (Hg : a_get (a_put a (entry_of a me p) h') (entry_of a me p) = Some h').
  { rewrite (a_get_put _ _ _ _ h Hh). by rewrite decide_True. }
  apply awp_bind, awp_get_entry. intros e He Hv. rewrite Hg in He. injection He as He.
  apply awp_bind. eapply awp_put_entry; [exact Hg|exact Hv|]. cbn [se_state set_sdei_entry].
  rewrite <- He, a_put_put. apply awp_bind, awp_put_map; [done|]. apply awp_ret, HT. unfold act_on. by rewrite Hh, Hsp, Hm.
Qed.

Definition register_post (n : Z) (a : abs_t) (r : Z) (a' : abs_t) : Prop :=
  (r = 0 /\ exists p, event_of a n = Some p /\ act_on me DO_REGISTER p a = Some a') \/
  ((r = SDEI_EINVAL \/ r = SDEI_EDENY) /\ a' = a).

Lemma validate_flags_cases flags mpidr : validate_flags flags mpidr = 0 \/ validate_flags flags mpidr = SDEI_EINVAL.
Proof. unfold validate_flags. repeat case_match; auto. Qed.

Lemma awp_register n ep arg flags mpidr a : AWP (sdei_event_register me n ep arg flags mpidr) (register_post n a) a.
Proof.
  apply awp_sizes. intros _ Hl2. unfold sdei_event_register. awp_step. destruct (_ || _); [apply awp_ret; by right; auto|].
  destruct (validate_flags_cases flags mpidr) as [-> | ->]; [|apply awp_ret; right; auto].
  cbv zeta. change (truthy 0) with false. awp_step.
  destruct (event_of a n) as [p|] eqn:Hev; [|apply awp_ret; right; auto]. do 3 awp_step. rewrite (eptr_entry_of a p Hl2).
  apply awp_bind, awp_get_entry. intros e He Hv. apply awp_bind, awp_register_locked.
  - intros h Hh Hw h1. assert (Hg : a_get (a_put a (entry_of a me p) h1) (entry_of a me p) = Some h1).
    { rewrite (a_get_put _ _ _ _ h Hh). by rewrite decide_True. }
    cbv beta iota. apply awp_bind, awp_get_entry. intros e' _ _. apply awp_bind. eapply awp_put_entry; [exact Hg|exact Hv|].
    cbn [se_state set_se_state]. rewrite a_put_put, (a_put_id _ _ _ He). awp_auto. right. auto.
  - intros a' Hst. awp_auto. left. eauto.
Qed.

(** ** Binding *)
Lemma quiet_bind_loop fuel n sh : calm (bind_loop fuel me n sh).
Proof.
  induction fuel as [|fuel IH]; simpl; [quiet_auto|]. apply awp_calm. intros a.
  awp_skip. eapply (awp_quiet_bind _ _ _ _ (fun _ => True)); [quiet_auto|]. intros found _.
  destruct found; [by awp_auto|]. awp_skip. destruct x0 as [p|]; [|by awp_auto].
  do 3 awp_step. destruct (negb _); [by awp_auto|]. awp_step.
  apply awp_bind, awp_get_map. intros m' Hm' Hn'. destruct (is_map_bound m') eqn:Hb; cbn [negb when].
  - do 2 awp_step. by eapply awp_quiet.
  - apply awp_bind, awp_put_map; [done|]. cbn [reg_count set_map_bound set_intr_flags]. rewrite (c_put_id _ _ _ Hm'). by awp_auto.
Qed.

Lemma quiet_release n : calm (sdei_interrupt_release me n).
Proof.
  apply awp_calm. intros a. unfold sdei_interrupt_release. awp_step. destruct (event_of a n) as [p|]; [|by awp_auto].
  awp_step. destruct (negb _); [by awp_auto|]. do 2 awp_step. apply awp_bind, awp_get_map. intros m' Hm' Hn'. apply awp_bind.
  assert (Hend : forall r : Z, AWP (sdei_map_unlock p ;;; ret r) (fun _ a' => a' = a) a) by (intros r; by awp_auto).
  destruct (negb (reg_count m' =? 0)); [by apply awp_ret|]. eapply (awp_quiet_bind _ _ _ _ (fun _ => True)); [quiet_auto|].
  intros ok _. destruct ok; cbn [negb]; [|by apply awp_ret]. destruct (is_map_bound m'); [|by apply awp_ret].
  awp_step. destruct x1; [by apply awp_ret|].
  apply awp_bind, awp_put_map; [done|]. apply awp_ret. cbn [reg_count clr_map_bound set_intr_flags]. by rewrite (c_put_id _ _ _ Hm').
Qed.

Lemma quiet_foldM {A B} (f : B -> A -> M (sdei_state C) B) b l : (forall b x, calm (f b x)) -> calm (foldM f b l).
Proof.
  intros Hf. revert b. induction l as [|x l IH]; intros b; simpl; [by apply quiet_ret|]. eapply quiet_bind; [apply Hf|]. intros b' _. apply IH.
Qed.

Lemma quiet_release_one fr p : calm (release_one me fr p).
Proof. unfold release_one. pose proof quiet_release. quiet_auto. Qed.

Lemma awp_shared_reset a :
  AWP (sdei_shared_reset me) (fun r a' => a' = reset_state me (a_snum a) a /\
    (reset_result me (a_snum a) a <> 0 -> r = reset_result me (a_snum a) a)) a.
Proof.
  apply awp_bind. intros s Hs <-. split; [done|]. apply awp_bind. eapply awp_mono; [apply (awp_reset_loop _ (a_snum (abs s))); [|by left]|].
  { apply (ptrs_nums ShrdMap); [done|]. simpl. by rewrite length_map. }
  intros r a' [-> ->]. simpl (if 0 =? 0 then _ else _). set (rr := reset_result _ _ _).
  destruct (Z.eqb_spec rr 0) as [Hz|Hnz]; cbn [negb]; [|by apply awp_ret].
  awp_skip. eapply (awp_quiet _ _ _ (fun _ => True)); [apply quiet_foldM, quiet_release_one|]. by intros r' _.
Qed.

(** ** Dispatch *)

(** A computation that pushes [p]. *)
Definition pushes {A} (p : map_ptr) (m : M (sdei_state C) A) (φ : A -> Prop) : Prop :=
  forall a, AWP m (fun r a' => φ r /\ exists st, arr_get (a_stk a) me = Some st /\ Z.of_nat (length st) < MAX_EVENT_NESTING /\
                                 a' = stk_put a me (st ++ [Some p])) a.

Lemma pushes_quiet_bind {A B} p (m : M (sdei_state C) A) (k : A -> M (sdei_state C) B) φ :
  calm m -> (forall x, pushes p (k x) φ) -> pushes p (bind m k) φ.
Proof. intros Hm Hk a. eapply awp_quiet_bind; [exact Hm|]. intros x _. apply Hk. Qed.

Lemma pushes_bind_quiet {A B} p (m : M (sdei_state C) A) (k : A -> M (sdei_state C) B) φ :
  pushes p m (fun _ => True) -> (forall x, quiet np ncpu (k x) φ) -> pushes p (bind m k) φ.
Proof.
  intros Hm Hk a. apply awp_bind. eapply awp_mono; [apply Hm|]. intros x a' [_ H]. eapply awp_quiet; [apply Hk|]. by intros y Hy.
Qed.

Lemma pushes_setup p sp ctx sec raw : pushes p (setup_ns_dispatch me p sp ctx sec raw) (fun _ => True).
Proof.
  apply pushes_bind_quiet.
  - unfold save_event_ctx. apply pushes_quiet_bind; [quiet_auto|]. intros o. apply pushes_quiet_bind; [quiet_auto|]. intros _.
    apply pushes_quiet_bind; [quiet_auto|]. intros c a. apply awp_push. intros st Hst Hlen. split; [done|]. by exists st.
  - intros _. quiet_auto.
Qed.

(** A dispatch: the transition, then the push. *)
Lemma awp_dispatch_then p (k0 k1 : M (sdei_state C) Z) r0 a :
  quiet np ncpu k0 (fun r => r = r0) -> pushes p k1 (fun r => r = 0) ->
  AWP (let! ok := can_sdei_state_trans (eptr np me p) DO_DISPATCH in if negb ok then k0 else k1)
    (fun r a' => match act_on me DO_DISPATCH p a with
                 | None => r = r0 /\ a' = a
                 | Some a1 => r = 0 /\ a' = a1
                 end) a.
Proof.
  intros Hk0 Hk1. apply awp_sizes. intros _ Hl2. rewrite (eptr_entry_of a p Hl2).
  apply awp_bind, awp_trans. intros h Hh Hw. unfold act_on. rewrite Hh.
  destruct (spec_step DO_DISPATCH h) as [h'|] eqn:Hsp; cbn [negb].
  - eapply awp_mono; [apply Hk1|]. intros r a' (Hr & st & Hst & Hlen & ->).
    destruct (a_put_fields a (entry_of a me p) h') as (_ & _ & Hf). rewrite Hf in Hst. rewrite Hst.
    by rewrite (proj2 (Z.ltb_lt _ _) Hlen).
  - eapply awp_quiet; [exact Hk0|]. by intros r ->.
Qed.

(** The event of an interrupt, and the mask of a CPU. *)
Definition intr_event (s : sdei_state C) (raw : Z) : option map_ptr :=
  let f m := ev_intr m =? u32 (ic_interrupt_id raw) in
  if plat_ic_is_spi (ic_interrupt_id raw) then ShrdMap <$> find_map f (shrd_maps s) 0 else PrivMap <$> find_map f (priv_maps s) 0.
Definition masked (s : sdei_state C) : bool :=
  match arr_get (sdei_cpus s) me with Some c => pe_masked c =? PE_MASKED | None => false end.

Lemma get_event_entry_inv p (s : sdei_state C) q s' : swf np ncpu s -> get_event_entry me p s = Ret q s' -> s' = s /\ q = eptr np me p.
Proof.
  intros Hs Hq. pose proof (quiet_get_event_entry np ncpu me p s Hs) as H. rewrite Hq in H. destruct H as [-> _]. split; [|done].
  apply bind_ret_inv in Hq as (m & s1 & Hm & Hq). apply get_map_inv in Hm as [-> _].
  destruct (is_event_private m); unfold bind, gets, ret, halt_with in Hq; destruct p; by simplify_eq.
Qed.

Lemma sdei_assert_inv b (s : sdei_state C) u s' : sdei_assert b s = Ret u s' -> s' = s.
Proof. unfold sdei_assert. destruct (_ && _); [done|]. by intros [= _ <-]. Qed.

Lemma awp_apply {A} (m : M (sdei_state C) A) Q (s : sdei_state C) x s' : AWP m Q (abs s) -> swf np ncpu s -> m s = Ret x s' -> swf np ncpu s' /\ Q x (abs s').
Proof. intros Hm Hs Hr. specialize (Hm s Hs eq_refl). by rewrite Hr in Hm. Qed.

Lemma intr_run raw flags handle (s : sdei_state C) r s' :
  swf np ncpu s -> sdei_intr_handler me raw flags handle s = Ret r s' ->
  swf np ncpu s' /\ r = 0 /\ exists p, intr_event s raw = Some p /\
    abs s' = (if masked s then abs s else default (abs s) (act_on me DO_DISPATCH p (abs s))).
Proof.
  intros Hs H. unfold sdei_intr_handler in H. cbv zeta in H. apply bind_ret_inv in H as (o & s1 & Hf & H).
  assert (s1 = s /\ o = intr_event s raw) as [-> Ho]
    by (unfold find_event_map_by_intr in Hf; unfold intr_event; destruct (plat_ic_is_spi _); by injection Hf).
  destruct o as [p|]; [|done]. apply bind_ret_inv in H as (m & s1 & Hm & H). apply get_map_inv in Hm as [-> Hm].
  apply bind_ret_inv in H as (u & s1 & Ha%sdei_assert_inv & H). subst s1.
  apply bind_ret_inv in H as (q & s1 & Hq & H). apply get_event_entry_inv in Hq as [-> ->]; [|done].
  apply bind_ret_inv in H as (c & s1 & Hc & H). apply get_cpu_inv in Hc as [-> Hc].
  unfold masked. rewrite Hc. destruct (pe_masked c =? PE_MASKED).
  - eapply (awp_apply _ (fun r a' => r = 0 /\ a' = abs s)) in H; [|by awp_auto|done]. destruct H as (Hs' & -> & ->). eauto.
  - eapply (awp_apply _ (fun r a' => r = 0 /\ a' = default (abs s) (act_on me DO_DISPATCH p (abs s)))) in H; [destruct H as (Hs' & -> & ->); eauto| |done].
    do 3 awp_step. eapply awp_mono; [apply awp_dispatch_then with (r0 := 0)|].
    + quiet_auto.
    + apply pushes_quiet_bind; [quiet_auto|]. intros d. apply pushes_quiet_bind; [quiet_auto|]. intros _.
      apply pushes_quiet_bind; [quiet_auto|]. intros _. apply pushes_quiet_bind; [quiet_auto|]. intros ctx.
      apply pushes_bind_quiet; [apply pushes_setup|]. intros _. by apply quiet_ret.
    + intros r1 a1. by destruct (act_on _ _ _ _).
Qed.

Lemma dispatch_run n ss (s : sdei_state C) r s' :
  swf np ncpu s -> sdei_dispatch_event me n ss s = Ret r s' ->
  swf np ncpu s' /\
  ((r = 0 /\ masked s = false /\ exists p, event_of (abs s) n = Some p /\ act_on me DO_DISPATCH p (abs s) = Some (abs s')) \/
   (r = -1 /\ abs s' = abs s)).
Proof.
  intros Hs H. unfold sdei_dispatch_event in H. destruct (_ && _); [injection H as <- <-; auto|].
  apply bind_ret_inv in H as (c & s1 & Hc & H). apply get_cpu_inv in Hc as [-> Hc]. unfold masked. rewrite Hc.
  destruct (pe_masked c =? PE_MASKED); [injection H as <- <-; auto|]. destruct (n =? SDEI_EVENT_0); [injection H as <- <-; auto|].
  eapply (awp_apply _ (fun r a' => (r = 0 /\ exists p, event_of (abs s) n = Some p /\ act_on me DO_DISPATCH p (abs s) = Some a') \/
    (r = -1 /\ a' = abs s))) in H; [destruct H as (Hs' & [(-> & ?)|[-> ?]]); auto| |done].
  awp_step. destruct (event_of (abs s) n) as [p|]; [|awp_auto; auto]. awp_step. destruct (_ || _); [awp_auto; auto|].
  destruct (is_event_shared x); [awp_auto; auto|]. awp_skip. awp_skip. destruct x1; [awp_auto; auto|]. awp_step.
  eapply awp_mono; [apply awp_dispatch_then with (r0 := -1)|].
  - by apply quiet_ret.
  - apply pushes_quiet_bind; [quiet_auto|]. intros _. apply pushes_quiet_bind; [quiet_auto|]. intros ctx.
    apply pushes_bind_quiet; [apply pushes_setup|]. intros _. by apply quiet_ret.
  - intros r1 a1. destruct (act_on _ _ _ _) as [a2|] eqn:Ha; [|auto]. intros [-> ->]. left. eauto.
Qed.

(** ** Completion *)
Definition complete_post (resume : bool) (a : abs_t) (r : Z) (a' : abs_t) : Prop :=
  (r = 0 /\ exists p, outstanding a me = Some p /\ act_on me DO_COMPLETE p a = Some a') \/
  (r = SDEI_EDENY /\ a' = a /\ (resume = false -> forall p, outstanding a me = Some p -> act_on me DO_COMPLETE p a = None)).

Lemma awp_complete resume pc a : AWP (sdei_event_complete me resume pc) (complete_post resume a) a.
Proof.
  apply awp_sizes. intros _ Hl2. unfold sdei_event_complete. awp_step. apply awp_bind, awp_outstanding.
  { intros Hst. awp_auto. right. split_and!; [done..|]. intros _ p. unfold outstanding. by rewrite Hst. }
  intros d st Hst. destruct (resume && _) eqn:Hres.
  { awp_auto. right. split_and!; [done..|]. by intros ->. }
  awp_step. destruct (dc_map d) as [p|] eqn:Hd; [|by intros s Hs _].
  eapply (awp_quiet_bind _ _ _ _ (fun p' => p' = p)); [by apply quiet_ret|]. intros ? ->.
  assert (Htop : outstanding a me = Some p) by (apply (outstanding_top a me _ p Hst); by rewrite last_snoc).
  do 2 awp_step. rewrite (eptr_entry_of a p Hl2). apply awp_bind, awp_trans. intros h Hh Hw.
  replace (spec_step _ h) with (spec_step DO_COMPLETE h) by (by destruct resume).
  destruct (spec_step DO_COMPLETE h) as [h'|] eqn:Hsp; cbn [negb].
  - destruct (a_put_fields a (entry_of a me p) h') as (_ & _ & Hf). apply awp_bind. eapply awp_pop; [by rewrite Hf|].
    do 8 awp_skip. awp_auto. left. split; [done|]. exists p. split; [done|].
    unfold act_on. by rewrite Hh, Hsp, Hst, Htop, decide_True, removelast_last.
  - awp_auto. right. split_and!; [done..|]. intros _ p'. rewrite Htop. intros [= <-]. unfold act_on. by rewrite Hh, Hsp.
Qed.

(** ** The calls of the client *)

(** The caller is the client: the normal world, at the exception level that
    events are delivered to. *)
Definition from_client (s : sdei_state C) (flags : Z) : bool :=
  (get_interrupt_src_ss flags =? NON_SECURE) &&
  match arr_get (pes s) me with
  | Some pe => GET_EL (r_spsr_el3 pe) =? (if truthy (Z.land (r_scr_el3 pe) SCR_HCE_BIT) then MODE_EL2 else MODE_EL1)
  | None => false
  end.

Lemma quiet_ret1 {A B} (m : M (sdei_state C) A) (f : A -> B) : calm m -> calm (let! r := m in ret (f r)).
Proof. intros Hm. eapply quiet_bind; [exact Hm|]. intros r _. by apply quiet_ret. Qed.

Lemma awp_ret1 (m : M (sdei_state C) Z) (Q : Z -> abs_t -> Prop) (Q' : list Z -> abs_t -> Prop) a :
  AWP m Q a -> (forall r a', Q r a' -> Q' [u64 r] a') -> AWP (let! r := m in ret [u64 r]) Q' a.
Proof. intros Hm HQ. apply awp_bind. eapply awp_mono; [exact Hm|]. intros r a' H. apply awp_ret. by apply HQ. Qed.

Lemma smc_run fid x1 x2 x3 x4 flags (s : sdei_state C) r s' :
  swf np ncpu s -> sdei_smc_handler me fid x1 x2 x3 x4 flags s = Ret r s' ->
  swf np ncpu s' /\
  if from_client s flags then smc_spec me fid x1 (abs s) r (abs s') else r = [u64 SMC_UNK] /\ abs s' = abs s.
Proof.
  intros Hs H. unfold sdei_smc_handler in H. cbv zeta in H. unfold from_client.
  destruct (get_interrupt_src_ss flags =? NON_SECURE); cbn [negb andb] in *; [|by injection H as <- <-].
  apply bind_ret_inv in H as (pe & s1 & Hpe & H).
  assert (s1 = s /\ arr_get (pes s) me = Some pe) as [-> Harr].
  { unfold get_pe, bind, gets, deref, ret, halt_with in Hpe. destruct (arr_get _ _); by simplify_eq. }
  apply bind_ret_inv in H as (el & s1 & Hel & H). unfold sdei_client_el in Hel. erewrite bind_run in Hel by exact Hpe.
  injection Hel as <- <-. rewrite Harr. destruct (_ =? _); cbn [negb] in H; [|by injection H as <- <-].
  revert H. apply awp_apply; [|done]. generalize (abs s). clear dependent s. intros a.
  assert (Hcalm : forall c (m : M (sdei_state C) (list Z)), (forall r a', a' = a -> smc_spec me c x1 a r a') -> calm m ->
    AWP m (smc_spec me c x1 a) a) by (intros c m Hc Hm; eapply awp_quiet; [exact Hm|]; intros r' _; by apply Hc).
  pose proof quiet_release as Hq1. pose proof quiet_bind_loop as Hq2.
  repeat match goal with |- awp _ _ (if ?x =? ?c then _ else _) _ _ => destruct (Z.eqb_spec x c) as [->|] end;
    try (apply Hcalm; [intros r' a' ->; reflexivity|solve [quiet_auto]]).
  - do 3 awp_step. eapply awp_ret1; [apply awp_register|]. intros r' a' [[-> Hp]|[[-> | ->] ->]]; hnf; auto.
  - eapply awp_ret1; [by apply awp_toggle; left|]. intros r' a' Hr. hnf. by rewrite <- Hr.
  - eapply awp_ret1; [by apply awp_toggle; right|]. intros r' a' Hr. hnf. by rewrite <- Hr.
  - destruct (_ || _) eqn:Hor.
    { apply awp_bind. eapply awp_mono; [apply awp_complete|]. intros r' a' Hr. apply awp_ret.
      apply orb_true_iff in Hor as [Hc%Z.eqb_eq|Hc%Z.eqb_eq]; subst fid; hnf; destruct Hr as [[-> Hr]|(-> & -> & Hr)];
        [by left|right; split_and!; [done..|discriminate]|by left|right; split_and!; [done..|intros _; by apply Hr]]. }
    repeat match goal with |- awp _ _ (if ?x =? ?c then _ else _) _ _ => destruct (Z.eqb_spec x c) as [->|] end;
      try (apply Hcalm; [intros r' a' ->; reflexivity|unfold sdei_interrupt_bind; solve [quiet_auto]]).
    + eapply awp_ret1; [apply awp_unregister|]. intros r' a' Hr. hnf. by rewrite <- Hr.
    + eapply awp_ret1; [apply awp_shared_reset|]. intros r' a' [-> Hr]. hnf. split; [done|]. intros Hne. by rewrite Hr.
    + eapply awp_ret1; [apply awp_private_reset|]. by intros r' a' [-> ->].
    + apply awp_ret. unfold smc_spec. rewrite Hor. by repeat rewrite (proj2 (Z.eqb_neq _ _)) by assumption.
Qed.
End refine.

(** ** Runs of the dispatcher

    A CPU makes a call, takes an interrupt, or explicitly dispatches an event;
    or software and hardware change what the dispatcher does not keep: the
    processing elements and the interrupt controller. *)
Inductive sdei_step {C} `{!SdeiPlat C} : sdei_state C -> sdei_state C -> Prop :=
| step_smc me fid x1 x2 x3 x4 flags r s s' :
    0 <= me < Z.of_nat (length (sdei_cpus s)) -> sdei_smc_handler me fid x1 x2 x3 x4 flags s = Ret r s' -> sdei_step s s'
| step_intr me raw flags handle r s s' :
    0 <= me < Z.of_nat (length (sdei_cpus s)) -> sdei_intr_handler me raw flags handle s = Ret r s' -> sdei_step s s'
| step_dispatch me n ss r s s' :
    0 <= me < Z.of_nat (length (sdei_cpus s)) -> sdei_dispatch_event me n ss s = Ret r s' -> sdei_step s s'
| step_world ps prios im c s :
    sdei_step s (set_ic c (set_sd_ehf prios im (set_pes ps s))).

Section runs.
Context {C : Type} `{!SdeiPlat C} (np ncpu : nat).

Lemma reset_star me ns a : 0 <= me < Z.of_nat (length (a_stk a)) -> star astep a (reset_state me ns a).
Proof.
  revert a. induction ns as [|n ns IH]; intros a Hme; [apply star_refl|]. destruct (unregister_frame me n a) as (_ & _ & _ & Hst & Hl).
  eapply star_trans; [by apply Hst|]. unfold reset_state. cbn [foldl]. apply IH. by rewrite Hl.
Qed.

(** What a call does is a sequence of steps of the machine. *)
Lemma smc_spec_star me fid x1 a r a' : 0 <= me < Z.of_nat (length (a_stk a)) -> smc_spec me fid x1 a r a' -> star astep a a'.
Proof.
  intros Hme.
  assert (Hact : forall act p a1, act_on me act p a = Some a1 -> star astep a a1) by (intros; apply star_one; by eapply act_on_step).
  assert (Htog : forall act n, star astep a (toggle_spec me act n a).2).
  { intros act n. unfold toggle_spec. destruct (event_of a n) as [p|]; [|apply star_refl].
    destruct (act_on me act p a) eqn:Ha; [by eapply Hact|apply star_refl]. }
  unfold smc_spec. repeat match goal with |- (if ?b then _ else _) -> _ => destruct b end.
  - intros [(_ & p & _ & Ha)|[_ ->]]; [by eapply Hact|apply star_refl].
  - intros [= _ ->]. apply Htog.
  - intros [= _ ->]. apply Htog.
  - intros [(_ & p & _ & Ha)|(_ & -> & _)]; [by eapply Hact|apply star_refl].
  - intros [= _ ->]. destruct (unregister_frame me (s32 x1) a) as (_ & _ & _ & Hst & _). by apply Hst.
  - intros [_ ->]. by apply reset_star.
  - intros [-> _]. by apply reset_star.
  - intros ->. apply star_refl.
Qed.

Lemma step_sim (s s' : sdei_state C) : sdei_step s s' -> swf np ncpu s -> swf np ncpu s' /\ star astep (abs s) (abs s').
Proof.
  intros Hstep Hs. assert (Hlen : length (a_stk (abs s)) = length (sdei_cpus s)) by apply length_map.
  destruct Hstep as [me fid x1 x2 x3 x4 flags r s s' Hme Hr|me raw flags h r s s' Hme Hr|me n ss r s s' Hme Hr|ps prios im c s];
    try rewrite <- Hlen in Hme.
  - apply (smc_run np ncpu me) in Hr as [Hs' Hr]; [|done]. split; [done|]. destruct (from_client _ _ _); [by eapply smc_spec_star|].
    destruct Hr as [_ ->]. apply star_refl.
  - apply (intr_run np ncpu me) in Hr as (Hs' & _ & p & _ & ->); [|done]. split; [done|]. destruct (masked _ _); [apply star_refl|].
    destruct (act_on me DO_DISPATCH p (abs s)) eqn:Ha; [|apply star_refl]. apply star_one. by eapply act_on_step.
  - apply (dispatch_run np ncpu me) in Hr as [Hs' Hr]; [|done]. split; [done|].
    destruct Hr as [(_ & _ & p & _ & Ha)|[_ ->]]; [|apply star_refl]. apply star_one. by eapply act_on_step.
  - split; [|apply star_refl]. destruct Hs. by split.
Qed.

Lemma run_sim (s s' : sdei_state C) : star sdei_step s s' -> swf np ncpu s -> swf np ncpu s' /\ star astep (abs s) (abs s').
Proof.
  induction 1 as [|s s1 s2 _ IH Hstep]; intros Hs; [split; [done|apply star_refl]|].
  destruct (IH Hs) as [Hs1 Ha1]. destruct (step_sim s1 s2 Hstep Hs1) as [Hs2 Ha2]. split; [done|by eapply star_trans].
Qed.

(** The static data: nothing registered, nothing dispatched. *)
Record sdei_initial (s : sdei_state C) : Prop := {
  si_priv : Forall (fun e => se_state e = 0) (priv_table s);
  si_shrd : Forall (fun e => se_state e = 0) (shrd_table s);
  si_pmaps : Forall (fun m => reg_count m = 0) (priv_maps s);
  si_smaps : Forall (fun m => reg_count m = 0) (shrd_maps s);
  si_cpus : Forall (fun c => stack_top c = 0 /\ Z.of_nat (length (dispatch_stack c)) = MAX_EVENT_NESTING) (sdei_cpus s)
}.

Definition idle : hstate := HState false false false.

Lemma initial_swf s : sdei_initial s -> swf (length (priv_maps s)) (length (sdei_cpus s)) s.
Proof.
  intros [H1 H2 _ _ H5]. split; [| | |done|done].
  - eapply List.Forall_impl; [|exact H1]. simpl. intros e ->. by exists idle.
  - eapply List.Forall_impl; [|exact H2]. simpl. intros e ->. by exists idle.
  - eapply List.Forall_impl; [|exact H5]. simpl. intros c [Ht Hl]. split; [done|]. rewrite Ht. done.
Qed.

Lemma forall_map_get {A B} (f : A -> B) (P : A -> Prop) (l : list A) i y :
  Forall P l -> arr_get (map f l) i = Some y -> exists x, P x /\ y = f x.
Proof.
  intros Hl. change (map f l) with (f <$> l). rewrite arr_get_fmap. destruct (arr_get l i) as [x|] eqn:Hx; [|done].
  intros [= <-]. exists x. split; [|done]. apply arr_get_lookup in Hx. by eapply (Forall_lookup_1 _ _ _ _ Hl).
Qed.

Lemma initial_get s q h : sdei_initial s -> a_get (abs s) q = Some h -> h = idle.
Proof.
  intros [H1 H2 _ _ _]. destruct q; simpl; intros Hq.
  - destruct (forall_map_get _ _ _ _ _ H1 Hq) as (e & He & ->). by rewrite He.
  - destruct (forall_map_get _ _ _ _ _ H2 Hq) as (e & He & ->). by rewrite He.
Qed.

Lemma sumZ_zero f l : (forall c, f c = 0) -> sumZ f l = 0.
Proof. intros Hf. induction l as [|x l IH]; simpl; [done|]. by rewrite Hf, IH. Qed.

Lemma initial_ainv s :
  sdei_initial s -> Z.of_nat (length (sdei_cpus s)) * Z.of_nat (length (priv_maps s)) < 2 ^ 32 -> ainv (abs s).
Proof.
  intros Hi Hsz. pose proof (initial_get s) as Hg. destruct Hi as [H1 H2 H3 H4 H5].
  assert (Hstk : forall c st, arr_get (a_stk (abs s)) c = Some st -> st = []).
  { intros c st Hst. destruct (forall_map_get _ _ _ _ _ H5 Hst) as (x & [Hx _] & ->). unfold stack_of. by rewrite Hx. }
  assert (Hnone : forall c p, ~ on_stack (abs s) c p).
  { intros c p (st & Hst & Hin). rewrite (Hstk c st Hst) in Hin. by apply elem_of_nil in Hin. }
  split; [simpl; by rewrite !length_map| |].
  - split.
    + intros i n Hn. destruct (forall_map_get _ _ _ _ _ H3 Hn) as (m & -> & ->). symmetry. apply sumZ_zero. intros c. unfold reg_on.
      destruct (a_get _ _) as [h|] eqn:Hq; [|done]. by rewrite (Hg _ _ ltac:(by split) Hq).
    + intros i n Hn. destruct (forall_map_get _ _ _ _ _ H4 Hn) as (m & -> & ->).
      destruct (a_get _ _) as [h|] eqn:Hq; [|done]. by rewrite (Hg _ _ ltac:(by split) Hq).
  - split.
    + intros q h Hq. by rewrite (Hg _ _ ltac:(by split) Hq).
    + intros c st Hst. rewrite (Hstk c st Hst). split; [done|constructor].
    + intros c st x Hst Hx. rewrite (Hstk c st Hst) in Hx. by apply elem_of_nil in Hx.
    + intros c p Hon. by apply Hnone in Hon.
    + intros c c' p p' Hon. by apply Hnone in Hon.
    + intros q h Hq Hr. rewrite (Hg _ _ ltac:(by split) Hq) in Hr. done.
Qed.
End runs.

(** ** Initialisation keeps the static data *)
Section init.
Context {C : Type} `{!SdeiPlat C} (np ncpu : nat) (a : abs_t).
Context (Hidle : forall q h, a_get a q = Some h -> h = idle) (Hzero : forall p n, c_get a p = Some n -> n = 0).

Definition keeps {A} (m : M (sdei_state C) A) : Prop := awp np ncpu m (fun _ a' => a' = a) a.

Lemma keeps_seq {A B} (m : M (sdei_state C) A) (k : A -> M (sdei_state C) B) : keeps m -> (forall x, keeps (k x)) -> keeps (bind m k).
Proof.
  intros Hm Hk. apply awp_bind. intros s Hs Ha. specialize (Hm s Hs Ha). destruct (m s) as [x s1|]; [|done].
  destruct Hm as [Hs1 ->]. split; [done|apply Hk].
Qed.

Lemma keeps_quiet {A} (m : M (sdei_state C) A) : quiet np ncpu m (fun _ => True) -> keeps m.
Proof. intros Hm. by eapply awp_quiet. Qed.

Lemma keeps_foldM {A B} (f : B -> A -> M (sdei_state C) B) b l : (forall b x, keeps (f b x)) -> keeps (foldM f b l).
Proof.
  intros Hf. revert b. induction l as [|x l IH]; intros b; simpl; [by apply awp_ret|]. apply keeps_seq; [apply Hf|done].
Qed.

Lemma keeps_forM {A} (f : A -> M (sdei_state C) unit) l : (forall x, keeps (f x)) -> keeps (forM_ l f).
Proof. intros Hf. induction l as [|x l IH]; simpl; [by apply awp_ret|]. apply keeps_seq; [apply Hf|done]. Qed.

(** Writing a mapping whose count is zero. *)
Lemma keeps_put_map p m :
  (forall n, c_get a p = Some n -> reg_count m = 0) -> c_get a p <> None -> n_get a p = Some (ev_num m) -> keeps (put_map p m).
Proof.
  intros Hr Hp Hnum. apply awp_put_map; [done|]. destruct (c_get a p) as [n|] eqn:Hn; [|done]. apply c_put_id.
  rewrite (Hr n eq_refl), Hn. by rewrite (Hzero p n Hn).
Qed.

Lemma keeps_init_map p : keeps (let! m := get_map p in put_map p (init_map m)).
Proof. apply awp_bind, awp_get_map. intros m Hm Hn. apply keeps_put_map; [done|congruence|done]. Qed.

Lemma keeps_class_shared class so_far p : keeps (class_init_shared class so_far p).
Proof.
  unfold class_init_shared. apply awp_bind, awp_get_map. intros m Hm Hn. do 5 (apply keeps_seq; [apply keeps_quiet; quiet_auto|intros _]).
  apply keeps_seq; [|intros _; by apply awp_ret]. destruct (negb _); [by apply awp_ret|].
  apply keeps_seq; [|intros _; apply keeps_init_map]. destruct (is_map_dynamic m); [apply keeps_quiet; quiet_auto|].
  apply keeps_seq; [apply keeps_quiet; quiet_auto|intros _]. apply keeps_put_map; [|congruence|done]. intros n _. exact (Hzero p _ Hm).
Qed.

Lemma keeps_class_private me class acc p : keeps (class_init_private me class acc p).
Proof.
  unfold class_init_private. apply awp_bind, awp_get_map. intros m Hm Hn. apply keeps_seq; [apply keeps_quiet; quiet_auto|intros _].
  apply keeps_seq; [apply keeps_quiet; unfold is_secure_sgi; quiet_auto|intros sgi]. do 3 (apply keeps_seq; [apply keeps_quiet; quiet_auto|intros _]).
  apply keeps_seq; [|intros _; by apply awp_ret]. destruct (negb _); [by apply awp_ret|].
  apply keeps_seq; [|intros _; apply keeps_init_map]. destruct (negb _); [|by apply awp_ret].
  cbn [when]. destruct (is_map_dynamic m); [apply keeps_quiet; quiet_auto|].
  apply keeps_seq; [apply keeps_quiet; quiet_auto|intros _]. apply keeps_put_map; [|congruence|done]. intros n _. exact (Hzero p _ Hm).
Qed.

Lemma keeps_cpu_on_init me : keeps (sdei_cpu_on_init me).
Proof.
  apply keeps_seq; [apply keeps_quiet; quiet_auto|intros ps]. apply keeps_seq; [|intros _; apply keeps_quiet; quiet_auto].
  apply keeps_forM. intros p. eapply awp_quiet_bind; [apply quiet_get_event_entry|]. intros q _.
  apply awp_bind, awp_get_entry. intros e He Hv. eapply awp_put_entry; [exact He|by exists idle|].
  cbn [se_state set_se_state]. apply a_put_id. rewrite He. f_equal. by apply (Hidle q).
Qed.

Lemma keeps_init me handler : keeps (sdei_init me handler).
Proof.
  assert (Hclass : forall class, keeps (sdei_class_init me class)).
  { intros class. unfold sdei_class_init. apply keeps_seq; [apply keeps_quiet; quiet_auto|intros ps].
    apply keeps_seq; [apply keeps_foldM; intros; apply keeps_class_shared|intros _].
    apply keeps_seq; [apply keeps_quiet; quiet_auto|intros ps'].
    apply keeps_seq; [apply keeps_foldM; intros; apply keeps_class_private|intros acc].
    apply keeps_seq; [apply keeps_quiet; quiet_auto|intros _]. apply keeps_cpu_on_init. }
  unfold sdei_init. do 2 (apply keeps_seq; [apply Hclass|intros _]). apply keeps_quiet. quiet_auto.
Qed.
End init.

Section init_state.
Context {C : Type} `{!SdeiPlat C}.
Lemma init_keeps_abs me handler (s s' : sdei_state C) u :
  sdei_initial s -> sdei_init me handler s = Ret u s' ->
  swf (length (priv_maps s)) (length (sdei_cpus s)) s' /\ abs s' = abs s.
Proof.
  intros Hi Hr. pose proof (keeps_init (length (priv_maps s)) (length (sdei_cpus s)) (abs s)) as Hk.
  specialize (Hk (fun q h => initial_get s q h Hi)).
  assert (Hz : forall p n, c_get (abs s) p = Some n -> n = 0).
  { destruct Hi as [_ _ H3 H4 _]. intros [i|i] n Hn; simpl in Hn.
    - destruct (forall_map_get _ _ _ _ _ H3 Hn) as (m & Hm & ->). done.
    - destruct (forall_map_get _ _ _ _ _ H4 Hn) as (m & Hm & ->). done. }
  specialize (Hk Hz me handler s (initial_swf s Hi) eq_refl). by rewrite Hr in Hk.
Qed.
End init_state.
