(* ===== verification/SdeiProps.v ===== *)
(** * SDEI dispatcher: properties

    Refinement and invariant of the runs, the dispatch of an event and its
    completion, the width of a saved register, and a run that ends in a panic. *)
From stdpp Require Import base list numbers option.
From Stdlib Require Import ZArith Lia.
From S2P Require Import Prelude IntrMgmt Ehf SdeiDefs SdeiIntr SdeiMain SdeiSpec SdeiSim SdeiRefine.
#[local] Open Scope Z_scope.

(** ** Contexts *)
Section contexts.
Context {C : Type} `{!SdeiPlat C}.
Implicit Types s : sdei_state C.

Definition ctx_at s (me ss : Z) : option world_ctx :=
  pe ← arr_get (pes s) me; o ← arr_get (pe_ctx pe) ss; o.
Definition store_ctx (me ss : Z) (c : world_ctx) s : sdei_state C :=
  match arr_get (pes s) me with
  | Some pe => set_pes (<[Z.to_nat me := set_pe_ctx (<[Z.to_nat ss := Some c]> (pe_ctx pe)) pe]> (pes s)) s
  | None => s
  end.

Lemma get_pe_inv me s pe s' : get_pe me s = Ret pe s' -> s' = s /\ arr_get (pes s) me = Some pe.
Proof. unfold get_pe, bind, gets, deref, ret, halt_with. destruct (arr_get _ _); intros; by simplify_eq. Qed.

Lemma get_pe_run me s pe : arr_get (pes s) me = Some pe -> get_pe me s = Ret pe s.
Proof. unfold get_pe, bind, gets, deref, ret. by intros ->. Qed.

Lemma get_ctx_inv me ss s o s' : get_ctx me ss s = Ret o s' -> s' = s /\ ctx_at s me ss = o.
Proof.
  unfold get_ctx. intros (pe & s1 & Hpe & Hd)%bind_ret_inv. apply get_pe_inv in Hpe as [-> Hpe].
  unfold deref, ret, halt_with in Hd. destruct (arr_get (pe_ctx pe) ss) as [x|] eqn:Hx; [|done]. injection Hd as <- <-.
  split; [done|]. unfold ctx_at. rewrite Hpe. simpl. by rewrite Hx.
Qed.

Lemma ctx_at_pe s me ss c :
  ctx_at s me ss = Some c -> exists pe, arr_get (pes s) me = Some pe /\ arr_get (pe_ctx pe) ss = Some (Some c).
Proof.
  unfold ctx_at. destruct (arr_get (pes s) me) as [pe|]; [|done]. simpl. destruct (arr_get (pe_ctx pe) ss) as [o|] eqn:Ho; [|done].
  simpl. intros ->. by exists pe.
Qed.

Lemma get_ctx_run me ss s c : ctx_at s me ss = Some c -> get_ctx me ss s = Ret (Some c) s.
Proof.
  intros (pe & Hpe & Hc)%ctx_at_pe. unfold get_ctx. erewrite bind_run by (by apply get_pe_run). by rewrite Hc.
Qed.

Lemma put_ctx_run me ss s c c0 : ctx_at s me ss = Some c0 -> put_ctx me ss c s = Ret tt (store_ctx me ss c s).
Proof.
  intros (pe & Hpe & Hc)%ctx_at_pe. unfold put_ctx. erewrite bind_run by (by apply get_pe_run).
  pose proof (arr_get_Some_range _ _ _ Hpe). pose proof (arr_get_Some_range _ _ _ Hc).
  rewrite arr_set_in_range by done. erewrite bind_run by reflexivity. unfold put_pe. erewrite bind_run by reflexivity.
  rewrite arr_set_in_range by done. unfold store_ctx. rewrite Hpe. done.
Qed.

Lemma ctx_at_store me ss s c c0 : ctx_at s me ss = Some c0 -> ctx_at (store_ctx me ss c s) me ss = Some c.
Proof.
  intros (pe & Hpe & Hc)%ctx_at_pe. pose proof (arr_get_Some_range _ _ _ Hpe). pose proof (arr_get_Some_range _ _ _ Hc).
  unfold store_ctx, ctx_at. rewrite Hpe. simpl. rewrite arr_get_insert_eq by done. simpl. by rewrite arr_get_insert_eq by done.
Qed.

(** The exception level of the client does not depend on the contexts. *)
Definition client_el_of s (me : Z) : option Z :=
  pe ← arr_get (pes s) me; Some (if truthy (Z.land (r_scr_el3 pe) SCR_HCE_BIT) then MODE_EL2 else MODE_EL1).

Lemma client_el_run me s el : client_el_of s me = Some el -> sdei_client_el me s = Ret el s.
Proof.
  unfold client_el_of, sdei_client_el. destruct (arr_get (pes s) me) as [pe|] eqn:Hpe; [|done]. simpl. intros [= <-].
  by erewrite bind_run by (by apply get_pe_run).
Qed.

Lemma client_el_inv me s el s' : sdei_client_el me s = Ret el s' -> s' = s /\ client_el_of s me = Some el.
Proof.
  unfold sdei_client_el. intros (pe & s1 & Hpe & [= <- <-])%bind_ret_inv. apply get_pe_inv in Hpe as [-> Hpe].
  unfold client_el_of. by rewrite Hpe.
Qed.

Lemma client_el_store me s ss c : client_el_of (store_ctx me ss c s) me = client_el_of s me.
Proof.
  unfold client_el_of, store_ctx. destruct (arr_get (pes s) me) as [pe|] eqn:Hpe; [|by rewrite Hpe].
  simpl. pose proof (arr_get_Some_range _ _ _ Hpe). by rewrite arr_get_insert_eq by done.
Qed.

(** What the parts of the state do to each other. *)
Lemma store_ctx_frame me ss c s :
  priv_maps (store_ctx me ss c s) = priv_maps s /\ shrd_maps (store_ctx me ss c s) = shrd_maps s /\
  priv_table (store_ctx me ss c s) = priv_table s /\ shrd_table (store_ctx me ss c s) = shrd_table s /\
  sdei_cpus (store_ctx me ss c s) = sdei_cpus s /\ ic (store_ctx me ss c s) = ic s.
Proof. unfold store_ctx. by destruct (arr_get (pes s) me). Qed.

Lemma cpus_store_ctx me ss c s : sdei_cpus (store_ctx me ss c s) = sdei_cpus s.
Proof. apply store_ctx_frame. Qed.

Lemma ic_store_ctx me ss c s : ic (store_ctx me ss c s) = ic s.
Proof. apply store_ctx_frame. Qed.

Lemma map_at_store_ctx me ss c s p : map_at (store_ctx me ss c s) p = map_at s p.
Proof. destruct (store_ctx_frame me ss c s) as (H1 & H2 & _). destruct p; simpl; by rewrite ?H1, ?H2. Qed.

Lemma entry_at_store_ctx me ss c s q : entry_at (store_ctx me ss c s) q = entry_at s q.
Proof. destruct (store_ctx_frame me ss c s) as (_ & _ & H1 & H2 & _). destruct q; simpl; by rewrite ?H1, ?H2. Qed.

Lemma sdei_assert_run b s : b = true -> sdei_assert b s = Ret tt s.
Proof. intros ->. unfold sdei_assert. by rewrite andb_false_r. Qed.

Lemma map_at_store s p m m0 : map_at s p = Some m0 -> map_at (store_map p m s) p = Some m.
Proof. destruct p; simpl; intros Hm; pose proof (arr_get_Some_range _ _ _ Hm); by apply arr_get_insert_eq. Qed.

Lemma entry_at_store s q e e0 : entry_at s q = Some e0 -> entry_at (store_entry q e s) q = Some e.
Proof. destruct q; simpl; intros Hm; pose proof (arr_get_Some_range _ _ _ Hm); by apply arr_get_insert_eq. Qed.

Lemma store_map_frame p m s :
  (forall q, entry_at (store_map p m s) q = entry_at s q) /\ sdei_cpus (store_map p m s) = sdei_cpus s /\
  pes (store_map p m s) = pes s /\ ic (store_map p m s) = ic s.
Proof. destruct p; split_and!; try done; by intros []. Qed.

Lemma store_entry_frame q e s :
  (forall p, map_at (store_entry q e s) p = map_at s p) /\ sdei_cpus (store_entry q e s) = sdei_cpus s /\
  pes (store_entry q e s) = pes s /\ ic (store_entry q e s) = ic s.
Proof. destruct q; split_and!; try done; by intros []. Qed.
End contexts.

(** The array a pointer points into. *)
Definition ptr_private (p : map_ptr) : bool := match p with PrivMap _ => true | ShrdMap _ => false end.

(** ** Dispatch *)
Section dispatch.
Context {C : Type} `{!SdeiPlat C} (np ncpu : nat).
Implicit Types s : sdei_state C.

(** The states differ at most in mappings, and not in the number of event [p]. *)
Record same_core (p : map_ptr) s s' : Prop := {
  sc_entries : forall q, entry_at s' q = entry_at s q;
  sc_cpus : sdei_cpus s' = sdei_cpus s;
  sc_pes : pes s' = pes s;
  sc_ic : ic s' = ic s;
  sc_num : ev_num <$> map_at s' p = ev_num <$> map_at s p
}.

Lemma same_core_refl p s : same_core p s s.
Proof. by split. Qed.

Lemma lock_core (f : map_ptr -> M (sdei_state C) unit) b p s u s' :
  (forall s u s', f p s = Ret u s' -> exists m0, map_at s p = Some m0 /\ s' = store_map p (set_map_lock b m0) s) ->
  f p s = Ret u s' -> same_core p s s'.
Proof.
  intros Hf (m0 & Hm & ->)%Hf. destruct (store_map_frame p (set_map_lock b m0) s) as (H1 & H2 & H3 & H4).
  split; try done. rewrite (map_at_store s p _ m0 Hm), Hm. done.
Qed.

Lemma map_lock_inv p s u s' :
  sdei_map_lock p s = Ret u s' -> exists m0, map_at s p = Some m0 /\ s' = store_map p (set_map_lock true m0) s.
Proof.
  intros (m & s1 & Hm & H)%bind_ret_inv. apply get_map_inv in Hm as [-> Hm]. destruct (map_lock m); [done|].
  rewrite (put_map_run p _ m s Hm) in H. injection H as _ <-. eauto.
Qed.

Lemma map_unlock_inv p s u s' :
  sdei_map_unlock p s = Ret u s' -> exists m0, map_at s p = Some m0 /\ s' = store_map p (set_map_lock false m0) s.
Proof.
  intros (m & s1 & Hm & H)%bind_ret_inv. apply get_map_inv in Hm as [-> Hm].
  rewrite (put_map_run p _ m s Hm) in H. injection H as _ <-. eauto.
Qed.

Lemma lock_shared_core m p s u s' : lock_shared m p s = Ret u s' -> same_core p s s'.
Proof.
  unfold lock_shared. destruct (is_event_shared m); simpl; [|intros [= _ <-]; apply same_core_refl].
  apply (lock_core sdei_map_lock true). intros. by eapply map_lock_inv.
Qed.

Lemma unlock_shared_core m p s u s' : unlock_shared m p s = Ret u s' -> same_core p s s'.
Proof.
  unfold unlock_shared. destruct (is_event_shared m); simpl; [|intros [= _ <-]; apply same_core_refl].
  apply (lock_core sdei_map_unlock false). intros. by eapply map_unlock_inv.
Qed.

(** The context of the handler of event [m] with entry [e] when [c] was
    interrupted. *)
Definition handler_ctx (m : sdei_ev_map_t) (e : sdei_entry_t) (el : Z) (c : world_ctx) : world_ctx :=
  WorldCtx (u64 (ev_num m) :: se_arg e :: ctx_elr_el3 c :: ctx_spsr_el3 c :: drop 4 (gpregs c)) (se_ep e)
    (u32 (SPSR_64 el MODE_SP_ELX DISABLE_ALL_EXCEPTIONS)) (ctx_sysregs c).
Definition saved_ctx (p : map_ptr) (sec raw : Z) (c : world_ctx) : sdei_dispatch_context_t :=
  DispatchCtx (Some p) sec raw (take (Z.to_nat SDEI_SAVED_GPREGS) (gpregs c)) (ctx_elr_el3 c) (ctx_spsr_el3 c).

Lemma push_dispatch_inv me d s u s' :
  push_dispatch me d s = Ret u s' ->
  exists cpu, arr_get (sdei_cpus s) me = Some cpu /\ 0 <= stack_top cpu < Z.of_nat (length (dispatch_stack cpu)) /\
    s' = set_sdei_cpus (<[Z.to_nat me := set_dispatch (<[Z.to_nat (stack_top cpu) := d]> (dispatch_stack cpu)) (u16 (stack_top cpu + 1)) cpu]> (sdei_cpus s)) s.
Proof.
  intros (cpu & s1 & Hc & H)%bind_ret_inv. apply get_cpu_inv in Hc as [-> Hc].
  apply bind_ret_inv in H as (u0 & s1 & Ha%sdei_assert_inv & H). subst s1. apply bind_ret_inv in H as (l & s1 & Hl & H).
  unfold deref, ret, halt_with in Hl. destruct (arr_set _ _ _) as [l'|] eqn:Hset; [|done]. injection Hl as -> <-.
  apply arr_set_Some in Hset as [Hr ->]. rewrite (put_cpu_run me s _ cpu Hc) in H. injection H as _ <-. by exists cpu.
Qed.

Lemma setup_dispatch_inv me p q sec raw s u s' :
  setup_ns_dispatch me p q NON_SECURE sec raw s = Ret u s' ->
  exists m e el c cpu, map_at s p = Some m /\ entry_at s q = Some e /\ client_el_of s me = Some el /\
    ctx_at s me NON_SECURE = Some c /\ arr_get (sdei_cpus s) me = Some cpu /\
    0 <= stack_top cpu < Z.of_nat (length (dispatch_stack cpu)) /\
    ctx_at s' me NON_SECURE = Some (handler_ctx m e el c) /\
    arr_get (sdei_cpus s') me = Some (set_dispatch (<[Z.to_nat (stack_top cpu) := saved_ctx p sec raw c]> (dispatch_stack cpu)) (u16 (stack_top cpu + 1)) cpu) /\
    (forall q', entry_at s' q' = entry_at s q') /\ (forall p', map_at s' p' = map_at s p') /\ ic s' = ic s.
Proof.
  unfold setup_ns_dispatch. intros (u0 & s1 & Hsave & H)%bind_ret_inv.
  apply bind_ret_inv in Hsave as (o & s2 & Ho & Hsave). apply get_ctx_inv in Ho as [-> Ho].
  apply bind_ret_inv in Hsave as (u1 & s2 & Ha%sdei_assert_inv & Hsave). subst s2.
  apply bind_ret_inv in Hsave as (c & s2 & Hd & Hpush). destruct o as [c'|]; [|done]. injection Hd as -> <-.
  apply push_dispatch_inv in Hpush as (cpu & Hcpu & Hr & ->). set (cpu' := set_dispatch _ _ cpu) in *.
  apply bind_ret_inv in H as (m & s2 & Hm & H). apply get_map_inv in Hm as [-> Hm].
  apply bind_ret_inv in H as (e & s2 & He & H). apply get_entry_inv in He as [-> He].
  set (s1 := set_sdei_cpus _ s) in *. assert (Ho1 : ctx_at s1 me NON_SECURE = Some c) by done.
  erewrite bind_run in H by (by apply get_ctx_run). erewrite bind_run in H by reflexivity.
  erewrite bind_run in H by (by eapply put_ctx_run). set (s3 := store_ctx _ _ _ s1) in *.
  apply bind_ret_inv in H as (el & s4 & Hel & H). apply client_el_inv in Hel as [-> Hel].
  unfold s3 in Hel. rewrite client_el_store in Hel. change (client_el_of s1 me) with (client_el_of s me) in Hel.
  unfold cm_set_elr_spsr_el3 in H. assert (Ho3 : ctx_at s3 me NON_SECURE = Some (set_ctx_gpregs (u64 (ev_num m) :: se_arg e :: ctx_elr_el3 c :: ctx_spsr_el3 c :: drop 4 (gpregs c)) c)) by (by eapply ctx_at_store).
  erewrite bind_run in H by (by apply get_ctx_run). erewrite bind_run in H by (by apply sdei_assert_run).
  erewrite bind_run in H by reflexivity. rewrite (put_ctx_run _ _ _ _ _ Ho3) in H. injection H as _ <-.
  exists m, e, el, c, cpu. split_and!; [done| |done|done|done|lia|lia| | | | |].
  - by destruct q.
  - by rewrite (ctx_at_store _ _ _ _ _ Ho3).
  - unfold s3. rewrite !cpus_store_ctx. simpl. apply arr_get_insert_eq. by eapply arr_get_Some_range.
  - intros q'. rewrite entry_at_store_ctx. unfold s3. rewrite entry_at_store_ctx. by destruct q'.
  - intros p'. rewrite map_at_store_ctx. unfold s3. rewrite map_at_store_ctx. by destruct p'.
  - unfold s3. by rewrite !ic_store_ctx.
Qed.

Lemma quiet_keeps {A} (m : M (sdei_state C) A) s x s' :
  quiet np ncpu m (fun _ => True) -> swf np ncpu s -> m s = Ret x s' -> swf np ncpu s' /\ abs s' = abs s.
Proof. intros Hq Hs Hr. specialize (Hq s Hs). rewrite Hr in Hq. naive_solver. Qed.

Lemma same_core_trans p s1 s2 s3 : same_core p s1 s2 -> same_core p s2 s3 -> same_core p s1 s3.
Proof. intros [H1 H2 H3 H4 H5] [H1' H2' H3' H4' H5']. split; [intros q; by rewrite H1'|congruence..]. Qed.

Lemma find_map_spec f l i j : find_map f l i = Some j -> exists m, l !! Z.to_nat (j - i) = Some m /\ i <= j /\ f m = true.
Proof.
  revert i. induction l as [|m l IH]; intros i; simpl; [done|]. destruct (f m) eqn:Hf.
  - intros [= <-]. exists m. by replace (i - i) with 0 by lia.
  - intros (m' & Hl & Hle & Hf')%IH. exists m'. split_and!; [|lia|done].
    by replace (Z.to_nat (j - i)) with (S (Z.to_nat (j - (i + 1)))) by lia.
Qed.

Lemma find_by_intr_spec n sh s p m :
  find_event_map_by_intr n sh s = Ret (Some p) s -> map_at s p = Some m -> ev_intr m = u32 n.
Proof.
  unfold find_event_map_by_intr, gets. destruct sh; intros [= Hf] Hm.
  - destruct (find_map _ _ _) as [j|] eqn:Hj; [|done]. injection Hf as <-. apply find_map_spec in Hj as (m' & Hl & Hle & Hf).
    apply arr_get_lookup in Hm. rewrite Z.sub_0_r in Hl. rewrite Hl in Hm. injection Hm as <-. by apply Z.eqb_eq in Hf.
  - destruct (find_map _ _ _) as [j|] eqn:Hj; [|done]. injection Hf as <-. apply find_map_spec in Hj as (m' & Hl & Hle & Hf).
    apply arr_get_lookup in Hm. rewrite Z.sub_0_r in Hl. rewrite Hl in Hm. injection Hm as <-. by apply Z.eqb_eq in Hf.
Qed.

(** The part of a dispatch after the transition, when the normal world was
    interrupted. *)
Lemma dispatch_tail_inv me p q m raw s r s' :
  (let! disp_ctx := get_outstanding_dispatch me in
   assert_preemption m disp_ctx ;;;
   unlock_shared m p ;;;
   let! ctx := ret NON_SECURE in
   setup_ns_dispatch me p q ctx NON_SECURE raw ;;;
   ret 0) s = Ret r s' ->
  r = 0 /\ exists s1 u, same_core p s s1 /\ setup_ns_dispatch me p q NON_SECURE NON_SECURE raw s1 = Ret u s'.
Proof.
  intros (d & s1 & Hd & H)%bind_ret_inv.
  assert (s1 = s) as ->.
  { unfold get_outstanding_dispatch in Hd. apply bind_ret_inv in Hd as (c & s2 & Hc & Hd). apply get_cpu_inv in Hc as [-> _].
    destruct (stack_top c =? 0); [by injection Hd|]. apply bind_ret_inv in Hd as (u & s3 & Ha%sdei_assert_inv & Hd). subst s3.
    apply bind_ret_inv in Hd as (x & s3 & Hx & [= _ <-]). unfold deref, ret, halt_with in Hx. destruct (arr_get _ _); by simplify_eq. }
  apply bind_ret_inv in H as (u & s1 & Hp & H).
  assert (s1 = s) as ->.
  { unfold assert_preemption in Hp. destruct (is_event_critical m); [|by apply sdei_assert_inv in Hp].
    destruct d as [d|]; [|by injection Hp]. destruct sdei_assertions; [|by injection Hp].
    apply bind_ret_inv in Hp as (b & s2 & Hb & Hp). apply sdei_assert_inv in Hp. subst s2.
    apply bind_ret_inv in Hb as (p' & s3 & Hp' & Hb). unfold deref, ret, halt_with in Hp'. destruct (dc_map d); [|done]. injection Hp' as _ <-.
    apply bind_ret_inv in Hb as (m' & s4 & Hm & [= _ <-]). by apply get_map_inv in Hm as [-> _]. }
  apply bind_ret_inv in H as (u1 & s1 & Hu & H). apply unlock_shared_core in Hu.
  erewrite bind_run in H by reflexivity. apply bind_ret_inv in H as (u2 & s2 & Hset & [= <- <-]). split; [done|]. by exists s1, u2.
Qed.

Lemma intr_dispatch_inv me raw flags s r s' :
  swf np ncpu s -> get_interrupt_src_ss flags = NON_SECURE -> sdei_intr_handler me raw flags NON_SECURE s = Ret r s' ->
  arr_get (a_stk (abs s')) me <> arr_get (a_stk (abs s)) me ->
  r = 0 /\ exists p m e el c cpu,
    find_event_map_by_intr (ic_interrupt_id raw) (plat_ic_is_spi (ic_interrupt_id raw)) s = Ret (Some p) s /\
    map_at s p = Some m /\ is_event_private m = ptr_private p /\
    entry_at s (eptr np me p) = Some e /\ decode (se_state e) = HState true true false /\
    arr_get (sdei_cpus s) me = Some cpu /\ pe_masked cpu <> PE_MASKED /\
    0 <= stack_top cpu < Z.of_nat (length (dispatch_stack cpu)) /\
    client_el_of s me = Some el /\ ctx_at s me NON_SECURE = Some c /\
    ctx_at s' me NON_SECURE = Some (handler_ctx m e el c) /\
    arr_get (sdei_cpus s') me = Some (set_dispatch (<[Z.to_nat (stack_top cpu) := saved_ctx p NON_SECURE raw c]> (dispatch_stack cpu)) (u16 (stack_top cpu + 1)) cpu) /\
    entry_at s' (eptr np me p) = Some (set_se_state REG_ e).
Proof.
  intros Hs Hss H Hne. unfold sdei_intr_handler in H. cbv zeta in H. rewrite Hss in H.
  apply bind_ret_inv in H as (o & s1 & Hf & H).
  assert (s1 = s) as -> by (unfold find_event_map_by_intr in Hf; destruct (plat_ic_is_spi _); by injection Hf).
  destruct o as [p|]; [|done]. apply bind_ret_inv in H as (m & s1 & Hm & H). apply get_map_inv in Hm as [-> Hm].
  apply bind_ret_inv in H as (u & s1 & Ha%sdei_assert_inv & H). subst s1.
  apply bind_ret_inv in H as (q & s1 & Hq & H).
  assert (s1 = s /\ q = eptr np me p /\ is_event_private m = ptr_private p) as (-> & -> & Hkind).
  { pose proof (quiet_get_event_entry np ncpu me p s Hs) as Hqq. rewrite Hq in Hqq. destruct Hqq as (-> & _ & _).
    unfold get_event_entry in Hq. apply bind_ret_inv in Hq as (m' & s2 & Hm' & Hq). apply get_map_inv in Hm' as [-> Hm'].
    rewrite Hm in Hm'. injection Hm' as <-.
    destruct (is_event_private m); unfold bind, gets, ret, halt_with in Hq; destruct p; by simplify_eq. }
  apply bind_ret_inv in H as (cpu & s1 & Hc & H). apply get_cpu_inv in Hc as [-> Hc].
  destruct (Z.eqb_spec (pe_masked cpu) PE_MASKED) as [Hmask|Hmask].
  { exfalso. apply Hne. f_equal. f_equal. eapply quiet_keeps; [|exact Hs|exact H]. quiet_auto. }
  apply bind_ret_inv in H as (u0 & s1 & Hl & H). destruct (quiet_keeps _ _ _ _ (quiet_lock_shared np ncpu m p) Hs Hl) as [Hs1 Habs1].
  apply lock_shared_core in Hl.
  apply bind_ret_inv in H as (e & s2 & He & H). apply get_entry_inv in He as [-> He]. rewrite (sc_entries _ _ _ Hl) in He.
  apply bind_ret_inv in H as (u1 & s2 & Haf & H).
  assert (s2 = s1) as -> by (destruct (is_event_shared m && _); [by apply sdei_assert_inv in Haf|by injection Haf]).
  apply bind_ret_inv in H as (ok & s2 & Ht & H). pose proof (trans_run np ncpu (eptr np me p) DO_DISPATCH s1 Hs1) as Htr. rewrite Ht in Htr.
  destruct Htr as (e' & He' & Htr). rewrite (sc_entries _ _ _ Hl), He in He'. injection He' as <-.
  destruct (spec_step DO_DISPATCH (decode (se_state e))) as [h'|] eqn:Hsp; destruct Htr as [-> ->]; cbn [negb] in H.
  2:{ exfalso. apply Hne. f_equal. rewrite <- Habs1. f_equal. eapply quiet_keeps; [|exact Hs1|exact H]. quiet_auto. }
  assert (Hh : decode (se_state e) = HState true true false /\ h' = HState true true true).
  { destruct (decode (se_state e)) as [[] [] []]; simpl in Hsp; by simplify_eq. }
  destruct Hh as [Hh ->]. change (encode (HState true true true)) with REG_ in H. set (s2 := store_entry _ _ s1) in *.
  change (NON_SECURE =? SECURE) with false in H. cbv iota in H.
  apply dispatch_tail_inv in H as (-> & s3 & u2 & Hcore & Hset). split; [done|].
  destruct (store_entry_frame (eptr np me p) (set_se_state REG_ e) s1) as (Fm & Fc & Fp & Fi).
  apply setup_dispatch_inv in Hset as (m' & e' & el & c & cpu' & Hm' & He' & Hel & Hctx & Hcpu & Hr & R1 & R2 & R3 & R4 & R5).
  pose proof (sc_entries _ _ _ Hcore) as Ce. rewrite Ce in He'. unfold s2 in He'.
  rewrite (entry_at_store s1 _ _ e) in He' by (by rewrite (sc_entries _ _ _ Hl)). injection He' as <-.
  rewrite (sc_cpus _ _ _ Hcore) in Hcpu. unfold s2 in Hcpu. rewrite Fc, (sc_cpus _ _ _ Hl), Hc in Hcpu. injection Hcpu as <-.
  assert (Hpes : pes s3 = pes s) by (rewrite (sc_pes _ _ _ Hcore); unfold s2; by rewrite Fp, (sc_pes _ _ _ Hl)).
  assert (Hnum : ev_num m' = ev_num m).
  { pose proof (sc_num _ _ _ Hcore) as N. rewrite Hm' in N. unfold s2 in N. rewrite Fm in N. rewrite (sc_num _ _ _ Hl), Hm in N. by injection N. }
  exists p, m, e, el, c, cpu.
  split; [exact Hf|]. split; [exact Hm|]. split; [exact Hkind|]. split; [exact He|]. split; [exact Hh|]. split; [exact Hc|]. split; [exact Hmask|].
  split; [exact Hr|]. split; [unfold client_el_of in *; by rewrite <- Hpes|]. split; [unfold ctx_at in *; by rewrite <- Hpes|].
  split; [rewrite R1; unfold handler_ctx; by rewrite Hnum|]. split; [exact R2|].
  rewrite R3, Ce. unfold s2. apply (entry_at_store s1 _ _ e). by rewrite (sc_entries _ _ _ Hl).
Qed.
End dispatch.

(** ** Completion *)
Section complete.
Context {C : Type} `{!SdeiPlat C} (np ncpu : nat).
Implicit Types s : sdei_state C.

Lemma get_event_entry_run me p s m :
  swf np ncpu s -> map_at s p = Some m -> is_event_private m = ptr_private p -> get_event_entry me p s = Ret (eptr np me p) s.
Proof.
  intros Hs Hm Hk. unfold get_event_entry. erewrite bind_run by (by apply get_map_run). rewrite Hk. destruct p; simpl; [|done].
  erewrite bind_run by reflexivity. by rewrite (sw_np _ _ _ Hs).
Qed.

Lemma outstanding_run me s cpu d :
  swf np ncpu s -> arr_get (sdei_cpus s) me = Some cpu -> 0 < stack_top cpu ->
  arr_get (dispatch_stack cpu) (stack_top cpu - 1) = Some d -> get_outstanding_dispatch me s = Ret (Some d) s.
Proof.
  intros Hs Hc Ht Hd. destruct (cpu_valid _ _ _ _ _ Hs Hc) as [_ Htop]. unfold get_outstanding_dispatch.
  erewrite bind_run by (by apply get_cpu_run). destruct (Z.eqb_spec (stack_top cpu) 0); [lia|].
  erewrite bind_run by (apply sdei_assert_run, Z.leb_le; lia). by rewrite Hd.
Qed.

Lemma pop_run me s cpu :
  swf np ncpu s -> arr_get (sdei_cpus s) me = Some cpu -> 0 < stack_top cpu ->
  pop_dispatch me s = Ret tt (set_sdei_cpus (<[Z.to_nat me := set_dispatch (dispatch_stack cpu) (stack_top cpu - 1) cpu]> (sdei_cpus s)) s).
Proof.
  intros Hs Hc Ht. destruct (cpu_valid _ _ _ _ _ Hs Hc) as [_ Htop]. unfold pop_dispatch.
  erewrite bind_run by (by apply get_cpu_run). destruct (Z.eqb_spec (stack_top cpu) 0); [lia|].
  erewrite bind_run by (apply sdei_assert_run, Z.leb_le; lia). change MAX_EVENT_NESTING with 2 in Htop.
  rewrite u16_small by lia. by apply (put_cpu_run me s _ cpu).
Qed.

(** The event of the outstanding dispatch is running. *)
Lemma outstanding_running me s cpu d p :
  swf np ncpu s -> ainv (abs s) -> arr_get (sdei_cpus s) me = Some cpu -> 0 < stack_top cpu ->
  arr_get (dispatch_stack cpu) (stack_top cpu - 1) = Some d -> dc_map d = Some p ->
  exists e, entry_at s (eptr np me p) = Some e /\ h_run (decode (se_state e)) = true.
Proof.
  intros Hs Ha Hc Ht Hd Hp. destruct (ai_stk _ (ai_stacks _ Ha) me p) as (h & Hh & Hr).
  { exists (stack_of cpu). split; [by apply abs_stack|]. unfold stack_of. apply list_elem_of_In, in_map_iff. exists d. split; [done|].
    apply list_elem_of_In. apply arr_get_lookup in Hd. apply (list_elem_of_lookup_2 _ (Z.to_nat (stack_top cpu - 1))).
    rewrite lookup_take. by rewrite decide_True by lia. }
  rewrite (eptr_abs np ncpu me p s Hs) in Hh. destruct (entry_at s (eptr np me p)) as [e|] eqn:He.
  - rewrite (abs_entry s _ e He) in Hh. injection Hh as <-. eauto.
  - exfalso. destruct (eptr np me p); simpl in *; change (map ?f ?l) with (f <$> l) in Hh; by rewrite arr_get_fmap, He in Hh.
Qed.

Definition set_lock (b : bool) (m : sdei_ev_map_t) (p : map_ptr) s : sdei_state C :=
  if is_event_shared m then store_map p (set_map_lock b m) s else s.

Lemma lock_shared_run m p s : map_at s p = Some m -> map_lock m = false -> lock_shared m p s = Ret tt (set_lock true m p s).
Proof.
  intros Hm Hl. unfold lock_shared, set_lock. destruct (is_event_shared m); [|done]. simpl. unfold sdei_map_lock.
  erewrite bind_run by (by apply get_map_run). rewrite Hl. by apply (put_map_run p _ m).
Qed.

Lemma unlock_shared_run m m0 p s : map_at s p = Some m0 -> is_event_shared m = is_event_shared m0 ->
  unlock_shared m p s = Ret tt (set_lock false m0 p s).
Proof.
  intros Hm Hk. unfold unlock_shared, set_lock. rewrite Hk. destruct (is_event_shared m0); [|done]. simpl. unfold sdei_map_unlock.
  erewrite bind_run by (by apply get_map_run). by apply (put_map_run p _ m0).
Qed.

Lemma set_lock_frame b m p s :
  (forall q, entry_at (set_lock b m p s) q = entry_at s q) /\ sdei_cpus (set_lock b m p s) = sdei_cpus s /\
  pes (set_lock b m p s) = pes s /\ ic (set_lock b m p s) = ic s.
Proof. unfold set_lock. destruct (is_event_shared m); [apply store_map_frame|done]. Qed.

Lemma set_lock_map b m p s : map_at s p = Some m ->
  map_at (set_lock b m p s) p = Some (if is_event_shared m then set_map_lock b m else m).
Proof. intros Hm. unfold set_lock. destruct (is_event_shared m); [by eapply map_at_store|done]. Qed.

(** The context after a completion. *)
Definition resumed_ctx (d : sdei_dispatch_context_t) (c : world_ctx) : world_ctx :=
  WorldCtx (dc_x d ++ drop (Z.to_nat SDEI_SAVED_GPREGS) (gpregs c)) (dc_elr_el3 d) (dc_spsr_el3 d) (ctx_sysregs c).

Lemma complete_run me pc s p m cpu d c :
  swf np ncpu s -> ainv (abs s) -> arr_get (sdei_cpus s) me = Some cpu -> 0 < stack_top cpu ->
  arr_get (dispatch_stack cpu) (stack_top cpu - 1) = Some d -> dc_map d = Some p -> dc_sec_state d = NON_SECURE ->
  map_at s p = Some m -> map_lock m = false -> is_event_private m = ptr_private p ->
  (ev_num m =? SDEI_EVENT_0) || is_map_bound m = true -> ctx_at s me NON_SECURE = Some c ->
  exists s' e, sdei_event_complete me false pc s = Ret 0 s' /\
    ctx_at s' me NON_SECURE = Some (resumed_ctx d c) /\
    arr_get (sdei_cpus s') me = Some (set_dispatch (dispatch_stack cpu) (stack_top cpu - 1) cpu) /\
    ic s' = ic_end_of_interrupt me (dc_intr_raw d) (ic s) /\
    entry_at s (eptr np me p) = Some e /\ h_run (decode (se_state e)) = true /\
    entry_at s' (eptr np me p) =
      Some (set_se_state (encode (HState (h_reg (decode (se_state e))) (h_en (decode (se_state e))) false)) e).
Proof.
  intros Hs Ha Hc Ht Hd Hp Hsec Hm Hlk Hk Hb Hctx. set (q := eptr np me p).
  destruct (outstanding_running me s cpu d p Hs Ha Hc Ht Hd Hp) as (e & He & Hrun). fold q in He.
  destruct (ctx_at_pe s me NON_SECURE c Hctx) as (pe & Hpe & _).
  set (h' := HState (h_reg (decode (se_state e))) (h_en (decode (se_state e))) false).
  set (s1 := store_entry q (set_se_state (encode h') e) s).
  assert (Htr : can_sdei_state_trans q DO_COMPLETE s = Ret true s1).
  { pose proof (trans_run np ncpu q DO_COMPLETE s Hs) as Htr. destruct (can_sdei_state_trans q DO_COMPLETE s) as [b s2|]; [|congruence].
    destruct Htr as (e' & He' & Htr). rewrite He in He'. injection He' as <-. cbn [spec_step] in Htr. rewrite Hrun in Htr.
    destruct Htr as [-> ->]. done. }
  assert (Hs1 : swf np ncpu s1).
  { apply (trans_valid np ncpu s q DO_COMPLETE e h'); [exact Hs|exact He|].
    cbn [spec_step]. by rewrite Hrun. }
  destruct (store_entry_frame q (set_se_state (encode h') e) s) as (Fm & Fc & Fp & Fi). fold s1 in Fm, Fc, Fp, Fi.
  unfold sdei_event_complete.
  erewrite bind_run by (apply client_el_run; unfold client_el_of; rewrite Hpe; reflexivity).
  erewrite bind_run by (by eapply outstanding_run). cbn [andb]. erewrite bind_run by (by apply sdei_assert_run; rewrite Hp; apply bool_decide_eq_true_2; eexists).
  rewrite Hp. erewrite bind_run by reflexivity. erewrite bind_run by (by eapply get_event_entry_run).
  erewrite bind_run by (by apply get_map_run). erewrite bind_run by exact Htr. cbn [negb].
  erewrite bind_run by (apply pop_run; [exact Hs1|by rewrite Fc|done]). rewrite Fc.
  set (s2 := set_sdei_cpus _ s1).
  assert (Hm2 : map_at s2 p = Some m) by (rewrite <- Hm, <- Fm; by destruct p).
  erewrite bind_run by (by apply lock_shared_run). set (s3 := set_lock true m p s2).
  destruct (set_lock_frame true m p s2) as (Le & Lc & Lp & Li). fold s3 in Le, Lc, Lp, Li.
  assert (Hctx3 : ctx_at s3 me NON_SECURE = Some c).
  { rewrite <- Hctx. unfold ctx_at. rewrite Lp. unfold s2. simpl. by rewrite Fp. }
  unfold restore_event_ctx. erewrite bind_run; [|erewrite bind_run by (by apply get_ctx_run);
    erewrite bind_run by (by apply sdei_assert_run); erewrite bind_run by reflexivity; by eapply put_ctx_run].
  fold (resumed_ctx d c). set (s4 := store_ctx _ _ _ s3). erewrite bind_run by reflexivity.
  rewrite Hsec. change (NON_SECURE =? SECURE) with false. cbv iota. erewrite bind_run by reflexivity.
  cbn [andb when]. erewrite bind_run by reflexivity.
  set (m' := if is_event_shared m then set_map_lock true m else m).
  assert (Hm4 : map_at s4 p = Some m') by (unfold s4; rewrite map_at_store_ctx; by apply set_lock_map).
  erewrite bind_run by (by apply get_map_run).
  assert (Hsame : ev_num m' = ev_num m /\ map_flags m' = map_flags m) by (unfold m'; by destruct (is_event_shared m)).
  destruct Hsame as [Hn Hfl]. unfold is_map_bound, has_flag. rewrite Hn, Hfl. fold (has_flag m SDEI_MAPF_BOUND) (is_map_bound m). rewrite Hb.
  erewrite bind_run by reflexivity. set (s5 := set_ic _ s4).
  assert (Hm5 : map_at s5 p = Some m') by (by destruct p).
  erewrite bind_run by (by apply unlock_shared_run). set (s6 := set_lock false m' p s5).
  destruct (set_lock_frame false m' p s5) as (Ue & Uc & Up & Ui). fold s6 in Ue, Uc, Up, Ui.
  exists s6, e. split; [done|]. split.
  { unfold ctx_at. rewrite Up. unfold s5. simpl. fold (ctx_at s4 me NON_SECURE). by eapply ctx_at_store. }
  split. { rewrite Uc. unfold s5. simpl. unfold s4. rewrite cpus_store_ctx, Lc. unfold s2. simpl. rewrite <- Fc in Hc |- *. apply arr_get_insert_eq. by eapply arr_get_Some_range. }
  split. { rewrite Ui. unfold s5. simpl. f_equal. unfold s4. rewrite ic_store_ctx, Li. unfold s2. simpl. by rewrite Fi. }
  split; [done|]. split; [done|]. rewrite Ue.
  assert (He5 : entry_at s5 q = entry_at s4 q) by (by destruct q). rewrite He5. unfold s4. rewrite entry_at_store_ctx, Le.
  assert (He2 : entry_at s2 q = entry_at s1 q) by (by destruct q). rewrite He2. by apply (entry_at_store s q _ e).
Qed.
End complete.

Section claims.
Context {C : Type} `{!SdeiPlat C} (np ncpu : nat).
Implicit Types s : sdei_state C.

(** [C18] Every SMC of CPU [me], with any function identifier and arguments,
    every interrupt it takes and every explicit dispatch on it that returns does
    to the event numbers, handlers, registration counts and dispatch stacks of
    all CPUs what [act_on] says of this CPU, of the event the call names and of
    the action the function identifier stands for, and nothing else, with the
    result that belongs to it.  A caller that is not the client gets SMC_UNK and
    changes nothing.  ENABLE, DISABLE and UNREGISTER of an event number do
    exactly the action on that event on this CPU if its handler allows it (0,
    and for an UNREGISTER of a running handler EPEND), and otherwise nothing
    (EINVAL for no such event, EDENY; EPEND for a running handler); REGISTER
    returns 0 exactly when it registers; COMPLETE and COMPLETE_AND_RESUME
    complete the event on top of this CPU's own stack, and a plain COMPLETE is
    refused only if the machine refuses it; the resets unregister the private
    or the shared events on this CPU in their order and report EDENY exactly
    when one of them is running (a shared reset without one goes on to release
    the interrupts, whose result it returns); every other call changes none of
    this.  An interrupt dispatches the event bound to it exactly if the CPU is
    not masked and the machine allows it; an explicit dispatch returns 0 exactly
    when it dispatches the event named, on a CPU that is not masked. *)
Theorem sdei_refines_spec me s :
  swf np ncpu s ->
  (forall fid x1 x2 x3 x4 flags r s', sdei_smc_handler me fid x1 x2 x3 x4 flags s = Ret r s' ->
     swf np ncpu s' /\
     if from_client me s flags then smc_spec me fid x1 (abs s) r (abs s') else r = [u64 SMC_UNK] /\ abs s' = abs s) /\
  (forall raw flags handle r s', sdei_intr_handler me raw flags handle s = Ret r s' ->
     swf np ncpu s' /\ r = 0 /\ exists p, intr_event s raw = Some p /\
       abs s' = (if masked me s then abs s else default (abs s) (act_on me DO_DISPATCH p (abs s)))) /\
  (forall n ss r s', sdei_dispatch_event me n ss s = Ret r s' ->
     swf np ncpu s' /\
     ((r = 0 /\ masked me s = false /\ exists p, event_of (abs s) n = Some p /\ act_on me DO_DISPATCH p (abs s) = Some (abs s')) \/
      (r = -1 /\ abs s' = abs s))).
Proof. intros Hs. split_and!; intros; [by eapply smc_run|by eapply intr_run|by eapply dispatch_run]. Qed.

(** [C17] In every state reached from the static data by [sdei_init] and then by
    any interleaving of calls, interrupts and dispatches on the CPUs: no handler
    is enabled without being registered, the registration count of a mapping is
    the number of CPUs that have it registered, no stack is deeper than two, and
    a handler is running exactly when its event is on the stack of exactly one
    CPU, once. *)
Theorem sdei_runs_consistent me handler u s s1 s2 :
  sdei_initial s -> Z.of_nat (length (sdei_cpus s)) * Z.of_nat (length (priv_maps s)) < 2 ^ 32 ->
  sdei_init me handler s = Ret u s1 -> star sdei_step s1 s2 ->
  ainv (abs s2) /\ swf (length (priv_maps s)) (length (sdei_cpus s)) s2.
Proof.
  intros Hi Hsz Hr Hrun. destruct (init_keeps_abs me handler s s1 u Hi Hr) as [Hs1 Habs].
  destruct (run_sim _ _ s1 s2 Hrun Hs1) as [Hs2 Hst]. split; [|done].
  eapply (star_invariant astep ainv); [exact Hst|rewrite Habs; by apply initial_ainv|apply ainv_step].
Qed.

(** [C23] An interrupt taken from the normal world that dispatches an event does
    so only for an event that is registered, enabled and not running, on a CPU
    whose events are not masked; the normal world resumes in the registered
    handler with the event number, the argument and the interrupted PC and
    SPSR.  In a later state in which that dispatch is still the outstanding one
    of the CPU, every mapping has the number and the flags it had at the
    interrupt and no mapping is locked, and the event of the interrupt is event
    0 or bound, completing it gives x0-x17, the PC and the SPSR of the
    interrupted code back, pops the dispatch, ends the running of the event and
    signals the end of the very interrupt that was taken.  (That the mappings
    keep their flags is needed: [sdei_release_while_running_panics] releases the
    interrupt in between.) *)
Theorem sdei_dispatch_roundtrip me raw flags pc s s1 s2 r cpu1 cpu2 c2 :
  swf np ncpu s -> get_interrupt_src_ss flags = NON_SECURE -> sdei_intr_handler me raw flags NON_SECURE s = Ret r s1 ->
  arr_get (a_stk (abs s1)) me <> arr_get (a_stk (abs s)) me ->
  swf np ncpu s2 -> ainv (abs s2) ->
  arr_get (sdei_cpus s1) me = Some cpu1 -> arr_get (sdei_cpus s2) me = Some cpu2 -> stack_top cpu2 = stack_top cpu1 ->
  arr_get (dispatch_stack cpu2) (stack_top cpu1 - 1) = arr_get (dispatch_stack cpu1) (stack_top cpu1 - 1) ->
  (forall p m, map_at s p = Some m ->
     exists m2, map_at s2 p = Some m2 /\ ev_num m2 = ev_num m /\ map_flags m2 = map_flags m /\ map_lock m2 = false) ->
  (forall p m, map_at s p = Some m -> ev_intr m = u32 (ic_interrupt_id raw) -> (ev_num m =? SDEI_EVENT_0) || is_map_bound m = true) ->
  ctx_at s2 me NON_SECURE = Some c2 ->
  exists p m e el c cpu s3,
    map_at s p = Some m /\ ev_intr m = u32 (ic_interrupt_id raw) /\
    entry_at s (eptr np me p) = Some e /\ decode (se_state e) = HState true true false /\
    arr_get (sdei_cpus s) me = Some cpu /\ pe_masked cpu <> PE_MASKED /\ ctx_at s me NON_SECURE = Some c /\
    client_el_of s me = Some el /\ ctx_at s1 me NON_SECURE = Some (handler_ctx m e el c) /\
    sdei_event_complete me false pc s2 = Ret 0 s3 /\
    ctx_at s3 me NON_SECURE =
      Some (WorldCtx (take 18 (gpregs c) ++ drop 18 (gpregs c2)) (ctx_elr_el3 c) (ctx_spsr_el3 c) (ctx_sysregs c2)) /\
    (stack_top <$> arr_get (sdei_cpus s3) me) = Some (stack_top cpu) /\
    (exists e3, entry_at s3 (eptr np me p) = Some e3 /\ get_ev_state_bit e3 SDEI_STATF_RUNNING = false) /\
    ic s3 = ic_end_of_interrupt me raw (ic s2).
Proof.
  intros Hs Hss Hint Hne Hs2 Ha2 Hc1 Hc2 Htop Hslot Hmaps Hbound Hctx2.
  destruct (intr_dispatch_inv np ncpu me raw flags s r s1 Hs Hss Hint Hne)
    as (_ & p & m & e & el & c & cpu & Hf & Hm & Hk & He & Hh & Hc & Hmask & Hr & Hel & Hctx & Hctx1 & Hcpu1 & _).
  rewrite Hc1 in Hcpu1. injection Hcpu1 as ->. simpl in Htop, Hslot.
  destruct (cpu_valid _ _ _ _ _ Hs Hc) as [Hlen Ht]. change MAX_EVENT_NESTING with 2 in *. rewrite u16_small in Htop, Hslot by lia.
  replace (stack_top cpu + 1 - 1) with (stack_top cpu) in Hslot by lia. rewrite arr_get_insert_eq in Hslot by done.
  assert (Hintr : ev_intr m = u32 (ic_interrupt_id raw)) by (by eapply find_by_intr_spec).
  destruct (Hmaps p m Hm) as (m2 & Hm2 & Hn2 & Hfl2 & Hlk2).
  destruct (complete_run np ncpu me pc s2 p m2 cpu2 (saved_ctx p NON_SECURE raw c) c2)
    as (s3 & e3 & Hrun & R1 & R2 & R3 & R4 & R5 & R6).
  1-6: done || lia || (rewrite Htop; by replace (stack_top cpu + 1 - 1) with (stack_top cpu) by lia).
  1-3: done.
  { unfold is_event_private, has_flag. rewrite Hfl2. exact Hk. }
  { unfold is_map_bound, has_flag. rewrite Hn2, Hfl2. by apply (Hbound p m). }
  { done. }
  exists p, m, e, el, c, cpu, s3.
  split; [exact Hm|]. split; [exact Hintr|]. split; [exact He|]. split; [exact Hh|]. split; [exact Hc|]. split; [exact Hmask|].
  split; [exact Hctx|]. split; [exact Hel|]. split; [exact Hctx1|]. split; [exact Hrun|]. split; [exact R1|].
  split; [rewrite R2; simpl; f_equal; lia|]. split; [|exact R3].
  eexists. split; [exact R6|]. unfold get_ev_state_bit. cbn [se_state set_se_state]. generalize (decode (se_state e3)). by intros [[] [] ?].
Qed.

(** [C40] SDEI_EVENT_CONTEXT does not return the register of the interrupted code
    that it saved: the saved 64-bit value is converted to an [int], so that the
    client gets its low half, sign-extended, and every value between 2^31 and
    2^64 - 2^31 comes back wrong. *)
Theorem sdei_context_truncated me param s cpu d p m x :
  swf np ncpu s -> ainv (abs s) -> arr_get (sdei_cpus s) me = Some cpu -> 0 < stack_top cpu ->
  arr_get (dispatch_stack cpu) (stack_top cpu - 1) = Some d -> dc_map d = Some p -> map_at s p = Some m ->
  is_event_private m = ptr_private p -> 0 <= param < SDEI_SAVED_GPREGS -> arr_get (dc_x d) param = Some x ->
  2 ^ 31 <= x < 2 ^ 64 - 2 ^ 31 ->
  exists s', sdei_event_context me param s = Ret (s32 x) s' /\ u64 (s32 x) <> x.
Proof.
  intros Hs Ha Hc Ht Hd Hp Hm Hk Hpar Hx Hbig.
  destruct (outstanding_running np ncpu me s cpu d p Hs Ha Hc Ht Hd Hp) as (e & He & Hrun).
  pose proof (trans_run np ncpu (eptr np me p) DO_CONTEXT s Hs) as Htr.
  destruct (can_sdei_state_trans (eptr np me p) DO_CONTEXT s) as [b s1|] eqn:Hct; [|congruence].
  destruct Htr as (e' & He' & Htr). rewrite He in He'. injection He' as <-. cbn [spec_step] in Htr. rewrite Hrun in Htr.
  destruct Htr as [-> _]. exists s1. split.
  - unfold sdei_event_context. destruct (Z.leb_spec SDEI_SAVED_GPREGS param); [lia|].
    erewrite bind_run by (by eapply outstanding_run). cbv iota.
    erewrite bind_run by (apply sdei_assert_run; rewrite Hp; by apply bool_decide_eq_true_2).
    rewrite Hp. erewrite bind_run by reflexivity. erewrite bind_run by (by eapply get_event_entry_run).
    erewrite bind_run by exact Hct. cbn [negb]. rewrite Hx. reflexivity.
  - unfold u64, s32. pose proof (Z.mod_pos_bound (x + 2 ^ 31) (2 ^ 32) ltac:(lia)) as Hb. intros Heq.
    destruct (decide (2 ^ 31 <= (x + 2 ^ 31) mod 2 ^ 32)).
    + rewrite Z.mod_small in Heq by lia. lia.
    + rewrite <- (Z.mod_unique ((x + 2 ^ 31) mod 2 ^ 32 - 2 ^ 31) (2 ^ 64) (-1) (2 ^ 64 + ((x + 2 ^ 31) mod 2 ^ 32 - 2 ^ 31))) in Heq by lia.
      lia.
Qed.
End claims.
