(* ===== verification/SdeiRuns.v ===== *)
(** * SDEI dispatcher: a board with two CPUs

    A small interrupt controller and platform, scripts of steps, the witnesses
    of the properties, and the run in which clients stop the firmware. *)
From stdpp Require Import base list numbers option sets.
From Stdlib Require Import ZArith Lia.
From S2P Require Import Prelude IntrMgmt Ehf SdeiDefs SdeiIntr SdeiMain SdeiSpec SdeiSim SdeiRefine SdeiProps.
#[local] Open Scope Z_scope.

Module SdeiExample.
(** Interrupts below 32 are banked; [g_types] lists the types that were set,
    the last first, [g_active] the active interrupts. *)
Record gic : Type := Gic { g_types : list (Z * Z * Z); g_active : list (Z * Z) }.
Definition key (cpu intr : Z) : Z * Z := if intr <? 32 then (cpu, intr) else (0, intr).
Definition type_of (g : gic) (cpu intr : Z) : Z :=
  match List.find (fun e => bool_decide (e.1 = key cpu intr)) (g_types g) with
  | Some e => e.2
  | None => if intr <? 16 then INTR_TYPE_EL3 else INTR_TYPE_NS
  end.
Definition active_of (g : gic) (cpu intr : Z) : bool := bool_decide (key cpu intr ∈ g_active g).

#[export] Instance plat : SdeiPlat gic := {|
  sdei_assertions := true;
  sdei_num_priorities := 8;
  sdei_pri_bits := 3;
  PLAT_SDEI_CRITICAL_PRI := 0x10;
  PLAT_SDEI_NORMAL_PRI := 0x20;
  sdei_core_pos_by_mpidr := fun m => if m <? 2 then m else -1;
  sdei_mpidr := fun cpu => cpu;
  plat_ic_is_spi := fun i => 32 <=? i;
  plat_ic_is_ppi := fun i => (16 <=? i) && (i <? 32);
  plat_ic_is_sgi := fun i => i <? 16;
  ic_interrupt_id := fun raw => raw;
  ic_get_type := type_of;
  ic_get_active := active_of;
  ic_running_priority := fun g cpu => if existsb (fun a => bool_decide (a.1 = cpu)) (g_active g) then 0x20 else 0xff;
  ic_disable := fun _ _ g => g;
  ic_enable := fun _ _ g => g;
  ic_clear_pending := fun _ _ g => g;
  ic_set_pending := fun _ _ g => g;
  ic_set_type := fun cpu i t g => Gic ((key cpu i, t) :: g_types g) (g_active g);
  ic_set_priority := fun _ _ _ g => g;
  ic_set_spi_routing := fun _ _ _ g => g;
  ic_end_of_interrupt := fun cpu raw g => Gic (g_types g) (List.filter (fun a => negb (bool_decide (a = key cpu raw))) (g_active g));
  ic_raise_el3_sgi := fun _ _ g => g;
  plat_sdei_validate_entry_point := fun _ _ => 0;
  plat_sdei_handle_masked_trigger := fun _ _ g => g
|}.

(** Event 0 on SGI 8, a statically bound private event on PPI 20, a dynamic
    private and a dynamic shared event. *)
Definition private_events : list sdei_ev_map_t := [
  SdeiEvMap 0 8 (Z.lor SDEI_MAPF_SIGNALABLE SDEI_MAPF_PRIVATE) 0 false;
  SdeiEvMap 8 20 SDEI_MAPF_PRIVATE 0 false;
  SdeiEvMap 100 SDEI_DYN_IRQ (Z.lor SDEI_MAPF_DYNAMIC SDEI_MAPF_PRIVATE) 0 false].
Definition shared_events : list sdei_ev_map_t := [SdeiEvMap 3000 SDEI_DYN_IRQ SDEI_MAPF_DYNAMIC 0 false].

Definition no_dispatch : sdei_dispatch_context_t := DispatchCtx None 0 0 (replicate 18 0) 0 0.
Definition cpu0 : sdei_cpu_state_t := SdeiCpu [no_dispatch; no_dispatch] 0 0 0.
Definition ns_world : world_ctx := WorldCtx (map (fun i => 0x1000000000 + i) (seqZ 0 31)) 0x80000000 0x3c9 (El1Regs 0 0 0).
Definition pe0 (mpidr : Z) : pe_t :=
  Pe [Some ns_world; Some (set_ctx_gpregs (<[5%nat := mpidr]> (gpregs ns_world)) ns_world)] NON_SECURE (El1Regs 0 0 0) 0 0 0x100 0x3c9
    (PeExcData 0 0 0) 0xf0.
Definition entry0 : sdei_entry_t := SdeiEntry 0 0 0 0 0.
Definition static : sdei_state gic :=
  SdeiState private_events shared_events (replicate 6 entry0) [entry0] [cpu0; cpu0] 0 0 [pe0 0; pe0 1]
    [0; EHF_NO_HANDLER; EHF_NO_HANDLER; 0; 0; 0; 0; 0] (ImState [] []) (Gic [] []).

(** ** Scripts *)
Inductive event : Type :=
| Smc (me fid x1 x2 x3 x4 : Z)
| Irq (me intr : Z)
| Controller (f : gic -> gic)
| Regs (f : list pe_t -> list pe_t).

Definition exec1 (e : event) (s : sdei_state gic) : option (sdei_state gic) :=
  match e with
  | Smc me fid x1 x2 x3 x4 =>
      if (0 <=? me) && (me <? Z.of_nat (length (sdei_cpus s))) then
        match sdei_smc_handler me fid x1 x2 x3 x4 NON_SECURE s with Ret _ s' => Some s' | Halt _ _ => None end
      else None
  | Irq me intr =>
      if (0 <=? me) && (me <? Z.of_nat (length (sdei_cpus s))) then
        match sdei_intr_handler me intr NON_SECURE NON_SECURE s with Ret _ s' => Some s' | Halt _ _ => None end
      else None
  | Controller f => Some (set_ic (f (ic s)) (set_sd_ehf (sd_priorities s) (sd_im s) (set_pes (pes s) s)))
  | Regs f => Some (set_ic (ic s) (set_sd_ehf (sd_priorities s) (sd_im s) (set_pes (f (pes s)) s)))
  end.
Fixpoint exec (es : list event) (s : sdei_state gic) : option (sdei_state gic) :=
  match es with
  | [] => Some s
  | e :: rest => match exec1 e s with Some s' => exec rest s' | None => None end
  end.

Lemma exec1_step e s s' : exec1 e s = Some s' -> sdei_step s s'.
Proof.
  destruct e as [me fid x1 x2 x3 x4|me intr|f|f]; simpl.
  - destruct (Z.leb_spec 0 me), (Z.ltb_spec me (Z.of_nat (length (sdei_cpus s)))); try done. simpl.
    destruct (sdei_smc_handler _ _ _ _ _ _ _ s) as [r s1|] eqn:Hr; [|done]. intros [= <-]. by eapply step_smc.
  - destruct (Z.leb_spec 0 me), (Z.ltb_spec me (Z.of_nat (length (sdei_cpus s)))); try done. simpl.
    destruct (sdei_intr_handler _ _ _ _ s) as [r s1|] eqn:Hr; [|done]. intros [= <-]. by eapply step_intr.
  - intros [= <-]. apply step_world.
  - intros [= <-]. apply step_world.
Qed.

Lemma exec_star es s s' : exec es s = Some s' -> star sdei_step s s'.
Proof.
  revert s. induction es as [|e es IH]; intros s; simpl; [intros [= <-]; apply star_refl|].
  destruct (exec1 e s) as [s1|] eqn:He; [|done]. intros Hr. eapply star_trans; [by apply star_one, (exec1_step e)|by apply IH].
Qed.

(** After initialisation: CPU 0 unmasks its events, binds PPI 23, registers the
    event with a handler at 0x8000 and enables it; the interrupt arrives. *)
Definition prepare : list event := [
  Smc 0 SDEI_PE_UNMASK 0 0 0 0; Smc 0 SDEI_INTERRUPT_BIND 23 0 0 0;
  Smc 0 SDEI_EVENT_REGISTER 100 0x8000 0x77 0; Smc 0 SDEI_EVENT_ENABLE 100 0 0 0;
  Controller (fun g => Gic (g_types g) ((0, 23) :: g_active g))].

(** The handler unregisters its event, and CPU 1 releases the interrupt. *)
Definition release_elsewhere : list event := [Smc 0 SDEI_EVENT_UNREGISTER 100 0 0 0; Smc 1 SDEI_INTERRUPT_RELEASE 100 0 0 0].

Definition started : sdei_state gic := match sdei_init 0 0x4000 static with Ret _ s => s | Halt _ s => s end.
Definition after (es : list event) : sdei_state gic := default started (exec es started).

Example init_returns : sdei_init 0 0x4000 static = Ret tt started.
Proof. vm_compute. reflexivity. Qed.

Definition is_panic {A} (o : outcome (sdei_state gic) A) : bool := match o with Halt HPanic _ => true | _ => false end.

(** Clients in the normal world can stop the firmware: while CPU 0 runs the
    handler of a dynamic private event, the handler unregisters the event (the
    call answers that this is pending) and CPU 1 releases the interrupt (the
    call succeeds, since the count is zero and the interrupt is not active on
    CPU 1); then the completion on CPU 0 finds the mapping unbound, takes the
    dispatch for an explicit one and deactivates a priority that was never
    activated, which panics, instead of ending the interrupt. *)
Theorem sdei_release_while_running_panics :
  exists s1 s2, sdei_init 0 0x4000 static = Ret tt s1 /\ star sdei_step s1 s2 /\
    is_panic (sdei_smc_handler 0 SDEI_EVENT_COMPLETE 0 0 0 0 NON_SECURE s2) = true.
Proof.
  exists started, (after (prepare ++ [Irq 0 23] ++ release_elsewhere)). split; [exact init_returns|]. split.
  - apply (exec_star (prepare ++ [Irq 0 23] ++ release_elsewhere)). vm_compute. reflexivity.
  - vm_compute. reflexivity.
Qed.

(** What a call returns after a script. *)
Definition answer {A} (m : M (sdei_state gic) A) (es : list event) : option A :=
  match exec es started with
  | Some s => match m s with Ret r _ => Some r | Halt _ _ => None end
  | None => None
  end.

(** SDEI_EVENT_ROUTING_SET routes the interrupt to CPU 1 but leaves the
    affinity of the entry: the query answers CPU 0, and the interrupt on CPU 1
    fails the assertion of the handler. *)
Definition reroute : list event := [
  Smc 0 SDEI_INTERRUPT_BIND 40 0 0 0; Smc 0 SDEI_EVENT_REGISTER 3000 0x8000 0 SDEI_REGF_RM_PE;
  Smc 0 SDEI_EVENT_ROUTING_SET 3000 SDEI_REGF_RM_PE 1 0; Smc 0 SDEI_EVENT_ENABLE 3000 0 0 0; Smc 1 SDEI_PE_UNMASK 0 0 0 0].
Example routing_set_keeps_affinity :
  answer (sdei_event_routing_set 0 3000 SDEI_REGF_RM_PE 1) (take 2 reroute) = Some 0 /\
  answer (sdei_event_get_info 1 3000 SDEI_INFO_EV_ROUTING_AFF) reroute = Some 0 /\
  match sdei_intr_handler 1 40 NON_SECURE NON_SECURE (after reroute) with Halt HAssert _ => True | _ => False end.
Proof. vm_compute. done. Qed.

(** A statically bound interrupt that belongs to EL3, as the documentation asks
    for, cannot be registered. *)
Example static_el3_denied :
  answer (sdei_event_register 0 8 0x8000 0 0 0) [Controller (fun g => Gic ((0, 20, INTR_TYPE_EL3) :: g_types g) (g_active g))] = Some SDEI_EDENY /\
  answer (sdei_event_register 0 8 0x8000 0 0 0) [] = Some 0.
Proof. vm_compute. done. Qed.

(** Turning a CPU on clears its entries but not the counts of the mappings: the
    event it had registered can no longer be released. *)
Example cpu_on_keeps_count :
  answer (sdei_cpu_on_init 1 ;;; sdei_interrupt_release 0 100)
    [Smc 0 SDEI_INTERRUPT_BIND 23 0 0 0; Smc 1 SDEI_EVENT_REGISTER 100 0x8000 0 0] = Some SDEI_EDENY.
Proof. vm_compute. done. Qed.

(** ** Witnesses *)
Lemma static_initial : sdei_initial static.
Proof. split; repeat constructor. Qed.

Lemma prepared_ok : swf 3 2 (after prepare).
Proof.
  eapply (run_sim 3 2 started); [apply (exec_star prepare); vm_compute; reflexivity|].
  apply (init_keeps_abs 0 0x4000 static started tt static_initial init_returns).
Qed.

Lemma sdei_refines_spec_witness :
  (exists s', sdei_intr_handler 0 23 NON_SECURE NON_SECURE (after prepare) = Ret 0 s' /\
    act_on 0 DO_DISPATCH (PrivMap 2) (abs (after prepare)) = Some (abs s')) /\
  exists s', sdei_smc_handler 0 SDEI_EVENT_UNREGISTER 100 0 0 0 NON_SECURE (after prepare) = Ret [0] s' /\
    act_on 0 DO_UNREGISTER (PrivMap 2) (abs (after prepare)) = Some (abs s').
Proof.
  destruct (sdei_refines_spec 3 2 0 (after prepare) prepared_ok) as (Hsmc & Hintr & _). split.
  - destruct (sdei_intr_handler 0 23 NON_SECURE NON_SECURE (after prepare)) as [r s'|] eqn:Hr; [|vm_compute in Hr; discriminate].
    destruct (Hintr _ _ _ _ _ Hr) as (_ & -> & p & Hp & Habs). exists s'. split; [reflexivity|].
    assert (p = PrivMap 2) as -> by (vm_compute in Hp; congruence). rewrite Habs. vm_compute. reflexivity.
  - destruct (sdei_smc_handler 0 SDEI_EVENT_UNREGISTER 100 0 0 0 NON_SECURE (after prepare)) as [r s'|] eqn:Hr;
      [|vm_compute in Hr; discriminate].
    destruct (Hsmc _ _ _ _ _ _ _ _ Hr) as (_ & Hspec). exists s'.
    assert (Hcl : from_client 0 (after prepare) NON_SECURE = true) by (vm_compute; reflexivity). rewrite Hcl in Hspec.
    change ((r, abs s') = ([u64 (unregister_spec 0 100 (abs (after prepare))).1], (unregister_spec 0 100 (abs (after prepare))).2)) in Hspec.
    apply pair_equal_spec in Hspec as [-> ->]. split; vm_compute; reflexivity.
Defined.

Lemma sdei_runs_consistent_witness : ainv (abs (after (prepare ++ [Irq 0 23] ++ release_elsewhere))).
Proof.
  eapply (sdei_runs_consistent 0 0x4000 tt static started); [exact static_initial|vm_compute; reflexivity|exact init_returns|].
  apply (exec_star (prepare ++ [Irq 0 23] ++ release_elsewhere)). vm_compute. reflexivity.
Defined.

(** The handler changes its registers. *)
Definition scribble (l : list pe_t) : list pe_t :=
  map (fun p => set_pe_ctx [arr_get (pe_ctx p) 0 ≫= id; Some (WorldCtx (replicate 31 0xdead) 0x8004 0x3c9 (El1Regs 0 0 0))] p) l.
Definition interrupted : sdei_state gic := after (prepare ++ [Irq 0 23]).
Definition in_handler : sdei_state gic := after (prepare ++ [Irq 0 23] ++ [Regs scribble]).

Lemma handler_ainv : swf 3 2 in_handler /\ ainv (abs in_handler).
Proof.
  assert (Hs : star sdei_step started in_handler) by (apply (exec_star (prepare ++ [Irq 0 23] ++ [Regs scribble])); vm_compute; reflexivity).
  destruct (init_keeps_abs 0 0x4000 static started tt static_initial init_returns) as [Hs1 Habs].
  destruct (run_sim 3 2 started in_handler Hs Hs1) as [Hs2 Hst]. split; [exact Hs2|].
  eapply (star_invariant astep ainv); [exact Hst|rewrite Habs; apply initial_ainv; [exact static_initial|vm_compute; reflexivity]|apply ainv_step].
Qed.

Definition cpu_of (s : sdei_state gic) : sdei_cpu_state_t := default cpu0 (arr_get (sdei_cpus s) 0).

(** The mappings of the board, one by one. *)
Lemma map_at_cases s p m (P : map_ptr -> sdei_ev_map_t -> Prop) :
  length (priv_maps s) = 3%nat -> length (shrd_maps s) = 1%nat -> map_at s p = Some m ->
  (forall p', p' ∈ [PrivMap 0; PrivMap 1; PrivMap 2; ShrdMap 0] -> forall m', map_at (C := gic) s p' = Some m' -> P p' m') -> P p m.
Proof.
  intros Hp Hs Hm HP. apply HP; [|done]. destruct p as [i|i]; simpl in Hm; apply arr_get_Some_range in Hm.
  - rewrite Hp in Hm. assert (i = 0 \/ i = 1 \/ i = 2) as [->|[->| ->]] by lia; set_solver.
  - rewrite Hs in Hm. assert (i = 0) as -> by lia. set_solver.
Qed.

Lemma maps_kept p m : map_at (after prepare) p = Some m ->
  exists m2, map_at in_handler p = Some m2 /\ ev_num m2 = ev_num m /\ map_flags m2 = map_flags m /\ map_lock m2 = false.
Proof.
  intros Hm. apply (map_at_cases (after prepare) p m (fun p m => exists m2, map_at in_handler p = Some m2 /\ ev_num m2 = ev_num m /\
    map_flags m2 = map_flags m /\ map_lock m2 = false)); [vm_compute; reflexivity..|exact Hm|].
  intros p' Hp' m' Hm'. repeat (apply elem_of_cons in Hp' as [->|Hp']);
    try (vm_compute in Hm'; injection Hm' as <-; eexists; split; [vm_compute; reflexivity|done]).
  by apply elem_of_nil in Hp'.
Qed.

Lemma maps_bound p m : map_at (after prepare) p = Some m -> ev_intr m = u32 23 -> (ev_num m =? SDEI_EVENT_0) || is_map_bound m = true.
Proof.
  intros Hm. apply (map_at_cases (after prepare) p m (fun p m => ev_intr m = u32 23 -> (ev_num m =? SDEI_EVENT_0) || is_map_bound m = true));
    [vm_compute; reflexivity..|exact Hm|].
  intros p' Hp' m' Hm'. repeat (apply elem_of_cons in Hp' as [->|Hp']); try (vm_compute in Hm'; injection Hm' as <-; vm_compute; done).
  by apply elem_of_nil in Hp'.
Qed.

Lemma sdei_dispatch_roundtrip_witness :
  exists s3, sdei_event_complete 0 false 0 in_handler = Ret 0 s3 /\ ic s3 = ic_end_of_interrupt 0 23 (ic in_handler).
Proof.
  destruct (sdei_dispatch_roundtrip 3 2 0 23 NON_SECURE 0 (after prepare) interrupted in_handler 0 (cpu_of interrupted) (cpu_of in_handler)
              (WorldCtx (replicate 31 0xdead) 0x8004 0x3c9 (El1Regs 0 0 0)))
    as (p & m & e & el & c & cpu & s3 & _ & _ & _ & _ & _ & _ & _ & _ & _ & Hrun & _ & _ & _ & Hic).
  - exact prepared_ok.
  - vm_compute. reflexivity.
  - vm_compute. reflexivity.
  - vm_compute. discriminate.
  - apply handler_ainv.
  - apply handler_ainv.
  - vm_compute. reflexivity.
  - vm_compute. reflexivity.
  - vm_compute. reflexivity.
  - vm_compute. reflexivity.
  - exact maps_kept.
  - exact maps_bound.
  - vm_compute. reflexivity.
  - exists s3. split; [exact Hrun|exact Hic].
Defined.

Lemma sdei_context_truncated_witness :
  exists s', sdei_event_context 0 3 in_handler = Ret (s32 0x1000000003) s' /\ u64 (s32 0x1000000003) <> 0x1000000003.
Proof.
  eapply (sdei_context_truncated 3 2 0 3 in_handler (cpu_of in_handler)
            (default no_dispatch (arr_get (dispatch_stack (cpu_of in_handler)) 0)) (PrivMap 2)
            (default (SdeiEvMap 0 0 0 0 false) (map_at in_handler (PrivMap 2)))).
  - apply handler_ainv.
  - apply handler_ainv.
  - vm_compute. reflexivity.
  - vm_compute. reflexivity.
  - vm_compute. reflexivity.
  - vm_compute. reflexivity.
  - vm_compute. reflexivity.
  - vm_compute. reflexivity.
  - vm_compute. split; [discriminate|reflexivity].
  - vm_compute. reflexivity.
  - vm_compute. split; [discriminate|reflexivity].
Defined.

Lemma sdei_state_table_exact_witness : next_state 3 DO_DISPATCH = Some (7, true).
Proof.
  assert (Hr : 0 <= 3 < 256) by lia.
  exact (proj1 (proj1 (sdei_state_table_exact DO_DISPATCH 3 Hr) (HState true true false) eq_refl eq_refl)).
Defined.
End SdeiExample.
