(* ===== verification/A3700Mmu.v ===== *)
(** * The memory map of the board (plat/marvell/common/aarch64/marvell_common.c,
    plat/marvell/a3700/common/aarch64/a3700_common.c,
    plat/marvell/common/marvell_bl31_setup.c)

    The regions that the port maps, and what the MMU does with addresses after
    BL31 has set up its tables. *)
From stdpp Require Import base list numbers option sorting.
From Stdlib Require Import ZArith Lia.
From S2P Require Import Prelude XlatTables XlatWalk XlatMmap XlatBuild XlatProps A3700Hw A3700Pm.
#[local] Open Scope Z_scope.

Definition PLAT_MARVELL_TRUSTED_SRAM_SIZE : Z := 0x80000.
Definition MARVELL_BL_RAM_BASE : Z := MARVELL_SHARED_RAM_BASE + MARVELL_SHARED_RAM_SIZE.
Definition MARVELL_BL_RAM_SIZE : Z := PLAT_MARVELL_TRUSTED_SRAM_SIZE - MARVELL_SHARED_RAM_SIZE.
Definition MARVELL_DRAM_BASE : Z := 0x0.
Definition MARVELL_DRAM_SIZE : Z := 0x20000000.
Definition BL31_BASE : Z := MARVELL_BL_RAM_BASE + MARVELL_BL_RAM_SIZE - 0x5D000.
Definition BL31_LIMIT : Z := MARVELL_BL_RAM_BASE + MARVELL_BL_RAM_SIZE.
Definition DEVICE0_BASE : Z := MVEBU_REGS_BASE.
Definition DEVICE0_SIZE : Z := 0x10000000.

Definition MARVELL_MAP_SHARED_RAM : mmap_region_t :=
  MAP_REGION_FLAT MARVELL_SHARED_RAM_BASE MARVELL_SHARED_RAM_SIZE (Z.lor (Z.lor MT_MEMORY MT_RW) MT_SECURE).
Definition MARVELL_MAP_DRAM : mmap_region_t := MAP_REGION_FLAT MARVELL_DRAM_BASE MARVELL_DRAM_SIZE (Z.lor (Z.lor MT_MEMORY MT_RW) MT_NS).
Definition MAP_DEVICE0 : mmap_region_t := MAP_REGION_FLAT DEVICE0_BASE DEVICE0_SIZE (Z.lor (Z.lor MT_DEVICE MT_RW) MT_SECURE).

(** [plat_marvell_mmap] of BL31. *)
Definition plat_marvell_mmap : list mmap_region_t := [MARVELL_MAP_SHARED_RAM; MAP_DEVICE0; MARVELL_MAP_DRAM; end_region].
Definition plat_marvell_get_mmap : list mmap_region_t := plat_marvell_mmap.

(** Symbols of the linker script of BL31. *)
Record bl31_symbols : Type := Bl31Symbols {
  BL31_END : Z; BL_CODE_BASE : Z; BL_CODE_END : Z; BL_RO_DATA_BASE : Z; BL_RO_DATA_END : Z; BL_COHERENT_RAM_BASE : Z; BL_COHERENT_RAM_END : Z
}.

Section board.
Context (use_coherent_mem : bool) (bl31_cache_disable : bool).

Definition MARVELL_BL_REGIONS : Z := if use_coherent_mem then 3 else 2.
Definition PLAT_MARVELL_MMAP_ENTRIES : Z := 5.

(** The build of BL31; the parameters are the addresses of the tables and the
    memory model register. *)
Definition bl31_env (tables base mmfr0 : Z) : XlatEnv := {|
  XL_ASSERTIONS := true;
  MAX_XLAT_TABLES := 4;
  MAX_MMAP_REGIONS := PLAT_MARVELL_MMAP_ENTRIES + MARVELL_BL_REGIONS;
  PLAT_VIRT_ADDR_SPACE_SIZE := Z.shiftl 1 32;
  PLAT_PHY_ADDR_SPACE_SIZE := Z.shiftl 1 32;
  xlat_tables_addr := tables;
  base_xlation_table_addr := base;
  CurrentEl := Z.shiftl 3 2;
  id_aa64mmfr0_el1 := mmfr0
|}.

Section run.
Context `{!XlatEnv}.
#[local] Abbreviation XM := (M xlat_state).

Definition marvell_setup_page_tables (total_base total_size code_start code_limit rodata_start rodata_limit coh_start coh_limit : Z) : XM unit :=
  mmap_add_region total_base total_base total_size (Z.lor (Z.lor MT_MEMORY MT_RW) MT_SECURE) ;;;
  mmap_add_region code_start code_start (u64 (code_limit - code_start)) (Z.lor MT_CODE MT_SECURE) ;;;
  mmap_add_region rodata_start rodata_start (u64 (rodata_limit - rodata_start)) (Z.lor MT_RO_DATA MT_SECURE) ;;;
  when use_coherent_mem
    (mmap_add_region coh_start coh_start (u64 (coh_limit - coh_start)) (Z.lor (Z.lor MT_DEVICE MT_RW) MT_SECURE)) ;;;
  mmap_add plat_marvell_get_mmap ;;;
  init_xlat_tables.

Definition marvell_bl31_plat_arch_setup (sy : bl31_symbols) : XM unit :=
  marvell_setup_page_tables BL31_BASE (u64 (BL31_END sy - BL31_BASE)) (BL_CODE_BASE sy) (BL_CODE_END sy) (BL_RO_DATA_BASE sy) (BL_RO_DATA_END sy)
    (BL_COHERENT_RAM_BASE sy) (BL_COHERENT_RAM_END sy) ;;;
  enable_mmu_el3 (if bl31_cache_disable then DISABLE_DCACHE else 0).
End run.

(** ** The image in memory *)

(** Page-aligned sections in order, inside the memory of BL31; the read-only
    data and the coherent memory may be empty. *)
Definition between (lo hi a b : Z) : Prop := 0 <= a /\ a mod 4096 = 0 /\ b mod 4096 = 0 /\ (a = b \/ lo <= a < b /\ b <= hi).
Record image_ok (sy : bl31_symbols) : Prop := {
  im_end : BL31_END sy mod 4096 = 0 /\ BL31_END sy <= BL31_LIMIT;
  im_code : BL_CODE_BASE sy = BL31_BASE /\ BL_CODE_END sy mod 4096 = 0 /\ BL31_BASE < BL_CODE_END sy < BL31_END sy;
  im_ro : between (BL_CODE_END sy) (BL31_END sy) (BL_RO_DATA_BASE sy) (BL_RO_DATA_END sy) /\ BL_RO_DATA_END sy <= BL31_END sy;
  im_coh : between (Z.max (BL_CODE_END sy) (BL_RO_DATA_END sy)) (BL31_END sy) (BL_COHERENT_RAM_BASE sy) (BL_COHERENT_RAM_END sy) /\ BL_COHERENT_RAM_END sy <= BL31_END sy
}.

Definition flat (a b attr : Z) : mmap_region_t := MAP_REGION_FLAT a (b - a) attr.
Definition total sy : mmap_region_t := flat BL31_BASE (BL31_END sy) (Z.lor (Z.lor MT_MEMORY MT_RW) MT_SECURE).
Definition code sy : mmap_region_t := flat (BL_CODE_BASE sy) (BL_CODE_END sy) (Z.lor MT_CODE MT_SECURE).
Definition rodata sy : mmap_region_t := flat (BL_RO_DATA_BASE sy) (BL_RO_DATA_END sy) (Z.lor MT_RO_DATA MT_SECURE).
Definition coherent sy : mmap_region_t := flat (BL_COHERENT_RAM_BASE sy) (BL_COHERENT_RAM_END sy) (Z.lor (Z.lor MT_DEVICE MT_RW) MT_SECURE).
Definition rodata_present sy : bool := negb (BL_RO_DATA_BASE sy =? BL_RO_DATA_END sy).
Definition coherent_present sy : bool := use_coherent_mem && negb (BL_COHERENT_RAM_BASE sy =? BL_COHERENT_RAM_END sy).

(** The regions that are added, in this order. *)
Definition regions sy : list mmap_region_t :=
  [total sy; code sy] ++ (if rodata_present sy then [rodata sy] else []) ++ (if coherent_present sy then [coherent sy] else []) ++
  [MARVELL_MAP_SHARED_RAM; MAP_DEVICE0; MARVELL_MAP_DRAM].

(** The section of BL31, or the part of the board, that an address is in. *)
Definition sections sy : list mmap_region_t :=
  [code sy] ++ (if rodata_present sy then [rodata sy] else []) ++ (if coherent_present sy then [coherent sy] else []) ++
  [total sy; MARVELL_MAP_SHARED_RAM; MAP_DEVICE0; MARVELL_MAP_DRAM].
Definition bl31_view sy (va : Z) : option mmap_region_t := find (fun r => contains r va) (sections sy).

(** ** The set-up adds these regions *)
Section proofs.
Context (tables base mmfr0 : Z).
#[local] Instance env : XlatEnv := bl31_env tables base mmfr0.
Implicit Types (s : xlat_state) (sy : bl31_symbols).

Lemma add_nothing a attr s : a mod 4096 = 0 -> mmap_add_region a a 0 attr s = Ret tt s.
Proof.
  intros Ha. unfold mmap_add_region. erewrite bind_run by done. rewrite !x_assert_bind by done.
  assert (Hp : IS_PAGE_ALIGNED a = true) by (rewrite page_aligned_mod; by apply Z.eqb_eq). by rewrite Hp.
Qed.
Lemma add_section a b attr l s : mm_size (flat a b attr) <> 0 -> 0 <= b - a < 2 ^ 64 ->
  (mmap_add_region a a (u64 (b - a)) attr ;;; mmap_add l) s = mmap_add (flat a b attr :: l) s.
Proof. intros Hz Hr. rewrite u64_small by done. cbn [mmap_add]. by rewrite (proj2 (Z.eqb_neq _ 0) Hz). Qed.

Lemma bind_assoc {A B} (m : M xlat_state A) (f : A -> M xlat_state B) {D} (g : B -> M xlat_state D) s :
  bind (bind m f) g s = bind m (fun a => bind (f a) g) s.
Proof. unfold bind. by destruct (m s). Qed.
Lemma bind_ext {A B} (m : M xlat_state A) (f g : A -> M xlat_state B) s : (forall a s', f a s' = g a s') -> bind m f s = bind m g s.
Proof. intros E. unfold bind. destruct (m s); auto. Qed.

Lemma setup_adds sy s : image_ok sy ->
  marvell_bl31_plat_arch_setup sy s =
  (mmap_add (regions sy ++ [end_region]) ;;; init_xlat_tables ;;; enable_mmu EL3 (if bl31_cache_disable then DISABLE_DCACHE else 0)) s.
Proof.
  intros [[He1 He2] (Hc1 & Hc2 & Hc3) [(Hr0 & Hra & Hrb & Hr) Hr2] [(Hh0 & Hha & Hhb & Hh) Hh2]]. assert (Hl : BL31_LIMIT < 2 ^ 32) by done. assert (Hbase : 0 < BL31_BASE) by done.
  unfold marvell_bl31_plat_arch_setup, marvell_setup_page_tables. rewrite !u64_small by lia. unfold regions.
  rewrite <- !app_assoc. cbn [app mmap_add]. unfold total at 1 2 3 4. cbn [flat MAP_REGION_FLAT mm_size mm_base_pa mm_base_va mm_attr].
  rewrite (proj2 (Z.eqb_neq _ 0)) by lia. rewrite !bind_assoc. apply bind_ext. intros _ s1.
  unfold code at 1 2 3 4. cbn [flat MAP_REGION_FLAT mm_size mm_base_pa mm_base_va mm_attr]. rewrite (proj2 (Z.eqb_neq _ 0)) by lia. rewrite !bind_assoc. apply bind_ext. intros _ s2.
  assert (Hlast : forall s3, ((mmap_add plat_marvell_get_mmap ;;; init_xlat_tables) ;;; enable_mmu_el3 (if bl31_cache_disable then DISABLE_DCACHE else 0)) s3 =
    (mmap_add [MARVELL_MAP_SHARED_RAM; MAP_DEVICE0; MARVELL_MAP_DRAM; end_region] ;;; init_xlat_tables ;;; enable_mmu EL3 (if bl31_cache_disable then DISABLE_DCACHE else 0)) s3)
    by (intros s3; by rewrite bind_assoc).
  assert (Hcoh : forall s3, ((when use_coherent_mem (mmap_add_region (BL_COHERENT_RAM_BASE sy) (BL_COHERENT_RAM_BASE sy) (BL_COHERENT_RAM_END sy - BL_COHERENT_RAM_BASE sy)
      (Z.lor (Z.lor MT_DEVICE MT_RW) MT_SECURE)) ;;; mmap_add plat_marvell_get_mmap ;;; init_xlat_tables) ;;; enable_mmu_el3 (if bl31_cache_disable then DISABLE_DCACHE else 0)) s3 =
    (mmap_add ((if coherent_present sy then [coherent sy] else []) ++ [MARVELL_MAP_SHARED_RAM; MAP_DEVICE0; MARVELL_MAP_DRAM; end_region]) ;;;
     init_xlat_tables ;;; enable_mmu EL3 (if bl31_cache_disable then DISABLE_DCACHE else 0)) s3).
  { intros s3. rewrite bind_assoc. unfold coherent_present. destruct use_coherent_mem; cbn [when andb]; [|erewrite bind_run by done; apply Hlast].
    destruct (Z.eqb_spec (BL_COHERENT_RAM_BASE sy) (BL_COHERENT_RAM_END sy)) as [E|Hne]; cbn [negb app].
    - replace (BL_COHERENT_RAM_END sy - BL_COHERENT_RAM_BASE sy) with 0 by lia. erewrite bind_run by (by apply add_nothing). apply Hlast.
    - cbn [mmap_add]. unfold coherent at 1. cbn [flat MAP_REGION_FLAT mm_size]. rewrite (proj2 (Z.eqb_neq _ 0)), bind_assoc by lia. apply bind_ext. intros _ s4. apply Hlast. }
  rewrite bind_assoc. unfold rodata_present. destruct (Z.eqb_spec (BL_RO_DATA_BASE sy) (BL_RO_DATA_END sy)) as [E|Hne]; cbn [negb app].
  - replace (BL_RO_DATA_END sy - BL_RO_DATA_BASE sy) with 0 by lia. erewrite bind_run by (by apply add_nothing). apply Hcoh.
  - cbn [mmap_add]. unfold rodata at 1. cbn [flat MAP_REGION_FLAT mm_size]. rewrite (proj2 (Z.eqb_neq _ 0)), bind_assoc by lia. apply bind_ext. intros _ s4. apply Hcoh.
Qed.

(** ** The regions fit together *)
Lemma flat_ok a b attr : a mod 4096 = 0 -> b mod 4096 = 0 -> 0 <= a < b -> b <= 2 ^ 32 -> region_ok (flat a b attr).
Proof.
  intros Ha Hb Hab Hm. unfold region_ok. cbn [flat MAP_REGION_FLAT mm_base_pa mm_base_va mm_size]. change PLAT_VIRT_ADDR_SPACE_SIZE with (2 ^ 32). change PLAT_PHY_ADDR_SPACE_SIZE with (2 ^ 32).
  rewrite Zminus_mod, Ha, Hb. split_and!; done || lia.
Qed.
Lemma flat_related a b x c d y : a < b -> c < d ->
  (b <= c \/ d <= a) \/ (a <= c /\ d <= b \/ c <= a /\ b <= d) /\ ~ (a = c /\ b = d) -> related (flat a b x) (flat c d y).
Proof.
  intros Hab Hcd Hr. unfold related. destruct (decide _) as [Hn|Hn]; unfold nested, within, same_area, offset, apart in *; cbn [flat MAP_REGION_FLAT mm_base_pa mm_base_va mm_size] in *; lia.
Qed.

Lemma shared_flat : MARVELL_MAP_SHARED_RAM = flat 0x4000000 0x4001000 (Z.lor (Z.lor MT_MEMORY MT_RW) MT_SECURE).
Proof. reflexivity. Qed.
Lemma device_flat : MAP_DEVICE0 = flat 0xD0000000 0xE0000000 (Z.lor (Z.lor MT_DEVICE MT_RW) MT_SECURE).
Proof. reflexivity. Qed.
Lemma dram_flat : MARVELL_MAP_DRAM = flat 0 0x20000000 (Z.lor (Z.lor MT_MEMORY MT_RW) MT_NS).
Proof. reflexivity. Qed.

(** The members of the list. *)
Lemma regions_cases sy r : image_ok sy -> r ∈ regions sy ->
  r = total sy \/ r = code sy \/ (rodata_present sy = true /\ r = rodata sy) \/ (coherent_present sy = true /\ r = coherent sy) \/
  r = MARVELL_MAP_SHARED_RAM \/ r = MAP_DEVICE0 \/ r = MARVELL_MAP_DRAM.
Proof. intros _. unfold regions. destruct (rodata_present sy), (coherent_present sy); cbn [app]; rewrite !elem_of_cons, elem_of_nil; tauto. Qed.

Lemma image_bounds sy : image_ok sy ->
  (BL31_END sy mod 4096 = 0 /\ BL31_END sy <= 0x4080000) /\ BL_CODE_BASE sy = 0x4023000 /\ (BL_CODE_END sy mod 4096 = 0 /\ 0x4023000 < BL_CODE_END sy < BL31_END sy) /\
  (rodata_present sy = true -> (BL_RO_DATA_BASE sy mod 4096 = 0 /\ BL_RO_DATA_END sy mod 4096 = 0) /\ BL_CODE_END sy <= BL_RO_DATA_BASE sy < BL_RO_DATA_END sy /\ BL_RO_DATA_END sy <= BL31_END sy) /\
  (coherent_present sy = true -> (BL_COHERENT_RAM_BASE sy mod 4096 = 0 /\ BL_COHERENT_RAM_END sy mod 4096 = 0) /\
    (BL_CODE_END sy <= BL_COHERENT_RAM_BASE sy /\ BL_RO_DATA_END sy <= BL_COHERENT_RAM_BASE sy) /\ BL_COHERENT_RAM_BASE sy < BL_COHERENT_RAM_END sy <= BL31_END sy).
Proof.
  intros [[He1 He2] (Hc1 & Hc2 & Hc3) [(Hr0 & Hra & Hrb & Hr) Hr2] [(Hh0 & Hha & Hhb & Hh) Hh2]]. change BL31_LIMIT with 0x4080000 in *. change BL31_BASE with 0x4023000 in *.
  split_and!; try done; try lia; [unfold rodata_present|unfold coherent_present]; intros; split_and!; try done; lia.
Qed.

Lemma regions_accepted sy : image_ok sy -> accepts [] (regions sy).
Proof.
  intros Him. destruct (image_bounds sy Him) as ((He1 & He2) & Hc1 & (Hc2 & Hc3) & Hr & Hh). split_and!.
  - apply Forall_forall. intros r Hin. destruct (regions_cases sy r Him Hin) as [-> |[-> |[[Hp ->]|[[Hp ->]|[-> |[-> | ->]]]]]].
    1-4: apply flat_ok; try (specialize (Hr Hp)); try (specialize (Hh Hp)); change BL31_BASE with 0x4023000; rewrite ?Hc1; tauto || lia || done.
    all: done.
  - unfold regions. rewrite shared_flat, device_flat, dram_flat. unfold total, code, rodata, coherent.
    destruct (rodata_present sy), (coherent_present sy); cbn [app]; repeat specialize (Hr eq_refl); repeat specialize (Hh eq_refl);
      repeat match goal with |- ForallOrdPairs _ _ => constructor | |- Forall _ _ => constructor end;
      apply flat_related; change BL31_BASE with 0x4023000; rewrite ?Hc1; lia.
  - apply Forall_forall. intros r _. constructor.
Qed.

(** Three finer tables are enough: one for each of the two gigabytes that are
    cut, and one for the two megabytes of the trusted memory. *)
Lemma low_cuts level p x : level = 1 \/ level = 2 -> 0x4000000 <= p <= 0x4080000 -> x ∈ cuts_at 1 level p -> x ∈ [(1, 0); (1, 3); (2, 32)].
Proof.
  intros Hl Hp Hx. unfold cuts_at in Hx. destruct (_ && _); [|by apply elem_of_nil in Hx]. apply elem_of_cons in Hx as [->|Hx]; [|by apply elem_of_nil in Hx].
  destruct Hl as [-> | ->]; unfold bs, level_shift; cbn [Z.sub Z.mul Z.add Z.opp Pos.mul Pos.add Z.pos_sub Pos.pred_double].
  - rewrite Z.div_small by lia. by left.
  - replace (p / 2 ^ (12 + 9 * (3 - 2))) with 32 by (apply Z.div_unique with (p - 32 * 2 ^ 21); lia). do 2 right. by left.
Qed.
Lemma regions_cuts sy r x : image_ok sy -> r ∈ regions sy -> x ∈ cut_areas 1 r -> x ∈ [(1, 0); (1, 3); (2, 32)].
Proof.
  intros Him Hr Hx. destruct (image_bounds sy Him) as ((He1 & He2) & Hc1 & (Hc2 & Hc3) & Hro & Hh).
  assert (Hlow : forall a b attr, 0x4000000 <= a -> b <= 0x4080000 -> a < b -> x ∈ cut_areas 1 (flat a b attr) -> x ∈ [(1, 0); (1, 3); (2, 32)]).
  { intros a b attr Ha Hb Hab. unfold cut_areas. cbn [Z.eqb app flat MAP_REGION_FLAT mm_base_va mm_size]. rewrite !elem_of_app.
    intros [Hc|[Hc|[Hc|Hc]]]; (eapply low_cuts; [| |exact Hc]); lia. }
  destruct (regions_cases sy r Him Hr) as [-> |[-> |[[Hp ->]|[[Hp ->]|[-> |[-> | ->]]]]]].
  1-5: rewrite ?shared_flat in Hx; eapply Hlow; [| | |exact Hx]; try (specialize (Hro Hp)); try (specialize (Hh Hp)); change BL31_BASE with 0x4023000; rewrite ?Hc1; lia.
  - revert Hx. replace (cut_areas 1 MAP_DEVICE0) with [(1, 3); (1, 3)] by reflexivity. rewrite !elem_of_cons. tauto.
  - revert Hx. replace (cut_areas 1 MARVELL_MAP_DRAM) with [(1, 0)] by reflexivity. rewrite !elem_of_cons, elem_of_nil. tauto.
Qed.
Lemma regions_tables sy : image_ok sy -> tables_needed (regions sy) <= 3.
Proof.
  intros Him. unfold tables_needed, needed_areas. change XLAT_TABLE_LEVEL_BASE with 1. change 3 with (Z.of_nat (length [(1, 0); (1, 3); (2, 32)])). apply inj_le.
  apply submseteq_length, NoDup_submseteq; [apply NoDup_remove_dups|]. intros x. rewrite elem_of_remove_dups, list_elem_of_bind. intros (r & Hx & Hr). by eapply regions_cuts.
Qed.

Lemma contains_flat a b attr va : contains (flat a b attr) va = (a <=? va) && (va <? b).
Proof. unfold contains. cbn. by replace (a + (b - a)) with b by lia. Qed.

(** In a list in which of any two regions that share an address the first is not
    larger, the first that contains an address is the smallest. *)
Definition ahead (r r' : mmap_region_t) : Prop := forall va, contains r va = true -> contains r' va = true -> mm_size r <= mm_size r'.
Lemma find_smallest l va : StronglySorted ahead l ->
  match find (fun r => contains r va) l with
  | Some r => r ∈ l /\ contains r va = true /\ forall r', r' ∈ l -> contains r' va = true -> mm_size r <= mm_size r'
  | None => Forall (fun r => contains r va = false) l
  end.
Proof.
  induction 1 as [|x l Hs IH Hx]; cbn; [done|]. destruct (contains x va) eqn:Ex.
  - split_and!; [by left|done|]. intros r' Hr' Hc. apply elem_of_cons in Hr' as [->|Hr']; [done|]. by apply (proj1 (Forall_forall _ _) Hx r' Hr' va).
  - destruct (find _ l) as [r|]; [|by constructor]. destruct IH as (Hr & Hc & Hm). split_and!; [by right|done|]. intros r' Hr' Hc'.
    apply elem_of_cons in Hr' as [->|Hr']; [congruence|auto].
Qed.
Lemma flat_ahead a b x c d y : b <= c \/ d <= a \/ b - a <= d - c -> ahead (flat a b x) (flat c d y).
Proof. intros Hr va. rewrite !contains_flat. cbn [flat MAP_REGION_FLAT mm_size]. lia. Qed.

Lemma sections_ahead sy : image_ok sy -> StronglySorted ahead (sections sy).
Proof.
  intros Him. destruct (image_bounds sy Him) as ((He1 & He2) & Hc1 & (Hc2 & Hc3) & Hr & Hh). unfold sections. rewrite shared_flat, device_flat, dram_flat. unfold total, code, rodata, coherent.
  destruct (rodata_present sy), (coherent_present sy); cbn [app]; repeat specialize (Hr eq_refl); repeat specialize (Hh eq_refl);
    repeat match goal with |- StronglySorted _ _ => constructor | |- Forall _ _ => constructor end;
    apply flat_ahead; change BL31_BASE with 0x4023000; rewrite ?Hc1; lia.
Qed.
Lemma sections_perm sy : sections sy ≡ₚ regions sy.
Proof.
  unfold sections, regions. destruct (rodata_present sy), (coherent_present sy); cbn [app]; solve_Permutation.
Qed.

Lemma view_of_sorted sy l va : image_ok sy -> l ≡ₚ regions sy -> StronglySorted before l -> (forall r r', r ∈ l -> r' ∈ l -> r = r' \/ related r r') ->
  inner None l va = bl31_view sy va.
Proof.
  intros Him Hp Hs Hrel. pose proof (find_smallest (sections sy) va (sections_ahead sy Him)) as Hf. fold (bl31_view sy va) in Hf.
  destruct (bl31_view sy va) as [r|].
  - destruct Hf as (Hr & Hc & Hm). rewrite sections_perm in Hr. apply inner_smallest; [done|done|by rewrite Hp|done|].
    intros x. rewrite Hp, <- sections_perm. apply Hm.
  - apply inner_none. by rewrite Hp, <- sections_perm.
Qed.
Lemma view_flat sy va r : image_ok sy -> bl31_view sy va = Some r -> offset r = 0 /\ typed (mm_attr r).
Proof.
  intros Him Hv. apply find_some in Hv as [Hin _]. apply list_elem_of_In in Hin. rewrite sections_perm in Hin.
  destruct (regions_cases sy r Him Hin) as [-> |[-> |[[_ ->]|[[_ ->]|[-> |[-> | ->]]]]]]; (split; [unfold offset; apply Z.sub_diag|]); vm_compute; tauto.
Qed.

(** [C16] The memory of BL31 on the board.  For every linked image whose sections
    are page-aligned, in order and inside the memory reserved for BL31, with or
    without a separate read-only data section and coherent memory: the
    architecture set-up of BL31 returns, the four tables of the build being
    enough, with the MMU on; then every address is mapped onto itself with the
    attributes of the section it lies in, the code before the rest of the
    image, the image before the DRAM, the device registers as device memory, and
    every other address faults.  Only the code is executable, and no address
    is both writable and executable. *)
Theorem a3700_bl31_memory_map sy s :
  layout -> base_aligned -> pa_supported -> image_ok sy -> cold EL3 s ->
  exists s', marvell_bl31_plat_arch_setup sy s = Ret tt s' /\ Z.testbit (r_sctlr (mmu s' EL3)) 0 = true /\
    forall va, 0 <= va ->
      translate EL3 s' va = (fun r => region_xlation (mm_attr r) va) <$> bl31_view sy va /\
      forall x, translate EL3 s' va = Some x -> x_exec x = true -> x_write x = false /\ contains (code sy) va = true.
Proof.
  intros Hlay Hbase Hsup Him Hcold. rewrite setup_adds by done.
  assert (Hc : xlat_config EL3) by (by split).
  assert (Hty : Forall (fun r => typed (mm_attr r)) (regions sy)).
  { apply Forall_forall. intros r Hr. destruct (regions_cases sy r Him Hr) as [-> |[-> |[[_ ->]|[[_ ->]|[-> |[-> | ->]]]]]]; vm_compute; tauto. }
  assert (Hlen : Z.of_nat (length (regions sy)) <= MAX_MMAP_REGIONS).
  { change MAX_MMAP_REGIONS with (5 + MARVELL_BL_REGIONS). unfold regions, MARVELL_BL_REGIONS, coherent_present. destruct (rodata_present sy), use_coherent_mem; cbn; try lia; destruct (BL_COHERENT_RAM_BASE sy =? BL_COHERENT_RAM_END sy); cbn; lia. }
  pose proof (setup_translates EL3 (regions sy) (if bl31_cache_disable then DISABLE_DCACHE else 0) s Hc Hcold (regions_accepted sy Him) Hty Hlen) as Hrun.
  destruct ((mmap_add (regions sy ++ [end_region]) ;;; init_xlat_tables ;;; enable_mmu EL3 (if bl31_cache_disable then DISABLE_DCACHE else 0)) s) as [[] s'|h s'].
  2:{ exfalso. pose proof (regions_tables sy Him) as Hn. destruct Hrun as [_ [Hm|(r & Hr & Ho)]]; [change MAX_XLAT_TABLES with 4 in Hm; lia|].
      apply Ho. destruct (regions_cases sy r Him Hr) as [-> |[-> |[[_ ->]|[[_ ->]|[-> |[-> | ->]]]]]]; unfold offset; cbn; by rewrite ?Z.sub_diag. }
  destruct Hrun as (Hbit & l & Hp & Hs & Hrel & Htr). exists s'. split_and!; [done|done|]. intros va Hva.
  assert (Hview : translate EL3 s' va = (fun r => region_xlation (mm_attr r) va) <$> bl31_view sy va).
  { rewrite Htr, (view_of_sorted sy l va Him Hp Hs Hrel) by done. destruct (bl31_view sy va) as [r|] eqn:Ev; [|done]. cbn. destruct (view_flat sy va r Him Ev) as [-> _].
    by rewrite Z.sub_0_r. }
  split; [done|]. intros x. rewrite Hview. destruct (bl31_view sy va) as [r|] eqn:Ev; [|done]. cbn. intros [= <-] Hex.
  apply find_some in Ev as [Hin Hcon]. apply list_elem_of_In in Hin. rewrite sections_perm in Hin.
  destruct (regions_cases sy r Him Hin) as [-> |[-> |[[_ ->]|[[_ ->]|[-> |[-> | ->]]]]]]; try (vm_compute in Hex; done).
Qed.
End proofs.
End board.

Module MmuWitnesses.
(** The build with coherent memory; the tables inside the image of BL31. *)
#[local] Instance env : XlatEnv := bl31_env true 0x4040000 0x4045000 2.
Definition start : xlat_state :=
  XlatState (replicate 9 end_region) (replicate 4 (replicate 512 0)) (replicate 4 0) 0 0 0 0 0 (fun _ => MmuRegs 0 0 0 0) [].
Definition symbols : bl31_symbols := Bl31Symbols 0x4050000 0x4023000 0x4035000 0x4035000 0x4038000 0x4048000 0x4050000.

Lemma start_layout : layout.
Proof. split; [cbn; lia|reflexivity|cbn; lia|]. right. vm_compute. discriminate. Qed.
Lemma start_base : base_aligned.
Proof. split; [cbn; lia|reflexivity]. Qed.
Lemma start_supported : pa_supported.
Proof. exists 40. split; [reflexivity|vm_compute; discriminate]. Qed.
Lemma start_cold : cold EL3 start.
Proof. split; [reflexivity|done|reflexivity| |reflexivity]. split_and!; [reflexivity| |reflexivity]. by repeat constructor. Qed.
Lemma start_config : xlat_config EL3.
Proof. split; [reflexivity|reflexivity|reflexivity|exact start_supported|exact start_layout|exact start_base|reflexivity]. Qed.
Lemma symbols_ok : image_ok symbols.
Proof. split; vm_compute; intuition congruence. Qed.

Lemma a3700_bl31_memory_map_witness :
  exists s', marvell_bl31_plat_arch_setup true false symbols start = Ret tt s' /\
    translate EL3 s' 0x4024010 = Some (Xlation 0x4024010 false false true 0xff 3) /\ translate EL3 s' 0xC0000000 = None.
Proof.
  destruct (a3700_bl31_memory_map true false 0x4040000 0x4045000 2 symbols start start_layout start_base start_supported symbols_ok start_cold)
    as (s' & Hr & _ & Ht).
  exists s'. split; [exact Hr|]. split; [apply (Ht 0x4024010); lia|apply (Ht 0xC0000000); lia].
Defined.

(** A region at another address, and code inside a wider region. *)
Definition some_regions : list mmap_region_t :=
  [MapRegion 0x80000000 0x40000000 0x200000 (Z.lor MT_MEMORY MT_RW); MAP_REGION_FLAT 0x200000 0x3000 MT_CODE; MAP_REGION_FLAT 0 0x400000 (Z.lor MT_MEMORY (Z.lor MT_RW MT_NS))].
Lemma some_accepted : accepts [] some_regions.
Proof.
  split_and!; [|repeat (constructor; [repeat (constructor; [apply (bool_decide_unpack _); vm_compute; exact I|]); constructor|]); constructor|by repeat constructor].
  repeat (constructor; [vm_compute; intuition congruence|]). constructor.
Qed.

Lemma xlat_maps_regions_witness :
  exists s', (mmap_add (some_regions ++ [end_region]) ;;; init_xlat_tables ;;; enable_mmu EL3 0) start = Ret tt s' /\
    translate EL3 s' 0x40001000 = Some (Xlation 0x80001000 false true false 0xff 3) /\ translate EL3 s' 0x400000 = None.
Proof.
  pose proof (xlat_maps_regions EL3 some_regions 0 start start_config start_cold some_accepted) as Hrun.
  assert (Hret : match (mmap_add (some_regions ++ [end_region]) ;;; init_xlat_tables ;;; enable_mmu EL3 0) start with Ret _ _ => true | Halt _ _ => false end = true)
    by (vm_compute; reflexivity).
  destruct ((mmap_add (some_regions ++ [end_region]) ;;; init_xlat_tables ;;; enable_mmu EL3 0) start) as [[] s'|h s']; [|discriminate Hret].
  destruct Hrun as [_ Ht]; [repeat constructor; vm_compute; tauto|vm_compute; discriminate|]. exists s'. split; [reflexivity|]. split.
  - apply (proj1 (Ht 0x40001000 ltac:(lia)) (MapRegion 0x80000000 0x40000000 0x200000 (Z.lor MT_MEMORY MT_RW))); [by left|reflexivity|].
    intros r' Hr' Hc. apply elem_of_cons in Hr' as [->|Hr']; [reflexivity|]. exfalso.
    apply elem_of_cons in Hr' as [->|Hr']; [vm_compute in Hc; discriminate|]. apply elem_of_cons in Hr' as [->|Hr']; [vm_compute in Hc; discriminate|]. by apply elem_of_nil in Hr'.
  - apply (proj2 (Ht 0x400000 ltac:(lia))). repeat constructor.
Defined.

Lemma mmap_add_exact_witness :
  exists s', mmap_add ([MAP_REGION_FLAT 0 0x2000 MT_CODE; MAP_REGION_FLAT 0x1000 0x2000 MT_CODE] ++ [end_region]) start = Halt HAssert s'.
Proof.
  apply (mmap_add_exact EL3 [MAP_REGION_FLAT 0 0x2000 MT_CODE; MAP_REGION_FLAT 0x1000 0x2000 MT_CODE] start start_config start_cold).
  - by repeat constructor.
  - by repeat constructor.
  - vm_compute. discriminate.
  - intros (_ & Hp & _). inversion Hp as [|?? Hf _]; subst. inversion Hf as [|?? Hr _]; subst. revert Hr. apply (bool_decide_unpack _). vm_compute. exact I.
Defined.

Lemma mmap_full_check_witness :
  exists s', mmap_add_region 0x2000 0x2000 0x1000 MT_CODE (set_mmap [MAP_REGION_FLAT 0 0x1000 MT_CODE; end_region] start) = Ret tt s' /\
    Forall (fun x => mm_size x <> 0) (mmap s').
Proof.
  destruct (mmap_full_check EL3 [MAP_REGION_FLAT 0 0x1000 MT_CODE] (MAP_REGION_FLAT 0x2000 0x1000 MT_CODE)
    (set_mmap [MAP_REGION_FLAT 0 0x1000 MT_CODE; end_region] start) start_config) as [_ Hend].
  - reflexivity.
  - by repeat constructor.
  - repeat constructor; vm_compute; congruence.
  - vm_compute. intuition congruence.
  - constructor; [apply (bool_decide_unpack _); vm_compute; exact I|constructor].
  - destruct Hend as (s' & Hr & _ & Hz); [constructor; [left; reflexivity|constructor]|]. exists s'. split; [exact Hr|exact Hz].
Defined.
End MmuWitnesses.
