(* ===== verification/El3Ctx.v ===== *)
(** * BL31: saved contexts and the exit to a lower exception level
    (lib/el3_runtime/aarch64/context_mgmt.c, bl31/bl31_context_mgmt.c,
    include/lib/el3_runtime, lib/extensions)

    A context is the three register arrays of [cpu_context_t], indexed by the
    byte offsets of context.h; [ctx_mem] holds all contexts, and a pointer to
    one is its index.  Per CPU there are the two context pointers of the CPU
    data, the context that SP_EL3 points to, the EL1 system registers in use
    (in the layout of the saved ones: saving and restoring them is assembly)
    and the other system registers this code reads or writes.

    The build is that of BL31 on AArch64 without saved floating-point
    registers and without the exception handling framework, whose subscribers
    to the world switches are in Ehf.v.  The check of the stack pointer in
    [cm_set_next_context] is left out. *)
From stdpp Require Import base list numbers option.
From Stdlib Require Import ZArith Lia.
From S2P Require Import Prelude PsciDefs PsciCommon PsciSetup IntrMgmt.
#[local] Open Scope Z_scope.

(** ** Constants *)
Definition CTX_SCR_EL3 : Z := 0x0.
Definition CTX_RUNTIME_SP : Z := 0x8.
Definition CTX_SPSR_EL3 : Z := 0x10.
Definition CTX_ELR_EL3 : Z := 0x18.
Definition CTX_EL3STATE_END : Z := 0x20.
Definition CTX_GPREGS_END : Z := 0x100.
Definition CTX_SCTLR_EL1 : Z := 0x10.
Definition CTX_PMCR_EL0 : Z := 0xb0.
Definition CTX_CVE_2018_3639_END : Z := 0x10.
Definition DWORD_SHIFT : Z := 3.

Definition SCR_ST_BIT : Z := Z.shiftl 1 11.
Definition SCR_EA_BIT : Z := Z.shiftl 1 3.
Definition SCR_FIQ_BIT : Z := Z.shiftl 1 2.
Definition SCR_IRQ_BIT : Z := Z.shiftl 1 1.
Definition SCR_NS_BIT : Z := Z.shiftl 1 0.
Definition MODE_RW_64 : Z := 0.
Definition GET_RW (mode : Z) : Z := Z.land (Z.shiftr mode 4) 1.
Definition GET_EL (mode : Z) : Z := Z.land (Z.shiftr mode 2) 3.
Definition GET_M32 (mode : Z) : Z := Z.land (Z.shiftr mode 0) 0xf.

Definition bits (l : list Z) : Z := foldr (fun i v => Z.lor (Z.shiftl 1 i) v) 0 l.
Definition SCTLR_EL2_RES1 : Z := bits [29; 28; 23; 22; 18; 16; 11; 5; 4].
Definition SCTLR_EL1_RES1 : Z := bits [29; 28; 23; 22; 20; 11].
Definition SCTLR_AARCH32_EL1_RES1 : Z := bits [23; 22; 11; 4; 3].
Definition SCTLR_CP15BEN_BIT : Z := Z.shiftl 1 5.
Definition SCTLR_NTWI_BIT : Z := Z.shiftl 1 16.
Definition SCTLR_NTWE_BIT : Z := Z.shiftl 1 18.
Definition PMCR_EL0_RESET_VAL : Z := 0x0.
Definition PMCR_EL0_N_SHIFT : Z := 11.
Definition PMCR_EL0_N_BITS : Z := Z.shiftl 0x1f PMCR_EL0_N_SHIFT.
Definition PMCR_EL0_LC_BIT : Z := Z.shiftl 1 6.
Definition PMCR_EL0_DP_BIT : Z := Z.shiftl 1 5.
Definition PMCR_EL0_X_BIT : Z := Z.shiftl 1 4.
Definition PMCR_EL0_D_BIT : Z := Z.shiftl 1 3.
Definition HCR_RW_BIT : Z := Z.shiftl 1 31.
Definition CPTR_EL2_RESET_VAL : Z := Z.lor (Z.lor (Z.shiftl 1 13) (Z.shiftl 1 12)) 0x3ff.
Definition CPTR_EL2_TCPAC_BIT : Z := Z.shiftl 1 31.
Definition CPTR_EL2_TAM_BIT : Z := Z.shiftl 1 30.
Definition CPTR_EL2_TTA_BIT : Z := Z.shiftl 1 20.
Definition CPTR_EL2_TFP_BIT : Z := Z.shiftl 1 10.
Definition CPTR_EL2_TZ_BIT : Z := Z.shiftl 1 8.
Definition CNTHCTL_RESET_VAL : Z := 0x0.
Definition EL1PCEN_BIT : Z := Z.shiftl 1 1.
Definition EL1PCTEN_BIT : Z := Z.shiftl 1 0.
Definition VTTBR_RESET_VAL : Z := 0x0.
Definition VTTBR_VMID_MASK : Z := 0xff.
Definition VTTBR_VMID_SHIFT : Z := 48.
Definition VTTBR_BADDR_MASK : Z := 0xffffffffffff.
Definition VTTBR_BADDR_SHIFT : Z := 0.
Definition MDCR_EL2_RESET_VAL : Z := 0x0.
Definition MDCR_EL2_TRAP_BITS : Z := bits [11; 10; 9; 8; 7; 6; 5].
Definition MDCR_EL2_TPMS : Z := Z.shiftl 1 14.
Definition MDCR_EL2_E2PB_EL1 : Z := Z.shiftl 0x3 12.
Definition MDCR_NSPB_EL1 : Z := Z.shiftl 0x3 12.
Definition HSTR_EL2_RESET_VAL : Z := 0x0.
Definition HSTR_EL2_T_MASK : Z := 0xff.
Definition CNTHP_CTL_RESET_VAL : Z := 0x0.
Definition CNTHP_CTL_ENABLE_BIT : Z := Z.shiftl 1 0.
Definition TAM_BIT : Z := Z.shiftl 1 30.
Definition TFP_BIT : Z := Z.shiftl 1 10.
Definition CPTR_EZ_BIT : Z := Z.shiftl 1 8.
Definition ZCR_LEN_MASK : Z := 0xf.
Definition AMU_GROUP0_COUNTERS_MASK : Z := 0xf.
Definition ID_FIELD_MASK : Z := 0xf.

Definition EP_EE_MASK : Z := 0x2.
Definition EP_ST_MASK : Z := 0x4.
Definition EP_GET_EE (x : Z) : Z := Z.land x EP_EE_MASK.
Definition EP_GET_ST (x : Z) : Z := Z.land x EP_ST_MASK.
Definition GET_SECURITY_STATE (x : Z) : Z := Z.land x 1.
Definition SET_SECURITY_STATE (x security : Z) : Z := Z.lor (Z.land x (u32 (Z.lnot 1))) security.

(** ** Data *)

(** The whole structure: header type, version and attributes, PC, SPSR and the
    eight arguments. *)
Record entry_point_info : Type := EntryPointInfo {
  ei_type : Z; ei_version : Z; ei_attr : Z; ei_pc : Z; ei_spsr : Z; ei_args : list Z
}.

Record cpu_context_t : Type := CpuContext {
  gpregs_ctx : list Z; el3state_ctx : list Z; sysregs_ctx : list Z; cve_2018_3639_ctx : list Z
}.
Definition set_gpregs (l : list Z) (c : cpu_context_t) : cpu_context_t := CpuContext l (el3state_ctx c) (sysregs_ctx c) (cve_2018_3639_ctx c).
Definition set_el3state (l : list Z) (c : cpu_context_t) : cpu_context_t := CpuContext (gpregs_ctx c) l (sysregs_ctx c) (cve_2018_3639_ctx c).
Definition set_sysregs (l : list Z) (c : cpu_context_t) : cpu_context_t := CpuContext (gpregs_ctx c) (el3state_ctx c) l (cve_2018_3639_ctx c).

Inductive sysreg : Type :=
| SCR_EL3 | MDCR_EL3 | CPTR_EL3 | ZCR_EL3
| SCTLR_EL2 | HCR_EL2 | CPTR_EL2 | CNTHCTL_EL2 | CNTVOFF_EL2 | VPIDR_EL2 | VMPIDR_EL2 | VTTBR_EL2 | MDCR_EL2 | HSTR_EL2
| CNTHP_CTL_EL2 | ZCR_EL2 | AMCNTENSET0_EL0 | AMCNTENSET1_EL0
| MIDR_EL1 | MPIDR_EL1 | ID_AA64PFR0_EL1 | ID_AA64DFR0_EL1.
#[global] Instance sysreg_eq_dec : EqDecision sysreg.
Proof. solve_decision. Defined.

Record cm_cpu : Type := CmCpu {
  cpu_context_ptr : list (option Z); next_context : option Z; el1_regs_in_use : list Z; sysreg_value : sysreg -> Z
}.
Definition set_context_ptr (l : list (option Z)) (c : cm_cpu) : cm_cpu := CmCpu l (next_context c) (el1_regs_in_use c) (sysreg_value c).
Definition set_next_context (p : option Z) (c : cm_cpu) : cm_cpu := CmCpu (cpu_context_ptr c) p (el1_regs_in_use c) (sysreg_value c).
Definition set_el1_in_use (l : list Z) (c : cm_cpu) : cm_cpu := CmCpu (cpu_context_ptr c) (next_context c) l (sysreg_value c).
Definition set_sysreg (r : sysreg) (v : Z) (c : cm_cpu) : cm_cpu :=
  CmCpu (cpu_context_ptr c) (next_context c) (el1_regs_in_use c) (fun x => if decide (x = r) then v else sysreg_value c x).

Record cm_state : Type := CmState { ctx_mem : list cpu_context_t; cm_cpus : list cm_cpu; cm_intr_descs : list intr_type_desc_t }.
Definition set_ctx_mem (l : list cpu_context_t) (s : cm_state) : cm_state := CmState l (cm_cpus s) (cm_intr_descs s).
Definition set_cm_cpus (l : list cm_cpu) (s : cm_state) : cm_state := CmState (ctx_mem s) l (cm_intr_descs s).

(** Build options, and the mapping of the deprecated functions. *)
Class CmCfg : Type := {
  CM_ASSERTIONS : bool;
  HANDLE_EA_EL3_FIRST : bool;
  ENABLE_SPE_FOR_LOWER_ELS : bool;
  ENABLE_AMU : bool;
  ENABLE_SVE_FOR_NS : bool;
  CTX_INCLUDE_AARCH32_REGS : bool;
  NS_TIMER_SWITCH : bool;
  AMU_GROUP1_COUNTERS_MASK : Z;
  platform_get_core_pos : Z -> Z
}.

Section context_mgmt.
Context `{!CmCfg}.
#[local] Abbreviation CM := (M cm_state).

Definition CTX_TIMER_SYSREGS_OFF : Z := if CTX_INCLUDE_AARCH32_REGS then 0xf0 else 0xc0.
Definition CTX_SYSREGS_END : Z := if NS_TIMER_SWITCH then CTX_TIMER_SYSREGS_OFF + 0x30 else CTX_TIMER_SYSREGS_OFF.
Definition CTX_SYSREG_ALL : nat := Z.to_nat (Z.shiftr CTX_SYSREGS_END DWORD_SHIFT).
Definition CTX_GPREG_ALL : nat := Z.to_nat (Z.shiftr CTX_GPREGS_END DWORD_SHIFT).
Definition CTX_EL3STATE_ALL : nat := Z.to_nat (Z.shiftr CTX_EL3STATE_END DWORD_SHIFT).
Definition CTX_CVE_2018_3639_ALL : nat := Z.to_nat (Z.shiftr CTX_CVE_2018_3639_END DWORD_SHIFT).

(** A context cleared with [zeromem]. *)
Definition zero_context : cpu_context_t :=
  CpuContext (replicate CTX_GPREG_ALL 0) (replicate CTX_EL3STATE_ALL 0) (replicate CTX_SYSREG_ALL 0) (replicate CTX_CVE_2018_3639_ALL 0).

Definition read_ctx_reg (regs : list Z) (offset : Z) : option Z := arr_get regs (Z.shiftr offset DWORD_SHIFT).
Definition write_ctx_reg (regs : list Z) (offset val : Z) : option (list Z) := arr_set regs (Z.shiftr offset DWORD_SHIFT) val.

Definition cm_assert (b : bool) : CM unit := if CM_ASSERTIONS && negb b then halt_with HAssert else ret tt.
Definition get_ctx (p : Z) : CM cpu_context_t := let! l := gets ctx_mem in deref (arr_get l p).
Definition put_ctx (p : Z) (c : cpu_context_t) : CM unit :=
  let! l := gets ctx_mem in
  let! l' := deref (arr_set l p c) in modify (set_ctx_mem l').
Definition get_cm_cpu (me : Z) : CM cm_cpu := let! l := gets cm_cpus in deref (arr_get l me).
Definition upd_cm_cpu (me : Z) (f : cm_cpu -> cm_cpu) : CM unit :=
  let! l := gets cm_cpus in
  let! c := deref (arr_get l me) in
  let! l' := deref (arr_set l me (f c)) in modify (set_cm_cpus l').
Definition read_sysreg (me : Z) (r : sysreg) : CM Z := let! c := get_cm_cpu me in ret (sysreg_value c r).
Definition write_sysreg (me : Z) (r : sysreg) (v : Z) : CM unit := upd_cm_cpu me (set_sysreg r v).
Definition write_el3state (p offset val : Z) : CM unit :=
  let! c := get_ctx p in
  let! l := deref (write_ctx_reg (el3state_ctx c) offset val) in put_ctx p (set_el3state l c).
Definition write_sysregs (p offset val : Z) : CM unit :=
  let! c := get_ctx p in
  let! l := deref (write_ctx_reg (sysregs_ctx c) offset val) in put_ctx p (set_sysregs l c).

(** ** bl31_context_mgmt.c *)
Definition cm_get_context (me security_state : Z) : CM (option Z) :=
  cm_assert (security_state <=? NON_SECURE) ;;;
  let! c := get_cm_cpu me in deref (arr_get (cpu_context_ptr c) security_state).

Definition cm_set_context (me : Z) (context : option Z) (security_state : Z) : CM unit :=
  cm_assert (security_state <=? NON_SECURE) ;;;
  let! c := get_cm_cpu me in
  let! l := deref (arr_set (cpu_context_ptr c) security_state context) in
  upd_cm_cpu me (set_context_ptr l).

Definition cm_get_context_by_index (cpu_idx security_state : Z) : CM (option Z) :=
  cm_assert (sec_state_is_valid security_state) ;;;
  let! c := get_cm_cpu cpu_idx in deref (arr_get (cpu_context_ptr c) security_state).

Definition cm_set_context_by_index (cpu_idx : Z) (context : option Z) (security_state : Z) : CM unit :=
  cm_assert (sec_state_is_valid security_state) ;;;
  let! c := get_cm_cpu cpu_idx in
  let! l := deref (arr_set (cpu_context_ptr c) security_state context) in
  upd_cm_cpu cpu_idx (set_context_ptr l).

(** ** context_mgmt.c: first use of a context *)
Definition cm_init : CM unit := ret tt.

(** The table of the interrupt management component. *)
Definition routing_model (security_state : Z) : CM Z :=
  fun s => match get_scr_el3_from_routing_model CM_ASSERTIONS security_state (ImState (cm_intr_descs s) []) with
           | Ret v _ => Ret v s
           | Halt h _ => Halt h s
           end.

Definition is_hyp (spsr : Z) : bool :=
  ((GET_RW spsr =? MODE_RW_64) && (GET_EL spsr =? MODE_EL2)) || (negb (GET_RW spsr =? MODE_RW_64) && (GET_M32 spsr =? MODE32_hyp)).

Definition clear_bits (x mask : Z) : Z := Z.land x (u32 (Z.lnot mask)).

Definition cm_init_context_common (me : Z) (ctx : option Z) (ep : entry_point_info) : CM unit :=
  cm_assert (bool_decide (is_Some ctx)) ;;;
  let security_state := GET_SECURITY_STATE (ei_attr ep) in
  let! p := deref ctx in
  put_ctx p zero_context ;;;
  let! scr := read_sysreg me SCR_EL3 in
  let scr_el3 := u32 scr in
  let scr_el3 := clear_bits scr_el3 (Z.lor (Z.lor (Z.lor (Z.lor (Z.lor SCR_NS_BIT SCR_RW_BIT) SCR_FIQ_BIT) SCR_IRQ_BIT) SCR_ST_BIT) SCR_HCE_BIT) in
  let scr_el3 := if negb (security_state =? SECURE) then Z.lor scr_el3 SCR_NS_BIT else scr_el3 in
  let scr_el3 := if GET_RW (ei_spsr ep) =? MODE_RW_64 then Z.lor scr_el3 SCR_RW_BIT else scr_el3 in
  let scr_el3 := if truthy (EP_GET_ST (ei_attr ep)) then Z.lor scr_el3 SCR_ST_BIT else scr_el3 in
  let scr_el3 := if HANDLE_EA_EL3_FIRST then scr_el3 else clear_bits scr_el3 SCR_EA_BIT in
  let! rm := routing_model security_state in
  let scr_el3 := Z.lor scr_el3 (u32 rm) in
  let scr_el3 := if is_hyp (ei_spsr ep) then Z.lor scr_el3 SCR_HCE_BIT else scr_el3 in
  let sctlr_elx := if truthy (EP_GET_EE (ei_attr ep)) then SCTLR_EE_BIT else 0 in
  let sctlr_elx := if GET_RW (ei_spsr ep) =? MODE_RW_64 then Z.lor sctlr_elx SCTLR_EL1_RES1
                   else Z.lor sctlr_elx (Z.lor (Z.lor (Z.lor SCTLR_AARCH32_EL1_RES1 SCTLR_CP15BEN_BIT) SCTLR_NTWI_BIT) SCTLR_NTWE_BIT) in
  write_sysregs p CTX_SCTLR_EL1 sctlr_elx ;;;
  when (security_state =? SECURE)
    (let pmcr_el0 := clear_bits (Z.lor (Z.lor PMCR_EL0_RESET_VAL PMCR_EL0_LC_BIT) PMCR_EL0_DP_BIT) (Z.lor PMCR_EL0_X_BIT PMCR_EL0_D_BIT) in
     write_sysregs p CTX_PMCR_EL0 pmcr_el0) ;;;
  write_el3state p CTX_SCR_EL3 scr_el3 ;;;
  write_el3state p CTX_ELR_EL3 (ei_pc ep) ;;;
  write_el3state p CTX_SPSR_EL3 (ei_spsr ep) ;;;
  let! c := get_ctx p in
  put_ctx p (set_gpregs (take 8 (ei_args ep) ++ drop 8 (gpregs_ctx c)) c).

Definition cm_init_context_by_index (me cpu_idx : Z) (ep : entry_point_info) : CM unit :=
  let! ctx := cm_get_context_by_index cpu_idx (GET_SECURITY_STATE (ei_attr ep)) in
  cm_init_context_common me ctx ep.

Definition cm_init_my_context (me : Z) (ep : entry_point_info) : CM unit :=
  let! ctx := cm_get_context me (GET_SECURITY_STATE (ei_attr ep)) in
  cm_init_context_common me ctx ep.

(** ** lib/extensions *)
Definition id_field (v shift : Z) : Z := Z.land (Z.shiftr v shift) ID_FIELD_MASK.

Definition spe_supported (me : Z) : CM bool := let! v := read_sysreg me ID_AA64DFR0_EL1 in ret (id_field v 32 =? 1).
Definition spe_enable (me : Z) (el2_unused : bool) : CM unit :=
  let! b := spe_supported me in
  if negb b then ret tt
  else
    when el2_unused
      (let! v := read_sysreg me MDCR_EL2 in
       write_sysreg me MDCR_EL2 (Z.lor (clear_bits v MDCR_EL2_TPMS) MDCR_EL2_E2PB_EL1)) ;;;
    let! v := read_sysreg me MDCR_EL3 in
    write_sysreg me MDCR_EL3 (Z.lor v MDCR_NSPB_EL1).

Definition amu_supported (me : Z) : CM bool := let! v := read_sysreg me ID_AA64PFR0_EL1 in ret (id_field v 44 =? 1).
Definition amu_enable (me : Z) (el2_unused : bool) : CM unit :=
  let! b := amu_supported me in
  if negb b then ret tt
  else
    when el2_unused
      (let! v := read_sysreg me CPTR_EL2 in
       write_sysreg me CPTR_EL2 (clear_bits v CPTR_EL2_TAM_BIT)) ;;;
    let! v := read_sysreg me CPTR_EL3 in
    write_sysreg me CPTR_EL3 (clear_bits v TAM_BIT) ;;;
    write_sysreg me AMCNTENSET0_EL0 AMU_GROUP0_COUNTERS_MASK ;;;
    write_sysreg me AMCNTENSET1_EL0 AMU_GROUP1_COUNTERS_MASK.

Definition sve_supported (me : Z) : CM bool := let! v := read_sysreg me ID_AA64PFR0_EL1 in ret (id_field v 32 =? 1).
Definition sve_enable (me : Z) (el2_unused : bool) : CM unit :=
  let! b := sve_supported me in
  if negb b then ret tt
  else
    let! cptr := read_sysreg me CPTR_EL3 in
    write_sysreg me CPTR_EL3 (Z.lor cptr CPTR_EZ_BIT) ;;;
    write_sysreg me ZCR_EL3 ZCR_LEN_MASK ;;;
    when el2_unused
      (let! cptr := read_sysreg me CPTR_EL2 in
       write_sysreg me CPTR_EL2 (clear_bits cptr CPTR_EL2_TZ_BIT) ;;;
       write_sysreg me ZCR_EL2 ZCR_LEN_MASK).
Definition disable_sve_hook (me : Z) : CM unit :=
  let! b := sve_supported me in
  if negb b then ret tt
  else
    let! cptr := read_sysreg me CPTR_EL3 in
    write_sysreg me CPTR_EL3 (clear_bits (Z.lor cptr TFP_BIT) CPTR_EZ_BIT).
Definition enable_sve_hook (me : Z) : CM unit :=
  let! b := sve_supported me in
  if negb b then ret tt
  else
    let! cptr := read_sysreg me CPTR_EL3 in
    write_sysreg me CPTR_EL3 (clear_bits (Z.lor cptr CPTR_EZ_BIT) TFP_BIT).

Definition enable_extensions_nonsecure (me : Z) (el2_unused : bool) : CM unit :=
  when ENABLE_SPE_FOR_LOWER_ELS (spe_enable me el2_unused) ;;;
  when ENABLE_AMU (amu_enable me el2_unused) ;;;
  when ENABLE_SVE_FOR_NS (sve_enable me el2_unused).

(** ** context_mgmt.c: world switches *)
Definition cm_el1_sysregs_context_save (me security_state : Z) : CM unit :=
  let! ctx := cm_get_context me security_state in
  cm_assert (bool_decide (is_Some ctx)) ;;;
  let! p := deref ctx in
  let! c := get_ctx p in
  let! cpu := get_cm_cpu me in
  put_ctx p (set_sysregs (el1_regs_in_use cpu) c) ;;;
  when (negb (security_state =? SECURE) && ENABLE_SVE_FOR_NS) (disable_sve_hook me).

Definition cm_el1_sysregs_context_restore (me security_state : Z) : CM unit :=
  let! ctx := cm_get_context me security_state in
  cm_assert (bool_decide (is_Some ctx)) ;;;
  let! p := deref ctx in
  let! c := get_ctx p in
  upd_cm_cpu me (set_el1_in_use (sysregs_ctx c)) ;;;
  when (negb (security_state =? SECURE) && ENABLE_SVE_FOR_NS) (enable_sve_hook me).

Definition cm_set_next_eret_context (me security_state : Z) : CM unit :=
  let! ctx := cm_get_context me security_state in
  cm_assert (bool_decide (is_Some ctx)) ;;;
  upd_cm_cpu me (set_next_context ctx).

(** [EL_IMPLEMENTED(2)], and the configuration of an EL2 that stays unused. *)
Definition EL_IMPLEMENTED_2 (me : Z) : CM Z := let! v := read_sysreg me ID_AA64PFR0_EL1 in ret (id_field v 8).

Definition disable_el2 (me scr_el3 : Z) : CM unit :=
  write_sysreg me HCR_EL2 (if truthy (Z.land scr_el3 SCR_RW_BIT) then HCR_RW_BIT else 0) ;;;
  write_sysreg me CPTR_EL2 (clear_bits CPTR_EL2_RESET_VAL (Z.lor (Z.lor CPTR_EL2_TCPAC_BIT CPTR_EL2_TTA_BIT) CPTR_EL2_TFP_BIT)) ;;;
  write_sysreg me CNTHCTL_EL2 (Z.lor (Z.lor CNTHCTL_RESET_VAL EL1PCEN_BIT) EL1PCTEN_BIT) ;;;
  write_sysreg me CNTVOFF_EL2 0 ;;;
  let! midr := read_sysreg me MIDR_EL1 in
  write_sysreg me VPIDR_EL2 midr ;;;
  let! mpidr := read_sysreg me MPIDR_EL1 in
  write_sysreg me VMPIDR_EL2 mpidr ;;;
  write_sysreg me VTTBR_EL2 (Z.land VTTBR_RESET_VAL
    (u64 (Z.lnot (Z.lor (Z.shiftl VTTBR_VMID_MASK VTTBR_VMID_SHIFT) (Z.shiftl VTTBR_BADDR_MASK VTTBR_BADDR_SHIFT))))) ;;;
  let! cpu := get_cm_cpu me in
  let! pmcr := deref (read_ctx_reg (el1_regs_in_use cpu) CTX_PMCR_EL0) in
  let mdcr_el2 := u32 (clear_bits (Z.lor MDCR_EL2_RESET_VAL (Z.shiftr (Z.land pmcr PMCR_EL0_N_BITS) PMCR_EL0_N_SHIFT)) MDCR_EL2_TRAP_BITS) in
  write_sysreg me MDCR_EL2 mdcr_el2 ;;;
  write_sysreg me HSTR_EL2 (clear_bits HSTR_EL2_RESET_VAL HSTR_EL2_T_MASK) ;;;
  write_sysreg me CNTHP_CTL_EL2 (clear_bits CNTHP_CTL_RESET_VAL CNTHP_CTL_ENABLE_BIT).

Definition cm_prepare_el3_exit (me security_state : Z) : CM unit :=
  let! ctx := cm_get_context me security_state in
  cm_assert (bool_decide (is_Some ctx)) ;;;
  when (security_state =? NON_SECURE)
    (let! p := deref ctx in
     let! c := get_ctx p in
     let! scr := deref (read_ctx_reg (el3state_ctx c) CTX_SCR_EL3) in
     let scr_el3 := u32 scr in
     let! el2_unused :=
       (if truthy (Z.land scr_el3 SCR_HCE_BIT) then
          let! sctlr := deref (read_ctx_reg (sysregs_ctx c) CTX_SCTLR_EL1) in
          let sctlr_elx := Z.lor (Z.land (u32 sctlr) SCTLR_EE_BIT) SCTLR_EL2_RES1 in
          write_sysreg me SCTLR_EL2 sctlr_elx ;;;
          ret false
        else
          let! el2 := EL_IMPLEMENTED_2 me in
          if truthy el2 then disable_el2 me scr_el3 ;;; ret true else ret false) in
     enable_extensions_nonsecure me el2_unused) ;;;
  cm_el1_sysregs_context_restore me security_state ;;;
  cm_set_next_eret_context me security_state.

(** ** context_mgmt.c: single registers *)
Definition with_context (me security_state : Z) (k : Z -> CM unit) : CM unit :=
  let! ctx := cm_get_context me security_state in
  cm_assert (bool_decide (is_Some ctx)) ;;;
  let! p := deref ctx in k p.

Definition cm_set_elr_el3 (me security_state entrypoint : Z) : CM unit :=
  with_context me security_state (fun p => write_el3state p CTX_ELR_EL3 entrypoint).

Definition cm_set_elr_spsr_el3 (me security_state entrypoint spsr : Z) : CM unit :=
  with_context me security_state (fun p => write_el3state p CTX_ELR_EL3 entrypoint ;;; write_el3state p CTX_SPSR_EL3 spsr).

Definition cm_get_scr_el3 (me security_state : Z) : CM Z :=
  let! ctx := cm_get_context me security_state in
  cm_assert (bool_decide (is_Some ctx)) ;;;
  let! p := deref ctx in
  let! c := get_ctx p in
  let! v := deref (read_ctx_reg (el3state_ctx c) CTX_SCR_EL3) in ret (u32 v).

Definition cm_write_scr_el3_bit (me security_state bit_pos value : Z) : CM unit :=
  with_context me security_state (fun p =>
    cm_assert (truthy (Z.land (Z.shiftl 1 bit_pos) SCR_VALID_BIT_MASK)) ;;;
    cm_assert (value <=? 1) ;;;
    let! c := get_ctx p in
    let! v := deref (read_ctx_reg (el3state_ctx c) CTX_SCR_EL3) in
    let scr_el3 := clear_bits (u32 v) (Z.shiftl 1 bit_pos) in
    let scr_el3 := Z.lor scr_el3 (u32 (Z.shiftl value bit_pos)) in
    write_el3state p CTX_SCR_EL3 scr_el3).

(** ** bl31_context_mgmt.c: the deprecated functions *)
Definition cm_get_context_by_mpidr (mpidr security_state : Z) : CM (option Z) :=
  cm_assert (sec_state_is_valid security_state) ;;;
  cm_get_context_by_index (platform_get_core_pos mpidr) security_state.
Definition cm_set_context_by_mpidr (mpidr : Z) (context : option Z) (security_state : Z) : CM unit :=
  cm_assert (sec_state_is_valid security_state) ;;;
  cm_set_context_by_index (platform_get_core_pos mpidr) context security_state.
Definition cm_init_context (me mpidr : Z) (ep : entry_point_info) : CM unit :=
  let! my := read_sysreg me MPIDR_EL1 in
  if Z.land mpidr MPIDR_AFFINITY_MASK =? Z.land my MPIDR_AFFINITY_MASK then cm_init_my_context me ep
  else cm_init_context_by_index me (platform_get_core_pos mpidr) ep.
End context_mgmt.
