(* ===== verification/El3CtxProps.v ===== *)
(** * BL31: what the next image finds when EL3 exits to it

    Programming a context from an entry point and preparing the exit always
    returns, and the state that the exception return leaves is the requested
    one: the entry specification below, for both worlds, every build option and
    every combination of implemented features. *)
From stdpp Require Import base sets list numbers option.
From Stdlib Require Import ZArith Lia.
From S2P Require Import Prelude PsciDefs PsciCommon PsciSetup IntrMgmt IntrProps El3Ctx.
#[local] Open Scope Z_scope.

(** ** The exception return (el3_exit, assembly): what it loads from the context
    SP_EL3 points to, and the registers that are in force already. *)
Record world_entry : Type := WorldEntry {
  we_scr : Z; we_spsr : Z; we_pc : Z; we_x : list Z; we_el1 : list Z; we_sys : sysreg -> Z
}.
Definition el3_exit (me : Z) (s : cm_state) : option world_entry :=
  k ← arr_get (cm_cpus s) me;
  p ← next_context k;
  c ← arr_get (ctx_mem s) p;
  scr ← read_ctx_reg (el3state_ctx c) CTX_SCR_EL3;
  spsr ← read_ctx_reg (el3state_ctx c) CTX_SPSR_EL3;
  pc ← read_ctx_reg (el3state_ctx c) CTX_ELR_EL3;
  Some (WorldEntry scr spsr pc (gpregs_ctx c) (el1_regs_in_use k) (sysreg_value k)).

Section run.
Context `{!CmCfg}.
Context (s0 : cm_state) (p me : Z).
Context (Hp : 0 <= p < Z.of_nat (length (ctx_mem s0))) (Hme : 0 <= me < Z.of_nat (length (cm_cpus s0))).

(** The states that differ from [s0] in the context [p] and the CPU [me]. *)
Definition st (c : cpu_context_t) (k : cm_cpu) : cm_state :=
  CmState (<[Z.to_nat p := c]> (ctx_mem s0)) (<[Z.to_nat me := k]> (cm_cpus s0)) (cm_intr_descs s0).

Lemma st_ctx c k : arr_get (ctx_mem (st c k)) p = Some c.
Proof. by apply arr_get_insert_eq. Qed.
Lemma st_cpu c k : arr_get (cm_cpus (st c k)) me = Some k.
Proof. by apply arr_get_insert_eq. Qed.
Lemma st_self c k : arr_get (ctx_mem s0) p = Some c -> arr_get (cm_cpus s0) me = Some k -> st c k = s0.
Proof.
  intros Hc%arr_get_lookup Hk%arr_get_lookup. unfold st. rewrite !list_insert_id by done. by destruct s0.
Qed.

Lemma run_get_ctx c k : get_ctx p (st c k) = Ret c (st c k).
Proof. unfold get_ctx, bind, gets. by rewrite st_ctx. Qed.
Lemma run_put_ctx c c' k : put_ctx p c' (st c k) = Ret tt (st c' k).
Proof.
  unfold put_ctx, bind, gets. rewrite arr_set_in_range by (cbn; by rewrite length_insert). cbn. unfold modify, st. by rewrite list_insert_insert_eq.
Qed.
Lemma run_get_cpu c k : get_cm_cpu me (st c k) = Ret k (st c k).
Proof. unfold get_cm_cpu, bind, gets. by rewrite st_cpu. Qed.
Lemma run_upd_cpu f c k : upd_cm_cpu me f (st c k) = Ret tt (st c (f k)).
Proof.
  unfold upd_cm_cpu, bind, gets. rewrite st_cpu. cbn. rewrite arr_set_in_range by (cbn; by rewrite length_insert). cbn.
  unfold modify, st, set_cm_cpus. cbn. by rewrite list_insert_insert_eq.
Qed.

Lemma run_assert b s : b = true -> cm_assert b s = Ret tt s.
Proof. intros ->. unfold cm_assert. by rewrite andb_false_r. Qed.
Lemma run_get_context ss ctx c k :
  ss <= NON_SECURE -> arr_get (cpu_context_ptr k) ss = Some ctx -> cm_get_context me ss (st c k) = Ret ctx (st c k).
Proof.
  intros Hss Hctx. unfold cm_get_context. erewrite bind_run by (apply run_assert; by apply Z.leb_le).
  erewrite bind_run by apply run_get_cpu. by rewrite Hctx.
Qed.
Lemma run_read r c k : read_sysreg me r (st c k) = Ret (sysreg_value k r) (st c k).
Proof. unfold read_sysreg. by erewrite bind_run by apply run_get_cpu. Qed.
Lemma run_write r v c k : write_sysreg me r v (st c k) = Ret tt (st c (set_sysreg r v k)).
Proof. apply run_upd_cpu. Qed.
Lemma run_el3state off v l c k : write_ctx_reg (el3state_ctx c) off v = Some l -> write_el3state p off v (st c k) = Ret tt (st (set_el3state l c) k).
Proof. intros Hl. unfold write_el3state. erewrite bind_run by apply run_get_ctx. rewrite Hl. cbn. apply run_put_ctx. Qed.
Lemma run_sysregs off v l c k : write_ctx_reg (sysregs_ctx c) off v = Some l -> write_sysregs p off v (st c k) = Ret tt (st (set_sysregs l c) k).
Proof. intros Hl. unfold write_sysregs. erewrite bind_run by apply run_get_ctx. rewrite Hl. cbn. apply run_put_ctx. Qed.
Lemma run_routing rm ss c k :
  get_scr_el3_from_routing_model CM_ASSERTIONS ss (ImState (cm_intr_descs s0) []) = Ret rm (ImState (cm_intr_descs s0) []) ->
  routing_model ss (st c k) = Ret rm (st c k).
Proof. intros Hrm. unfold routing_model. cbn. by rewrite Hrm. Qed.
End run.

(** ** The initial context of an entry point *)
Section initial.
Context `{!CmCfg}.

Definition initial_scr (scr rm : Z) (ep : entry_point_info) : Z :=
  let v := clear_bits (u32 scr) (bits [0; 10; 2; 1; 11; 8]) in
  let v := if GET_SECURITY_STATE (ei_attr ep) =? SECURE then v else Z.lor v SCR_NS_BIT in
  let v := if GET_RW (ei_spsr ep) =? MODE_RW_64 then Z.lor v SCR_RW_BIT else v in
  let v := if truthy (EP_GET_ST (ei_attr ep)) then Z.lor v SCR_ST_BIT else v in
  let v := if HANDLE_EA_EL3_FIRST then v else clear_bits v SCR_EA_BIT in
  let v := Z.lor v (u32 rm) in
  if is_hyp (ei_spsr ep) then Z.lor v SCR_HCE_BIT else v.
Definition initial_sctlr (ep : entry_point_info) : Z :=
  Z.lor (if truthy (EP_GET_EE (ei_attr ep)) then SCTLR_EE_BIT else 0)
    (if GET_RW (ei_spsr ep) =? MODE_RW_64 then SCTLR_EL1_RES1 else bits [23; 22; 11; 4; 3; 5; 16; 18]).
Definition initial_el1 (ep : entry_point_info) : list Z :=
  let l := <[2%nat := initial_sctlr ep]> (replicate CTX_SYSREG_ALL 0) in
  if GET_SECURITY_STATE (ei_attr ep) =? SECURE then <[22%nat := 0x60]> l else l.
Definition initial_context (scr rm : Z) (ep : entry_point_info) : cpu_context_t :=
  CpuContext (take 8 (ei_args ep) ++ replicate 24 0) [initial_scr scr rm ep; 0; ei_spsr ep; ei_pc ep] (initial_el1 ep) [0; 0].

Lemma sysreg_all_cases : CTX_SYSREG_ALL = 24%nat \/ CTX_SYSREG_ALL = 30%nat \/ CTX_SYSREG_ALL = 36%nat.
Proof. unfold CTX_SYSREG_ALL, CTX_SYSREGS_END, CTX_TIMER_SYSREGS_OFF. destruct NS_TIMER_SWITCH, CTX_INCLUDE_AARCH32_REGS; vm_compute; tauto. Qed.

Context (s0 : cm_state) (p me : Z).
Context (Hp : 0 <= p < Z.of_nat (length (ctx_mem s0))) (Hme : 0 <= me < Z.of_nat (length (cm_cpus s0))).
#[local] Abbreviation st := (st s0 p me).

Lemma run_sysreg_write off v l cv g e k :
  0 <= off < 0xc0 -> length l = CTX_SYSREG_ALL ->
  write_sysregs p off v (st (CpuContext g e l cv) k) = Ret tt (st (CpuContext g e (<[Z.to_nat (Z.shiftr off 3) := v]> l) cv) k).
Proof.
  intros Hoff Hl. apply run_sysregs; [done|]. unfold write_ctx_reg. apply arr_set_in_range. cbn [sysregs_ctx]. rewrite Hl.
  unfold DWORD_SHIFT. rewrite Z.shiftr_div_pow2 by lia. destruct sysreg_all_cases as [->|[->| ->]].
  all: split; [apply Z.div_pos; lia|apply Z.div_lt_upper_bound; lia].
Qed.

Lemma run_init_common ep rm c k :
  get_scr_el3_from_routing_model CM_ASSERTIONS (GET_SECURITY_STATE (ei_attr ep)) (ImState (cm_intr_descs s0) []) =
    Ret rm (ImState (cm_intr_descs s0) []) ->
  cm_init_context_common me (Some p) ep (st c k) = Ret tt (st (initial_context (sysreg_value k SCR_EL3) rm ep) k).
Proof.
  intros Hrm. unfold cm_init_context_common. erewrite bind_run by (by apply run_assert). erewrite bind_run by done.
  erewrite bind_run by (by apply run_put_ctx). erewrite bind_run by (by apply run_read). erewrite bind_run by (by eapply run_routing).
  erewrite bind_run by (apply (run_sysreg_write CTX_SCTLR_EL1); [unfold CTX_SCTLR_EL1; lia|apply length_replicate]).
  set (sct := if _ =? MODE_RW_64 then Z.lor _ SCTLR_EL1_RES1 else _).
  assert (sct = initial_sctlr ep) as -> by (unfold sct, initial_sctlr; by destruct (_ =? _)).
  assert (Hel1 : (when (GET_SECURITY_STATE (ei_attr ep) =? SECURE) (write_sysregs p CTX_PMCR_EL0
      (clear_bits (Z.lor (Z.lor PMCR_EL0_RESET_VAL PMCR_EL0_LC_BIT) PMCR_EL0_DP_BIT) (Z.lor PMCR_EL0_X_BIT PMCR_EL0_D_BIT))))
    (st (CpuContext (replicate CTX_GPREG_ALL 0) (replicate CTX_EL3STATE_ALL 0)
      (<[Z.to_nat (Z.shiftr CTX_SCTLR_EL1 3) := initial_sctlr ep]> (replicate CTX_SYSREG_ALL 0)) (replicate CTX_CVE_2018_3639_ALL 0)) k) =
    Ret tt (st (CpuContext (replicate 32 0) [0; 0; 0; 0] (initial_el1 ep) [0; 0]) k)).
  { unfold initial_el1. destruct (_ =? SECURE); [|done]. cbn [when].
    rewrite run_sysreg_write; [done|unfold CTX_PMCR_EL0; lia|by rewrite length_insert, length_replicate]. }
  erewrite bind_run by exact Hel1. do 3 (erewrite bind_run by (apply run_el3state; [done|reflexivity])).
  erewrite bind_run by (by apply run_get_ctx). rewrite run_put_ctx by done. do 2 f_equal. unfold initial_context, set_gpregs. cbn [gpregs_ctx el3state_ctx sysregs_ctx cve_2018_3639_ctx set_el3state].
  f_equal. cbn. f_equal. unfold initial_scr. by destruct (_ =? SECURE).
Qed.
End initial.

(** ** Feature extensions *)
Section extensions.
Context `{!CmCfg}.
Context (s0 : cm_state) (p me : Z).
Context (Hp : 0 <= p < Z.of_nat (length (ctx_mem s0))) (Hme : 0 <= me < Z.of_nat (length (cm_cpus s0))).
#[local] Abbreviation st := (st s0 p me).

Definition ext_regs (el2_unused : bool) : list sysreg :=
  [MDCR_EL3; CPTR_EL3; ZCR_EL3; AMCNTENSET0_EL0; AMCNTENSET1_EL0] ++ (if el2_unused then [CPTR_EL2; MDCR_EL2; ZCR_EL2] else []).

(** Enabling an extension touches its own registers only, and in those of an
    unused EL2 it adds no trap. *)
Record extended (el2_unused : bool) (k k' : cm_cpu) : Prop := {
  ex_ptr : cpu_context_ptr k' = cpu_context_ptr k;
  ex_el1 : el1_regs_in_use k' = el1_regs_in_use k;
  ex_regs : forall r, r ∉ ext_regs el2_unused -> sysreg_value k' r = sysreg_value k r;
  ex_cptr : forall i, Z.testbit (sysreg_value k' CPTR_EL2) i = true -> Z.testbit (sysreg_value k CPTR_EL2) i = true;
  ex_mdcr : forall i, i < 12 -> Z.testbit (sysreg_value k' MDCR_EL2) i = true -> Z.testbit (sysreg_value k MDCR_EL2) i = true
}.
#[global] Instance extended_preorder u : PreOrder (extended u).
Proof.
  split; [by split|]. intros k1 k2 k3 [H1 H2 H3 H4 H5] [G1 G2 G3 G4 G5]. split; try congruence; eauto.
  intros r Hr. by rewrite G3, H3.
Qed.

Lemma extended_set u k r v :
  r ∈ ext_regs u ->
  (r = CPTR_EL2 -> forall i, Z.testbit v i = true -> Z.testbit (sysreg_value k CPTR_EL2) i = true) ->
  (r = MDCR_EL2 -> forall i, i < 12 -> Z.testbit v i = true -> Z.testbit (sysreg_value k MDCR_EL2) i = true) ->
  extended u k (set_sysreg r v k).
Proof.
  intros Hr Hc Hm. split; [done|done| | |]; cbn.
  - intros x Hx. by rewrite decide_False by (intros ->; done).
  - intros i. destruct (decide (CPTR_EL2 = r)) as [<-|]; [by apply Hc|done].
  - intros i. destruct (decide (MDCR_EL2 = r)) as [<-|]; [by apply Hm|done].
Qed.

Definition ext_run (u : bool) (m : M cm_state unit) (c : cpu_context_t) (k : cm_cpu) : Prop :=
  exists k', m (st c k) = Ret tt (st c k') /\ extended u k k'.
Lemma ext_ret u c k : ext_run u (ret tt) c k.
Proof. by exists k. Qed.
Lemma ext_read u r f c k : ext_run u (f (sysreg_value k r)) c k -> ext_run u (let! v := read_sysreg me r in f v) c k.
Proof. intros (k' & Hr & He). exists k'. split; [|done]. by erewrite bind_run by (by apply run_read). Qed.
Lemma ext_seq u m m' c k : ext_run u m c k -> (forall k', ext_run u m' c k') -> ext_run u (m ;;; m') c k.
Proof.
  intros (k1 & Hr & He) Hm. destruct (Hm k1) as (k2 & Hr2 & He2). exists k2. split; [by erewrite bind_run by exact Hr|by etransitivity].
Qed.
Lemma ext_write u r v c k : extended u k (set_sysreg r v k) -> ext_run u (write_sysreg me r v) c k.
Proof. intros He. exists (set_sysreg r v k). split; [by apply run_write|done]. Qed.

Lemma clear_bits_sub x mask i : Z.testbit (clear_bits x mask) i = true -> Z.testbit x i = true.
Proof. unfold clear_bits. rewrite Z.land_spec. by intros [? _]%andb_true_iff. Qed.

Ltac ext_auto :=
  match goal with
  | |- ext_run _ (bind (read_sysreg _ _) _) _ _ => apply ext_read; ext_auto
  | |- ext_run _ (bind _ _) _ _ => apply ext_seq; [ext_auto|intros ?; ext_auto]
  | |- ext_run _ (ret tt) _ _ => apply ext_ret
  | |- ext_run _ (when ?b _) _ _ => destruct b eqn:?; cbn [when]; ext_auto
  | |- ext_run _ (if ?b then _ else _) _ _ => destruct b; ext_auto
  | |- ext_run _ (write_sysreg _ _ _) _ _ => apply ext_write, extended_set; [cbn; set_solver|try done..]
  | _ => idtac
  end.

Lemma ext_supported u (m : M cm_state bool) (f : bool -> M cm_state unit) c k b :
  m (st c k) = Ret b (st c k) -> ext_run u (f b) c k -> ext_run u (bind m f) c k.
Proof. intros Hr (k' & Hf & He). exists k'. split; [by erewrite bind_run by exact Hr|done]. Qed.

Lemma spe_extends u c k : ext_run u (spe_enable me u) c k.
Proof.
  unfold spe_enable. eapply ext_supported; [unfold spe_supported; by erewrite bind_run by (by apply run_read)|]. ext_auto.
  intros _ i Hi. rewrite Z.lor_spec. intros [Hb|Hb]%orb_true_iff; [by eapply clear_bits_sub|]. exfalso.
  unfold MDCR_EL2_E2PB_EL1 in Hb. destruct (Z.ltb_spec i 0); [by rewrite Z.testbit_neg_r in Hb|].
  rewrite Z.shiftl_spec_low in Hb by lia. done.
Qed.
Lemma amu_extends u c k : ext_run u (amu_enable me u) c k.
Proof.
  unfold amu_enable. eapply ext_supported; [unfold amu_supported; by erewrite bind_run by (by apply run_read)|]. ext_auto.
  all: subst; try done. intros _ i. apply clear_bits_sub.
Qed.
Lemma sve_extends u c k : ext_run u (sve_enable me u) c k.
Proof.
  unfold sve_enable. eapply ext_supported; [unfold sve_supported; by erewrite bind_run by (by apply run_read)|]. ext_auto.
  all: subst; try done. intros _ i. apply clear_bits_sub.
Qed.
Lemma sve_hook_extends u c k : ext_run u (enable_sve_hook me) c k.
Proof.
  unfold enable_sve_hook. eapply ext_supported; [unfold sve_supported; by erewrite bind_run by (by apply run_read)|]. ext_auto.
Qed.
Lemma extensions_extend u c k : ext_run u (enable_extensions_nonsecure me u) c k.
Proof.
  pose proof spe_extends. pose proof amu_extends. pose proof sve_extends. unfold enable_extensions_nonsecure. ext_auto; auto.
Qed.
End extensions.

(** ** The exit *)

(** EL2 is present and not used: it neither traps nor translates anything of
    the normal world, and the identification registers show the real CPU. *)
Record neutral_el2 (aarch64 : bool) (v : sysreg -> Z) : Prop := {
  ne_hcr : v HCR_EL2 = if aarch64 then 2 ^ 31 else 0;
  ne_cptr : forall i, i ∈ [31; 20; 10] -> Z.testbit (v CPTR_EL2) i = false;
  ne_mdcr : forall i, 5 <= i < 12 -> Z.testbit (v MDCR_EL2) i = false;
  ne_timer : v CNTHCTL_EL2 = 3 /\ v CNTVOFF_EL2 = 0 /\ v CNTHP_CTL_EL2 = 0;
  ne_ids : v VPIDR_EL2 = v MIDR_EL1 /\ v VMPIDR_EL2 = v MPIDR_EL1;
  ne_stage2 : v VTTBR_EL2 = 0 /\ v HSTR_EL2 = 0
}.

Definition el2_regs : list sysreg :=
  [SCTLR_EL2; HCR_EL2; CPTR_EL2; CNTHCTL_EL2; CNTVOFF_EL2; VPIDR_EL2; VMPIDR_EL2; VTTBR_EL2; MDCR_EL2; HSTR_EL2; CNTHP_CTL_EL2].

Lemma clear_bits_at x mask i : 0 <= mask < 2 ^ 32 -> 0 <= i -> Z.testbit (clear_bits x mask) i = Z.testbit x i && (i <? 32) && negb (Z.testbit mask i).
Proof.
  intros Hm Hi. unfold clear_bits, u32. rewrite Z.land_spec. destruct (Z.ltb_spec i 32).
  - rewrite Z.mod_pow2_bits_low, Z.lnot_spec by lia. by rewrite andb_true_r.
  - rewrite Z.mod_pow2_bits_high by lia. by rewrite !andb_false_r.
Qed.

Lemma mdcr_no_traps x i : 5 <= i < 12 -> Z.testbit (u32 (clear_bits x MDCR_EL2_TRAP_BITS)) i = false.
Proof.
  intros Hi. unfold u32. rewrite Z.mod_pow2_bits_low by lia. rewrite clear_bits_at by (done || lia).
  assert (Z.testbit MDCR_EL2_TRAP_BITS i = true) as ->; [|apply andb_false_r].
  assert (i = 5 \/ i = 6 \/ i = 7 \/ i = 8 \/ i = 9 \/ i = 10 \/ i = 11) as [->|[->|[->|[->|[->|[->| ->]]]]]] by lia; done.
Qed.

Lemma ee_mask v : Z.land (u32 v) SCTLR_EE_BIT = if Z.testbit v 25 then SCTLR_EE_BIT else 0.
Proof.
  change SCTLR_EE_BIT with (2 ^ 25). apply Z.bits_inj'. intros i Hi. rewrite Z.land_spec.
  assert (Hb : Z.testbit (if Z.testbit v 25 then 2 ^ 25 else 0) i = Z.testbit v 25 && Z.testbit (2 ^ 25) i).
  { destruct (Z.testbit v 25); [done|by rewrite Z.testbit_0_l]. }
  rewrite Hb. destruct (Z.eq_dec 25 i) as [<-|Hne]; [|by rewrite Z.pow2_bits_false, !andb_false_r by done].
  unfold u32. by rewrite Z.mod_pow2_bits_low by lia.
Qed.

Section exit.
Context `{!CmCfg}.
Context (s0 : cm_state) (p me : Z).
Context (Hp : 0 <= p < Z.of_nat (length (ctx_mem s0))) (Hme : 0 <= me < Z.of_nat (length (cm_cpus s0))).
#[local] Abbreviation st := (st s0 p me).

Lemma extended_weaken k k' : extended false k k' -> extended true k k'.
Proof.
  intros [H1 H2 H3 H4 H5]. split; [done..| |done|done]. intros r Hr. apply H3. intros Hin. apply Hr. unfold ext_regs in *.
  rewrite elem_of_app. left. by rewrite app_nil_r in Hin.
Qed.
Lemma extended_neutral rw k k' : extended true k k' -> neutral_el2 rw (sysreg_value k) -> neutral_el2 rw (sysreg_value k').
Proof.
  intros [_ _ Hr Hc Hm] [N1 N2 N3 N4 N5 N6].
  assert (Hk : forall r, bool_decide (r ∈ ext_regs true) = false -> sysreg_value k' r = sysreg_value k r) by (intros r Hb%bool_decide_eq_false; auto).
  split; [by rewrite Hk| | |by rewrite !Hk..].
  - intros i Hi. destruct (Z.testbit (sysreg_value k' CPTR_EL2) i) eqn:E; [|done]. apply Hc in E. by rewrite N2 in E.
  - intros i Hi. destruct (Z.testbit (sysreg_value k' MDCR_EL2) i) eqn:E; [|done]. apply Hm in E; [|lia]. by rewrite N3 in E.
Qed.

Lemma run_disable_el2 scr c k : length (el1_regs_in_use k) = CTX_SYSREG_ALL ->
  exists k', disable_el2 me scr (st c k) = Ret tt (st c k') /\ neutral_el2 (truthy (Z.land scr SCR_RW_BIT)) (sysreg_value k') /\
    cpu_context_ptr k' = cpu_context_ptr k /\ (forall r, r ∉ el2_regs -> sysreg_value k' r = sysreg_value k r).
Proof.
  intros Hl. unfold disable_el2. do 4 (erewrite bind_run by (by apply run_write)).
  erewrite bind_run by (by apply run_read). erewrite bind_run by (by apply run_write).
  erewrite bind_run by (by apply run_read). do 2 (erewrite bind_run by (by apply run_write)). erewrite bind_run by (by apply run_get_cpu).
  destruct (arr_get_in_range (el1_regs_in_use k) 22) as [pmcr Hpm]; [rewrite Hl; destruct sysreg_all_cases as [->|[->| ->]]; lia|].
  assert (Hrd : read_ctx_reg (el1_regs_in_use k) CTX_PMCR_EL0 = Some pmcr) by exact Hpm.
  erewrite bind_run by (cbn [el1_regs_in_use set_sysreg]; rewrite Hrd; reflexivity). do 2 (erewrite bind_run by (by apply run_write)).
  eexists. split; [by apply run_write|]. split_and!; [|done|].
  - split; cbn; try done.
    + intros i Hi. assert (i = 31 \/ i = 20 \/ i = 10) as [->|[->| ->]] by (rewrite !elem_of_cons in Hi; destruct Hi as [|[|[|Hi]]]; [tauto..|by apply elem_of_nil in Hi]); done.
    + intros i Hi. by apply mdcr_no_traps.
  - intros r Hr. unfold el2_regs in Hr. rewrite !not_elem_of_cons in Hr. destruct_and! Hr. cbn. by rewrite !decide_False by done.
Qed.

(** What becomes of the EL2 registers. *)
Definition el2_after (hyp aarch64 big : bool) (v v' : sysreg -> Z) : Prop :=
  if hyp then v' SCTLR_EL2 = Z.lor (if big then SCTLR_EE_BIT else 0) SCTLR_EL2_RES1 /\ (forall r, r <> SCTLR_EL2 -> r ∉ ext_regs false -> v' r = v r)
  else if truthy (id_field (v ID_AA64PFR0_EL1) 8) then neutral_el2 aarch64 v' /\ (forall r, r ∉ el2_regs ++ ext_regs true -> v' r = v r)
  else forall r, r ∉ ext_regs false -> v' r = v r.

Lemma run_restore ss c k :
  0 <= ss <= NON_SECURE -> arr_get (cpu_context_ptr k) ss = Some (Some p) ->
  exists k', cm_el1_sysregs_context_restore me ss (st c k) = Ret tt (st c k') /\ extended false (set_el1_in_use (sysregs_ctx c) k) k' /\
    (ss = SECURE -> k' = set_el1_in_use (sysregs_ctx c) k).
Proof.
  intros Hss Hctx. unfold cm_el1_sysregs_context_restore. erewrite bind_run by (apply run_get_context; [done|lia|exact Hctx]).
  erewrite bind_run by (by apply run_assert). erewrite bind_run by done. erewrite bind_run by (by apply run_get_ctx).
  erewrite bind_run by (by apply run_upd_cpu). destruct (negb (ss =? SECURE) && ENABLE_SVE_FOR_NS) eqn:E; cbn [when].
  - destruct (sve_hook_extends s0 p me Hp Hme false c (set_el1_in_use (sysregs_ctx c) k)) as (k' & Hr & He). exists k'. split_and!; [done|done|].
    intros ->. done.
  - eexists. split_and!; [done|done|done].
Qed.

Lemma run_next_eret ss c k :
  0 <= ss <= NON_SECURE -> arr_get (cpu_context_ptr k) ss = Some (Some p) ->
  cm_set_next_eret_context me ss (st c k) = Ret tt (st c (set_next_context (Some p) k)).
Proof.
  intros Hss Hctx. unfold cm_set_next_eret_context. erewrite bind_run by (apply run_get_context; [done|lia|exact Hctx]).
  erewrite bind_run by (by apply run_assert). by apply run_upd_cpu.
Qed.

Lemma run_prepare_ns g scr a b d el1 cv k sctlr :
  arr_get (cpu_context_ptr k) NON_SECURE = Some (Some p) -> length (el1_regs_in_use k) = CTX_SYSREG_ALL ->
  read_ctx_reg el1 CTX_SCTLR_EL1 = Some sctlr ->
  exists k', cm_prepare_el3_exit me NON_SECURE (st (CpuContext g [scr; a; b; d] el1 cv) k) =
      Ret tt (st (CpuContext g [scr; a; b; d] el1 cv) k') /\
    next_context k' = Some p /\ el1_regs_in_use k' = el1 /\ cpu_context_ptr k' = cpu_context_ptr k /\
    el2_after (truthy (Z.land (u32 scr) SCR_HCE_BIT)) (truthy (Z.land (u32 scr) SCR_RW_BIT)) (Z.testbit sctlr 25) (sysreg_value k) (sysreg_value k').
Proof.
  intros Hctx Hlen Hsct. unfold cm_prepare_el3_exit. set (c := CpuContext g [scr; a; b; d] el1 cv).
  erewrite bind_run by (apply run_get_context; [done|done|exact Hctx]). erewrite bind_run by (by apply run_assert).
  cbn [when Z.eqb NON_SECURE Pos.eqb].
  match goal with |- context [bind ?m _ (st c k)] => assert (Hm : exists k1, m (st c k) = Ret tt (st c k1) /\ cpu_context_ptr k1 = cpu_context_ptr k /\
    el2_after (truthy (Z.land (u32 scr) SCR_HCE_BIT)) (truthy (Z.land (u32 scr) SCR_RW_BIT)) (Z.testbit sctlr 25) (sysreg_value k) (sysreg_value k1)) end.
  { erewrite bind_run by done. erewrite bind_run by (by apply run_get_ctx). erewrite bind_run by done. unfold el2_after.
    destruct (truthy (Z.land (u32 scr) SCR_HCE_BIT)) eqn:Ehce; [|destruct (truthy (id_field (sysreg_value k ID_AA64PFR0_EL1) 8)) eqn:E2].
    - set (v := Z.lor (Z.land (u32 sctlr) SCTLR_EE_BIT) SCTLR_EL2_RES1).
      destruct (extensions_extend s0 p me Hp Hme false c (set_sysreg SCTLR_EL2 v k)) as (k1 & Hr & [Hptr _ Hreg _ _]). exists k1. split_and!; [|done| |].
      + erewrite (bind_run _ _ (st c k)); [exact Hr|]. erewrite bind_run by (cbn [sysregs_ctx c]; rewrite Hsct; reflexivity).
        erewrite bind_run by (by apply run_write). done.
      + rewrite Hreg by (by apply (bool_decide_unpack _)). change (v = Z.lor (if Z.testbit sctlr 25 then SCTLR_EE_BIT else 0) SCTLR_EL2_RES1). unfold v. by rewrite ee_mask.
      + intros r Hne Hr0. rewrite Hreg by done. cbn. by rewrite decide_False.
    - destruct (run_disable_el2 (u32 scr) c k Hlen) as (k1 & Hr1 & Hn & Hptr & Hsame).
      destruct (extensions_extend s0 p me Hp Hme true c k1) as (k2 & Hr2 & He). exists k2. pose proof He as [Hptr2 _ Hreg _ _]. split_and!.
      + erewrite (bind_run _ _ (st c k)); [exact Hr2|]. unfold EL_IMPLEMENTED_2. erewrite bind_run by (by erewrite bind_run by (by apply run_read)).
        rewrite E2. by erewrite bind_run by exact Hr1.
      + congruence.
      + by eapply extended_neutral.
      + intros r Hr0. rewrite not_elem_of_app in Hr0. destruct Hr0. rewrite Hreg by done. by apply Hsame.
    - destruct (extensions_extend s0 p me Hp Hme false c k) as (k2 & Hr2 & [Hptr _ Hreg _ _]). exists k2. split_and!; [|done|done].
      erewrite (bind_run _ _ (st c k)); [exact Hr2|]. unfold EL_IMPLEMENTED_2. erewrite bind_run by (by erewrite bind_run by (by apply run_read)).
      by rewrite E2. }
  destruct Hm as (k1 & Hr1 & Hptr1 & Hel2). erewrite bind_run by exact Hr1.
  destruct (run_restore NON_SECURE c k1) as (k2 & Hr2 & He2 & _); [done|by rewrite Hptr1|]. pose proof He2 as [Hptr2 Hel1 Hreg _ _]. erewrite bind_run by exact Hr2.
  exists (set_next_context (Some p) k2). split_and!; [|done|exact Hel1|etransitivity; [exact Hptr2|exact Hptr1]|].
  - apply run_next_eret; [done|]. rewrite Hptr2. cbn. by rewrite Hptr1.
  - assert (Hk : forall r, r ∉ ext_regs false -> sysreg_value k2 r = sysreg_value k1 r) by (intros r Hr; by rewrite Hreg).
    cbn [sysreg_value set_next_context]. unfold el2_after in *. destruct (truthy (Z.land (u32 scr) SCR_HCE_BIT)).
    + destruct Hel2 as [Hs Hrest]. split; [by rewrite Hk by (by apply (bool_decide_unpack _))|]. intros r Hne Hr. by rewrite Hk, Hrest.
    + destruct (truthy (id_field _ 8)); [|intros r Hr; by rewrite Hk, Hel2]. destruct Hel2 as [Hn Hrest]. split.
      * apply (extended_neutral _ (set_el1_in_use (sysregs_ctx c) k1)); [by apply extended_weaken|exact Hn].
      * intros r Hr. rewrite Hk; [by apply Hrest|]. intros Hin. apply Hr. rewrite elem_of_app. right. unfold ext_regs in *. rewrite elem_of_app. left. by rewrite app_nil_r in Hin.
Qed.
End exit.

(** ** The entry specification *)
Lemma testbit_one n i : 0 <= n -> Z.testbit (Z.shiftl 1 n) i = (i =? n).
Proof. intros Hn. rewrite Z.shiftl_1_l, Z.pow2_bits_eqb by done. apply Z.eqb_sym. Qed.
Lemma bits_testbit l i : Forall (fun n => 0 <= n) l -> Z.testbit (bits l) i = existsb (Z.eqb i) l.
Proof.
  induction 1 as [|n l Hn _ IH]; [apply Z.testbit_0_l|]. change (bits (n :: l)) with (Z.lor (Z.shiftl 1 n) (bits l)). cbn [existsb].
  by rewrite Z.lor_spec, testbit_one, IH.
Qed.

Section entry.
Context `{!CmCfg}.

(** The bits of SCR_EL3 for an entry point: [scr] is the register at the time,
    [rm] what the interrupt routing asks for. *)
Definition scr_spec (scr rm : Z) (ep : entry_point_info) (i : Z) : bool :=
  if i =? 0 then negb (GET_SECURITY_STATE (ei_attr ep) =? SECURE)
  else if i =? 10 then GET_RW (ei_spsr ep) =? MODE_RW_64
  else if i =? 11 then truthy (EP_GET_ST (ei_attr ep))
  else if i =? 8 then is_hyp (ei_spsr ep)
  else if i =? 3 then HANDLE_EA_EL3_FIRST && Z.testbit scr 3
  else if (i =? 1) || (i =? 2) then Z.testbit rm i
  else (i <? 32) && Z.testbit scr i.

Lemma initial_scr_bits scr rm ep i : Z.land rm 6 = rm -> 0 <= i -> Z.testbit (initial_scr scr rm ep) i = scr_spec scr rm ep i.
Proof.
  intros Hrm Hi.
  assert (Hu : Z.testbit (u32 rm) i = ((i =? 1) || (i =? 2)) && Z.testbit rm i).
  { assert (Hr : Z.testbit rm i = ((i =? 1) || (i =? 2)) && Z.testbit rm i).
    { rewrite <- Hrm at 1. rewrite Z.land_spec, andb_comm. f_equal. change 6 with (bits [1; 2]).
      rewrite bits_testbit by (repeat constructor; lia). cbn. by rewrite orb_false_r. }
    unfold u32. destruct (Z.ltb_spec i 32); [by rewrite Z.mod_pow2_bits_low by lia|]. rewrite Z.mod_pow2_bits_high by lia.
    by rewrite !(proj2 (Z.eqb_neq i _)) by lia. }
  assert (Hs : Z.testbit (u32 scr) i = (i <? 32) && Z.testbit scr i).
  { unfold u32. destruct (Z.ltb_spec i 32); [by rewrite Z.mod_pow2_bits_low by lia|by rewrite Z.mod_pow2_bits_high by lia]. }
  assert (Hif : forall (b : bool) x y, Z.testbit (if b then x else y) i = if b then Z.testbit x i else Z.testbit y i) by (by intros []).
  unfold initial_scr, scr_spec. cbv zeta. unfold SCR_NS_BIT, SCR_RW_BIT, SCR_ST_BIT, SCR_EA_BIT, SCR_HCE_BIT.
  repeat first [rewrite Hif | rewrite Z.lor_spec | rewrite clear_bits_at by (done || lia) | rewrite testbit_one by lia].
  rewrite bits_testbit by (repeat constructor; lia). rewrite Hu, Hs. cbn [existsb].
  destruct (Z.eqb_spec i 0) as [->|]; [|destruct (Z.eqb_spec i 10) as [->|]; [|destruct (Z.eqb_spec i 11) as [->|]; [|destruct (Z.eqb_spec i 8) as [->|];
    [|destruct (Z.eqb_spec i 3) as [->|]; [|destruct (Z.eqb_spec i 1) as [->|]; [|destruct (Z.eqb_spec i 2) as [->|]]]]]]].
  all: cbn [orb andb negb]; destruct HANDLE_EA_EL3_FIRST, (is_hyp _), (truthy _), (GET_RW _ =? _), (GET_SECURITY_STATE _ =? _);
    cbn -[Z.testbit Z.ltb]; rewrite ?andb_true_r, ?andb_false_r, ?orb_false_r, ?orb_true_r; try done.
  all: by destruct (i <? 32), (Z.testbit scr i).
Qed.

(** The system registers of the entered world: nothing changes for the secure
    world; for the normal world EL2 is initialised or neutral. *)
Definition sys_spec (v : sysreg -> Z) (ep : entry_point_info) (v' : sysreg -> Z) : Prop :=
  if GET_SECURITY_STATE (ei_attr ep) =? SECURE then forall r, v' r = v r
  else el2_after (is_hyp (ei_spsr ep)) (GET_RW (ei_spsr ep) =? MODE_RW_64) (truthy (EP_GET_EE (ei_attr ep))) v v'.

Record entered (scr rm : Z) (v : sysreg -> Z) (ep : entry_point_info) (e : world_entry) : Prop := {
  en_pc : we_pc e = ei_pc ep;
  en_spsr : we_spsr e = ei_spsr ep;
  en_x : we_x e = ei_args ep ++ replicate 24 0;
  en_scr : forall i, 0 <= i -> Z.testbit (we_scr e) i = scr_spec scr rm ep i;
  en_sctlr : exists w, we_el1 e !! 2%nat = Some w /\ Z.testbit w 25 = truthy (EP_GET_EE (ei_attr ep)) /\
    Z.testbit w 0 = false /\ Z.testbit w 2 = false /\ Z.testbit w 12 = false;
  en_el1 : forall i w, we_el1 e !! i = Some w -> i <> 2%nat -> (GET_SECURITY_STATE (ei_attr ep) =? SECURE) = false \/ i <> 22%nat -> w = 0;
  en_sys : sys_spec v ep (we_sys e)
}.
End entry.

Section theorem.
Context `{!CmCfg}.

(** The interrupt table: three types, two security states, and no bits but
    those of the IRQ and FIQ lines. *)
Record intr_ok (ds : list intr_type_desc_t) : Prop := {
  io_types : length ds = 3%nat;
  io_lines : Forall (fun d => length (scr_el3 d) = 2%nat /\ Forall (fun v => Z.land v 6 = v) (scr_el3 d)) ds
}.

Lemma intr_routing ds ss : intr_ok ds -> ss = SECURE \/ ss = NON_SECURE ->
  exists rm, get_scr_el3_from_routing_model CM_ASSERTIONS ss (ImState ds []) = Ret rm (ImState ds []) /\ Z.land rm 6 = rm.
Proof.
  intros [Hlen Hl] Hss. destruct ds as [|d0 [|d1 [|d2 [|]]]]; try done.
  assert (Hget : forall d, d ∈ [d0; d1; d2] -> exists x, arr_get (scr_el3 d) ss = Some x /\ Z.land x 6 = x).
  { intros d Hd. destruct (proj1 (list.Forall_forall _ _) Hl d Hd) as [Hn Hv].
    destruct (arr_get_in_range (scr_el3 d) ss) as [x Hx]; [rewrite Hn; unfold SECURE, NON_SECURE in Hss; lia|].
    exists x. split; [done|]. apply arr_get_lookup in Hx. by eapply (Forall_lookup_1 _ _ _ _ Hv). }
  destruct (Hget d0) as (a & Ha & Hxa); [set_solver|]. destruct (Hget d1) as (b & Hb & Hxb); [set_solver|].
  destruct (Hget d2) as (c & Hc & Hxc); [set_solver|]. eexists. split; [by eapply get_scr_run|].
  by rewrite !Z.land_lor_distr_l, Hxa, Hxb, Hxc.
Qed.

Lemma security_cases attr : GET_SECURITY_STATE attr = SECURE \/ GET_SECURITY_STATE attr = NON_SECURE.
Proof.
  unfold GET_SECURITY_STATE, SECURE, NON_SECURE. assert (Z.land attr 1 = attr mod 2) as -> by (apply (Z.land_ones attr 1); lia).
  pose proof (Z.mod_pos_bound attr 2). lia.
Qed.

Lemma initial_sctlr_bits ep i : 0 <= i -> Z.testbit (initial_sctlr ep) i =
  (truthy (EP_GET_EE (ei_attr ep)) && (i =? 25)) ||
  existsb (Z.eqb i) (if GET_RW (ei_spsr ep) =? MODE_RW_64 then [29; 28; 23; 22; 20; 11] else [23; 22; 11; 4; 3; 5; 16; 18]).
Proof.
  intros Hi. unfold initial_sctlr. rewrite Z.lor_spec. f_equal.
  - destruct (truthy _); [|by rewrite Z.testbit_0_l]. change SCTLR_EE_BIT with (Z.shiftl 1 25). by rewrite testbit_one by lia.
  - destruct (_ =? _); unfold SCTLR_EL1_RES1; apply bits_testbit; repeat constructor; lia.
Qed.
Lemma initial_el1_length ep : length (initial_el1 ep) = CTX_SYSREG_ALL.
Proof. unfold initial_el1. destruct (_ =? _); by rewrite !length_insert, length_replicate. Qed.
Lemma initial_el1_sctlr ep : initial_el1 ep !! 2%nat = Some (initial_sctlr ep).
Proof.
  unfold initial_el1. assert (2 < CTX_SYSREG_ALL)%nat by (destruct sysreg_all_cases as [->|[->| ->]]; lia).
  destruct (_ =? _); [rewrite list_lookup_insert_ne by lia|]; by rewrite list_lookup_insert_eq by (by rewrite length_replicate).
Qed.
Lemma initial_el1_zero ep i w : initial_el1 ep !! i = Some w -> i <> 2%nat ->
  (GET_SECURITY_STATE (ei_attr ep) =? SECURE) = false \/ i <> 22%nat -> w = 0.
Proof.
  intros Hi Hne Hor. unfold initial_el1 in Hi.
  assert (Hz : replicate CTX_SYSREG_ALL 0 !! i = Some w -> w = 0) by (by intros [? _]%lookup_replicate).
  destruct (_ =? _); [destruct Hor as [|Hor]; [done|]; rewrite list_lookup_insert_ne in Hi by done|]; rewrite list_lookup_insert_ne in Hi by done; auto.
Qed.

Lemma truthy_bit v n : 0 <= n -> truthy (Z.land v (Z.shiftl 1 n)) = Z.testbit v n.
Proof.
  intros Hn. unfold truthy. rewrite Z.shiftl_1_l. destruct (Z.testbit v n) eqn:E.
  - apply negb_true_iff, Z.eqb_neq. intros Hz. apply (f_equal (fun x => Z.testbit x n)) in Hz.
    rewrite Z.land_spec, Z.pow2_bits_true, E, Z.testbit_0_l in Hz by done. done.
  - apply negb_false_iff, Z.eqb_eq. apply Z.bits_inj'. intros i Hi. rewrite Z.land_spec, Z.testbit_0_l.
    destruct (Z.eq_dec n i) as [<-|]; [by rewrite E|]. by rewrite Z.pow2_bits_false, andb_false_r by done.
Qed.
(** Nothing but one context and one CPU changes. *)
Definition only_changes (p me : Z) (s s' : cm_state) : Prop :=
  (forall q, q <> p -> arr_get (ctx_mem s') q = arr_get (ctx_mem s) q) /\
  (forall j, j <> me -> arr_get (cm_cpus s') j = arr_get (cm_cpus s) j) /\ cm_intr_descs s' = cm_intr_descs s.

Lemma st_only s p me c k : 0 <= p < Z.of_nat (length (ctx_mem s)) -> 0 <= me < Z.of_nat (length (cm_cpus s)) -> only_changes p me s (st s p me c k).
Proof. intros Hp Hme. split_and!; [| |done]; intros; apply arr_get_insert_ne; lia. Qed.

Lemma prepare_enters s me p k scr rm ep :
  arr_get (ctx_mem s) p = Some (initial_context scr rm ep) -> arr_get (cm_cpus s) me = Some k ->
  arr_get (cpu_context_ptr k) (GET_SECURITY_STATE (ei_attr ep)) = Some (Some p) -> length (el1_regs_in_use k) = CTX_SYSREG_ALL ->
  Z.land rm 6 = rm -> length (ei_args ep) = 8%nat ->
  exists s' e, cm_prepare_el3_exit me (GET_SECURITY_STATE (ei_attr ep)) s = Ret tt s' /\ el3_exit me s' = Some e /\
    entered scr rm (sysreg_value k) ep e /\ only_changes p me s s'.
Proof.
  intros Hc Hk Hptr Hlen Hrm Hargs. pose proof (arr_get_Some_range _ _ _ Hc) as Hp. pose proof (arr_get_Some_range _ _ _ Hk) as Hme.
  set (c := initial_context scr rm ep). cut (exists k', cm_prepare_el3_exit me (GET_SECURITY_STATE (ei_attr ep)) (st s p me c k) = Ret tt (st s p me c k') /\
    next_context k' = Some p /\ el1_regs_in_use k' = sysregs_ctx c /\ sys_spec (sysreg_value k) ep (sysreg_value k')).
  { intros (k' & Hrun & Hnext & Hel1 & Hsys). rewrite (st_self s p me Hp Hme c k Hc Hk) in Hrun.
    exists (st s p me c k'), (WorldEntry (initial_scr scr rm ep) (ei_spsr ep) (ei_pc ep) (gpregs_ctx c) (initial_el1 ep) (sysreg_value k')).
    split_and!; [done| | |by apply st_only].
    - unfold el3_exit. rewrite st_cpu by done. cbn [mbind option_bind]. rewrite Hnext. cbn [mbind option_bind]. rewrite st_ctx by done. cbn. by rewrite Hel1.
    - split; cbn [we_pc we_spsr we_x we_scr we_el1 we_sys]; [done|done| | | |by intros; eapply initial_el1_zero|done].
      + unfold c. cbn [gpregs_ctx initial_context]. by rewrite <- Hargs, firstn_all.
      + intros i Hi. by apply initial_scr_bits.
      + exists (initial_sctlr ep). rewrite initial_el1_sctlr. split; [done|]. rewrite !initial_sctlr_bits by lia.
        destruct (truthy _), (GET_RW _ =? _); done. }
  destruct (security_cases (ei_attr ep)) as [Hss|Hss]; rewrite Hss in *.
  - unfold cm_prepare_el3_exit. erewrite bind_run by (apply run_get_context; [done|done|exact Hptr]). erewrite bind_run by (by apply run_assert).
    erewrite bind_run by done. destruct (run_restore s p me Hp Hme SECURE c k) as (k1 & Hr1 & _ & Hk1); [done|done|]. erewrite bind_run by exact Hr1.
    rewrite (Hk1 eq_refl). eexists. split_and!; [by apply run_next_eret|done|done|]. unfold sys_spec. by rewrite Hss.
  - destruct (run_prepare_ns s p me Hp Hme (gpregs_ctx c) (initial_scr scr rm ep) 0 (ei_spsr ep) (ei_pc ep) (initial_el1 ep) [0; 0] k (initial_sctlr ep))
      as (k' & Hr & Hn & He & _ & Hel2); [done|done|exact (initial_el1_sctlr ep)|].
    exists k'. split_and!; [done|done|done|]. unfold sys_spec. rewrite Hss. cbn [Z.eqb NON_SECURE SECURE].
    assert (Hbit : forall n, 0 <= n < 32 -> truthy (Z.land (u32 (initial_scr scr rm ep)) (Z.shiftl 1 n)) = scr_spec scr rm ep n).
    { intros n Hn'. rewrite truthy_bit by lia. unfold u32. rewrite Z.mod_pow2_bits_low by lia. by apply initial_scr_bits; [|lia]. }
    unfold SCR_HCE_BIT, SCR_RW_BIT in Hel2. rewrite !Hbit in Hel2 by lia. rewrite initial_sctlr_bits in Hel2 by lia.
    replace ((truthy (EP_GET_EE (ei_attr ep)) && (25 =? 25)) || _) with (truthy (EP_GET_EE (ei_attr ep))) in Hel2; [exact Hel2|].
    by destruct (truthy _), (GET_RW _ =? _).
Qed.

Definition enter_world (me : Z) (ep : entry_point_info) : M cm_state unit :=
  cm_init_my_context me ep ;;; cm_prepare_el3_exit me (GET_SECURITY_STATE (ei_attr ep)).

Lemma init_my_context_run s me ep k p : arr_get (cm_cpus s) me = Some k ->
  arr_get (cpu_context_ptr k) (GET_SECURITY_STATE (ei_attr ep)) = Some (Some p) -> 0 <= p < Z.of_nat (length (ctx_mem s)) -> intr_ok (cm_intr_descs s) ->
  exists rm, routing_model (GET_SECURITY_STATE (ei_attr ep)) s = Ret rm s /\ Z.land rm 6 = rm /\
    cm_init_my_context me ep s = Ret tt (st s p me (initial_context (sysreg_value k SCR_EL3) rm ep) k).
Proof.
  intros Hk Hptr Hp Hin. pose proof (arr_get_Some_range _ _ _ Hk) as Hme.
  destruct (intr_routing _ _ Hin (security_cases (ei_attr ep))) as (rm & Hrm & H6). exists rm.
  destruct (arr_get_in_range (ctx_mem s) p Hp) as [c Hc]. split_and!; [unfold routing_model; by rewrite Hrm|done|].
  rewrite <- (st_self s p me Hp Hme c k Hc Hk) at 1. unfold cm_init_my_context.
  erewrite bind_run by (apply run_get_context; [done|destruct (security_cases (ei_attr ep)) as [-> | ->]; done|exact Hptr]).
  by apply run_init_common.
Qed.

Lemma enter_run s me ep k p :
  arr_get (cm_cpus s) me = Some k -> arr_get (cpu_context_ptr k) (GET_SECURITY_STATE (ei_attr ep)) = Some (Some p) ->
  0 <= p < Z.of_nat (length (ctx_mem s)) -> length (el1_regs_in_use k) = CTX_SYSREG_ALL -> intr_ok (cm_intr_descs s) -> length (ei_args ep) = 8%nat ->
  exists rm s1 s' e, routing_model (GET_SECURITY_STATE (ei_attr ep)) s = Ret rm s /\ cm_init_my_context me ep s = Ret tt s1 /\
    cm_prepare_el3_exit me (GET_SECURITY_STATE (ei_attr ep)) s1 = Ret tt s' /\ el3_exit me s' = Some e /\
    entered (sysreg_value k SCR_EL3) rm (sysreg_value k) ep e /\ only_changes p me s s'.
Proof.
  intros Hk Hptr Hp Hlen Hin Hargs. pose proof (arr_get_Some_range _ _ _ Hk) as Hme.
  destruct (init_my_context_run s me ep k p Hk Hptr Hp Hin) as (rm & Hrm & H6 & Hrun).
  set (s1 := st s p me _ k) in Hrun. destruct (prepare_enters s1 me p k (sysreg_value k SCR_EL3) rm ep) as (s' & e & Hr & Hx & Hent & Ho1 & Ho2 & Ho3);
    [by apply st_ctx|by apply st_cpu|done..|]. exists rm, s1, s', e. split_and!; [done..|].
  destruct (st_only s p me (initial_context (sysreg_value k SCR_EL3) rm ep) k Hp Hme) as (Hs1 & Hs2 & Hs3).
  split_and!; [intros q Hq; by rewrite Ho1, Hs1|intros j Hj; by rewrite Ho2, Hs2|by rewrite Ho3].
Qed.

(** The next image finds exactly the state that its entry point asks for.
    For every entry point, every register contents, every build option and
    every set of implemented features, initialising the context of the CPU and
    preparing the exit returns, and at the exception return: the PC, the
    processor state and x0-x7 are the requested ones, all other general
    registers are zero; SCR_EL3 has the requested world, execution state and
    timer trap, hypervisor calls exactly for an entry into EL2 or Hyp mode,
    the interrupt lines that the routing table asks for, and its other bits
    unchanged; the MMU and caches of EL1 are off, its endianness is the
    requested one and its other registers are zero; EL2 is initialised when it
    is entered, and traps and translates nothing when it is present but not
    used; no other context or CPU is touched. *)
Theorem entry_as_requested s me ep k p :
  arr_get (cm_cpus s) me = Some k -> arr_get (cpu_context_ptr k) (GET_SECURITY_STATE (ei_attr ep)) = Some (Some p) ->
  0 <= p < Z.of_nat (length (ctx_mem s)) -> length (el1_regs_in_use k) = CTX_SYSREG_ALL -> intr_ok (cm_intr_descs s) -> length (ei_args ep) = 8%nat ->
  exists rm s' e, routing_model (GET_SECURITY_STATE (ei_attr ep)) s = Ret rm s /\ enter_world me ep s = Ret tt s' /\ el3_exit me s' = Some e /\
    entered (sysreg_value k SCR_EL3) rm (sysreg_value k) ep e /\ only_changes p me s s'.
Proof.
  intros Hk Hptr Hp Hlen Hin Hargs. destruct (enter_run s me ep k p) as (rm & s1 & s' & e & Hrm & H1 & H2 & He); [done..|].
  exists rm, s', e. split; [done|]. unfold enter_world. by erewrite bind_run by exact H1.
Qed.
End theorem.

(** ** A CPU with EL2, entered at EL2 and at EL1 *)
Module El3Example.
#[local] Instance cfg : CmCfg := {|
  CM_ASSERTIONS := true; HANDLE_EA_EL3_FIRST := false; ENABLE_SPE_FOR_LOWER_ELS := true; ENABLE_AMU := true; ENABLE_SVE_FOR_NS := true;
  CTX_INCLUDE_AARCH32_REGS := true; NS_TIMER_SWITCH := false; AMU_GROUP1_COUNTERS_MASK := 0; platform_get_core_pos := fun m => m |}.

Definition at_reset (r : sysreg) : Z := if decide (r = SCR_EL3) then 0x638 else if decide (r = ID_AA64PFR0_EL1) then 0x2222 else 0.
Definition cpu : cm_cpu := CmCpu [None; Some 0] None (replicate CTX_SYSREG_ALL 0x1234) at_reset.
Definition start : cm_state := CmState [CpuContext [] [] [] []] [cpu] (replicate 3 (IntrTypeDesc 0 0 [0; 0])).
(** U-Boot at EL2, and at EL1 with big-endian data. *)
Definition at_el2 : entry_point_info := EntryPointInfo 1 1 NON_SECURE 0x1000 (SPSR_64 MODE_EL2 MODE_SP_ELX DISABLE_ALL_EXCEPTIONS) [7; 0; 0; 0; 0; 0; 0; 0].
Definition at_el1 : entry_point_info :=
  EntryPointInfo 1 1 (Z.lor NON_SECURE EP_EE_MASK) 0x2000 (SPSR_64 MODE_EL1 MODE_SP_ELX DISABLE_ALL_EXCEPTIONS) [7; 0; 0; 0; 0; 0; 0; 0].

Lemma start_intr : intr_ok (cm_intr_descs start).
Proof. by repeat constructor. Qed.

Lemma entry_as_requested_witness :
  (exists s e, enter_world 0 at_el2 start = Ret tt s /\ el3_exit 0 s = Some e /\ we_pc e = 0x1000 /\ Z.testbit (we_scr e) 8 = true) /\
  exists s e, enter_world 0 at_el1 start = Ret tt s /\ el3_exit 0 s = Some e /\ we_pc e = 0x2000 /\ Z.testbit (we_scr e) 8 = false.
Proof.
  split.
  - destruct (entry_as_requested start 0 at_el2 cpu 0) as (rm & s' & e & _ & Hr & He & [Hpc _ _ Hscr _ _ _] & _);
      [reflexivity|reflexivity|cbn; lia|reflexivity|exact start_intr|reflexivity|].
    exists s', e. split; [exact Hr|split; [exact He|split; [exact Hpc|]]]. rewrite Hscr by lia. vm_compute. reflexivity.
  - destruct (entry_as_requested start 0 at_el1 cpu 0) as (rm & s' & e & _ & Hr & He & [Hpc _ _ Hscr _ _ _] & _);
      [reflexivity|reflexivity|cbn; lia|reflexivity|exact start_intr|reflexivity|].
    exists s', e. split; [exact Hr|split; [exact He|split; [exact Hpc|]]]. rewrite Hscr by lia. vm_compute. reflexivity.
Defined.
End El3Example.
