(* ===== verification/Bl31.v ===== *)
(** * BL31: cold boot (bl31/bl31_main.c, plat/marvell/common/marvell_bl31_setup.c)

    What BL2 passes to BL31, the platform's copy of it, the initialisation of
    the runtime services and the entry into the next image.

    The PSCI library and the context library are modelled apart: PSCI records
    its calls of the context library in its trace.  [cm_call] gives each of
    these events its effect on the contexts, and BL31 replays what the
    initialisation of the services added, in order; PSCI's array
    [psci_ns_context] is the first part of [ctx_mem].

    The pointers of [bl31_params_t] are NULL or point to the member of the same
    name of the structure that BL2 keeps them in.  The console, the GIC driver
    and the interconnect are hooks of the platform. *)
From stdpp Require Import base list numbers option.
From Stdlib Require Import ZArith Lia.
From S2P Require Import Prelude TbbDefs PsciDefs PsciCommon PsciSetup PsciMain IntrMgmt RuntimeSvc El3Ctx.
#[local] Open Scope Z_scope.

Definition PARAM_EP : Z := 0x01.
Definition PARAM_BL31 : Z := 0x03.
Definition MODE_EL3 : Z := 3.
Definition EL_IMPL_A64ONLY : Z := 1.
Definition MARVELL_BL31_PLAT_PARAM_VAL : Z := 0x0f1e2d3c4b5a6978.

(** ** What BL2 passes *)
Definition set_ei_attr (v : Z) (e : entry_point_info) : entry_point_info := EntryPointInfo (ei_type e) (ei_version e) v (ei_pc e) (ei_spsr e) (ei_args e).
Definition set_ei_pc (v : Z) (e : entry_point_info) : entry_point_info := EntryPointInfo (ei_type e) (ei_version e) (ei_attr e) v (ei_spsr e) (ei_args e).
Definition set_ei_spsr (v : Z) (e : entry_point_info) : entry_point_info := EntryPointInfo (ei_type e) (ei_version e) (ei_attr e) (ei_pc e) v (ei_args e).
Definition set_ei_arg (i : nat) (v : Z) (e : entry_point_info) : entry_point_info :=
  EntryPointInfo (ei_type e) (ei_version e) (ei_attr e) (ei_pc e) (ei_spsr e) (<[i := v]> (ei_args e)).
Definition ep_param_head (type version attr : Z) (e : entry_point_info) : entry_point_info :=
  EntryPointInfo type version attr (ei_pc e) (ei_spsr e) (ei_args e).
Definition zero_ep : entry_point_info := EntryPointInfo 0 0 0 0 0 (replicate 8 0).

Record bl31_params_t : Type := Bl31Params {
  bp_type : Z; bp_version : Z;
  bp_bl31_image_info : bool; bp_bl32_ep_info : bool; bp_bl32_image_info : bool; bp_bl33_ep_info : bool; bp_bl33_image_info : bool
}.
Record bl2_to_bl31_params_mem_t : Type := ParamsMem {
  bl31_params : bl31_params_t;
  bl31_image_info : image_info_t; bl32_image_info : image_info_t; bl33_image_info : image_info_t;
  bl33_ep_info : entry_point_info; bl32_ep_info : entry_point_info; bl31_ep_info : entry_point_info
}.

(** ** State *)
Record bl31_state (P : Type) : Type := Bl31State {
  b31_cm : cm_state; b31_rt : rt_state (psci_state P);
  bl32_init : option Z; next_image_type : Z; bl32_image_ep_info : entry_point_info; bl33_image_ep_info : entry_point_info
}.
Arguments Bl31State {P}.
Arguments b31_cm {P}.
Arguments b31_rt {P}.
Arguments bl32_init {P}.
Arguments next_image_type {P}.
Arguments bl32_image_ep_info {P}.
Arguments bl33_image_ep_info {P}.

(** [call_bl32_init] runs the function that a dispatcher registered. *)
Class Bl31Env (P : Type) : Type := {
  RESET_TO_BL31 : bool;
  BL31_BL32_BASE : option Z;
  NS_IMAGE_ENTRYPOINT : Z;
  plat_marvell_console_init : M P unit;
  plat_marvell_gic_driver_init : M P unit;
  plat_marvell_gic_init : M P unit;
  marvell_psci_arch_init : Z -> M P unit;
  plat_marvell_interconnect : M P unit;
  call_bl32_init : Z -> M (bl31_state P) Z
}.

(** ** marvell_common.c *)
Definition plat_get_ns_image_entrypoint (PLAT_MARVELL_NS_IMAGE_OFFSET : Z) : Z := PLAT_MARVELL_NS_IMAGE_OFFSET.
Definition marvell_get_spsr_for_bl32_entry : Z := 0.
Definition marvell_get_spsr_for_bl33_entry (id_aa64pfr0_el1 : Z) : Z :=
  let el_status := id_field id_aa64pfr0_el1 8 in
  let mode := if truthy el_status then MODE_EL2 else MODE_EL1 in
  SPSR_64 mode MODE_SP_ELX DISABLE_ALL_EXCEPTIONS.

(** ** PSCI's calls of the context library *)
Section cm_call.
Context `{!CmCfg}.

(** The entry point that [psci_get_ns_ep_info] fills in: the other arguments
    are zero. *)
Definition full_ep (e : entry_point_info_t) : entry_point_info :=
  EntryPointInfo PARAM_EP VERSION_1 (ep_attr e) (ep_pc e) (ep_spsr e) (ep_arg0 e :: replicate 7 0).

Definition cm_call (me : Z) (e : event) : M cm_state unit :=
  match e with
  | EvCmSetContext cpu => cm_set_context_by_index cpu (Some cpu) NON_SECURE
  | EvCmInitContext cpu ep => cm_init_context_by_index me cpu (full_ep ep)
  | EvCmPrepareEl3Exit cpu => cm_prepare_el3_exit cpu NON_SECURE
  | _ => ret tt
  end.
Fixpoint cm_calls (me : Z) (l : list event) : M cm_state unit :=
  match l with [] => ret tt | e :: l' => cm_call me e ;;; cm_calls me l' end.
End cm_call.

Section bl31.
Context `{PlatCfg} {P : Type} `{!PlatEnv P} `{!CmCfg} `{!Bl31Env P}.
#[local] Abbreviation BL31 := (M (bl31_state P)).

Definition set_b31_cm (c : cm_state) (s : bl31_state P) : bl31_state P :=
  Bl31State c (b31_rt s) (bl32_init s) (next_image_type s) (bl32_image_ep_info s) (bl33_image_ep_info s).
Definition set_b31_rt (r : rt_state (psci_state P)) (s : bl31_state P) : bl31_state P :=
  Bl31State (b31_cm s) r (bl32_init s) (next_image_type s) (bl32_image_ep_info s) (bl33_image_ep_info s).
Definition set_bl32_init (f : option Z) (s : bl31_state P) : bl31_state P :=
  Bl31State (b31_cm s) (b31_rt s) f (next_image_type s) (bl32_image_ep_info s) (bl33_image_ep_info s).
Definition set_next_image_type (t : Z) (s : bl31_state P) : bl31_state P :=
  Bl31State (b31_cm s) (b31_rt s) (bl32_init s) t (bl32_image_ep_info s) (bl33_image_ep_info s).
Definition set_bl32_ep (e : entry_point_info) (s : bl31_state P) : bl31_state P :=
  Bl31State (b31_cm s) (b31_rt s) (bl32_init s) (next_image_type s) e (bl33_image_ep_info s).
Definition set_bl33_ep (e : entry_point_info) (s : bl31_state P) : bl31_state P :=
  Bl31State (b31_cm s) (b31_rt s) (bl32_init s) (next_image_type s) (bl32_image_ep_info s) e.

Definition in_cm {A} (m : M cm_state A) : BL31 A := zoom b31_cm set_b31_cm m.
Definition in_rt {A} (m : M (rt_state (psci_state P)) A) : BL31 A := zoom b31_rt set_b31_rt m.
Definition b31_hook {A} (m : M P A) : BL31 A := in_rt (in_service (plat m)).
Definition b31_assert (b : bool) : BL31 unit := if CM_ASSERTIONS && negb b then halt_with HAssert else ret tt.
Definition read_reg (me : Z) (r : sysreg) : BL31 Z := in_cm (read_sysreg me r).

(** ** marvell_bl31_setup.c *)
Definition bl31_plat_get_next_image_ep_info (type : Z) : BL31 entry_point_info :=
  b31_assert (sec_state_is_valid type) ;;;
  if type =? NON_SECURE then gets bl33_image_ep_info else gets bl32_image_ep_info.

Definition early_setup_reset (me : Z) (from_bl2 : option bl2_to_bl31_params_mem_t) (plat_params_from_bl2 : Z) : BL31 unit :=
  b31_assert (bool_decide (from_bl2 = None)) ;;;
  b31_assert (plat_params_from_bl2 =? 0) ;;;
  (match BL31_BL32_BASE with
   | None => ret tt
   | Some base =>
       let! e := gets bl32_image_ep_info in
       let e := ep_param_head PARAM_EP VERSION_1 0 e in
       let e := set_ei_attr (SET_SECURITY_STATE (ei_attr e) SECURE) e in
       modify (set_bl32_ep (set_ei_spsr marvell_get_spsr_for_bl32_entry (set_ei_pc base e)))
   end) ;;;
  let! e := gets bl33_image_ep_info in
  let e := ep_param_head PARAM_EP VERSION_1 0 e in
  let! id := read_reg me ID_AA64PFR0_EL1 in
  let e := set_ei_spsr (marvell_get_spsr_for_bl33_entry id) (set_ei_pc (plat_get_ns_image_entrypoint NS_IMAGE_ENTRYPOINT) e) in
  modify (set_bl33_ep (set_ei_attr (SET_SECURITY_STATE (ei_attr e) NON_SECURE) e)).

Definition early_setup_from_bl2 (from_bl2 : option bl2_to_bl31_params_mem_t) (plat_params_from_bl2 : Z) : BL31 unit :=
  b31_assert (bool_decide (is_Some from_bl2)) ;;;
  let! mem := deref from_bl2 in
  b31_assert (bp_type (bl31_params mem) =? PARAM_BL31) ;;;
  b31_assert (VERSION_1 <=? bp_version (bl31_params mem)) ;;;
  b31_assert (plat_params_from_bl2 =? MARVELL_BL31_PLAT_PARAM_VAL) ;;;
  when (bp_bl32_ep_info (bl31_params mem)) (modify (set_bl32_ep (bl32_ep_info mem))) ;;;
  let! e := deref (if bp_bl33_ep_info (bl31_params mem) then Some (bl33_ep_info mem) else None) in
  modify (set_bl33_ep e).

Definition marvell_bl31_early_platform_setup (me : Z) (from_bl2 : option bl2_to_bl31_params_mem_t) (plat_params_from_bl2 : Z) : BL31 unit :=
  b31_hook plat_marvell_console_init ;;;
  if RESET_TO_BL31 then early_setup_reset me from_bl2 plat_params_from_bl2 else early_setup_from_bl2 from_bl2 plat_params_from_bl2.

Definition bl31_early_platform_setup (me : Z) (from_bl2 : option bl2_to_bl31_params_mem_t) (plat_params_from_bl2 : Z) : BL31 unit :=
  marvell_bl31_early_platform_setup me from_bl2 plat_params_from_bl2 ;;;
  b31_hook plat_marvell_interconnect.

Definition bl31_platform_setup : BL31 unit :=
  b31_hook plat_marvell_gic_driver_init ;;; b31_hook plat_marvell_gic_init ;;; b31_hook (marvell_psci_arch_init 0).
Definition bl31_plat_runtime_setup : BL31 unit := b31_hook plat_marvell_console_init.

(** ** bl31_main.c *)
Definition get_arm_std_svc_args (bl31_warm_entrypoint svc_mask : Z) : BL31 psci_lib_args_t :=
  b31_assert (svc_mask =? PSCI_FID_MASK) ;;;
  ret (PsciLibArgs PARAM_PSCI_LIB_ARGS VERSION_1 PSCI_LIB_ARGS_SIZE 0 bl31_warm_entrypoint).

Definition bl31_lib_init : BL31 unit := in_cm cm_init.

Definition bl31_set_next_image_type (security_state : Z) : BL31 unit :=
  b31_assert (sec_state_is_valid security_state) ;;; modify (set_next_image_type security_state).
Definition bl31_get_next_image_type : BL31 Z := gets next_image_type.
Definition bl31_register_bl32_init (func : option Z) : BL31 unit := modify (set_bl32_init func).

Definition EL_IMPLEMENTED_1 (me : Z) : BL31 Z := let! v := read_reg me ID_AA64PFR0_EL1 in ret (id_field v 4).

Definition bl31_prepare_next_image_entry (me : Z) : BL31 unit :=
  when CTX_INCLUDE_AARCH32_REGS
    (let! v := EL_IMPLEMENTED_1 me in if v =? EL_IMPL_A64ONLY then halt_with HPanic else ret tt) ;;;
  let! image_type := bl31_get_next_image_type in
  let! next_image_info := bl31_plat_get_next_image_ep_info image_type in
  b31_assert (image_type =? GET_SECURITY_STATE (ei_attr next_image_info)) ;;;
  in_cm (cm_init_my_context me next_image_info) ;;;
  in_cm (cm_prepare_el3_exit me image_type).

(** The initialisation of the services, with its calls of the context library. *)
Definition init_services (me : Z) (descs : list (rt_svc_desc_t (psci_state P))) : BL31 unit :=
  let! before := gets (fun s => trace (rt_services (b31_rt s))) in
  in_rt (runtime_svc_init CM_ASSERTIONS descs) ;;;
  let! after := gets (fun s => trace (rt_services (b31_rt s))) in
  in_cm (cm_calls me (rev (take (length after - length before) after))).

Definition bl31_main (me : Z) (descs : list (rt_svc_desc_t (psci_state P))) : BL31 unit :=
  bl31_platform_setup ;;;
  bl31_lib_init ;;;
  init_services me descs ;;;
  let! f := gets bl32_init in
  (match f with Some f => let! _ := call_bl32_init f in ret tt | None => ret tt end) ;;;
  bl31_prepare_next_image_entry me ;;;
  bl31_plat_runtime_setup.

(** From the entry point: [x0] is the address of what BL2 passes, [x1] the
    platform's parameter. *)
Definition bl31_entrypoint (me : Z) (from_bl2 : option bl2_to_bl31_params_mem_t) (x1 : Z) (descs : list (rt_svc_desc_t (psci_state P))) : BL31 unit :=
  bl31_early_platform_setup me from_bl2 x1 ;;;
  bl31_main me descs.
End bl31.
