(* ===== verification/Bl31Props.v ===== *)
(** * BL31: from the entry point to the normal world

    The composition of the components of BL31: the parameters of BL2, PSCI's
    initialisation, the runtime services and the context library.  Two entries
    into the normal world follow: the one of BL33 at the end of the cold boot,
    and the one of a core that CPU_ON starts. *)
From stdpp Require Import base sets list numbers option.
From Stdlib Require Import ZArith Lia.
From S2P Require Import Prelude TbbDefs PsciDefs PsciCommon PsciSetup PsciPower PsciMain PsciSpec A3700Hw A3700Win A3700Pm PsciInv A3700Psci PsciProps RuntimeSvc A3700Svc A3700PmProps RuntimeProps IntrMgmt IntrProps El3Ctx El3CtxProps Bl31.
#[local] Open Scope Z_scope.

(** ** PSCI's calls of the context library *)
Section calls.
Context `{!CmCfg}.

Lemma cm_calls_filter me l s : cm_calls me l s = cm_calls me (List.filter is_context_call l) s.
Proof.
  revert s. induction l as [|e l IH]; intros s; [done|]. cbn [cm_calls List.filter].
  destruct (is_context_call e) eqn:E; [|by destruct e; cbn in E |- *; try done; apply IH].
  cbn [cm_calls]. unfold bind. destruct (cm_call me e s); [apply IH|done].
Qed.

(** The pointer to its context in PSCI's array, for one CPU. *)
Definition with_ns_context (i : Z) (k : cm_cpu) : cm_cpu := set_context_ptr (<[1%nat := Some i]> (cpu_context_ptr k)) k.
Lemma set_context_run i k s : arr_get (cm_cpus s) i = Some k -> length (cpu_context_ptr k) = 2%nat ->
  cm_set_context_by_index i (Some i) NON_SECURE s = Ret tt (set_cm_cpus (<[Z.to_nat i := with_ns_context i k]> (cm_cpus s)) s).
Proof.
  intros Hk Hl. unfold cm_set_context_by_index. erewrite bind_run by (by apply run_assert).
  assert (Hg : get_cm_cpu i s = Ret k s) by (unfold get_cm_cpu, bind, gets; by rewrite Hk). erewrite bind_run by exact Hg.
  rewrite arr_set_in_range by (rewrite Hl; unfold NON_SECURE; lia). erewrite bind_run by done. unfold upd_cm_cpu, bind, gets. rewrite Hk. cbn.
  by rewrite arr_set_in_range by (by eapply arr_get_Some_range).
Qed.
End calls.

(** ** Cold boot *)
Section cold_boot.
Context `{!CmCfg} (sr : sysregs) (drv : comphy_driver) (wa1 wa2 dyn2 : bool) (check_wa disable_ptr : Z).
#[local] Instance cfg : PlatCfg := a3700_cfg CM_ASSERTIONS.
#[local] Instance env : PlatEnv a3700_hw := a3700_env sr.
Context `{!Bl31Env a3700_hw}.
#[local] Abbreviation services := (board_services drv wa1 wa2 dyn2 check_wa disable_ptr 0).
Implicit Types (s : bl31_state a3700_hw).

(** The hooks of the platform return. *)
Record hooks_return : Prop := {
  hr_console : total plat_marvell_console_init;
  hr_gic_driver : total plat_marvell_gic_driver_init;
  hr_gic : total plat_marvell_gic_init;
  hr_arch : total (marvell_psci_arch_init 0);
  hr_interconnect : total plat_marvell_interconnect
}.
Context (Hhooks : hooks_return).

(** Zeroed variables, two cores, and no interrupt handler yet. *)
Record cold_start (indices : list Z) (p : a3700_hw) (k0 k1 : cm_cpu) s : Prop := {
  ar_rt : b31_rt s = RtState indices (psci_bss p);
  ar_indices : Z.of_nat (length indices) = MAX_RT_SVCS;
  ar_bl32 : bl32_init s = None;
  ar_type : next_image_type s = NON_SECURE;
  ar_cpus : cm_cpus (b31_cm s) = [k0; k1];
  ar_ptrs : length (cpu_context_ptr k0) = 2%nat /\ length (cpu_context_ptr k1) = 2%nat;
  ar_ctxs : (2 <= length (ctx_mem (b31_cm s)))%nat;
  ar_el1 : length (el1_regs_in_use k0) = CTX_SYSREG_ALL;
  ar_intr : intr_ok (cm_intr_descs (b31_cm s));
  ar_aarch32 : CTX_INCLUDE_AARCH32_REGS = true -> id_field (sysreg_value k0 ID_AA64PFR0_EL1) 4 <> EL_IMPL_A64ONLY
}.

(** What BL31 accepts from BL2, with an entry point for BL33. *)
Record params_ok (mem : bl2_to_bl31_params_mem_t) : Prop := {
  po_type : bp_type (bl31_params mem) = PARAM_BL31;
  po_version : VERSION_1 <= bp_version (bl31_params mem);
  po_bl33 : bp_bl33_ep_info (bl31_params mem) = true;
  po_ns : GET_SECURITY_STATE (ei_attr (bl33_ep_info mem)) = NON_SECURE;
  po_args : length (ei_args (bl33_ep_info mem)) = 8%nat
}.

Lemma in_cm_run {A} (m : M cm_state A) s a c : m (b31_cm s) = Ret a c -> in_cm m s = Ret a (set_b31_cm c s).
Proof. unfold in_cm, zoom. by intros ->. Qed.
Lemma b31_assert_run b s : b = true -> b31_assert b s = Ret tt s.
Proof. intros ->. unfold b31_assert. by rewrite andb_false_r. Qed.

(** A hook changes the hardware only. *)
Definition set_hw31 (p : a3700_hw) s : bl31_state a3700_hw :=
  set_b31_rt (RtState (rt_svc_descs_indices (b31_rt s)) (set_hw p (rt_services (b31_rt s)))) s.
Lemma b31_hook_run (m : M a3700_hw unit) s : total m -> exists p, b31_hook m s = Ret tt (set_hw31 p s).
Proof.
  intros Hm. destruct (wp_returns m _ (hw (rt_services (b31_rt s))) (Hm _)) as ([] & p & Hr & _). exists p.
  unfold b31_hook, in_rt, in_service, plat, zoom. by rewrite Hr.
Qed.

Lemma cold_start_hw indices p p' k0 k1 s : cold_start indices p k0 k1 s -> cold_start indices p' k0 k1 (set_hw31 p' s).
Proof. intros [Hrt]. split; try done. unfold set_hw31. cbn. by rewrite Hrt. Qed.

Lemma early_setup_run indices p k0 k1 mem x1 s : RESET_TO_BL31 = false -> cold_start indices p k0 k1 s -> params_ok mem ->
  (CM_ASSERTIONS = true -> x1 = MARVELL_BL31_PLAT_PARAM_VAL) ->
  exists s1 p1, bl31_early_platform_setup 0 (Some mem) x1 s = Ret tt s1 /\ cold_start indices p1 k0 k1 s1 /\
    b31_cm s1 = b31_cm s /\ bl33_image_ep_info s1 = bl33_ep_info mem /\
    bl32_image_ep_info s1 = (if bp_bl32_ep_info (bl31_params mem) then bl32_ep_info mem else bl32_image_ep_info s).
Proof.
  intros Hreset Hs Hpo Hx1. unfold bl31_early_platform_setup, marvell_bl31_early_platform_setup. rewrite Hreset.
  destruct (b31_hook_run _ s (hr_console Hhooks)) as [p1 H1]. set (s1 := set_hw31 p1 s) in H1.
  set (s2 := (if bp_bl32_ep_info (bl31_params mem) then set_bl32_ep (bl32_ep_info mem) s1 else s1)).
  assert (H2 : early_setup_from_bl2 (Some mem) x1 s1 = Ret tt (set_bl33_ep (bl33_ep_info mem) s2)).
  { unfold early_setup_from_bl2. destruct Hpo as [Ht Hv H33 _ _]. erewrite bind_run by (by apply b31_assert_run). erewrite bind_run by done.
    erewrite bind_run by (apply b31_assert_run; by rewrite Ht). erewrite bind_run by (apply b31_assert_run; by apply Z.leb_le).
    assert (Hassert : b31_assert (x1 =? MARVELL_BL31_PLAT_PARAM_VAL) s1 = Ret tt s1).
    { unfold b31_assert. destruct CM_ASSERTIONS; [by rewrite Hx1|done]. }
    erewrite bind_run by exact Hassert. rewrite H33. unfold s2, when. by destruct (bp_bl32_ep_info (bl31_params mem)). }
  destruct (b31_hook_run _ (set_bl33_ep (bl33_ep_info mem) s2) (hr_interconnect Hhooks)) as [p3 H3].
  exists (set_hw31 p3 (set_bl33_ep (bl33_ep_info mem) s2)), p3. split_and!.
  - erewrite (bind_run _ _ s) by (erewrite bind_run by exact H1; exact H2). exact H3.
  - apply (cold_start_hw indices p1). apply (cold_start_hw indices p p1) in Hs. unfold s2, s1. destruct Hs. destruct (bp_bl32_ep_info (bl31_params mem)); by split.
  - unfold s2. by destruct (bp_bl32_ep_info (bl31_params mem)).
  - done.
  - unfold s2. by destruct (bp_bl32_ep_info (bl31_params mem)).
Qed.

Lemma platform_setup_run indices p k0 k1 s : cold_start indices p k0 k1 s ->
  exists p', bl31_platform_setup s = Ret tt (set_hw31 p' s) /\ cold_start indices p' k0 k1 (set_hw31 p' s).
Proof.
  intros Hs. unfold bl31_platform_setup. destruct (b31_hook_run _ s (hr_gic_driver Hhooks)) as [p1 H1]. erewrite bind_run by exact H1.
  destruct (b31_hook_run _ (set_hw31 p1 s) (hr_gic Hhooks)) as [p2 H2]. erewrite bind_run by exact H2.
  destruct (b31_hook_run _ (set_hw31 p2 (set_hw31 p1 s)) (hr_arch Hhooks)) as [p3 H3]. exists p3. rewrite H3.
  split; [|by eapply cold_start_hw]. f_equal. unfold set_hw31. cbn. by destruct (rt_services (b31_rt s)).
Qed.

(** The services are initialised, and both cores have a context. *)
Lemma init_services_run descs args indices p k0 k1 s :
  VERIFY_PSCI_LIB_ARGS_V1 args = true -> descs ≡ₚ services args -> cold_start indices p k0 k1 s ->
  exists table t, init_services 0 descs s =
      Ret tt (set_b31_cm (set_cm_cpus [with_ns_context 0 k0; with_ns_context 1 k1] (b31_cm s)) (set_b31_rt (RtState table t) s)) /\
    psci_caps t = a3700_caps.
Proof.
  intros Ha Hd [Hrt Hind _ _ Hcpus [Hp0 Hp1] _ _ _ _].
  destruct (board_run CM_ASSERTIONS sr drv wa1 wa2 dyn2 check_wa disable_ptr descs args indices p Ha Hd Hind) as (table & t & Hinit & Hset & _).
  destruct (setup_run_calls CM_ASSERTIONS sr args p Ha) as (t' & Hset' & _ & Hcaps & Htr).
  assert (t' = t) as -> by (unfold RuntimeProps.cfg, RuntimeProps.env in Hset; congruence). exists table, t. split; [|done].
  unfold init_services. erewrite bind_run by done. rewrite Hrt. cbn [rt_services psci_bss trace length].
  assert (Hr : in_rt (runtime_svc_init CM_ASSERTIONS descs) s = Ret tt (set_b31_rt (RtState table t) s)).
  { unfold in_rt, zoom. rewrite Hrt. change (runtime_svc_init CM_ASSERTIONS descs (RtState indices (psci_bss p)))
      with (runtime_svc_init CM_ASSERTIONS descs (RtState indices (@psci_bss (a3700_cfg CM_ASSERTIONS) a3700_hw p))).
    unfold RuntimeProps.cfg in Hinit. by rewrite Hinit. }
  erewrite bind_run by exact Hr. erewrite bind_run by done. cbn [b31_rt set_b31_rt rt_services].
  rewrite Nat.sub_0_r, firstn_all. apply in_cm_run. cbn [b31_cm set_b31_rt]. rewrite cm_calls_filter, filter_rev, Htr. cbn [rev app cm_calls cm_call].
  erewrite bind_run by (apply set_context_run; [by rewrite Hcpus|exact Hp0]).
  erewrite bind_run by (apply set_context_run; [cbn; by rewrite Hcpus|exact Hp1]). by rewrite Hcpus.
Qed.

(** From the services on: the entry into BL33. *)
Lemma prepare_next_run k p s : arr_get (cm_cpus (b31_cm s)) 0 = Some k -> arr_get (cpu_context_ptr k) NON_SECURE = Some (Some p) ->
  0 <= p < Z.of_nat (length (ctx_mem (b31_cm s))) -> length (el1_regs_in_use k) = CTX_SYSREG_ALL -> intr_ok (cm_intr_descs (b31_cm s)) ->
  next_image_type s = NON_SECURE -> GET_SECURITY_STATE (ei_attr (bl33_image_ep_info s)) = NON_SECURE ->
  length (ei_args (bl33_image_ep_info s)) = 8%nat ->
  (CTX_INCLUDE_AARCH32_REGS = true -> id_field (sysreg_value k ID_AA64PFR0_EL1) 4 <> EL_IMPL_A64ONLY) ->
  exists rm c e, bl31_prepare_next_image_entry 0 s = Ret tt (set_b31_cm c s) /\ routing_model NON_SECURE (b31_cm s) = Ret rm (b31_cm s) /\
    el3_exit 0 c = Some e /\ entered (sysreg_value k SCR_EL3) rm (sysreg_value k) (bl33_image_ep_info s) e /\ only_changes p 0 (b31_cm s) c.
Proof.
  intros Hk Hptr Hp Hel1 Hin Hty Hns Hargs H32.
  destruct (enter_run (b31_cm s) 0 (bl33_image_ep_info s) k p) as (rm & c1 & c & e & Hrm & H1 & H2 & He & Hent & Hoc); [done|by rewrite Hns|done..|].
  rewrite Hns in Hrm, H2. exists rm, c, e. split_and!; [|done|done|done|done]. unfold bl31_prepare_next_image_entry.
  assert (Hreg : read_reg 0 ID_AA64PFR0_EL1 s = Ret (sysreg_value k ID_AA64PFR0_EL1) s).
  { unfold read_reg, in_cm, zoom, read_sysreg, get_cm_cpu, bind, gets. rewrite Hk. cbn. by destruct s. }
  assert (Hw : when CTX_INCLUDE_AARCH32_REGS (let! v := EL_IMPLEMENTED_1 0 in if v =? EL_IMPL_A64ONLY then halt_with HPanic else ret tt) s = Ret tt s).
  { unfold when. destruct CTX_INCLUDE_AARCH32_REGS; [|done]. unfold EL_IMPLEMENTED_1. erewrite bind_run by (by erewrite bind_run by exact Hreg).
    by rewrite (proj2 (Z.eqb_neq _ _)) by auto. }
  erewrite bind_run by exact Hw. erewrite bind_run by done. rewrite Hty. unfold bl31_plat_get_next_image_ep_info.
  erewrite (bind_run _ _ s) by (erewrite bind_run by (by apply b31_assert_run); reflexivity).
  erewrite bind_run by (apply b31_assert_run; by rewrite Hns). erewrite bind_run by (by apply in_cm_run). by rewrite (in_cm_run _ (set_b31_cm c1 s) tt c) by done.
Qed.

Lemma cold_boot_run descs args indices p k0 k1 mem x1 s :
  RESET_TO_BL31 = false -> VERIFY_PSCI_LIB_ARGS_V1 args = true -> descs ≡ₚ services args -> cold_start indices p k0 k1 s -> params_ok mem ->
  (CM_ASSERTIONS = true -> x1 = MARVELL_BL31_PLAT_PARAM_VAL) ->
  exists rm s' e,
    bl31_entrypoint 0 (Some mem) x1 descs s = Ret tt s' /\
    routing_model NON_SECURE (b31_cm s) = Ret rm (b31_cm s) /\ el3_exit 0 (b31_cm s') = Some e /\
    entered (sysreg_value k0 SCR_EL3) rm (sysreg_value k0) (bl33_ep_info mem) e /\
    psci_caps (rt_services (b31_rt s')) = a3700_caps /\
    arr_get (cm_cpus (b31_cm s')) 1 = Some (with_ns_context 1 k1).
Proof.
  intros Hreset Ha Hd Hs Hpo Hx1. unfold bl31_entrypoint, bl31_main.
  destruct (early_setup_run indices p k0 k1 mem x1 s Hreset Hs Hpo Hx1) as (s1 & p1 & H1 & Hs1 & Hcm1 & H33 & _). erewrite bind_run by exact H1.
  destruct (platform_setup_run indices p1 k0 k1 s1 Hs1) as (p2 & H2 & Hs2). erewrite bind_run by exact H2. set (s2 := set_hw31 p2 s1) in *.
  assert (Hlib : bl31_lib_init s2 = Ret tt s2) by (by destruct s2). erewrite bind_run by exact Hlib.
  destruct (init_services_run descs args indices p2 k0 k1 s2 Ha Hd Hs2) as (table & t & H3 & Hcaps). erewrite bind_run by exact H3.
  set (s3 := set_b31_cm _ _) in *. erewrite bind_run by done. destruct Hs2 as [_ _ Hbl32 Hty Hcpus [Hp0 _] Hctx Hel1 Hin H32].
  change (bl32_init s3) with (bl32_init s2). rewrite Hbl32. erewrite bind_run by done. destruct Hpo as [_ _ _ Hns Hargs].
  assert (Hep : bl33_image_ep_info s3 = bl33_ep_info mem) by exact H33.
  destruct (prepare_next_run (with_ns_context 0 k0) 0 s3) as (rm & c & e & H4 & Hrm & He & Hent & _ & Hcpu & _).
  all: rewrite ?Hep; try done.
  { cbn. unfold arr_get. cbn. by destruct (cpu_context_ptr k0) as [|? [|]]. }
  { change (ctx_mem (b31_cm s3)) with (ctx_mem (b31_cm s2)). lia. }
  erewrite bind_run by exact H4. destruct (b31_hook_run _ (set_b31_cm c s3) (hr_console Hhooks)) as [p5 H5].
  exists rm, (set_hw31 p5 (set_b31_cm c s3)), e. split_and!; [exact H5| |exact He|by rewrite Hep in Hent| |exact (Hcpu 1 ltac:(done))].
  - rewrite <- Hcm1. change (b31_cm s1) with (b31_cm s2). unfold routing_model in *. cbn [b31_cm s3 set_b31_cm cm_intr_descs set_cm_cpus] in Hrm.
    destruct (get_scr_el3_from_routing_model _ _ _); [by injection Hrm as <-|done].
  - cbn. by destruct t.
Qed.

(** [C7] The cold boot of BL31 enters BL33.  On this board, without a dispatcher
    for a secure payload, from zeroed variables and with the parameters that
    BL2 passes: in whatever order the services are linked, BL31 returns from
    its main function having initialised them, and the exception return of the
    boot core enters the normal world exactly as the entry point of BL33 that
    BL2 filled in asks for; PSCI serves its calls, and the two cores have the
    contexts of PSCI's array. *)
Theorem bl31_enters_bl33 descs args indices p k0 k1 mem x1 s :
  RESET_TO_BL31 = false -> VERIFY_PSCI_LIB_ARGS_V1 args = true -> descs ≡ₚ services args -> cold_start indices p k0 k1 s -> params_ok mem ->
  (CM_ASSERTIONS = true -> x1 = MARVELL_BL31_PLAT_PARAM_VAL) ->
  exists rm s' e,
    bl31_entrypoint 0 (Some mem) x1 descs s = Ret tt s' /\
    routing_model NON_SECURE (b31_cm s) = Ret rm (b31_cm s) /\ el3_exit 0 (b31_cm s') = Some e /\
    entered (sysreg_value k0 SCR_EL3) rm (sysreg_value k0) (bl33_ep_info mem) e /\
    psci_caps (rt_services (b31_rt s')) = a3700_caps /\
    arr_get (cm_cpus (b31_cm s')) 1 = Some (with_ns_context 1 k1).
Proof. apply cold_boot_run. Qed.
End cold_boot.

(** ** A core started by CPU_ON *)
Section cpu_on.
Context `{PlatCfg} {P : Type} `{!PlatEnv P} `{!CmCfg}.
Implicit Types (ps : psci_state P).

(** The registers of the caller, as PSCI reads them. *)
Record caller_regs (me scr sctlr1 sctlr2 : Z) ps : Prop := {
  cr_scr : plat (read_scr_el3 me) ps = Ret scr ps;
  cr_sctlr1 : plat (read_sctlr_el1 me) ps = Ret sctlr1 ps;
  cr_sctlr2 : plat (read_sctlr_el2 me) ps = Ret sctlr2 ps
}.

(** The entry point that PSCI derives from them. *)
Definition like_caller (scr sctlr1 sctlr2 entrypoint context_id : Z) (ep : entry_point_info_t) : Prop :=
  GET_SECURITY_STATE (ep_attr ep) = NON_SECURE /\
  truthy (EP_GET_EE (ep_attr ep)) = Z.testbit (if Z.testbit scr 8 then sctlr2 else sctlr1) 25 /\
  truthy (EP_GET_ST (ep_attr ep)) = false /\
  (GET_RW (ep_spsr ep) =? MODE_RW_64) = Z.testbit scr 10 /\ is_hyp (ep_spsr ep) = Z.testbit scr 8 /\
  Z.land (Z.shiftr (ep_spsr ep) 6) 7 = 7 /\ ep_pc ep = entrypoint /\ ep_arg0 ep = context_id.

Lemma ns_ep_like_caller me scr sctlr1 sctlr2 entrypoint context_id ps ep ps' :
  caller_regs me scr sctlr1 sctlr2 ps -> psci_get_ns_ep_info me entrypoint context_id ps = Ret (PSCI_E_SUCCESS, ep) ps' ->
  ps' = ps /\ like_caller scr sctlr1 sctlr2 entrypoint context_id ep.
Proof.
  intros [H1 H2 H3] Hr. unfold psci_get_ns_ep_info in Hr. rewrite (bind_run _ _ _ _ _ H1), (bind_run _ _ _ _ _ H2) in Hr.
  assert (Hs : (if truthy (Z.land scr SCR_HCE_BIT) then plat (read_sctlr_el2 me) else ret sctlr1) ps =
    Ret (if Z.testbit scr 8 then sctlr2 else sctlr1) ps).
  { unfold SCR_HCE_BIT. rewrite truthy_bit by lia. by destruct (Z.testbit scr 8). }
  rewrite (bind_run _ _ _ _ _ Hs) in Hr. unfold SCR_HCE_BIT, SCR_RW_BIT, SCTLR_EE_BIT in Hr. rewrite !truthy_bit in Hr by lia.
  unfold like_caller. generalize dependent (Z.testbit (if Z.testbit scr 8 then sctlr2 else sctlr1) 25). intros ee Hr.
  clear Hs. generalize dependent (Z.testbit scr 8). intros hce Hr.
  assert (Hisa : Z.land entrypoint 1 = 0 \/ Z.land entrypoint 1 = 1).
  { assert (Z.land entrypoint 1 = entrypoint mod 2) as -> by (apply (Z.land_ones entrypoint 1); lia). pose proof (Z.mod_pos_bound entrypoint 2). lia. }
  destruct (Z.testbit scr 10) eqn:Hrw.
  - destruct Hisa as [Hi|Hi]; rewrite Hi in Hr; [change (truthy 0) with false in Hr; cbv iota in Hr|done].
    injection Hr as <- <-. split; [done|]. cbn [ep_attr ep_spsr ep_pc ep_arg0]. destruct ee, hce; by split_and!.
  - injection Hr as <- <-. split; [done|]. cbn [ep_attr ep_spsr ep_pc ep_arg0]. destruct Hisa as [-> | ->], ee, hce; by split_and!.
Qed.

(** The context is programmed under the lock of the target, as the last step. *)
Lemma cpu_on_start_calls me target_cpu ep ps ps' :
  psci_cpu_on_start me target_cpu ep ps = Ret PSCI_E_SUCCESS ps' ->
  exists l, trace ps' = EvCpuUnlock (u32 (plat_core_pos_by_mpidr target_cpu)) :: EvCmInitContext (u32 (plat_core_pos_by_mpidr target_cpu)) ep :: l.
Proof.
  intros Hr. unfold psci_cpu_on_start in Hr. do 6 (apply bind_ret_inv in Hr as (? & ? & _ & Hr)).
  apply bind_ret_inv in Hr as (rc0 & s0 & _ & Hr). apply bind_ret_inv in Hr as (rc & s1 & Hup & Hr).
  apply bind_ret_inv in Hr as (u & s2 & Hun & Hr). injection Hr as -> ->.
  destruct (Z.eqb_spec rc0 PSCI_E_SUCCESS) as [->|Hne]; cbn [negb] in Hup; [|by injection Hup as ->].
  unfold cpu_on_power_up in Hup. do 9 (apply bind_ret_inv in Hup as (? & ? & _ & Hup)).
  apply bind_ret_inv in Hup as (u1 & s3 & Hem & Hup). injection Hup as -> ->. cbn [Z.eqb PSCI_E_SUCCESS] in Hem. injection Hem as _ <-.
  unfold psci_spin_unlock_cpu in Hun. apply bind_ret_inv in Hun as (n & s4 & Hn & Hun). apply bind_ret_inv in Hun as (u2 & s5 & Hput & Hun).
  injection Hun as _ <-.
  apply bind_ret_inv in Hn as (nodes & s6 & Hg & Hn). injection Hg as <- <-. destruct (arr_get _ _); [injection Hn as <- <-|done].
  apply bind_ret_inv in Hput as (nodes & s6 & Hg & Hput). injection Hg as <- <-.
  apply bind_ret_inv in Hput as (l' & s6 & Hg & Hput). destruct (arr_set _ _ _); [injection Hg as <- <-|done]. injection Hput as _ <-.
  match goal with |- context [EvCmInitContext _ _ :: trace ?s] => exists (trace s); by destruct s end.
Qed.

Lemma cpu_on_calls me target_cpu entrypoint context_id scr sctlr1 sctlr2 ps ps' :
  (forall ps0, caller_regs me scr sctlr1 sctlr2 ps0) -> psci_cpu_on me target_cpu entrypoint context_id ps = Ret PSCI_E_SUCCESS ps' ->
  exists ep l, like_caller scr sctlr1 sctlr2 entrypoint context_id ep /\
    trace ps' = EvCpuUnlock (u32 (plat_core_pos_by_mpidr target_cpu)) :: EvCmInitContext (u32 (plat_core_pos_by_mpidr target_cpu)) ep :: l.
Proof.
  intros Hregs Hr. unfold psci_cpu_on in Hr. apply bind_ret_inv in Hr as (rc & s1 & _ & Hr). destruct (negb (rc =? _)); [done|].
  apply bind_ret_inv in Hr as ([rc1 oep] & s2 & Hv & Hr). cbn [fst snd] in Hr. destruct (Z.eqb_spec rc1 PSCI_E_SUCCESS) as [->|Hne]; cbn [negb] in Hr; [|by injection Hr].
  unfold psci_validate_entry_point in Hv. apply bind_ret_inv in Hv as (ops & s3 & _ & Hv). apply bind_ret_inv in Hv as (rc2 & s4 & _ & Hv).
  destruct (negb (rc2 =? _)); [done|]. apply bind_ret_inv in Hv as ([rc3 ep] & s5 & Hep & Hv). injection Hv as -> <- ->.
  apply (ns_ep_like_caller _ _ _ _ _ _ _ _ _ (Hregs s4)) in Hep as [_ Hlike]. erewrite bind_run in Hr by done.
  apply cpu_on_start_calls in Hr as [l Hl]. by exists ep, l.
Qed.

(** The state in which a started core enters the normal world, from the
    registers of the caller and its own registers [v]. *)
Record started_like (scr sctlr1 sctlr2 entrypoint context_id : Z) (v : sysreg -> Z) (e : world_entry) : Prop := {
  sl_pc : we_pc e = entrypoint;
  sl_x : we_x e = context_id :: replicate 31 0;
  sl_ns : Z.testbit (we_scr e) 0 = true;
  sl_rw : Z.testbit (we_scr e) 10 = Z.testbit scr 10;
  sl_hyp : Z.testbit (we_scr e) 8 = Z.testbit scr 8;
  sl_masked : Z.land (Z.shiftr (we_spsr e) 6) 7 = 7;
  sl_sctlr : exists w, we_el1 e !! 2%nat = Some w /\ Z.testbit w 25 = Z.testbit (if Z.testbit scr 8 then sctlr2 else sctlr1) 25 /\ Z.testbit w 0 = false;
  sl_sys : el2_after (Z.testbit scr 8) (Z.testbit scr 10) (Z.testbit (if Z.testbit scr 8 then sctlr2 else sctlr1) 25) v (we_sys e)
}.

(** [C8] A successful CPU_ON starts the target as its caller asked.  PSCI's last
    call before it releases the target's lock is the initialisation of the
    target's context; it returns, and when the target comes to its exit,
    whatever the other cores did to other contexts and registers meanwhile, the
    exit returns and the target enters the normal world at the given address
    with the context identifier in x0 and zero in every other register, in the
    exception level class, execution state and endianness of the caller, with
    exceptions masked and the MMU off, EL2 being initialised exactly when the
    caller runs at EL2 and neutral when it exists but is unused. *)
Theorem cpu_on_starts_like_caller me target_cpu entrypoint context_id scr sctlr1 sctlr2 ps ps' s kc ki :
  let i := u32 (plat_core_pos_by_mpidr target_cpu) in
  (forall ps0, caller_regs me scr sctlr1 sctlr2 ps0) -> psci_cpu_on me target_cpu entrypoint context_id ps = Ret PSCI_E_SUCCESS ps' ->
  arr_get (cm_cpus s) me = Some kc -> sysreg_value kc SCR_EL3 = scr -> arr_get (cm_cpus s) i = Some ki ->
  arr_get (cpu_context_ptr ki) NON_SECURE = Some (Some i) -> 0 <= i < Z.of_nat (length (ctx_mem s)) -> intr_ok (cm_intr_descs s) ->
  exists ep l s1, trace ps' = EvCpuUnlock i :: EvCmInitContext i ep :: l /\ cm_call me (EvCmInitContext i ep) s = Ret tt s1 /\
    forall s2 k2, arr_get (ctx_mem s2) i = arr_get (ctx_mem s1) i -> arr_get (cm_cpus s2) i = Some k2 ->
      arr_get (cpu_context_ptr k2) NON_SECURE = Some (Some i) -> length (el1_regs_in_use k2) = CTX_SYSREG_ALL ->
      exists s3 e, cm_call i (EvCmPrepareEl3Exit i) s2 = Ret tt s3 /\ el3_exit i s3 = Some e /\
        started_like scr sctlr1 sctlr2 entrypoint context_id (sysreg_value k2) e.
Proof.
  intros i Hregs Hon Hc Hscr Hi Hptr Hctx Hin. subst scr.
  destruct (cpu_on_calls _ _ _ _ _ _ _ _ _ Hregs Hon) as (ep & l & (Hns & Hee & Hst & Hrw & Hhyp & Hmask & Hpc & Harg) & Htr). fold i in Htr.
  pose proof (arr_get_Some_range _ _ _ Hc) as Hme. destruct (arr_get_in_range (ctx_mem s) i Hctx) as [c Hcx].
  destruct (intr_routing _ NON_SECURE Hin (or_intror eq_refl)) as (rm & Hrm & H6).
  set (s1 := st s i me (initial_context (sysreg_value kc SCR_EL3) rm (full_ep ep)) kc). exists ep, l, s1. split_and!; [done| |].
  - cbn [cm_call]. unfold cm_init_context_by_index. change (ei_attr (full_ep ep)) with (ep_attr ep). rewrite Hns.
    assert (Hg : cm_get_context_by_index i NON_SECURE s = Ret (Some i) s).
    { unfold cm_get_context_by_index. erewrite bind_run by (by apply run_assert). unfold get_cm_cpu, bind, gets. rewrite Hi. cbn. by rewrite Hptr. }
    erewrite bind_run by exact Hg. rewrite <- (st_self s i me Hctx Hme c kc Hcx Hc) at 1. unfold s1. apply run_init_common; [done|done|].
    change (ei_attr (full_ep ep)) with (ep_attr ep). by rewrite Hns.
  - intros s2 k2 Hc2 Hk2 Hp2 Hl2. unfold s1 in Hc2. rewrite st_ctx in Hc2 by done.
    destruct (prepare_enters s2 i i k2 (sysreg_value kc SCR_EL3) rm (full_ep ep)) as (s3 & e & Hr & He & Hent & _);
      [done|done|change (ei_attr (full_ep ep)) with (ep_attr ep); by rewrite Hns|done|done|done|].
    change (ei_attr (full_ep ep)) with (ep_attr ep) in Hr. rewrite Hns in Hr. exists s3, e. split_and!; [exact Hr|done|].
    destruct Hent as [Epc Esp Ex Escr (w & Hw & W25 & W0 & _) _ Esys]. unfold sys_spec in Esys.
    cbn [full_ep ei_pc ei_spsr ei_attr ei_args] in *. unfold scr_spec in Escr. cbn [full_ep ei_pc ei_spsr ei_attr ei_args] in Escr.
    rewrite Hns in Esys. cbn [NON_SECURE SECURE Z.eqb] in Esys. rewrite Hhyp, Hrw, Hee in Esys. split; [congruence| | | | |by rewrite Esp| |done].
    + rewrite Ex, Harg. done.
    + rewrite Escr by lia. cbn. by rewrite Hns.
    + rewrite Escr by lia. cbn -[Z.testbit]. exact Hrw.
    + rewrite Escr by lia. cbn -[Z.testbit]. exact Hhyp.
    + exists w. split_and!; [done|congruence|done].
Qed.
End cpu_on.

(** ** Two cores with EL2; U-Boot at address 0 *)
Module Bl31Example.
Import Board Run RuntimeWitnesses.
#[local] Existing Instance El3Example.cfg.

#[local] Instance hooks : Bl31Env a3700_hw := {|
  RESET_TO_BL31 := false; BL31_BL32_BASE := Some 0x4400000; NS_IMAGE_ENTRYPOINT := 0;
  plat_marvell_console_init := ret tt; plat_marvell_gic_driver_init := ret tt; plat_marvell_gic_init := ret tt;
  marvell_psci_arch_init := fun _ => ret tt; plat_marvell_interconnect := ret tt; call_bl32_init := fun _ => ret 0 |}.

(** SCR_EL3 as the normal world at EL2 has it. *)
Definition regs (r : sysreg) : Z := if decide (r = SCR_EL3) then Z.lor SCR_RW_BIT SCR_HCE_BIT else if decide (r = ID_AA64PFR0_EL1) then 0x2222 else 0.
Definition core (ptrs : list (option Z)) : cm_cpu := CmCpu ptrs None (replicate (@CTX_SYSREG_ALL El3Example.cfg) 0) regs.
Definition contexts (k0 k1 : cm_cpu) : cm_state := CmState (replicate 2 (CpuContext [] [] [] [])) [k0; k1] (replicate 3 (IntrTypeDesc 0 0 [0; 0])).
Definition zeroed : bl31_state a3700_hw :=
  Bl31State (contexts (core [None; None]) (core [None; None])) (RtState (replicate 128 0) (psci_bss power_on)) None NON_SECURE zero_ep zero_ep.
Definition no_image : image_info_t := ImageInfo 0 0 0.
Definition from_bl2 : bl2_to_bl31_params_mem_t :=
  ParamsMem (Bl31Params PARAM_BL31 VERSION_1 true true true true true) no_image no_image no_image
    (EntryPointInfo PARAM_EP VERSION_1 NON_SECURE 0 (marvell_get_spsr_for_bl33_entry 0x2222) (replicate 8 0)) zero_ep zero_ep.

Lemma hooks_total : hooks_return.
Proof. split; apply total_ret. Qed.
Lemma zeroed_cold_start : cold_start (replicate 128 0) power_on (core [None; None]) (core [None; None]) zeroed.
Proof. split; try done. by repeat constructor. Qed.

Lemma bl31_enters_bl33_witness :
  exists s e, bl31_entrypoint 0 (Some from_bl2) MARVELL_BL31_PLAT_PARAM_VAL linked zeroed = Ret tt s /\
    el3_exit 0 (b31_cm s) = Some e /\ we_pc e = 0 /\ Z.testbit (we_scr e) 0 = true.
Proof.
  destruct (bl31_enters_bl33 (H := El3Example.cfg) regs0 drv0 true true false 0 0 hooks_total linked args (replicate 128 0) power_on (core [None; None]) (core [None; None])
    from_bl2 MARVELL_BL31_PLAT_PARAM_VAL zeroed eq_refl eq_refl linked_services zeroed_cold_start) as (rm & s & e & Hr & _ & He & [Hpc _ _ Hscr _ _ _] & _).
  - split; [reflexivity|discriminate|reflexivity..].
  - reflexivity.
  - exists s, e. split; [exact Hr|split; [exact He|split; [exact Hpc|]]]. rewrite Hscr by lia. reflexivity.
Defined.

(** Core 0 starts core 1 at 0x200000. *)
Lemma cpu_on_starts_like_caller_witness :
  exists ep l s1, trace asked_on = EvCpuUnlock 1 :: EvCmInitContext 1 ep :: l /\
    cm_call 0 (EvCmInitContext 1 ep) (contexts (core [None; Some 0]) (core [None; Some 1])) = Ret tt s1.
Proof.
  destruct (cpu_on_starts_like_caller 0 1 0x200000 7 (Z.lor SCR_RW_BIT SCR_HCE_BIT) 0 0 booted asked_on
    (contexts (core [None; Some 0]) (core [None; Some 1])) (core [None; Some 0]) (core [None; Some 1])) as (ep & l & s1 & Ht & Hr & _).
  - intros ps. split; by destruct ps.
  - exact asked_on_run.
  - reflexivity.
  - reflexivity.
  - reflexivity.
  - reflexivity.
  - split; [discriminate|reflexivity].
  - by repeat constructor.
  - exists ep, l, s1. split; [exact Ht|exact Hr].
Defined.
End Bl31Example.
