(* ===== verification/Bl2V1.v ===== *)
(** * BL2 without LOAD_IMAGE_V2 (bl2/bl2_image_load.c, bl2/bl2_main.c,
    plat/marvell/common/marvell_bl2_setup.c)

    The build of the Marvell boards: BL2 loads SCP_BL2, BL31, BL32 and BL33 in
    turn, each into memory that the platform names, fills in the parameters of
    BL31 and passes control to it.

    The addresses of the boards and the build options are fields of a class.
    The headers of the image information are left out, as in [image_info_t];
    the console is left out.  A local structure that is not initialised is a
    field as well: nothing is known about it. *)
From stdpp Require Import base list numbers option.
From Stdlib Require Import ZArith Lia.
From S2P Require Import Prelude TbbDefs AuthMod TbbrCot BlCommon PsciDefs PsciCommon PsciSetup PsciMain IntrMgmt RuntimeSvc El3Ctx Bl31.
#[local] Open Scope Z_scope.

(** [EvRunBl31]: the SMC that asks BL1 to run the image. *)
Inductive v1_event : Type := EvFlushBl31Params | EvRunBl31 (ep : entry_point_info).
Record v1_state (P : Type) : Type := V1State {
  v1_tb : tb_state P; bl2_tzram_layout : meminfo_t; bl31_params_mem : bl2_to_bl31_params_mem_t; v1_log : list v1_event
}.
Arguments V1State {P}.
Arguments v1_tb {P}.
Arguments bl2_tzram_layout {P}.
Arguments bl31_params_mem {P}.
Arguments v1_log {P}.

Class V1Env (P : Type) : Type := {
  V1_DEBUG : bool;
  SCP_BL2_BASE : option Z;
  BL31_BASE : Z;
  BL32_BASE : option Z;
  EL3_PAYLOAD_BASE : option Z;
  PRELOADED_BL33_BASE : option Z;
  PLAT_MARVELL_NS_IMAGE_OFFSET : Z;
  TRUSTED_DRAM_BASE : Z;
  TRUSTED_DRAM_SIZE : Z;
  MARVELL_DRAM_BASE : Z;
  MARVELL_DRAM_SIZE : Z;
  bl31_params_addr : Z;
  v1_read_mpidr : Z;
  v1_read_id_aa64pfr0_el1 : Z;
  uninit_image_info : image_info_t;
  v1_arch_setup : M P unit;
  v1_preload_setup : M P unit;
  plat_marvell_io_setup : M P unit;
  bl2_plat_handle_scp_bl2 : image_info_t -> M P Z
}.

Section v1.
Context {P : Type} `{!TbEnv P} `{!V1Env P}.
#[local] Abbreviation VM := (M (v1_state P)).

Definition set_v1_tb (t : tb_state P) (s : v1_state P) : v1_state P := V1State t (bl2_tzram_layout s) (bl31_params_mem s) (v1_log s).
Definition set_layout (l : meminfo_t) (s : v1_state P) : v1_state P := V1State (v1_tb s) l (bl31_params_mem s) (v1_log s).
Definition set_params_mem (m : bl2_to_bl31_params_mem_t) (s : v1_state P) : v1_state P := V1State (v1_tb s) (bl2_tzram_layout s) m (v1_log s).
Definition in_tb1 {A} (m : M (tb_state P) A) : VM A := zoom v1_tb set_v1_tb m.
Definition v1_hook {A} (m : M P A) : VM A := in_tb1 (tb_hook m).
Definition v1_emit (e : v1_event) : VM unit := modify (fun s => V1State (v1_tb s) (bl2_tzram_layout s) (bl31_params_mem s) (e :: v1_log s)).
(** [plat_error_handler] does not return. *)
Definition v1_error_handler {A} : VM A := halt_with HHang.

(** Members of the parameter structure. *)
Definition upd_mem (f : bl2_to_bl31_params_mem_t -> bl2_to_bl31_params_mem_t) : VM unit :=
  modify (fun s => set_params_mem (f (bl31_params_mem s)) s).
Definition set_bl31_info (i : image_info_t) (m : bl2_to_bl31_params_mem_t) : bl2_to_bl31_params_mem_t :=
  ParamsMem (bl31_params m) i (bl32_image_info m) (bl33_image_info m) (bl33_ep_info m) (bl32_ep_info m) (bl31_ep_info m).
Definition set_bl32_info (i : image_info_t) (m : bl2_to_bl31_params_mem_t) : bl2_to_bl31_params_mem_t :=
  ParamsMem (bl31_params m) (bl31_image_info m) i (bl33_image_info m) (bl33_ep_info m) (bl32_ep_info m) (bl31_ep_info m).
Definition set_bl33_info (i : image_info_t) (m : bl2_to_bl31_params_mem_t) : bl2_to_bl31_params_mem_t :=
  ParamsMem (bl31_params m) (bl31_image_info m) (bl32_image_info m) i (bl33_ep_info m) (bl32_ep_info m) (bl31_ep_info m).
Definition upd_bl33_ep (f : entry_point_info -> entry_point_info) (m : bl2_to_bl31_params_mem_t) : bl2_to_bl31_params_mem_t :=
  ParamsMem (bl31_params m) (bl31_image_info m) (bl32_image_info m) (bl33_image_info m) (f (bl33_ep_info m)) (bl32_ep_info m) (bl31_ep_info m).
Definition upd_bl32_ep (f : entry_point_info -> entry_point_info) (m : bl2_to_bl31_params_mem_t) : bl2_to_bl31_params_mem_t :=
  ParamsMem (bl31_params m) (bl31_image_info m) (bl32_image_info m) (bl33_image_info m) (bl33_ep_info m) (f (bl32_ep_info m)) (bl31_ep_info m).
Definition upd_bl31_ep (f : entry_point_info -> entry_point_info) (m : bl2_to_bl31_params_mem_t) : bl2_to_bl31_params_mem_t :=
  ParamsMem (bl31_params m) (bl31_image_info m) (bl32_image_info m) (bl33_image_info m) (bl33_ep_info m) (bl32_ep_info m) (f (bl31_ep_info m)).

(** ** marvell_bl2_setup.c *)
Definition zero_info : image_info_t := ImageInfo 0 0 0.
Definition has_bl32 : bool := match BL32_BASE with Some b => truthy b | None => false end.

Definition bl2_plat_get_bl31_params : VM unit :=
  upd_mem (fun _ => ParamsMem (Bl31Params PARAM_BL31 VERSION_1 true has_bl32 has_bl32 true true) zero_info zero_info zero_info
    (set_ei_arg 0 (Z.land 0xffff v1_read_mpidr) (ep_param_head PARAM_EP VERSION_1 0 zero_ep))
    (if has_bl32 then ep_param_head PARAM_EP VERSION_1 0 zero_ep else zero_ep) zero_ep).

Definition bl2_plat_flush_bl31_params : VM unit := v1_emit EvFlushBl31Params.

Definition bl2_plat_get_bl31_ep_info : VM unit :=
  when V1_DEBUG (upd_mem (upd_bl31_ep (set_ei_arg 1 MARVELL_BL31_PLAT_PARAM_VAL))).

Definition bl2_early_platform_setup (mem_layout : meminfo_t) : VM unit :=
  modify (set_layout mem_layout) ;;; v1_hook plat_marvell_io_setup.
Definition bl2_platform_setup : VM unit := ret tt.
Definition bl2_plat_get_scp_bl2_meminfo : VM meminfo_t := gets bl2_tzram_layout.

Definition bl2_plat_set_bl31_ep_info : VM unit :=
  upd_mem (upd_bl31_ep (fun e => set_ei_spsr (SPSR_64 MODE_EL3 MODE_SP_ELX DISABLE_ALL_EXCEPTIONS) (set_ei_attr (SET_SECURITY_STATE (ei_attr e) SECURE) e))).
Definition bl2_plat_get_bl32_meminfo (base : Z) : meminfo_t :=
  let size := u64 (TRUSTED_DRAM_BASE + TRUSTED_DRAM_SIZE - base) in MemInfo base size base size.
Definition bl2_plat_set_bl32_ep_info : VM unit :=
  upd_mem (upd_bl32_ep (fun e => set_ei_spsr marvell_get_spsr_for_bl32_entry (set_ei_attr (SET_SECURITY_STATE (ei_attr e) SECURE) e))).
Definition bl2_plat_set_bl33_ep_info : VM unit :=
  upd_mem (upd_bl33_ep (fun e => set_ei_spsr (marvell_get_spsr_for_bl33_entry v1_read_id_aa64pfr0_el1) (set_ei_attr (SET_SECURITY_STATE (ei_attr e) NON_SECURE) e))).
Definition bl2_plat_get_bl33_meminfo : meminfo_t := MemInfo MARVELL_DRAM_BASE MARVELL_DRAM_SIZE MARVELL_DRAM_BASE MARVELL_DRAM_SIZE.

(** ** bl2_image_load.c *)
Definition load_scp_bl2 (tries fuel : nat) : VM Z :=
  match SCP_BL2_BASE with
  | None => ret 0
  | Some base =>
      let! l := bl2_plat_get_scp_bl2_meminfo in
      let! r := in_tb1 (load_auth_image_v1 tries fuel SCP_BL2_IMAGE_ID base (LoadOut l uninit_image_info None)) in
      if r.1 =? 0 then v1_hook (bl2_plat_handle_scp_bl2 (lo_info r.2)) else ret r.1
  end.

Definition load_bl31 (tries fuel : nat) : VM Z :=
  let! l := gets bl2_tzram_layout in
  upd_mem (upd_bl31_ep (set_ei_arg 0 bl31_params_addr)) ;;;
  let! m := gets bl31_params_mem in
  let! r := in_tb1 (load_auth_image_v1 tries fuel BL31_IMAGE_ID BL31_BASE (LoadOut l (bl31_image_info m) (Some (ei_pc (bl31_ep_info m))))) in
  modify (set_layout (lo_layout r.2)) ;;;
  upd_mem (fun m => upd_bl31_ep (set_ei_pc (default (ei_pc (bl31_ep_info m)) (lo_pc r.2))) (set_bl31_info (lo_info r.2) m)) ;;;
  when (r.1 =? 0) bl2_plat_set_bl31_ep_info ;;;
  ret r.1.

Definition load_bl32 (tries fuel : nat) : VM Z :=
  match BL32_BASE with
  | None => ret 0
  | Some base =>
      let! m := gets bl31_params_mem in
      let! _ := deref (if bp_bl32_image_info (bl31_params m) then Some tt else None) in
      let pc := if bp_bl32_ep_info (bl31_params m) then Some (ei_pc (bl32_ep_info m)) else None in
      let! r := in_tb1 (load_auth_image_v1 tries fuel BL32_IMAGE_ID base (LoadOut (bl2_plat_get_bl32_meminfo base) (bl32_image_info m) pc)) in
      upd_mem (fun m => upd_bl32_ep (set_ei_pc (default (ei_pc (bl32_ep_info m)) (lo_pc r.2))) (set_bl32_info (lo_info r.2) m)) ;;;
      when (r.1 =? 0) bl2_plat_set_bl32_ep_info ;;;
      ret r.1
  end.

Definition load_bl33 (tries fuel : nat) : VM Z :=
  let! m := gets bl31_params_mem in
  let! r := in_tb1 (load_auth_image_v1 tries fuel BL33_IMAGE_ID (plat_get_ns_image_entrypoint PLAT_MARVELL_NS_IMAGE_OFFSET)
                      (LoadOut bl2_plat_get_bl33_meminfo (bl33_image_info m) (Some (ei_pc (bl33_ep_info m))))) in
  upd_mem (fun m => upd_bl33_ep (set_ei_pc (default (ei_pc (bl33_ep_info m)) (lo_pc r.2))) (set_bl33_info (lo_info r.2) m)) ;;;
  when (r.1 =? 0) bl2_plat_set_bl33_ep_info ;;;
  ret r.1.

Definition load_bl3x (tries fuel : nat) : VM unit :=
  let! e := load_bl31 tries fuel in
  (if truthy e then v1_error_handler else ret tt) ;;;
  let! e := load_bl32 tries fuel in
  (if truthy e && (e =? - EAUTH) then v1_error_handler else ret tt) ;;;
  match PRELOADED_BL33_BASE with
  | Some base => upd_mem (upd_bl33_ep (set_ei_pc base)) ;;; bl2_plat_set_bl33_ep_info
  | None => let! e := load_bl33 tries fuel in if truthy e then v1_error_handler else ret tt
  end.

Definition bl2_load_images (tries fuel : nat) : VM unit :=
  let! e := load_scp_bl2 tries fuel in
  (if truthy e then v1_error_handler else ret tt) ;;;
  bl2_platform_setup ;;;
  bl2_plat_get_bl31_params ;;;
  bl2_plat_get_bl31_ep_info ;;;
  (match EL3_PAYLOAD_BASE with
   | Some base =>
       upd_mem (upd_bl31_ep (fun e => set_ei_arg 0 bl31_params_addr (set_ei_pc base e))) ;;;
       bl2_plat_set_bl31_ep_info
   | None => load_bl3x tries fuel
   end) ;;;
  bl2_plat_flush_bl31_params.

(** ** bl2_main.c, for a BL2 in S-EL1 *)
Definition bl2_main (tries fuel : nat) : VM unit :=
  v1_hook v1_arch_setup ;;;
  when TRUSTED_BOARD_BOOT (in_tb1 auth_mod_init) ;;;
  v1_hook v1_preload_setup ;;;
  bl2_load_images tries fuel ;;;
  let! m := gets bl31_params_mem in
  v1_emit (EvRunBl31 (bl31_ep_info m)).
End v1.
