(* ===== verification/Bl2V1Props.v ===== *)
(** * BL2 without LOAD_IMAGE_V2: what it hands over

    The build of the Marvell boards with trusted board boot: when BL2 asks BL1
    to run BL31, both BL31 and BL33 are in memory as they were authenticated,
    and the parameters are the ones that BL31 expects; BL31, run with them,
    enters BL33. *)
From stdpp Require Import base list numbers option strings sets.
From Stdlib Require Import ZArith Lia.
From S2P Require Import Prelude TbbDefs AuthMod TbbrCot BlCommon TbbExample TbbLemmas AuthProps CotProps TbbProps LoadProps PsciDefs PsciCommon PsciSetup PsciMain A3700Hw A3700Win A3700Pm A3700Psci A3700Svc A3700PmProps IntrMgmt RuntimeSvc PsciProps RuntimeProps El3Ctx El3CtxProps Bl31 Bl31Props Bl2V1.
#[local] Open Scope Z_scope.

Section v1.
Context {P : Type} `{!TbEnv P} `{!V1Env P} {bufs : CotBufs}.
Context (Hcot : cot_desc_ptr = cot_desc) (Ht : TRUSTED_BOARD_BOOT = true) (Hap : bufs_apart) (Hstore : storage_ok).
Implicit Types (s : v1_state P).

Lemma in_tb1_ret {A} (m : M (tb_state P) A) s a s' : in_tb1 m s = Ret a s' -> exists t, m (v1_tb s) = Ret a t /\ s' = set_v1_tb t s.
Proof. unfold in_tb1, zoom. destruct (m (v1_tb s)) as [b t|]; [|done]. intros [= <- <-]. by exists t. Qed.

Lemma load_step tries fuel id b lay W o s r s' :
  room b lay W -> raw_image id = true -> boot_id id = true -> out_in lay W o ->
  in_tb1 (load_auth_image_v1 tries fuel id b o) s = Ret r s' ->
  exists t, s' = set_v1_tb t s /\ load_frame (flagged (v1_tb s)) W (v1_tb s) t /\ pc_shape b o r.2 /\
    (r.1 = 0 -> loaded_at b o r.2 /\ info_in W (lo_info r.2) /\ authentic t id (lo_info r.2)).
Proof.
  intros Hroom Hraw Hboot Ho (t & Hr & ->)%in_tb1_ret. destruct r as [rc o'].
  destruct (load_auth_v1_writes Hcot b lay W Hroom Hstore Ht (flagged (v1_tb s)) _ _ _ _ _ _ _ _ Hboot (or_introl Hraw) (fun _ H => H) Ho Hr) as ([_ Hin] & Hf & Hp & Hld).
  exists t. split_and!; [done|done|done|]. cbn. intros ->. split_and!; [by auto|done|]. by eapply (load_auth_v1_ok Hcot).
Qed.

(** ** The board *)
Context (l0 : meminfo_t) (b32 max : Z).
Definition W31 (x : Z) : Prop := in_free l0 x.
Definition W32 (x : Z) : Prop := in_free (bl2_plat_get_bl32_meminfo b32) x.
Definition W33 (x : Z) : Prop := PLAT_MARVELL_NS_IMAGE_OFFSET <= x < PLAT_MARVELL_NS_IMAGE_OFFSET + max.

(** BL31, BL32 and BL33 are loaded by BL2, there is no image for the system
    control processor; the files are no larger than [max], and the memory that
    the images can reach is apart. *)
Record board_map : Prop := {
  bm_scp : SCP_BL2_BASE = None;
  bm_payload : EL3_PAYLOAD_BASE = None;
  bm_preloaded : PRELOADED_BL33_BASE = None;
  bm_bl32 : BL32_BASE = Some b32;
  bm_31 : 0 <= BL31_BASE < 2 ^ 64;
  bm_32 : 0 <= b32 < 2 ^ 64;
  bm_33 : 0 <= PLAT_MARVELL_NS_IMAGE_OFFSET < 2 ^ 64;
  bm_layout : 0 <= free_base l0 < 2 ^ 64 /\ 0 <= free_size l0 < 2 ^ 64;
  bm_max : forall n, sized n -> n <= max;
  bm_bufs : forall x, W31 x \/ W32 x \/ W33 x -> ~ param_region x;
  bm_apart : forall x, W31 x -> ~ W32 x /\ ~ W33 x
}.
Context (Hmap : board_map).

Lemma zero_in W : info_in W zero_info.
Proof. split; cbn; [lia|]. intros x Hx. lia. Qed.
Lemma hook1_ret {A} (m : M P A) s a s' : v1_hook m s = Ret a s' -> exists t, s' = set_v1_tb t s /\ tb_mem t = tb_mem (v1_tb s).
Proof. intros (t & Hm & ->)%in_tb1_ret. apply hook_mem in Hm. by exists t. Qed.

Lemma load_bl31_ok tries fuel s s' : bl2_tzram_layout s = l0 -> bl31_image_info (bl31_params_mem s) = zero_info ->
  load_bl31 tries fuel s = Ret 0 s' ->
  exists t l' info, authentic t BL31_IMAGE_ID info /\ image_base info = BL31_BASE /\ info_in W31 info /\
    s' = set_params_mem (upd_bl31_ep (fun e => EntryPointInfo (ei_type e) (ei_version e) (SET_SECURITY_STATE (ei_attr e) SECURE) BL31_BASE
        (SPSR_64 MODE_EL3 MODE_SP_ELX DISABLE_ALL_EXCEPTIONS) (<[0%nat := bl31_params_addr]> (ei_args e))) (set_bl31_info info (bl31_params_mem s)))
      (set_layout l' (set_v1_tb t s)).
Proof.
  intros Hlay Hinfo Hr. unfold load_bl31 in Hr. erewrite bind_run in Hr by done. rewrite Hlay in Hr.
  apply bind_ret_inv in Hr as (u & s1 & Hu & Hr). injection Hu as <- <-. erewrite bind_run in Hr by done.
  apply bind_ret_inv in Hr as (r & s2 & Hl & Hr).
  apply (load_step _ _ _ _ (layout_in l0) W31) in Hl as (t & -> & _ & _ & Hok);
    [|apply layout_room, Hmap|done|done|].
  2: { destruct (bm_layout Hmap) as [H1 H2]. split; [split; cbn; [exact H1|exact H2|lia]|]. cbn. rewrite Hinfo. apply zero_in. }
  apply bind_ret_inv in Hr as (u1 & s3 & H3 & Hr). injection H3 as <- <-. apply bind_ret_inv in Hr as (u2 & s4 & H4 & Hr). injection H4 as <- <-.
  apply bind_ret_inv in Hr as (u3 & s5 & H5 & Hr). injection Hr as Hz <-. destruct (Hok Hz) as ([Hb Hpc] & Hin & Ha). rewrite Hz in H5. injection H5 as _ <-.
  cbn in Hpc. rewrite Hpc by eauto. exists t, (lo_layout r.2), (lo_info r.2). split_and!; [done..|]. done.
Qed.

(** BL32 touches nothing but its memory and its own parameters. *)
Definition but_bl32 (m : bl2_to_bl31_params_mem_t) (info : image_info_t) (ep : entry_point_info) : bl2_to_bl31_params_mem_t :=
  upd_bl32_ep (fun _ => ep) (set_bl32_info info m).
Lemma load_bl32_ok tries fuel s e s' : bl32_image_info (bl31_params_mem s) = zero_info -> load_bl32 tries fuel s = Ret e s' ->
  exists t info ep, load_frame (flagged (v1_tb s)) W32 (v1_tb s) t /\ s' = set_params_mem (but_bl32 (bl31_params_mem s) info ep) (set_v1_tb t s).
Proof.
  intros Hinfo Hr. unfold load_bl32 in Hr. rewrite (bm_bl32 Hmap) in Hr. erewrite bind_run in Hr by done.
  apply bind_ret_inv in Hr as (u0 & s0 & Hd & Hr). apply deref_run in Hd as [_ ->]. apply bind_ret_inv in Hr as (r & s2 & Hl & Hr).
  apply (load_step _ _ _ _ (layout_in (bl2_plat_get_bl32_meminfo b32)) W32) in Hl as (t & -> & Hf & _ & _);
    [|apply layout_room, Hmap|done|done|].
  2: { split; [split; cbn; [apply Hmap|apply u64_range|lia]|]. cbn. rewrite Hinfo. apply zero_in. }
  apply bind_ret_inv in Hr as (u2 & s4 & H4 & Hr). injection H4 as <- <-. apply bind_ret_inv in Hr as (u3 & s5 & H5 & Hr). injection Hr as _ <-.
  unfold when in H5. destruct (r.1 =? 0); injection H5 as _ <-; eexists t, _, _; (split; [done|reflexivity]).
Qed.

Lemma load_bl33_ok tries fuel s s' : bl33_image_info (bl31_params_mem s) = zero_info -> load_bl33 tries fuel s = Ret 0 s' ->
  exists t info, authentic t BL33_IMAGE_ID info /\ image_base info = PLAT_MARVELL_NS_IMAGE_OFFSET /\ load_frame (flagged (v1_tb s)) W33 (v1_tb s) t /\
    s' = set_params_mem (upd_bl33_ep (fun e => EntryPointInfo (ei_type e) (ei_version e) (SET_SECURITY_STATE (ei_attr e) NON_SECURE)
        PLAT_MARVELL_NS_IMAGE_OFFSET (marvell_get_spsr_for_bl33_entry v1_read_id_aa64pfr0_el1) (ei_args e)) (set_bl33_info info (bl31_params_mem s)))
      (set_v1_tb t s).
Proof.
  intros Hinfo Hr. unfold load_bl33 in Hr. erewrite bind_run in Hr by done. apply bind_ret_inv in Hr as (r & s2 & Hl & Hr).
  apply (load_step _ _ _ _ (fun _ => True) W33) in Hl as (t & -> & Hf & _ & Hok);
    [|apply sized_room; apply Hmap|done|done|].
  2: { split; [done|]. cbn. rewrite Hinfo. apply zero_in. }
  apply bind_ret_inv in Hr as (u2 & s4 & H4 & Hr). injection H4 as <- <-.
  apply bind_ret_inv in Hr as (u3 & s5 & H5 & Hr). injection Hr as Hz <-. destruct (Hok Hz) as ([Hb Hpc] & Hin & Ha). rewrite Hz in H5. injection H5 as _ <-.
  cbn in Hpc. rewrite Hpc by eauto. exists t, (lo_info r.2). by split_and!.
Qed.

(** The parameters that BL31 gets. *)
Record handed_over (m : bl2_to_bl31_params_mem_t) : Prop := {
  ho_params : params_ok m;
  ho_bl31 : bl31_ep_info m = EntryPointInfo 0 0 SECURE BL31_BASE (SPSR_64 MODE_EL3 MODE_SP_ELX DISABLE_ALL_EXCEPTIONS)
    (bl31_params_addr :: (if V1_DEBUG then MARVELL_BL31_PLAT_PARAM_VAL else 0) :: replicate 6 0);
  ho_bl33 : bl33_ep_info m = EntryPointInfo PARAM_EP VERSION_1 NON_SECURE PLAT_MARVELL_NS_IMAGE_OFFSET
    (marvell_get_spsr_for_bl33_entry v1_read_id_aa64pfr0_el1) (Z.land 0xffff v1_read_mpidr :: replicate 7 0)
}.

Lemma load_bl3x_ok tries fuel s u s1 u1 s2 s' : bl2_tzram_layout s = l0 ->
  bl2_plat_get_bl31_params s = Ret u s1 -> bl2_plat_get_bl31_ep_info s1 = Ret u1 s2 -> load_bl3x tries fuel s2 = Ret tt s' ->
  let m := bl31_params_mem s' in
  v1_log s' = v1_log s /\ handed_over m /\ image_base (bl31_image_info m) = BL31_BASE /\ image_base (bl33_image_info m) = PLAT_MARVELL_NS_IMAGE_OFFSET /\
  authentic (v1_tb s') BL31_IMAGE_ID (bl31_image_info m) /\ authentic (v1_tb s') BL33_IMAGE_ID (bl33_image_info m).
Proof.
  intros Hlay H1 H2 Hr. injection H1 as _ <-.
  assert (Hm : exists m0, s2 = set_params_mem m0 s /\ bl31_image_info m0 = zero_info /\ bl32_image_info m0 = zero_info /\ bl33_image_info m0 = zero_info /\
    bl31_params m0 = Bl31Params PARAM_BL31 VERSION_1 true has_bl32 has_bl32 true true /\
    bl31_ep_info m0 = EntryPointInfo 0 0 0 0 0 (0 :: (if V1_DEBUG then MARVELL_BL31_PLAT_PARAM_VAL else 0) :: replicate 6 0) /\
    bl33_ep_info m0 = EntryPointInfo PARAM_EP VERSION_1 0 0 0 (Z.land 0xffff v1_read_mpidr :: replicate 7 0)).
  { unfold bl2_plat_get_bl31_ep_info, when in H2. destruct V1_DEBUG; injection H2 as _ <-; (eexists; split; [reflexivity|]; by split_and!). }
  destruct Hm as (m0 & -> & Hi31 & Hi32 & Hi33 & Hp & He31 & He33). clear H2. unfold load_bl3x in Hr.
  apply bind_ret_inv in Hr as (e & s3 & H31 & Hr). destruct (Z.eqb_spec e 0) as [->|Hne].
  2: { unfold truthy in Hr. by rewrite (proj2 (Z.eqb_neq _ _) Hne) in Hr. }
  erewrite bind_run in Hr by done. apply load_bl31_ok in H31 as (t1 & l1 & i31 & Ha31 & Hb31 & Hin31 & ->); [|done|done].
  apply bind_ret_inv in Hr as (e32 & s4 & H32 & Hr). apply load_bl32_ok in H32 as (t2 & i32 & ep32 & Hf2 & ->); [|exact Hi32].
  apply bind_ret_inv in Hr as (u2 & s5 & H5 & Hr). destruct (_ && _); [done|]. injection H5 as _ <-. rewrite (bm_preloaded Hmap) in Hr.
  apply bind_ret_inv in Hr as (e & s6 & H33 & Hr). destruct (Z.eqb_spec e 0) as [->|Hne].
  2: { unfold truthy in Hr. by rewrite (proj2 (Z.eqb_neq _ _) Hne) in Hr. }
  injection Hr as <-. apply load_bl33_ok in H33 as (t3 & i33 & Ha33 & Hb33 & Hf3 & ->); [|exact Hi33].
  split_and!; [done| |done|done| |exact Ha33].
  { split; [split|cbn; by rewrite He31|cbn; by rewrite He33]; cbn; rewrite ?Hp, ?He33; done. }
  assert (Himg : forall x, image_base i31 <= x < image_base i31 + image_size i31 -> (~ W32 x /\ ~ W33 x) /\ ~ param_region x).
  { intros x Hx. assert (Hw : W31 x) by (by apply Hin31). split; [by apply (bm_apart Hmap)|apply (bm_bufs Hmap); auto]. }
  eapply (authentic_keeps Hcot W33); [done|done|done|exact Hf3|intros x Hx; apply (bm_bufs Hmap); auto|intros x Hx; split; by apply Himg|].
  eapply (authentic_keeps Hcot W32); [done|done|done|exact Hf2|intros x Hx; apply (bm_bufs Hmap); auto|intros x Hx; split; by apply Himg|exact Ha31].
Qed.

Lemma bl2_main_run tries fuel s s' :
  bl2_tzram_layout s = l0 -> bl2_main tries fuel s = Ret tt s' ->
  let m := bl31_params_mem s' in
  v1_log s' = EvRunBl31 (bl31_ep_info m) :: EvFlushBl31Params :: v1_log s /\ handed_over m /\
  image_base (bl31_image_info m) = BL31_BASE /\ image_base (bl33_image_info m) = PLAT_MARVELL_NS_IMAGE_OFFSET /\
  authentic (v1_tb s') BL31_IMAGE_ID (bl31_image_info m) /\ authentic (v1_tb s') BL33_IMAGE_ID (bl33_image_info m).
Proof.
  intros Hlay Hr. unfold bl2_main in Hr. apply bind_ret_inv in Hr as (u1 & s1 & H1 & Hr). apply hook1_ret in H1 as (t1 & -> & _).
  apply bind_ret_inv in Hr as (u2 & s2 & H2 & Hr). rewrite Ht in H2. apply in_tb1_ret in H2 as (t2 & _ & ->).
  apply bind_ret_inv in Hr as (u3 & s3 & H3 & Hr). apply hook1_ret in H3 as (t3 & -> & _).
  apply bind_ret_inv in Hr as (u4 & s4 & H4 & Hr). injection Hr as <-. unfold bl2_load_images, load_scp_bl2 in H4.
  rewrite (bm_scp Hmap), (bm_payload Hmap) in H4. do 3 (erewrite bind_run in H4 by done).
  apply bind_ret_inv in H4 as (u5 & s5 & H5 & H4). apply bind_ret_inv in H4 as (u6 & s6 & H6 & H4). apply bind_ret_inv in H4 as ([] & s7 & H7 & H4).
  injection H4 as _ <-. destruct (load_bl3x_ok _ _ (set_v1_tb t3 (set_v1_tb t2 (set_v1_tb t1 s))) _ _ _ _ _ Hlay H5 H6 H7) as (Hlog & Hrest). split; [|exact Hrest]. cbn. by rewrite Hlog.
Qed.

(** [C6] What BL2 of the Marvell boards hands over to BL31.  With trusted board
    boot, buffers of the authentication module that are apart, storage that
    delivers what it reports ([storage_ok]), files that are no larger than
    [max] and memory for the images that is apart from each other and from the
    buffers ([board_map]): when BL2's main function comes to the call that runs
    BL31, it passes an entry point at the load address of BL31, at EL3 with
    exceptions masked and the address of the parameters in x0; the parameters
    are ones that BL31 accepts, with BL33 entered in the normal world at its
    load address, at EL2 if there is one, with the identifier of the boot core
    in x0; and in this state, for BL31 and for BL33, the image and its parent
    certificate are marked authenticated and the bytes of the image in memory
    match the digest in the buffer of that certificate: BL31 was not overwritten
    by the images loaded after it. *)
Theorem bl2_v1_hands_over tries fuel s s' :
  bl2_tzram_layout s = l0 -> bl2_main tries fuel s = Ret tt s' ->
  let m := bl31_params_mem s' in
  v1_log s' = EvRunBl31 (bl31_ep_info m) :: EvFlushBl31Params :: v1_log s /\ handed_over m /\
  image_base (bl31_image_info m) = BL31_BASE /\ image_base (bl33_image_info m) = PLAT_MARVELL_NS_IMAGE_OFFSET /\
  authentic (v1_tb s') BL31_IMAGE_ID (bl31_image_info m) /\ authentic (v1_tb s') BL33_IMAGE_ID (bl33_image_info m).
Proof. apply bl2_main_run. Qed.
(** ** From BL2 to BL33

    BL31 runs with what BL2 handed over: the parameters in memory, and the
    second argument of the entry point in x1. *)
Section chain.
Context `{!CmCfg} (sr : sysregs) (drv : comphy_driver) (wa1 wa2 dyn2 : bool) (check_wa disable_ptr : Z).
#[local] Instance chain_cfg : PlatCfg := a3700_cfg CM_ASSERTIONS.
#[local] Instance chain_env : PlatEnv a3700_hw := a3700_env sr.
Context `{!Bl31Env a3700_hw} (Hhooks : hooks_return).

End chain.
End v1.

(** ** Load address 0

    The platform lets the I/O drivers copy to address 0, where it wants BL33
    (PLAT_ALLOW_ZERO_ADDR_COPY); the authentication module asserts that the
    address of an image is not NULL. *)
Section zero.
Context {P : Type} `{!TbEnv P} `{!V1Env P}.
Context (Hassert : TB_ASSERTIONS = true) (Ht : TRUSTED_BOARD_BOOT = true).

Lemma verify_at_zero id n (s : tb_state P) rc s' : auth_mod_verify_img id 0 n s <> Ret rc s'.
Proof.
  intros Hr. unfold auth_mod_verify_img in Hr. apply bind_ret_inv in Hr as (d & s1 & _ & Hr). unfold return_if_error in Hr.
  apply bind_ret_inv in Hr as (a & s2 & Hc & _). unfold img_parser_check_integrity in Hc. apply bind_ret_inv in Hc as (u & s3 & Ha & _).
  unfold tb_assert in Ha. by rewrite Hassert in Ha.
Qed.

Lemma load_image_at_zero id o (s : tb_state P) rc o' s' : image_base (lo_info o) = 0 -> load_image_v1 id 0 o s = Ret (rc, o') s' -> image_base (lo_info o') = 0.
Proof.
  intros Ho Hr. unfold load_image_v1, with_image in Hr. inv_run Hr. destruct a as [[rc0 dev] spec].
  destruct (negb (rc0 =? 0)); [by injection Hr as _ <- _|]. inv_run Hr.
  destruct (negb (a.1 =? 0)); [by injection Hr as _ <- _|]. inv_run Hr. inv_run Hr. inv_run Hr. inv_run Hr.
  injection Hr as -> _. destruct (negb (a0.1 =? 0) || (u64 a0.2 =? 0)); [by injection Hr3 as _ <- _|].
  destruct (negb (is_mem_free _ _ _ _)); [by injection Hr3 as _ <- _|]. apply bind_ret_inv in Hr3 as (rd & t1 & _ & Hk).
  destruct (negb (rd.1 =? 0) || (rd.2 <? u64 a0.2)); [by injection Hk as _ <- _|].
  apply bind_ret_inv in Hk as (o1 & t2 & Ho1 & Hk). apply bind_ret_inv in Hk as (u & t3 & _ & Hk). injection Hk as _ <- _.
  destruct (lo_pc o); [|by injection Ho1 as <- _]. apply bind_ret_inv in Ho1 as (f & t4 & Hf & Ho1). by injection Ho1 as <- _.
Qed.

Lemma load_then_auth_at_zero id o q (s : tb_state P) rc o' s' : image_base (lo_info o) = 0 -> load_then_auth_v1 id 0 o q s = Ret (rc, o') s' ->
  rc <> 0 /\ image_base (lo_info o') = 0.
Proof.
  intros Ho Hr. unfold load_then_auth_v1 in Hr. apply bind_ret_inv in Hr as ([rc0 o1] & s1 & Hl & Hr). apply load_image_at_zero in Hl; [|done].
  cbn [fst snd] in Hr. destruct (Z.eqb_spec rc0 0); cbn [negb] in Hr; [|by injection Hr as <- <- _].
  apply bind_ret_inv in Hr as (rc1 & s2 & Ha & _). unfold auth_loaded in Ha. rewrite Ht, Hl in Ha.
  apply bind_ret_inv in Ha as (rc2 & s3 & Hv & _). by apply verify_at_zero in Hv.
Qed.

Lemma load_internal_at_zero fuel id o q (s : tb_state P) rc o' s' : image_base (lo_info o) = 0 ->
  load_auth_image_internal_v1 fuel id 0 o q s = Ret (rc, o') s' -> rc <> 0 /\ image_base (lo_info o') = 0.
Proof.
  revert id o q s rc o' s'. induction fuel as [|fuel IH]; intros id o q s rc o' s' Ho Hr; [done|]. cbn in Hr. rewrite Ht in Hr.
  apply bind_ret_inv in Hr as (a & s1 & _ & Hr). destruct (a.1 =? 0); [|by eapply load_then_auth_at_zero].
  apply bind_ret_inv in Hr as ([rc0 o1] & s2 & Hi & Hr). apply IH in Hi as [Hne Ho1]; [|done]. cbn [fst snd] in Hr.
  rewrite (proj2 (Z.eqb_neq _ _) Hne) in Hr. by injection Hr as <- <- _.
Qed.

Lemma load_auth_at_zero tries fuel id o (s : tb_state P) rc o' s' : image_base (lo_info o) = 0 ->
  load_auth_image_v1 tries fuel id 0 o s = Ret (rc, o') s' -> rc <> 0.
Proof.
  revert o s. induction tries as [|tries IH]; intros o s Ho Hr; [done|]. cbn in Hr. apply bind_ret_inv in Hr as ([rc0 o1] & s1 & Hi & Hr).
  apply load_internal_at_zero in Hi as [Hne Ho1]; [|done]. cbn [fst snd] in Hr. rewrite (proj2 (Z.eqb_neq _ _) Hne) in Hr.
  apply bind_ret_inv in Hr as (again & s2 & _ & Hr). destruct (truthy again); [by eapply IH|]. by injection Hr as <- _ _.
Qed.

Lemma load_bl31_keeps tries fuel s e s' : load_bl31 tries fuel s = Ret e s' -> bl33_image_info (bl31_params_mem s') = bl33_image_info (bl31_params_mem s).
Proof.
  intros Hr. unfold load_bl31 in Hr. erewrite bind_run in Hr by done. apply bind_ret_inv in Hr as (u & s1 & Hu & Hr). injection Hu as <- <-.
  erewrite bind_run in Hr by done. apply bind_ret_inv in Hr as (r & s2 & (t & _ & ->)%in_tb1_ret & Hr).
  apply bind_ret_inv in Hr as (u1 & s3 & H3 & Hr). injection H3 as <- <-. apply bind_ret_inv in Hr as (u2 & s4 & H4 & Hr). injection H4 as <- <-.
  apply bind_ret_inv in Hr as (u3 & s5 & H5 & Hr). injection Hr as _ <-. unfold when in H5. by destruct (_ =? 0); injection H5 as _ <-.
Qed.
Lemma load_bl32_keeps tries fuel s e s' : load_bl32 tries fuel s = Ret e s' -> bl33_image_info (bl31_params_mem s') = bl33_image_info (bl31_params_mem s).
Proof.
  intros Hr. unfold load_bl32 in Hr. destruct BL32_BASE; [|by injection Hr as _ <-]. erewrite bind_run in Hr by done.
  apply bind_ret_inv in Hr as (u0 & s0 & [_ ->]%deref_run & Hr). apply bind_ret_inv in Hr as (r & s2 & (t & _ & ->)%in_tb1_ret & Hr).
  apply bind_ret_inv in Hr as (u2 & s4 & H4 & Hr). injection H4 as <- <-. apply bind_ret_inv in Hr as (u3 & s5 & H5 & Hr). injection Hr as _ <-.
  unfold when in H5. by destruct (_ =? 0); injection H5 as _ <-.
Qed.

(** [C38] A board that wants BL33 at address 0, as this one, cannot boot with
    trusted board boot and assertions.  Whatever the images and certificates
    in storage are, BL2's main function does not come to the call that runs
    BL31: the first certificate of BL33 is loaded at address 0, and the
    authentication module asserts that an image is not there. *)
Theorem bl33_at_zero_never_boots tries fuel s s' :
  PLAT_MARVELL_NS_IMAGE_OFFSET = 0 -> EL3_PAYLOAD_BASE = None -> PRELOADED_BL33_BASE = None -> bl2_main tries fuel s <> Ret tt s'.
Proof.
  intros Hns Hpay Hpre Hr. unfold bl2_main in Hr. do 3 (apply bind_ret_inv in Hr as (? & ? & _ & Hr)). apply bind_ret_inv in Hr as (u4 & s4 & H4 & _).
  unfold bl2_load_images in H4. rewrite Hpay in H4. do 2 (apply bind_ret_inv in H4 as (? & ? & _ & H4)). apply bind_ret_inv in H4 as (? & s5 & _ & H4).
  apply bind_ret_inv in H4 as (u & s6 & H6 & H4). apply bind_ret_inv in H4 as (u7 & s7 & H7 & H4). apply bind_ret_inv in H4 as (u8 & s8 & H8 & _).
  assert (H0 : bl33_image_info (bl31_params_mem s7) = zero_info).
  { injection H6 as _ <-. unfold bl2_plat_get_bl31_ep_info, when in H7. by destruct V1_DEBUG; injection H7 as _ <-. }
  unfold load_bl3x in H8. rewrite Hpre in H8. apply bind_ret_inv in H8 as (e31 & s9 & H31 & H8). apply load_bl31_keeps in H31.
  apply bind_ret_inv in H8 as (? & s10 & H10 & H8). assert (s10 = s9) as -> by (destruct (truthy e31); [done|by injection H10]).
  apply bind_ret_inv in H8 as (e32 & s11 & H32 & H8). apply load_bl32_keeps in H32.
  apply bind_ret_inv in H8 as (? & s12 & H12 & H8). assert (s12 = s11) as -> by (destruct (_ && _); [done|by injection H12]).
  apply bind_ret_inv in H8 as (e33 & s13 & H33 & H8). unfold load_bl33 in H33. erewrite bind_run in H33 by done.
  apply bind_ret_inv in H33 as ([rc o'] & s14 & (t & Hl & ->)%in_tb1_ret & H33). unfold plat_get_ns_image_entrypoint in Hl. rewrite Hns in Hl.
  apply load_auth_at_zero in Hl; [|cbn; by rewrite H32, H31, H0]. do 2 (apply bind_ret_inv in H33 as (? & ? & _ & H33)). injection H33 as <- _.
  unfold truthy in H8. cbn [fst] in H8. by rewrite (proj2 (Z.eqb_neq _ _) Hl) in H8.
Qed.
End zero.

(** ** The Armada 3700 board *)
Module Bl2V1Example.
Import TbbExample.

(** The addresses of platform_def.h and marvell_def.h; BL2's buffers are in its
    own memory below BL31. *)
#[local] Instance bl2_bufs : CotBufs := fun b => 0x4018000 + 512 * buf_index b.
(** BL31 and BL33 with their certificates, no BL32. *)
Definition content (id : Z) : list Z :=
  if id =? TRUSTED_KEY_CERT_ID then cert 1 0 3 7
  else if id =? SOC_FW_KEY_CERT_ID then cert 2 0 3 1
  else if id =? SOC_FW_CONTENT_CERT_ID then cert 0 9 3 2
  else if id =? NON_TRUSTED_FW_KEY_CERT_ID then cert 4 0 3 1
  else if id =? NON_TRUSTED_FW_CONTENT_CERT_ID then cert 0 5 3 4
  else if id =? BL31_IMAGE_ID then [9; 8; 7]
  else if id =? BL33_IMAGE_ID then [5; 5; 6; 7] else [].
Definition len (id : Z) : Z := Z.of_nat (length (content id)).
(** Storage that reports an error for a missing file and for a short read. *)
Definition board_env (assertions : bool) : TbEnv Z := let e0 := env assertions true false content 0 in {|
  TB_ASSERTIONS := assertions; TRUSTED_BOARD_BOOT := true; LOAD_IMAGE_V2 := false;
  FWU_MAX_SIMULTANEOUS_IMAGES := 10; cot_desc_ptr := cot_desc; parser_lib_descs := [cert_parser];
  crypto_verify_signature := @crypto_verify_signature _ e0; crypto_verify_hash := @crypto_verify_hash _ e0;
  plat_get_rotpk_info := @plat_get_rotpk_info _ e0; plat_get_nv_ctr := @plat_get_nv_ctr _ e0; plat_set_nv_ctr := @plat_set_nv_ctr _ e0;
  bl1_plat_mem_check := @bl1_plat_mem_check _ e0; bl1_plat_handle_pre_image_load := @bl1_plat_handle_pre_image_load _ e0;
  bl1_plat_handle_post_image_load := @bl1_plat_handle_post_image_load _ e0; bl1_plat_set_ep_info := @bl1_plat_set_ep_info _ e0;
  EL2_IMPLEMENTED := true; bl1_plat_sec_mem_layout := @bl1_plat_sec_mem_layout _ e0;
  plat_get_image_source := @plat_get_image_source _ e0; io_open := @io_open _ e0;
  io_size := fun h => ret (if len h =? 0 then (-5, 0) else (0, len h));
  io_read := fun h _ n => ret (if n <=? len h then (0, take (Z.to_nat n) (content h)) else (-5, []));
  io_close := @io_close _ e0; io_dev_close := @io_dev_close _ e0; plat_try_next_boot_source := ret 0 |}.
(** A release build. *)
#[local] Instance e : TbEnv Z := board_env false.
#[local] Instance v : V1Env Z := {|
  V1_DEBUG := false; SCP_BL2_BASE := None; BL31_BASE := 0x4023000; BL32_BASE := Some 0x4400000; EL3_PAYLOAD_BASE := None; PRELOADED_BL33_BASE := None;
  PLAT_MARVELL_NS_IMAGE_OFFSET := 0; TRUSTED_DRAM_BASE := 0x4400000; TRUSTED_DRAM_SIZE := 0x1000000; MARVELL_DRAM_BASE := 0; MARVELL_DRAM_SIZE := 0x20000000;
  bl31_params_addr := 0x401a000; v1_read_mpidr := 0x80000000; v1_read_id_aa64pfr0_el1 := 0x2222; uninit_image_info := zero_info;
  v1_arch_setup := ret tt; v1_preload_setup := ret tt; plat_marvell_io_setup := ret tt; bl2_plat_handle_scp_bl2 := fun _ => ret 0 |}.

Definition layout : meminfo_t := MemInfo 0x4001000 0x7f000 0x4023000 0x57000.
Definition start : v1_state Z :=
  V1State (boot_state (mem_with 0 []) []) layout (ParamsMem (Bl31Params 0 0 false false false false false) zero_info zero_info zero_info zero_ep zero_ep zero_ep) [].

Lemma content_short id : len id <= 32.
Proof. unfold len, content. repeat (destruct (_ =? _); [by vm_compute|]). by vm_compute. Qed.
Lemma storage : storage_ok.
Proof.
  split.
  - intros h a n p r p' Hn [= <- <-]. destruct (Z.leb_spec n (len h)); cbn; [rewrite length_take|]; lia.
  - intros h a n p r p' Hn [= <- <-]. destruct (Z.leb_spec n (len h)) as [Hl|]; cbn; [|lia]. intros _. unfold len in Hl. rewrite length_take. lia.
  - intros h p r p' [= <- <-]. pose proof (content_short h). assert (0 <= len h) by (unfold len; lia). destruct (Z.eqb_spec (len h) 0); cbn; [lia|]. rewrite u64_small; lia.
Qed.
(** FIP files are at most 64 MB. *)
Lemma board : board_map layout 0x4400000 0x4000000.
Proof.
  assert (Hbuf : forall x, param_region x -> 0x4018000 <= x < 0x4019800).
  { intros x (d & en & Hd & He & [td Ht'] & Hin). destruct (buffers_fit d en td Hd He Ht') as (b & Hp & Hl). rewrite Hp, Hl in Hin.
    assert (0x4018000 <= buf_addr b /\ buf_addr b + buf_size b <= 0x4019800) by (destruct b; split; vm_compute; discriminate). lia. }
  assert (H32 : bl2_plat_get_bl32_meminfo 0x4400000 = MemInfo 0x4400000 0x1000000 0x4400000 0x1000000) by reflexivity.
  split; try reflexivity; try (split; [discriminate|reflexivity]).
  - split; (split; [discriminate|reflexivity]).
  - intros n (h & p & r & p' & [= <- <-] & ->). pose proof (content_short h). assert (0 <= len h) by (unfold len; lia).
    destruct (len h =? 0); cbn; [by vm_compute|]. rewrite u64_small; lia.
  - intros x Hx Hp%Hbuf. unfold W31, W32, W33, in_free in Hx. rewrite H32 in Hx. cbn in Hx. lia.
  - intros x. unfold W31, W32, W33, in_free. rewrite H32. cbn. lia.
Qed.

(** The memory that is free for BL33 is all of the DRAM, BL2, BL31 and the
    package included: only the sizes of the files keep it from them. *)
Lemma bl33_room_covers_bl31 n : 0 < n <= 0x20000000 ->
  is_mem_free (free_base bl2_plat_get_bl33_meminfo) (free_size bl2_plat_get_bl33_meminfo) PLAT_MARVELL_NS_IMAGE_OFFSET n = true.
Proof. intros Hn. apply is_mem_free_spec; cbn; [lia..|]. right. lia. Qed.

Lemma bl2_v1_hands_over_witness :
  returned (bl2_main 1 5 start) = Some tt /\ handed_over (bl31_params_mem (final (bl2_main 1 5 start))) /\
  authentic (v1_tb (final (bl2_main 1 5 start))) BL33_IMAGE_ID (ImageInfo 0 4 0).
Proof.
  assert (Hr : returned (bl2_main 1 5 start) = Some tt) by (vm_compute; reflexivity).
  destruct (bl2_v1_hands_over (TbEnv0 := e) (V1Env0 := v) (bufs := bl2_bufs) eq_refl eq_refl (spaced_apart 0x4018000) storage layout 0x4400000 0x4000000 board 1 5 start (final (bl2_main 1 5 start)) eq_refl (returned_final _ _ Hr))
    as (_ & Hh & _ & _ & _ & Ha).
  split; [exact Hr|split; [exact Hh|]].
  assert (Hi : bl33_image_info (bl31_params_mem (final (bl2_main 1 5 start))) = ImageInfo 0 4 0) by (vm_compute; reflexivity).
  rewrite Hi in Ha. exact Ha.
Defined.

#[local] Existing Instance Bl31Example.hooks.
#[local] Instance plat_cfg : PlatCfg := a3700_cfg false.
#[local] Instance plat_env : PlatEnv a3700_hw := a3700_env Board.regs0.


(** A debug build with the same images. *)
Lemma bl33_at_zero_never_boots_witness :
  bl2_main (TbEnv0 := board_env true) 1 5 start <> Ret tt start /\
  match bl2_main (TbEnv0 := board_env true) 1 5 start with Halt HAssert _ => True | _ => False end.
Proof.
  split; [|vm_compute; exact I].
  exact (bl33_at_zero_never_boots (TbEnv0 := board_env true) (V1Env0 := v) eq_refl eq_refl 1 5 start start eq_refl eq_refl eq_refl).
Defined.
End Bl2V1Example.
